(* ===== verification/_CoqProject ===== *)
-Q . S2P
Prelude.v
CFloat.v
Chain.v
Bitfield.v
IpaTable.v
IpaTableRep.v
Dma.v
TableDma.v
TableSetup.v
TableWalk.v
RuleTable.v
Os.v
NatUtils.v
MemDescriptor.v
MemProps.v
Ipv6ct.v
Ipv6ctLaws.v
Ipv6ctProps.v
Ipv6ctApi.v
NatMap.v
NatRule.v
NatRuleLaws.v
NatDrvi.v
NatStatemach.v
NatDrv.v
NatSmLaws.v
NatSmStates.v
NatSmStatus.v
SimOs.v
NatTables.v
NatDrviProps.v
NatDrviDel.v
NatCreate.v
NatApi.v
NatTblApi.v
NatRefine.v
NatPdn.v
NatSmDdr.v
NatHandles.v
NatMigrate.v
NatHybrid.v
NatHybridOps.v
NatHybridRefine.v
NatHybridNew.v
Demo.v
NatProps.v
NatTblProps.v
NatPdnProps.v
SmProps.v
SmHybrid.v
HybridProps.v
CtProps.v
TableProps.v
StWp.v
KernHal.v
KernCmd.v
KernNat.v
KernIoctl.v
KernHalLaws.v
KernInv.v
KernSafe.v
KernOs.v
KernWork.v
KernSim.v
KernEntries.v
KernStack.v
KernProps.v
StackProps.v
Act.v
PmState.v
PmClk.v
IpaPm.v
PmRules.v
PmInv.v
PmSeq.v
PmWork.v
PmCalls.v
PmReg.v
PmHist.v
PmProps.v
