(* ===== verification/Prelude.v ===== *)
(** * Verification of the IPA NAT stack and of the IPA power manager

    Qualcomm's IP accelerator (IPA) translates addresses, tracks connections and moves
    packets between its clients.  Three parts of its software are modelled, all under
    [src/dataipa], from their C sources (and one small C++ file):

    - the user-space library [ipanat], which keeps the NAT and IPv6CT tables in memory
      shared with the hardware, changes records itself where the hardware does not look
      yet, and posts DMA commands for the fields the hardware may be reading;
    - the kernel's NAT driver, [ipa_nat.c] in [drivers/platform/msm/ipa/ipa_v3], which
      gives out the memory, tells the hardware where the tables are, and checks and
      carries out the library's DMA commands;
    - the power manager of the driver, [ipa_pm.c], with the counter of active clients of
      [ipa.c], which turn the clocks on and off and set their rate.

    The first two are the ends of the same ioctls and are also composed.

    ** The library and the files that model it

    - the generic table, [ipa_table.c]: a base area and an expansion area of records,
      one doubly linked chain per hash bucket.  [IpaTable] is the translation of every
      function; the record type is a parameter with the code's table of function
      pointers as the class [EntryOps].  [Chain] is the abstract structure (a map from
      base slots to chains), [IpaTableRep] the invariant [table_ok] and the result of every
      operation, [TableSetup] sizes and clearing, [TableWalk] the walk as a fold.
    - the DMA commands: [Dma] states what the hardware does with a posted command
      (a 16-bit write at an offset of a record), [TableDma] joins the library's half and
      the hardware's half of an insertion or deletion; [Bitfield] gives the byte layout of
      C bit-fields, so that the offsets in the commands are checked against the
      structures.
    - tables of rules, [RuleTable]: the head of a chain that has a tail is deleted by
      writing the protocol 0xFF into it; [live_at] is the table without such records.
    - NAT: [NatRule] has the two record types, their callbacks, checksums and hashes,
      [NatDrvi] the driver [ipa_nat_drvi.c] (static data: the record [nat_globals]).
      [NatRuleLaws], [NatTables], [NatDrviProps], [NatDrviDel], [NatCreate], [NatApi],
      [NatTblApi] and [NatPdn] carry the proofs from the records up to the functions of
      the interface, [NatRefine] the refinement of an abstract map.
    - IPv6 connection tracking, [ipa_ipv6ct.c]: [Ipv6ct] (static data: [ipa_ipv6ct]),
      with [Ipv6ctLaws], [Ipv6ctProps] and [Ipv6ctApi].
    - the state machine that keeps a NAT table in DDR, in SRAM or in both,
      [ipa_nat_statemach.c]: [NatStatemach].  Its state [smach] is [nati_obj], the handle
      maps of [ipa_nat_map.cpp] ([NatMap]) and what the caller's pointers point to; the
      table of callbacks is [_state_mach_tbl], which callbacks enter again through the
      parameter [sm].  [NatSmLaws], [NatSmStates], [NatSmStatus] and [NatSmDdr] are its
      theory; of the two hybrid states, [NatHandles] (the handle maps), [NatMigrate]
      (copying the rules), [NatHybrid] (the switch), [NatHybridOps] (the client's
      operations), [NatHybridNew] (creation) and [NatHybridRefine] (the refinement).
    - the client interface, [ipa_nat_drv.c]: [NatDrv].
    - memory, device and time: [MemDescriptor] ([ipa_mem_descriptor.c], with [MemProps]),
      [NatUtils] ([ipa_nat_utils.c]), [Os] (system calls and ioctls), [CFloat] (float and
      double as the table sizes use them).

    The driver and IPv6CT both sit on the generic table; the state machine sits on the
    driver; the client interface on both.  A function is a computation [St] on the
    static data and the system state [K] with a result in [res]: a normal return, an
    undefined access, or a loop that does not end.  Machine integers are [Z], wrapped
    where the code stores them ([u8], [u16], [u32]).  Pointers to records stay addresses,
    so that a wrong one is an undefined access; pointers to caches and tables are indices.

    ** The kernel driver

    [KernHal] is the hardware layer ([ipahal_nat.c] and the tables per hardware version),
    [KernCmd] the immediate commands of [ipahal.c] that the driver sends, [KernNat] the
    driver [ipa_nat.c] (static data: [kctx]), [KernIoctl] its ioctls in [ipa.c] and the
    calls a client can make.  [KernHalLaws] says what the tables of the hardware layer hold,
    [KernInv] and [KernSafe] prove the invariant [kern_ok] of every call, [KernWork] what
    the calls do when their surroundings work, with recovery from any state, [KernEntries]
    that both ends read records alike.  [StWp] has the weakest preconditions the proofs use.
    [KernOs] makes the kernel driver an instance of the library's interface to the
    system; [KernStack] has the relation [stacked] between a table of the library and
    what the kernel driver was told of it.

    ** The power manager

    Its calls run concurrently.  [Act] has threads: sequences of atomic sections, which
    hold a lock or are one operation on shared data, with waits between them; a thread can
    be run to its end ([run]) or interleaved with others by a schedule ([pool_run]).
    [PmState] is the data, with clients as objects of a heap, since arrays, work queue and
    threads share them; [PmClk] the counter of active clients, each operation step by step,
    since its atomic changes are made beside its mutex; [IpaPm] the functions of
    [ipa_pm.c], its work queue and its timers.  [PmSeq] runs calls one after the other: a
    call that waits lets the worker take items from the queue, and one that nothing can
    wake does not end.  [PmRules] has the rules with which code is run, and those for
    threads that share the counter: [twp] says what a thread does with its share of it (the
    votes it holds, the mutex, the right to queue a work) whatever the others do with
    theirs, and code that runs alone is a special case.
    [PmInv] has the sum of the throughputs, the invariant [pm_ok], the change of one client
    and clock scaling, [PmWork] the items of the queue and waiting for them, [PmCalls] and
    [PmReg] the calls, [PmHist] every sequence of events, what a call starts and the
    queue ends, threads that are left on their way ([tgoes], [pgoes]), and any number of
    threads that take votes and give them back.

    ** What is assumed

    - The header [linux/msm_ipa.h] is not in the repository: its constants are the class
      [IpaUapi].
    - Of the system under the library, [OsOps], [NatOs] and [CtOs] are the operations and
      [OsLaws], [NatOsLaws], [CtOsLaws] the laws: a successful DMA ioctl has the effect of
      [Dma.dma_run] and a failed one none, a mapping has the size asked for.  Some
      theorems on the hybrid states also assume that the kernel accepts the change of the
      memory in focus ([focus_works]) and that it reports an SRAM for which the search of
      sizes ends ([sram_bounded]).  [SimOs] is a concrete system that satisfies all of it
      ([steady_nat_os] one that accepts every vote and init command); [Demo] builds tables
      on it with the code itself, for the witnesses.
    - Of the kernel under its driver, [KernelOps] are the operations, [KernConf] and
      [IpaHw] the configuration, [KernLaws] the laws every safety theorem needs (the
      layout of the structures, the offsets of the device), [KernWorks] and [KernSends] that
      memory can be had and commands succeed.  [KernSim] is an instance of all of them.
    - Of the system under the power manager, [PmOps] are the operations, [PmConf] the
      configuration, and [PmWorks] the laws: no interrupt of the transport is pending when
      the clocks are turned off, wake sources can be had, endpoints are within the
      arrays.  A client's function does not call the manager back.  Throughputs are at
      most 2^26, so that the sum of 35 of them is an [int].  [PmProps] has an instance.

    ** What the theorems show

    - [NatProps], [NatTblProps]: the NAT table refines a map from handles to rules
      ([nat_table_refines_map]); the single operations, on success and on every refusal,
      keep the invariant that ties the NAT table to its index table; creation, deletion and
      clearing of tables; the contents of a record; checksums, layouts.
    - [NatPdnProps]: the table of public addresses.
    - [SmProps]: the states the machine can reach and the transitions between them, the
      depth of its calls of itself, its return value, and the whole client interface
      with a table in DDR.
    - [HybridProps]: the two hybrid states refine the same map, across switches between
      SRAM and DDR ([hybrid_refines_map]); creation, switch, addition and deletion, with
      what is lost when something is refused.  [SmHybrid]: three concrete runs after which
      the client's handles no longer lead to its rules.
    - [CtProps]: the IPv6CT table, its creation and deletion.
    - [TableProps]: handles, sizes, the SRAM search and the walk.
    - [KernProps]: every sequence of calls of a client, with any arguments, is defined and
      keeps the driver's invariant ([kern_safe]); which DMA commands are accepted and what
      is sent to the hardware; init commands, deletion, public addresses; recovery from
      every state; agreement with the library on the records.
    - [StackProps]: with the library on top of the kernel driver, rules are added and
      deleted as the library's theorems say and no check of the kernel refuses them.
    - [PmProps]: with calls one after the other, every call of [pm_call] is defined and ends
      ([pm_event_ends]; two of them only once the clocks have been scaled, since they read
      through [current_threshold], and are shown undefined before) and the clocks are on
      exactly while somebody holds a vote; activations and deactivations come to their end;
      registration and its inverse; exceptions; the sum of the throughputs.  With sections
      of threads in any order: votes stay balanced, the clocks are on while one is held and
      no thread is stuck for ever.  And for every client in any such state, schedules of two
      concurrent calls on it in which its state or its completion is lost
      ([pm_state_race], [pm_completion_race]).

    Some theorems are about behaviour the authors cannot have meant:
    [nat_del_refused_breaks], [pdn_index_oob], [sm_status_masked], [sm_switch_after_start],
    [hybrid_handle_collision], [hybrid_readd_forgets], [hybrid_failed_focus],
    [ct_before_table], [kern_dma_unchecked], [kern_alloc_gaps], [ddr_needs_size],
    [pm_exception_passes], [pm_state_race], [pm_completion_race], [pm_tag_race], and parts of
    [table_entry_counts], [sram_entries] and [nat_rule_record].

    ** Fuel

    Loops that are not structural have fuel, and running out of it is [Diverge].  The
    walks have one unit per slot and the chain loops one more than the slots, enough on
    tables that satisfy the invariant; [Get2Power_loop] has 16, one for each bit; the
    SRAM search has 65536, after which its 16-bit counter repeats; the state machine has
    [STATEMACH_DEPTH] nested entries, enough by [sm_depth]; the sum of the throughputs has
    one unit for each, enough by [pm_aggregate]; a call that waits has one for each item in
    the queue, enough by [pm_event_ends].  Threads have no fuel: a thread is finite, and
    [pm_votes_interleave] bounds every schedule.

    ** Not modelled

    Functions that only print or copy out statistics ([ipa_nat_dump_ipv4_table],
    [ipa_ipv6ct_dump_table], [ipa_nat_map_dump], [ipa_read_debug_info], [log_nat_message],
    the [*_4print] and [*_as_str] functions, [ipa_pm_stat], [ipa_pm_exceptions_stat],
    [ipa_get_pm_client_stats_filled], [ipa_pm_get_current_clk_vote]); log messages, except where their arguments read out
    of bounds or freed memory; the durations and statistics of a switch, which are only
    printed.  In the library and in the NAT driver calls are atomic: the library's mutexes
    are system calls that can fail, the kernel's locks, the page protection of a mapping and
    the clock vote around an ioctl are left out.  The sequences of [PmHist] are those of a
    manager that has been initialised and is not destroyed: [ipa_pm_init] and
    [ipa_pm_destroy] are modelled but are not among their events; all other calls are.  Its
    threads of [pm_votes_interleave] use the counter, not clients, for which such a theorem
    fails ([pm_state_race]).  [PmClk] has the wait of a delayed
    work end at any time, and the clock plan as one section.  The rest of the IPA driver (data path, filtering,
    routing, headers, micro-controller) and of the repository, a collection of independent
    kernel drivers, HALs and build files, is not modelled. *)

From Stdlib Require Import ZArith Lia.
From stdpp Require Import prelude list numbers.

#[export] Set Default Goal Selector "!".

(** ** Outcomes of a C function

    [Ok] is a normal return, [UB] an access the C standard does not define
    (NULL or out-of-bounds dereference), [Diverge] a loop that does not end. *)
Inductive res (A : Type) : Type :=
  | Ok (a : A)
  | UB
  | Diverge.
Arguments Ok {A} _.
Arguments UB {A}.
Arguments Diverge {A}.

#[global] Instance res_ret : MRet res := fun A a => Ok a.
#[global] Instance res_bind : MBind res := fun A B f m =>
  match m with
  | Ok a => f a
  | UB => UB
  | Diverge => Diverge
  end.

(** Reading through an option: [None] is a dereference outside the object. *)
Definition deref {A} (o : option A) : res A :=
  match o with Some a => Ok a | None => UB end.

Definition is_ok {A} (r : res A) : bool :=
  match r with Ok _ => true | _ => false end.

(** ** State passing

    [St S A] is a computation on a state [S] that may be undefined or not end. *)
Definition St (S A : Type) : Type := S -> res (A * S).
#[global] Instance st_ret S : MRet (St S) := fun A a s => Ok (a, s).
#[global] Instance st_bind S : MBind (St S) := fun A B f m s =>
  match m s with
  | Ok (a, s') => f a s'
  | UB => UB
  | Diverge => Diverge
  end.

Definition st_get {S} : St S S := fun s => Ok (s, s).
Definition st_put {S} (s : S) : St S unit := fun _ => Ok (tt, s).
Definition st_modify {S} (f : S -> S) : St S unit := fun s => Ok (tt, f s).
Definition st_lift {S A} (r : res A) : St S A := fun s => a ← r; Ok (a, s).

(** ** Running computations: one rewrite with [bind_ok] per step *)
Lemma bind_ok {S A B} (m : St S A) (f : A -> St S B) s a s' :
  m s = Ok (a, s') -> (m ≫= f) s = f a s'.
Proof. intros H. unfold mbind, st_bind. by rewrite H. Qed.

Lemma bind_inv {S A B} (m : St S A) (f : A -> St S B) s r :
  (m ≫= f) s = Ok r -> exists a s', m s = Ok (a, s') /\ f a s' = Ok r.
Proof. unfold mbind, st_bind. destruct (m s) as [[a s']| |]; naive_solver. Qed.

Lemma bind_ext {S A B} (m : St S A) (f g : A -> St S B) s :
  (forall a s', m s = Ok (a, s') -> f a s' = g a s') -> (m ≫= f) s = (m ≫= g) s.
Proof. intros H. unfold mbind, st_bind. destruct (m s) as [[a s']| |]; auto. Qed.

Lemma bind_cong {S A B} (m1 m2 : St S A) (f g : A -> St S B) s :
  m1 s = m2 s -> (forall a s', m1 s = Ok (a, s') -> f a s' = g a s') -> (m1 ≫= f) s = (m2 ≫= g) s.
Proof. intros Hm H. unfold mbind, st_bind in *. rewrite <- Hm. destruct (m1 s) as [[a s']| |]; auto. Qed.

Lemma lift_run {S A} (r : res A) (a : A) (s : S) : r = Ok a -> st_lift r s = Ok (a, s).
Proof. by intros ->. Qed.

(** ** Machine integers *)
Declare Scope cint_scope.
Delimit Scope cint_scope with cint.

Definition wrap (w z : Z) : Z := (z mod 2 ^ w)%Z.
Abbreviation u8 := (wrap 8).
Abbreviation u16 := (wrap 16).
Abbreviation u32 := (wrap 32).
Abbreviation u64 := (wrap 64).

(** [b2z] is C's value of a comparison. *)
Definition b2z (b : bool) : Z := if b then 1%Z else 0%Z.

(** Signed 32-bit addition: overflow is undefined. *)
Definition int_add (a b : Z) : res Z :=
  if ((- 2 ^ 31 <=? a + b) && (a + b <? 2 ^ 31))%Z then Ok (a + b)%Z else UB.

(** errno values returned by the library. *)
Definition EPERM : Z := 1.
Definition EIO : Z := 5.
Definition ENOMEM : Z := 12.
Definition EINVAL : Z := 22.

(** ** Shared tactics *)
Create HintDb cint.
Create Rewrite HintDb cintr.

(** Case analysis of the first match of the goal or of a hypothesis. *)
Ltac case_one :=
  match goal with
  | |- context [if ?b then _ else _] => destruct b eqn:?
  | |- context [match ?x with _ => _ end] => destruct x eqn:?
  end.

(** Inversion of a successful monadic computation. *)
Ltac ok_inv H :=
  let go x := destruct x eqn:?; cbn in H; try discriminate H in
  cbn [mbind res_bind mret res_ret] in H;
  match type of H with
  | context [match ?x with Ok _ => _ | UB => _ | Diverge => _ end] => go x
  end.

Ltac zify_bool :=
  repeat match goal with
  | H : (_ <? _)%Z = true |- _ => apply Z.ltb_lt in H
  | H : (_ <? _)%Z = false |- _ => apply Z.ltb_ge in H
  | H : (_ <=? _)%Z = true |- _ => apply Z.leb_le in H
  | H : (_ <=? _)%Z = false |- _ => apply Z.leb_gt in H
  | H : (_ =? _)%Z = true |- _ => apply Z.eqb_eq in H
  | H : (_ =? _)%Z = false |- _ => apply Z.eqb_neq in H
  | H : (_ && _) = true |- _ => apply andb_true_iff in H; destruct H
  | H : (_ || _) = false |- _ => apply orb_false_iff in H; destruct H
  | H : negb _ = true |- _ => apply negb_true_iff in H
  | H : negb _ = false |- _ => apply negb_false_iff in H
  end.

(** ** Lemmas on machine integers *)
Section wrap_lemmas.
Local Open Scope Z_scope.

Lemma wrap_small w z : 0 <= z < 2 ^ w -> wrap w z = z.
Proof. intros. by apply Z.mod_small. Qed.

Lemma wrap_range w z : 0 <= w -> 0 <= wrap w z < 2 ^ w.
Proof. intros. apply Z.mod_pos_bound. by apply Z.pow_pos_nonneg. Qed.

Lemma wrap_wrap w z : 0 <= w -> wrap w (wrap w z) = wrap w z.
Proof. intros. apply wrap_small. by apply wrap_range. Qed.

Lemma land_ones_wrap w z : 0 <= w -> Z.land z (Z.ones w) = wrap w z.
Proof. intros. by apply Z.land_ones. Qed.
End wrap_lemmas.

#[export] Hint Resolve wrap_range : cint.
#[export] Hint Rewrite @wrap_wrap using lia : cintr.

(** ** Lists indexed by C integers *)
Definition zget {A} (l : list A) (i : Z) : option A :=
  if (0 <=? i)%Z then l !! Z.to_nat i else None.

Definition zset {A} (l : list A) (i : Z) (x : A) : list A :=
  if (0 <=? i)%Z then <[Z.to_nat i := x]> l else l.

Section zlist.
Local Open Scope Z_scope.
Context {A : Type}.
Implicit Types (l : list A) (x : A).

Lemma zget_Some_lt l i x : zget l i = Some x -> 0 <= i < Z.of_nat (length l).
Proof.
  unfold zget. destruct (0 <=? i) eqn:E; [|done].
  intros H%lookup_lt_Some. zify_bool. lia.
Qed.

Lemma zget_lt_Some l i : 0 <= i < Z.of_nat (length l) -> exists x, zget l i = Some x.
Proof.
  intros Hi. unfold zget. rewrite (proj2 (Z.leb_le _ _)) by lia.
  destruct (lookup_lt_is_Some_2 l (Z.to_nat i)) as [x Hx]; [lia|]. eauto.
Qed.

Lemma zget_zset_eq l i x : 0 <= i < Z.of_nat (length l) -> zget (zset l i x) i = Some x.
Proof.
  intros Hi. unfold zget, zset. rewrite !(proj2 (Z.leb_le _ _)) by lia.
  apply list_lookup_insert_eq. lia.
Qed.

Lemma zget_zset_ne l i j x : i <> j -> zget (zset l i x) j = zget l j.
Proof.
  intros Hij. unfold zget, zset.
  destruct (0 <=? j) eqn:Ej, (0 <=? i) eqn:Ei; try done.
  zify_bool. apply list_lookup_insert_ne. lia.
Qed.

Lemma zset_length l i x : length (zset l i x) = length l.
Proof. unfold zset. case_match; [apply length_insert|done]. Qed.

Lemma zset_zset l i x y : zset (zset l i x) i y = zset l i y.
Proof. unfold zset. case_match; [|done]. apply list_insert_insert_eq. Qed.

Lemma zset_same l i x : zget l i = Some x -> zset l i x = l.
Proof. unfold zget, zset. case_match; [|done]. apply list_insert_id. Qed.

Lemma zget_replicate n x y i : zget (replicate n x) i = Some y -> y = x.
Proof. unfold zget. case_match; [|done]. by intros [-> _]%lookup_replicate. Qed.

Lemma zget_cons x l j : 0 < j -> zget (x :: l) j = zget l (j - 1).
Proof.
  intros. unfold zget. rewrite !(proj2 (Z.leb_le _ _)) by lia.
  by replace (Z.to_nat j) with (S (Z.to_nat (j - 1))) by lia.
Qed.

Lemma zget_snoc l a i x : zget (l ++ [a]) i = Some x <->
  (i = Z.of_nat (length l) /\ x = a) \/ zget l i = Some x.
Proof.
  unfold zget. destruct (0 <=? i) eqn:E; zify_bool.
  - rewrite lookup_app. destruct (l !! Z.to_nat i) as [y|] eqn:El.
    + split; [by right|]. intros [[-> ->]|H]; [|done]. rewrite Nat2Z.id in El. by apply lookup_lt_Some, Nat.lt_irrefl in El.
    + apply lookup_ge_None in El. destruct (Z.to_nat i - length l)%nat as [|k] eqn:Ek.
      * cbn. split; [intros [= <-]; left; split; [lia|done]|]. intros [[_ ->]|]; done.
      * cbn. split; [done|]. intros [[-> ->]|]; [lia|done].
  - split; [done|]. intros [[-> _]|]; [lia|done].
Qed.
End zlist.

#[export] Hint Rewrite @zset_length : cintr.
