(* ===== verification/CFloat.v ===== *)
(** * C floating-point arithmetic used by the table-size computations

    [ipa_table.c] multiplies entry counts by the macros [.8], [.2], [1.00] and
    [0.43], once through variables of type [float] and once directly as
    [double], and truncates the product to [uint16_t].  IEEE-754 arithmetic is
    the Standard Library's [SpecFloat] (round to nearest even): a format is its
    precision and maximal exponent, 24/128 for [float], 53/1024 for [double]. *)

From Stdlib Require Import ZArith SpecFloat.
From S2P Require Import Prelude.

Module F32.
Definition prec := 24%Z.
Definition emax := 128%Z.
End F32.

Module F64.
Definition prec := 53%Z.
Definition emax := 1024%Z.
End F64.

(** Conversion of an integer. *)
Definition sf_of_Z (prec emax n : Z) : spec_float :=
  binary_normalize prec emax n 0 false.

(** A decimal literal [n/d] is the correctly rounded quotient. *)
Definition sf_literal (prec emax n d : Z) : spec_float :=
  SFdiv prec emax (sf_of_Z prec emax n) (sf_of_Z prec emax d).

(** Conversion [double] to [float]. *)
Definition sf_convert (prec emax : Z) (x : spec_float) : spec_float :=
  match x with
  | S754_finite s m e =>
      binary_normalize prec emax (if s then Zneg m else Zpos m) e s
  | _ => x
  end.

(** Conversion to an integer type truncates towards zero. *)
Definition sf_trunc (x : spec_float) : Z :=
  match x with
  | S754_finite s m e =>
      let a := if (0 <=? e)%Z then (Zpos m * 2 ^ e)%Z else (Zpos m / 2 ^ (- e))%Z in
      if s then (- a)%Z else a
  | _ => 0%Z
  end.

(** [x * y] where both operands have the given format. *)
Definition sf_mul (prec emax : Z) (x y : spec_float) : spec_float := SFmul prec emax x y.

Definition f32_of_Z := sf_of_Z F32.prec F32.emax.
Definition f64_of_Z := sf_of_Z F64.prec F64.emax.
Definition f64_lit := sf_literal F64.prec F64.emax.
Definition f32_of_f64 := sf_convert F32.prec F32.emax.
Definition f32_mul := sf_mul F32.prec F32.emax.
Definition f64_mul := sf_mul F64.prec F64.emax.
Definition f32_div := SFdiv F32.prec F32.emax.

Example f64_lit_08 : f64_lit 8 10 = S754_finite false 7205759403792794 (-53).
Proof. reflexivity. Qed.
Example f32_08 : f32_of_f64 (f64_lit 8 10) = S754_finite false 13421773 (-24).
Proof. reflexivity. Qed.
Example f32_mul_5120 :
  sf_trunc (f32_mul (f32_of_Z 5120) (f32_of_f64 (f64_lit 8 10))) = 4096%Z.
Proof. reflexivity. Qed.
