(* ===== verification/Chain.v ===== *)
(** * Bucket chains: the abstract structure of a table

    Specification level.  A table of [T] slots, the first [B] of them base
    slots, is seen as the map from a slot to its node (valid bit, next and
    previous index; index 0 is "none").  [rep] says that the valid slots are
    exactly the members of disjoint doubly linked chains, one for every occupied
    base slot, whose tails live in the expansion slots.  The lemmas give the
    effect on [rep] of the pointer updates the table code performs. *)

From Stdlib Require Import ZArith Lia.
From stdpp Require Import prelude gmap list numbers.
From S2P Require Import Prelude.

Local Open Scope Z_scope.

Record node := Node { nd_valid : bool; nd_next : Z; nd_prev : Z }.

Definition links := Z -> option node.

Definition upd (V : links) (i : Z) (n : node) : links :=
  fun j => if decide (j = i) then Some n else V j.

(** [chain V p i l]: slot [i] and then the slots [l] form a chain; the first
    node's previous index is [p]. *)
Fixpoint chain (V : links) (p i : Z) (l : list Z) : Prop :=
  exists n, V i = Some n /\ nd_valid n = true /\ nd_prev n = p /\
    match l with
    | [] => nd_next n = 0
    | j :: l' => nd_next n = j /\ chain V i j l'
    end.

(** The last slot of the chain [i :: l]. *)
Definition chain_end (i : Z) (l : list Z) : Z := List.last l i.
Definition hd0 (l : list Z) : Z := match l with [] => 0 | j :: _ => j end.

Record rep (B T : Z) (V : links) (chains : gmap Z (list Z)) : Prop := {
  rep_dom : forall i, is_Some (V i) <-> 0 <= i < T;
  rep_chain : forall b l, chains !! b = Some l ->
    0 < b < B /\ chain V 0 b l /\ NoDup l /\ Forall (fun j => B <= j < T) l;
  rep_base : forall b n, 0 <= b < B -> V b = Some n -> nd_valid n = true ->
    is_Some (chains !! b);
  rep_expn : forall i n, B <= i -> V i = Some n -> nd_valid n = true ->
    exists b l, chains !! b = Some l /\ i ∈ l;
  rep_disj : forall b1 b2 l1 l2 i, chains !! b1 = Some l1 -> chains !! b2 = Some l2 ->
    i ∈ l1 -> i ∈ l2 -> b1 = b2;
  rep_free : forall i n, V i = Some n -> nd_valid n = false -> nd_next n = 0 }.

(** ** Updates *)
Lemma upd_eq V i n : upd V i n i = Some n.
Proof. unfold upd. by rewrite decide_True. Qed.
Lemma upd_ne V i j n : j <> i -> upd V i n j = V j.
Proof. intros. unfold upd. by rewrite decide_False. Qed.
#[export] Hint Rewrite upd_eq : cintr.

Ltac upd_simpl :=
  repeat match goal with
  | |- context [upd ?V ?i ?n ?i] => rewrite (upd_eq V i n)
  | |- context [upd ?V ?i ?n ?j] => rewrite (upd_ne V i j n) by (first [done | lia | congruence])
  | H : context [upd ?V ?i ?n ?i] |- _ => rewrite (upd_eq V i n) in H
  | H : context [upd ?V ?i ?n ?j] |- _ =>
      rewrite (upd_ne V i j n) in H by (first [done | lia | congruence])
  end.

Lemma upd_is_Some V i j n :
  is_Some (V i) -> (is_Some (upd V i n j) <-> is_Some (V j)).
Proof. intros Hi. unfold upd. case_decide; subst; split; eauto. Qed.

(** ** Chains *)
Lemma chain_ext V V' p i l :
  (forall j, j ∈ i :: l -> V j = V' j) -> chain V p i l -> chain V' p i l.
Proof.
  revert p i. induction l as [|j l IH]; intros p i HV; cbn; intros (n & Hi & Hv & Hp & Hn).
  - exists n. rewrite <- HV by set_solver. done.
  - destruct Hn as [Hn Hc]. exists n. rewrite <- HV by set_solver.
    split_and!; try done. apply IH; [|done]. intros k Hk. apply HV. set_solver.
Qed.

Lemma chain_upd V p i l x n :
  x ∉ i :: l -> chain V p i l -> chain (upd V x n) p i l.
Proof.
  intros Hx. apply chain_ext. intros j Hj. rewrite upd_ne; [done|]. set_solver.
Qed.

Lemma chain_end_cons i j l : chain_end i (j :: l) = chain_end j l.
Proof.
  revert i j. induction l as [|k l IH]; [done|]. intros i j.
  change (chain_end i (k :: l) = chain_end j (k :: l)).
  by rewrite !IH.
Qed.

Lemma chain_end_elem i l : chain_end i l ∈ i :: l.
Proof.
  revert i. induction l as [|j l IH]; intros i; [by left|].
  rewrite chain_end_cons. right. apply IH.
Qed.

Lemma chain_end_app i l1 x l2 : chain_end i (l1 ++ x :: l2) = chain_end x l2.
Proof.
  revert i. induction l1 as [|j l1 IH]; intros i; cbn [app];
    by rewrite chain_end_cons.
Qed.

Lemma chain_app V p i l1 x l2 :
  chain V p i (l1 ++ x :: l2) -> chain V (chain_end i l1) x l2.
Proof.
  revert p i. induction l1 as [|j l1 IH]; intros p i; cbn [app].
  - cbn. intros (n & _ & _ & _ & _ & Hc). done.
  - cbn [chain]. intros (n & _ & _ & _ & _ & Hc). rewrite chain_end_cons. eauto.
Qed.

Lemma chain_head V p i l :
  chain V p i l -> exists n, V i = Some n /\ nd_valid n = true /\ nd_prev n = p /\ nd_next n = hd0 l.
Proof.
  destruct l; cbn; intros (n & ? & ? & ? & Hn); exists n; [done|]. by destruct Hn.
Qed.

(** The node at a given position of a chain. *)
Lemma chain_mid V p i l1 x l2 :
  chain V p i (l1 ++ x :: l2) ->
  exists n, V x = Some n /\ nd_valid n = true /\ nd_prev n = chain_end i l1 /\ nd_next n = hd0 l2.
Proof. intros H%chain_app. by apply chain_head. Qed.

Lemma chain_last V p i l :
  chain V p i l -> exists n, V (chain_end i l) = Some n /\ nd_valid n = true /\ nd_next n = 0.
Proof.
  revert p i. induction l as [|j l IH]; intros p i; cbn [chain].
  - intros (n & ? & ? & ? & ?). exists n. done.
  - intros (n & _ & _ & _ & _ & Hc). rewrite chain_end_cons. eauto.
Qed.

(** Linking a fresh slot [f] behind the last one. *)
Lemma chain_snoc V p i l f nq :
  chain V p i l -> NoDup (i :: l) -> f ∉ i :: l ->
  V (chain_end i l) = Some nq ->
  chain (upd (upd V f (Node true 0 (chain_end i l))) (chain_end i l)
             (Node true f (nd_prev nq))) p i (l ++ [f]).
Proof.
  revert p i. induction l as [|j l IH]; intros p i Hc Hnd Hf Hq.
  - cbn in *. destruct Hc as (n & Hi & Hv & Hp & Hn). rewrite Hi in Hq.
    injection Hq as <-. exists (Node true f (nd_prev n)).
    rewrite upd_eq. split_and!; try done.
    exists (Node true 0 i). rewrite upd_ne by set_solver. rewrite upd_eq. done.
  - rewrite chain_end_cons in *. cbn [chain app] in *.
    destruct Hc as (n & Hi & Hv & Hp & Hn & Hc).
    assert (i <> chain_end j l).
    { intros E. apply list.NoDup_cons in Hnd as [Hni _]. apply Hni. rewrite E.
      apply chain_end_elem. }
    exists n. rewrite !upd_ne by set_solver.
    split_and!; try done. apply IH; try done; [by apply list.NoDup_cons in Hnd as [_ ?]|set_solver].
Qed.

(** The updates that unlink [x], whose predecessor is [q] and successors [l2];
    [px] is the previous index left in the freed slot. *)
Definition unlink (V : links) (q x : Z) (nq : node) (l2 : list Z) (n2 : node) (px : Z) : links :=
  let V1 := upd V q (Node true (hd0 l2) (nd_prev nq)) in
  let V2 := match l2 with [] => V1 | j :: _ => upd V1 j (Node true (nd_next n2) q) end in
  upd V2 x (Node false 0 px).

Lemma chain_unlink_head V q x nq l2 n2 px p :
  chain V x (hd0 l2) (tail l2) -> l2 <> [] -> NoDup l2 ->
  x ∉ l2 -> q ∉ l2 -> V (hd0 l2) = Some n2 ->
  p = q ->
  chain (unlink V q x nq l2 n2 px) p (hd0 l2) (tail l2).
Proof.
  intros Hc Hne Hnd Hx Hq Hn2 ->. destruct l2 as [|j l2]; [done|]. cbn [hd0 tail] in *.
  assert (Hj : unlink V q x nq (j :: l2) n2 px j = Some (Node true (nd_next n2) q)).
  { unfold unlink. rewrite upd_ne by set_solver. by rewrite upd_eq. }
  apply list.NoDup_cons in Hnd as [Hjl Hnd].
  assert (Hrest : forall k, k ∈ l2 -> V k = unlink V q x nq (j :: l2) n2 px k).
  { intros k Hk. unfold unlink. rewrite !upd_ne; [done|set_solver..]. }
  destruct l2 as [|k l2]; cbn [chain] in *; destruct Hc as (n & Hn & Hv & Hp & Hnx).
  - rewrite Hn in Hn2. injection Hn2 as <-. eexists. split; [exact Hj|]. done.
  - destruct Hnx as [Hnx Hc]. rewrite Hn in Hn2. injection Hn2 as <-.
    eexists. split; [exact Hj|]. split_and!; try done.
    apply (chain_ext V); done.
Qed.

Lemma chain_unlink V p i l1 x l2 nq n2 px :
  chain V p i (l1 ++ x :: l2) -> NoDup (i :: l1 ++ x :: l2) ->
  V (chain_end i l1) = Some nq ->
  (l2 <> [] -> V (hd0 l2) = Some n2) ->
  chain (unlink V (chain_end i l1) x nq l2 n2 px) p i (l1 ++ l2).
Proof.
  revert p i. induction l1 as [|j l1 IH]; intros p i Hc Hnd Hq Hn2; cbn [app chain] in *.
  - destruct Hc as (n & Hi & Hv & Hp & Hn & Hc). cbn in Hq. rewrite Hi in Hq.
    injection Hq as <-. cbn [chain_end List.last].
    apply list.NoDup_cons in Hnd as [Hni Hnd]. apply list.NoDup_cons in Hnd as [Hxl Hndl].
    assert (Hix : i <> x) by set_solver.
    assert (Hil : i ∉ l2) by set_solver.
    assert (HVi : unlink V i x n l2 n2 px i = Some (Node true (hd0 l2) (nd_prev n))).
    { unfold unlink. rewrite upd_ne by done. destruct l2; [by rewrite upd_eq|].
      rewrite upd_ne by set_solver. by rewrite upd_eq. }
    destruct l2 as [|k l2]; cbn [chain].
    + eexists. split; [exact HVi|]. done.
    + eexists. split; [exact HVi|]. split_and!; try done.
      destruct Hc as (nx & Hx & _ & _ & _ & Hc).
      apply (chain_unlink_head V i x n (k :: l2) n2 px i); try done.
      * by apply Hn2.
  - rewrite chain_end_cons in *. destruct Hc as (n & Hi & Hv & Hp & Hn & Hc).
    assert (Hdec := Hnd). apply list.NoDup_cons in Hdec as [Hni Hnd'].
    assert (i <> chain_end j l1).
    { intros E. apply Hni. rewrite E. pose proof (chain_end_elem j l1). set_solver. }
    exists n. split.
    { unfold unlink. rewrite upd_ne by set_solver.
      destruct l2; rewrite !upd_ne by set_solver; done. }
    split_and!; try done. by apply IH.
Qed.

(** ** [rep]: lookups *)
Section rep_lemmas.
Context {B T : Z} {V : links} {chains : gmap Z (list Z)}.
Hypothesis HR : rep B T V chains.

Lemma rep_nodup_full b l : chains !! b = Some l -> NoDup (b :: l).
Proof.
  intros H. destruct (rep_chain _ _ _ _ HR _ _ H) as (Hb & _ & Hnd & Hl).
  apply list.NoDup_cons. split; [|done]. intros Hin.
  rewrite list.Forall_forall in Hl. apply Hl in Hin. lia.
Qed.

Lemma rep_valid_base b :
  0 <= b < B -> (exists n, V b = Some n /\ nd_valid n = true) <-> is_Some (chains !! b).
Proof.
  intros Hb. split.
  - intros (n & Hn & Hv). by eapply rep_base.
  - intros [l Hl]. destruct (rep_chain _ _ _ _ HR _ _ Hl) as (_ & Hc & _).
    destruct (chain_head _ _ _ _ Hc) as (n & ? & ? & _). eauto.
Qed.

Lemma rep_slot0 n : 0 < B -> V 0 = Some n -> nd_valid n = false.
Proof.
  intros HB Hn. destruct (nd_valid n) eqn:Hv; [|done].
  destruct (rep_base _ _ _ _ HR 0 n) as [l Hl]; [lia|done|done|].
  destruct (rep_chain _ _ _ _ HR _ _ Hl) as (? & _). lia.
Qed.

(** A slot that is not in a chain: its node is invalid and conversely. *)
Lemma rep_fresh_notin f n b l :
  V f = Some n -> nd_valid n = false -> chains !! b = Some l -> f ∉ b :: l.
Proof.
  intros Hf Hv Hl Hin.
  destruct (rep_chain _ _ _ _ HR _ _ Hl) as (_ & Hc & _).
  apply list_elem_of_split in Hin as (l1 & l2 & E).
  destruct l1 as [|b' l1]; injection E as <- E2; subst.
  - destruct (chain_head _ _ _ _ Hc) as (n' & ? & ? & _). congruence.
  - destruct (chain_mid _ _ _ _ _ _ Hc) as (n' & ? & ? & _). congruence.
Qed.

Lemma rep_chain_length b l : 0 <= B <= T -> chains !! b = Some l -> Z.of_nat (length l) <= T - B.
Proof.
  intros HBT Hl. destruct (rep_chain _ _ _ _ HR _ _ Hl) as (_ & _ & Hnd & Hr).
  assert (Hsub : l ⊆ seqZ B (T - B)).
  { intros j Hj. rewrite list.Forall_forall in Hr. apply Hr in Hj. apply elem_of_seqZ. lia. }
  assert (length l <= length (seqZ B (T - B)))%nat.
  { apply submseteq_length. by apply NoDup_submseteq. }
  rewrite length_seqZ in *. lia.
Qed.
End rep_lemmas.

(** ** [rep]: the four structural updates *)
Lemma rep_ext B T V V' chains : (forall i, V i = V' i) -> rep B T V chains -> rep B T V' chains.
Proof.
  intros HV HR. split.
  - intros i. rewrite <- HV. apply (rep_dom _ _ _ _ HR).
  - intros b l Hl. destruct (rep_chain _ _ _ _ HR _ _ Hl) as (? & Hc & ? & ?).
    split_and!; try lia; try done. eapply chain_ext; [|done]. intros; apply HV.
  - intros b n Hb. rewrite <- HV. by apply (rep_base _ _ _ _ HR).
  - intros i n Hi. rewrite <- HV. by apply (rep_expn _ _ _ _ HR).
  - apply (rep_disj _ _ _ _ HR).
  - intros i n. rewrite <- HV. apply (rep_free _ _ _ _ HR).
Qed.

(** The previous index of a free slot is irrelevant. *)
Lemma rep_ext_valid B T V V' chains :
  (forall i, V i = V' i \/
     exists nx p p', V i = Some (Node false nx p) /\ V' i = Some (Node false nx p')) ->
  rep B T V chains -> rep B T V' chains.
Proof.
  intros HV HR.
  assert (Hv : forall i n, nd_valid n = true -> (V i = Some n <-> V' i = Some n)).
  { intros i n Hn. destruct (HV i) as [->|(nx & p & p' & -> & ->)]; [done|].
    split; intros [= <-]; done. }
  split.
  - intros i. rewrite <- (rep_dom _ _ _ _ HR i).
    destruct (HV i) as [->|(nx & p & p' & -> & ->)]; [done|]. by split; intros _; eauto.
  - intros b l Hl. destruct (rep_chain _ _ _ _ HR _ _ Hl) as (? & Hc & ? & ?).
    split_and!; try lia; try done. clear -Hc Hv. revert Hc. generalize 0 as p.
    revert b. induction l as [|j l IH]; intros b p; cbn; intros (n & Hn & Hval & Hp & Hnx);
      exists n; rewrite <- Hv by done; split_and!; try done; destruct Hnx; auto.
  - intros b n Hb Hn Hval. apply Hv in Hn; [|done]. by eapply (rep_base _ _ _ _ HR).
  - intros i n Hi Hn Hval. apply Hv in Hn; [|done]. by eapply (rep_expn _ _ _ _ HR).
  - apply (rep_disj _ _ _ _ HR).
  - intros i n Hn Hval. destruct (HV i) as [E|(nx & p & p' & E & E')].
    + rewrite <- E in Hn. by eapply (rep_free _ _ _ _ HR).
    + rewrite E' in Hn. injection Hn as <-. cbn.
      apply (rep_free _ _ _ _ HR _ _ E). done.
Qed.

Lemma rep_insert_head B T V chains b :
  rep B T V chains -> 0 < b < B -> B <= T -> chains !! b = None ->
  rep B T (upd V b (Node true 0 0)) (<[b := []]> chains).
Proof.
  intros HR Hb HBT Hnone.
  assert (HVb : is_Some (V b)) by (apply (rep_dom _ _ _ _ HR); lia).
  assert (Hnew : forall b' l, chains !! b' = Some l -> b ∉ b' :: l).
  { intros b' l Hl. destruct HVb as [n Hn].
    destruct (nd_valid n) eqn:Hv.
    - destruct (rep_base _ _ _ _ HR b n) as [l' Hl']; [lia|done|done|congruence].
    - by eapply rep_fresh_notin. }
  split.
  - intros i. rewrite upd_is_Some by done. apply (rep_dom _ _ _ _ HR).
  - intros b' l. rewrite lookup_insert. case_decide as E; subst.
    + intros [= <-]. split_and!; [lia..| |apply NoDup_nil_2|constructor].
      exists (Node true 0 0). rewrite upd_eq. done.
    + intros Hl. destruct (rep_chain _ _ _ _ HR _ _ Hl) as (? & Hc & ? & ?).
      split_and!; try lia; try done. apply chain_upd; eauto.
  - intros b' n Hb' Hn Hv. rewrite lookup_insert. case_decide; subst; [eauto|].
    rewrite upd_ne in Hn by done. by eapply rep_base.
  - intros i n Hi Hn Hv. rewrite upd_ne in Hn by lia.
    destruct (rep_expn _ _ _ _ HR i n) as (b' & l & Hl & Hin); try done.
    exists b', l. rewrite lookup_insert_ne; [done|]. congruence.
  - intros b1 b2 l1 l2 i. rewrite !lookup_insert. repeat case_decide; subst; try done.
    + intros [= <-] ? Hin. set_solver.
    + intros ? [= <-] ? Hin. set_solver.
    + apply (rep_disj _ _ _ _ HR).
  - intros i n. unfold upd. case_decide; [intros [= <-]; done|]. apply (rep_free _ _ _ _ HR).
Qed.

Lemma rep_insert_tail B T V chains b l f nf nq :
  rep B T V chains -> 0 < B -> chains !! b = Some l -> B <= f < T ->
  V f = Some nf -> nd_valid nf = false -> V (chain_end b l) = Some nq ->
  rep B T (upd (upd V f (Node true 0 (chain_end b l))) (chain_end b l)
               (Node true f (nd_prev nq)))
      (<[b := l ++ [f]]> chains).
Proof.
  intros HR HB Hl Hf Hnf Hv Hq.
  pose proof (rep_fresh_notin HR f nf) as Hfresh.
  pose proof (rep_nodup_full HR _ _ Hl) as Hnd.
  destruct (rep_chain _ _ _ _ HR _ _ Hl) as (Hb & Hc & Hndl & Hrange).
  pose proof (chain_end_elem b l) as Hqin.
  assert (Hqf : chain_end b l <> f).
  { intros E. apply (Hfresh b l); try done. by rewrite <- E. }
  assert (Hqval : nd_valid nq = true).
  { destruct (chain_last _ _ _ _ Hc) as (n & ? & ? & _). congruence. }
  split.
  - intros i. rewrite upd_is_Some by (rewrite upd_ne by done; eauto).
    rewrite upd_is_Some by eauto. apply (rep_dom _ _ _ _ HR).
  - intros b' l'. rewrite lookup_insert. case_decide as E; subst.
    + intros [= <-]. split_and!; [lia..| | |].
      * apply chain_snoc; eauto.
      * apply list.NoDup_app. split_and!; [done| |apply NoDup_singleton].
        intros x Hx Hxf. apply list_elem_of_singleton in Hxf. subst.
        apply (Hfresh b' l Hnf Hv Hl). by right.
      * apply list.Forall_app. split; [done|]. by constructor.
    + intros Hl'. destruct (rep_chain _ _ _ _ HR _ _ Hl') as (? & Hc' & ? & Hr').
      split_and!; try lia; try done. apply chain_upd; [|apply chain_upd; eauto].
      intros Hin. apply elem_of_cons in Hqin, Hin.
      rewrite list.Forall_forall in Hrange, Hr'.
      destruct Hqin as [Eq|Hqin], Hin as [Eq'|Hin].
      * congruence.
      * rewrite Eq in Hin. apply Hr' in Hin. lia.
      * rewrite Eq' in Hqin. apply Hrange in Hqin. lia.
      * apply E. by eapply (rep_disj _ _ _ _ HR).
  - intros b' n Hb' Hn Hvn. rewrite lookup_insert. case_decide; subst; [eauto|].
    destruct (decide (b' = chain_end b l)) as [->|].
    + eapply rep_base; eauto.
    + rewrite !upd_ne in Hn by (done || lia). by eapply rep_base.
  - intros i n Hi Hn Hvn. destruct (decide (i = f)) as [->|Hif].
    { exists b, (l ++ [f]). rewrite lookup_insert_eq. set_solver. }
    assert (exists b' l', chains !! b' = Some l' /\ i ∈ l') as (b' & l' & Hl' & Hin).
    { destruct (decide (i = chain_end b l)) as [->|].
      - eapply rep_expn; eauto.
      - rewrite !upd_ne in Hn by done. eapply rep_expn; eauto. }
    destruct (decide (b' = b)) as [->|].
    + exists b, (l ++ [f]). rewrite lookup_insert_eq. set_solver.
    + exists b', l'. by rewrite lookup_insert_ne.
  - intros b1 b2 l1 l2 i. rewrite !lookup_insert. repeat case_decide; subst; try done.
    + intros [= <-] H2 [Hin|Hin]%elem_of_app Hin2.
      * by eapply (rep_disj _ _ _ _ HR).
      * apply list_elem_of_singleton in Hin. subst. exfalso.
        apply (Hfresh b2 l2); try done. by right.
    + intros H1 [= <-] Hin1 [Hin|Hin]%elem_of_app.
      * by eapply (rep_disj _ _ _ _ HR).
      * apply list_elem_of_singleton in Hin. subst. exfalso.
        apply (Hfresh b1 l1); try done. by right.
    + apply (rep_disj _ _ _ _ HR).
  - intros i n. unfold upd. repeat case_decide; try (intros [= <-]; done).
    apply (rep_free _ _ _ _ HR).
Qed.

Lemma rep_remove_single B T V chains b :
  rep B T V chains -> chains !! b = Some [] ->
  rep B T (upd V b (Node false 0 0)) (delete b chains).
Proof.
  intros HR Hb. destruct (rep_chain _ _ _ _ HR _ _ Hb) as (Hbr & Hc & _).
  destruct (chain_head _ _ _ _ Hc) as (nb & Hnb & _).
  split.
  - intros i. rewrite upd_is_Some by eauto. apply (rep_dom _ _ _ _ HR).
  - intros b' l [Hne Hl]%lookup_delete_Some.
    destruct (rep_chain _ _ _ _ HR _ _ Hl) as (? & Hc' & ? & Hr).
    split_and!; try lia; try done. apply chain_upd; [|done].
    intros [|Hin]%elem_of_cons; [congruence|].
    rewrite list.Forall_forall in Hr. apply Hr in Hin. lia.
  - intros b' n Hb' Hn Hv. destruct (decide (b' = b)) as [->|].
    + rewrite upd_eq in Hn. injection Hn as <-. done.
    + rewrite upd_ne in Hn by done. rewrite lookup_delete_ne by done. by eapply rep_base.
  - intros i n Hi Hn Hv. rewrite upd_ne in Hn by lia.
    destruct (rep_expn _ _ _ _ HR i n) as (b' & l & Hl & Hin); try done.
    exists b', l. rewrite lookup_delete_ne; [done|]. intros <-. set_solver.
  - intros b1 b2 l1 l2 i [_ H1]%lookup_delete_Some [_ H2]%lookup_delete_Some.
    by apply (rep_disj _ _ _ _ HR).
  - intros i n. unfold upd. case_decide; [intros [= <-]; done|]. apply (rep_free _ _ _ _ HR).
Qed.

Lemma rep_remove_tail B T V chains b l1 x l2 nq n2 px :
  rep B T V chains -> chains !! b = Some (l1 ++ x :: l2) ->
  V (chain_end b l1) = Some nq -> (l2 <> [] -> V (hd0 l2) = Some n2) ->
  rep B T (unlink V (chain_end b l1) x nq l2 n2 px) (<[b := l1 ++ l2]> chains).
Proof.
  intros HR Hl Hq Hn2.
  pose proof (rep_nodup_full HR _ _ Hl) as Hnd.
  destruct (rep_chain _ _ _ _ HR _ _ Hl) as (Hb & Hc & Hndl & Hrange).
  destruct (chain_mid _ _ _ _ _ _ Hc) as (nx & Hx & _).
  assert (Hmem : forall j, j ∉ b :: l1 ++ x :: l2 ->
                 unlink V (chain_end b l1) x nq l2 n2 px j = V j).
  { intros j Hj. unfold unlink. pose proof (chain_end_elem b l1).
    destruct l2; rewrite !upd_ne; set_solver. }
  assert (Hother : forall b' l', b' <> b -> chains !! b' = Some l' ->
            forall j, j ∈ b' :: l' -> j ∉ b :: l1 ++ x :: l2).
  { intros b' l' Hne Hl' j Hj Hj'.
    destruct (rep_chain _ _ _ _ HR _ _ Hl') as (? & _ & _ & Hr').
    rewrite list.Forall_forall in Hrange, Hr'.
    apply elem_of_cons in Hj, Hj'.
    destruct Hj as [->|Hj], Hj' as [Ej|Hj'].
    - done.
    - apply Hrange in Hj'. lia.
    - rewrite Ej in Hj. apply Hr' in Hj. lia.
    - apply Hne. by eapply (rep_disj _ _ _ _ HR). }
  assert (Hxout : unlink V (chain_end b l1) x nq l2 n2 px x = Some (Node false 0 px)).
  { unfold unlink. by rewrite upd_eq. }
  assert (Hsub : forall j, j ∈ l1 ++ l2 -> j ∈ l1 ++ x :: l2) by set_solver.
  assert (Hin_or : forall j n, unlink V (chain_end b l1) x nq l2 n2 px j = Some n ->
            nd_valid n = true -> j ∈ b :: l1 ++ l2 \/ V j = Some n).
  { intros j n Hn Hv. destruct (decide (j ∈ b :: l1 ++ x :: l2)) as [Hj|Hj].
    - left. destruct (decide (j = x)) as [->|]; [|set_solver].
      rewrite Hxout in Hn. injection Hn as <-. done.
    - right. by rewrite Hmem in Hn. }
  split.
  - intros i. rewrite <- (rep_dom _ _ _ _ HR i). unfold unlink.
    destruct l2 as [|j l2].
    + rewrite upd_is_Some by (rewrite upd_is_Some by eauto; eauto).
      rewrite upd_is_Some by eauto. done.
    + specialize (Hn2 ltac:(done)). cbn in Hn2.
      rewrite upd_is_Some by (rewrite upd_is_Some; rewrite upd_is_Some by eauto; eauto).
      rewrite upd_is_Some by (rewrite upd_is_Some by eauto; eauto).
      rewrite upd_is_Some by eauto. done.
  - intros b' l'. rewrite lookup_insert. case_decide as E; subst.
    + intros [= <-]. split_and!; [lia..| | |].
      * by apply chain_unlink.
      * apply list.NoDup_app in Hndl as (? & Hd & Hnd2). apply list.NoDup_cons in Hnd2 as [? ?].
        apply list.NoDup_app. split_and!; try done. intros y ??. eapply Hd; [done|]. by right.
      * rewrite list.Forall_forall in Hrange |- *. auto.
    + intros Hl'. destruct (rep_chain _ _ _ _ HR _ _ Hl') as (? & Hc' & ? & ?).
      split_and!; try lia; try done. apply (chain_ext V); [|done].
      intros j Hj. rewrite Hmem; [done|]. by eapply Hother.
  - intros b' n Hb' Hn Hv. rewrite lookup_insert. case_decide as E; [eauto|].
    destruct (Hin_or _ _ Hn Hv) as [Hin|HV]; [|by eapply rep_base].
    exfalso. rewrite list.Forall_forall in Hrange. apply elem_of_cons in Hin as [|Hin]; [done|].
    apply Hsub, Hrange in Hin. lia.
  - intros i n Hi Hn Hv.
    destruct (Hin_or _ _ Hn Hv) as [Hin|HV].
    + exists b, (l1 ++ l2). rewrite lookup_insert_eq. split; [done|].
      apply elem_of_cons in Hin as [->|]; [lia|done].
    + destruct (rep_expn _ _ _ _ HR i n Hi HV Hv) as (b' & l' & Hl' & Hin).
      destruct (decide (b' = b)) as [->|].
      * exists b, (l1 ++ l2). rewrite lookup_insert_eq. split; [done|].
        rewrite Hl in Hl'. injection Hl' as <-.
        destruct (decide (i = x)) as [->|]; [|set_solver].
        rewrite Hxout in Hn. injection Hn as <-. done.
      * exists b', l'. by rewrite lookup_insert_ne.
  - intros b1 b2 k1 k2 i. rewrite !lookup_insert. repeat case_decide; subst; try done.
    + intros [= <-] H2 Hi1 Hi2. eapply (rep_disj _ _ _ _ HR); eauto.
    + intros H1 [= <-] Hi1 Hi2. eapply (rep_disj _ _ _ _ HR); eauto.
    + apply (rep_disj _ _ _ _ HR).
  - intros i n Hn Hv. destruct (decide (i ∈ b :: l1 ++ x :: l2)) as [Hj|Hj].
    2: { rewrite Hmem in Hn by done. by eapply rep_free. }
    assert (HV : V i = Some n \/ n = Node false 0 px \/ nd_valid n = true).
    { revert Hn. unfold unlink, upd. destruct l2; repeat case_decide; naive_solver. }
    destruct HV as [HV|[->|?]]; [|done|congruence]. by eapply rep_free.
Qed.
