(* ===== verification/Bitfield.v ===== *)
(** * Bit-field records as integers

    The records the IPA hardware reads are C structs of bit-fields, allocated
    from the least significant bit up.  A record is its list of field widths and
    values; [pack] is the integer made of its bytes (little endian) and
    [write_bits] the integer after a write of [w] bits at bit [pos].  Used for
    [struct ipa_nat_rule], [struct ipa_nat_indx_tbl_rule],
    [ipa_ipv6ct_hw_entry] and the flag words [ipa_nat_flags],
    [ipa_ipv6ct_flags]. *)

From Stdlib Require Import ZArith Lia.
From stdpp Require Import prelude list numbers.
From S2P Require Import Prelude.

Local Open Scope Z_scope.

Fixpoint pack (ws vs : list Z) : Z :=
  match ws, vs with
  | w :: ws', v :: vs' => v mod 2 ^ w + 2 ^ w * pack ws' vs'
  | _, _ => 0
  end.

Fixpoint unpack (ws : list Z) (z : Z) : list Z :=
  match ws with
  | [] => []
  | w :: ws' => z mod 2 ^ w :: unpack ws' (z / 2 ^ w)
  end.

Definition width (ws : list Z) : Z := foldr Z.add 0 ws.

Definition write_bits (z pos w d : Z) : Z :=
  z mod 2 ^ pos + 2 ^ pos * (d mod 2 ^ w + 2 ^ w * (z / 2 ^ (pos + w))).

(** Values that fit their widths. *)
Definition fits (ws vs : list Z) : Prop := Forall2 (fun w v => 0 <= v < 2 ^ w) ws vs.

Definition fitsb (ws vs : list Z) : bool :=
  forallb (fun '(w, v) => (0 <=? v) && (v <? 2 ^ w)) (zip ws vs)
  && (length ws =? length vs)%nat.

(** Closes [Forall (fun w => 0 <= w) ws] for a literal [ws]. *)
Ltac widths := repeat (apply List.Forall_cons; [lia|]); apply List.Forall_nil.

Lemma fitsb_fits ws vs : fitsb ws vs = true -> fits ws vs.
Proof.
  unfold fitsb, fits. revert vs. induction ws as [|w ws IH]; intros [|v vs] H; cbn in H; try done.
  rewrite !andb_true_iff in H. destruct H as [[[H1 H2] H3] H4].
  apply Z.leb_le in H1. apply Z.ltb_lt in H2.
  constructor; [done|]. apply IH. by apply andb_true_iff.
Qed.

Lemma width_nonneg ws : Forall (fun w => 0 <= w) ws -> 0 <= width ws.
Proof. unfold width. induction 1; cbn; lia. Qed.

Lemma pow2_pos w : 0 <= w -> 0 < 2 ^ w.
Proof. intros. by apply Z.pow_pos_nonneg. Qed.

Lemma div_pow_add z a b : 0 <= a -> 0 <= b -> z / 2 ^ (a + b) = z / 2 ^ a / 2 ^ b.
Proof.
  intros. rewrite Z.pow_add_r by done. rewrite Z.div_div; [done| |apply pow2_pos; done].
  pose proof (pow2_pos a). lia.
Qed.

Lemma unpack_pack ws vs : fits ws vs -> Forall (fun w => 0 <= w) ws -> unpack ws (pack ws vs) = vs.
Proof.
  induction 1 as [|w v ws vs Hv Hr IH]; [done|]. intros [Hw Hws]%list.Forall_cons.
  cbn [pack unpack]. pose proof (pow2_pos w Hw).
  rewrite (Z.mod_small v) by done.
  rewrite (Z.mul_comm (2 ^ w)), Z.mod_add, Z.mod_small by lia.
  rewrite Z.div_add, Z.div_small by lia. rewrite Z.add_0_l, IH by done. done.
Qed.

Lemma pack_range ws vs : Forall (fun w => 0 <= w) ws -> 0 <= pack ws vs < 2 ^ width ws.
Proof.
  intros Hw. revert vs. induction Hw as [|w ws Hw Hws IH]; intros [|v vs]; cbn [pack width foldr]; try lia.
  - pose proof (width_nonneg (w :: ws) ltac:(by constructor)). cbn [width foldr] in *. lia.
  - fold (width ws). specialize (IH vs). rewrite Z.pow_add_r by (done || by apply width_nonneg).
    pose proof (pow2_pos w Hw). pose proof (Z.mod_pos_bound v (2 ^ w) ltac:(lia)). nia.
Qed.

(** Values that do not fit are cut. *)
Lemma unpack_pack_mod ws vs : length ws = length vs -> Forall (fun w => 0 <= w) ws ->
  unpack ws (pack ws vs) = zip_with (fun w v => v mod 2 ^ w) ws vs.
Proof.
  revert vs. induction ws as [|w ws IH]; intros [|v vs] Hl; try done. intros [Hw Hws]%list.Forall_cons.
  cbn [pack unpack zip_with]. pose proof (pow2_pos w Hw).
  rewrite (Z.mul_comm (2 ^ w)), Z.mod_add, Z.mod_mod by lia.
  rewrite Z.div_add, Z.div_small by (try lia; by apply Z.mod_pos_bound). rewrite Z.add_0_l, IH by (done || cbn in Hl; congruence). done.
Qed.

Lemma unpack_app ws1 ws2 z : Forall (fun w => 0 <= w) (ws1 ++ ws2) ->
  unpack (ws1 ++ ws2) z = unpack ws1 z ++ unpack ws2 (z / 2 ^ width ws1).
Proof.
  revert z. induction ws1 as [|w ws1 IH]; intros z; cbn [app unpack width foldr].
  - intros _. by rewrite Z.div_1_r.
  - intros [Hw Hws]%list.Forall_cons. rewrite IH by done.
    apply list.Forall_app in Hws as [Hws _]. rewrite div_pow_add; [done|done|].
    by apply width_nonneg.
Qed.

(** The fields below bit [width ws] depend on the bits below it only. *)
Lemma unpack_low ws a b : Forall (fun w => 0 <= w) ws ->
  unpack ws (a mod 2 ^ width ws + 2 ^ width ws * b) = unpack ws a.
Proof.
  revert a b. induction ws as [|w ws IH]; intros a b; [done|].
  intros [Hw Hws]%list.Forall_cons. cbn [unpack width foldr]. fold (width ws).
  pose proof (pow2_pos w Hw). pose proof (width_nonneg _ Hws) as Hn.
  pose proof (pow2_pos _ Hn). rewrite Z.pow_add_r by done.
  assert (Hmod : a mod (2 ^ w * 2 ^ width ws) = a mod 2 ^ w + 2 ^ w * ((a / 2 ^ w) mod 2 ^ width ws)).
  { rewrite Z.rem_mul_r by lia. done. }
  pose proof (Z.mod_pos_bound a (2 ^ w) ltac:(done)) as Hb.
  rewrite Hmod. f_equal.
  - replace (a mod 2 ^ w + 2 ^ w * ((a / 2 ^ w) mod 2 ^ width ws) + 2 ^ w * 2 ^ width ws * b)
      with (a mod 2 ^ w + ((a / 2 ^ w) mod 2 ^ width ws + 2 ^ width ws * b) * 2 ^ w) by lia.
    rewrite Z.mod_add by lia. by rewrite Z.mod_small.
  - replace (a mod 2 ^ w + 2 ^ w * ((a / 2 ^ w) mod 2 ^ width ws) + 2 ^ w * 2 ^ width ws * b)
      with (a mod 2 ^ w + ((a / 2 ^ w) mod 2 ^ width ws + 2 ^ width ws * b) * 2 ^ w) by lia.
    rewrite Z.div_add by lia. rewrite Z.div_small by done. rewrite Z.add_0_l. by apply IH.
Qed.

Lemma write_bits_high z pos w d : 0 <= pos -> 0 <= w ->
  write_bits z pos w d / 2 ^ pos = d mod 2 ^ w + 2 ^ w * (z / 2 ^ (pos + w)).
Proof.
  intros. unfold write_bits. pose proof (pow2_pos pos).
  rewrite (Z.mul_comm (2 ^ pos)), Z.div_add by lia.
  rewrite Z.div_small by (apply Z.mod_pos_bound; lia). lia.
Qed.

(** A write that covers exactly the fields [ws2] replaces them. *)
Lemma unpack_write_bits ws1 ws2 ws3 z d :
  Forall (fun w => 0 <= w) (ws1 ++ ws2 ++ ws3) ->
  unpack (ws1 ++ ws2 ++ ws3) (write_bits z (width ws1) (width ws2) d)
  = unpack ws1 z ++ unpack ws2 d ++ unpack ws3 (z / 2 ^ width ws1 / 2 ^ width ws2).
Proof.
  intros Hall. rewrite unpack_app by done.
  assert (H := Hall). apply list.Forall_app in H as [H1 H23].
  assert (H := H23). apply list.Forall_app in H as [H2 H3].
  pose proof (width_nonneg _ H1). pose proof (width_nonneg _ H2) as Hw2.
  pose proof (pow2_pos _ Hw2).
  f_equal; [apply unpack_low; done|].
  rewrite write_bits_high by done. rewrite unpack_app by done. f_equal; [by apply unpack_low|].
  rewrite (Z.mul_comm (2 ^ width ws2)), Z.div_add by lia.
  rewrite Z.div_small by (apply Z.mod_pos_bound; lia).
  by rewrite Z.add_0_l, div_pow_add.
Qed.

(** The same on a packed record. *)
Lemma unpack_write_pack ws1 ws2 ws3 vs1 vs2 vs3 d :
  Forall (fun w => 0 <= w) (ws1 ++ ws2 ++ ws3) ->
  fits (ws1 ++ ws2 ++ ws3) (vs1 ++ vs2 ++ vs3) ->
  length ws1 = length vs1 -> length ws2 = length vs2 ->
  unpack (ws1 ++ ws2 ++ ws3)
    (write_bits (pack (ws1 ++ ws2 ++ ws3) (vs1 ++ vs2 ++ vs3)) (width ws1) (width ws2) d)
  = vs1 ++ unpack ws2 d ++ vs3.
Proof.
  intros Hall Hf Hl1 Hl2. rewrite unpack_write_bits by done.
  pose proof (unpack_pack _ _ Hf Hall) as E.
  set (z := pack _ _) in *. rewrite unpack_app in E by done.
  assert (Hlu : forall ws z, length (unpack ws z) = length ws).
  { intros ws. induction ws; cbn; auto. }
  apply app_inj_1 in E as [E1 E2]; [|by rewrite Hlu].
  apply list.Forall_app in Hall as [_ Hall]. rewrite unpack_app in E2 by done.
  apply app_inj_1 in E2 as [E2 E3]; [|by rewrite Hlu].
  by rewrite E1, E3.
Qed.

Lemma unpack_length ws z : length (unpack ws z) = length ws.
Proof. revert z. induction ws as [|w ws IH]; intros z; cbn; [done|]. by rewrite IH. Qed.

Lemma pack_app ws1 ws2 vs1 vs2 : length ws1 = length vs1 ->
  Forall (fun w => 0 <= w) ws1 ->
  pack (ws1 ++ ws2) (vs1 ++ vs2) = pack ws1 vs1 + 2 ^ width ws1 * pack ws2 vs2.
Proof.
  revert vs1. induction ws1 as [|w ws1 IH]; intros [|v vs1] Hl Hw; try done.
  - cbn [app pack width foldr]. lia.
  - apply list.Forall_cons in Hw as [Hw Hws]. cbn [app pack width foldr]. fold (width ws1).
    rewrite IH by (cbn in Hl; congruence || done). rewrite Z.pow_add_r by (try done; by apply width_nonneg).
    lia.
Qed.

(** A field seen as two adjacent ones. *)
Lemma pack_split ws1 ws2 vs1 vs2 a b v : length ws1 = length vs1 ->
  Forall (fun w => 0 <= w) ws1 -> 0 <= a -> 0 <= b -> 0 <= v < 2 ^ (a + b) ->
  pack (ws1 ++ (a + b) :: ws2) (vs1 ++ v :: vs2)
  = pack (ws1 ++ a :: b :: ws2) (vs1 ++ v mod 2 ^ a :: v / 2 ^ a :: vs2).
Proof.
  intros Hl Hw Ha Hb Hv. rewrite !pack_app by done. do 2 f_equal. cbn [pack].
  pose proof (pow2_pos a Ha). pose proof (pow2_pos b Hb).
  rewrite (Z.mod_small v) by done. rewrite (Z.mod_mod v) by lia.
  rewrite (Z.mod_small (v / 2 ^ a)).
  2:{ split; [apply Z.div_pos; lia|]. apply Z.div_lt_upper_bound; [done|].
      rewrite <- Z.pow_add_r by done. lia. }
  rewrite Z.pow_add_r by done. rewrite (Z.div_mod v (2 ^ a)) at 1 by lia. lia.
Qed.

Lemma unpack_merge ws1 ws2 vs1 vs2 a b x y z : length vs1 = length ws1 ->
  Forall (fun w => 0 <= w) (ws1 ++ a :: b :: ws2) ->
  unpack (ws1 ++ a :: b :: ws2) z = vs1 ++ x :: y :: vs2 ->
  unpack (ws1 ++ (a + b) :: ws2) z = vs1 ++ (x + 2 ^ a * y) :: vs2.
Proof.
  intros Hl Hw. assert (Hw' := Hw). rewrite !list.Forall_app, !list.Forall_cons in Hw'.
  destruct Hw' as (Hw1 & Ha & Hb & Hw2). rewrite unpack_app by done. intros E.
  apply app_inj_1 in E as [E1 E2]; [|by rewrite unpack_length].
  rewrite unpack_app by (apply list.Forall_app; split; [done|constructor; [lia|done]]).
  rewrite E1. f_equal. cbn [unpack] in *. injection E2 as <- <- <-.
  pose proof (pow2_pos a Ha). pose proof (pow2_pos b Hb).
  rewrite div_pow_add by done. f_equal. rewrite Z.pow_add_r by done. rewrite Z.rem_mul_r by lia. lia.
Qed.

Lemma fits_insert ws vs k w v : fits ws vs -> ws !! k = Some w -> 0 <= v < 2 ^ w ->
  fits ws (<[k := v]> vs).
Proof.
  intros Hf Hw Hv. rewrite <- (list_insert_id ws k w Hw). by apply Forall2_insert.
Qed.

(** ** Bounds of bitwise operations *)
Lemma land_bounds a b : 0 <= a -> 0 <= b -> 0 <= Z.land a b <= b.
Proof.
  intros Ha Hb. split; [apply Z.land_nonneg; lia|].
  rewrite <- (Z2N.id a), <- (Z2N.id b) by done. rewrite <- N2Z.inj_land.
  apply N2Z.inj_le. rewrite N.land_comm.
  apply N.ldiff_le, N.bits_inj. intros k. rewrite N.ldiff_spec, N.land_spec, N.bits_0.
  by destruct (N.testbit _ _), (N.testbit _ _).
Qed.

Lemma lxor_range w a b : 0 <= w -> 0 <= a < 2 ^ w -> 0 <= b < 2 ^ w -> 0 <= Z.lxor a b < 2 ^ w.
Proof.
  intros Hw Ha Hb. split; [apply Z.lxor_nonneg; lia|].
  rewrite <- (wrap_small w a), <- (wrap_small w b) by done.
  rewrite <- !land_ones_wrap by done.
  assert (Z.lxor (Z.land a (Z.ones w)) (Z.land b (Z.ones w)) = Z.land (Z.lxor a b) (Z.ones w)) as ->.
  { apply Z.bits_inj'. intros n Hn. rewrite !Z.lxor_spec, !Z.land_spec, Z.lxor_spec.
    by destruct (Z.testbit a n), (Z.testbit b n), (Z.testbit (Z.ones w) n). }
  rewrite land_ones_wrap by done. by apply wrap_range.
Qed.

Lemma hash_slot h size : 0 <= h -> 0 < size ->
  0 < (if Z.land h size =? 0 then size else Z.land h size) <= size.
Proof.
  intros Hh Hs. pose proof (land_bounds h size Hh ltac:(lia)). case_match; zify_bool; lia.
Qed.
