(* ===== verification/IpaTable.v ===== *)
(** * The generic hash table with expansion area ([dataipa/ipanat/src/ipa_table.c])

    A table is an array of fixed-size records: [table_entries] base records
    followed by [expn_table_entries] expansion records.  A record is reached
    from its index by [GOTO_REC]; records of one hash bucket are linked through
    their [next_index].  The code is generic in the record type through a table
    of function pointers, here the class [EntryOps].

    Pointers to records are byte addresses; [tbl_mem] is the array of records
    found from [table_addr] on.  Dereferencing an address that is not that of a
    record gives [UB].  The table's [name], used only in log messages, is left
    out. *)

From Stdlib Require Import ZArith Lia.
From stdpp Require Import prelude list numbers.
From S2P Require Import Prelude CFloat.

Local Open Scope Z_scope.

(** ** Constants and enumerations of [ipa_table.h] *)
Definition IPA_TABLE_MAX_ENTRIES : Z := 5120.
Definition IPA_TABLE_INVALID_ENTRY : Z := 0.
Definition VALID_INDEX (idx : Z) : bool := negb (idx =? IPA_TABLE_INVALID_ENTRY).
Definition VALID_RULE_HDL (hdl : Z) : bool := negb (hdl =? IPA_TABLE_INVALID_ENTRY).

(** [enum ipa3_nat_mem_in]: bit 15 of a rule handle is 0 for DDR, 1 for SRAM. *)
Definition IPA_NAT_MEM_IN_DDR : Z := 0.
Definition IPA_NAT_MEM_IN_SRAM : Z := 1.

Inductive ipa_table_dma_type :=
  | IPA_NAT_BASE_TBL
  | IPA_NAT_EXPN_TBL
  | IPA_NAT_INDX_TBL
  | IPA_NAT_INDEX_EXPN_TBL
  | IPA_IPV6CT_BASE_TBL
  | IPA_IPV6CT_EXPN_TBL.

#[global] Instance ipa_table_dma_type_eq_dec : EqDecision ipa_table_dma_type.
Proof. solve_decision. Defined.

Definition IPA_TABLE_TYPE_BITS : Z := 1.
Definition IPA_TABLE_TYPE_MASK : Z := 1.
Definition IPA_TABLE_INDX_MASK : Z := 4095.
Definition IPA_TABLE_TYPE_MEM_SHIFT : Z := 15.

Inductive dma_help_type :=
  | HELP_UPDATE_HEAD
  | HELP_UPDATE_ENTRY
  | HELP_DELETE_HEAD
  | HELP_UPDATE_MAX.

Definition VALID_DMA_HELP_TYPE (t : dma_help_type) : bool :=
  match t with HELP_UPDATE_MAX => false | _ => true end.

Inductive When2Callback := WHEN_SLOT_EMPTY | WHEN_SLOT_FILLED | WHEN_SLOT_MAX.

Definition VALID_WHEN2CALLBACK (w : When2Callback) : bool :=
  match w with WHEN_SLOT_MAX => false | _ => true end.

(** ** Data structures *)
Record ipa_table_dma_cmd_helper := mk_helper {
  hlp_offset : Z;
  hlp_table_type : ipa_table_dma_type;
  hlp_expn_table_type : ipa_table_dma_type;
  hlp_table_indx : Z }.

(** [struct ipa_ioc_nat_dma_one] and [struct ipa_ioc_nat_dma_cmd]; the flexible
    array [dma] is the list of the slots the caller allocated. *)
Record ipa_ioc_nat_dma_one := mk_dma_one {
  dma_table_index : Z;
  dma_base_addr : ipa_table_dma_type;
  dma_offset : Z;
  dma_data : Z }.

Record ipa_ioc_nat_dma_cmd := mk_dma_cmd {
  cmd_entries : Z;
  cmd_mem_type : Z;
  cmd_dma : list ipa_ioc_nat_dma_one }.

Definition dma_one_zero : ipa_ioc_nat_dma_one := mk_dma_one 0 IPA_NAT_BASE_TBL 0 0.

(** [memset(cmd_buf, 0, ...)] of a buffer with room for [n] commands. *)
Definition dma_cmd_zero (n : nat) : ipa_ioc_nat_dma_cmd :=
  mk_dma_cmd 0 0 (replicate n dma_one_zero).

(** The three [dma_help] pointers of a table ([None] is NULL). *)
Record dma_helpers := mk_helpers {
  help_update_head : option ipa_table_dma_cmd_helper;
  help_update_entry : option ipa_table_dma_cmd_helper;
  help_delete_head : option ipa_table_dma_cmd_helper }.

Record ipa_table (E : Type) := mk_table {
  nmi : Z;
  entry_size : Z;
  table_entries : Z;
  expn_table_entries : Z;
  tot_tbl_ents : Z;
  table_addr : Z;
  expn_table_addr : Z;
  cur_tbl_cnt : Z;
  cur_expn_tbl_cnt : Z;
  dma_help : dma_helpers;
  meta : option (list Z);
  meta_entry_size : Z;
  tbl_mem : list E }.
Arguments mk_table {E}.
Arguments nmi {E}.
Arguments entry_size {E}.
Arguments table_entries {E}.
Arguments expn_table_entries {E}.
Arguments tot_tbl_ents {E}.
Arguments table_addr {E}.
Arguments expn_table_addr {E}.
Arguments cur_tbl_cnt {E}.
Arguments cur_expn_tbl_cnt {E}.
Arguments dma_help {E}.
Arguments meta {E}.
Arguments meta_entry_size {E}.
Arguments tbl_mem {E}.

Record ipa_table_iterator := mk_iter {
  prev_index : Z; prev_entry : Z;
  curr_index : Z; curr_entry : Z;
  next_index : Z; next_entry : Z }.

Definition iter_zero : ipa_table_iterator := mk_iter 0 0 0 0 0 0.

(** The function-pointer table [ipa_table_entry_interface].  [E] is the record
    type, [D] the user data of an insertion.  [entry_zero] is the record a
    [memset] to 0 writes.  Callbacks that write through [void* entry] or [meta]
    return the new values; those that read outside an array are [UB]. *)
Class EntryOps (E D : Type) := {
  entry_zero : E;
  entry_is_valid : E -> bool;
  entry_get_next_index : E -> Z;
  entry_get_prev_index : E -> Z -> option (list Z) -> Z -> res Z;
  entry_set_prev_index :
    E -> Z -> Z -> option (list Z) -> Z -> res (E * option (list Z));
  entry_head_insert : E -> D -> res (Z * E * Z);
  entry_tail_insert : E -> D -> res (Z * E);
  entry_get_delete_head_dma_command_data : E -> E -> Z }.

(** ** Field updates *)
Section setters.
Context {E : Type}.
Definition set_mem (t : ipa_table E) (m : list E) := mk_table (nmi t) (entry_size t) (table_entries t)
  (expn_table_entries t) (tot_tbl_ents t) (table_addr t) (expn_table_addr t)
  (cur_tbl_cnt t) (cur_expn_tbl_cnt t) (dma_help t) (meta t) (meta_entry_size t) m.
Definition set_meta (t : ipa_table E) m := mk_table (nmi t) (entry_size t) (table_entries t)
  (expn_table_entries t) (tot_tbl_ents t) (table_addr t) (expn_table_addr t)
  (cur_tbl_cnt t) (cur_expn_tbl_cnt t) (dma_help t) m (meta_entry_size t) (tbl_mem t).
Definition set_cnts (t : ipa_table E) c x := mk_table (nmi t) (entry_size t) (table_entries t)
  (expn_table_entries t) (tot_tbl_ents t) (table_addr t) (expn_table_addr t)
  c x (dma_help t) (meta t) (meta_entry_size t) (tbl_mem t).
Definition set_entries (t : ipa_table E) te ee tot := mk_table (nmi t) (entry_size t) te
  ee tot (table_addr t) (expn_table_addr t)
  (cur_tbl_cnt t) (cur_expn_tbl_cnt t) (dma_help t) (meta t) (meta_entry_size t) (tbl_mem t).
Definition set_addrs (t : ipa_table E) a x := mk_table (nmi t) (entry_size t) (table_entries t)
  (expn_table_entries t) (tot_tbl_ents t) a x
  (cur_tbl_cnt t) (cur_expn_tbl_cnt t) (dma_help t) (meta t) (meta_entry_size t) (tbl_mem t).
Definition set_dma_help (t : ipa_table E) h := mk_table (nmi t) (entry_size t) (table_entries t)
  (expn_table_entries t) (tot_tbl_ents t) (table_addr t) (expn_table_addr t)
  (cur_tbl_cnt t) (cur_expn_tbl_cnt t) h (meta t) (meta_entry_size t) (tbl_mem t).
End setters.

(** ** Addresses of records *)
Section memory.
Context {E : Type}.
Definition GOTO_REC (t : ipa_table E) (rec_idx : Z) : Z := table_addr t + rec_idx * entry_size t.

(** The slot a record pointer denotes. *)
Definition slot_of (t : ipa_table E) (ptr : Z) : option Z :=
  let off := ptr - table_addr t in
  if (0 <? entry_size t) && (0 <=? off) && (off mod entry_size t =? 0)
  then Some (off / entry_size t) else None.

Definition rec_at (t : ipa_table E) (ptr : Z) : res E :=
  deref (slot_of t ptr ≫= zget (tbl_mem t)).

Definition rec_set (t : ipa_table E) (ptr : Z) (e : E) : res (ipa_table E) :=
  match slot_of t ptr with
  | Some i =>
      if (i <? Z.of_nat (length (tbl_mem t)))
      then Ok (set_mem t (zset (tbl_mem t) i e)) else UB
  | None => UB
  end.
End memory.

(** ** Sizes and initialisation *)
Definition IPA_BASE_TABLE_PERCENTAGE := f64_lit 8 10.
Definition IPA_EXPANSION_TABLE_PERCENTAGE := f64_lit 2 10.
Definition IPA_BASE_TABLE_PCNT_4SRAM := f64_lit 100 100.
Definition IPA_EXPANSION_TABLE_PCNT_4SRAM := f64_lit 43 100.

(** The [while (tmp != 1)] loop; [tmp] is a non-zero [uint16_t] halved at every
    turn, so 16 turns are enough. *)
Fixpoint Get2Power_loop (fuel : nat) (tmp prev curr : Z) : res (Z * Z) :=
  if tmp =? 1 then Ok (prev, curr)
  else match fuel with
       | O => Diverge
       | S f => Get2Power_loop f (Z.shiftr tmp 1) curr (u16 (Z.shiftl curr 1))
       end.

Definition Get2PowerTightUpperBound (num : Z) : res Z :=
  if num =? 0 then Ok 2
  else
    '(prev, curr) ← Get2Power_loop 16 num 0 2;
    Ok (if num =? prev then prev else curr).

Definition GetEvenTightUpperBound (num : Z) : Z :=
  if num =? 0 then 2 else if negb (num mod 2 =? 0) then num + 1 else num.

Definition ipa_table_init {E} (nmi entry_size : Z) (meta : option (list Z))
    (meta_entry_size : Z) : ipa_table E :=
  mk_table nmi entry_size 0 0 0 0 0 0 0 (mk_helpers None None None) meta
    meta_entry_size [].

Definition ipa_table_calculate_entries_num {E} (table : ipa_table E)
    (number_of_entries nmi : Z) : res (Z * ipa_table E) :=
  if number_of_entries >? IPA_TABLE_MAX_ENTRIES then Ok (- EINVAL, table)
  else
    let '(btp, etp) :=
      if nmi =? IPA_NAT_MEM_IN_SRAM
      then (f32_of_f64 IPA_BASE_TABLE_PCNT_4SRAM,
            f32_of_f64 IPA_EXPANSION_TABLE_PCNT_4SRAM)
      else (f32_of_f64 IPA_BASE_TABLE_PERCENTAGE,
            f32_of_f64 IPA_EXPANSION_TABLE_PERCENTAGE) in
    b ← Get2PowerTightUpperBound
          (u16 (sf_trunc (f32_mul (f32_of_Z number_of_entries) btp)));
    let table_entries := u16 b in
    let expn_table_entries :=
      u16 (GetEvenTightUpperBound
             (u16 (sf_trunc (f32_mul (f32_of_Z number_of_entries) etp)))) in
    let tot := u32 (table_entries + expn_table_entries) in
    if tot >? IPA_TABLE_MAX_ENTRIES
    then Ok (- EINVAL, set_entries table (IpaTable.table_entries table)
                         (IpaTable.expn_table_entries table) tot)
    else Ok (0, set_entries table table_entries expn_table_entries tot).

Definition ipa_table_calculate_size {E} (table : ipa_table E) : Z :=
  entry_size table * (table_entries table + expn_table_entries table).

(** Returns the address after the table, and the table with its addresses. *)
Definition ipa_table_calculate_addresses {E} (table : ipa_table E) (base_addr : Z) :
    Z * ipa_table E :=
  let expn := base_addr + entry_size table * table_entries table in
  (expn + entry_size table * expn_table_entries table, set_addrs table base_addr expn).

(** Both byte loops: [entry_size * table_entries] bytes from [table_addr], then
    [entry_size * expn_table_entries] bytes from [expn_table_addr]; record by
    record.  The two areas are consecutive. *)
Definition ipa_table_reset `{EntryOps E D} (table : ipa_table E) : res (ipa_table E) :=
  let te := Z.to_nat (table_entries table) in
  let ee := Z.to_nat (expn_table_entries table) in
  if (length (tbl_mem table) <? te + ee)%nat then UB
  else Ok (set_mem table
             (replicate te entry_zero ++ replicate ee entry_zero
              ++ drop (te + ee) (tbl_mem table))).

(** ** Rule handles

    [MakeEntryHdl] works in a [uint16_t]; [BREAK_RULE_HDL] yields the memory
    type, the expansion bit and the absolute record index. *)
Definition MakeEntryHdl {E} (tbl : ipa_table E) (tbl_entry : Z) : Z :=
  let entry_hdl :=
    if tbl_entry >=? table_entries tbl
    then Z.lor (u16 (Z.shiftl (u16 (tbl_entry - table_entries tbl)) IPA_TABLE_TYPE_BITS))
               IPA_TABLE_TYPE_MASK
    else u16 (Z.shiftl tbl_entry IPA_TABLE_TYPE_BITS) in
  u16 (Z.lor entry_hdl (Z.shiftl (nmi tbl) IPA_TABLE_TYPE_MEM_SHIFT)).

Definition BREAK_RULE_HDL {E} (tbl : ipa_table E) (hdl : Z) : Z * Z * Z :=
  let mt := Z.land (Z.shiftr hdl IPA_TABLE_TYPE_MEM_SHIFT) IPA_TABLE_TYPE_MASK in
  let iet := Z.land hdl IPA_TABLE_TYPE_MASK in
  let indx := Z.land (Z.shiftr hdl IPA_TABLE_TYPE_BITS) IPA_TABLE_INDX_MASK in
  (mt, iet, u16 (indx + (if negb (iet =? 0) then table_entries tbl else 0))).

(** ** DMA commands *)
Definition ipa_table_dma_cmd_helper_init (table_indx : Z)
    (table_type expn_table_type : ipa_table_dma_type) (offset : Z) :
    ipa_table_dma_cmd_helper :=
  mk_helper offset table_type expn_table_type table_indx.

Definition ipa_table_dma_cmd_generate (helper : ipa_table_dma_cmd_helper)
    (is_expn : bool) (entry_offset data : Z) (cmd : ipa_ioc_nat_dma_cmd) :
    res ipa_ioc_nat_dma_cmd :=
  if (0 <=? cmd_entries cmd) && (cmd_entries cmd <? Z.of_nat (length (cmd_dma cmd)))
  then
    let dma := mk_dma_one (hlp_table_indx helper)
                 (if is_expn then hlp_expn_table_type helper else hlp_table_type helper)
                 (u32 (hlp_offset helper + entry_offset)) data in
    Ok (mk_dma_cmd (cmd_entries cmd + 1) (cmd_mem_type cmd)
          (zset (cmd_dma cmd) (cmd_entries cmd) dma))
  else UB.

Definition dma_help_get (h : dma_helpers) (t : dma_help_type) :
    option ipa_table_dma_cmd_helper :=
  match t with
  | HELP_UPDATE_HEAD => help_update_head h
  | HELP_UPDATE_ENTRY => help_update_entry h
  | HELP_DELETE_HEAD => help_delete_head h
  | HELP_UPDATE_MAX => None
  end.

Definition ipa_table_add_dma_cmd {E} (tbl : ipa_table E) (help_type : dma_help_type)
    (rec_ptr rec_index data_for_entry : Z) (cmd : ipa_ioc_nat_dma_cmd) :
    res (Z * ipa_ioc_nat_dma_cmd) :=
  if negb (VALID_DMA_HELP_TYPE help_type) || (rec_ptr =? 0) then Ok (- EINVAL, cmd)
  else
    let tab_sz := u32 (table_entries tbl + expn_table_entries tbl) in
    if rec_index >=? tab_sz then Ok (- EINVAL, cmd)
    else
      let is_expn := rec_index >=? table_entries tbl in
      let entry_offset :=
        u32 (rec_ptr - (if is_expn then expn_table_addr tbl else table_addr tbl)) in
      helper ← deref (dma_help_get (dma_help tbl) help_type);
      cmd' ← ipa_table_dma_cmd_generate helper is_expn entry_offset data_for_entry cmd;
      Ok (0, cmd').

(** ** Access by handle and by index *)
Definition ipa_table_get_entry {E} (table : ipa_table E) (entry_handle : Z) :
    Z * option (Z * Z) :=
  let '(_, is_expn_tbl, rec_index) := BREAK_RULE_HDL table entry_handle in
  if rec_index >=? tot_tbl_ents table then (- EINVAL, None)
  else (0, Some (GOTO_REC table rec_index, rec_index)).

(** Returns NULL (0) for index 0 and for an index beyond the table. *)
Definition ipa_table_get_entry_by_index {E} (table : ipa_table E) (rec_index : Z) : Z :=
  if (rec_index =? 0) || (rec_index >=? tot_tbl_ents table) then 0
  else GOTO_REC table rec_index.

Section operations.
Context `{Ops : EntryOps E D}.

Definition ipa_table_erase_entry (table : ipa_table E) (index : Z) : res (ipa_table E) :=
  table' ← rec_set table (GOTO_REC table index) entry_zero;
  Ok (if index <? table_entries table'
      then set_cnts table' (u16 (cur_tbl_cnt table' - 1)) (cur_expn_tbl_cnt table')
      else set_cnts table' (cur_tbl_cnt table') (u16 (cur_expn_tbl_cnt table' - 1))).

(** ** The walk over the records

    [walk_cb] gets the table, the rule handle, the record and its index, the
    meta record (its [prev_index]; [None] is NULL) and its index, and the
    caller's data.  The loop index is a [uint16_t]: with more than 65536 records
    it never reaches [tot], which the fuel reports as [Diverge]. *)
Definition walk_cb_type (S : Type) : Type :=
  ipa_table E -> Z -> Z -> Z -> option Z -> Z -> S -> res (Z * S).

Fixpoint ipa_table_walk_loop {S} (fuel : nat) (tbl : ipa_table E)
    (when2cb : When2Callback) (walk_cb : walk_cb_type S)
    (tot i rec_ptr : Z) (s : S) : res (Z * S) :=
  if i <? tot then
    match fuel with
    | O => Diverge
    | Datatypes.S f =>
        e ← rec_at tbl rec_ptr;
        let call_back :=
          if entry_is_valid e
          then match when2cb with WHEN_SLOT_FILLED => true | _ => false end
          else match when2cb with WHEN_SLOT_EMPTY => true | _ => false end in
        if call_back then
          let rule_hdl := MakeEntryHdl tbl i in
          let '(meta_ptr, meta_index) :=
            match meta tbl with
            | Some m =>
                if i >=? table_entries tbl
                then (zget m (i - table_entries tbl), u16 (i - table_entries tbl))
                else (None, 0)
            | None => (None, 0)
            end in
          '(ret, s') ← walk_cb tbl rule_hdl rec_ptr i meta_ptr meta_index s;
          if negb (ret =? 0) then Ok (ret, s')
          else ipa_table_walk_loop f tbl when2cb walk_cb tot (u16 (i + 1))
                 (rec_ptr + entry_size tbl) s'
        else ipa_table_walk_loop f tbl when2cb walk_cb tot (u16 (i + 1))
               (rec_ptr + entry_size tbl) s
    end
  else Ok (0, s).

Definition ipa_table_walk {S} (tbl : ipa_table E) (start_index : Z)
    (when2cb : When2Callback) (walk_cb : walk_cb_type S) (s : S) : res (Z * S) :=
  if negb (VALID_WHEN2CALLBACK when2cb) then Ok (- EINVAL, s)
  else
    let tot := u32 (table_entries tbl + expn_table_entries tbl) in
    if start_index >=? tot then Ok (- EINVAL, s)
    else ipa_table_walk_loop (Z.to_nat (tot - start_index)) tbl when2cb walk_cb tot
           start_index (GOTO_REC tbl start_index) s.

(** The callback that returns the first empty slot's index. *)
Definition mt_slot : walk_cb_type unit :=
  fun _ _ _ record_index _ _ u => Ok (record_index, u).

(** Returns the status, the free record's address and its index. *)
Definition FindExpnTblFreeEntry (table : ipa_table E) : res (Z * Z * Z) :=
  '(ret, _) ← ipa_table_walk table (table_entries table) WHEN_SLOT_EMPTY mt_slot tt;
  if ret >? 0
  then let entry_index := u16 ret in Ok (0, GOTO_REC table entry_index, entry_index)
  else Ok (-1, 0, 0).

(** ** Iterators *)
Definition ipa_table_iterator_init (table : ipa_table E) (curr_entry curr_index : Z) :
    res (Z * ipa_table_iterator) :=
  e ← rec_at table curr_entry;
  if negb (entry_is_valid e) then Ok (- EINVAL, iter_zero)
  else
    prev_index ← entry_get_prev_index e curr_index (meta table) (table_entries table);
    let next_index := entry_get_next_index e in
    let prev_entry :=
      if VALID_INDEX prev_index then ipa_table_get_entry_by_index table prev_index else 0 in
    let it := mk_iter prev_index prev_entry curr_index curr_entry next_index 0 in
    if VALID_INDEX prev_index && (prev_entry =? 0) then Ok (- EPERM, it)
    else
      let next_entry :=
        if VALID_INDEX next_index
        then ipa_table_get_entry_by_index table next_index else 0 in
      let it := mk_iter prev_index prev_entry curr_index curr_entry next_index next_entry in
      if VALID_INDEX next_index && (next_entry =? 0) then Ok (- EPERM, it)
      else Ok (0, it).

Definition ipa_table_iterator_next (it : ipa_table_iterator) (table : ipa_table E) :
    res (Z * ipa_table_iterator) :=
  e ← rec_at table (next_entry it);
  let nxt := entry_get_next_index e in
  let nxt_entry :=
    if VALID_INDEX nxt then ipa_table_get_entry_by_index table nxt else 0 in
  let it' := mk_iter (curr_index it) (curr_entry it) (next_index it) (next_entry it)
               nxt nxt_entry in
  if VALID_INDEX nxt && (nxt_entry =? 0) then Ok (- EPERM, it') else Ok (0, it').

(** The [while (1)] walk to the end of a chain.  The successor of a record is a
    function of the table, so a walk longer than the number of records has come
    back to a record and never ends. *)
Fixpoint iterator_end_loop (fuel : nat) (table : ipa_table E) (prev_idx prev_ent : Z) :
    res (Z * Z * Z) :=
  match fuel with
  | O => Diverge
  | Datatypes.S f =>
      e ← rec_at table prev_ent;
      let nxt := entry_get_next_index e in
      if negb (VALID_INDEX nxt) then Ok (0, prev_idx, prev_ent)
      else if nxt =? prev_idx then Ok (-1, prev_idx, prev_ent)
      else iterator_end_loop f table nxt (GOTO_REC table nxt)
  end.

Definition ipa_table_iterator_end (table : ipa_table E) (rec_index rec_ptr : Z) :
    res (Z * ipa_table_iterator) :=
  if rec_ptr =? 0 then Ok (-1, iter_zero)
  else
    '(ret, pi, pe) ← iterator_end_loop (S (length (tbl_mem table))) table rec_index rec_ptr;
    Ok (ret, mk_iter pi pe 0 0 0 0).

Definition ipa_table_iterator_is_head_with_tail (it : ipa_table_iterator) : bool :=
  VALID_INDEX (next_index it) && negb (VALID_INDEX (prev_index it)).

(** ** Insertion *)
Definition InsertHead (table : ipa_table E) (rec_ptr rec_index : Z) (user_data : D)
    (cmd : ipa_ioc_nat_dma_cmd) : res (Z * ipa_table E * ipa_ioc_nat_dma_cmd) :=
  e ← rec_at table rec_ptr;
  '(ret, e', enable_data) ← entry_head_insert e user_data;
  table1 ← rec_set table rec_ptr e';
  if negb (ret =? 0) then Ok (ret, table1, cmd)
  else
    '(_, cmd1) ← ipa_table_add_dma_cmd table1 HELP_UPDATE_HEAD rec_ptr rec_index
                   enable_data cmd;
    Ok (0, set_cnts table1 (u16 (cur_tbl_cnt table1 + 1)) (cur_expn_tbl_cnt table1), cmd1).

(** The last component is the index of the new record ([*rec_index_ptr]). *)
Definition InsertTail (table : ipa_table E) (rec_ptr rec_index : Z) (user_data : D)
    (cmd : ipa_ioc_nat_dma_cmd) : res (Z * ipa_table E * ipa_ioc_nat_dma_cmd * Z) :=
  let is_index_tbl := match meta table with Some _ => true | None => false end in
  '(ret, it) ← ipa_table_iterator_end table rec_index rec_ptr;
  if negb (ret =? 0) then Ok (ret, table, cmd, rec_index)
  else
    '(ret, curr_ent, curr_idx) ← FindExpnTblFreeEntry table;
    if negb (ret =? 0) then Ok (ret, table, cmd, rec_index)
    else
      e ← rec_at table curr_ent;
      '(ret, e1, enable_data) ←
        (if is_index_tbl
         then '(r, x) ← entry_tail_insert e user_data; Ok (r, x, 0)
         else entry_head_insert e user_data);
      table1 ← rec_set table curr_ent e1;
      if negb (ret =? 0) then Ok (ret, table1, cmd, rec_index)
      else
        '(e2, meta') ← entry_set_prev_index e1 curr_idx (prev_index it) (meta table1)
                         (table_entries table1);
        table2 ← rec_set (set_meta table1 meta') curr_ent e2;
        '(_, cmd1) ← (if is_index_tbl then Ok (0, cmd)
                      else ipa_table_add_dma_cmd table2 HELP_UPDATE_HEAD curr_ent curr_idx
                             enable_data cmd);
        '(_, cmd2) ← ipa_table_add_dma_cmd table2 HELP_UPDATE_ENTRY (prev_entry it)
                       (prev_index it) curr_idx cmd1;
        Ok (0, set_cnts table2 (cur_tbl_cnt table2) (u16 (cur_expn_tbl_cnt table2 + 1)),
            cmd2, curr_idx).

(** Result: status, table, command, [*rec_index_ptr], [*rule_hdl] when set. *)
Definition ipa_table_add_entry (table : ipa_table E) (user_data : D) (rec_index : Z)
    (cmd : ipa_ioc_nat_dma_cmd) :
    res (Z * ipa_table E * ipa_ioc_nat_dma_cmd * Z * option Z) :=
  let rec_ptr := GOTO_REC table rec_index in
  e ← rec_at table rec_ptr;
  '(ret, table1, cmd1, idx1) ←
    (if negb (entry_is_valid e)
     then '(ret, t, c) ← InsertHead table rec_ptr rec_index user_data cmd;
          Ok (ret, t, c, rec_index)
     else InsertTail table rec_ptr rec_index user_data cmd);
  if negb (ret =? 0) then Ok (ret, table1, cmd1, idx1, None)
  else Ok (0, table1, cmd1, idx1, Some (MakeEntryHdl table1 idx1)).

(** ** Deletion *)
Definition ipa_table_create_delete_command (table : ipa_table E)
    (cmd : ipa_ioc_nat_dma_cmd) (it : ipa_table_iterator) : res ipa_ioc_nat_dma_cmd :=
  if negb (VALID_INDEX (prev_index it)) then
    '(data, ht) ←
      (if VALID_INDEX (next_index it)
       then c ← rec_at table (curr_entry it);
            n ← rec_at table (next_entry it);
            Ok (entry_get_delete_head_dma_command_data c n, HELP_DELETE_HEAD)
       else Ok (0, HELP_UPDATE_HEAD));
    '(_, cmd') ← ipa_table_add_dma_cmd table ht (curr_entry it) (curr_index it) data cmd;
    Ok cmd'
  else
    '(_, cmd') ← ipa_table_add_dma_cmd table HELP_UPDATE_ENTRY (prev_entry it)
                   (prev_index it) (next_index it) cmd;
    Ok cmd'.

Definition ipa_table_delete_entry (table : ipa_table E) (it : ipa_table_iterator)
    (is_prev_empty : bool) : res (ipa_table E) :=
  table1 ←
    (if VALID_INDEX (next_index it) then
       e ← rec_at table (next_entry it);
       '(e', meta') ← entry_set_prev_index e (next_index it) (prev_index it) (meta table)
                        (table_entries table);
       rec_set (set_meta table meta') (next_entry it) e'
     else if is_prev_empty then
       if prev_entry it =? 0 then Ok table
       else
         t ← rec_set table (prev_entry it) entry_zero;
         Ok (set_cnts t (u16 (cur_tbl_cnt t - 1)) (cur_expn_tbl_cnt t))
     else Ok table);
  ipa_table_erase_entry table1 (curr_index it).
End operations.

(** ** Sizing the SRAM tables

    [nat_table] and [index_table] are scratch tables of the same numbers of
    entries; [size] is an [int] compared with the [uint32_t] [sram_size].  The
    counter [tot] is a [uint16_t]: after 65536 turns it has taken every value,
    and a loop that has not stopped by then never does. *)
Fixpoint calc_num_sram_loop (fuel : nat)
    (sram_size table1_ent_size table2_ent_size tot num_entries : Z) : res Z :=
  match fuel with
  | O => Diverge
  | S f =>
      b ← Get2PowerTightUpperBound
            (u16 (sf_trunc (f64_mul (f64_of_Z tot) IPA_BASE_TABLE_PCNT_4SRAM)));
      let te := u16 b in
      let ee := u16 (GetEvenTightUpperBound
                  (u16 (sf_trunc (f64_mul (f64_of_Z tot)
                                          IPA_EXPANSION_TABLE_PCNT_4SRAM)))) in
      let nat_table : ipa_table unit :=
        set_entries (ipa_table_init IPA_NAT_MEM_IN_DDR table1_ent_size None 0) te ee 0 in
      let index_table : ipa_table unit :=
        set_entries (ipa_table_init IPA_NAT_MEM_IN_DDR table2_ent_size None 0) te ee 0 in
      let size := ipa_table_calculate_size nat_table
                  + ipa_table_calculate_size index_table in
      if u32 size >? sram_size then Ok num_entries
      else calc_num_sram_loop f sram_size table1_ent_size table2_ent_size
             (u16 (tot + 1)) tot
  end.

Definition ipa_calc_num_sram_table_entries
    (sram_size table1_ent_size table2_ent_size : Z) : res (Z * Z) :=
  num ← calc_num_sram_loop (Z.to_nat 65536) sram_size table1_ent_size table2_ent_size 1 0;
  Ok (if num =? 0 then -1 else 0, num).
