(* ===== verification/IpaTableRep.v ===== *)
(** * Correctness of the generic table ([ipa_table.c])

    [table_ok] relates a table to its map of chains ([Chain.rep]); the laws a
    record type has to satisfy are the class [EntryLaws].  The lemmas give the
    result of every table operation on a table that satisfies [table_ok], and
    the [commit_*] lemmas the table after the hardware has written the fields
    the commands name. *)

From Stdlib Require Import ZArith Lia.
From stdpp Require Import prelude gmap list numbers.
From S2P Require Import Prelude CFloat IpaTable Chain.

Local Open Scope Z_scope.

(** ** Representation *)
Definition count_valid `{EntryOps E D} (l : list E) : Z :=
  Z.of_nat (length (filter (fun e => entry_is_valid e = true) l)).

Definition view `{EntryOps E D} (t : ipa_table E) : links := fun i =>
  match zget (tbl_mem t) i with
  | Some e =>
      match entry_get_prev_index e i (meta t) (table_entries t) with
      | Ok p => Some (Node (entry_is_valid e) (entry_get_next_index e) p)
      | _ => None
      end
  | None => None
  end.

Record geometry {E} (t : ipa_table E) : Prop := {
  geo_size : 0 < entry_size t <= 64;
  geo_addr : 0 < table_addr t;
  geo_base : 2 <= table_entries t <= 4096;
  geo_expn : 2 <= expn_table_entries t <= 4096;
  geo_tot : tot_tbl_ents t = table_entries t + expn_table_entries t;
  geo_max : tot_tbl_ents t <= IPA_TABLE_MAX_ENTRIES;
  geo_mem : Z.of_nat (length (tbl_mem t)) = tot_tbl_ents t;
  geo_expn_addr : expn_table_addr t = table_addr t + entry_size t * table_entries t;
  geo_nmi : nmi t = IPA_NAT_MEM_IN_DDR \/ nmi t = IPA_NAT_MEM_IN_SRAM }.

(** What a record type promises to the table code.  [wf_entry] bounds the
    fields; [meta_ok] says that the meta array fits [ee] expansion records. *)
Class EntryLaws `{Ops : EntryOps E D} (wf_entry : E -> Prop)
    (meta_ok : option (list Z) -> Z -> Prop) : Prop := {
  law_wf_zero : wf_entry entry_zero;
  law_zero_valid : entry_is_valid entry_zero = false;
  law_zero_next : entry_get_next_index entry_zero = 0;
  law_next_range : forall e, wf_entry e -> 0 <= entry_get_next_index e < 2 ^ 16;
  law_get_prev : forall e i m B ee, meta_ok m ee -> 0 <= i < B + ee ->
    exists p, entry_get_prev_index e i m B = Ok p;
  law_zero_prev_base : forall i m B, i < B -> entry_get_prev_index entry_zero i m B = Ok 0;
  law_set_prev : forall e i p m B ee, wf_entry e -> meta_ok m ee ->
    B <= i < B + ee -> 0 <= p < 2 ^ 16 ->
    exists e' m', entry_set_prev_index e i p m B = Ok (e', m') /\
      wf_entry e' /\ meta_ok m' ee /\
      entry_is_valid e' = entry_is_valid e /\
      entry_get_next_index e' = entry_get_next_index e /\
      entry_get_prev_index e' i m' B = Ok p /\
      (forall e2 j, 0 <= j -> j <> i ->
         entry_get_prev_index e2 j m' B = entry_get_prev_index e2 j m B) }.

Record table_ok `{Ops : EntryOps E D} (wf_entry : E -> Prop)
    (meta_ok : option (list Z) -> Z -> Prop)
    (t : ipa_table E) (chains : gmap Z (list Z)) : Prop := {
  ok_geo : geometry t;
  ok_meta : meta_ok (meta t) (expn_table_entries t);
  ok_rep : rep (table_entries t) (tot_tbl_ents t) (view t) chains;
  ok_free : forall i e, zget (tbl_mem t) i = Some e -> entry_is_valid e = false -> e = entry_zero;
  ok_wf : Forall wf_entry (tbl_mem t);
  ok_cnt : cur_tbl_cnt t = count_valid (take (Z.to_nat (table_entries t)) (tbl_mem t));
  ok_expn_cnt :
    cur_expn_tbl_cnt t = count_valid (drop (Z.to_nat (table_entries t)) (tbl_mem t)) }.

(** ** Commands *)
Definition cmd_posted (cmd : ipa_ioc_nat_dma_cmd) : list ipa_ioc_nat_dma_one :=
  take (Z.to_nat (cmd_entries cmd)) (cmd_dma cmd).

Definition cmd_room (cmd : ipa_ioc_nat_dma_cmd) (n : Z) : Prop :=
  0 <= cmd_entries cmd /\ cmd_entries cmd + n <= Z.of_nat (length (cmd_dma cmd)).

(** Byte offset of slot [i] from the start of its (base or expansion) area. *)
Definition region_offset {E} (t : ipa_table E) (i : Z) : Z :=
  (if i >=? table_entries t then i - table_entries t else i) * entry_size t.

(** The command that writes [data] in slot [i] through the helper [h]. *)
Definition slot_dma {E} (t : ipa_table E) (h : ipa_table_dma_cmd_helper) (i data : Z) :
    ipa_ioc_nat_dma_one :=
  mk_dma_one (hlp_table_indx h)
    (if i >=? table_entries t then hlp_expn_table_type h else hlp_table_type h)
    (u32 (hlp_offset h + region_offset t i)) data.

(** [cmd'] is [cmd] with [ds] appended. *)
Definition cmd_appended (cmd cmd' : ipa_ioc_nat_dma_cmd) (ds : list ipa_ioc_nat_dma_one) : Prop :=
  cmd_posted cmd' = cmd_posted cmd ++ ds /\ cmd_mem_type cmd' = cmd_mem_type cmd /\
  cmd_entries cmd' = cmd_entries cmd + Z.of_nat (length ds) /\
  length (cmd_dma cmd') = length (cmd_dma cmd).

(** ** Addresses *)
Section addresses.
Context {E : Type}.
Implicit Types t : ipa_table E.

Lemma slot_of_goto t i : 0 < entry_size t -> 0 <= i -> slot_of t (GOTO_REC t i) = Some i.
Proof.
  intros Hs Hi. unfold slot_of, GOTO_REC.
  replace (table_addr t + i * entry_size t - table_addr t) with (i * entry_size t) by lia.
  rewrite Z.mod_mul, Z.div_mul by lia.
  rewrite (proj2 (Z.ltb_lt _ _)), (proj2 (Z.leb_le _ _)) by nia. done.
Qed.

Lemma rec_at_goto t i : 0 < entry_size t -> 0 <= i ->
  rec_at t (GOTO_REC t i) = deref (zget (tbl_mem t) i).
Proof. intros. unfold rec_at. by rewrite slot_of_goto. Qed.

Lemma rec_set_goto t i e : 0 < entry_size t -> 0 <= i < Z.of_nat (length (tbl_mem t)) ->
  rec_set t (GOTO_REC t i) e = Ok (set_mem t (zset (tbl_mem t) i e)).
Proof.
  intros. unfold rec_set. rewrite slot_of_goto by lia.
  by rewrite (proj2 (Z.ltb_lt _ _)) by lia.
Qed.

Lemma goto_nonzero t i : geometry t -> 0 <= i -> (GOTO_REC t i =? 0) = false.
Proof. intros [? ? _ _ _ _ _ _ _] Hi. apply Z.eqb_neq. unfold GOTO_REC. nia. Qed.

Lemma get_entry_by_index_goto t i : i <> 0 -> i < tot_tbl_ents t ->
  ipa_table_get_entry_by_index t i = GOTO_REC t i.
Proof.
  intros H0 Hi. unfold ipa_table_get_entry_by_index.
  rewrite (proj2 (Z.eqb_neq _ _)) by done. rewrite Z.geb_leb.
  by rewrite (proj2 (Z.leb_gt _ _)) by lia.
Qed.

Lemma VALID_INDEX_true i : VALID_INDEX i = true <-> i <> 0.
Proof. unfold VALID_INDEX, IPA_TABLE_INVALID_ENTRY. rewrite negb_true_iff. lia. Qed.

Lemma VALID_INDEX_false i : VALID_INDEX i = false <-> i = 0.
Proof. unfold VALID_INDEX, IPA_TABLE_INVALID_ENTRY. rewrite negb_false_iff. lia. Qed.
End addresses.

(** ** Appending commands *)
Lemma add_dma_cmd_spec {E} (t : ipa_table E) ht h i data cmd :
  geometry t -> 0 <= i < tot_tbl_ents t -> cmd_room cmd 1 ->
  VALID_DMA_HELP_TYPE ht = true -> dma_help_get (dma_help t) ht = Some h ->
  exists cmd', ipa_table_add_dma_cmd t ht (GOTO_REC t i) i data cmd = Ok (0, cmd') /\
    cmd_appended cmd cmd' [slot_dma t h i data].
Proof.
  intros G Hi [Hr1 Hr2] Hv Hh. assert (G' := G).
  destruct G' as [Hsz Haddr Hb He Htot Hmax Hmem Hea _].
  unfold IPA_TABLE_MAX_ENTRIES in Hmax.
  unfold ipa_table_add_dma_cmd. rewrite Hv, goto_nonzero by (done || lia). cbn [negb orb].
  rewrite wrap_small by lia. rewrite Z.geb_leb, (proj2 (Z.leb_gt _ _)) by lia.
  rewrite Hh. cbn [deref mbind res_bind].
  unfold ipa_table_dma_cmd_generate.
  rewrite (proj2 (Z.leb_le _ _)), (proj2 (Z.ltb_lt _ _)) by lia. cbn [andb mbind res_bind].
  eexists. split; [done|]. unfold cmd_appended, cmd_posted. cbn.
  unfold zset. rewrite (proj2 (Z.leb_le _ _)) by lia.
  replace (Z.to_nat (cmd_entries cmd + 1)) with (S (Z.to_nat (cmd_entries cmd))) by lia.
  split_and!; [|done|lia|apply length_insert].
  assert (Hlt : (Z.to_nat (cmd_entries cmd) < length (cmd_dma cmd))%nat) by lia.
  rewrite (take_S_r _ _ _ (list_lookup_insert_eq _ _ _ Hlt)).
  rewrite take_insert_ge by lia. f_equal. f_equal. unfold slot_dma, region_offset, GOTO_REC.
  f_equal. assert (Hsm : 0 <= entry_size t * 5120 <= 327680) by lia.
  case_match eqn:Hge; rewrite Z.geb_leb in Hge; zify_bool.
  - f_equal. rewrite wrap_small by nia. rewrite Hea. nia.
  - f_equal. rewrite wrap_small by nia. nia.
Qed.

Lemma cmd_appended_trans c1 c2 c3 d1 d2 :
  cmd_appended c1 c2 d1 -> cmd_appended c2 c3 d2 -> cmd_appended c1 c3 (d1 ++ d2).
Proof.
  intros (P1 & M1 & N1 & L1) (P2 & M2 & N2 & L2). unfold cmd_appended.
  rewrite P2, P1, M2, M1, N2, N1, L2, L1, <- app_assoc, length_app. split_and!; try done. lia.
Qed.

Lemma cmd_appended_room c1 c2 ds n m :
  cmd_appended c1 c2 ds -> cmd_room c1 n -> m + Z.of_nat (length ds) <= n -> cmd_room c2 m.
Proof. intros (_ & _ & N & L) [? ?] ?. unfold cmd_room. rewrite N, L. lia. Qed.

Lemma cmd_room_mono c n m : cmd_room c n -> m <= n -> cmd_room c m.
Proof. intros [? ?] ?. split; lia. Qed.

(** ** Searching and walking *)
Section table_lemmas.
Context `{Ops : EntryOps E D} {wf_entry : E -> Prop}
  {meta_ok : option (list Z) -> Z -> Prop} `{!EntryLaws wf_entry meta_ok}.
Implicit Types t : ipa_table E.

Lemma table_mem_lookup t i : geometry t -> 0 <= i < tot_tbl_ents t ->
  exists e, zget (tbl_mem t) i = Some e.
Proof. intros G Hi. apply zget_lt_Some. rewrite (geo_mem _ G). done. Qed.

Lemma view_node t chains i e :
  table_ok wf_entry meta_ok t chains -> zget (tbl_mem t) i = Some e ->
  exists p, entry_get_prev_index e i (meta t) (table_entries t) = Ok p /\
    view t i = Some (Node (entry_is_valid e) (entry_get_next_index e) p).
Proof.
  intros HT He. assert (G := ok_geo _ _ _ _ HT).
  pose proof (zget_Some_lt _ _ _ He) as Hi. rewrite (geo_mem _ G), (geo_tot _ G) in Hi.
  destruct (law_get_prev e i (meta t) (table_entries t) (expn_table_entries t)) as [p Hp];
    [apply HT|done|].
  exists p. split; [done|]. unfold view. by rewrite He, Hp.
Qed.

Lemma view_inv t i n : view t i = Some n ->
  exists e, zget (tbl_mem t) i = Some e /\ nd_valid n = entry_is_valid e /\
    nd_next n = entry_get_next_index e /\
    entry_get_prev_index e i (meta t) (table_entries t) = Ok (nd_prev n).
Proof.
  unfold view. destruct (zget (tbl_mem t) i) as [e|]; [|done].
  destruct (entry_get_prev_index _ _ _ _) eqn:Hp; try done.
  intros [= <-]. by exists e.
Qed.

(** The walk with [mt_slot] stops at the first empty slot, if there is one. *)
Definition first_empty t (lo i : Z) : Prop :=
  lo <= i < tot_tbl_ents t /\
  (exists e, zget (tbl_mem t) i = Some e /\ entry_is_valid e = false) /\
  (forall j e, lo <= j < i -> zget (tbl_mem t) j = Some e -> entry_is_valid e = true).

Definition none_empty t (lo : Z) : Prop :=
  forall j e, lo <= j < tot_tbl_ents t -> zget (tbl_mem t) j = Some e -> entry_is_valid e = true.

Lemma walk_mt_slot t fuel lo :
  geometry t -> 0 < lo <= tot_tbl_ents t -> (Z.to_nat (tot_tbl_ents t - lo) <= fuel)%nat ->
  exists ret, ipa_table_walk_loop fuel t WHEN_SLOT_EMPTY mt_slot (tot_tbl_ents t) lo
                (GOTO_REC t lo) tt = Ok (ret, tt) /\
    ((first_empty t lo ret) \/ (ret = 0 /\ none_empty t lo)).
Proof.
  intros G. assert (G' := G).
  destruct G' as [Hsz Haddr Hb He Htot Hmax Hmem Hea _]. unfold IPA_TABLE_MAX_ENTRIES in Hmax.
  revert lo. induction fuel as [|fuel IH]; intros lo Hlo Hf; cbn [ipa_table_walk_loop].
  - assert (lo = tot_tbl_ents t) as -> by lia. rewrite Z.ltb_irrefl.
    exists 0. split; [done|]. right. split; [done|]. intros j e Hj. lia.
  - destruct (lo <? tot_tbl_ents t) eqn:Hlt; zify_bool.
    2: { exists 0. split; [done|]. right. split; [done|]. intros j e Hj. lia. }
    destruct (table_mem_lookup t lo G) as [e Hle]; [lia|].
    rewrite rec_at_goto by lia. rewrite Hle. cbn [deref mbind res_bind].
    destruct (entry_is_valid e) eqn:Hv.
    + replace (GOTO_REC t lo + entry_size t) with (GOTO_REC t (lo + 1)) by (unfold GOTO_REC; lia).
      rewrite wrap_small by lia.
      destruct (IH (lo + 1)) as (ret & Hret & Hcase); [lia..|].
      exists ret. split; [done|]. destruct Hcase as [(Hr & Hex & Hall)|[-> Hnone]].
      * left. split; [lia|]. split; [done|]. intros j e' Hj Hje.
        destruct (decide (j = lo)) as [->|]; [congruence|]. apply (Hall j); [lia|done].
      * right. split; [done|]. intros j e' Hj Hje.
        destruct (decide (j = lo)) as [->|]; [congruence|]. apply (Hnone j); [lia|done].
    + exists lo. split.
      2: { left. split; [lia|]. split; [eauto|]. intros j e' Hj. lia. }
      destruct (meta t); [destruct (lo >=? table_entries t)|];
        cbn [mt_slot mbind res_bind mret res_ret]; unfold mt_slot; cbn;
        rewrite (proj2 (Z.eqb_neq lo 0)) by lia; done.
Qed.

Lemma FindExpnTblFreeEntry_spec t :
  geometry t ->
  (exists f, FindExpnTblFreeEntry t = Ok (0, GOTO_REC t f, f) /\ first_empty t (table_entries t) f) \/
  (FindExpnTblFreeEntry t = Ok (-1, 0, 0) /\ none_empty t (table_entries t)).
Proof.
  intros G. assert (G' := G).
  destruct G' as [Hsz Haddr Hb He Htot Hmax Hmem Hea _]. unfold IPA_TABLE_MAX_ENTRIES in Hmax.
  destruct (walk_mt_slot t (Z.to_nat (tot_tbl_ents t - table_entries t)) (table_entries t) G)
    as (ret & Hret & Hcase); [lia..|].
  unfold FindExpnTblFreeEntry, ipa_table_walk. cbn [VALID_WHEN2CALLBACK negb].
  rewrite wrap_small by lia. rewrite <- Htot. rewrite Z.geb_leb, (proj2 (Z.leb_gt _ _)) by lia.
  rewrite Hret. cbn [mbind res_bind].
  destruct Hcase as [Hf|[-> Hn]]; [left|by right].
  exists ret. assert (Hf' := Hf). destruct Hf' as [? _].
  rewrite (proj2 (Z.gtb_lt ret 0)) by lia. rewrite wrap_small by lia. done.
Qed.

(** ** The end of a chain *)
Lemma iterator_end_loop_spec t chains fuel p i l :
  table_ok wf_entry meta_ok t chains -> chain (view t) p i l -> NoDup (i :: l) ->
  Forall (fun j => 0 <= j < tot_tbl_ents t) (i :: l) -> Forall (fun j => 0 < j) l ->
  (length l < fuel)%nat ->
  iterator_end_loop fuel t i (GOTO_REC t i) = Ok (0, chain_end i l, GOTO_REC t (chain_end i l)).
Proof.
  intros HT. assert (G := ok_geo _ _ _ _ HT). destruct G as [Hsz _ _ _ _ _ _ _ _].
  revert fuel p i. induction l as [|j l IH]; intros fuel p i Hc Hnd Hr Hpos Hf;
    (destruct fuel as [|fuel]; [cbn in Hf; lia|]); cbn [iterator_end_loop].
  - destruct Hc as (n & Hn & Hv & _ & Hnx).
    destruct (view_inv _ _ _ Hn) as (e & He & _ & Hne & _).
    apply list.Forall_cons in Hr as [Hi _].
    rewrite rec_at_goto, He by lia. cbn [deref mbind res_bind].
    rewrite <- Hne, Hnx. done.
  - destruct Hc as (n & Hn & Hv & _ & Hnx & Hc).
    destruct (view_inv _ _ _ Hn) as (e & He & _ & Hne & _).
    apply list.Forall_cons in Hr as [Hi Hr]. apply list.Forall_cons in Hpos as [Hj Hpos].
    rewrite rec_at_goto, He by lia. cbn [deref mbind res_bind].
    rewrite <- Hne, Hnx. rewrite (proj2 (VALID_INDEX_true j)) by lia.
    apply list.NoDup_cons in Hnd as [Hni Hnd].
    rewrite (proj2 (Z.eqb_neq j i)) by (intros ->; apply Hni; by left). cbn [negb].
    rewrite chain_end_cons. eapply IH; try done. cbn in Hf. lia.
Qed.

Lemma chain_slots t chains b l :
  table_ok wf_entry meta_ok t chains -> chains !! b = Some l ->
  Forall (fun j => 0 < j < tot_tbl_ents t) (b :: l).
Proof.
  intros HT Hl. assert (G := ok_geo _ _ _ _ HT).
  destruct (rep_chain _ _ _ _ (ok_rep _ _ _ _ HT) _ _ Hl) as (Hb & _ & _ & Hr).
  destruct G. constructor; [lia|]. eapply list.Forall_impl; [done|]. cbn. lia.
Qed.

Lemma chain_end_slot t chains b l :
  table_ok wf_entry meta_ok t chains -> chains !! b = Some l ->
  0 < chain_end b l < tot_tbl_ents t.
Proof.
  intros HT Hl. pose proof (chain_slots _ _ _ _ HT Hl) as H.
  rewrite list.Forall_forall in H. apply H, chain_end_elem.
Qed.

Lemma iterator_end_spec t chains b l :
  table_ok wf_entry meta_ok t chains -> chains !! b = Some l ->
  ipa_table_iterator_end t b (GOTO_REC t b) =
    Ok (0, mk_iter (chain_end b l) (GOTO_REC t (chain_end b l)) 0 0 0 0).
Proof.
  intros HT Hl. assert (G := ok_geo _ _ _ _ HT). assert (HR := ok_rep _ _ _ _ HT).
  pose proof (chain_slots _ _ _ _ HT Hl) as Hs.
  destruct (rep_chain _ _ _ _ HR _ _ Hl) as (Hb & Hc & _).
  unfold ipa_table_iterator_end. rewrite goto_nonzero by (done || lia).
  assert (Hlen : Z.of_nat (length l) <= tot_tbl_ents t - table_entries t).
  { eapply rep_chain_length; try done. destruct G. lia. }
  rewrite (iterator_end_loop_spec t chains (S (length (tbl_mem t))) 0 b l); try done.
  - eapply rep_nodup_full; done.
  - eapply list.Forall_impl; [done|]. cbn. lia.
  - apply list.Forall_cons in Hs as [_ Hs]. eapply list.Forall_impl; [done|]. cbn. lia.
  - destruct G. lia.
Qed.

(** A base slot is occupied exactly when it heads a chain. *)
Lemma base_lookup t chains b :
  table_ok wf_entry meta_ok t chains -> 0 <= b < table_entries t ->
  exists e, zget (tbl_mem t) b = Some e /\
    (entry_is_valid e = true <-> is_Some (chains !! b)).
Proof.
  intros HT Hb. assert (G := ok_geo _ _ _ _ HT).
  destruct (table_mem_lookup t b G) as [e He]; [destruct G; lia|].
  exists e. split; [done|].
  destruct (view_node _ _ _ _ HT He) as (p & Hp & Hv).
  rewrite <- (rep_valid_base (ok_rep _ _ _ _ HT) b Hb). rewrite Hv. split.
  - intros Hval. eexists. split; [done|]. done.
  - intros (n & [= <-] & H). done.
Qed.
End table_lemmas.

(** ** Counting valid records *)
Section counting.
Context `{Ops : EntryOps E D}.
Implicit Types l : list E.

Lemma count_valid_nonneg l : 0 <= count_valid l <= Z.of_nat (length l).
Proof. unfold count_valid. pose proof (length_filter (fun e => entry_is_valid e = true) l). lia. Qed.

Lemma count_valid_cons e l : count_valid (e :: l) = b2z (entry_is_valid e) + count_valid l.
Proof.
  unfold count_valid, b2z. rewrite filter_cons. case_decide as H.
  - rewrite H. cbn. lia.
  - destruct (entry_is_valid e); [done|]. lia.
Qed.

Lemma count_valid_insert l (k : nat) e e0 : l !! k = Some e0 ->
  count_valid (<[k := e]> l)
  = count_valid l - b2z (entry_is_valid e0) + b2z (entry_is_valid e).
Proof.
  revert k. induction l as [|x l IH]; intros k Hk; [done|].
  destruct k as [|k]; cbn in *.
  - injection Hk as ->. rewrite !count_valid_cons. lia.
  - rewrite !count_valid_cons, IH by done. lia.
Qed.

Lemma count_valid_all l : (forall e, e ∈ l -> entry_is_valid e = true) ->
  count_valid l = Z.of_nat (length l).
Proof.
  induction l as [|e l IH]; intros H; [done|].
  rewrite count_valid_cons, IH by (intros; apply H; by right).
  rewrite (H e) by (by left). cbn [b2z length]. lia.
Qed.

(** Updating one slot changes the count of its own area only. *)
Lemma count_take_zset l B i e e0 : 0 <= B -> zget l i = Some e0 ->
  count_valid (take (Z.to_nat B) (zset l i e))
  = count_valid (take (Z.to_nat B) l)
    + (if i <? B then b2z (entry_is_valid e) - b2z (entry_is_valid e0) else 0).
Proof.
  intros HB He. pose proof (zget_Some_lt _ _ _ He) as Hi. unfold zget, zset in *.
  rewrite (proj2 (Z.leb_le _ _)) in * by lia. destruct (i <? B) eqn:HiB; zify_bool.
  - rewrite take_insert_lt by lia. rewrite (count_valid_insert _ _ _ e0); [lia|].
    rewrite lookup_take_lt by lia. done.
  - rewrite take_insert_ge by lia. lia.
Qed.

Lemma count_drop_zset l B i e e0 : 0 <= B -> zget l i = Some e0 ->
  count_valid (drop (Z.to_nat B) (zset l i e))
  = count_valid (drop (Z.to_nat B) l)
    + (if i <? B then 0 else b2z (entry_is_valid e) - b2z (entry_is_valid e0)).
Proof.
  intros HB He. pose proof (zget_Some_lt _ _ _ He) as Hi. unfold zget, zset in *.
  rewrite (proj2 (Z.leb_le _ _)) in * by lia. destruct (i <? B) eqn:HiB; zify_bool.
  - rewrite drop_insert_lt by lia. lia.
  - rewrite drop_insert_ge by lia. rewrite (count_valid_insert _ _ _ e0); [lia|].
    rewrite lookup_drop.
    replace (Z.to_nat B + (Z.to_nat i - Z.to_nat B))%nat with (Z.to_nat i) by lia. done.
Qed.
End counting.

(** ** Geometry of an updated table *)
Section geometry_updates.
Context {E : Type}.
Implicit Types t : ipa_table E.

Lemma geometry_set_mem t m : length m = length (tbl_mem t) -> geometry t -> geometry (set_mem t m).
Proof. intros Hl []. split; cbn; try done. by rewrite Hl. Qed.
Lemma geometry_set_meta t m : geometry t -> geometry (set_meta t m).
Proof. intros []. by split. Qed.
Lemma geometry_set_cnts t a b : geometry t -> geometry (set_cnts t a b).
Proof. intros []. by split. Qed.
End geometry_updates.

#[export] Hint Resolve geometry_set_mem geometry_set_meta geometry_set_cnts zset_length : cint.

(** ** Insertion *)
Section insertion.
Context `{Ops : EntryOps E D} {wf_entry : E -> Prop}
  {meta_ok : option (list Z) -> Z -> Prop} `{!EntryLaws wf_entry meta_ok}.
Implicit Types t : ipa_table E.

Lemma cnt_bounds t chains : table_ok wf_entry meta_ok t chains ->
  0 <= cur_tbl_cnt t <= table_entries t /\ 0 <= cur_expn_tbl_cnt t <= expn_table_entries t.
Proof.
  intros HT. destruct (ok_geo _ _ _ _ HT).
  rewrite (ok_cnt _ _ _ _ HT), (ok_expn_cnt _ _ _ _ HT).
  pose proof (count_valid_nonneg (take (Z.to_nat (table_entries t)) (tbl_mem t))).
  pose proof (count_valid_nonneg (drop (Z.to_nat (table_entries t)) (tbl_mem t))).
  rewrite length_take, length_drop in *. lia.
Qed.

Lemma add_entry_head t chains d b h e1 data cmd :
  table_ok wf_entry meta_ok t chains -> 0 < b < table_entries t -> chains !! b = None ->
  cmd_room cmd 1 -> help_update_head (dma_help t) = Some h ->
  entry_head_insert entry_zero d = Ok (0, e1, data) ->
  exists cmd', ipa_table_add_entry t d b cmd =
      Ok (0, set_cnts (set_mem t (zset (tbl_mem t) b e1)) (cur_tbl_cnt t + 1)
                      (cur_expn_tbl_cnt t),
          cmd', b, Some (MakeEntryHdl t b)) /\
    cmd_appended cmd cmd' [slot_dma t h b data].
Proof.
  intros HT Hb Hnone Hroom Hh Hins. assert (G := ok_geo _ _ _ _ HT).
  pose proof (cnt_bounds _ _ HT) as [Hc _].
  destruct (base_lookup t chains b HT) as (e & He & Hval); [lia|].
  destruct (entry_is_valid e) eqn:Hv; [destruct Hval as [[? ?] _]; congruence|].
  pose proof (ok_free _ _ _ _ HT _ _ He Hv) as ->.
  pose proof (zget_Some_lt _ _ _ He) as Hbl.
  assert (G' := G). destruct G' as [Hsz _ Hte Hee Htot _ _ _ _].
  destruct (add_dma_cmd_spec (set_mem t (zset (tbl_mem t) b e1)) HELP_UPDATE_HEAD h b data cmd)
    as (cmd' & Hcmd & Happ); [auto with cint|cbn; lia|done..|].
  exists cmd'. split; [|done].
  unfold ipa_table_add_entry, InsertHead.
  rewrite !rec_at_goto, He by lia. cbn [deref mbind res_bind].
  rewrite Hv. cbn [negb]. rewrite Hins. cbn [mbind res_bind].
  rewrite rec_set_goto by lia. cbn [mbind res_bind].
  change (GOTO_REC t b) with (GOTO_REC (set_mem t (zset (tbl_mem t) b e1)) b).
  rewrite Hcmd. cbn -[wrap]. by rewrite wrap_small by lia.
Qed.

Lemma add_entry_full t chains d b l cmd :
  table_ok wf_entry meta_ok t chains -> 0 < b < table_entries t -> chains !! b = Some l ->
  none_empty t (table_entries t) ->
  ipa_table_add_entry t d b cmd = Ok (-1, t, cmd, b, None).
Proof.
  intros HT Hb Hl Hfull. assert (G := ok_geo _ _ _ _ HT).
  destruct (base_lookup t chains b HT) as (e & He & Hval); [lia|].
  assert (G' := G). destruct G' as [Hsz _ Hte Hee Htot _ _ _ _].
  unfold ipa_table_add_entry, InsertTail.
  rewrite !rec_at_goto, He by lia. cbn [deref mbind res_bind].
  rewrite (proj2 Hval) by eauto. cbn [negb].
  rewrite (iterator_end_spec t chains b l HT Hl). cbn [mbind res_bind].
  destruct (FindExpnTblFreeEntry_spec t G) as [(f & _ & Hr & (e' & He' & Hinv) & _)|[-> _]].
  - rewrite (Hfull f e') in Hinv; [done|lia|done].
  - done.
Qed.

(** The commands of a tail insertion: the head/flags command of the new record
    unless the table has meta data, then the link from the old end. *)
Definition tail_cmds t (h he : ipa_table_dma_cmd_helper) (f q data : Z) :=
  (match meta t with Some _ => [] | None => [slot_dma t h f data] end) ++ [slot_dma t he q f].

Lemma add_entry_tail t chains d b l f h he e1 data cmd :
  table_ok wf_entry meta_ok t chains -> 0 < b < table_entries t -> chains !! b = Some l ->
  first_empty t (table_entries t) f ->
  cmd_room cmd 2 -> help_update_head (dma_help t) = Some h ->
  help_update_entry (dma_help t) = Some he ->
  wf_entry e1 ->
  match meta t with
  | Some _ => entry_tail_insert entry_zero d = Ok (0, e1) /\ data = 0
  | None => entry_head_insert entry_zero d = Ok (0, e1, data)
  end ->
  exists cmd' e2 m', ipa_table_add_entry t d b cmd =
      Ok (0, set_cnts (set_mem (set_meta t m') (zset (tbl_mem t) f e2)) (cur_tbl_cnt t)
                      (cur_expn_tbl_cnt t + 1),
          cmd', f, Some (MakeEntryHdl t f)) /\
    cmd_appended cmd cmd' (tail_cmds t h he f (chain_end b l) data) /\
    entry_set_prev_index e1 f (chain_end b l) (meta t) (table_entries t) = Ok (e2, m').
Proof.
  intros HT Hb Hl Hf Hroom Hh Hhe Hwf Hins. assert (G := ok_geo _ _ _ _ HT).
  pose proof (cnt_bounds _ _ HT) as [_ Hc].
  destruct (base_lookup t chains b HT) as (e & He & Hval); [lia|].
  pose proof (chain_end_slot _ _ _ _ HT Hl) as Hq.
  destruct Hf as (Hfr & (ef & Hef & Hfinv) & Hleast).
  pose proof (ok_free _ _ _ _ HT _ _ Hef Hfinv) as ->.
  pose proof (zget_Some_lt _ _ _ Hef) as Hfl.
  assert (G' := G). destruct G' as [Hsz _ Hte Hee Htot _ _ _ _].
  destruct (law_set_prev e1 f (chain_end b l) (meta t) (table_entries t) (expn_table_entries t))
    as (e2 & m' & Hset & _); [done|apply HT|lia|destruct G; unfold IPA_TABLE_MAX_ENTRIES in *; lia|].
  set (t1 := set_mem t (zset (tbl_mem t) f e1)).
  set (t2 := set_mem (set_meta t m') (zset (tbl_mem t) f e2)).
  assert (G2 : geometry t2) by (unfold t2; auto with cint).
  unfold ipa_table_add_entry, InsertTail.
  rewrite (rec_at_goto t b), He by lia. cbn [deref mbind res_bind].
  rewrite (proj2 Hval) by eauto. cbn [negb].
  rewrite (iterator_end_spec t chains b l HT Hl). cbn [mbind res_bind negb Z.eqb].
  destruct (FindExpnTblFreeEntry_spec t G) as [(f' & Hfind & Hr' & (e' & He' & Hinv') & Hl')|[_ Hn]].
  2: { rewrite (Hn f entry_zero) in Hfinv; [done|lia|done]. }
  assert (f' = f) as ->.
  { destruct (Z.lt_trichotomy f f') as [Hlt|[->|Hlt]]; [|done|].
    - rewrite (Hl' f entry_zero) in Hfinv; [done|lia|done].
    - rewrite (Hleast f' e') in Hinv'; [done|lia|done]. }
  rewrite Hfind. cbn [mbind res_bind negb Z.eqb]. rewrite (rec_at_goto t f), Hef by lia.
  cbn [deref mbind res_bind].
  assert (Hset2 : rec_set (set_meta t1 m') (GOTO_REC t f) e2 = Ok t2).
  { change (GOTO_REC t f) with (GOTO_REC (set_meta t1 m') f). rewrite rec_set_goto.
    - unfold t2, t1. cbn [tbl_mem set_meta set_mem]. unfold set_mem, set_meta. cbn. f_equal.
      f_equal. unfold zset. rewrite (proj2 (Z.leb_le 0 f)) by lia. apply list_insert_insert_eq.
    - unfold t1. cbn. lia.
    - unfold t1. cbn. rewrite zset_length. lia. }
  assert (Hgoal : forall cmd1 ds,
    cmd_appended cmd cmd1 ds -> cmd_room cmd1 1 ->
    exists cmd', ipa_table_add_dma_cmd t2 HELP_UPDATE_ENTRY (GOTO_REC t (chain_end b l))
                   (chain_end b l) f cmd1 = Ok (0, cmd') /\
                 cmd_appended cmd cmd' (ds ++ [slot_dma t he (chain_end b l) f])).
  { intros cmd1 ds Happ Hr1.
    destruct (add_dma_cmd_spec t2 HELP_UPDATE_ENTRY he (chain_end b l) f cmd1)
      as (cmd' & Hcmd & Happ'); [done|unfold t2; cbn; lia|done|done|done|].
    exists cmd'. split; [done|]. by eapply cmd_appended_trans. }
  destruct (meta t) as [m|] eqn:Hmeta.
  - destruct Hins as [Hins ->]. rewrite Hins. cbn [mbind res_bind]. rewrite rec_set_goto by lia.
    cbn [mbind res_bind negb Z.eqb meta table_entries set_mem prev_index prev_entry].
    rewrite Hmeta, Hset. cbn [mbind res_bind]. fold t1. rewrite Hset2. cbn [mbind res_bind].
    destruct (Hgoal cmd []) as (cmd' & Hcmd & Happ).
    { unfold cmd_appended. rewrite app_nil_r. cbn. split_and!; try done. lia. }
    { by eapply cmd_room_mono. }
    rewrite Hcmd. cbn -[wrap].
    exists cmd', e2, m'. rewrite wrap_small by lia. split; [done|].
    unfold tail_cmds. rewrite Hmeta. done.
  - rewrite Hins. cbn [mbind res_bind]. rewrite rec_set_goto by lia.
    cbn [mbind res_bind negb Z.eqb meta table_entries set_mem prev_index prev_entry].
    rewrite Hmeta, Hset. cbn [mbind res_bind]. fold t1. rewrite Hset2. cbn [mbind res_bind].
    destruct (add_dma_cmd_spec t2 HELP_UPDATE_HEAD h f data cmd) as (cmd1 & Hcmd1 & Happ1);
      [done|unfold t2; cbn; lia|by eapply cmd_room_mono|done..|].
    change (GOTO_REC t2 f) with (GOTO_REC t f) in Hcmd1. rewrite Hcmd1. cbn [mbind res_bind].
    destruct (Hgoal cmd1 _ Happ1) as (cmd' & Hcmd & Happ).
    { eapply cmd_appended_room; [done..|]. cbn. lia. }
    rewrite Hcmd. cbn -[wrap].
    exists cmd', e2, m'. rewrite wrap_small by lia. split; [done|].
    unfold tail_cmds. rewrite Hmeta. done.
Qed.
End insertion.

(** ** Assembling [table_ok] after field updates *)
Section commits.
Context `{Ops : EntryOps E D} {wf_entry : E -> Prop}
  {meta_ok : option (list Z) -> Z -> Prop} `{!EntryLaws wf_entry meta_ok}.
Implicit Types t : ipa_table E.

(** Everything of [table_ok] but the chains, for counters [c] and [x]. *)
Record mem_ok t (c x : Z) : Prop := {
  mo_geo : geometry t;
  mo_meta : meta_ok (meta t) (expn_table_entries t);
  mo_free : forall i e, zget (tbl_mem t) i = Some e -> entry_is_valid e = false -> e = entry_zero;
  mo_wf : Forall wf_entry (tbl_mem t);
  mo_cnt : c = count_valid (take (Z.to_nat (table_entries t)) (tbl_mem t));
  mo_expn : x = count_valid (drop (Z.to_nat (table_entries t)) (tbl_mem t)) }.

Lemma table_ok_mem t chains : table_ok wf_entry meta_ok t chains ->
  mem_ok t (cur_tbl_cnt t) (cur_expn_tbl_cnt t).
Proof. intros []. by split. Qed.

Lemma table_ok_intro t c x chains :
  mem_ok t c x -> rep (table_entries t) (tot_tbl_ents t) (view t) chains ->
  table_ok wf_entry meta_ok (set_cnts t c x) chains.
Proof. intros [] HR. split; cbn; try done. by apply geometry_set_cnts. Qed.

Lemma mem_ok_set_cnts t c x a b : mem_ok t c x -> mem_ok (set_cnts t a b) c x.
Proof. intros []. split; cbn; try done. by apply geometry_set_cnts. Qed.

Lemma mem_ok_set_meta t c x m : meta_ok m (expn_table_entries t) -> mem_ok t c x ->
  mem_ok (set_meta t m) c x.
Proof. intros Hm []. split; cbn; try done. by apply geometry_set_meta. Qed.

Lemma mem_ok_zset t c x i e e0 :
  mem_ok t c x -> zget (tbl_mem t) i = Some e0 -> wf_entry e ->
  (entry_is_valid e = false -> e = entry_zero) ->
  mem_ok (set_mem t (zset (tbl_mem t) i e))
    (c + (if i <? table_entries t then b2z (entry_is_valid e) - b2z (entry_is_valid e0) else 0))
    (x + (if i <? table_entries t then 0 else b2z (entry_is_valid e) - b2z (entry_is_valid e0))).
Proof.
  intros [G Hm Hfree Hwf Hc Hx] He0 Hwe Hinv. pose proof (zget_Some_lt _ _ _ He0) as Hi.
  assert (0 <= table_entries t) by (destruct G; lia).
  split; cbn.
  - apply geometry_set_mem; [apply zset_length|done].
  - done.
  - intros j ej. destruct (decide (j = i)) as [->|].
    + rewrite zget_zset_eq by lia. intros [= <-]. done.
    + rewrite zget_zset_ne by done. apply Hfree.
  - unfold zset. case_match; [|done]. by apply Forall_insert.
  - rewrite (count_take_zset _ _ _ _ e0) by done. lia.
  - rewrite (count_drop_zset _ _ _ _ e0) by done. lia.
Qed.

Lemma view_zset t i e p :
  0 <= i < Z.of_nat (length (tbl_mem t)) ->
  entry_get_prev_index e i (meta t) (table_entries t) = Ok p ->
  forall j, view (set_mem t (zset (tbl_mem t) i e)) j
          = upd (view t) i (Node (entry_is_valid e) (entry_get_next_index e) p) j.
Proof.
  intros Hi Hp j. unfold view, upd. cbn. case_decide; subst.
  - rewrite zget_zset_eq by done. by rewrite Hp.
  - by rewrite zget_zset_ne.
Qed.

(** Replacing a record by one with the same links keeps the table; this is what
    writes of payload fields do. *)
Lemma table_ok_payload t chains i e0 e :
  table_ok wf_entry meta_ok t chains -> zget (tbl_mem t) i = Some e0 ->
  wf_entry e -> entry_is_valid e = true -> entry_is_valid e0 = true ->
  entry_get_next_index e = entry_get_next_index e0 ->
  entry_get_prev_index e i (meta t) (table_entries t)
  = entry_get_prev_index e0 i (meta t) (table_entries t) ->
  table_ok wf_entry meta_ok (set_mem t (zset (tbl_mem t) i e)) chains.
Proof.
  intros HT He0 Hwf Hv Hv0 Hn Hp.
  pose proof (zget_Some_lt _ _ _ He0) as Hi.
  destruct (view_node _ _ _ _ HT He0) as (p & Hp0 & Hview).
  pose proof (mem_ok_zset _ _ _ _ e _ (table_ok_mem _ _ HT) He0 Hwf ltac:(congruence)) as HM.
  rewrite Hv, Hv0 in HM.
  assert (HT' : table_ok wf_entry meta_ok
    (set_cnts (set_mem t (zset (tbl_mem t) i e)) (cur_tbl_cnt t) (cur_expn_tbl_cnt t)) chains).
  { apply table_ok_intro.
    - destruct (i <? table_entries t); cbn in HM; rewrite !Z.add_0_r in HM; done.
    - eapply rep_ext; [|apply (ok_rep _ _ _ _ HT)]. intros j. cbn.
      rewrite (view_zset _ _ _ p) by (done || congruence).
      unfold upd. case_decide; subst; [|done]. by rewrite Hview, Hv, Hv0, Hn. }
  destruct t. done.
Qed.

Lemma commit_head t chains b e :
  table_ok wf_entry meta_ok t chains -> 0 < b < table_entries t -> chains !! b = None ->
  wf_entry e -> entry_is_valid e = true -> entry_get_next_index e = 0 ->
  entry_get_prev_index e b (meta t) (table_entries t) = Ok 0 ->
  table_ok wf_entry meta_ok
    (set_cnts (set_mem t (zset (tbl_mem t) b e)) (cur_tbl_cnt t + 1) (cur_expn_tbl_cnt t))
    (<[b := []]> chains).
Proof.
  intros HT Hb Hnone Hwf Hv Hn Hp. assert (G := ok_geo _ _ _ _ HT).
  destruct (base_lookup t chains b HT) as (e0 & He0 & Hval); [lia|].
  pose proof (zget_Some_lt _ _ _ He0) as Hi.
  destruct (entry_is_valid e0) eqn:Hv0; [destruct Hval as [[? ?] _]; congruence|].
  apply table_ok_intro.
  - pose proof (mem_ok_zset _ _ _ _ e _ (table_ok_mem _ _ HT) He0 Hwf ltac:(congruence)) as HM.
    rewrite Hv, Hv0, (proj2 (Z.ltb_lt _ _)), Z.add_0_r in HM by lia. done.
  - cbn. eapply rep_ext.
    2: { apply (rep_insert_head _ _ _ _ b (ok_rep _ _ _ _ HT)); [lia|destruct G; lia|done]. }
    intros j. rewrite (view_zset _ _ _ 0) by done. by rewrite Hv, Hn.
Qed.

Lemma commit_tail t chains b l f e e1 eq eq' m' :
  table_ok wf_entry meta_ok t chains -> chains !! b = Some l ->
  first_empty t (table_entries t) f ->
  wf_entry e1 -> entry_set_prev_index e1 f (chain_end b l) (meta t) (table_entries t) = Ok (e, m') ->
  forall e',
  wf_entry e' -> entry_is_valid e' = true -> entry_get_next_index e' = 0 ->
  entry_get_prev_index e' f m' (table_entries t) = entry_get_prev_index e f m' (table_entries t) ->
  zget (tbl_mem t) (chain_end b l) = Some eq ->
  wf_entry eq' -> entry_is_valid eq' = true -> entry_get_next_index eq' = f ->
  (forall m, entry_get_prev_index eq' (chain_end b l) m (table_entries t)
           = entry_get_prev_index eq (chain_end b l) m (table_entries t)) ->
  table_ok wf_entry meta_ok
    (set_cnts (set_mem (set_meta t m')
                 (zset (zset (tbl_mem t) f e') (chain_end b l) eq'))
              (cur_tbl_cnt t) (cur_expn_tbl_cnt t + 1))
    (<[b := l ++ [f]]> chains).
Proof.
  intros HT Hl Hf Hwf1 Hset e' Hwf Hv Hn Hp Heq Hwfq Hvq Hnq Hpq.
  assert (G := ok_geo _ _ _ _ HT). pose proof (chain_end_slot _ _ _ _ HT Hl) as Hq.
  destruct Hf as (Hfr & (ef & Hef & Hfinv) & _).
  pose proof (zget_Some_lt _ _ _ Hef) as Hfl. pose proof (zget_Some_lt _ _ _ Heq) as Hql.
  assert (Hrange : table_entries t <= f < table_entries t + expn_table_entries t)
    by (destruct G; lia).
  destruct (law_set_prev e1 f (chain_end b l) (meta t) (table_entries t) (expn_table_entries t))
    as (e2 & m2 & Hset' & _ & Hmok & _ & _ & Hgp & Hother);
    [done|apply HT|done|destruct G; unfold IPA_TABLE_MAX_ENTRIES in *; lia|].
  rewrite Hset in Hset'. injection Hset' as <- <-. rewrite Hgp in Hp.
  assert (HR := ok_rep _ _ _ _ HT).
  destruct (rep_chain _ _ _ _ HR _ _ Hl) as (Hbr & Hc & _).
  destruct (view_node _ _ _ _ HT Heq) as (pq & Hpq0 & Hviewq).
  destruct (view_node _ _ _ _ HT Hef) as (pf & Hpf & Hviewf).
  destruct (chain_last _ _ _ _ Hc) as (nq & Hnq' & Hvq0 & _).
  rewrite Hviewq in Hnq'. injection Hnq' as <-. cbn in Hvq0.
  assert (Hqf : chain_end b l <> f) by (intros E'; rewrite E' in *; congruence).
  assert (HM : mem_ok (set_meta t m') (cur_tbl_cnt t) (cur_expn_tbl_cnt t))
    by (apply mem_ok_set_meta; [done|by apply table_ok_mem in HT]).
  pose proof (mem_ok_zset _ _ _ f e' ef HM Hef Hwf ltac:(congruence)) as HM1.
  rewrite Hv, Hfinv, (proj2 (Z.ltb_ge _ _)), Z.add_0_r in HM1 by (cbn; lia).
  assert (Hzq : zget (zset (tbl_mem t) f e') (chain_end b l) = Some eq)
    by (by rewrite zget_zset_ne).
  pose proof (mem_ok_zset _ _ _ (chain_end b l) eq' eq HM1 Hzq Hwfq ltac:(congruence)) as HM2.
  rewrite Hvq, Hvq0 in HM2.
  apply table_ok_intro.
  - destruct (_ <? _) in HM2; cbn in HM2; rewrite !Z.add_0_r in HM2; done.
  - cbn. eapply rep_ext.
    2: { eapply (rep_insert_tail _ _ _ _ b l f); [exact HR|lia|done|lia|exact Hviewf|done|exact Hviewq]. }
    intros j. cbn. unfold view, upd. cbn. case_decide as Ej; subst.
    + rewrite zget_zset_eq by (rewrite zset_length; lia).
      rewrite Hpq, Hother by lia. by rewrite Hpq0, Hvq.
    + rewrite zget_zset_ne by done. case_decide as Ef; subst.
      * rewrite zget_zset_eq by lia. by rewrite Hp, Hv, Hn.
      * rewrite zget_zset_ne by done. destruct (zget (tbl_mem t) j) as [ej|] eqn:Hej; [|done].
        pose proof (zget_Some_lt _ _ _ Hej). rewrite Hother by lia. done.
Qed.
End commits.

(** ** Iterators on chain members *)
Section iterators.
Context `{Ops : EntryOps E D} {wf_entry : E -> Prop}
  {meta_ok : option (list Z) -> Z -> Prop} `{!EntryLaws wf_entry meta_ok}.
Implicit Types t : ipa_table E.

(** The address stored for an index: NULL for "none". *)
Definition ptr_of t (i : Z) : Z := if i =? 0 then 0 else GOTO_REC t i.

(** The iterator at slot [i] whose neighbours are [p] and [n]. *)
Definition iter_at t (p i n : Z) : ipa_table_iterator :=
  mk_iter p (ptr_of t p) i (GOTO_REC t i) n (ptr_of t n).

Lemma ptr_of_entry t j : geometry t -> 0 <= j < tot_tbl_ents t ->
  (if VALID_INDEX j then ipa_table_get_entry_by_index t j else 0) = ptr_of t j /\
  VALID_INDEX j && (ptr_of t j =? 0) = false.
Proof.
  intros G Hj. unfold ptr_of. destruct (decide (j = 0)) as [->|Hj0]; [done|].
  rewrite (proj2 (VALID_INDEX_true j)), (proj2 (Z.eqb_neq j 0)) by done.
  rewrite get_entry_by_index_goto by lia. rewrite goto_nonzero by (done || lia). done.
Qed.

Lemma iterator_init_spec t chains i n :
  table_ok wf_entry meta_ok t chains -> view t i = Some n -> nd_valid n = true ->
  0 <= nd_prev n < tot_tbl_ents t -> 0 <= nd_next n < tot_tbl_ents t ->
  ipa_table_iterator_init t (GOTO_REC t i) i = Ok (0, iter_at t (nd_prev n) i (nd_next n)).
Proof.
  intros HT Hv Hval Hp Hn. assert (G := ok_geo _ _ _ _ HT).
  destruct (view_inv _ _ _ Hv) as (e & He & Hve & Hne & Hpe).
  pose proof (zget_Some_lt _ _ _ He). assert (0 < entry_size t) by (destruct G; lia).
  unfold ipa_table_iterator_init. rewrite rec_at_goto, He by lia. cbn [deref mbind res_bind].
  rewrite <- Hve, Hval, Hpe. cbn [negb mbind res_bind]. rewrite <- Hne.
  destruct (ptr_of_entry t _ G Hp) as [-> ->]. destruct (ptr_of_entry t _ G Hn) as [-> ->]. done.
Qed.

Lemma hd0_slot t chains b l1 l2 :
  table_ok wf_entry meta_ok t chains -> chains !! b = Some (l1 ++ l2) ->
  0 <= hd0 l2 < tot_tbl_ents t.
Proof.
  intros HT Hl. pose proof (chain_slots _ _ _ _ HT Hl) as Hs.
  assert (G := ok_geo _ _ _ _ HT). destruct l2 as [|j l2]; cbn; [destruct G; lia|].
  rewrite list.Forall_forall in Hs. assert (Hj : j ∈ b :: l1 ++ j :: l2) by set_solver.
  apply Hs in Hj. lia.
Qed.

Lemma chain_end_prefix_slot t chains b l1 l2 :
  table_ok wf_entry meta_ok t chains -> chains !! b = Some (l1 ++ l2) ->
  0 < chain_end b l1 < tot_tbl_ents t.
Proof.
  intros HT Hl. pose proof (chain_slots _ _ _ _ HT Hl) as Hs.
  rewrite list.Forall_forall in Hs. apply Hs.
  pose proof (chain_end_elem b l1). set_solver.
Qed.

Lemma iterator_init_head t chains b l :
  table_ok wf_entry meta_ok t chains -> chains !! b = Some l ->
  ipa_table_iterator_init t (GOTO_REC t b) b = Ok (0, iter_at t 0 b (hd0 l)).
Proof.
  intros HT Hl. assert (G := ok_geo _ _ _ _ HT).
  destruct (rep_chain _ _ _ _ (ok_rep _ _ _ _ HT) _ _ Hl) as (Hb & Hc & _).
  destruct (chain_head _ _ _ _ Hc) as (n & Hn & Hv & Hp & Hx).
  rewrite (iterator_init_spec t chains b n); try done; rewrite ?Hp, ?Hx; [done|destruct G; lia|].
  by apply (hd0_slot t chains b [] l).
Qed.

Lemma iterator_init_mid t chains b l1 x l2 :
  table_ok wf_entry meta_ok t chains -> chains !! b = Some (l1 ++ x :: l2) ->
  ipa_table_iterator_init t (GOTO_REC t x) x = Ok (0, iter_at t (chain_end b l1) x (hd0 l2)).
Proof.
  intros HT Hl. assert (G := ok_geo _ _ _ _ HT).
  destruct (rep_chain _ _ _ _ (ok_rep _ _ _ _ HT) _ _ Hl) as (Hb & Hc & _).
  destruct (chain_mid _ _ _ _ _ _ Hc) as (n & Hn & Hv & Hp & Hx).
  rewrite (iterator_init_spec t chains x n); try done; rewrite ?Hp, ?Hx; [done| |].
  - pose proof (chain_end_prefix_slot _ _ _ _ _ HT Hl). lia.
  - apply (hd0_slot t chains b (l1 ++ [x]) l2); [done|]. by rewrite <- app_assoc.
Qed.

(** ** Delete commands *)
Lemma delete_command_single t b h cmd :
  geometry t -> 0 < b < table_entries t -> cmd_room cmd 1 ->
  help_update_head (dma_help t) = Some h ->
  exists cmd', ipa_table_create_delete_command t cmd (iter_at t 0 b 0) = Ok cmd' /\
    cmd_appended cmd cmd' [slot_dma t h b 0].
Proof.
  intros G Hb Hr Hh.
  destruct (add_dma_cmd_spec t HELP_UPDATE_HEAD h b 0 cmd) as (cmd' & Hc & Ha); try done.
  { destruct G. lia. }
  exists cmd'. split; [|done]. unfold ipa_table_create_delete_command. cbn. by rewrite Hc.
Qed.

Lemma delete_command_head t b j h eb ej cmd :
  geometry t -> 0 < b < table_entries t -> 0 < j < tot_tbl_ents t -> cmd_room cmd 1 ->
  help_delete_head (dma_help t) = Some h ->
  zget (tbl_mem t) b = Some eb -> zget (tbl_mem t) j = Some ej ->
  exists cmd', ipa_table_create_delete_command t cmd (iter_at t 0 b j) = Ok cmd' /\
    cmd_appended cmd cmd' [slot_dma t h b (entry_get_delete_head_dma_command_data eb ej)].
Proof.
  intros G Hb Hj Hr Hh Heb Hej. assert (0 < entry_size t) by (destruct G; lia).
  destruct (add_dma_cmd_spec t HELP_DELETE_HEAD h b
    (entry_get_delete_head_dma_command_data eb ej) cmd) as (cmd' & Hc & Ha); try done.
  { destruct G. lia. }
  exists cmd'. split; [|done]. unfold ipa_table_create_delete_command, iter_at, ptr_of.
  cbn [prev_index next_index curr_entry next_entry curr_index]. cbn [VALID_INDEX negb Z.eqb].
  rewrite (proj2 (VALID_INDEX_true j)), (proj2 (Z.eqb_neq j 0)) by lia.
  rewrite !rec_at_goto, Heb, Hej by lia. cbn [deref mbind res_bind negb VALID_INDEX Z.eqb IPA_TABLE_INVALID_ENTRY].
  rewrite Hc. done.
Qed.

Lemma delete_command_mid t q x n h cmd :
  geometry t -> 0 < q < tot_tbl_ents t -> cmd_room cmd 1 ->
  help_update_entry (dma_help t) = Some h ->
  exists cmd', ipa_table_create_delete_command t cmd (iter_at t q x n) = Ok cmd' /\
    cmd_appended cmd cmd' [slot_dma t h q n].
Proof.
  intros G Hq Hr Hh.
  destruct (add_dma_cmd_spec t HELP_UPDATE_ENTRY h q n cmd) as (cmd' & Hc & Ha); try done.
  { lia. }
  exists cmd'. split; [|done]. unfold ipa_table_create_delete_command, iter_at, ptr_of.
  cbn [prev_index next_index curr_entry prev_entry curr_index].
  rewrite (proj2 (VALID_INDEX_true q)), (proj2 (Z.eqb_neq q 0)) by lia. cbn [negb].
  by rewrite Hc.
Qed.

(** ** Erasing records *)
Lemma erase_entry_spec t i : geometry t -> 0 <= i < tot_tbl_ents t ->
  ipa_table_erase_entry t i =
    Ok (let t' := set_mem t (zset (tbl_mem t) i entry_zero) in
        if i <? table_entries t
        then set_cnts t' (u16 (cur_tbl_cnt t - 1)) (cur_expn_tbl_cnt t)
        else set_cnts t' (cur_tbl_cnt t) (u16 (cur_expn_tbl_cnt t - 1))).
Proof.
  intros G Hi. unfold ipa_table_erase_entry.
  rewrite rec_set_goto by (destruct G; lia). done.
Qed.

(** Erasing a chain that consists of its head. *)
Lemma erase_single t chains b :
  table_ok wf_entry meta_ok t chains -> chains !! b = Some [] ->
  exists t', ipa_table_erase_entry t b = Ok t' /\
    table_ok wf_entry meta_ok t' (delete b chains) /\
    t' = set_cnts (set_mem t (zset (tbl_mem t) b entry_zero)) (cur_tbl_cnt t - 1)
                  (cur_expn_tbl_cnt t).
Proof.
  intros HT Hl. assert (G := ok_geo _ _ _ _ HT). assert (HR := ok_rep _ _ _ _ HT).
  destruct (rep_chain _ _ _ _ HR _ _ Hl) as (Hb & _).
  destruct (base_lookup t chains b HT) as (e & He & Hval); [lia|].
  assert (Hv : entry_is_valid e = true) by (apply Hval; eauto).
  pose proof (zget_Some_lt _ _ _ He) as Hbl.
  pose proof (mem_ok_zset _ _ _ _ entry_zero _ (table_ok_mem _ _ HT) He law_wf_zero ltac:(done)) as HM.
  rewrite Hv, law_zero_valid, (proj2 (Z.ltb_lt _ _)), Z.add_0_r in HM by lia.
  pose proof (cnt_bounds _ _ HT) as [Hcb _].
  assert (1 <= cur_tbl_cnt t).
  { pose proof (count_valid_nonneg (take (Z.to_nat (table_entries t)) (zset (tbl_mem t) b entry_zero))).
    pose proof (mo_cnt _ _ _ HM) as Hc. cbn in Hc. lia. }
  eexists. rewrite erase_entry_spec by (done || destruct G; lia).
  rewrite (proj2 (Z.ltb_lt _ _)) by lia. cbv zeta.
  rewrite wrap_small by (destruct G; lia). split; [done|]. split; [|done].
  apply table_ok_intro; [done|]. cbn. eapply rep_ext; [|by apply rep_remove_single].
  intros j. rewrite (view_zset _ _ _ 0) by (try done; apply law_zero_prev_base; lia).
  by rewrite law_zero_valid, law_zero_next.
Qed.
End iterators.

(** ** Deletion from the middle or the end of a chain *)
Arguments mem_ok {E D Ops} wf_entry meta_ok t c x.

Section deletion.
Context `{Ops : EntryOps E D} {wf_entry : E -> Prop}
  {meta_ok : option (list Z) -> Z -> Prop} `{!EntryLaws wf_entry meta_ok}.
Implicit Types t : ipa_table E.

(** What the hardware has to have written in the predecessor [q] of the record:
    the new successor, without changing its validity or its own predecessor. *)
Definition relinked t (q n : Z) (eq eq' : E) : Prop :=
  zget (tbl_mem t) q = Some eq /\ wf_entry eq' /\ entry_is_valid eq' = true /\
  entry_get_next_index eq' = n /\
  (forall m, entry_get_prev_index eq' q m (table_entries t)
           = entry_get_prev_index eq q m (table_entries t)).

(** The successor's back link: nothing to do at the end of the chain. *)
Definition backlinked t (q n : Z) (t2 : ipa_table E) : Prop :=
  if n =? 0 then t2 = t
  else exists e e' m', zget (tbl_mem t) n = Some e /\
    entry_set_prev_index e n q (meta t) (table_entries t) = Ok (e', m') /\
    t2 = set_mem (set_meta t m') (zset (tbl_mem t) n e').

Lemma chain_member_facts t chains b l1 x l2 :
  table_ok wf_entry meta_ok t chains -> chains !! b = Some (l1 ++ x :: l2) ->
  exists ex, zget (tbl_mem t) x = Some ex /\ entry_is_valid ex = true /\
    table_entries t <= x < tot_tbl_ents t /\ chain_end b l1 <> x /\ x <> hd0 l2 /\
    (l2 <> [] -> chain_end b l1 <> hd0 l2 /\ table_entries t <= hd0 l2 < tot_tbl_ents t).
Proof.
  intros HT Hl. assert (HR := ok_rep _ _ _ _ HT).
  destruct (rep_chain _ _ _ _ HR _ _ Hl) as (Hb & Hc & _ & Hr).
  pose proof (rep_nodup_full HR _ _ Hl) as Hnd.
  destruct (chain_mid _ _ _ _ _ _ Hc) as (nx & Hx & Hv & _).
  destruct (view_inv _ _ _ Hx) as (ex & Hex & Hve & _). exists ex.
  apply list.Forall_app in Hr as [_ [Hxr Hr]%list.Forall_cons].
  pose proof (chain_end_elem b l1) as Hq.
  change (b :: l1 ++ x :: l2) with ((b :: l1) ++ x :: l2) in Hnd.
  apply list.NoDup_app in Hnd as (_ & Hdis & Hnd). apply list.NoDup_cons in Hnd as [Hx2 _].
  split_and!; try done; try congruence; try lia.
  - intros E'. apply (Hdis _ Hq). rewrite E'. by left.
  - assert (0 < table_entries t) by (destruct (ok_geo _ _ _ _ HT); lia).
    destruct l2; cbn; [lia|]. intros ->. apply Hx2. by left.
  - intros Hne. destruct l2 as [|j l2]; [done|]. apply list.Forall_cons in Hr as [? _].
    cbn. split; [|done]. intros E'. apply (Hdis _ Hq). rewrite E'. right. by left.
Qed.

(** [delete_entry] on a table whose predecessor record is already relinked. *)
Lemma delete_entry_exec t q x n e0 is_prev_empty :
  geometry t -> meta_ok (meta t) (expn_table_entries t) -> 0 < q < tot_tbl_ents t ->
  table_entries t <= x < tot_tbl_ents t -> x <> n ->
  (n <> 0 -> table_entries t <= n < tot_tbl_ents t /\ zget (tbl_mem t) n = Some e0 /\ wf_entry e0) ->
  (n = 0 -> is_prev_empty = false) ->
  exists t2, backlinked t q n t2 /\
    ipa_table_delete_entry t (iter_at t q x n) is_prev_empty =
      Ok (set_cnts (set_mem t2 (zset (tbl_mem t2) x entry_zero)) (cur_tbl_cnt t)
                   (u16 (cur_expn_tbl_cnt t - 1))).
Proof.
  intros G Hm Hq Hx Hxn Hn Hpe. unfold ipa_table_delete_entry, iter_at, ptr_of, backlinked.
  cbn [prev_index next_index curr_entry prev_entry curr_index next_entry].
  assert (G' := G). destruct G' as [Hsz Haddr Hb He Htot Hmax Hmem Hea _].
  unfold IPA_TABLE_MAX_ENTRIES in Hmax. destruct (n =? 0) eqn:Hn0; zify_bool.
  - subst n. rewrite Hpe by done. cbn [VALID_INDEX Z.eqb IPA_TABLE_INVALID_ENTRY negb mbind res_bind].
    exists t. split; [done|]. rewrite erase_entry_spec by (done || lia). cbv zeta.
    by rewrite (proj2 (Z.ltb_ge _ _)) by lia.
  - destruct (Hn Hn0) as (Hnr & He0 & Hwf).
    rewrite (proj2 (VALID_INDEX_true n)) by done.
    rewrite rec_at_goto, He0 by lia. cbn [deref mbind res_bind].
    destruct (law_set_prev e0 n q (meta t) (table_entries t) (expn_table_entries t))
      as (e' & m' & Hset & _); [done|done|lia|lia|].
    rewrite Hset. cbn [mbind res_bind].
    exists (set_mem (set_meta t m') (zset (tbl_mem t) n e')). split; [by exists e0, e', m'|].
    change (GOTO_REC t n) with (GOTO_REC (set_meta t m') n).
    rewrite rec_set_goto by (cbn; lia). cbn [mbind res_bind].
    change (tbl_mem (set_meta t m')) with (tbl_mem t).
    rewrite erase_entry_spec; [|auto with cint|cbn; lia]. cbv zeta. cbn [table_entries set_mem set_meta].
    by rewrite (proj2 (Z.ltb_ge _ _)) by lia.
Qed.

(** The records around a chain position. *)
Lemma prefix_end_valid t chains b l1 x l2 e :
  table_ok wf_entry meta_ok t chains -> chains !! b = Some (l1 ++ x :: l2) ->
  zget (tbl_mem t) (chain_end b l1) = Some e -> entry_is_valid e = true.
Proof.
  intros HT Hl He. assert (HR := ok_rep _ _ _ _ HT).
  destruct (rep_chain _ _ _ _ HR _ _ Hl) as (_ & Hc & _).
  destruct (view_node _ _ _ _ HT He) as (p & _ & Hview).
  enough (exists nq, view t (chain_end b l1) = Some nq /\ nd_valid nq = true) as (nq & Hn & Hv)
    by (rewrite Hview in Hn; injection Hn as <-; done).
  pose proof (chain_end_elem b l1) as Hin. apply list_elem_of_split in Hin as (k1 & k2 & Ek).
  destruct k1 as [|b' k1]; injection Ek as Eb Ek.
  - rewrite <- Eb. destruct (chain_head _ _ _ _ Hc) as (nq & ? & ? & _). eauto.
  - rewrite Ek in Hc. rewrite <- app_assoc in Hc. cbn [app] in Hc.
    destruct (chain_mid _ _ _ _ _ _ Hc) as (nq & ? & ? & _). eauto.
Qed.

Lemma succ_record t chains b l1 x j l2 :
  table_ok wf_entry meta_ok t chains -> chains !! b = Some (l1 ++ x :: j :: l2) ->
  exists e, zget (tbl_mem t) j = Some e /\ wf_entry e /\ entry_is_valid e = true.
Proof.
  intros HT Hl. destruct (rep_chain _ _ _ _ (ok_rep _ _ _ _ HT) _ _ Hl) as (_ & Hc & _).
  change (x :: j :: l2) with ([x] ++ j :: l2) in Hc. rewrite app_assoc in Hc.
  destruct (chain_mid _ _ _ _ _ _ Hc) as (nj & Hj & Hvj & _).
  destruct (view_inv _ _ _ Hj) as (e & He & Hv & _). exists e. split_and!; try done; [|congruence].
  pose proof (ok_wf _ _ _ _ HT) as Hwf. rewrite list.Forall_forall in Hwf. apply Hwf.
  unfold zget in He. destruct (0 <=? j); [|done]. by eapply list_elem_of_lookup_2.
Qed.

Lemma expn_cnt_pos t chains x e :
  table_ok wf_entry meta_ok t chains -> zget (tbl_mem t) x = Some e ->
  entry_is_valid e = true -> table_entries t <= x -> 1 <= cur_expn_tbl_cnt t.
Proof.
  intros HT He Hv Hx. rewrite (ok_expn_cnt _ _ _ _ HT).
  assert (0 <= table_entries t) as H0 by (destruct (ok_geo _ _ _ _ HT); lia).
  pose proof (count_drop_zset (tbl_mem t) (table_entries t) x entry_zero e H0 He) as Hc.
  rewrite (proj2 (Z.ltb_ge _ _)), Hv, law_zero_valid in Hc by lia. cbn [b2z] in Hc.
  pose proof (count_valid_nonneg (drop (Z.to_nat (table_entries t)) (zset (tbl_mem t) x entry_zero))).
  lia.
Qed.

(** Relinking the predecessor leaves everything but the chain structure alone. *)
Lemma relinked_mem_ok t chains q n eq eq' :
  table_ok wf_entry meta_ok t chains -> relinked t q n eq eq' -> entry_is_valid eq = true ->
  mem_ok wf_entry meta_ok (set_mem t (zset (tbl_mem t) q eq')) (cur_tbl_cnt t) (cur_expn_tbl_cnt t).
Proof.
  intros HT (Heq & Hwfq & Hvq & _) Hv0.
  pose proof (mem_ok_zset _ _ _ q eq' eq (table_ok_mem _ _ HT) Heq Hwfq ltac:(congruence)) as HM.
  rewrite Hvq, Hv0 in HM. destruct (_ <? _) in HM; cbn in HM; rewrite !Z.add_0_r in HM; done.
Qed.

Lemma backlinked_mem_ok t q n t2 c x :
  mem_ok wf_entry meta_ok t c x -> backlinked t q n t2 -> 0 < q < tot_tbl_ents t ->
  (n <> 0 -> table_entries t <= n < tot_tbl_ents t /\
             exists e, zget (tbl_mem t) n = Some e /\ wf_entry e /\ entry_is_valid e = true) ->
  mem_ok wf_entry meta_ok t2 c x.
Proof.
  intros HM Hb Hq Hn. unfold backlinked in Hb. destruct (n =? 0) eqn:Hn0; zify_bool; [by subst|].
  destruct Hb as (e & e' & m' & He & Hset & ->). destruct (Hn Hn0) as (Hnr & e1 & He1 & Hwf & Hv).
  rewrite He in He1. injection He1 as <-. assert (G := mo_geo _ _ _ HM).
  destruct (law_set_prev e n q (meta t) (table_entries t) (expn_table_entries t))
    as (e2 & m2 & Hs & Hwf2 & Hm2 & Hv2 & _);
    [done|apply HM|destruct G; lia|destruct G; unfold IPA_TABLE_MAX_ENTRIES in *; lia|].
  rewrite Hset in Hs. injection Hs as <- <-.
  pose proof (mem_ok_zset (set_meta t m') c x n e' e (mem_ok_set_meta _ _ _ _ Hm2 HM) He Hwf2
    ltac:(congruence)) as H.
  rewrite Hv2, Hv in H. destruct (_ <? _) in H; cbn in H; rewrite !Z.add_0_r in H; done.
Qed.

(** The links of a table after relinking, back-linking and erasing [x]. *)
Lemma view_removed t chains b l1 x l2 eq eq' t2 pq :
  table_ok wf_entry meta_ok t chains -> chains !! b = Some (l1 ++ x :: l2) ->
  relinked t (chain_end b l1) (hd0 l2) eq eq' ->
  entry_get_prev_index eq (chain_end b l1) (meta t) (table_entries t) = Ok pq ->
  backlinked (set_mem t (zset (tbl_mem t) (chain_end b l1) eq')) (chain_end b l1) (hd0 l2) t2 ->
  exists px n2, (l2 <> [] -> view t (hd0 l2) = Some n2) /\
  forall i, view (set_mem t2 (zset (tbl_mem t2) x entry_zero)) i
          = unlink (view t) (chain_end b l1) x (Node (entry_is_valid eq) (entry_get_next_index eq) pq) l2 n2 px i.
Proof.
  intros HT Hl (Heq & Hwfq & Hvq & Hnq & Hpq) Hpq0 Hback.
  assert (G := ok_geo _ _ _ _ HT).
  destruct (chain_member_facts _ _ _ _ _ _ HT Hl) as (ex & Hex & Hvx & Hxr & Hqx & Hxn & Hnr).
  pose proof (zget_Some_lt _ _ _ Heq) as Hql. pose proof (zget_Some_lt _ _ _ Hex) as Hxl.
  unfold backlinked in Hback. destruct l2 as [|j l2]; cbn [hd0] in *.
  - rewrite Z.eqb_refl in Hback. subst t2. destruct (law_get_prev entry_zero x (meta t) (table_entries t) (expn_table_entries t))
      as [px Hpx]; [apply HT|destruct G; lia|].
    exists px, (Node false 0 0). split; [done|]. intros i. unfold unlink, upd, view. cbn.
    repeat case_decide; subst.
    + rewrite zget_zset_eq by (rewrite zset_length; lia).
      by rewrite Hpx, law_zero_valid, law_zero_next.
    + rewrite zget_zset_ne, zget_zset_eq by (done || lia). by rewrite Hpq, Hpq0, Hvq, Hnq.
    + by rewrite !zget_zset_ne.
  - destruct (Hnr ltac:(done)) as [Hqj Hjr].
    rewrite (proj2 (Z.eqb_neq j 0)) in Hback by (destruct G; lia). cbn in Hback.
    destruct Hback as (ej & ej' & m' & Hej & Hset & ->). rewrite zget_zset_ne in Hej by done.
    destruct (succ_record _ _ _ _ _ _ _ HT Hl) as (ej0 & Hej0 & Hwfj & Hvj).
    rewrite Hej in Hej0. injection Hej0 as <-. pose proof (zget_Some_lt _ _ _ Hej) as Hjl.
    pose proof (chain_end_prefix_slot _ _ _ _ _ HT Hl) as Hqr.
    destruct (law_set_prev ej j (chain_end b l1) (meta t) (table_entries t) (expn_table_entries t))
      as (e2 & m2 & Hs & Hwf2 & Hm2 & Hv2 & Hn2 & Hp2 & Hoth);
      [done|apply HT|destruct G; lia|destruct G; unfold IPA_TABLE_MAX_ENTRIES in *; lia|].
    rewrite Hset in Hs. injection Hs as <- <-.
    destruct (law_get_prev entry_zero x m' (table_entries t) (expn_table_entries t))
      as [px Hpx]; [done|destruct G; lia|].
    destruct (view_node _ _ _ _ HT Hej) as (pj & _ & Hviewj).
    exists px, (Node (entry_is_valid ej) (entry_get_next_index ej) pj). split; [done|].
    intros i. unfold unlink, upd. unfold view at 1. cbn. repeat case_decide; subst.
    + rewrite zget_zset_eq by (rewrite !zset_length; lia).
      by rewrite Hpx, law_zero_valid, law_zero_next.
    + rewrite zget_zset_ne, zget_zset_eq by (done || rewrite ?zset_length; lia).
      by rewrite Hp2, Hv2, Hvj, Hn2.
    + rewrite !zget_zset_ne, zget_zset_eq by (done || lia).
      by rewrite Hoth, Hpq, Hpq0, Hvq by (done || lia).
    + rewrite !zget_zset_ne by done. unfold view.
      destruct (zget (tbl_mem t) i) as [ei|] eqn:Hei; [|done].
      pose proof (zget_Some_lt _ _ _ Hei). by rewrite Hoth by (done || lia).
Qed.

Lemma delete_mid t chains b l1 x l2 eq eq' :
  table_ok wf_entry meta_ok t chains -> chains !! b = Some (l1 ++ x :: l2) ->
  relinked t (chain_end b l1) (hd0 l2) eq eq' ->
  let t1 := set_mem t (zset (tbl_mem t) (chain_end b l1) eq') in
  exists t2, backlinked t1 (chain_end b l1) (hd0 l2) t2 /\
  table_ok wf_entry meta_ok
    (set_cnts (set_mem t2 (zset (tbl_mem t2) x entry_zero)) (cur_tbl_cnt t) (cur_expn_tbl_cnt t - 1))
    (<[b := l1 ++ l2]> chains) /\
  forall is_prev_empty, (l2 = [] -> is_prev_empty = false) ->
    ipa_table_delete_entry t1 (iter_at t (chain_end b l1) x (hd0 l2)) is_prev_empty =
      Ok (set_cnts (set_mem t2 (zset (tbl_mem t2) x entry_zero)) (cur_tbl_cnt t)
                   (cur_expn_tbl_cnt t - 1)).
Proof.
  intros HT Hl HRL t1. assert (Heq := proj1 HRL). assert (G := ok_geo _ _ _ _ HT).
  destruct (chain_member_facts _ _ _ _ _ _ HT Hl) as (ex & Hex & Hvx & Hxr & Hqx & Hxn & Hnr).
  pose proof (chain_end_prefix_slot _ _ _ _ _ HT Hl) as Hqr.
  pose proof (prefix_end_valid _ _ _ _ _ _ _ HT Hl Heq) as Hvq0.
  pose proof (relinked_mem_ok _ _ _ _ _ _ HT HRL Hvq0) as HM1. fold t1 in HM1.
  pose proof (expn_cnt_pos _ _ _ _ HT Hex Hvx ltac:(lia)) as Hcnt1.
  pose proof (cnt_bounds _ _ HT) as [_ Hcb].
  assert (Hsucc : hd0 l2 <> 0 -> table_entries t1 <= hd0 l2 < tot_tbl_ents t1 /\
    exists e, zget (tbl_mem t1) (hd0 l2) = Some e /\ wf_entry e /\ entry_is_valid e = true).
  { intros Hn0. destruct l2 as [|j l2]; [done|]. cbn [hd0] in *.
    destruct (Hnr ltac:(done)) as [Hqj Hjr]. split; [done|].
    destruct (succ_record _ _ _ _ _ _ _ HT Hl) as (e & He & ? & ?). exists e.
    unfold t1. cbn. by rewrite zget_zset_ne. }
  assert (Hexec : forall ipe, (l2 = [] -> ipe = false) ->
    exists t2, backlinked t1 (chain_end b l1) (hd0 l2) t2 /\
     ipa_table_delete_entry t1 (iter_at t1 (chain_end b l1) x (hd0 l2)) ipe =
     Ok (set_cnts (set_mem t2 (zset (tbl_mem t2) x entry_zero)) (cur_tbl_cnt t1)
          (u16 (cur_expn_tbl_cnt t1 - 1)))).
  { intros ipe Hipe.
    destruct (decide (hd0 l2 = 0)) as [E0|E0].
    - apply (delete_entry_exec t1 _ x _ entry_zero ipe); try done; try apply HM1.
      intros _. apply Hipe. destruct l2 as [|j l2]; [done|]. cbn in *.
      destruct (Hnr ltac:(done)). destruct G. lia.
    - destruct (Hsucc E0) as (Hr & e & He & Hwf & _).
      apply (delete_entry_exec t1 _ x _ e ipe); try done; apply HM1. }
  destruct (Hexec false ltac:(done)) as (t2 & Hback & _).
  destruct (view_node _ _ _ _ HT Heq) as (pq & Hpq & Hviewq).
  destruct (view_removed _ _ _ _ _ _ _ _ _ _ HT Hl HRL Hpq Hback) as (px & n2 & Hn2 & Hview).
  assert (HM2 : mem_ok wf_entry meta_ok t2 (cur_tbl_cnt t) (cur_expn_tbl_cnt t)).
  { eapply backlinked_mem_ok; done. }
  assert (Hx2 : zget (tbl_mem t2) x = Some ex /\ table_entries t2 = table_entries t /\
                tot_tbl_ents t2 = tot_tbl_ents t).
  { unfold backlinked in Hback. destruct (_ =? 0) in Hback.
    - subst t2. unfold t1. cbn. by rewrite zget_zset_ne.
    - destruct Hback as (? & ? & ? & _ & _ & ->). cbn. by rewrite !zget_zset_ne. }
  destruct Hx2 as (Hx2 & Hte & Htot).
  exists t2. split; [done|]. split.
  - apply table_ok_intro.
    + pose proof (mem_ok_zset _ _ _ x entry_zero ex HM2 Hx2 law_wf_zero ltac:(done)) as HM3.
      rewrite (proj2 (Z.ltb_ge _ _)), Hvx, law_zero_valid in HM3 by lia. cbn [b2z] in HM3.
      replace (cur_expn_tbl_cnt t + (0 - 1)) with (cur_expn_tbl_cnt t - 1) in HM3 by lia.
      by rewrite Z.add_0_r in HM3.
    + cbn. rewrite Hte, Htot. eapply rep_ext; [symmetry; apply Hview|].
      eapply (rep_remove_tail _ _ _ _ b l1 x l2); [apply HT|done| |done].
      exact Hviewq.
  - intros ipe Hipe. destruct (Hexec ipe Hipe) as (t3 & Hback3 & Hrun3).
    assert (t3 = t2) as ->.
    { unfold backlinked in *. destruct (hd0 l2 =? 0); [congruence|].
      destruct Hback as (? & ? & ? & H1 & H2 & ->), Hback3 as (? & ? & ? & H3 & H4 & ->). congruence. }
    change (iter_at t (chain_end b l1) x (hd0 l2)) with (iter_at t1 (chain_end b l1) x (hd0 l2)).
    rewrite Hrun3. cbn [cur_tbl_cnt cur_expn_tbl_cnt t1 set_mem].
    rewrite wrap_small by (destruct G; lia). done.
Qed.
End deletion.

(** ** Rule handles *)
Lemma lor_shiftl_add a b n : 0 <= n -> 0 <= a < 2 ^ n -> Z.lor a (Z.shiftl b n) = a + b * 2 ^ n.
Proof.
  intros Hn Ha. rewrite <- Z.shiftl_mul_pow2 by done.
  assert (Hz : Z.land a (Z.shiftl b n) = 0).
  { apply Z.bits_inj'. intros k Hk. rewrite Z.land_spec, Z.bits_0.
    destruct (Z.lt_ge_cases k n).
    - by rewrite Z.shiftl_spec_low, andb_false_r.
    - rewrite <- (wrap_small n a) by done. unfold wrap. by rewrite Z.mod_pow2_bits_high by lia. }
  by rewrite Z.add_nocarry_lxor, Z.lxor_lor.
Qed.

Lemma MakeEntryHdl_val {E} (t : ipa_table E) i : geometry t -> 0 <= i < tot_tbl_ents t ->
  MakeEntryHdl t i =
    (if i >=? table_entries t then 2 * (i - table_entries t) + 1 else 2 * i)
    + nmi t * 2 ^ 15.
Proof.
  intros G Hi. pose proof (geo_base _ G). pose proof (geo_expn _ G). pose proof (geo_tot _ G).
  assert (Hn : nmi t = 0 \/ nmi t = 1) by apply (geo_nmi _ G).
  assert (Hsh : forall k, Z.shiftl k 1 = 2 * k) by (intros k; rewrite Z.shiftl_mul_pow2; lia).
  assert (Hor : forall k, Z.lor (2 * k) 1 = 2 * k + 1).
  { intros k. pose proof (lor_shiftl_add 1 k 1 ltac:(lia) ltac:(lia)) as Hk.
    rewrite Hsh in Hk. rewrite Z.lor_comm, Hk. lia. }
  unfold MakeEntryHdl, IPA_TABLE_TYPE_BITS, IPA_TABLE_TYPE_MASK, IPA_TABLE_TYPE_MEM_SHIFT.
  rewrite !Hsh, Z.geb_leb. destruct (_ <=? i) eqn:E1; zify_bool.
  - rewrite (wrap_small 16 (i - table_entries t)) by lia.
    rewrite (wrap_small 16 (2 * (i - table_entries t))) by lia.
    rewrite Hor. rewrite lor_shiftl_add by lia.
    apply wrap_small. destruct Hn as [-> | ->]; lia.
  - rewrite (wrap_small 16 (2 * i)), lor_shiftl_add by lia.
    apply wrap_small. destruct Hn as [-> | ->]; lia.
Qed.

Lemma make_hdl_nonzero {E} (t : ipa_table E) i : geometry t -> 0 < i < tot_tbl_ents t ->
  (MakeEntryHdl t i =? IPA_TABLE_INVALID_ENTRY) = false.
Proof.
  intros G Hi. pose proof (geo_base _ G). rewrite MakeEntryHdl_val by (done || lia).
  apply Z.eqb_neq. unfold IPA_TABLE_INVALID_ENTRY. destruct (geo_nmi _ G) as [-> | ->];
    unfold IPA_NAT_MEM_IN_DDR, IPA_NAT_MEM_IN_SRAM; rewrite Z.geb_leb;
    destruct (_ <=? i) eqn:E1; zify_bool; lia.
Qed.

Lemma break_make_hdl {E} (t : ipa_table E) i : geometry t -> 0 <= i < tot_tbl_ents t ->
  BREAK_RULE_HDL t (MakeEntryHdl t i) = (nmi t, b2z (i >=? table_entries t), i).
Proof.
  intros G Hi. rewrite MakeEntryHdl_val by done.
  pose proof (geo_base _ G). pose proof (geo_expn _ G). pose proof (geo_tot _ G).
  assert (Hn : nmi t = 0 \/ nmi t = 1) by apply (geo_nmi _ G).
  unfold BREAK_RULE_HDL, IPA_TABLE_TYPE_BITS, IPA_TABLE_TYPE_MASK, IPA_TABLE_TYPE_MEM_SHIFT,
    IPA_TABLE_INDX_MASK.
  change 4095 with (Z.ones 12). rewrite !(Z.shiftr_div_pow2) by lia.
  change (Z.land ?a 1) with (Z.land a (Z.ones 1)). rewrite !Z.land_ones by lia.
  change (2 ^ 1) with 2. change (2 ^ 12) with 4096. change (2 ^ 15) with 32768.
  set (v := if i >=? table_entries t then _ else _).
  assert (Hv : 0 <= v < 8192).
  { unfold v. rewrite Z.geb_leb. case_match; zify_bool; lia. }
  assert (Hdiv : (v + nmi t * 32768) / 32768 = nmi t).
  { rewrite Z.div_add, Z.div_small by lia. lia. }
  assert (Hmod2 : (v + nmi t * 32768) mod 2 = v mod 2).
  { replace (nmi t * 32768) with (nmi t * 16384 * 2) by lia. by rewrite Z.mod_add by lia. }
  assert (Hidx : (v + nmi t * 32768) / 2 mod 4096 = v / 2).
  { replace (nmi t * 32768) with (nmi t * 4 * 4096 * 2) by lia. rewrite Z.div_add by lia.
    rewrite Z.mod_add by lia. apply Z.mod_small. split; [apply Z.div_pos; lia|].
    apply Z.div_lt_upper_bound; lia. }
  rewrite Hdiv, Hmod2, Hidx. unfold v. rewrite Z.geb_leb. destruct (_ <=? i) eqn:E1; zify_bool; cbn [b2z].
  - replace ((2 * (i - table_entries t) + 1) mod 2) with 1 by (symmetry; rewrite Z.add_comm, Z.mul_comm, Z.mod_add; [done|lia]).
    replace ((2 * (i - table_entries t) + 1) / 2) with (i - table_entries t)
      by (rewrite Z.add_comm, Z.mul_comm, Z.div_add by lia; done).
    cbn [Z.eqb negb]. rewrite wrap_small by lia. f_equal; [f_equal; destruct Hn as [-> | ->]; done|lia].
  - replace (2 * i mod 2) with 0 by (symmetry; rewrite Z.mul_comm; apply Z.mod_mul; lia).
    replace (2 * i / 2) with i by (rewrite Z.mul_comm, Z.div_mul by lia; done).
    cbn [Z.eqb negb]. rewrite wrap_small by lia. f_equal; [f_equal; destruct Hn as [-> | ->]; done|lia].
Qed.

Lemma get_entry_hdl {E} (t : ipa_table E) i : geometry t -> 0 <= i < tot_tbl_ents t ->
  ipa_table_get_entry t (MakeEntryHdl t i) = (0, Some (GOTO_REC t i, i)).
Proof.
  intros G Hi. unfold ipa_table_get_entry. rewrite break_make_hdl by done.
  by rewrite Z.geb_leb, (proj2 (Z.leb_gt _ _)) by lia.
Qed.

Lemma valid_slot `{EL : EntryLaws E D wf_entry meta_ok} (t : ipa_table E) chains i e :
  table_ok wf_entry meta_ok t chains -> zget (tbl_mem t) i = Some e -> entry_is_valid e = true ->
  0 < i < tot_tbl_ents t.
Proof.
  intros HT He Hv. pose proof (ok_geo _ _ _ _ HT) as G. pose proof (zget_Some_lt _ _ _ He) as Hi.
  rewrite (geo_mem _ G) in Hi. pose proof (geo_base _ G).
  destruct (decide (i = 0)) as [->|]; [|lia].
  destruct (view_node _ _ _ _ HT He) as (p & _ & Hview).
  pose proof (rep_slot0 (ok_rep _ _ _ _ HT) _ ltac:(lia) Hview) as Hn. cbn in Hn. congruence.
Qed.

(** ** Fresh command buffers *)
Lemma zero_posted n : cmd_posted (dma_cmd_zero n) = [].
Proof. done. Qed.

Lemma zero_room n m : m <= Z.of_nat n -> cmd_room (dma_cmd_zero n) m.
Proof. intros. unfold cmd_room. cbn. rewrite length_replicate. lia. Qed.
