(* ===== verification/Dma.v ===== *)
(** * The effect of the posted DMA commands on the tables

    The library does not write the fields the hardware may be reading (head
    flags, next indices, protocol): it posts 16-bit writes with the
    [IPA_IOC_TABLE_DMA_CMD] ioctl, carried out by the IPA hardware on the memory
    the library has mapped.  The hardware is not part of the repository; this file
    states its documented effect, which the theorems use as the specification of
    a successful ioctl: [dma_apply] performs one command, [dma_run] a posted list.
    A record type gives its memory layout by [DmaRecord], and [RecordLaws]
    relates the layout to the record callbacks of [ipa_table.c]. *)

From Stdlib Require Import ZArith Lia.
From stdpp Require Import prelude gmap list numbers.
From S2P Require Import Prelude Chain Bitfield IpaTable IpaTableRep.

Local Open Scope Z_scope.

(** The bit-fields of a record, from bit 0 of its first byte on. *)
Class DmaRecord (E : Type) := {
  rec_ws : list Z;
  rec_fields : E -> list Z;
  rec_of : list Z -> E }.

(** A write of the 16 bits [d] at byte [off] of a record. *)
Definition rec_dma16 `{DmaRecord E} (e : E) (off d : Z) : E :=
  rec_of (unpack rec_ws (write_bits (pack rec_ws (rec_fields e)) (8 * off) 16 d)).

(** The record and byte a command addresses, for a table whose base and expansion
    areas are the regions [base] and [expn]. *)
Definition dma_target {E} (t : ipa_table E) (base expn : ipa_table_dma_type)
    (d : ipa_ioc_nat_dma_one) : option (Z * Z) :=
  let slot := dma_offset d / entry_size t in
  let byte := dma_offset d mod entry_size t in
  if decide (dma_base_addr d = base) then
    if slot <? table_entries t then Some (slot, byte) else None
  else if decide (dma_base_addr d = expn) then
    if slot <? expn_table_entries t then Some (table_entries t + slot, byte) else None
  else None.

Definition dma_apply `{DmaRecord E} (base expn : ipa_table_dma_type)
    (t : ipa_table E) (d : ipa_ioc_nat_dma_one) : ipa_table E :=
  match dma_target t base expn d with
  | Some (i, byte) =>
      match zget (tbl_mem t) i with
      | Some e => set_mem t (zset (tbl_mem t) i (rec_dma16 e byte (dma_data d)))
      | None => t
      end
  | None => t
  end.

Definition dma_run `{DmaRecord E} (base expn : ipa_table_dma_type)
    (t : ipa_table E) (ds : list ipa_ioc_nat_dma_one) : ipa_table E :=
  foldl (dma_apply base expn) t ds.

Lemma dma_run_app `{DmaRecord E} base expn t ds1 ds2 :
  dma_run base expn t (ds1 ++ ds2) = dma_run base expn (dma_run base expn t ds1) ds2.
Proof. apply foldl_app. Qed.

(** A helper of the regions [base] and [expn] of the first table for the field at byte [off]. *)
Definition helper_for (base expn : ipa_table_dma_type) (off : Z)
    (h : ipa_table_dma_cmd_helper) : Prop :=
  hlp_offset h = off /\ hlp_table_type h = base /\ hlp_expn_table_type h = expn /\
  hlp_table_indx h = 0.

Lemma dma_target_slot {E} (t : ipa_table E) base expn off h i data :
  geometry t -> base <> expn -> helper_for base expn off h -> 0 <= off < entry_size t ->
  0 <= i < tot_tbl_ents t ->
  dma_target t base expn (slot_dma t h i data) = Some (i, off).
Proof.
  intros HG Hne (<- & <- & <- & _) Hoff Hi. destruct HG.
  unfold dma_target, slot_dma, region_offset. cbn [dma_offset dma_base_addr].
  set (k := if i >=? table_entries t then i - table_entries t else i).
  assert (Hk : 0 <= k < 5120).
  { unfold k, IPA_TABLE_MAX_ENTRIES in *. rewrite Z.geb_leb. case_match; zify_bool; lia. }
  rewrite wrap_small by nia.
  rewrite Z.div_add, Z.mod_add, Z.div_small, Z.mod_small, Z.add_0_l by lia.
  unfold k in *. rewrite !Z.geb_leb in *. case_match; zify_bool.
  - rewrite decide_False, decide_True by done. rewrite (proj2 (Z.ltb_lt _ _)) by lia. f_equal. f_equal. lia.
  - rewrite decide_True by done. by rewrite (proj2 (Z.ltb_lt _ _)) by lia.
Qed.

Lemma dma_apply_slot `{DmaRecord E} (t : ipa_table E) base expn off h i e data :
  geometry t -> base <> expn -> helper_for base expn off h -> 0 <= off < entry_size t ->
  0 <= i < tot_tbl_ents t -> zget (tbl_mem t) i = Some e ->
  dma_apply base expn t (slot_dma t h i data)
  = set_mem t (zset (tbl_mem t) i (rec_dma16 e off data)).
Proof. intros. unfold dma_apply. erewrite dma_target_slot by done. by simplify_option_eq. Qed.

(** A command that writes into a record of the table, with values of the types of the
    C structure. *)
Definition posts {E} (base expn : ipa_table_dma_type) (t : ipa_table E) (d : ipa_ioc_nat_dma_one) : Prop :=
  (dma_base_addr d = base \/ dma_base_addr d = expn) /\ dma_table_index d = 0 /\
  0 <= dma_offset d < 2 ^ 32 /\ 0 <= dma_data d < 2 ^ 16 /\ is_Some (dma_target t base expn d).

Lemma slot_dma_posts {E} (t : ipa_table E) base expn off h i data :
  geometry t -> base <> expn -> helper_for base expn off h -> 0 <= off < entry_size t ->
  0 <= i < tot_tbl_ents t -> 0 <= data < 2 ^ 16 -> posts base expn t (slot_dma t h i data).
Proof.
  intros HG Hne Hfor Hoff Hi Hd. unfold posts. rewrite (dma_target_slot _ _ _ off) by done.
  split; [|split; [apply Hfor|split; [by apply wrap_range|by split; [|eexists]]]].
  destruct Hfor as (_ & <- & <- & _). cbn. case_match; auto.
Qed.

Lemma posts_region {E} base expn (t : ipa_table E) ds : Forall (posts base expn t) ds ->
  Forall (fun d => dma_base_addr d = base \/ dma_base_addr d = expn) ds.
Proof. intros H. eapply list.Forall_impl; [exact H|]. by intros d []. Qed.

(** Commands for other regions leave the table alone. *)
Lemma dma_run_other `{DmaRecord E} base expn (t : ipa_table E) ds :
  Forall (fun d => dma_base_addr d <> base /\ dma_base_addr d <> expn) ds ->
  dma_run base expn t ds = t.
Proof.
  induction ds as [|d ds IH]; [done|]. intros [[H1 H2] Hds]%list.Forall_cons.
  cbn [dma_run foldl]. unfold dma_apply at 2, dma_target.
  rewrite !decide_False by done. by apply IH.
Qed.

Lemma dma_run_set_mem `{DmaRecord E} base expn (t : ipa_table E) ds :
  set_mem t (tbl_mem (dma_run base expn t ds)) = dma_run base expn t ds.
Proof.
  revert t. induction ds as [|d ds IH]; intros t; [by destruct t|].
  cbn [dma_run foldl]. change (foldl (dma_apply base expn)) with (dma_run (E := E) base expn).
  assert (exists l, dma_apply base expn t d = set_mem t l) as [l ->].
  { unfold dma_apply. repeat case_match; [by eexists|exists (tbl_mem t); by destruct t..]. }
  rewrite <- (IH (set_mem t l)) at 2. done.
Qed.
