(* ===== verification/TableDma.v ===== *)
(** * Insertions and deletions completed by the hardware

    A change of a table is made in two parts: [ipa_table.c] writes some records
    and queues DMA commands, and the hardware carries the commands out.  This
    file joins the two for any record type whose layout satisfies [LinkedLaws]:
    [added] says what an insertion and its commands do to the chains and to the
    contents of the table, and the lemmas on deletion do the same for the four
    positions a deleted record can have. *)

From Stdlib Require Import ZArith Lia.
From stdpp Require Import prelude gmap list numbers.
From S2P Require Import Prelude Chain Bitfield IpaTable IpaTableRep Dma.

Local Open Scope Z_scope.

(** Size of a record, the bytes its head and link commands write, and the record
    without its links. *)
Class LinkedRecord (E : Type) := {
  rec_size : Z;
  head_off : Z;
  entry_off : Z;
  strip : E -> E }.

Class LinkedLaws `{Ops : EntryOps E D} `{DR : DmaRecord E} `{LR : LinkedRecord E}
    (wf_entry : E -> Prop) (meta_ok : option (list Z) -> Z -> Prop) : Prop := {
  ll_entry :: EntryLaws wf_entry meta_ok;
  ll_offs : 0 <= head_off < rec_size /\ 0 <= entry_off < rec_size;
  ll_link : forall e v, wf_entry e -> 0 <= v < 2 ^ 16 ->
    let e' := rec_dma16 e entry_off v in
    wf_entry e' /\ entry_is_valid e' = entry_is_valid e /\ entry_get_next_index e' = v /\
    strip e' = strip e /\
    forall i m B, entry_get_prev_index e' i m B = entry_get_prev_index e i m B;
  ll_prev_strip : forall e i p m B e' m',
    entry_set_prev_index e i p m B = Ok (e', m') -> strip e' = strip e;
  ll_head_prev : forall d e data i m B, entry_head_insert entry_zero d = Ok (0, e, data) ->
    i < B -> entry_get_prev_index e i m B = Ok 0 }.

(** The table's regions and DMA helpers. *)
Record table_hw `{LR : LinkedRecord E} (base expn : ipa_table_dma_type) (t : ipa_table E) : Prop := {
  hw_size : entry_size t = rec_size;
  hw_ne : base <> expn;
  hw_head : exists h, help_update_head (dma_help t) = Some h /\ helper_for base expn head_off h;
  hw_entry : exists h, help_update_entry (dma_help t) = Some h /\ helper_for base expn entry_off h }.

(** A command built with one of the helpers. *)
Lemma hw_posts `{LR : LinkedRecord E} base expn (t : ipa_table E) h off i data :
  geometry t -> table_hw base expn t -> helper_for base expn off h -> 0 <= off < rec_size ->
  0 <= i < tot_tbl_ents t -> 0 <= data < 2 ^ 16 -> posts base expn t (slot_dma t h i data).
Proof. intros G HW ? Ho ? ?. rewrite <- (hw_size _ _ _ HW) in Ho. eapply slot_dma_posts; try done. by eapply hw_ne. Qed.

Lemma posts_shape {E} base expn (t t' : ipa_table E) d :
  (exists m c x l, t' = set_cnts (set_mem (set_meta t m) l) c x) -> posts base expn t' d -> posts base expn t d.
Proof. by intros (m & c & x & l & ->). Qed.

(** Bounds of slots. *)
Ltac slot_bounds G := destruct G; unfold IPA_TABLE_MAX_ENTRIES in *; lia.

(** The valid records without their links. *)
Definition contents `{EntryOps E D} `{LinkedRecord E} (t : ipa_table E) (i : Z) : option E :=
  match zget (tbl_mem t) i with
  | Some e => if entry_is_valid e then Some (strip e) else None
  | None => None
  end.

(** [t'] is [t] with other records, counters and meta data. *)
Definition same_shape {E} (t t' : ipa_table E) : Prop :=
  exists m c x l, t' = set_cnts (set_mem (set_meta t m) l) c x.

Lemma same_shape_refl {E} (t : ipa_table E) : same_shape t t.
Proof. exists (meta t), (cur_tbl_cnt t), (cur_expn_tbl_cnt t), (tbl_mem t). by destruct t. Qed.

Lemma same_shape_trans {E} (t1 t2 t3 : ipa_table E) :
  same_shape t1 t2 -> same_shape t2 t3 -> same_shape t1 t3.
Proof. intros (m & c & x & l & ->) (m' & c' & x' & l' & ->). by exists m', c', x', l'. Qed.

Lemma same_shape_mem {E} (t : ipa_table E) l : same_shape t (set_mem t l).
Proof. exists (meta t), (cur_tbl_cnt t), (cur_expn_tbl_cnt t), l. by destruct t. Qed.

Lemma same_shape_cnts {E} (t : ipa_table E) l c x : same_shape t (set_cnts (set_mem t l) c x).
Proof. exists (meta t), c, x, l. by destruct t. Qed.

Lemma same_shape_meta {E} (t : ipa_table E) m l c x :
  same_shape t (set_cnts (set_mem (set_meta t m) l) c x).
Proof. by exists m, c, x, l. Qed.

Lemma same_shape_hw `{LR : LinkedRecord E} base expn (t t' : ipa_table E) :
  same_shape t t' -> table_hw base expn t -> table_hw base expn t'.
Proof. intros (m & c & x & l & ->) []. by split. Qed.

Lemma set_mem_mem {E} (t : ipa_table E) a b : set_mem (set_mem t a) b = set_mem t b.
Proof. done. Qed.

Lemma zset_comm {A} (l : list A) i j x y : i <> j ->
  zset (zset l i x) j y = zset (zset l j y) i x.
Proof.
  intros Hij. unfold zset. destruct (0 <=? i) eqn:?, (0 <=? j) eqn:?; try done.
  zify_bool. apply list_insert_insert_ne. lia.
Qed.

Lemma zset_id {A} (l : list A) i x : zget l i = Some x -> zset l i x = l.
Proof. unfold zget, zset. case_match; [|done]. apply list_insert_id. Qed.

Section linked.
Context `{Ops : EntryOps E D} `{DR : DmaRecord E} `{LR : LinkedRecord E}
  {wf_entry : E -> Prop} {meta_ok : option (list Z) -> Z -> Prop}
  `{LL : !LinkedLaws wf_entry meta_ok}.
Context {base expn : ipa_table_dma_type}.
Implicit Types t : ipa_table E.

Lemma contents_zset t l i e j : 0 <= i < Z.of_nat (length l) ->
  contents (set_mem t (zset l i e)) j
  = if decide (j = i) then (if entry_is_valid e then Some (strip e) else None)
    else contents (set_mem t l) j.
Proof.
  intros Hi. unfold contents. cbn. case_decide; subst.
  - by rewrite zget_zset_eq.
  - by rewrite zget_zset_ne.
Qed.

Lemma contents_mem t t' : tbl_mem t = tbl_mem t' -> forall i, contents t i = contents t' i.
Proof. unfold contents. by intros ->. Qed.

Lemma contents_shape t m c x l i :
  contents (set_cnts (set_mem (set_meta t m) l) c x) i = contents (set_mem t l) i.
Proof. done. Qed.

Lemma contents_shape0 t c x l i : contents (set_cnts (set_mem t l) c x) i = contents (set_mem t l) i.
Proof. done. Qed.

Lemma contents_valid t i e : zget (tbl_mem t) i = Some e -> entry_is_valid e = true ->
  contents t i = Some (strip e).
Proof. unfold contents. by intros -> ->. Qed.

Lemma contents_free t i e : zget (tbl_mem t) i = Some e -> entry_is_valid e = false ->
  contents t i = None.
Proof. unfold contents. by intros -> ->. Qed.

(** *** Members of a chain *)
Lemma chain_end_record t chains b l1 l2 :
  table_ok wf_entry meta_ok t chains -> chains !! b = Some (l1 ++ l2) ->
  exists e, zget (tbl_mem t) (chain_end b l1) = Some e /\ wf_entry e /\ entry_is_valid e = true.
Proof.
  intros HT Hl. destruct (rep_chain _ _ _ _ (ok_rep _ _ _ _ HT) _ _ Hl) as (_ & Hc & _).
  assert (exists n, view t (chain_end b l1) = Some n /\ nd_valid n = true) as (n & Hn & Hv).
  { clear Hl. revert Hc. generalize 0 as p. revert b.
    induction l1 as [|j l1 IH]; intros b p Hc.
    - cbn in *. destruct l2; destruct Hc as (n & ? & ? & _); eauto.
    - destruct Hc as (n & _ & _ & _ & _ & Hc). rewrite chain_end_cons. by eapply IH. }
  destruct (view_inv _ _ _ Hn) as (e & He & Hve & _). exists e. split_and!; [done| |congruence].
  pose proof (ok_wf _ _ _ _ HT) as Hwf. rewrite list.Forall_forall in Hwf. apply Hwf.
  unfold zget in He. case_match; [|done]. by eapply list_elem_of_lookup_2.
Qed.

Lemma slot_wf t chains i e : table_ok wf_entry meta_ok t chains ->
  zget (tbl_mem t) i = Some e -> wf_entry e.
Proof.
  intros HT He. pose proof (ok_wf _ _ _ _ HT) as Hwf. rewrite list.Forall_forall in Hwf.
  apply Hwf. unfold zget in He. case_match; [|done]. by eapply list_elem_of_lookup_2.
Qed.

(** *** Insertion *)
Definition posted_data (posted : bool) (e : E) (data : Z) : E :=
  if posted then rec_dma16 e head_off data else e.

(** An insertion in bucket [b] took slot [new] and queued [ds].  The caller may
    still patch the new record to [e2]; [posted] tells whether the record's head
    field is among the queued writes.  [ad_undo] is the caller's rollback,
    [ad_commit] the state once the hardware has run [ds]. *)
Record added t chains (b : Z) (eh et : E) (data : Z) t1 (new : Z) chains'
    (ds : list ipa_ioc_nat_dma_one) (e_ins : E) (posted : bool) : Prop := {
  ad_slot : zget (tbl_mem t) new = Some entry_zero;
  ad_range : 0 < new < tot_tbl_ents t;
  ad_rec : zget (tbl_mem t1) new = Some e_ins;
  ad_shape : same_shape t t1;
  ad_ds : (1 <= length ds <= match meta t with None => 2 | Some _ => 1 end)%nat /\
    Forall (posts base expn t) ds;
  ad_chains : (chains !! b = None /\ new = b /\ chains' = <[b := []]> chains) \/
    exists l, chains !! b = Some l /\ table_entries t <= new /\
      chains' = <[b := l ++ [new]]> chains;
  ad_posted : (posted = true <-> chains !! b = None \/ meta t = None);
  ad_ins : (e_ins = eh /\ posted = true) \/
    exists q m m', entry_set_prev_index (if posted then eh else et) new q m (table_entries t)
                   = Ok (e_ins, m');
  ad_undo : exists t', ipa_table_erase_entry t1 new = Ok t' /\
    table_ok wf_entry meta_ok t' chains /\ tbl_mem t' = tbl_mem t /\ same_shape t t';
  ad_commit : forall e2, let e3 := posted_data posted e2 data in
    wf_entry e3 -> entry_is_valid e3 = true -> entry_get_next_index e3 = 0 ->
    (forall m, entry_get_prev_index e3 new m (table_entries t)
             = entry_get_prev_index e_ins new m (table_entries t)) ->
    let t2 := dma_run base expn (set_mem t1 (zset (tbl_mem t1) new e2)) ds in
    table_ok wf_entry meta_ok t2 chains' /\ same_shape t t2 /\
    forall i, contents t2 i = if decide (i = new) then Some (strip e3) else contents t i }.

Lemma undo_counts t chains l i c x :
  table_ok wf_entry meta_ok t chains -> 0 <= i < tot_tbl_ents t ->
  zget (tbl_mem t) i = Some entry_zero -> l = tbl_mem t ->
  forall e m, meta_ok m (expn_table_entries t) ->
  (forall e2 j, 0 <= j -> j <> i -> entry_get_prev_index e2 j m (table_entries t)
                         = entry_get_prev_index e2 j (meta t) (table_entries t)) ->
  c = cur_tbl_cnt t + (if i <? table_entries t then 1 else 0) ->
  x = cur_expn_tbl_cnt t + (if i <? table_entries t then 0 else 1) ->
  exists t', ipa_table_erase_entry (set_cnts (set_mem (set_meta t m) (zset l i e)) c x) i = Ok t' /\
    table_ok wf_entry meta_ok t' chains /\ tbl_mem t' = tbl_mem t /\ same_shape t t'.
Proof.
  intros HT Hi Hz -> e m Hm Hother -> ->. assert (G := ok_geo _ _ _ _ HT).
  pose proof (cnt_bounds _ _ HT) as [Hc1 Hc2].
  set (t1 := set_cnts _ _ _). assert (G1 : geometry t1) by (unfold t1; auto with cint).
  assert (Her : ipa_table_erase_entry t1 i
    = Ok (set_cnts (set_meta t m) (cur_tbl_cnt t) (cur_expn_tbl_cnt t))).
  { rewrite erase_entry_spec by done. unfold t1. cbn -[wrap zset].
    rewrite zset_zset, (zset_id _ _ _ Hz). destruct (i <? table_entries t);
      rewrite ?Z.add_0_r, wrap_small by (destruct G; unfold IPA_TABLE_MAX_ENTRIES in *; lia);
      unfold set_cnts, set_mem, set_meta; cbn; do 2 f_equal; lia. }
  eexists. split; [exact Her|]. split_and!; [|done|by eexists _, _, _, _].
  apply table_ok_intro; [apply mem_ok_set_meta; [done|by apply table_ok_mem in HT]|].
  eapply rep_ext_valid; [|apply (ok_rep _ _ _ _ HT)]. intros j. cbn.
  destruct (decide (j = i)) as [->|Hj].
  - right. destruct (law_get_prev entry_zero i m (table_entries t) (expn_table_entries t)) as [p' Hp'];
      [done|destruct G; lia|].
    destruct (law_get_prev entry_zero i (meta t) (table_entries t) (expn_table_entries t)) as [p Hp];
      [apply HT|destruct G; lia|].
    exists 0, p, p'. unfold view. cbn. rewrite Hz, Hp, Hp', law_zero_valid, law_zero_next. done.
  - left. unfold view. cbn. destruct (zget (tbl_mem t) j) as [ej|] eqn:Hej; [|done].
    pose proof (zget_Some_lt _ _ _ Hej). by rewrite Hother by lia.
Qed.

Lemma added_head t chains b eh et data h :
  table_ok wf_entry meta_ok t chains -> table_hw base expn t ->
  0 < b < table_entries t -> chains !! b = None ->
  help_update_head (dma_help t) = Some h -> helper_for base expn head_off h ->
  (forall m, entry_get_prev_index eh b m (table_entries t) = Ok 0) -> 0 <= data < 2 ^ 16 ->
  added t chains b eh et data
    (set_cnts (set_mem t (zset (tbl_mem t) b eh)) (cur_tbl_cnt t + 1) (cur_expn_tbl_cnt t))
    b (<[b := []]> chains) [slot_dma t h b data] eh true.
Proof.
  intros HT HW Hb Hnone Hh Hfor Hprev Hdata. assert (G := ok_geo _ _ _ _ HT).
  destruct (base_lookup t chains b HT) as (e0 & He0 & Hval); [lia|].
  pose proof (zget_Some_lt _ _ _ He0) as Hi.
  assert (entry_is_valid e0 = false) as Hv0.
  { destruct (entry_is_valid e0) eqn:Hv; [|done]. destruct Hval as [[? ?] _]; congruence. }
  pose proof (ok_free _ _ _ _ HT _ _ He0 Hv0) as ->.
  assert (Htot : tot_tbl_ents t = Z.of_nat (length (tbl_mem t))) by (by rewrite (geo_mem _ G)).
  split.
  - done.
  - lia.
  - cbn. by apply zget_zset_eq.
  - apply same_shape_cnts.
  - split; [cbn; destruct (meta t); lia|]. constructor; [|done].
    eapply hw_posts; try done; [apply ll_offs|lia].
  - by left.
  - split; auto.
  - by left.
  - destruct (undo_counts t chains _ b (cur_tbl_cnt t + 1) (cur_expn_tbl_cnt t) HT ltac:(lia)
      He0 eq_refl eh (meta t)) as (t' & Ht' & ?); [apply HT|done|..].
    + rewrite (proj2 (Z.ltb_lt _ _)) by lia. lia.
    + rewrite (proj2 (Z.ltb_lt _ _)) by lia. lia.
    + exists t'. split; [|done]. rewrite <- Ht'. by destruct t.
  - cbn [posted_data]. intros e2 Hwf Hv Hn Hp.
    set (t1 := set_mem _ (zset _ b e2)).
    assert (G1 : geometry t1).
    { unfold t1. apply geometry_set_mem; [by rewrite zset_length|auto with cint]. }
    assert (dma_run base expn t1 [slot_dma t h b data]
      = set_cnts (set_mem t (zset (tbl_mem t) b (rec_dma16 e2 head_off data)))
          (cur_tbl_cnt t + 1) (cur_expn_tbl_cnt t)) as ->.
    { cbn [dma_run foldl].
      change (slot_dma t h b data) with (slot_dma t1 h b data).
      rewrite (dma_apply_slot t1 base expn head_off h b e2 data).
      - unfold t1. cbn [tbl_mem set_mem set_cnts]. by rewrite !zset_zset.
      - done.
      - by eapply hw_ne.
      - done.
      - cbn. rewrite (hw_size _ _ _ HW). apply ll_offs.
      - cbn. lia.
      - cbn. apply zget_zset_eq. by rewrite zset_length. }
    split_and!.
    + apply commit_head; try done. by rewrite Hp, Hprev.
    + apply same_shape_cnts.
    + intros j. rewrite contents_shape0, contents_zset by lia. by rewrite Hv.
Qed.

(** The memory after the queued writes of a tail insertion at [f]. *)
Lemma tail_run t m' c x h he f q e2 ep eq data :
  geometry t -> table_hw base expn t -> helper_for base expn head_off h ->
  helper_for base expn entry_off he -> f <> q -> 0 < f < tot_tbl_ents t ->
  zget (tbl_mem t) q = Some eq ->
  let t1 := set_cnts (set_mem (set_meta t m') (zset (tbl_mem t) f e2)) c x in
  dma_run base expn (set_mem t1 (zset (tbl_mem t1) f ep)) (tail_cmds t h he f q data)
  = set_cnts (set_mem (set_meta t m')
      (zset (zset (tbl_mem t) f
              (posted_data (match meta t with None => true | Some _ => false end) ep data))
            q (rec_dma16 eq entry_off f))) c x.
Proof.
  intros G HW Hh Hhe Hfq Hf Heq t1. pose proof (zget_Some_lt _ _ _ Heq) as Hq.
  destruct ll_offs as [Ho1 Ho2]. pose proof (hw_size _ _ _ HW) as Hsz.
  pose proof (hw_ne _ _ _ HW) as Hne. pose proof (geo_mem _ G) as Hmem.
  assert (Hlink : forall e, dma_apply base expn
      (set_mem t1 (zset (tbl_mem t) f e)) (slot_dma t he q f)
    = set_mem t1 (zset (zset (tbl_mem t) f e) q (rec_dma16 eq entry_off f))).
  { intros e. set (t2 := set_mem t1 _). change (slot_dma t he q f) with (slot_dma t2 he q f).
    rewrite (dma_apply_slot t2 base expn entry_off he q eq f); try done.
    - apply geometry_set_mem; [cbn; by rewrite !zset_length|unfold t1; auto with cint].
    - cbn. lia.
    - cbn. lia.
    - cbn. by rewrite zget_zset_ne. }
  unfold tail_cmds, posted_data. rewrite dma_run_app.
  replace (zset (tbl_mem t1) f ep) with (zset (tbl_mem t) f ep)
    by (unfold t1; cbn [tbl_mem set_mem set_cnts]; by rewrite zset_zset).
  destruct (meta t); cbn [dma_run foldl].
  - by rewrite Hlink.
  - set (t2 := set_mem t1 (zset _ _ _)).
    change (slot_dma t h f data) with (slot_dma t2 h f data).
    rewrite (dma_apply_slot t2 base expn head_off h f ep data); try done.
    + unfold t2. cbn [tbl_mem set_mem]. rewrite zset_zset, set_mem_mem. by rewrite Hlink.
    + apply geometry_set_mem; [cbn; by rewrite !zset_length|unfold t1; auto with cint].
    + cbn. lia.
    + cbn. lia.
    + cbn. apply zget_zset_eq. lia.
Qed.

Lemma tail_cmds_posts t h he f q data :
  geometry t -> table_hw base expn t ->
  helper_for base expn head_off h -> helper_for base expn entry_off he ->
  0 <= f < tot_tbl_ents t -> 0 <= q < tot_tbl_ents t -> 0 <= data < 2 ^ 16 ->
  (1 <= length (tail_cmds t h he f q data) <= match meta t with None => 2 | Some _ => 1 end)%nat /\
  Forall (posts base expn t) (tail_cmds t h he f q data).
Proof.
  intros G HW Hh Hhe Hf Hq Hd. destruct ll_offs as [Ho1 Ho2]. assert (0 <= f < 2 ^ 16) by slot_bounds G.
  assert (H1 : posts base expn t (slot_dma t h f data)) by by eapply hw_posts.
  assert (H2 : posts base expn t (slot_dma t he q f)) by by eapply hw_posts.
  unfold tail_cmds. destruct (meta t); cbn; (split; [lia|]);
    repeat (apply list.Forall_cons; split; [done|]); by apply list.Forall_nil.
Qed.

Lemma added_tail t chains b l f eh et data e1 e2 m' h he :
  table_ok wf_entry meta_ok t chains -> table_hw base expn t ->
  chains !! b = Some l -> first_empty t (table_entries t) f ->
  helper_for base expn head_off h -> helper_for base expn entry_off he ->
  e1 = (match meta t with None => eh | Some _ => et end) -> wf_entry e1 ->
  entry_set_prev_index e1 f (chain_end b l) (meta t) (table_entries t) = Ok (e2, m') ->
  0 <= data < 2 ^ 16 ->
  added t chains b eh et data
    (set_cnts (set_mem (set_meta t m') (zset (tbl_mem t) f e2)) (cur_tbl_cnt t)
       (cur_expn_tbl_cnt t + 1))
    f (<[b := l ++ [f]]> chains) (tail_cmds t h he f (chain_end b l) data) e2
    (match meta t with None => true | Some _ => false end).
Proof.
  intros HT HW Hl Hfe Hh Hhe He1 Hwf1 Hset Hdata. assert (G := ok_geo _ _ _ _ HT).
  assert (Hfe' := Hfe). destruct Hfe' as (Hfr & (ef & Hef & Hfinv) & _).
  pose proof (ok_free _ _ _ _ HT _ _ Hef Hfinv) as ->. pose proof (zget_Some_lt _ _ _ Hef) as Hfl.
  destruct (chain_end_record t chains b l [] HT) as (eq & Heq & Hwfq & Hvq); [by rewrite app_nil_r|].
  pose proof (chain_end_slot _ _ _ _ HT Hl) as Hq.
  assert (Hqf : f <> chain_end b l) by (intros E'; rewrite <- E' in *; congruence).
  destruct (law_set_prev e1 f (chain_end b l) (meta t) (table_entries t) (expn_table_entries t))
    as (e2' & m2 & Hset' & _ & Hmok & _ & _ & Hgp & Hother);
    [done|apply HT|destruct G; lia|destruct G; unfold IPA_TABLE_MAX_ENTRIES in *; lia|].
  rewrite Hset in Hset'. injection Hset' as <- <-.
  split.
  - done.
  - destruct G; lia.
  - cbn. by apply zget_zset_eq.
  - apply same_shape_meta.
  - apply tail_cmds_posts; try done; destruct G; lia.
  - right. exists l. split_and!; [done|lia|done].
  - rewrite Hl. destruct (meta t); split; intros; try done; [destruct H as [|]; done|auto].
  - right. exists (chain_end b l), (meta t), m'. subst e1. by destruct (meta t).
  - destruct (undo_counts t chains _ f (cur_tbl_cnt t) (cur_expn_tbl_cnt t + 1) HT ltac:(destruct G; lia)
      Hef eq_refl e2 m' Hmok Hother) as (t' & Ht' & ?).
    + rewrite (proj2 (Z.ltb_ge _ _)) by lia. lia.
    + rewrite (proj2 (Z.ltb_ge _ _)) by lia. lia.
    + by exists t'.
  - intros ep e3 Hwf Hv Hn Hp t2. unfold t2.
    assert (0 < f < tot_tbl_ents t) by (destruct G; lia).
    erewrite tail_run by done. fold e3.
    assert (0 <= f < 2 ^ 16) by (destruct G; unfold IPA_TABLE_MAX_ENTRIES in *; lia).
    destruct (ll_link eq f Hwfq) as (Hw' & Hv' & Hn' & Hs' & Hp'); [done|].
    split_and!.
    + eapply (commit_tail t chains b l f e2 e1 eq); eauto; congruence.
    + apply same_shape_meta.
    + intros j. rewrite contents_shape.
      rewrite contents_zset by (rewrite zset_length; pose proof (zget_Some_lt _ _ _ Heq); lia).
      rewrite Hv', Hvq, Hs', contents_zset by lia. rewrite Hv. case_decide; subst; [|done].
      rewrite decide_False by done. by rewrite <- (contents_valid _ _ _ Heq Hvq).
Qed.

(** What the record callbacks return for the data [d] of an insertion. *)
Definition inserts (t : ipa_table E) (d : D) (eh et : E) (data : Z) : Prop :=
  entry_head_insert entry_zero d = Ok (0, eh, data) /\ wf_entry eh /\ 0 <= data < 2 ^ 16 /\
  (meta t <> None -> entry_tail_insert entry_zero d = Ok (0, et) /\ wf_entry et).

Lemma table_add t chains d b eh et data cmd :
  table_ok wf_entry meta_ok t chains -> table_hw base expn t ->
  0 < b < table_entries t -> cmd_room cmd 2 -> inserts t d eh et data ->
  (ipa_table_add_entry t d b cmd = Ok (-1, t, cmd, b, None) /\
   is_Some (chains !! b) /\ none_empty t (table_entries t)) \/
  exists t1 cmd' new chains' ds e_ins posted,
    ipa_table_add_entry t d b cmd = Ok (0, t1, cmd', new, Some (MakeEntryHdl t new)) /\
    cmd_appended cmd cmd' ds /\
    added t chains b eh et data t1 new chains' ds e_ins posted.
Proof.
  intros HT HW Hb Hroom (Hhead & Hwfh & Hdata & Htail). assert (G := ok_geo _ _ _ _ HT).
  destruct (hw_head _ _ _ HW) as (h & Hh & Hfor). destruct (hw_entry _ _ _ HW) as (he & Hhe & Hfore).
  destruct (chains !! b) as [l|] eqn:Hl.
  - destruct (FindExpnTblFreeEntry_spec t G) as [(f & _ & Hf)|[_ Hfull]].
    2: { left. split_and!; [by eapply add_entry_full|by eexists|done]. }
    right. set (e1 := match meta t with None => eh | Some _ => et end).
    assert (Hwf1 : wf_entry e1).
    { unfold e1. destruct (meta t); [by apply Htail|done]. }
    destruct (add_entry_tail t chains d b l f h he e1
        (match meta t with None => data | Some _ => 0 end) cmd) as (cmd' & e2 & m' & Hadd & Happ & Hset);
      try done.
    { unfold e1. destruct (meta t); [by destruct Htail|done]. }
    eexists _, cmd', f, _, _, _, _. split_and!; [exact Hadd|exact Happ|].
    replace (tail_cmds t h he f (chain_end b l) (match meta t with None => data | Some _ => 0 end))
      with (tail_cmds t h he f (chain_end b l) data) by (unfold tail_cmds; by destruct (meta t)).
    by apply added_tail with (e1 := e1).
  - right. destruct (add_entry_head t chains d b h eh data cmd) as (cmd' & Hadd & Happ);
      try done; [by eapply cmd_room_mono|].
    eexists _, cmd', b, _, _, _, _. split_and!; [exact Hadd|exact Happ|].
    apply added_head; try done. intros m. by eapply ll_head_prev; [|apply Hb].
Qed.

(** *** Deletion *)
(** The deletion that turned [t] into [t'] removed slot [x] and kept the other
    records, the record at [q] possibly with a new payload. *)
Definition removed t t' (x q : Z) (pq : option E) : Prop :=
  same_shape t t' /\
  forall i, contents t' i = if decide (i = x) then None
                            else if decide (i = q) then pq else contents t i.

Lemma delete_single t chains b h ipe :
  table_ok wf_entry meta_ok t chains -> table_hw base expn t -> chains !! b = Some [] ->
  helper_for base expn head_off h ->
  exists t', ipa_table_delete_entry (dma_run base expn t [slot_dma t h b 0]) (iter_at t 0 b 0) ipe
             = Ok t' /\
    table_ok wf_entry meta_ok t' (delete b chains) /\ removed t t' b b None.
Proof.
  intros HT HW Hl Hh. assert (G := ok_geo _ _ _ _ HT).
  destruct (chain_end_record t chains b [] [] HT Hl) as (e & He & _). cbn in He.
  destruct (rep_chain _ _ _ _ (ok_rep _ _ _ _ HT) _ _ Hl) as (Hb & _).
  destruct (erase_single _ _ _ HT Hl) as (t' & Herase & HT' & Ht').
  pose proof (zget_Some_lt _ _ _ He) as Hlen.
  assert (Hdma : dma_run base expn t [slot_dma t h b 0]
    = set_mem t (zset (tbl_mem t) b (rec_dma16 e head_off 0))).
  { cbn [dma_run foldl]. rewrite (dma_apply_slot t base expn head_off h b e 0); try done.
    - by eapply hw_ne.
    - rewrite (hw_size _ _ _ HW). apply ll_offs.
    - rewrite <- (geo_mem _ G). lia. }
  exists t'. rewrite Hdma. split_and!; [|done|].
  - unfold ipa_table_delete_entry, iter_at, ptr_of.
    cbn [next_index prev_entry curr_index VALID_INDEX IPA_TABLE_INVALID_ENTRY Z.eqb negb].
    assert ((if ipe then Ok (set_mem t (zset (tbl_mem t) b (rec_dma16 e head_off 0)))
             else Ok (set_mem t (zset (tbl_mem t) b (rec_dma16 e head_off 0))))
            = Ok (set_mem t (zset (tbl_mem t) b (rec_dma16 e head_off 0)))) as -> by (by destruct ipe).
    cbn [mbind res_bind]. rewrite <- Herase.
    rewrite !erase_entry_spec; [|done|rewrite <- (geo_mem _ G); lia|auto with cint|].
    + cbn [tbl_mem set_mem table_entries]. by rewrite zset_zset, set_mem_mem.
    + cbn. rewrite <- (geo_mem _ G). lia.
  - subst t'. split; [apply same_shape_cnts|]. intros i.
    rewrite contents_shape0, contents_zset, law_zero_valid by lia.
    by repeat case_decide.
Qed.

Lemma contents_backlinked t q n t2 i : backlinked t q n t2 ->
  (n <> 0 -> exists e, zget (tbl_mem t) n = Some e /\ entry_is_valid e = true) ->
  meta_ok (meta t) (expn_table_entries t) -> Forall wf_entry (tbl_mem t) ->
  (n <> 0 -> table_entries t <= n < table_entries t + expn_table_entries t) -> 0 <= q < 2 ^ 16 ->
  contents t2 i = contents t i /\ same_shape t t2 /\ length (tbl_mem t2) = length (tbl_mem t).
Proof.
  unfold backlinked. intros Hback Hn Hm Hwf Hr Hq. destruct (n =? 0) eqn:En; zify_bool.
  - subst t2. split_and!; [done|apply same_shape_refl|done].
  - destruct Hback as (e & e' & m' & He & Hset & ->). destruct (Hn En) as (e0 & He0 & Hv).
    rewrite He in He0. injection He0 as <-.
    assert (wf_entry e).
    { rewrite list.Forall_forall in Hwf. apply Hwf. unfold zget in He. case_match; [|done].
      by eapply list_elem_of_lookup_2. }
    destruct (law_set_prev e n q (meta t) (table_entries t) (expn_table_entries t))
      as (e1 & m1 & Hset1 & _ & _ & Hv1 & _); auto.
    rewrite Hset in Hset1. injection Hset1 as <- <-.
    split_and!.
    + unfold set_meta. change (contents (set_mem t (zset (tbl_mem t) n e')) i = contents t i).
      pose proof (zget_Some_lt _ _ _ He).
      rewrite contents_zset by done. case_decide as Ei; [subst i|done].
      rewrite Hv1, Hv. rewrite (contents_valid _ _ _ He Hv). by erewrite ll_prev_strip.
    + exists m', (cur_tbl_cnt t), (cur_expn_tbl_cnt t), (zset (tbl_mem t) n e'). by destruct t.
    + cbn. apply zset_length.
Qed.

(** Deletion of [x], whose predecessor the hardware has rewritten to [eq']. *)
Lemma delete_linked t chains b l1 x l2 eq eq' ipe :
  table_ok wf_entry meta_ok t chains -> chains !! b = Some (l1 ++ x :: l2) ->
  relinked (wf_entry := wf_entry) t (chain_end b l1) (hd0 l2) eq eq' -> (l2 = [] -> ipe = false) ->
  exists t',
    ipa_table_delete_entry (set_mem t (zset (tbl_mem t) (chain_end b l1) eq'))
      (iter_at t (chain_end b l1) x (hd0 l2)) ipe = Ok t' /\
    table_ok wf_entry meta_ok t' (<[b := l1 ++ l2]> chains) /\
    removed t t' x (chain_end b l1) (Some (strip eq')).
Proof.
  intros HT Hl HRL Hipe. assert (G := ok_geo _ _ _ _ HT). assert (Heq := proj1 HRL).
  destruct (delete_mid _ _ _ _ _ _ _ _ HT Hl HRL) as (t2 & Hback & HT' & Hrun).
  eexists. split; [by apply Hrun|]. split; [done|].
  destruct (chain_member_facts _ _ _ _ _ _ HT Hl) as (ex & Hex & Hvx & Hxr & Hqx & Hxn & Hnr).
  pose proof (chain_end_prefix_slot _ _ _ _ _ HT Hl) as Hqr.
  pose proof (relinked_mem_ok _ _ _ _ _ _ HT HRL (prefix_end_valid _ _ _ _ _ _ _ HT Hl Heq)) as HM1.
  pose proof (zget_Some_lt _ _ _ Hex). pose proof (zget_Some_lt _ _ _ Heq).
  set (t1 := set_mem t _) in *.
  assert (Hsucc : hd0 l2 <> 0 ->
    (exists e, zget (tbl_mem t1) (hd0 l2) = Some e /\ entry_is_valid e = true) /\
    table_entries t1 <= hd0 l2 < table_entries t1 + expn_table_entries t1).
  { intros Hn0. destruct l2 as [|j l2]; [done|]. cbn [hd0] in *.
    destruct (Hnr ltac:(done)) as [Hqj Hjr].
    destruct (succ_record _ _ _ _ _ _ _ HT Hl) as (e & He & ? & ?).
    split; [exists e; cbn; by rewrite zget_zset_ne|cbn; destruct G; lia]. }
  assert (Hc : forall i, contents t2 i = contents t1 i /\ same_shape t1 t2 /\
                         length (tbl_mem t2) = length (tbl_mem t1)).
  { intros i. eapply contents_backlinked; [exact Hback|apply Hsucc|apply HM1|apply HM1|apply Hsucc|].
    destruct G. unfold IPA_TABLE_MAX_ENTRIES in *. lia. }
  destruct (Hc 0) as (_ & Hsh & Hlen). split.
  - eapply same_shape_trans; [apply same_shape_mem|]. fold t1.
    eapply same_shape_trans; [exact Hsh|]. apply same_shape_cnts.
  - intros i. rewrite contents_shape0, contents_zset, law_zero_valid
      by (rewrite Hlen; cbn; rewrite zset_length; lia).
    case_decide; [done|].
    change (contents (set_mem t2 (tbl_mem t2)) i) with (contents t2 i).
    rewrite (proj1 (Hc i)). unfold t1. rewrite contents_zset by lia.
    destruct HRL as (_ & _ & Hv' & _). by rewrite Hv'.
Qed.

(** Deletion of the last tail record [x] of a functionally deleted head [b]:
    both records go. *)
Lemma delete_with_head t chains b x eq eq' :
  table_ok wf_entry meta_ok t chains -> chains !! b = Some [x] ->
  relinked (wf_entry := wf_entry) t b 0 eq eq' ->
  exists t',
    ipa_table_delete_entry (set_mem t (zset (tbl_mem t) b eq')) (iter_at t b x 0) true = Ok t' /\
    table_ok wf_entry meta_ok t' (delete b chains) /\ removed t t' x b None.
Proof.
  intros HT Hl HRL. assert (G := ok_geo _ _ _ _ HT). assert (Heq := proj1 HRL).
  destruct (delete_mid t chains b [] x [] eq eq' HT Hl HRL) as (t2 & Hback & HT' & _).
  cbn [chain_end List.last hd0 app] in *. unfold backlinked in Hback. cbn in Hback. subst t2.
  destruct (chain_member_facts t chains b [] x [] HT Hl) as (ex & Hex & Hvx & Hxr & Hqx & _).
  destruct (rep_chain _ _ _ _ (ok_rep _ _ _ _ HT) _ _ Hl) as (Hb & _).
  assert (Hl' : <[b:=[]]> chains !! b = Some []) by (by rewrite lookup_insert_eq).
  destruct (erase_single _ _ _ HT' Hl') as (t' & Herase & HTf & Ht').
  rewrite delete_insert_eq in HTf.
  pose proof (zget_Some_lt _ _ _ Hex). pose proof (zget_Some_lt _ _ _ Heq).
  pose proof (cnt_bounds _ _ HT) as [Hc1 Hc2]. pose proof (cnt_bounds _ _ HTf) as [Hc3 Hc4].
  rewrite Ht' in Hc3, Hc4. cbn in Hc3, Hc4.
  set (t1 := set_mem t (zset (tbl_mem t) b eq')) in *.
  assert (G1 : geometry t1) by (unfold t1; auto with cint).
  exists t'. split_and!; [|done|].
  - unfold ipa_table_delete_entry, iter_at, ptr_of. rewrite (proj2 (Z.eqb_neq b 0)) by lia.
    cbn [next_index prev_entry curr_index Z.eqb VALID_INDEX IPA_TABLE_INVALID_ENTRY negb].
    rewrite goto_nonzero by (done || lia).
    change (GOTO_REC t b) with (GOTO_REC t1 b).
    rewrite rec_set_goto by (destruct G; unfold t1; cbn; rewrite ?zset_length; lia).
    cbn [mbind res_bind]. rewrite erase_entry_spec;
      [|do 2 auto with cint|destruct G; cbn; lia].
    cbn -[wrap zset]. rewrite (proj2 (Z.ltb_ge _ _)) by lia.
    rewrite Ht'. unfold t1. cbn -[wrap zset].
    rewrite !wrap_small by (destruct G; unfold IPA_TABLE_MAX_ENTRIES in *; lia).
    rewrite (zset_comm (zset (tbl_mem t) b eq') b x) by done. done.
  - subst t'. split; [eapply same_shape_trans; [apply same_shape_mem|];
      eapply same_shape_trans; apply same_shape_cnts|].
    intros i. rewrite contents_shape0, contents_zset, law_zero_valid
      by (unfold t1; cbn; rewrite !zset_length; lia).
    case_decide as Hib; [by case_decide|]. cbn [tbl_mem set_cnts set_mem].
    rewrite contents_zset, law_zero_valid by (unfold t1; cbn; rewrite !zset_length; lia).
    case_decide; [done|]. unfold t1. cbn [tbl_mem set_mem].
    rewrite contents_zset by lia. by rewrite decide_False.
Qed.

(** *** Single writes *)
Lemma run_one t h off i e data :
  geometry t -> table_hw base expn t -> helper_for base expn off h -> 0 <= off < rec_size ->
  zget (tbl_mem t) i = Some e ->
  dma_run base expn t [slot_dma t h i data] = set_mem t (zset (tbl_mem t) i (rec_dma16 e off data)).
Proof.
  intros G HW Hh Hoff He. cbn [dma_run foldl]. pose proof (zget_Some_lt _ _ _ He).
  apply dma_apply_slot; try done.
  - by eapply hw_ne.
  - by rewrite (hw_size _ _ _ HW).
  - rewrite <- (geo_mem _ G). lia.
Qed.

(** The link command makes the predecessor point past the deleted record. *)
Lemma relinked_dma t chains q n eq :
  table_ok wf_entry meta_ok t chains -> zget (tbl_mem t) q = Some eq ->
  entry_is_valid eq = true -> 0 <= n < 2 ^ 16 ->
  relinked (wf_entry := wf_entry) t q n eq (rec_dma16 eq entry_off n) /\
  strip (rec_dma16 eq entry_off n) = strip eq.
Proof.
  intros HT Heq Hv Hn.
  destruct (ll_link eq n (slot_wf _ _ _ _ HT Heq) Hn) as (? & Hv' & ? & ? & ?).
  repeat split; try done. by rewrite Hv'.
Qed.

(** A new payload at a valid record. *)
Lemma payload_written t chains i e0 e :
  table_ok wf_entry meta_ok t chains -> zget (tbl_mem t) i = Some e0 ->
  wf_entry e -> entry_is_valid e = true -> entry_is_valid e0 = true ->
  entry_get_next_index e = entry_get_next_index e0 ->
  (forall m, entry_get_prev_index e i m (table_entries t)
           = entry_get_prev_index e0 i m (table_entries t)) ->
  let t' := set_mem t (zset (tbl_mem t) i e) in
  table_ok wf_entry meta_ok t' chains /\ same_shape t t' /\
  forall j, contents t' j = if decide (j = i) then Some (strip e) else contents t j.
Proof.
  intros HT He0 Hwf Hv Hv0 Hn Hp. split_and!.
  - by eapply table_ok_payload.
  - apply same_shape_mem.
  - intros j. pose proof (zget_Some_lt _ _ _ He0). rewrite contents_zset, Hv by lia. done.
Qed.

(** The meta data of a free slot is irrelevant. *)
Lemma table_ok_meta t chains m i e :
  table_ok wf_entry meta_ok t chains -> zget (tbl_mem t) i = Some e -> entry_is_valid e = false ->
  meta_ok m (expn_table_entries t) ->
  (forall e2 j, 0 <= j -> j <> i -> entry_get_prev_index e2 j m (table_entries t)
                         = entry_get_prev_index e2 j (meta t) (table_entries t)) ->
  table_ok wf_entry meta_ok (set_meta t m) chains.
Proof.
  intros HT He Hv Hm Hother. assert (G := ok_geo _ _ _ _ HT).
  assert (HT' : table_ok wf_entry meta_ok (set_cnts (set_meta t m) (cur_tbl_cnt t) (cur_expn_tbl_cnt t)) chains).
  { apply table_ok_intro; [apply mem_ok_set_meta; [done|by apply table_ok_mem in HT]|].
    eapply rep_ext_valid; [|apply (ok_rep _ _ _ _ HT)]. intros j. unfold view. cbn.
    pose proof (zget_Some_lt _ _ _ He). pose proof (geo_mem _ G).
    destruct (decide (j = i)) as [->|Hj].
    - right. destruct (law_get_prev e i m (table_entries t) (expn_table_entries t)) as [p' Hp'];
        [done|destruct G; lia|].
      destruct (law_get_prev e i (meta t) (table_entries t) (expn_table_entries t)) as [p Hp];
        [apply HT|destruct G; lia|].
      exists (entry_get_next_index e), p, p'. by rewrite He, Hp, Hp', Hv.
    - left. destruct (zget (tbl_mem t) j) as [ej|] eqn:Hej; [|done].
      pose proof (zget_Some_lt _ _ _ Hej). by rewrite Hother by lia. }
  by destruct t.
Qed.
End linked.
