(* ===== verification/TableSetup.v ===== *)
(** * Sizing and clearing of tables ([ipa_table.c])

    The numbers of base and expansion records [ipa_table_calculate_entries_num]
    chooses, the SRAM sizing loop, and the empty table a reset leaves. *)

From Stdlib Require Import ZArith Lia.
From stdpp Require Import prelude gmap list numbers.
From S2P Require Import Prelude CFloat IpaTable Chain IpaTableRep Dma TableDma.

Local Open Scope Z_scope.

(** ** Numbers of entries *)
(** The status and the three counts, whatever the record type. *)
Definition entry_counts (number_of_entries nmi : Z) : res (Z * (Z * Z * Z)) :=
  '(ret, t) ← ipa_table_calculate_entries_num
                (ipa_table_init nmi 0 None 0 : ipa_table unit) number_of_entries nmi;
  Ok (ret, (table_entries t, expn_table_entries t, tot_tbl_ents t)).

Lemma calculate_entries_num_counts {E} (t : ipa_table E) n nmi :
  table_entries t = 0 -> expn_table_entries t = 0 -> tot_tbl_ents t = 0 ->
  ipa_table_calculate_entries_num t n nmi =
    '(ret, (te, ee, tot)) ← entry_counts n nmi; Ok (ret, set_entries t te ee tot).
Proof.
  intros H1 H2 H3. unfold entry_counts, ipa_table_calculate_entries_num.
  assert (Hid : set_entries t 0 0 0 = t) by (destruct t; cbn in *; by subst).
  destruct (n >? IPA_TABLE_MAX_ENTRIES) eqn:E1; [cbn -[set_entries]; by rewrite Hid|].
  destruct (if nmi =? IPA_NAT_MEM_IN_SRAM then _ else _) as [btp etp].
  destruct (Get2PowerTightUpperBound _) as [b| |]; cbn [mbind res_bind]; [|done..].
  cbv zeta. generalize (u16 (GetEvenTightUpperBound (u16 (sf_trunc (f32_mul (f32_of_Z n) etp))))) (u16 b).
  intros ee te. generalize (u32 (te + ee)). intros tot.
  destruct (tot >? IPA_TABLE_MAX_ENTRIES); [|done]. cbn -[set_entries]. by rewrite H1, H2.
Qed.

(** The requests in DDR that get one record less than they ask for. *)
Definition short_requests : list Z := [11; 21; 41; 81; 161; 321; 641; 1281; 2561].

(** From this number on there is no table in SRAM. *)
Definition SRAM_ENTRIES_LIMIT : Z := 2384.

(** What the counts of a request have to satisfy. *)
Definition counts_ok (nmi n : Z) : bool :=
  match entry_counts n nmi with
  | Ok (ret, (te, ee, tot)) =>
      if ret =? 0 then
        (te =? 2 ^ Z.log2 te) && (2 <=? te) && (te <=? 4096) && (ee mod 2 =? 0) &&
        (2 <=? ee) && (ee <=? 4096) && (tot =? te + ee) && (tot <=? IPA_TABLE_MAX_ENTRIES) &&
        (if (nmi =? IPA_NAT_MEM_IN_DDR) && existsb (Z.eqb n) short_requests
         then tot =? n - 1 else n <=? tot) &&
        ((nmi =? IPA_NAT_MEM_IN_DDR) || (n <? SRAM_ENTRIES_LIMIT))
      else (ret =? - EINVAL) && (nmi =? IPA_NAT_MEM_IN_SRAM) && (SRAM_ENTRIES_LIMIT <=? n)
  | _ => false
  end.

Lemma seqZ_forallb (f : Z -> bool) m n z : forallb f (seqZ m n) = true -> m <= z < m + n -> f z = true.
Proof. intros H Hz. rewrite forallb_forall in H. apply H, list_elem_of_In, elem_of_seqZ. lia. Qed.

Lemma all_counts_ok n : 0 <= n <= 5120 ->
  counts_ok IPA_NAT_MEM_IN_DDR n && counts_ok IPA_NAT_MEM_IN_SRAM n = true.
Proof.
  intros Hn.
  apply (seqZ_forallb (fun n => counts_ok IPA_NAT_MEM_IN_DDR n && counts_ok IPA_NAT_MEM_IN_SRAM n)
    0 5121); [|lia].
  vm_compute. reflexivity.
Qed.

Lemma entry_counts_spec nmi n :
  nmi = IPA_NAT_MEM_IN_DDR \/ nmi = IPA_NAT_MEM_IN_SRAM -> 0 <= n ->
  exists ret te ee tot, entry_counts n nmi = Ok (ret, (te, ee, tot)) /\
    ((ret = 0 /\ te = 2 ^ Z.log2 te /\ 2 <= te <= 4096 /\ ee mod 2 = 0 /\ 2 <= ee <= 4096 /\
      tot = te + ee /\ tot <= IPA_TABLE_MAX_ENTRIES) \/ ret = - EINVAL).
Proof.
  intros Hnmi Hn. destruct (Z.lt_ge_cases 5120 n) as [Hbig|Hsmall].
  - exists (- EINVAL), 0, 0, 0. split; [|by right]. unfold entry_counts, ipa_table_calculate_entries_num.
    rewrite Z.gtb_ltb, (proj2 (Z.ltb_lt _ _)) by done. done.
  - pose proof (all_counts_ok n ltac:(lia)) as H. apply andb_true_iff in H as [Hd Hs].
    assert (Hc : counts_ok nmi n = true) by (by destruct Hnmi as [-> | ->]).
    unfold counts_ok in Hc. destruct (entry_counts n nmi) as [[ret [[te ee] tot]]| |]; [|done..].
    exists ret, te, ee, tot. split; [done|].
    destruct (ret =? 0) eqn:Er; repeat apply andb_true_iff in Hc as [Hc ?]; zify_bool; [|by right].
    left. split_and!; lia.
Qed.

Lemma existsb_eqb n l : existsb (Z.eqb n) l = true <-> n ∈ l.
Proof.
  rewrite existsb_exists. split; [|intros H; exists n; split; [by apply list_elem_of_In|apply Z.eqb_refl]].
  intros (m & Hm & ->%Z.eqb_eq). by apply list_elem_of_In.
Qed.

(** Which requests succeed, and which of them get fewer records than they ask for. *)
Lemma entry_counts_exact nmi n ret te ee tot :
  nmi = IPA_NAT_MEM_IN_DDR \/ nmi = IPA_NAT_MEM_IN_SRAM -> 0 <= n ->
  entry_counts n nmi = Ok (ret, (te, ee, tot)) ->
  (ret = 0 <-> n <= IPA_TABLE_MAX_ENTRIES /\ (nmi = IPA_NAT_MEM_IN_SRAM -> n < SRAM_ENTRIES_LIMIT)) /\
  (ret = 0 -> (tot < n <-> nmi = IPA_NAT_MEM_IN_DDR /\ n ∈ short_requests) /\ n - 1 <= tot).
Proof.
  intros Hnmi Hn Hec. unfold IPA_TABLE_MAX_ENTRIES. destruct (Z.lt_ge_cases 5120 n) as [Hbig|Hsmall].
  - unfold entry_counts, ipa_table_calculate_entries_num in Hec.
    rewrite Z.gtb_ltb, (proj2 (Z.ltb_lt _ _)) in Hec by done. injection Hec as <- _ _ _.
    split; [|discriminate]. split; [discriminate|lia].
  - pose proof (all_counts_ok n ltac:(lia)) as H. apply andb_true_iff in H as [Hd Hs].
    assert (Hc : counts_ok nmi n = true) by (by destruct Hnmi as [-> | ->]).
    unfold counts_ok in Hc. rewrite Hec in Hc. rewrite <- existsb_eqb.
    destruct (ret =? 0) eqn:Er; repeat apply andb_true_iff in Hc as [Hc ?]; zify_bool;
      destruct Hnmi as [-> | ->]; unfold IPA_NAT_MEM_IN_DDR, IPA_NAT_MEM_IN_SRAM in *;
      cbn [Z.eqb Pos.eqb andb] in *.
    + destruct (existsb (Z.eqb n) short_requests); zify_bool; intuition (try lia; discriminate).
    + zify_bool. intuition (try lia; discriminate).
    + lia.
    + zify_bool. intuition lia.
Qed.

(** ** The SRAM loop *)
(** What the two tables for [tot] entries consume, in bytes. *)
Definition sram_need (e1 e2 tot : Z) : res Z :=
  b ← Get2PowerTightUpperBound (u16 (sf_trunc (f64_mul (f64_of_Z tot) IPA_BASE_TABLE_PCNT_4SRAM)));
  Ok ((e1 + e2) * (u16 b + u16 (GetEvenTightUpperBound
        (u16 (sf_trunc (f64_mul (f64_of_Z tot) IPA_EXPANSION_TABLE_PCNT_4SRAM)))))).

Lemma calc_loop_step f size e1 e2 tot num :
  calc_num_sram_loop (S f) size e1 e2 tot num =
    (need ← sram_need e1 e2 tot;
     if u32 need >? size then Ok num else calc_num_sram_loop f size e1 e2 (u16 (tot + 1)) tot).
Proof.
  cbn [calc_num_sram_loop]. unfold sram_need. destruct (Get2PowerTightUpperBound _); [|done..].
  cbn [mbind res_bind]. cbv zeta. unfold ipa_table_calculate_size. cbn [entry_size table_entries
    expn_table_entries set_entries ipa_table_init]. by rewrite Z.mul_add_distr_r.
Qed.

Lemma Get2Power_loop_ok fuel tmp p c : 1 <= tmp < 2 ^ (Z.of_nat fuel + 1) ->
  exists r, Get2Power_loop fuel tmp p c = Ok r.
Proof.
  revert tmp p c. induction fuel as [|fuel IH]; intros tmp p c Ht.
  - assert (tmp = 1) as -> by (change (2 ^ (Z.of_nat 0 + 1)) with 2 in Ht; lia). cbn. eauto.
  - cbn [Get2Power_loop]. destruct (tmp =? 1) eqn:E; [eauto|]. apply Z.eqb_neq in E. apply IH.
    rewrite Z.shiftr_div_pow2 by lia. change (2 ^ 1) with 2. split.
    + apply Z.div_le_lower_bound; lia.
    + apply Z.div_lt_upper_bound; [lia|].
      replace (Z.of_nat (S fuel) + 1) with (Z.succ (Z.of_nat fuel + 1)) in Ht by lia.
      rewrite Z.pow_succ_r in Ht by lia. lia.
Qed.

Lemma Get2Power_ok n : exists b, Get2PowerTightUpperBound (u16 n) = Ok b.
Proof.
  unfold Get2PowerTightUpperBound. destruct (u16 n =? 0) eqn:E; [eauto|]. apply Z.eqb_neq in E.
  destruct (Get2Power_loop_ok 16 (u16 n) 0 2) as [[p c] ->].
  { pose proof (Z.mod_pos_bound n (2 ^ 16) ltac:(lia)). unfold wrap in *. lia. }
  cbn. eauto.
Qed.

Lemma sram_need_ok e1 e2 tot : 0 <= e1 + e2 ->
  exists need, sram_need e1 e2 tot = Ok need /\ 0 <= need <= (e1 + e2) * 131070.
Proof.
  intros He. unfold sram_need.
  destruct (Get2Power_ok (sf_trunc (f64_mul (f64_of_Z tot) IPA_BASE_TABLE_PCNT_4SRAM))) as [b ->].
  cbn [mbind res_bind]. eexists. split; [reflexivity|].
  set (ee := u16 (GetEvenTightUpperBound _)).
  assert (0 <= u16 b < 2 ^ 16 /\ 0 <= ee < 2 ^ 16) as [Hb Hee] by (split; by apply wrap_range).
  clearbody ee. split; [apply Z.mul_nonneg_nonneg; lia|apply Z.mul_le_mono_nonneg_l; lia].
Qed.

(** The two tables for [tot] entries fit into [size] bytes. *)
Definition sram_fits (size e1 e2 tot : Z) : bool :=
  match sram_need e1 e2 tot with Ok need => u32 need <=? size | _ => false end.

Lemma calc_loop_fits f size e1 e2 tot num : 0 <= e1 + e2 ->
  calc_num_sram_loop (S f) size e1 e2 tot num =
    if sram_fits size e1 e2 tot then calc_num_sram_loop f size e1 e2 (u16 (tot + 1)) tot
    else Ok num.
Proof.
  intros He. rewrite calc_loop_step. unfold sram_fits.
  destruct (sram_need_ok e1 e2 tot He) as (need & -> & _). cbn [mbind res_bind].
  rewrite Z.gtb_ltb. destruct (Z.leb_spec (u32 need) size).
  - by rewrite (proj2 (Z.ltb_ge _ _)).
  - by rewrite (proj2 (Z.ltb_lt _ _)).
Qed.

(** The loop finds the last of the numbers from [tot] on that all fit, when some number
    below 65536 does not. *)
Lemma calc_loop_finds size e1 e2 stop fuel tot : 0 <= e1 + e2 ->
  sram_fits size e1 e2 stop = false -> 1 <= tot <= stop -> stop < 65536 ->
  (Z.to_nat (stop - tot) < fuel)%nat ->
  exists num, calc_num_sram_loop fuel size e1 e2 tot (tot - 1) = Ok num /\ tot - 1 <= num < stop /\
    sram_fits size e1 e2 (num + 1) = false /\
    forall j, tot <= j <= num -> sram_fits size e1 e2 j = true.
Proof.
  intros He Hstop. revert tot. induction fuel as [|fuel IH]; intros tot Ht Hs Hf; [lia|].
  rewrite calc_loop_fits by done. destruct (sram_fits size e1 e2 tot) eqn:E.
  - assert (tot <> stop) by congruence. rewrite wrap_small by lia.
    destruct (IH (tot + 1) ltac:(lia) Hs ltac:(lia)) as (num & Hn & ? & ? & Hj).
    replace (tot + 1 - 1) with tot in * by lia. exists num. split_and!; [done|lia..|done|].
    intros j ?. destruct (decide (j = tot)) as [->|]; [done|]. apply Hj. lia.
  - exists (tot - 1). split_and!; [done|lia..| |lia]. by replace (tot - 1 + 1) with tot by lia.
Qed.

Lemma calc_num_finds size e1 e2 stop : 0 <= e1 + e2 -> sram_fits size e1 e2 stop = false ->
  1 <= stop < 65536 ->
  exists num, ipa_calc_num_sram_table_entries size e1 e2 = Ok (if num =? 0 then -1 else 0, num) /\
    0 <= num < stop /\ (forall j, 1 <= j <= num -> sram_fits size e1 e2 j = true) /\
    sram_fits size e1 e2 (num + 1) = false.
Proof.
  intros He Hno Hs. unfold ipa_calc_num_sram_table_entries.
  assert (Hf : (Z.to_nat (stop - 1) < Z.to_nat 65536)%nat) by (apply Z2Nat.inj_lt; lia).
  revert Hf. generalize (Z.to_nat 65536). intros fuel Hf.
  destruct (calc_loop_finds size e1 e2 stop fuel 1 He Hno ltac:(lia) ltac:(lia) Hf)
    as (num & Hrun & Hnum & Hnext & Hfit).
  change (1 - 1) with 0 in *. exists num. rewrite Hrun. by split_and!; try lia.
Qed.

(** For records of 32 and 4 bytes, as the NAT tables'. *)
Lemma sram_fits_stop size : 0 <= size < 1686888 -> sram_fits size 32 4 32768 = false.
Proof.
  intros Hs. assert (Hneed : sram_need 32 4 32768 = Ok 1686888) by (vm_compute; reflexivity).
  unfold sram_fits. rewrite Hneed. rewrite wrap_small by lia. apply Z.leb_gt. lia.
Qed.

(** When every number fits the loop does not stop. *)
Lemma calc_loop_diverges size e1 e2 fuel tot num : 0 <= e1 + e2 -> (e1 + e2) * 131070 < 2 ^ 32 ->
  (e1 + e2) * 131070 <= size -> calc_num_sram_loop fuel size e1 e2 tot num = Diverge.
Proof.
  intros He Hw Hs. revert tot num. induction fuel as [|fuel IH]; intros tot num; [done|].
  rewrite calc_loop_fits by done. unfold sram_fits.
  destruct (sram_need_ok e1 e2 tot He) as (need & -> & Hn). rewrite wrap_small by lia.
  rewrite (proj2 (Z.leb_le _ _)) by lia. apply IH.
Qed.

(** ** Empty tables *)
Section fresh.
Context `{Ops : EntryOps E D} {wf_entry : E -> Prop} {meta_ok : option (list Z) -> Z -> Prop}
  `{EL : !EntryLaws wf_entry meta_ok}.
Implicit Types t : ipa_table E.

Lemma reset_run t : geometry t ->
  ipa_table_reset t = Ok (set_mem t (replicate (Z.to_nat (tot_tbl_ents t)) entry_zero)).
Proof.
  intros G. unfold ipa_table_reset. pose proof (geo_mem _ G). pose proof (geo_tot _ G).
  pose proof (geo_base _ G). pose proof (geo_expn _ G).
  rewrite (proj2 (Nat.ltb_ge _ _)) by lia. rewrite drop_ge by lia.
  rewrite app_nil_r, <- replicate_add. do 3 f_equal. lia.
Qed.

Lemma count_valid_zero n : count_valid (replicate n (entry_zero : E)) = 0.
Proof.
  unfold count_valid. induction n as [|n IH]; [done|]. cbn.
  rewrite decide_False; [done|]. rewrite law_zero_valid. done.
Qed.

Lemma fresh_table_ok t :
  geometry t -> meta_ok (meta t) (expn_table_entries t) ->
  tbl_mem t = replicate (Z.to_nat (tot_tbl_ents t)) entry_zero ->
  cur_tbl_cnt t = 0 -> cur_expn_tbl_cnt t = 0 -> table_ok wf_entry meta_ok t ∅.
Proof.
  intros G Hmeta Hmem Hc Hx.
  assert (Hz : forall i e, zget (tbl_mem t) i = Some e -> e = entry_zero).
  { intros i e. rewrite Hmem. apply zget_replicate. }
  assert (Hview : forall i n, view t i = Some n -> nd_valid n = false /\ nd_next n = 0).
  { intros i n Hn. destruct (view_inv _ _ _ Hn) as (e & He & -> & -> & _).
    rewrite (Hz _ _ He). split; [apply law_zero_valid|apply law_zero_next]. }
  split; try done.
  - split.
    + intros i. split.
      * intros [n Hn]. destruct (view_inv _ _ _ Hn) as (e & He & _).
        pose proof (zget_Some_lt _ _ _ He). rewrite (geo_mem _ G) in *. lia.
      * intros Hi. destruct (table_mem_lookup _ _ G Hi) as [e He].
        destruct (law_get_prev e i (meta t) (table_entries t) (expn_table_entries t)) as [p Hp];
          [done|by rewrite <- (geo_tot _ G)|].
        eexists. unfold view. by rewrite He, Hp.
    + intros b l. by rewrite lookup_empty.
    + intros b n _ Hn Hv. destruct (Hview _ _ Hn). congruence.
    + intros i n _ Hn Hv. destruct (Hview _ _ Hn). congruence.
    + intros b1 b2 l1 l2 i. by rewrite lookup_empty.
    + intros i n Hn _. by apply (Hview _ _ Hn).
  - intros i e He _. by apply (Hz i).
  - rewrite Hmem. apply Forall_replicate, law_wf_zero.
  - by rewrite Hmem, take_replicate, count_valid_zero.
  - by rewrite Hmem, drop_replicate, count_valid_zero.
Qed.

Lemma fresh_contents `{LR : LinkedRecord E} t i :
  tbl_mem t = replicate (Z.to_nat (tot_tbl_ents t)) entry_zero -> contents t i = None.
Proof.
  intros Hmem. unfold contents. destruct (zget (tbl_mem t) i) as [e|] eqn:He; [|done].
  rewrite Hmem in He. by rewrite (zget_replicate _ _ _ _ He), law_zero_valid.
Qed.
End fresh.
