(* ===== verification/TableWalk.v ===== *)
(** * Walking a table ([ipa_table_walk])

    The walk calls back the filled (or the empty) records in the order of their
    slots and stops at the first non-zero status; [slot_fold] is that traversal. *)

From Stdlib Require Import ZArith Lia.
From stdpp Require Import prelude gmap list numbers.
From S2P Require Import Prelude CFloat IpaTable Chain IpaTableRep Dma TableDma TableSetup.

Local Open Scope Z_scope.

(** The traversal of the records [l] of the slots from [i] on: those for which [sel]
    holds are given to [f], until it returns a status that is not 0. *)
Fixpoint slot_fold {E S} (sel : E -> bool) (f : Z -> E -> S -> Z * S) (l : list E) (i : Z) (s : S) :
    Z * S :=
  match l with
  | [] => (0, s)
  | e :: l =>
      if sel e then
        let '(ret, s') := f i e s in
        if ret =? 0 then slot_fold sel f l (i + 1) s' else (ret, s')
      else slot_fold sel f l (i + 1) s
  end.

(** The records a [When2Callback] asks for. *)
Definition wanted `{EntryOps E D} (w : When2Callback) (e : E) : bool :=
  match w with
  | WHEN_SLOT_FILLED => entry_is_valid e
  | WHEN_SLOT_EMPTY => negb (entry_is_valid e)
  | WHEN_SLOT_MAX => false
  end.

Section walk.
Context `{Ops : EntryOps E D}.
Implicit Types t : ipa_table E.

(** The callback [cb] behaves as [f] on the records of [t]. *)
Definition calls {S} t (cb : walk_cb_type S) (f : Z -> E -> S -> Z * S) : Prop :=
  forall i e mp mi s, zget (tbl_mem t) i = Some e ->
    cb t (MakeEntryHdl t i) (GOTO_REC t i) i mp mi s = Ok (f i e s).

Lemma GOTO_REC_next t i : GOTO_REC t i + entry_size t = GOTO_REC t (i + 1).
Proof. unfold GOTO_REC. lia. Qed.

Lemma walk_loop_fold {S} t w (cb : walk_cb_type S) f : geometry t -> calls t cb f ->
  VALID_WHEN2CALLBACK w = true ->
  forall fuel i s, 0 <= i -> Z.of_nat fuel = tot_tbl_ents t - i ->
  ipa_table_walk_loop fuel t w cb (tot_tbl_ents t) i (GOTO_REC t i) s =
    Ok (slot_fold (wanted w) f (drop (Z.to_nat i) (tbl_mem t)) i s).
Proof.
  intros G Hcb Hw fuel. pose proof (geo_mem _ G) as Hm. pose proof (geo_max _ G) as Hmax.
  unfold IPA_TABLE_MAX_ENTRIES in Hmax.
  induction fuel as [|fuel IH]; intros i s Hi Hf; cbn [ipa_table_walk_loop].
  { rewrite (proj2 (Z.ltb_ge _ _)) by lia. rewrite drop_ge by lia. done. }
  rewrite (proj2 (Z.ltb_lt _ _)) by lia.
  destruct (table_mem_lookup t i G ltac:(lia)) as [e He].
  rewrite rec_at_goto, He by (destruct G; lia). cbn [deref mbind res_bind].
  assert (Hd : drop (Z.to_nat i) (tbl_mem t) = e :: drop (Z.to_nat (i + 1)) (tbl_mem t)).
  { replace (Z.to_nat (i + 1)) with (Datatypes.S (Z.to_nat i)) by lia. apply drop_S.
    unfold zget in He. by rewrite (proj2 (Z.leb_le _ _)) in He by lia. }
  rewrite Hd. cbn [slot_fold]. rewrite (wrap_small 16 (i + 1)) by lia. rewrite GOTO_REC_next.
  assert (Hsel : (if entry_is_valid e
          then match w with WHEN_SLOT_FILLED => true | _ => false end
          else match w with WHEN_SLOT_EMPTY => true | _ => false end) = wanted w e).
  { unfold wanted. destruct (entry_is_valid e), w; done. }
  rewrite Hsel. destruct (wanted w e); [|apply IH; lia].
  destruct (match meta t with Some m => _ | None => _ end) as [mp mi].
  rewrite (Hcb i e mp mi s He). cbn [mbind res_bind]. destruct (f i e s) as [ret s'].
  destruct (ret =? 0); cbn [negb]; [|done]. apply IH; lia.
Qed.

Lemma walk_fold {S} t w (cb : walk_cb_type S) f start s : geometry t -> calls t cb f ->
  VALID_WHEN2CALLBACK w = true -> 0 <= start < tot_tbl_ents t ->
  ipa_table_walk t start w cb s =
    Ok (slot_fold (wanted w) f (drop (Z.to_nat start) (tbl_mem t)) start s).
Proof.
  intros G Hcb Hw Hs. unfold ipa_table_walk. rewrite Hw. cbn [negb].
  pose proof (geo_tot _ G) as Ht. pose proof (geo_base _ G). pose proof (geo_expn _ G).
  rewrite <- Ht, (wrap_small 32) by lia.
  rewrite Z.geb_leb, (proj2 (Z.leb_gt _ _)) by lia.
  apply walk_loop_fold; try done; lia.
Qed.

(** The rule of invariants for a walk: [P i] holds before slot [i], [Q] where a callback
    stops the walk. *)
Lemma walk_loop_inv {S} t w (cb : walk_cb_type S) (P : Z -> S -> Prop) (Q : Z -> S -> Prop) :
  geometry t ->
  (forall i e s, zget (tbl_mem t) i = Some e -> wanted w e = false -> P i s -> P (i + 1) s) ->
  (forall i e mp mi s, zget (tbl_mem t) i = Some e -> wanted w e = true -> P i s ->
     exists r s', cb t (MakeEntryHdl t i) (GOTO_REC t i) i mp mi s = Ok (r, s') /\
       (if r =? 0 then P (i + 1) s' else Q r s')) ->
  forall fuel i s, 0 <= i -> Z.of_nat fuel = tot_tbl_ents t - i -> P i s ->
  exists r s', ipa_table_walk_loop fuel t w cb (tot_tbl_ents t) i (GOTO_REC t i) s = Ok (r, s') /\
    (if r =? 0 then P (tot_tbl_ents t) s' else Q r s').
Proof.
  intros G Hskip Hcb fuel. pose proof (geo_mem _ G) as Hm. pose proof (geo_max _ G) as Hmax.
  unfold IPA_TABLE_MAX_ENTRIES in Hmax.
  induction fuel as [|fuel IH]; intros i s Hi Hf Hp; cbn [ipa_table_walk_loop].
  { rewrite (proj2 (Z.ltb_ge _ _)) by lia. exists 0, s. split; [done|]. cbn.
    by replace (tot_tbl_ents t) with i by lia. }
  rewrite (proj2 (Z.ltb_lt _ _)) by lia.
  destruct (table_mem_lookup t i G ltac:(lia)) as [e He].
  rewrite rec_at_goto, He by (destruct G; lia). cbn [deref mbind res_bind].
  rewrite (wrap_small 16 (i + 1)) by lia. rewrite GOTO_REC_next.
  assert (Hsel : (if entry_is_valid e
          then match w with WHEN_SLOT_FILLED => true | _ => false end
          else match w with WHEN_SLOT_EMPTY => true | _ => false end) = wanted w e).
  { unfold wanted. destruct (entry_is_valid e), w; done. }
  rewrite Hsel. destruct (wanted w e) eqn:Ew; [|apply IH; [lia..|by eapply Hskip]].
  destruct (match meta t with Some m => _ | None => _ end) as [mp mi].
  destruct (Hcb i e mp mi s He Ew Hp) as (r & s' & Hrun & Hr). rewrite Hrun. cbn [mbind res_bind].
  destruct (r =? 0) eqn:Er; cbn [negb]; [by apply IH; [lia..|]|].
  exists r, s'. by rewrite Er.
Qed.

Lemma walk_inv {S} t w (cb : walk_cb_type S) (P : Z -> S -> Prop) (Q : Z -> S -> Prop) start s :
  geometry t ->
  (forall i e s, zget (tbl_mem t) i = Some e -> wanted w e = false -> P i s -> P (i + 1) s) ->
  (forall i e mp mi s, zget (tbl_mem t) i = Some e -> wanted w e = true -> P i s ->
     exists r s', cb t (MakeEntryHdl t i) (GOTO_REC t i) i mp mi s = Ok (r, s') /\
       (if r =? 0 then P (i + 1) s' else Q r s')) ->
  VALID_WHEN2CALLBACK w = true -> 0 <= start < tot_tbl_ents t -> P start s ->
  exists r s', ipa_table_walk t start w cb s = Ok (r, s') /\
    (if r =? 0 then P (tot_tbl_ents t) s' else Q r s').
Proof.
  intros G Hskip Hcb Hw Hs Hp. unfold ipa_table_walk. rewrite Hw. cbn [negb].
  pose proof (geo_tot _ G) as Ht. pose proof (geo_base _ G). pose proof (geo_expn _ G).
  rewrite <- Ht, (wrap_small 32) by lia.
  rewrite Z.geb_leb, (proj2 (Z.leb_gt _ _)) by lia.
  apply (walk_loop_inv _ _ _ P Q); try done; lia.
Qed.

Lemma slot_fold_none {S} (sel : E -> bool) (f : Z -> E -> S -> Z * S) l i s :
  Forall (fun e => sel e = false) l -> slot_fold sel f l i s = (0, s).
Proof.
  intros H. revert i. induction H as [|e l He _ IH]; intros i; cbn; [done|]. by rewrite He, IH.
Qed.

End walk.

(** A callback whose status is always 0 is called on every selected record. *)
Lemma slot_fold_total {E S} (sel : E -> bool) (f : Z -> E -> S -> Z * S) l i s :
  (forall j e s, fst (f j e s) = 0) ->
  slot_fold sel f l i s =
    (0, foldl (fun s '(j, e) => snd (f j e s)) s
          (filter (fun p => sel (snd p) = true) (zip (seqZ i (Z.of_nat (length l))) l))).
Proof.
  intros Hf. revert i s. induction l as [|e l IH]; intros i s; [done|].
  cbn [slot_fold length]. rewrite seqZ_cons by lia. cbn [zip zip_with].
  replace (Z.pred (Z.of_nat (Datatypes.S (length l)))) with (Z.of_nat (length l)) by lia.
  change (Z.succ i) with (i + 1). rewrite filter_cons. cbn [snd].
  destruct (sel e) eqn:Es.
  - rewrite decide_True by done. cbn [foldl]. specialize (Hf i e s).
    destruct (f i e s) as [r s']. cbn in Hf |- *. subst r. apply IH.
  - rewrite decide_False by done. apply IH.
Qed.
