(* ===== verification/RuleTable.v ===== *)
(** * Tables of rules with functionally deleted heads

    NAT and IPv6CT tables delete the head of a chain that has a tail by writing
    the invalid protocol 0xFF into it: the record stays, linked, but matches no
    packet.  When its last tail record goes, the head goes too.  [live_at] is the
    table without such heads; [rule_delete] says that a deletion, whatever the
    position of the record, removes exactly that record from it. *)

From Stdlib Require Import ZArith Lia.
From stdpp Require Import prelude gmap list numbers.
From S2P Require Import Prelude Chain Bitfield IpaTable IpaTableRep Dma TableDma.

Local Open Scope Z_scope.

Definition DEAD_PROTOCOL : Z := 255.

Class RuleRecord (E : Type) := { rec_protocol : E -> Z; del_off : Z }.

Class RuleLaws `{Ops : EntryOps E D} `{DR : DmaRecord E} `{LR : LinkedRecord E}
    `{RR : RuleRecord E} (wf_entry : E -> Prop)
    (meta_ok : option (list Z) -> Z -> Prop) : Prop := {
  rl_linked :: LinkedLaws wf_entry meta_ok;
  rl_off : 0 <= del_off < rec_size;
  rl_del_data : forall e1 e2, 0 <= entry_get_delete_head_dma_command_data e1 e2 < 2 ^ 16;
  rl_del : forall e h n, wf_entry e ->
    let e' := rec_dma16 e del_off (entry_get_delete_head_dma_command_data h n) in
    wf_entry e' /\ entry_is_valid e' = entry_is_valid e /\
    entry_get_next_index e' = entry_get_next_index e /\ rec_protocol e' = DEAD_PROTOCOL /\
    forall i m B, entry_get_prev_index e' i m B = entry_get_prev_index e i m B;
  rl_strip : forall e, rec_protocol (strip e) = rec_protocol e }.

(** The rules in force, by slot. *)
Definition live_at `{EntryOps E D} `{LinkedRecord E} `{RuleRecord E} (t : ipa_table E) (i : Z) :
    option E :=
  match contents t i with
  | Some r => if rec_protocol r =? DEAD_PROTOCOL then None else Some r
  | None => None
  end.

(** Only heads with a tail are functionally deleted. *)
Definition dead_ok `{EntryOps E D} `{LinkedRecord E} `{RuleRecord E} (t : ipa_table E)
    (chains : gmap Z (list Z)) : Prop :=
  forall i r, contents t i = Some r -> rec_protocol r = DEAD_PROTOCOL ->
    exists l, chains !! i = Some l /\ l <> [].

(** What both drivers do once a delete command has been carried out. *)
Definition finish_delete `{EntryOps E D} `{RuleRecord E} (t : ipa_table E)
    (it : ipa_table_iterator) (invalid_protocol : Z) : res (ipa_table E) :=
  if ipa_table_iterator_is_head_with_tail it then Ok t
  else
    is_prev_empty ←
      (if prev_entry it =? 0 then Ok false
       else p ← rec_at t (prev_entry it); Ok (rec_protocol p =? invalid_protocol));
    ipa_table_delete_entry t it is_prev_empty.

Section positions.
Context `{Ops : EntryOps E D} {wf_entry : E -> Prop} {meta_ok : option (list Z) -> Z -> Prop}
  `{EL : !EntryLaws wf_entry meta_ok}.
Implicit Types t : ipa_table E.

(** Where the record at slot [i] is, and the iterator made for it. *)
Definition position (chains : gmap Z (list Z)) (i : Z) (it : ipa_table_iterator) t : Prop :=
  (exists l, chains !! i = Some l /\ it = iter_at t 0 i (hd0 l)) \/
  (exists b l1 l2, chains !! b = Some (l1 ++ i :: l2) /\
     it = iter_at t (chain_end b l1) i (hd0 l2)).

Lemma iterator_position t chains i e :
  table_ok wf_entry meta_ok t chains -> zget (tbl_mem t) i = Some e -> entry_is_valid e = true ->
  exists it, ipa_table_iterator_init t (GOTO_REC t i) i = Ok (0, it) /\ position chains i it t.
Proof.
  intros HT He Hv. destruct (view_node _ _ _ _ HT He) as (p & _ & Hview).
  pose proof (zget_Some_lt _ _ _ He) as Hi.
  destruct (Z.lt_ge_cases i (table_entries t)) as [Hlt|Hge].
  - destruct (rep_base _ _ _ _ (ok_rep _ _ _ _ HT) i _ ltac:(lia) Hview Hv) as [l Hl].
    eexists. split; [by eapply iterator_init_head|]. left. by exists l.
  - destruct (rep_expn _ _ _ _ (ok_rep _ _ _ _ HT) i _ Hge Hview Hv) as (b & l & Hl & Hin).
    apply list_elem_of_split in Hin as (l1 & l2 & ->).
    eexists. split; [by eapply iterator_init_mid|]. right. by exists b, l1, l2.
Qed.

Lemma position_shape chains i it t t' : same_shape t t' -> position chains i it t ->
  position chains i it t'.
Proof. by intros (m & c & x & l & ->). Qed.

End positions.

Section rule_tables.
Context `{Ops : EntryOps E D} `{DR : DmaRecord E} `{LR : LinkedRecord E} `{RR : RuleRecord E}
  {wf_entry : E -> Prop} {meta_ok : option (list Z) -> Z -> Prop}
  `{RL : !RuleLaws wf_entry meta_ok}.
Context {base expn : ipa_table_dma_type}.
Implicit Types t : ipa_table E.

(** The helper of the head-deletion command. *)
Definition del_hw t : Prop :=
  exists h, help_delete_head (dma_help t) = Some h /\ helper_for base expn del_off h.

Lemma dead_is_head t chains b l1 x l2 e :
  table_ok wf_entry meta_ok t chains -> dead_ok t chains -> chains !! b = Some (l1 ++ x :: l2) ->
  zget (tbl_mem t) (chain_end b l1) = Some e -> rec_protocol e = DEAD_PROTOCOL -> l1 = [].
Proof.
  intros HT HD Hl He Hp.
  destruct (chain_end_record t chains b l1 (x :: l2) HT Hl) as (e' & He' & _ & Hv).
  rewrite He in He'. injection He' as <-.
  destruct (HD (chain_end b l1) (strip e)) as (l & Hl' & _).
  { by apply contents_valid. } { by rewrite rl_strip. }
  destruct (rep_chain _ _ _ _ (ok_rep _ _ _ _ HT) _ _ Hl') as (Hb & _).
  destruct l1 as [|j l1 _] using rev_ind; [done|]. exfalso.
  destruct (rep_chain _ _ _ _ (ok_rep _ _ _ _ HT) _ _ Hl) as (_ & _ & _ & Hr).
  rewrite list.Forall_app in Hr. destruct Hr as [Hr _]. rewrite list.Forall_app in Hr.
  destruct Hr as [_ Hr]. apply list.Forall_cons in Hr as [Hj _].
  rewrite chain_end_app in Hb. cbn in Hb. lia.
Qed.

Lemma live_inv t i r : live_at t i = Some r ->
  exists e, zget (tbl_mem t) i = Some e /\ entry_is_valid e = true /\ strip e = r /\
    rec_protocol e <> DEAD_PROTOCOL /\ contents t i = Some r.
Proof.
  unfold live_at, contents. destruct (zget (tbl_mem t) i) as [e|] eqn:He; [|done].
  destruct (entry_is_valid e) eqn:Hv; [|done]. destruct (_ =? _) eqn:Hp; [done|].
  intros [= <-]. zify_bool. exists e. by rewrite rl_strip in Hp.
Qed.

Lemma live_removed t t' x q pq :
  removed t t' x q pq ->
  (forall r, contents t q = Some r -> x <> q ->
     match pq with
     | Some r' => r' = r
     | None => rec_protocol r = DEAD_PROTOCOL
     end) ->
  (x <> q -> is_Some (contents t q)) ->
  forall k, live_at t' k = if decide (k = x) then None else live_at t k.
Proof.
  intros [_ Hc] Hq Hsome k. unfold live_at. rewrite Hc. case_decide as Ex; [done|].
  case_decide as Eq; [|done]. subst k. destruct (Hsome ltac:(done)) as [r Hr].
  specialize (Hq r Hr ltac:(done)). rewrite Hr. destruct pq; [by subst|].
  by rewrite Hq.
Qed.

(** What a deletion promises of its command and of the table. *)
Definition deletes t (i : Z) (it : ipa_table_iterator) (cmd : ipa_ioc_nat_dma_cmd) : Prop :=
  exists cmd' d, ipa_table_create_delete_command t cmd it = Ok cmd' /\
    cmd_appended cmd cmd' [d] /\ posts base expn t d /\
  exists t' chains', finish_delete (dma_run base expn t [d]) it DEAD_PROTOCOL = Ok t' /\
    table_ok wf_entry meta_ok t' chains' /\ dead_ok t' chains' /\ same_shape t t' /\
    forall k, live_at t' k = if decide (k = i) then None else live_at t k.

Lemma deletes_single t chains i cmd :
  table_ok wf_entry meta_ok t chains -> table_hw base expn t -> dead_ok t chains ->
  chains !! i = Some [] -> cmd_room cmd 1 -> deletes t i (iter_at t 0 i 0) cmd.
Proof.
  intros HT HW HD Hl Hroom. assert (G := ok_geo _ _ _ _ HT).
  destruct (rep_chain _ _ _ _ (ok_rep _ _ _ _ HT) _ _ Hl) as (Hb & _).
  destruct (hw_head _ _ _ HW) as (h & Hh & Hfor).
  destruct (delete_command_single t i h cmd G Hb Hroom Hh) as (cmd' & Hcmd & Happ).
  exists cmd', (slot_dma t h i 0). split_and!; [done|done|eapply hw_posts; (done || lia || apply ll_offs || slot_bounds G)|].
  destruct (delete_single t chains i h false HT HW Hl Hfor) as (t' & Hrun & HT' & Hrem).
  exists t', (delete i chains). split_and!; [done|done| |apply Hrem|].
  - intros k r. rewrite (proj2 Hrem). repeat case_decide; try done. intros Hc Hp.
    destruct (HD k r Hc Hp) as (l & Hl' & ?). exists l. by rewrite lookup_delete_ne.
  - by eapply live_removed.
Qed.

Lemma deletes_head t chains i j l r cmd :
  table_ok wf_entry meta_ok t chains -> table_hw base expn t -> del_hw t -> dead_ok t chains ->
  live_at t i = Some r -> chains !! i = Some (j :: l) -> cmd_room cmd 1 ->
  deletes t i (iter_at t 0 i j) cmd.
Proof.
  intros HT HW (h & Hh & Hfor) HD Hlive Hl Hroom. assert (G := ok_geo _ _ _ _ HT).
  destruct (rep_chain _ _ _ _ (ok_rep _ _ _ _ HT) _ _ Hl) as (Hb & _).
  pose proof (chain_slots _ _ _ _ HT Hl) as Hs.
  apply list.Forall_cons in Hs as [_ Hs]. apply list.Forall_cons in Hs as [Hj _].
  destruct (live_inv _ _ _ Hlive) as (e & He & Hv & <- & Hp & Hc).
  destruct (table_mem_lookup t j G) as [ej Hej]; [lia|].
  destruct (delete_command_head t i j h e ej cmd G Hb Hj Hroom Hh He Hej) as (cmd' & Hcmd & Happ).
  eexists cmd', _. split_and!; [done|done|eapply hw_posts; (done || lia || apply rl_off || apply rl_del_data || slot_bounds G)|].
  destruct (rl_del e e ej (slot_wf _ _ _ _ HT He)) as (Hwf' & Hv' & Hn' & Hp' & Hprev').
  rewrite (run_one t h del_off i e _ G HW Hfor rl_off He).
  destruct (payload_written t chains i e (rec_dma16 e del_off
    (entry_get_delete_head_dma_command_data e ej)) HT He Hwf') as (HT' & Hsh & Hc'); try done.
  { by rewrite Hv'. }
  eexists _, chains. split_and!; [|exact HT'| |exact Hsh|].
  - unfold finish_delete, ipa_table_iterator_is_head_with_tail, iter_at. cbn [next_index prev_index].
    by rewrite (proj2 (VALID_INDEX_true j)) by lia.
  - intros k r'. rewrite Hc'. case_decide; [subst; intros _ _; by eexists|apply HD].
  - intros k. unfold live_at. rewrite Hc'. case_decide; [|done].
    by rewrite rl_strip, Hp'.
Qed.

(** The predecessor after the link command, as [finish_delete] sees it. *)
Lemma finish_delete_linked t q i n eq eq' :
  geometry t -> 0 < q < tot_tbl_ents t -> zget (tbl_mem t) q = Some eq -> strip eq' = strip eq ->
  finish_delete (set_mem t (zset (tbl_mem t) q eq')) (iter_at t q i n) DEAD_PROTOCOL =
  ipa_table_delete_entry (set_mem t (zset (tbl_mem t) q eq')) (iter_at t q i n)
    (rec_protocol eq =? DEAD_PROTOCOL).
Proof.
  intros G Hq Heq Hs. pose proof (zget_Some_lt _ _ _ Heq).
  assert (Hrec : rec_at (set_mem t (zset (tbl_mem t) q eq')) (GOTO_REC t q) = Ok eq').
  { change (GOTO_REC t q) with (GOTO_REC (set_mem t (zset (tbl_mem t) q eq')) q).
    rewrite rec_at_goto by (destruct G; cbn; lia). cbn [tbl_mem set_mem].
    by rewrite zget_zset_eq. }
  unfold finish_delete, ipa_table_iterator_is_head_with_tail, iter_at, ptr_of.
  cbn [next_index prev_index prev_entry].
  rewrite (proj2 (VALID_INDEX_true q)), andb_false_r by lia.
  rewrite (proj2 (Z.eqb_neq q 0)) by lia. rewrite (goto_nonzero t q) by (done || lia).
  rewrite Hrec. cbn [mbind res_bind].
  by rewrite <- (rl_strip eq'), Hs, rl_strip.
Qed.

Lemma deletes_mid t chains b l1 i l2 eq cmd :
  table_ok wf_entry meta_ok t chains -> table_hw base expn t -> dead_ok t chains ->
  chains !! b = Some (l1 ++ i :: l2) -> zget (tbl_mem t) (chain_end b l1) = Some eq ->
  (l2 = [] -> rec_protocol eq <> DEAD_PROTOCOL) -> cmd_room cmd 1 ->
  deletes t i (iter_at t (chain_end b l1) i (hd0 l2)) cmd.
Proof.
  intros HT HW HD Hl Heq Hnd Hroom. assert (G := ok_geo _ _ _ _ HT).
  pose proof (chain_end_prefix_slot _ _ _ _ _ HT Hl) as Hq.
  destruct (chain_end_record t chains b l1 (i :: l2) HT Hl) as (eq2 & Heq2 & _ & Hvq).
  rewrite Heq in Heq2. injection Heq2 as <-.
  destruct (chain_member_facts _ _ _ _ _ _ HT Hl) as (ei & _ & _ & _ & Hqi & _).
  pose proof (hd0_slot t chains b (l1 ++ [i]) l2 HT) as Hn.
  rewrite <- app_assoc in Hn. specialize (Hn Hl).
  destruct (hw_entry _ _ _ HW) as (h & Hh & Hfor). destruct ll_offs as [_ Hoff].
  destruct (delete_command_mid t (chain_end b l1) i (hd0 l2) h cmd G Hq Hroom Hh)
    as (cmd' & Hcmd & Happ).
  eexists cmd', _. split_and!; [done|done|eapply hw_posts; try done; slot_bounds G|].
  rewrite (run_one t h entry_off _ eq _ G HW Hfor Hoff Heq).
  destruct (relinked_dma t chains (chain_end b l1) (hd0 l2) eq HT Heq Hvq) as [HRL Hst].
  { destruct G. unfold IPA_TABLE_MAX_ENTRIES in *. lia. }
  rewrite (finish_delete_linked _ _ _ _ _ _ G Hq Heq Hst).
  destruct (delete_linked t chains b l1 i l2 eq _ (rec_protocol eq =? DEAD_PROTOCOL) HT Hl HRL)
    as (t' & Hrun & HT' & Hrem); [intros E0; apply Z.eqb_neq; auto|].
  exists t', (<[b := l1 ++ l2]> chains). split_and!; [done|done| |apply Hrem|].
  - intros k r. rewrite (proj2 Hrem). case_decide as Ei; [done|].
    intros Hc Hp. assert (Hc' : contents t k = Some r).
    { case_decide as Ek; [|done]. subst k. rewrite (contents_valid _ _ _ Heq Hvq). congruence. }
    destruct (HD k r Hc' Hp) as (l & Hl' & Hne). destruct (decide (k = b)) as [->|Hkb].
    + rewrite lookup_insert_eq. eexists. split; [done|]. intros E0.
      apply app_eq_nil in E0 as [-> ->]. apply Hnd; [done|]. cbn in Heq.
      rewrite (contents_valid _ _ _ Heq Hvq) in Hc'. injection Hc' as <-. by rewrite rl_strip in Hp.
    + exists l. by rewrite lookup_insert_ne.
  - eapply live_removed; [done| |]; rewrite (contents_valid _ _ _ Heq Hvq); [|done].
    intros r [= <-] _. done.
Qed.

Lemma deletes_last t chains b i eq cmd :
  table_ok wf_entry meta_ok t chains -> table_hw base expn t -> dead_ok t chains ->
  chains !! b = Some [i] -> zget (tbl_mem t) b = Some eq ->
  rec_protocol eq = DEAD_PROTOCOL -> cmd_room cmd 1 ->
  deletes t i (iter_at t b i 0) cmd.
Proof.
  intros HT HW HD Hl Heq Hdead Hroom. assert (G := ok_geo _ _ _ _ HT).
  pose proof (chain_end_prefix_slot t chains b [] [i] HT Hl) as Hq. cbn in Hq.
  destruct (chain_end_record t chains b [] [i] HT Hl) as (eq2 & Heq2 & _ & Hvq).
  cbn in Heq2. rewrite Heq in Heq2. injection Heq2 as <-.
  destruct (hw_entry _ _ _ HW) as (h & Hh & Hfor). destruct ll_offs as [_ Hoff].
  destruct (delete_command_mid t b i 0 h cmd G Hq Hroom Hh) as (cmd' & Hcmd & Happ).
  eexists cmd', _. split_and!; [done|done|eapply hw_posts; try done; slot_bounds G|].
  rewrite (run_one t h entry_off _ eq _ G HW Hfor Hoff Heq).
  destruct (relinked_dma t chains b 0 eq HT Heq Hvq) as [HRL Hst]; [lia|].
  rewrite (finish_delete_linked _ _ _ _ _ _ G Hq Heq Hst), Hdead. cbn [Z.eqb Pos.eqb DEAD_PROTOCOL].
  destruct (delete_with_head t chains b i eq _ HT Hl HRL) as (t' & Hrun & HT' & Hrem).
  exists t', (delete b chains). split_and!; [done|done| |apply Hrem|].
  - intros k r. rewrite (proj2 Hrem). case_decide; [done|]. case_decide; [done|].
    intros Hc Hp. destruct (HD k r Hc Hp) as (l & Hl' & ?). exists l. by rewrite lookup_delete_ne.
  - eapply live_removed; [done| |]; rewrite (contents_valid _ _ _ Heq Hvq); [|done].
    intros r [= <-] _. by rewrite rl_strip.
Qed.

(** Deleting a rule in force removes exactly that rule, wherever it is. *)
Lemma rule_delete t chains i r it cmd :
  table_ok wf_entry meta_ok t chains -> table_hw base expn t -> del_hw t -> dead_ok t chains ->
  live_at t i = Some r -> position chains i it t -> cmd_room cmd 1 -> deletes t i it cmd.
Proof.
  intros HT HW HX HD Hlive Hpos Hroom.
  destruct Hpos as [(l & Hl & ->)|(b & l1 & l2 & Hl & ->)].
  - destruct l as [|j l]; [by apply deletes_single with chains|by eapply deletes_head].
  - destruct (chain_end_record t chains b l1 (i :: l2) HT Hl) as (eq & Heq & _).
    destruct (decide (l2 = [] /\ rec_protocol eq = DEAD_PROTOCOL)) as [[-> Hdead]|Hn].
    + pose proof (dead_is_head _ _ _ _ _ _ _ HT HD Hl Heq Hdead) as ->.
      by eapply deletes_last.
    + eapply deletes_mid; eauto.
Qed.

(** An insertion adds exactly the new rule. *)
Lemma rule_inserted t t2 chains b eh et data t1 new chains' ds e_ins posted r :
  added (wf_entry := wf_entry) (meta_ok := meta_ok) (base := base) (expn := expn)
    t chains b eh et data t1 new chains' ds e_ins posted ->
  dead_ok t chains -> rec_protocol r <> DEAD_PROTOCOL ->
  (forall i, contents t2 i = if decide (i = new) then Some r else contents t i) ->
  dead_ok t2 chains' /\ live_at t new = None /\
  forall i, live_at t2 i = if decide (i = new) then Some r else live_at t i.
Proof.
  intros A HD Hr Hc. split_and!.
  - intros i r'. rewrite Hc. case_decide as Ei; [by intros [= ->]|].
    intros Hi Hp. destruct (HD i r' Hi Hp) as (l & Hl & Hne).
    destruct (ad_chains _ _ _ _ _ _ _ _ _ _ _ _ A) as [(Hb & -> & ->)|(lb & Hb & _ & ->)].
    + exists l. by rewrite lookup_insert_ne by done.
    + destruct (decide (i = b)) as [->|Hib].
      * rewrite lookup_insert_eq. eexists. split; [done|]. by destruct lb.
      * exists l. by rewrite lookup_insert_ne by done.
  - unfold live_at. rewrite (contents_free t new entry_zero); [done|apply A|apply law_zero_valid].
  - intros i. unfold live_at. rewrite Hc. case_decide; [|done].
    by rewrite (proj2 (Z.eqb_neq _ _)).
Qed.
End rule_tables.
