(* ===== verification/Os.v ===== *)
(** * The operating system and the kernel driver, as the library uses them

    Everything below the library's system calls is a parameter: [K] is the state
    of the system, and the class [OsOps] gives, for each call the library makes,
    its return value, its output and the new state.  [OsLaws] states what the
    library relies on. *)

From Stdlib Require Import ZArith Lia Ascii String.
From stdpp Require Import prelude list numbers strings.
From S2P Require Import Prelude IpaTable.

Local Open Scope Z_scope.

(** The two mutexes of the library. *)
Inductive mutex := nat_mutex | ipv6ct_mutex.

(** The table ioctls whose number a memory descriptor carries. *)
Inductive table_ioctl :=
  | IPA_IOC_ALLOC_NAT_TABLE
  | IPA_IOC_DEL_NAT_TABLE
  | IPA_IOC_ALLOC_IPV6CT_TABLE
  | IPA_IOC_DEL_IPV6CT_TABLE.

(** [struct ipa_nat_in_sram_info]. *)
Record ipa_nat_in_sram_info := mk_sram_info {
  sram_mem_available_for_nat : Z;
  nat_table_offset_into_mmap : Z;
  best_nat_in_sram_size_rqst : Z }.

Definition sram_info_zero : ipa_nat_in_sram_info := mk_sram_info 0 0 0.

(** Constants and limits of [linux/msm_ipa.h], which is not in the repository. *)
Class IpaUapi := {
  IPA_MAX_PDN_NUM : Z;
  IPA_HW_v4_0 : Z;
  IPA_HW_None : Z;
  IPAHAL_NAT_INVALID_PROTOCOL : Z;
  IPA_RESOURCE_NAME_MAX : Z;
  IPA_APP_CLK_DEVOTE : Z;
  IPA_APP_CLK_VOTE : Z;
  IPA_APP_CLK_RESET_VOTE : Z;
  IPA_DEV_NAME : string;
  IPA_NAT_DEV_NAME : string;
  IPA_IPV6CT_DEV_NAME : string;
  IPA_VALID_NAT_MEM_IN : Z -> bool }.

Class IpaUapiLaws `{IpaUapi} : Prop := {
  uapi_pdn_num : 2 <= IPA_MAX_PDN_NUM <= 16;
  uapi_none : IPA_HW_None < IPA_HW_v4_0;
  uapi_invalid_protocol : IPAHAL_NAT_INVALID_PROTOCOL = 255;
  uapi_clk : IPA_APP_CLK_DEVOTE < IPA_APP_CLK_VOTE < IPA_APP_CLK_RESET_VOTE;
  uapi_name_max : 32 <= IPA_RESOURCE_NAME_MAX;
  uapi_nmi : forall nmi, IPA_VALID_NAT_MEM_IN nmi = true <->
    nmi = IPA_NAT_MEM_IN_DDR \/ nmi = IPA_NAT_MEM_IN_SRAM }.

Class OsOps (K : Type) := {
  pthread_mutex_lock : mutex -> K -> Z * K;
  pthread_mutex_unlock : mutex -> K -> Z * K;
  pthread_mutexattr_init : K -> Z * K;
  (** to PTHREAD_MUTEX_RECURSIVE *)
  pthread_mutexattr_settype : K -> Z * K;
  pthread_mutex_init : mutex -> K -> Z * K;
  (** [false] is a NULL result. *)
  os_calloc : K -> bool * K;
  os_open : string -> K -> Z * K;
  os_close : Z -> K -> Z * K;
  (** [None] is [MAP_FAILED]. *)
  os_mmap : Z -> Z -> K -> option Z * K;
  os_munmap : Z -> Z -> K -> K;
  (** CLOCK_MONOTONIC: status, seconds, nanoseconds *)
  clock_gettime : K -> Z * Z * Z * K;
  ioctl_get_hw_version : Z -> K -> Z * Z * K;
  ioctl_get_nat_in_sram_info : Z -> K -> Z * ipa_nat_in_sram_info * K;
  (** size requested; offset assigned *)
  ioctl_table_alloc : Z -> table_ioctl -> Z -> K -> Z * Z * K;
  (** table index and memory type *)
  ioctl_table_del : Z -> table_ioctl -> Z -> Z -> K -> Z * K }.

Section calls.
Context {K : Type}.
(** A call as a computation over a state that contains [K]. *)
Definition sys {G A} (f : K -> A * K) : St (G * K) A :=
  fun '(g, k) => let '(a, k') := f k in Ok (a, (g, k')).
End calls.

(** A mapping is at a non-null address, the kernel assigns offset 0 to a table. *)
Class OsLaws `{Os : OsOps K} : Prop := {
  law_mmap_addr : forall size fd k a k', os_mmap size fd k = (Some a, k') -> 0 < a;
  law_sram_offset : forall fd k r info k',
    ioctl_get_nat_in_sram_info fd k = (r, info, k') -> 0 <= nat_table_offset_into_mmap info;
  law_alloc_offset : forall fd n size k off k',
    ioctl_table_alloc fd n size k = (0, off, k') -> off = 0 }.
