(* ===== verification/NatUtils.v ===== *)
(** * Utilities ([dataipa/ipanat/src/ipa_nat_utils.c])

    [ipa_read_debug_info], which prints a debugfs file, is not modelled. *)

From Stdlib Require Import ZArith Lia Ascii String.
From stdpp Require Import prelude list numbers strings.
From S2P Require Import Prelude IpaTable Os.

Local Open Scope Z_scope.

(** The copied string and the value returned, the length of the source; nothing
    is copied when [size] is 0. *)
Definition strlcpy (src : string) (size : Z) : string * Z :=
  (String.substring 0 (Z.to_nat (size - 1)) src, Z.of_nat (String.length src)).

Record ipa_descriptor := mk_descriptor { fd : Z; ver : Z }.

Inductive TimeAs_t := TimeAsNanSecs | TimeAsMicSecs | TimeAsMilSecs.

Definition NANOS_PER_SEC : Z := 1000000000.
Definition MICROS_PER_SEC : Z := 1000000.
Definition MILLIS_PER_SEC : Z := 1000.

Section utils.
Context {K : Type} `{Os : OsOps K} `{U : IpaUapi}.

(** [None] is a NULL result. *)
Definition ipa_descriptor_open (k : K) : option ipa_descriptor * K :=
  let '(ok, k) := os_calloc k in
  if negb ok then (None, k)
  else
    let '(fd, k) := os_open IPA_DEV_NAME k in
    if fd <? 0 then (None, k)
    else
      let '(res, ver, k) := ioctl_get_hw_version fd k in
      (Some (mk_descriptor fd (if res =? 0 then ver else IPA_HW_None)), k).

Definition ipa_descriptor_close (desc : option ipa_descriptor) (k : K) : K :=
  match desc with
  | Some d => if fd d >=? 0 then snd (os_close (fd d) k) else k
  | None => k
  end.

(** [None] for [timeAs] is a value outside the enumeration; the second component
    is [*valPtr] when written. *)
Definition currTimeAs (timeAs : option TimeAs_t) (valPtr_null : bool) (k : K) :
    Z * option Z * K :=
  match timeAs with
  | None => (-1, None, k)
  | Some ta =>
      if valPtr_null then (-1, None, k)
      else
        let '(r, tv_sec, tv_nsec, k) := clock_gettime k in
        if negb (r =? 0) then (-1, None, k)
        else
          let val :=
            match ta with
            | TimeAsNanSecs => u64 (u64 (u64 tv_sec * NANOS_PER_SEC) + u64 tv_nsec)
            | TimeAsMicSecs => u64 (u64 (u64 tv_sec * MICROS_PER_SEC) + u64 tv_nsec / 1000)
            | TimeAsMilSecs => u64 (u64 (u64 tv_sec * MILLIS_PER_SEC) + u64 tv_nsec / 1000000)
            end in
          (0, Some val, k)
  end.
End utils.
