(* ===== verification/MemDescriptor.v ===== *)
(** * Memory of a table ([dataipa/ipanat/src/ipa_mem_descriptor.c]) *)

From Stdlib Require Import ZArith Lia Ascii String.
From stdpp Require Import prelude list numbers strings.
From S2P Require Import Prelude IpaTable Os NatUtils.

Local Open Scope Z_scope.

Record ipa_mem_descriptor := mk_desc {
  orig_rqst_size : Z;
  mmap_size : Z;
  base_addr : Z;
  mmap_addr : Z;
  addr_offset : Z;
  allocate_ioctl_num : table_ioctl;
  delete_ioctl_num : table_ioctl;
  name : string;
  table_index : Z;
  valid : bool;
  consider_using_sram : bool;
  sram_available : bool;
  sram_to_be_used : bool;
  nat_sram_info : ipa_nat_in_sram_info }.

(** A descriptor of a structure cleared by [memset]. *)
Definition desc_zero : ipa_mem_descriptor :=
  mk_desc 0 0 0 0 0 IPA_IOC_ALLOC_NAT_TABLE IPA_IOC_ALLOC_NAT_TABLE EmptyString 0
    false false false false sram_info_zero.

Section setters.
Implicit Types d : ipa_mem_descriptor.
Definition set_sram d (available used : bool) (info : ipa_nat_in_sram_info) :=
  mk_desc (orig_rqst_size d) (mmap_size d) (base_addr d) (mmap_addr d) (addr_offset d)
    (allocate_ioctl_num d) (delete_ioctl_num d) (name d) (table_index d) (valid d)
    (consider_using_sram d) available used info.
Definition set_offset d (off : Z) :=
  mk_desc (orig_rqst_size d) (mmap_size d) (base_addr d) (mmap_addr d) off
    (allocate_ioctl_num d) (delete_ioctl_num d) (name d) (table_index d) (valid d)
    (consider_using_sram d) (sram_available d) (sram_to_be_used d) (nat_sram_info d).
Definition set_mapping d (size base addr : Z) :=
  mk_desc (orig_rqst_size d) size base addr (addr_offset d)
    (allocate_ioctl_num d) (delete_ioctl_num d) (name d) (table_index d) (valid d)
    (consider_using_sram d) (sram_available d) (sram_to_be_used d) (nat_sram_info d).
Definition set_valid d (v : bool) :=
  mk_desc (orig_rqst_size d) (mmap_size d) (base_addr d) (mmap_addr d) (addr_offset d)
    (allocate_ioctl_num d) (delete_ioctl_num d) (name d) (table_index d) v
    (consider_using_sram d) (sram_available d) (sram_to_be_used d) (nat_sram_info d).
End setters.

(** [MAP_FAILED], [(void* ) -1]. *)
Definition MAP_FAILED : Z := 2 ^ 64 - 1.

Section mem_descriptor.
Context {K : Type} `{Os : OsOps K} `{U : IpaUapi}.
Implicit Types d : ipa_mem_descriptor.

Definition AllocateMemory d (ipa_fd : Z) (k : K) : Z * ipa_mem_descriptor * K :=
  let '(ret, info, k) := ioctl_get_nat_in_sram_info ipa_fd k in
  let d :=
    if ret =? 0
    then set_sram d true
           (consider_using_sram d && (u32 (orig_rqst_size d) <=? sram_mem_available_for_nat info))
           info
    else set_sram d false false info in
  let '(ret, offset, k) :=
    ioctl_table_alloc ipa_fd (allocate_ioctl_num d) (orig_rqst_size d) k in
  if negb (ret =? 0) then (ret, d, k) else (ret, set_offset d offset, k).

Definition MapMemory d (ipa_fd : Z) (k : K) : Z * ipa_mem_descriptor * K :=
  let '(dir, ipa_dev_dir_path_len) := strlcpy "/dev/" IPA_RESOURCE_NAME_MAX in
  if ipa_dev_dir_path_len >=? IPA_RESOURCE_NAME_MAX then (- EINVAL, d, k)
  else
    let device_full_path :=
      (dir ++ fst (strlcpy (name d) (IPA_RESOURCE_NAME_MAX - ipa_dev_dir_path_len)))%string in
    let '(device_fd, k) := os_open device_full_path k in
    if device_fd <? 0 then (- EIO, d, k)
    else
      let size := if sram_to_be_used d then best_nat_in_sram_size_rqst (nat_sram_info d)
                  else orig_rqst_size d in
      let '(addr, k) := os_mmap size device_fd k in
      let '(ret, d) :=
        match addr with
        | None => (- EINVAL, set_mapping d size MAP_FAILED MAP_FAILED)
        | Some a =>
            (0, set_mapping d size
                  (if sram_to_be_used d
                   then a + nat_table_offset_into_mmap (nat_sram_info d) else a) a)
        end in
      let '(c, k) := os_close device_fd k in
      ((if negb (c =? 0) then - EINVAL else ret), d, k).

Definition DeallocateMemory d (ipa_fd : Z) (k : K) : Z * K :=
  ioctl_table_del ipa_fd (delete_ioctl_num d) (table_index d)
    (if sram_to_be_used d then IPA_NAT_MEM_IN_SRAM else IPA_NAT_MEM_IN_DDR) k.

Definition ipa_mem_descriptor_init d (device_name : string) (size table_index : Z)
    (allocate_ioctl_num delete_ioctl_num : table_ioctl) (consider_using_sram : bool) :
    ipa_mem_descriptor :=
  mk_desc size size (base_addr d) (mmap_addr d) (addr_offset d) allocate_ioctl_num
    delete_ioctl_num (fst (strlcpy device_name IPA_RESOURCE_NAME_MAX)) table_index (valid d)
    consider_using_sram (sram_available d) (sram_to_be_used d) (nat_sram_info d).

Definition ipa_mem_descriptor_allocate_memory d (ipa_fd : Z) (k : K) :
    Z * ipa_mem_descriptor * K :=
  let '(ret, d, k) := AllocateMemory d ipa_fd k in
  if negb (ret =? 0) then (ret, d, k)
  else
    let '(ret, d, k) := MapMemory d ipa_fd k in
    if negb (ret =? 0) then
      let '(_, k) := DeallocateMemory d ipa_fd k in (ret, d, k)
    else (ret, set_valid d true, k).

Definition ipa_mem_descriptor_delete d (ipa_fd : Z) (k : K) : Z * ipa_mem_descriptor * K :=
  if negb (valid d) then (- EINVAL, d, k)
  else
    let d := set_valid d false in
    let k := os_munmap (mmap_addr d) (mmap_size d) k in
    let '(ret, k) := DeallocateMemory d ipa_fd k in
    (ret, d, k).
End mem_descriptor.
