(* ===== verification/Ipv6ct.v ===== *)
(** * IPv6 connection tracking ([dataipa/ipanat/src/ipa_ipv6ct.c])

    One table of 64-byte entries, without an index table.  The file's static data are
    the record [ipa_ipv6ct]; a function is a computation on it and on the system
    state [K].  Pointers to results are NULL when the [_null] argument says so.
    [ipa_ipv6ct_dump_table], which only prints, is not modelled. *)

From Stdlib Require Import ZArith Lia Ascii String.
From stdpp Require Import prelude list numbers strings.
From S2P Require Import Prelude Bitfield IpaTable Dma TableDma RuleTable Os NatUtils.
From S2P Require Import MemDescriptor.

Local Open Scope Z_scope.

(** ** Constants of [ipa_ipv6cti.h] and [ipa_ipv6ct.h] *)
Definition IPA_IPV6CT_MAX_TBLS : Z := 1.
Definition IPA_IPV6CT_RULE_FLAG_FIELD_OFFSET : Z := 34.
Definition IPA_IPV6CT_RULE_NEXT_FIELD_OFFSET : Z := 40.
Definition IPA_IPV6CT_RULE_PROTO_FIELD_OFFSET : Z := 38.
Definition IPA_IPV6CT_FLAG_ENABLE_BIT : Z := 1.
Definition IPA_IPV6CT_DIRECTION_ALLOW_BIT : Z := 1.
Definition IPA_IPV6CT_INVALID_PROTO_FIELD_VALUE : Z := 65280.
Definition IPA_IPV6CT_INVALID_PROTO_FIELD_CMP : Z := 255.
Definition IPA_IPV6CT_DIRECTION_DENY_ALL : Z := 0.
Definition IPA_IPV6CT_DIRECTION_ALLOW_OUT : Z := 1.
Definition IPA_IPV6CT_DIRECTION_ALLOW_IN : Z := 2.
Definition IPA_IPV6CT_DIRECTION_ALLOW_ALL : Z := 3.
Definition IPA_MAX_DMA_ENTRIES_FOR_ADD : nat := 2.
Definition IPA_MAX_DMA_ENTRIES_FOR_DEL : nat := 2.
Definition sizeof_ipa_ipv6ct_hw_entry : Z := 64.

(** ** Records *)
Record ipa_ipv6ct_hw_entry := mk_ct {
  c_src_ipv6_lsb : Z;
  c_src_ipv6_msb : Z;
  c_dest_ipv6_lsb : Z;
  c_dest_ipv6_msb : Z;
  c_uc_activation_index : Z;
  c_s : Z;
  c_rsvd1 : Z;
  c_redirect : Z;
  c_enable : Z;
  c_time_stamp : Z;
  c_protocol : Z;
  c_next_index : Z;
  c_dest_port : Z;
  c_src_port : Z;
  c_ucp : Z;
  c_rsvd2 : Z;
  c_out_allowed : Z;
  c_in_allowed : Z;
  c_rsvd3 : Z;
  c_rsvd4 : Z;
  c_prev_index : Z;
  c_rsvd5 : Z }.

Definition ct_zero : ipa_ipv6ct_hw_entry :=
  mk_ct 0 0 0 0 0 0 0 0 0 0 0 0 0 0 0 0 0 0 0 0 0 0.

Definition ct_ws : list Z :=
  [64; 64; 64; 64; 13; 1; 16; 1; 1; 24; 8; 16; 16; 16; 1; 5; 1; 1; 8; 48; 16; 64].

Definition ct_fields (e : ipa_ipv6ct_hw_entry) : list Z :=
  [c_src_ipv6_lsb e; c_src_ipv6_msb e; c_dest_ipv6_lsb e; c_dest_ipv6_msb e;
   c_uc_activation_index e; c_s e; c_rsvd1 e; c_redirect e; c_enable e; c_time_stamp e;
   c_protocol e; c_next_index e; c_dest_port e; c_src_port e; c_ucp e; c_rsvd2 e;
   c_out_allowed e; c_in_allowed e; c_rsvd3 e; c_rsvd4 e; c_prev_index e; c_rsvd5 e].

Definition ct_of (l : list Z) : ipa_ipv6ct_hw_entry :=
  let f := fun k => nth k l 0 in
  mk_ct (f 0%nat) (f 1%nat) (f 2%nat) (f 3%nat) (f 4%nat) (f 5%nat) (f 6%nat) (f 7%nat)
    (f 8%nat) (f 9%nat) (f 10%nat) (f 11%nat) (f 12%nat) (f 13%nat) (f 14%nat) (f 15%nat)
    (f 16%nat) (f 17%nat) (f 18%nat) (f 19%nat) (f 20%nat) (f 21%nat).

Definition wf_ct (e : ipa_ipv6ct_hw_entry) : Prop := fits ct_ws (ct_fields e).

#[global] Instance ct_dma_record : DmaRecord ipa_ipv6ct_hw_entry :=
  { rec_ws := ct_ws; rec_fields := ct_fields; rec_of := ct_of }.

(** Assignments to bit-fields, by position in [ct_fields]. *)
Definition ct_set_enable (e : ipa_ipv6ct_hw_entry) (v : Z) := ct_of (<[8%nat := wrap 1 v]> (ct_fields e)).
Definition ct_set_redirect (e : ipa_ipv6ct_hw_entry) (v : Z) := ct_of (<[7%nat := wrap 1 v]> (ct_fields e)).
Definition ct_set_time_stamp (e : ipa_ipv6ct_hw_entry) (v : Z) := ct_of (<[9%nat := wrap 24 v]> (ct_fields e)).
Definition ct_set_protocol (e : ipa_ipv6ct_hw_entry) (v : Z) := ct_of (<[10%nat := wrap 8 v]> (ct_fields e)).
Definition ct_set_next_index (e : ipa_ipv6ct_hw_entry) (v : Z) := ct_of (<[11%nat := wrap 16 v]> (ct_fields e)).
Definition ct_set_prev_index (e : ipa_ipv6ct_hw_entry) (v : Z) := ct_of (<[20%nat := wrap 16 v]> (ct_fields e)).
Definition ct_set_allowed (e : ipa_ipv6ct_hw_entry) (out inn : Z) :=
  ct_of (<[17%nat := inn]> (<[16%nat := out]> (ct_fields e))).

(** Rules as the caller gives them; [v_direction_settings] is an [enum], which C lets
    hold other values. *)
Record ipa_ipv6ct_rule := mk_ct_rule {
  v_src_ipv6_lsb : Z;
  v_src_ipv6_msb : Z;
  v_dest_ipv6_lsb : Z;
  v_dest_ipv6_msb : Z;
  v_direction_settings : Z;
  v_ucp : bool;
  v_s : bool;
  v_uc_activation_index : Z;
  v_src_port : Z;
  v_dest_port : Z;
  v_protocol : Z }.

Definition wf_ct_rule (u : ipa_ipv6ct_rule) : Prop :=
  fits [64; 64; 64; 64; 16; 16; 16; 8]
    [v_src_ipv6_lsb u; v_src_ipv6_msb u; v_dest_ipv6_lsb u; v_dest_ipv6_msb u;
     v_uc_activation_index u; v_src_port u; v_dest_port u; v_protocol u].

(** ** Hash *)
(** The [while (num)] loop of a [uint64_t] shifted by 16 at every turn: 4 turns. *)
Fixpoint xor_segments_loop (fuel : nat) (num ret : Z) : res Z :=
  if num =? 0 then Ok ret
  else
    match fuel with
    | O => Diverge
    | S f => xor_segments_loop f (Z.shiftr num 16) (Z.lxor ret (u16 (Z.land num 65535)))
    end.

Definition ipa_ipv6ct_xor_segments (num : Z) : res Z := xor_segments_loop 4 num 0.

Definition ipa_ipv6ct_hash (rule : ipa_ipv6ct_rule) (size : Z) : res Z :=
  a ← ipa_ipv6ct_xor_segments (v_src_ipv6_lsb rule);
  b ← ipa_ipv6ct_xor_segments (v_src_ipv6_msb rule);
  c ← ipa_ipv6ct_xor_segments (v_dest_ipv6_lsb rule);
  d ← ipa_ipv6ct_xor_segments (v_dest_ipv6_msb rule);
  let hash := Z.lxor (Z.lxor (Z.lxor (Z.lxor 0 a) b) c) d in
  let hash := Z.lxor (Z.lxor (Z.lxor hash (v_src_port rule)) (v_dest_port rule)) (v_protocol rule) in
  let hash := Z.land hash size in
  Ok (if hash =? 0 then size else hash).

(** ** Callbacks *)
Definition table_entry_is_valid (e : ipa_ipv6ct_hw_entry) : bool := negb (c_enable e =? 0).
Definition table_entry_get_next_index (e : ipa_ipv6ct_hw_entry) : Z := c_next_index e.
Definition table_entry_get_prev_index (e : ipa_ipv6ct_hw_entry) (entry_index : Z)
    (meta : option (list Z)) (base_table_size : Z) : res Z := Ok (c_prev_index e).
Definition table_entry_set_prev_index (e : ipa_ipv6ct_hw_entry) (entry_index prev_index : Z)
    (meta : option (list Z)) (base_table_size : Z) :
    res (ipa_ipv6ct_hw_entry * option (list Z)) := Ok (ct_set_prev_index e prev_index, meta).

Definition table_entry_copy_from_user (e : ipa_ipv6ct_hw_entry) (u : ipa_ipv6ct_rule) :
    Z * ipa_ipv6ct_hw_entry :=
  let e' := mk_ct (wrap 64 (v_src_ipv6_lsb u)) (wrap 64 (v_src_ipv6_msb u))
    (wrap 64 (v_dest_ipv6_lsb u)) (wrap 64 (v_dest_ipv6_msb u))
    (wrap 13 (v_uc_activation_index u)) (b2z (v_s u)) (c_rsvd1 e) (c_redirect e) (c_enable e)
    (c_time_stamp e) (wrap 8 (v_protocol u)) (c_next_index e) (wrap 16 (v_dest_port u))
    (wrap 16 (v_src_port u)) (b2z (v_ucp u)) (c_rsvd2 e) (c_out_allowed e) (c_in_allowed e)
    (c_rsvd3 e) (c_rsvd4 e) (c_prev_index e) (c_rsvd5 e) in
  let allow := IPA_IPV6CT_DIRECTION_ALLOW_BIT in
  let d := v_direction_settings u in
  if d =? IPA_IPV6CT_DIRECTION_DENY_ALL then (0, e')
  else if d =? IPA_IPV6CT_DIRECTION_ALLOW_OUT then (0, ct_set_allowed e' allow (c_in_allowed e))
  else if d =? IPA_IPV6CT_DIRECTION_ALLOW_IN then (0, ct_set_allowed e' (c_out_allowed e) allow)
  else if d =? IPA_IPV6CT_DIRECTION_ALLOW_ALL then (0, ct_set_allowed e' allow allow)
  else (- EINVAL, e').

(** [ipa_ipv6ct_flags] over the 16-bit command data. *)
Definition ct_flags_ws : list Z := [14; 1; 1].
Definition ipa_ipv6ct_flags (redirect enable : Z) : Z := pack ct_flags_ws [0; redirect; enable].

Definition table_entry_head_insert (e : ipa_ipv6ct_hw_entry) (u : ipa_ipv6ct_rule) :
    res (Z * ipa_ipv6ct_hw_entry * Z) :=
  let '(ret, e') := table_entry_copy_from_user e u in
  if negb (ret =? 0) then Ok (ret, e', 0)
  else Ok (0, e', ipa_ipv6ct_flags 0 IPA_IPV6CT_FLAG_ENABLE_BIT).

Definition table_entry_tail_insert (e : ipa_ipv6ct_hw_entry) (u : ipa_ipv6ct_rule) :
    res (Z * ipa_ipv6ct_hw_entry) :=
  let '(ret, e') := table_entry_copy_from_user e u in
  if negb (ret =? 0) then Ok (ret, e')
  else Ok (0, ct_set_enable e' IPA_IPV6CT_FLAG_ENABLE_BIT).

Definition table_entry_get_delete_head_dma_command_data (head next_entry : ipa_ipv6ct_hw_entry) : Z :=
  IPA_IPV6CT_INVALID_PROTO_FIELD_VALUE.

#[global] Instance entry_interface : EntryOps ipa_ipv6ct_hw_entry ipa_ipv6ct_rule := {
  entry_zero := ct_zero;
  entry_is_valid := table_entry_is_valid;
  entry_get_next_index := table_entry_get_next_index;
  entry_get_prev_index := table_entry_get_prev_index;
  entry_set_prev_index := table_entry_set_prev_index;
  entry_head_insert := table_entry_head_insert;
  entry_tail_insert := table_entry_tail_insert;
  entry_get_delete_head_dma_command_data := table_entry_get_delete_head_dma_command_data }.

#[global] Instance ct_linked : LinkedRecord ipa_ipv6ct_hw_entry := {
  rec_size := sizeof_ipa_ipv6ct_hw_entry;
  head_off := IPA_IPV6CT_RULE_FLAG_FIELD_OFFSET;
  entry_off := IPA_IPV6CT_RULE_NEXT_FIELD_OFFSET;
  strip := fun e => ct_set_next_index (ct_set_prev_index e 0) 0 }.

#[global] Instance ct_rule_record : RuleRecord ipa_ipv6ct_hw_entry := {
  rec_protocol := c_protocol;
  del_off := IPA_IPV6CT_RULE_PROTO_FIELD_OFFSET }.

(** ** State *)
Record ipa_ipv6ct_table := mk_ct_table {
  ct_mem_desc : ipa_mem_descriptor;
  ct_table : ipa_table ipa_ipv6ct_hw_entry }.

Definition ct_table_zero : ipa_ipv6ct_table := mk_ct_table desc_zero (ipa_table_init 0 0 None 0).

Record ipa_ipv6ct := mk_ipv6ct {
  ct_ipa_desc : option ipa_descriptor;
  ct_tables : list ipa_ipv6ct_table;
  ct_table_cnt : Z }.

Definition ipv6ct_zero : ipa_ipv6ct := mk_ipv6ct None [ct_table_zero] 0.

Definition ct_set_desc g d := mk_ipv6ct d (ct_tables g) (ct_table_cnt g).
Definition ct_set_cnt g n := mk_ipv6ct (ct_ipa_desc g) (ct_tables g) n.
Definition ct_set_table g (hdl : Z) n := mk_ipv6ct (ct_ipa_desc g) (zset (ct_tables g) (hdl - 1) n) (ct_table_cnt g).

(** [struct ipa_ioc_ipv6ct_init]. *)
Record ipa_ioc_ipv6ct_init := mk_ct_init {
  ct_tbl_index : Z;
  base_table_offset : Z;
  expn_table_offset : Z;
  ct_table_entries : Z;
  ct_expn_table_entries : Z }.

Class CtOs (K : Type) := {
  uc_activation_entry : Type;
  ioctl_init_ipv6ct : Z -> ipa_ioc_ipv6ct_init -> K -> Z * K;
  (** the table's memory as the hardware leaves it *)
  ioctl_ct_dma_cmd : Z -> ipa_ioc_nat_dma_cmd -> ipa_table ipa_ipv6ct_hw_entry -> K ->
    Z * list ipa_ipv6ct_hw_entry * K;
  ioctl_add_uc_act_entry : Z -> uc_activation_entry -> K -> Z * uc_activation_entry * K;
  ioctl_del_uc_act_entry : Z -> Z -> K -> Z * K;
  mapped_ct : Z -> nat -> K -> list ipa_ipv6ct_hw_entry }.

Class CtOsLaws `{Os : OsOps K} `{COs : CtOs K} : Prop := {
  ct_os_laws :: OsLaws;
  law_mapped_ct : forall a n k, length (mapped_ct a n k) = n;
  law_ct_dma : forall fd cmd t k r m k', ioctl_ct_dma_cmd fd cmd t k = (r, m, k') ->
    m = if r =? 0
        then tbl_mem (dma_run IPA_IPV6CT_BASE_TBL IPA_IPV6CT_EXPN_TBL t
               (take (Z.to_nat (cmd_entries cmd)) (cmd_dma cmd)))
        else tbl_mem t }.

Section ipv6ct.
Context {K : Type} `{Os : OsOps K} `{COs : CtOs K} `{U : IpaUapi}.

(** ** Creation and destruction of the table *)
Definition ipa_ipv6ct_create_table_dma_cmd_helpers (n : ipa_ipv6ct_table) (table_indx : Z) :
    ipa_ipv6ct_table :=
  let off := fun o => u32 (addr_offset (ct_mem_desc n) + o) in
  let h := ipa_table_dma_cmd_helper_init table_indx IPA_IPV6CT_BASE_TBL IPA_IPV6CT_EXPN_TBL in
  mk_ct_table (ct_mem_desc n)
    (set_dma_help (ct_table n)
       (mk_helpers (Some (h (off IPA_IPV6CT_RULE_FLAG_FIELD_OFFSET)))
          (Some (h (off IPA_IPV6CT_RULE_NEXT_FIELD_OFFSET)))
          (Some (h (off IPA_IPV6CT_RULE_PROTO_FIELD_OFFSET))))).

Definition ipa_ipv6ct_create_table (fd : Z) (n : ipa_ipv6ct_table)
    (number_of_entries table_index : Z) (k : K) : res (Z * ipa_ipv6ct_table * K) :=
  '(ret, t) ← ipa_table_calculate_entries_num
    (ipa_table_init IPA_NAT_MEM_IN_DDR sizeof_ipa_ipv6ct_hw_entry None 0 :
       ipa_table ipa_ipv6ct_hw_entry) number_of_entries IPA_NAT_MEM_IN_DDR;
  if negb (ret =? 0) then Ok (ret, mk_ct_table (ct_mem_desc n) t, k)
  else
    let d := ipa_mem_descriptor_init (ct_mem_desc n) IPA_IPV6CT_DEV_NAME
               (ipa_table_calculate_size t) table_index IPA_IOC_ALLOC_IPV6CT_TABLE
               IPA_IOC_DEL_IPV6CT_TABLE false in
    let '(ret, d, k) := ipa_mem_descriptor_allocate_memory d fd k in
    if negb (ret =? 0) then Ok (ret, ct_table_zero, k)
    else
      let '(_, t) := ipa_table_calculate_addresses t (base_addr d) in
      t ← ipa_table_reset (set_mem t (mapped_ct (base_addr d) (Z.to_nat (tot_tbl_ents t)) k));
      Ok (0, ipa_ipv6ct_create_table_dma_cmd_helpers (mk_ct_table d t) table_index, k).

Definition ipa_ipv6ct_destroy_table (fd : Z) (n : ipa_ipv6ct_table) (k : K) :
    Z * ipa_ipv6ct_table * K :=
  let '(ret, _, k) := ipa_mem_descriptor_delete (ct_mem_desc n) fd k in (ret, ct_table_zero, k).

Definition ipa_ipv6ct_post_init_cmd (fd : Z) (n : ipa_ipv6ct_table) (tbl_index : Z) (k : K) : Z * K :=
  let base := addr_offset (ct_mem_desc n) in
  ioctl_init_ipv6ct fd
    (mk_ct_init tbl_index base
       (u32 (base + table_entries (ct_table n) * sizeof_ipa_ipv6ct_hw_entry))
       (u16 (table_entries (ct_table n) - 1)) (expn_table_entries (ct_table n))) k.

(** Status and the table as the hardware leaves it. *)
Definition ipa_ipv6ct_post_dma_cmd (fd : Z) (n : ipa_ipv6ct_table) (cmd : ipa_ioc_nat_dma_cmd)
    (k : K) : Z * ipa_ipv6ct_table * K :=
  let cmd := mk_dma_cmd (cmd_entries cmd) IPA_NAT_MEM_IN_DDR (cmd_dma cmd) in
  let '(r, m, k) := ioctl_ct_dma_cmd fd cmd (ct_table n) k in
  ((if negb (r =? 0) then - EIO else 0), mk_ct_table (ct_mem_desc n) (set_mem (ct_table n) m), k).

(** ** Access to the state *)
#[local] Notation M := (St (ipa_ipv6ct * K)).

Definition ct_get : M ipa_ipv6ct := fun s => Ok (fst s, s).
Definition ct_put (g : ipa_ipv6ct) : M unit := fun '(_, k) => Ok (tt, (g, k)).
Definition ct_os {A} (f : K -> A * K) : M A := sys f.
(** [ipv6ct.ipa_desc->...]. *)
Definition ct_desc : M ipa_descriptor := g ← ct_get; st_lift (deref (ct_ipa_desc g)).
Definition ct_get_table (hdl : Z) : M ipa_ipv6ct_table :=
  g ← ct_get; st_lift (deref (zget (ct_tables g) (hdl - 1))).
Definition ct_put_table (hdl : Z) (n : ipa_ipv6ct_table) : M unit :=
  g ← ct_get; ct_put (ct_set_table g hdl n).

(** Closes the device when no table is left. *)
Definition ct_close_unused : M unit :=
  g ← ct_get;
  if ct_table_cnt g =? 0 then
    _ ← ct_os (fun k => (tt, ipa_descriptor_close (ct_ipa_desc g) k));
    ct_put (ct_set_desc g None)
  else mret tt.

(** Status and [*table_handle] when written. *)
Definition ipa_ipv6ct_add_tbl (number_of_entries : Z) (table_handle_null : bool) :
    M (Z * option Z) :=
  if table_handle_null || (number_of_entries =? 0) then mret (- EINVAL, None)
  else
    g ← ct_get;
    if ct_table_cnt g >=? IPA_IPV6CT_MAX_TBLS then mret (- EINVAL, Some 0)
    else
      ok ← match ct_ipa_desc g with
           | Some _ => mret true
           | None =>
               d ← ct_os ipa_descriptor_open;
               _ ← ct_put (ct_set_desc g d);
               mret (match d with Some _ => true | None => false end)
           end;
      if negb ok then mret (- EIO, Some 0)
      else
        d ← ct_desc;
        if ver d <? IPA_HW_v4_0 then _ ← ct_close_unused; mret (- EPERM, Some 0)
        else
          let cnt := ct_table_cnt g in
          n ← ct_get_table (cnt + 1);
          '(ret, n) ← (fun '(g, k) =>
             '(r, n, k) ← ipa_ipv6ct_create_table (fd d) n number_of_entries cnt k;
             Ok ((r, n), (g, k)));
          _ ← ct_put_table (cnt + 1) n;
          if negb (ret =? 0) then _ ← ct_close_unused; mret (ret, Some 0)
          else
            ret ← ct_os (ipa_ipv6ct_post_init_cmd (fd d) n cnt);
            if negb (ret =? 0) then
              '(_, n) ← ct_os (fun k => let '(r, n, k) := ipa_ipv6ct_destroy_table (fd d) n k in ((r, n), k));
              _ ← ct_put_table (cnt + 1) n;
              _ ← ct_close_unused;
              mret (ret, Some 0)
            else
              g ← ct_get;
              let cnt := u8 (ct_table_cnt g + 1) in
              _ ← ct_put (ct_set_cnt g cnt);
              mret (0, Some cnt).

(** The common prologue: version, arguments, mutex; and the common epilogue. *)
Definition ct_locked {A} (bad : bool) (body : M (Z * option A)) : M (Z * option A) :=
  d ← ct_desc;
  if ver d <? IPA_HW_v4_0 then mret (- EINVAL, None)
  else if bad then mret (- EINVAL, None)
  else
    l ← ct_os (pthread_mutex_lock ipv6ct_mutex);
    if negb (l =? 0) then mret (- EINVAL, None)
    else
      '(ret, a) ← body;
      u ← ct_os (pthread_mutex_unlock ipv6ct_mutex);
      mret ((if negb (u =? 0) then (if negb (ret =? 0) then ret else - EPERM) else ret), a).

Definition bad_hdl (table_handle : Z) : bool :=
  (table_handle =? IPA_TABLE_INVALID_ENTRY) || (table_handle >? IPA_IPV6CT_MAX_TBLS).

Definition ct_del_tbl_locked (table_handle : Z) : M (Z * option unit) :=
  n ← ct_get_table table_handle;
  if negb (valid (ct_mem_desc n)) then mret (- EINVAL, None)
  else
    d ← ct_desc;
    '(ret, n) ← ct_os (fun k => let '(r, n, k) := ipa_ipv6ct_destroy_table (fd d) n k in ((r, n), k));
    _ ← ct_put_table table_handle n;
    if negb (ret =? 0) then mret (ret, None)
    else
      g ← ct_get;
      _ ← ct_put (ct_set_cnt g (u8 (ct_table_cnt g - 1)));
      _ ← ct_close_unused;
      mret (0, None).

Definition ipa_ipv6ct_del_tbl (table_handle : Z) : M Z :=
  '(ret, _) ← ct_locked (bad_hdl table_handle) (ct_del_tbl_locked table_handle);
  mret ret.

(** ** Rules *)
(** Under the mutex: status and the new handle. *)
Definition ct_add_rule_locked (table_handle : Z) (user_rule : ipa_ipv6ct_rule) : M (Z * option Z) :=
  n ← ct_get_table table_handle;
  if negb (valid (ct_mem_desc n)) then mret (- EINVAL, None)
  else
    let cmd := dma_cmd_zero IPA_MAX_DMA_ENTRIES_FOR_ADD in
    index ← st_lift (ipa_ipv6ct_hash user_rule (u16 (table_entries (ct_table n) - 1)));
    '(ret, t, cmd, new_entry_index, new_entry_handle) ←
      st_lift (ipa_table_add_entry (ct_table n) user_rule index cmd);
    let n := mk_ct_table (ct_mem_desc n) t in
    if negb (ret =? 0) then _ ← ct_put_table table_handle n; mret (ret, None)
    else
      d ← ct_desc;
      '(ret, n) ← ct_os (fun k =>
         let '(r, n, k) := ipa_ipv6ct_post_dma_cmd (fd d) n cmd k in ((r, n), k));
      if negb (ret =? 0) then
        t ← st_lift (ipa_table_erase_entry (ct_table n) new_entry_index);
        _ ← ct_put_table table_handle (mk_ct_table (ct_mem_desc n) t);
        mret (ret, None)
      else _ ← ct_put_table table_handle n; mret (0, new_entry_handle).

(** Status and [*rule_handle] when written; [None] for [user_rule] is NULL.  The
    epilogue differs: a failed unlock keeps the handle back. *)
Definition ipa_ipv6ct_add_rule (table_handle : Z) (user_rule : option ipa_ipv6ct_rule)
    (rule_handle_null : bool) : M (Z * option Z) :=
  d ← ct_desc;
  if ver d <? IPA_HW_v4_0 then mret (- EINVAL, None)
  else
    match user_rule with
    | None => mret (- EINVAL, None)
    | Some u =>
        if bad_hdl table_handle || rule_handle_null then mret (- EINVAL, None)
        else if v_protocol u =? IPA_IPV6CT_INVALID_PROTO_FIELD_CMP then mret (- EINVAL, None)
        else
          l ← ct_os (pthread_mutex_lock ipv6ct_mutex);
          if negb (l =? 0) then mret (- EINVAL, None)
          else
            '(ret, h) ← ct_add_rule_locked table_handle u;
            un ← ct_os (pthread_mutex_unlock ipv6ct_mutex);
            if negb (ret =? 0) then mret (ret, None)
            else if negb (un =? 0) then mret (- EPERM, None)
            else mret (0, h)
    end.

(** The deletion of the entry once the command is posted. *)
Definition ct_del_finish (n : ipa_ipv6ct_table) (it : ipa_table_iterator) : res ipa_ipv6ct_table :=
  t ← (if ipa_table_iterator_is_head_with_tail it then Ok (ct_table n)
       else
         is_prev_empty ←
           (if prev_entry it =? 0 then Ok false
            else p ← rec_at (ct_table n) (prev_entry it);
                 Ok (c_protocol p =? IPA_IPV6CT_INVALID_PROTO_FIELD_CMP));
         ipa_table_delete_entry (ct_table n) it is_prev_empty);
  Ok (mk_ct_table (ct_mem_desc n) t).

Definition ct_del_rule_locked (table_handle rule_handle : Z) : M (Z * option unit) :=
  n ← ct_get_table table_handle;
  if negb (valid (ct_mem_desc n)) then mret (- EINVAL, None)
  else
    match ipa_table_get_entry (ct_table n) rule_handle with
    | (0, Some (entry, index)) =>
        '(ret, it) ← st_lift (ipa_table_iterator_init (ct_table n) entry index);
        if negb (ret =? 0) then mret (ret, None)
        else
          cmd ← st_lift (ipa_table_create_delete_command (ct_table n)
                           (dma_cmd_zero IPA_MAX_DMA_ENTRIES_FOR_DEL) it);
          d ← ct_desc;
          '(ret, n) ← ct_os (fun k =>
             let '(r, n, k) := ipa_ipv6ct_post_dma_cmd (fd d) n cmd k in ((r, n), k));
          if negb (ret =? 0) then _ ← ct_put_table table_handle n; mret (ret, None)
          else
            n ← st_lift (ct_del_finish n it);
            _ ← ct_put_table table_handle n;
            mret (0, None)
    | (ret, _) => mret (ret, None)
    end.

Definition ipa_ipv6ct_del_rule (table_handle rule_handle : Z) : M Z :=
  '(ret, _) ← ct_locked (bad_hdl table_handle || (rule_handle =? IPA_TABLE_INVALID_ENTRY))
                (ct_del_rule_locked table_handle rule_handle);
  mret ret.

Definition ct_query_locked (table_handle rule_handle : Z) : M (Z * option Z) :=
  n ← ct_get_table table_handle;
  if negb (valid (ct_mem_desc n)) then mret (- EINVAL, None)
  else
    match ipa_table_get_entry (ct_table n) rule_handle with
    | (0, Some (entry, _)) =>
        e ← st_lift (rec_at (ct_table n) entry);
        mret (0, Some (c_time_stamp e))
    | (ret, _) => mret (ret, None)
    end.

(** Status and [*time_stamp] when written. *)
Definition ipa_ipv6ct_query_timestamp (table_handle rule_handle : Z) (time_stamp_null : bool) :
    M (Z * option Z) :=
  ct_locked (bad_hdl table_handle || (rule_handle =? IPA_TABLE_INVALID_ENTRY) || time_stamp_null)
    (ct_query_locked table_handle rule_handle).

(** ** Micro-controller activation entries *)
Definition ipa_ipv6ct_add_uc_act_entry (u : uc_activation_entry) : M (Z * uc_activation_entry) :=
  d ← ct_desc;
  '(r, u) ← ct_os (fun k => let '(r, u, k) := ioctl_add_uc_act_entry (fd d) u k in ((r, u), k));
  mret ((if negb (r =? 0) then - EIO else 0), u).

Definition ipa_ipv6ct_del_uc_act_entry (index : Z) : M Z :=
  d ← ct_desc;
  r ← ct_os (ioctl_del_uc_act_entry (fd d) index);
  mret (if negb (r =? 0) then - EIO else 0).
End ipv6ct.
