(* ===== verification/Ipv6ctLaws.v ===== *)
(** * Properties of IPv6CT entries, hashes and callbacks

    The layout of [ipa_ipv6ct_hw_entry] agrees with the byte offsets of the DMA
    commands, the callbacks satisfy the laws of the generic table, the hash is a
    base slot. *)

From Stdlib Require Import ZArith Lia.
From stdpp Require Import prelude gmap list numbers.
From S2P Require Import Prelude Chain Bitfield IpaTable IpaTableRep Dma TableDma RuleTable Os.
From S2P Require Import NatUtils MemDescriptor Ipv6ct.

Local Open Scope Z_scope.

(** ** Layout *)
Lemma ct_fields_of l : length l = 22%nat -> ct_fields (ct_of l) = l.
Proof. intros H. do 23 (destruct l as [|? l]; try done). Qed.

Lemma ct_ws_nonneg : Forall (fun w => 0 <= w) ct_ws.
Proof. unfold ct_ws. widths. Qed.

Lemma wf_ct_zero : wf_ct ct_zero.
Proof. apply fitsb_fits. vm_compute. done. Qed.

Lemma wf_ct_set e k w v : wf_ct e -> ct_ws !! k = Some w -> 0 <= v < 2 ^ w ->
  wf_ct (ct_of (<[k := v]> (ct_fields e))).
Proof.
  intros He Hw Hv. unfold wf_ct. rewrite ct_fields_of by (rewrite length_insert; done).
  by apply (fits_insert _ _ _ w).
Qed.

Lemma ct_field_range e k w v : wf_ct e -> ct_ws !! k = Some w -> ct_fields e !! k = Some v ->
  0 <= v < 2 ^ w.
Proof. intros He. by apply (Forall2_lookup_lr _ _ _ k w v He). Qed.

Lemma dma_ct_next e v : wf_ct e ->
  rec_dma16 e IPA_IPV6CT_RULE_NEXT_FIELD_OFFSET v = ct_set_next_index e v.
Proof.
  intros He.
  exact (f_equal ct_of (unpack_write_pack (take 11 ct_ws) [16] (drop 12 ct_ws)
    (take 11 (ct_fields e)) [c_next_index e] (drop 12 (ct_fields e)) v
    ct_ws_nonneg He eq_refl eq_refl)).
Qed.

(** Two adjacent parts of one field, of which a write replaces the upper one together
    with the fields after it, or the upper one together with the next field. *)
Lemma split_fits ws1 ws2 vs1 vs2 a b v : fits (ws1 ++ (a + b) :: ws2) (vs1 ++ v :: vs2) ->
  length ws1 = length vs1 -> 0 <= a -> 0 <= b ->
  fits (ws1 ++ a :: b :: ws2) (vs1 ++ v mod 2 ^ a :: v / 2 ^ a :: vs2).
Proof.
  intros Hf Hl Ha Hb. apply Forall2_app_inv in Hf as [Hf1 Hf2]; [|done].
  apply list.Forall2_cons in Hf2 as [Hv Hf2].
  apply Forall2_app; [done|]. pose proof (pow2_pos a Ha).
  apply list.Forall2_cons. split; [by apply Z.mod_pos_bound|].
  apply list.Forall2_cons. split; [|done].
  split; [apply Z.div_pos; lia|]. apply Z.div_lt_upper_bound; [done|].
  rewrite <- Z.pow_add_r by done. lia.
Qed.

(** The flag word at byte 34 is the upper 14 reserved bits, [redirect] and [enable]. *)
Lemma dma_ct_flags e rd en : wf_ct e -> c_rsvd1 e = 0 -> 0 <= rd < 2 -> 0 <= en < 2 ->
  rec_dma16 e IPA_IPV6CT_RULE_FLAG_FIELD_OFFSET (ipa_ipv6ct_flags rd en) =
  ct_set_enable (ct_set_redirect e rd) en.
Proof.
  intros He Hr Hrd Hen.
  set (ws1 := take 6 ct_ws). set (vs1 := take 6 (ct_fields e)).
  set (ws3 := drop 9 ct_ws). set (vs3 := drop 9 (ct_fields e)).
  assert (Hpack : pack ct_ws (ct_fields e) =
    pack ((ws1 ++ [2]) ++ [14; 1; 1] ++ ws3)
      ((vs1 ++ [c_rsvd1 e mod 2 ^ 2]) ++ [c_rsvd1 e / 2 ^ 2; c_redirect e; c_enable e] ++ vs3)).
  { rewrite <- !app_assoc. cbn [app].
    refine (pack_split ws1 (1 :: 1 :: ws3) vs1 (c_redirect e :: c_enable e :: vs3) 2 14 (c_rsvd1 e)
      _ _ _ _ _); try done; [unfold ws1; cbn; widths|by rewrite Hr]. }
  pose proof (split_fits ws1 (1 :: 1 :: ws3) vs1 (c_redirect e :: c_enable e :: vs3) 2 14 (c_rsvd1 e)
    He eq_refl ltac:(lia) ltac:(lia)) as Hfit.
  assert (Hall : Forall (fun w => 0 <= w) ((ws1 ++ [2]) ++ [14; 1; 1] ++ ws3)) by (cbn; widths).
  assert (Hflags : fits [14; 1; 1] [0; rd; en])
    by (repeat (apply List.Forall2_cons; [lia|]); apply List.Forall2_nil).
  pose proof (unpack_write_pack (ws1 ++ [2]) [14; 1; 1] ws3
    (vs1 ++ [c_rsvd1 e mod 2 ^ 2]) [c_rsvd1 e / 2 ^ 2; c_redirect e; c_enable e] vs3
    (ipa_ipv6ct_flags rd en) Hall) as E.
  rewrite <- Hpack, <- !app_assoc in E. cbn [app] in E. specialize (E Hfit eq_refl eq_refl).
  unfold ipa_ipv6ct_flags, ct_flags_ws in E.
  rewrite unpack_pack in E by (done || widths). rewrite Hr in E. cbn [app] in E.
  apply (unpack_merge ws1 (1 :: 1 :: ws3) vs1 (rd :: en :: vs3) 2 14) in E; [|done|cbn; widths].
  etransitivity; [exact (f_equal ct_of E)|]. destruct e. cbn in Hr. subst.
  unfold ct_set_enable, ct_set_redirect, wrap. cbn -[Z.modulo Z.pow].
  rewrite !Z.mod_small by (done || lia). done.
Qed.

(** 0xFF00 at byte 38 makes the protocol 0xFF and clears the top byte of the time stamp. *)
Lemma dma_ct_protocol e : wf_ct e ->
  rec_dma16 e IPA_IPV6CT_RULE_PROTO_FIELD_OFFSET IPA_IPV6CT_INVALID_PROTO_FIELD_VALUE
  = ct_set_protocol (ct_set_time_stamp e (c_time_stamp e mod 2 ^ 16)) IPA_IPV6CT_INVALID_PROTO_FIELD_CMP.
Proof.
  intros He. pose proof (ct_field_range e 9 24 (c_time_stamp e) He eq_refl eq_refl) as Hts.
  set (ws1 := take 9 ct_ws). set (vs1 := take 9 (ct_fields e)).
  set (ws3 := drop 11 ct_ws). set (vs3 := drop 11 (ct_fields e)).
  assert (Hpack : pack ct_ws (ct_fields e) =
    pack ((ws1 ++ [16]) ++ [8; 8] ++ ws3)
      ((vs1 ++ [c_time_stamp e mod 2 ^ 16]) ++ [c_time_stamp e / 2 ^ 16; c_protocol e] ++ vs3)).
  { rewrite <- !app_assoc. cbn [app].
    refine (pack_split ws1 (8 :: ws3) vs1 (c_protocol e :: vs3) 16 8 (c_time_stamp e) _ _ _ _ _);
      try done. unfold ws1. cbn. widths. }
  pose proof (split_fits ws1 (8 :: ws3) vs1 (c_protocol e :: vs3) 16 8 (c_time_stamp e)
    He eq_refl ltac:(lia) ltac:(lia)) as Hfit.
  assert (Hall : Forall (fun w => 0 <= w) ((ws1 ++ [16]) ++ [8; 8] ++ ws3)) by (cbn; widths).
  pose proof (unpack_write_pack (ws1 ++ [16]) [8; 8] ws3
    (vs1 ++ [c_time_stamp e mod 2 ^ 16]) [c_time_stamp e / 2 ^ 16; c_protocol e] vs3
    IPA_IPV6CT_INVALID_PROTO_FIELD_VALUE Hall) as E.
  rewrite <- Hpack, <- !app_assoc in E. cbn [app] in E. specialize (E Hfit eq_refl eq_refl).
  change (unpack [8; 8] IPA_IPV6CT_INVALID_PROTO_FIELD_VALUE) with [0; 255] in E. cbn [app] in E.
  apply (unpack_merge ws1 (8 :: ws3) vs1 (255 :: vs3) 16 8) in E; [|done|cbn; widths].
  etransitivity; [exact (f_equal ct_of E)|]. rewrite Z.mul_0_r, Z.add_0_r.
  unfold ct_set_protocol, ct_set_time_stamp, wrap. cbn -[Z.modulo Z.pow]. f_equal.
  rewrite (Z.mod_small (c_time_stamp e mod 2 ^ 16) (2 ^ 24)); [done|].
  pose proof (Z.mod_pos_bound (c_time_stamp e) (2 ^ 16)). lia.
Qed.

(** ** Laws *)
Definition ct_meta_ok (m : option (list Z)) (ee : Z) : Prop := m = None.

#[global] Instance ct_entry_laws : EntryLaws wf_ct ct_meta_ok.
Proof.
  split.
  - apply wf_ct_zero.
  - done.
  - done.
  - intros e He. by apply (ct_field_range e 11 16).
  - intros. by eexists.
  - done.
  - intros e i p m B ee Hwf Hm Hi Hp. exists (ct_set_prev_index e p), m.
    split_and!; try done; [by apply (wf_ct_set _ _ 16); [..|apply wrap_range]|].
    cbn. unfold table_entry_get_prev_index. cbn. by rewrite wrap_small.
Qed.

Lemma copy_keeps_prev e u : c_prev_index (snd (table_entry_copy_from_user e u)) = c_prev_index e.
Proof. unfold table_entry_copy_from_user. by repeat case_match. Qed.

#[global] Instance ct_linked_laws : LinkedLaws wf_ct ct_meta_ok.
Proof.
  split.
  - apply _.
  - done.
  - intros e v Hwf Hv. cbn [entry_off ct_linked]. rewrite dma_ct_next by done.
    split_and!; try done; [by apply (wf_ct_set _ _ 16); [..|apply wrap_range]|].
    cbn. unfold table_entry_get_next_index. cbn. by rewrite wrap_small.
  - intros e i p m B e' m' [= <- <-]. done.
  - intros u e data i m B. cbn [entry_head_insert entry_interface entry_zero entry_get_prev_index].
    unfold table_entry_head_insert. pose proof (copy_keeps_prev ct_zero u) as Hp.
    destruct (table_entry_copy_from_user ct_zero u) as [ret e'].
    destruct (negb (ret =? 0)); intros Hi; injection Hi; intros; subst; unfold table_entry_get_prev_index;
      cbn [snd] in Hp; by rewrite Hp.
Qed.

#[global] Instance ct_rule_laws : RuleLaws wf_ct ct_meta_ok.
Proof.
  split.
  - apply _.
  - done.
  - done.
  - intros e h n Hwf. cbn [del_off ct_rule_record entry_get_delete_head_dma_command_data entry_interface].
    unfold table_entry_get_delete_head_dma_command_data. rewrite dma_ct_protocol by done.
    split_and!; try done. apply (wf_ct_set _ _ 8); [|done|by apply wrap_range].
    apply (wf_ct_set _ _ 24); [done|done|by apply wrap_range].
  - done.
Qed.

(** ** Hash *)
Lemma xor_segments_loop_run fuel num ret :
  0 <= num < 2 ^ (16 * Z.of_nat fuel) -> 0 <= ret < 2 ^ 16 ->
  exists v, xor_segments_loop fuel num ret = Ok v /\ 0 <= v < 2 ^ 16.
Proof.
  revert num ret. induction fuel as [|fuel IH]; intros num ret Hn Hr; cbn [xor_segments_loop].
  - rewrite (proj2 (Z.eqb_eq num 0)) by (cbn in Hn; lia). by eexists.
  - destruct (num =? 0); [by eexists|]. apply IH.
    + rewrite Z.shiftr_div_pow2 by lia. split; [apply Z.div_pos; lia|].
      apply Z.div_lt_upper_bound; [lia|]. rewrite <- Z.pow_add_r by lia.
      replace (16 + 16 * Z.of_nat fuel) with (16 * Z.of_nat (S fuel)) by lia. lia.
    + apply lxor_range; [lia|done|]. by apply wrap_range.
Qed.

(** A record of the caller's values. *)
Lemma wf_ct_rule_inv u : wf_ct_rule u ->
  0 <= v_src_ipv6_lsb u < 2 ^ 64 /\ 0 <= v_src_ipv6_msb u < 2 ^ 64 /\
  0 <= v_dest_ipv6_lsb u < 2 ^ 64 /\ 0 <= v_dest_ipv6_msb u < 2 ^ 64 /\
  0 <= v_uc_activation_index u < 2 ^ 16 /\ 0 <= v_src_port u < 2 ^ 16 /\
  0 <= v_dest_port u < 2 ^ 16 /\ 0 <= v_protocol u < 2 ^ 8.
Proof.
  intros Hu. unfold wf_ct_rule, fits in Hu. rewrite !list.Forall2_cons in Hu. tauto.
Qed.

Lemma ct_hash_range u size : wf_ct_rule u -> 0 < size ->
  exists h, ipa_ipv6ct_hash u size = Ok h /\ 0 < h <= size.
Proof.
  intros Hu Hs. destruct (wf_ct_rule_inv u Hu) as (? & ? & ? & ? & _ & ? & ? & ?).
  destruct (xor_segments_loop_run 4 (v_src_ipv6_lsb u) 0) as (a & Ha & ?); [done|lia|].
  destruct (xor_segments_loop_run 4 (v_src_ipv6_msb u) 0) as (b & Hb & ?); [done|lia|].
  destruct (xor_segments_loop_run 4 (v_dest_ipv6_lsb u) 0) as (c & Hc & ?); [done|lia|].
  destruct (xor_segments_loop_run 4 (v_dest_ipv6_msb u) 0) as (d & Hd & ?); [done|lia|].
  unfold ipa_ipv6ct_hash, ipa_ipv6ct_xor_segments. rewrite Ha, Hb, Hc, Hd. cbn [mbind res_bind].
  eexists. split; [reflexivity|]. cbv zeta. apply hash_slot; [|done].
  repeat (apply Z.lxor_nonneg; split; intros); lia.
Qed.

(** ** New records *)
Definition direction_ok (d : Z) : Prop := 0 <= d <= 3.

(** What an accepted rule becomes: linked to nothing and not enabled yet. *)
Definition new_ct (u : ipa_ipv6ct_rule) : ipa_ipv6ct_hw_entry :=
  mk_ct (v_src_ipv6_lsb u) (v_src_ipv6_msb u) (v_dest_ipv6_lsb u) (v_dest_ipv6_msb u)
    (wrap 13 (v_uc_activation_index u)) (b2z (v_s u)) 0 0 0 0 (v_protocol u) 0 (v_dest_port u)
    (v_src_port u) (b2z (v_ucp u)) 0 (v_direction_settings u mod 2) (v_direction_settings u / 2)
    0 0 0 0.

Lemma wf_new_ct u : wf_ct_rule u -> direction_ok (v_direction_settings u) -> wf_ct (new_ct u).
Proof.
  intros Hu Hd. destruct (wf_ct_rule_inv u Hu) as (? & ? & ? & ? & _ & ? & ? & ?).
  assert (0 <= v_direction_settings u / 2 < 2 ^ 1).
  { unfold direction_ok in Hd. split; [apply Z.div_pos; lia|apply Z.div_lt_upper_bound; lia]. }
  unfold wf_ct, fits, new_ct, ct_ws, ct_fields. cbn -[Z.pow Z.modulo Z.div].
  repeat (apply List.Forall2_cons;
    [first [done | by apply wrap_range | destruct (_ : bool); cbn; lia
           | by apply (Z.mod_pos_bound _ 2) | lia]|]).
  constructor.
Qed.

Lemma ct_head_insert_ok u : wf_ct_rule u -> direction_ok (v_direction_settings u) ->
  table_entry_head_insert ct_zero u = Ok (0, new_ct u, ipa_ipv6ct_flags 0 1).
Proof.
  intros Hu Hd. destruct (wf_ct_rule_inv u Hu) as (? & ? & ? & ? & _ & ? & ? & ?).
  unfold table_entry_head_insert, table_entry_copy_from_user, new_ct.
  rewrite !(wrap_small 64), !(wrap_small 16), !(wrap_small 8) by done.
  assert (Hcase : v_direction_settings u = 0 \/ v_direction_settings u = 1 \/
    v_direction_settings u = 2 \/ v_direction_settings u = 3) by (unfold direction_ok in Hd; lia).
  by destruct Hcase as [-> | [-> | [-> | ->]]].
Qed.

Lemma ct_inserts (t : ipa_table ipa_ipv6ct_hw_entry) u :
  wf_ct_rule u -> direction_ok (v_direction_settings u) -> meta t = None ->
  inserts (wf_entry := wf_ct) t u (new_ct u) ct_zero (ipa_ipv6ct_flags 0 1).
Proof. intros Hu Hd Hm. split_and!; [by apply ct_head_insert_ok|by apply wf_new_ct|done..]. Qed.
