(* ===== verification/Ipv6ctProps.v ===== *)
(** * The IPv6CT driver keeps its table and implements a map of rules

    [ct_rules t] is the map from slots to the rules in force.  An addition adds one
    rule at a free slot or leaves the map alone, a deletion removes one. *)

From Stdlib Require Import ZArith Lia.
From stdpp Require Import prelude gmap list numbers.
From S2P Require Import Prelude CFloat Chain Bitfield IpaTable IpaTableRep Dma TableDma.
From S2P Require Import TableSetup RuleTable Os NatUtils MemDescriptor MemProps Ipv6ct.
From S2P Require Import Ipv6ctLaws.

Local Open Scope Z_scope.

Notation ct_table_ok := (table_ok wf_ct ct_meta_ok).
Notation ct_hw := (table_hw IPA_IPV6CT_BASE_TBL IPA_IPV6CT_EXPN_TBL).
Notation ct_del_hw := (del_hw (base := IPA_IPV6CT_BASE_TBL) (expn := IPA_IPV6CT_EXPN_TBL)).
Notation ct_run := (dma_run IPA_IPV6CT_BASE_TBL IPA_IPV6CT_EXPN_TBL).
Notation ct_added := (added (wf_entry := wf_ct) (meta_ok := ct_meta_ok)
  (base := IPA_IPV6CT_BASE_TBL) (expn := IPA_IPV6CT_EXPN_TBL)).

Definition ct_rules (t : ipa_table ipa_ipv6ct_hw_entry) (i : Z) : option ipa_ipv6ct_hw_entry :=
  live_at t i.

Record ct_inv (t : ipa_table ipa_ipv6ct_hw_entry) (ch : gmap Z (list Z)) : Prop := {
  ci_t : ct_table_ok t ch;
  ci_hw : ct_hw t;
  ci_del : ct_del_hw t;
  ci_dead : dead_ok t ch }.

Definition ct_ok (n : ipa_ipv6ct_table) : Prop := exists ch, ct_inv (ct_table n) ch.

(** The rule of an accepted request, as the hardware reads it. *)
Definition ct_in_force (u : ipa_ipv6ct_rule) : ipa_ipv6ct_hw_entry := ct_set_enable (new_ct u) 1.

Lemma ct_inv_shape t t' ch ch' : ct_inv t ch -> same_shape t t' -> ct_table_ok t' ch' ->
  dead_ok t' ch' -> ct_inv t' ch'.
Proof.
  intros [] Hsh HT HD. split; [done| | |done].
  - by eapply same_shape_hw.
  - by destruct Hsh as (m & c & x & l & ->).
Qed.

(** ** Insertion *)
Lemma ct_posted e : wf_ct e -> c_rsvd1 e = 0 -> c_redirect e = 0 ->
  rec_dma16 e (head_off (E := ipa_ipv6ct_hw_entry)) (ipa_ipv6ct_flags 0 1) = ct_set_enable e 1.
Proof.
  intros He Hr Hrd. cbn [head_off ct_linked]. rewrite dma_ct_flags by (done || lia). f_equal.
  destruct e. cbn in Hr, Hrd. by subst.
Qed.

Lemma ct_ins_rule t ch b u t1 new ch' ds e_ins posted :
  ct_table_ok t ch -> wf_ct (new_ct u) ->
  ct_added t ch b (new_ct u) ct_zero (ipa_ipv6ct_flags 0 1) t1 new ch' ds e_ins posted ->
  posted = true /\ wf_ct e_ins /\ c_rsvd1 e_ins = 0 /\ c_redirect e_ins = 0 /\
  c_next_index e_ins = 0 /\ strip (ct_set_enable e_ins 1) = ct_in_force u.
Proof.
  intros HT Hwf A.
  assert (posted = true) as ->.
  { apply (proj2 (ad_posted _ _ _ _ _ _ _ _ _ _ _ _ A)). right. apply (ok_meta _ _ _ _ HT). }
  split; [done|].
  destruct (ad_ins _ _ _ _ _ _ _ _ _ _ _ _ A) as [[-> _]|(q & m & m' & Hset)].
  - split_and!; done.
  - cbn [entry_set_prev_index entry_interface] in Hset. unfold table_entry_set_prev_index in Hset.
    injection Hset as <- <-. split_and!; try done.
    by apply (wf_ct_set _ _ 16); [..|apply wrap_range].
Qed.

Lemma ct_commit t ch b u t1 new ch' ds e_ins posted :
  ct_inv t ch -> wf_ct (new_ct u) -> v_protocol u <> DEAD_PROTOCOL ->
  ct_added t ch b (new_ct u) ct_zero (ipa_ipv6ct_flags 0 1) t1 new ch' ds e_ins posted ->
  let t2 := ct_run t1 ds in
  ct_inv t2 ch' /\ same_shape t t2 /\ live_at t new = None /\
  forall i, live_at t2 i = if decide (i = new) then Some (ct_in_force u) else live_at t i.
Proof.
  intros HI Hwf Hp A t2.
  destruct (ct_ins_rule _ _ _ _ _ _ _ _ _ _ (ci_t _ _ HI) Hwf A) as (-> & Hwfi & Hr & Hrd & Hn & Hst).
  assert (Hid : set_mem t1 (zset (tbl_mem t1) new e_ins) = t1).
  { rewrite (zset_id _ _ _ (ad_rec _ _ _ _ _ _ _ _ _ _ _ _ A)). by destruct t1. }
  pose proof (ad_commit _ _ _ _ _ _ _ _ _ _ _ _ A e_ins) as Hcommit.
  cbv zeta in Hcommit. rewrite Hid in Hcommit. fold t2 in Hcommit. unfold posted_data in Hcommit.
  rewrite ct_posted in Hcommit by done. rewrite Hst in Hcommit.
  destruct Hcommit as (HT2 & Hsh & Hc); [|done|exact Hn|done|].
  { by apply (wf_ct_set _ _ 1); [..|apply wrap_range]. }
  assert (Hpr : rec_protocol (ct_in_force u) <> DEAD_PROTOCOL) by exact Hp.
  destruct (rule_inserted _ t2 _ _ _ _ _ _ _ _ _ _ _ _ A (ci_dead _ _ HI) Hpr Hc) as (HD & ? & ?).
  split_and!; try done. by eapply ct_inv_shape.
Qed.

(** ** Running computations *)
Section driver.
Context {K : Type} `{Os : OsOps K} `{COs : !CtOs K} `{CL : !CtOsLaws} `{U : IpaUapi} `{UL : !IpaUapiLaws}.
Implicit Types (g : ipa_ipv6ct) (k : K) (n : ipa_ipv6ct_table).

Lemma ct_os_run {A} (f : K -> A * K) g k : ct_os f (g, k) = Ok (fst (f k), (g, snd (f k))).
Proof. unfold ct_os, sys. by destruct (f k). Qed.

Lemma ct_desc_run g k d : ct_ipa_desc g = Some d -> ct_desc (g, k) = Ok (d, (g, k)).
Proof. intros H. unfold ct_desc. erewrite bind_ok by done. cbn. by rewrite H. Qed.

Lemma ct_get_table_run g k hdl n : zget (ct_tables g) (hdl - 1) = Some n ->
  ct_get_table hdl (g, k) = Ok (n, (g, k)).
Proof. intros H. unfold ct_get_table. erewrite bind_ok by done. cbn. by rewrite H. Qed.

Lemma ct_put_table_run g k hdl n : ct_put_table hdl n (g, k) = Ok (tt, (ct_set_table g hdl n, k)).
Proof. done. Qed.

Lemma ct_post_dma_spec fd n cmd k :
  exists ret n' k', ipa_ipv6ct_post_dma_cmd fd n cmd k = (ret, n', k') /\
    ((ret = 0 /\ n' = mk_ct_table (ct_mem_desc n) (ct_run (ct_table n) (cmd_posted cmd))) \/
     (ret = - EIO /\ n' = n)).
Proof.
  unfold ipa_ipv6ct_post_dma_cmd. destruct (ioctl_ct_dma_cmd _ _ _ _) as [[r m] k'] eqn:E.
  pose proof (law_ct_dma _ _ _ _ _ _ _ E) as Hm. cbn [cmd_entries cmd_dma] in Hm.
  destruct (r =? 0); subst m; cbn [negb]; eexists _, _, _; (split; [reflexivity|]).
  - left. split; [done|]. fold (cmd_posted cmd). by rewrite dma_run_set_mem.
  - right. split; [done|]. by destruct n as [? []].
Qed.

(** ** Rules *)
Definition ct_add_outcome (u : ipa_ipv6ct_rule) n n' (ret : Z) (h : option Z) : Prop :=
  ct_ok n' /\ ct_mem_desc n' = ct_mem_desc n /\ same_shape (ct_table n) (ct_table n') /\
  ((ret = 0 /\ exists new, h = Some (MakeEntryHdl (ct_table n) new) /\
      0 < new < tot_tbl_ents (ct_table n) /\ ct_rules (ct_table n) new = None /\
      forall i, ct_rules (ct_table n') i =
        if decide (i = new) then Some (ct_in_force u) else ct_rules (ct_table n) i) \/
   (ret <> 0 /\ h = None /\ forall i, ct_rules (ct_table n') i = ct_rules (ct_table n) i)).

(** A rule the driver accepts. *)
Definition ct_acceptable (u : ipa_ipv6ct_rule) : Prop :=
  wf_ct_rule u /\ direction_ok (v_direction_settings u) /\ v_protocol u <> DEAD_PROTOCOL.

Lemma ct_undone t ch t' : ct_inv t ch -> ct_table_ok t' ch -> tbl_mem t' = tbl_mem t ->
  same_shape t t' -> ct_inv t' ch /\ forall i, live_at t' i = live_at t i.
Proof.
  intros HI HT Hm Hsh.
  assert (Hc : forall i, contents t' i = contents t i) by (intros i; by apply contents_mem).
  split; [|intros i; unfold live_at; by rewrite Hc].
  eapply ct_inv_shape; try done. intros i r. rewrite Hc. apply (ci_dead _ _ HI).
Qed.

Lemma ct_add_rule_locked_spec g k hdl n d u :
  zget (ct_tables g) (hdl - 1) = Some n -> valid (ct_mem_desc n) = true -> ct_ipa_desc g = Some d ->
  ct_ok n -> ct_acceptable u ->
  exists ret h n' k', ct_add_rule_locked hdl u (g, k) = Ok ((ret, h), (ct_set_table g hdl n', k')) /\
    ct_add_outcome u n n' ret h.
Proof.
  intros Hn Hv Hd (ch & HI) (Hu & Hdir & Hp). pose proof (ci_t _ _ HI) as HT.
  pose proof (ok_geo _ _ _ _ HT) as G. pose proof (geo_base _ G).
  assert (Hu16 : u16 (table_entries (ct_table n) - 1) = table_entries (ct_table n) - 1)
    by (apply wrap_small; lia).
  destruct (ct_hash_range u (table_entries (ct_table n) - 1) Hu ltac:(lia)) as (b & Hb & Hbr).
  unfold ct_add_rule_locked. erewrite bind_ok by (by apply ct_get_table_run). rewrite Hv. cbn [negb].
  rewrite Hu16. erewrite bind_ok by (apply lift_run, Hb).
  assert (Hbt : 0 < b < table_entries (ct_table n)) by lia.
  pose proof (ct_inserts (ct_table n) u Hu Hdir (ok_meta _ _ _ _ HT)) as Hins.
  destruct (table_add _ _ _ _ _ _ _ (dma_cmd_zero IPA_MAX_DMA_ENTRIES_FOR_ADD) HT (ci_hw _ _ HI)
    Hbt (zero_room 2 2 ltac:(lia)) Hins)
    as [(Hadd & _)|(t1 & cmd1 & new & ch' & ds & e_ins & posted & Hadd & Happ & A)].
  { erewrite bind_ok by (apply lift_run, Hadd). cbn [negb Z.eqb].
    erewrite bind_ok by apply ct_put_table_run. eexists (-1), None, _, k. split; [reflexivity|].
    split; [by exists ch|]. split_and!; [done|apply same_shape_refl|by right]. }
  erewrite bind_ok by (apply lift_run, Hadd). cbn [negb Z.eqb].
  erewrite bind_ok by (by apply ct_desc_run).
  destruct (ct_post_dma_spec (fd d) (mk_ct_table (ct_mem_desc n) t1) cmd1 k)
    as (ret & n2 & k' & Hpost & Hcase).
  erewrite bind_ok by (rewrite ct_os_run, Hpost; done). cbn [fst snd].
  destruct Hcase as [[-> ->]|[-> ->]].
  - cbn [negb Z.eqb]. erewrite bind_ok by apply ct_put_table_run.
    destruct Happ as (Hposted & _). rewrite Hposted, zero_posted, app_nil_l.
    destruct (ct_commit _ _ _ _ _ _ _ _ _ _ HI (wf_new_ct u Hu Hdir) Hp A) as (HI2 & Hsh & Hf & Hl).
    eexists 0, _, _, k'. split; [reflexivity|]. split; [by exists ch'|]. split_and!; [done|done|].
    left. split; [done|]. exists new. split_and!; [done|apply A..|done|done].
  - change (negb (- EIO =? 0)) with true. cbv iota. cbn [ct_table].
    destruct (ad_undo _ _ _ _ _ _ _ _ _ _ _ _ A) as (t' & Ht' & HT' & Hm & Hsh).
    erewrite bind_ok by (apply lift_run, Ht'). erewrite bind_ok by apply ct_put_table_run.
    destruct (ct_undone _ _ _ HI HT' Hm Hsh) as [HI' Hl].
    eexists _, None, _, k'. split; [reflexivity|]. split; [by exists ch|].
    split_and!; [done|done|by right].
Qed.

Definition ct_del_outcome n n' (i ret : Z) : Prop :=
  (ret = 0 /\ ct_ok n' /\ ct_mem_desc n' = ct_mem_desc n /\
     same_shape (ct_table n) (ct_table n') /\
     forall q, ct_rules (ct_table n') q = if decide (q = i) then None else ct_rules (ct_table n) q) \/
  (ret = - EIO /\ n' = n).

Lemma ct_del_rule_locked_spec g k hdl n d i :
  zget (ct_tables g) (hdl - 1) = Some n -> valid (ct_mem_desc n) = true -> ct_ipa_desc g = Some d ->
  ct_ok n -> is_Some (ct_rules (ct_table n) i) ->
  exists ret o n' k', ct_del_rule_locked hdl (MakeEntryHdl (ct_table n) i) (g, k) =
      Ok ((ret, o), (ct_set_table g hdl n', k')) /\ ct_del_outcome n n' i ret.
Proof.
  intros Hn Hv Hd (ch & HI) (r & Hr). pose proof (ci_t _ _ HI) as HT.
  pose proof (ok_geo _ _ _ _ HT) as G. pose proof (geo_size _ G).
  destruct (live_inv _ _ _ Hr) as (e & He & Hve & _).
  pose proof (valid_slot _ _ _ _ HT He Hve) as Hi.
  destruct (iterator_position _ _ _ _ HT He Hve) as (it & Hit & Hpos).
  destruct (rule_delete _ _ _ _ _ (dma_cmd_zero IPA_MAX_DMA_ENTRIES_FOR_DEL) HT (ci_hw _ _ HI)
    (ci_del _ _ HI) (ci_dead _ _ HI) Hr Hpos (zero_room 2 1 ltac:(lia)))
    as (cmd & dm & Hcmd & Happ & _ & t' & ch' & Hfin & HT' & HD' & Hsh & Hl).
  unfold ct_del_rule_locked. erewrite bind_ok by (by apply ct_get_table_run). rewrite Hv. cbn [negb].
  rewrite get_entry_hdl by (done || lia). erewrite bind_ok by (apply lift_run, Hit). cbn [negb Z.eqb].
  erewrite bind_ok by (apply lift_run, Hcmd). erewrite bind_ok by (by apply ct_desc_run).
  destruct (ct_post_dma_spec (fd d) n cmd k) as (ret & n2 & k' & Hpost & Hcase).
  erewrite bind_ok by (rewrite ct_os_run, Hpost; done). cbn [fst snd].
  destruct Hcase as [[-> ->]|[-> ->]].
  - cbn [negb Z.eqb]. destruct Happ as (Hposted & _). rewrite Hposted, zero_posted, app_nil_l.
    erewrite bind_ok.
    2: { apply lift_run. unfold ct_del_finish. cbn [ct_table ct_mem_desc].
         change (c_protocol) with (rec_protocol (E := ipa_ipv6ct_hw_entry)).
         change IPA_IPV6CT_INVALID_PROTO_FIELD_CMP with DEAD_PROTOCOL.
         unfold finish_delete in Hfin. rewrite Hfin. reflexivity. }
    erewrite bind_ok by apply ct_put_table_run.
    eexists 0, None, _, k'. split; [reflexivity|]. left. split; [done|].
    split; [exists ch'; by eapply ct_inv_shape|]. done.
  - change (negb (- EIO =? 0)) with true. cbv iota. erewrite bind_ok by apply ct_put_table_run.
    eexists _, None, n, k'. split; [reflexivity|]. by right.
Qed.
End driver.
