(* ===== verification/Ipv6ctApi.v ===== *)
(** * The interface of the IPv6CT driver

    The functions of [ipa_ipv6ct.h] as a client sees them: version and argument
    checks, the mutex, the table's creation and deletion with the device's, and the
    map of rules before and after.  Before a table is added the functions dereference
    a NULL descriptor. *)

From Stdlib Require Import ZArith Lia.
From stdpp Require Import prelude gmap list numbers.
From S2P Require Import Prelude CFloat Chain Bitfield IpaTable IpaTableRep Dma TableDma.
From S2P Require Import TableSetup RuleTable Os NatUtils MemDescriptor MemProps Ipv6ct.
From S2P Require Import Ipv6ctLaws Ipv6ctProps.

Local Open Scope Z_scope.

Section api.
Context {K : Type} `{Os : OsOps K} `{COs : !CtOs K} `{CL : !CtOsLaws} `{U : IpaUapi} `{UL : !IpaUapiLaws}.
Implicit Types (g : ipa_ipv6ct) (k : K) (n : ipa_ipv6ct_table).

(** The table [n] of handle [hdl] is in use on supported hardware. *)
Record ct_ready g (hdl : Z) n (d : ipa_descriptor) : Prop := {
  cr_hdl : hdl = 1;
  cr_at : ct_tables g = [n];
  cr_valid : valid (ct_mem_desc n) = true;
  cr_desc : ct_ipa_desc g = Some d;
  cr_ver : IPA_HW_v4_0 <= ver d;
  cr_ok : ct_ok n }.

Lemma cr_get g hdl n d : ct_ready g hdl n d -> zget (ct_tables g) (hdl - 1) = Some n.
Proof. by intros [-> -> _ _ _ _]. Qed.

Lemma cr_good g hdl n d : ct_ready g hdl n d -> bad_hdl hdl = false.
Proof. by intros [-> _ _ _ _ _]. Qed.

Lemma ct_ready_with g hdl n n' d : ct_ready g hdl n d -> ct_mem_desc n' = ct_mem_desc n -> ct_ok n' ->
  ct_ready (ct_set_table g hdl n') hdl n' d.
Proof.
  intros [] Hm Hok. split; try done; [|by rewrite Hm]. unfold ct_set_table. cbn. subst hdl. by rewrite cr_at0.
Qed.

Lemma ct_locked_run {A} g k d bad (body : St (ipa_ipv6ct * K) (Z * option A)) ret a g' k' :
  ct_ipa_desc g = Some d -> IPA_HW_v4_0 <= ver d -> bad = false ->
  fst (pthread_mutex_lock ipv6ct_mutex k) = 0 ->
  body (g, snd (pthread_mutex_lock ipv6ct_mutex k)) = Ok ((ret, a), (g', k')) ->
  let u := pthread_mutex_unlock ipv6ct_mutex k' in
  ct_locked bad body (g, k) =
    Ok ((if negb (fst u =? 0) then (if negb (ret =? 0) then ret else - EPERM) else ret, a),
        (g', snd u)).
Proof.
  intros Hd Hv -> Hl Hb u. unfold ct_locked. erewrite bind_ok by (by apply ct_desc_run).
  rewrite (proj2 (Z.ltb_ge _ _)) by done.
  erewrite bind_ok by (rewrite ct_os_run; done). rewrite Hl. cbn [negb Z.eqb].
  erewrite bind_ok by exact Hb. cbn [fst snd]. by erewrite bind_ok by (rewrite ct_os_run; done).
Qed.

Lemma ct_add_rule_api g k hdl n d u :
  ct_ready g hdl n d -> ct_acceptable u -> fst (pthread_mutex_lock ipv6ct_mutex k) = 0 ->
  exists st h n' k1, let un := pthread_mutex_unlock ipv6ct_mutex k1 in
    ipa_ipv6ct_add_rule hdl (Some u) false (g, k) =
      Ok (if negb (st =? 0) then (st, None)
          else if negb (fst un =? 0) then (- EPERM, None) else (0, h),
          (ct_set_table g hdl n', snd un)) /\
    ct_add_outcome u n n' st h.
Proof.
  intros R Hu Hl.
  destruct (ct_add_rule_locked_spec g (snd (pthread_mutex_lock ipv6ct_mutex k)) hdl n d u
    (cr_get _ _ _ _ R)) as (st & h & n' & k1 & Hrun & Hout); try done; try apply R.
  exists st, h, n', k1. cbv zeta. split; [|done]. unfold ipa_ipv6ct_add_rule.
  erewrite bind_ok by (apply ct_desc_run, R). rewrite (proj2 (Z.ltb_ge _ _)) by apply R.
  rewrite (cr_good _ _ _ _ R). cbn [orb].
  rewrite (proj2 (Z.eqb_neq (v_protocol u) _)) by (apply Hu).
  erewrite bind_ok by (rewrite ct_os_run; done). rewrite Hl. cbn [negb Z.eqb].
  erewrite bind_ok by exact Hrun. cbn [fst snd].
  erewrite bind_ok by (rewrite ct_os_run; done).
  destruct (negb (st =? 0)); [done|]. by destruct (negb (_ =? 0)).
Qed.

Lemma ct_add_rule_refused g k hdl u rule_handle_null d : ct_ipa_desc g = Some d ->
  ver d < IPA_HW_v4_0 \/ u = None \/ bad_hdl hdl = true \/ rule_handle_null = true \/
  (exists u', u = Some u' /\ v_protocol u' = IPA_IPV6CT_INVALID_PROTO_FIELD_CMP) ->
  ipa_ipv6ct_add_rule hdl u rule_handle_null (g, k) = Ok ((- EINVAL, None), (g, k)).
Proof.
  intros Hd Hbad. unfold ipa_ipv6ct_add_rule. erewrite bind_ok by (by apply ct_desc_run).
  destruct (ver d <? IPA_HW_v4_0) eqn:Ev; [done|]. destruct u as [u|]; [|done].
  destruct (bad_hdl hdl || rule_handle_null) eqn:Eb; [done|].
  destruct (v_protocol u =? _) eqn:Ep; [done|]. zify_bool.
  destruct Hbad as [|[|[|[|(u' & [= ->] & Hp)]]]]; (lia || congruence).
Qed.

Lemma ct_hdl_nonzero g hdl n d i : ct_ready g hdl n d -> is_Some (ct_rules (ct_table n) i) ->
  (MakeEntryHdl (ct_table n) i =? IPA_TABLE_INVALID_ENTRY) = false.
Proof.
  intros R [r Hr]. destruct (cr_ok _ _ _ _ R) as (ch & HI).
  destruct (live_inv _ _ _ Hr) as (e & He & Hve & _).
  apply make_hdl_nonzero; [apply (ok_geo _ _ _ _ (ci_t _ _ HI))|].
  exact (valid_slot _ _ _ _ (ci_t _ _ HI) He Hve).
Qed.

Lemma ct_del_rule_api g k hdl n d i :
  ct_ready g hdl n d -> is_Some (ct_rules (ct_table n) i) ->
  fst (pthread_mutex_lock ipv6ct_mutex k) = 0 ->
  exists st n' k1, let un := pthread_mutex_unlock ipv6ct_mutex k1 in
    ipa_ipv6ct_del_rule hdl (MakeEntryHdl (ct_table n) i) (g, k) =
      Ok (if negb (fst un =? 0) then (if negb (st =? 0) then st else - EPERM) else st,
          (ct_set_table g hdl n', snd un)) /\
    ct_del_outcome n n' i st.
Proof.
  intros R Hi Hl.
  destruct (ct_del_rule_locked_spec g (snd (pthread_mutex_lock ipv6ct_mutex k)) hdl n d i
    (cr_get _ _ _ _ R)) as (st & o & n' & k1 & Hrun & Hout); try done; try apply R.
  exists st, n', k1. cbv zeta. split; [|done]. unfold ipa_ipv6ct_del_rule.
  pose proof (ct_hdl_nonzero _ _ _ _ i R Hi) as Hh.
  erewrite bind_ok; [|eapply ct_locked_run; [apply R|apply R| |done|exact Hrun]].
  - done.
  - by rewrite (cr_good _ _ _ _ R), Hh.
Qed.

Lemma ct_query_api g k hdl n d i r :
  ct_ready g hdl n d -> ct_rules (ct_table n) i = Some r ->
  fst (pthread_mutex_lock ipv6ct_mutex k) = 0 ->
  let un := pthread_mutex_unlock ipv6ct_mutex (snd (pthread_mutex_lock ipv6ct_mutex k)) in
  ipa_ipv6ct_query_timestamp hdl (MakeEntryHdl (ct_table n) i) false (g, k) =
    Ok ((if negb (fst un =? 0) then - EPERM else 0, Some (c_time_stamp r)), (g, snd un)).
Proof.
  intros R Hr Hl un. destruct (cr_ok _ _ _ _ R) as (ch & HI).
  destruct (live_inv _ _ _ Hr) as (e & He & Hve & Hst & _).
  pose proof (valid_slot _ _ _ _ (ci_t _ _ HI) He Hve).
  pose proof (ok_geo _ _ _ _ (ci_t _ _ HI)) as G.
  unfold ipa_ipv6ct_query_timestamp.
  etransitivity; [eapply (ct_locked_run _ _ _ _ _ 0); [apply R|apply R| |done|]|reflexivity].
  { by rewrite (cr_good _ _ _ _ R), (ct_hdl_nonzero _ _ _ _ i R ltac:(by eexists)). }
  unfold ct_query_locked. erewrite bind_ok by (apply ct_get_table_run, (cr_get _ _ _ _ R)).
  rewrite (cr_valid _ _ _ _ R). cbn [negb]. rewrite get_entry_hdl by (done || lia).
  erewrite bind_ok by (apply lift_run; rewrite rec_at_goto, He by (destruct G; lia); done).
  subst r. by destruct e.
Qed.

(** ** The table *)
Lemma ct_create_spec fd n0 num k : 0 <= num ->
  exists ret n k', ipa_ipv6ct_create_table fd n0 num 0 k = Ok (ret, n, k') /\
    (ret = 0 -> ct_ok n /\ valid (ct_mem_desc n) = true /\
       entry_counts num IPA_NAT_MEM_IN_DDR =
         Ok (0, (table_entries (ct_table n), expn_table_entries (ct_table n), tot_tbl_ents (ct_table n))) /\
       forall i, ct_rules (ct_table n) i = None) /\
    (ret <> 0 -> valid (ct_mem_desc n0) = false -> valid (ct_mem_desc n) = false).
Proof.
  intros Hnum. unfold ipa_ipv6ct_create_table. rewrite calculate_entries_num_counts by done.
  destruct (entry_counts_spec IPA_NAT_MEM_IN_DDR num (or_introl eq_refl) Hnum)
    as (ret & te & ee & tot & Hec & Hcase).
  rewrite Hec. cbn [mbind res_bind]. destruct (ret =? 0) eqn:Er; cbn [negb]; zify_bool.
  2: { eexists _, _, _. by split_and!. }
  destruct Hcase as [(-> & _ & Hte & _ & Hee & -> & Hmax)| ->]; [|done].
  destruct (ipa_mem_descriptor_allocate_memory _ fd k) as [[r d] k2] eqn:Ea.
  destruct (r =? 0) eqn:Er'; cbn [negb]; zify_bool.
  2: { eexists _, _, _. by split_and!. }
  subst r. destruct (allocate_memory_ok _ _ _ _ _ Ea) as (Hv & Hoff & Hb).
  unfold ipa_table_calculate_addresses.
  cbn [entry_size table_entries expn_table_entries tot_tbl_ents set_entries ipa_table_init set_addrs].
  set (t0 := ipa_table_init IPA_NAT_MEM_IN_DDR sizeof_ipa_ipv6ct_hw_entry None 0
    : ipa_table ipa_ipv6ct_hw_entry).
  pose proof (new_geometry t0 te ee (base_addr d) ltac:(done) Hte Hee Hmax Hb (or_introl eq_refl)
    (mapped_ct (base_addr d) (Z.to_nat (te + ee)) k2) (law_mapped_ct _ _ _)) as G.
  rewrite (reset_run _ G). cbn [mbind res_bind]. rewrite set_mem_mem.
  eexists 0, _, k2. split; [reflexivity|]. split; [intros _|done].
  unfold ipa_ipv6ct_create_table_dma_cmd_helpers. cbn [ct_mem_desc ct_table]. rewrite Hoff.
  set (t := set_dma_help _ _).
  assert (Hmem : tbl_mem t = replicate (Z.to_nat (tot_tbl_ents t)) entry_zero) by done.
  assert (HT : ct_table_ok t ∅).
  { apply fresh_table_ok; try done. split; try apply G. cbn. rewrite length_replicate. lia. }
  assert (Hc : forall i, contents t i = None) by (intros i; by apply fresh_contents).
  split_and!; [exists ∅; split; [done| | |intros i r; by rewrite Hc]|done|done|].
  - split; [done|done| |]; (eexists; split; [reflexivity|by split_and!]).
  - eexists; split; [reflexivity|by split_and!].
  - intros i. unfold ct_rules, live_at. by rewrite Hc.
Qed.

(** No table, and the device closed. *)
Definition ct_vacant g : Prop :=
  exists n, ct_tables g = [n] /\ ct_table_cnt g = 0 /\ ct_ipa_desc g = None /\
    valid (ct_mem_desc n) = false.

Lemma ct_close_run g k : ct_table_cnt g = 0 ->
  ct_close_unused (g, k) =
    Ok (tt, (ct_set_desc g None, ipa_descriptor_close (ct_ipa_desc g) k)).
Proof.
  intros H. unfold ct_close_unused. erewrite bind_ok by done. cbn [fst]. rewrite H. cbn [Z.eqb].
  erewrite bind_ok by (rewrite ct_os_run; done). done.
Qed.

Lemma ct_fail_run g k n0 n st : ct_tables g = [n0] -> ct_table_cnt g = 0 ->
  valid (ct_mem_desc n) = false ->
  exists g' k', (_ ← ct_put_table (0 + 1) n; _ ← ct_close_unused; mret (st, Some 0)) (g, k) =
      Ok ((st, Some 0) : Z * option Z, (g', k')) /\ ct_vacant g'.
Proof.
  intros Ht Hc Hv. erewrite bind_ok by apply ct_put_table_run.
  erewrite bind_ok by (by apply ct_close_run). eexists _, _. split; [reflexivity|].
  exists n. split_and!; try done. cbn. by rewrite Ht.
Qed.

Definition ct_added_tbl g (num : Z) : Prop :=
  exists n d, ct_ready g 1 n d /\ ct_table_cnt g = 1 /\ (forall i, ct_rules (ct_table n) i = None) /\
    entry_counts num IPA_NAT_MEM_IN_DDR =
      Ok (0, (table_entries (ct_table n), expn_table_entries (ct_table n), tot_tbl_ents (ct_table n))).

Lemma ct_add_tbl_api g k num : ct_vacant g -> 0 < num ->
  exists st h g' k', ipa_ipv6ct_add_tbl num false (g, k) = Ok ((st, h), (g', k')) /\
    ((st = 0 /\ h = Some 1 /\ ct_added_tbl g' num) \/ (st <> 0 /\ h = Some 0 /\ ct_vacant g')).
Proof.
  intros (n0 & Ht & Hc & Hd & Hv) Hnum. unfold ipa_ipv6ct_add_tbl.
  rewrite (proj2 (Z.eqb_neq _ _)) by lia. cbn [orb]. erewrite bind_ok by done. cbn [fst].
  rewrite Hc, Hd. change (0 >=? IPA_IPV6CT_MAX_TBLS) with false. cbv iota.
  destruct (ipa_descriptor_open k) as [o k1] eqn:Eo.
  erewrite bind_ok by (erewrite bind_ok by (rewrite ct_os_run, Eo; done); cbn [fst snd];
    erewrite bind_ok by done; done).
  destruct o as [d|]; cbn [negb].
  2: { eexists (- EIO), _, _, _. split; [reflexivity|]. right. split_and!; try done. by exists n0. }
  erewrite bind_ok by (by apply ct_desc_run).
  set (g1 := ct_set_desc g (Some d)).
  destruct (ver d <? IPA_HW_v4_0) eqn:Ev; zify_bool.
  { erewrite bind_ok by (by apply (ct_close_run g1)).
    eexists _, _, _, _. split; [reflexivity|]. right. split_and!; try done. by exists n0. }
  assert (Hget : zget (ct_tables g1) (0 + 1 - 1) = Some n0) by (cbn; by rewrite Ht).
  erewrite bind_ok by (by apply ct_get_table_run).
  destruct (ct_create_spec (fd d) n0 num k1 ltac:(lia)) as (ret & n & k2 & Hcr & Hok & Hbad).
  erewrite bind_ok by (rewrite Hcr; done). cbn [fst snd].
  destruct (ret =? 0) eqn:Er; cbn [negb]; zify_bool.
  2: { destruct (ct_fail_run g1 k2 n0 n ret Ht Hc) as (g' & k' & Hrun & Hvac); [by apply Hbad|].
       eexists ret, _, g', k'. split; [exact Hrun|]. by right. }
  subst ret. destruct (Hok eq_refl) as (Hn & Hvn & Hcnt & Hr).
  erewrite bind_ok by apply ct_put_table_run. set (g2 := ct_set_table g1 (0 + 1) n).
  assert (Ht2 : ct_tables g2 = [n]) by (cbn; by rewrite Ht).
  destruct (ipa_ipv6ct_post_init_cmd (fd d) n 0 k2) as [r k3] eqn:Ep.
  erewrite bind_ok by (rewrite ct_os_run, Ep; done). cbn [fst snd].
  destruct (r =? 0) eqn:Er; cbn [negb]; zify_bool.
  2: { destruct (ipa_ipv6ct_destroy_table (fd d) n k3) as [[rd nd] k4] eqn:Edst.
       assert (nd = ct_table_zero) as -> by (unfold ipa_ipv6ct_destroy_table in Edst;
         destruct (ipa_mem_descriptor_delete _ _ _) as [[? ?] ?]; congruence).
       erewrite bind_ok by (rewrite ct_os_run, Edst; done). cbn [fst snd].
       destruct (ct_fail_run g2 k4 n ct_table_zero r Ht2 Hc eq_refl) as (g' & k' & Hrun & Hvac).
       eexists r, _, g', k'. split; [exact Hrun|]. by right. }
  erewrite bind_ok by done. cbn [fst]. erewrite bind_ok by done.
  assert (Hcnt1 : u8 (ct_table_cnt g2 + 1) = 1) by (cbn; by rewrite Hc). rewrite Hcnt1.
  eexists 0, _, _, k3. split; [reflexivity|]. left. split; [done|]. split; [done|].
  exists n, d. split_and!; try done.
Qed.

Lemma ct_del_tbl_api g k hdl n d : ct_ready g hdl n d -> ct_table_cnt g = 1 ->
  fst (pthread_mutex_lock ipv6ct_mutex k) = 0 ->
  exists st g' k1, let un := pthread_mutex_unlock ipv6ct_mutex k1 in
    ipa_ipv6ct_del_tbl hdl (g, k) =
      Ok (if negb (fst un =? 0) then (if negb (st =? 0) then st else - EPERM) else st, (g', snd un)) /\
    (st = 0 -> ct_vacant g') /\ (st <> 0 -> g' = ct_set_table g hdl ct_table_zero).
Proof.
  intros R Hcnt Hl. set (k0 := snd (pthread_mutex_lock ipv6ct_mutex k)).
  destruct (ipa_mem_descriptor_delete (ct_mem_desc n) (fd d) k0) as [[st dd] k1] eqn:Ed.
  assert (Hbody : exists g' k2, ct_del_tbl_locked hdl (g, k0) = Ok ((st, None), (g', k2)) /\
    (st = 0 -> ct_vacant g') /\ (st <> 0 -> g' = ct_set_table g hdl ct_table_zero)).
  { unfold ct_del_tbl_locked. erewrite bind_ok by (apply ct_get_table_run, (cr_get _ _ _ _ R)).
    rewrite (cr_valid _ _ _ _ R). cbn [negb]. erewrite bind_ok by (apply ct_desc_run, R).
    erewrite bind_ok by (rewrite ct_os_run; unfold ipa_ipv6ct_destroy_table; rewrite Ed; done).
    cbn [fst snd]. erewrite bind_ok by apply ct_put_table_run.
    destruct (st =? 0) eqn:Est; cbn [negb]; zify_bool; [subst st|by eexists _, _].
    erewrite bind_ok by done. cbn [fst]. erewrite bind_ok by done.
    erewrite bind_ok by (apply ct_close_run; cbn; by rewrite Hcnt).
    eexists _, _. split; [reflexivity|]. split; [|done]. intros _. exists ct_table_zero.
    split_and!; try done; cbn; [|by rewrite Hcnt].
    rewrite (cr_hdl _ _ _ _ R), (cr_at _ _ _ _ R). done. }
  destruct Hbody as (g' & k2 & Hbody & Hrest). exists st, g', k2. cbv zeta. split; [|done].
  unfold ipa_ipv6ct_del_tbl.
  by erewrite bind_ok by (eapply ct_locked_run; [apply R|apply R|apply (cr_good _ _ _ _ R)|done|exact Hbody]).
Qed.

(** Before a table has been added there is no descriptor to read the version from. *)
Lemma ct_no_desc g k hdl u h b : ct_ipa_desc g = None ->
  ipa_ipv6ct_add_rule hdl u b (g, k) = UB /\ ipa_ipv6ct_del_rule hdl h (g, k) = UB /\
  ipa_ipv6ct_del_tbl hdl (g, k) = UB /\ ipa_ipv6ct_query_timestamp hdl h b (g, k) = UB.
Proof.
  intros Hd. assert (Hg : ct_desc (g, k) = UB) by (unfold ct_desc; erewrite bind_ok by done; cbn; by rewrite Hd).
  assert (Hb : forall A (f : ipa_descriptor -> St (ipa_ipv6ct * K) A), (ct_desc ≫= f) (g, k) = UB).
  { intros A f. unfold mbind, st_bind. by rewrite Hg. }
  unfold ipa_ipv6ct_add_rule, ipa_ipv6ct_del_rule, ipa_ipv6ct_del_tbl, ipa_ipv6ct_query_timestamp,
    ct_locked.
  split_and!; [apply Hb| | |apply Hb]; unfold mbind at 1, st_bind at 1; by rewrite Hb.
Qed.
End api.
