(* ===== verification/NatMap.v ===== *)
(** * Maps of rule handles ([dataipa/ipanat/src/ipa_nat_map.cpp])

    [map_array] is the file's array of five [std::map]s.  The range check
    [VALID_IPA_USE_MAP] accepts every [which], so one outside the array is an access
    outside it.  [ipa_nat_map_dump], which prints, is not modelled. *)

From Stdlib Require Import ZArith Lia.
From stdpp Require Import prelude gmap list numbers.
From S2P Require Import Prelude.

Local Open Scope Z_scope.

Definition MAP_NUM_00 : Z := 0.
Definition MAP_NUM_01 : Z := 1.
Definition MAP_NUM_02 : Z := 2.
Definition MAP_NUM_03 : Z := 3.
Definition MAP_NUM_MAX : Z := 5.
Definition VALID_IPA_USE_MAP (w : Z) : bool := (w >=? MAP_NUM_00) || (w <? MAP_NUM_MAX).

Abbreviation map_arr := (list (gmap Z Z)).

Definition map_array0 : map_arr := replicate (Z.to_nat MAP_NUM_MAX) ∅.

(** [insert] leaves an existing key alone. *)
Definition ipa_nat_map_add (ms : map_arr) (which key val : Z) : res (Z * map_arr) :=
  if negb (VALID_IPA_USE_MAP which) then Ok (-1, ms)
  else
    m ← deref (zget ms which);
    match m !! key with
    | Some _ => Ok (-1, ms)
    | None => Ok (0, zset ms which (<[key := val]> m))
    end.

(** Status and the value when found. *)
Definition ipa_nat_map_find (ms : map_arr) (which key : Z) : res (Z * option Z) :=
  if negb (VALID_IPA_USE_MAP which) then Ok (-1, None)
  else
    m ← deref (zget ms which);
    match m !! key with Some v => Ok (0, Some v) | None => Ok (-1, None) end.

Definition ipa_nat_map_del (ms : map_arr) (which key : Z) : res (Z * option Z * map_arr) :=
  if negb (VALID_IPA_USE_MAP which) then Ok (-1, None, ms)
  else
    m ← deref (zget ms which);
    match m !! key with
    | Some v => Ok (0, Some v, zset ms which (delete key m))
    | None => Ok (-1, None, ms)
    end.

Definition ipa_nat_map_clear (ms : map_arr) (which : Z) : res (Z * map_arr) :=
  if negb (VALID_IPA_USE_MAP which) then Ok (-1, ms)
  else _ ← deref (zget ms which); Ok (0, zset ms which ∅).

(** ** Laws *)
Lemma map_which_ok (ms : map_arr) which : 0 <= which < Z.of_nat (length ms) ->
  exists m, zget ms which = Some m /\ VALID_IPA_USE_MAP which = true.
Proof.
  intros Hw. destruct (zget_lt_Some _ _ Hw) as [m Hm]. exists m. split; [done|].
  unfold VALID_IPA_USE_MAP, MAP_NUM_00. by rewrite Z.geb_leb, (proj2 (Z.leb_le _ _)) by lia.
Qed.
