(* ===== verification/NatRule.v ===== *)
(** * NAT rules: records, checksums, hashes and table callbacks
    ([dataipa/ipanat/src/ipa_nat_drvi.c], first part, and [ipa_nat_drvi.h])

    [ipa_nat_rule] and [ipa_nat_indx_tbl_rule] are the 32-byte and 4-byte records
    of the NAT and index tables.  Assignments to a bit-field keep its width. *)

From Stdlib Require Import ZArith Lia.
From stdpp Require Import prelude gmap list numbers.
From S2P Require Import Prelude Chain Bitfield IpaTable IpaTableRep Dma TableDma RuleTable Os.

Local Open Scope Z_scope.

Definition IPA_NAT_RULE_FLAG_FIELD_OFFSET : Z := 18.
Definition IPA_NAT_RULE_NEXT_FIELD_OFFSET : Z := 8.
Definition IPA_NAT_RULE_PROTO_FIELD_OFFSET : Z := 22.
Definition IPA_NAT_INDEX_RULE_NEXT_FIELD_OFFSET : Z := 2.
Definition IPA_NAT_INDEX_RULE_NAT_INDEX_FIELD_OFFSET : Z := 0.
Definition IPA_NAT_FLAG_ENABLE_BIT : Z := 1.
Definition IPA_NAT_INVALID_PROTO_FIELD_VALUE : Z := 65280.
Definition IPA_NAT_INVALID_PROTO_FIELD_VALUE_IN_RULE : Z := 255.
Definition IPPROTO_TCP : Z := 6.
Definition IPPROTO_UDP : Z := 17.

(** ** Records *)
Record ipa_nat_rule := mk_rule {
  r_private_ip : Z;
  r_target_ip : Z;
  r_next_index : Z;
  r_public_port : Z;
  r_private_port : Z;
  r_target_port : Z;
  r_ip_chksum : Z;
  r_uc_activation_index : Z;
  r_s : Z;
  r_redirect : Z;
  r_enable : Z;
  r_time_stamp : Z;
  r_protocol : Z;
  r_prev_index : Z;
  r_indx_tbl_entry : Z;
  r_rsvd2 : Z;
  r_rsvd3 : Z;
  r_dst_only : Z;
  r_src_only : Z;
  r_ucp : Z;
  r_pdn_index : Z;
  r_tcp_udp_chksum : Z }.

Definition rule_zero : ipa_nat_rule :=
  mk_rule 0 0 0 0 0 0 0 0 0 0 0 0 0 0 0 0 0 0 0 0 0 0.

Definition rule_ws : list Z :=
  [32; 32; 16; 16; 16; 16; 16; 13; 1; 1; 1; 24; 8; 16; 16; 8; 1; 1; 1; 1; 4; 16].

Definition rule_fields (r : ipa_nat_rule) : list Z :=
  [r_private_ip r; r_target_ip r; r_next_index r; r_public_port r; r_private_port r;
   r_target_port r; r_ip_chksum r; r_uc_activation_index r; r_s r; r_redirect r;
   r_enable r; r_time_stamp r; r_protocol r; r_prev_index r; r_indx_tbl_entry r;
   r_rsvd2 r; r_rsvd3 r; r_dst_only r; r_src_only r; r_ucp r; r_pdn_index r;
   r_tcp_udp_chksum r].

Definition rule_of (l : list Z) : ipa_nat_rule :=
  let f := fun k => nth k l 0 in
  mk_rule (f 0%nat) (f 1%nat) (f 2%nat) (f 3%nat) (f 4%nat) (f 5%nat) (f 6%nat) (f 7%nat)
    (f 8%nat) (f 9%nat) (f 10%nat) (f 11%nat) (f 12%nat) (f 13%nat) (f 14%nat) (f 15%nat)
    (f 16%nat) (f 17%nat) (f 18%nat) (f 19%nat) (f 20%nat) (f 21%nat).

(** [sizeof(struct ipa_nat_rule)] and [sizeof(struct ipa_nat_indx_tbl_rule)]. *)
Definition sizeof_ipa_nat_rule : Z := 32.
Definition sizeof_ipa_nat_indx_tbl_rule : Z := 4.

(** A rule's values fit its bit-fields. *)
Definition wf_rule (r : ipa_nat_rule) : Prop := fits rule_ws (rule_fields r).

(** Rules as the caller gives them ([ipa_nat_ipv4_rule], [ipa_nat_drv.h]). *)
Record ipa_nat_ipv4_rule := mk_ipv4_rule {
  u_target_ip : Z;
  u_private_ip : Z;
  u_target_port : Z;
  u_private_port : Z;
  u_public_port : Z;
  u_protocol : Z;
  u_pdn_index : Z;
  u_redirect : Z;
  u_enable : Z;
  u_time_stamp : Z;
  u_uc_activation_index : Z;
  u_s : bool;
  u_ucp : bool;
  u_dst_only : bool;
  u_src_only : bool }.

(** The caller's values fit their C types. *)
Definition wf_ipv4_rule (u : ipa_nat_ipv4_rule) : Prop :=
  fits [32; 32; 16; 16; 16; 8; 8; 8; 8; 32; 16]
    [u_target_ip u; u_private_ip u; u_target_port u; u_private_port u; u_public_port u;
     u_protocol u; u_pdn_index u; u_redirect u; u_enable u; u_time_stamp u;
     u_uc_activation_index u].

Record ipa_nat_pdn_entry := mk_pdn {
  public_ip : Z;
  src_metadata : Z;
  dst_metadata : Z }.

Definition pdn_zero : ipa_nat_pdn_entry := mk_pdn 0 0 0.

#[global] Instance ipa_nat_pdn_entry_eq_dec : EqDecision ipa_nat_pdn_entry.
Proof. solve_decision. Defined.

Record ipa_nat_indx_tbl_rule := mk_indx {
  x_tbl_entry : Z;
  x_next_index : Z }.

Definition indx_ws : list Z := [16; 16].
Definition indx_fields (x : ipa_nat_indx_tbl_rule) : list Z := [x_tbl_entry x; x_next_index x].
Definition wf_indx (x : ipa_nat_indx_tbl_rule) : Prop := fits indx_ws (indx_fields x).

#[global] Instance rule_dma_record : DmaRecord ipa_nat_rule :=
  { rec_ws := rule_ws; rec_fields := rule_fields; rec_of := rule_of }.
#[global] Instance indx_dma_record : DmaRecord ipa_nat_indx_tbl_rule :=
  { rec_ws := indx_ws; rec_fields := indx_fields;
    rec_of := fun l => mk_indx (nth 0 l 0) (nth 1 l 0) }.

(** Assignments to one or a few bit-fields. *)
Definition set_next_index (r : ipa_nat_rule) (v : Z) : ipa_nat_rule :=
  rule_of (<[2%nat := wrap 16 v]> (rule_fields r)).
Definition set_prev_index (r : ipa_nat_rule) (v : Z) : ipa_nat_rule :=
  rule_of (<[13%nat := wrap 16 v]> (rule_fields r)).
Definition set_enable (r : ipa_nat_rule) (v : Z) : ipa_nat_rule :=
  rule_of (<[10%nat := wrap 1 v]> (rule_fields r)).
Definition set_redirect (r : ipa_nat_rule) (v : Z) : ipa_nat_rule :=
  rule_of (<[9%nat := wrap 1 v]> (rule_fields r)).
Definition set_time_stamp (r : ipa_nat_rule) (v : Z) : ipa_nat_rule :=
  rule_of (<[11%nat := wrap 24 v]> (rule_fields r)).
Definition set_protocol (r : ipa_nat_rule) (v : Z) : ipa_nat_rule :=
  rule_of (<[12%nat := wrap 8 v]> (rule_fields r)).
Definition set_indx_tbl_entry (r : ipa_nat_rule) (v : Z) : ipa_nat_rule :=
  rule_of (<[14%nat := wrap 16 v]> (rule_fields r)).

(** ** Checksum differences

    [cksum_cf] is the recurring [if (cksum >> 16) { cksum = (cksum & 0x0000FFFF);
    cksum += 1; }]. *)
Definition cksum_cf (cksum : Z) : Z :=
  if negb (Z.shiftr cksum 16 =? 0) then u32 (Z.land cksum 65535 + 1) else cksum.

Definition ipa_nati_calc_ip_cksum (pub_ip_addr priv_ip_addr : Z) : Z :=
  let cksum := u32 (0 + Z.land pub_ip_addr 65535) in
  let cksum := cksum_cf (u32 (cksum + Z.shiftr pub_ip_addr 16)) in
  let priv_ip_addr := u32 (Z.lnot priv_ip_addr) in
  let cksum := cksum_cf (u32 (cksum + Z.land priv_ip_addr 65535)) in
  let cksum := cksum_cf (u32 (cksum + Z.shiftr priv_ip_addr 16)) in
  u16 cksum.

Definition ipa_nati_calc_tcp_udp_cksum (pub_ip_addr pub_port priv_ip_addr priv_port : Z) : Z :=
  let cksum := u32 (0 + Z.land pub_ip_addr 65535) in
  let cksum := cksum_cf (u32 (cksum + Z.shiftr pub_ip_addr 16)) in
  let cksum := cksum_cf (u32 (cksum + pub_port)) in
  let priv_ip_addr := u32 (Z.lnot priv_ip_addr) in
  let cksum := cksum_cf (u32 (cksum + Z.land priv_ip_addr 65535)) in
  let cksum := cksum_cf (u32 (cksum + Z.shiftr priv_ip_addr 16)) in
  let priv_port := u16 (Z.lnot priv_port) in
  let cksum := cksum_cf (u32 (cksum + priv_port)) in
  u16 cksum.

(** ** Hashes

    [ver] is the hardware version of the open descriptor. *)
Definition dst_hash `{IpaUapi} (ver public_ip trgt_ip trgt_port public_port proto size : Z) : Z :=
  let hash := u16 (Z.lxor (Z.lxor (Z.lxor (Z.lxor (u16 trgt_ip) (u16 (Z.shiftr trgt_ip 16)))
                trgt_port) public_port) proto) in
  let hash := if ver >=? IPA_HW_v4_0
              then u16 (Z.lxor hash (Z.lxor (u16 public_ip) (u16 (Z.shiftr public_ip 16))))
              else hash in
  let hash := Z.land hash size in
  if hash =? 0 then size else hash.

Definition src_hash (priv_ip priv_port trgt_ip trgt_port proto size : Z) : Z :=
  let hash := u16 (Z.lxor (Z.lxor (Z.lxor (Z.lxor (Z.lxor (Z.lxor
                (u16 priv_ip) (u16 (Z.shiftr priv_ip 16))) priv_port)
                (u16 trgt_ip)) (u16 (Z.shiftr trgt_ip 16))) trgt_port) proto) in
  let hash := Z.land hash size in
  if hash =? 0 then size else hash.

(** ** Callbacks of the NAT table *)
Definition table_entry_is_valid (r : ipa_nat_rule) : bool := negb (r_enable r =? 0).
Definition table_entry_get_next_index (r : ipa_nat_rule) : Z := r_next_index r.
Definition table_entry_get_prev_index (r : ipa_nat_rule) (entry_index : Z)
    (meta : option (list Z)) (base_table_size : Z) : res Z := Ok (r_prev_index r).
Definition table_entry_set_prev_index (r : ipa_nat_rule) (entry_index prev_index : Z)
    (meta : option (list Z)) (base_table_size : Z) : res (ipa_nat_rule * option (list Z)) :=
  Ok (set_prev_index r prev_index, meta).

(** Reads the global [pdns]; an index outside it is [UB].  The TCP/UDP checksum
    is written for these protocols only. *)
Definition table_entry_copy_from_user (r : ipa_nat_rule)
    (user_data : list ipa_nat_pdn_entry * ipa_nat_ipv4_rule) : res (Z * ipa_nat_rule) :=
  let '(pdns, u) := user_data in
  pdn ← deref (zget pdns (u_pdn_index u));
  let pub_ip_addr := public_ip pdn in
  let protocol := wrap 8 (u_protocol u) in
  Ok (0, mk_rule
    (wrap 32 (u_private_ip u)) (wrap 32 (u_target_ip u)) (r_next_index r)
    (wrap 16 (u_public_port u)) (wrap 16 (u_private_port u)) (wrap 16 (u_target_port u))
    (wrap 16 (ipa_nati_calc_ip_cksum pub_ip_addr (u_private_ip u)))
    (wrap 13 (u_uc_activation_index u)) (b2z (u_s u)) (r_redirect r) (r_enable r)
    (r_time_stamp r) protocol (r_prev_index r) (r_indx_tbl_entry r) (r_rsvd2 r) (r_rsvd3 r)
    (b2z (u_dst_only u)) (b2z (u_src_only u)) (b2z (u_ucp u)) (wrap 4 (u_pdn_index u))
    (if (IPPROTO_TCP =? protocol) || (IPPROTO_UDP =? protocol)
     then wrap 16 (ipa_nati_calc_tcp_udp_cksum pub_ip_addr (u_public_port u)
                     (u_private_ip u) (u_private_port u))
     else r_tcp_udp_chksum r)).

(** [ipa_nat_flags] over the 16-bit command data: activation index, s, redirect
    (left 0) and enable. *)
Definition flags_ws : list Z := [13; 1; 1; 1].
Definition ipa_nat_flags (uc_activation_index s redirect enable : Z) : Z :=
  pack flags_ws [uc_activation_index; s; redirect; enable].

Definition table_entry_head_insert (r : ipa_nat_rule)
    (user_data : list ipa_nat_pdn_entry * ipa_nat_ipv4_rule) : res (Z * ipa_nat_rule * Z) :=
  '(ret, r') ← table_entry_copy_from_user r user_data;
  if negb (ret =? 0) then Ok (ret, r', 0)
  else Ok (ret, r', ipa_nat_flags (r_uc_activation_index r') (r_s r') 0 IPA_NAT_FLAG_ENABLE_BIT).

Definition table_entry_tail_insert (r : ipa_nat_rule)
    (user_data : list ipa_nat_pdn_entry * ipa_nat_ipv4_rule) : res (Z * ipa_nat_rule) :=
  '(ret, r') ← table_entry_copy_from_user r user_data;
  if negb (ret =? 0) then Ok (ret, r') else Ok (ret, set_enable r' IPA_NAT_FLAG_ENABLE_BIT).

Definition table_entry_get_delete_head_dma_command_data (head next_entry : ipa_nat_rule) : Z :=
  IPA_NAT_INVALID_PROTO_FIELD_VALUE.

(** ** Callbacks of the index table *)
Definition index_table_entry_is_valid (x : ipa_nat_indx_tbl_rule) : bool :=
  negb (x_tbl_entry x =? 0).
Definition index_table_entry_get_next_index (x : ipa_nat_indx_tbl_rule) : Z := x_next_index x.

(** [meta] is the array of the expansion entries' previous indices. *)
Definition index_table_entry_get_prev_index (x : ipa_nat_indx_tbl_rule) (entry_index : Z)
    (meta : option (list Z)) (base_table_size : Z) : res Z :=
  if entry_index >=? base_table_size
  then m ← deref meta; deref (zget m (entry_index - base_table_size))
  else Ok 0.

Definition index_table_entry_set_prev_index (x : ipa_nat_indx_tbl_rule)
    (entry_index prev_index : Z) (meta : option (list Z)) (base_table_size : Z) :
    res (ipa_nat_indx_tbl_rule * option (list Z)) :=
  if entry_index >=? base_table_size then
    m ← deref meta;
    if entry_index - base_table_size <? Z.of_nat (length m)
    then Ok (x, Some (zset m (entry_index - base_table_size) prev_index)) else UB
  else Ok (x, meta).

Definition index_table_entry_head_insert (x : ipa_nat_indx_tbl_rule) (user_data : Z) :
    res (Z * ipa_nat_indx_tbl_rule * Z) := Ok (0, x, user_data).
Definition index_table_entry_tail_insert (x : ipa_nat_indx_tbl_rule) (user_data : Z) :
    res (Z * ipa_nat_indx_tbl_rule) := Ok (0, mk_indx user_data (x_next_index x)).
Definition index_table_entry_get_delete_head_dma_command_data
    (head next_entry : ipa_nat_indx_tbl_rule) : Z := x_tbl_entry next_entry.

(** The interfaces [entry_interface] and [index_entry_interface]. *)
#[global] Instance entry_interface :
    EntryOps ipa_nat_rule (list ipa_nat_pdn_entry * ipa_nat_ipv4_rule) := {
  entry_zero := rule_zero;
  entry_is_valid := table_entry_is_valid;
  entry_get_next_index := table_entry_get_next_index;
  entry_get_prev_index := table_entry_get_prev_index;
  entry_set_prev_index := table_entry_set_prev_index;
  entry_head_insert := table_entry_head_insert;
  entry_tail_insert := table_entry_tail_insert;
  entry_get_delete_head_dma_command_data := table_entry_get_delete_head_dma_command_data }.

#[global] Instance index_entry_interface : EntryOps ipa_nat_indx_tbl_rule Z := {
  entry_zero := mk_indx 0 0;
  entry_is_valid := index_table_entry_is_valid;
  entry_get_next_index := index_table_entry_get_next_index;
  entry_get_prev_index := index_table_entry_get_prev_index;
  entry_set_prev_index := index_table_entry_set_prev_index;
  entry_head_insert := index_table_entry_head_insert;
  entry_tail_insert := index_table_entry_tail_insert;
  entry_get_delete_head_dma_command_data := index_table_entry_get_delete_head_dma_command_data }.

#[global] Instance rule_linked : LinkedRecord ipa_nat_rule := {
  rec_size := sizeof_ipa_nat_rule;
  head_off := IPA_NAT_RULE_FLAG_FIELD_OFFSET;
  entry_off := IPA_NAT_RULE_NEXT_FIELD_OFFSET;
  strip := fun r => set_next_index (set_prev_index r 0) 0 }.

#[global] Instance indx_linked : LinkedRecord ipa_nat_indx_tbl_rule := {
  rec_size := sizeof_ipa_nat_indx_tbl_rule;
  head_off := IPA_NAT_INDEX_RULE_NAT_INDEX_FIELD_OFFSET;
  entry_off := IPA_NAT_INDEX_RULE_NEXT_FIELD_OFFSET;
  strip := fun x => mk_indx (x_tbl_entry x) 0 }.

#[global] Instance rule_rule : RuleRecord ipa_nat_rule := {
  rec_protocol := r_protocol;
  del_off := IPA_NAT_RULE_PROTO_FIELD_OFFSET }.
