(* ===== verification/NatRuleLaws.v ===== *)
(** * Properties of NAT records, checksums and hashes

    The records' layout agrees with the byte offsets of the DMA commands, the
    callbacks satisfy the laws the generic table relies on, the checksum
    differences are ones-complement differences and the hashes are base slots. *)

From Stdlib Require Import ZArith Lia.
From stdpp Require Import prelude gmap list numbers.
From S2P Require Import Prelude Chain Bitfield IpaTable IpaTableRep Dma TableDma RuleTable Os.
From S2P Require Import NatRule.

Local Open Scope Z_scope.

(** ** Layout *)
Lemma rule_of_fields r : rule_of (rule_fields r) = r.
Proof. by destruct r. Qed.

Lemma rule_fields_of l : length l = 22%nat -> rule_fields (rule_of l) = l.
Proof. intros H. do 23 (destruct l as [|? l]; try done). Qed.

Lemma wf_rule_zero : wf_rule rule_zero.
Proof. apply fitsb_fits. vm_compute. done. Qed.

Lemma wf_set_field r k w v : wf_rule r -> rule_ws !! k = Some w ->
  wf_rule (rule_of (<[k := wrap w v]> (rule_fields r))).
Proof.
  intros Hr Hw. unfold wf_rule. rewrite rule_fields_of by (rewrite length_insert; done).
  apply (fits_insert _ _ _ w); [done|done|]. apply wrap_range.
  assert (Hall : Forall (fun w => 0 <= w) rule_ws) by (unfold rule_ws; widths).
  rewrite list.Forall_forall in Hall. apply Hall. by eapply list_elem_of_lookup_2.
Qed.

Lemma rule_ws_nonneg : Forall (fun w => 0 <= w) rule_ws.
Proof. unfold rule_ws. widths. Qed.

(** A 16-bit write at byte 8 is an assignment to [next_index]. *)
Lemma dma_next_index r v : wf_rule r ->
  rec_dma16 r IPA_NAT_RULE_NEXT_FIELD_OFFSET v = set_next_index r v.
Proof.
  intros Hr.
  exact (f_equal rule_of (unpack_write_pack [32; 32] [16] (drop 3 rule_ws)
    [r_private_ip r; r_target_ip r] [r_next_index r] (drop 3 (rule_fields r)) v
    rule_ws_nonneg Hr eq_refl eq_refl)).
Qed.

(** A 16-bit write at byte 18 sets the activation index, s, redirect, enable. *)
Definition set_flags (r : ipa_nat_rule) (uc s redirect enable : Z) : ipa_nat_rule :=
  rule_of (take 7 (rule_fields r) ++ [uc; s; redirect; enable] ++ drop 11 (rule_fields r)).

Lemma dma_flags r uc s rd en : wf_rule r -> fits flags_ws [uc; s; rd; en] ->
  rec_dma16 r IPA_NAT_RULE_FLAG_FIELD_OFFSET (ipa_nat_flags uc s rd en) = set_flags r uc s rd en.
Proof.
  intros Hr Hf.
  etransitivity; [exact (f_equal rule_of (unpack_write_pack (take 7 rule_ws) flags_ws (drop 11 rule_ws)
    (take 7 (rule_fields r)) (take 4 (drop 7 (rule_fields r))) (drop 11 (rule_fields r))
    (ipa_nat_flags uc s rd en) rule_ws_nonneg Hr eq_refl eq_refl))|].
  unfold set_flags, ipa_nat_flags. rewrite unpack_pack by (done || (unfold flags_ws; widths)). done.
Qed.

Lemma wf_set_flags r uc s rd en : wf_rule r -> fits flags_ws [uc; s; rd; en] ->
  wf_rule (set_flags r uc s rd en).
Proof.
  intros Hr Hf. unfold wf_rule, set_flags. rewrite rule_fields_of by done.
  rewrite <- (take_drop 7 rule_ws). rewrite <- (take_drop 4 (drop 7 rule_ws)).
  unfold fits in *. apply Forall2_app; [by apply Forall2_take|].
  apply Forall2_app; [done|]. rewrite drop_drop. by apply Forall2_drop.
Qed.

(** The value 0xFF00 written at byte 22 makes the protocol 0xFF and clears the
    top byte of the time stamp. *)
Lemma dma_protocol r : wf_rule r ->
  rec_dma16 r IPA_NAT_RULE_PROTO_FIELD_OFFSET IPA_NAT_INVALID_PROTO_FIELD_VALUE
  = set_protocol (set_time_stamp r (r_time_stamp r mod 2 ^ 16))
      IPA_NAT_INVALID_PROTO_FIELD_VALUE_IN_RULE.
Proof.
  intros Hr. unfold wf_rule, fits in Hr.
  assert (Hts : 0 <= r_time_stamp r < 2 ^ (16 + 8)).
  { pose proof (Forall2_lookup_lr _ _ _ 11 24 (r_time_stamp r) Hr eq_refl eq_refl). done. }
  set (ws1 := take 11 rule_ws). set (vs1 := take 11 (rule_fields r)).
  set (ws2 := drop 13 rule_ws). set (vs2 := drop 13 (rule_fields r)).
  assert (Hpack : pack rule_ws (rule_fields r) =
    pack ((ws1 ++ [16]) ++ [8; 8] ++ ws2)
      ((vs1 ++ [r_time_stamp r mod 2 ^ 16]) ++ [r_time_stamp r / 2 ^ 16; r_protocol r] ++ vs2)).
  { rewrite <- !app_assoc. cbn [app].
    refine (pack_split ws1 (8 :: ws2) vs1 (r_protocol r :: vs2) 16 8 (r_time_stamp r) _ _ _ _ _);
      try done. unfold ws1. cbn. widths. }
  assert (Hfit : fits ((ws1 ++ [16]) ++ [8; 8] ++ ws2)
      ((vs1 ++ [r_time_stamp r mod 2 ^ 16]) ++ [r_time_stamp r / 2 ^ 16; r_protocol r] ++ vs2)).
  { unfold fits. apply Forall2_app; [apply Forall2_app|apply Forall2_app].
    - by apply Forall2_take.
    - constructor; [apply Z.mod_pos_bound; lia|constructor].
    - constructor; [split; [apply Z.div_pos; lia|apply Z.div_lt_upper_bound; lia]|].
      constructor; [|constructor]. exact (Forall2_lookup_lr _ _ _ 12 8 (r_protocol r) Hr eq_refl eq_refl).
    - by apply Forall2_drop. }
  assert (Hall : Forall (fun w => 0 <= w) ((ws1 ++ [16]) ++ [8; 8] ++ ws2)) by (cbn; widths).
  pose proof (unpack_write_pack (ws1 ++ [16]) [8; 8] ws2 _ _ _
    IPA_NAT_INVALID_PROTO_FIELD_VALUE Hall Hfit eq_refl eq_refl) as E.
  rewrite <- Hpack, <- !app_assoc in E. cbn [app] in E.
  change (unpack [8; 8] IPA_NAT_INVALID_PROTO_FIELD_VALUE) with [0; 255] in E. cbn [app] in E.
  apply (unpack_merge ws1 (8 :: ws2) vs1 (255 :: vs2) 16 8) in E; [|done|cbn; widths].
  etransitivity; [exact (f_equal rule_of E)|].
  rewrite Z.mul_0_r, Z.add_0_r.
  unfold set_protocol, set_time_stamp, wrap. cbn -[Z.modulo Z.pow]. f_equal.
  rewrite (Z.mod_small (r_time_stamp r mod 2 ^ 16) (2 ^ 24)); [done|].
  pose proof (Z.mod_pos_bound (r_time_stamp r) (2 ^ 16)). lia.
Qed.

(** ** The callbacks satisfy the laws of the generic table *)
Definition nat_meta_ok (m : option (list Z)) (ee : Z) : Prop := m = None.
Definition indx_meta_ok (m : option (list Z)) (ee : Z) : Prop :=
  exists l, m = Some l /\ Z.of_nat (length l) = ee.

Lemma wf_next_range r : wf_rule r -> 0 <= r_next_index r < 2 ^ 16.
Proof. intros Hr. exact (Forall2_lookup_lr _ _ _ 2 16 (r_next_index r) Hr eq_refl eq_refl). Qed.

#[global] Instance nat_entry_laws : EntryLaws wf_rule nat_meta_ok.
Proof.
  split.
  - apply wf_rule_zero.
  - done.
  - done.
  - apply wf_next_range.
  - intros. by eexists.
  - done.
  - intros e i p m B ee Hwf Hm Hi Hp. exists (set_prev_index e p), m.
    split_and!; try done; [by apply wf_set_field|].
    cbn. unfold table_entry_get_prev_index. cbn. by rewrite wrap_small.
Qed.

#[global] Instance nat_linked_laws : LinkedLaws wf_rule nat_meta_ok.
Proof.
  split.
  - apply _.
  - cbn. unfold sizeof_ipa_nat_rule, IPA_NAT_RULE_FLAG_FIELD_OFFSET, IPA_NAT_RULE_NEXT_FIELD_OFFSET. lia.
  - intros e v Hwf Hv. cbn [entry_off rule_linked]. rewrite dma_next_index by done.
    split_and!; try done; [by apply wf_set_field|].
    cbn. unfold table_entry_get_next_index. cbn. by rewrite wrap_small.
  - intros e i p m B e' m' [= <- <-]. done.
  - intros [pdns u] e data i m B. cbn. unfold table_entry_head_insert, table_entry_copy_from_user.
    destruct (deref _); cbn; [|done..]. by intros [= <- <-].
Qed.

#[global] Instance nat_rule_laws : RuleLaws wf_rule nat_meta_ok.
Proof.
  split.
  - apply _.
  - cbn. unfold sizeof_ipa_nat_rule, IPA_NAT_RULE_PROTO_FIELD_OFFSET. lia.
  - done.
  - intros e h n Hwf. cbn [del_off rule_rule entry_get_delete_head_dma_command_data entry_interface].
    unfold table_entry_get_delete_head_dma_command_data. rewrite dma_protocol by done.
    split_and!; try done. apply wf_set_field; [|done]. by apply wf_set_field.
  - done.
Qed.

Lemma wf_indx_intro t n : 0 <= t < 2 ^ 16 -> 0 <= n < 2 ^ 16 -> wf_indx (mk_indx t n).
Proof. intros. repeat constructor; cbn; lia. Qed.

Lemma wf_indx_inv x : wf_indx x -> 0 <= x_tbl_entry x < 2 ^ 16 /\ 0 <= x_next_index x < 2 ^ 16.
Proof.
  intros Hx. split; [exact (Forall2_lookup_lr _ _ _ 0 16 (x_tbl_entry x) Hx eq_refl eq_refl)|].
  exact (Forall2_lookup_lr _ _ _ 1 16 (x_next_index x) Hx eq_refl eq_refl).
Qed.

Lemma dma_indx_next x v : wf_indx x ->
  rec_dma16 x IPA_NAT_INDEX_RULE_NEXT_FIELD_OFFSET v = mk_indx (x_tbl_entry x) (u16 v).
Proof.
  intros Hx. exact (f_equal (fun l => mk_indx (nth 0 l 0) (nth 1 l 0))
    (unpack_write_pack [16] [16] [] [x_tbl_entry x] [x_next_index x] [] v
      ltac:(widths) Hx eq_refl eq_refl)).
Qed.

Lemma dma_indx_entry x v : wf_indx x ->
  rec_dma16 x IPA_NAT_INDEX_RULE_NAT_INDEX_FIELD_OFFSET v = mk_indx (u16 v) (x_next_index x).
Proof.
  intros Hx. exact (f_equal (fun l => mk_indx (nth 0 l 0) (nth 1 l 0))
    (unpack_write_pack [] [16] [16] [] [x_tbl_entry x] [x_next_index x] v
      ltac:(widths) Hx eq_refl eq_refl)).
Qed.

#[global] Instance indx_entry_laws : EntryLaws wf_indx indx_meta_ok.
Proof.
  split.
  - by apply wf_indx_intro.
  - done.
  - done.
  - intros e He. by apply wf_indx_inv.
  - intros e i m B ee (l & -> & Hl) Hi. cbn. unfold index_table_entry_get_prev_index.
    rewrite Z.geb_leb. case_match; [|by eexists]. zify_bool. cbn.
    destruct (zget_lt_Some l (i - B)) as [p ->]; [lia|]. by eexists.
  - intros i m B Hi. cbn. unfold index_table_entry_get_prev_index.
    by rewrite Z.geb_leb, (proj2 (Z.leb_gt _ _)) by lia.
  - intros e i p m B ee Hwf (l & -> & Hl) Hi Hp. exists e, (Some (zset l (i - B) p)).
    cbn. unfold index_table_entry_set_prev_index, index_table_entry_get_prev_index.
    rewrite !Z.geb_leb, (proj2 (Z.leb_le _ _)) by lia. cbn [deref mbind res_bind].
    rewrite (proj2 (Z.ltb_lt _ _)) by lia.
    split_and!; try done.
    + eexists. split; [done|]. by rewrite zset_length.
    + by rewrite zget_zset_eq by lia.
    + intros e2 j Hj Hji. rewrite Z.geb_leb. case_match; [|done]. cbn.
      by rewrite zget_zset_ne by lia.
Qed.

#[global] Instance indx_linked_laws : LinkedLaws wf_indx indx_meta_ok.
Proof.
  split.
  - apply _.
  - cbn. unfold sizeof_ipa_nat_indx_tbl_rule, IPA_NAT_INDEX_RULE_NEXT_FIELD_OFFSET,
      IPA_NAT_INDEX_RULE_NAT_INDEX_FIELD_OFFSET. lia.
  - intros e v Hwf Hv. cbn [entry_off indx_linked]. rewrite dma_indx_next by done.
    apply wf_indx_inv in Hwf as [He _]. rewrite wrap_small by done.
    split_and!; try done. by apply wf_indx_intro.
  - intros e i p m B e' m'. cbn. unfold index_table_entry_set_prev_index.
    case_match; [|by intros [= <- <-]]. destruct m; cbn; [|done].
    case_match; [|done]. by intros [= <- <-].
  - intros d e data i m B [= <- <-] Hi. cbn. unfold index_table_entry_get_prev_index.
    by rewrite Z.geb_leb, (proj2 (Z.leb_gt _ _)) by lia.
Qed.

(** ** Checksum differences *)
Lemma cksum_cf_spec c : 0 <= c <= 131070 ->
  0 <= cksum_cf c <= 65535 /\ cksum_cf c mod 65535 = c mod 65535.
Proof.
  intros Hc. unfold cksum_cf. rewrite Z.shiftr_div_pow2 by lia. change (2 ^ 16) with 65536.
  assert (Z.land c 65535 = c mod 65536) as ->.
  { change 65535 with (Z.ones 16). by rewrite Z.land_ones by lia. }
  pose proof (Z.div_mod c 65536 ltac:(lia)) as Hdm.
  pose proof (Z.mod_pos_bound c 65536 ltac:(lia)) as Hmb.
  destruct (c / 65536 =? 0) eqn:E; zify_bool; cbn [negb].
  - split; [lia|done].
  - assert (c / 65536 = 1) by lia.
    assert (c mod 65536 = c - 65536) as -> by (rewrite Z.mod_eq; lia).
    rewrite wrap_small by lia. split; [lia|].
    replace (c - 65536 + 1) with (c + (-1) * 65535) by lia. by rewrite Z.mod_add by lia.
Qed.

(** One addition with its carry correction. *)
Lemma cksum_step c a n : 0 <= c <= 65535 -> 0 <= a <= 65535 -> c mod 65535 = n mod 65535 ->
  0 <= cksum_cf (u32 (c + a)) <= 65535 /\ cksum_cf (u32 (c + a)) mod 65535 = (n + a) mod 65535.
Proof.
  intros Hc Ha Hn. rewrite wrap_small by lia.
  destruct (cksum_cf_spec (c + a)) as [? ->]; [lia|]. split; [done|].
  rewrite Z.add_mod, Hn, <- Z.add_mod by lia. done.
Qed.

(** The 16-bit words of a 32-bit address. *)
Definition lo16 (ip : Z) : Z := ip mod 65536.
Definition hi16 (ip : Z) : Z := ip / 65536.

Lemma halves ip : 0 <= ip < 2 ^ 32 ->
  Z.land ip 65535 = lo16 ip /\ Z.shiftr ip 16 = hi16 ip /\
  0 <= lo16 ip <= 65535 /\ 0 <= hi16 ip <= 65535.
Proof.
  intros H. change 65535 with (Z.ones 16) at 1. rewrite Z.land_ones, Z.shiftr_div_pow2 by lia.
  unfold lo16, hi16. change (2 ^ 16) with 65536. split_and!; try done.
  - apply Z.mod_pos_bound. lia.
  - pose proof (Z.mod_pos_bound ip 65536). lia.
  - apply Z.div_pos; lia.
  - enough (ip / 65536 < 65536) by lia. apply Z.div_lt_upper_bound; lia.
Qed.

Lemma lnot_halves ip : 0 <= ip < 2 ^ 32 ->
  Z.land (u32 (Z.lnot ip)) 65535 = 65535 - lo16 ip /\
  Z.shiftr (u32 (Z.lnot ip)) 16 = 65535 - hi16 ip.
Proof.
  intros H. assert (u32 (Z.lnot ip) = 2 ^ 32 - 1 - ip) as ->.
  { unfold Z.lnot. unfold wrap. rewrite <- (Z.mod_add _ 1) by lia. rewrite Z.mod_small; lia. }
  destruct (halves (2 ^ 32 - 1 - ip)) as (-> & -> & _); [lia|].
  destruct (halves ip H) as (_ & _ & Hlo & Hhi). unfold lo16, hi16 in *.
  pose proof (Z.div_mod ip 65536 ltac:(lia)) as Hdm.
  replace (2 ^ 32 - 1 - ip) with (65535 - ip mod 65536 + (65535 - ip / 65536) * 65536) by lia.
  rewrite Z.mod_add, Z.div_add by lia. rewrite Z.mod_small, Z.div_small by lia. lia.
Qed.

Lemma ip_cksum_diff pub priv : 0 <= pub < 2 ^ 32 -> 0 <= priv < 2 ^ 32 ->
  0 <= ipa_nati_calc_ip_cksum pub priv <= 65535 /\
  ipa_nati_calc_ip_cksum pub priv mod 65535
  = (lo16 pub + hi16 pub - (lo16 priv + hi16 priv)) mod 65535.
Proof.
  intros Hpub Hpriv. unfold ipa_nati_calc_ip_cksum.
  destruct (halves pub Hpub) as (-> & -> & ? & ?).
  destruct (halves priv Hpriv) as (_ & _ & ? & ?).
  destruct (lnot_halves priv Hpriv) as (-> & ->).
  rewrite (wrap_small 32 (0 + lo16 pub)) by lia.
  destruct (cksum_step (0 + lo16 pub) (hi16 pub) (lo16 pub)) as [Hk1 Ek1]; [lia..|done|].
  destruct (cksum_step _ (65535 - lo16 priv) _ Hk1 ltac:(lia) Ek1) as [Hk2 Ek2].
  destruct (cksum_step _ (65535 - hi16 priv) _ Hk2 ltac:(lia) Ek2) as [Hk3 Ek3].
  rewrite wrap_small by lia. split; [done|]. rewrite Ek3.
  rewrite <- (Z.mod_add (lo16 pub + hi16 pub - _) 2) by lia. f_equal. lia.
Qed.

Lemma tcp_udp_cksum_diff pub pport priv vport :
  0 <= pub < 2 ^ 32 -> 0 <= pport < 2 ^ 16 -> 0 <= priv < 2 ^ 32 -> 0 <= vport < 2 ^ 16 ->
  0 <= ipa_nati_calc_tcp_udp_cksum pub pport priv vport <= 65535 /\
  ipa_nati_calc_tcp_udp_cksum pub pport priv vport mod 65535
  = (lo16 pub + hi16 pub + pport - (lo16 priv + hi16 priv + vport)) mod 65535.
Proof.
  intros Hpub Hpp Hpriv Hvp. unfold ipa_nati_calc_tcp_udp_cksum.
  destruct (halves pub Hpub) as (-> & -> & ? & ?).
  destruct (halves priv Hpriv) as (_ & _ & ? & ?).
  destruct (lnot_halves priv Hpriv) as (-> & ->).
  assert (u16 (Z.lnot vport) = 65535 - vport) as ->.
  { unfold Z.lnot, wrap. rewrite <- (Z.mod_add _ 1) by lia. rewrite Z.mod_small; lia. }
  rewrite (wrap_small 32 (0 + lo16 pub)) by lia.
  destruct (cksum_step (0 + lo16 pub) (hi16 pub) (lo16 pub)) as [Hk1 Ek1]; [lia..|done|].
  destruct (cksum_step _ pport _ Hk1 ltac:(lia) Ek1) as [Hk2 Ek2].
  destruct (cksum_step _ (65535 - lo16 priv) _ Hk2 ltac:(lia) Ek2) as [Hk3 Ek3].
  destruct (cksum_step _ (65535 - hi16 priv) _ Hk3 ltac:(lia) Ek3) as [Hk4 Ek4].
  destruct (cksum_step _ (65535 - vport) _ Hk4 ltac:(lia) Ek4) as [Hk5 Ek5].
  rewrite wrap_small by lia. split; [done|]. rewrite Ek5.
  rewrite <- (Z.mod_add (lo16 pub + hi16 pub + pport - _) 3) by lia. f_equal. lia.
Qed.

(** ** Hashes *)
Lemma dst_hash_range `{IpaUapi} ver ip tip tp pp proto size : 0 < size ->
  0 < dst_hash ver ip tip tp pp proto size <= size.
Proof. intros Hs. unfold dst_hash. cbv zeta. apply hash_slot; [|done]. case_match; by apply wrap_range. Qed.

Lemma src_hash_range ip p tip tp proto size : 0 < size ->
  0 < src_hash ip p tip tp proto size <= size.
Proof. intros Hs. unfold src_hash. cbv zeta. apply hash_slot; [|done]. by apply wrap_range. Qed.

(** ** New records *)
Definition new_rule (pdn : ipa_nat_pdn_entry) (u : ipa_nat_ipv4_rule) : ipa_nat_rule :=
  mk_rule (u_private_ip u) (u_target_ip u) 0 (u_public_port u) (u_private_port u)
    (u_target_port u) (ipa_nati_calc_ip_cksum (public_ip pdn) (u_private_ip u))
    (wrap 13 (u_uc_activation_index u)) (b2z (u_s u)) 0 0 0 (u_protocol u) 0 0 0 0
    (b2z (u_dst_only u)) (b2z (u_src_only u)) (b2z (u_ucp u)) (u_pdn_index u)
    (if (IPPROTO_TCP =? u_protocol u) || (IPPROTO_UDP =? u_protocol u)
     then ipa_nati_calc_tcp_udp_cksum (public_ip pdn) (u_public_port u)
            (u_private_ip u) (u_private_port u)
     else 0).

Definition wf_pdn (p : ipa_nat_pdn_entry) : Prop := 0 <= public_ip p < 2 ^ 32.

Lemma wf_ipv4_rule_inv u : wf_ipv4_rule u ->
  0 <= u_target_ip u < 2 ^ 32 /\ 0 <= u_private_ip u < 2 ^ 32 /\ 0 <= u_target_port u < 2 ^ 16 /\
  0 <= u_private_port u < 2 ^ 16 /\ 0 <= u_public_port u < 2 ^ 16 /\ 0 <= u_protocol u < 2 ^ 8 /\
  0 <= u_pdn_index u < 2 ^ 8.
Proof.
  intros Hu.
  assert (Hf : forall k w v, [32; 32; 16; 16; 16; 8; 8; 8; 8; 32; 16] !! k = Some w ->
    [u_target_ip u; u_private_ip u; u_target_port u; u_private_port u; u_public_port u;
     u_protocol u; u_pdn_index u; u_redirect u; u_enable u; u_time_stamp u;
     u_uc_activation_index u] !! k = Some v -> 0 <= v < 2 ^ w).
  { intros k w v. by apply (Forall2_lookup_lr _ _ _ k w v Hu). }
  exact (conj (Hf 0%nat 32 _ eq_refl eq_refl) (conj (Hf 1%nat 32 _ eq_refl eq_refl)
    (conj (Hf 2%nat 16 _ eq_refl eq_refl) (conj (Hf 3%nat 16 _ eq_refl eq_refl)
    (conj (Hf 4%nat 16 _ eq_refl eq_refl) (conj (Hf 5%nat 8 _ eq_refl eq_refl)
    (Hf 6%nat 8 _ eq_refl eq_refl))))))).
Qed.

Lemma b2z_range b : 0 <= b2z b < 2 ^ 1.
Proof. by destruct b. Qed.

Lemma wf_new_rule pdn u : wf_ipv4_rule u -> wf_pdn pdn -> 0 <= u_pdn_index u < 2 ^ 4 ->
  wf_rule (new_rule pdn u).
Proof.
  intros Hu Hp Hi. destruct (wf_ipv4_rule_inv _ Hu) as (? & ? & ? & ? & ? & ? & _).
  destruct (ip_cksum_diff (public_ip pdn) (u_private_ip u)) as [? _]; [done..|].
  destruct (tcp_udp_cksum_diff (public_ip pdn) (u_public_port u) (u_private_ip u) (u_private_port u))
    as [? _]; [done..|].
  unfold wf_rule, fits, new_rule, rule_ws, rule_fields. cbn -[Z.pow ipa_nati_calc_ip_cksum ipa_nati_calc_tcp_udp_cksum].
  repeat (apply List.Forall2_cons;
    [first [done | apply b2z_range | by apply wrap_range | case_match; lia | lia]|]).
  constructor.
Qed.

Lemma copy_from_user_new pdns u pdn : wf_ipv4_rule u -> zget pdns (u_pdn_index u) = Some pdn ->
  wf_pdn pdn -> 0 <= u_pdn_index u < 2 ^ 4 ->
  table_entry_copy_from_user rule_zero (pdns, u) = Ok (0, new_rule pdn u).
Proof.
  intros Hu Hget Hp Hi. destruct (wf_ipv4_rule_inv _ Hu) as (? & ? & ? & ? & ? & ? & _).
  destruct (ip_cksum_diff (public_ip pdn) (u_private_ip u)) as [? _]; [done..|].
  destruct (tcp_udp_cksum_diff (public_ip pdn) (u_public_port u) (u_private_ip u) (u_private_port u))
    as [? _]; [done..|].
  unfold table_entry_copy_from_user, new_rule. rewrite Hget. cbn [deref mbind res_bind].
  rewrite (wrap_small 8) by done. rewrite !(wrap_small 32), !(wrap_small 16), (wrap_small 4) by (done || lia).
  done.
Qed.

Lemma nat_inserts t pdns u pdn : wf_ipv4_rule u -> zget pdns (u_pdn_index u) = Some pdn ->
  wf_pdn pdn -> 0 <= u_pdn_index u < 2 ^ 4 -> meta t = None ->
  inserts (wf_entry := wf_rule) t (pdns, u) (new_rule pdn u) rule_zero
    (ipa_nat_flags (wrap 13 (u_uc_activation_index u)) (b2z (u_s u)) 0 1).
Proof.
  intros Hu Hget Hp Hi Hm.
  assert (0 <= ipa_nat_flags (wrap 13 (u_uc_activation_index u)) (b2z (u_s u)) 0 1 < 2 ^ 16).
  { unfold ipa_nat_flags. change 16 with (width flags_ws). apply pack_range; unfold flags_ws; widths. }
  split; [|split; [by apply wf_new_rule|done]].
  change (table_entry_head_insert rule_zero (pdns, u) = Ok (0, new_rule pdn u,
    ipa_nat_flags (wrap 13 (u_uc_activation_index u)) (b2z (u_s u)) 0 1)).
  unfold table_entry_head_insert. by rewrite (copy_from_user_new _ _ _ Hu Hget Hp Hi).
Qed.

Lemma indx_inserts t v : 0 <= v < 2 ^ 16 ->
  inserts (wf_entry := wf_indx) t v (mk_indx 0 0) (mk_indx v 0) v.
Proof. intros Hv. split_and!; [done|by apply wf_indx_intro|lia|lia|]. intros _. split; [done|by apply wf_indx_intro]. Qed.
