(* ===== verification/NatDrvi.v ===== *)
(** * The IPv4 NAT driver interface ([dataipa/ipanat/src/ipa_nat_drvi.c])

    The file's static data are the record [nat_globals]; a function is a
    computation on it and on the system state [K].  Pointers to a cache or a
    table are replaced by their index in [ipv4_nat_cache] and [ip4_tbl].  The
    meta data of the index table are those of its [meta] field (the code keeps a
    second pointer to the same array, [index_expn_table_meta]), and the DMA
    helpers are copied into the tables' [dma_help].  Log messages are left out
    except where computing an argument reads memory.  [ipa_nat_dump_ipv4_table]
    only prints and is not modelled; code under [IPA_ON_R3PC] is not compiled. *)

From Stdlib Require Import ZArith Lia Ascii String.
From stdpp Require Import prelude list numbers strings.
From S2P Require Import Prelude CFloat IpaTable Dma Os NatUtils MemDescriptor NatRule.

Local Open Scope Z_scope.

(** ** Handles of tables *)
Definition MAKE_TBL_HDL (hdl mt : Z) : Z := u32 (Z.lor (Z.shiftl mt 31) hdl).
Definition BREAK_TBL_HDL (hdl_in : Z) : Z * Z :=
  (Z.land (Z.shiftr hdl_in 31) 1, Z.land hdl_in 255).
Definition IPA_NAT_MAX_IP4_TBLS : Z := 1.
Definition VALID_TBL_HDL (h : Z) : bool := Z.land h 255 =? IPA_NAT_MAX_IP4_TBLS.

Definition MAX_DMA_ENTRIES_FOR_ADD : nat := 4.
Definition MAX_DMA_ENTRIES_FOR_DEL : nat := 3.

(** ** State *)
Record ipa_nat_ip4_table_cache := mk_tbl {
  public_addr : Z;
  mem_desc : ipa_mem_descriptor;
  table : ipa_table ipa_nat_rule;
  index_table : ipa_table ipa_nat_indx_tbl_rule }.

(** Structures cleared by [memset]. *)
Definition table_zero {E} : ipa_table E := ipa_table_init 0 0 None 0.
Definition nat_table_zero : ipa_nat_ip4_table_cache :=
  mk_tbl 0 desc_zero table_zero table_zero.

Record ipa_nat_cache := mk_cache {
  ipa_desc : option ipa_descriptor;
  ip4_tbl : list ipa_nat_ip4_table_cache;
  table_cnt : Z;
  cache_nmi : Z }.

Record nat_globals := mk_globals {
  ipv4_nat_cache : list ipa_nat_cache;
  active_nat_cache_ptr : option Z;
  pdns : list ipa_nat_pdn_entry;
  num_pdns : Z;
  Hash_token : Z }.

Definition cache_zero : ipa_nat_cache := mk_cache None [nat_table_zero] 0 0.

Section setters.
Definition set_caches g v := mk_globals v (active_nat_cache_ptr g) (pdns g) (num_pdns g) (Hash_token g).
Definition set_active g v := mk_globals (ipv4_nat_cache g) v (pdns g) (num_pdns g) (Hash_token g).
Definition set_pdns g v n := mk_globals (ipv4_nat_cache g) (active_nat_cache_ptr g) v n (Hash_token g).
Definition set_Hash_token g v :=
  mk_globals (ipv4_nat_cache g) (active_nat_cache_ptr g) (pdns g) (num_pdns g) v.
Definition set_desc c v := mk_cache v (ip4_tbl c) (table_cnt c) (cache_nmi c).
Definition set_tbls c v := mk_cache (ipa_desc c) v (table_cnt c) (cache_nmi c).
Definition set_cnt c v := mk_cache (ipa_desc c) (ip4_tbl c) v (cache_nmi c).
Definition set_nmi c v := mk_cache (ipa_desc c) (ip4_tbl c) (table_cnt c) v.
Definition set_tables n t x := mk_tbl (public_addr n) (mem_desc n) t x.
End setters.

(** [struct ipa_ioc_v4_nat_init] and [struct ipa_ioc_nat_pdn_entry]. *)
Record ipa_ioc_v4_nat_init := mk_v4_init {
  init_tbl_index : Z;
  ipv4_rules_offset : Z;
  expn_rules_offset : Z;
  index_offset : Z;
  index_expn_offset : Z;
  init_table_entries : Z;
  init_expn_table_entries : Z;
  ip_addr : Z;
  init_mem_type : Z;
  focus_change : bool }.

Record ipa_ioc_nat_pdn_entry := mk_ioc_pdn {
  ioc_pdn_index : Z;
  ioc_public_ip : Z;
  ioc_src_metadata : Z;
  ioc_dst_metadata : Z }.

(** The system calls of the NAT driver.  [ioctl_table_dma_cmd] also returns the
    memory of the two tables as the hardware leaves it; [mapped_rules] and
    [mapped_indx] are the first [n] records found in a fresh mapping. *)
Class NatOs (K : Type) := {
  ioctl_v4_init_nat : Z -> ipa_ioc_v4_nat_init -> K -> Z * K;
  ioctl_nat_modify_pdn : Z -> ipa_ioc_nat_pdn_entry -> K -> Z * K;
  ioctl_app_clock_vote : Z -> Z -> K -> Z * K;
  ioctl_table_dma_cmd : Z -> ipa_ioc_nat_dma_cmd ->
    ipa_table ipa_nat_rule -> ipa_table ipa_nat_indx_tbl_rule -> K ->
    Z * (list ipa_nat_rule * list ipa_nat_indx_tbl_rule) * K;
  mapped_rules : Z -> nat -> K -> list ipa_nat_rule;
  mapped_indx : Z -> nat -> K -> list ipa_nat_indx_tbl_rule }.

(** What the driver relies on besides [OsLaws]: a mapping holds the records asked
    for, a successful DMA ioctl has carried out the commands in order, a failed one
    has changed nothing. *)
Class NatOsLaws `{Os : OsOps K} `{NOs : NatOs K} : Prop := {
  nat_os_laws :: OsLaws;
  law_mapped_rules : forall a n k, length (mapped_rules a n k) = n;
  law_mapped_indx : forall a n k, length (mapped_indx a n k) = n;
  law_dma : forall fd cmd t x k r mems k',
    ioctl_table_dma_cmd fd cmd t x k = (r, mems, k') ->
    mems = if r =? 0
           then (tbl_mem (dma_run IPA_NAT_BASE_TBL IPA_NAT_EXPN_TBL t (take (Z.to_nat (cmd_entries cmd)) (cmd_dma cmd))),
                 tbl_mem (dma_run IPA_NAT_INDX_TBL IPA_NAT_INDEX_EXPN_TBL x (take (Z.to_nat (cmd_entries cmd)) (cmd_dma cmd))))
           else (tbl_mem t, tbl_mem x) }.

(** ** Creation and destruction of a table *)
Definition ipa_nati_create_table_dma_cmd_helpers (nat_table : ipa_nat_ip4_table_cache)
    (table_indx : Z) : ipa_nat_ip4_table_cache :=
  let off := fun o => u32 (addr_offset (mem_desc nat_table) + o) in
  let h := ipa_table_dma_cmd_helper_init table_indx in
  let flags := h IPA_NAT_BASE_TBL IPA_NAT_EXPN_TBL (off IPA_NAT_RULE_FLAG_FIELD_OFFSET) in
  let next := h IPA_NAT_BASE_TBL IPA_NAT_EXPN_TBL (off IPA_NAT_RULE_NEXT_FIELD_OFFSET) in
  let protocol := h IPA_NAT_BASE_TBL IPA_NAT_EXPN_TBL (off IPA_NAT_RULE_PROTO_FIELD_OFFSET) in
  let entry := h IPA_NAT_INDX_TBL IPA_NAT_INDEX_EXPN_TBL
                 (off IPA_NAT_INDEX_RULE_NAT_INDEX_FIELD_OFFSET) in
  let index_next := h IPA_NAT_INDX_TBL IPA_NAT_INDEX_EXPN_TBL
                      (off IPA_NAT_INDEX_RULE_NEXT_FIELD_OFFSET) in
  set_tables nat_table
    (set_dma_help (table nat_table) (mk_helpers (Some flags) (Some next) (Some protocol)))
    (set_dma_help (index_table nat_table) (mk_helpers (Some entry) (Some index_next) (Some entry))).

Section drvi.
Context {K : Type} `{Os : OsOps K} `{NOs : NatOs K} `{U : IpaUapi}.

(** Result: status and the table; [fd] is the cache's file descriptor. *)
Definition ipa_nati_create_table (nmi fd : Z) (nat_table : ipa_nat_ip4_table_cache)
    (public_ip_addr number_of_entries tbl_index : Z) (k : K) :
    res (Z * ipa_nat_ip4_table_cache * K) :=
  '(ret, t) ← ipa_table_calculate_entries_num
                (ipa_table_init nmi sizeof_ipa_nat_rule None 0 : ipa_table ipa_nat_rule)
                number_of_entries nmi;
  let nt := mk_tbl public_ip_addr (mem_desc nat_table) t (index_table nat_table) in
  if negb (ret =? 0) then Ok (ret, nt, k)
  else
    let '(ok, k) := os_calloc k in
    if negb ok then Ok (- ENOMEM, nt, k)
    else
      let index_expn_table_meta := replicate (Z.to_nat (expn_table_entries t)) 0 in
      let x : ipa_table ipa_nat_indx_tbl_rule :=
        set_entries (ipa_table_init nmi sizeof_ipa_nat_indx_tbl_rule
                       (Some index_expn_table_meta) 2)
          (table_entries t) (expn_table_entries t) (tot_tbl_ents t) in
      let size := ipa_table_calculate_size t + ipa_table_calculate_size x in
      let d := ipa_mem_descriptor_init (mem_desc nt) IPA_NAT_DEV_NAME size tbl_index
                 IPA_IOC_ALLOC_NAT_TABLE IPA_IOC_DEL_NAT_TABLE true in
      let '(ret, d, k) := ipa_mem_descriptor_allocate_memory d fd k in
      if negb (ret =? 0) then Ok (ret, nat_table_zero, k)
      else
        let n := Z.to_nat (tot_tbl_ents t) in
        let '(addr, t) := ipa_table_calculate_addresses t (base_addr d) in
        let '(_, x) := ipa_table_calculate_addresses x addr in
        t ← ipa_table_reset (set_mem t (mapped_rules (base_addr d) n k));
        x ← ipa_table_reset (set_mem x (mapped_indx addr n k));
        Ok (0, ipa_nati_create_table_dma_cmd_helpers (mk_tbl public_ip_addr d t x) tbl_index, k).

Definition ipa_nati_destroy_table (fd : Z) (nat_table : ipa_nat_ip4_table_cache) (k : K) :
    Z * ipa_nat_ip4_table_cache * K :=
  let '(ret, _, k) := ipa_mem_descriptor_delete (mem_desc nat_table) fd k in
  (ret, nat_table_zero, k).

(** The init command of a table; offsets are [uint32_t], entry counts [uint16_t]. *)
Definition v4_init_cmd (nmi : Z) (nat_table : ipa_nat_ip4_table_cache) (tbl_index : Z)
    (focus_change : bool) : ipa_ioc_v4_nat_init :=
  let ipv4 := addr_offset (mem_desc nat_table) in
  let expn := u32 (ipv4 + table_entries (table nat_table) * sizeof_ipa_nat_rule) in
  let indx := u32 (expn + expn_table_entries (table nat_table) * sizeof_ipa_nat_rule) in
  let indx_expn := u32 (indx + table_entries (index_table nat_table) * sizeof_ipa_nat_indx_tbl_rule) in
  mk_v4_init tbl_index ipv4 expn indx indx_expn (u16 (table_entries (table nat_table) - 1))
    (expn_table_entries (table nat_table)) (public_addr nat_table) nmi focus_change.

Definition ipa_nati_post_ipv4_init_cmd (nmi fd : Z) (nat_table : ipa_nat_ip4_table_cache)
    (tbl_index : Z) (focus_change : bool) (k : K) : Z * K :=
  ioctl_v4_init_nat fd (v4_init_cmd nmi nat_table tbl_index focus_change) k.

(** The rule of the second index entry gets the head's index; the rule is reached
    through [table_addr] or [expn_table_addr]. *)
Definition ipa_nati_copy_second_index_entry_to_head (nat_table : ipa_nat_ip4_table_cache)
    (it : ipa_table_iterator) (cmd : ipa_ioc_nat_dma_cmd) :
    res (ipa_nat_ip4_table_cache * ipa_ioc_nat_dma_cmd) :=
  let x := index_table nat_table in
  let t := table nat_table in
  index_table_rule ← rec_at x (next_entry it);
  '(_, cmd) ← ipa_table_add_dma_cmd x HELP_UPDATE_ENTRY (curr_entry it) (curr_index it)
                (x_next_index index_table_rule) cmd;
  let e := x_tbl_entry index_table_rule in
  let ptr :=
    if e <? table_entries t
    then table_addr t + e * sizeof_ipa_nat_rule
    else expn_table_addr t + u16 (e - table_entries t) * sizeof_ipa_nat_rule in
  rule ← rec_at t ptr;
  t ← rec_set t ptr (set_indx_tbl_entry rule (curr_index it));
  Ok (set_tables nat_table t x, cmd).

(** Returns the status and the tables as the hardware leaves them. *)
Definition ipa_nati_post_ipv4_dma_cmd (nmi fd : Z) (nat_table : ipa_nat_ip4_table_cache)
    (cmd : ipa_ioc_nat_dma_cmd) (k : K) : Z * ipa_nat_ip4_table_cache * K :=
  let cmd := mk_dma_cmd (cmd_entries cmd) nmi (cmd_dma cmd) in
  let '(r, (m, mx), k) :=
    ioctl_table_dma_cmd fd cmd (table nat_table) (index_table nat_table) k in
  ((if negb (r =? 0) then - EIO else 0),
   set_tables nat_table (set_mem (table nat_table) m) (set_mem (index_table nat_table) mx), k).

(** ** Access to the state *)
#[local] Notation M := (St (nat_globals * K)).

Definition get_g : M nat_globals := fun s => Ok (fst s, s).
Definition modify_g (f : nat_globals -> nat_globals) : M unit := fun '(g, k) => Ok (tt, (f g, k)).
Definition os {A} (f : K -> A * K) : M A := sys f.

(** [ipv4_nat_cache[nmi]]. *)
Definition get_cache (nmi : Z) : M ipa_nat_cache :=
  g ← get_g; st_lift (deref (zget (ipv4_nat_cache g) nmi)).
Definition put_cache (nmi : Z) (c : ipa_nat_cache) : M unit :=
  modify_g (fun g => set_caches g (zset (ipv4_nat_cache g) nmi c)).

(** [ip4_tbl[tbl_hdl - 1]] of a cache. *)
Definition get_table (c : ipa_nat_cache) (tbl_hdl : Z) : M ipa_nat_ip4_table_cache :=
  st_lift (deref (zget (ip4_tbl c) (tbl_hdl - 1))).
Definition put_table (nmi tbl_hdl : Z) (n : ipa_nat_ip4_table_cache) : M unit :=
  c ← get_cache nmi; put_cache nmi (set_tbls c (zset (ip4_tbl c) (tbl_hdl - 1) n)).

(** [nat_cache_ptr->ipa_desc->fd]. *)
Definition get_fd (c : ipa_nat_cache) : M Z := d ← st_lift (deref (ipa_desc c)); mret (fd d).

(** A body between [pthread_mutex_lock] and [pthread_mutex_unlock] of [nat_mutex],
    with the common error handling. *)
Definition locked {A} (body : M (Z * A)) (none : A) : M (Z * A) :=
  l ← os (pthread_mutex_lock nat_mutex);
  if negb (l =? 0) then mret (- EINVAL, none)
  else
    '(ret, a) ← body;
    u ← os (pthread_mutex_unlock nat_mutex);
    mret ((if negb (u =? 0) then (if negb (ret =? 0) then ret else - EPERM) else ret), a).

(** ** PDNs *)
Definition ipa_nati_modify_pdn (entry : ipa_ioc_nat_pdn_entry) : M Z :=
  ddr ← get_cache IPA_NAT_MEM_IN_DDR;
  sram ← get_cache IPA_NAT_MEM_IN_SRAM;
  let c := match ipa_desc ddr with Some _ => ddr | None => sram end in
  match ipa_desc c with
  | None => mret (- EIO)
  | Some d =>
      ret ← os (ioctl_nat_modify_pdn (fd d) entry);
      if negb (ret =? 0) then mret ret
      else
        g ← get_g;
        _ ← st_lift (deref (zget (pdns g) (ioc_pdn_index entry)));
        _ ← modify_g (fun g => set_pdns g
              (zset (pdns g) (ioc_pdn_index entry)
                 (mk_pdn (ioc_public_ip entry) (ioc_src_metadata entry) (ioc_dst_metadata entry)))
              (num_pdns g));
        mret ret
  end.

(** The [for] loop over the first [IPA_MAX_PDN_NUM - 1] entries. *)
Fixpoint get_pdn_index_loop (fuel : nat) (pdns : list ipa_nat_pdn_entry) (ip i : Z) :
    res (option Z) :=
  if i <? IPA_MAX_PDN_NUM - 1 then
    match fuel with
    | O => Diverge
    | S f =>
        p ← deref (zget pdns i);
        if public_ip p =? ip then Ok (Some (u8 i)) else get_pdn_index_loop f pdns ip (i + 1)
    end
  else Ok None.

(** Status and [*pdn_index] when written. *)
Definition ipa_nati_get_pdn_index (public_ip : Z) : M (Z * option Z) :=
  g ← get_g;
  r ← st_lift (get_pdn_index_loop (Z.to_nat IPA_MAX_PDN_NUM) (pdns g) public_ip 0);
  match r with
  | Some i => mret (0, Some i)
  | None => mret (- EIO, None)
  end.

Inductive pdn_search := PdnSame (i : Z) | PdnEmpty (i : Z) | PdnNone.

Fixpoint alloc_pdn_loop (fuel : nat) (pdns : list ipa_nat_pdn_entry) (ip i : Z) :
    res pdn_search :=
  if i <? IPA_MAX_PDN_NUM - 1 then
    match fuel with
    | O => Diverge
    | S f =>
        p ← deref (zget pdns i);
        if public_ip p =? ip then Ok (PdnSame i)
        else if bool_decide (p = pdn_zero) then Ok (PdnEmpty i)
        else alloc_pdn_loop f pdns ip (i + 1)
    end
  else Ok PdnNone.

Definition ipa_nati_alloc_pdn (pdn_info : ipa_nat_pdn_entry) : M (Z * option Z) :=
  g ← get_g;
  if num_pdns g >=? IPA_MAX_PDN_NUM - 1 then mret (- EIO, None)
  else
    r ← st_lift (alloc_pdn_loop (Z.to_nat IPA_MAX_PDN_NUM) (pdns g) (public_ip pdn_info) 0);
    match r with
    | PdnSame i => mret (0, Some (u8 i))
    | PdnNone => mret (- EIO, None)
    | PdnEmpty i =>
        ret ← ipa_nati_modify_pdn
                (mk_ioc_pdn (u8 i) (public_ip pdn_info) (src_metadata pdn_info) (dst_metadata pdn_info));
        if ret =? 0 then
          _ ← modify_g (fun g => set_pdns g (pdns g) (num_pdns g + 1));
          mret (ret, Some (u8 i))
        else mret (ret, None)
    end.

Definition ipa_nati_get_pdn_cnt : M Z := g ← get_g; mret (num_pdns g).

Definition ipa_nati_dealloc_pdn (pdn_index : Z) : M Z :=
  g ← get_g;
  if num_pdns g =? 0 then mret (- EIO)
  else
    p ← st_lift (deref (zget (pdns g) pdn_index));
    if bool_decide (p = pdn_zero) then mret (- EIO)
    else
      ret ← ipa_nati_modify_pdn (mk_ioc_pdn pdn_index 0 0 0);
      if negb (ret =? 0) then mret (- EIO)
      else
        _ ← modify_g (fun g => set_pdns g (zset (pdns g) pdn_index pdn_zero) (num_pdns g - 1));
        mret 0.

(** ** Tables *)
Definition ipa_NATI_post_ipv4_init_cmd (tbl_hdl : Z) : M Z :=
  let '(nmi, hdl) := BREAK_TBL_HDL tbl_hdl in
  if negb (IPA_VALID_NAT_MEM_IN nmi) then mret (- EINVAL)
  else
    '(ret, _) ← locked
      (c ← get_cache nmi;
       if table_cnt c =? 0 then mret (- EINVAL, tt)
       else
         n ← get_table c hdl;
         fd ← get_fd c;
         ret ← os (ipa_nati_post_ipv4_init_cmd (cache_nmi c) fd n (u8 (hdl - 1)) true);
         if negb (ret =? 0) then mret (ret, tt)
         else _ ← modify_g (fun g => set_active g (Some nmi)); mret (0, tt)) tt;
    mret ret.

(** Opens the device unless the cache has a descriptor; [false] on failure. *)
Definition ensure_desc (nmi : Z) : M bool :=
  c ← get_cache nmi;
  match ipa_desc c with
  | Some _ => mret true
  | None =>
      d ← os ipa_descriptor_open;
      _ ← put_cache nmi (set_desc c d);
      mret (match d with Some _ => true | None => false end)
  end.

(** [failed_create_table]: closes the device when no table is left. *)
Definition close_unused (nmi : Z) : M unit :=
  c ← get_cache nmi;
  if table_cnt c =? 0 then
    _ ← os (fun k => (tt, ipa_descriptor_close (ipa_desc c) k));
    put_cache nmi (set_desc c None)
  else mret tt.

(** [done] with a table [n] that could not be used. *)
Definition add_tbl_failed (nmi tbl_hdl : Z) (n : ipa_nat_ip4_table_cache) (ret : Z) : M (Z * Z) :=
  _ ← put_table nmi tbl_hdl n;
  _ ← close_unused nmi;
  mret (ret, 0).

(** [ipa_NATI_add_ipv4_tbl] once the device is open: status and handle. *)
Definition add_tbl_opened (nmi public_ip_addr number_of_entries : Z) : M (Z * Z) :=
  c ← get_cache nmi;
  fd ← get_fd c;
  let cnt := table_cnt c in
  n ← get_table c (cnt + 1);
  '(ret, n) ← (fun '(g, k) =>
     '(r, n, k) ← ipa_nati_create_table nmi fd n public_ip_addr number_of_entries cnt k;
     Ok ((r, n), (g, k)));
  if negb (ret =? 0) then add_tbl_failed nmi (cnt + 1) n ret
  else
    _ ← put_table nmi (cnt + 1) n;
    ret ← os (ipa_nati_post_ipv4_init_cmd nmi fd n cnt false);
    if negb (ret =? 0) then
      '(_, n) ← os (fun k => let '(r, n, k) := ipa_nati_destroy_table fd n k in ((r, n), k));
      add_tbl_failed nmi (cnt + 1) n ret
    else
      _ ← modify_g (fun g => set_active g (Some nmi));
      g ← get_g;
      p0 ← st_lift (deref (zget (pdns g) 0));
      _ ← modify_g (fun g => set_pdns g
             (zset (pdns g) 0 (mk_pdn public_ip_addr (src_metadata p0) (dst_metadata p0))) 1);
      c ← get_cache nmi;
      _ ← put_cache nmi (set_cnt c (u8 (table_cnt c + 1)));
      mret (0, MAKE_TBL_HDL (u8 (table_cnt c + 1)) nmi).

(** The part of [ipa_NATI_add_ipv4_tbl] under the mutex. *)
Definition add_tbl_locked (nmi public_ip_addr number_of_entries : Z) : M (Z * Z) :=
  c ← get_cache nmi;
  _ ← put_cache nmi (set_nmi c nmi);
  if table_cnt c >=? IPA_NAT_MAX_IP4_TBLS then mret (- EINVAL, 0)
  else
    ok ← ensure_desc nmi;
    if negb ok then mret (- EIO, 0)
    else add_tbl_opened nmi public_ip_addr number_of_entries.

(** Status and [*tbl_hdl]. *)
Definition ipa_NATI_add_ipv4_tbl (nmi public_ip_addr number_of_entries : Z) : M (Z * Z) :=
  if negb (IPA_VALID_NAT_MEM_IN nmi) then mret (- EINVAL, 0)
  else
    l ← os (pthread_mutex_lock nat_mutex);
    if negb (l =? 0) then mret (- EINVAL, 0)
    else
      '(ret, hdl) ← add_tbl_locked nmi public_ip_addr number_of_entries;
      u ← os (pthread_mutex_unlock nat_mutex);
      mret ((if negb (u =? 0) then - EPERM else ret), hdl).

(** The part of [ipa_NATI_del_ipv4_table] under the mutex. *)
Definition del_tbl_locked (nmi hdl : Z) : M (Z * unit) :=
  c ← get_cache nmi;
  n ← get_table c hdl;
  if negb (valid (mem_desc n)) then mret (- EINVAL, tt)
  else
    fd ← get_fd c;
    '(ret, n) ← os (fun k => let '(r, n, k) := ipa_nati_destroy_table fd n k in ((r, n), k));
    _ ← put_table nmi hdl n;
    if negb (ret =? 0) then mret (ret, tt)
    else
      c ← get_cache nmi;
      _ ← put_cache nmi (set_cnt c (u8 (table_cnt c - 1)));
      _ ← close_unused nmi;
      mret (0, tt).

Definition ipa_NATI_del_ipv4_table (tbl_hdl : Z) : M Z :=
  let '(nmi, hdl) := BREAK_TBL_HDL tbl_hdl in
  if negb (IPA_VALID_NAT_MEM_IN nmi) then mret (- EINVAL)
  else '(ret, _) ← locked (del_tbl_locked nmi hdl) tt; mret ret.

Definition ipa_NATI_query_timestamp (tbl_hdl rule_hdl : Z) : M (Z * option Z) :=
  let '(nmi, hdl) := BREAK_TBL_HDL tbl_hdl in
  if negb (IPA_VALID_NAT_MEM_IN nmi) then mret (- EINVAL, None)
  else
    locked
      (c ← get_cache nmi;
       n ← get_table c hdl;
       if negb (valid (mem_desc n)) then mret (- EINVAL, None)
       else
         match ipa_table_get_entry (table n) rule_hdl with
         | (0, Some (ptr, _)) =>
             r ← st_lift (rec_at (table n) ptr);
             mret (0, Some (r_time_stamp r))
         | (ret, _) => mret (ret, None)
         end) None.

(** ** Rules *)
(** A hash moved on by [Hash_token], for rules that are not looked up by hash. *)
Definition token_slot (hash entries : Z) : M Z :=
  g ← get_g;
  s ← st_lift (int_add hash (Hash_token g));
  tok ← st_lift (int_add (Hash_token g) 1);
  _ ← modify_g (fun g => set_Hash_token g tok);
  let idx := Z.land (u16 s) (entries - 1) in
  mret (if idx =? 0 then u16 (entries - 1) else idx).

(** [bail] and [fail_add_index_entry]. *)
Definition undo_add (n : ipa_nat_ip4_table_cache) (new_index_tbl_entry_index : option Z)
    (new_entry_index : Z) : res ipa_nat_ip4_table_cache :=
  x ← match new_index_tbl_entry_index with
      | Some i => ipa_table_erase_entry (index_table n) i
      | None => Ok (index_table n)
      end;
  t ← ipa_table_erase_entry (table n) new_entry_index;
  Ok (set_tables n t x).

(** The part of [ipa_NATI_add_ipv4_rule] under the mutex: status, the table and the
    new rule's handle. *)
Definition add_rule_locked (nmi hdl : Z) (clnt_rule : ipa_nat_ipv4_rule) :
    M (Z * option Z) :=
  c ← get_cache nmi;
  n ← get_table c hdl;
  if negb (valid (mem_desc n)) then mret (- EINVAL, None)
  else
    let cmd := dma_cmd_zero MAX_DMA_ENTRIES_FOR_ADD in
    let te := table_entries (table n) in
    g ← get_g;
    pdn ← st_lift (deref (zget (pdns g) (u_pdn_index clnt_rule)));
    desc ← st_lift (deref (ipa_desc c));
    let dhash := dst_hash (ver desc) (public_ip pdn) (u_target_ip clnt_rule)
                   (u_target_port clnt_rule) (u_public_port clnt_rule)
                   (u_protocol clnt_rule) (u16 (te - 1)) in
    new_entry_index ← (if u_src_only clnt_rule then token_slot dhash te else mret dhash);
    '(ret, t, cmd, new_entry_index, new_entry_handle) ←
      st_lift (ipa_table_add_entry (table n) (pdns g, clnt_rule) new_entry_index cmd);
    let n := set_tables n t (index_table n) in
    if negb (ret =? 0) then _ ← put_table nmi hdl n; mret (ret, None)
    else
      let shash := src_hash (u_private_ip clnt_rule) (u_private_port clnt_rule)
                     (u_target_ip clnt_rule) (u_target_port clnt_rule)
                     (u_protocol clnt_rule) (u16 (te - 1)) in
      index0 ← (if u_dst_only clnt_rule then token_slot shash te else mret shash);
      '(ret, x, cmd, new_index_tbl_entry_index, _) ←
        st_lift (ipa_table_add_entry (index_table n) new_entry_index index0 cmd);
      let n := set_tables n (table n) x in
      if negb (ret =? 0) then
        n ← st_lift (undo_add n None new_entry_index);
        _ ← put_table nmi hdl n; mret (ret, None)
      else
        let rule_ptr := ipa_table_get_entry_by_index (table n) new_entry_index in
        if rule_ptr =? 0 then
          n ← st_lift (undo_add n (Some new_index_tbl_entry_index) new_entry_index);
          _ ← put_table nmi hdl n; mret (- EPERM, None)
        else
          rule ← st_lift (rec_at (table n) rule_ptr);
          let rule := set_indx_tbl_entry rule new_index_tbl_entry_index in
          let rule := set_redirect rule (u_redirect clnt_rule) in
          let rule := set_enable rule (u_enable clnt_rule) in
          let rule := set_time_stamp rule (u_time_stamp clnt_rule) in
          t ← st_lift (rec_set (table n) rule_ptr rule);
          let n := set_tables n t (index_table n) in
          '(ret, n) ← os (fun k =>
             let '(r, n, k) := ipa_nati_post_ipv4_dma_cmd (cache_nmi c) (fd desc) n cmd k in
             ((r, n), k));
          if negb (ret =? 0) then
            n ← st_lift (undo_add n (Some new_index_tbl_entry_index) new_entry_index);
            _ ← put_table nmi hdl n; mret (ret, None)
          else _ ← put_table nmi hdl n; mret (0, new_entry_handle).

(** Status and [*rule_hdl] when written.  The error message for a bad PDN reads
    [pdns] at the rule's index, whatever it is. *)
Definition ipa_NATI_add_ipv4_rule (tbl_hdl : Z) (clnt_rule : ipa_nat_ipv4_rule) :
    M (Z * option Z) :=
  if negb (VALID_TBL_HDL tbl_hdl) then mret (- EINVAL, None)
  else
    let '(nmi, hdl) := BREAK_TBL_HDL tbl_hdl in
    if negb (IPA_VALID_NAT_MEM_IN nmi) then mret (- EINVAL, Some 0)
    else if u_protocol clnt_rule =? IPAHAL_NAT_INVALID_PROTOCOL then mret (- EINVAL, Some 0)
    else
      g ← get_g;
      p ← st_lift (deref (zget (pdns g) (u_pdn_index clnt_rule)));
      if (u_pdn_index clnt_rule >=? IPA_MAX_PDN_NUM) || (public_ip p =? 0)
      then mret (- EINVAL, Some 0)
      else
        l ← os (pthread_mutex_lock nat_mutex);
        if negb (l =? 0) then mret (- EINVAL, Some 0)
        else
          '(ret, h) ← add_rule_locked nmi hdl clnt_rule;
          u ← os (pthread_mutex_unlock nat_mutex);
          if negb (ret =? 0) then mret (ret, Some 0)
          else if negb (u =? 0) then mret (- EPERM, Some 0)
          else mret (0, h).

(** The index table's part of the delete command.  When the entry is a head with a
    tail, the second entry moves into it and the iterator moves to the second. *)
Definition del_index_command (n : ipa_nat_ip4_table_cache) (cmd : ipa_ioc_nat_dma_cmd)
    (xit : ipa_table_iterator) :
    res (Z * ipa_nat_ip4_table_cache * ipa_ioc_nat_dma_cmd * ipa_table_iterator) :=
  cmd ← ipa_table_create_delete_command (index_table n) cmd xit;
  if ipa_table_iterator_is_head_with_tail xit then
    '(n, cmd) ← ipa_nati_copy_second_index_entry_to_head n xit cmd;
    '(ret, xit) ← ipa_table_iterator_next xit (index_table n);
    Ok (ret, n, cmd, xit)
  else Ok (0, n, cmd, xit).

(** The deletion of the two entries once the command is posted. *)
Definition del_finish (n : ipa_nat_ip4_table_cache) (it xit : ipa_table_iterator) :
    res ipa_nat_ip4_table_cache :=
  t ← (if ipa_table_iterator_is_head_with_tail it then Ok (table n)
       else
         is_prev_empty ←
           (if prev_entry it =? 0 then Ok false
            else p ← rec_at (table n) (prev_entry it);
                 Ok (r_protocol p =? IPAHAL_NAT_INVALID_PROTOCOL));
         ipa_table_delete_entry (table n) it is_prev_empty);
  x ← ipa_table_delete_entry (index_table n) xit false;
  x ← (if curr_index xit >=? table_entries x then
         m ← deref (meta x);
         let i := curr_index xit - table_entries x in
         if i <? Z.of_nat (length m)
         then Ok (set_meta x (Some (zset m i IPA_TABLE_INVALID_ENTRY))) else UB
       else Ok x);
  Ok (set_tables n t x).

(** The part of [ipa_NATI_del_ipv4_rule] under the mutex. *)
Definition del_rule_locked (nmi hdl rule_hdl : Z) : M (Z * unit) :=
  c ← get_cache nmi;
  n ← get_table c hdl;
  if negb (valid (mem_desc n)) then mret (- EINVAL, tt)
  else
    let cmd := dma_cmd_zero MAX_DMA_ENTRIES_FOR_DEL in
    match ipa_table_get_entry (table n) rule_hdl with
    | (0, Some (table_rule, index)) =>
        '(ret, it) ← st_lift (ipa_table_iterator_init (table n) table_rule index);
        if negb (ret =? 0) then mret (ret, tt)
        else
          r ← st_lift (rec_at (table n) table_rule);
          let index := r_indx_tbl_entry r in
          let index_table_rule := ipa_table_get_entry_by_index (index_table n) index in
          if index_table_rule =? 0 then mret (- EPERM, tt)
          else
            '(ret, xit) ← st_lift (ipa_table_iterator_init (index_table n) index_table_rule index);
            if negb (ret =? 0) then mret (ret, tt)
            else
              '(ret, n, cmd, xit) ← st_lift (del_index_command n cmd xit);
              if negb (ret =? 0) then _ ← put_table nmi hdl n; mret (ret, tt)
              else
                cmd ← st_lift (ipa_table_create_delete_command (table n) cmd it);
                fd ← get_fd c;
                '(ret, n) ← os (fun k =>
                   let '(r, n, k) := ipa_nati_post_ipv4_dma_cmd (cache_nmi c) fd n cmd k in
                   ((r, n), k));
                if negb (ret =? 0) then _ ← put_table nmi hdl n; mret (ret, tt)
                else
                  n ← st_lift (del_finish n it xit);
                  _ ← put_table nmi hdl n;
                  mret (0, tt)
    | (ret, _) => mret (ret, tt)
    end.

Definition ipa_NATI_del_ipv4_rule (tbl_hdl rule_hdl : Z) : M Z :=
  let '(nmi, hdl) := BREAK_TBL_HDL tbl_hdl in
  if negb (IPA_VALID_NAT_MEM_IN nmi) then mret (- EINVAL)
  else '(ret, _) ← locked (del_rule_locked nmi hdl rule_hdl) tt; mret ret.

(** ** Size, clearing, walking *)
(** Status and [*size_ptr] when written. *)
Definition ipa_nati_get_sram_size : M (Z * option Z) :=
  locked
    (ok ← ensure_desc IPA_NAT_MEM_IN_SRAM;
     if negb ok then mret (- EIO, None)
     else
       c ← get_cache IPA_NAT_MEM_IN_SRAM;
       fd ← get_fd c;
       '(ret, info) ← os (fun k =>
          let '(r, i, k) := ioctl_get_nat_in_sram_info fd k in ((r, i), k));
       if negb (ret =? 0) then mret (ret, None)
       else
         let size := sram_mem_available_for_nat info in
         if size =? 0 then mret (- EINVAL, Some size) else mret (0, Some size)) None.

Definition ipa_NATI_clear_ipv4_tbl (tbl_hdl : Z) : M Z :=
  let '(nmi, hdl) := BREAK_TBL_HDL tbl_hdl in
  if negb (IPA_VALID_NAT_MEM_IN nmi) then mret (- EINVAL)
  else
    '(ret, _) ← locked
      (c ← get_cache nmi;
       if table_cnt c =? 0 then mret (- EINVAL, tt)
       else
         n ← get_table c hdl;
         t ← st_lift (ipa_table_reset (table n));
         x ← st_lift (ipa_table_reset (index_table n));
         _ ← put_table nmi hdl (set_tables n (set_cnts t 0 0) (set_cnts x 0 0));
         mret (0, tt)) tt;
    mret ret.

Inductive WhichTbl2Use := USE_NAT_TABLE | USE_INDEX_TABLE | USE_MAX.

Definition VALID_WHICHTBL2USE (w : WhichTbl2Use) : bool :=
  match w with USE_MAX => false | _ => true end.

(** A callback that may be given either kind of record: one function for each.
    It must not change the table that is being walked. *)
Record table_walk_cb (S : Type) := mk_walk_cb {
  cb_rule : walk_cb_type (E := ipa_nat_rule) S;
  cb_indx : walk_cb_type (E := ipa_nat_indx_tbl_rule) S }.
Arguments cb_rule {S}.
Arguments cb_indx {S}.

Definition run_walk {A} (n : ipa_nat_ip4_table_cache) (which : WhichTbl2Use)
    (cb : table_walk_cb (A * (nat_globals * K))) (arb : A) : M (Z * A) := fun s =>
  let walked : res (Z * (A * (nat_globals * K))) :=
    match which with
    | USE_NAT_TABLE => ipa_table_walk (table n) 0 WHEN_SLOT_FILLED (cb_rule cb) (arb, s)
    | _ => ipa_table_walk (index_table n) 0 WHEN_SLOT_FILLED (cb_indx cb) (arb, s)
    end in
  '(ret, (a, s)) ← walked;
  Ok ((ret, a), s).

(** The caller's data [arb_data_ptr] are the [A] of the callback's state. *)
Definition ipa_NATI_walk_ipv4_tbl {A} (tbl_hdl : Z) (which : WhichTbl2Use)
    (walk_cb : option (table_walk_cb (A * (nat_globals * K)))) (arb : A) : M (Z * A) :=
  match walk_cb with
  | None => mret (- EINVAL, arb)
  | Some cb =>
      if negb (VALID_TBL_HDL tbl_hdl) || negb (VALID_WHICHTBL2USE which)
      then mret (- EINVAL, arb)
      else
        locked
          (let '(nmi, hdl) := BREAK_TBL_HDL tbl_hdl in
           if negb (IPA_VALID_NAT_MEM_IN nmi) then mret (- EINVAL, arb)
           else
             c ← get_cache nmi;
             if table_cnt c =? 0 then mret (- EINVAL, arb)
             else
               n ← get_table c hdl;
               run_walk n which cb arb) arb
  end.

(** The callback's data is the destination handle; [A] is the static data of the
    client that the callback reaches besides. *)
Definition ipa_nati_copy_ipv4_tbl {A} (src_tbl_hdl dst_tbl_hdl : Z)
    (copy_cb : option (table_walk_cb ((Z * A) * (nat_globals * K)))) (a : A) : M (Z * A) :=
  match copy_cb with
  | None => mret (- EINVAL, a)
  | Some _ =>
      locked
        (ret ← ipa_NATI_clear_ipv4_tbl dst_tbl_hdl;
         if ret =? 0 then
           '(ret, (_, a)) ← ipa_NATI_walk_ipv4_tbl src_tbl_hdl USE_NAT_TABLE copy_cb (dst_tbl_hdl, a);
           mret (ret, a)
         else mret (ret, a)) a
  end.

(** ** Statistics *)
Record ipa_nati_tbl_stats := mk_stats {
  st_nmi : Z;
  tot_ents : Z;
  tot_base_ents : Z;
  tot_base_ents_filled : Z;
  tot_expn_ents : Z;
  tot_expn_ents_filled : Z;
  tot_chains : Z;
  min_chain_len : Z;
  max_chain_len : Z;
  avg_chain_len : SpecFloat.spec_float }.

Definition stats_zero : ipa_nati_tbl_stats :=
  mk_stats 0 0 0 0 0 0 0 0 0 (SpecFloat.S754_zero false).

(** [chain_stat_help]: the running average total and the statistics. *)
Record chain_stat_help := mk_csh { tot_for_avg : Z; stats_ptr : ipa_nati_tbl_stats }.

(** The [while (list_elem_ptr->next_index)] loop from a record; both record types
    go through the table's callbacks.  A chain longer than the table is circular. *)
Fixpoint chain_len_loop {E D} `{EntryOps E D} (fuel : nat) (t : ipa_table E) (ptr len : Z) : res Z :=
  match fuel with
  | O => Diverge
  | Datatypes.S f =>
      e ← rec_at t ptr;
      if entry_get_next_index e =? 0 then Ok len
      else chain_len_loop f t (GOTO_REC t (entry_get_next_index e)) (u32 (len + 1))
  end.

Definition add_chain (csh : chain_stat_help) (chain_len : Z) : chain_stat_help :=
  let st := stats_ptr csh in
  mk_csh (u32 (tot_for_avg csh + chain_len))
    (mk_stats (st_nmi st) (tot_ents st) (tot_base_ents st) (tot_base_ents_filled st)
       (tot_expn_ents st) (tot_expn_ents_filled st) (u32 (tot_chains st + 1))
       (if min_chain_len st =? 0 then chain_len
        else if min_chain_len st <? chain_len then min_chain_len st else chain_len)
       (if max_chain_len st >? chain_len then max_chain_len st else chain_len)
       (avg_chain_len st)).

Definition gen_chain_stats {E D} `{EntryOps E D} : walk_cb_type (E := E) chain_stat_help :=
  fun table_ptr rule_hdl record_ptr _ _ _ csh =>
    let '(_, is_expn_tbl, _) := BREAK_RULE_HDL table_ptr rule_hdl in
    if negb (is_expn_tbl =? 0) then Ok (1, csh)
    else
      e ← rec_at table_ptr record_ptr;
      chain_len ←
        (if entry_get_next_index e =? 0 then Ok 0
         else chain_len_loop (Datatypes.S (length (tbl_mem table_ptr))) table_ptr record_ptr 1);
      Ok (0, if chain_len =? 0 then csh else add_chain csh chain_len).

(** The statistics of one table; the status is negative on error. *)
Definition table_stats {E D} `{EntryOps E D} (nmi : Z) (t : ipa_table E) :
    res (Z * ipa_nati_tbl_stats) :=
  let st := mk_stats nmi (u32 (table_entries t + expn_table_entries t)) (table_entries t)
              (cur_tbl_cnt t) (expn_table_entries t) (cur_expn_tbl_cnt t) 0 0 0
              (SpecFloat.S754_zero false) in
  '(ret, csh) ← ipa_table_walk t 0 WHEN_SLOT_FILLED gen_chain_stats (mk_csh 0 st);
  let st := stats_ptr csh in
  if ret <? 0 then Ok (- EINVAL, st)
  else
    Ok (0,
      if negb (tot_for_avg csh =? 0) && negb (tot_chains st =? 0) then
        mk_stats (st_nmi st) (tot_ents st) (tot_base_ents st) (tot_base_ents_filled st)
          (tot_expn_ents st) (tot_expn_ents_filled st) (tot_chains st) (min_chain_len st)
          (max_chain_len st) (f32_div (f32_of_Z (tot_for_avg csh)) (f32_of_Z (tot_chains st)))
      else st).

(** Status and the two statistics (non-NULL pointers). *)
Definition ipa_NATI_ipv4_tbl_stats (tbl_hdl : Z) :
    M (Z * option (ipa_nati_tbl_stats * ipa_nati_tbl_stats)) :=
  if negb (VALID_TBL_HDL tbl_hdl) then mret (- EINVAL, None)
  else
    locked
      (let '(nmi, hdl) := BREAK_TBL_HDL tbl_hdl in
       let none := Some (stats_zero, stats_zero) in
       if negb (IPA_VALID_NAT_MEM_IN nmi) then mret (- EINVAL, none)
       else
         c ← get_cache nmi;
         if table_cnt c =? 0 then mret (- EINVAL, none)
         else
           n ← get_table c hdl;
           '(ret, nat_stats) ← st_lift (table_stats nmi (table n));
           if negb (ret =? 0) then mret (ret, Some (nat_stats, stats_zero))
           else
             '(ret, idx_stats) ← st_lift (table_stats nmi (index_table n));
             mret (ret, Some (nat_stats, idx_stats))) None.

Definition ipa_nati_vote_clock (vote_type : Z) : M Z :=
  ok ← ensure_desc IPA_NAT_MEM_IN_SRAM;
  if negb ok then mret (- EIO)
  else
    c ← get_cache IPA_NAT_MEM_IN_SRAM;
    fd ← get_fd c;
    os (ioctl_app_clock_vote fd vote_type).
End drvi.
Arguments cb_rule {S}.
Arguments cb_indx {S}.
Arguments mk_walk_cb {S}.
