(* ===== verification/NatStatemach.v ===== *)
(** * The state machine that spreads a NAT table over DDR and SRAM
    ([dataipa/ipanat/src/ipa_nat_statemach.c])

    The static [nati_obj], the handle maps, [nat_mutex_init] and the memory of the
    caller that the arguments point to are the record [smach]; a function is a
    computation on it and on the state of the NAT driver.  [args], an array of
    untyped words in the code, is the type [sm_args], whose constructors are the
    arrays the API functions build: a callback given another one is [UB].
    [map_pairs], never written, is a constant.  Of the switch functions' statistics
    only the call is modelled, not what is printed; [currTimeAs] is called for its
    effect on the system. *)

From Stdlib Require Import ZArith Lia Ascii String.
From stdpp Require Import prelude gmap list numbers strings.
From S2P Require Import Prelude CFloat IpaTable Os NatUtils NatMap NatRule NatDrvi.

Local Open Scope Z_scope.

(** ** States, triggers and the object *)
Inductive ipa_nati_state :=
  | NATI_STATE_NULL
  | NATI_STATE_DDR_ONLY
  | NATI_STATE_SRAM_ONLY
  | NATI_STATE_HYBRID
  | NATI_STATE_HYBRID_DDR
  | NATI_STATE_LAST.

#[global] Instance ipa_nati_state_eq_dec : EqDecision ipa_nati_state.
Proof. solve_decision. Defined.

Inductive ipa_nati_trigger :=
  | NATI_TRIG_NULL
  | NATI_TRIG_ADD_TABLE
  | NATI_TRIG_DEL_TABLE
  | NATI_TRIG_CLR_TABLE
  | NATI_TRIG_WLK_TABLE
  | NATI_TRIG_TBL_STATS
  | NATI_TRIG_ADD_RULE
  | NATI_TRIG_DEL_RULE
  | NATI_TRIG_TBL_SWITCH
  | NATI_TRIG_GOTO_DDR
  | NATI_TRIG_GOTO_SRAM
  | NATI_TRIG_GET_TSTAMP
  | NATI_TRIG_LAST.

#[global] Instance ipa_nati_trigger_eq_dec : EqDecision ipa_nati_trigger.
Proof. solve_decision. Defined.

(** The index of the arrays of two, and such arrays. *)
Inductive mem_sub := DDR_SUB | SRAM_SUB.

Record two (A : Type) := mk_two { at_ddr : A; at_sram : A }.
Arguments mk_two {A}.
Arguments at_ddr {A}.
Arguments at_sram {A}.

Definition sub_get {A} (p : two A) (sub : mem_sub) : A :=
  match sub with DDR_SUB => at_ddr p | SRAM_SUB => at_sram p end.
Definition sub_set {A} (p : two A) (sub : mem_sub) (v : A) : two A :=
  match sub with DDR_SUB => mk_two v (at_sram p) | SRAM_SUB => mk_two (at_ddr p) v end.

Record nati_map_pair := mk_map_pair { orig2new_map : Z; new2orig_map : Z }.
Record nati_switch_stats := mk_sw_stats { pass : Z; fail : Z }.

Definition map_pairs : two nati_map_pair :=
  mk_two (mk_map_pair MAP_NUM_00 MAP_NUM_01) (mk_map_pair MAP_NUM_02 MAP_NUM_03).

Record ipa_nati_obj := mk_nati_obj {
  prev_state : ipa_nati_state;
  curr_state : ipa_nati_state;
  hold_state : bool;
  state_to_hold : ipa_nati_state;
  ddr_tbl_hdl : Z;
  sram_tbl_hdl : Z;
  tot_slots_in_sram : Z;
  back_to_sram_thresh : Z;
  tot_rules_in_table : two Z;
  sw_stats : two nati_switch_stats }.

Definition nati_obj0 : ipa_nati_obj :=
  mk_nati_obj NATI_STATE_NULL NATI_STATE_NULL false NATI_STATE_NULL 0 0 0 0
    (mk_two 0 0) (mk_two (mk_sw_stats 0 0) (mk_sw_stats 0 0)).

Section obj_setters.
Implicit Types (o : ipa_nati_obj).
Definition set_states o p c :=
  mk_nati_obj p c (hold_state o) (state_to_hold o) (ddr_tbl_hdl o) (sram_tbl_hdl o)
    (tot_slots_in_sram o) (back_to_sram_thresh o) (tot_rules_in_table o) (sw_stats o).
Definition set_hold o h s :=
  mk_nati_obj (prev_state o) (curr_state o) h s (ddr_tbl_hdl o) (sram_tbl_hdl o)
    (tot_slots_in_sram o) (back_to_sram_thresh o) (tot_rules_in_table o) (sw_stats o).
Definition set_ddr_hdl o v :=
  mk_nati_obj (prev_state o) (curr_state o) (hold_state o) (state_to_hold o) v (sram_tbl_hdl o)
    (tot_slots_in_sram o) (back_to_sram_thresh o) (tot_rules_in_table o) (sw_stats o).
Definition set_sram_hdl o v :=
  mk_nati_obj (prev_state o) (curr_state o) (hold_state o) (state_to_hold o) (ddr_tbl_hdl o) v
    (tot_slots_in_sram o) (back_to_sram_thresh o) (tot_rules_in_table o) (sw_stats o).
Definition set_slots o v t :=
  mk_nati_obj (prev_state o) (curr_state o) (hold_state o) (state_to_hold o) (ddr_tbl_hdl o)
    (sram_tbl_hdl o) v t (tot_rules_in_table o) (sw_stats o).
Definition set_tot_rules o sub v :=
  mk_nati_obj (prev_state o) (curr_state o) (hold_state o) (state_to_hold o) (ddr_tbl_hdl o)
    (sram_tbl_hdl o) (tot_slots_in_sram o) (back_to_sram_thresh o)
    (sub_set (tot_rules_in_table o) sub v) (sw_stats o).
Definition set_sw_stats o sub v :=
  mk_nati_obj (prev_state o) (curr_state o) (hold_state o) (state_to_hold o) (ddr_tbl_hdl o)
    (sram_tbl_hdl o) (tot_slots_in_sram o) (back_to_sram_thresh o) (tot_rules_in_table o)
    (sub_set (sw_stats o) sub v).
End obj_setters.

(** *** The macros on the object *)
Definition in_state (o : ipa_nati_obj) (s : ipa_nati_state) : bool := bool_decide (curr_state o = s).
Definition SET_NATIOBJ_STATE (o : ipa_nati_obj) (s : ipa_nati_state) : ipa_nati_obj :=
  set_states o (curr_state o) s.
Definition BACK2_UNSTARTED_STATE (o : ipa_nati_obj) : ipa_nati_obj :=
  set_states o NATI_STATE_NULL NATI_STATE_NULL.
Definition IN_UNSTARTED_STATE (o : ipa_nati_obj) : bool := bool_decide (prev_state o = NATI_STATE_NULL).
Definition IN_HYBRID_STATE (o : ipa_nati_obj) : bool :=
  in_state o NATI_STATE_HYBRID || in_state o NATI_STATE_HYBRID_DDR.
Definition COMPATIBLE_NMI_4SWITCH (o : ipa_nati_obj) (n : Z) : bool :=
  ((n =? IPA_NAT_MEM_IN_SRAM) && in_state o NATI_STATE_HYBRID_DDR) ||
  ((n =? IPA_NAT_MEM_IN_DDR) && in_state o NATI_STATE_HYBRID) ||
  ((n =? IPA_NAT_MEM_IN_DDR) && in_state o NATI_STATE_DDR_ONLY) ||
  ((n =? IPA_NAT_MEM_IN_SRAM) && in_state o NATI_STATE_SRAM_ONLY).
Definition GEN_HOLD_STATE (o : ipa_nati_obj) : ipa_nati_state :=
  if negb (IN_HYBRID_STATE o) then curr_state o
  else if in_state o NATI_STATE_HYBRID then NATI_STATE_SRAM_ONLY else NATI_STATE_DDR_ONLY.
Definition SRAM_CURRENTLY_ACTIVE (o : ipa_nati_obj) : bool :=
  in_state o NATI_STATE_SRAM_ONLY || in_state o NATI_STATE_HYBRID.
Definition SRAM_TO_BE_ACCESSED (o : ipa_nati_obj) (t : ipa_nati_trigger) : bool :=
  SRAM_CURRENTLY_ACTIVE o || bool_decide (t = NATI_TRIG_GOTO_SRAM) ||
  bool_decide (t = NATI_TRIG_TBL_SWITCH).
Definition VOTE_REQUIRED (o : ipa_nati_obj) (t : ipa_nati_trigger) : bool :=
  SRAM_TO_BE_ACCESSED o t && negb (bool_decide (t = NATI_TRIG_GET_TSTAMP)) &&
  negb (bool_decide (t = NATI_TRIG_ADD_TABLE)).
Definition CHOOSE_MEM_SUB (o : ipa_nati_obj) : mem_sub :=
  if in_state o NATI_STATE_HYBRID then SRAM_SUB else DDR_SUB.
Definition PRCNT_OF (v : Z) : Z := u32 (sf_trunc (f64_mul (f64_lit 25 100) (f64_of_Z v))).

(** [strcasecmp] in the C locale. *)
Definition tolower (c : ascii) : ascii :=
  let n := nat_of_ascii c in
  if (65 <=? n)%nat && (n <=? 90)%nat then ascii_of_nat (n + 32) else c.
Fixpoint strcasesame (a b : string) : bool :=
  match a, b with
  | EmptyString, EmptyString => true
  | String x a, String y b => bool_decide (tolower x = tolower y) && strcasesame a b
  | _, _ => false
  end.

(** [None] is NULL. *)
Definition mem_type_str_to_ipa_nati_state (str : option string) : ipa_nati_state :=
  match str with
  | Some s =>
      if strcasesame s "HYBRID" then NATI_STATE_HYBRID
      else if strcasesame s "SRAM" then NATI_STATE_SRAM_ONLY
      else NATI_STATE_DDR_ONLY
  | None => NATI_STATE_DDR_ONLY
  end.

(** ** The state *)
(** What the caller's pointers point to; [cl_walk] is the data of its walk callback. *)
Record client (W : Type) := mk_client {
  cl_tbl_hdl : Z;
  cl_rule : ipa_nat_ipv4_rule;
  cl_rule_hdl : Z;
  cl_time_stamp : Z;
  cl_stats : ipa_nati_tbl_stats * ipa_nati_tbl_stats;
  cl_walk : W }.
Arguments mk_client {W}.
Arguments cl_tbl_hdl {W}.
Arguments cl_rule {W}.
Arguments cl_rule_hdl {W}.
Arguments cl_time_stamp {W}.
Arguments cl_stats {W}.
Arguments cl_walk {W}.

Section client_setters.
Context {W : Type}.
Implicit Types c : client W.
Definition put_tbl_hdl v c :=
  mk_client v (cl_rule c) (cl_rule_hdl c) (cl_time_stamp c) (cl_stats c) (cl_walk c).
Definition put_rule v c :=
  mk_client (cl_tbl_hdl c) v (cl_rule_hdl c) (cl_time_stamp c) (cl_stats c) (cl_walk c).
Definition put_rule_hdl v c :=
  mk_client (cl_tbl_hdl c) (cl_rule c) v (cl_time_stamp c) (cl_stats c) (cl_walk c).
Definition put_time_stamp v c :=
  mk_client (cl_tbl_hdl c) (cl_rule c) (cl_rule_hdl c) v (cl_stats c) (cl_walk c).
Definition put_stats v c :=
  mk_client (cl_tbl_hdl c) (cl_rule c) (cl_rule_hdl c) (cl_time_stamp c) v (cl_walk c).
Definition put_walk (v : W) c :=
  mk_client (cl_tbl_hdl c) (cl_rule c) (cl_rule_hdl c) (cl_time_stamp c) (cl_stats c) v.
(** A pointer that the callee may not have written through. *)
Definition put_opt {A} (f : A -> client W -> client W) (o : option A) c : client W :=
  match o with Some v => f v c | None => c end.
End client_setters.

Record smach (W : Type) := mk_sm {
  sm_obj : ipa_nati_obj;
  sm_maps : map_arr;
  nat_mutex_init : bool;
  sm_client : client W }.
Arguments mk_sm {W}.
Arguments sm_obj {W}.
Arguments sm_maps {W}.
Arguments nat_mutex_init {W}.
Arguments sm_client {W}.

(** The pointer for a new table's handle: the caller's, or a local variable of
    [_smAddSramAndDdrTbl] that is not read. *)
Inductive hdl_ptr := ClientHdl | LocalHdl.

Section statemach.
Context {K : Type} `{Os : OsOps K} `{NOs : !NatOs K} `{U : IpaUapi} {W : Type}.

#[local] Notation D := (nat_globals * K)%type.
#[local] Notation SM := (St (smach W * D)).

Inductive sm_args :=
  | ArgsNone
  | ArgsAddTbl (public_ip_addr number_of_entries : Z) (tbl_hdl : hdl_ptr) (mem_type : option string)
  | ArgsHdl (tbl_hdl : Z)
  | ArgsWalk (tbl_hdl : Z) (which : WhichTbl2Use) (walk_cb : option (table_walk_cb (W * D)))
  | ArgsStats (tbl_hdl : Z)
  | ArgsRule (tbl_hdl : Z)
  | ArgsRuleHdl (tbl_hdl rule_hdl : Z).

Definition get_obj : SM ipa_nati_obj := fun s => Ok (sm_obj (fst s), s).
Definition mod_obj (f : ipa_nati_obj -> ipa_nati_obj) : SM unit := fun '(x, d) =>
  Ok (tt, (mk_sm (f (sm_obj x)) (sm_maps x) (nat_mutex_init x) (sm_client x), d)).
Definition get_client : SM (client W) := fun s => Ok (sm_client (fst s), s).
Definition mod_client (f : client W -> client W) : SM unit := fun '(x, d) =>
  Ok (tt, (mk_sm (sm_obj x) (sm_maps x) (nat_mutex_init x) (f (sm_client x)), d)).
(** A computation of the driver. *)
Definition drv {A} (m : St D A) : SM A := fun '(x, d) => '(a, d) ← m d; Ok (a, (x, d)).
Definition ub {A} : SM A := fun _ => UB.

(** The maps of [NatMap]. *)
Definition map_add (which key val : Z) : SM Z := fun '(x, d) =>
  '(ret, ms) ← ipa_nat_map_add (sm_maps x) which key val;
  Ok (ret, (mk_sm (sm_obj x) ms (nat_mutex_init x) (sm_client x), d)).
Definition map_find (which key : Z) : SM (Z * option Z) := fun '(x, d) =>
  r ← ipa_nat_map_find (sm_maps x) which key; Ok (r, (x, d)).
Definition map_del (which key : Z) : SM (Z * option Z) := fun '(x, d) =>
  '(ret, ms) ← ipa_nat_map_del (sm_maps x) which key;
  Ok (ret, (mk_sm (sm_obj x) ms (nat_mutex_init x) (sm_client x), d)).
Definition map_clear (which : Z) : SM Z := fun '(x, d) =>
  '(ret, ms) ← ipa_nat_map_clear (sm_maps x) which;
  Ok (ret, (mk_sm (sm_obj x) ms (nat_mutex_init x) (sm_client x), d)).
Definition clear_map_pair (sub : mem_sub) : SM unit :=
  _ ← map_clear (orig2new_map (sub_get map_pairs sub));
  _ ← map_clear (new2orig_map (sub_get map_pairs sub));
  mret tt.

Definition os_call {A} (f : K -> A * K) : SM A := drv (os f).

(** ** The mutex and the clock *)
Definition get_mutex_init : SM bool := fun s => Ok (nat_mutex_init (fst s), s).
Definition set_mutex_init : SM unit := fun '(x, d) =>
  Ok (tt, (mk_sm (sm_obj x) (sm_maps x) true (sm_client x), d)).

Definition mutex_init : SM Z :=
  ret ← os_call pthread_mutexattr_init;
  if negb (ret =? 0) then mret ret
  else
    ret ← os_call pthread_mutexattr_settype;
    if negb (ret =? 0) then mret ret
    else
      ret ← os_call (pthread_mutex_init nat_mutex);
      if negb (ret =? 0) then mret ret
      else
        _ ← set_mutex_init; mret ret.

Definition take_mutex : SM Z :=
  i ← get_mutex_init;
  if (i : bool) then os_call (pthread_mutex_lock nat_mutex)
  else
    ret ← mutex_init;
    if ret =? 0 then os_call (pthread_mutex_lock nat_mutex) else mret ret.

Definition give_mutex : SM Z :=
  i ← get_mutex_init;
  if (i : bool) then os_call (pthread_mutex_unlock nat_mutex) else mret (-1).

(** [ipa_nat_drv.c]. *)
Definition ipa_nat_vote_clock (vote_type : Z) : SM Z :=
  if negb ((vote_type >=? IPA_APP_CLK_DEVOTE) && (vote_type <=? IPA_APP_CLK_RESET_VOTE))
  then mret (- EINVAL)
  else drv (ipa_nati_vote_clock vote_type).

(** ** Migration of one rule *)
Definition migrated_rule (r : ipa_nat_rule) : ipa_nat_ipv4_rule :=
  mk_ipv4_rule (r_target_ip r) (r_private_ip r) (r_target_port r) (r_private_port r)
    (r_public_port r) (r_protocol r) (r_pdn_index r) (r_redirect r) (r_enable r)
    (r_time_stamp r) (r_uc_activation_index r) (negb (r_s r =? 0)) (negb (r_ucp r =? 0))
    (negb (r_dst_only r =? 0)) (negb (r_src_only r =? 0)).

(** The second half, on the state machine's state: the rule goes to the destination
    table and the original handle to its maps. *)
Definition migrate_record (dst_tbl_hdl : Z) (src dst : mem_sub) (tbl_rule_hdl : Z)
    (nat_rule : ipa_nat_rule) : SM Z :=
  if r_protocol nat_rule =? IPA_NAT_INVALID_PROTO_FIELD_VALUE_IN_RULE then mret 0
  else
    '(ret, orig) ← map_find (new2orig_map (sub_get map_pairs src)) tbl_rule_hdl;
    if negb (ret =? 0) then mret ret
    else
      orig_rule_hdl ← st_lift (deref orig);
      '(ret, new) ← drv (ipa_NATI_add_ipv4_rule dst_tbl_hdl (migrated_rule nat_rule));
      if negb (ret =? 0) then mret ret
      else
        new_rule_hdl ← st_lift (deref new);
        _ ← mod_obj (fun o => set_tot_rules o dst (u32 (sub_get (tot_rules_in_table o) dst + 1)));
        ret ← map_add (orig2new_map (sub_get map_pairs dst)) orig_rule_hdl new_rule_hdl;
        if negb (ret =? 0) then mret ret
        else map_add (new2orig_map (sub_get map_pairs dst)) new_rule_hdl orig_rule_hdl.

Definition migrate_rule : walk_cb_type (E := ipa_nat_rule) ((Z * smach W) * D) :=
  fun table_ptr tbl_rule_hdl record_ptr _ _ _ '((dst_tbl_hdl, x), d) =>
    nat_rule ← rec_at table_ptr record_ptr;
    let '(src, dst) :=
      if nmi table_ptr =? IPA_NAT_MEM_IN_SRAM then (SRAM_SUB, DDR_SUB) else (DDR_SUB, SRAM_SUB) in
    '(ret, (x, d)) ← migrate_record dst_tbl_hdl src dst tbl_rule_hdl nat_rule (x, d);
    Ok (ret, ((dst_tbl_hdl, x), d)).

(** [migrate_rule] is only given records of the NAT table. *)
Definition migrate_cb : table_walk_cb ((Z * smach W) * D) :=
  mk_walk_cb migrate_rule (fun _ _ _ _ _ _ _ => UB).

Definition copy_ipv4_tbl (src_tbl_hdl dst_tbl_hdl : Z) : SM Z := fun '(x, d) =>
  '((ret, x), d) ← ipa_nati_copy_ipv4_tbl src_tbl_hdl dst_tbl_hdl (Some migrate_cb) x d;
  Ok (ret, (x, d)).

(** ** The callbacks

    [sm] is the state machine itself, which some of them enter again. *)
Section callbacks.
Context (sm : ipa_nati_trigger -> sm_args -> SM Z).

Definition _smUndef : SM Z := mret (-1).

Definition _smDelTbl (args : sm_args) : SM Z :=
  match args with
  | ArgsHdl tbl_hdl =>
      ret ← drv (ipa_NATI_del_ipv4_table tbl_hdl);
      o ← get_obj;
      _ ← (if (ret =? 0) && negb (IN_HYBRID_STATE o) then mod_obj BACK2_UNSTARTED_STATE else mret tt);
      mret ret
  | _ => ub
  end.

Definition _smFirstTbl (args : sm_args) : SM Z :=
  match args with
  | ArgsAddTbl _ _ _ mem_type_ptr =>
      _ ← mod_obj (fun o => SET_NATIOBJ_STATE o
            (if hold_state o && negb (bool_decide (state_to_hold o = NATI_STATE_NULL))
             then state_to_hold o
             else mem_type_str_to_ipa_nati_state mem_type_ptr));
      sm NATI_TRIG_ADD_TABLE args
  | _ => ub
  end.

(** [*tbl_hdl_ptr = v]. *)
Definition write_tbl_hdl (p : hdl_ptr) (v : Z) : SM unit :=
  match p with ClientHdl => mod_client (put_tbl_hdl v) | LocalHdl => mret tt end.

Definition _smAddDdrTbl (args : sm_args) : SM Z :=
  match args with
  | ArgsAddTbl public_ip_addr number_of_entries tbl_hdl_ptr _ =>
      '(ret, hdl) ← drv (ipa_NATI_add_ipv4_tbl IPA_NAT_MEM_IN_DDR public_ip_addr number_of_entries);
      _ ← mod_obj (fun o => set_ddr_hdl o hdl);
      _ ← (if ret =? 0 then write_tbl_hdl tbl_hdl_ptr hdl else mret tt);
      mret ret
  | _ => ub
  end.

(** [&tot_slots_in_sram] is passed as a [uint16_t *]: the low half is written. *)
Definition write_slots (num : Z) (o : ipa_nati_obj) : ipa_nati_obj :=
  set_slots o (Z.lor (Z.land (tot_slots_in_sram o) 4294901760) num) (back_to_sram_thresh o).

Definition _smAddSramTbl (args : sm_args) : SM Z :=
  match args with
  | ArgsAddTbl public_ip_addr _ tbl_hdl_ptr _ =>
      '(ret, size) ← drv ipa_nati_get_sram_size;
      if negb (ret =? 0) then mret ret
      else
        sram_size ← st_lift (deref size);
        '(ret, num) ← st_lift (ipa_calc_num_sram_table_entries sram_size
                                 sizeof_ipa_nat_rule sizeof_ipa_nat_indx_tbl_rule);
        _ ← mod_obj (write_slots num);
        if negb (ret =? 0) then mret ret
        else
          _ ← mod_obj (fun o => set_slots o (tot_slots_in_sram o) (PRCNT_OF (tot_slots_in_sram o)));
          ret ← ipa_nat_vote_clock IPA_APP_CLK_VOTE;
          if negb (ret =? 0) then mret ret
          else
            o ← get_obj;
            '(ret, hdl) ← drv (ipa_NATI_add_ipv4_tbl IPA_NAT_MEM_IN_SRAM public_ip_addr
                                 (u16 (tot_slots_in_sram o)));
            _ ← mod_obj (fun o => set_sram_hdl o hdl);
            _ ← ipa_nat_vote_clock IPA_APP_CLK_DEVOTE;
            _ ← (if ret =? 0 then write_tbl_hdl tbl_hdl_ptr hdl else mret tt);
            mret ret
  | _ => ub
  end.

(** The counters and the maps of both tables. *)
Definition forget_rules : SM unit :=
  _ ← mod_obj (fun o => set_tot_rules (set_tot_rules o SRAM_SUB 0) DDR_SUB 0);
  _ ← clear_map_pair SRAM_SUB;
  clear_map_pair DDR_SUB.

Definition _smAddSramAndDdrTbl (args : sm_args) : SM Z :=
  match args with
  | ArgsAddTbl public_ip_addr number_of_entries _ _ =>
      _ ← forget_rules;
      ret ← _smAddSramTbl args;
      if ret =? 0 then
        o ← get_obj;
        if tot_slots_in_sram o >=? number_of_entries then
          _ ← mod_obj (fun o => SET_NATIOBJ_STATE o NATI_STATE_SRAM_ONLY);
          mret ret
        else
          ret ← _smAddDdrTbl (ArgsAddTbl public_ip_addr number_of_entries LocalHdl None);
          if ret =? 0 then sm NATI_TRIG_GOTO_SRAM ArgsNone else mret ret
      else
        ret ← _smAddDdrTbl args;
        _ ← (if ret =? 0 then mod_obj (fun o => SET_NATIOBJ_STATE o NATI_STATE_DDR_ONLY) else mret tt);
        mret ret
  | _ => ub
  end.

Definition _smDelSramAndDdrTbl (args : sm_args) : SM Z :=
  _ ← forget_rules;
  ret ← _smDelTbl args;
  ret ← (if ret =? 0 then o ← get_obj; _smDelTbl (ArgsHdl (ddr_tbl_hdl o)) else mret ret);
  _ ← (if ret =? 0 then mod_obj BACK2_UNSTARTED_STATE else mret tt);
  mret ret.

Definition _smClrTbl (args : sm_args) : SM Z :=
  match args with
  | ArgsHdl tbl_hdl =>
      let '(nmi, _) := BREAK_TBL_HDL tbl_hdl in
      if negb (IPA_VALID_NAT_MEM_IN nmi) then mret (- EINVAL)
      else
        let sub := if nmi =? IPA_NAT_MEM_IN_SRAM then SRAM_SUB else DDR_SUB in
        _ ← mod_obj (fun o => set_tot_rules o sub 0);
        _ ← clear_map_pair sub;
        drv (ipa_NATI_clear_ipv4_tbl tbl_hdl)
  | _ => ub
  end.

(** In a hybrid state the caller's handle is the SRAM table's. *)
Definition current_hdl (o : ipa_nati_obj) (tbl_hdl : Z) : Z :=
  if in_state o NATI_STATE_HYBRID then tbl_hdl else ddr_tbl_hdl o.

Definition _smClrTblHybrid (args : sm_args) : SM Z :=
  match args with
  | ArgsHdl tbl_hdl => o ← get_obj; _smClrTbl (ArgsHdl (current_hdl o tbl_hdl))
  | _ => ub
  end.

Definition _smWalkTbl (args : sm_args) : SM Z :=
  match args with
  | ArgsWalk tbl_hdl which walk_cb =>
      c ← get_client;
      '(ret, w) ← drv (ipa_NATI_walk_ipv4_tbl tbl_hdl which walk_cb (cl_walk c));
      _ ← mod_client (put_walk w);
      mret ret
  | _ => ub
  end.

Definition _smWalkTblHybrid (args : sm_args) : SM Z :=
  match args with
  | ArgsWalk tbl_hdl which walk_cb =>
      o ← get_obj; _smWalkTbl (ArgsWalk (current_hdl o tbl_hdl) which walk_cb)
  | _ => ub
  end.

Definition _smStatTbl (args : sm_args) : SM Z :=
  match args with
  | ArgsStats tbl_hdl =>
      '(ret, stats) ← drv (ipa_NATI_ipv4_tbl_stats tbl_hdl);
      _ ← mod_client (put_opt put_stats stats);
      mret ret
  | _ => ub
  end.

Definition _smStatTblHybrid (args : sm_args) : SM Z :=
  match args with
  | ArgsStats tbl_hdl => o ← get_obj; _smStatTbl (ArgsStats (current_hdl o tbl_hdl))
  | _ => ub
  end.

(** The assignment to three members of the caller's rule. *)
Definition clear_rule_flags (u : ipa_nat_ipv4_rule) : ipa_nat_ipv4_rule :=
  mk_ipv4_rule (u_target_ip u) (u_private_ip u) (u_target_port u) (u_private_port u)
    (u_public_port u) (u_protocol u) (u_pdn_index u) 0 0 0 (u_uc_activation_index u)
    (u_s u) (u_ucp u) (u_dst_only u) (u_src_only u).

(** [CHOOSE_CNTR()] and the update of the counter. *)
Definition count_rules (by_ : Z) : SM unit :=
  mod_obj (fun o => let sub := CHOOSE_MEM_SUB o in
    set_tot_rules o sub (u32 (sub_get (tot_rules_in_table o) sub + by_))).

Definition _smAddRuleToTbl (args : sm_args) : SM Z :=
  match args with
  | ArgsRule tbl_hdl =>
      _ ← mod_client (fun c => put_rule (clear_rule_flags (cl_rule c)) c);
      c ← get_client;
      '(ret, hdl) ← drv (ipa_NATI_add_ipv4_rule tbl_hdl (cl_rule c));
      _ ← mod_client (put_opt put_rule_hdl hdl);
      _ ← (if ret =? 0 then count_rules 1 else mret tt);
      mret ret
  | _ => ub
  end.

Definition _smDelRuleFromTbl (args : sm_args) : SM Z :=
  match args with
  | ArgsRuleHdl tbl_hdl rule_hdl =>
      ret ← drv (ipa_NATI_del_ipv4_rule tbl_hdl rule_hdl);
      _ ← (if ret =? 0 then count_rules (-1) else mret tt);
      mret ret
  | _ => ub
  end.

Definition _smAddRuleHybrid (args : sm_args) : SM Z :=
  match args with
  | ArgsRule tbl_hdl =>
      o ← get_obj;
      ret ← _smAddRuleToTbl (ArgsRule (current_hdl o tbl_hdl));
      o ← get_obj;
      if ret =? 0 then
        c ← get_client;
        let maps := sub_get map_pairs (CHOOSE_MEM_SUB o) in
        ret ← map_add (orig2new_map maps) (cl_rule_hdl c) (cl_rule_hdl c);
        if ret =? 0 then map_add (new2orig_map maps) (cl_rule_hdl c) (cl_rule_hdl c) else mret ret
      else if in_state o NATI_STATE_HYBRID && negb (hold_state o) then
        ret ← sm NATI_TRIG_TBL_SWITCH ArgsNone;
        if ret =? 0 then
          _ ← mod_obj (fun o => SET_NATIOBJ_STATE o NATI_STATE_HYBRID_DDR);
          sm NATI_TRIG_ADD_RULE args
        else mret ret
      else mret ret
  | _ => ub
  end.

(** The end of [_smDelRuleHybrid], in DDR: back to SRAM below the threshold. *)
Definition back_to_sram : SM Z :=
  o ← get_obj;
  if (sub_get (tot_rules_in_table o) (CHOOSE_MEM_SUB o) <=? back_to_sram_thresh o)
     && negb (hold_state o)
  then
    ret ← sm NATI_TRIG_TBL_SWITCH ArgsNone;
    if ret =? 0 then
      _ ← mod_obj (fun o => SET_NATIOBJ_STATE o NATI_STATE_HYBRID); mret ret
    else mret 0
  else mret 0.

Definition _smDelRuleHybrid (args : sm_args) : SM Z :=
  match args with
  | ArgsRuleHdl tbl_hdl orig_rule_hdl =>
      o ← get_obj;
      let maps := sub_get map_pairs (CHOOSE_MEM_SUB o) in
      '(ret, new) ← map_del (orig2new_map maps) orig_rule_hdl;
      if ret =? 0 then
        new_rule_hdl ← st_lift (deref new);
        _ ← map_del (new2orig_map maps) new_rule_hdl;
        ret ← _smDelRuleFromTbl (ArgsRuleHdl (current_hdl o tbl_hdl) new_rule_hdl);
        o ← get_obj;
        if (ret =? 0) && in_state o NATI_STATE_HYBRID_DDR then back_to_sram else mret ret
      else mret ret
  | _ => ub
  end.

Definition _smGoToDdr : SM Z :=
  o ← get_obj;
  ret ← drv (ipa_NATI_post_ipv4_init_cmd (ddr_tbl_hdl o));
  _ ← (if ret =? 0 then mod_obj (fun o => SET_NATIOBJ_STATE o NATI_STATE_HYBRID_DDR) else mret tt);
  mret ret.

Definition _smGoToSram : SM Z :=
  o ← get_obj;
  ret ← drv (ipa_NATI_post_ipv4_init_cmd (sram_tbl_hdl o));
  _ ← (if ret =? 0 then mod_obj (fun o => SET_NATIOBJ_STATE o NATI_STATE_HYBRID) else mret tt);
  mret ret.

(** [sw_stats_ptr->pass += 1] or [sw_stats_ptr->fail += 1]. *)
Definition count_switch (sub : mem_sub) (ok : bool) (o : ipa_nati_obj) : ipa_nati_obj :=
  let st := sub_get (sw_stats o) sub in
  set_sw_stats o sub (if ok then mk_sw_stats (u32 (pass st + 1)) (fail st)
                      else mk_sw_stats (pass st) (u32 (fail st + 1))).

(** The two switch functions: [src] is the table left, [dst] the one entered. *)
Definition time_now : SM unit :=
  _ ← os_call (fun k => let '(r, _, k) := currTimeAs (Some TimeAsNanSecs) false k in (r, k)); mret tt.

Definition collect_stats (args : sm_args) (src_tbl_hdl : Z) : SM unit :=
  match args with
  | ArgsNone => mret tt
  | _ => _ ← drv (ipa_NATI_ipv4_tbl_stats src_tbl_hdl); mret tt
  end.

Definition _smSwitchFromDdrToSram (args : sm_args) : SM Z :=
  o ← get_obj;
  let stats_sub := CHOOSE_MEM_SUB o in
  _ ← collect_stats args (ddr_tbl_hdl o);
  _ ← time_now;
  ret ← sm NATI_TRIG_GOTO_SRAM ArgsNone;
  if ret =? 0 then
    _ ← mod_obj (fun o => set_tot_rules o SRAM_SUB 0);
    _ ← clear_map_pair SRAM_SUB;
    o ← get_obj;
    ret ← copy_ipv4_tbl (ddr_tbl_hdl o) (sram_tbl_hdl o);
    _ ← time_now;
    _ ← mod_obj (count_switch stats_sub (ret =? 0));
    mret ret
  else mret ret.

Definition _smSwitchFromSramToDdr (args : sm_args) : SM Z :=
  o ← get_obj;
  let stats_sub := CHOOSE_MEM_SUB o in
  _ ← collect_stats args (sram_tbl_hdl o);
  _ ← time_now;
  ret ← sm NATI_TRIG_GOTO_DDR ArgsNone;
  if ret =? 0 then
    _ ← mod_obj (fun o => set_tot_rules o DDR_SUB 0);
    _ ← clear_map_pair DDR_SUB;
    o ← get_obj;
    ret ← copy_ipv4_tbl (sram_tbl_hdl o) (ddr_tbl_hdl o);
    _ ← time_now;
    _ ← mod_obj (count_switch stats_sub (ret =? 0));
    mret ret
  else mret ret.

Definition _smGetTmStmp (args : sm_args) : SM Z :=
  match args with
  | ArgsRuleHdl tbl_hdl rule_hdl =>
      '(ret, ts) ← drv (ipa_NATI_query_timestamp tbl_hdl rule_hdl);
      _ ← mod_client (put_opt put_time_stamp ts);
      mret ret
  | _ => ub
  end.

Definition _smGetTmStmpHybrid (args : sm_args) : SM Z :=
  match args with
  | ArgsRuleHdl tbl_hdl orig_rule_hdl =>
      o ← get_obj;
      '(ret, new) ← map_find (orig2new_map (sub_get map_pairs (CHOOSE_MEM_SUB o))) orig_rule_hdl;
      if ret =? 0 then
        new_rule_hdl ← st_lift (deref new);
        _smGetTmStmp (ArgsRuleHdl (current_hdl o tbl_hdl) new_rule_hdl)
      else mret ret
  | _ => ub
  end.

(** ** The table of callbacks *)
Definition _state_mach_tbl (state : ipa_nati_state) (trigger : ipa_nati_trigger) : sm_args -> SM Z :=
  let undef := fun _ : sm_args => _smUndef in
  match state, trigger with
  | NATI_STATE_NULL, NATI_TRIG_ADD_TABLE => _smFirstTbl

  | NATI_STATE_DDR_ONLY, NATI_TRIG_ADD_TABLE => _smAddDdrTbl
  | NATI_STATE_SRAM_ONLY, NATI_TRIG_ADD_TABLE => _smAddSramTbl
  | (NATI_STATE_DDR_ONLY | NATI_STATE_SRAM_ONLY), NATI_TRIG_DEL_TABLE => _smDelTbl
  | (NATI_STATE_DDR_ONLY | NATI_STATE_SRAM_ONLY), NATI_TRIG_CLR_TABLE => _smClrTbl
  | (NATI_STATE_DDR_ONLY | NATI_STATE_SRAM_ONLY), NATI_TRIG_WLK_TABLE => _smWalkTbl
  | (NATI_STATE_DDR_ONLY | NATI_STATE_SRAM_ONLY), NATI_TRIG_TBL_STATS => _smStatTbl
  | (NATI_STATE_DDR_ONLY | NATI_STATE_SRAM_ONLY), NATI_TRIG_ADD_RULE => _smAddRuleToTbl
  | (NATI_STATE_DDR_ONLY | NATI_STATE_SRAM_ONLY), NATI_TRIG_DEL_RULE => _smDelRuleFromTbl
  | (NATI_STATE_DDR_ONLY | NATI_STATE_SRAM_ONLY), NATI_TRIG_GET_TSTAMP => _smGetTmStmp

  | NATI_STATE_HYBRID, NATI_TRIG_ADD_TABLE => _smAddSramAndDdrTbl
  | NATI_STATE_HYBRID, NATI_TRIG_TBL_SWITCH => _smSwitchFromSramToDdr
  | NATI_STATE_HYBRID_DDR, NATI_TRIG_TBL_SWITCH => _smSwitchFromDdrToSram
  | (NATI_STATE_HYBRID | NATI_STATE_HYBRID_DDR), NATI_TRIG_DEL_TABLE => _smDelSramAndDdrTbl
  | (NATI_STATE_HYBRID | NATI_STATE_HYBRID_DDR), NATI_TRIG_CLR_TABLE => _smClrTblHybrid
  | (NATI_STATE_HYBRID | NATI_STATE_HYBRID_DDR), NATI_TRIG_WLK_TABLE => _smWalkTblHybrid
  | (NATI_STATE_HYBRID | NATI_STATE_HYBRID_DDR), NATI_TRIG_TBL_STATS => _smStatTblHybrid
  | (NATI_STATE_HYBRID | NATI_STATE_HYBRID_DDR), NATI_TRIG_ADD_RULE => _smAddRuleHybrid
  | (NATI_STATE_HYBRID | NATI_STATE_HYBRID_DDR), NATI_TRIG_DEL_RULE => _smDelRuleHybrid
  | (NATI_STATE_HYBRID | NATI_STATE_HYBRID_DDR), NATI_TRIG_GOTO_DDR => fun _ => _smGoToDdr
  | (NATI_STATE_HYBRID | NATI_STATE_HYBRID_DDR), NATI_TRIG_GOTO_SRAM => fun _ => _smGoToSram
  | (NATI_STATE_HYBRID | NATI_STATE_HYBRID_DDR), NATI_TRIG_GET_TSTAMP => _smGetTmStmpHybrid

  | _, _ => undef
  end.

(** ** One entry into the state machine *)
Definition statemach_step (trigger : ipa_nati_trigger) (args : sm_args) : SM Z :=
  ret ← take_mutex;
  if negb (ret =? 0) then mret ret
  else
    o ← get_obj;
    let vote := VOTE_REQUIRED o trigger in
    voted ← (if vote then ipa_nat_vote_clock IPA_APP_CLK_VOTE else mret 0);
    if negb (voted =? 0) then give_mutex
    else
      o ← get_obj;
      _ ← _state_mach_tbl (curr_state o) trigger args;
      _ ← (if vote then ipa_nat_vote_clock IPA_APP_CLK_DEVOTE else mret 0);
      give_mutex.
End callbacks.

(** The callbacks' calls of the state machine nest: [depth] bounds it. *)
Fixpoint ipa_nati_statemach (depth : nat) (trigger : ipa_nati_trigger) (args : sm_args) : SM Z :=
  match depth with
  | O => fun _ => Diverge
  | Datatypes.S d => statemach_step (ipa_nati_statemach d) trigger args
  end.

(** A trigger, the switch it makes and the change of focus the switch makes. *)
Definition STATEMACH_DEPTH : nat := 3.
Definition statemach : ipa_nati_trigger -> sm_args -> SM Z := ipa_nati_statemach STATEMACH_DEPTH.

(** ** The functions that enter it *)
Definition ipa_nati_add_ipv4_tbl (public_ip_addr : Z) (mem_type_ptr : option string)
    (number_of_entries : Z) : SM Z :=
  statemach NATI_TRIG_ADD_TABLE (ArgsAddTbl public_ip_addr number_of_entries ClientHdl mem_type_ptr).
Definition ipa_nati_del_ipv4_table (tbl_hdl : Z) : SM Z :=
  statemach NATI_TRIG_DEL_TABLE (ArgsHdl tbl_hdl).
Definition ipa_nati_clear_ipv4_tbl (tbl_hdl : Z) : SM Z :=
  statemach NATI_TRIG_CLR_TABLE (ArgsHdl tbl_hdl).
Definition ipa_nati_walk_ipv4_tbl (tbl_hdl : Z) (which : WhichTbl2Use)
    (walk_cb : option (table_walk_cb (W * D))) : SM Z :=
  statemach NATI_TRIG_WLK_TABLE (ArgsWalk tbl_hdl which walk_cb).
Definition ipa_nati_ipv4_tbl_stats (tbl_hdl : Z) : SM Z :=
  statemach NATI_TRIG_TBL_STATS (ArgsStats tbl_hdl).
Definition ipa_nati_add_ipv4_rule (tbl_hdl : Z) : SM Z :=
  statemach NATI_TRIG_ADD_RULE (ArgsRule tbl_hdl).
Definition ipa_nati_del_ipv4_rule (tbl_hdl rule_hdl : Z) : SM Z :=
  statemach NATI_TRIG_DEL_RULE (ArgsRuleHdl tbl_hdl rule_hdl).
Definition ipa_nati_query_timestamp (tbl_hdl rule_hdl : Z) : SM Z :=
  statemach NATI_TRIG_GET_TSTAMP (ArgsRuleHdl tbl_hdl rule_hdl).

(** [ipa_nat_switch_to] between [take_mutex] and [unlock]. *)
Definition switch_to_locked (nmi : Z) (hold : bool) : SM Z :=
  o ← get_obj;
  if IN_UNSTARTED_STATE o then
    _ ← mod_obj (fun o => set_hold o hold
          (if nmi =? IPA_NAT_MEM_IN_DDR then NATI_STATE_DDR_ONLY else NATI_STATE_SRAM_ONLY));
    mret 0
  else if IN_HYBRID_STATE o then
    ret ← (if COMPATIBLE_NMI_4SWITCH o nmi then statemach NATI_TRIG_TBL_SWITCH ArgsNone else mret 0);
    if ret =? 0 then
      _ ← mod_obj (fun o => set_hold o hold (if hold then GEN_HOLD_STATE o else state_to_hold o));
      mret ret
    else mret ret
  else if hold then
    if COMPATIBLE_NMI_4SWITCH o nmi then
      _ ← mod_obj (fun o => set_hold o hold (GEN_HOLD_STATE o)); mret 0
    else mret (-1)
  else
    _ ← mod_obj (fun o => set_hold o hold NATI_STATE_NULL); mret 0.

Definition ipa_nat_switch_to (nmi : Z) (hold : bool) : SM Z :=
  if negb (IPA_VALID_NAT_MEM_IN nmi) then mret (-1)
  else
    ret ← take_mutex;
    if negb (ret =? 0) then mret ret
    else _ ← switch_to_locked nmi hold; give_mutex.

Definition ipa_nat_is_sram_supported : SM bool :=
  o ← get_obj; mret (VALID_TBL_HDL (sram_tbl_hdl o)).
End statemach.
