(* ===== verification/NatDrv.v ===== *)
(** * The client interface ([dataipa/ipanat/src/ipa_nat_drv.c])

    The functions an application calls: checks of the arguments in front of the
    state machine and of the PDN functions of the driver.  A [_null] argument says
    that a pointer is NULL; what the others point to is the [sm_client] of the
    state.  [ipa_nat_vote_clock] is in [NatStatemach]. *)

From Stdlib Require Import ZArith Lia Ascii String.
From stdpp Require Import prelude gmap list numbers strings.
From S2P Require Import Prelude CFloat IpaTable Os NatUtils NatMap NatRule NatDrvi NatStatemach.

Local Open Scope Z_scope.

Section drv_api.
Context {K : Type} `{Os : OsOps K} `{NOs : !NatOs K} `{U : IpaUapi} {W : Type}.

#[local] Notation D := (nat_globals * K)%type.
#[local] Notation SM := (St (smach W * D)).

Definition ipa_nat_add_ipv4_tbl (public_ip_addr : Z) (mem_type_ptr : option string)
    (number_of_entries : Z) (tbl_hdl_null : bool) : SM Z :=
  match mem_type_ptr with
  | None => mret (- EINVAL)
  | Some _ =>
      if tbl_hdl_null || (number_of_entries =? 0) then mret (- EINVAL)
      else
        _ ← mod_client (put_tbl_hdl 0);
        ipa_nati_add_ipv4_tbl public_ip_addr mem_type_ptr number_of_entries
  end.

Definition ipa_nat_del_ipv4_tbl (tbl_hdl : Z) : SM Z :=
  if negb (VALID_TBL_HDL tbl_hdl) then mret (- EINVAL) else ipa_nati_del_ipv4_table tbl_hdl.

Definition ipa_nat_add_ipv4_rule (tbl_hdl : Z) (clnt_rule_null rule_hdl_null : bool) : SM Z :=
  if negb (VALID_TBL_HDL tbl_hdl) || rule_hdl_null || clnt_rule_null then mret (- EINVAL)
  else
    ret ← ipa_nati_add_ipv4_rule tbl_hdl;
    mret (if negb (ret =? 0) then - EINVAL else 0).

Definition ipa_nat_del_ipv4_rule (tbl_hdl rule_hdl : Z) : SM Z :=
  if negb (VALID_TBL_HDL tbl_hdl) || negb (VALID_RULE_HDL rule_hdl) then mret (- EINVAL)
  else
    result ← ipa_nati_del_ipv4_rule tbl_hdl rule_hdl;
    mret (if negb (result =? 0) then result else 0).

Definition ipa_nat_query_timestamp (tbl_hdl rule_hdl : Z) (time_stamp_null : bool) : SM Z :=
  if negb (VALID_TBL_HDL tbl_hdl) || negb (VALID_RULE_HDL rule_hdl) || time_stamp_null
  then mret (- EINVAL)
  else ipa_nati_query_timestamp tbl_hdl rule_hdl.

(** [pdn_index] is a [uint8_t]. *)
Definition ipa_nat_modify_pdn (tbl_hdl pdn_index : Z) (pdn_info : option ipa_nat_pdn_entry) : SM Z :=
  match pdn_info with
  | None => mret (- EINVAL)
  | Some p =>
      if negb (VALID_TBL_HDL tbl_hdl) then mret (- EINVAL)
      else if pdn_index >? IPA_MAX_PDN_NUM then mret (- EINVAL)
      else
        drv (ipa_nati_modify_pdn
               (mk_ioc_pdn pdn_index (public_ip p) (src_metadata p) (dst_metadata p)))
  end.

(** Status and [*pdn_index] when written. *)
Definition ipa_nat_get_pdn_index (public_ip : Z) (pdn_index_null : bool) : SM (Z * option Z) :=
  if pdn_index_null then mret (- EINVAL, None) else drv (ipa_nati_get_pdn_index public_ip).

Definition ipa_nat_alloc_pdn (pdn_info : option ipa_nat_pdn_entry) (pdn_index_null : bool) :
    SM (Z * option Z) :=
  match pdn_info with
  | None => mret (- EINVAL, None)
  | Some p => if pdn_index_null then mret (- EINVAL, None) else drv (ipa_nati_alloc_pdn p)
  end.

Definition ipa_nat_get_pdn_count (pdn_cnt_null : bool) : SM (Z * option Z) :=
  if pdn_cnt_null then mret (- EINVAL, None)
  else n ← drv ipa_nati_get_pdn_cnt; mret (0, Some (u8 n)).

Definition ipa_nat_dealloc_pdn (pdn_index : Z) : SM Z :=
  if pdn_index >? IPA_MAX_PDN_NUM then mret (- EINVAL) else drv (ipa_nati_dealloc_pdn pdn_index).
End drv_api.
