(* ===== verification/NatSmLaws.v ===== *)
(** * Laws of the state machine

    The nesting of its calls, what a callback cannot change, and the states it can
    reach. *)

From Stdlib Require Import ZArith Lia Ascii String.
From stdpp Require Import prelude gmap list numbers strings.
From S2P Require Import Prelude CFloat IpaTable Os NatUtils NatMap NatRule NatDrvi NatStatemach.

Local Open Scope Z_scope.

(** ** Walks keep what their callback keeps *)
Section walk_keeps.
Context {E D : Type} `{EntryOps E D} {S : Type} (R : S -> S -> Prop) `{!PreOrder R}.

Lemma walk_loop_keeps t w (cb : walk_cb_type S) tot f i p s ret s' :
  (forall h p i m j s r s', cb t h p i m j s = Ok (r, s') -> R s s') ->
  ipa_table_walk_loop f t w cb tot i p s = Ok (ret, s') -> R s s'.
Proof.
  intros Hcb. revert i p s. induction f as [|f IH]; intros i p s; cbn [ipa_table_walk_loop].
  { destruct (i <? tot); [done|]. intros [= <- <-]. reflexivity. }
  destruct (i <? tot); [|by intros [= <- <-]].
  destruct (rec_at t p) as [e| |]; [|done..]. cbn [mbind res_bind].
  destruct (if entry_is_valid e then _ else _); [|by apply IH].
  match goal with |- context [let '(_, _) := ?x in _] => destruct x as [mp mi] end.
  destruct (cb t _ p i mp mi s) as [[r s1]| |] eqn:Hc; [|done..]. cbn [mbind res_bind].
  apply Hcb in Hc. destruct (negb (r =? 0)).
  - by intros [= <- <-].
  - intros Hr. etrans; [exact Hc|]. by eapply IH.
Qed.

Lemma walk_keeps t start w (cb : walk_cb_type S) s ret s' :
  (forall h p i m j s r s', cb t h p i m j s = Ok (r, s') -> R s s') ->
  ipa_table_walk t start w cb s = Ok (ret, s') -> R s s'.
Proof.
  intros Hcb. unfold ipa_table_walk. destruct (negb _); [by intros [= <- <-]|].
  cbv zeta. destruct (start >=? _); [by intros [= <- <-]|]. by apply walk_loop_keeps.
Qed.
End walk_keeps.

Section laws.
Context {K : Type} `{Os : OsOps K} `{NOs : !NatOs K} `{U : IpaUapi} {W : Type}.

#[local] Notation D := (nat_globals * K)%type.
#[local] Notation SM := (St (smach W * D)).
#[local] Notation trigger := ipa_nati_trigger.
#[local] Notation rec_type := (trigger -> sm_args (K := K) (W := W) -> SM Z).

(** ** Inversion of runs *)
Lemma drv_inv {A} (m : St D A) (x : smach W) d a x' d' :
  drv m (x, d) = Ok (a, (x', d')) -> x' = x /\ m d = Ok (a, d').
Proof. unfold drv. destruct (m d) as [[b e]| |]; cbn; intros [=]; by subst. Qed.

Lemma drv_run {A} (m : St D A) (x : smach W) d a d' :
  m d = Ok (a, d') -> drv m (x, d) = Ok (a, (x, d')).
Proof. unfold drv. by intros ->. Qed.

Lemma lift_inv {S A} (r : res A) (s : S) a s' : st_lift r s = Ok (a, s') -> s' = s /\ r = Ok a.
Proof. unfold st_lift. destruct r; cbn; intros [=]; by subst. Qed.

(** The object, the maps and the caller's memory stay; an initialised mutex stays so. *)
Record same_sm (x x' : smach W) : Prop := {
  same_obj : sm_obj x' = sm_obj x;
  same_maps : sm_maps x' = sm_maps x;
  same_client : sm_client x' = sm_client x;
  same_init : nat_mutex_init x = true -> nat_mutex_init x' = true }.

#[global] Instance same_sm_preorder : PreOrder same_sm.
Proof. split; [by split|]. intros x y z [] []. split; try congruence. auto. Qed.

End laws.

(** One step of the inversion of a run of [SM]. *)
Ltac sm_inv1 :=
  match goal with
  | H : (_ ≫= _) _ = Ok _ |- _ => apply bind_inv in H as (? & [? ?] & ? & H)
  | H : drv _ (_, _) = Ok (_, (_, _)) |- _ => apply drv_inv in H as [? ?]
  | H : os_call _ (_, _) = Ok (_, (_, _)) |- _ => apply drv_inv in H as [? ?]
  | H : st_lift _ _ = Ok (_, _) |- _ => apply lift_inv in H as [? ?]
  | H : mret _ _ = Ok _ |- _ => injection H as ? ?
  | H : ub _ = Ok _ |- _ => discriminate H
  | H : get_obj _ = Ok _ |- _ => injection H as ? ?
  | H : get_client _ = Ok _ |- _ => injection H as ? ?
  | H : get_mutex_init _ = Ok _ |- _ => injection H as ? ?
  | H : set_mutex_init _ = Ok _ |- _ => injection H as ? ?
  | H : mod_obj _ _ = Ok _ |- _ => injection H as ? ?
  | H : mod_client _ _ = Ok _ |- _ => injection H as ? ?
  | H : (if ?b then _ else _) _ = Ok _ |- _ => destruct b eqn:?
  | H : (match ?b with _ => _ end) _ = Ok _ |- _ => destruct b eqn:?
  end.
Ltac sm_inv := repeat (sm_inv1; simplify_eq).

Section frames.
Context {K : Type} `{Os : OsOps K} `{NOs : !NatOs K} `{U : IpaUapi} {W : Type}.
#[local] Notation D := (nat_globals * K)%type.
#[local] Notation SM := (St (smach W * D)).

Lemma take_mutex_frame x d ret x' d' :
  take_mutex (W := W) (x, d) = Ok (ret, (x', d')) ->
  same_sm x x' /\ (ret = 0 -> nat_mutex_init x' = true).
Proof.
  unfold take_mutex, mutex_init. intros H. sm_inv; cbn in *; zify_bool.
  all: split; [by split|intros; first [done|congruence]].
Qed.

Lemma give_mutex_frame x d ret x' d' :
  give_mutex (W := W) (x, d) = Ok (ret, (x', d')) -> x' = x.
Proof. unfold give_mutex. intros H. by sm_inv. Qed.

Lemma vote_frame v x d ret x' d' :
  ipa_nat_vote_clock (W := W) v (x, d) = Ok (ret, (x', d')) -> x' = x.
Proof. unfold ipa_nat_vote_clock. intros H. by sm_inv. Qed.
End frames.

Section nesting.
Context {K : Type} `{Os : OsOps K} `{NOs : !NatOs K} `{U : IpaUapi} {W : Type}.
#[local] Notation D := (nat_globals * K)%type.
#[local] Notation SM := (St (smach W * D)).
#[local] Notation rec_type := (ipa_nati_trigger -> sm_args (K := K) (W := W) -> SM Z).
Implicit Types (sm : rec_type).

(** ** Nesting *)
(** The callback of a step decides whether two state machines differ. *)
Lemma step_ext sm1 sm2 t args x d :
  (forall x' d', sm_obj x' = sm_obj x ->
     _state_mach_tbl sm1 (curr_state (sm_obj x)) t args (x', d') =
     _state_mach_tbl sm2 (curr_state (sm_obj x)) t args (x', d')) ->
  statemach_step sm1 t args (x, d) = statemach_step sm2 t args (x, d).
Proof.
  intros H. unfold statemach_step. apply bind_ext. intros ret [x1 d1] [F1 _]%take_mutex_frame.
  destruct (negb (ret =? 0)); [done|]. apply bind_ext. intros o [x2 d2] [= <- <- <-].
  apply bind_ext. intros v [x2 d2] Hv.
  assert (x2 = x1) as ->.
  { revert Hv. cbv zeta. destruct (VOTE_REQUIRED _ _); [apply vote_frame|by intros [=]]. }
  destruct (negb (v =? 0)); [done|]. apply bind_ext. intros o [x2 d3] [= <- <- <-].
  rewrite (same_obj _ _ F1).
  unfold mbind, st_bind. by rewrite H by apply F1.
Qed.

(** Triggers whose callbacks do not enter the state machine again. *)
Definition calls_none (t : ipa_nati_trigger) : bool :=
  match t with
  | NATI_TRIG_ADD_TABLE | NATI_TRIG_ADD_RULE | NATI_TRIG_DEL_RULE | NATI_TRIG_TBL_SWITCH => false
  | _ => true
  end.

Lemma step_none sm1 sm2 t args s : calls_none t = true ->
  statemach_step sm1 t args s = statemach_step sm2 t args s.
Proof. destruct s as [x d]. intros Ht. apply step_ext. by destruct (curr_state _), t. Qed.

Ltac ext := repeat first
  [ reflexivity
  | match goal with
    | |- (if ?b then _ else _) _ = _ => destruct b
    | |- (match ?b with _ => _ end) _ = _ => destruct b
    | H : forall a s, ?sm1 ?t a s = _ |- ?sm1 ?t _ _ = _ => apply H
    end
  | apply bind_cong; [|intros ? ? _] ].

(** A switch of tables only moves the focus. *)
Lemma step_switch sm1 sm2 args s :
  (forall a s, sm1 NATI_TRIG_GOTO_DDR a s = sm2 NATI_TRIG_GOTO_DDR a s) ->
  (forall a s, sm1 NATI_TRIG_GOTO_SRAM a s = sm2 NATI_TRIG_GOTO_SRAM a s) ->
  statemach_step sm1 NATI_TRIG_TBL_SWITCH args s = statemach_step sm2 NATI_TRIG_TBL_SWITCH args s.
Proof.
  intros Hd Hs. destruct s as [x d]. apply step_ext. intros x' d' _.
  destruct (curr_state _); try done; cbn [_state_mach_tbl].
  - unfold _smSwitchFromSramToDdr. ext.
  - unfold _smSwitchFromDdrToSram. ext.
Qed.

Lemma step_del_rule sm1 sm2 args s :
  (forall a s, sm1 NATI_TRIG_TBL_SWITCH a s = sm2 NATI_TRIG_TBL_SWITCH a s) ->
  statemach_step sm1 NATI_TRIG_DEL_RULE args s = statemach_step sm2 NATI_TRIG_DEL_RULE args s.
Proof.
  intros Hd. destruct s as [x d]. apply step_ext. intros x' d' _.
  destruct (curr_state _); try done; cbn [_state_mach_tbl]; unfold _smDelRuleHybrid, back_to_sram; ext.
Qed.

(** Outside the NULL state a table is added with a change of focus at most. *)
Lemma step_add_tbl_started sm1 sm2 args x d :
  (forall a s, sm1 NATI_TRIG_GOTO_SRAM a s = sm2 NATI_TRIG_GOTO_SRAM a s) ->
  curr_state (sm_obj x) <> NATI_STATE_NULL ->
  statemach_step sm1 NATI_TRIG_ADD_TABLE args (x, d) = statemach_step sm2 NATI_TRIG_ADD_TABLE args (x, d).
Proof.
  intros Hs Hne. apply step_ext. intros x' d' _.
  destruct (curr_state _); try done; cbn [_state_mach_tbl]. unfold _smAddSramAndDdrTbl. ext.
Qed.

Lemma first_state_started str : mem_type_str_to_ipa_nati_state str <> NATI_STATE_NULL.
Proof. unfold mem_type_str_to_ipa_nati_state. by repeat case_match. Qed.

Lemma step_add_tbl sm1 sm2 args s :
  (forall a s, sm1 NATI_TRIG_GOTO_SRAM a s = sm2 NATI_TRIG_GOTO_SRAM a s) ->
  (forall a x d, curr_state (sm_obj x) <> NATI_STATE_NULL ->
     sm1 NATI_TRIG_ADD_TABLE a (x, d) = sm2 NATI_TRIG_ADD_TABLE a (x, d)) ->
  statemach_step sm1 NATI_TRIG_ADD_TABLE args s = statemach_step sm2 NATI_TRIG_ADD_TABLE args s.
Proof.
  intros Hs Ha. destruct s as [x d].
  destruct (decide (curr_state (sm_obj x) = NATI_STATE_NULL)) as [Hn|Hn]; [|by apply step_add_tbl_started].
  apply step_ext. intros x' d' Hx. rewrite Hn. cbn [_state_mach_tbl]. unfold _smFirstTbl.
  destruct args; try done. apply bind_ext. intros [] [x1 d1] [= <- <-]. apply Ha. cbn.
  destruct (hold_state _); cbn [andb]; [|apply first_state_started].
  case_bool_decide; cbn [negb]; [apply first_state_started|done].
Qed.

(** The addition of a rule keeps the state, so that the second one cannot switch. *)
Lemma add_to_tbl_frame args (x : smach W) d ret x' d' :
  _smAddRuleToTbl args (x, d) = Ok (ret, (x', d')) ->
  curr_state (sm_obj x') = curr_state (sm_obj x).
Proof.
  unfold _smAddRuleToTbl, count_rules. intros H. destruct args; try discriminate H.
  by sm_inv.
Qed.

Lemma step_add_rule_ddr sm1 sm2 args x d :
  curr_state (sm_obj x) <> NATI_STATE_HYBRID ->
  statemach_step sm1 NATI_TRIG_ADD_RULE args (x, d) = statemach_step sm2 NATI_TRIG_ADD_RULE args (x, d).
Proof.
  intros Hne. apply step_ext. intros x' d' Hx.
  destruct (curr_state (sm_obj x)) eqn:Hc; try done; cbn [_state_mach_tbl]. unfold _smAddRuleHybrid.
  destruct args; try done. apply bind_ext. intros o [x1 d1] [= <- <- <-].
  apply bind_ext. intros ret [x1 d1] Hf%add_to_tbl_frame. apply bind_ext. intros o [x2 d2] [= <- <- <-].
  unfold in_state. rewrite (bool_decide_eq_false_2 (curr_state (sm_obj x1) = _)) by congruence. done.
Qed.

Lemma step_add_rule sm1 sm2 args s :
  (forall a s, sm1 NATI_TRIG_TBL_SWITCH a s = sm2 NATI_TRIG_TBL_SWITCH a s) ->
  (forall a x d, curr_state (sm_obj x) <> NATI_STATE_HYBRID ->
     sm1 NATI_TRIG_ADD_RULE a (x, d) = sm2 NATI_TRIG_ADD_RULE a (x, d)) ->
  statemach_step sm1 NATI_TRIG_ADD_RULE args s = statemach_step sm2 NATI_TRIG_ADD_RULE args s.
Proof.
  intros Hs Ha. destruct s as [x d]. apply step_ext. intros x' d' Hx.
  destruct (curr_state (sm_obj x)) eqn:Hc; try done; cbn [_state_mach_tbl]; unfold _smAddRuleHybrid;
    (destruct args; try done).
  all: do 3 (apply bind_ext; intros ? ? _); destruct (_ =? 0); [done|]; destruct (_ && _); [|done].
  all: apply bind_cong; [apply Hs|]; intros r [x1 d1] _; destruct (r =? 0); [|done].
  all: apply bind_ext; intros [] [x2 d2] [= <- <-]; by apply Ha.
Qed.
End nesting.

Section depth.
Context {K : Type} `{Os : OsOps K} `{NOs : !NatOs K} `{U : IpaUapi} {W : Type}.
#[local] Notation D := (nat_globals * K)%type.

Lemma depth_none n t (args : sm_args (K := K) (W := W)) s : calls_none t = true ->
  ipa_nati_statemach (1 + n) t args s = ipa_nati_statemach 1 t args s.
Proof. apply step_none. Qed.

Lemma depth_switch n (args : sm_args (K := K) (W := W)) s :
  ipa_nati_statemach (2 + n) NATI_TRIG_TBL_SWITCH args s =
  ipa_nati_statemach 2 NATI_TRIG_TBL_SWITCH args s.
Proof. apply step_switch; intros; by apply (depth_none n). Qed.

Lemma depth_add_tbl_started n (args : sm_args (K := K) (W := W)) x d :
  curr_state (sm_obj x) <> NATI_STATE_NULL ->
  ipa_nati_statemach (2 + n) NATI_TRIG_ADD_TABLE args (x, d) =
  ipa_nati_statemach 2 NATI_TRIG_ADD_TABLE args (x, d).
Proof. apply step_add_tbl_started. intros. by apply (depth_none n). Qed.

Lemma depth_add_rule_ddr n (args : sm_args (K := K) (W := W)) x d :
  curr_state (sm_obj x) <> NATI_STATE_HYBRID ->
  ipa_nati_statemach (1 + n) NATI_TRIG_ADD_RULE args (x, d) =
  ipa_nati_statemach 1 NATI_TRIG_ADD_RULE args (x, d).
Proof. apply step_add_rule_ddr. Qed.

Lemma depth_enough n t (args : sm_args (K := K) (W := W)) s :
  ipa_nati_statemach (STATEMACH_DEPTH + n) t args s = statemach t args s.
Proof.
  unfold statemach, STATEMACH_DEPTH. destruct (calls_none t) eqn:Ht.
  { rewrite (depth_none (2 + n)) by done. symmetry. by apply (depth_none 2). }
  destruct t; try discriminate Ht; cbn [Nat.add ipa_nati_statemach].
  - apply step_add_tbl.
    + intros. etrans; [by apply (depth_none (S n))|]. symmetry. by apply (depth_none 1).
    + intros. by apply (depth_add_tbl_started n).
  - apply step_add_rule.
    + intros. by apply (depth_switch n).
    + intros. etrans; [by apply (depth_add_rule_ddr (S n))|]. symmetry. by apply (depth_add_rule_ddr 1).
  - apply step_del_rule. intros. by apply (depth_switch n).
  - apply step_switch; intros; (etrans; [by apply (depth_none (S n))|]; symmetry; by apply (depth_none 1)).
Qed.
End depth.
