(* ===== verification/NatSmStates.v ===== *)
(** * The states of the state machine

    What each callback keeps of the object, the transitions a trigger can make, and
    the states that sequences of calls can reach. *)

From Stdlib Require Import ZArith Lia Ascii String.
From stdpp Require Import prelude gmap list numbers strings.
From S2P Require Import Prelude CFloat IpaTable Os NatUtils NatMap NatRule NatDrvi NatStatemach.
From S2P Require Import NatSmLaws.

Local Open Scope Z_scope.

(** ** Computations that keep a relation *)
Section keeps.
Context {K : Type} {W : Type} (R : smach W -> smach W -> Prop) `{!PreOrder R}.
#[local] Notation D := (nat_globals * K)%type.
#[local] Notation SM := (St (smach W * D)).

Definition keeps {A} (m : SM A) : Prop :=
  forall x d a x' d', m (x, d) = Ok (a, (x', d')) -> R x x'.

Lemma keeps_ret {A} (a : A) : keeps (mret a).
Proof. intros x d b x' d' [= <- <- <-]. reflexivity. Qed.

Lemma keeps_bind {A B} (m : SM A) (f : A -> SM B) :
  keeps m -> (forall a, keeps (f a)) -> keeps (m ≫= f).
Proof. intros Hm Hf x d b x' d' (a & [x1 d1] & H1 & H2)%bind_inv. etrans; [by eapply Hm|by eapply Hf]. Qed.

Lemma keeps_drv {A} (m : St D A) : keeps (drv m).
Proof. intros x d a x' d' [-> _]%drv_inv. reflexivity. Qed.

Lemma keeps_lift {A} (r : res A) : keeps (st_lift r).
Proof. intros x d a x' d' [[= -> ->] _]%lift_inv. reflexivity. Qed.

Lemma keeps_get_obj : keeps get_obj.
Proof. intros x d a x' d' [= <- <- <-]. reflexivity. Qed.

Lemma keeps_get_client : keeps get_client.
Proof. intros x d a x' d' [= <- <- <-]. reflexivity. Qed.

Lemma keeps_ub {A} : keeps (ub (A := A)).
Proof. by intros x d a x' d'. Qed.
End keeps.

#[export] Hint Resolve keeps_ret keeps_drv keeps_lift keeps_get_obj keeps_get_client keeps_ub : sm.

(** A computation keeps a relation if its parts do. *)
Ltac keeps :=
  repeat match goal with
  | |- keeps _ (_ ≫= _) => apply keeps_bind; [apply _|..|intros ?]
  | |- keeps _ (if ?b then _ else _) => destruct b
  | |- keeps _ (match ?b with _ => _ end) => destruct b
  | |- keeps _ (let '(_, _) := ?b in _) => destruct b
  end; try (by auto with sm typeclass_instances).

(** ** What does not change outside the changes of state *)
(** The members of the object that drive the machine. *)
Definition core (o : ipa_nati_obj) :=
  (prev_state o, curr_state o, hold_state o, state_to_hold o).

Record same_core {W} (x x' : smach W) : Prop := {
  sc_core : core (sm_obj x') = core (sm_obj x);
  sc_init : nat_mutex_init x = true -> nat_mutex_init x' = true }.

#[export] Instance same_core_preorder {W} : PreOrder (@same_core W).
Proof. split; [by split|]. intros x y z [] []. split; [congruence|auto]. Qed.

Section core_frames.
Context {K : Type} `{Os : OsOps K} `{NOs : !NatOs K} `{U : IpaUapi} {W : Type}.
#[local] Notation D := (nat_globals * K)%type.
#[local] Notation SM := (St (smach W * D)).
#[local] Notation sc := (same_core (W := W)).

Lemma keeps_mod_obj f : (forall o, core (f o) = core o) -> keeps (K := K) sc (mod_obj f).
Proof. intros Hf x d a x' d' [= <- <- <-]. by split; [apply Hf|]. Qed.

Lemma keeps_tot_rules (f : ipa_nati_obj -> mem_sub) v :
  keeps (K := K) sc (mod_obj (fun o => set_tot_rules o (f o) (v o))).
Proof. by apply keeps_mod_obj. Qed.

Lemma keeps_mod_client f : keeps (K := K) sc (mod_client f).
Proof. intros x d a x' d' [= <- <- <-]. by split. Qed.

Lemma keeps_map_op {A} (f : map_arr -> res (A * map_arr)) :
  keeps (K := K) sc (fun '(x, d) => '(a, ms) ← f (sm_maps x);
    Ok (a, (mk_sm (sm_obj x) ms (nat_mutex_init x) (sm_client x), d))).
Proof.
  intros x d a x' d'. destruct (f _) as [[b ms]| |]; [|done..]. intros [= <- <- <-]. by split.
Qed.

Lemma keeps_map_add m i j : keeps (K := K) sc (map_add m i j).
Proof. apply (keeps_map_op (fun ms => ipa_nat_map_add ms m i j)). Qed.
Lemma keeps_map_del m i : keeps (K := K) sc (map_del m i).
Proof. apply (keeps_map_op (fun ms => ipa_nat_map_del ms m i)). Qed.
Lemma keeps_map_clear m : keeps (K := K) sc (map_clear m).
Proof. apply (keeps_map_op (fun ms => ipa_nat_map_clear ms m)). Qed.
Lemma keeps_map_find m i : keeps (K := K) sc (map_find m i).
Proof. intros x d a x' d'. unfold map_find. destruct (ipa_nat_map_find _ _ _); [|done..]. by intros [= <- <- <-]. Qed.

Lemma keeps_same_sm {A} (m : SM A) : keeps same_sm m -> keeps sc m.
Proof. intros H x d a x' d' []%H. split; [congruence|done]. Qed.

Lemma keeps_take_mutex : keeps (K := K) sc take_mutex.
Proof. apply keeps_same_sm. intros x d a x' d' H%take_mutex_frame. apply H. Qed.
Lemma keeps_give_mutex : keeps (K := K) sc give_mutex.
Proof. intros x d a x' d' ->%give_mutex_frame. reflexivity. Qed.
Lemma keeps_vote v : keeps (K := K) sc (ipa_nat_vote_clock v).
Proof. intros x d a x' d' ->%vote_frame. reflexivity. Qed.
End core_frames.

#[export] Hint Resolve keeps_tot_rules keeps_mod_client keeps_map_add keeps_map_del keeps_map_clear
  keeps_map_find keeps_take_mutex keeps_give_mutex keeps_vote : sm.
#[export] Hint Extern 2 (keeps _ (mod_obj _)) => apply keeps_mod_obj; by intros [] : sm.

(** ** The data of a walk's callback *)
Section walk_data.
Context {K : Type} `{Os : OsOps K} `{NOs : !NatOs K} `{U : IpaUapi} {A : Type}.
Context (R : A -> A -> Prop) `{!PreOrder R}.
#[local] Notation D := (nat_globals * K)%type.

Lemma locked_inv {B} (body : St D (Z * B)) none s ret b s' :
  locked body none s = Ok ((ret, b), s') ->
  b = none \/ exists s1 r s2, body s1 = Ok ((r, b), s2).
Proof.
  unfold locked. intros (l & s1 & _ & H)%bind_inv. destruct (negb (l =? 0)).
  { injection H as <- <- <-. by left. }
  apply bind_inv in H as ([r b1] & s2 & Hb & H). apply bind_inv in H as (u & s3 & _ & H).
  injection H as <- <- <-. right. by eauto.
Qed.

Definition cb_keeps {E} `{EntryOps E C} (cb : walk_cb_type (E := E) (A * D)) : Prop :=
  forall t h p i m j a d r a' d', cb t h p i m j (a, d) = Ok (r, (a', d')) -> R a a'.

Lemma run_walk_keeps n which (cb : table_walk_cb (A * D)) a s ret a' s' :
  cb_keeps (cb_rule cb) -> cb_keeps (cb_indx cb) ->
  run_walk n which cb a s = Ok ((ret, a'), s') -> R a a'.
Proof.
  intros Hr Hx. set (R' := fun s1 s2 : A * D => R s1.1 s2.1).
  assert (PreOrder R') by (split; [intros ?; unfold R'; reflexivity|intros ? ? ?; unfold R'; apply transitivity]).
  assert (Hgo : forall (E C : Type) (EO : EntryOps E C) t w (cb : walk_cb_type (E := E) (A * D)),
            cb_keeps cb -> forall s1, ipa_table_walk t 0 w cb (a, s) = Ok (ret, s1) -> R a s1.1).
  { intros E C EO t w cb1 Hcb s1. change (R a s1.1) with (R' (a, s) s1). apply (walk_keeps R').
    intros h p i m j [a1 d1] r [a2 d2]. apply Hcb. }
  unfold run_walk. destruct which;
    match goal with |- context [ipa_table_walk ?t 0 ?w ?c ?x] =>
      destruct (ipa_table_walk t 0 w c x) as [[r [a1 s1]]| |] eqn:Hw end; try done;
    cbn; intros [= -> -> ->]; first [exact (Hgo _ _ _ _ _ _ Hr _ Hw)|exact (Hgo _ _ _ _ _ _ Hx _ Hw)].
Qed.

Lemma NATI_walk_keeps tbl_hdl which cb a s ret a' s' :
  (forall c, cb = Some c -> cb_keeps (cb_rule c) /\ cb_keeps (cb_indx c)) ->
  ipa_NATI_walk_ipv4_tbl tbl_hdl which cb a s = Ok ((ret, a'), s') -> R a a'.
Proof.
  intros Hcb. unfold ipa_NATI_walk_ipv4_tbl. destruct cb as [cb|]; [|by intros [= <- <- <-]].
  destruct (_ || _); [by intros [= <- <- <-]|].
  intros [->|(s1 & r & s2 & Hb)]%locked_inv; [reflexivity|]. revert Hb.
  destruct (BREAK_TBL_HDL tbl_hdl) as [nmi hdl]. destruct (negb _); [by intros [= <- <- <-]|].
  intros (c & s3 & _ & H)%bind_inv. destruct (table_cnt c =? 0); [by injection H as <- <- <-|].
  apply bind_inv in H as (n & s4 & _ & H). eapply run_walk_keeps; [..|exact H]; by eapply Hcb.
Qed.
End walk_data.

Section callbacks_keep.
Context {K : Type} `{Os : OsOps K} `{NOs : !NatOs K} `{U : IpaUapi} {W : Type}.
#[local] Notation D := (nat_globals * K)%type.
#[local] Notation SM := (St (smach W * D)).
#[local] Notation sc := (same_core (W := W)).
Implicit Types (args : sm_args (K := K) (W := W)).

Lemma keeps_clear_map_pair sub : keeps (K := K) sc (clear_map_pair sub).
Proof. unfold clear_map_pair. keeps. Qed.

Lemma keeps_migrate_record dst_hdl src dst h r : keeps (K := K) sc (migrate_record dst_hdl src dst h r).
Proof. unfold migrate_record. keeps. Qed.

(** The copy of a table changes counters and maps only. *)
Lemma keeps_copy src dst : keeps (K := K) sc (copy_ipv4_tbl src dst).
Proof.
  intros x d a x' d'. unfold copy_ipv4_tbl, ipa_nati_copy_ipv4_tbl.
  destruct (locked _ x d) as [[[r x1] d1]| |] eqn:Hl; [|done..]. intros [= -> -> ->].
  apply locked_inv in Hl as [->|(s1 & r & s2 & Hb)]; [reflexivity|]. revert Hb.
  intros (ret & s3 & _ & H)%bind_inv. destruct (ret =? 0); [|by injection H as <- <- <-].
  apply bind_inv in H as ([r1 [dst1 x1]] & s4 & Hw & H). injection H as <- <- <-.
  set (R := fun a b : Z * smach W => sc a.2 b.2).
  assert (PreOrder R) by (split; [intros ?; unfold R; reflexivity|intros ? ? ?; unfold R; apply transitivity]).
  apply (NATI_walk_keeps R) in Hw; [done|]. intros c [= <-]. split; [|done].
  intros t h p i m j [dst2 x2] d2 r2 [dst3 x3] d3. cbn [migrate_cb cb_rule]. unfold migrate_rule.
  destruct (rec_at t p) as [e| |]; [|done..]. cbn [mbind res_bind].
  destruct (if _ =? _ then _ else _) as [src1 dst4].
  destruct (migrate_record _ _ _ _ _ _) as [[r3 [x4 d4]]| |] eqn:Hm; [|done..]. intros [= <- <- <- <-].
  by eapply keeps_migrate_record.
Qed.
End callbacks_keep.

#[export] Hint Resolve keeps_clear_map_pair keeps_copy : sm.

(** ** Transitions *)
(** The states a trigger can lead to. *)
Inductive transition : ipa_nati_trigger -> ipa_nati_state -> ipa_nati_state -> Prop :=
  | tr_stay t s : transition t s s
  | tr_first s : s <> NATI_STATE_NULL -> s <> NATI_STATE_HYBRID_DDR -> s <> NATI_STATE_LAST ->
      transition NATI_TRIG_ADD_TABLE NATI_STATE_NULL s
  | tr_sram_suffices : transition NATI_TRIG_ADD_TABLE NATI_STATE_HYBRID NATI_STATE_SRAM_ONLY
  | tr_no_sram : transition NATI_TRIG_ADD_TABLE NATI_STATE_HYBRID NATI_STATE_DDR_ONLY
  | tr_deleted s : transition NATI_TRIG_DEL_TABLE s NATI_STATE_NULL
  | tr_sram_full : transition NATI_TRIG_ADD_RULE NATI_STATE_HYBRID NATI_STATE_HYBRID_DDR
  | tr_back_to_sram : transition NATI_TRIG_DEL_RULE NATI_STATE_HYBRID_DDR NATI_STATE_HYBRID
  | tr_switch_ddr : transition NATI_TRIG_TBL_SWITCH NATI_STATE_HYBRID NATI_STATE_HYBRID_DDR
  | tr_switch_sram : transition NATI_TRIG_TBL_SWITCH NATI_STATE_HYBRID_DDR NATI_STATE_HYBRID
  | tr_goto_ddr : transition NATI_TRIG_GOTO_DDR NATI_STATE_HYBRID NATI_STATE_HYBRID_DDR
  | tr_goto_sram : transition NATI_TRIG_GOTO_SRAM NATI_STATE_HYBRID_DDR NATI_STATE_HYBRID.

(** Objects the library can build. *)
Record wf_obj (o : ipa_nati_obj) : Prop := {
  wf_last : curr_state o <> NATI_STATE_LAST;
  wf_null : curr_state o = NATI_STATE_NULL -> prev_state o = NATI_STATE_NULL;
  wf_hold : state_to_hold o = NATI_STATE_NULL \/ state_to_hold o = NATI_STATE_DDR_ONLY \/
            state_to_hold o = NATI_STATE_SRAM_ONLY }.

Lemma del_trans s1 s2 s3 : transition NATI_TRIG_DEL_TABLE s1 s2 ->
  transition NATI_TRIG_DEL_TABLE s2 s3 -> transition NATI_TRIG_DEL_TABLE s1 s3.
Proof. intros T1 T2. inversion T1; subst; [done|]. inversion T2; subst; constructor. Qed.

Definition moves {W} (t : ipa_nati_trigger) (x x' : smach W) : Prop :=
  wf_obj (sm_obj x) -> wf_obj (sm_obj x') /\
  transition t (curr_state (sm_obj x)) (curr_state (sm_obj x')).

Lemma core_moves {W} t (x x' : smach W) : same_core x x' -> moves t x x'.
Proof. intros [[= Hp Hc Hh Hs] _] []. rewrite Hc. split; [|constructor]. split; by rewrite ?Hp, ?Hc, ?Hs. Qed.

(** After computations that keep the core. *)
Lemma core_moves_l {W} t (x y x' : smach W) : same_core x y -> moves t y x' -> moves t x x'.
Proof.
  intros Hxy Hy Hwf. pose proof (core_moves t _ _ Hxy Hwf) as [Hwf1 _]. destruct (Hy Hwf1) as [? Ht].
  split; [done|]. destruct Hxy as [[= _ Hc _ _] _]. by rewrite <- Hc.
Qed.

Lemma core_moves_r {W} t (x y x' : smach W) : moves t x y -> same_core y x' -> moves t x x'.
Proof.
  intros Hx Hy Hwf. destruct (Hx Hwf) as [Hwf1 Ht]. pose proof (core_moves t _ _ Hy Hwf1) as [? _].
  split; [done|]. destruct Hy as [[= _ Hc _ _] _]. by rewrite Hc.
Qed.

(** A change of state. *)
Lemma set_state_wf o s : s <> NATI_STATE_NULL -> s <> NATI_STATE_LAST -> wf_obj o ->
  wf_obj (SET_NATIOBJ_STATE o s).
Proof. intros Hn Hl []. by split. Qed.

Lemma back2_wf o : wf_obj o -> wf_obj (BACK2_UNSTARTED_STATE o).
Proof. intros []. by split. Qed.

Section moves.
Context {K : Type} `{Os : OsOps K} `{NOs : !NatOs K} `{U : IpaUapi} {W : Type}.
#[local] Notation D := (nat_globals * K)%type.
#[local] Notation SM := (St (smach W * D)).
#[local] Notation sc := (same_core (W := W)).
#[local] Notation sm_args := (sm_args (K := K) (W := W)).
Implicit Types (x : smach W) (args : sm_args).
Context (sm : ipa_nati_trigger -> sm_args -> SM Z).
Hypothesis Hsm : forall t args x d r x' d', sm t args (x, d) = Ok (r, (x', d')) -> moves t x x'.

(** A run that ends in a conditional change of state. *)
Lemma end_state_run (b : bool) (f : ipa_nati_obj -> ipa_nati_obj) (ret : Z) x (d : D) r x' d' :
  ((if b then mod_obj f else mret tt) ≫= (fun _ => mret ret)) (x, d) = Ok (r, (x', d')) ->
  r = ret /\ x' = mk_sm (if b then f (sm_obj x) else sm_obj x) (sm_maps x) (nat_mutex_init x) (sm_client x).
Proof. destruct b; intros H; sm_inv; [done|]. by destruct x'. Qed.

Lemma keeps_write_tbl_hdl p v : keeps (K := K) sc (write_tbl_hdl p v).
Proof. unfold write_tbl_hdl. keeps. Qed.
Lemma keeps_count_rules n : keeps (K := K) sc (count_rules n).
Proof. unfold count_rules. by apply keeps_mod_obj. Qed.
#[local] Hint Resolve keeps_write_tbl_hdl keeps_count_rules : sm.

Lemma keeps_forget : keeps (K := K) sc forget_rules.
Proof. unfold forget_rules. keeps. Qed.
Lemma keeps_AddDdrTbl args : keeps sc (_smAddDdrTbl args).
Proof. unfold _smAddDdrTbl. keeps. Qed.
Lemma keeps_AddSramTbl args : keeps sc (_smAddSramTbl args).
Proof. unfold _smAddSramTbl, write_slots. keeps. Qed.
Lemma keeps_AddRuleToTbl args : keeps sc (_smAddRuleToTbl args).
Proof. unfold _smAddRuleToTbl. keeps. Qed.
Lemma keeps_DelRuleFromTbl args : keeps sc (_smDelRuleFromTbl args).
Proof. unfold _smDelRuleFromTbl. keeps. Qed.
Lemma keeps_ClrTbl args : keeps sc (_smClrTbl args).
Proof. unfold _smClrTbl. keeps. Qed.
Lemma keeps_WalkTbl args : keeps sc (_smWalkTbl args).
Proof. unfold _smWalkTbl. keeps. Qed.
Lemma keeps_StatTbl args : keeps sc (_smStatTbl args).
Proof. unfold _smStatTbl. keeps. Qed.
Lemma keeps_GetTmStmp args : keeps sc (_smGetTmStmp args).
Proof. unfold _smGetTmStmp. keeps. Qed.
Lemma keeps_collect args h : keeps sc (collect_stats args h).
Proof. unfold collect_stats. keeps. Qed.
Lemma keeps_time_now : keeps (K := K) sc time_now.
Proof. unfold time_now, os_call. keeps. Qed.
#[local] Hint Resolve keeps_forget keeps_AddDdrTbl keeps_AddSramTbl keeps_AddRuleToTbl
  keeps_DelRuleFromTbl keeps_ClrTbl keeps_WalkTbl keeps_StatTbl keeps_GetTmStmp keeps_collect
  keeps_time_now : sm.
Lemma keeps_ClrTblHybrid args : keeps sc (_smClrTblHybrid args).
Proof. unfold _smClrTblHybrid. keeps. Qed.
Lemma keeps_WalkTblHybrid args : keeps sc (_smWalkTblHybrid args).
Proof. unfold _smWalkTblHybrid. keeps. Qed.
Lemma keeps_StatTblHybrid args : keeps sc (_smStatTblHybrid args).
Proof. unfold _smStatTblHybrid. keeps. Qed.
Lemma keeps_GetTmStmpHybrid args : keeps sc (_smGetTmStmpHybrid args).
Proof. unfold _smGetTmStmpHybrid. keeps. Qed.

(** The callbacks that change the state. *)
Lemma DelTbl_moves args x d r x' d' :
  _smDelTbl args (x, d) = Ok (r, (x', d')) -> moves NATI_TRIG_DEL_TABLE x x'.
Proof.
  unfold _smDelTbl. destruct args; try discriminate. intros H.
  apply bind_inv in H as (ret & [x1 d1] & [-> _]%drv_inv & H).
  apply bind_inv in H as (o & [x2 d2] & [= <- <- <-] & H).
  apply end_state_run in H as [_ ->]. intros Hwf. cbn. destruct (_ && _); [|split; [done|constructor]].
  split; [by apply back2_wf|constructor].
Qed.

Lemma DelSramAndDdr_moves args x d r x' d' :
  _smDelSramAndDdrTbl args (x, d) = Ok (r, (x', d')) -> moves NATI_TRIG_DEL_TABLE x x'.
Proof.
  unfold _smDelSramAndDdrTbl. intros H.
  apply bind_inv in H as ([] & [x1 d1] & Hf%keeps_forget & H). eapply core_moves_l; [exact Hf|].
  apply bind_inv in H as (r1 & [x2 d2] & H1%DelTbl_moves & H).
  apply bind_inv in H as (r2 & [x3 d3] & H2 & H). apply end_state_run in H as [_ ->].
  assert (H3 : moves NATI_TRIG_DEL_TABLE x2 x3).
  { revert H2. destruct (r1 =? 0).
    - intros (o & [x4 d4] & [= <- <- <-] & H2)%bind_inv. by eapply DelTbl_moves.
    - intros [= <- <- <-]. intros Hwf. split; [done|constructor]. }
  intros Hwf. destruct (H1 Hwf) as [Hwf1 T1]. destruct (H3 Hwf1) as [Hwf2 T2]. cbn.
  destruct (r2 =? 0); [split; [by apply back2_wf|constructor]|]. split; [done|].
  by eapply del_trans.
Qed.

Lemma FirstTbl_moves args x d r x' d' : curr_state (sm_obj x) = NATI_STATE_NULL ->
  _smFirstTbl sm args (x, d) = Ok (r, (x', d')) -> moves NATI_TRIG_ADD_TABLE x x'.
Proof.
  unfold _smFirstTbl. intros Hn. destruct args; try discriminate. intros H Hwf. revert H.
  intros ([] & [x1 d1] & [= <- <-] & H)%bind_inv. apply Hsm in H. revert H. unfold moves. cbn.
  set (s1 := if _ && _ then _ else _).
  assert (Hs : s1 = NATI_STATE_DDR_ONLY \/ s1 = NATI_STATE_SRAM_ONLY \/ s1 = NATI_STATE_HYBRID).
  { unfold s1. destruct (hold_state _ && _) eqn:E.
    - apply andb_prop in E as [_ E]. apply negb_true_iff, bool_decide_eq_false in E.
      destruct (wf_hold _ Hwf) as [|[|]]; auto; done.
    - unfold mem_type_str_to_ipa_nati_state. repeat case_match; auto. }
  intros H. destruct H as [Hwf1 T].
  { apply set_state_wf; [..|done]; destruct Hs as [->|[->| ->]]; done. }
  split; [done|]. rewrite Hn. inversion T; subst; try constructor; destruct Hs as [->|[->| ->]]; done.
Qed.

Lemma AddSramAndDdr_moves args x d r x' d' : curr_state (sm_obj x) = NATI_STATE_HYBRID ->
  _smAddSramAndDdrTbl sm args (x, d) = Ok (r, (x', d')) -> moves NATI_TRIG_ADD_TABLE x x'.
Proof.
  unfold _smAddSramAndDdrTbl. intros Hn. destruct args; try discriminate.
  intros ([] & [x1 d1] & Hf%keeps_forget & H)%bind_inv.
  apply bind_inv in H as (r1 & [x2 d2] & Ha%keeps_AddSramTbl & H).
  assert (F2 : sc x x2) by (etrans; eassumption). eapply core_moves_l; [exact F2|].
  assert (Hn2 : curr_state (sm_obj x2) = NATI_STATE_HYBRID) by (destruct F2 as [[= _ E _ _] _]; congruence).
  destruct (r1 =? 0).
  - apply bind_inv in H as (o & [x3 d3] & [= <- <- <-] & H). destruct (_ >=? _).
    + apply bind_inv in H as ([] & [x3 d3] & [= <- <-] & [= <- <- <-]). intros Hwf.
      split; [by apply set_state_wf|]. cbn. rewrite Hn2. constructor.
    + apply bind_inv in H as (r2 & [x3 d3] & Hb%keeps_AddDdrTbl & H). eapply core_moves_l; [exact Hb|].
      destruct (r2 =? 0); [|injection H as <- <- <-; apply core_moves; reflexivity].
      apply Hsm in H. intros Hwf. destruct (H Hwf) as [? T]. split; [done|].
      assert (Hn3 : curr_state (sm_obj x3) = NATI_STATE_HYBRID) by (destruct Hb as [[= _ E _ _] _]; congruence).
      rewrite Hn3 in *. inversion T; constructor.
  - apply bind_inv in H as (r2 & [x3 d3] & Hb%keeps_AddDdrTbl & H). eapply core_moves_l; [exact Hb|].
    assert (Hn3 : curr_state (sm_obj x3) = NATI_STATE_HYBRID) by (destruct Hb as [[= _ E _ _] _]; congruence).
    apply end_state_run in H as [_ ->]. intros Hwf. cbn. destruct (r2 =? 0); [|split; [done|constructor]].
    split; [by apply set_state_wf|]. cbn. rewrite Hn3. constructor.
Qed.

Lemma core_curr (x y : smach W) : sc x y -> curr_state (sm_obj y) = curr_state (sm_obj x).
Proof. by intros [[= _ E _ _] _]. Qed.

Lemma AddRuleHybrid_moves args x d r x' d' : curr_state (sm_obj x) <> NATI_STATE_NULL ->
  _smAddRuleHybrid sm args (x, d) = Ok (r, (x', d')) -> moves NATI_TRIG_ADD_RULE x x'.
Proof.
  unfold _smAddRuleHybrid. intros Hn. destruct args; try discriminate.
  intros (o & [x1 d1] & [= <- <- <-] & H)%bind_inv.
  apply bind_inv in H as (r1 & [x1 d1] & Hf%keeps_AddRuleToTbl & H). eapply core_moves_l; [exact Hf|].
  apply bind_inv in H as (o & [x2 d2] & [= <- <- <-] & H). destruct (r1 =? 0).
  { apply core_moves. revert H. apply (keeps_bind sc); [keeps|]. intros. cbv zeta. keeps. }
  destruct (in_state _ _ && _) eqn:Hh; [|injection H as <- <- <-; apply core_moves; reflexivity].
  apply andb_prop in Hh as [Hh%bool_decide_eq_true _].
  apply bind_inv in H as (r2 & [x2 d2] & H2%Hsm & H). destruct (r2 =? 0).
  - apply bind_inv in H as ([] & [x3 d3] & [= <- <-] & H%Hsm). intros Hwf.
    destruct (H2 Hwf) as [Hwf2 _]. destruct H as [Hwf3 T]; [by apply set_state_wf|].
    split; [done|]. rewrite Hh. cbn in T. inversion T; constructor.
  - injection H as <- <- <-. intros Hwf. destruct (H2 Hwf) as [Hwf2 T]. split; [done|].
    rewrite Hh in *. inversion T; constructor.
Qed.

Lemma back_to_sram_moves x d r x' d' : curr_state (sm_obj x) = NATI_STATE_HYBRID_DDR ->
  back_to_sram sm (x, d) = Ok (r, (x', d')) -> moves NATI_TRIG_DEL_RULE x x'.
Proof.
  unfold back_to_sram. intros Hn (o & [x1 d1] & [= <- <- <-] & H)%bind_inv.
  destruct (_ && _); [|injection H as <- <- <-; apply core_moves; reflexivity].
  apply bind_inv in H as (r2 & [x2 d2] & H2%Hsm & H). destruct (r2 =? 0).
  - apply bind_inv in H as ([] & [x3 d3] & [= <- <-] & [= <- <- <-]). intros Hwf.
    destruct (H2 Hwf) as [Hwf2 _]. split; [by apply set_state_wf|]. rewrite Hn. cbn. constructor.
  - injection H as <- <- <-. intros Hwf. destruct (H2 Hwf) as [Hwf2 T]. split; [done|].
    rewrite Hn in *. inversion T; constructor.
Qed.

Lemma DelRuleHybrid_moves args x d r x' d' :
  _smDelRuleHybrid sm args (x, d) = Ok (r, (x', d')) -> moves NATI_TRIG_DEL_RULE x x'.
Proof.
  unfold _smDelRuleHybrid. destruct args; try discriminate. cbv zeta.
  intros (o & [x1 d1] & [= <- <- <-] & H)%bind_inv.
  apply bind_inv in H as ([r1 o1] & [x1 d1] & Hf%keeps_map_del & H). eapply core_moves_l; [exact Hf|].
  destruct (r1 =? 0); [|injection H as <- <- <-; apply core_moves; reflexivity].
  apply bind_inv in H as (h & [x2 d2] & [[= -> ->] _]%lift_inv & H).
  apply bind_inv in H as (r2 & [x2 d2] & H2%keeps_map_del & H). eapply core_moves_l; [exact H2|].
  apply bind_inv in H as (r3 & [x3 d3] & H3%keeps_DelRuleFromTbl & H). eapply core_moves_l; [exact H3|].
  apply bind_inv in H as (o & [x4 d4] & [= <- <- <-] & H).
  destruct (_ && _) eqn:Hb; [|injection H as <- <- <-; apply core_moves; reflexivity].
  apply andb_prop in Hb as [_ Hb%bool_decide_eq_true]. by eapply back_to_sram_moves.
Qed.

Lemma goto_moves t (go : SM Z) s :
  (forall x d r x' d', go (x, d) = Ok (r, (x', d')) ->
     exists r1, x' = mk_sm (if r1 =? 0 then SET_NATIOBJ_STATE (sm_obj x) s else sm_obj x)
            (sm_maps x) (nat_mutex_init x) (sm_client x)) ->
  s <> NATI_STATE_NULL -> s <> NATI_STATE_LAST ->
  (forall x, IN_HYBRID_STATE (sm_obj x) = true -> transition t (curr_state (sm_obj x)) s) ->
  forall x d r x' d', IN_HYBRID_STATE (sm_obj x) = true -> go (x, d) = Ok (r, (x', d')) -> moves t x x'.
Proof.
  intros Hgo Hn Hl Ht x d r x' d' Hh H Hwf. apply Hgo in H as (r1 & ->). cbn.
  destruct (r1 =? 0); [|split; [done|constructor]]. split; [by apply set_state_wf|]. by apply Ht.
Qed.

Lemma hybrid_cases (o : ipa_nati_obj) : IN_HYBRID_STATE o = true ->
  curr_state o = NATI_STATE_HYBRID \/ curr_state o = NATI_STATE_HYBRID_DDR.
Proof. unfold IN_HYBRID_STATE, in_state. rewrite orb_true_iff, !bool_decide_eq_true. done. Qed.

Lemma GoToDdr_moves x d r x' d' : IN_HYBRID_STATE (sm_obj x) = true ->
  _smGoToDdr (x, d) = Ok (r, (x', d')) -> moves NATI_TRIG_GOTO_DDR x x'.
Proof.
  apply (goto_moves _ _ NATI_STATE_HYBRID_DDR); try done.
  - unfold _smGoToDdr. intros y e s y' e' (o & [y1 e1] & [= <- <- <-] & H)%bind_inv.
    apply bind_inv in H as (r1 & [y1 e2] & [-> _]%drv_inv & H).
    apply end_state_run in H as [_ ->]. eauto.
  - intros y [->| ->]%hybrid_cases; constructor.
Qed.

Lemma GoToSram_moves x d r x' d' : IN_HYBRID_STATE (sm_obj x) = true ->
  _smGoToSram (x, d) = Ok (r, (x', d')) -> moves NATI_TRIG_GOTO_SRAM x x'.
Proof.
  apply (goto_moves _ _ NATI_STATE_HYBRID); try done.
  - unfold _smGoToSram. intros y e s y' e' (o & [y1 e1] & [= <- <- <-] & H)%bind_inv.
    apply bind_inv in H as (r1 & [y1 e2] & [-> _]%drv_inv & H).
    apply end_state_run in H as [_ ->]. eauto.
  - intros y [->| ->]%hybrid_cases; constructor.
Qed.

(** The copy and the counters after the change of focus. *)
Definition switch_copy (sub : mem_sub) (src dst : ipa_nati_obj -> Z) (stats : mem_sub) : SM Z :=
  _ ← mod_obj (fun o => set_tot_rules o sub 0);
  _ ← clear_map_pair sub;
  o ← get_obj;
  ret ← copy_ipv4_tbl (src o) (dst o);
  _ ← time_now;
  _ ← mod_obj (count_switch stats (ret =? 0));
  mret ret.

Lemma keeps_switch_copy sub src dst stats : keeps sc (switch_copy sub src dst stats).
Proof. unfold switch_copy, count_switch. keeps. Qed.

Lemma switch_moves (t : ipa_nati_trigger) args x d r x' d' (leave : ipa_nati_obj -> Z) (tail : mem_sub -> SM Z) :
  (forall sub, keeps sc (tail sub)) ->
  (transition t (curr_state (sm_obj x)) (curr_state (sm_obj x)) ->
   forall s, transition t (curr_state (sm_obj x)) s ->
     transition NATI_TRIG_TBL_SWITCH (curr_state (sm_obj x)) s) ->
  (o ← get_obj;
   let stats_sub := CHOOSE_MEM_SUB o in
   _ ← collect_stats args (leave o);
   _ ← time_now;
   ret ← sm t ArgsNone;
   if ret =? 0 then tail stats_sub else mret ret) (x, d) = Ok (r, (x', d')) ->
  moves NATI_TRIG_TBL_SWITCH x x'.
Proof.
  intros Htail Ht (o & [x1 d1] & [= <- <- <-] & H)%bind_inv. cbv zeta in H.
  apply bind_inv in H as ([] & [x1 d1] & H1%keeps_collect & H).
  apply bind_inv in H as ([] & [x2 d2] & H2%keeps_time_now & H).
  assert (F : sc x x2) by (etrans; eassumption). pose proof (core_curr _ _ F) as Hc.
  apply bind_inv in H as (r1 & [x3 d3] & H3%Hsm & H). eapply core_moves_l; [exact F|].
  eapply core_moves_r.
  - intros Hwf. destruct (H3 Hwf) as [Hwf3 T]. split; [exact Hwf3|]. rewrite Hc in *. apply Ht; [constructor|done].
  - destruct (r1 =? 0); [by eapply Htail|]. by injection H as <- <- <-.
Qed.

Lemma SwitchSramToDdr_moves args x d r x' d' : curr_state (sm_obj x) = NATI_STATE_HYBRID ->
  _smSwitchFromSramToDdr sm args (x, d) = Ok (r, (x', d')) -> moves NATI_TRIG_TBL_SWITCH x x'.
Proof.
  intros Hn. apply (switch_moves NATI_TRIG_GOTO_DDR _ _ _ _ _ _ sram_tbl_hdl
    (switch_copy DDR_SUB sram_tbl_hdl ddr_tbl_hdl)); [apply keeps_switch_copy|].
  rewrite Hn. intros _ s T. inversion T; constructor.
Qed.

Lemma SwitchDdrToSram_moves args x d r x' d' : curr_state (sm_obj x) = NATI_STATE_HYBRID_DDR ->
  _smSwitchFromDdrToSram sm args (x, d) = Ok (r, (x', d')) -> moves NATI_TRIG_TBL_SWITCH x x'.
Proof.
  intros Hn. apply (switch_moves NATI_TRIG_GOTO_SRAM _ _ _ _ _ _ ddr_tbl_hdl
    (switch_copy SRAM_SUB ddr_tbl_hdl sram_tbl_hdl)); [apply keeps_switch_copy|].
  rewrite Hn. intros _ s T. inversion T; constructor.
Qed.

(** Every callback of the table. *)
Ltac by_core L := intros H; apply core_moves; revert H; apply L.

Lemma callback_moves t args x d r x' d' :
  _state_mach_tbl sm (curr_state (sm_obj x)) t args (x, d) = Ok (r, (x', d')) -> moves t x x'.
Proof.
  destruct (curr_state (sm_obj x)) eqn:Hc, t; cbn [_state_mach_tbl]; unfold _smUndef;
  lazymatch goal with
  | |- mret _ _ = _ -> _ => intros [= <- <- <-]; apply core_moves; reflexivity
  | |- _smDelTbl _ _ = _ -> _ => apply DelTbl_moves
  | |- _smDelSramAndDdrTbl _ _ = _ -> _ => apply DelSramAndDdr_moves
  | |- _smFirstTbl _ _ _ = _ -> _ => by apply FirstTbl_moves
  | |- _smAddSramAndDdrTbl _ _ _ = _ -> _ => by apply AddSramAndDdr_moves
  | |- _smAddRuleHybrid _ _ _ = _ -> _ => apply AddRuleHybrid_moves; congruence
  | |- _smDelRuleHybrid _ _ _ = _ -> _ => apply DelRuleHybrid_moves
  | |- _smGoToDdr _ = _ -> _ => apply GoToDdr_moves; unfold IN_HYBRID_STATE, in_state; by rewrite Hc
  | |- _smGoToSram _ = _ -> _ => apply GoToSram_moves; unfold IN_HYBRID_STATE, in_state; by rewrite Hc
  | |- _smSwitchFromSramToDdr _ _ _ = _ -> _ => by apply SwitchSramToDdr_moves
  | |- _smSwitchFromDdrToSram _ _ _ = _ -> _ => by apply SwitchDdrToSram_moves
  | |- _smAddDdrTbl _ _ = _ -> _ => by_core keeps_AddDdrTbl
  | |- _smAddSramTbl _ _ = _ -> _ => by_core keeps_AddSramTbl
  | |- _smClrTbl _ _ = _ -> _ => by_core keeps_ClrTbl
  | |- _smWalkTbl _ _ = _ -> _ => by_core keeps_WalkTbl
  | |- _smStatTbl _ _ = _ -> _ => by_core keeps_StatTbl
  | |- _smAddRuleToTbl _ _ = _ -> _ => by_core keeps_AddRuleToTbl
  | |- _smDelRuleFromTbl _ _ = _ -> _ => by_core keeps_DelRuleFromTbl
  | |- _smGetTmStmp _ _ = _ -> _ => by_core keeps_GetTmStmp
  | |- _smClrTblHybrid _ _ = _ -> _ => by_core keeps_ClrTblHybrid
  | |- _smWalkTblHybrid _ _ = _ -> _ => by_core keeps_WalkTblHybrid
  | |- _smStatTblHybrid _ _ = _ -> _ => by_core keeps_StatTblHybrid
  | |- _smGetTmStmpHybrid _ _ = _ -> _ => by_core keeps_GetTmStmpHybrid
  end.
Qed.

Lemma step_moves t args x d r x' d' :
  statemach_step sm t args (x, d) = Ok (r, (x', d')) -> moves t x x'.
Proof.
  unfold statemach_step. intros (r1 & [x1 d1] & H1%keeps_take_mutex & H)%bind_inv.
  eapply core_moves_l; [exact H1|]. destruct (negb (r1 =? 0)).
  { injection H as <- <- <-. apply core_moves. reflexivity. }
  apply bind_inv in H as (o & [x2 d2] & [= <- <- <-] & H). cbv zeta in H.
  apply bind_inv in H as (v & [x2 d2] & Hv & H).
  assert (H2 : sc x1 x2) by (revert Hv; destruct (VOTE_REQUIRED _ _); [apply keeps_vote|apply keeps_ret, _]).
  eapply core_moves_l; [exact H2|]. destruct (negb (v =? 0)).
  { apply core_moves. by eapply keeps_give_mutex. }
  apply bind_inv in H as (o & [x3 d3] & [= <- <- <-] & H).
  apply bind_inv in H as (r2 & [x3 d3] & H3%callback_moves & H).
  eapply core_moves_r; [exact H3|].
  apply bind_inv in H as (v2 & [x4 d4] & Hv2 & H%keeps_give_mutex). etrans; [|exact H].
  revert Hv2. destruct (VOTE_REQUIRED _ _); [apply keeps_vote|apply keeps_ret; apply _].
Qed.
End moves.

(** ** Reachability *)
Section reach.
Context {K : Type} `{Os : OsOps K} `{NOs : !NatOs K} `{U : IpaUapi} {W : Type}.
#[local] Notation D := (nat_globals * K)%type.
#[local] Notation SM := (St (smach W * D)).

Lemma statemach_moves n t (args : sm_args (K := K) (W := W)) x d r x' d' :
  ipa_nati_statemach n t args (x, d) = Ok (r, (x', d')) -> moves t x x'.
Proof.
  revert t args x d r x' d'. induction n as [|n IH]; intros t args x d r x' d'; [done|].
  by apply step_moves.
Qed.

Lemma gen_hold_wf o : wf_obj o -> GEN_HOLD_STATE o = NATI_STATE_NULL \/
  GEN_HOLD_STATE o = NATI_STATE_DDR_ONLY \/ GEN_HOLD_STATE o = NATI_STATE_SRAM_ONLY.
Proof.
  intros [Hl _ _]. unfold GEN_HOLD_STATE, IN_HYBRID_STATE, in_state.
  destruct (curr_state o); try done; cbn; auto.
Qed.

Lemma set_hold_wf o h s : wf_obj o ->
  s = NATI_STATE_NULL \/ s = NATI_STATE_DDR_ONLY \/ s = NATI_STATE_SRAM_ONLY -> wf_obj (set_hold o h s).
Proof. by intros [] ?. Qed.

(** [ipa_nat_switch_to] switches between the hybrid states or records what to hold. *)
Lemma switch_to_locked_wf nmi hold (x : smach W) d r x' d' : wf_obj (sm_obj x) ->
  switch_to_locked nmi hold (x, d) = Ok (r, (x', d')) -> wf_obj (sm_obj x').
Proof.
  unfold switch_to_locked. intros Hwf (o & [x3 d3] & [= <- <- <-] & H)%bind_inv.
  pose proof (gen_hold_wf _ Hwf) as Hg. destruct (IN_UNSTARTED_STATE _).
  { apply bind_inv in H as ([] & [x3 d3] & [= <- <-] & [= <- <- <-]).
    apply set_hold_wf; [done|]. destruct (nmi =? _); auto. }
  destruct (IN_HYBRID_STATE _).
  - apply bind_inv in H as (r3 & [x3 d3] & H3 & H).
    assert (Hwf3 : wf_obj (sm_obj x3)).
    { destruct (COMPATIBLE_NMI_4SWITCH _ _); [|by injection H3 as <- <- <-].
      by apply statemach_moves in H3 as [? _]. }
    destruct (r3 =? 0); [|by injection H as <- <- <-].
    apply bind_inv in H as ([] & [x4 d4] & [= <- <-] & [= <- <- <-]).
    apply set_hold_wf; [done|]. destruct hold; [by apply gen_hold_wf|apply Hwf3].
  - destruct hold; [destruct (COMPATIBLE_NMI_4SWITCH _ _)|]; sm_inv; try done; by apply set_hold_wf; auto.
Qed.

Lemma switch_to_wf nmi hold (x : smach W) d r x' d' : wf_obj (sm_obj x) ->
  ipa_nat_switch_to nmi hold (x, d) = Ok (r, (x', d')) -> wf_obj (sm_obj x').
Proof.
  unfold ipa_nat_switch_to. intros Hwf H. destruct (negb _); [by injection H as <- <- <-|].
  apply bind_inv in H as (r1 & [x1 d1] & H1%keeps_take_mutex%(core_moves NATI_TRIG_NULL) & H).
  destruct (H1 Hwf) as [Hwf1 _]. destruct (negb (r1 =? 0)); [by injection H as <- <- <-|].
  apply bind_inv in H as (r2 & [x2 d2] & H2 & H%keeps_give_mutex%(core_moves NATI_TRIG_NULL)).
  apply H. by eapply switch_to_locked_wf.
Qed.

(** What sequences of calls of a client can lead to; between the calls the client
    writes its own memory, and the driver's state is arbitrary. *)
Inductive reachable : smach W -> Prop :=
  | reach_init c : reachable (mk_sm nati_obj0 map_array0 false c)
  | reach_trigger t args x d r x' d' :
      reachable x -> statemach (K := K) t args (x, d) = Ok (r, (x', d')) -> reachable x'
  | reach_switch_to nmi hold x d r x' d' :
      reachable x -> ipa_nat_switch_to (K := K) nmi hold (x, d) = Ok (r, (x', d')) -> reachable x'
  | reach_client x c :
      reachable x -> reachable (mk_sm (sm_obj x) (sm_maps x) (nat_mutex_init x) c).

Lemma reachable_obj x : reachable x -> wf_obj (sm_obj x).
Proof.
  induction 1 as [c|t args x d r x' d' _ IH H|nmi hold x d r x' d' _ IH H|x c _ IH].
  - split; cbn; auto.
  - by apply statemach_moves in H as [? _].
  - by eapply switch_to_wf.
  - done.
Qed.
End reach.
