(* ===== verification/NatSmStatus.v ===== *)
(** * What the state machine returns

    The status of [give_mutex] replaces the status of the callback. *)

From Stdlib Require Import ZArith Lia Ascii String.
From stdpp Require Import prelude gmap list numbers strings.
From S2P Require Import Prelude CFloat IpaTable Os NatUtils NatMap NatRule NatDrvi NatStatemach.
From S2P Require Import NatSmLaws NatSmStates.

Local Open Scope Z_scope.

(** ** The mutex stays initialised *)
Definition inits {W} (x x' : smach W) : Prop := nat_mutex_init x = true -> nat_mutex_init x' = true.

#[export] Instance inits_preorder {W} : PreOrder (@inits W).
Proof. unfold inits. split; [by intros x|intros x y z; auto]. Qed.

Section inits.
Context {K : Type} `{Os : OsOps K} `{NOs : !NatOs K} `{U : IpaUapi} {W : Type}.
#[local] Notation D := (nat_globals * K)%type.
#[local] Notation SM := (St (smach W * D)).
Implicit Types (args : sm_args (K := K) (W := W)).
#[local] Notation ini := (inits (W := W)).

Lemma core_inits {A} (m : SM A) : keeps same_core m -> keeps ini m.
Proof. intros H x d a x' d' [_ Hi]%H. exact Hi. Qed.

Lemma inits_mod_obj f : keeps (K := K) ini (mod_obj f).
Proof. intros x d a x' d' [= <- <- <-] Hx. exact Hx. Qed.

#[local] Hint Resolve inits_mod_obj : sm.
#[local] Hint Resolve core_inits | 5 : sm.
#[local] Hint Resolve keeps_forget keeps_AddDdrTbl keeps_AddSramTbl keeps_AddRuleToTbl
  keeps_DelRuleFromTbl keeps_ClrTbl keeps_WalkTbl keeps_StatTbl keeps_GetTmStmp keeps_collect
  keeps_time_now keeps_ClrTblHybrid keeps_WalkTblHybrid keeps_StatTblHybrid keeps_GetTmStmpHybrid : sm.

Lemma inits_DelTbl args : keeps ini (_smDelTbl args).
Proof. unfold _smDelTbl. keeps. Qed.
#[local] Hint Resolve inits_DelTbl : sm.

Lemma callback_inits sm st t args : (forall t args, keeps ini (sm t args)) ->
  keeps ini (_state_mach_tbl sm st t args).
Proof.
  intros Hsm. assert (Hback : keeps ini (back_to_sram sm)) by (unfold back_to_sram; keeps).
  destruct st, t; cbn [_state_mach_tbl];
  lazymatch goal with
  | |- keeps _ (_smDelSramAndDdrTbl _) => unfold _smDelSramAndDdrTbl
  | |- keeps _ (_smFirstTbl _ _) => unfold _smFirstTbl
  | |- keeps _ (_smAddSramAndDdrTbl _ _) => unfold _smAddSramAndDdrTbl
  | |- keeps _ (_smAddRuleHybrid _ _) => unfold _smAddRuleHybrid
  | |- keeps _ (_smDelRuleHybrid _ _) => unfold _smDelRuleHybrid
  | |- keeps _ _smGoToDdr => unfold _smGoToDdr
  | |- keeps _ _smGoToSram => unfold _smGoToSram
  | |- keeps _ (_smSwitchFromSramToDdr _ _) => unfold _smSwitchFromSramToDdr
  | |- keeps _ (_smSwitchFromDdrToSram _ _) => unfold _smSwitchFromDdrToSram
  | |- keeps _ _smUndef => unfold _smUndef
  | _ => idtac
  end; cbv zeta; keeps.
Qed.

Lemma statemach_inits n t args : keeps ini (ipa_nati_statemach n t args).
Proof.
  revert t args. induction n as [|n IH]; intros t args; [by intros x d a x' d'|].
  cbn [ipa_nati_statemach]. unfold statemach_step. cbv zeta. keeps. by apply callback_inits.
Qed.

(** ** The status *)
(** Mutexes that work. *)
Definition mutexes_work : Prop :=
  (forall k, fst (pthread_mutexattr_init (K := K) k) = 0) /\
  (forall k, fst (pthread_mutexattr_settype (K := K) k) = 0) /\
  (forall m k, fst (pthread_mutex_init (K := K) m k) = 0) /\
  (forall m k, fst (pthread_mutex_lock (K := K) m k) = 0) /\
  (forall m k, fst (pthread_mutex_unlock (K := K) m k) = 0).

Lemma os_call_fst {A} (f : K -> A * K) (x : smach W) d a x' d' :
  os_call f (x, d) = Ok (a, (x', d')) -> x' = x /\ exists k, a = fst (f k).
Proof.
  intros [-> H]%drv_inv. split; [done|]. destruct d as [g k]. unfold os, sys in H.
  exists k. destruct (f k). by injection H as <- <-.
Qed.

Lemma take_mutex_works : mutexes_work -> forall (x : smach W) d ret x' d',
  take_mutex (x, d) = Ok (ret, (x', d')) -> ret = 0.
Proof.
  intros (Hi & Hs & Hm & Hl & _) x d ret x' d' H. unfold take_mutex, mutex_init in H.
  apply bind_inv in H as (i & [x1 d1] & _ & H). destruct i.
  { apply os_call_fst in H as [_ [k ->]]. apply Hl. }
  apply bind_inv in H as (r & [x2 d2] & Hr & H). destruct (r =? 0) eqn:E.
  { apply os_call_fst in H as [_ [k ->]]. apply Hl. }
  injection H as <- _. zify_bool. destruct E. revert Hr.
  intros (r1 & [x3 d3] & H1 & Hr)%bind_inv. apply os_call_fst in H1 as [_ [k1 ->]]. rewrite Hi in Hr.
  rename Hr into H'.
  apply bind_inv in H' as (r2 & [x4 d4] & H2 & H'). apply os_call_fst in H2 as [_ [k2 ->]]. rewrite Hs in H'.
  apply bind_inv in H' as (r3 & [x5 d5] & H3 & H'). apply os_call_fst in H3 as [_ [k3 ->]]. rewrite Hm in H'.
  apply bind_inv in H' as (? & [x6 d6] & _ & H'). by injection H' as <- _.
Qed.

Lemma give_mutex_works : mutexes_work -> forall (x : smach W) d ret x' d',
  nat_mutex_init x = true -> give_mutex (x, d) = Ok (ret, (x', d')) -> ret = 0.
Proof.
  intros (_ & _ & _ & _ & Hu) x d ret x' d' Hx H. unfold give_mutex in H.
  apply bind_inv in H as (i & [x1 d1] & [= <- <- <-] & H). rewrite Hx in H.
  apply os_call_fst in H as [_ [k ->]]. apply Hu.
Qed.

(** Whatever happened, the machine reports success. *)
Lemma statemach_status n t args (x : smach W) d ret x' d' : mutexes_work ->
  ipa_nati_statemach n t args (x, d) = Ok (ret, (x', d')) -> ret = 0.
Proof.
  intros Hw. destruct n as [|n]; [done|]. cbn [ipa_nati_statemach]. unfold statemach_step.
  intros (r1 & [x1 d1] & H1 & H)%bind_inv. pose proof (take_mutex_works Hw _ _ _ _ _ H1) as ->.
  apply take_mutex_frame in H1 as [_ Hi]. specialize (Hi eq_refl). cbn [negb Z.eqb] in H.
  apply bind_inv in H as (o & [x2 d2] & [= <- <- <-] & H). cbv zeta in H.
  apply bind_inv in H as (v & [x2 d2] & Hv & H).
  assert (H2 : nat_mutex_init x2 = true).
  { revert Hv. destruct (VOTE_REQUIRED _ _); [by intros ->%vote_frame|by intros [= <- <- <-]]. }
  destruct (negb (v =? 0)); [by eapply give_mutex_works|].
  apply bind_inv in H as (o & [x3 d3] & [= <- <- <-] & H).
  apply bind_inv in H as (r2 & [x3 d3] & H3%callback_inits & H); [|apply statemach_inits].
  apply bind_inv in H as (v2 & [x4 d4] & Hv2 & H). eapply give_mutex_works; [done| |exact H].
  revert Hv2. destruct (VOTE_REQUIRED _ _); [intros ->%vote_frame|intros [= _ <- _]]; by apply H3.
Qed.
End inits.
