(* ===== verification/SimOs.v ===== *)
(** * A concrete system

    An instance of every interface to the system: the mutexes work, each other call
    succeeds unless it is in the list [sim_fail] of calls that fail, and the open descriptors, mappings and
    kernel tables are counted.  It shows that the laws the driver relies on can hold
    together, and the driver can be evaluated on it. *)

From Stdlib Require Import ZArith Lia Ascii String.
From stdpp Require Import prelude list numbers strings.
From S2P Require Import Prelude IpaTable Dma Os NatUtils MemDescriptor Ipv6ct NatRule NatDrvi.

Local Open Scope Z_scope.

Inductive syscall :=
  | SysCalloc | SysOpen | SysClose | SysMmap | SysClock
  | SysSramInfo | SysTableAlloc | SysTableDel | SysInit | SysPdn | SysVote | SysDma.

#[global] Instance syscall_eq_dec : EqDecision syscall.
Proof. solve_decision. Defined.

Record sim := mk_sim {
  sim_fail : list syscall;
  sim_fds : Z;
  sim_maps : Z;
  sim_tables : Z }.

Definition sim0 : sim := mk_sim [] 0 0 0.

Definition fails (k : sim) (c : syscall) : bool := bool_decide (c ∈ sim_fail k).
Definition status (k : sim) (c : syscall) : Z := if fails k c then -1 else 0.
Definition add_fds (n : Z) (k : sim) := mk_sim (sim_fail k) (sim_fds k + n) (sim_maps k) (sim_tables k).
Definition add_maps (n : Z) (k : sim) := mk_sim (sim_fail k) (sim_fds k) (sim_maps k + n) (sim_tables k).
Definition add_tables (n : Z) (k : sim) := mk_sim (sim_fail k) (sim_fds k) (sim_maps k) (sim_tables k + n).

#[global] Instance sim_uapi : IpaUapi := {|
  IPA_MAX_PDN_NUM := 16;
  IPA_HW_v4_0 := 13;
  IPA_HW_None := 0;
  IPAHAL_NAT_INVALID_PROTOCOL := 255;
  IPA_RESOURCE_NAME_MAX := 32;
  IPA_APP_CLK_DEVOTE := 0;
  IPA_APP_CLK_VOTE := 1;
  IPA_APP_CLK_RESET_VOTE := 2;
  IPA_DEV_NAME := "/dev/ipa";
  IPA_NAT_DEV_NAME := "ipaNatTable";
  IPA_IPV6CT_DEV_NAME := "ipaIpv6CTTable";
  IPA_VALID_NAT_MEM_IN := fun nmi => (nmi =? 0) || (nmi =? 1) |}.

#[global] Instance sim_uapi_laws : IpaUapiLaws.
Proof.
  split; cbn; [lia..|]. intros nmi. unfold IPA_NAT_MEM_IN_DDR, IPA_NAT_MEM_IN_SRAM.
  rewrite orb_true_iff, !Z.eqb_eq. done.
Qed.

#[global] Instance sim_os : OsOps sim := {|
  pthread_mutex_lock _ k := (0, k);
  pthread_mutex_unlock _ k := (0, k);
  pthread_mutexattr_init k := (0, k);
  pthread_mutexattr_settype k := (0, k);
  pthread_mutex_init _ k := (0, k);
  os_calloc k := (negb (fails k SysCalloc), k);
  os_open _ k := if fails k SysOpen then (-1, k) else (3, add_fds 1 k);
  os_close _ k := (status k SysClose, add_fds (-1) k);
  os_mmap _ _ k := if fails k SysMmap then (None, k) else (Some 4096, add_maps 1 k);
  os_munmap _ _ k := add_maps (-1) k;
  clock_gettime k := (status k SysClock, 5, 250000000, k);
  ioctl_get_hw_version _ k := (0, 13, k);
  ioctl_get_nat_in_sram_info _ k := (status k SysSramInfo, mk_sram_info 8192 64 12288, k);
  ioctl_table_alloc _ _ _ k :=
    if fails k SysTableAlloc then (-1, 0, k) else (0, 0, add_tables 1 k);
  ioctl_table_del _ _ _ _ k :=
    if fails k SysTableDel then (-1, k) else (0, add_tables (-1) k) |}.

#[global] Instance sim_nat_os : NatOs sim := {|
  ioctl_v4_init_nat _ _ k := (status k SysInit, k);
  ioctl_nat_modify_pdn _ _ k := (status k SysPdn, k);
  ioctl_app_clock_vote _ _ k := (status k SysVote, k);
  ioctl_table_dma_cmd _ cmd t x k :=
    let ds := take (Z.to_nat (cmd_entries cmd)) (cmd_dma cmd) in
    (status k SysDma,
     if fails k SysDma then (tbl_mem t, tbl_mem x)
     else (tbl_mem (dma_run IPA_NAT_BASE_TBL IPA_NAT_EXPN_TBL t ds),
           tbl_mem (dma_run IPA_NAT_INDX_TBL IPA_NAT_INDEX_EXPN_TBL x ds)), k);
  mapped_rules _ n _ := replicate n (set_indx_tbl_entry rule_zero 1);
  mapped_indx _ n _ := replicate n (mk_indx 7 7) |}.

#[global] Instance sim_os_laws : OsLaws.
Proof.
  split; cbn.
  - intros size fd k a k'. case_match; intros [=]; lia.
  - intros fd k r info k' [= <- <- <-]. cbn. lia.
  - intros fd n size k off k'. by case_match; intros [=].
Qed.

#[global] Instance sim_nat_os_laws : NatOsLaws.
Proof.
  split; cbn.
  - apply _.
  - intros. apply length_replicate.
  - intros. apply length_replicate.
  - intros fd cmd t x k r mems k' [= <- <- <-]. unfold status. by case_match.
Qed.

(** The same, with every vote and every init command accepted. *)
Definition steady_nat_os : NatOs sim := {|
  ioctl_v4_init_nat _ _ k := (0, k);
  ioctl_nat_modify_pdn := ioctl_nat_modify_pdn;
  ioctl_app_clock_vote _ _ k := (0, k);
  ioctl_table_dma_cmd := ioctl_table_dma_cmd;
  mapped_rules := mapped_rules;
  mapped_indx := mapped_indx |}.

Lemma steady_nat_os_laws : NatOsLaws (NOs := steady_nat_os).
Proof. destruct sim_nat_os_laws. by split. Qed.

#[global] Instance sim_ct_os : CtOs sim := {|
  uc_activation_entry := Z;
  ioctl_init_ipv6ct _ _ k := (status k SysInit, k);
  ioctl_ct_dma_cmd _ cmd t k :=
    (status k SysDma,
     if fails k SysDma then tbl_mem t
     else tbl_mem (dma_run IPA_IPV6CT_BASE_TBL IPA_IPV6CT_EXPN_TBL t
            (take (Z.to_nat (cmd_entries cmd)) (cmd_dma cmd))), k);
  ioctl_add_uc_act_entry _ u k := (0, u, k);
  ioctl_del_uc_act_entry _ _ k := (0, k);
  mapped_ct _ n _ := replicate n (ct_set_next_index ct_zero 1) |}.

#[global] Instance sim_ct_os_laws : CtOsLaws.
Proof.
  split; cbn.
  - apply _.
  - intros. apply length_replicate.
  - intros fd cmd t k r m k' [= <- <- <-]. unfold status. by case_match.
Qed.

Lemma sim_lock m (k : sim) : fst (pthread_mutex_lock m k) = 0.
Proof. reflexivity. Qed.
Lemma sim_unlock m (k : sim) : fst (pthread_mutex_unlock m k) = 0.
Proof. reflexivity. Qed.
