(* ===== verification/NatTables.v ===== *)
(** * The NAT table and its index table together

    A rule of the NAT table is found for downlink packets through its own table
    and for uplink packets through the index table, whose entries hold indices of
    rules.  [nat_ok] is the invariant that ties the two: the index entries and the
    rules in force refer to each other, one to one.  This file proves, at the level
    of tables, that the additions and deletions of [NatDrvi] keep it and change the
    set of rules by exactly one rule. *)

From Stdlib Require Import ZArith Lia.
From stdpp Require Import prelude gmap list numbers.
From S2P Require Import Prelude Chain Bitfield IpaTable IpaTableRep Dma TableDma RuleTable Os.
From S2P Require Import NatUtils MemDescriptor NatRule NatRuleLaws NatDrvi.

Local Open Scope Z_scope.

Notation nat_table_ok := (table_ok wf_rule nat_meta_ok).
Notation indx_table_ok := (table_ok wf_indx indx_meta_ok).

(** ** Deletion from the index table *)
Section index_table.
Implicit Types x : ipa_table ipa_nat_indx_tbl_rule.
Context (base expn : ipa_table_dma_type).

Definition indx_hw x : Prop :=
  table_hw base expn x /\
  exists h, help_delete_head (dma_help x) = Some h /\ helper_for base expn head_off h.

Lemma contents_indx x j v : contents x j = Some (mk_indx v 0) ->
  exists n, zget (tbl_mem x) j = Some (mk_indx v n) /\ v <> 0.
Proof.
  unfold contents. destruct (zget _ j) as [[v' n]|]; [|done]. cbn.
  unfold index_table_entry_is_valid. cbn. destruct (v' =? 0) eqn:E; [done|]. cbn.
  intros [= ->]. zify_bool. by exists n.
Qed.

Lemma contents_indx_next x j e : contents x j = Some e -> x_next_index e = 0.
Proof.
  unfold contents. destruct (zget _ j) as [[v' n]|]; [|done]. case_match; [|done].
  by intros [= <-].
Qed.

(** A record that is not the head of a longer chain. *)
Lemma index_delete_plain x chains j it cmd :
  indx_table_ok x chains -> indx_hw x -> position chains j it x ->
  ipa_table_iterator_is_head_with_tail it = false -> cmd_room cmd 1 ->
  exists cmd' d, ipa_table_create_delete_command x cmd it = Ok cmd' /\
    cmd_appended cmd cmd' [d] /\ posts base expn x d /\
    curr_index it = j /\
  exists x' chains', ipa_table_delete_entry (dma_run base expn x [d]) it false = Ok x' /\
    indx_table_ok x' chains' /\ same_shape x x' /\
    (forall k, contents x' k = if decide (k = j) then None else contents x k).
Proof.
  intros HT [HW _] Hpos Hit Hroom. assert (G := ok_geo _ _ _ _ HT).
  destruct Hpos as [(l & Hl & ->)|(b & l1 & l2 & Hl & ->)].
  - destruct l as [|k l].
    2: { pose proof (chain_slots _ _ _ _ HT Hl) as Hs.
         apply list.Forall_cons in Hs as [_ Hs]. apply list.Forall_cons in Hs as [Hk _].
         unfold ipa_table_iterator_is_head_with_tail, iter_at in Hit. cbn [hd0 next_index prev_index] in Hit.
         rewrite (proj2 (VALID_INDEX_true k)) in Hit by lia. done. }
    destruct (rep_chain _ _ _ _ (ok_rep _ _ _ _ HT) _ _ Hl) as (Hb & _).
    destruct (hw_head _ _ _ HW) as (h & Hh & Hfor).
    destruct (delete_command_single x j h cmd G Hb Hroom Hh) as (cmd' & Hcmd & Happ).
    destruct (delete_single x chains j h false HT HW Hl Hfor) as (x' & Hrun & HT' & Hsh & Hc).
    exists cmd', (slot_dma x h j 0).
    split_and!; [done|done|eapply hw_posts; (done || lia || apply ll_offs || slot_bounds G)|done|].
    exists x', (delete j chains). split_and!; try done. intros k. rewrite Hc. by repeat case_decide.
  - pose proof (chain_end_prefix_slot _ _ _ _ _ HT Hl) as Hq.
    destruct (chain_end_record x chains b l1 (j :: l2) HT Hl) as (eq & Heq & _ & Hvq).
    pose proof (hd0_slot x chains b (l1 ++ [j]) l2 HT) as Hn.
    rewrite <- app_assoc in Hn. specialize (Hn Hl).
    destruct (hw_entry _ _ _ HW) as (h & Hh & Hfor). destruct ll_offs as [_ Hoff].
    destruct (delete_command_mid x (chain_end b l1) j (hd0 l2) h cmd G Hq Hroom Hh)
      as (cmd' & Hcmd & Happ).
    destruct (relinked_dma x chains (chain_end b l1) (hd0 l2) eq HT Heq Hvq) as [HRL Hst].
    { destruct G. unfold IPA_TABLE_MAX_ENTRIES in *. lia. }
    destruct (delete_linked x chains b l1 j l2 eq _ false HT Hl HRL) as (x' & Hrun & HT' & Hsh & Hc);
      [done|].
    eexists cmd', _. split_and!; [done|done|eapply hw_posts; try done; slot_bounds G|done|].
    exists x', (<[b := l1 ++ l2]> chains). split_and!; try done.
    + by rewrite (run_one x h entry_off _ eq _ G HW Hfor Hoff Heq).
    + intros k. rewrite Hc. case_decide; [done|]. case_decide as Ek; [|done]. subst k.
      rewrite (contents_valid _ _ _ Heq Hvq). by rewrite Hst.
Qed.

(** The head of a chain with a tail: the second entry is moved into it. *)
Lemma iterator_next_second x chains j k l2 e2 :
  indx_table_ok x chains -> chains !! j = Some (k :: l2) -> zget (tbl_mem x) k = Some e2 ->
  x_next_index e2 = hd0 l2 /\
  ipa_table_iterator_next (iter_at x 0 j k) x = Ok (0, iter_at x j k (hd0 l2)).
Proof.
  intros HT Hl He2. assert (G := ok_geo _ _ _ _ HT).
  destruct (rep_chain _ _ _ _ (ok_rep _ _ _ _ HT) _ _ Hl) as (Hb & Hc & _).
  pose proof (hd0_slot x chains j [k] l2 HT Hl) as Hn.
  pose proof (zget_Some_lt _ _ _ He2).
  pose proof (chain_slots _ _ _ _ HT Hl) as Hs.
  apply list.Forall_cons in Hs as [_ Hs]. apply list.Forall_cons in Hs as [Hk _].
  assert (Hnext : x_next_index e2 = hd0 l2).
  { destruct Hc as (nj & _ & _ & _ & _ & Hc). destruct (view_node _ _ _ _ HT He2) as (p & _ & Hv).
    destruct l2 as [|m l2]; cbn in Hc; destruct Hc as (nk & Hvk & _ & _ & Hnk);
      rewrite Hv in Hvk; injection Hvk as <-; [exact Hnk|exact (proj1 Hnk)]. }
  split; [done|]. destruct (ptr_of_entry x (hd0 l2) G Hn) as [Hp Hnz].
  unfold ipa_table_iterator_next, iter_at, ptr_of. cbn [next_entry curr_index curr_entry next_index].
  rewrite !(proj2 (Z.eqb_neq k 0)), (proj2 (Z.eqb_neq j 0)) by lia.
  rewrite rec_at_goto, He2 by (destruct G; lia). cbn [deref mbind res_bind].
  change (entry_get_next_index e2) with (x_next_index e2). rewrite Hnext, Hp.
  unfold ptr_of in Hnz |- *. by rewrite Hnz.
Qed.

Lemma indx_valid e : entry_is_valid e = true -> x_tbl_entry e <> 0.
Proof. cbn. unfold index_table_entry_is_valid. intros H. zify_bool. done. Qed.

Lemma index_delete_head x chains j k l2 cmd :
  indx_table_ok x chains -> indx_hw x -> chains !! j = Some (k :: l2) -> cmd_room cmd 2 ->
  exists e2 cmd1 d1 cmd2 d2,
    zget (tbl_mem x) k = Some e2 /\ contents x k = Some (mk_indx (x_tbl_entry e2) 0) /\
    j <> k /\
    ipa_table_create_delete_command x cmd (iter_at x 0 j k) = Ok cmd1 /\
    ipa_table_add_dma_cmd x HELP_UPDATE_ENTRY (GOTO_REC x j) j (x_next_index e2) cmd1 = Ok (0, cmd2) /\
    cmd_appended cmd cmd2 [d1; d2] /\
    Forall (posts base expn x) [d1; d2] /\
    ipa_table_iterator_next (iter_at x 0 j k) x = Ok (0, iter_at x j k (hd0 l2)) /\
  exists x' chains',
    ipa_table_delete_entry (dma_run base expn x [d1; d2]) (iter_at x j k (hd0 l2)) false = Ok x' /\
    indx_table_ok x' chains' /\ same_shape x x' /\
    (forall i, contents x' i = if decide (i = k) then None
      else if decide (i = j) then Some (mk_indx (x_tbl_entry e2) 0) else contents x i).
Proof.
  intros HT [HW (hd & Hhd & Hford)] Hl Hroom. assert (G := ok_geo _ _ _ _ HT).
  destruct (rep_chain _ _ _ _ (ok_rep _ _ _ _ HT) _ _ Hl) as (Hb & _).
  destruct (chain_end_record x chains j [] (k :: l2) HT Hl) as (ej & Hej & Hwfj & Hvj). cbn in Hej.
  destruct (chain_end_record x chains j [k] l2 HT Hl) as (e2 & He2 & Hwf2 & Hv2). cbn in He2.
  pose proof (chain_slots _ _ _ _ HT Hl) as Hs.
  apply list.Forall_cons in Hs as [Hj Hs]. apply list.Forall_cons in Hs as [Hk _].
  destruct (iterator_next_second x chains j k l2 e2 HT Hl He2) as [Hn2 Hnext].
  destruct (chain_member_facts x chains j [] k l2 HT Hl) as (_ & _ & _ & _ & Hjk & _). cbn in Hjk.
  destruct (hw_entry _ _ _ HW) as (he & Hhe & Hfore). destruct ll_offs as [Hoffh Hoffe].
  destruct (wf_indx_inv _ Hwf2) as [Ht2 Hnr2].
  destruct (delete_command_head x j k hd ej e2 cmd G Hb Hk ltac:(by eapply cmd_room_mono) Hhd Hej He2)
    as (cmd1 & Hcmd1 & Happ1).
  destruct (add_dma_cmd_spec x HELP_UPDATE_ENTRY he j (x_next_index e2) cmd1 G ltac:(lia)
    ltac:(eapply cmd_appended_room; [done..|cbn; lia]) eq_refl Hhe) as (cmd2 & Hcmd2 & Happ2).
  assert (Hrun : dma_run base expn x
      [slot_dma x hd j (x_tbl_entry e2); slot_dma x he j (x_next_index e2)]
    = set_mem x (zset (tbl_mem x) j (mk_indx (x_tbl_entry e2) (x_next_index e2)))).
  { change [slot_dma x hd j (x_tbl_entry e2); slot_dma x he j (x_next_index e2)]
      with ([slot_dma x hd j (x_tbl_entry e2)] ++ [slot_dma x he j (x_next_index e2)]).
    rewrite dma_run_app, (run_one x hd head_off j ej _ G HW Hford Hoffh Hej).
    cbn [head_off indx_linked]. rewrite dma_indx_entry, wrap_small by done.
    set (x1 := set_mem x _). change (slot_dma x he j) with (slot_dma x1 he j).
    assert (Hwf1 : wf_indx (mk_indx (x_tbl_entry e2) (x_next_index ej)))
      by (apply wf_indx_intro; [done|by apply wf_indx_inv]).
    rewrite (run_one x1 he entry_off j (mk_indx (x_tbl_entry e2) (x_next_index ej))).
    - cbn [entry_off indx_linked]. rewrite dma_indx_next, wrap_small by done.
      unfold x1. cbn [tbl_mem set_mem]. by rewrite zset_zset.
    - unfold x1. auto with cint.
    - eapply same_shape_hw; [|done]. apply same_shape_mem.
    - done.
    - done.
    - unfold x1. cbn [tbl_mem set_mem]. apply zget_zset_eq. by apply (zget_Some_lt _ _ ej). }
  assert (HRL : relinked (wf_entry := wf_indx) x j (hd0 l2) ej
      (mk_indx (x_tbl_entry e2) (x_next_index e2))).
  { split_and!; [done|by apply wf_indx_intro| |done|done].
    cbn. unfold index_table_entry_is_valid. cbn. apply negb_true_iff, Z.eqb_neq. by apply indx_valid. }
  destruct (delete_linked x chains j [] k l2 ej _ false HT Hl HRL) as (x' & Hdel & HT' & Hsh & Hc);
    [done|]. cbn [chain_end List.last app] in *.
  exists e2, cmd1, (slot_dma x hd j (x_tbl_entry e2)), cmd2, (slot_dma x he j (x_next_index e2)).
  split_and!; try done.
  - by rewrite (contents_valid _ _ _ He2 Hv2).
  - eapply (cmd_appended_trans _ _ _ [_] [_]); [exact Happ1|exact Happ2].
  - repeat (apply List.Forall_cons; [eapply hw_posts; try done; slot_bounds G|]). apply List.Forall_nil.
  - exists x', (<[j := l2]> chains). rewrite Hrun. done.
Qed.
End index_table.

(** ** The invariant of the two tables *)
Notation nat_hw := (table_hw IPA_NAT_BASE_TBL IPA_NAT_EXPN_TBL).
Notation nat_del_hw := (del_hw (base := IPA_NAT_BASE_TBL) (expn := IPA_NAT_EXPN_TBL)).
Notation nat_run := (dma_run IPA_NAT_BASE_TBL IPA_NAT_EXPN_TBL).
Notation indx_run := (dma_run IPA_NAT_INDX_TBL IPA_NAT_INDEX_EXPN_TBL).

Record pair_ok (t : ipa_table ipa_nat_rule) (x : ipa_table ipa_nat_indx_tbl_rule)
    (ch xch : gmap Z (list Z)) : Prop := {
  po_t : nat_table_ok t ch;
  po_x : indx_table_ok x xch;
  po_hw : nat_hw t;
  po_del : nat_del_hw t;
  po_xhw : indx_hw IPA_NAT_INDX_TBL IPA_NAT_INDEX_EXPN_TBL x;
  po_te : table_entries x = table_entries t;
  po_ee : expn_table_entries x = expn_table_entries t;
  po_dead : dead_ok t ch;
  po_fwd : forall i r, live_at t i = Some r ->
    contents x (r_indx_tbl_entry r) = Some (mk_indx i 0);
  po_bwd : forall j v, contents x j = Some v ->
    exists r, live_at t (x_tbl_entry v) = Some r /\ r_indx_tbl_entry r = j }.

(** The invariant of a NAT table. *)
Definition nat_ok (n : ipa_nat_ip4_table_cache) : Prop :=
  exists ch xch, pair_ok (table n) (index_table n) ch xch.

(** The caller's patch of a new rule, and the rule once the hardware has written
    its flags: enabled and not redirected, whatever the caller asked. *)
Definition patch_rule (e : ipa_nat_rule) (newx : Z) (u : ipa_nat_ipv4_rule) : ipa_nat_rule :=
  set_time_stamp (set_enable (set_redirect (set_indx_tbl_entry e newx) (u_redirect u))
    (u_enable u)) (u_time_stamp u).

Definition rule_in_force (pdn : ipa_nat_pdn_entry) (u : ipa_nat_ipv4_rule) (newx : Z) :
    ipa_nat_rule :=
  set_flags (patch_rule (new_rule pdn u) newx u)
    (wrap 13 (u_uc_activation_index u)) (b2z (u_s u)) 0 1.

Definition rule_flags (u : ipa_nat_ipv4_rule) : Z :=
  ipa_nat_flags (wrap 13 (u_uc_activation_index u)) (b2z (u_s u)) 0 1.

Lemma fits_rule_flags u : fits flags_ws [wrap 13 (u_uc_activation_index u); b2z (u_s u); 0; 1].
Proof.
  repeat (apply List.Forall2_cons; [first [by apply wrap_range | apply b2z_range | lia]|]).
  apply List.Forall2_nil.
Qed.

Lemma wf_patch e newx u : wf_rule e -> wf_rule (patch_rule e newx u).
Proof. intros. by repeat apply wf_set_field. Qed.

Lemma pair_ok_shape t x ch xch t' x' ch' xch' :
  pair_ok t x ch xch -> same_shape t t' -> same_shape x x' ->
  nat_table_ok t' ch' -> indx_table_ok x' xch' -> dead_ok t' ch' ->
  (forall i r, live_at t' i = Some r -> contents x' (r_indx_tbl_entry r) = Some (mk_indx i 0)) ->
  (forall j v, contents x' j = Some v ->
    exists r, live_at t' (x_tbl_entry v) = Some r /\ r_indx_tbl_entry r = j) ->
  pair_ok t' x' ch' xch'.
Proof.
  intros P (m & c & y & l & ->) (m' & c' & y' & l' & ->) HT HX HD Hf Hb. destruct P. split; try done.
  - eapply same_shape_hw; [apply same_shape_meta|done].
  - destruct po_xhw0 as [? ?]. split; [eapply same_shape_hw; [apply same_shape_meta|done]|done].
Qed.

Lemma nat_base_expn_other d : dma_base_addr d = IPA_NAT_BASE_TBL \/ dma_base_addr d = IPA_NAT_EXPN_TBL ->
  dma_base_addr d <> IPA_NAT_INDX_TBL /\ dma_base_addr d <> IPA_NAT_INDEX_EXPN_TBL.
Proof. by intros [-> | ->]. Qed.

Lemma indx_other d : dma_base_addr d = IPA_NAT_INDX_TBL \/ dma_base_addr d = IPA_NAT_INDEX_EXPN_TBL ->
  dma_base_addr d <> IPA_NAT_BASE_TBL /\ dma_base_addr d <> IPA_NAT_EXPN_TBL.
Proof. by intros [-> | ->]. Qed.

(** The commands of both tables are posted together; each table sees its own. *)
Lemma nat_run_split (t : ipa_table ipa_nat_rule) ds dsx :
  Forall (fun d => dma_base_addr d = IPA_NAT_INDX_TBL \/ dma_base_addr d = IPA_NAT_INDEX_EXPN_TBL) dsx ->
  nat_run t (ds ++ dsx) = nat_run t ds /\ nat_run t (dsx ++ ds) = nat_run t ds.
Proof.
  intros H. assert (Hx : forall t' : ipa_table ipa_nat_rule, nat_run t' dsx = t').
  { intros t'. apply dma_run_other. eapply list.Forall_impl; [exact H|apply indx_other]. }
  by rewrite !dma_run_app, !Hx.
Qed.

Lemma indx_run_split (x : ipa_table ipa_nat_indx_tbl_rule) ds dsx :
  Forall (fun d => dma_base_addr d = IPA_NAT_BASE_TBL \/ dma_base_addr d = IPA_NAT_EXPN_TBL) ds ->
  indx_run x (ds ++ dsx) = indx_run x dsx /\ indx_run x (dsx ++ ds) = indx_run x dsx.
Proof.
  intros H. assert (Hx : forall x' : ipa_table ipa_nat_indx_tbl_rule, indx_run x' ds = x').
  { intros x'. apply dma_run_other. eapply list.Forall_impl; [exact H|apply nat_base_expn_other]. }
  by rewrite !dma_run_app, !Hx.
Qed.

(** ** Addition *)
Notation nat_added := (added (wf_entry := wf_rule) (meta_ok := nat_meta_ok)
  (base := IPA_NAT_BASE_TBL) (expn := IPA_NAT_EXPN_TBL)).
Notation indx_added := (added (wf_entry := wf_indx) (meta_ok := indx_meta_ok)
  (base := IPA_NAT_INDX_TBL) (expn := IPA_NAT_INDEX_EXPN_TBL)).

Lemma strip_unlinked r : r_next_index r = 0 -> r_prev_index r = 0 -> strip r = r.
Proof. destruct r. cbn. by intros -> ->. Qed.

Lemma strip_prev_patch e q newx u uc s rd en :
  strip (set_flags (patch_rule (set_prev_index e q) newx u) uc s rd en)
  = strip (set_flags (patch_rule e newx u) uc s rd en).
Proof. by destruct e. Qed.

Lemma strip_in_force pdn u newx : strip (rule_in_force pdn u newx) = rule_in_force pdn u newx.
Proof.
  unfold rule_in_force. assert (H : r_next_index (new_rule pdn u) = 0 /\ r_prev_index (new_rule pdn u) = 0)
    by done.
  revert H. generalize (new_rule pdn u). intros e [Hn Hp]. apply strip_unlinked; by destruct e.
Qed.

(** The new record before the patch: a copy of the caller's rule, linked or not. *)
Lemma nat_ins_rule t ch b pdn u data t1 new ch' ds e_ins posted newx :
  nat_table_ok t ch -> wf_rule (new_rule pdn u) ->
  nat_added t ch b (new_rule pdn u) rule_zero data t1 new ch' ds e_ins posted ->
  posted = true /\ wf_rule e_ins /\
  strip (set_flags (patch_rule e_ins newx u) (wrap 13 (u_uc_activation_index u)) (b2z (u_s u)) 0 1)
    = rule_in_force pdn u newx /\
  r_next_index e_ins = 0.
Proof.
  intros HT Hwf A.
  assert (posted = true) as ->.
  { apply (proj2 (ad_posted _ _ _ _ _ _ _ _ _ _ _ _ A)). right. apply (ok_meta _ _ _ _ HT). }
  split; [done|].
  destruct (ad_ins _ _ _ _ _ _ _ _ _ _ _ _ A) as [[-> _]|(q & m & m' & Hset)].
  - split; [done|]. split; [apply strip_in_force|done].
  - cbn [entry_set_prev_index entry_interface] in Hset. unfold table_entry_set_prev_index in Hset.
    injection Hset as <- <-. split; [by apply wf_set_field|].
    split; [|done]. rewrite strip_prev_patch. apply strip_in_force.
Qed.

Lemma nat_commit t ch b pdn u t1 new ch' ds e_ins posted newx :
  nat_table_ok t ch -> dead_ok t ch -> wf_rule (new_rule pdn u) -> u_protocol u <> DEAD_PROTOCOL ->
  nat_added t ch b (new_rule pdn u) rule_zero (rule_flags u) t1 new ch' ds e_ins posted ->
  let t2 := nat_run (set_mem t1 (zset (tbl_mem t1) new (patch_rule e_ins newx u))) ds in
  nat_table_ok t2 ch' /\ same_shape t t2 /\ dead_ok t2 ch' /\ live_at t new = None /\
  forall i, live_at t2 i = if decide (i = new) then Some (rule_in_force pdn u newx) else live_at t i.
Proof.
  intros HT HD Hwf Hp A t2.
  destruct (nat_ins_rule _ _ _ _ _ _ _ _ _ _ _ _ newx HT Hwf A) as (-> & Hwfi & Hstrip & Hnext).
  pose proof (wf_patch e_ins newx u Hwfi) as Hwfp. pose proof (fits_rule_flags u) as Hfit.
  assert (Hdata : posted_data true (patch_rule e_ins newx u) (rule_flags u)
    = set_flags (patch_rule e_ins newx u) (wrap 13 (u_uc_activation_index u)) (b2z (u_s u)) 0 1)
    by (by apply dma_flags).
  pose proof (ad_commit _ _ _ _ _ _ _ _ _ _ _ _ A (patch_rule e_ins newx u)) as Hcommit.
  cbv zeta in Hcommit. fold t2 in Hcommit. rewrite Hdata in Hcommit.
  destruct Hcommit as (HT2 & Hsh & Hc); [by apply wf_set_flags|done|exact Hnext|done|].
  rewrite Hstrip in Hc.
  assert (Hpr : rec_protocol (rule_in_force pdn u newx) <> DEAD_PROTOCOL) by exact Hp.
  destruct (rule_inserted _ t2 _ _ _ _ _ _ _ _ _ _ _ _ A HD Hpr Hc) as (? & ? & ?).
  done.
Qed.

Lemma indx_commit x xch b v x1 newx xch' dsx x_ins posted :
  0 < v < 2 ^ 16 ->
  indx_added x xch b (mk_indx 0 0) (mk_indx v 0) v x1 newx xch' dsx x_ins posted ->
  let x2 := indx_run x1 dsx in
  indx_table_ok x2 xch' /\ same_shape x x2 /\ contents x newx = None /\
  forall i, contents x2 i = if decide (i = newx) then Some (mk_indx v 0) else contents x i.
Proof.
  intros Hv A x2.
  assert (Hx1 : set_mem x1 (zset (tbl_mem x1) newx x_ins) = x1).
  { rewrite (zset_id _ _ _ (ad_rec _ _ _ _ _ _ _ _ _ _ _ _ A)). by destruct x1. }
  assert (Hins : x_ins = (if posted then mk_indx 0 0 else mk_indx v 0)).
  { destruct (ad_ins _ _ _ _ _ _ _ _ _ _ _ _ A) as [[-> ->]|(q & m & m' & Hset)]; [done|].
    cbn in Hset. unfold index_table_entry_set_prev_index in Hset.
    destruct (_ >=? _); [|congruence]. destruct m; [|done]. cbn in Hset.
    destruct (_ <? _); congruence. }
  assert (Hdata : posted_data posted x_ins v = mk_indx v 0).
  { subst x_ins. destruct posted; [|done]. cbn [posted_data head_off indx_linked].
    rewrite dma_indx_entry by (by apply wf_indx_intro). by rewrite wrap_small by lia. }
  pose proof (ad_commit _ _ _ _ _ _ _ _ _ _ _ _ A x_ins) as Hcommit. cbv zeta in Hcommit.
  rewrite Hdata, Hx1 in Hcommit.
  destruct Hcommit as (HT2 & Hsh & Hc).
  - apply wf_indx_intro; lia.
  - cbn. unfold index_table_entry_is_valid. cbn. apply negb_true_iff, Z.eqb_neq. lia.
  - done.
  - intros m. by subst x_ins.
  - split_and!; try done. eapply contents_free; [apply A|done].
Qed.

Theorem pair_added t x ch xch b xb pdn u t1 x1 new newx ch' xch' ds dsx e_ins x_ins posted xposted :
  pair_ok t x ch xch -> wf_rule (new_rule pdn u) -> u_protocol u <> DEAD_PROTOCOL ->
  nat_added t ch b (new_rule pdn u) rule_zero (rule_flags u) t1 new ch' ds e_ins posted ->
  indx_added x xch xb (mk_indx 0 0) (mk_indx new 0) new x1 newx xch' dsx x_ins xposted ->
  let t2 := nat_run (set_mem t1 (zset (tbl_mem t1) new (patch_rule e_ins newx u))) (ds ++ dsx) in
  let x2 := indx_run x1 (ds ++ dsx) in
  pair_ok t2 x2 ch' xch' /\ same_shape t t2 /\ same_shape x x2 /\ live_at t new = None /\
  forall i, live_at t2 i = if decide (i = new) then Some (rule_in_force pdn u newx) else live_at t i.
Proof.
  intros P Hwf Hp A AX. cbv zeta.
  rewrite (proj1 (nat_run_split _ ds dsx (posts_region _ _ _ _ (proj2 (ad_ds _ _ _ _ _ _ _ _ _ _ _ _ AX))))).
  rewrite (proj1 (indx_run_split _ ds dsx (posts_region _ _ _ _ (proj2 (ad_ds _ _ _ _ _ _ _ _ _ _ _ _ A))))).
  destruct (nat_commit _ _ _ _ _ _ _ _ _ _ _ newx (po_t _ _ _ _ P) (po_dead _ _ _ _ P) Hwf Hp A)
    as (HT2 & Hsh & HD2 & Hfree & Hlive).
  pose proof (ok_geo _ _ _ _ (po_t _ _ _ _ P)) as G. pose proof (ok_geo _ _ _ _ (po_x _ _ _ _ P)) as GX.
  pose proof (ad_range _ _ _ _ _ _ _ _ _ _ _ _ A) as Hnew.
  pose proof (ad_range _ _ _ _ _ _ _ _ _ _ _ _ AX) as Hnewx.
  assert (0 < new < 2 ^ 16) by (destruct G; unfold IPA_TABLE_MAX_ENTRIES in *; lia).
  assert (newx < 2 ^ 16) by (destruct GX; unfold IPA_TABLE_MAX_ENTRIES in *; lia).
  destruct (indx_commit _ _ _ new _ _ _ _ _ _ ltac:(done) AX) as (HX2 & Hshx & Hfreex & Hcx).
  split_and!; try done. eapply pair_ok_shape; try done.
  - intros i r. rewrite Hlive, Hcx. case_decide as Ei.
    + intros [= <-]. cbn -[wrap]. rewrite wrap_small by lia. subst i. by rewrite decide_True.
    + intros Hr. pose proof (po_fwd _ _ _ _ P i r Hr) as Hf.
      rewrite decide_False; [done|]. intros E. congruence.
  - intros j v. rewrite Hcx. case_decide as Ej.
    + intros [= <-]. subst j. cbn [x_tbl_entry]. rewrite Hlive, decide_True by done. eexists.
      split; [done|]. cbn -[wrap]. by rewrite wrap_small by lia.
    + intros Hv. destruct (po_bwd _ _ _ _ P j v Hv) as (r & Hr & Hj). exists r. split; [|done].
      rewrite Hlive. case_decide as E; [|done]. congruence.
Qed.

(** ** Deletion *)
(** Clearing the meta data of the freed expansion entry. *)
Lemma clear_meta x xch j :
  indx_table_ok x xch -> contents x j = None -> 0 <= j < tot_tbl_ents x ->
  exists x', (if j >=? table_entries x then
      m ← deref (meta x);
      let i := j - table_entries x in
      if i <? Z.of_nat (length m)
      then Ok (set_meta x (Some (zset m i IPA_TABLE_INVALID_ENTRY))) else UB
    else Ok x) = Ok x' /\
    indx_table_ok x' xch /\ same_shape x x' /\ forall k, contents x' k = contents x k.
Proof.
  intros HX Hc Hj. assert (G := ok_geo _ _ _ _ HX). destruct (ok_meta _ _ _ _ HX) as (m & Hm & Hlen).
  pose proof (same_shape_refl x) as Hself.
  rewrite Z.geb_leb, Hm. destruct (_ <=? j) eqn:E; zify_bool; [|by exists x].
  cbn [deref mbind res_bind]. rewrite (proj2 (Z.ltb_lt _ _)) by (destruct G; lia).
  eexists. split; [done|]. destruct (table_mem_lookup x j G Hj) as [e He].
  split_and!.
  - eapply (table_ok_meta x xch _ j e HX He).
    + destruct (entry_is_valid e) eqn:Hv; [|done]. by rewrite (contents_valid _ _ _ He Hv) in Hc.
    + eexists. split; [done|]. by rewrite zset_length.
    + intros e2 k Hk Hkj. cbn. unfold index_table_entry_get_prev_index. rewrite Hm, Z.geb_leb.
      case_match; [|done]. cbn. zify_bool. by rewrite zget_zset_ne by lia.
  - exists (Some (zset m (j - table_entries x) 0)), (cur_tbl_cnt x), (cur_expn_tbl_cnt x), (tbl_mem x).
    by destruct x.
  - done.
Qed.

Lemma pair_unlinked t x ch xch t' x' ch' xch' i j r :
  pair_ok t x ch xch -> live_at t i = Some r -> r_indx_tbl_entry r = j ->
  nat_table_ok t' ch' -> dead_ok t' ch' -> same_shape t t' ->
  indx_table_ok x' xch' -> same_shape x x' ->
  (forall k, live_at t' k = if decide (k = i) then None else live_at t k) ->
  (forall k, contents x' k = if decide (k = j) then None else contents x k) ->
  pair_ok t' x' ch' xch'.
Proof.
  intros P Hr Hj HT HD Hsh HX Hshx Hl Hc. pose proof (po_fwd _ _ _ _ P i r Hr) as Hfi.
  eapply pair_ok_shape; try done.
  - intros k rk. rewrite Hl, Hc. case_decide; [done|]. intros Hk.
    pose proof (po_fwd _ _ _ _ P k rk Hk). rewrite decide_False; [done|]. congruence.
  - intros k v. rewrite Hc. case_decide; [done|]. intros Hv.
    destruct (po_bwd _ _ _ _ P k v Hv) as (rk & Hrk & Hk). exists rk. rewrite Hl.
    rewrite decide_False; [done|]. congruence.
Qed.

(** The same when the second index entry [k2], of rule [v2], has moved to [j]. *)
Lemma pair_moved t x ch xch t0 t' x' ch' xch' i j k2 v2 r r2 :
  pair_ok t x ch xch -> live_at t i = Some r -> r_indx_tbl_entry r = j ->
  live_at t v2 = Some r2 -> r_indx_tbl_entry r2 = k2 -> j <> k2 -> r_indx_tbl_entry (set_indx_tbl_entry r2 j) = j ->
  nat_table_ok t' ch' -> dead_ok t' ch' -> same_shape t t' ->
  indx_table_ok x' xch' -> same_shape x x' ->
  (forall k, live_at t0 k = if decide (k = v2) then Some (set_indx_tbl_entry r2 j) else live_at t k) ->
  (forall k, live_at t' k = if decide (k = i) then None else live_at t0 k) ->
  (forall k, contents x' k = if decide (k = k2) then None
     else if decide (k = j) then Some (mk_indx v2 0) else contents x k) ->
  pair_ok t' x' ch' xch'.
Proof.
  intros P Hr Hj Hr2 Hk2 Hjk Hset HT HD Hsh HX Hshx Hl0 Hl Hc.
  pose proof (po_fwd _ _ _ _ P i r Hr) as Hfi. pose proof (po_fwd _ _ _ _ P v2 r2 Hr2) as Hf2.
  assert (v2 <> i) by congruence.
  eapply pair_ok_shape; try done.
  - intros k rk. rewrite Hl, Hl0, Hc. case_decide; [done|]. case_decide as Ek.
    + intros [= <-]. rewrite Hset, decide_False, decide_True by done. by subst.
    + intros Hk. pose proof (po_fwd _ _ _ _ P k rk Hk). rewrite !decide_False; [done|congruence..].
  - intros k v. rewrite Hc. case_decide; [done|]. case_decide as Ek.
    + intros [= <-]. cbn [x_tbl_entry]. eexists. rewrite Hl, Hl0, decide_False, decide_True by done.
      split; [done|]. by subst.
    + intros Hv. destruct (po_bwd _ _ _ _ P k v Hv) as (rk & Hrk & Hk). exists rk. rewrite Hl, Hl0.
      rewrite !decide_False; [done|congruence..].
Qed.

(** The rules in force by slot, without the index of their index entry. *)
Definition rules_of (t : ipa_table ipa_nat_rule) (i : Z) : option ipa_nat_rule :=
  match live_at t i with Some r => Some (set_indx_tbl_entry r 0) | None => None end.

Lemma indx_written t ch v r2 j :
  nat_table_ok t ch -> dead_ok t ch -> live_at t v = Some r2 ->
  exists e, zget (tbl_mem t) v = Some e /\
    let t0 := set_mem t (zset (tbl_mem t) v (set_indx_tbl_entry e j)) in
    nat_table_ok t0 ch /\ dead_ok t0 ch /\ same_shape t t0 /\
    forall k, live_at t0 k = if decide (k = v) then Some (set_indx_tbl_entry r2 j) else live_at t k.
Proof.
  intros HT HD Hr2. destruct (live_inv _ _ _ Hr2) as (e & He & Hv & <- & Hp & Hc).
  exists e. split; [done|].
  destruct (payload_written t ch v e (set_indx_tbl_entry e j) HT He) as (HT0 & Hsh & Hc0); try done.
  { apply wf_set_field; [by eapply slot_wf|done]. }
  assert (Hst : strip (set_indx_tbl_entry e j) = set_indx_tbl_entry (strip e) j) by (by destruct e).
  rewrite Hst in Hc0. cbv zeta. split_and!; try done.
  - intros k r. rewrite Hc0. case_decide; [|apply HD]. intros [= <-] Hp'. by subst k.
  - intros k. unfold live_at at 1. rewrite Hc0. case_decide; [|done].
    by rewrite (proj2 (Z.eqb_neq _ _)).
Qed.

(** The address the code computes for a rule is that of its slot. *)
Lemma rule_address (t : ipa_table ipa_nat_rule) v : geometry t -> nat_hw t -> 0 <= v < tot_tbl_ents t ->
  (if v <? table_entries t then table_addr t + v * sizeof_ipa_nat_rule
   else expn_table_addr t + u16 (v - table_entries t) * sizeof_ipa_nat_rule) = GOTO_REC t v.
Proof.
  intros G HW Hv. assert (Hs : entry_size t = 32) by exact (hw_size _ _ _ HW). unfold GOTO_REC.
  pose proof (geo_expn_addr _ G) as Hx. pose proof (geo_expn _ G). pose proof (geo_tot _ G).
  rewrite Hs. rewrite Hs in Hx. unfold sizeof_ipa_nat_rule in *.
  destruct (v <? table_entries t) eqn:E; zify_bool; [lia|].
  unfold IPA_TABLE_MAX_ENTRIES in *. rewrite wrap_small by lia. lia.
Qed.

Lemma copy_second_spec n ch xch j k e2 cmd1 cmd2 v2 r2 :
  pair_ok (table n) (index_table n) ch xch -> k <> 0 ->
  zget (tbl_mem (index_table n)) k = Some e2 -> x_tbl_entry e2 = v2 ->
  live_at (table n) v2 = Some r2 ->
  ipa_table_add_dma_cmd (index_table n) HELP_UPDATE_ENTRY (GOTO_REC (index_table n) j) j
    (x_next_index e2) cmd1 = Ok (0, cmd2) ->
  exists t0, ipa_nati_copy_second_index_entry_to_head n (iter_at (index_table n) 0 j k) cmd1
             = Ok (set_tables n t0 (index_table n), cmd2) /\
    nat_table_ok t0 ch /\ dead_ok t0 ch /\ same_shape (table n) t0 /\
    forall i, live_at t0 i = if decide (i = v2) then Some (set_indx_tbl_entry r2 j) else live_at (table n) i.
Proof.
  intros P Hk He2 Hv2 Hr2 Hcmd. pose proof (ok_geo _ _ _ _ (po_t _ _ _ _ P)) as G.
  pose proof (ok_geo _ _ _ _ (po_x _ _ _ _ P)) as GX.
  destruct (indx_written _ _ _ _ j (po_t _ _ _ _ P) (po_dead _ _ _ _ P) Hr2)
    as (e & He & HT0 & HD0 & Hsh & Hl0).
  pose proof (zget_Some_lt _ _ _ He) as Hv. pose proof (zget_Some_lt _ _ _ He2).
  eexists. split; [|done].
  unfold ipa_nati_copy_second_index_entry_to_head, iter_at, ptr_of.
  cbn [next_entry curr_entry curr_index]. rewrite (proj2 (Z.eqb_neq k 0)) by done.
  rewrite rec_at_goto, He2 by (destruct GX; lia). cbn [deref mbind res_bind].
  rewrite Hcmd. cbn [mbind res_bind]. rewrite Hv2, rule_address; [|done|apply P|rewrite <- (geo_mem _ G); lia].
  rewrite rec_at_goto, He by (destruct G; lia). cbn [deref mbind res_bind].
  by rewrite rec_set_goto by (destruct G; lia).
Qed.

Lemma finish_delete_code `{IpaUapi} t it : IPAHAL_NAT_INVALID_PROTOCOL = DEAD_PROTOCOL ->
  (if ipa_table_iterator_is_head_with_tail it then Ok t
   else
     is_prev_empty ←
       (if prev_entry it =? 0 then Ok false
        else p ← rec_at t (prev_entry it); Ok (r_protocol p =? IPAHAL_NAT_INVALID_PROTOCOL));
     ipa_table_delete_entry t it is_prev_empty) = finish_delete t it DEAD_PROTOCOL.
Proof. by intros ->. Qed.

Section deletion.
Context `{U : IpaUapi} (Hinv : IPAHAL_NAT_INVALID_PROTOCOL = DEAD_PROTOCOL).

(** The pipeline of [ipa_NATI_del_ipv4_rule] from the iterators of the two entries
    on: the commands [ds] it posts, and the tables once they have been run.  [n1] is
    the state the code is left in when the commands are refused: the moved rule
    already has its new index entry, which the index table does not yet have. *)
(** A command for one of the two tables. *)
Definition pair_posts (t : ipa_table ipa_nat_rule) (x : ipa_table ipa_nat_indx_tbl_rule)
    (d : ipa_ioc_nat_dma_one) : Prop :=
  posts IPA_NAT_BASE_TBL IPA_NAT_EXPN_TBL t d \/ posts IPA_NAT_INDX_TBL IPA_NAT_INDEX_EXPN_TBL x d.

(** What is posted at a time: up to three commands for the tables of [n]. *)
Definition good_posts (n : ipa_nat_ip4_table_cache) (ds : list ipa_ioc_nat_dma_one) : Prop :=
  (1 <= length ds <= 3)%nat /\ Forall (pair_posts (table n) (index_table n)) ds.

Definition deletion_runs (n : ipa_nat_ip4_table_cache) (i : Z) (cmd : ipa_ioc_nat_dma_cmd)
    (it xit : ipa_table_iterator) : Prop :=
  exists n1 cmd1 xit1 cmd2 ds n3 ch' xch',
    del_index_command n cmd xit = Ok (0, n1, cmd1, xit1) /\
    ipa_table_create_delete_command (table n1) cmd1 it = Ok cmd2 /\
    cmd_appended cmd cmd2 ds /\ good_posts n ds /\
    index_table n1 = index_table n /\ same_shape (table n) (table n1) /\
    (forall k, rules_of (table n1) k = rules_of (table n) k) /\
    (if ipa_table_iterator_is_head_with_tail xit then ~ nat_ok n1 else n1 = n) /\
    public_addr n1 = public_addr n /\ mem_desc n1 = mem_desc n /\
    del_finish (set_tables n1 (nat_run (table n1) ds) (indx_run (index_table n1) ds)) it xit1 = Ok n3 /\
    pair_ok (table n3) (index_table n3) ch' xch' /\
    public_addr n3 = public_addr n /\ mem_desc n3 = mem_desc n /\
    same_shape (table n) (table n3) /\ same_shape (index_table n) (index_table n3) /\
    forall k, rules_of (table n3) k = if decide (k = i) then None else rules_of (table n) k.

(** The last step, common to the two cases. *)
Lemma del_finish_runs n t1 x1 it xit t' x' xch' j :
  table n = t1 -> index_table n = x1 ->
  finish_delete t1 it DEAD_PROTOCOL = Ok t' ->
  ipa_table_delete_entry x1 xit false = Ok x' -> indx_table_ok x' xch' ->
  curr_index xit = j -> contents x' j = None -> 0 <= j < tot_tbl_ents x' ->
  exists x'', del_finish n it xit = Ok (set_tables n t' x'') /\
    indx_table_ok x'' xch' /\ same_shape x' x'' /\ forall k, contents x'' k = contents x' k.
Proof.
  intros <- <- Hf Hd HX <- Hc Hj.
  destruct (clear_meta _ _ _ HX Hc Hj) as (x'' & Hm & HX'' & Hsh & Hc'').
  exists x''. split; [|done]. unfold del_finish. rewrite finish_delete_code, Hf by done.
  cbn [mbind res_bind] in Hm |- *. rewrite Hd. cbn [mbind res_bind]. by rewrite Hm.
Qed.

Lemma delete_plain n ch xch i r it xit cmd :
  pair_ok (table n) (index_table n) ch xch -> live_at (table n) i = Some r -> cmd_room cmd 3 ->
  position ch i it (table n) -> position xch (r_indx_tbl_entry r) xit (index_table n) ->
  ipa_table_iterator_is_head_with_tail xit = false -> deletion_runs n i cmd it xit.
Proof.
  intros P Hr Hroom Hpos Hxpos Hxit.
  destruct (index_delete_plain IPA_NAT_INDX_TBL IPA_NAT_INDEX_EXPN_TBL _ _ _ _ cmd
    (po_x _ _ _ _ P) (po_xhw _ _ _ _ P) Hxpos Hxit ltac:(by eapply cmd_room_mono))
    as (cmd1 & dx & Hcmd1 & Happ1 & Hdx & Hcur & x' & xch' & Hdelx & HX' & Hshx & Hcx).
  destruct (rule_delete _ _ _ _ _ cmd1 (po_t _ _ _ _ P) (po_hw _ _ _ _ P) (po_del _ _ _ _ P)
    (po_dead _ _ _ _ P) Hr Hpos ltac:(eapply cmd_appended_room; [done..|cbn; lia]))
    as (cmd2 & d & Hcmd2 & Happ2 & Hd & t' & ch' & Hfin & HT' & HD' & Hsh & Hlive).
  pose proof (po_fwd _ _ _ _ P i r Hr) as Hfi. destruct (contents_indx _ _ _ Hfi) as (nx & Hxj & _).
  pose proof (zget_Some_lt _ _ _ Hxj) as Hjr.
  rewrite (geo_mem _ (ok_geo _ _ _ _ (po_x _ _ _ _ P))) in Hjr.
  set (n2 := set_tables n (nat_run (table n) [dx; d]) (indx_run (index_table n) [dx; d])).
  destruct (del_finish_runs n2 _ _ it xit t' x' xch' (r_indx_tbl_entry r) eq_refl eq_refl)
    as (x'' & Hrun & HX'' & Hsh'' & Hc''); try done.
  - change [dx; d] with ([dx] ++ [d]). unfold n2. cbn [table set_tables].
    change [dx; d] with ([dx] ++ [d]).
    by rewrite (proj2 (nat_run_split _ [d] [dx] ltac:(constructor; [apply Hdx|done]))).
  - unfold n2. cbn [index_table set_tables]. change [dx; d] with ([dx] ++ [d]).
    by rewrite (proj2 (indx_run_split _ [d] [dx] ltac:(constructor; [apply Hd|done]))).
  - rewrite Hcx. by rewrite decide_True.
  - by destruct Hshx as (? & ? & ? & ? & ->).
  - eexists n, cmd1, xit, cmd2, [dx; d], _, ch', xch'. split_and!.
    + unfold del_index_command. rewrite Hcmd1. cbn [mbind res_bind]. by rewrite Hxit.
    + done.
    + eapply (cmd_appended_trans _ _ _ [_] [_]); done.
    + split; [cbn; lia|]. apply list.Forall_cons. split; [by right|].
      apply list.Forall_cons. split; [by left|by apply list.Forall_nil].
    + done.
    + apply same_shape_refl.
    + done.
    + by rewrite Hxit.
    + done.
    + done.
    + exact Hrun.
    + cbn [table index_table set_tables]. apply (pair_unlinked (table n) (index_table n) ch xch _ _ _ _ i (r_indx_tbl_entry r) r);
        try done.
      * by eapply same_shape_trans.
      * intros k. by rewrite Hc'', Hcx.
    + done.
    + done.
    + done.
    + by eapply same_shape_trans.
    + intros k. unfold rules_of. cbn [table set_tables]. rewrite Hlive. by case_decide.
Qed.

Lemma rules_of_moved t t0 t' i v2 r2 j :
  live_at t v2 = Some r2 ->
  (forall k, live_at t0 k = if decide (k = v2) then Some (set_indx_tbl_entry r2 j) else live_at t k) ->
  (forall k, live_at t' k = if decide (k = i) then None else live_at t0 k) ->
  forall k, rules_of t' k = if decide (k = i) then None else rules_of t k.
Proof.
  intros Hr2 Hl0 Hl k. unfold rules_of. rewrite Hl, Hl0. destruct (decide (k = i)); [done|].
  destruct (decide (k = v2)) as [->|]; [|done]. rewrite Hr2. by destruct r2.
Qed.

Lemma rules_of_indexed t t0 v2 r2 j :
  live_at t v2 = Some r2 ->
  (forall k, live_at t0 k = if decide (k = v2) then Some (set_indx_tbl_entry r2 j) else live_at t k) ->
  forall k, rules_of t0 k = rules_of t k.
Proof.
  intros Hr2 Hl0 k. unfold rules_of. rewrite Hl0.
  destruct (decide (k = v2)) as [->|]; [|done]. rewrite Hr2. by destruct r2.
Qed.

Lemma iter_head_tail (x : ipa_table ipa_nat_indx_tbl_rule) j k : k <> 0 ->
  ipa_table_iterator_is_head_with_tail (iter_at x 0 j k) = true.
Proof.
  intros Hk. unfold ipa_table_iterator_is_head_with_tail, iter_at. cbn [next_index prev_index].
  by rewrite (proj2 (VALID_INDEX_true k)).
Qed.

(** A rule that refers to the index entry of another one. *)
Lemma misindexed n i j v r2 : 0 <= j < 2 ^ 16 ->
  contents (index_table n) j = Some (mk_indx i 0) ->
  live_at (table n) v = Some (set_indx_tbl_entry r2 j) -> i <> v -> ~ nat_ok n.
Proof.
  intros Hj Hc Hl Hne (ch & xch & P). pose proof (po_fwd _ _ _ _ P v _ Hl) as Hf.
  cbn -[wrap] in Hf. rewrite wrap_small, Hc in Hf by done. congruence.
Qed.

Lemma delete_moved n ch xch i r it k l2 cmd :
  pair_ok (table n) (index_table n) ch xch -> live_at (table n) i = Some r -> cmd_room cmd 3 ->
  position ch i it (table n) -> xch !! r_indx_tbl_entry r = Some (k :: l2) ->
  deletion_runs n i cmd it (iter_at (index_table n) 0 (r_indx_tbl_entry r) k).
Proof.
  intros P Hr Hroom Hpos Hxl. set (j := r_indx_tbl_entry r) in *.
  pose proof (ok_geo _ _ _ _ (po_x _ _ _ _ P)) as GX.
  destruct (index_delete_head IPA_NAT_INDX_TBL IPA_NAT_INDEX_EXPN_TBL _ _ _ _ _ cmd
    (po_x _ _ _ _ P) (po_xhw _ _ _ _ P) Hxl ltac:(by eapply cmd_room_mono))
    as (e2 & cmd1 & d1 & cmd1' & d2 & He2 & Hce2 & Hjk & Hcmd1 & Hcmd1' & Happ1 & Hds & Hnext &
        x' & xch' & Hdelx & HX' & Hshx & Hcx).
  destruct (po_bwd _ _ _ _ P k _ Hce2) as (r2 & Hr2 & Hk2). cbn [x_tbl_entry] in Hr2.
  pose proof (chain_slots _ _ _ _ (po_x _ _ _ _ P) Hxl) as Hs.
  apply list.Forall_cons in Hs as [Hj Hs]. apply list.Forall_cons in Hs as [Hk _].
  destruct (copy_second_spec n ch xch j k e2 cmd1 cmd1' _ r2 P ltac:(lia) He2 eq_refl Hr2 Hcmd1')
    as (t0 & Hcopy & HT0 & HD0 & Hsh0 & Hl0).
  pose proof (po_fwd _ _ _ _ P i r Hr) as Hfi. pose proof (po_fwd _ _ _ _ P _ r2 Hr2) as Hf2.
  assert (Hne : i <> x_tbl_entry e2) by (intros Ei; rewrite Ei, Hr2 in Hr; apply Hjk; unfold j; congruence).
  assert (Hr0 : live_at t0 i = Some r) by (by rewrite Hl0, decide_False).
  assert (HX0 : nat_del_hw t0) by (destruct Hsh0 as (? & ? & ? & ? & ->); apply P).
  destruct (rule_delete _ _ _ _ _ cmd1' HT0 (same_shape_hw _ _ _ _ Hsh0 (po_hw _ _ _ _ P)) HX0
    HD0 Hr0 (position_shape _ _ _ _ _ Hsh0 Hpos) ltac:(eapply cmd_appended_room; [done..|cbn; lia]))
    as (cmd2 & d & Hcmd2 & Happ2 & Hd & t' & ch' & Hfin & HT' & HD' & Hsh & Hlive).
  set (n1 := set_tables n t0 (index_table n)).
  set (n2 := set_tables n1 (nat_run t0 [d1; d2; d]) (indx_run (index_table n) [d1; d2; d])).
  destruct (del_finish_runs n2 _ _ it (iter_at (index_table n) j k (hd0 l2)) t' x' xch' k eq_refl eq_refl)
    as (x'' & Hrun & HX'' & Hsh'' & Hc''); try done.
  - unfold n2. cbn [table set_tables]. change [d1; d2; d] with ([d1; d2] ++ [d]).
    by rewrite (proj2 (nat_run_split t0 [d] [d1; d2] (posts_region _ _ _ _ Hds))).
  - unfold n2. cbn [index_table set_tables]. change [d1; d2; d] with ([d1; d2] ++ [d]).
    by rewrite (proj2 (indx_run_split _ [d] [d1; d2] ltac:(constructor; [apply Hd|done]))).
  - rewrite Hcx. by rewrite decide_True.
  - destruct Hshx as (? & ? & ? & ? & ->). cbn. lia.
  - eexists n1, cmd1', _, cmd2, [d1; d2; d], _, ch', xch'. split_and!.
    + unfold del_index_command. rewrite Hcmd1. cbn [mbind res_bind].
      rewrite iter_head_tail by lia. rewrite Hcopy. cbn [mbind res_bind index_table set_tables]. rewrite Hnext. done.
    + exact Hcmd2.
    + eapply (cmd_appended_trans _ _ _ [_; _] [_]); done.
    + split; [cbn; lia|]. change [d1; d2; d] with ([d1; d2] ++ [d]). apply list.Forall_app. split.
      * eapply list.Forall_impl; [exact Hds|]. intros d' H'. by right.
      * apply list.Forall_cons. split; [left; by eapply posts_shape|by apply list.Forall_nil].
    + done.
    + exact Hsh0.
    + by apply (rules_of_indexed (table n) t0 (x_tbl_entry e2) r2 j).
    + rewrite iter_head_tail by lia.
      eapply (misindexed n1 i j (x_tbl_entry e2) r2);
        [destruct GX; unfold IPA_TABLE_MAX_ENTRIES in *; lia|exact Hfi| |done].
      by rewrite Hl0, decide_True.
    + done.
    + done.
    + exact Hrun.
    + cbn [table index_table set_tables].
      apply (pair_moved (table n) (index_table n) ch xch t0 t' x'' ch' xch' i j k (x_tbl_entry e2) r r2);
        try done.
      * cbn -[wrap]. rewrite wrap_small; [done|]. destruct GX. unfold IPA_TABLE_MAX_ENTRIES in *. lia.
      * by eapply same_shape_trans.
      * by eapply same_shape_trans.
      * intros q. by rewrite Hc'', Hcx.
    + done.
    + done.
    + by eapply same_shape_trans.
    + by eapply same_shape_trans.
    + by eapply rules_of_moved.
Qed.

(** Deletion of a rule in force. *)
Lemma pair_delete n ch xch i r cmd :
  pair_ok (table n) (index_table n) ch xch -> live_at (table n) i = Some r -> cmd_room cmd 3 ->
  exists it xit,
    ipa_table_iterator_init (table n) (GOTO_REC (table n) i) i = Ok (0, it) /\
    ipa_table_iterator_init (index_table n) (GOTO_REC (index_table n) (r_indx_tbl_entry r))
      (r_indx_tbl_entry r) = Ok (0, xit) /\
    deletion_runs n i cmd it xit.
Proof.
  intros P Hr Hroom. destruct (live_inv _ _ _ Hr) as (e & He & Hv & _).
  destruct (iterator_position _ _ _ _ (po_t _ _ _ _ P) He Hv) as (it & Hit & Hpos).
  pose proof (po_fwd _ _ _ _ P i r Hr) as Hfi. destruct (contents_indx _ _ _ Hfi) as (nx & Hxj & Hi0).
  assert (Hvx : entry_is_valid (mk_indx i nx) = true).
  { cbn. unfold index_table_entry_is_valid. cbn. by apply negb_true_iff, Z.eqb_neq. }
  destruct (iterator_position _ _ _ _ (po_x _ _ _ _ P) Hxj Hvx) as (xit & Hxit & Hxpos).
  exists it, xit. split_and!; [done|done|].
  destruct (ipa_table_iterator_is_head_with_tail xit) eqn:Ehead; [|by eapply delete_plain].
  destruct Hxpos as [(l & Hl & ->)|(b & l1 & l2 & Hl & ->)].
  - destruct l as [|k l2]; [done|]. by eapply delete_moved.
  - exfalso. pose proof (chain_end_prefix_slot _ _ _ _ _ (po_x _ _ _ _ P) Hl).
    unfold ipa_table_iterator_is_head_with_tail, iter_at in Ehead. cbn [next_index prev_index] in Ehead.
    rewrite (proj2 (VALID_INDEX_true (chain_end _ _))), andb_false_r in Ehead by lia. done.
Qed.
End deletion.
