(* ===== verification/NatDrviProps.v ===== *)
(** * The NAT driver keeps its tables and implements a map of rules

    The abstract state of a table is the map [rules_of] from slots to rules.  A
    successful [ipa_NATI_add_ipv4_rule] adds one rule to it at a slot that was free
    and returns that slot's handle, [ipa_NATI_del_ipv4_rule] removes the rule of a
    handle, and a failure leaves the map as it was; all of them keep [nat_ok].

    The computations are run with [bind_ok] and the lemmas [*_run], one per
    primitive of [NatDrvi]. *)

From Stdlib Require Import ZArith Lia.
From stdpp Require Import prelude gmap list numbers.
From S2P Require Import Prelude Chain Bitfield IpaTable IpaTableRep Dma TableDma RuleTable Os.
From S2P Require Import NatUtils MemDescriptor NatRule NatRuleLaws NatDrvi NatTables.

Local Open Scope Z_scope.

(** ** Running computations *)
Section driver.
Context {K : Type} `{Os : OsOps K} `{NOs : !NatOs K} `{NL : !NatOsLaws} `{U : IpaUapi} `{UL : !IpaUapiLaws}.
Implicit Types (g : nat_globals) (k : K).

(** The cache [c] of [nmi] and its table [n] of handle [hdl]. *)
Definition table_at g (nmi hdl : Z) (c : ipa_nat_cache) (n : ipa_nat_ip4_table_cache) : Prop :=
  zget (ipv4_nat_cache g) nmi = Some c /\ zget (ip4_tbl c) (hdl - 1) = Some n.

(** [g] with the table [n] at [nmi], [hdl]. *)
Definition with_table g (nmi hdl : Z) (c : ipa_nat_cache) (n : ipa_nat_ip4_table_cache) : nat_globals :=
  set_caches g (zset (ipv4_nat_cache g) nmi (set_tbls c (zset (ip4_tbl c) (hdl - 1) n))).

Lemma with_table_at g nmi hdl c n n' : table_at g nmi hdl c n ->
  table_at (with_table g nmi hdl c n') nmi hdl (set_tbls c (zset (ip4_tbl c) (hdl - 1) n')) n'.
Proof.
  intros [Hc Hn]. split; cbn; apply zget_zset_eq.
  - by apply (zget_Some_lt _ _ c).
  - by apply (zget_Some_lt _ _ n).
Qed.

Lemma get_cache_run g k nmi c : zget (ipv4_nat_cache g) nmi = Some c ->
  get_cache nmi (g, k) = Ok (c, (g, k)).
Proof. intros H. unfold get_cache. erewrite bind_ok by done. cbn. by rewrite H. Qed.

Lemma get_table_run g k c hdl n : zget (ip4_tbl c) (hdl - 1) = Some n ->
  get_table (K := K) c hdl (g, k) = Ok (n, (g, k)).
Proof. intros H. unfold get_table. by rewrite H. Qed.

Lemma put_table_run g k nmi hdl c n : zget (ipv4_nat_cache g) nmi = Some c ->
  put_table nmi hdl n (g, k) = Ok (tt, (with_table g nmi hdl c n, k)).
Proof. intros H. unfold put_table. erewrite bind_ok by (by apply get_cache_run). done. Qed.

Lemma os_run {A} (f : K -> A * K) g k : os f (g, k) = Ok (fst (f k), (g, snd (f k))).
Proof. unfold os, sys. by destruct (f k). Qed.

(** A system that carries out the commands the driver posts for the tables of [n]; [I] is
    what it relies on and keeps. *)
Definition carries_out (I : K -> Prop) (nmi : Z) (n : ipa_nat_ip4_table_cache) : Prop :=
  forall fd cmd t x k, I k -> same_shape (table n) t -> same_shape (index_table n) x ->
  good_posts n (cmd_posted cmd) -> cmd_mem_type cmd = nmi ->
  exists mems k', ioctl_table_dma_cmd fd cmd t x k = (0, mems, k') /\ I k'.

(** The posting of commands: run by the hardware, or refused. *)
Lemma post_dma_spec nmi fd n cmd k :
  exists ret n' k', ipa_nati_post_ipv4_dma_cmd nmi fd n cmd k = (ret, n', k') /\
    ((ret = 0 /\ n' = set_tables n (nat_run (table n) (cmd_posted cmd))
                                   (indx_run (index_table n) (cmd_posted cmd))) \/
     (ret = - EIO /\ n' = n)) /\
    forall I n0, carries_out I nmi n0 -> I k -> same_shape (table n0) (table n) ->
      same_shape (index_table n0) (index_table n) -> good_posts n0 (cmd_posted cmd) -> ret = 0 /\ I k'.
Proof.
  unfold ipa_nati_post_ipv4_dma_cmd.
  destruct (ioctl_table_dma_cmd _ _ _ _ _) as [[r mems] k'] eqn:E.
  assert (Hio : forall I n0, carries_out I nmi n0 -> I k -> same_shape (table n0) (table n) ->
    same_shape (index_table n0) (index_table n) -> good_posts n0 (cmd_posted cmd) -> r = 0 /\ I k').
  { intros I n0 HC HI H1 H2 Hp. destruct (HC fd (mk_dma_cmd (cmd_entries cmd) nmi (cmd_dma cmd)) _ _ _ HI H1 H2 Hp eq_refl) as (mems' & k2 & E' & HI').
    rewrite E in E'. by injection E' as -> _ ->. }
  pose proof (law_dma _ _ _ _ _ _ _ _ E) as Hm. cbn [cmd_entries cmd_dma] in Hm.
  destruct mems as [m mx]. destruct (r =? 0) eqn:Er; injection Hm as -> ->; cbn [negb];
    eexists _, _, _; (split; [reflexivity|]); (split; [|intros I n0 ? ? ? ? ?;
      destruct (Hio I n0) as [-> ?]; done]).
  - left. split; [done|]. fold (cmd_posted cmd). by rewrite !dma_run_set_mem.
  - right. split; [done|]. by destruct n as [? ? [] []].
Qed.

(** ** The slot chosen for a rule *)
Definition token_ok g : Prop := 0 <= Hash_token g < 2 ^ 31 - 2 ^ 17.

Lemma token_slot_run g k hash te :
  token_ok g -> 0 < hash <= te - 1 -> 2 <= te <= 4096 ->
  exists b, token_slot (K := K) hash te (g, k) = Ok (b, (set_Hash_token g (Hash_token g + 1), k)) /\
    0 < b < te.
Proof.
  intros Htok Hh Hte. unfold token_ok in Htok.
  assert (Hadd : forall a, 0 <= a < 2 ^ 16 -> int_add a (Hash_token g) = Ok (a + Hash_token g)).
  { intros a Ha. unfold int_add. rewrite (proj2 (Z.leb_le _ _)), (proj2 (Z.ltb_lt _ _)) by lia. done. }
  assert (Hinc : int_add (Hash_token g) 1 = Ok (Hash_token g + 1)).
  { unfold int_add. rewrite (proj2 (Z.leb_le _ _)), (proj2 (Z.ltb_lt _ _)) by lia. done. }
  pose proof (land_bounds (u16 (hash + Hash_token g)) (te - 1)
    ltac:(apply wrap_range; lia) ltac:(lia)) as Hl.
  eexists. split.
  - unfold token_slot. erewrite bind_ok by done. erewrite bind_ok by (apply lift_run, Hadd; lia).
    erewrite bind_ok by (apply lift_run, Hinc). erewrite bind_ok by done. done.
  - rewrite (wrap_small 16 (te - 1)) by lia. case_match; zify_bool; lia.
Qed.

(** [g] up to the token. *)
Definition tokened g g' : Prop := g' = g \/ g' = set_Hash_token g (Hash_token g + 1).

Lemma choose_slot (only : bool) g k hash te :
  token_ok g -> 0 < hash <= te - 1 -> 2 <= te <= 4096 ->
  exists b g', (if only then token_slot (K := K) hash te else mret hash) (g, k) = Ok (b, (g', k)) /\
    0 < b < te /\ tokened g g'.
Proof.
  intros Htok Hh Hte. destruct only.
  - destruct (token_slot_run g k hash te Htok Hh Hte) as (b & Hb & Hr).
    eexists b, _. split_and!; [exact Hb|lia|lia|by right].
  - exists hash, g. split_and!; [done|lia|lia|by left].
Qed.

(** ** Addition of a rule *)
Lemma pair_undone t x ch xch t' x' :
  pair_ok t x ch xch -> nat_table_ok t' ch -> tbl_mem t' = tbl_mem t -> same_shape t t' ->
  indx_table_ok x' xch -> tbl_mem x' = tbl_mem x -> same_shape x x' ->
  pair_ok t' x' ch xch /\ forall i, rules_of t' i = rules_of t i.
Proof.
  intros P HT Hm Hsh HX Hmx Hshx.
  assert (Hc : forall i, contents t' i = contents t i) by (intros i; by apply contents_mem).
  assert (Hcx : forall i, contents x' i = contents x i) by (intros i; by apply contents_mem).
  assert (Hl : forall i, live_at t' i = live_at t i) by (intros i; unfold live_at; by rewrite Hc).
  split; [|intros i; unfold rules_of; by rewrite Hl].
  apply (pair_ok_shape t x ch xch); try done.
  - intros i r. rewrite Hc. apply (po_dead _ _ _ _ P).
  - intros i r. rewrite Hl, Hcx. apply (po_fwd _ _ _ _ P).
  - intros j v. rewrite Hcx. intros Hv. destruct (po_bwd _ _ _ _ P j v Hv) as (r & Hr & Hj).
    exists r. by rewrite Hl.
Qed.

Lemma erase_patched {E D} `{EntryOps E D} (t : ipa_table E) i e :
  0 < entry_size t -> 0 <= i ->
  ipa_table_erase_entry (set_mem t (zset (tbl_mem t) i e)) i = ipa_table_erase_entry t i.
Proof.
  intros Hs Hi. unfold ipa_table_erase_entry, rec_set.
  change (slot_of (set_mem t (zset (tbl_mem t) i e)) (GOTO_REC (set_mem t (zset (tbl_mem t) i e)) i))
    with (slot_of t (GOTO_REC t i)).
  rewrite slot_of_goto by done. cbn [tbl_mem set_mem]. rewrite zset_length, zset_zset. done.
Qed.

(** What a caller of [add_rule_locked] is told. *)
Definition add_outcome (pdn : ipa_nat_pdn_entry) (u : ipa_nat_ipv4_rule)
    (n n' : ipa_nat_ip4_table_cache) (ret : Z) (h : option Z) : Prop :=
  nat_ok n' /\ public_addr n' = public_addr n /\ mem_desc n' = mem_desc n /\
  same_shape (table n) (table n') /\ same_shape (index_table n) (index_table n') /\
  ((ret = 0 /\ exists new, h = Some (MakeEntryHdl (table n) new) /\
      0 < new < tot_tbl_ents (table n) /\ rules_of (table n) new = None /\
      forall i, rules_of (table n') i =
        if decide (i = new) then Some (rule_in_force pdn u 0) else rules_of (table n) i) \/
   (ret <> 0 /\ h = None /\ forall i, rules_of (table n') i = rules_of (table n) i)).

(** [g] up to the token, which two more rules without a hash move on by at most 2. *)
Definition retokened g g' : Prop :=
  exists tok, g' = set_Hash_token g tok /\ Hash_token g <= tok <= Hash_token g + 2.

Lemma in_force_unindexed pdn u newx :
  set_indx_tbl_entry (rule_in_force pdn u newx) 0 = rule_in_force pdn u 0.
Proof. unfold rule_in_force. generalize (new_rule pdn u). by intros []. Qed.

(** The commands of an addition. *)
Lemma add_posts n ch xch b xb pdn u t1 x1 new newx ch' xch' ds dsx e_ins x_ins posted xposted :
  pair_ok (table n) (index_table n) ch xch ->
  nat_added (table n) ch b (new_rule pdn u) rule_zero (rule_flags u) t1 new ch' ds e_ins posted ->
  indx_added (index_table n) xch xb (mk_indx 0 0) (mk_indx new 0) new x1 newx xch' dsx x_ins xposted ->
  good_posts n (ds ++ dsx).
Proof.
  intros P A AX. destruct (ad_ds _ _ _ _ _ _ _ _ _ _ _ _ A) as [Hl Hd].
  destruct (ad_ds _ _ _ _ _ _ _ _ _ _ _ _ AX) as [Hlx Hdx].
  destruct (ok_meta _ _ _ _ (po_x _ _ _ _ P)) as (m & Hm & _). rewrite Hm in Hlx. split.
  - rewrite length_app. destruct (meta (table n)); lia.
  - apply list.Forall_app. split; [eapply list.Forall_impl; [exact Hd|]; by left|].
    eapply list.Forall_impl; [exact Hdx|]. by right.
Qed.

(** Both entries are in place: patch, post, and undo when the kernel refuses. *)
Lemma add_rule_posted n ch xch b xb pdn u t1 x1 new newx ch' xch' ds dsx e_ins x_ins posted xposted
    cmd nmi fd k :
  pair_ok (table n) (index_table n) ch xch -> wf_rule (new_rule pdn u) ->
  u_protocol u <> DEAD_PROTOCOL -> cmd_posted cmd = ds ++ dsx ->
  nat_added (table n) ch b (new_rule pdn u) rule_zero (rule_flags u) t1 new ch' ds e_ins posted ->
  indx_added (index_table n) xch xb (mk_indx 0 0) (mk_indx new 0) new x1 newx xch' dsx x_ins xposted ->
  let n1 := set_tables n (set_mem t1 (zset (tbl_mem t1) new (patch_rule e_ins newx u))) x1 in
  exists ret n2 k', ipa_nati_post_ipv4_dma_cmd nmi fd n1 cmd k = (ret, n2, k') /\
    (if negb (ret =? 0)
     then exists n3, undo_add n2 (Some newx) new = Ok n3 /\ add_outcome pdn u n n3 ret None
     else add_outcome pdn u n n2 0 (Some (MakeEntryHdl (table n) new))) /\
    forall I, carries_out I nmi n -> I k -> ret = 0 /\ I k'.
Proof.
  intros P Hwf Hp Hcmd A AX n1.
  destruct (post_dma_spec nmi fd n1 cmd k) as (ret & n2 & k' & Hpost & Hcase & Hio).
  exists ret, n2, k'. split; [done|]. split.
  2: { intros I HC HI. apply (Hio I n HC HI); [|apply AX|rewrite Hcmd; by eapply add_posts].
       eapply same_shape_trans; [apply A|apply same_shape_mem]. }
  destruct Hcase as [[-> ->]|[-> ->]]; cbn [negb Z.eqb Z.opp].
  - rewrite Hcmd. cbn [table index_table set_tables n1].
    destruct (pair_added _ _ _ _ _ _ _ _ _ _ _ _ _ _ _ _ _ _ _ _ P Hwf Hp A AX)
      as (P2 & Hsh & Hshx & Hfree & Hlive).
    split; [by eexists _, _|]. split_and!; try done. left. split; [done|]. exists new.
    split_and!; [done|apply A..| |].
    + unfold rules_of. by rewrite Hfree.
    + intros i. unfold rules_of. cbn [table set_tables]. rewrite Hlive.
      case_decide; [by rewrite in_force_unindexed|done].
  - pose proof (ad_range _ _ _ _ _ _ _ _ _ _ _ _ A) as Hnew.
    destruct (ad_undo _ _ _ _ _ _ _ _ _ _ _ _ A) as (t' & Ht' & HT' & Hm & Hsh).
    destruct (ad_undo _ _ _ _ _ _ _ _ _ _ _ _ AX) as (x' & Hx' & HX' & Hmx & Hshx).
    destruct (pair_undone _ _ _ _ t' x' P HT' Hm Hsh HX' Hmx Hshx) as [P' Hrules].
    exists (set_tables n t' x'). split.
    + unfold undo_add, n1. cbn [table index_table set_tables].
      rewrite Hx'. cbn [mbind res_bind]. rewrite erase_patched, Ht'; [done| |lia].
      destruct (ad_shape _ _ _ _ _ _ _ _ _ _ _ _ A) as (? & ? & ? & ? & ->). cbn.
      pose proof (geo_size _ (ok_geo _ _ _ _ (po_t _ _ _ _ P))). lia.
    + split; [by eexists _, _|]. split_and!; try done. by right.
Qed.

(** A rule the driver accepts, and its PDN. *)
Definition acceptable g (u : ipa_nat_ipv4_rule) (pdn : ipa_nat_pdn_entry) : Prop :=
  wf_ipv4_rule u /\ u_protocol u <> DEAD_PROTOCOL /\
  zget (pdns g) (u_pdn_index u) = Some pdn /\ wf_pdn pdn /\
  Z.of_nat (length (pdns g)) = IPA_MAX_PDN_NUM.

Lemma acceptable_new_rule g u pdn : acceptable g u pdn ->
  wf_rule (new_rule pdn u) /\ 0 <= u_pdn_index u < 2 ^ 4.
Proof.
  intros (Hu & _ & Hget & Hp & Hlen). pose proof (zget_Some_lt _ _ _ Hget).
  pose proof uapi_pdn_num. assert (0 <= u_pdn_index u < 2 ^ 4) by lia.
  split; [by apply wf_new_rule|done].
Qed.

Lemma tokened_trans g g1 g2 : tokened g g1 -> tokened g1 g2 -> retokened g g2.
Proof.
  intros H1 H2. exists (Hash_token g2).
  destruct H1 as [-> | ->], H2 as [-> | ->]; (split; [first [done|by destruct g]|cbn; lia]).
Qed.

Lemma tokened_re g g1 : tokened g g1 -> retokened g g1.
Proof. intros H. apply (tokened_trans g g1 g1 H). by left. Qed.

(** The continuation of the code after the index entry is in place. *)
Lemma index_full_undone n ch xch b pdn u t1 new ch' ds e_ins posted :
  pair_ok (table n) (index_table n) ch xch ->
  nat_added (table n) ch b (new_rule pdn u) rule_zero (rule_flags u) t1 new ch' ds e_ins posted ->
  exists n3, undo_add (set_tables n t1 (index_table n)) None new = Ok n3 /\
    add_outcome pdn u n n3 (-1) None.
Proof.
  intros P A. destruct (ad_undo _ _ _ _ _ _ _ _ _ _ _ _ A) as (t' & Ht' & HT' & Hm & Hsh).
  destruct (pair_undone _ _ _ _ t' (index_table n) P HT' Hm Hsh (po_x _ _ _ _ P) eq_refl
    (same_shape_refl _))
    as [P' Hrules].
  exists (set_tables n t' (index_table n)). split.
  - unfold undo_add. cbn [table index_table set_tables mbind res_bind]. rewrite Ht'. done.
  - split; [by eexists _, _|]. split_and!; try done; [apply same_shape_refl|by right].
Qed.

Lemma add_outcome_same pdn u n : nat_ok n -> add_outcome pdn u n n (-1) None.
Proof.
  intros Hn. split; [done|]. split_and!; try done; [apply same_shape_refl..|by right].
Qed.

(** No free record behind the base table. *)
Definition no_room (n : ipa_nat_ip4_table_cache) : Prop :=
  none_empty (table n) (table_entries (table n)) \/
  none_empty (index_table n) (table_entries (index_table n)).

Theorem add_rule_locked_io g k nmi hdl c n desc u pdn :
  table_at g nmi hdl c n -> valid (mem_desc n) = true -> ipa_desc c = Some desc ->
  nat_ok n -> acceptable g u pdn -> 0 <= Hash_token g < 2 ^ 31 - 2 ^ 17 - 1 ->
  exists ret h n' g1 k', add_rule_locked nmi hdl u (g, k) =
      Ok ((ret, h), (with_table g1 nmi hdl c n', k')) /\
    retokened g g1 /\ add_outcome pdn u n n' ret h /\
    forall I, carries_out I (cache_nmi c) n -> I k -> I k' /\ (ret = 0 \/ no_room n).
Proof.
  intros [Hc Hn] Hvalid Hdesc (ch & xch & P) Hacc Htok.
  destruct (acceptable_new_rule _ _ _ Hacc) as [Hwf Hpi].
  destruct Hacc as (Hu & Hproto & Hget & Hpdn & Hlen).
  pose proof (ok_geo _ _ _ _ (po_t _ _ _ _ P)) as G. pose proof (geo_base _ G) as Hte.
  pose proof (ok_geo _ _ _ _ (po_x _ _ _ _ P)) as GX.
  assert (Hu16 : u16 (table_entries (table n) - 1) = table_entries (table n) - 1)
    by (apply wrap_small; lia).
  unfold add_rule_locked.
  erewrite bind_ok by (by apply get_cache_run). erewrite bind_ok by (by apply get_table_run).
  rewrite Hvalid. cbn [negb]. erewrite bind_ok by done. cbn [fst].
  erewrite bind_ok by (apply lift_run; by rewrite Hget).
  erewrite bind_ok by (apply lift_run; by rewrite Hdesc). rewrite !Hu16.
  destruct (choose_slot (u_src_only u) g k
    (dst_hash (ver desc) (public_ip pdn) (u_target_ip u) (u_target_port u) (u_public_port u)
       (u_protocol u) (table_entries (table n) - 1)) (table_entries (table n)))
    as (b & g1 & Hb & Hbr & Hg1); [split; lia|apply dst_hash_range; lia|lia|].
  erewrite bind_ok by exact Hb.
  pose proof (nat_inserts (table n) (pdns g) u pdn Hu Hget Hpdn Hpi (ok_meta _ _ _ _ (po_t _ _ _ _ P)))
    as Hins. fold (rule_flags u) in Hins.
  destruct (table_add _ _ _ _ _ _ _ (dma_cmd_zero MAX_DMA_ENTRIES_FOR_ADD) (po_t _ _ _ _ P)
    (po_hw _ _ _ _ P) Hbr (zero_room 4 2 ltac:(lia)) Hins)
    as [(Hadd & _ & Hfull)|(t1 & cmd1 & new & ch' & ds & e_ins & posted & Hadd & Happ & A)].
  { erewrite bind_ok by (apply lift_run, Hadd). cbn [negb Z.eqb].
    erewrite bind_ok by (apply put_table_run; by destruct Hg1 as [-> | ->]).
    exists (-1), None, n, g1, k. split_and!; [|by apply tokened_re|by apply add_outcome_same; eexists _, _|].
    2: { intros I _ HI. split; [done|]. right. by left. }
    cbn. by destruct n. }
  erewrite bind_ok by (apply lift_run, Hadd). cbn [negb Z.eqb].
  destruct (choose_slot (u_dst_only u) g1 k
    (src_hash (u_private_ip u) (u_private_port u) (u_target_ip u) (u_target_port u)
       (u_protocol u) (table_entries (table n) - 1)) (table_entries (table n)))
    as (xb & g2 & Hxb & Hxbr & Hg2);
    [unfold token_ok; destruct Hg1 as [-> | ->]; cbn; lia|apply src_hash_range; lia|lia|].
  erewrite bind_ok by exact Hxb.
  pose proof (ad_range _ _ _ _ _ _ _ _ _ _ _ _ A) as Hnew.
  assert (Hg : retokened g g2 /\ zget (ipv4_nat_cache g2) nmi = Some c).
  { split; [by eapply tokened_trans|].
    by destruct Hg1 as [-> | ->], Hg2 as [-> | ->]. }
  destruct Hg as [Hgt Hgc].
  assert (Hnew16 : 0 <= new < 2 ^ 16) by (destruct G; unfold IPA_TABLE_MAX_ENTRIES in *; lia).
  assert (Hroom : cmd_room cmd1 2).
  { eapply (cmd_appended_room _ _ _ 4); [exact Happ|apply (zero_room 4); lia|].
    destruct (ad_ds _ _ _ _ _ _ _ _ _ _ _ _ A). destruct (meta (table n)); lia. }
  cbn [index_table table set_tables].
  destruct (table_add _ _ _ _ _ _ _ cmd1 (po_x _ _ _ _ P) (proj1 (po_xhw _ _ _ _ P))
    ltac:(rewrite (po_te _ _ _ _ P); exact Hxbr) Hroom (indx_inserts (index_table n) new Hnew16))
    as [(Haddx & _ & Hfull)|(x1 & cmd2 & newx & xch' & dsx & x_ins & xposted & Haddx & Happx & AX)].
  { erewrite bind_ok by (apply lift_run, Haddx). cbn [negb Z.eqb].
    destruct (index_full_undone _ _ _ _ _ _ _ _ _ _ _ _ P A) as (n3 & Hundo & Hout).
    erewrite bind_ok by (apply lift_run, Hundo).
    erewrite bind_ok by (by apply put_table_run).
    exists (-1), None, n3, g2, k. split_and!; try done. intros I _ HI. split; [done|]. right. by right. }
  erewrite bind_ok by (apply lift_run, Haddx). cbn [negb Z.eqb table index_table set_tables].
  destruct (ad_shape _ _ _ _ _ _ _ _ _ _ _ _ A) as (m1 & c1 & y1 & l1 & Et1).
  assert (Hptr : ipa_table_get_entry_by_index t1 new = GOTO_REC t1 new)
    by (apply get_entry_by_index_goto; [lia|subst t1; cbn; lia]).
  assert (Hnz : (GOTO_REC t1 new =? 0) = false).
  { subst t1. apply (goto_nonzero (table n)); [done|lia]. }
  pose proof (ad_rec _ _ _ _ _ _ _ _ _ _ _ _ A) as Hrec. pose proof (zget_Some_lt _ _ _ Hrec) as Hlen1.
  assert (Hsz : 0 < entry_size t1) by (subst t1; apply G).
  rewrite Hptr, Hnz.
  erewrite bind_ok by (apply lift_run; rewrite rec_at_goto, Hrec by lia; done).
  erewrite bind_ok by (apply lift_run; apply rec_set_goto; lia).
  fold (patch_rule e_ins newx u).
  destruct (add_rule_posted n ch xch b xb pdn u t1 x1 new newx ch' xch' ds dsx e_ins x_ins posted
    xposted cmd2 (cache_nmi c) (fd desc) k P Hwf Hproto) as (ret & n2 & k' & Hpost & Hcase & Hio); [|done..|].
  { destruct (cmd_appended_trans _ _ _ _ _ Happ Happx) as [Hp _]. by rewrite Hp, zero_posted. }
  unfold set_tables in Hpost |- *. cbn [public_addr mem_desc table index_table] in Hpost |- *.
  erewrite bind_ok by (rewrite os_run, Hpost; done).
  cbn [fst snd]. destruct (negb (ret =? 0)) eqn:Eret.
  - destruct Hcase as (n3 & Hundo & Hout).
    erewrite bind_ok by (apply lift_run, Hundo). erewrite bind_ok by (by apply put_table_run).
    exists ret, None, n3, g2, k'. split_and!; [done|done| |].
    2: { intros I HC HI. destruct (Hio I HC HI) as [-> ?]. by split; [|left]. }
    destruct Hout as (? & ? & ? & ? & ? & [[-> _]|(_ & ? & ?)]); [done|].
    split_and!; try done. right. split_and!; try done. by apply negb_true_iff, Z.eqb_neq in Eret.
  - erewrite bind_ok by (by apply put_table_run).
    eexists 0, _, n2, g2, k'. split_and!; try done. intros I HC HI. destruct (Hio I HC HI) as [_ ?].
    by split; [|left].
Qed.

Theorem add_rule_locked_spec g k nmi hdl c n desc u pdn :
  table_at g nmi hdl c n -> valid (mem_desc n) = true -> ipa_desc c = Some desc ->
  nat_ok n -> acceptable g u pdn -> 0 <= Hash_token g < 2 ^ 31 - 2 ^ 17 - 1 ->
  exists ret h n' g1 k', add_rule_locked nmi hdl u (g, k) =
      Ok ((ret, h), (with_table g1 nmi hdl c n', k')) /\
    retokened g g1 /\ add_outcome pdn u n n' ret h.
Proof.
  intros. destruct (add_rule_locked_io g k nmi hdl c n desc u pdn) as (ret & h & n' & g1 & k' & ? & ? & ? & _);
    [done..|]. by exists ret, h, n', g1, k'.
Qed.
End driver.
