(* ===== verification/NatDrviDel.v ===== *)
(** * Deletion of rules and queries by handle

    [del_rule_locked] removes exactly the rule whose handle it is given, or, when
    the kernel refuses the commands, no rule at all; [ipa_NATI_query_timestamp]
    reads the record of a handle. *)

From Stdlib Require Import ZArith Lia.
From stdpp Require Import prelude gmap list numbers.
From S2P Require Import Prelude Chain Bitfield IpaTable IpaTableRep Dma TableDma RuleTable Os.
From S2P Require Import NatUtils MemDescriptor NatRule NatRuleLaws NatDrvi NatTables.
From S2P Require Import NatDrviProps.

Local Open Scope Z_scope.

Lemma live_slots n ch xch i r :
  pair_ok (table n) (index_table n) ch xch -> live_at (table n) i = Some r ->
  0 < i < tot_tbl_ents (table n) /\ 0 < r_indx_tbl_entry r < tot_tbl_ents (index_table n).
Proof.
  intros P Hr. destruct (live_inv _ _ _ Hr) as (e & He & Hv & _).
  pose proof (valid_slot _ _ _ _ (po_t _ _ _ _ P) He Hv) as Hi. split; [done|].
  pose proof (po_fwd _ _ _ _ P i r Hr) as Hfi.
  destruct (contents_indx _ _ _ Hfi) as (nx & Hxj & Hi0).
  apply (valid_slot _ _ _ _ (po_x _ _ _ _ P) Hxj). cbn.
  unfold index_table_entry_is_valid. by apply negb_true_iff, Z.eqb_neq.
Qed.

Lemma rules_live t i r : rules_of t i = Some r ->
  exists r', live_at t i = Some r' /\ r = set_indx_tbl_entry r' 0.
Proof. unfold rules_of. destruct (live_at t i); [|done]. intros [= <-]. by eexists. Qed.

Section driver.
Context {K : Type} `{Os : OsOps K} `{NOs : !NatOs K} `{NL : !NatOsLaws} `{U : IpaUapi} `{UL : !IpaUapiLaws}.
Implicit Types (g : nat_globals) (k : K).

(** The index entry [j] heads a chain of more than itself, as the code tests it. *)
Definition heads_chain (x : ipa_table ipa_nat_indx_tbl_rule) (j : Z) : bool :=
  match ipa_table_iterator_init x (ipa_table_get_entry_by_index x j) j with
  | Ok (_, it) => ipa_table_iterator_is_head_with_tail it
  | _ => false
  end.

(** The commands of a deletion were refused: the tables are as they were, unless the
    rule's index entry heads a chain, when the pair of tables is broken. *)
Definition refused (n n' : ipa_nat_ip4_table_cache) (i : Z) : Prop :=
  forall r, live_at (table n) i = Some r ->
    if heads_chain (index_table n) (r_indx_tbl_entry r) then ~ nat_ok n' else n' = n.

(** What a caller of [del_rule_locked] is told about the rule of slot [i]. *)
Definition del_outcome (n n' : ipa_nat_ip4_table_cache) (i ret : Z) : Prop :=
  public_addr n' = public_addr n /\ mem_desc n' = mem_desc n /\
  ((ret = 0 /\ nat_ok n' /\ same_shape (table n) (table n') /\
      same_shape (index_table n) (index_table n') /\
      forall q, rules_of (table n') q = if decide (q = i) then None else rules_of (table n) q) \/
   (ret = - EIO /\ index_table n' = index_table n /\
      (forall q, rules_of (table n') q = rules_of (table n) q) /\
      refused n n' i)).

Theorem del_rule_locked_io g k nmi hdl c n desc i :
  table_at g nmi hdl c n -> valid (mem_desc n) = true -> ipa_desc c = Some desc ->
  nat_ok n -> is_Some (rules_of (table n) i) ->
  exists ret n' k', del_rule_locked nmi hdl (MakeEntryHdl (table n) i) (g, k) =
      Ok ((ret, tt), (with_table g nmi hdl c n', k')) /\ del_outcome n n' i ret /\
    forall I, carries_out I (cache_nmi c) n -> I k -> I k' /\ ret = 0.
Proof.
  intros [Hc Hn] Hvalid Hdesc (ch & xch & P) (r0 & Hr0).
  destruct (rules_live _ _ _ Hr0) as (r & Hr & _).
  destruct (live_slots _ _ _ _ _ P Hr) as [Hi Hj].
  pose proof (ok_geo _ _ _ _ (po_t _ _ _ _ P)) as G. pose proof (geo_size _ G).
  destruct (pair_delete uapi_invalid_protocol n ch xch i r (dma_cmd_zero MAX_DMA_ENTRIES_FOR_DEL) P Hr
    (zero_room 3 3 ltac:(lia))) as (it & xit & Hit & Hxit & Hrun).
  destruct (live_inv _ _ _ Hr) as (e & He & Hv & Hstrip & _).
  assert (He' : r_indx_tbl_entry e = r_indx_tbl_entry r) by (by subst r; destruct e).
  unfold del_rule_locked.
  erewrite bind_ok by (by apply get_cache_run). erewrite bind_ok by (by apply get_table_run).
  rewrite Hvalid. cbn [negb]. rewrite get_entry_hdl by (done || lia).
  erewrite bind_ok by (apply lift_run, Hit). cbn [negb Z.eqb].
  erewrite bind_ok by (apply lift_run; rewrite rec_at_goto, He by lia; done). rewrite He'.
  rewrite get_entry_by_index_goto by lia.
  rewrite goto_nonzero by (lia || apply (ok_geo _ _ _ _ (po_x _ _ _ _ P))).
  erewrite bind_ok by (apply lift_run, Hxit). cbn [negb Z.eqb].
  destruct Hrun as (n1 & cmd1 & xit1 & cmd2 & ds & n3 & ch' & xch' & Hidx & Hcmd & Happ & Hgood & Hx1 & Hsh1 & Hr1 &
    Hn1 & Hpub1 & Hmd1 & Hfin & P' & Hpub & Hmd & Hsh & Hshx & Hrules).
  erewrite bind_ok by (apply lift_run, Hidx). cbn [negb Z.eqb].
  erewrite bind_ok by (apply lift_run, Hcmd).
  erewrite bind_ok by (unfold get_fd; erewrite bind_ok by (apply lift_run; by rewrite Hdesc); done).
  destruct (post_dma_spec (cache_nmi c) (fd desc) n1 cmd2 k) as (ret & n2 & k' & Hpost & Hcase & Hio).
  assert (Hpst : cmd_posted cmd2 = ds) by (destruct Happ as (-> & _); by rewrite zero_posted).
  assert (Hall : forall I, carries_out I (cache_nmi c) n -> I k -> ret = 0 /\ I k').
  { intros I HC HI. apply (Hio I n HC HI); [done|rewrite Hx1; apply same_shape_refl|by rewrite Hpst]. }
  erewrite bind_ok by (rewrite os_run, Hpost; done). cbn [fst snd].
  destruct Hcase as [[-> ->]|[-> ->]]; cbn [negb Z.eqb].
  - rewrite Hpst. erewrite bind_ok by (apply lift_run, Hfin). erewrite bind_ok by (by apply put_table_run).
    eexists 0, n3, k'. split; [done|]. split; [|intros I HC HI; by destruct (Hall I HC HI)].
    split; [done|]. split; [done|]. left.
    split; [done|]. split; [by eexists _, _|]. done.
  - change (negb (- EIO =? 0)) with true. cbv iota.
    erewrite bind_ok by (by apply put_table_run).
    eexists _, n1, k'. split; [done|]. split; [|intros I HC HI; by destruct (Hall I HC HI)].
    split; [done|]. split; [done|]. right. split_and!; try done.
    intros r' Hr'. assert (r' = r) as -> by congruence. unfold heads_chain.
    rewrite get_entry_by_index_goto by lia. by rewrite Hxit.
Qed.

Theorem del_rule_locked_spec g k nmi hdl c n desc i :
  table_at g nmi hdl c n -> valid (mem_desc n) = true -> ipa_desc c = Some desc ->
  nat_ok n -> is_Some (rules_of (table n) i) ->
  exists ret n' k', del_rule_locked nmi hdl (MakeEntryHdl (table n) i) (g, k) =
      Ok ((ret, tt), (with_table g nmi hdl c n', k')) /\ del_outcome n n' i ret.
Proof.
  intros. destruct (del_rule_locked_io g k nmi hdl c n desc i) as (ret & n' & k' & ? & ? & _); [done..|].
  by exists ret, n', k'.
Qed.

(** A handle whose record is free, or beyond the table. *)
Lemma del_rule_locked_free g k nmi hdl c n h :
  table_at g nmi hdl c n -> nat_ok n ->
  (forall e, zget (tbl_mem (table n)) (snd (BREAK_RULE_HDL (table n) h)) = Some e ->
     entry_is_valid e = false) ->
  del_rule_locked nmi hdl h (g, k) = Ok ((- EINVAL, tt), (g, k)).
Proof.
  intros [Hc Hn] (ch & xch & P) Hfree.
  pose proof (ok_geo _ _ _ _ (po_t _ _ _ _ P)) as G.
  unfold del_rule_locked.
  erewrite bind_ok by (by apply get_cache_run). erewrite bind_ok by (by apply get_table_run).
  destruct (valid (mem_desc n)); [|done]. cbn [negb].
  unfold ipa_table_get_entry. destruct (BREAK_RULE_HDL _ _) as [[mt iet] i] eqn:EB.
  destruct (i >=? tot_tbl_ents (table n)) eqn:Ei; [done|].
  rewrite Z.geb_leb in Ei. zify_bool.
  assert (Hi0 : 0 <= i).
  { unfold BREAK_RULE_HDL in EB. injection EB as _ _ <-. by apply wrap_range. }
  destruct (table_mem_lookup _ _ G (conj Hi0 Ei)) as [e He].
  specialize (Hfree e He).
  erewrite bind_ok; [|apply lift_run]; cycle 1.
  { unfold ipa_table_iterator_init. rewrite rec_at_goto, He by (destruct G; lia).
    cbn [deref mbind res_bind]. rewrite Hfree. done. }
  done.
Qed.
End driver.
