(* ===== verification/NatApi.v ===== *)
(** * The rule operations of the NAT driver's interface

    [ipa_NATI_add_ipv4_rule], [ipa_NATI_del_ipv4_rule], [ipa_NATI_query_timestamp] and
    [ipa_NATI_clear_ipv4_tbl] as a client sees them: the mutex, the checks of the
    handles, the errors, and the map of rules before and after. *)

From Stdlib Require Import ZArith Lia.
From stdpp Require Import prelude gmap list numbers.
From S2P Require Import Prelude Chain Bitfield IpaTable IpaTableRep Dma TableDma TableSetup.
From S2P Require Import RuleTable Os NatUtils MemDescriptor NatRule NatRuleLaws NatDrvi.
From S2P Require Import NatTables NatDrviProps NatDrviDel NatCreate.

Local Open Scope Z_scope.

Section api.
Context {K : Type} `{Os : OsOps K} `{NOs : !NatOs K} `{NL : !NatOsLaws} `{U : IpaUapi} `{UL : !IpaUapiLaws}.
Implicit Types (g : nat_globals) (k : K).

(** The handle [tbl_hdl] names the table [n] of the cache [c], ready for use. *)
Record ready g (tbl_hdl nmi hdl : Z) (c : ipa_nat_cache) (n : ipa_nat_ip4_table_cache)
    (desc : ipa_descriptor) : Prop := {
  rd_hdl : BREAK_TBL_HDL tbl_hdl = (nmi, hdl);
  rd_nmi : IPA_VALID_NAT_MEM_IN nmi = true;
  rd_at : table_at g nmi hdl c n;
  rd_valid : valid (mem_desc n) = true;
  rd_desc : ipa_desc c = Some desc;
  rd_ok : nat_ok n }.

Lemma ready_with_table g g1 tbl_hdl nmi hdl c n desc n' :
  ready g tbl_hdl nmi hdl c n desc -> ipv4_nat_cache g1 = ipv4_nat_cache g ->
  mem_desc n' = mem_desc n -> nat_ok n' ->
  ready (with_table g1 nmi hdl c n') tbl_hdl nmi hdl
    (set_tbls c (zset (ip4_tbl c) (hdl - 1) n')) n' desc.
Proof.
  intros [] Hg Hmd Hok. split; try done.
  - apply with_table_at with (n := n). unfold table_at in *. by rewrite Hg.
  - by rewrite Hmd.
Qed.

(** The mutex. *)
Lemma locked_run {A} (body : St (nat_globals * K) (Z * A)) none g k ret a g' k' :
  fst (pthread_mutex_lock nat_mutex k) = 0 ->
  body (g, snd (pthread_mutex_lock nat_mutex k)) = Ok ((ret, a), (g', k')) ->
  let u := pthread_mutex_unlock nat_mutex k' in
  locked body none (g, k) =
    Ok ((if negb (fst u =? 0) then (if negb (ret =? 0) then ret else - EPERM) else ret, a),
        (g', snd u)).
Proof.
  intros Hl Hb u. unfold locked. erewrite bind_ok by (rewrite os_run; done). rewrite Hl. cbn [negb Z.eqb].
  erewrite bind_ok by exact Hb. cbn [fst snd]. by erewrite bind_ok by (rewrite os_run; done).
Qed.

Lemma locked_refused {A} (body : St (nat_globals * K) (Z * A)) none g k :
  fst (pthread_mutex_lock nat_mutex k) <> 0 ->
  locked body none (g, k) =
    Ok ((- EINVAL, none), (g, snd (pthread_mutex_lock nat_mutex k))).
Proof.
  intros Hl. unfold locked. erewrite bind_ok by (rewrite os_run; done).
  by rewrite (proj2 (Z.eqb_neq _ _)).
Qed.

(** ** Addition *)
Lemma add_rule_api_io g k tbl_hdl nmi hdl c n desc u pdn :
  ready g tbl_hdl nmi hdl c n desc -> VALID_TBL_HDL tbl_hdl = true ->
  acceptable g u pdn -> public_ip pdn <> 0 -> 0 <= Hash_token g < 2 ^ 31 - 2 ^ 17 - 1 ->
  fst (pthread_mutex_lock nat_mutex k) = 0 ->
  exists st h n' g1 k1, let un := pthread_mutex_unlock nat_mutex k1 in
    ipa_NATI_add_ipv4_rule tbl_hdl u (g, k) =
      Ok (if negb (st =? 0) then (st, Some 0)
          else if negb (fst un =? 0) then (- EPERM, Some 0) else (0, h),
          (with_table g1 nmi hdl c n', snd un)) /\
    retokened g g1 /\ add_outcome pdn u n n' st h /\
    forall I, carries_out I (cache_nmi c) n -> I (snd (pthread_mutex_lock nat_mutex k)) ->
      I k1 /\ (st = 0 \/ no_room n).
Proof.
  intros R Hv Hacc Hip Htok Hlock.
  destruct (add_rule_locked_io g (snd (pthread_mutex_lock nat_mutex k)) nmi hdl c n desc u pdn)
    as (st & h & n' & g1 & k1 & Hrun & Hg1 & Hout); try done; try apply R.
  exists st, h, n', g1, k1. cbv zeta. split; [|done].
  destruct Hacc as (_ & Hp & Hget & _ & Hlen). pose proof (zget_Some_lt _ _ _ Hget) as Hi.
  unfold ipa_NATI_add_ipv4_rule. rewrite Hv, (rd_hdl _ _ _ _ _ _ _ R), (rd_nmi _ _ _ _ _ _ _ R).
  cbn [negb]. rewrite uapi_invalid_protocol, (proj2 (Z.eqb_neq _ 255)) by done.
  erewrite bind_ok by done. cbn [fst]. erewrite bind_ok by (apply lift_run; by rewrite Hget).
  rewrite Z.geb_leb, (proj2 (Z.leb_gt _ _)), (proj2 (Z.eqb_neq _ 0)) by (done || lia). cbn [orb].
  erewrite bind_ok by (rewrite os_run; done). rewrite Hlock. cbn [negb Z.eqb].
  erewrite bind_ok by exact Hrun. cbn [fst snd]. erewrite bind_ok by (rewrite os_run; done).
  destruct (negb (st =? 0)); [done|]. by destruct (negb (_ =? 0)).
Qed.

Lemma add_rule_api g k tbl_hdl nmi hdl c n desc u pdn :
  ready g tbl_hdl nmi hdl c n desc -> VALID_TBL_HDL tbl_hdl = true ->
  acceptable g u pdn -> public_ip pdn <> 0 -> 0 <= Hash_token g < 2 ^ 31 - 2 ^ 17 - 1 ->
  fst (pthread_mutex_lock nat_mutex k) = 0 ->
  exists st h n' g1 k1, let un := pthread_mutex_unlock nat_mutex k1 in
    ipa_NATI_add_ipv4_rule tbl_hdl u (g, k) =
      Ok (if negb (st =? 0) then (st, Some 0)
          else if negb (fst un =? 0) then (- EPERM, Some 0) else (0, h),
          (with_table g1 nmi hdl c n', snd un)) /\
    retokened g g1 /\ add_outcome pdn u n n' st h.
Proof.
  intros. destruct (add_rule_api_io g k tbl_hdl nmi hdl c n desc u pdn) as (st & h & n' & g1 & k1 & ? & ? & ? & _);
    [done..|]. by exists st, h, n', g1, k1.
Qed.

(** A successful addition, when the mutex works. *)
Lemma add_rule_done g k tbl_hdl nmi hdl c n desc u pdn h g1 k1 :
  (forall m k, fst (pthread_mutex_lock (K := K) m k) = 0) ->
  (forall m k, fst (pthread_mutex_unlock (K := K) m k) = 0) ->
  ready g tbl_hdl nmi hdl c n desc -> VALID_TBL_HDL tbl_hdl = true ->
  acceptable g u pdn -> public_ip pdn <> 0 -> 0 <= Hash_token g < 2 ^ 31 - 2 ^ 17 - 1 ->
  ipa_NATI_add_ipv4_rule tbl_hdl u (g, k) = Ok ((0, h), (g1, k1)) ->
  exists new c' n', h = Some (MakeEntryHdl (table n') new) /\ 0 < new < tot_tbl_ents (table n) /\
    rules_of (table n) new = None /\ ready g1 tbl_hdl nmi hdl c' n' desc /\
    same_shape (table n) (table n') /\ pdns g1 = pdns g /\ table_cnt c' = table_cnt c /\
    forall i, rules_of (table n') i =
      if decide (i = new) then Some (rule_in_force pdn u 0) else rules_of (table n) i.
Proof.
  intros Hlk Hul R Hv Ha Hip Ht Hadd.
  destruct (add_rule_api g k _ _ _ _ _ _ _ _ R Hv Ha Hip Ht (Hlk _ _))
    as (st & h' & n' & g1' & k1' & Hrun & (tok & -> & _) & Hok & _ & Hmd & Hsh & _ & Hout).
  cbv zeta in Hrun. rewrite Hul, Hadd in Hrun. cbn [negb Z.eqb] in Hrun.
  destruct Hout as [(-> & new & -> & Hnew & Hfree & Hupd)|(Hst & _)].
  2: { rewrite (proj2 (Z.eqb_neq st 0)) in Hrun by done. cbn [negb] in Hrun. injection Hrun as E. by destruct Hst. }
  cbn [negb Z.eqb] in Hrun. injection Hrun as -> -> ->.
  pose proof (ready_with_table g (set_Hash_token g tok) _ _ _ _ _ _ n' R eq_refl Hmd Hok) as R1.
  eexists new, _, n'. split_and!; try done; [by destruct Hsh as (? & ? & ? & ? & ->)|lia..].
Qed.

(** Requests that are refused before anything is looked up. *)
Lemma add_rule_refused g k tbl_hdl u pdn :
  zget (pdns g) (u_pdn_index u) = Some pdn -> IPA_MAX_PDN_NUM <= Z.of_nat (length (pdns g)) ->
  VALID_TBL_HDL tbl_hdl = false \/ IPA_VALID_NAT_MEM_IN (fst (BREAK_TBL_HDL tbl_hdl)) = false \/
  u_protocol u = IPAHAL_NAT_INVALID_PROTOCOL \/ public_ip pdn = 0 ->
  exists h, ipa_NATI_add_ipv4_rule tbl_hdl u (g, k) = Ok ((- EINVAL, h), (g, k)) /\
    (h = None \/ h = Some 0).
Proof.
  intros Hget Hlen Hbad. unfold ipa_NATI_add_ipv4_rule.
  destruct (VALID_TBL_HDL tbl_hdl) eqn:Ev; cbn [negb]; [|eexists; split; [done|by left]].
  destruct (BREAK_TBL_HDL tbl_hdl) as [nmi hdl]. cbn [fst] in Hbad.
  destruct (IPA_VALID_NAT_MEM_IN nmi) eqn:En; cbn [negb]; [|eexists; split; [done|by right]].
  destruct (u_protocol u =? IPAHAL_NAT_INVALID_PROTOCOL) eqn:Ep; [eexists; split; [done|by right]|].
  zify_bool. destruct Hbad as [|[|[|Hip]]]; try done.
  erewrite bind_ok by done. cbn [fst]. erewrite bind_ok by (apply lift_run; by rewrite Hget).
  rewrite Hip, orb_true_r. eexists. split; [done|by right].
Qed.

(** ** Deletion *)
Lemma del_rule_api_io g k tbl_hdl nmi hdl c n desc i :
  ready g tbl_hdl nmi hdl c n desc -> is_Some (rules_of (table n) i) ->
  fst (pthread_mutex_lock nat_mutex k) = 0 ->
  exists st n' k1, let un := pthread_mutex_unlock nat_mutex k1 in
    ipa_NATI_del_ipv4_rule tbl_hdl (MakeEntryHdl (table n) i) (g, k) =
      Ok (if negb (fst un =? 0) then (if negb (st =? 0) then st else - EPERM) else st,
          (with_table g nmi hdl c n', snd un)) /\
    del_outcome n n' i st /\
    forall I, carries_out I (cache_nmi c) n -> I (snd (pthread_mutex_lock nat_mutex k)) -> I k1 /\ st = 0.
Proof.
  intros R Hi Hlock.
  destruct (del_rule_locked_io g (snd (pthread_mutex_lock nat_mutex k)) nmi hdl c n desc i)
    as (st & n' & k1 & Hrun & Hout); try done; try apply R.
  exists st, n', k1. cbv zeta. split; [|done].
  unfold ipa_NATI_del_ipv4_rule. rewrite (rd_hdl _ _ _ _ _ _ _ R), (rd_nmi _ _ _ _ _ _ _ R). cbn [negb].
  by erewrite bind_ok by (by apply locked_run).
Qed.

Lemma del_rule_api g k tbl_hdl nmi hdl c n desc i :
  ready g tbl_hdl nmi hdl c n desc -> is_Some (rules_of (table n) i) ->
  fst (pthread_mutex_lock nat_mutex k) = 0 ->
  exists st n' k1, let un := pthread_mutex_unlock nat_mutex k1 in
    ipa_NATI_del_ipv4_rule tbl_hdl (MakeEntryHdl (table n) i) (g, k) =
      Ok (if negb (fst un =? 0) then (if negb (st =? 0) then st else - EPERM) else st,
          (with_table g nmi hdl c n', snd un)) /\
    del_outcome n n' i st.
Proof.
  intros. destruct (del_rule_api_io g k tbl_hdl nmi hdl c n desc i) as (st & n' & k1 & ? & ? & _); [done..|].
  by exists st, n', k1.
Qed.

Lemma del_free_api g k tbl_hdl nmi hdl c n desc h :
  ready g tbl_hdl nmi hdl c n desc ->
  (forall e, zget (tbl_mem (table n)) (snd (BREAK_RULE_HDL (table n) h)) = Some e ->
     entry_is_valid e = false) ->
  exists k', ipa_NATI_del_ipv4_rule tbl_hdl h (g, k) = Ok (- EINVAL, (g, k')).
Proof.
  intros R Hfree. unfold ipa_NATI_del_ipv4_rule.
  rewrite (rd_hdl _ _ _ _ _ _ _ R), (rd_nmi _ _ _ _ _ _ _ R). cbn [negb].
  destruct (Z.eq_dec (fst (pthread_mutex_lock nat_mutex k)) 0) as [Hl|Hl].
  - erewrite bind_ok.
    2: { apply locked_run; [done|]. apply (del_rule_locked_free _ _ _ _ c n); [apply R..|done]. }
    eexists. cbn. by case_match.
  - erewrite bind_ok by (by apply locked_refused). by eexists.
Qed.

(** ** Time stamps *)
Lemma query_timestamp_api g k tbl_hdl nmi hdl c n desc i r :
  ready g tbl_hdl nmi hdl c n desc -> rules_of (table n) i = Some r ->
  fst (pthread_mutex_lock nat_mutex k) = 0 ->
  let un := pthread_mutex_unlock nat_mutex (snd (pthread_mutex_lock nat_mutex k)) in
  ipa_NATI_query_timestamp tbl_hdl (MakeEntryHdl (table n) i) (g, k) =
    Ok ((if negb (fst un =? 0) then - EPERM else 0, Some (r_time_stamp r)), (g, snd un)).
Proof.
  intros R Hr Hlock un. destruct (rules_live _ _ _ Hr) as (r' & Hl & ->).
  destruct (rd_ok _ _ _ _ _ _ _ R) as (ch & xch & P). destruct (rd_at _ _ _ _ _ _ _ R) as [Hc Hn].
  destruct (live_slots _ _ _ _ _ P Hl) as [Hi _]. pose proof (ok_geo _ _ _ _ (po_t _ _ _ _ P)) as G.
  destruct (live_inv _ _ _ Hl) as (e & He & _ & Hstrip & _).
  unfold ipa_NATI_query_timestamp. rewrite (rd_hdl _ _ _ _ _ _ _ R), (rd_nmi _ _ _ _ _ _ _ R). cbn [negb].
  erewrite locked_run; [..|done|]; cycle 1.
  { erewrite bind_ok by (by apply get_cache_run). erewrite bind_ok by (by apply get_table_run).
    rewrite (rd_valid _ _ _ _ _ _ _ R). cbn [negb]. rewrite get_entry_hdl by (done || lia).
    erewrite bind_ok by (apply lift_run; rewrite rec_at_goto, He by (destruct G; lia); done). done. }
  cbn [negb Z.eqb]. fold un. subst r'. destruct e. done.
Qed.
End api.
