(* ===== verification/NatTblApi.v ===== *)
(** * Tables as the clients of the NAT driver see them

    [ipa_NATI_add_ipv4_tbl] and [ipa_NATI_del_ipv4_table] open and close the device
    with the first and last table; [ipa_NATI_clear_ipv4_tbl] empties one. *)

From Stdlib Require Import ZArith Lia.
From stdpp Require Import prelude gmap list numbers.
From S2P Require Import Prelude Chain Bitfield IpaTable IpaTableRep Dma TableDma TableSetup.
From S2P Require Import RuleTable Os NatUtils MemDescriptor NatRule NatRuleLaws NatDrvi.
From S2P Require Import NatTables NatDrviProps NatDrviDel NatCreate NatApi.

Local Open Scope Z_scope.

Lemma break_make_tbl_hdl nmi cnt : nmi = IPA_NAT_MEM_IN_DDR \/ nmi = IPA_NAT_MEM_IN_SRAM ->
  0 <= cnt < 2 ^ 8 -> BREAK_TBL_HDL (MAKE_TBL_HDL cnt nmi) = (nmi, cnt).
Proof.
  intros Hn Hc. unfold BREAK_TBL_HDL, MAKE_TBL_HDL. rewrite Z.lor_comm, lor_shiftl_add by lia.
  assert (0 <= nmi <= 1) by (by destruct Hn as [-> | ->]).
  rewrite wrap_small by lia. f_equal.
  - rewrite Z.shiftr_div_pow2, Z.div_add, Z.div_small by lia.
    change (Z.land (0 + nmi) 1 = nmi). by destruct Hn as [-> | ->].
  - change 255 with (Z.ones 8). rewrite Z.land_ones by lia.
    replace (nmi * 2 ^ 31) with (nmi * 2 ^ 23 * 2 ^ 8) by lia.
    rewrite Z.mod_add, Z.mod_small by lia. done.
Qed.

Section tables.
Context {K : Type} `{Os : OsOps K} `{NOs : !NatOs K} `{NL : !NatOsLaws} `{U : IpaUapi} `{UL : !IpaUapiLaws}.
Implicit Types (g : nat_globals) (k : K).

(** ** Clearing *)
Lemma cleared_ok n ch xch : pair_ok (table n) (index_table n) ch xch ->
  exists t x, ipa_table_reset (table n) = Ok t /\ ipa_table_reset (index_table n) = Ok x /\
    let n' := set_tables n (set_cnts t 0 0) (set_cnts x 0 0) in
    nat_ok n' /\ same_shape (table n) (table n') /\ same_shape (index_table n) (index_table n') /\
    forall i, rules_of (table n') i = None.
Proof.
  intros P. pose proof (ok_geo _ _ _ _ (po_t _ _ _ _ P)) as G.
  pose proof (ok_geo _ _ _ _ (po_x _ _ _ _ P)) as GX.
  eexists _, _. split; [by apply reset_run|]. split; [by apply reset_run|]. cbv zeta.
  set (t := set_cnts _ 0 0). set (x := set_cnts (set_mem (index_table n) _) 0 0).
  assert (Hsh : same_shape (table n) t) by apply same_shape_cnts.
  assert (Hshx : same_shape (index_table n) x) by apply same_shape_cnts.
  destruct (empty_pair t x) as [P' Hr]; try done.
  - apply geometry_set_cnts, geometry_set_mem; [|done].
    rewrite length_replicate, <- (geo_mem _ G). lia.
  - apply geometry_set_cnts, geometry_set_mem; [|done].
    rewrite length_replicate, <- (geo_mem _ GX). lia.
  - apply (ok_meta _ _ _ _ (po_t _ _ _ _ P)).
  - apply (ok_meta _ _ _ _ (po_x _ _ _ _ P)).
  - eapply same_shape_hw; [done|apply P].
  - apply (po_del _ _ _ _ P).
  - destruct (po_xhw _ _ _ _ P) as [? ?]. split; [by eapply same_shape_hw|done].
  - apply P.
  - apply P.
  - split; [by eexists _, _|done].
Qed.

Lemma clear_tbl_api g k tbl_hdl nmi hdl c n desc :
  ready g tbl_hdl nmi hdl c n desc -> table_cnt c <> 0 ->
  fst (pthread_mutex_lock nat_mutex k) = 0 ->
  exists n', let un := pthread_mutex_unlock nat_mutex (snd (pthread_mutex_lock nat_mutex k)) in
    ipa_NATI_clear_ipv4_tbl tbl_hdl (g, k) =
      Ok (if negb (fst un =? 0) then - EPERM else 0, (with_table g nmi hdl c n', snd un)) /\
    nat_ok n' /\ same_shape (table n) (table n') /\ mem_desc n' = mem_desc n /\
    forall i, rules_of (table n') i = None.
Proof.
  intros R Hcnt Hlock. destruct (rd_ok _ _ _ _ _ _ _ R) as (ch & xch & P).
  destruct (rd_at _ _ _ _ _ _ _ R) as [Hc Hn].
  destruct (cleared_ok _ _ _ P) as (t & x & Ht & Hx & Hok & Hsh & _ & Hr).
  eexists (set_tables n (set_cnts t 0 0) (set_cnts x 0 0)). cbv zeta. split; [|done].
  unfold ipa_NATI_clear_ipv4_tbl. rewrite (rd_hdl _ _ _ _ _ _ _ R), (rd_nmi _ _ _ _ _ _ _ R). cbn [negb].
  erewrite bind_ok.
  2: { apply locked_run; [done|]. erewrite bind_ok by (by apply get_cache_run).
       rewrite (proj2 (Z.eqb_neq _ _)) by done. erewrite bind_ok by (by apply get_table_run).
       erewrite bind_ok by (apply lift_run, Ht). erewrite bind_ok by (apply lift_run, Hx).
       erewrite bind_ok by (by apply put_table_run). reflexivity. }
  done.
Qed.

(** ** Addition and deletion of a table *)
(** A cache without a table, and its device closed. *)
Definition vacant g (nmi : Z) : Prop :=
  exists c n, zget (ipv4_nat_cache g) nmi = Some c /\ ip4_tbl c = [n] /\
    table_cnt c = 0 /\ ipa_desc c = None /\ valid (mem_desc n) = false.

(** The same, but the device may be open. *)
Definition idle g (nmi : Z) : Prop :=
  exists c n, zget (ipv4_nat_cache g) nmi = Some c /\ ip4_tbl c = [n] /\
    table_cnt c = 0 /\ valid (mem_desc n) = false.

Lemma vacant_idle g nmi : vacant g nmi -> idle g nmi.
Proof. intros (c & n & ? & ? & ? & ? & ?). by exists c, n. Qed.

Lemma put_cache_run g k nmi c :
  put_cache nmi c (g, k) = Ok (tt, (set_caches g (zset (ipv4_nat_cache g) nmi c), k)).
Proof. done. Qed.

Lemma cache_updated g nmi c c' : zget (ipv4_nat_cache g) nmi = Some c ->
  zget (ipv4_nat_cache (set_caches g (zset (ipv4_nat_cache g) nmi c'))) nmi = Some c'.
Proof. intros H. cbn. apply zget_zset_eq. by apply (zget_Some_lt _ _ c). Qed.

Lemma put_caches_twice g nmi c c' :
  set_caches (set_caches g (zset (ipv4_nat_cache g) nmi c))
    (zset (ipv4_nat_cache (set_caches g (zset (ipv4_nat_cache g) nmi c))) nmi c')
  = set_caches g (zset (ipv4_nat_cache g) nmi c').
Proof. unfold set_caches. cbn. by rewrite zset_zset. Qed.

Lemma close_unused_run g k nmi c : zget (ipv4_nat_cache g) nmi = Some c -> table_cnt c = 0 ->
  close_unused nmi (g, k) =
    Ok (tt, (set_caches g (zset (ipv4_nat_cache g) nmi (set_desc c None)),
             ipa_descriptor_close (ipa_desc c) k)).
Proof.
  intros Hc H0. unfold close_unused. erewrite bind_ok by (by apply get_cache_run).
  rewrite H0. cbn [Z.eqb]. erewrite bind_ok by (rewrite os_run; done). done.
Qed.

Lemma del_tbl_api g k tbl_hdl nmi hdl c n desc :
  ready g tbl_hdl nmi hdl c n desc -> table_cnt c = 1 -> ip4_tbl c = [n] ->
  fst (pthread_mutex_lock nat_mutex k) = 0 ->
  exists st g' k1, let un := pthread_mutex_unlock nat_mutex k1 in
    ipa_NATI_del_ipv4_table tbl_hdl (g, k) =
      Ok (if negb (fst un =? 0) then (if negb (st =? 0) then st else - EPERM) else st,
          (g', snd un)) /\
    pdns g' = pdns g /\ num_pdns g' = num_pdns g /\
    (st = 0 -> vacant g' nmi) /\
    (st <> 0 -> g' = with_table g nmi hdl c nat_table_zero).
Proof.
  intros R Hcnt Htbls Hlock. destruct (rd_at _ _ _ _ _ _ _ R) as [Hc Hn].
  assert (Hhdl : hdl - 1 = 0).
  { pose proof (zget_Some_lt _ _ _ Hn) as Hl. rewrite Htbls in Hl. cbn in Hl. lia. }
  set (k0 := snd (pthread_mutex_lock nat_mutex k)).
  destruct (ipa_mem_descriptor_delete (mem_desc n) (fd desc) k0) as [[st d] k1] eqn:Ed.
  assert (Hbody : exists g' k2, del_tbl_locked nmi hdl (g, k0) = Ok ((st, tt), (g', k2)) /\
    pdns g' = pdns g /\ num_pdns g' = num_pdns g /\ (st = 0 -> vacant g' nmi) /\
    (st <> 0 -> g' = with_table g nmi hdl c nat_table_zero)).
  { unfold del_tbl_locked. erewrite bind_ok by (by apply get_cache_run). erewrite bind_ok by (by apply get_table_run).
    rewrite (rd_valid _ _ _ _ _ _ _ R). cbn [negb].
    erewrite bind_ok by (unfold get_fd; erewrite bind_ok
      by (apply lift_run; by rewrite (rd_desc _ _ _ _ _ _ _ R)); done).
    erewrite bind_ok by (rewrite os_run; unfold ipa_nati_destroy_table; rewrite Ed; done).
    cbn [fst snd]. erewrite bind_ok by (by apply put_table_run).
    destruct (st =? 0) eqn:Est; cbn [negb]; zify_bool; [subst st|eexists _, _; by split_and!].
    pose proof (cache_updated g nmi c (set_tbls c (zset (ip4_tbl c) (hdl - 1) nat_table_zero)) Hc) as Hc1.
    erewrite bind_ok by (by apply get_cache_run).
    erewrite bind_ok by apply put_cache_run. unfold with_table. rewrite put_caches_twice.
    assert (Hc2 := cache_updated g nmi c
      (set_cnt (set_tbls c (zset (ip4_tbl c) (hdl - 1) nat_table_zero)) (u8 (table_cnt c - 1))) Hc).
    erewrite bind_ok by (apply close_unused_run; [exact Hc2|cbn; by rewrite Hcnt]).
    rewrite put_caches_twice. eexists _, _. split; [reflexivity|]. split_and!; [done..| |done].
    intros _. eexists _, nat_table_zero. split; [by apply (cache_updated g nmi c)|].
    cbn. rewrite Hcnt, Hhdl, Htbls. done. }
  destruct Hbody as (g' & k2 & Hbody & Hrest). exists st, g', k2. cbv zeta. split; [|done].
  unfold ipa_NATI_del_ipv4_table. rewrite (rd_hdl _ _ _ _ _ _ _ R), (rd_nmi _ _ _ _ _ _ _ R). cbn [negb].
  by erewrite bind_ok by (apply locked_run; [done|exact Hbody]).
Qed.
(** The device is open, or could not be opened. *)
Lemma ensure_desc_run g k nmi c : zget (ipv4_nat_cache g) nmi = Some c ->
  exists o k', ensure_desc nmi (g, k) =
      Ok (match o with Some _ => true | None => false end,
          (set_caches g (zset (ipv4_nat_cache g) nmi (set_desc c o)), k')).
Proof.
  intros Hc. unfold ensure_desc. destruct (ipa_desc c) as [d|] eqn:Hd.
  - exists (Some d), k. erewrite bind_ok by (by apply get_cache_run). rewrite Hd.
    assert (set_desc c (Some d) = c) as -> by (rewrite <- Hd; by destruct c).
    rewrite zset_id by done. by destruct g.
  - destruct (ipa_descriptor_open k) as [o k'] eqn:Eo. exists o, k'.
    erewrite bind_ok by (by apply get_cache_run). rewrite Hd.
    erewrite bind_ok by (rewrite os_run, Eo; done). cbn [fst snd].
    erewrite bind_ok by apply put_cache_run. done.
Qed.

(** The other memory type's cache and the token stay. *)
Definition other_types g g' (nmi : Z) : Prop :=
  (forall nmi', nmi' <> nmi -> zget (ipv4_nat_cache g') nmi' = zget (ipv4_nat_cache g) nmi') /\
  Hash_token g' = Hash_token g.

(** A table has been added to the cache [c] of [nmi]. *)
Definition table_added g g' (nmi ip : Z) : Prop :=
  exists c n desc, ready g' (MAKE_TBL_HDL 1 nmi) nmi 1 c n desc /\
    table_cnt c = 1 /\ ip4_tbl c = [n] /\ public_addr n = ip /\
    (forall i, rules_of (table n) i = None) /\ active_nat_cache_ptr g' = Some nmi /\
    num_pdns g' = 1 /\ length (pdns g') = length (pdns g) /\
    (forall i p, zget (pdns g) i = Some p ->
      zget (pdns g') i =
        Some (if decide (i = 0) then mk_pdn ip (src_metadata p) (dst_metadata p) else p)) /\
    IpaTable.nmi (table n) = nmi /\ other_types g g' nmi.

Definition table_not_added g g' (nmi : Z) : Prop :=
  vacant g' nmi /\ pdns g' = pdns g /\ num_pdns g' = num_pdns g /\ other_types g g' nmi.

(** Neither depends on what the cache of [nmi] held before. *)
Lemma other_types_after g g1 g' nmi c : g1 = set_caches g (zset (ipv4_nat_cache g) nmi c) ->
  other_types g1 g' nmi -> other_types g g' nmi.
Proof.
  intros -> [Ho Ht]. split; [|done]. intros nmi' Hne. rewrite Ho by done. by apply zget_zset_ne.
Qed.

Lemma not_added_after g g' nmi c :
  table_not_added (set_caches g (zset (ipv4_nat_cache g) nmi c)) g' nmi -> table_not_added g g' nmi.
Proof. intros (Hv & Hp & Hn & Ho). split; [done|]. split; [done|]. split; [done|]. by eapply other_types_after. Qed.

Lemma added_after g g' nmi c ip :
  table_added (set_caches g (zset (ipv4_nat_cache g) nmi c)) g' nmi ip -> table_added g g' nmi ip.
Proof.
  intros (c' & n & d & ? & ? & ? & ? & ? & ? & ? & ? & ? & ? & Ho). exists c', n, d.
  split_and!; try done; by apply (other_types_after _ _ _ _ _ eq_refl Ho).
Qed.

Lemma add_tbl_fails g k nmi c n0 n' st : zget (ipv4_nat_cache g) nmi = Some c ->
  ip4_tbl c = [n0] -> table_cnt c = 0 -> valid (mem_desc n') = false ->
  exists g' k', add_tbl_failed nmi (0 + 1) n' st (g, k) =
      Ok ((st, 0), (g', k')) /\ table_not_added g g' nmi.
Proof.
  intros Hc Ht Hcnt Hv. unfold add_tbl_failed. erewrite bind_ok by (by apply put_table_run).
  pose proof (cache_updated g nmi c (set_tbls c (zset (ip4_tbl c) (0 + 1 - 1) n')) Hc) as Hc1.
  unfold with_table. erewrite bind_ok by (by apply close_unused_run). rewrite put_caches_twice.
  eexists _, _. split; [reflexivity|]. split; [|split; [done|split; [done|split; [|done]]]].
  - eexists _, n'. split; [by apply (cache_updated g nmi c)|]. cbn. by rewrite Ht.
  - intros nmi' Hne. by apply zget_zset_ne.
Qed.

(** The steps once the device is open. *)
Lemma add_tbl_opened_spec g k nmi c n0 d p0 ip num :
  nmi = IPA_NAT_MEM_IN_DDR \/ nmi = IPA_NAT_MEM_IN_SRAM -> 0 <= num ->
  IPA_VALID_NAT_MEM_IN nmi = true ->
  zget (ipv4_nat_cache g) nmi = Some c -> ip4_tbl c = [n0] -> table_cnt c = 0 ->
  ipa_desc c = Some d -> valid (mem_desc n0) = false -> zget (pdns g) 0 = Some p0 ->
  exists st hdl g' k', add_tbl_opened nmi ip num (g, k) = Ok ((st, hdl), (g', k')) /\
    ((st = 0 /\ hdl = MAKE_TBL_HDL 1 nmi /\ table_added g g' nmi ip) \/
     (st <> 0 /\ hdl = 0 /\ table_not_added g g' nmi)).
Proof.
  intros Hnmi Hnum Hval Hc Ht Hcnt Hd Hv Hp0. unfold add_tbl_opened.
  erewrite bind_ok by (by apply get_cache_run).
  erewrite bind_ok by (unfold get_fd; erewrite bind_ok by (apply lift_run; by rewrite Hd); done).
  cbv zeta. rewrite Hcnt.
  assert (Hget : zget (ip4_tbl c) (0 + 1 - 1) = Some n0) by (by rewrite Ht).
  erewrite bind_ok by (by apply get_table_run).
  destruct (create_table_spec nmi (fd d) n0 ip num k Hnmi Hnum)
    as (ret & n & k1 & Hcr & Hok & Hbad).
  erewrite bind_ok by (rewrite Hcr; done). cbn [fst snd].
  destruct (ret =? 0) eqn:Er; cbn [negb]; zify_bool.
  2: { destruct (add_tbl_fails g k1 nmi c n0 n ret) as (g' & k' & Hrun & Hout); try done; [by apply Hbad|].
       exists ret, 0, g', k'. split; [exact Hrun|by right]. }
  subst ret. destruct (Hok eq_refl) as (Hnok & Hpub & Hvn & Hnt & _ & Hrules).
  erewrite bind_ok by (by apply put_table_run).
  set (c1 := set_tbls c (zset (ip4_tbl c) (0 + 1 - 1) n)).
  assert (Hc1 : zget (ipv4_nat_cache (with_table g nmi (0 + 1) c n)) nmi = Some c1)
    by (by apply (cache_updated g nmi c)).
  assert (Ht1 : ip4_tbl c1 = [n]) by (cbn; by rewrite Ht).
  destruct (ipa_nati_post_ipv4_init_cmd nmi (fd d) n 0 false k1) as [r k2] eqn:Ep.
  erewrite bind_ok by (rewrite os_run, Ep; done). cbn [fst snd].
  destruct (r =? 0) eqn:Er; cbn [negb]; zify_bool.
  2: { destruct (ipa_nati_destroy_table (fd d) n k2) as [[rd nd] k3] eqn:Edst.
       assert (nd = nat_table_zero) as -> by (unfold ipa_nati_destroy_table in Edst;
         destruct (ipa_mem_descriptor_delete _ _ _) as [[? ?] ?]; congruence).
       erewrite bind_ok by (rewrite os_run, Edst; done). cbn [fst snd].
       destruct (add_tbl_fails _ k3 nmi c1 n nat_table_zero r Hc1 Ht1 Hcnt eq_refl)
         as (g' & k' & Hrun & Hout).
       exists r, 0, g', k'. split; [exact Hrun|]. right. do 2 (split; [done|]). by eapply not_added_after. }
  erewrite bind_ok by done. erewrite bind_ok by done. cbn [fst].
  erewrite bind_ok by (apply lift_run; cbn [pdns set_active with_table set_caches]; by rewrite Hp0).
  erewrite bind_ok by done. erewrite bind_ok by (by apply get_cache_run).
  erewrite bind_ok by apply put_cache_run.
  assert (Hcnt1 : u8 (table_cnt c1 + 1) = 1) by (cbn; by rewrite Hcnt). rewrite Hcnt1.
  eexists 0, _, _, k2. split; [reflexivity|]. left. split; [done|]. split; [done|].
  exists (set_cnt c1 1), n, d. split_and!; try done.
  - assert (Hc2 : zget (zset (ipv4_nat_cache (with_table g nmi (0 + 1) c n)) nmi (set_cnt c1 1)) nmi
        = Some (set_cnt c1 1)) by (apply zget_zset_eq; by apply (zget_Some_lt _ _ c1)).
    split; [by apply break_make_tbl_hdl|done| |done|done|done].
    split; [exact Hc2|]. cbn [ip4_tbl set_cnt c1 set_tbls]. by rewrite Ht.
  - cbn [pdns set_caches set_pdns set_active with_table]. by rewrite zset_length.
  - intros i p Hp. cbn [pdns set_caches set_pdns set_active with_table]. case_decide as Hi.
    + subst i. rewrite Hp0 in Hp. injection Hp as <-. apply zget_zset_eq.
      by apply (zget_Some_lt _ _ p0).
    + by rewrite zget_zset_ne by done.
  - split; [|done]. intros nmi' Hne. cbn [ipv4_nat_cache set_caches set_pdns set_active with_table].
    by rewrite !zget_zset_ne by done.
Qed.

Lemma add_tbl_api g k nmi ip num p0 :
  IPA_VALID_NAT_MEM_IN nmi = true -> idle g nmi -> 0 <= num -> zget (pdns g) 0 = Some p0 ->
  fst (pthread_mutex_lock nat_mutex k) = 0 ->
  exists st hdl g' k1, let un := pthread_mutex_unlock nat_mutex k1 in
    ipa_NATI_add_ipv4_tbl nmi ip num (g, k) =
      Ok ((if negb (fst un =? 0) then - EPERM else st, hdl), (g', snd un)) /\
    ((st = 0 /\ hdl = MAKE_TBL_HDL 1 nmi /\ table_added g g' nmi ip) \/
     (st <> 0 /\ hdl = 0 /\ table_not_added g g' nmi)).
Proof.
  intros Hval (c & n0 & Hc & Ht & Hcnt & Hv) Hnum Hp0 Hlock.
  pose proof (proj1 (uapi_nmi nmi) Hval) as Hnmi.
  set (k0 := snd (pthread_mutex_lock nat_mutex k)).
  set (g1 := set_caches g (zset (ipv4_nat_cache g) nmi (set_nmi c nmi))).
  assert (Hc1 : zget (ipv4_nat_cache g1) nmi = Some (set_nmi c nmi)) by (by apply (cache_updated g nmi c)).
  assert (Hbody : exists st hdl g' k1, add_tbl_locked nmi ip num (g, k0) = Ok ((st, hdl), (g', k1)) /\
    ((st = 0 /\ hdl = MAKE_TBL_HDL 1 nmi /\ table_added g g' nmi ip) \/
     (st <> 0 /\ hdl = 0 /\ table_not_added g g' nmi))).
  { unfold add_tbl_locked. erewrite bind_ok by (by apply get_cache_run).
    erewrite bind_ok by apply put_cache_run. fold g1. rewrite Hcnt.
    change (0 >=? IPA_NAT_MAX_IP4_TBLS) with false. cbv iota.
    destruct (ensure_desc_run g1 k0 nmi _ Hc1) as (o & k1 & Hens).
    erewrite bind_ok by exact Hens. unfold g1. rewrite put_caches_twice.
    assert (Hc2 := cache_updated g nmi c (set_desc (set_nmi c nmi) o) Hc).
    destruct o as [d|]; cbn [negb].
    - pose proof (add_tbl_opened_spec _ k1 nmi _ n0 d p0 ip num Hnmi Hnum Hval Hc2 Ht Hcnt eq_refl Hv Hp0) as (st & hdl & g' & k' & Hr & Hout).
      exists st, hdl, g', k'. split; [exact Hr|].
      destruct Hout as [(? & ? & ?)|(? & ? & ?)]; [left|right]; (split; [done|]); (split; [done|]);
        [by eapply added_after|by eapply not_added_after].
    - eexists (- EIO), 0, _, k1. split; [reflexivity|]. right. split; [done|]. split; [done|].
      split; [by eexists _, n0|]. do 2 (split; [done|]). split; [|done]. intros nmi' Hne. by apply zget_zset_ne. }
  destruct Hbody as (st & hdl & g' & k1 & Hrun & Hout). exists st, hdl, g', k1. cbv zeta.
  split; [|done]. unfold ipa_NATI_add_ipv4_tbl. rewrite Hval. cbn [negb].
  erewrite bind_ok by (rewrite os_run; done). rewrite Hlock. cbn [negb Z.eqb].
  erewrite bind_ok by exact Hrun. cbn [fst snd]. by erewrite bind_ok by (rewrite os_run; done).
Qed.
End tables.
