(* ===== verification/NatRefine.v ===== *)
(** * The NAT table as a map from handles to rules

    An abstract specification of the driver's rule operations, a map from the
    handles the driver gave out to the rules in force, and the proof that every
    history of the operations on a table is a history of the map. *)

From Stdlib Require Import ZArith Lia.
From stdpp Require Import prelude gmap list numbers.
From S2P Require Import Prelude Chain Bitfield IpaTable IpaTableRep Dma TableDma TableSetup.
From S2P Require Import RuleTable Os NatUtils MemDescriptor NatRule NatRuleLaws NatDrvi.
From S2P Require Import NatTables NatDrviProps NatDrviDel NatCreate NatApi NatTblApi.

Local Open Scope Z_scope.

(** ** The specification *)
Definition nat_store := Z -> option ipa_nat_rule.

Definition store_empty : nat_store := fun _ => None.
Definition store_put (S : nat_store) (h : Z) (o : option ipa_nat_rule) : nat_store :=
  fun h' => if decide (h' = h) then o else S h'.

Inductive nat_op :=
  | NatAdd (u : ipa_nat_ipv4_rule)
  | NatDel (h : Z)
  | NatQuery (h : Z)
  | NatClear.

(** The operations' status and output. *)
Definition answer : Type := Z * option Z.

(** [pdns] is the PDN table in use; an addition may be refused, nothing else. *)
Inductive nat_spec (pdns : list ipa_nat_pdn_entry) : nat_store -> nat_op -> answer -> nat_store -> Prop :=
  | spec_add S u pdn h :
      zget pdns (u_pdn_index u) = Some pdn -> S h = None -> h <> 0 ->
      nat_spec pdns S (NatAdd u) (0, Some h) (store_put S h (Some (rule_in_force pdn u 0)))
  | spec_add_refused S u st : st <> 0 -> nat_spec pdns S (NatAdd u) (st, Some 0) S
  | spec_del S h r : S h = Some r -> nat_spec pdns S (NatDel h) (0, None) (store_put S h None)
  | spec_query S h r : S h = Some r -> nat_spec pdns S (NatQuery h) (0, Some (r_time_stamp r)) S
  | spec_clear S : nat_spec pdns S NatClear (0, None) store_empty.

(** Histories, the latest operation first. *)
Inductive spec_history (pdns : list ipa_nat_pdn_entry) : nat_store -> list (nat_op * answer) -> Prop :=
  | spec_start S : (forall h, S h = None) -> spec_history pdns S []
  | spec_next S S1 S2 tr op a :
      spec_history pdns S tr -> nat_spec pdns S op a S1 -> (forall h, S2 h = S1 h) ->
      spec_history pdns S2 ((op, a) :: tr).

(** ** Handles of a table *)
Definition store_of (t : ipa_table ipa_nat_rule) : nat_store := fun h =>
  let i := snd (BREAK_RULE_HDL t h) in
  if decide (0 <= i < tot_tbl_ents t /\ MakeEntryHdl t i = h) then rules_of t i else None.

Lemma store_of_hdl t i : geometry t -> 0 <= i < tot_tbl_ents t ->
  store_of t (MakeEntryHdl t i) = rules_of t i.
Proof. intros G Hi. unfold store_of. rewrite break_make_hdl by done. cbn [snd]. by rewrite decide_True. Qed.

Lemma store_of_inv t h r : store_of t h = Some r ->
  exists i, 0 <= i < tot_tbl_ents t /\ h = MakeEntryHdl t i /\ rules_of t i = Some r.
Proof.
  unfold store_of. cbv zeta. case_decide as H; [|done]. destruct H as [Hi Hh]. intros Hr.
  exists (snd (BREAK_RULE_HDL t h)). by rewrite Hh.
Qed.

Lemma store_of_empty t : (forall i, rules_of t i = None) -> forall h, store_of t h = None.
Proof. intros H h. unfold store_of. cbv zeta. by case_decide. Qed.

(** The handle's slot depends on the shape of the table only. *)
Lemma store_of_shape t t' : same_shape t t' -> (forall i, rules_of t' i = rules_of t i) ->
  forall h, store_of t' h = store_of t h.
Proof. intros (m & c & x & l & ->) H h. unfold store_of. cbv zeta. rewrite H. done. Qed.

Lemma store_of_update t t' i o : geometry t -> same_shape t t' -> 0 <= i < tot_tbl_ents t ->
  (forall j, rules_of t' j = if decide (j = i) then o else rules_of t j) ->
  forall h, store_of t' h = store_put (store_of t) (MakeEntryHdl t i) o h.
Proof.
  intros G (m & c & x & l & ->) Hi H h. unfold store_put.
  destruct (decide (h = MakeEntryHdl t i)) as [->|Hne].
  - unfold store_of. cbv zeta.
    change (BREAK_RULE_HDL (set_cnts _ c x) (MakeEntryHdl t i)) with (BREAK_RULE_HDL t (MakeEntryHdl t i)).
    rewrite break_make_hdl by done. cbn [snd]. rewrite decide_True by done. by rewrite H, decide_True.
  - unfold store_of. cbv zeta. change (BREAK_RULE_HDL (set_cnts _ c x) h) with (BREAK_RULE_HDL t h).
    set (j := snd (BREAK_RULE_HDL t h)).
    destruct (decide (0 <= j < tot_tbl_ents t /\ MakeEntryHdl t j = h)) as [[Hj Hh]|Hn].
    + rewrite (decide_True (P := _ /\ MakeEntryHdl (set_cnts _ c x) j = h)) by done.
      rewrite H. case_decide; [|done]. congruence.
    + by rewrite (decide_False (P := _ /\ MakeEntryHdl (set_cnts _ c x) j = h)).
Qed.

Section refine.
Context {K : Type} `{Os : OsOps K} `{NOs : !NatOs K} `{NL : !NatOsLaws} `{U : IpaUapi} `{UL : !IpaUapiLaws}.
Implicit Types (g : nat_globals) (k : K).
(** The mutex works. *)
Context (Hlock : forall m k, fst (pthread_mutex_lock (K := K) m k) = 0).
Context (Hunlock : forall m k, fst (pthread_mutex_unlock (K := K) m k) = 0).

(** ** The driver's operations *)
Definition run_op (tbl_hdl : Z) (op : nat_op) : St (nat_globals * K) answer :=
  match op with
  | NatAdd u => ipa_NATI_add_ipv4_rule tbl_hdl u
  | NatDel h => st ← ipa_NATI_del_ipv4_rule tbl_hdl h; mret (st, None)
  | NatQuery h => ipa_NATI_query_timestamp tbl_hdl h
  | NatClear => st ← ipa_NATI_clear_ipv4_tbl tbl_hdl; mret (st, None)
  end.

(** What a client may ask for: acceptable rules, and handles of rules in force. *)
Definition legal g (S : nat_store) (op : nat_op) : Prop :=
  match op with
  | NatAdd u => exists pdn, acceptable g u pdn /\ public_ip pdn <> 0 /\
                  0 <= Hash_token g < 2 ^ 31 - 2 ^ 17 - 1
  | NatDel h | NatQuery h => is_Some (S h)
  | NatClear => True
  end.

(** The kernel refused the deletion. *)
Definition del_refused (op : nat_op) (a : answer) : Prop :=
  match op with NatDel _ => fst a = - EIO | _ => False end.

(** The table of the handle holds the rules of [S]. *)
Definition represents (tbl_hdl : Z) g (S : nat_store) : Prop :=
  exists nmi hdl c n desc, ready g tbl_hdl nmi hdl c n desc /\ VALID_TBL_HDL tbl_hdl = true /\
    table_cnt c <> 0 /\ forall h, S h = store_of (table n) h.

Lemma ready_geometry g tbl_hdl nmi hdl c n desc :
  ready g tbl_hdl nmi hdl c n desc -> geometry (table n).
Proof. intros R. destruct (rd_ok _ _ _ _ _ _ _ R) as (ch & xch & P). apply (ok_geo _ _ _ _ (po_t _ _ _ _ P)). Qed.

(** The handle of a rule in force. *)
Lemma legal_handle g tbl_hdl nmi hdl c n desc S h :
  ready g tbl_hdl nmi hdl c n desc -> (forall h, S h = store_of (table n) h) -> is_Some (S h) ->
  exists i r, 0 <= i < tot_tbl_ents (table n) /\ h = MakeEntryHdl (table n) i /\
    rules_of (table n) i = Some r /\ S h = Some r.
Proof.
  intros R HS [r Hr]. pose proof Hr as Hr'. rewrite HS in Hr'.
  destruct (store_of_inv _ _ _ Hr') as (i & ? & ? & ?). by exists i, r.
Qed.

(** The table after an operation. *)
Lemma represents_next g g1 tbl_hdl nmi hdl c n desc n' S :
  ready g tbl_hdl nmi hdl c n desc -> VALID_TBL_HDL tbl_hdl = true -> table_cnt c <> 0 ->
  ipv4_nat_cache g1 = ipv4_nat_cache g -> mem_desc n' = mem_desc n -> nat_ok n' ->
  (forall h, S h = store_of (table n') h) -> represents tbl_hdl (with_table g1 nmi hdl c n') S.
Proof.
  intros R Hv Hc Hg Hmd Hok HS. eexists nmi, hdl, _, n', desc.
  split; [by apply (ready_with_table g g1 _ _ _ _ n)|done].
Qed.

(** One operation. *)
Lemma refine_add g k tbl_hdl S u : represents tbl_hdl g S -> legal g S (NatAdd u) ->
  exists a g' k' S', run_op tbl_hdl (NatAdd u) (g, k) = Ok (a, (g', k')) /\
    pdns g' = pdns g /\ represents tbl_hdl g' S' /\ nat_spec (pdns g) S (NatAdd u) a S'.
Proof.
  intros (nmi & hdl & c & n & desc & R & Hv & Hc & HS) (pdn & Hacc & Hip & Htok).
  pose proof (ready_geometry _ _ _ _ _ _ _ R) as G.
  destruct (add_rule_api g k tbl_hdl nmi hdl c n desc u pdn)
    as (st & h & n' & g1 & k1 & Hrun & (tok & -> & _) & Hout); try done.
  cbv zeta in Hrun. rewrite Hunlock in Hrun. cbn [negb Z.eqb] in Hrun.
  destruct Hout as (Hok & _ & Hmd & Hsh & _ & [(-> & new & -> & Hnew & Hfree & Hupd)|(Hst & -> & Hsame)]).
  - cbn [negb Z.eqb] in Hrun. eexists _, _, _, (store_put S (MakeEntryHdl (table n) new) _).
    split; [exact Hrun|]. split; [done|]. split.
    + apply (represents_next g _ _ _ _ _ n desc); try done. intros h.
      rewrite (store_of_update (table n) (table n') new _ G Hsh ltac:(lia) Hupd). unfold store_put. by rewrite HS.
    + constructor; [apply Hacc|rewrite HS, store_of_hdl by (done || lia); done|].
      apply Z.eqb_neq. apply (make_hdl_nonzero _ _ G Hnew).
  - rewrite (proj2 (Z.eqb_neq st 0)) in Hrun by done. cbn [negb] in Hrun.
    eexists _, _, _, S. split; [exact Hrun|]. split; [done|]. split; [|by constructor].
    apply (represents_next g _ _ _ _ _ n desc); try done. intros h.
    by rewrite HS, (store_of_shape (table n) (table n')).
Qed.

Lemma refine_del g k tbl_hdl S h : represents tbl_hdl g S -> legal g S (NatDel h) ->
  exists a g' k', run_op tbl_hdl (NatDel h) (g, k) = Ok (a, (g', k')) /\
    (a = (- EIO, None) \/
     exists S', pdns g' = pdns g /\ represents tbl_hdl g' S' /\ nat_spec (pdns g) S (NatDel h) a S').
Proof.
  intros (nmi & hdl & c & n & desc & R & Hv & Hc & HS) Hlegal.
  pose proof (ready_geometry _ _ _ _ _ _ _ R) as G.
  destruct (legal_handle _ _ _ _ _ _ _ _ _ R HS Hlegal) as (i & r & Hi & -> & Hri & Hr).
  destruct (del_rule_api g k tbl_hdl nmi hdl c n desc i) as (st & n' & k1 & Hrun & _ & Hmd & Hout); try done.
  cbv zeta in Hrun. rewrite Hunlock in Hrun. cbn [negb Z.eqb] in Hrun.
  eexists (st, None), _, _. split; [cbn [run_op]; by erewrite bind_ok by exact Hrun|].
  destruct Hout as [(-> & Hok & Hsh & _ & Hupd)|(-> & _)]; [|by left]. right.
  exists (store_put S (MakeEntryHdl (table n) i) None). split; [done|].
  split; [|by eapply spec_del]. apply (represents_next g _ _ _ _ _ n desc); try done. intros h.
  rewrite (store_of_update (table n) (table n') i None G Hsh Hi Hupd). unfold store_put. by rewrite HS.
Qed.

Lemma refine_query g k tbl_hdl S h : represents tbl_hdl g S -> legal g S (NatQuery h) ->
  exists a g' k', run_op tbl_hdl (NatQuery h) (g, k) = Ok (a, (g', k')) /\
    g' = g /\ nat_spec (pdns g) S (NatQuery h) a S.
Proof.
  intros (nmi & hdl & c & n & desc & R & Hv & Hc & HS) Hlegal.
  destruct (legal_handle _ _ _ _ _ _ _ _ _ R HS Hlegal) as (i & r & Hi & -> & Hri & Hr).
  pose proof (query_timestamp_api g k _ _ _ _ _ _ i r R Hri (Hlock _ _)) as Hrun.
  cbv zeta in Hrun. rewrite Hunlock in Hrun. cbn [negb Z.eqb] in Hrun.
  eexists _, g, _. split; [exact Hrun|]. split; [done|]. by apply spec_query.
Qed.

Lemma refine_clear g k tbl_hdl S : represents tbl_hdl g S ->
  exists a g' k', run_op tbl_hdl NatClear (g, k) = Ok (a, (g', k')) /\
    pdns g' = pdns g /\ represents tbl_hdl g' store_empty /\ nat_spec (pdns g) S NatClear a store_empty.
Proof.
  intros (nmi & hdl & c & n & desc & R & Hv & Hc & HS).
  destruct (clear_tbl_api g k _ _ _ _ _ _ R Hc (Hlock _ _)) as (n' & Hrun & Hok & Hsh & Hmd & Hnone).
  cbv zeta in Hrun. rewrite Hunlock in Hrun. cbn [negb Z.eqb] in Hrun.
  eexists _, _, _. split; [cbn [run_op]; by erewrite bind_ok by exact Hrun|]. split; [done|].
  split; [|constructor]. apply (represents_next g _ _ _ _ _ n desc); try done. intros h.
  by rewrite store_of_empty.
Qed.

Lemma refine_step g k tbl_hdl S op : represents tbl_hdl g S -> legal g S op ->
  exists a g' k', run_op tbl_hdl op (g, k) = Ok (a, (g', k')) /\
    (del_refused op a \/
     exists S', pdns g' = pdns g /\ represents tbl_hdl g' S' /\ nat_spec (pdns g) S op a S').
Proof.
  intros HR Hl. destruct op as [u|h|h|].
  - destruct (refine_add g k tbl_hdl S u HR Hl) as (a & g' & k' & S' & ? & ? & ? & ?). eauto 10.
  - destruct (refine_del g k tbl_hdl S h HR Hl) as (a & g' & k' & Hrun & [->|H]); eexists _, _, _;
      (split; [exact Hrun|]); [by left|by right].
  - destruct (refine_query g k tbl_hdl S h HR Hl) as (a & g' & k' & ? & -> & ?). eauto 10.
  - destruct (refine_clear g k tbl_hdl S HR) as (a & g' & k' & ? & ? & ? & ?). eauto 10.
Qed.

(** ** Histories of the code *)
(** Legal operations, until the kernel refuses a deletion, from a table without
    rules; the client knows what the specification allows it to know. *)
Inductive code_history (tbl_hdl : Z) (g0 : nat_globals) (k0 : K) :
    nat_globals * K -> list (nat_op * answer) -> Prop :=
  | code_start : code_history tbl_hdl g0 k0 (g0, k0) []
  | code_next g k tr op a g' k' :
      code_history tbl_hdl g0 k0 (g, k) tr ->
      (forall S, spec_history (pdns g0) S tr -> represents tbl_hdl g S -> legal g S op) ->
      run_op tbl_hdl op (g, k) = Ok (a, (g', k')) -> ~ del_refused op a ->
      code_history tbl_hdl g0 k0 (g', k') ((op, a) :: tr).

Lemma history_refines tbl_hdl g0 k0 s tr :
  represents tbl_hdl g0 store_empty -> code_history tbl_hdl g0 k0 s tr ->
  exists S, spec_history (pdns g0) S tr /\ represents tbl_hdl (fst s) S /\ pdns (fst s) = pdns g0.
Proof.
  intros H0 H. induction H as [|g k tr op a g' k' H (S & Hspec & HR & Hp) Hlegal Hrun Hnr].
  { exists store_empty. split; [by constructor|done]. }
  cbn [fst] in *. destruct (refine_step g k tbl_hdl S op HR (Hlegal S Hspec HR))
    as (a1 & g1 & k1 & Hrun1 & Hout).
  rewrite Hrun in Hrun1. injection Hrun1 as <- <- <-. destruct Hout as [|(S' & Hp' & HR' & Hs)]; [done|].
  exists S'. split; [|split; [done|congruence]]. rewrite Hp in Hs. by eapply spec_next.
Qed.
End refine.
