(* ===== verification/NatPdn.v ===== *)
(** * The PDN table

    The first [IPA_MAX_PDN_NUM - 1] entries of [pdns] map indices to public addresses.
    [ipa_nati_alloc_pdn] returns the index of the address or puts it in the first
    empty entry, [ipa_nati_get_pdn_index] searches it, [ipa_nati_dealloc_pdn] empties
    an entry. *)

From Stdlib Require Import ZArith Lia.
From stdpp Require Import prelude list numbers.
From S2P Require Import Prelude IpaTable Os NatUtils MemDescriptor NatRule NatDrvi.
From S2P Require Import NatDrviProps.

Local Open Scope Z_scope.

Section search.
Context `{U : IpaUapi} `{UL : !IpaUapiLaws}.
Implicit Types l : list ipa_nat_pdn_entry.

(** [i] is the first of the searched entries from [lo] on that satisfies [P]. *)
Definition first_pdn (P : ipa_nat_pdn_entry -> bool) l (lo i : Z) (p : ipa_nat_pdn_entry) : Prop :=
  lo <= i < IPA_MAX_PDN_NUM - 1 /\ zget l i = Some p /\ P p = true /\
  forall j q, lo <= j < i -> zget l j = Some q -> P q = false.

Definition no_pdn (P : ipa_nat_pdn_entry -> bool) l (lo : Z) : Prop :=
  forall j q, lo <= j < IPA_MAX_PDN_NUM - 1 -> zget l j = Some q -> P q = false.

Lemma first_pdn_step P l lo i p q : zget l lo = Some q -> P q = false ->
  first_pdn P l (lo + 1) i p -> first_pdn P l lo i p.
Proof.
  intros Hq Hn (Hi & Hp & HP & Hf). split_and!; [lia|lia|done|done|].
  intros j q' Hj Hq'. destruct (decide (j = lo)) as [->|]; [congruence|]. eapply Hf; [|done]. lia.
Qed.

Lemma no_pdn_step P l lo q : zget l lo = Some q -> P q = false -> no_pdn P l (lo + 1) -> no_pdn P l lo.
Proof.
  intros Hq Hn Hf j q' Hj Hq'. destruct (decide (j = lo)) as [->|]; [congruence|].
  eapply Hf; [|done]. lia.
Qed.

Definition has_ip (ip : Z) (p : ipa_nat_pdn_entry) : bool := public_ip p =? ip.

Lemma get_pdn_index_loop_spec fuel l ip i :
  Z.of_nat (length l) = IPA_MAX_PDN_NUM -> 0 <= i -> IPA_MAX_PDN_NUM - 1 - i <= Z.of_nat fuel ->
  exists o, get_pdn_index_loop fuel l ip i = Ok o /\
    match o with
    | Some j => exists p, first_pdn (has_ip ip) l i j p
    | None => no_pdn (has_ip ip) l i
    end.
Proof.
  intros Hl. pose proof uapi_pdn_num as HM. revert i.
  induction fuel as [|fuel IH]; intros i Hi Hf; cbn [get_pdn_index_loop];
    (destruct (i <? IPA_MAX_PDN_NUM - 1) eqn:E; zify_bool;
      [|exists None; split; [done|]; intros j q Hj; lia]); [lia|].
  destruct (zget_lt_Some l i ltac:(lia)) as [p Hp]. rewrite Hp. cbn [deref mbind res_bind].
  destruct (public_ip p =? ip) eqn:Ep.
  - exists (Some (u8 i)). split; [done|]. rewrite wrap_small by lia. exists p.
    split_and!; [lia|lia|done|done|]. intros j q Hj. lia.
  - destruct (IH (i + 1) ltac:(lia) ltac:(lia)) as (o & Ho & Hcase). exists o. split; [done|].
    destruct o as [j|]; [destruct Hcase as [p' Hcase]; exists p'; by eapply first_pdn_step|].
    by eapply no_pdn_step.
Qed.

(** An entry the allocation stops at. *)
Definition usable (ip : Z) (p : ipa_nat_pdn_entry) : bool :=
  has_ip ip p || bool_decide (p = pdn_zero).

Lemma alloc_pdn_loop_spec fuel l ip i :
  Z.of_nat (length l) = IPA_MAX_PDN_NUM -> 0 <= i -> IPA_MAX_PDN_NUM - 1 - i <= Z.of_nat fuel ->
  exists o, alloc_pdn_loop fuel l ip i = Ok o /\
    match o with
    | PdnSame j => exists p, first_pdn (usable ip) l i j p /\ public_ip p = ip
    | PdnEmpty j => first_pdn (usable ip) l i j pdn_zero /\ ip <> 0
    | PdnNone => no_pdn (usable ip) l i
    end.
Proof.
  intros Hl. pose proof uapi_pdn_num as HM. revert i.
  induction fuel as [|fuel IH]; intros i Hi Hf; cbn [alloc_pdn_loop];
    (destruct (i <? IPA_MAX_PDN_NUM - 1) eqn:E; zify_bool;
      [|exists PdnNone; split; [done|]; intros j q Hj; lia]); [lia|].
  destruct (zget_lt_Some l i ltac:(lia)) as [p Hp]. rewrite Hp. cbn [deref mbind res_bind].
  destruct (public_ip p =? ip) eqn:Ep; [|case_bool_decide as Ez].
  - exists (PdnSame i). split; [done|]. exists p. zify_bool. split; [|done].
    unfold usable, has_ip. split_and!; [lia|lia|done|by rewrite (proj2 (Z.eqb_eq _ _))|]. intros j q Hj. lia.
  - exists (PdnEmpty i). split; [done|]. subst p. zify_bool. split; [|intros ->; done].
    split_and!; [lia|lia|done|unfold usable; rewrite bool_decide_true by done; apply orb_true_r|].
    intros j q Hj. lia.
  - assert (Hu : usable ip p = false) by (unfold usable, has_ip; rewrite Ep, bool_decide_false by done; done).
    destruct (IH (i + 1) ltac:(lia) ltac:(lia)) as (o & Ho & Hcase). exists o. split; [done|].
    destruct o as [j|j|]; [|destruct Hcase; split; [by eapply first_pdn_step|done]|by eapply no_pdn_step].
    destruct Hcase as (p' & Hf' & Hip). exists p'. split; [by eapply first_pdn_step|done].
Qed.
End search.

Section pdn.
Context {K : Type} `{Os : OsOps K} `{NOs : !NatOs K} `{U : IpaUapi} `{UL : !IpaUapiLaws}.
Implicit Types (g : nat_globals) (k : K).

Definition pdns_sized g : Prop := Z.of_nat (length (pdns g)) = IPA_MAX_PDN_NUM.

(** The descriptor the PDN ioctl is made on: the DDR cache's, else the SRAM's. *)
Definition pdn_device g : option ipa_descriptor :=
  match zget (ipv4_nat_cache g) IPA_NAT_MEM_IN_DDR, zget (ipv4_nat_cache g) IPA_NAT_MEM_IN_SRAM with
  | Some ddr, Some sram =>
      match ipa_desc ddr with Some d => Some d | None => ipa_desc sram end
  | _, _ => None
  end.

Lemma modify_pdn_run g k e d : pdn_device g = Some d ->
  0 <= ioc_pdn_index e < Z.of_nat (length (pdns g)) ->
  let r := ioctl_nat_modify_pdn (fd d) e k in
  ipa_nati_modify_pdn e (g, k) =
    Ok (fst r,
        (if fst r =? 0
         then set_pdns g (zset (pdns g) (ioc_pdn_index e)
                (mk_pdn (ioc_public_ip e) (ioc_src_metadata e) (ioc_dst_metadata e))) (num_pdns g)
         else g, snd r)).
Proof.
  intros Hd Hi r. unfold pdn_device in Hd. unfold ipa_nati_modify_pdn.
  destruct (zget (ipv4_nat_cache g) IPA_NAT_MEM_IN_DDR) as [ddr|] eqn:Eddr; [|done].
  destruct (zget (ipv4_nat_cache g) IPA_NAT_MEM_IN_SRAM) as [sram|] eqn:Esram; [|done].
  erewrite bind_ok by (by apply get_cache_run). erewrite bind_ok by (by apply get_cache_run).
  assert (Hdev : ipa_desc (match ipa_desc ddr with Some _ => ddr | None => sram end) = Some d).
  { destruct (ipa_desc ddr) eqn:E; [by rewrite E|done]. }
  rewrite Hdev. erewrite bind_ok by (rewrite os_run; done). fold r.
  destruct (fst r =? 0) eqn:Er; cbn [negb]; [|done].
  destruct (zget_lt_Some (pdns g) (ioc_pdn_index e) Hi) as [p Hp].
  erewrite bind_ok by done. cbn [fst]. erewrite bind_ok by (apply lift_run; by rewrite Hp). done.
Qed.

(** An index outside the array: the ioctl is made, then the store is undefined. *)
Lemma modify_pdn_oob g k e d : pdn_device g = Some d ->
  zget (pdns g) (ioc_pdn_index e) = None -> fst (ioctl_nat_modify_pdn (fd d) e k) = 0 ->
  ipa_nati_modify_pdn e (g, k) = UB.
Proof.
  intros Hd Hi Hr. unfold pdn_device in Hd. unfold ipa_nati_modify_pdn.
  destruct (zget (ipv4_nat_cache g) IPA_NAT_MEM_IN_DDR) as [ddr|] eqn:Eddr; [|done].
  destruct (zget (ipv4_nat_cache g) IPA_NAT_MEM_IN_SRAM) as [sram|] eqn:Esram; [|done].
  erewrite bind_ok by (by apply get_cache_run). erewrite bind_ok by (by apply get_cache_run).
  assert (Hdev : ipa_desc (match ipa_desc ddr with Some _ => ddr | None => sram end) = Some d).
  { destruct (ipa_desc ddr) eqn:E; [by rewrite E|done]. }
  rewrite Hdev. erewrite bind_ok by (rewrite os_run; done). rewrite Hr. cbn [negb Z.eqb].
  erewrite bind_ok by done. cbn [fst snd]. unfold mbind, st_bind, st_lift. by rewrite Hi.
Qed.

Lemma get_pdn_index_api g k ip : pdns_sized g ->
  exists ret o, ipa_nati_get_pdn_index ip (g, k) = Ok ((ret, o), (g, k)) /\
    match o with
    | Some i => ret = 0 /\ exists p, first_pdn (has_ip ip) (pdns g) 0 i p
    | None => ret = - EIO /\ no_pdn (has_ip ip) (pdns g) 0
    end.
Proof.
  intros Hl. pose proof uapi_pdn_num. unfold ipa_nati_get_pdn_index. erewrite bind_ok by done. cbn [fst].
  destruct (get_pdn_index_loop_spec (Z.to_nat IPA_MAX_PDN_NUM) (pdns g) ip 0 Hl ltac:(lia) ltac:(lia))
    as (o & Ho & Hcase).
  erewrite bind_ok by (apply lift_run, Ho). destruct o as [i|]; eexists _, _; by split.
Qed.

(** What an allocation did. *)
Definition pdn_allocated g g' (info : ipa_nat_pdn_entry) (ret : Z) (o : option Z) : Prop :=
  match o with
  | Some i =>
      ret = 0 /\
      ((exists p, first_pdn (usable (public_ip info)) (pdns g) 0 i p /\
          public_ip p = public_ip info /\ g' = g) \/
       (first_pdn (usable (public_ip info)) (pdns g) 0 i pdn_zero /\ public_ip info <> 0 /\
        g' = set_pdns g (zset (pdns g) i info) (num_pdns g + 1)))
  | None => ret <> 0 /\ g' = g
  end.

Lemma alloc_pdn_api g k info d : pdns_sized g -> pdn_device g = Some d ->
  exists ret o g' k', ipa_nati_alloc_pdn info (g, k) = Ok ((ret, o), (g', k')) /\
    pdn_allocated g g' info ret o /\
    (num_pdns g < IPA_MAX_PDN_NUM - 1 ->
     (forall e, fst (ioctl_nat_modify_pdn (fd d) e k) = 0) ->
     (exists j p, first_pdn (usable (public_ip info)) (pdns g) 0 j p) -> ret = 0).
Proof.
  intros Hl Hd. pose proof uapi_pdn_num. unfold ipa_nati_alloc_pdn. erewrite bind_ok by done. cbn [fst].
  rewrite Z.geb_leb. destruct (_ <=? num_pdns g) eqn:En; zify_bool.
  { eexists _, None, g, k. split; [reflexivity|]. split; [by split|lia]. }
  destruct (alloc_pdn_loop_spec (Z.to_nat IPA_MAX_PDN_NUM) (pdns g) (public_ip info) 0 Hl
    ltac:(lia) ltac:(lia)) as (o & Ho & Hcase).
  erewrite bind_ok by (apply lift_run, Ho). destruct o as [i|i|].
  - destruct Hcase as (p & Hf & Hp). destruct Hf as (Hi & Hf).
    eexists 0, (Some (u8 i)), g, k. split; [reflexivity|]. rewrite wrap_small by lia.
    split; [|done]. split; [done|]. left. exists p. split; [exact (conj Hi Hf)|done].
  - destruct Hcase as [Hf Hip]. pose proof Hf as (Hi & Hz & _). rewrite (wrap_small 8 i) by lia.
    set (e := mk_ioc_pdn i (public_ip info) (src_metadata info) (dst_metadata info)).
    erewrite bind_ok by (apply (modify_pdn_run g k e d Hd); cbn; apply (zget_Some_lt _ _ _ Hz)).
    destruct (fst (ioctl_nat_modify_pdn (fd d) e k) =? 0) eqn:Er.
    + erewrite bind_ok by done. eexists _, (Some i), _, _. split; [reflexivity|].
      zify_bool. rewrite Er. split; [|done]. split; [done|]. right. split_and!; try done.
      by destruct info.
    + eexists _, None, g, _. split; [reflexivity|]. zify_bool. split; [by split|].
      intros _ Hall. by rewrite Hall in Er.
  - eexists _, None, g, k. split; [reflexivity|]. split; [by split|].
    intros _ _ (j & p & Hj & Hp & Hu & _). rewrite (Hcase j p) in Hu; [done|lia|done].
Qed.

Lemma dealloc_pdn_api g k i p d : pdns_sized g -> pdn_device g = Some d ->
  zget (pdns g) i = Some p ->
  exists ret g' k', ipa_nati_dealloc_pdn i (g, k) = Ok (ret, (g', k')) /\
    ((ret = 0 /\ num_pdns g <> 0 /\ p <> pdn_zero /\
      g' = set_pdns g (zset (pdns g) i pdn_zero) (num_pdns g - 1)) \/
     (ret = - EIO /\ g' = g)).
Proof.
  intros Hl Hd Hp. unfold ipa_nati_dealloc_pdn. erewrite bind_ok by done. cbn [fst].
  destruct (num_pdns g =? 0) eqn:En; [by eexists _, g, k; split; [reflexivity|right]|].
  erewrite bind_ok by (apply lift_run; by rewrite Hp).
  case_bool_decide as Ez; [by eexists _, g, k; split; [reflexivity|right]|].
  erewrite bind_ok by (apply (modify_pdn_run g k _ d Hd); cbn; apply (zget_Some_lt _ _ _ Hp)).
  destruct (fst _ =? 0) eqn:Er; cbn [negb]; [|by eexists _, g, _; split; [reflexivity|right]].
  erewrite bind_ok by done. eexists 0, _, _. split; [reflexivity|]. left. zify_bool.
  split_and!; try done. unfold set_pdns. cbn [pdns num_pdns ioc_pdn_index ioc_public_ip ioc_src_metadata
    ioc_dst_metadata]. f_equal. unfold zset. destruct (0 <=? i); [|done]. apply list_insert_insert_eq.
Qed.
End pdn.
