(* ===== verification/NatSmDdr.v ===== *)
(** * A client with one table

    In the states DDR_ONLY and NULL the client interface is the driver's interface
    behind the state machine: what [ipa_nat_add_ipv4_tbl], [ipa_nat_add_ipv4_rule],
    [ipa_nat_del_ipv4_rule] and [ipa_nat_query_timestamp] do to the table and give to
    the client, from [NatApi] and [NatTblApi]. *)

From Stdlib Require Import ZArith Lia Ascii String.
From stdpp Require Import prelude gmap list numbers strings.
From S2P Require Import Prelude CFloat Chain Bitfield IpaTable IpaTableRep Os NatUtils MemDescriptor NatMap NatRule NatRuleLaws.
From S2P Require Import NatDrvi NatStatemach NatDrv NatSmLaws NatSmStates NatSmStatus NatTables.
From S2P Require Import NatDrviProps NatDrviDel NatApi NatTblApi.

Local Open Scope Z_scope.

Section ddr.
Context {K : Type} `{Os : OsOps K} `{NOs : !NatOs K} `{NL : !NatOsLaws} `{U : IpaUapi} `{UL : !IpaUapiLaws}.
Context {W : Type}.
Implicit Types (x : smach W) (g : nat_globals) (k : K).
#[local] Notation sm_args := (sm_args (K := K) (W := W)).
Context (Hw : mutexes_work (K := K)).

Definition locked_k (k : K) : K := snd (pthread_mutex_lock nat_mutex k).
Definition unlocked_k (k : K) : K := snd (pthread_mutex_unlock nat_mutex k).

Lemma lock_works m k : fst (pthread_mutex_lock m k) = 0.
Proof. apply Hw. Qed.
Lemma unlock_works m k : fst (pthread_mutex_unlock m k) = 0.
Proof. apply Hw. Qed.

Lemma os_call_run {A} (f : K -> A * K) x g k :
  os_call f (x, (g, k)) = Ok (fst (f k), (x, (g, snd (f k)))).
Proof. unfold os_call. apply drv_run. apply os_run. Qed.

Lemma take_mutex_run x g k : nat_mutex_init x = true ->
  take_mutex (x, (g, k)) = Ok (0, (x, (g, locked_k k))).
Proof.
  intros Hi. unfold take_mutex. erewrite bind_ok by done. cbn [fst]. rewrite Hi.
  rewrite os_call_run. by rewrite lock_works.
Qed.

Lemma give_mutex_run x g k : nat_mutex_init x = true ->
  give_mutex (x, (g, k)) = Ok (0, (x, (g, unlocked_k k))).
Proof.
  intros Hi. unfold give_mutex. erewrite bind_ok by done. cbn [fst]. rewrite Hi.
  rewrite os_call_run. by rewrite unlock_works.
Qed.

(** The first entry initialises the mutex. *)
Lemma take_mutex_first x g k : nat_mutex_init x = false ->
  exists k', take_mutex (x, (g, k)) =
    Ok (0, (mk_sm (sm_obj x) (sm_maps x) true (sm_client x), (g, k'))).
Proof.
  destruct Hw as (Hi & Hs & Hm & Hl & _). intros Hx. unfold take_mutex, mutex_init.
  erewrite bind_ok by done. cbn [fst]. rewrite Hx. eexists. erewrite bind_ok.
  2: { erewrite bind_ok by (rewrite os_call_run, Hi; done). cbn [negb Z.eqb].
       erewrite bind_ok by (rewrite os_call_run, Hs; done). cbn [negb Z.eqb].
       erewrite bind_ok by (rewrite os_call_run, Hm; done). done. }
  cbn [Z.eqb]. rewrite os_call_run. by rewrite Hl.
Qed.

(** ** One entry without a clock vote *)
Lemma statemach_run n t (args : sm_args) x g k r x' g' k' :
  nat_mutex_init x = true -> VOTE_REQUIRED (sm_obj x) t = false ->
  _state_mach_tbl (ipa_nati_statemach n) (curr_state (sm_obj x)) t args (x, (g, locked_k k)) =
    Ok (r, (x', (g', k'))) ->
  ipa_nati_statemach (S n) t args (x, (g, k)) = Ok (0, (x', (g', unlocked_k k'))).
Proof.
  intros Hi Hv Hcb. cbn [ipa_nati_statemach]. unfold statemach_step.
  erewrite bind_ok by (by apply take_mutex_run). cbn [negb Z.eqb].
  erewrite bind_ok by done. cbv zeta. cbn [fst]. rewrite Hv. erewrite bind_ok by done. cbn [negb Z.eqb].
  erewrite bind_ok by done. cbn [fst]. erewrite bind_ok by exact Hcb. erewrite bind_ok by done.
  apply give_mutex_run. eapply callback_inits; [|exact Hcb|done]. apply statemach_inits.
Qed.

Lemma ddr_no_vote (o : ipa_nati_obj) t : curr_state o = NATI_STATE_DDR_ONLY ->
  t <> NATI_TRIG_GOTO_SRAM -> t <> NATI_TRIG_TBL_SWITCH -> VOTE_REQUIRED o t = false.
Proof.
  intros Hc H1 H2. unfold VOTE_REQUIRED, SRAM_TO_BE_ACCESSED, SRAM_CURRENTLY_ACTIVE, in_state.
  rewrite Hc. by destruct t.
Qed.

(** ** Rules in DDR_ONLY *)
(** The state [x] with the client's rule cleaned, the handle written and, on success,
    one rule more. *)
Definition rule_added x (st h : Z) : smach W :=
  let o := sm_obj x in
  mk_sm (if st =? 0 then set_tot_rules o DDR_SUB (u32 (sub_get (tot_rules_in_table o) DDR_SUB + 1)) else o)
    (sm_maps x) (nat_mutex_init x)
    (put_rule_hdl h (put_rule (clear_rule_flags (cl_rule (sm_client x))) (sm_client x))).

Lemma ddr_add_rule x g k tbl_hdl nmi hdl c n desc pdn :
  let u := clear_rule_flags (cl_rule (sm_client x)) in
  nat_mutex_init x = true -> curr_state (sm_obj x) = NATI_STATE_DDR_ONLY ->
  ready g tbl_hdl nmi hdl c n desc -> VALID_TBL_HDL tbl_hdl = true ->
  acceptable g u pdn -> public_ip pdn <> 0 -> 0 <= Hash_token g < 2 ^ 31 - 2 ^ 17 - 1 ->
  exists st h n' g1 k2,
    ipa_nat_add_ipv4_rule tbl_hdl false false (x, (g, k)) =
      Ok (0, (rule_added x st (default 0 h), (with_table g1 nmi hdl c n', k2))) /\
    retokened g g1 /\ add_outcome pdn u n n' st h.
Proof.
  intros u Hi Hc R Hv Hacc Hip Htok.
  destruct (add_rule_api g (locked_k k) tbl_hdl nmi hdl c n desc u pdn)
    as (st & h & n' & g1 & k1 & Hrun & Hg1 & Hout); try done; [apply lock_works|].
  cbv zeta in Hrun. rewrite unlock_works in Hrun. cbn [negb Z.eqb] in Hrun.
  exists st, h, n', g1. eexists. split; [|done].
  assert (Hcb : _smAddRuleToTbl (W := W) (ArgsRule tbl_hdl) (x, (g, locked_k k)) =
    Ok (st, (rule_added x st (default 0 h), (with_table g1 nmi hdl c n', unlocked_k k1)))).
  { unfold _smAddRuleToTbl. erewrite bind_ok by done. erewrite bind_ok by done.
    cbn [fst sm_client cl_rule put_rule]. erewrite bind_ok by (apply drv_run; exact Hrun).
    destruct Hout as (_ & _ & _ & _ & _ & [(-> & new & -> & _)|(Hst & -> & _)]); unfold rule_added.
    - cbn [negb Z.eqb]. erewrite bind_ok by done. cbn [Z.eqb]. erewrite bind_ok; [done|].
      unfold count_rules, CHOOSE_MEM_SUB, in_state, mod_obj. cbn [sm_obj]. by rewrite Hc.
    - rewrite (proj2 (Z.eqb_neq st 0)) by done. cbn [negb]. cbv iota. erewrite bind_ok by done.
      rewrite (proj2 (Z.eqb_neq st 0)) by done. by erewrite bind_ok by done. }
  unfold ipa_nat_add_ipv4_rule, ipa_nati_add_ipv4_rule, statemach, STATEMACH_DEPTH. rewrite Hv. cbn [negb orb].
  erewrite bind_ok by (eapply statemach_run; [done|by apply ddr_no_vote|rewrite Hc; exact Hcb]).
  done.
Qed.

(** On success, one rule less. *)
Definition rule_deleted x (st : Z) : smach W :=
  let o := sm_obj x in
  mk_sm (if st =? 0 then set_tot_rules o DDR_SUB (u32 (sub_get (tot_rules_in_table o) DDR_SUB - 1)) else o)
    (sm_maps x) (nat_mutex_init x) (sm_client x).

Lemma ddr_del_rule x g k tbl_hdl nmi hdl c n desc i :
  nat_mutex_init x = true -> curr_state (sm_obj x) = NATI_STATE_DDR_ONLY ->
  ready g tbl_hdl nmi hdl c n desc -> VALID_TBL_HDL tbl_hdl = true -> is_Some (rules_of (table n) i) ->
  VALID_RULE_HDL (MakeEntryHdl (table n) i) = true ->
  exists st n' k2,
    ipa_nat_del_ipv4_rule tbl_hdl (MakeEntryHdl (table n) i) (x, (g, k)) =
      Ok (0, (rule_deleted x st, (with_table g nmi hdl c n', k2))) /\
    del_outcome n n' i st.
Proof.
  intros Hi Hc R Hv Hr Hvr.
  destruct (del_rule_api g (locked_k k) tbl_hdl nmi hdl c n desc i)
    as (st & n' & k1 & Hrun & Hout); try done; [apply lock_works|].
  cbv zeta in Hrun. rewrite unlock_works in Hrun. cbn [negb Z.eqb] in Hrun.
  exists st, n'. eexists. split; [|done].
  assert (Hcb : _smDelRuleFromTbl (W := W) (ArgsRuleHdl tbl_hdl (MakeEntryHdl (table n) i)) (x, (g, locked_k k)) =
    Ok (st, (rule_deleted x st, (with_table g nmi hdl c n', unlocked_k k1)))).
  { unfold _smDelRuleFromTbl. erewrite bind_ok by (apply drv_run; exact Hrun). unfold rule_deleted.
    destruct (st =? 0); [|erewrite bind_ok by done; by destruct x].
    erewrite bind_ok; [done|]. unfold count_rules, CHOOSE_MEM_SUB, in_state, mod_obj. by rewrite Hc. }
  unfold ipa_nat_del_ipv4_rule, ipa_nati_del_ipv4_rule, statemach, STATEMACH_DEPTH. rewrite Hv, Hvr. cbn [negb orb].
  erewrite bind_ok by (eapply statemach_run; [done|by apply ddr_no_vote|rewrite Hc; exact Hcb]).
  done.
Qed.

Lemma ddr_query_timestamp x g k tbl_hdl nmi hdl c n desc i r :
  nat_mutex_init x = true -> curr_state (sm_obj x) = NATI_STATE_DDR_ONLY ->
  ready g tbl_hdl nmi hdl c n desc -> VALID_TBL_HDL tbl_hdl = true -> rules_of (table n) i = Some r ->
  VALID_RULE_HDL (MakeEntryHdl (table n) i) = true ->
  exists k2,
    ipa_nat_query_timestamp tbl_hdl (MakeEntryHdl (table n) i) false (x, (g, k)) =
      Ok (0, (mk_sm (sm_obj x) (sm_maps x) (nat_mutex_init x) (put_time_stamp (r_time_stamp r) (sm_client x)),
              (g, k2))).
Proof.
  intros Hi Hc R Hv Hr Hvr.
  pose proof (query_timestamp_api g (locked_k k) tbl_hdl nmi hdl c n desc i r R Hr ltac:(apply lock_works)) as Hrun.
  cbv zeta in Hrun. rewrite unlock_works in Hrun. cbn [negb Z.eqb] in Hrun. eexists.
  unfold ipa_nat_query_timestamp, ipa_nati_query_timestamp, statemach, STATEMACH_DEPTH. rewrite Hv, Hvr.
  cbn [negb orb]. eapply statemach_run; [done|by apply ddr_no_vote|]. rewrite Hc. cbn [_state_mach_tbl].
  unfold _smGetTmStmp. erewrite bind_ok by (apply drv_run; exact Hrun). cbv beta iota.
  by erewrite bind_ok by done.
Qed.

(** ** The first table *)
(** The first call enters the machine twice: in NULL, where the state is chosen, and in
    the state chosen. *)
Lemma first_entry x g k ip mem_type num s (R : smach W -> nat_globals -> Prop) :
  let args := ArgsAddTbl (K := K) (W := W) ip num ClientHdl (Some mem_type) in
  nat_mutex_init x = false -> curr_state (sm_obj x) = NATI_STATE_NULL -> hold_state (sm_obj x) = false ->
  mem_type_str_to_ipa_nati_state (Some mem_type) = s -> 0 < num ->
  (forall k1, exists r x' g' k',
    _state_mach_tbl (ipa_nati_statemach 1) s NATI_TRIG_ADD_TABLE args
      (mk_sm (SET_NATIOBJ_STATE (sm_obj x) s) (sm_maps x) true (put_tbl_hdl 0 (sm_client x)), (g, k1)) =
      Ok (r, (x', (g', k'))) /\ R x' g') ->
  exists x' g' k', ipa_nat_add_ipv4_tbl ip (Some mem_type) num false (x, (g, k)) = Ok (0, (x', (g', k'))) /\
    nat_mutex_init x' = true /\ R x' g'.
Proof.
  intros args Hi Hc Hh Hmt Hnum Hcb.
  set (x0 := mk_sm (sm_obj x) (sm_maps x) (nat_mutex_init x) (put_tbl_hdl 0 (sm_client x))).
  set (x1 := mk_sm (SET_NATIOBJ_STATE (sm_obj x) s) (sm_maps x) true (put_tbl_hdl 0 (sm_client x))) in *.
  destruct (take_mutex_first x0 g k Hi) as [k1 Htake].
  destruct (Hcb (locked_k k1)) as (r & x' & g' & k2 & Hrun & HR).
  assert (Hi' : nat_mutex_init x' = true).
  { by refine (callback_inits (ipa_nati_statemach 1) s NATI_TRIG_ADD_TABLE args (statemach_inits 1) _ _ _ _ _ Hrun _). }
  exists x', g', (unlocked_k (unlocked_k k2)). split; [|done].
  assert (Hin : ipa_nati_statemach 2 NATI_TRIG_ADD_TABLE args (x1, (g, k1)) = Ok (0, (x', (g', unlocked_k k2)))).
  { eapply (statemach_run 1); [done| |exact Hrun].
    unfold VOTE_REQUIRED. by rewrite andb_comm. }
  unfold ipa_nat_add_ipv4_tbl. rewrite (proj2 (Z.eqb_neq num 0)) by lia. cbn [orb].
  erewrite bind_ok by done. fold x0. unfold ipa_nati_add_ipv4_tbl, statemach, STATEMACH_DEPTH. fold args.
  change (ipa_nati_statemach 3) with (fun t a => statemach_step (K := K) (W := W) (ipa_nati_statemach 2) t a).
  cbv beta. unfold statemach_step at 1. erewrite bind_ok by exact Htake. cbn [negb Z.eqb].
  erewrite bind_ok by done. cbv zeta. cbn [fst sm_obj].
  unfold VOTE_REQUIRED, SRAM_TO_BE_ACCESSED, SRAM_CURRENTLY_ACTIVE, in_state.
  cbn [x0 sm_obj]. rewrite Hc. erewrite bind_ok by done. cbn [negb Z.eqb].
  erewrite bind_ok by done. cbn [fst sm_obj]. rewrite Hc. cbn [_state_mach_tbl]. unfold _smFirstTbl, args.
  erewrite bind_ok.
  2: { erewrite bind_ok by done. cbn [sm_obj]. rewrite Hh. cbn [andb]. rewrite Hmt. exact Hin. }
  erewrite bind_ok by done. by apply give_mutex_run.
Qed.

Definition first_table x (st hdl : Z) : smach W :=
  mk_sm (set_ddr_hdl (SET_NATIOBJ_STATE (sm_obj x) NATI_STATE_DDR_ONLY) hdl) (sm_maps x) true
    (put_tbl_hdl (if st =? 0 then hdl else 0) (sm_client x)).

Lemma ddr_first_table x g k ip mem_type num p0 :
  nat_mutex_init x = false -> curr_state (sm_obj x) = NATI_STATE_NULL -> hold_state (sm_obj x) = false ->
  mem_type_str_to_ipa_nati_state (Some mem_type) = NATI_STATE_DDR_ONLY -> 0 < num ->
  vacant g IPA_NAT_MEM_IN_DDR -> zget (pdns g) 0 = Some p0 ->
  exists x' g' k2, ipa_nat_add_ipv4_tbl ip (Some mem_type) num false (x, (g, k)) = Ok (0, (x', (g', k2))) /\
    nat_mutex_init x' = true /\ exists st hdl, x' = first_table x st hdl /\
    ((st = 0 /\ hdl = MAKE_TBL_HDL 1 IPA_NAT_MEM_IN_DDR /\ table_added g g' IPA_NAT_MEM_IN_DDR ip) \/
     (st <> 0 /\ hdl = 0 /\ table_not_added g g' IPA_NAT_MEM_IN_DDR)).
Proof.
  intros Hi Hc Hh Hmt Hnum Hvac Hp0. apply (first_entry x g k ip mem_type num NATI_STATE_DDR_ONLY); try done.
  intros k1.
  destruct (add_tbl_api g k1 IPA_NAT_MEM_IN_DDR ip num p0) as (st & hdl & g' & k3 & Hrun & Hout);
    [by apply uapi_nmi; left|by apply vacant_idle|lia|done|apply lock_works|].
  cbv zeta in Hrun. rewrite unlock_works in Hrun. cbn [negb Z.eqb] in Hrun.
  exists st, (first_table x st hdl), g', (unlocked_k k3). split; [|by exists st, hdl].
  cbn [_state_mach_tbl]. unfold _smAddDdrTbl. erewrite bind_ok by (apply drv_run; exact Hrun). cbv beta iota.
  erewrite bind_ok by done. unfold first_table. destruct (st =? 0); by erewrite bind_ok by done.
Qed.
End ddr.
