(* ===== verification/NatHandles.v ===== *)
(** * The handle maps of the hybrid states

    Each memory type has a pair of maps, from the handles the client was given to the
    handles of the table and back.  [tracks] is their invariant: they are inverse to
    each other and reach exactly the rules in force.  [client_view] is what the client
    sees through them, a map from its handles to rules. *)

From Stdlib Require Import ZArith Lia Ascii String.
From stdpp Require Import prelude gmap list numbers strings.
From S2P Require Import Prelude CFloat Chain Bitfield IpaTable IpaTableRep TableDma Os NatUtils NatMap NatRule NatRuleLaws.
From S2P Require Import NatDrvi NatStatemach NatTables NatDrviProps NatApi NatRefine.

Local Open Scope Z_scope.

(** ** The pair of maps of one memory type *)
Definition o2n_of (sub : mem_sub) : Z := orig2new_map (sub_get map_pairs sub).
Definition n2o_of (sub : mem_sub) : Z := new2orig_map (sub_get map_pairs sub).

Definition sub_other (sub : mem_sub) : mem_sub :=
  match sub with DDR_SUB => SRAM_SUB | SRAM_SUB => DDR_SUB end.

Record maps_at (ms : map_arr) (sub : mem_sub) (o2n n2o : gmap Z Z) : Prop := {
  ma_o2n : zget ms (o2n_of sub) = Some o2n;
  ma_n2o : zget ms (n2o_of sub) = Some n2o }.

Definition put_maps (ms : map_arr) (sub : mem_sub) (o2n n2o : gmap Z Z) : map_arr :=
  zset (zset ms (o2n_of sub) o2n) (n2o_of sub) n2o.

Lemma o2n_n2o_ne sub sub' : o2n_of sub <> n2o_of sub'.
Proof. by destruct sub, sub'. Qed.
Lemma o2n_ne sub sub' : sub <> sub' -> o2n_of sub <> o2n_of sub' /\ n2o_of sub <> n2o_of sub'.
Proof. by destruct sub, sub'. Qed.

Lemma put_maps_at ms sub a b o2n n2o : maps_at ms sub a b -> maps_at (put_maps ms sub o2n n2o) sub o2n n2o.
Proof.
  intros [Ha Hb]. pose proof (zget_Some_lt _ _ _ Ha). pose proof (zget_Some_lt _ _ _ Hb).
  pose proof (o2n_n2o_ne sub sub). unfold put_maps. split.
  - rewrite zget_zset_ne by done. by apply zget_zset_eq.
  - apply zget_zset_eq. by rewrite zset_length.
Qed.

Lemma put_maps_other ms sub sub' o2n n2o a b : sub <> sub' -> maps_at ms sub' a b ->
  maps_at (put_maps ms sub o2n n2o) sub' a b.
Proof.
  intros Hne [Ha Hb]. destruct (o2n_ne _ _ Hne). pose proof (o2n_n2o_ne sub sub').
  pose proof (o2n_n2o_ne sub' sub). unfold put_maps.
  split; by rewrite !zget_zset_ne by done.
Qed.

Lemma put_maps_same ms sub a b : maps_at ms sub a b -> put_maps ms sub a b = ms.
Proof.
  intros [Ha Hb]. unfold put_maps. rewrite (zset_id _ _ _ Ha). by apply zset_id.
Qed.

(** ** The invariant *)
Record tracks (S : nat_store) (o2n n2o : gmap Z Z) : Prop := {
  tk_inv : forall o h, o2n !! o = Some h <-> n2o !! h = Some o;
  tk_store : forall h, is_Some (S h) <-> is_Some (n2o !! h) }.

Definition client_view (S : nat_store) (o2n : gmap Z Z) : nat_store := fun o => o2n !! o ≫= S.

Lemma tracks_empty S : (forall h, S h = None) -> tracks S ∅ ∅.
Proof.
  intros H. split; [intros o h; by rewrite !lookup_empty|].
  intros h. rewrite H, lookup_empty. split; by intros [? ?].
Qed.

Lemma tracks_ext S S' o2n n2o : (forall h, S' h = S h) -> tracks S o2n n2o -> tracks S' o2n n2o.
Proof. intros H [Hi Hs]. split; [done|]. intros h. by rewrite H. Qed.

Lemma view_ext S S' o2n o : (forall h, S' h = S h) -> client_view S' o2n o = client_view S o2n o.
Proof. intros H. unfold client_view. destruct (o2n !! o) as [h|]; [apply H|done]. Qed.

Section tracks.
Context (S : nat_store) (o2n n2o : gmap Z Z) (T : tracks S o2n n2o).

Lemma tracked h r : S h = Some r -> exists o, n2o !! h = Some o /\ o2n !! o = Some h.
Proof.
  intros Hr. destruct (proj1 (tk_store _ _ _ T h) ltac:(by eexists)) as [o Ho].
  exists o. split; [done|by apply (tk_inv _ _ _ T)].
Qed.

Lemma tracks_rule o h : o2n !! o = Some h -> exists r, S h = Some r /\ client_view S o2n o = Some r.
Proof.
  intros Ho. destruct (proj2 (tk_store _ _ _ T h)) as [r Hr].
  - exists o. by apply (tk_inv _ _ _ T).
  - exists r. unfold client_view. by rewrite Ho.
Qed.

Lemma view_some o r : client_view S o2n o = Some r -> exists h, o2n !! o = Some h /\ S h = Some r.
Proof. unfold client_view. destruct (o2n !! o) as [h|]; [|done]. by exists h. Qed.

(** A rule at the free handle [h] for the client's handle [o]. *)
Lemma tracks_add o h r : o2n !! o = None -> S h = None ->
  n2o !! h = None /\ tracks (store_put S h (Some r)) (<[o := h]> o2n) (<[h := o]> n2o) /\
  forall o', client_view (store_put S h (Some r)) (<[o := h]> o2n) o' =
    store_put (client_view S o2n) o (Some r) o'.
Proof.
  intros Ho Hh. destruct T as [Hi Hs].
  assert (Hn : n2o !! h = None).
  { apply eq_None_not_Some. intros H%Hs. rewrite Hh in H. by destruct H. }
  assert (Hno : forall o', o2n !! o' = Some h -> False) by (intros o' H%Hi; congruence).
  split; [done|]. split; [split|].
  - intros o' h'. rewrite !lookup_insert_Some.
    assert (n2o !! h' = Some o -> False) by (intros H%Hi; congruence).
    rewrite Hi. split; intros [[-> ->]|[Hne H']]; auto; right; (split; [|done]); intros ->; congruence.
  - intros h'. unfold store_put. rewrite lookup_insert_is_Some. case_decide as E.
    + subst. split; [by left|by eexists].
    + rewrite Hs. split; [by right|]. intros [->|[_ ?]]; done.
  - intros o'. unfold client_view, store_put. destruct (decide (o' = o)) as [->|Hne].
    + rewrite lookup_insert_eq. cbn. by rewrite decide_True.
    + rewrite lookup_insert_ne by done. destruct (o2n !! o') as [h'|] eqn:E; [|done]. cbn.
      rewrite decide_False; [done|]. intros ->. by apply (Hno o').
Qed.

(** The rule of the client's handle [o] is gone. *)
Lemma tracks_del o h : o2n !! o = Some h ->
  tracks (store_put S h None) (delete o o2n) (delete h n2o) /\
  forall o', client_view (store_put S h None) (delete o o2n) o' =
    store_put (client_view S o2n) o None o'.
Proof.
  intros Ho. destruct T as [Hi Hs]. pose proof (proj1 (Hi _ _) Ho) as Hh. split; [split|].
  - intros o' h'. rewrite !lookup_delete_Some, Hi. split; intros [Hne H'].
    + split; [|done]. intros <-. apply Hne. congruence.
    + split; [|done]. intros <-. apply Hne. apply Hi in H'. congruence.
  - intros h'. unfold store_put. rewrite lookup_delete_is_Some. case_decide as E.
    + subst. split; [by intros [? ?]|by intros [? _]].
    + rewrite Hs. split; [by split|by intros [_ ?]].
  - intros o'. unfold client_view, store_put. destruct (decide (o' = o)) as [->|Hne].
    + by rewrite lookup_delete_eq.
    + rewrite lookup_delete_ne by done. destruct (o2n !! o') as [h'|] eqn:E; [|done]. cbn.
      rewrite decide_False; [done|]. intros ->. apply Hi in E. congruence.
Qed.
End tracks.

(** ** Running the map operations *)
Lemma which_valid which : 0 <= which -> VALID_IPA_USE_MAP which = true.
Proof. intros H. unfold VALID_IPA_USE_MAP, MAP_NUM_00. by rewrite Z.geb_leb, (proj2 (Z.leb_le _ _)) by lia. Qed.

Lemma o2n_valid sub : VALID_IPA_USE_MAP (o2n_of sub) = true.
Proof. by destruct sub. Qed.
Lemma n2o_valid sub : VALID_IPA_USE_MAP (n2o_of sub) = true.
Proof. by destruct sub. Qed.

Section runs.
Context {K : Type} `{Os : OsOps K} `{NOs : !NatOs K} `{U : IpaUapi} {W : Type}.
Implicit Types (x : smach W) (d : nat_globals * K).

Definition with_maps x (ms : map_arr) : smach W := mk_sm (sm_obj x) ms (nat_mutex_init x) (sm_client x).

Lemma map_find_run x d which key m : VALID_IPA_USE_MAP which = true -> zget (sm_maps x) which = Some m ->
  map_find which key (x, d) = Ok ((if decide (m !! key = None) then -1 else 0, m !! key), (x, d)).
Proof.
  intros Hv Hm. unfold map_find, ipa_nat_map_find. rewrite Hv, Hm. cbn [negb deref mbind res_bind].
  destruct (m !! key) eqn:E; cbn [mbind res_bind]; (case_decide; [congruence || done|congruence || done]).
Qed.

Lemma map_add_run x d which key v m : VALID_IPA_USE_MAP which = true -> zget (sm_maps x) which = Some m ->
  map_add which key v (x, d) =
    if decide (m !! key = None)
    then Ok (0, (with_maps x (zset (sm_maps x) which (<[key := v]> m)), d)) else Ok (-1, (x, d)).
Proof.
  intros Hv Hm. unfold map_add, ipa_nat_map_add. rewrite Hv, Hm. cbn [negb deref mbind res_bind].
  destruct (m !! key) eqn:E; cbn [mbind res_bind]; (case_decide; [congruence || done|congruence || done]) || idtac.
  by destruct x.
Qed.

Lemma map_del_run x d which key m : VALID_IPA_USE_MAP which = true -> zget (sm_maps x) which = Some m ->
  map_del which key (x, d) =
    match m !! key with
    | Some v => Ok ((0, Some v), (with_maps x (zset (sm_maps x) which (delete key m)), d))
    | None => Ok ((-1, None), (x, d))
    end.
Proof.
  intros Hv Hm. unfold map_del, ipa_nat_map_del. rewrite Hv, Hm. cbn [negb deref mbind res_bind].
  destruct (m !! key); [done|]. by destruct x.
Qed.

Lemma map_clear_run x d which m : VALID_IPA_USE_MAP which = true -> zget (sm_maps x) which = Some m ->
  map_clear which (x, d) = Ok (0, (with_maps x (zset (sm_maps x) which ∅), d)).
Proof. intros Hv Hm. unfold map_clear, ipa_nat_map_clear. by rewrite Hv, Hm. Qed.

Lemma clear_maps_run x d sub o2n n2o : maps_at (sm_maps x) sub o2n n2o ->
  clear_map_pair sub (x, d) = Ok (tt, (with_maps x (put_maps (sm_maps x) sub ∅ ∅), d)).
Proof.
  intros [Ha Hb]. unfold clear_map_pair.
  erewrite bind_ok by (by eapply map_clear_run; [apply o2n_valid|]).
  erewrite bind_ok; [done|]. eapply map_clear_run; [apply n2o_valid|].
  cbn. rewrite zget_zset_ne by apply o2n_n2o_ne. exact Hb.
Qed.

(** Both halves of a new pair of handles. *)
Lemma map_add_pair x d sub o2n n2o o h :
  maps_at (sm_maps x) sub o2n n2o -> o2n !! o = None -> n2o !! h = None ->
  (ret ← map_add (o2n_of sub) o h;
   if negb (ret =? 0) then mret ret else map_add (n2o_of sub) h o) (x, d) =
    Ok (0, (with_maps x (put_maps (sm_maps x) sub (<[o := h]> o2n) (<[h := o]> n2o)), d)).
Proof.
  intros [Ha Hb] Ho Hh. erewrite bind_ok.
  2: { rewrite (map_add_run _ _ _ _ _ _ (o2n_valid sub) Ha). by rewrite decide_True. }
  cbn [negb Z.eqb]. rewrite (map_add_run _ _ _ _ _ n2o (n2o_valid sub)).
  - by rewrite decide_True.
  - cbn. by rewrite zget_zset_ne by apply o2n_n2o_ne.
Qed.
End runs.
