(* ===== verification/NatMigrate.v ===== *)
(** * Migration of the rules from one table to the other

    [ipa_nati_copy_ipv4_tbl] with [migrate_rule], between the DDR and the SRAM table:
    the destination gets every rule the client can reach in the source, under the
    client's own handle; when an addition is refused, only the rules before it. *)

From Stdlib Require Import ZArith Lia Ascii String.
From stdpp Require Import prelude gmap list numbers strings.
From S2P Require Import Prelude CFloat Chain Bitfield IpaTable IpaTableRep TableDma TableWalk RuleTable Os NatUtils.
From S2P Require Import MemDescriptor NatMap NatRule NatRuleLaws NatDrvi NatStatemach NatSmLaws NatSmStatus.
From S2P Require Import NatTables NatDrviProps NatDrviDel NatApi NatTblApi NatRefine NatHandles.

Local Open Scope Z_scope.

(** ** A migrated rule is the rule it comes from *)
(** The rule has the PDN entry and the checksums that a new addition would give it. *)
Definition settled (pdns : list ipa_nat_pdn_entry) (r : ipa_nat_rule) : Prop :=
  exists pdn, zget pdns (r_pdn_index r) = Some pdn /\ wf_pdn pdn /\
    rule_in_force pdn (migrated_rule r) 0 = r.

Lemma b2z_neqb b : negb (b2z b =? 0) = b.
Proof. by destruct b. Qed.

Lemma in_force_settled `{U : IpaUapi} `{UL : !IpaUapiLaws} g u pdn :
  acceptable g u pdn -> settled (pdns g) (rule_in_force pdn u 0).
Proof.
  intros Hacc. destruct (acceptable_new_rule _ _ _ Hacc) as [_ Hi].
  destruct Hacc as (_ & _ & Hget & Hp & _). exists pdn. split_and!; [done|done|].
  unfold rule_in_force, patch_rule, migrated_rule, new_rule, set_flags, set_time_stamp, set_enable,
    set_redirect, set_indx_tbl_entry.
  cbn -[wrap Z.pow Z.eqb ipa_nati_calc_ip_cksum ipa_nati_calc_tcp_udp_cksum b2z].
  rewrite !b2z_neqb, !wrap_wrap by lia. reflexivity.
Qed.

(** The record the walk passes to [migrate_rule], and the rule it stands for. *)
Lemma migrated_record e : migrated_rule (set_indx_tbl_entry (strip e) 0) = migrated_rule e.
Proof. by destruct e. Qed.

Lemma wf_migrated e : wf_rule e -> wf_ipv4_rule (migrated_rule e).
Proof.
  intros He.
  assert (Hf : forall k w v, rule_ws !! k = Some w -> rule_fields e !! k = Some v -> 0 <= v < 2 ^ w).
  { intros k w v. by apply (Forall2_lookup_lr _ _ _ k w v He). }
  assert (Hw : forall k w w' v, rule_ws !! k = Some w -> rule_fields e !! k = Some v -> 0 <= w <= w' ->
    0 <= v < 2 ^ w').
  { intros k w w' v H1 H2 H3. pose proof (Hf _ _ _ H1 H2). pose proof (Z.pow_le_mono_r 2 w w'). lia. }
  unfold wf_ipv4_rule, fits, migrated_rule. cbn [u_target_ip u_private_ip u_target_port u_private_port
    u_public_port u_protocol u_pdn_index u_redirect u_enable u_time_stamp u_uc_activation_index].
  repeat (apply List.Forall2_cons).
  - by apply (Hw 1%nat 32).
  - by apply (Hw 0%nat 32).
  - by apply (Hw 5%nat 16).
  - by apply (Hw 4%nat 16).
  - by apply (Hw 3%nat 16).
  - by apply (Hw 12%nat 8).
  - by apply (Hw 20%nat 4).
  - by apply (Hw 9%nat 1).
  - by apply (Hw 10%nat 1).
  - by apply (Hw 11%nat 24).
  - by apply (Hw 7%nat 13).
  - apply List.Forall2_nil.
Qed.

Lemma settled_acceptable `{U : IpaUapi} g e : wf_rule e -> r_protocol e <> DEAD_PROTOCOL ->
  Z.of_nat (length (pdns g)) = IPA_MAX_PDN_NUM -> settled (pdns g) (set_indx_tbl_entry (strip e) 0) ->
  exists pdn, acceptable g (migrated_rule e) pdn /\
    rule_in_force pdn (migrated_rule e) 0 = set_indx_tbl_entry (strip e) 0.
Proof.
  intros Hwf Hp Hlen (pdn & Hget & Hwp & Hr). exists pdn. rewrite migrated_record in Hr.
  split; [|done]. split_and!; [by apply wf_migrated|done| |done|done]. by destruct e.
Qed.

(** ** The state of a migration *)
Definition sub_nmi (sub : mem_sub) : Z :=
  match sub with DDR_SUB => IPA_NAT_MEM_IN_DDR | SRAM_SUB => IPA_NAT_MEM_IN_SRAM end.

Lemma sub_nmi_other sub : sub_nmi (sub_other sub) <> sub_nmi sub.
Proof. by destruct sub. Qed.

(** Only tables and the token may differ. *)
Definition same_env (g g' : nat_globals) : Prop :=
  exists caches tok, g' = set_Hash_token (set_caches g caches) tok.

#[global] Instance same_env_preorder : PreOrder same_env.
Proof.
  split; [|intros g1 g2 g3 (? & ? & ->) (? & ? & ->); by eexists _, _].
  intros g. exists (ipv4_nat_cache g), (Hash_token g). by destruct g.
Qed.

Lemma same_env_pdns g g' : same_env g g' -> pdns g' = pdns g /\ num_pdns g' = num_pdns g /\
  active_nat_cache_ptr g' = active_nat_cache_ptr g.
Proof. by intros (? & ? & ->). Qed.

Section migration.
Context {K : Type} `{Os : OsOps K} `{NOs : !NatOs K} `{NL : !NatOsLaws} `{U : IpaUapi} `{UL : !IpaUapiLaws}.
Context {W : Type} (Hw : mutexes_work (K := K)).
Implicit Types (x : smach W) (g : nat_globals) (k : K).

Lemma ready_other g tbl_hdl nmi hdl c n desc g1 nmi' hdl' c' n' :
  ready g tbl_hdl nmi hdl c n desc -> ipv4_nat_cache g1 = ipv4_nat_cache g -> nmi' <> nmi ->
  ready (with_table g1 nmi' hdl' c' n') tbl_hdl nmi hdl c n desc.
Proof.
  intros R Hg Hne. split; try apply R. destruct (rd_at _ _ _ _ _ _ _ R) as [Hc Hn]. split; [|done].
  cbn. by rewrite zget_zset_ne, Hg.
Qed.

(** The source: table, maps, and the state [x0], [g0] at the beginning; the
    destination's handle, cache and table. *)
Context (src : mem_sub) (src_hdl hs : Z) (cs : ipa_nat_cache) (ns : ipa_nat_ip4_table_cache)
  (dss : ipa_descriptor) (o2n_s n2o_s : gmap Z Z) (x0 : smach W) (g0 : nat_globals).
Context (dst_hdl hd : Z) (cd : ipa_nat_cache) (nd : ipa_nat_ip4_table_cache) (dsd : ipa_descriptor).
#[local] Notation dst := (sub_other src).

Record source : Prop := {
  sr_ready : ready g0 src_hdl (sub_nmi src) hs cs ns dss;
  sr_nmi : nmi (table ns) = sub_nmi src;
  sr_maps : maps_at (sm_maps x0) src o2n_s n2o_s;
  sr_tracks : tracks (store_of (table ns)) o2n_s n2o_s;
  sr_settled : forall i r, rules_of (table ns) i = Some r -> settled (pdns g0) r;
  sr_pdns : Z.of_nat (length (pdns g0)) = IPA_MAX_PDN_NUM }.

(** What the client sees of the source's slots below [i]. *)
Definition moved_view (i : Z) : nat_store := fun o =>
  h ← o2n_s !! o;
  if snd (BREAK_RULE_HDL (table ns) h) <? i then store_of (table ns) h else None.

(** The rules of the slots below [i] are in the destination, and no others. *)
Record migrating (i : Z) x g (c : ipa_nat_cache) (n : ipa_nat_ip4_table_cache) (o2n n2o : gmap Z Z) : Prop := {
  mg_dst : ready g dst_hdl (sub_nmi dst) hd c n dsd;
  mg_shape : same_shape (table nd) (table n);
  mg_cnt : table_cnt c = table_cnt cd;
  mg_src : ready g src_hdl (sub_nmi src) hs cs ns dss;
  mg_env : same_env g0 g;
  mg_maps : maps_at (sm_maps x) dst o2n n2o;
  mg_src_maps : maps_at (sm_maps x) src o2n_s n2o_s;
  mg_tracks : tracks (store_of (table n)) o2n n2o;
  mg_sm : x = mk_sm (set_tot_rules (sm_obj x0) dst (u32 (Z.of_nat (size o2n)))) (sm_maps x)
                (nat_mutex_init x0) (sm_client x0);
  mg_view : forall o, client_view (store_of (table n)) o2n o = moved_view i o;
  mg_settled : forall i r, rules_of (table n) i = Some r -> settled (pdns g0) r }.

#[local] Arguments mg_dst {i x g c n o2n n2o}.
#[local] Arguments mg_shape {i x g c n o2n n2o}.
#[local] Arguments mg_cnt {i x g c n o2n n2o}.
#[local] Arguments mg_src {i x g c n o2n n2o}.
#[local] Arguments mg_env {i x g c n o2n n2o}.
#[local] Arguments mg_maps {i x g c n o2n n2o}.
#[local] Arguments mg_src_maps {i x g c n o2n n2o}.
#[local] Arguments mg_tracks {i x g c n o2n n2o}.
#[local] Arguments mg_sm {i x g c n o2n n2o}.
#[local] Arguments mg_view {i x g c n o2n n2o}.
#[local] Arguments mg_settled {i x g c n o2n n2o}.

Definition token_within (j : Z) g : Prop := Hash_token g0 <= Hash_token g <= Hash_token g0 + 2 * j.

(** Before slot [i], and where the walk stops. *)
Definition mig_at (i j : Z) (s : (Z * smach W) * (nat_globals * K)) : Prop :=
  exists x g k c n o2n n2o, s = ((dst_hdl, x), (g, k)) /\ migrating i x g c n o2n n2o /\ token_within j g.
Definition mig_stop (s : (Z * smach W) * (nat_globals * K)) : Prop :=
  exists i, 0 <= i <= tot_tbl_ents (table ns) /\ mig_at i (tot_tbl_ents (table ns)) s.

Context (HS : source).

Lemma src_geometry : geometry (table ns).
Proof. eapply ready_geometry, (sr_ready HS). Qed.

(** A slot without a rule in force is passed over. *)
Lemma moved_view_skip i : rules_of (table ns) i = None -> forall o, moved_view (i + 1) o = moved_view i o.
Proof.
  intros Hi o. unfold moved_view. destruct (o2n_s !! o) as [h|] eqn:Ho; [|done]. cbn [mbind option_bind].
  destruct (tracks_rule _ _ _ (sr_tracks HS) _ _ Ho) as (r & Hr & _).
  destruct (store_of_inv _ _ _ Hr) as (i' & Hi' & -> & Hr').
  rewrite break_make_hdl by (by auto using src_geometry). cbn [snd].
  assert (i' <> i) by congruence.
  destruct (Z.ltb_spec i' (i + 1)), (Z.ltb_spec i' i); try done; lia.
Qed.

(** The rule of slot [i] becomes visible under its client's handle. *)
Lemma moved_view_next i r o : rules_of (table ns) i = Some r ->
  o2n_s !! o = Some (MakeEntryHdl (table ns) i) -> 0 <= i < tot_tbl_ents (table ns) ->
  moved_view i o = None /\ forall o', moved_view (i + 1) o' = store_put (moved_view i) o (Some r) o'.
Proof.
  intros Hr Ho Hi. pose proof src_geometry as G.
  assert (Hb : forall j, 0 <= j < tot_tbl_ents (table ns) ->
    snd (BREAK_RULE_HDL (table ns) (MakeEntryHdl (table ns) j)) = j) by (intros j Hj; by rewrite break_make_hdl).
  split.
  { unfold moved_view. rewrite Ho. cbn [mbind option_bind]. by rewrite Hb, Z.ltb_irrefl. }
  intros o'. unfold store_put. destruct (decide (o' = o)) as [->|Hne].
  - unfold moved_view. rewrite Ho. cbn [mbind option_bind]. rewrite Hb, (proj2 (Z.ltb_lt _ _)) by lia. by rewrite store_of_hdl.
  - unfold moved_view. destruct (o2n_s !! o') as [h|] eqn:Ho'; [|done]. cbn [mbind option_bind].
    destruct (tracks_rule _ _ _ (sr_tracks HS) _ _ Ho') as (r' & Hr' & _).
    destruct (store_of_inv _ _ _ Hr') as (i' & Hi' & -> & _). rewrite Hb by done.
    assert (i' <> i).
    { intros ->. apply Hne. pose proof (proj1 (tk_inv _ _ _ (sr_tracks HS) _ _) Ho).
      pose proof (proj1 (tk_inv _ _ _ (sr_tracks HS) _ _) Ho'). congruence. }
    destruct (Z.ltb_spec i' (i + 1)), (Z.ltb_spec i' i); try done; lia.
Qed.

Lemma moved_view_all o : moved_view (tot_tbl_ents (table ns)) o = client_view (store_of (table ns)) o2n_s o.
Proof.
  unfold moved_view, client_view. destruct (o2n_s !! o) as [h|] eqn:Ho; [|done]. cbn [mbind option_bind].
  destruct (tracks_rule _ _ _ (sr_tracks HS) _ _ Ho) as (r & Hr & _).
  destruct (store_of_inv _ _ _ Hr) as (i & Hi & -> & _).
  rewrite break_make_hdl by (by auto using src_geometry). cbn [snd]. by rewrite (proj2 (Z.ltb_lt _ _)) by lia.
Qed.

(** *** One record *)
Lemma live_of_record i e : zget (tbl_mem (table ns)) i = Some e -> entry_is_valid e = true ->
  rules_of (table ns) i = if r_protocol e =? DEAD_PROTOCOL then None else Some (set_indx_tbl_entry (strip e) 0).
Proof.
  intros He Hv. unfold rules_of, live_at, contents. rewrite He, Hv.
  change (rec_protocol (strip e)) with (r_protocol (strip e)).
  replace (r_protocol (strip e)) with (r_protocol e) by (by destruct e). by destruct (r_protocol e =? _).
Qed.

Lemma migrating_view i i' x g c n o2n n2o : migrating i x g c n o2n n2o ->
  (forall o, moved_view i' o = moved_view i o) -> migrating i' x g c n o2n n2o.
Proof. intros [] H. split; try done. intros o. by rewrite H. Qed.

(** The addition was refused: the destination may have been rewritten, with the same rules. *)
Lemma migrating_refused i x g c n o2n n2o g1 n' : migrating i x g c n o2n n2o ->
  retokened g g1 -> mem_desc n' = mem_desc n -> nat_ok n' -> same_shape (table n) (table n') ->
  (forall j, rules_of (table n') j = rules_of (table n) j) ->
  migrating i x (with_table g1 (sub_nmi dst) hd c n') (set_tbls c (zset (ip4_tbl c) (hd - 1) n')) n' o2n n2o.
Proof.
  intros [] (tok & -> & _) Hmd Hok Hsh Hr.
  assert (Hst : forall h, store_of (table n') h = store_of (table n) h) by (by apply store_of_shape).
  split; try done.
  - by apply (ready_with_table g _ _ _ _ _ n).
  - by eapply same_shape_trans.
  - apply (ready_other g); [done|done|apply sub_nmi_other].
  - etrans; [done|]. by eexists _, _.
  - by eapply tracks_ext.
  - intros o. by rewrite (view_ext _ _ _ _ Hst).
  - intros j r. rewrite Hr. by apply mg_settled0.
Qed.

(** The rule was added: its handle goes to the maps. *)
Lemma migrating_added i x g c n o2n n2o g1 n' new r o ms : migrating i x g c n o2n n2o ->
  retokened g g1 -> mem_desc n' = mem_desc n -> nat_ok n' -> same_shape (table n) (table n') ->
  0 < new < tot_tbl_ents (table n) -> rules_of (table n) new = None ->
  (forall j, rules_of (table n') j = if decide (j = new) then Some r else rules_of (table n) j) ->
  rules_of (table ns) i = Some r -> o2n_s !! o = Some (MakeEntryHdl (table ns) i) ->
  0 <= i < tot_tbl_ents (table ns) ->
  let h := MakeEntryHdl (table n) new in
  o2n !! o = None /\ n2o !! h = None /\
  (ms = put_maps (sm_maps x) dst (<[o := h]> o2n) (<[h := o]> n2o) ->
   migrating (i + 1)
     (mk_sm (set_tot_rules (sm_obj x) dst (u32 (sub_get (tot_rules_in_table (sm_obj x)) dst + 1)))
        ms (nat_mutex_init x) (sm_client x))
     (with_table g1 (sub_nmi dst) hd c n') (set_tbls c (zset (ip4_tbl c) (hd - 1) n')) n'
     (<[o := h]> o2n) (<[h := o]> n2o)).
Proof.
  intros M (tok & -> & _) Hmd Hok Hsh Hnew Hfree Hupd Hri Ho Hi h.
  pose proof (ready_geometry _ _ _ _ _ _ _ (mg_dst M)) as G.
  assert (HoN : o2n !! o = None).
  { apply eq_None_not_Some. intros [h' Hh']. destruct (tracks_rule _ _ _ (mg_tracks M) _ _ Hh') as (r' & _ & Hv).
    rewrite (mg_view M) in Hv. by rewrite (proj1 (moved_view_next i r o Hri Ho Hi)) in Hv. }
  assert (Hsf : store_of (table n) h = None) by (unfold h; rewrite store_of_hdl by (done || lia); done).
  destruct (tracks_add _ _ _ (mg_tracks M) o h r HoN Hsf) as (HhN & HT & Hview).
  assert (Hst : forall h', store_of (table n') h' = store_put (store_of (table n)) h (Some r) h')
    by (apply store_of_update; [done|done|lia|done]).
  split_and!; [done|done|]. intros ->. destruct M. split; try done.
  - by apply (ready_with_table g _ _ _ _ _ n).
  - by eapply same_shape_trans.
  - apply (ready_other g); [done|done|apply sub_nmi_other].
  - etrans; [done|]. by eexists _, _.
  - by eapply put_maps_at.
  - apply put_maps_other; [by destruct src|done].
  - by eapply tracks_ext.
  - rewrite mg_sm0. cbn [sm_obj sm_client nat_mutex_init sm_maps]. f_equal.
    rewrite map_size_insert_None by done. destruct (sm_obj x0) as [? ? ? ? ? ? ? ? [? ?] ?].
    unfold set_tot_rules. cbn. destruct src; cbn; (do 2 f_equal); unfold wrap;
      rewrite Z.add_mod_idemp_l by done; f_equal; lia.
  - intros o'. rewrite (view_ext _ _ _ _ Hst), Hview.
    rewrite (proj2 (moved_view_next i r o Hri Ho Hi)). unfold store_put. by rewrite mg_view0.
  - intros j r'. rewrite Hupd. case_decide; [|by apply mg_settled0]. intros [= <-].
    by apply (sr_settled HS i).
Qed.

(** The room for tokens of rules without a hash. *)
Context (Htok : 0 <= Hash_token g0 /\ Hash_token g0 + 2 * tot_tbl_ents (table ns) < 2 ^ 31 - 2 ^ 17 - 1).
Context (Hvalid : VALID_TBL_HDL dst_hdl = true).

Lemma lock_ok m k : fst (pthread_mutex_lock m k) = 0.
Proof. apply Hw. Qed.
Lemma unlock_ok m k : fst (pthread_mutex_unlock m k) = 0.
Proof. apply Hw. Qed.

(** The destination's answer to the addition of the record's rule. *)
Lemma migrate_addition i e r x g k c n o2n n2o :
  zget (tbl_mem (table ns)) i = Some e -> entry_is_valid e = true -> rules_of (table ns) i = Some r ->
  migrating i x g c n o2n n2o -> token_within i g ->
  exists st h g' k', ipa_NATI_add_ipv4_rule dst_hdl (migrated_rule e) (g, k) = Ok ((st, h), (g', k')) /\
    token_within (i + 1) g' /\
    if st =? 0 then
      exists n' g1 new, g' = with_table g1 (sub_nmi dst) hd c n' /\ h = Some (MakeEntryHdl (table n) new) /\
        retokened g g1 /\ mem_desc n' = mem_desc n /\ nat_ok n' /\ same_shape (table n) (table n') /\
        0 < new < tot_tbl_ents (table n) /\ rules_of (table n) new = None /\
        forall j, rules_of (table n') j = if decide (j = new) then Some r else rules_of (table n) j
    else exists c' n', migrating i x g' c' n' o2n n2o.
Proof.
  intros He Hv Hr M [Ht1 Ht2]. pose proof (zget_Some_lt _ _ _ He) as Hi.
  rewrite (geo_mem _ src_geometry) in Hi. rewrite (live_of_record _ _ He Hv) in Hr.
  destruct (r_protocol e =? DEAD_PROTOCOL) eqn:Ep; [done|]. apply Z.eqb_neq in Ep.
  apply (inj Some) in Hr. destruct (same_env_pdns _ _ (mg_env M)) as (Hpd & _).
  assert (Hset : settled (pdns g) (set_indx_tbl_entry (strip e) 0)).
  { rewrite Hpd. apply (sr_settled HS i). rewrite (live_of_record _ _ He Hv).
    by rewrite (proj2 (Z.eqb_neq _ _)). }
  assert (Hwf : wf_rule e).
  { destruct (rd_ok _ _ _ _ _ _ _ (sr_ready HS)) as (ch & xch & P). by eapply slot_wf; [apply P|]. }
  destruct (settled_acceptable g e Hwf Ep) as (pdn & Hacc & Hforce);
    [rewrite Hpd; apply (sr_pdns HS)|done|].
  destruct (decide (public_ip pdn = 0)) as [Hip|Hip].
  - destruct (add_rule_refused g k dst_hdl (migrated_rule e) pdn) as (h & Hrun & _).
    { apply Hacc. }
    { rewrite Hpd, (sr_pdns HS). lia. }
    { auto. }
    exists (- EINVAL), h, g, k. split; [exact Hrun|]. split; [unfold token_within in *; lia|]. by exists c, n.
  - destruct (add_rule_api g k dst_hdl (sub_nmi dst) hd c n dsd (migrated_rule e) pdn)
      as (st & h & n' & g1 & k1 & Hrun & Hg1 & Hok & _ & Hmd & Hsh & _ & Hout);
      [apply (mg_dst M)|done|done|done|lia|apply lock_ok|].
    assert (Htk : token_within (i + 1) (with_table g1 (sub_nmi dst) hd c n')).
    { destruct Hg1 as (tok & -> & ?). unfold token_within. cbn. lia. }
    cbv zeta in Hrun. rewrite unlock_ok in Hrun. cbn [negb Z.eqb] in Hrun.
    destruct Hout as [(-> & new & -> & Hnew & Hfree & Hupd)|(Hst & -> & Hsame)].
    + cbn [negb Z.eqb] in Hrun. eexists 0, _, _, _. split; [exact Hrun|]. split; [done|].
      cbn [Z.eqb]. exists n', g1, new. rewrite Hforce, Hr in Hupd.
      do 7 (split; [done|]). done.
    + rewrite (proj2 (Z.eqb_neq st 0)) in Hrun by done. cbn [negb] in Hrun.
      eexists st, _, _, _. split; [exact Hrun|]. split; [done|].
      rewrite (proj2 (Z.eqb_neq st 0)) by done. eexists _, n'. by eapply migrating_refused.
Qed.

Lemma migrate_record_run i e x g k c n o2n n2o :
  zget (tbl_mem (table ns)) i = Some e -> entry_is_valid e = true ->
  migrating i x g c n o2n n2o -> token_within i g ->
  exists st x' g' k',
    migrate_record dst_hdl src dst (MakeEntryHdl (table ns) i) e (x, (g, k)) = Ok (st, (x', (g', k'))) /\
    token_within (i + 1) g' /\
    exists c' n' o2n' n2o', migrating (if st =? 0 then i + 1 else i) x' g' c' n' o2n' n2o'.
Proof.
  intros He Hv M Ht. pose proof (zget_Some_lt _ _ _ He) as Hi. rewrite (geo_mem _ src_geometry) in Hi.
  pose proof (live_of_record _ _ He Hv) as Hlive. unfold migrate_record.
  change (r_protocol e =? IPA_NAT_INVALID_PROTO_FIELD_VALUE_IN_RULE) with (r_protocol e =? DEAD_PROTOCOL).
  destruct (r_protocol e =? DEAD_PROTOCOL).
  { exists 0, x, g, k. split; [done|]. split; [unfold token_within in *; lia|].
    exists c, n, o2n, n2o. cbn [Z.eqb]. eapply migrating_view; [done|by apply moved_view_skip]. }
  set (r := set_indx_tbl_entry (strip e) 0) in *.
  assert (Hs : store_of (table ns) (MakeEntryHdl (table ns) i) = Some r)
    by (by rewrite store_of_hdl by (by auto using src_geometry)).
  destruct (tracked _ _ _ (sr_tracks HS) _ _ Hs) as (o & Hn2o & Ho2n).
  erewrite bind_ok by (apply (map_find_run _ _ _ _ n2o_s); [apply n2o_valid|apply (mg_src_maps M)]).
  rewrite Hn2o, decide_False by done. cbn [negb Z.eqb]. erewrite bind_ok by (by apply lift_run).
  destruct (migrate_addition i e r x g k c n o2n n2o He Hv Hlive M Ht)
    as (st & h & g' & k' & Hadd & Ht' & Hcase).
  erewrite bind_ok by (apply drv_run; exact Hadd). cbv beta iota.
  destruct (st =? 0) eqn:Est; cbn [negb]; cbv iota.
  - destruct Hcase as (n' & g1 & new & -> & -> & Hg1 & Hmd & Hok & Hsh & Hnew & Hfree & Hupd).
    destruct (migrating_added i x g c n o2n n2o g1 n' new r o
      (put_maps (sm_maps x) dst (<[o := MakeEntryHdl (table n) new]> o2n) (<[MakeEntryHdl (table n) new := o]> n2o))
      M Hg1 Hmd Hok Hsh Hnew Hfree Hupd Hlive Ho2n Hi) as (HoN & HhN & Hnext).
    erewrite bind_ok by (by apply lift_run). erewrite bind_ok by done.
    exists 0. eexists _, _, _. split.
    { apply (map_add_pair (mk_sm _ _ _ _) _ dst o2n n2o); [apply (mg_maps M)|done|done]. }
    split; [done|]. eexists _, n', _, _. cbn [Z.eqb]. by apply Hnext.
  - destruct Hcase as (c' & n' & M'). exists st, x, g', k'. split; [done|]. split; [done|].
    exists c', n', o2n, n2o. by rewrite Est.
Qed.

Lemma migrate_step i e mp mi s :
  zget (tbl_mem (table ns)) i = Some e -> entry_is_valid e = true -> mig_at i i s ->
  exists ret s', migrate_rule (table ns) (MakeEntryHdl (table ns) i) (GOTO_REC (table ns) i) i mp mi s = Ok (ret, s') /\
    if ret =? 0 then mig_at (i + 1) (i + 1) s' else mig_stop s'.
Proof.
  intros He Hv (x & g & k & c & n & o2n & n2o & -> & M & Ht).
  pose proof (zget_Some_lt _ _ _ He) as Hi. rewrite (geo_mem _ src_geometry) in Hi.
  destruct (migrate_record_run i e x g k c n o2n n2o He Hv M Ht)
    as (st & x' & g' & k' & Hrun & Ht' & c' & n' & o2n' & n2o' & M').
  exists st, ((dst_hdl, x'), (g', k')). split.
  - unfold migrate_rule. rewrite rec_at_goto, He by (destruct src_geometry; lia). cbn [deref mbind res_bind].
    rewrite (sr_nmi HS).
    replace (if sub_nmi src =? IPA_NAT_MEM_IN_SRAM then (SRAM_SUB, DDR_SUB) else (DDR_SUB, SRAM_SUB))
      with (src, dst) by (by destruct src).
    by rewrite Hrun.
  - destruct (st =? 0).
    + by eexists x', g', k', c', n', o2n', n2o'.
    + exists i. split; [lia|]. eexists x', g', k', c', n', o2n', n2o'. split; [done|]. split; [done|].
      unfold token_within in *. lia.
Qed.

(** *** The whole table *)
Context (Hdst : ready g0 dst_hdl (sub_nmi dst) hd cd nd dsd).
Context (Hcs : table_cnt cs <> 0) (Hcd : table_cnt cd <> 0) (Hsvalid : VALID_TBL_HDL src_hdl = true).
Context (Hmaps0 : maps_at (sm_maps x0) dst ∅ ∅) (Hcnt0 : sub_get (tot_rules_in_table (sm_obj x0)) dst = 0).

Lemma migrating_start n' : mem_desc n' = mem_desc nd -> nat_ok n' -> same_shape (table nd) (table n') ->
  (forall i, rules_of (table n') i = None) ->
  migrating 0 x0 (with_table g0 (sub_nmi dst) hd cd n') (set_tbls cd (zset (ip4_tbl cd) (hd - 1) n')) n' ∅ ∅.
Proof.
  intros Hmd Hok Hsh Hr. split; try done.
  - by apply (ready_with_table g0 _ _ _ _ _ nd).
  - apply (ready_other g0); [apply (sr_ready HS)|done|apply sub_nmi_other].
  - exists (ipv4_nat_cache (with_table g0 (sub_nmi dst) hd cd n')), (Hash_token g0). by destruct g0.
  - apply (sr_maps HS).
  - apply tracks_empty. by apply store_of_empty.
  - destruct x0 as [o ms i cl]. cbn in *. f_equal. destruct o as [? ? ? ? ? ? ? ? [? ?] ?].
    unfold set_tot_rules. cbn in *. by destruct src; cbn in *; subst.
  - intros o. unfold client_view. rewrite lookup_empty. cbn [mbind option_bind]. unfold moved_view.
    destruct (o2n_s !! o) as [h|] eqn:Ho; [|done]. cbn [mbind option_bind].
    destruct (tracks_rule _ _ _ (sr_tracks HS) _ _ Ho) as (r & Hsr & _).
    destruct (store_of_inv _ _ _ Hsr) as (j & Hj & -> & _).
    rewrite break_make_hdl by (by auto using src_geometry). cbn [snd]. by rewrite (proj2 (Z.ltb_ge _ _)) by lia.
  - intros i r. by rewrite Hr.
Qed.

Lemma walk_migrates s : mig_at 0 0 s ->
  exists st s', ipa_table_walk (table ns) 0 WHEN_SLOT_FILLED migrate_rule s = Ok (st, s') /\
    if st =? 0 then mig_at (tot_tbl_ents (table ns)) (tot_tbl_ents (table ns)) s' else mig_stop s'.
Proof.
  intros H0. pose proof src_geometry as G.
  destruct (walk_inv (table ns) WHEN_SLOT_FILLED migrate_rule (fun i => mig_at i i) (fun _ => mig_stop) 0 s)
    as (st & s' & Hrun & Hout); [done| | |done| |done|by exists st, s'].
  - intros i e s1 He Hnv (x & g & k & c & n & o2n & n2o & -> & M & Ht).
    eexists x, g, k, c, n, o2n, n2o. split; [done|]. split; [|unfold token_within in *; lia].
    eapply migrating_view; [done|]. apply moved_view_skip.
    unfold rules_of, live_at, contents. change (entry_is_valid e = false) in Hnv. by rewrite He, Hnv.
  - intros i e mp mi s1 He Hv Hm. destruct (migrate_step i e mp mi s1 He Hv Hm) as (st & s' & Hrun & Hout).
    by exists st, s'.
  - destruct G. lia.
Qed.

Theorem copy_migrates k :
  exists st x' g' k', copy_ipv4_tbl src_hdl dst_hdl (x0, (g0, k)) = Ok (st, (x', (g', k'))) /\
    token_within (tot_tbl_ents (table ns)) g' /\
    exists i c n o2n n2o, migrating i x' g' c n o2n n2o /\ (st = 0 -> i = tot_tbl_ents (table ns)).
Proof.
  pose proof src_geometry as G.
  set (k1 := snd (pthread_mutex_lock nat_mutex k)).
  destruct (clear_tbl_api g0 k1 _ _ _ _ _ _ Hdst Hcd (lock_ok _ _)) as (n' & Hclr & Hok & Hsh & Hmd & Hr).
  cbv zeta in Hclr. rewrite unlock_ok in Hclr. cbn [negb Z.eqb] in Hclr.
  set (k2 := snd (pthread_mutex_unlock _ _)) in Hclr.
  pose proof (migrating_start n' Hmd Hok Hsh Hr) as M0.
  set (g1 := with_table g0 (sub_nmi dst) hd cd n') in *.
  set (k3 := snd (pthread_mutex_lock nat_mutex k2)).
  destruct (walk_migrates ((dst_hdl, x0), (g1, k3))) as (st & s' & Hwalk & Hout).
  { eexists x0, g1, k3, _, n', ∅, ∅. split; [done|]. split; [exact M0|].
    unfold token_within, g1. cbn. lia. }
  assert (Hst : exists i c n o2n n2o x' g' k', s' = ((dst_hdl, x'), (g', k')) /\
    migrating i x' g' c n o2n n2o /\ token_within (tot_tbl_ents (table ns)) g' /\
    (st = 0 -> i = tot_tbl_ents (table ns))).
  { destruct (st =? 0) eqn:E.
    - destruct Hout as (x' & g' & k' & c & n & o2n & n2o & -> & M & Ht). by eexists _, c, n, o2n, n2o, x', g', k'.
    - destruct Hout as (i & _ & x' & g' & k' & c & n & o2n & n2o & -> & M & Ht).
      eexists i, c, n, o2n, n2o, x', g', k'. split_and!; try done; apply Z.eqb_neq in E; [apply Ht..|done]. }
  destruct Hst as (i & c & n & o2n & n2o & x' & g' & k' & -> & M & Ht & Hi).
  assert (Hbody : ipa_NATI_walk_ipv4_tbl src_hdl USE_NAT_TABLE (Some migrate_cb) (dst_hdl, x0) (g1, k2) =
    Ok ((st, (dst_hdl, x')), (g', snd (pthread_mutex_unlock nat_mutex k')))).
  { unfold ipa_NATI_walk_ipv4_tbl. rewrite Hsvalid. cbn [negb VALID_WHICHTBL2USE orb].
    pose proof (mg_src M0) as R. destruct (rd_at _ _ _ _ _ _ _ R) as [Hc Hn].
    erewrite locked_run; [..|apply lock_ok|].
    2: { fold k3. rewrite (rd_hdl _ _ _ _ _ _ _ R), (rd_nmi _ _ _ _ _ _ _ R). cbn [negb].
         erewrite bind_ok by (by apply get_cache_run). rewrite (proj2 (Z.eqb_neq _ _)) by done.
         erewrite bind_ok by (by apply get_table_run). unfold run_walk. cbn [migrate_cb cb_rule].
         rewrite Hwalk. reflexivity. }
    by rewrite unlock_ok. }
  assert (Hcopy : ipa_nati_copy_ipv4_tbl src_hdl dst_hdl (Some migrate_cb) x0 (g0, k) =
    Ok ((st, x'), (g', snd (pthread_mutex_unlock nat_mutex (snd (pthread_mutex_unlock nat_mutex k')))))).
  { unfold ipa_nati_copy_ipv4_tbl. erewrite locked_run; [..|apply lock_ok|].
    2: { fold k1. erewrite bind_ok by exact Hclr. cbn [Z.eqb]. erewrite bind_ok by exact Hbody. reflexivity. }
    by rewrite unlock_ok. }
  eexists st, x', g', _. split; [unfold copy_ipv4_tbl; by rewrite Hcopy|]. split; [done|].
  by exists i, c, n, o2n, n2o.
Qed.
End migration.
