(* ===== verification/NatHybrid.v ===== *)
(** * The switch of tables in the hybrid states

    [hybrid x g S] is the invariant of the two hybrid states: a table in DDR and one
    in SRAM, and the one in focus serves the client the rules of [S], a map from the
    handles the client was given.  A switch of tables keeps it. *)

From Stdlib Require Import ZArith Lia Ascii String.
From stdpp Require Import prelude gmap list numbers strings.
From S2P Require Import Prelude CFloat Chain Bitfield IpaTable IpaTableRep TableDma TableWalk RuleTable Os NatUtils.
From S2P Require Import MemDescriptor NatMap NatRule NatRuleLaws NatDrvi NatStatemach NatSmLaws NatSmStates NatSmStatus.
From S2P Require Import NatTables NatDrviProps NatDrviDel NatApi NatTblApi NatRefine NatSmDdr NatHandles NatMigrate.

Local Open Scope Z_scope.

(** ** A table with its maps *)
Record place := mk_place {
  p_tbl_hdl : Z;
  p_hdl : Z;
  p_cache : ipa_nat_cache;
  p_tbl : ipa_nat_ip4_table_cache;
  p_desc : ipa_descriptor;
  p_o2n : gmap Z Z;
  p_n2o : gmap Z Z }.

Definition hdl_of (sub : mem_sub) (o : ipa_nati_obj) : Z :=
  match sub with DDR_SUB => ddr_tbl_hdl o | SRAM_SUB => sram_tbl_hdl o end.

(** The state with the focus on [sub]. *)
Definition focus_state (sub : mem_sub) : ipa_nati_state :=
  match sub with DDR_SUB => NATI_STATE_HYBRID_DDR | SRAM_SUB => NATI_STATE_HYBRID end.
Definition goto_trig (sub : mem_sub) : ipa_nati_trigger :=
  match sub with DDR_SUB => NATI_TRIG_GOTO_DDR | SRAM_SUB => NATI_TRIG_GOTO_SRAM end.

Section places.
Context {K : Type} `{Os : OsOps K} `{NOs : !NatOs K} `{U : IpaUapi} {W : Type}.
Implicit Types (x : smach W) (g : nat_globals).

(** [p] is the table of [sub], ready for use. *)
Record holds x g (sub : mem_sub) (p : place) : Prop := {
  hd_ready : ready g (p_tbl_hdl p) (sub_nmi sub) (p_hdl p) (p_cache p) (p_tbl p) (p_desc p);
  hd_nmi : nmi (table (p_tbl p)) = sub_nmi sub;
  hd_cnt : table_cnt (p_cache p) <> 0;
  hd_valid : VALID_TBL_HDL (p_tbl_hdl p) = true;
  hd_obj : hdl_of sub (sm_obj x) = p_tbl_hdl p;
  hd_maps : maps_at (sm_maps x) sub (p_o2n p) (p_n2o p) }.

(** Its rules are those of [S], behind the maps, and counted. *)
Record serves x g (sub : mem_sub) (p : place) (S : nat_store) : Prop := {
  sv_holds : holds x g sub p;
  sv_tracks : tracks (store_of (table (p_tbl p))) (p_o2n p) (p_n2o p);
  sv_settled : forall i r, rules_of (table (p_tbl p)) i = Some r -> settled (pdns g) r;
  sv_count : sub_get (tot_rules_in_table (sm_obj x)) sub = u32 (Z.of_nat (size (p_o2n p)));
  sv_view : forall o, S o = client_view (store_of (table (p_tbl p))) (p_o2n p) o }.

(** The focus is on [sub]. *)
Record focused x (sub : mem_sub) : Prop := {
  fc_curr : curr_state (sm_obj x) = focus_state sub;
  fc_prev : prev_state (sm_obj x) <> NATI_STATE_NULL;
  fc_init : nat_mutex_init x = true }.

Record hybrid_at x g (sub : mem_sub) (S : nat_store) : Prop := {
  hy_focus : focused x sub;
  hy_pdns : Z.of_nat (length (pdns g)) = IPA_MAX_PDN_NUM;
  hy_serves : exists a, serves x g sub a S;
  hy_other : exists b, holds x g (sub_other sub) b }.

Definition hybrid x g (S : nat_store) : Prop := exists sub, hybrid_at x g sub S.

(** Room for the tokens of the rules that have no hash. *)
Definition token_room g : Prop := 0 <= Hash_token g < 2 ^ 30.

(** The rules of [S'] are rules of [S]. *)
Definition store_sub (S' S : nat_store) : Prop := forall o r, S' o = Some r -> S o = Some r.
Definition store_eq (S' S : nat_store) : Prop := forall o, S' o = S o.

#[global] Instance store_eq_equiv : Equivalence store_eq.
Proof.
  split; [by intros S o|by intros S S' H o|intros S1 S2 S3 H H' o]. by rewrite H.
Qed.

#[global] Instance store_sub_preorder : PreOrder store_sub.
Proof. split; [by intros S o r|intros S1 S2 S3 H H' o r Hr]. by apply H', H. Qed.

#[global] Instance serves_proper x g sub p : Proper (store_eq ==> iff) (serves x g sub p).
Proof. intros S S' E. split; intros []; (split; [done..|]); intros o; [by rewrite <- E|by rewrite E]. Qed.

#[global] Instance hybrid_at_proper x g sub : Proper (store_eq ==> iff) (hybrid_at x g sub).
Proof.
  intros S S' E. split; intros [? ? [a Ha] ?]; (split; [done..| |done]); exists a;
    [by rewrite <- E|by rewrite E].
Qed.

(** *** What they depend on *)
Lemma ready_caches g g1 tbl_hdl nmi hdl c n desc : ipv4_nat_cache g1 = ipv4_nat_cache g ->
  ready g tbl_hdl nmi hdl c n desc -> ready g1 tbl_hdl nmi hdl c n desc.
Proof. intros Hg [? ? [Hc Hn] ? ? ?]. split; try done. split; [by rewrite Hg|done]. Qed.

Lemma holds_same x x' g g' sub p : ipv4_nat_cache g' = ipv4_nat_cache g ->
  hdl_of sub (sm_obj x') = hdl_of sub (sm_obj x) -> sm_maps x' = sm_maps x ->
  holds x g sub p -> holds x' g' sub p.
Proof. intros Hg Hh Hm []. split; try done; [by eapply ready_caches|by rewrite Hh|by rewrite Hm]. Qed.

Lemma serves_same x x' g g' sub p S : ipv4_nat_cache g' = ipv4_nat_cache g -> pdns g' = pdns g ->
  hdl_of sub (sm_obj x') = hdl_of sub (sm_obj x) -> sm_maps x' = sm_maps x ->
  tot_rules_in_table (sm_obj x') = tot_rules_in_table (sm_obj x) ->
  serves x g sub p S -> serves x' g' sub p S.
Proof.
  intros Hg Hp Hh Hm Ht []. split; try done; [by eapply holds_same| |by rewrite Ht].
  by rewrite Hp.
Qed.

(** The SRAM cache's device is open, as the clock vote wants it. *)
Definition sram_open g : Prop :=
  exists c d, zget (ipv4_nat_cache g) IPA_NAT_MEM_IN_SRAM = Some c /\ ipa_desc c = Some d.

Lemma holds_open x g p : holds x g SRAM_SUB p -> sram_open g.
Proof.
  intros H. pose proof (rd_at _ _ _ _ _ _ _ (hd_ready _ _ _ _ H)) as [Hc _].
  eexists _, _. split; [exact Hc|]. apply (rd_desc _ _ _ _ _ _ _ (hd_ready _ _ _ _ H)).
Qed.

Lemma hybrid_open x g sub S : hybrid_at x g sub S -> sram_open g.
Proof.
  intros [_ _ [a Ha%sv_holds] [b Hb]]. destruct sub; by eapply holds_open.
Qed.

Lemma focused_hybrid x sub : focused x sub -> IN_HYBRID_STATE (sm_obj x) = true /\ CHOOSE_MEM_SUB (sm_obj x) = sub.
Proof. intros [Hc _ _]. unfold IN_HYBRID_STATE, CHOOSE_MEM_SUB, in_state. rewrite Hc. by destruct sub. Qed.
End places.


#[global] Arguments hd_ready {U W x g sub p}.
#[global] Arguments hd_nmi {U W x g sub p}.
#[global] Arguments hd_cnt {U W x g sub p}.
#[global] Arguments hd_valid {U W x g sub p}.
#[global] Arguments hd_obj {U W x g sub p}.
#[global] Arguments hd_maps {U W x g sub p}.
#[global] Arguments sv_holds {U W x g sub p S}.
#[global] Arguments sv_tracks {U W x g sub p S}.
#[global] Arguments sv_settled {U W x g sub p S}.
#[global] Arguments sv_count {U W x g sub p S}.
#[global] Arguments sv_view {U W x g sub p S}.
#[global] Arguments hy_focus {U W x g sub S}.
#[global] Arguments hy_pdns {U W x g sub S}.
#[global] Arguments hy_serves {U W x g sub S}.
#[global] Arguments hy_other {U W x g sub S}.

#[local] Arguments mg_dst {U W src src_hdl hs cs ns dss o2n_s n2o_s x0 g0 dst_hdl hd cd nd dsd i x g c n o2n n2o}.
#[local] Arguments mg_shape {U W src src_hdl hs cs ns dss o2n_s n2o_s x0 g0 dst_hdl hd cd nd dsd i x g c n o2n n2o}.
#[local] Arguments mg_cnt {U W src src_hdl hs cs ns dss o2n_s n2o_s x0 g0 dst_hdl hd cd nd dsd i x g c n o2n n2o}.
#[local] Arguments mg_src {U W src src_hdl hs cs ns dss o2n_s n2o_s x0 g0 dst_hdl hd cd nd dsd i x g c n o2n n2o}.
#[local] Arguments mg_env {U W src src_hdl hs cs ns dss o2n_s n2o_s x0 g0 dst_hdl hd cd nd dsd i x g c n o2n n2o}.
#[local] Arguments mg_maps {U W src src_hdl hs cs ns dss o2n_s n2o_s x0 g0 dst_hdl hd cd nd dsd i x g c n o2n n2o}.
#[local] Arguments mg_src_maps {U W src src_hdl hs cs ns dss o2n_s n2o_s x0 g0 dst_hdl hd cd nd dsd i x g c n o2n n2o}.
#[local] Arguments mg_tracks {U W src src_hdl hs cs ns dss o2n_s n2o_s x0 g0 dst_hdl hd cd nd dsd i x g c n o2n n2o}.
#[local] Arguments mg_sm {U W src src_hdl hs cs ns dss o2n_s n2o_s x0 g0 dst_hdl hd cd nd dsd i x g c n o2n n2o}.
#[local] Arguments mg_view {U W src src_hdl hs cs ns dss o2n_s n2o_s x0 g0 dst_hdl hd cd nd dsd i x g c n o2n n2o}.
#[local] Arguments mg_settled {U W src src_hdl hs cs ns dss o2n_s n2o_s x0 g0 dst_hdl hd cd nd dsd i x g c n o2n n2o}.

Section runs.
Context {K : Type} `{Os : OsOps K} `{NOs : !NatOs K} `{NL : !NatOsLaws} `{U : IpaUapi} `{UL : !IpaUapiLaws}.
Context {W : Type} (Hw : mutexes_work (K := K)).
Implicit Types (x : smach W) (g : nat_globals) (k : K).
#[local] Notation sm_args := (sm_args (K := K) (W := W)).

(** The clock vote or the init command is refused. *)
Definition clock_refuses : Prop := exists fd v k, fst (ioctl_app_clock_vote (K := K) fd v k) <> 0.
Definition init_refuses : Prop := exists fd cmd k, fst (ioctl_v4_init_nat (K := K) fd cmd k) <> 0.

(** ** The clock *)
Lemma vote_run v x g k : sram_open g -> IPA_APP_CLK_DEVOTE <= v <= IPA_APP_CLK_RESET_VOTE ->
  exists fd, ipa_nat_vote_clock v (x, (g, k)) =
    Ok (fst (ioctl_app_clock_vote fd v k), (x, (g, snd (ioctl_app_clock_vote fd v k)))).
Proof.
  intros (c & d & Hc & Hd) Hv. exists (fd d). unfold ipa_nat_vote_clock.
  rewrite Z.geb_leb, !(proj2 (Z.leb_le _ _)) by lia. cbn [andb negb]. apply drv_run.
  unfold ipa_nati_vote_clock, ensure_desc.
  erewrite bind_ok. 2: { erewrite bind_ok by (by apply get_cache_run). rewrite Hd. reflexivity. }
  cbn [negb]. erewrite bind_ok by (by apply get_cache_run).
  erewrite bind_ok by (unfold get_fd; erewrite bind_ok by (apply lift_run; by rewrite Hd); done).
  apply os_run.
Qed.

Lemma clk_votes : IPA_APP_CLK_DEVOTE <= IPA_APP_CLK_VOTE <= IPA_APP_CLK_RESET_VOTE /\
  IPA_APP_CLK_DEVOTE <= IPA_APP_CLK_DEVOTE <= IPA_APP_CLK_RESET_VOTE.
Proof. pose proof uapi_clk. lia. Qed.

Lemma maybe_vote_run (b : bool) v x g k : sram_open g -> IPA_APP_CLK_DEVOTE <= v <= IPA_APP_CLK_RESET_VOTE ->
  exists r k', (if b then ipa_nat_vote_clock v else mret 0) (x, (g, k)) = Ok (r, (x, (g, k'))) /\
    (r <> 0 -> clock_refuses).
Proof.
  intros Ho Hv. destruct b; [|by exists 0, k].
  destruct (vote_run v x g k Ho Hv) as [fd Hrun]. eexists _, _. split; [exact Hrun|].
  intros H. by exists fd, v, k.
Qed.

(** ** One entry into the state machine *)
(** Either the callback has run, or the clock vote was refused and nothing changed. *)
Lemma entry_run n t (args : sm_args) x g k (R : smach W -> nat_globals -> Prop) :
  nat_mutex_init x = true -> sram_open g ->
  (forall k1, exists r x' g' k', _state_mach_tbl (ipa_nati_statemach n) (curr_state (sm_obj x)) t args (x, (g, k1)) =
     Ok (r, (x', (g', k'))) /\ sram_open g' /\ R x' g') ->
  exists x' g' k', ipa_nati_statemach (Datatypes.S n) t args (x, (g, k)) = Ok (0, (x', (g', k'))) /\
    (R x' g' \/ clock_refuses /\ x' = x /\ g' = g).
Proof.
  intros Hi Ho Hcb. cbn [ipa_nati_statemach]. unfold statemach_step.
  destruct (maybe_vote_run (VOTE_REQUIRED (sm_obj x) t) IPA_APP_CLK_VOTE x g (locked_k k) Ho (proj1 clk_votes))
    as (v & k1 & Hvote & Hrefused).
  destruct (v =? 0) eqn:Ev.
  - destruct (Hcb k1) as (r & x' & g' & k' & Hrun & Ho' & HR).
    destruct (maybe_vote_run (VOTE_REQUIRED (sm_obj x) t) IPA_APP_CLK_DEVOTE x' g' k' Ho' (proj2 clk_votes))
      as (v' & k2 & Hdevote & _).
    exists x', g', (unlocked_k k2). split; [|by left].
    erewrite bind_ok by (by apply take_mutex_run). cbn [negb Z.eqb]. erewrite bind_ok by done. cbv zeta. cbn [fst].
    erewrite bind_ok by exact Hvote. rewrite Ev. cbn [negb]. erewrite bind_ok by done. cbn [fst].
    erewrite bind_ok by exact Hrun. erewrite bind_ok by exact Hdevote.
    apply give_mutex_run; [done|]. eapply callback_inits; [|exact Hrun|done]. apply statemach_inits.
  - exists x, g, (unlocked_k k1). split.
    + erewrite bind_ok by (by apply take_mutex_run). cbn [negb Z.eqb]. erewrite bind_ok by done. cbv zeta. cbn [fst].
      erewrite bind_ok by exact Hvote. rewrite Ev. cbn [negb]. by apply give_mutex_run.
    + right. zify_bool. auto.
Qed.

(** ** The change of focus *)
Lemma post_init_run g k tbl_hdl nmi hdl c n desc :
  ready g tbl_hdl nmi hdl c n desc -> table_cnt c <> 0 ->
  exists r k', ipa_NATI_post_ipv4_init_cmd tbl_hdl (g, k) =
      Ok (r, (if r =? 0 then set_active g (Some nmi) else g, k')) /\ (r <> 0 -> init_refuses).
Proof.
  intros R Hcnt. destruct (rd_at _ _ _ _ _ _ _ R) as [Hc Hn].
  set (k0 := locked_k k).
  destruct (ipa_nati_post_ipv4_init_cmd (cache_nmi c) (fd desc) n (u8 (hdl - 1)) true k0) as [r k1] eqn:Er.
  exists r, (unlocked_k k1). split.
  2: { intros Hr. unfold ipa_nati_post_ipv4_init_cmd in Er. eexists _, _, k0. rewrite Er. exact Hr. }
  unfold ipa_NATI_post_ipv4_init_cmd. rewrite (rd_hdl _ _ _ _ _ _ _ R), (rd_nmi _ _ _ _ _ _ _ R). cbn [negb].
  assert (Hbody : locked (K := K) (c ← get_cache nmi;
       if table_cnt c =? 0 then mret (- EINVAL, tt)
       else
         n ← get_table c hdl;
         fd ← get_fd c;
         ret ← os (ipa_nati_post_ipv4_init_cmd (cache_nmi c) fd n (u8 (hdl - 1)) true);
         if negb (ret =? 0) then mret (ret, tt)
         else _ ← modify_g (fun g => set_active g (Some nmi)); mret (0, tt)) tt (g, k) =
    Ok ((r, tt), (if r =? 0 then set_active g (Some nmi) else g, unlocked_k k1))).
  { erewrite locked_run; [..|apply lock_works, Hw|].
    2: { fold (locked_k k). fold k0. erewrite bind_ok by (by apply get_cache_run).
         rewrite (proj2 (Z.eqb_neq _ _)) by done. erewrite bind_ok by (by apply get_table_run).
         erewrite bind_ok by (unfold get_fd; erewrite bind_ok
           by (apply lift_run; by rewrite (rd_desc _ _ _ _ _ _ _ R)); done).
         erewrite bind_ok by (rewrite os_run, Er; done). cbn [fst snd].
         instantiate (1 := k1). instantiate (1 := if r =? 0 then set_active g (Some nmi) else g).
         instantiate (1 := tt). instantiate (1 := r). destruct (r =? 0) eqn:E; cbn [negb]; [|done].
         zify_bool. subst r. by erewrite bind_ok by done. }
    rewrite unlock_works by exact Hw. by cbn [negb Z.eqb]. }
  by erewrite bind_ok by exact Hbody.
Qed.

(** The object after the change of focus. *)
Definition moved_to (sub : mem_sub) x : smach W :=
  mk_sm (SET_NATIOBJ_STATE (sm_obj x) (focus_state sub)) (sm_maps x) (nat_mutex_init x) (sm_client x).

Lemma goto_run n sub src x g k p : curr_state (sm_obj x) = focus_state src -> nat_mutex_init x = true ->
  holds x g sub p -> sram_open g ->
  exists x' g' k', ipa_nati_statemach (Datatypes.S n) (goto_trig sub) ArgsNone (x, (g, k)) = Ok (0, (x', (g', k'))) /\
    (x' = moved_to sub x /\ g' = set_active g (Some (sub_nmi sub)) \/
     (clock_refuses \/ init_refuses) /\ x' = x /\ g' = g).
Proof.
  intros Hc Hi H Ho.
  destruct (entry_run n (goto_trig sub) ArgsNone x g k (fun x' g' =>
    x' = moved_to sub x /\ g' = set_active g (Some (sub_nmi sub)) \/ init_refuses /\ x' = x /\ g' = g))
    as (x' & g' & k' & Hrun & Hout); [done|done| |exists x', g', k'; split; [exact Hrun|tauto]].
  intros k1. destruct (post_init_run g k1 _ _ _ _ _ _ (hd_ready H) (hd_cnt H)) as (r & k2 & Hpost & Href).
  pose proof (hd_obj H) as Hobj.
  assert (Hcb : _state_mach_tbl (ipa_nati_statemach n) (curr_state (sm_obj x)) (goto_trig sub) ArgsNone (x, (g, k1)) =
    Ok (r, (if r =? 0 then moved_to sub x else x, (if r =? 0 then set_active g (Some (sub_nmi sub)) else g, k2)))).
  { rewrite Hc. rewrite <- Hobj in Hpost.
    destruct sub, src; cbn [_state_mach_tbl focus_state goto_trig]; unfold _smGoToDdr, _smGoToSram;
      (erewrite bind_ok by done); (erewrite bind_ok by (apply drv_run; exact Hpost));
      destruct (r =? 0); (erewrite bind_ok by done); by destruct x. }
  eexists _, _, _, _. split; [exact Hcb|]. destruct (r =? 0) eqn:E; zify_bool; [|by auto].
  split; [exact Ho|by left].
Qed.

(** ** The copy *)
Lemma time_now_run x g k : exists k', time_now (x, (g, k)) = Ok (tt, (x, (g, k'))).
Proof.
  unfold time_now. eexists. erewrite bind_ok by apply os_call_run. done.
Qed.

Lemma set_tot_twice o sub v w : set_tot_rules (set_tot_rules o sub v) sub w = set_tot_rules o sub w.
Proof. by destruct o as [? ? ? ? ? ? ? ? [? ?] ?], sub. Qed.

Lemma hdl_of_tot sub o sub' v : hdl_of sub (set_tot_rules o sub' v) = hdl_of sub o.
Proof. by destruct sub. Qed.

Lemma tot_of_tot sub o v : sub_get (tot_rules_in_table (set_tot_rules o sub v)) sub = v.
Proof. by destruct o as [? ? ? ? ? ? ? ? [? ?] ?], sub. Qed.

Lemma tot_of_other sub o sub' v : sub <> sub' ->
  sub_get (tot_rules_in_table (set_tot_rules o sub' v)) sub = sub_get (tot_rules_in_table o) sub.
Proof. by destruct o as [? ? ? ? ? ? ? ? [? ?] ?], sub, sub'. Qed.

(** What the client sees in the destination is part of what it sees in the source. *)
Lemma moved_view_sub x g src a S i : serves x g src a S ->
  store_sub (moved_view (p_tbl a) (p_o2n a) i) S.
Proof.
  intros V o r. rewrite (sv_view V). unfold moved_view, client_view.
  destruct (p_o2n a !! o) as [h|]; [|done]. cbn [mbind option_bind]. by destruct (_ <? _).
Qed.

Lemma serves_source x g src a S dst v : serves x g src a S -> Z.of_nat (length (pdns g)) = IPA_MAX_PDN_NUM ->
  src <> dst ->
  source src (p_tbl_hdl a) (p_hdl a) (p_cache a) (p_tbl a) (p_desc a) (p_o2n a) (p_n2o a)
    (mk_sm (set_tot_rules (sm_obj x) dst v) (put_maps (sm_maps x) dst ∅ ∅) (nat_mutex_init x) (sm_client x)) g.
Proof.
  intros V Hp Hne. destruct (sv_holds V). split; try done; [|apply (sv_tracks V)|apply (sv_settled V)].
  by apply put_maps_other.
Qed.

(** The state after a copy to the table of [dst], with the status [st]. *)
Record copied x g (src : mem_sub) (stats : mem_sub) (S : nat_store) (st : Z) x' g' : Prop := {
  cp_obj : exists v, sm_obj x' = count_switch stats (st =? 0) (set_tot_rules (sm_obj x) (sub_other src) v);
  cp_init : nat_mutex_init x' = nat_mutex_init x;
  cp_client : sm_client x' = sm_client x;
  cp_pdns : pdns g' = pdns g;
  cp_active : active_nat_cache_ptr g' = active_nat_cache_ptr g;
  cp_token : Hash_token g <= Hash_token g' <= Hash_token g + 2 ^ 14;
  cp_src : exists a, serves x' g' src a S;
  cp_dst : exists b S', serves x' g' (sub_other src) b S' /\ store_sub S' S /\ (st = 0 -> store_eq S' S) }.

Definition counted x (stats : mem_sub) (ok : bool) : smach W :=
  mk_sm (count_switch stats ok (sm_obj x)) (sm_maps x) (nat_mutex_init x) (sm_client x).

Lemma serves_counted x g sub a S stats ok : serves x g sub a S -> serves (counted x stats ok) g sub a S.
Proof. by apply serves_same. Qed.

Lemma switch_copy_run x g k src a b S stats :
  serves x g src a S -> holds x g (sub_other src) b -> Z.of_nat (length (pdns g)) = IPA_MAX_PDN_NUM ->
  token_room g ->
  exists st x' g' k', switch_copy (sub_other src) (hdl_of src) (hdl_of (sub_other src)) stats (x, (g, k)) =
      Ok (st, (x', (g', k'))) /\ copied x g src stats S st x' g'.
Proof.
  intros V H Hp Ht. set (dst := sub_other src) in *.
  assert (Hne : src <> dst) by (by destruct src).
  set (x1 := mk_sm (set_tot_rules (sm_obj x) dst 0) (put_maps (sm_maps x) dst ∅ ∅) (nat_mutex_init x) (sm_client x)).
  pose proof (serves_source x g src a S dst 0 V Hp Hne) as HS. fold x1 in HS.
  pose proof (ready_geometry _ _ _ _ _ _ _ (hd_ready (sv_holds V))) as G.
  assert (Htot : 0 <= tot_tbl_ents (table (p_tbl a)) <= 8192) by (destruct G; lia).
  destruct (copy_migrates Hw src _ _ _ _ _ _ _ _ _ (p_tbl_hdl b) (p_hdl b) (p_cache b) (p_tbl b) (p_desc b) HS)
    with (k := k) as (st & x2 & g2 & k2 & Hcopy & Htok & i & c & n & o2n & n2o & M & Hi).
  { unfold token_room in Ht. lia. }
  { apply (hd_valid H). } { apply (hd_ready H). } { apply (hd_cnt (sv_holds V)). } { apply (hd_cnt H). }
  { apply (hd_valid (sv_holds V)). } { eapply put_maps_at, (hd_maps H). }
  { cbn [sm_obj x1]. apply tot_of_tot. }
  pose proof (mg_sm M) as Hx2. cbn [x1 sm_obj nat_mutex_init sm_client] in Hx2.
  rewrite set_tot_twice in Hx2. fold dst in Hx2.
  destruct (same_env_pdns _ _ (mg_env M)) as (Hpd & _ & Hact).
  destruct (time_now_run x2 g2 k2) as [k3 Htime].
  exists st, (counted x2 stats (st =? 0)), g2, k3. split.
  - unfold switch_copy. erewrite bind_ok by done.
    erewrite bind_ok by (eapply (clear_maps_run (mk_sm _ _ _ _)), (hd_maps H)).
    erewrite bind_ok by done. cbn [fst with_maps sm_obj]. rewrite !hdl_of_tot, (hd_obj H), (hd_obj (sv_holds V)).
    erewrite bind_ok by exact Hcopy. erewrite bind_ok by exact Htime. by erewrite bind_ok by done.
  - split; try done.
    + exists (u32 (Z.of_nat (size o2n))). unfold counted. cbn [sm_obj]. by rewrite Hx2.
    + by rewrite Hx2.
    + by rewrite Hx2.
    + unfold token_within in Htok. lia.
    + exists a. apply serves_counted. split.
      * split; try apply (sv_holds V); [apply (mg_src M)| |
          apply (mg_src_maps M)].
        rewrite Hx2. cbn [sm_obj]. rewrite hdl_of_tot. apply (hd_obj (sv_holds V)).
      * apply (sv_tracks V).
      * rewrite Hpd. apply (sv_settled V).
      * rewrite Hx2. cbn [sm_obj]. rewrite tot_of_other by done. apply (sv_count V).
      * apply (sv_view V).
    + exists (mk_place (p_tbl_hdl b) (p_hdl b) c n (p_desc b) o2n n2o), (moved_view (p_tbl a) (p_o2n a) i).
      split_and!; [apply serves_counted; split| |].
      * split; try apply H; [apply (mg_dst M)| | | |apply (mg_maps M)]; cbn [p_tbl p_cache p_tbl_hdl].
        -- destruct (mg_shape M) as (? & ? & ? & ? & ->). apply (hd_nmi H).
        -- rewrite (mg_cnt M). apply (hd_cnt H).
        -- rewrite Hx2. cbn [sm_obj]. rewrite hdl_of_tot. apply (hd_obj H).
      * apply (mg_tracks M).
      * rewrite Hpd. apply (mg_settled M).
      * rewrite Hx2. cbn [sm_obj]. apply tot_of_tot.
      * intros o. symmetry. apply (mg_view M).
      * by eapply moved_view_sub.
      * intros ->%Hi o. rewrite (sv_view V). by eapply moved_view_all.
Qed.

(** ** The switch *)
(** What the switches do not change. *)
Record same_session x g x' g' : Prop := {
  ss_hold : hold_state (sm_obj x') = hold_state (sm_obj x);
  ss_hdls : forall sub, hdl_of sub (sm_obj x') = hdl_of sub (sm_obj x);
  ss_thresh : back_to_sram_thresh (sm_obj x') = back_to_sram_thresh (sm_obj x);
  ss_client : sm_client x' = sm_client x;
  ss_pdns : pdns g' = pdns g }.

Definition fails_of (sub : mem_sub) x : Z := fail (sub_get (sw_stats (sm_obj x)) sub).

(** The focus has moved from [src]: the rules of [S'] were copied, all of them unless
    the counter of failed switches says otherwise. *)
Record switched x g (src : mem_sub) (S : nat_store) x' g' (S' : nat_store) : Prop := {
  sw_hybrid : hybrid_at x' g' (sub_other src) S';
  sw_active : active_nat_cache_ptr g' = Some (sub_nmi (sub_other src));
  sw_sub : store_sub S' S;
  sw_all : fails_of src x' = fails_of src x -> store_eq S' S }.

(** The clock vote or the init command was refused: the focus is where it was. *)
Record not_switched x g (src : mem_sub) (S : nat_store) x' g' : Prop := {
  ns_why : clock_refuses \/ init_refuses;
  ns_hybrid : hybrid_at x' g' src S;
  ns_active : active_nat_cache_ptr g' = active_nat_cache_ptr g }.

Lemma u32_succ_ne z : u32 (z + 1) <> z.
Proof.
  intros H. pose proof (wrap_range 32 (z + 1) ltac:(lia)) as Hr. rewrite H in Hr.
  unfold wrap in H. destruct (decide (z + 1 = 2 ^ 32)) as [E|E].
  - rewrite E, Z.mod_same in H by lia. lia.
  - rewrite Z.mod_small in H by lia. lia.
Qed.

Lemma counted_fails o src ok dst v :
  fail (sub_get (sw_stats (count_switch src ok (set_tot_rules o dst v))) src) = fail (sub_get (sw_stats o) src) ->
  ok = true.
Proof.
  destruct o as [? ? ? ? ? ? ? ? ? [? ?]], src, ok; try done; cbn; intros H; by apply u32_succ_ne in H.
Qed.

Lemma copied_session x g src stats S st x' g' : copied x g src stats S st x' g' -> same_session x g x' g'.
Proof.
  intros [[v Ho] ? ? ? ? ? ? ?]. split; try done; rewrite Ho; done.
Qed.

Lemma copied_focused x g src stats S st x' g' foc : copied x g src stats S st x' g' ->
  focused x foc -> focused x' foc.
Proof. intros [[v Ho] Hi ? ? ? ? ? ?] []. split; rewrite ?Ho, ?Hi; done. Qed.

(** The change of focus and the copy, as both switch functions make them. *)
Lemma goto_copy_run n x g k src S : hybrid_at x g src S -> token_room g ->
  exists st x' g' k',
    (ret ← ipa_nati_statemach (Datatypes.S n) (goto_trig (sub_other src)) ArgsNone;
     if ret =? 0 then switch_copy (sub_other src) (hdl_of src) (hdl_of (sub_other src)) src
     else mret ret) (x, (g, k)) = Ok (st, (x', (g', k'))) /\
    same_session x g x' g' /\ Hash_token g <= Hash_token g' <= Hash_token g + 2 ^ 14 /\
    ((exists S', switched x g src S x' g' S') \/ not_switched x g src S x' g').
Proof.
  intros H Ht. destruct (hy_serves H) as [a Va]. destruct (hy_other H) as [b Hb].
  destruct (goto_run n (sub_other src) src x g k b (fc_curr _ _ (hy_focus H)) (fc_init _ _ (hy_focus H)) Hb (hybrid_open _ _ _ _ H))
    as (x1 & g1 & k1 & Hgoto & Hout).
  erewrite bind_ok by exact Hgoto. cbn [Z.eqb]. destruct Hout as [[-> ->]|(Hwhy & -> & ->)].
  - destruct (switch_copy_run (moved_to (sub_other src) x) (set_active g (Some (sub_nmi (sub_other src)))) k1 src a b S src)
      as (st & x' & g' & k' & Hrun & C); [..|done|].
    { by eapply serves_same; [..|exact Va]. }
    { by eapply holds_same; [..|exact Hb]. }
    { apply (hy_pdns H). }
    exists st, x', g', k'. split; [exact Hrun|]. destruct (copied_session _ _ _ _ _ _ _ _ C) as [? Hh ? ? ?].
    split; [by split|].
    split; [apply C|]. left. destruct (cp_dst _ _ _ _ _ _ _ _ C) as (b' & S' & Vb & Hsub & Hall).
    exists S'. split; [split| | |].
    + eapply copied_focused; [exact C|]. destruct (hy_focus H) as [Hc ? ?]. split; [done| |done].
      cbn. rewrite Hc. by destruct src.
    + rewrite (cp_pdns _ _ _ _ _ _ _ _ C). apply (hy_pdns H).
    + by exists b'.
    + destruct (cp_src _ _ _ _ _ _ _ _ C) as [a' Va']. exists a'. destruct src; apply Va'.
    + by rewrite (cp_active _ _ _ _ _ _ _ _ C).
    + done.
    + destruct (cp_obj _ _ _ _ _ _ _ _ C) as [v Ho]. unfold fails_of. rewrite Ho.
      intros Hf%(counted_fails (sm_obj (moved_to (sub_other src) x))). apply Hall. by zify_bool.
  - destruct (switch_copy_run x g k1 src a b S src Va Hb (hy_pdns H) Ht) as (st & x' & g' & k' & Hrun & C).
    exists st, x', g', k'. split; [exact Hrun|]. split; [by eapply copied_session|]. split; [apply C|].
    right. split; [done| |by rewrite (cp_active _ _ _ _ _ _ _ _ C)]. split.
    + eapply copied_focused; [exact C|apply H].
    + rewrite (cp_pdns _ _ _ _ _ _ _ _ C). apply (hy_pdns H).
    + apply (cp_src _ _ _ _ _ _ _ _ C).
    + destruct (cp_dst _ _ _ _ _ _ _ _ C) as (b' & S' & Vb & _). exists b'. apply Vb.
Qed.

Lemma switch_run n x g k src S : hybrid_at x g src S -> token_room g ->
  exists x' g' k',
    ipa_nati_statemach (Datatypes.S (Datatypes.S n)) NATI_TRIG_TBL_SWITCH ArgsNone (x, (g, k)) = Ok (0, (x', (g', k'))) /\
    same_session x g x' g' /\ Hash_token g <= Hash_token g' <= Hash_token g + 2 ^ 14 /\
    ((exists S', switched x g src S x' g' S') \/ not_switched x g src S x' g').
Proof.
  intros H Ht. pose proof (hy_focus H) as F.
  destruct (entry_run (Datatypes.S n) NATI_TRIG_TBL_SWITCH ArgsNone x g k (fun x' g' =>
    same_session x g x' g' /\ Hash_token g <= Hash_token g' <= Hash_token g + 2 ^ 14 /\
    ((exists S', switched x g src S x' g' S') \/ not_switched x g src S x' g')))
    as (x' & g' & k' & Hrun & Hout); [apply F|by eapply hybrid_open| |].
  - intros k1. destruct (time_now_run x g k1) as [k2 Htime].
    destruct (goto_copy_run n x g k2 src S H Ht) as (st & x' & g' & k' & Hrun & Hss & Htok & Hout).
    exists st, x', g', k'. split; [|split; [|done]].
    + rewrite (fc_curr _ _ F). pose proof (proj2 (focused_hybrid _ _ F)) as Hsub.
      destruct src; cbn [focus_state _state_mach_tbl];
        unfold _smSwitchFromSramToDdr, _smSwitchFromDdrToSram; (erewrite bind_ok by done);
        cbv zeta; cbn [fst]; rewrite Hsub; (erewrite bind_ok by done); (erewrite bind_ok by exact Htime); exact Hrun.
    + destruct Hout as [[S' Hs]|Hn]; [eapply hybrid_open, Hs|eapply hybrid_open, Hn].
  - exists x', g', k'. split; [exact Hrun|]. destruct Hout as [Hout|(Hwhy & -> & ->)]; [done|].
    split; [done|]. split; [lia|]. right. split; [by left|done|done].
Qed.

(** ** The client's call *)
(** Votes and init commands that are accepted. *)
Definition focus_works : Prop := ~ clock_refuses /\ ~ init_refuses.

Lemma hybrid_hold x g sub S h s : hybrid_at x g sub S ->
  hybrid_at (mk_sm (set_hold (sm_obj x) h s) (sm_maps x) (nat_mutex_init x) (sm_client x)) g sub S.
Proof.
  intros [[] ? [a Va] [b Hb]]. split; [by split|done| |].
  - exists a. by eapply serves_same; [..|exact Va].
  - exists b. by eapply holds_same; [..|exact Hb].
Qed.

Lemma hybrid_client x g sub S (c : client W) : hybrid_at x g sub S ->
  hybrid_at (mk_sm (sm_obj x) (sm_maps x) (nat_mutex_init x) c) g sub S.
Proof.
  intros [[] ? [a Va] [b Hb]]. split; [by split|done| |].
  - exists a. by eapply serves_same; [..|exact Va].
  - exists b. by eapply holds_same; [..|exact Hb].
Qed.

Lemma valid_nmi sub : IPA_VALID_NAT_MEM_IN (sub_nmi sub) = true.
Proof. apply uapi_nmi. destruct sub; auto. Qed.

(** [ipa_nat_switch_to] to the other memory type. *)
Definition holding x (hold : bool) x' : Prop :=
  x' = mk_sm (set_hold (sm_obj x) hold (if hold then GEN_HOLD_STATE (sm_obj x) else state_to_hold (sm_obj x)))
         (sm_maps x) (nat_mutex_init x) (sm_client x).

Lemma switch_to_run x g k src S hold : hybrid_at x g src S -> token_room g ->
  exists x1 x' g' k', ipa_nat_switch_to (sub_nmi (sub_other src)) hold (x, (g, k)) = Ok (0, (x', (g', k'))) /\
    holding x1 hold x' /\ same_session x g x1 g' /\
    ((exists S', switched x g src S x1 g' S') \/ not_switched x g src S x1 g').
Proof.
  intros H Ht. pose proof (hy_focus H) as F.
  destruct (switch_run 1 x g (locked_k k) src S H Ht) as (x1 & g1 & k1 & Hrun & Hss & _ & Hout).
  assert (Hi1 : nat_mutex_init x1 = true).
  { destruct Hout as [[S' Hs]|Hn]; [apply (hy_focus (sw_hybrid _ _ _ _ _ _ _ Hs))|
      apply (hy_focus (ns_hybrid _ _ _ _ _ _ Hn))]. }
  eexists x1, _, g1, (unlocked_k k1). split; [|split; [reflexivity|split; [exact Hss|done]]].
  unfold ipa_nat_switch_to. rewrite valid_nmi. cbn [negb].
  erewrite bind_ok by (apply take_mutex_run; [done|apply F]). cbn [negb Z.eqb].
  erewrite bind_ok.
  - by apply give_mutex_run.
  - unfold switch_to_locked. erewrite bind_ok by done. cbn [fst].
    unfold IN_UNSTARTED_STATE. rewrite bool_decide_false by apply F.
    rewrite (proj1 (focused_hybrid _ _ F)).
    replace (COMPATIBLE_NMI_4SWITCH (sm_obj x) (sub_nmi (sub_other src))) with true.
    2: { unfold COMPATIBLE_NMI_4SWITCH, in_state. rewrite (fc_curr _ _ F). by destruct src. }
    erewrite bind_ok by exact Hrun. cbn [Z.eqb]. by erewrite bind_ok by done.
Qed.

(** To the memory type in focus: nothing moves. *)
Lemma stay_run x g k sub S hold : hybrid_at x g sub S ->
  exists x' k', ipa_nat_switch_to (sub_nmi sub) hold (x, (g, k)) = Ok (0, (x', (g, k'))) /\ holding x hold x'.
Proof.
  intros H. pose proof (hy_focus H) as F. eexists _, _. split; [|reflexivity].
  unfold ipa_nat_switch_to. rewrite valid_nmi. cbn [negb].
  erewrite bind_ok by (apply take_mutex_run; [done|apply F]). cbn [negb Z.eqb].
  erewrite bind_ok.
  - apply give_mutex_run; [done|apply F].
  - unfold switch_to_locked. erewrite bind_ok by done. cbn [fst].
    unfold IN_UNSTARTED_STATE. rewrite bool_decide_false by apply F.
    rewrite (proj1 (focused_hybrid _ _ F)).
    replace (COMPATIBLE_NMI_4SWITCH (sm_obj x) (sub_nmi sub)) with false.
    2: { unfold COMPATIBLE_NMI_4SWITCH, in_state. rewrite (fc_curr _ _ F). by destruct sub. }
    erewrite bind_ok by done. cbn [Z.eqb]. by erewrite bind_ok by done.
Qed.
End runs.
