(* ===== verification/NatHybridOps.v ===== *)
(** * The client's operations in the hybrid states

    Addition, deletion and time stamps through the handle maps, against the map [S]
    of [NatHybrid]: the client's handles stay valid while the rules move from table to
    table; what is lost when the kernel refuses a deletion, or when a new rule gets a
    handle that is still in use. *)

From Stdlib Require Import ZArith Lia Ascii String.
From stdpp Require Import prelude gmap list numbers strings.
From S2P Require Import Prelude CFloat Chain Bitfield IpaTable IpaTableRep TableDma TableWalk RuleTable Os NatUtils.
From S2P Require Import MemDescriptor NatMap NatRule NatRuleLaws NatDrvi NatStatemach NatDrv NatSmLaws NatSmStates NatSmStatus.
From S2P Require Import NatTables NatDrviProps NatDrviDel NatApi NatTblApi NatRefine NatSmDdr NatHandles NatMigrate NatHybrid.

Local Open Scope Z_scope.

Section ops.
Context {K : Type} `{Os : OsOps K} `{NOs : !NatOs K} `{NL : !NatOsLaws} `{U : IpaUapi} `{UL : !IpaUapiLaws}.
Context {W : Type} (Hw : mutexes_work (K := K)) (Hf : focus_works (K := K)).
Implicit Types (x : smach W) (g : nat_globals) (k : K).
#[local] Notation sm_args := (sm_args (K := K) (W := W)).

(** ** The table in focus after an operation on it *)
(** The state with the maps and the count of the table of [sub]. *)
Definition with_focus x (sub : mem_sub) (o2n n2o : gmap Z Z) (c : client W) : smach W :=
  mk_sm (set_tot_rules (sm_obj x) sub (u32 (Z.of_nat (size o2n)))) (put_maps (sm_maps x) sub o2n n2o)
    (nat_mutex_init x) c.

Lemma hybrid_update x g sub S a n' g1 o2n n2o S' c :
  hybrid_at x g sub S -> serves x g sub a S -> ipv4_nat_cache g1 = ipv4_nat_cache g -> pdns g1 = pdns g ->
  mem_desc n' = mem_desc (p_tbl a) -> nat_ok n' -> same_shape (table (p_tbl a)) (table n') ->
  tracks (store_of (table n')) o2n n2o ->
  (forall i r, rules_of (table n') i = Some r -> settled (pdns g) r) ->
  (forall o, S' o = client_view (store_of (table n')) o2n o) ->
  hybrid_at (with_focus x sub o2n n2o c) (with_table g1 (sub_nmi sub) (p_hdl a) (p_cache a) n') sub S'.
Proof.
  intros [F Hp _ [b Hb]] Va Hg Hpd Hmd Hok Hsh HT Hs Hv.
  assert (Hne : sub <> sub_other sub) by (by destruct sub).
  split; [by destruct F|by cbn; rewrite Hpd| |].
  - exists (mk_place (p_tbl_hdl a) (p_hdl a) (set_tbls (p_cache a) (zset (ip4_tbl (p_cache a)) (p_hdl a - 1) n')) n'
      (p_desc a) o2n n2o).
    destruct (sv_holds Va) as [R Hnmi ? ? Hobj Hmaps]. split; [split| | | |]; cbn [p_tbl_hdl p_hdl p_cache p_tbl p_desc p_o2n p_n2o]; try done.
    + by apply (ready_with_table g _ _ _ _ _ (p_tbl a)).
    + destruct Hsh as (? & ? & ? & ? & ->). exact Hnmi.
    + by eapply put_maps_at.
    + cbn. by rewrite Hpd.
    + apply tot_of_tot.
  - exists b. destruct Hb as [R ? ? ? Hobj Hmaps]. split; try done.
    + apply (ready_other g); [done|done|]. destruct sub; done.
    + by apply put_maps_other.
Qed.

Lemma open_with_table g nmi hdl c n' : zget (ipv4_nat_cache g) nmi = Some c -> sram_open g ->
  sram_open (with_table g nmi hdl c n').
Proof.
  intros Hc (c' & d & Hc' & Hd). unfold sram_open. cbn [with_table set_caches ipv4_nat_cache].
  destruct (decide (nmi = IPA_NAT_MEM_IN_SRAM)) as [->|Hne].
  - eexists _, d. split; [apply zget_zset_eq; by eapply zget_Some_lt|]. cbn. congruence.
  - exists c', d. by rewrite zget_zset_ne.
Qed.

(** The client's handle of a rule in force. *)
Lemma served_rule x g sub a S o r : serves x g sub a S -> S o = Some r ->
  exists i, p_o2n a !! o = Some (MakeEntryHdl (table (p_tbl a)) i) /\
    p_n2o a !! MakeEntryHdl (table (p_tbl a)) i = Some o /\
    0 <= i < tot_tbl_ents (table (p_tbl a)) /\ rules_of (table (p_tbl a)) i = Some r.
Proof.
  intros V. rewrite (sv_view V). intros (h & Ho & Hr)%view_some.
  destruct (store_of_inv _ _ _ Hr) as (i & Hi & -> & Hri). exists i. split_and!; try done; [|lia..].
  by apply (tk_inv _ _ _ (sv_tracks V)).
Qed.

Lemma served_none x g sub a S o : serves x g sub a S -> S o = None -> p_o2n a !! o = None.
Proof.
  intros V Ho. apply eq_None_not_Some. intros [h Hh].
  destruct (tracks_rule _ _ _ (sv_tracks V) _ _ Hh) as (r & _ & Hr). rewrite <- (sv_view V), Ho in Hr. done.
Qed.

Lemma current_hdl_focus x sub : focused x sub ->
  current_hdl (sm_obj x) (hdl_of SRAM_SUB (sm_obj x)) = hdl_of sub (sm_obj x).
Proof. intros [Hc _ _]. unfold current_hdl, in_state. rewrite Hc. by destruct sub. Qed.

(** The client's table handle is the SRAM table's. *)
Lemma hybrid_valid x g sub S : hybrid_at x g sub S -> VALID_TBL_HDL (hdl_of SRAM_SUB (sm_obj x)) = true.
Proof.
  intros [_ _ [a Ha%sv_holds] [b Hb]]. destruct sub.
  - cbn [sub_other] in Hb. rewrite (hd_obj Hb). apply (hd_valid Hb).
  - rewrite (hd_obj Ha). apply (hd_valid Ha).
Qed.

(** ** Deletion *)
(** The client's handle [o] is in no map, its rule is still in force. *)
Definition stranded x g (sub : mem_sub) (o : Z) (r : ipa_nat_rule) : Prop :=
  exists hdl c n i o2n n2o, table_at g (sub_nmi sub) hdl c n /\ rules_of (table n) i = Some r /\
    maps_at (sm_maps x) sub o2n n2o /\ o2n !! o = None.

Definition unmapped x (sub : mem_sub) (a : place) (o h : Z) : smach W :=
  with_maps x (put_maps (sm_maps x) sub (delete o (p_o2n a)) (delete h (p_n2o a))).

Lemma count_focus x (d : nat_globals * K) sub by_ : focused x sub ->
  count_rules by_ (x, d) =
    Ok (tt, (mk_sm (set_tot_rules (sm_obj x) sub (u32 (sub_get (tot_rules_in_table (sm_obj x)) sub + by_)))
               (sm_maps x) (nat_mutex_init x) (sm_client x), d)).
Proof. intros F. unfold count_rules, mod_obj. by rewrite (proj2 (focused_hybrid _ _ F)). Qed.

Definition less_one x (sub : mem_sub) : Z := u32 (sub_get (tot_rules_in_table (sm_obj x)) sub + -1).

Lemma count_less x g sub a S o h : serves x g sub a S -> p_o2n a !! o = Some h ->
  less_one x sub = u32 (Z.of_nat (size (delete o (p_o2n a)))).
Proof.
  intros V Ho. unfold less_one. rewrite (sv_count V). rewrite map_size_delete_Some by (by eexists).
  assert (size (p_o2n a) <> 0%nat) by (intros E%map_size_empty_inv; rewrite E in Ho; by rewrite lookup_empty in Ho).
  unfold wrap. rewrite Z.add_mod_idemp_l by done. f_equal. lia.
Qed.

(** What is left of the deletion after the rule of the table in focus. *)
Definition del_tail (sm : ipa_nati_trigger -> sm_args -> St (smach W * (nat_globals * K)) Z) (st : Z) :
    St (smach W * (nat_globals * K)) Z :=
  o ← get_obj; if (st =? 0) && in_state o NATI_STATE_HYBRID_DDR then back_to_sram sm else mret st.

Lemma del_focus_run sm x g k sub S o r : hybrid_at x g sub S -> S o = Some r ->
  exists st x' g' k',
    _smDelRuleHybrid sm (ArgsRuleHdl (hdl_of SRAM_SUB (sm_obj x)) o) (x, (g, k)) = del_tail sm st (x', (g', k')) /\
    pdns g' = pdns g /\ Hash_token g' = Hash_token g /\ sram_open g' /\
    if st =? 0 then hybrid_at x' g' sub (store_put S o None) /\
      x' = mk_sm (set_tot_rules (sm_obj x) sub (less_one x sub)) (sm_maps x') (nat_mutex_init x) (sm_client x)
    else stranded x' g' sub o r /\ x' = with_maps x (sm_maps x').
Proof.
  intros H Ho. pose proof (hy_focus H) as F. destruct (hy_serves H) as [a Va].
  destruct (served_rule _ _ _ _ _ _ _ Va Ho) as (i & Hon & Hno & Hi & Hr).
  set (h := MakeEntryHdl (table (p_tbl a)) i) in *.
  destruct (del_rule_api g k _ _ _ _ _ _ i (hd_ready (sv_holds Va)) ltac:(by eexists) ltac:(apply lock_works, Hw))
    as (st & n' & k1 & Hrun & Hpub & Hmd & Hout).
  cbv zeta in Hrun. rewrite unlock_works in Hrun by exact Hw. cbn [negb Z.eqb] in Hrun. fold h in Hrun.
  set (x1 := unmapped x sub a o h).
  set (g1 := with_table g (sub_nmi sub) (p_hdl a) (p_cache a) n') in *.
  destruct (hd_maps (sv_holds Va)) as [Hma Hmb].
  assert (F1 : focused x1 sub) by (by destruct F).
  set (x2 := if st =? 0 then
    mk_sm (set_tot_rules (sm_obj x1) sub (u32 (sub_get (tot_rules_in_table (sm_obj x1)) sub + -1)))
      (sm_maps x1) (nat_mutex_init x1) (sm_client x1) else x1).
  exists st, x2, g1, (unlocked_k k1). split; [|split; [done|split; [done|split; [|]]]].
  - unfold _smDelRuleHybrid. erewrite bind_ok by done. cbv zeta. cbn [fst].
    rewrite (proj2 (focused_hybrid _ _ F)).
    erewrite bind_ok. 2: { etrans; [by eapply (map_del_run _ _ _ _ _ (o2n_valid sub))|]. rewrite Hon. reflexivity. }
    cbn [Z.eqb]. erewrite bind_ok by (by apply lift_run).
    erewrite bind_ok. 2: { etrans; [eapply (map_del_run (with_maps _ _) _ _ _ (p_n2o a) (n2o_valid sub))|].
      - cbn. by rewrite zget_zset_ne by apply o2n_n2o_ne.
      - rewrite Hno. reflexivity. }
    fold (put_maps (sm_maps x) sub (delete o (p_o2n a)) (delete h (p_n2o a))).
    change (with_maps (with_maps x _) _) with x1.
    erewrite bind_ok; [reflexivity|]. unfold _smDelRuleFromTbl.
    erewrite bind_ok. 2: { apply drv_run. rewrite (current_hdl_focus _ _ F), (hd_obj (sv_holds Va)). exact Hrun. }
    unfold x2. destruct (st =? 0); [erewrite bind_ok by (by apply count_focus); done|by erewrite bind_ok by done].
  - eapply open_with_table, hybrid_open, H. apply (rd_at _ _ _ _ _ _ _ (hd_ready (sv_holds Va))).
  - unfold x2. destruct (st =? 0) eqn:E; zify_bool.
    + destruct Hout as [(_ & Hok & Hsh & _ & Hupd)|(-> & _)]; [|done]. split; [|done].
      pose proof (ready_geometry _ _ _ _ _ _ _ (hd_ready (sv_holds Va))) as G.
      destruct (tracks_del _ _ _ (sv_tracks Va) _ _ Hon) as [HT Hv].
      assert (Hst : forall h', store_of (table n') h' = store_put (store_of (table (p_tbl a))) h None h')
        by (by apply store_of_update).
      change (u32 (sub_get (tot_rules_in_table (sm_obj x1)) sub + -1)) with (less_one x sub).
      rewrite (count_less _ _ _ _ _ _ _ Va Hon).
      apply (hybrid_update x g sub S a n' g _ _ _ (sm_client x) H Va); try done.
      * by eapply tracks_ext.
      * intros q r'. rewrite Hupd. case_decide; [done|]. apply (sv_settled Va).
      * intros o'. rewrite (view_ext _ _ _ _ Hst), Hv. unfold store_put. by rewrite (sv_view Va).
    + destruct Hout as [(? & _)|(_ & _ & Hsame & _)]; [done|]. split; [|done].
      eexists _, _, n', i, _, _. split; [by eapply with_table_at, (rd_at _ _ _ _ _ _ _ (hd_ready (sv_holds Va)))|].
      split; [by rewrite Hsame|]. split; [by eapply put_maps_at|]. apply lookup_delete_eq.
Qed.

(** The machine goes back to SRAM. *)
Definition goes_back x (sub : mem_sub) : bool :=
  match sub with
  | DDR_SUB => (less_one x DDR_SUB <=? back_to_sram_thresh (sm_obj x)) && negb (hold_state (sm_obj x))
  | SRAM_SUB => false
  end.

Lemma refocus_same x g sub S : hybrid_at x g sub S -> hybrid_at (moved_to sub x) g sub S.
Proof.
  intros [[Hc ? ?] ? [a Va] [b Hb]]. split; [split|done| |].
  - by destruct sub.
  - cbn. rewrite Hc. by destruct sub.
  - done.
  - exists a. by eapply serves_same; [..|exact Va].
  - exists b. by eapply holds_same; [..|exact Hb].
Qed.

(** The rules copied to the other table, the counter [x] had before. *)
Definition copied_from x (src : mem_sub) (S : nat_store) x' g' : Prop :=
  exists S', hybrid_at x' g' (sub_other src) S' /\ store_sub S' S /\
    (fails_of src x' = fails_of src x -> store_eq S' S).

Lemma focus_switched x g src S x' g' :
  (exists S', switched x g src S x' g' S') \/ not_switched x g src S x' g' -> copied_from x src S x' g'.
Proof.
  intros [[S' Hs]|[[?|?] ? ?]]; [|by destruct (proj1 Hf)|by destruct (proj2 Hf)].
  exists S'. destruct Hs. done.
Qed.

Definition del_result x g (sub : mem_sub) (S : nat_store) (o : Z) (r : ipa_nat_rule) x' g' : Prop :=
  (if goes_back x sub then copied_from x sub (store_put S o None) x' g'
   else hybrid_at x' g' sub (store_put S o None)) \/ stranded x' g' sub o r.

Lemma back_to_sram_run n x g k S : hybrid_at x g DDR_SUB S -> token_room g ->
  exists x' g' k', back_to_sram (ipa_nati_statemach (Datatypes.S (Datatypes.S n))) (x, (g, k)) = Ok (0, (x', (g', k'))) /\
    same_session x g x' g' /\ Hash_token g <= Hash_token g' <= Hash_token g + 2 ^ 14 /\ sram_open g' /\
    if (sub_get (tot_rules_in_table (sm_obj x)) DDR_SUB <=? back_to_sram_thresh (sm_obj x)) && negb (hold_state (sm_obj x))
    then copied_from x DDR_SUB S x' g' else hybrid_at x' g' DDR_SUB S.
Proof.
  intros H Ht. unfold back_to_sram. erewrite bind_ok by done. cbn [fst].
  rewrite (proj2 (focused_hybrid _ _ (hy_focus H))). destruct (_ && _).
  2: { exists x, g, k. split; [done|]. split; [done|]. split; [lia|]. split; [by eapply hybrid_open|done]. }
  destruct (switch_run Hw n x g k DDR_SUB S H Ht) as (x1 & g1 & k1 & Hrun & Hss & Htok & Hout%focus_switched).
  erewrite bind_ok by exact Hrun. cbn [Z.eqb]. erewrite bind_ok by done.
  exists (moved_to SRAM_SUB x1), g1, k1. split; [done|]. split; [by destruct Hss|]. split; [done|].
  destruct Hout as (S' & H' & Hsub & Hall). split; [by eapply hybrid_open|].
  exists S'. split; [by apply refocus_same|]. done.
Qed.

Lemma del_tail_run n x g k sub S st : hybrid_at x g sub S -> token_room g ->
  exists r x' g' k', del_tail (ipa_nati_statemach (Datatypes.S (Datatypes.S n))) st (x, (g, k)) = Ok (r, (x', (g', k'))) /\
    same_session x g x' g' /\ Hash_token g <= Hash_token g' <= Hash_token g + 2 ^ 14 /\ sram_open g' /\
    if (st =? 0) && bool_decide (curr_state (sm_obj x) = NATI_STATE_HYBRID_DDR) &&
       ((sub_get (tot_rules_in_table (sm_obj x)) DDR_SUB <=? back_to_sram_thresh (sm_obj x)) && negb (hold_state (sm_obj x)))
    then copied_from x sub S x' g' else hybrid_at x' g' sub S.
Proof.
  intros H Ht. pose proof (fc_curr _ _ (hy_focus H)) as Hc. unfold del_tail. erewrite bind_ok by done. cbn [fst].
  unfold in_state. rewrite Hc. destruct (_ && bool_decide _) eqn:E.
  - apply andb_prop in E as [_ E%bool_decide_eq_true]. destruct sub; [|done].
    destruct (back_to_sram_run n x g k S H Ht) as (x' & g' & k' & Hrun & Hout).
    exists 0, x', g', k'. split; [exact Hrun|]. exact Hout.
  - exists st, x, g, k. split; [done|]. split; [done|]. split; [lia|]. split; [by eapply hybrid_open|done].
Qed.

Lemma hybrid_del_callback n x g k sub S o r : hybrid_at x g sub S -> token_room g -> S o = Some r ->
  exists st x' g' k',
    _smDelRuleHybrid (ipa_nati_statemach (Datatypes.S (Datatypes.S n)))
      (ArgsRuleHdl (hdl_of SRAM_SUB (sm_obj x)) o) (x, (g, k)) = Ok (st, (x', (g', k'))) /\
    sram_open g' /\ same_session x g x' g' /\ Hash_token g <= Hash_token g' <= Hash_token g + 2 ^ 14 /\
    del_result x g sub S o r x' g'.
Proof.
  intros H Ht Ho. pose proof (fc_curr _ _ (hy_focus H)) as Hc.
  destruct (del_focus_run (ipa_nati_statemach (Datatypes.S (Datatypes.S n))) x g k sub S o r H Ho)
    as (st & x1 & g1 & k1 & Hrun & Hp & Htok & Hopen & Hcase).
  rewrite Hrun. destruct (st =? 0) eqn:E.
  - destruct Hcase as [H1 Hx1].
    destruct (del_tail_run n x1 g1 k1 sub _ st H1 ltac:(unfold token_room in *; by rewrite Htok))
      as (r' & x' & g' & k' & Hrun' & Hss & Htok' & Hopen' & Hout).
    exists r', x', g', k'. split; [exact Hrun'|]. split; [done|]. split.
    { destruct Hss as [? Hh ? ? ?]. split; try (etrans; [eassumption|]); try (rewrite Hx1; done); try done.
      intros sub'. rewrite Hh, Hx1. apply hdl_of_tot. }
    split; [by rewrite <- Htok|]. left. rewrite E in Hout. cbn [andb] in Hout.
    unfold goes_back, copied_from, fails_of in *. rewrite Hx1 in Hout.
    cbn [sm_obj curr_state hold_state back_to_sram_thresh set_tot_rules] in Hout. rewrite Hc in Hout.
    destruct sub; cbn [focus_state] in Hout.
    + rewrite bool_decide_true in Hout by done. cbn [andb] in Hout.
      change (sub_get (tot_rules_in_table _) DDR_SUB) with (less_one x DDR_SUB) in Hout. exact Hout.
    + exact Hout.
  - destruct Hcase as [Hs Hx1]. exists st, x1, g1, k1. split; [unfold del_tail; by rewrite E|].
    split; [done|]. split; [by rewrite Hx1|]. split; [lia|]. by right.
Qed.

Lemma entered_run n t (args : sm_args) x g k (R : smach W -> nat_globals -> Prop) :
  nat_mutex_init x = true -> sram_open g ->
  (forall k1, exists r x' g' k', _state_mach_tbl (ipa_nati_statemach n) (curr_state (sm_obj x)) t args (x, (g, k1)) =
     Ok (r, (x', (g', k'))) /\ sram_open g' /\ R x' g') ->
  exists x' g' k', ipa_nati_statemach (Datatypes.S n) t args (x, (g, k)) = Ok (0, (x', (g', k'))) /\ R x' g'.
Proof.
  intros Hi Ho Hcb. destruct (entry_run Hw n t args x g k R Hi Ho Hcb) as (x' & g' & k' & Hrun & Hout).
  exists x', g', k'. split; [done|]. destruct Hout as [?|[? _]]; [done|by destruct (proj1 Hf)].
Qed.

Lemma hybrid_del_run x g k sub S o r : hybrid_at x g sub S -> token_room g -> S o = Some r ->
  VALID_RULE_HDL o = true ->
  exists x' g' k', ipa_nat_del_ipv4_rule (hdl_of SRAM_SUB (sm_obj x)) o (x, (g, k)) = Ok (0, (x', (g', k'))) /\
    same_session x g x' g' /\ Hash_token g <= Hash_token g' <= Hash_token g + 2 ^ 14 /\
    del_result x g sub S o r x' g'.
Proof.
  intros H Ht Ho Hv. unfold ipa_nat_del_ipv4_rule. rewrite (hybrid_valid _ _ _ _ H), Hv. cbn [negb orb].
  destruct (entered_run 2 NATI_TRIG_DEL_RULE (ArgsRuleHdl (hdl_of SRAM_SUB (sm_obj x)) o) x g k (fun x' g' =>
    same_session x g x' g' /\ Hash_token g <= Hash_token g' <= Hash_token g + 2 ^ 14 /\
    del_result x g sub S o r x' g')) as (x' & g' & k' & Hrun & Hout); [apply H|by eapply hybrid_open| |].
  - intros k1. destruct (hybrid_del_callback 0 x g k1 sub S o r H Ht Ho) as (st & x' & g' & k' & Hrun & Hout).
    exists st, x', g', k'. split; [|exact Hout]. rewrite (fc_curr _ _ (hy_focus H)). destruct sub; exact Hrun.
  - exists x', g', k'. split; [|done]. unfold ipa_nati_del_ipv4_rule, statemach, STATEMACH_DEPTH.
    by erewrite bind_ok by exact Hrun.
Qed.

(** A handle the client does not have. *)
Lemma hybrid_del_unknown_run x g k sub S o : hybrid_at x g sub S -> S o = None -> VALID_RULE_HDL o = true ->
  exists k', ipa_nat_del_ipv4_rule (hdl_of SRAM_SUB (sm_obj x)) o (x, (g, k)) = Ok (0, (x, (g, k'))).
Proof.
  intros H Ho Hv. pose proof (hy_focus H) as F. destruct (hy_serves H) as [a Va].
  destruct (hd_maps (sv_holds Va)) as [Hma _].
  destruct (entered_run 2 NATI_TRIG_DEL_RULE (ArgsRuleHdl (hdl_of SRAM_SUB (sm_obj x)) o) x g k
    (fun x' g' => x' = x /\ g' = g)) as (x' & g' & k' & Hrun & -> & ->); [apply H|by eapply hybrid_open| |].
  - intros k1. exists (-1), x, g, k1. split; [|by split; [eapply hybrid_open|]].
    assert (Hcb : _smDelRuleHybrid (ipa_nati_statemach 2) (ArgsRuleHdl (hdl_of SRAM_SUB (sm_obj x)) o) (x, (g, k1)) =
      Ok (-1, (x, (g, k1)))).
    { unfold _smDelRuleHybrid. erewrite bind_ok by done. cbv zeta. cbn [fst]. rewrite (proj2 (focused_hybrid _ _ F)).
      erewrite bind_ok; [|etrans; [by eapply (map_del_run _ _ _ _ _ (o2n_valid sub))|]];
        [|by rewrite (served_none _ _ _ _ _ _ Va Ho)]. done. }
    rewrite (fc_curr _ _ F). destruct sub; exact Hcb.
  - exists k'. unfold ipa_nat_del_ipv4_rule. rewrite (hybrid_valid _ _ _ _ H), Hv. cbn [negb orb].
    unfold ipa_nati_del_ipv4_rule, statemach, STATEMACH_DEPTH. by erewrite bind_ok by exact Hrun.
Qed.

(** ** Addition *)
(** The client's handle [h] leads to a rule other than [r], which was added under it. *)
Definition collided x g (sub : mem_sub) (h : Z) (r : ipa_nat_rule) : Prop :=
  exists hdl c n i o2n n2o h', table_at g (sub_nmi sub) hdl c n /\ rules_of (table n) i = Some r /\
    h = MakeEntryHdl (table n) i /\ maps_at (sm_maps x) sub o2n n2o /\ o2n !! h = Some h' /\ h' <> h.

(** The handle written for the client tells what became of the rule. *)
Definition attempt (S : nat_store) (sub : mem_sub) (r : ipa_nat_rule) x' g' : Prop :=
  let h := cl_rule_hdl (sm_client x') in
  (h <> 0 /\ S h = None /\ hybrid_at x' g' sub (store_put S h (Some r))) \/
  (h <> 0 /\ is_Some (S h) /\ collided x' g' sub h r) \/
  (h = 0 /\ hybrid_at x' g' sub S).

(** What an addition keeps. *)
Record same_owner x g (u : ipa_nat_ipv4_rule) x' g' : Prop := {
  so_hold : hold_state (sm_obj x') = hold_state (sm_obj x);
  so_hdls : forall sub, hdl_of sub (sm_obj x') = hdl_of sub (sm_obj x);
  so_rule : cl_rule (sm_client x') = u;
  so_pdns : pdns g' = pdns g;
  so_open : sram_open g' }.

Definition add_tail (sm : ipa_nati_trigger -> sm_args -> St (smach W * (nat_globals * K)) Z)
    (args : sm_args) (st : Z) : St (smach W * (nat_globals * K)) Z :=
  o ← get_obj;
  if in_state o NATI_STATE_HYBRID && negb (hold_state o) then
    ret ← sm NATI_TRIG_TBL_SWITCH ArgsNone;
    if ret =? 0 then
      _ ← mod_obj (fun o => SET_NATIOBJ_STATE o NATI_STATE_HYBRID_DDR);
      sm NATI_TRIG_ADD_RULE args
    else mret ret
  else mret st.

(** The state with the client's rule cleaned and the handle written. *)
Definition answered x (h : Z) : smach W :=
  mk_sm (sm_obj x) (sm_maps x) (nat_mutex_init x)
    (put_rule_hdl h (put_rule (clear_rule_flags (cl_rule (sm_client x))) (sm_client x))).

Lemma add_to_tbl_run x g k tbl_hdl nmi hdl c n desc pdn sub :
  let u := clear_rule_flags (cl_rule (sm_client x)) in
  focused x sub -> ready g tbl_hdl nmi hdl c n desc -> VALID_TBL_HDL tbl_hdl = true ->
  acceptable g u pdn -> public_ip pdn <> 0 -> 0 <= Hash_token g < 2 ^ 31 - 2 ^ 17 - 1 ->
  exists st h n' g1 k1,
    _smAddRuleToTbl (ArgsRule tbl_hdl) (x, (g, k)) =
      Ok (st, (if st =? 0
               then mk_sm (set_tot_rules (sm_obj x) sub (u32 (sub_get (tot_rules_in_table (sm_obj x)) sub + 1)))
                      (sm_maps x) (nat_mutex_init x) (sm_client (answered x (default 0 h)))
               else answered x 0, (with_table g1 nmi hdl c n', k1))) /\
    retokened g g1 /\ add_outcome pdn u n n' st h.
Proof.
  intros u F R Hv Hacc Hip Htok.
  destruct (add_rule_api g k tbl_hdl nmi hdl c n desc u pdn)
    as (st & h & n' & g1 & k1 & Hrun & Hg1 & Hout); try done; [apply lock_works, Hw|].
  cbv zeta in Hrun. rewrite unlock_works in Hrun by exact Hw. cbn [negb Z.eqb] in Hrun.
  exists st, h, n', g1, (unlocked_k k1). split; [|done].
  unfold _smAddRuleToTbl. erewrite bind_ok by done. erewrite bind_ok by done.
  cbn [fst sm_client cl_rule put_rule]. erewrite bind_ok by (apply drv_run; exact Hrun).
  destruct Hout as (_ & _ & _ & _ & _ & [(-> & new & -> & _)|(Hst & -> & _)]).
  - cbn [negb Z.eqb]. cbv iota. erewrite bind_ok by done. cbn [Z.eqb].
    erewrite bind_ok by (apply count_focus; by destruct F). done.
  - rewrite (proj2 (Z.eqb_neq st 0)) by done. cbn [negb]. cbv iota. erewrite bind_ok by done.
    rewrite (proj2 (Z.eqb_neq st 0)) by done. by erewrite bind_ok by done.
Qed.

Lemma count_more x g sub a S o h : serves x g sub a S -> p_o2n a !! o = None ->
  u32 (sub_get (tot_rules_in_table (sm_obj x)) sub + 1) = u32 (Z.of_nat (size (<[o := h]> (p_o2n a)))).
Proof.
  intros V Ho. rewrite (sv_count V), map_size_insert_None by done.
  unfold wrap. rewrite Z.add_mod_idemp_l by done. f_equal. lia.
Qed.

(** The end of a successful addition: the handle goes to the maps. *)
Definition map_handle (sub : mem_sub) (h : Z) : St (smach W * (nat_globals * K)) Z :=
  ret ← map_add (o2n_of sub) h h;
  if ret =? 0 then map_add (n2o_of sub) h h else mret ret.

Lemma map_handle_run x (d : nat_globals * K) sub o2n n2o h : maps_at (sm_maps x) sub o2n n2o -> n2o !! h = None ->
  exists r, map_handle sub h (x, d) =
    Ok (r, (if decide (o2n !! h = None)
            then with_maps x (put_maps (sm_maps x) sub (<[h := h]> o2n) (<[h := h]> n2o)) else x, d)).
Proof.
  intros [Ha Hb] Hh. unfold map_handle.
  pose proof (map_add_run x d _ h h o2n (o2n_valid sub) Ha) as Hadd. case_decide as E.
  - exists 0. erewrite bind_ok by exact Hadd. cbn [Z.eqb].
    rewrite (map_add_run _ _ _ _ _ n2o (n2o_valid sub)).
    + by rewrite decide_True.
    + cbn. by rewrite zget_zset_ne by apply o2n_n2o_ne.
  - exists (-1). by erewrite bind_ok by exact Hadd.
Qed.

(** The rule is in the table, at the handle [h] of a slot that was free. *)
Lemma attempt_made x g sub S a n' g1 new r c :
  hybrid_at x g sub S -> serves x g sub a S -> ipv4_nat_cache g1 = ipv4_nat_cache g -> pdns g1 = pdns g ->
  mem_desc n' = mem_desc (p_tbl a) -> nat_ok n' -> same_shape (table (p_tbl a)) (table n') ->
  0 < new < tot_tbl_ents (table (p_tbl a)) -> rules_of (table (p_tbl a)) new = None ->
  (forall i, rules_of (table n') i = if decide (i = new) then Some r else rules_of (table (p_tbl a)) i) ->
  settled (pdns g) r -> let h := MakeEntryHdl (table (p_tbl a)) new in cl_rule_hdl c = h ->
  let x1 := mk_sm (set_tot_rules (sm_obj x) sub (u32 (sub_get (tot_rules_in_table (sm_obj x)) sub + 1)))
              (sm_maps x) (nat_mutex_init x) c in
  h <> 0 /\ p_n2o a !! h = None /\
  attempt S sub r
    (if decide (p_o2n a !! h = None)
     then with_maps x1 (put_maps (sm_maps x1) sub (<[h := h]> (p_o2n a)) (<[h := h]> (p_n2o a))) else x1)
    (with_table g1 (sub_nmi sub) (p_hdl a) (p_cache a) n').
Proof.
  intros H Va Hg Hp Hmd Hok Hsh Hnew Hfree Hupd Hset h Hc x1.
  pose proof (ready_geometry _ _ _ _ _ _ _ (hd_ready (sv_holds Va))) as G.
  assert (Hsf : store_of (table (p_tbl a)) h = None) by (unfold h; by rewrite store_of_hdl by (done || lia)).
  assert (Hh0 : h <> 0).
  { apply Z.eqb_neq. apply (make_hdl_nonzero _ _ G Hnew). }
  assert (HhN : p_n2o a !! h = None).
  { apply eq_None_not_Some. intros Hn%(tk_store _ _ _ (sv_tracks Va)). rewrite Hsf in Hn. by destruct Hn. }
  split; [exact Hh0|]. split; [exact HhN|]. unfold attempt. case_decide as Ho.
  - left. cbn [sm_client with_maps x1]. rewrite Hc. split; [exact Hh0|]. split.
    { rewrite (sv_view Va). unfold client_view. by rewrite Ho. }
    destruct (tracks_add _ _ _ (sv_tracks Va) h h r Ho Hsf) as (_ & HT & Hview).
    assert (Hst : forall h', store_of (table n') h' = store_put (store_of (table (p_tbl a))) h (Some r) h')
      by (apply store_of_update; [done|done|lia|done]).
    unfold with_maps, x1. cbn [sm_obj sm_maps nat_mutex_init sm_client]. rewrite (count_more _ _ _ _ _ h h Va Ho).
    apply (hybrid_update x g sub S a n' g1 _ _ _ c H Va); try done.
    + by eapply tracks_ext.
    + intros i r'. rewrite Hupd. case_decide; [by intros [= <-]|apply (sv_settled Va)].
    + intros o'. rewrite (view_ext _ _ _ _ Hst), Hview. unfold store_put. by rewrite (sv_view Va).
  - right. left. cbn [sm_client x1]. rewrite Hc. split; [exact Hh0|].
    destruct (p_o2n a !! h) as [h'|] eqn:E; [|done]. destruct (tracks_rule _ _ _ (sv_tracks Va) _ _ E) as (r' & _ & Hv').
    rewrite (sv_view Va). split; [by eexists|].
    eexists _, _, n', new, _, _, h'. split.
    { eapply with_table_at. destruct (rd_at _ _ _ _ _ _ _ (hd_ready (sv_holds Va))) as [? ?].
      split; [by rewrite Hg|done]. }
    split; [by rewrite Hupd, decide_True|]. split; [by destruct Hsh as (? & ? & ? & ? & ->)|].
    split; [apply (hd_maps (sv_holds Va))|]. split; [done|]. intros ->.
    apply (tk_inv _ _ _ (sv_tracks Va)) in E. congruence.
Qed.

Lemma attempt_refused x g sub S a n' g1 r :
  hybrid_at x g sub S -> serves x g sub a S -> ipv4_nat_cache g1 = ipv4_nat_cache g -> pdns g1 = pdns g ->
  mem_desc n' = mem_desc (p_tbl a) -> nat_ok n' -> same_shape (table (p_tbl a)) (table n') ->
  (forall i, rules_of (table n') i = rules_of (table (p_tbl a)) i) ->
  attempt S sub r (answered x 0) (with_table g1 (sub_nmi sub) (p_hdl a) (p_cache a) n').
Proof.
  intros H Va Hg Hp Hmd Hok Hsh Hsame. right. right. split; [done|].
  assert (Hst : forall h, store_of (table n') h = store_of (table (p_tbl a)) h) by (by apply store_of_shape).
  pose proof (hybrid_update x g sub S a n' g1 (p_o2n a) (p_n2o a) S (sm_client (answered x 0)) H Va Hg Hp Hmd Hok Hsh)
    as Hu.
  assert (Hx : with_focus x sub (p_o2n a) (p_n2o a) (sm_client (answered x 0)) = answered x 0).
  { unfold with_focus, answered. rewrite <- (sv_count Va). cbn [sm_client]. f_equal.
    - destruct (sm_obj x) as [? ? ? ? ? ? ? ? [? ?] ?]. by destruct sub.
    - by apply put_maps_same, (sv_holds Va). }
  rewrite Hx in Hu. apply Hu.
  - eapply tracks_ext; [done|apply (sv_tracks Va)].
  - intros i r'. rewrite Hsame. apply (sv_settled Va).
  - intros o. rewrite (view_ext _ _ _ _ Hst). apply (sv_view Va).
Qed.

Lemma add_focus_run sm x g k sub S pdn :
  let u := clear_rule_flags (cl_rule (sm_client x)) in
  let args := ArgsRule (hdl_of SRAM_SUB (sm_obj x)) in
  hybrid_at x g sub S -> acceptable g u pdn -> public_ip pdn <> 0 ->
  0 <= Hash_token g < 2 ^ 31 - 2 ^ 17 - 1 ->
  exists st x' g' k',
    (exists r, _smAddRuleHybrid sm args (x, (g, k)) =
       if st =? 0 then Ok (r, (x', (g', k'))) else add_tail sm args st (x', (g', k'))) /\
    same_owner x g u x' g' /\ Hash_token g <= Hash_token g' <= Hash_token g + 2 /\
    sw_stats (sm_obj x') = sw_stats (sm_obj x) /\
    attempt S sub (rule_in_force pdn u 0) x' g' /\
    (st = 0 <-> cl_rule_hdl (sm_client x') <> 0).
Proof.
  intros u args H Hacc Hip Htok. pose proof (hy_focus H) as F. destruct (hy_serves H) as [a Va].
  pose proof (ready_geometry _ _ _ _ _ _ _ (hd_ready (sv_holds Va))) as G.
  destruct (add_to_tbl_run x g k _ _ _ _ _ _ pdn sub F (hd_ready (sv_holds Va)) (hd_valid (sv_holds Va)) Hacc Hip Htok)
    as (st & h & n' & g1 & k1 & Hrun & (tok & -> & Htk) & Hok & _ & Hmd & Hsh & _ & Hout). fold u in Hout.
  set (g2 := with_table (set_Hash_token g tok) (sub_nmi sub) (p_hdl a) (p_cache a) n') in *.
  assert (Hopen : sram_open g2).
  { eapply open_with_table; [apply (rd_at _ _ _ _ _ _ _ (hd_ready (sv_holds Va)))|]. apply (hybrid_open _ _ _ _ H). }
  assert (Hbegin : forall r s, _smAddRuleToTbl (ArgsRule (hdl_of sub (sm_obj x))) (x, (g, k)) = Ok (r, s) ->
    curr_state (sm_obj (fst s)) = focus_state sub ->
    _smAddRuleHybrid sm args (x, (g, k)) =
      if r =? 0 then map_handle sub (cl_rule_hdl (sm_client (fst s))) s else add_tail sm args r s).
  { intros r s Hr Hc. unfold _smAddRuleHybrid, args. erewrite bind_ok by done. cbn [fst].
    erewrite bind_ok by (rewrite (current_hdl_focus _ _ F); exact Hr). unfold add_tail.
    erewrite bind_ok by done. destruct (r =? 0); [|by erewrite bind_ok by done]. erewrite bind_ok by done.
    unfold CHOOSE_MEM_SUB, in_state. rewrite Hc. by destruct sub. }
  rewrite (hd_obj (sv_holds Va)) in Hbegin. specialize (Hbegin _ _ Hrun).
  destruct Hout as [(-> & new & -> & Hnew & Hfree & Hupd)|(Hst & -> & Hsame)].
  - set (x1 := mk_sm _ _ _ _) in Hbegin. change (default 0 (Some ?h)) with h in *.
    destruct (attempt_made x g sub S a n' (set_Hash_token g tok) new (rule_in_force pdn u 0) (sm_client x1)
      H Va eq_refl eq_refl Hmd Hok Hsh Hnew Hfree Hupd (in_force_settled g u pdn Hacc) eq_refl) as (Hh0 & HhN & Hatt).
    destruct (map_handle_run x1 (g2, k1) sub _ _ _ (hd_maps (sv_holds Va)) HhN) as [r Hmap].
    eexists 0, _, g2, k1. split; [exists r; rewrite Hbegin by apply F; exact Hmap|].
    split; [|split; [exact Htk|split; [by case_decide|split; [exact Hatt|]]]].
    { split; try done; case_decide; done. }
    split; [|done]. intros _. case_decide; exact Hh0.
  - rewrite (proj2 (Z.eqb_neq st 0)) in Hbegin by done.
    exists st, (answered x 0), g2, k1. rewrite (proj2 (Z.eqb_neq st 0)) by done.
    split; [exists 0; apply Hbegin, F|]. split; [done|]. split; [exact Htk|]. split; [done|]. split; [|done].
    by apply (attempt_refused x g).
Qed.

Lemma same_owner_trans x g u x1 g1 x2 g2 : same_owner x g u x1 g1 -> same_owner x1 g1 u x2 g2 ->
  same_owner x g u x2 g2.
Proof. intros [] []. split; try congruence; try done. Qed.

(** In DDR an addition that fails is not made again. *)
Lemma ddr_attempt_run n x g k S pdn :
  let u := clear_rule_flags (cl_rule (sm_client x)) in
  hybrid_at x g DDR_SUB S -> acceptable g u pdn -> public_ip pdn <> 0 ->
  0 <= Hash_token g < 2 ^ 31 - 2 ^ 17 - 1 ->
  exists x' g' k',
    ipa_nati_statemach (Datatypes.S n) NATI_TRIG_ADD_RULE (ArgsRule (hdl_of SRAM_SUB (sm_obj x))) (x, (g, k)) =
      Ok (0, (x', (g', k'))) /\
    same_owner x g u x' g' /\ Hash_token g <= Hash_token g' <= Hash_token g + 2 /\
    sw_stats (sm_obj x') = sw_stats (sm_obj x) /\ attempt S DDR_SUB (rule_in_force pdn u 0) x' g'.
Proof.
  intros u H Hacc Hip Htok. pose proof (fc_curr _ _ (hy_focus H)) as Hc.
  apply entered_run; [apply H|by eapply hybrid_open|]. intros k1.
  destruct (add_focus_run (ipa_nati_statemach n) x g k1 DDR_SUB S pdn H Hacc Hip Htok)
    as (st & x' & g' & k' & [r Hrun] & Hso & Htk & Hsw & Hatt & Href).
  exists (if st =? 0 then r else st), x', g', k'. split; [|split; [apply Hso|done]].
  rewrite Hc. cbn [focus_state _state_mach_tbl]. etrans; [exact Hrun|]. destruct (st =? 0) eqn:E; [done|]. zify_bool.
  unfold add_tail. erewrite bind_ok by done. cbn [fst]. unfold in_state.
  assert (Hc' : curr_state (sm_obj x') = NATI_STATE_HYBRID_DDR).
  { destruct Hatt as [(Hn & _)|[(Hn & _)|(_ & H')]]; [by apply Href in Hn..|]. apply (fc_curr _ _ (hy_focus H')). }
  by rewrite Hc'.
Qed.

(** Either the rule was added, or refused, in the table in focus; or the table in SRAM
    refused it, its rules were copied to DDR and the rule was added, or refused, there. *)
Definition add_result x (sub : mem_sub) (S : nat_store) (r : ipa_nat_rule) x' g' : Prop :=
  (attempt S sub r x' g' /\
    (cl_rule_hdl (sm_client x') = 0 -> sub = SRAM_SUB -> hold_state (sm_obj x) = true)) \/
  (sub = SRAM_SUB /\ hold_state (sm_obj x) = false /\
    exists S1, store_sub S1 S /\ attempt S1 DDR_SUB r x' g' /\
      (fails_of SRAM_SUB x' = fails_of SRAM_SUB x -> store_eq S1 S)).

(** The table in SRAM refused the rule. *)
Lemma full_run n x g k S pdn st :
  let u := clear_rule_flags (cl_rule (sm_client x)) in
  hybrid_at x g SRAM_SUB S -> cl_rule (sm_client x) = u -> acceptable g u pdn -> public_ip pdn <> 0 ->
  token_room g -> hold_state (sm_obj x) = false ->
  exists x' g' k',
    add_tail (ipa_nati_statemach (Datatypes.S (Datatypes.S n))) (ArgsRule (hdl_of SRAM_SUB (sm_obj x))) st (x, (g, k)) =
      Ok (0, (x', (g', k'))) /\
    same_owner x g u x' g' /\ Hash_token g <= Hash_token g' <= Hash_token g + 2 ^ 14 + 2 /\
    exists S1, store_sub S1 S /\ attempt S1 DDR_SUB (rule_in_force pdn u 0) x' g' /\
      (fails_of SRAM_SUB x' = fails_of SRAM_SUB x -> store_eq S1 S).
Proof.
  intros u H Hu Hacc Hip Ht Hh. pose proof (fc_curr _ _ (hy_focus H)) as Hc.
  destruct (switch_run Hw n x g k SRAM_SUB S H Ht) as (x1 & g1 & k1 & Hrun & Hss & Htok & (S1 & H1 & Hsub & Hall)%focus_switched).
  destruct Hss as [Hs1 Hs2 _ Hs3 Hs4].
  destruct (ddr_attempt_run (Datatypes.S n) (moved_to DDR_SUB x1) g1 k1 S1 pdn) as (x' & g' & k' & Hadd & Hso & Htk & Hsw & Hatt).
  { by apply refocus_same. }
  { cbn [sm_client moved_to]. rewrite Hs3. fold u. destruct Hacc as (? & ? & Hget & ? & ?).
    split_and!; try done; by rewrite Hs4. }
  { done. }
  { unfold token_room in Ht. lia. }
  cbn [sm_client moved_to] in Hso, Hatt. rewrite Hs3 in Hso, Hatt. fold u in Hso, Hatt.
  exists x', g', k'. split; [|split; [|split; [lia|]]].
  - unfold add_tail. erewrite bind_ok by done. cbn [fst]. unfold in_state. rewrite Hc, Hh. cbn [focus_state negb].
    rewrite bool_decide_true by done. cbn [andb]. erewrite bind_ok by exact Hrun. cbn [Z.eqb].
    erewrite bind_ok by done. rewrite <- (Hs2 SRAM_SUB). exact Hadd.
  - destruct Hso as [E1 E2 E3 E4 E5]. split; try done; [by rewrite E1| |by rewrite E4].
    intros sub. by rewrite E2, <- Hs2.
  - exists S1. split; [done|]. split; [done|]. intros Hf'. apply Hall. rewrite <- Hf'. unfold fails_of. by rewrite Hsw.
Qed.

Lemma hybrid_add_callback n x g k sub S pdn :
  let u := clear_rule_flags (cl_rule (sm_client x)) in
  hybrid_at x g sub S -> acceptable g u pdn -> public_ip pdn <> 0 -> 0 <= Hash_token g < 2 ^ 30 - 2 ->
  exists st x' g' k',
    _smAddRuleHybrid (ipa_nati_statemach (Datatypes.S (Datatypes.S n)))
      (ArgsRule (hdl_of SRAM_SUB (sm_obj x))) (x, (g, k)) = Ok (st, (x', (g', k'))) /\
    sram_open g' /\ same_owner x g u x' g' /\ Hash_token g <= Hash_token g' <= Hash_token g + 2 ^ 14 + 4 /\
    add_result x sub S (rule_in_force pdn u 0) x' g'.
Proof.
  intros u H Hacc Hip Ht.
  destruct (add_focus_run (ipa_nati_statemach (Datatypes.S (Datatypes.S n))) x g k sub S pdn H Hacc Hip ltac:(lia))
    as (st & x1 & g1 & k1 & [r Hrun] & Hso & Htk & Hsw & Hatt & Href). fold u in Hso, Hatt.
  rewrite Hrun. destruct (st =? 0) eqn:E.
  - exists r, x1, g1, k1. split; [done|]. split; [apply Hso|]. split; [done|]. split; [lia|].
    left. split; [done|]. intros H0. zify_bool. by apply Href in E.
  - zify_bool. assert (H0 : cl_rule_hdl (sm_client x1) = 0).
    { destruct (decide (cl_rule_hdl (sm_client x1) = 0)) as [|Hn]; [done|]. by apply Href in Hn. }
    destruct Hatt as [(Hn & _)|[(Hn & _)|(_ & H1)]]; [done..|]. destruct Hso as [S1 S2 S3 S4 S5].
    destruct (in_state (sm_obj x1) NATI_STATE_HYBRID && negb (hold_state (sm_obj x1))) eqn:Eh.
    + apply andb_prop in Eh as [Hst Hh%negb_true_iff]. unfold in_state in Hst.
      rewrite (fc_curr _ _ (hy_focus H1)) in Hst. destruct sub; [done|]. rewrite S1 in Hh.
      destruct (full_run n x1 g1 k1 S pdn st H1) as (x' & g' & k' & Htail & Hso' & Htk' & Hres); try done.
      { by rewrite S3. }
      { rewrite S3. change (acceptable g1 u pdn). destruct Hacc as (? & ? & ? & ? & ?). split_and!; try done; by rewrite S4. }
      { unfold token_room. lia. }
      { by rewrite S1. }
      rewrite S3 in Hso', Hres. change (clear_rule_flags u) with u in Hso', Hres. rewrite S2 in Htail.
      exists 0, x', g', k'. split; [exact Htail|]. split; [apply Hso'|]. split; [by eapply same_owner_trans|].
      split; [lia|]. right. split; [done|]. split; [done|]. destruct Hres as (T & ? & ? & Hall).
      exists T. split; [done|]. split; [done|]. intros Hf'. apply Hall. rewrite Hf'. unfold fails_of. by rewrite Hsw.
    + exists st, x1, g1, k1. split; [unfold add_tail; erewrite bind_ok by done; cbn [fst]; by rewrite Eh|].
      split; [done|]. split; [done|]. split; [lia|]. left. split; [by right; right|].
      intros _ ->. unfold in_state in Eh. rewrite (fc_curr _ _ (hy_focus H1)) in Eh.
      cbn [focus_state] in Eh. rewrite bool_decide_true in Eh by done. rewrite <- S1. by destruct (hold_state _).
Qed.

Lemma hybrid_add_run x g k sub S pdn :
  let u := clear_rule_flags (cl_rule (sm_client x)) in
  hybrid_at x g sub S -> acceptable g u pdn -> public_ip pdn <> 0 -> 0 <= Hash_token g < 2 ^ 30 - 2 ->
  exists x' g' k',
    ipa_nat_add_ipv4_rule (hdl_of SRAM_SUB (sm_obj x)) false false (x, (g, k)) = Ok (0, (x', (g', k'))) /\
    same_owner x g u x' g' /\ Hash_token g <= Hash_token g' <= Hash_token g + 2 ^ 14 + 4 /\
    add_result x sub S (rule_in_force pdn u 0) x' g'.
Proof.
  intros u H Hacc Hip Ht. unfold ipa_nat_add_ipv4_rule. rewrite (hybrid_valid _ _ _ _ H). cbn [negb orb].
  destruct (entered_run 2 NATI_TRIG_ADD_RULE (ArgsRule (hdl_of SRAM_SUB (sm_obj x))) x g k (fun x' g' =>
    same_owner x g u x' g' /\ Hash_token g <= Hash_token g' <= Hash_token g + 2 ^ 14 + 4 /\
    add_result x sub S (rule_in_force pdn u 0) x' g')) as (x' & g' & k' & Hrun & Hout);
    [apply H|by eapply hybrid_open| |].
  - intros k1. destruct (hybrid_add_callback 0 x g k1 sub S pdn H Hacc Hip Ht) as (st & x' & g' & k' & Hrun & Hout).
    exists st, x', g', k'. split; [|exact Hout]. rewrite (fc_curr _ _ (hy_focus H)). destruct sub; exact Hrun.
  - exists x', g', k'. split; [|done]. unfold ipa_nati_add_ipv4_rule, statemach, STATEMACH_DEPTH.
    by erewrite bind_ok by exact Hrun.
Qed.

(** ** Time stamps *)
Lemma hybrid_query_run x g k sub S o r : hybrid_at x g sub S -> S o = Some r -> VALID_RULE_HDL o = true ->
  exists k', ipa_nat_query_timestamp (hdl_of SRAM_SUB (sm_obj x)) o false (x, (g, k)) =
    Ok (0, (mk_sm (sm_obj x) (sm_maps x) (nat_mutex_init x) (put_time_stamp (r_time_stamp r) (sm_client x)), (g, k'))).
Proof.
  intros H Ho Hv. pose proof (hy_focus H) as F. destruct (hy_serves H) as [a Va].
  destruct (served_rule _ _ _ _ _ _ _ Va Ho) as (i & Hon & _ & Hi & Hr).
  set (x' := mk_sm _ _ _ _).
  destruct (entered_run 2 NATI_TRIG_GET_TSTAMP (ArgsRuleHdl (hdl_of SRAM_SUB (sm_obj x)) o) x g k
    (fun x1 g1 => x1 = x' /\ g1 = g)) as (x1 & g1 & k' & Hrun & -> & ->); [apply H|by eapply hybrid_open| |].
  - intros k1.
    pose proof (query_timestamp_api g k1 _ _ _ _ _ _ i r (hd_ready (sv_holds Va)) Hr ltac:(apply lock_works, Hw)) as Hq.
    cbv zeta in Hq. rewrite unlock_works in Hq by exact Hw. cbn [negb Z.eqb] in Hq.
    eexists 0, x', g, _. split; [|by split; [eapply hybrid_open|]].
    assert (Hcb : forall args, args = ArgsRuleHdl (hdl_of SRAM_SUB (sm_obj x)) o ->
      _smGetTmStmpHybrid args (x, (g, k1)) = Ok (0, (x', (g, unlocked_k (locked_k k1))))).
    { intros args ->. unfold _smGetTmStmpHybrid. erewrite bind_ok by done. cbn [fst]. rewrite (proj2 (focused_hybrid _ _ F)).
      erewrite bind_ok by (by eapply map_find_run; [apply o2n_valid|apply (hd_maps (sv_holds Va))]).
      rewrite Hon, decide_False by done. cbn [Z.eqb]. erewrite bind_ok by (by apply lift_run).
      unfold _smGetTmStmp. rewrite (current_hdl_focus _ _ F), (hd_obj (sv_holds Va)).
      erewrite bind_ok by (apply drv_run; exact Hq). cbv beta iota. by erewrite bind_ok by done. }
    rewrite (fc_curr _ _ F). destruct sub; by apply Hcb.
  - exists k'. unfold ipa_nat_query_timestamp. rewrite (hybrid_valid _ _ _ _ H), Hv. cbn [negb orb].
    exact Hrun.
Qed.
End ops.
