(* ===== verification/NatHybridRefine.v ===== *)
(** * The hybrid states refine the map of rules

    A client of the hybrid states and a client of a single table see the same
    specification, [nat_spec] of [NatRefine]: switches of tables, asked for or not, do
    not show, except where the code loses something ([lost]): a copy that stops half
    way, a deletion the kernel refuses, a handle that is given out twice. *)

From Stdlib Require Import ZArith Lia Ascii String.
From stdpp Require Import prelude gmap list numbers strings.
From S2P Require Import Prelude CFloat Chain Bitfield IpaTable IpaTableRep TableDma TableWalk RuleTable Os NatUtils.
From S2P Require Import MemDescriptor NatMap NatRule NatRuleLaws NatDrvi NatStatemach NatDrv NatSmLaws NatSmStates NatSmStatus.
From S2P Require Import NatTables NatDrviProps NatDrviDel NatApi NatTblApi NatRefine NatSmDdr NatHandles NatMigrate NatHybrid NatHybridOps.

Local Open Scope Z_scope.

(** The client's operations. *)
Inductive hy_op :=
  | HyAdd (u : ipa_nat_ipv4_rule)
  | HyDel (o : Z)
  | HyQuery (o : Z)
  | HySwitch (sub : mem_sub) (hold : bool).

(** What the specification knows of them; the machine clears three members of the rule. *)
Definition spec_op (op : hy_op) : option nat_op :=
  match op with
  | HyAdd u => Some (NatAdd (clear_rule_flags u))
  | HyDel o => Some (NatDel o)
  | HyQuery o => Some (NatQuery o)
  | HySwitch _ _ => None
  end.

Section refine.
Context {K : Type} `{Os : OsOps K} `{NOs : !NatOs K} `{NL : !NatOsLaws} `{U : IpaUapi} `{UL : !IpaUapiLaws}.
Context {W : Type} (Hw : mutexes_work (K := K)) (Hf : focus_works (K := K)).
Implicit Types (x : smach W) (g : nat_globals) (k : K).
#[local] Notation SM := (St (smach W * (nat_globals * K))).

Definition run_hy (hdl : Z) (op : hy_op) : SM Z :=
  match op with
  | HyAdd u => _ ← mod_client (put_rule u); ipa_nat_add_ipv4_rule hdl false false
  | HyDel o => ipa_nat_del_ipv4_rule hdl o
  | HyQuery o => ipa_nat_query_timestamp hdl o false
  | HySwitch sub hold => ipa_nat_switch_to (sub_nmi sub) hold
  end.

(** What the client learns: the status is 0 in any case, a refused addition shows in
    the handle. *)
Definition hy_answer (op : hy_op) x' : answer :=
  match op with
  | HyAdd _ => (b2z (cl_rule_hdl (sm_client x') =? 0), Some (cl_rule_hdl (sm_client x')))
  | HyQuery _ => (0, Some (cl_time_stamp (sm_client x')))
  | _ => (0, None)
  end.

Definition hy_legal g (S : nat_store) (op : hy_op) : Prop :=
  0 <= Hash_token g < 2 ^ 30 - 2 /\
  match op with
  | HyAdd u => exists pdn, acceptable g (clear_rule_flags u) pdn /\ public_ip pdn <> 0
  | HyDel o | HyQuery o => is_Some (S o) /\ VALID_RULE_HDL o = true
  | HySwitch _ _ => True
  end.

(** A switch whose copy stopped half way counts as a failed one. *)
Definition lost (op : hy_op) x x' g' : Prop :=
  (exists sub, fails_of sub x' <> fails_of sub x) \/
  match op with
  | HyAdd _ => exists sub r, collided x' g' sub (cl_rule_hdl (sm_client x')) r
  | HyDel o => exists sub r, stranded x' g' sub o r
  | _ => False
  end.

(** The state of the client with the table handle [hdl] and the PDN entries [ps]. *)
Record session (hdl : Z) (ps : list ipa_nat_pdn_entry) x g (S : nat_store) : Prop := {
  se_hybrid : hybrid x g S;
  se_hdl : sram_tbl_hdl (sm_obj x) = hdl;
  se_pdns : pdns g = ps }.

(** One operation: the specification's step, none for a switch. *)
Definition follows (ps : list ipa_nat_pdn_entry) (S : nat_store) (op : hy_op) x' (S' : nat_store) : Prop :=
  match spec_op op with
  | Some nop => nat_spec ps S nop (hy_answer op x') S'
  | None => store_eq S' S
  end.

Definition refines_step (hdl : Z) (op : hy_op) x g k (S : nat_store) : Prop :=
  exists x' g' k', run_hy hdl op (x, (g, k)) = Ok (0, (x', (g', k'))) /\
    ((exists S1 S2, follows (pdns g) S op x' S1 /\ store_eq S2 S1 /\ session hdl (pdns g) x' g' S2) \/
     lost op x x' g').

Lemma fails_dec sub x x' : fails_of sub x' = fails_of sub x \/ fails_of sub x' <> fails_of sub x.
Proof. lia. Qed.

Lemma store_put_eq S S' h o : store_eq S' S -> store_eq (store_put S' h o) (store_put S h o).
Proof. intros E h'. unfold store_put. case_decide; [done|apply E]. Qed.

(** An attempt in a table that serves a map equal to [S]. *)
Lemma attempt_follows hdl S S1 sub u pdn x g x' g' :
  zget (pdns g) (u_pdn_index u) = Some pdn -> store_eq S1 S ->
  sram_tbl_hdl (sm_obj x') = hdl -> pdns g' = pdns g ->
  attempt S1 sub (rule_in_force pdn u 0) x' g' ->
  (exists S2, nat_spec (pdns g) S (NatAdd u) (b2z (cl_rule_hdl (sm_client x') =? 0), Some (cl_rule_hdl (sm_client x'))) S2 /\
     exists S3, store_eq S3 S2 /\ session hdl (pdns g) x' g' S3) \/
  collided x' g' sub (cl_rule_hdl (sm_client x')) (rule_in_force pdn u 0).
Proof.
  intros Hpdn HE Hh Hp [(H0 & Hn & H)|[(H0 & _ & H)|(H0 & H)]]; [left|by right|left].
  - rewrite (proj2 (Z.eqb_neq _ _)) by done. eexists. split.
    + apply spec_add; [done| |done]. by rewrite <- HE.
    + eexists. split; [apply store_put_eq, HE|]. split; [by eexists|done|done].
  - rewrite H0. exists S. split; [by apply spec_add_refused|]. exists S1. split; [done|]. split; [by eexists|done|done].
Qed.

Lemma add_refines hdl x g k S u : session hdl (pdns g) x g S -> hy_legal g S (HyAdd u) ->
  refines_step hdl (HyAdd u) x g k S.
Proof.
  intros [[sub H] Hh _] (Ht & pdn & Hacc & Hip).
  set (x0 := mk_sm (sm_obj x) (sm_maps x) (nat_mutex_init x) (put_rule u (sm_client x))).
  assert (H0 : hybrid_at x0 g sub S) by (by apply hybrid_client).
  destruct (hybrid_add_run Hw Hf x0 g k sub S pdn H0 Hacc Hip Ht) as (x' & g' & k' & Hrun & [_ Hhd _ Hpd _] & _ & Hres).
  exists x', g', k'. split.
  { unfold run_hy. erewrite bind_ok by done. rewrite <- Hh. exact Hrun. }
  assert (Hh' : sram_tbl_hdl (sm_obj x') = hdl) by (rewrite <- Hh; apply (Hhd SRAM_SUB)).
  assert (Hpdn : zget (pdns g) (u_pdn_index (clear_rule_flags u)) = Some pdn) by apply Hacc.
  assert (Hatt : forall S1 sub1, store_eq S1 S -> attempt S1 sub1 (rule_in_force pdn (clear_rule_flags u) 0) x' g' ->
    (exists S1 S2, follows (pdns g) S (HyAdd u) x' S1 /\ store_eq S2 S1 /\ session hdl (pdns g) x' g' S2) \/
    lost (HyAdd u) x x' g').
  { intros S1 sub1 HE Ha. destruct (attempt_follows hdl S S1 sub1 _ _ x g x' g' Hpdn HE Hh' Hpd Ha)
      as [(S2 & Hs & S3 & HE3 & Hse)|Hcol]; [left; by exists S2, S3|right; right; by eexists _, _]. }
  destruct Hres as [[Ha _]|(-> & _ & S1 & _ & Ha & Hall)]; [by apply (Hatt S sub)|].
  destruct (fails_dec SRAM_SUB x x') as [E|E]; [|right; left; by exists SRAM_SUB].
  by apply (Hatt S1 DDR_SUB); [apply Hall|].
Qed.

Lemma del_refines hdl x g k S o : session hdl (pdns g) x g S -> hy_legal g S (HyDel o) ->
  refines_step hdl (HyDel o) x g k S.
Proof.
  intros [[sub H] Hh _] (Ht & [r Hr] & Hv).
  destruct (hybrid_del_run Hw Hf x g k sub S o r H ltac:(unfold token_room; lia) Hr Hv)
    as (x' & g' & k' & Hrun & [_ Hhd _ _ Hpd] & _ & Hres).
  exists x', g', k'. split; [rewrite <- Hh; exact Hrun|].
  assert (Hh' : sram_tbl_hdl (sm_obj x') = hdl) by (rewrite <- Hh; apply (Hhd SRAM_SUB)).
  destruct Hres as [Hres|Hs]; [|right; right; by eexists _, _].
  assert (Hspec : follows (pdns g) S (HyDel o) x' (store_put S o None)) by (by eapply spec_del).
  destruct (goes_back x sub).
  - destruct Hres as (S' & H' & _ & Hall). destruct (fails_dec sub x x') as [E|E]; [|right; left; by exists sub].
    left. eexists _, S'. split; [exact Hspec|]. split; [by apply Hall|]. split; [by eexists|done|done].
  - left. eexists _, _. split; [exact Hspec|]. split; [reflexivity|]. split; [by eexists|done|done].
Qed.

Lemma query_refines hdl x g k S o : session hdl (pdns g) x g S -> hy_legal g S (HyQuery o) ->
  refines_step hdl (HyQuery o) x g k S.
Proof.
  intros [[sub H] Hh _] (_ & [r Hr] & Hv).
  destruct (hybrid_query_run Hw Hf x g k sub S o r H Hr Hv) as (k' & Hrun).
  eexists _, g, k'. split; [rewrite <- Hh; exact Hrun|]. left. exists S, S.
  split; [by apply spec_query|]. split; [reflexivity|]. split; [|done|done]. exists sub. by apply hybrid_client.
Qed.

Lemma switch_refines hdl x g k S sub hold : session hdl (pdns g) x g S -> hy_legal g S (HySwitch sub hold) ->
  refines_step hdl (HySwitch sub hold) x g k S.
Proof.
  intros [[cur H] Hh _] [Ht _].
  assert (Hcase : sub = cur \/ sub = sub_other cur) by (destruct sub, cur; auto).
  destruct Hcase as [->| ->].
  - destruct (stay_run Hw x g k cur S hold H) as (x' & k' & Hrun & ->).
    eexists _, g, k'. split; [exact Hrun|]. left. exists S, S. split; [by cbn|]. split; [reflexivity|].
    split; [|done|done]. exists cur. by apply hybrid_hold.
  - destruct (switch_to_run Hw x g k cur S hold H ltac:(unfold token_room; lia))
      as (x1 & x' & g' & k' & Hrun & -> & [_ Hhd _ _ Hpd] & Hout%(focus_switched Hf)).
    eexists _, g', k'. split; [exact Hrun|].
    destruct Hout as (S' & H' & _ & Hall). destruct (fails_dec cur x x1) as [E|E]; [|right; left; by exists cur].
    left. exists S', S'. split; [by apply Hall|]. split; [reflexivity|]. split; [|by rewrite <- Hh; apply (Hhd SRAM_SUB)|done].
    exists (sub_other cur). by apply hybrid_hold.
Qed.

Lemma refines_any hdl op x g k S : session hdl (pdns g) x g S -> hy_legal g S op -> refines_step hdl op x g k S.
Proof. destruct op; [apply add_refines|apply del_refines|apply query_refines|apply switch_refines]. Qed.

(** ** Histories *)
(** Legal operations, until something is lost; with the specification's trace, the
    latest first. *)
Definition hy_trace (op : hy_op) x' (tr : list (nat_op * answer)) : list (nat_op * answer) :=
  match spec_op op with Some nop => (nop, hy_answer op x') :: tr | None => tr end.

Inductive hy_history (hdl : Z) x0 g0 (k0 : K) :
    smach W * (nat_globals * K) -> list (nat_op * answer) -> Prop :=
  | hy_start : hy_history hdl x0 g0 k0 (x0, (g0, k0)) []
  | hy_next x g k tr op ret x' g' k' :
      hy_history hdl x0 g0 k0 (x, (g, k)) tr ->
      (forall S, spec_history (pdns g0) S tr -> session hdl (pdns g0) x g S -> hy_legal g S op) ->
      run_hy hdl op (x, (g, k)) = Ok (ret, (x', (g', k'))) -> ~ lost op x x' g' ->
      hy_history hdl x0 g0 k0 (x', (g', k')) (hy_trace op x' tr).

Lemma spec_history_eq ps S S' tr : spec_history ps S tr -> store_eq S' S -> spec_history ps S' tr.
Proof.
  intros H HE. destruct H as [S H|S S1 S2 tr op a H Hs H2].
  - apply spec_start. intros h. by rewrite HE.
  - eapply spec_next; [done|done|]. intros h. by rewrite HE.
Qed.

Lemma hy_history_refines hdl x0 g0 k0 s tr : session hdl (pdns g0) x0 g0 store_empty ->
  hy_history hdl x0 g0 k0 s tr ->
  exists S, spec_history (pdns g0) S tr /\ session hdl (pdns g0) (fst s) (fst (snd s)) S.
Proof.
  intros H0 H. induction H as [|x g k tr op ret x' g' k' H (S & Hspec & HS) Hlegal Hrun Hlost].
  { exists store_empty. split; [by constructor|done]. }
  cbn [fst snd] in *. pose proof (se_pdns _ _ _ _ _ HS) as Hp.
  assert (HS' : session hdl (pdns g) x g S) by (by rewrite Hp).
  destruct (refines_any hdl op x g k S HS' (Hlegal S Hspec HS)) as (x1 & g1 & k1 & Hrun1 & Hout).
  rewrite Hrun in Hrun1. injection Hrun1 as _ <- <- <-.
  destruct Hout as [(S1 & S2 & Hfol & HE & Hse)|]; [|done]. rewrite Hp in Hfol, Hse.
  exists S2. split; [|done]. unfold hy_trace, follows in *. destruct (spec_op op).
  - eapply spec_next; [exact Hspec|exact Hfol|exact HE].
  - eapply spec_history_eq; [exact Hspec|]. by rewrite HE.
Qed.
End refine.
