(* ===== verification/NatHybridNew.v ===== *)
(** * The creation of the hybrid tables

    [ipa_nat_add_ipv4_tbl] with the memory type HYBRID: a table in SRAM, a table in DDR
    and the focus on SRAM; what is left when one of them cannot be had. *)

From Stdlib Require Import ZArith Lia Ascii String.
From stdpp Require Import prelude gmap list numbers strings.
From S2P Require Import Prelude CFloat Chain Bitfield IpaTable IpaTableRep TableDma TableSetup TableWalk RuleTable Os NatUtils.
From S2P Require Import MemDescriptor NatMap NatRule NatRuleLaws NatDrvi NatStatemach NatDrv NatSmLaws NatSmStates NatSmStatus.
From S2P Require Import NatTables NatDrviProps NatDrviDel NatApi NatTblApi NatRefine NatSmDdr NatHandles NatMigrate NatHybrid NatHybridOps.

Local Open Scope Z_scope.

(** The amount of SRAM the kernel reports, for which the search of the number of entries
    ends ([calc_num_finds]). *)
Definition sram_bounded `{Os : OsOps K} : Prop := forall fd k,
  let '(r, info, _) := ioctl_get_nat_in_sram_info fd k in 0 <= sram_mem_available_for_nat info < 1686888.

Section creation.
Context {K : Type} `{Os : OsOps K} `{NOs : !NatOs K} `{NL : !NatOsLaws} `{U : IpaUapi} `{UL : !IpaUapiLaws}.
Context {W : Type} (Hw : mutexes_work (K := K)) (Hf : focus_works (K := K)) (Hsz : sram_bounded (K := K)).
Implicit Types (x : smach W) (g : nat_globals) (k : K).
#[local] Notation SM := (St (smach W * (nat_globals * K))).

(** ** The device of SRAM *)
(** The descriptor of the cache of SRAM may change, nothing else. *)
Definition redesc g g' : Prop :=
  exists c o, zget (ipv4_nat_cache g) IPA_NAT_MEM_IN_SRAM = Some c /\
    g' = set_caches g (zset (ipv4_nat_cache g) IPA_NAT_MEM_IN_SRAM (set_desc c o)).

Lemma redesc_idle g g' : redesc g g' -> idle g IPA_NAT_MEM_IN_SRAM -> idle g' IPA_NAT_MEM_IN_SRAM.
Proof.
  intros (c & o & Hc & ->) (c' & n & Hc' & ? & ? & ?). rewrite Hc in Hc'. injection Hc' as <-.
  exists (set_desc c o), n. split_and!; try done. by apply (cache_updated g _ c).
Qed.

Lemma redesc_others g g' g1 : redesc g g' -> other_types g' g1 IPA_NAT_MEM_IN_SRAM ->
  other_types g g1 IPA_NAT_MEM_IN_SRAM.
Proof. intros (c & o & _ & ->). by eapply other_types_after. Qed.

Lemma redesc_refl g : idle g IPA_NAT_MEM_IN_SRAM -> redesc g g.
Proof.
  intros (c & n & Hc & _). exists c, (ipa_desc c). split; [done|].
  assert (set_desc c (ipa_desc c) = c) as -> by (by destruct c). rewrite zset_id by done. by destruct g.
Qed.

Lemma redesc_trans g g1 g2 : redesc g g1 -> redesc g1 g2 -> redesc g g2.
Proof.
  intros (c & o & Hc & ->) (c1 & o1 & Hc1 & ->). exists c, o1. split; [done|].
  rewrite (cache_updated g _ c _ Hc) in Hc1. injection Hc1 as <-. by rewrite put_caches_twice.
Qed.

Lemma redesc_same g g' : redesc g g' -> pdns g' = pdns g /\ num_pdns g' = num_pdns g /\ Hash_token g' = Hash_token g /\
  forall nmi, nmi <> IPA_NAT_MEM_IN_SRAM -> zget (ipv4_nat_cache g') nmi = zget (ipv4_nat_cache g) nmi.
Proof. intros (c & o & _ & ->). split_and!; try done. intros nmi Hne. by apply zget_zset_ne. Qed.

Lemma vote_any v x g k : idle g IPA_NAT_MEM_IN_SRAM -> IPA_APP_CLK_DEVOTE <= v <= IPA_APP_CLK_RESET_VOTE ->
  exists r g' k', ipa_nat_vote_clock v (x, (g, k)) = Ok (r, (x, (g', k'))) /\ redesc g g' /\ (sram_open g -> r = 0).
Proof.
  intros Hi Hv. pose proof Hi as (c & n & Hc & _). unfold ipa_nat_vote_clock.
  rewrite Z.geb_leb, !(proj2 (Z.leb_le _ _)) by lia. cbn [andb negb].
  destruct (ensure_desc_run g k _ _ Hc) as (o & k1 & Hens).
  assert (Hrun : exists r k', ipa_nati_vote_clock v (g, k) =
    Ok (r, (set_caches g (zset (ipv4_nat_cache g) IPA_NAT_MEM_IN_SRAM (set_desc c o)), k')) /\ (is_Some o -> r = 0)).
  { unfold ipa_nati_vote_clock. erewrite bind_ok by exact Hens. destruct o as [d|]; cbn [negb].
    - erewrite bind_ok by (apply get_cache_run; by apply (cache_updated g _ c)).
      erewrite bind_ok by (unfold get_fd; erewrite bind_ok by (by apply lift_run); done).
      eexists _, _. split; [apply os_run|]. intros _.
      destruct (decide (fst (ioctl_app_clock_vote (fd d) v k1) = 0)) as [|Hn]; [done|].
      destruct (proj1 Hf). by eexists _, _, _.
    - eexists _, _. split; [done|]. by intros [? ?]. }
  destruct Hrun as (r & k' & Hrun & Hok). eexists r, _, k'. split; [by apply drv_run|].
  split; [by exists c, o|]. intros (c' & d & Hc' & Hd). apply Hok.
  rewrite Hc in Hc'. injection Hc' as <-. unfold ensure_desc in Hens.
  erewrite bind_ok in Hens by (by apply get_cache_run). rewrite Hd in Hens. injection Hens as Ho _ _.
  destruct o; [by eexists|done].
Qed.

Lemma sram_size_run g k : idle g IPA_NAT_MEM_IN_SRAM ->
  exists r sz g' k', ipa_nati_get_sram_size (g, k) = Ok ((r, sz), (g', k')) /\ redesc g g' /\
    (r = 0 -> sram_open g' /\ exists v, sz = Some v /\ 0 <= v < 1686888).
Proof.
  intros (c & n & Hc & _). set (k0 := locked_k k).
  destruct (ensure_desc_run g k0 _ _ Hc) as (o & k1 & Hens).
  set (g1 := set_caches g (zset (ipv4_nat_cache g) IPA_NAT_MEM_IN_SRAM (set_desc c o))).
  assert (Hbody : exists r sz k2, (ok ← ensure_desc IPA_NAT_MEM_IN_SRAM;
     if negb ok then mret (- EIO, None)
     else
       c ← get_cache IPA_NAT_MEM_IN_SRAM;
       fd ← get_fd c;
       '(ret, info) ← os (fun k =>
          let '(r, i, k) := ioctl_get_nat_in_sram_info fd k in ((r, i), k));
       if negb (ret =? 0) then mret (ret, None)
       else
         let size := sram_mem_available_for_nat info in
         if size =? 0 then mret (- EINVAL, Some size) else mret (0, Some size)) (g, k0) = Ok ((r, sz), (g1, k2)) /\
    (r = 0 -> sram_open g1 /\ exists v, sz = Some v /\ 0 <= v < 1686888)).
  { erewrite bind_ok by exact Hens. destruct o as [d|]; cbn [negb].
    2: { eexists _, _, k1. split; [done|]. done. }
    pose proof (cache_updated g _ c (set_desc c (Some d)) Hc) as Hc1. fold g1 in Hc1.
    erewrite bind_ok by (by apply get_cache_run).
    erewrite bind_ok by (unfold get_fd; erewrite bind_ok by (by apply lift_run); done).
    specialize (Hsz (fd d) k1). destruct (ioctl_get_nat_in_sram_info (fd d) k1) as [[r info] k2] eqn:E.
    erewrite bind_ok by apply os_run. cbv beta. rewrite E. cbn [fst snd].
    destruct (negb (r =? 0)) eqn:Er; [eexists _, _, k2; split; [done|]; intros ->; by cbn in Er|].
    cbv zeta. destruct (sram_mem_available_for_nat info =? 0); eexists _, _, k2; (split; [reflexivity|]); [done|].
    intros _. split; [by exists (set_desc c (Some d)), d|]. by eexists. }
  destruct Hbody as (r & sz & k2 & Hbody & Hok). exists r, sz, g1, (unlocked_k k2).
  split; [|split; [by exists c, o|done]].
  unfold ipa_nati_get_sram_size. erewrite locked_run; [..|apply lock_works, Hw|exact Hbody].
  fold (unlocked_k k2). rewrite unlock_works by exact Hw. by cbn [negb Z.eqb].
Qed.

(** ** The table in SRAM *)
(** What the creation of a table keeps. *)
Record same_start x x' : Prop := {
  st_core : core (sm_obj x') = core (sm_obj x);
  st_tot : tot_rules_in_table (sm_obj x') = tot_rules_in_table (sm_obj x);
  st_maps : sm_maps x' = sm_maps x;
  st_init : nat_mutex_init x' = nat_mutex_init x }.

#[local] Instance same_start_preorder : PreOrder same_start.
Proof. split; [by split|]. intros x1 x2 x3 [] []. split; congruence. Qed.

Lemma same_start_obj x f : core (f (sm_obj x)) = core (sm_obj x) ->
  tot_rules_in_table (f (sm_obj x)) = tot_rules_in_table (sm_obj x) ->
  same_start x (mk_sm (f (sm_obj x)) (sm_maps x) (nat_mutex_init x) (sm_client x)).
Proof. by split. Qed.

(** No table in SRAM. *)
Definition no_sram g g' : Prop :=
  idle g' IPA_NAT_MEM_IN_SRAM /\ pdns g' = pdns g /\ other_types g g' IPA_NAT_MEM_IN_SRAM.

Lemma redesc_no_sram g g' : idle g IPA_NAT_MEM_IN_SRAM -> redesc g g' -> no_sram g g'.
Proof.
  intros Hi Hr. destruct (redesc_same _ _ Hr) as (Hp & _ & Ht & Ho).
  split; [by eapply redesc_idle|]. split; [done|]. by split.
Qed.

Lemma no_sram_trans g g1 g2 : redesc g g1 -> no_sram g1 g2 -> no_sram g g2.
Proof.
  intros Hr (Hi & Hp & Ho). destruct (redesc_same _ _ Hr) as (Hp' & _ & _ & _).
  split; [done|]. split; [congruence|]. by eapply redesc_others.
Qed.

Lemma table_added_redesc g g1 g2 ip : redesc g g1 -> table_added g1 g2 IPA_NAT_MEM_IN_SRAM ip ->
  table_added g g2 IPA_NAT_MEM_IN_SRAM ip.
Proof. intros (c & o & Hc & ->). by apply added_after. Qed.

Lemma added_open g g' ip : table_added g g' IPA_NAT_MEM_IN_SRAM ip -> sram_open g'.
Proof.
  intros (c & n & d & R & _). destruct (rd_at _ _ _ _ _ _ _ R) as [Hc _].
  exists c, d. split; [done|apply (rd_desc _ _ _ _ _ _ _ R)].
Qed.

(** The steps after the number of entries is known. *)
Definition sram_created g g' ip x x' st (p : hdl_ptr) : Prop :=
  (st = 0 /\ table_added g g' IPA_NAT_MEM_IN_SRAM ip /\
     sram_tbl_hdl (sm_obj x') = MAKE_TBL_HDL 1 IPA_NAT_MEM_IN_SRAM /\
     (p = ClientHdl -> cl_tbl_hdl (sm_client x') = MAKE_TBL_HDL 1 IPA_NAT_MEM_IN_SRAM)) \/
  (st <> 0 /\ no_sram g g' /\ sm_client x' = sm_client x).

Lemma make_sram_run x g k ip p p0 : idle g IPA_NAT_MEM_IN_SRAM -> sram_open g -> zget (pdns g) 0 = Some p0 ->
  exists st x' g' k',
    (ret ← ipa_nat_vote_clock IPA_APP_CLK_VOTE;
     if negb (ret =? 0) then mret ret
     else
       o ← get_obj;
       '(ret, hdl) ← drv (ipa_NATI_add_ipv4_tbl IPA_NAT_MEM_IN_SRAM ip (u16 (tot_slots_in_sram o)));
       _ ← mod_obj (fun o => set_sram_hdl o hdl);
       _ ← ipa_nat_vote_clock IPA_APP_CLK_DEVOTE;
       _ ← (if ret =? 0 then write_tbl_hdl p hdl else mret tt);
       mret ret) (x, (g, k)) = Ok (st, (x', (g', k'))) /\
    same_start x x' /\ ddr_tbl_hdl (sm_obj x') = ddr_tbl_hdl (sm_obj x) /\ sram_created g g' ip x x' st p.
Proof.
  intros Hi Ho Hp0.
  destruct (vote_any IPA_APP_CLK_VOTE x g k Hi (proj1 clk_votes)) as (r & g1 & k1 & Hvote & Hr1 & Hv0).
  rewrite (Hv0 Ho) in Hvote. destruct (redesc_same _ _ Hr1) as (Hp1 & _).
  destruct (add_tbl_api g1 k1 IPA_NAT_MEM_IN_SRAM ip (u16 (tot_slots_in_sram (sm_obj x))) p0)
    as (st & hdl & g2 & k2 & Hadd & Hout).
  { apply uapi_nmi. by right. } { by eapply redesc_idle. } { by apply wrap_range. } { by rewrite Hp1. }
  { apply lock_works, Hw. }
  cbv zeta in Hadd. rewrite unlock_works in Hadd by exact Hw. cbn [negb Z.eqb] in Hadd.
  set (x1 := mk_sm (set_sram_hdl (sm_obj x) hdl) (sm_maps x) (nat_mutex_init x) (sm_client x)).
  assert (Hbegin : forall r2 g3 k3, ipa_nat_vote_clock IPA_APP_CLK_DEVOTE (x1, (g2, unlocked_k k2)) = Ok (r2, (x1, (g3, k3))) ->
    (ret ← ipa_nat_vote_clock IPA_APP_CLK_VOTE;
     if negb (ret =? 0) then mret ret
     else
       o ← get_obj;
       '(ret, hdl) ← drv (ipa_NATI_add_ipv4_tbl IPA_NAT_MEM_IN_SRAM ip (u16 (tot_slots_in_sram o)));
       _ ← mod_obj (fun o => set_sram_hdl o hdl);
       _ ← ipa_nat_vote_clock IPA_APP_CLK_DEVOTE;
       _ ← (if ret =? 0 then write_tbl_hdl p hdl else mret tt);
       mret ret) (x, (g, k)) =
    (_ ← (if st =? 0 then write_tbl_hdl p hdl else mret tt); mret st) (x1, (g3, k3))).
  { intros r2 g3 k3 Hdevote. erewrite bind_ok by exact Hvote. cbn [negb Z.eqb]. erewrite bind_ok by done. cbn [fst].
    erewrite bind_ok by (apply drv_run; exact Hadd). cbv beta iota. erewrite bind_ok by done.
    by erewrite bind_ok by exact Hdevote. }
  destruct Hout as [(-> & -> & Hadded)|(Hst & -> & Hnot)].
  - destruct (maybe_vote_run true IPA_APP_CLK_DEVOTE x1 g2 (unlocked_k k2) (added_open _ _ _ Hadded) (proj2 clk_votes))
      as (r2 & k3 & Hdevote & _).
    set (x2 := match p with
      | ClientHdl => mk_sm (sm_obj x1) (sm_maps x1) (nat_mutex_init x1) (put_tbl_hdl (MAKE_TBL_HDL 1 IPA_NAT_MEM_IN_SRAM) (sm_client x1))
      | LocalHdl => x1 end).
    exists 0, x2, g2, k3. split; [|split; [by destruct p|split; [by destruct p|]]].
    + rewrite (Hbegin _ _ _ Hdevote). cbn [Z.eqb]. destruct p; by erewrite bind_ok by done.
    + left. split; [done|]. split; [by eapply table_added_redesc|]. destruct p; done.
  - destruct Hnot as (Hvac & Hpn & _ & Hot).
    destruct (vote_any IPA_APP_CLK_DEVOTE x1 g2 (unlocked_k k2) (vacant_idle _ _ Hvac) (proj2 clk_votes))
      as (r2 & g3 & k3 & Hdevote & Hr3 & _).
    exists st, x1, g3, k3. split; [|split; [done|split; [done|]]].
    + rewrite (Hbegin _ _ _ Hdevote). rewrite (proj2 (Z.eqb_neq st 0)) by done. by erewrite bind_ok by done.
    + right. split; [done|]. split; [|done]. apply (no_sram_trans _ _ _ Hr1).
      destruct (redesc_same _ _ Hr3) as (Hp3 & _ & Ht3 & Ho3). destruct Hot as [Ho2 Ht2].
      split; [by eapply redesc_idle; [|by apply vacant_idle]|]. split; [congruence|].
      split; [|congruence]. intros nmi' Hne. rewrite Ho3 by done. by apply Ho2.
Qed.

Lemma sram_created_redesc g g1 g' ip x x1 x' st p : redesc g g1 -> sm_client x1 = sm_client x ->
  sram_created g1 g' ip x1 x' st p -> sram_created g g' ip x x' st p.
Proof.
  intros Hr Hc [(? & ? & ? & ?)|(? & ? & ?)]; [left|right].
  - split; [done|]. split; [by eapply table_added_redesc|done].
  - split; [done|]. split; [by eapply no_sram_trans|congruence].
Qed.

Lemma add_sram_run x g k ip num p mt p0 : idle g IPA_NAT_MEM_IN_SRAM -> zget (pdns g) 0 = Some p0 ->
  exists st x' g' k', _smAddSramTbl (ArgsAddTbl ip num p mt) (x, (g, k)) = Ok (st, (x', (g', k'))) /\
    same_start x x' /\ ddr_tbl_hdl (sm_obj x') = ddr_tbl_hdl (sm_obj x) /\ sram_created g g' ip x x' st p.
Proof.
  intros Hi Hp0. unfold _smAddSramTbl.
  destruct (sram_size_run g k Hi) as (r & sz & g1 & k1 & Hsize & Hr & Hok).
  erewrite bind_ok by (apply drv_run; exact Hsize). cbv beta iota.
  assert (Hfail : forall x' st, same_start x x' -> ddr_tbl_hdl (sm_obj x') = ddr_tbl_hdl (sm_obj x) ->
    sm_client x' = sm_client x -> st <> 0 -> exists st1 x1 g' k',
      Ok (st, (x', (g1, k1))) = Ok (st1, (x1, (g', k'))) /\
      same_start x x1 /\ ddr_tbl_hdl (sm_obj x1) = ddr_tbl_hdl (sm_obj x) /\ sram_created g g' ip x x1 st1 p).
  { intros x' st Hs Hd Hc Hst. exists st, x', g1, k1. split; [done|]. split; [done|]. split; [done|]. right.
    split; [done|]. split; [by apply redesc_no_sram|done]. }
  destruct (r =? 0) eqn:Er; cbn [negb]; zify_bool; [|by apply Hfail].
  destruct (Hok Er) as (Hopen & v & -> & Hv). erewrite bind_ok by (by apply lift_run).
  destruct (calc_num_finds v 32 4 32768 ltac:(lia) (sram_fits_stop v Hv) ltac:(lia)) as (n & Hcalc & _).
  erewrite bind_ok by (apply lift_run; exact Hcalc). cbv beta iota. erewrite bind_ok by done.
  destruct (n =? 0) eqn:En; cbn [negb Z.eqb]; [by apply (Hfail (mk_sm (write_slots n (sm_obj x)) (sm_maps x) (nat_mutex_init x) (sm_client x)))|].
  erewrite bind_ok by done.
  set (x1 := mk_sm _ _ _ _). destruct (redesc_same _ _ Hr) as (Hp1 & _).
  destruct (make_sram_run x1 g1 k1 ip p p0 ltac:(by eapply redesc_idle) Hopen ltac:(by rewrite Hp1))
    as (st & x' & g' & k' & Hrun & Hs & Hd & Hout).
  exists st, x', g', k'. split; [exact Hrun|]. split; [etrans; [|exact Hs]; done|]. split; [by rewrite Hd|].
  by eapply sram_created_redesc.
Qed.

(** ** The table in DDR *)
Definition ddr_created g g' ip x x' st (p : hdl_ptr) : Prop :=
  (st = 0 /\ table_added g g' IPA_NAT_MEM_IN_DDR ip /\
     ddr_tbl_hdl (sm_obj x') = MAKE_TBL_HDL 1 IPA_NAT_MEM_IN_DDR /\
     (p = ClientHdl -> cl_tbl_hdl (sm_client x') = MAKE_TBL_HDL 1 IPA_NAT_MEM_IN_DDR) /\
     (p = LocalHdl -> sm_client x' = sm_client x)) \/
  (st <> 0 /\ table_not_added g g' IPA_NAT_MEM_IN_DDR /\ sm_client x' = sm_client x).

Lemma add_ddr_run x g k ip num p mt p0 : idle g IPA_NAT_MEM_IN_DDR -> 0 <= num -> zget (pdns g) 0 = Some p0 ->
  exists st x' g' k', _smAddDdrTbl (ArgsAddTbl ip num p mt) (x, (g, k)) = Ok (st, (x', (g', k'))) /\
    same_start x x' /\ sram_tbl_hdl (sm_obj x') = sram_tbl_hdl (sm_obj x) /\
    tot_slots_in_sram (sm_obj x') = tot_slots_in_sram (sm_obj x) /\ ddr_created g g' ip x x' st p.
Proof.
  intros Hi Hn Hp0.
  destruct (add_tbl_api g k IPA_NAT_MEM_IN_DDR ip num p0) as (st & hdl & g' & k1 & Hadd & Hout);
    [by apply uapi_nmi; left|done|done|done|apply lock_works, Hw|].
  cbv zeta in Hadd. rewrite unlock_works in Hadd by exact Hw. cbn [negb Z.eqb] in Hadd.
  set (x1 := mk_sm (set_ddr_hdl (sm_obj x) hdl) (sm_maps x) (nat_mutex_init x) (sm_client x)).
  assert (Hrun : _smAddDdrTbl (ArgsAddTbl ip num p mt) (x, (g, k)) =
    (_ ← (if st =? 0 then write_tbl_hdl p hdl else mret tt); mret st) (x1, (g', unlocked_k k1))).
  { unfold _smAddDdrTbl. erewrite bind_ok by (apply drv_run; exact Hadd). cbv beta iota. by erewrite bind_ok by done. }
  rewrite Hrun. destruct Hout as [(-> & -> & Hadded)|(Hst & -> & Hnot)].
  - cbn [Z.eqb]. destruct p; (erewrite bind_ok by done); eexists 0, _, g', _; (split; [done|]);
      (do 3 (split; [done|])); left; done.
  - rewrite (proj2 (Z.eqb_neq st 0)) by done. erewrite bind_ok by done. eexists st, x1, g', _.
    do 4 (split; [done|]). by right.
Qed.

(** ** Both tables *)
Lemma forget_run x (d : nat_globals * K) a b a' b' : maps_at (sm_maps x) SRAM_SUB a b -> maps_at (sm_maps x) DDR_SUB a' b' ->
  exists x', forget_rules (x, d) = Ok (tt, (x', d)) /\ core (sm_obj x') = core (sm_obj x) /\
    tot_rules_in_table (sm_obj x') = mk_two 0 0 /\ sm_client x' = sm_client x /\
    nat_mutex_init x' = nat_mutex_init x /\ forall sub, maps_at (sm_maps x') sub ∅ ∅.
Proof.
  intros Hs Hd. unfold forget_rules. erewrite bind_ok by done. set (x1 := mk_sm _ _ _ _).
  erewrite bind_ok by (by apply (clear_maps_run x1 d SRAM_SUB a b)).
  set (x2 := with_maps x1 _).
  pose proof (put_maps_other (sm_maps x) SRAM_SUB DDR_SUB ∅ ∅ a' b' ltac:(done) Hd) as Hd1.
  eexists. split; [by apply (clear_maps_run x2 d DDR_SUB a' b')|]. do 4 (split; [done|]).
  intros []; [by eapply put_maps_at|]. apply put_maps_other; [done|]. by eapply put_maps_at.
Qed.

Lemma ready_at g g1 tbl_hdl nmi hdl c n desc :
  zget (ipv4_nat_cache g1) nmi = zget (ipv4_nat_cache g) nmi ->
  ready g tbl_hdl nmi hdl c n desc -> ready g1 tbl_hdl nmi hdl c n desc.
Proof. intros Hg [? ? [Hc Hn] ? ? ?]. split; try done. split; [by rewrite Hg|done]. Qed.

(** A new table, behind empty maps. *)
Lemma added_holds x g g1 g' sub ip : table_added g g1 (sub_nmi sub) ip ->
  zget (ipv4_nat_cache g') (sub_nmi sub) = zget (ipv4_nat_cache g1) (sub_nmi sub) ->
  hdl_of sub (sm_obj x) = MAKE_TBL_HDL 1 (sub_nmi sub) -> maps_at (sm_maps x) sub ∅ ∅ ->
  exists p, holds x g' sub p /\ p_o2n p = ∅ /\ p_n2o p = ∅ /\ forall i, rules_of (table (p_tbl p)) i = None.
Proof.
  intros (c & n & d & R & Hcnt & _ & _ & Hnone & _ & _ & _ & _ & Hnmi & _) Hg Hh Hm.
  exists (mk_place (MAKE_TBL_HDL 1 (sub_nmi sub)) 1 c n d ∅ ∅). split; [|done].
  split; cbn [p_tbl_hdl p_hdl p_cache p_tbl p_desc p_o2n p_n2o]; try done.
  - by eapply ready_at.
  - by rewrite Hcnt.
  - by destruct sub.
Qed.

Lemma empty_serves x g sub p : holds x g sub p -> p_o2n p = ∅ -> p_n2o p = ∅ ->
  (forall i, rules_of (table (p_tbl p)) i = None) -> sub_get (tot_rules_in_table (sm_obj x)) sub = 0 ->
  serves x g sub p store_empty.
Proof.
  intros H Ho Hn Hr Ht. split; try done.
  - rewrite Ho, Hn. apply tracks_empty. by apply store_of_empty.
  - intros i r. by rewrite Hr.
  - by rewrite Ht, Ho, map_size_empty.
  - intros o. unfold client_view. by rewrite Ho, lookup_empty.
Qed.

(** The focus on SRAM, both tables empty. *)
Lemma hybrid_start x g g1 g2 g' ip ip' :
  focused x SRAM_SUB -> Z.of_nat (length (pdns g')) = IPA_MAX_PDN_NUM ->
  table_added g g1 IPA_NAT_MEM_IN_SRAM ip -> table_added g1 g2 IPA_NAT_MEM_IN_DDR ip' ->
  ipv4_nat_cache g' = ipv4_nat_cache g2 ->
  (forall sub, hdl_of sub (sm_obj x) = MAKE_TBL_HDL 1 (sub_nmi sub)) ->
  (forall sub, maps_at (sm_maps x) sub ∅ ∅) -> tot_rules_in_table (sm_obj x) = mk_two 0 0 ->
  hybrid_at x g' SRAM_SUB store_empty.
Proof.
  intros F Hp Hs Hd Hg Hh Hm Ht. split; [done|done| |].
  - destruct (added_holds x g g1 g' SRAM_SUB ip Hs) as (p & Hhold & Ho & Hn & Hr); [|done|done|].
    + rewrite Hg. destruct Hd as (? & ? & ? & _ & _ & _ & _ & _ & _ & _ & _ & _ & _ & Hot & _). by apply Hot.
    + exists p. apply empty_serves; try done. by rewrite Ht.
  - destruct (added_holds x g1 g2 g' DDR_SUB ip' Hd) as (p & Hhold & _); [by rewrite Hg|done|done|]. by exists p.
Qed.

(** What the client finds after the creation: the state, the handle it was given. *)
Definition started g ip num x' g' : Prop :=
  let h := cl_tbl_hdl (sm_client x') in
  let c := curr_state (sm_obj x') in
  (** both tables *)
  (h = MAKE_TBL_HDL 1 IPA_NAT_MEM_IN_SRAM /\ tot_slots_in_sram (sm_obj x') < num /\
     hybrid_at x' g' SRAM_SUB store_empty /\ active_nat_cache_ptr g' = Some IPA_NAT_MEM_IN_SRAM /\
     sram_tbl_hdl (sm_obj x') = h /\ (exists p0 p1, zget (pdns g) 0 = Some p0 /\
       zget (pdns g') 0 = Some p1 /\ p1 = mk_pdn ip (src_metadata p0) (dst_metadata p0)) /\
     Hash_token g' = Hash_token g) \/
  (** SRAM is large enough *)
  (h = MAKE_TBL_HDL 1 IPA_NAT_MEM_IN_SRAM /\ num <= tot_slots_in_sram (sm_obj x') /\
     c = NATI_STATE_SRAM_ONLY /\ table_added g g' IPA_NAT_MEM_IN_SRAM ip) \/
  (** no table in SRAM *)
  (h = MAKE_TBL_HDL 1 IPA_NAT_MEM_IN_DDR /\ c = NATI_STATE_DDR_ONLY /\
     exists g1, no_sram g g1 /\ table_added g1 g' IPA_NAT_MEM_IN_DDR ip) \/
  (** no table in DDR, and the state is HYBRID *)
  (h = MAKE_TBL_HDL 1 IPA_NAT_MEM_IN_SRAM /\ c = NATI_STATE_HYBRID /\
     exists g1, table_added g g1 IPA_NAT_MEM_IN_SRAM ip /\ table_not_added g1 g' IPA_NAT_MEM_IN_DDR) \/
  (** no table at all, and the state is HYBRID *)
  (h = 0 /\ c = NATI_STATE_HYBRID /\
     exists g1, no_sram g g1 /\ table_not_added g1 g' IPA_NAT_MEM_IN_DDR).

Lemma curr_core x x' : core (sm_obj x') = core (sm_obj x) -> curr_state (sm_obj x') = curr_state (sm_obj x).
Proof. unfold core. congruence. Qed.

Lemma idle_other g g1 nmi nmi' : nmi' <> nmi -> other_types g g1 nmi -> idle g nmi' -> idle g1 nmi'.
Proof. intros Hne [Ho _] (c & n & Hc & ?). exists c, n. by rewrite Ho. Qed.

Lemma start_pdns g g1 nmi ip p0 : table_added g g1 nmi ip -> zget (pdns g) 0 = Some p0 ->
  zget (pdns g1) 0 = Some (mk_pdn ip (src_metadata p0) (dst_metadata p0)) /\
  length (pdns g1) = length (pdns g) /\ other_types g g1 nmi.
Proof.
  intros (c & n & d & _ & _ & _ & _ & _ & _ & _ & Hl & Hp & _ & Ho) H0.
  by rewrite (Hp 0 p0 H0), decide_True.
Qed.

(** The second half, when there is a table in SRAM. *)
Lemma with_sram_run n x g g1 k ip num p0 :
  nat_mutex_init x = true -> curr_state (sm_obj x) = NATI_STATE_HYBRID ->
  (forall sub, maps_at (sm_maps x) sub ∅ ∅) -> tot_rules_in_table (sm_obj x) = mk_two 0 0 ->
  idle g IPA_NAT_MEM_IN_DDR -> 0 <= num -> zget (pdns g) 0 = Some p0 ->
  Z.of_nat (length (pdns g)) = IPA_MAX_PDN_NUM -> table_added g g1 IPA_NAT_MEM_IN_SRAM ip ->
  sram_tbl_hdl (sm_obj x) = MAKE_TBL_HDL 1 IPA_NAT_MEM_IN_SRAM ->
  cl_tbl_hdl (sm_client x) = MAKE_TBL_HDL 1 IPA_NAT_MEM_IN_SRAM ->
  exists st x' g' k',
    (o ← get_obj;
     if tot_slots_in_sram o >=? num then
       _ ← mod_obj (fun o => SET_NATIOBJ_STATE o NATI_STATE_SRAM_ONLY);
       mret 0
     else
       ret ← _smAddDdrTbl (ArgsAddTbl ip num LocalHdl None);
       if ret =? 0 then ipa_nati_statemach (Datatypes.S n) NATI_TRIG_GOTO_SRAM ArgsNone else mret ret) (x, (g1, k)) =
      Ok (st, (x', (g', k'))) /\ started g ip num x' g'.
Proof.
  intros Hi Hc Hm Ht HiD Hn Hp0 Hlen HS Hsh Hcl. erewrite bind_ok by done. cbn [fst].
  rewrite Z.geb_leb. destruct (Z.leb_spec num (tot_slots_in_sram (sm_obj x))) as [Hle|Hgt].
  { erewrite bind_ok by done. eexists 0, _, g1, k. split; [done|]. right. left. by split_and!. }
  destruct (start_pdns _ _ _ _ _ HS Hp0) as (Hp1 & Hl1 & Ho1).
  destruct (add_ddr_run x g1 k ip num LocalHdl None _ (idle_other g g1 IPA_NAT_MEM_IN_SRAM IPA_NAT_MEM_IN_DDR ltac:(done) Ho1 HiD) Hn Hp1)
    as (st & x2 & g2 & k2 & Hddr & [Hco Hto Hma Hin] & Hsr & Hsl & Hout).
  erewrite bind_ok by exact Hddr.
  destruct Hout as [(-> & HD & Hdh & _ & Hcl2)|(Hst & HD & Hcl2)].
  2: { rewrite (proj2 (Z.eqb_neq st 0)) by done. exists st, x2, g2, k2. split; [done|]. do 3 right. left.
       rewrite Hcl2, (curr_core _ _ Hco). split; [done|]. split; [done|]. by exists g1. }
  cbn [Z.eqb]. specialize (Hcl2 eq_refl).
  destruct (start_pdns _ _ _ _ _ HD Hp1) as (Hp2 & Hl2 & Ho2).
  assert (Hh : forall sub, hdl_of sub (sm_obj x2) = MAKE_TBL_HDL 1 (sub_nmi sub)).
  { intros []; [done|]. cbn. by rewrite Hsr. }
  destruct (added_holds x2 g g1 g2 SRAM_SUB ip HS) as (p & Hhold & _);
    [by apply Ho2|done|rewrite Hma; apply Hm|].
  destruct (goto_run Hw n SRAM_SUB SRAM_SUB x2 g2 k2 p) as (x3 & g3 & k3 & Hgoto & Hres);
    [by rewrite (curr_core _ _ Hco)|by rewrite Hin|done|by eapply holds_open|].
  exists 0, x3, g3, k3. split; [exact Hgoto|].
  destruct Hres as [[-> ->]|([Hbad|Hbad] & _)]; [|by destruct (proj1 Hf)|by destruct (proj2 Hf)].
  left. cbn [moved_to sm_client sm_obj]. rewrite Hcl2. split; [done|]. split; [cbn; lia|]. split; [|split; [done|]].
  - eapply (hybrid_start _ g g1 g2 _ ip ip); try done.
    + split; [done| |by cbn; rewrite Hin]. cbn. rewrite (curr_core _ _ Hco), Hc. done.
    + cbn. by rewrite Hl2, Hl1.
    + intros sub. cbn. rewrite Hma. apply Hm.
    + cbn. by rewrite Hto.
  - cbn. rewrite Hsr, Hcl. split; [done|]. split; [|rewrite (proj2 Ho2); apply Ho1].
    by eexists p0, _.
Qed.

Lemma add_both_run n x g k ip num mt p0 :
  nat_mutex_init x = true -> curr_state (sm_obj x) = NATI_STATE_HYBRID ->
  (forall sub, exists a b, maps_at (sm_maps x) sub a b) -> cl_tbl_hdl (sm_client x) = 0 ->
  idle g IPA_NAT_MEM_IN_SRAM -> idle g IPA_NAT_MEM_IN_DDR -> 0 <= num -> zget (pdns g) 0 = Some p0 ->
  Z.of_nat (length (pdns g)) = IPA_MAX_PDN_NUM ->
  exists st x' g' k',
    _smAddSramAndDdrTbl (ipa_nati_statemach (Datatypes.S n)) (ArgsAddTbl ip num ClientHdl mt) (x, (g, k)) =
      Ok (st, (x', (g', k'))) /\ started g ip num x' g'.
Proof.
  intros Hi Hc Hm Hcl HiS HiD Hn Hp0 Hlen. unfold _smAddSramAndDdrTbl.
  destruct (Hm SRAM_SUB) as (a & b & Hms), (Hm DDR_SUB) as (a' & b' & Hmd).
  destruct (forget_run x (g, k) _ _ _ _ Hms Hmd) as (x1 & Hforget & Hco & Hto & Hc1 & Hi1 & Hm1).
  erewrite bind_ok by exact Hforget.
  destruct (add_sram_run x1 g k ip num ClientHdl mt p0 HiS Hp0) as (st & x2 & g2 & k2 & Hsram & [Hco2 Hto2 Hma2 Hin2] & _ & Hout).
  erewrite bind_ok by exact Hsram.
  assert (Hcurr : curr_state (sm_obj x2) = NATI_STATE_HYBRID) by (by rewrite (curr_core _ _ Hco2), (curr_core _ _ Hco)).
  destruct Hout as [(-> & HS & Hsh & Hch)|(Hst & (HiS2 & Hp2 & Ho2) & Hcl2)].
  - cbn [Z.eqb]. apply with_sram_run with (p0 := p0); try done.
    + by rewrite Hin2, Hi1.
    + intros sub. rewrite Hma2. apply Hm1.
    + by rewrite Hto2, Hto.
    + by apply Hch.
  - rewrite (proj2 (Z.eqb_neq st 0)) by done.
    destruct (add_ddr_run x2 g2 k2 ip num ClientHdl mt p0) as (st3 & x3 & g3 & k3 & Hddr & [Hco3 _ _ _] & _ & _ & Hout).
    { by eapply (idle_other g g2 IPA_NAT_MEM_IN_SRAM). } { done. } { by rewrite Hp2. }
    erewrite bind_ok by exact Hddr.
    destruct Hout as [(-> & HD & _ & Hch & _)|(Hst3 & HD & Hcl3)].
    + cbn [Z.eqb]. erewrite bind_ok by done. eexists 0, _, g3, k3. split; [done|]. do 2 right. left.
      split; [by apply Hch|]. split; [done|]. by exists g2.
    + rewrite (proj2 (Z.eqb_neq st3 0)) by done. erewrite bind_ok by done.
      exists st3, x3, g3, k3. split; [done|]. do 4 right. rewrite (curr_core _ _ Hco3).
      split; [congruence|]. split; [done|]. by exists g2.
Qed.

(** [ipa_nat_add_ipv4_tbl] with the memory type HYBRID, the first call of the library. *)
Lemma hybrid_create_run x g k ip mem_type num p0 :
  nat_mutex_init x = false -> curr_state (sm_obj x) = NATI_STATE_NULL -> hold_state (sm_obj x) = false ->
  mem_type_str_to_ipa_nati_state (Some mem_type) = NATI_STATE_HYBRID -> 0 < num ->
  (forall sub, exists a b, maps_at (sm_maps x) sub a b) ->
  idle g IPA_NAT_MEM_IN_SRAM -> idle g IPA_NAT_MEM_IN_DDR -> zget (pdns g) 0 = Some p0 ->
  Z.of_nat (length (pdns g)) = IPA_MAX_PDN_NUM ->
  exists x' g' k', ipa_nat_add_ipv4_tbl ip (Some mem_type) num false (x, (g, k)) = Ok (0, (x', (g', k'))) /\
    nat_mutex_init x' = true /\ started g ip num x' g'.
Proof.
  intros Hi Hc Hh Hmt Hnum Hm HiS HiD Hp0 Hlen.
  apply (first_entry Hw x g k ip mem_type num NATI_STATE_HYBRID); try done.
  intros k1. apply (add_both_run 0 (mk_sm _ _ _ _) g k1 ip num (Some mem_type) p0); try done. lia.
Qed.
End creation.
