(* ===== verification/Demo.v ===== *)
(** * Concrete states

    A NAT table and an IPv6CT table created and filled by the code itself on the
    system of [SimOs], for the theorems' witnesses. *)

From Stdlib Require Import ZArith Lia.
From stdpp Require Import prelude gmap list numbers.
From S2P Require Import Prelude Chain Bitfield IpaTable IpaTableRep Dma TableDma TableSetup.
From S2P Require Import RuleTable Os NatUtils MemDescriptor MemProps Ipv6ct Ipv6ctLaws.
From S2P Require Import Ipv6ctProps Ipv6ctApi NatRule NatRuleLaws NatDrvi SimOs NatTables.
From S2P Require Import NatDrviProps NatDrviDel NatCreate NatApi NatTblApi.

Local Open Scope Z_scope.

Definition run_state {S A} (r : res (A * S)) (s0 : S) : S :=
  match r with Ok (_, s) => s | _ => s0 end.
Definition run_result {S A} (r : res (A * S)) (a0 : A) : A :=
  match r with Ok (a, _) => a | _ => a0 end.

(** ** NAT *)
(** The library's static data before the first call. *)
Definition globals0 : nat_globals :=
  mk_globals [cache_zero; cache_zero] None (replicate 16 pdn_zero) 0 0.

Definition demo_ip : Z := 167772161.
Definition demo_hdl : Z := MAKE_TBL_HDL 1 0.

(** After [ipa_NATI_add_ipv4_tbl] of 20 entries in DDR. *)
Definition demo_g : nat_globals :=
  fst (run_state (ipa_NATI_add_ipv4_tbl 0 demo_ip 20 (globals0, sim0)) (globals0, sim0)).
Definition demo_cache : ipa_nat_cache := default cache_zero (zget (ipv4_nat_cache demo_g) 0).
Definition demo_n : ipa_nat_ip4_table_cache := default nat_table_zero (zget (ip4_tbl demo_cache) 0).
Definition demo_desc : ipa_descriptor := mk_descriptor 3 13.

Definition demo_rule : ipa_nat_ipv4_rule :=
  mk_ipv4_rule 134744072 3232235777 443 5000 6000 6 0 1 1 77 0 false false false false.
Definition demo_pdn : ipa_nat_pdn_entry := mk_pdn demo_ip 0 0.

Lemma vacant0 nmi : nmi = 0 \/ nmi = 1 -> vacant globals0 nmi.
Proof. intros [-> | ->]; by exists cache_zero, nat_table_zero. Qed.

Lemma demo_added : ready demo_g demo_hdl 0 1 demo_cache demo_n demo_desc /\
  table_cnt demo_cache = 1 /\ ip4_tbl demo_cache = [demo_n] /\
  forall i, rules_of (table demo_n) i = None.
Proof.
  destruct (add_tbl_api globals0 sim0 0 demo_ip 20 pdn_zero) as (st & hdl & g' & k1 & Hrun & Hout);
    [done|by apply vacant_idle, vacant0; left|done|done|done|].
  cbv zeta in Hrun.
  assert (Hg : g' = demo_g) by (unfold demo_g; by rewrite Hrun).
  assert (Hres : run_result (ipa_NATI_add_ipv4_tbl 0 demo_ip 20 (globals0, sim0)) (1, 0) = (0, demo_hdl))
    by (vm_compute; reflexivity).
  rewrite Hrun in Hres. cbn [run_result] in Hres.
  destruct Hout as [(-> & -> & Hadd)|(Hst & -> & _)]; [|by case_match; [|injection Hres as ?]].
  destruct Hadd as (c & n & desc & R & Hcnt & Ht & _ & Hnone & _). rewrite Hg in R.
  pose proof (rd_at _ _ _ _ _ _ _ R) as [Hc Hn].
  assert (c = demo_cache) as -> by (unfold demo_cache; by rewrite Hc).
  assert (n = demo_n) as -> by (unfold demo_n; change 0 with (1 - 1); by rewrite Hn).
  assert (desc = demo_desc) as ->; [|by split_and!].
  pose proof (rd_desc _ _ _ _ _ _ _ R) as Hd.
  assert (He : ipa_desc demo_cache = Some demo_desc) by (vm_compute; reflexivity). congruence.
Qed.

Lemma demo_ready : ready demo_g demo_hdl 0 1 demo_cache demo_n demo_desc.
Proof. apply demo_added. Qed.

Lemma demo_acceptable : acceptable demo_g demo_rule demo_pdn.
Proof.
  split_and!; [|done|vm_compute; reflexivity|done|vm_compute; reflexivity].
  unfold wf_ipv4_rule. apply fitsb_fits. vm_compute. reflexivity.
Qed.

(** After the addition of [demo_rule] to it. *)
Definition demo_add : res (Z * option Z * (nat_globals * sim)) :=
  ipa_NATI_add_ipv4_rule demo_hdl demo_rule (demo_g, sim0).
Definition demo_g1 : nat_globals := fst (run_state demo_add (demo_g, sim0)).
Definition demo_rule_hdl : Z := default 0 (snd (run_result demo_add (0, None))).
Definition demo_cache1 : ipa_nat_cache := default cache_zero (zget (ipv4_nat_cache demo_g1) 0).
Definition demo_n1 : ipa_nat_ip4_table_cache := default nat_table_zero (zget (ip4_tbl demo_cache1) 0).
Definition demo_slot : Z := snd (BREAK_RULE_HDL (table demo_n) demo_rule_hdl).

Lemma demo_ready1 : ready demo_g1 demo_hdl 0 1 demo_cache1 demo_n1 demo_desc /\
  is_Some (rules_of (table demo_n1) demo_slot).
Proof.
  destruct (add_rule_api demo_g sim0 demo_hdl 0 1 demo_cache demo_n demo_desc demo_rule demo_pdn)
    as (st & h & n' & g1 & k1 & Hrun & (tok & Hg1 & _) & Hout);
    [apply demo_ready|done|apply demo_acceptable|done|vm_compute; split; congruence|done|].
  cbv zeta in Hrun.
  assert (Hg : with_table g1 0 1 demo_cache n' = demo_g1).
  { unfold demo_g1, demo_add. rewrite Hrun. by repeat case_match. }
  assert (Hc : zget (ipv4_nat_cache g1) 0 = Some demo_cache) by (rewrite Hg1; apply demo_ready).
  pose proof (with_table_at g1 0 1 demo_cache demo_n n' ltac:(split; [done|apply demo_ready])) as [Hat Hn'].
  rewrite Hg in Hat.
  assert (Hcache : set_tbls demo_cache (zset (ip4_tbl demo_cache) (1 - 1) n') = demo_cache1)
    by (unfold demo_cache1; by rewrite Hat).
  rewrite Hcache in *. assert (n' = demo_n1) as -> by (unfold demo_n1; change 0 with (1 - 1); by rewrite Hn').
  destruct Hout as (Hok & _ & Hmd & _ & _ & _). split; [|vm_compute; by eexists].
  split; [done|done|by split| |by rewrite <- Hcache; apply demo_ready|done].
  rewrite Hmd. apply demo_ready.
Qed.

(** ** IPv6CT *)
Definition demo_ct_g : ipa_ipv6ct :=
  fst (run_state (ipa_ipv6ct_add_tbl 20 false (ipv6ct_zero, sim0)) (ipv6ct_zero, sim0)).
Definition demo_ct_n : ipa_ipv6ct_table := default ct_table_zero (zget (ct_tables demo_ct_g) 0).
Definition demo_ct_rule : ipa_ipv6ct_rule := mk_ct_rule 1 2 3 4 3 false false 0 80 443 6.

Lemma demo_ct_ready : ct_ready demo_ct_g 1 demo_ct_n demo_desc.
Proof.
  destruct (ct_add_tbl_api ipv6ct_zero sim0 20) as (st & h & g' & k' & Hrun & Hout);
    [by exists ct_table_zero|done|].
  assert (Hg : g' = demo_ct_g) by (unfold demo_ct_g; by rewrite Hrun).
  assert (Hres : run_result (ipa_ipv6ct_add_tbl 20 false (ipv6ct_zero, sim0)) (1, None) = (0, Some 1))
    by (vm_compute; reflexivity).
  rewrite Hrun in Hres. cbn [run_result] in Hres. injection Hres as -> ->.
  destruct Hout as [(_ & _ & n & d & R & _)|(Hst & _)]; [|by destruct (Hst eq_refl)]. rewrite Hg in R.
  assert (n = demo_ct_n) as -> by (unfold demo_ct_n; by rewrite (cr_at _ _ _ _ R)).
  assert (d = demo_desc) as ->; [|done].
  pose proof (cr_desc _ _ _ _ R) as Hd.
  assert (He : ct_ipa_desc demo_ct_g = Some demo_desc) by (vm_compute; reflexivity). congruence.
Qed.

Lemma demo_ct_acceptable : ct_acceptable demo_ct_rule.
Proof. split_and!; [apply fitsb_fits; vm_compute; reflexivity|done|done]. Qed.

Definition demo_ct_add : res (Z * option Z * (ipa_ipv6ct * sim)) :=
  ipa_ipv6ct_add_rule 1 (Some demo_ct_rule) false (demo_ct_g, sim0).
Definition demo_ct_g1 : ipa_ipv6ct := fst (run_state demo_ct_add (demo_ct_g, sim0)).
Definition demo_ct_hdl : Z := default 0 (snd (run_result demo_ct_add (0, None))).
Definition demo_ct_n1 : ipa_ipv6ct_table := default ct_table_zero (zget (ct_tables demo_ct_g1) 0).
Definition demo_ct_slot : Z := snd (BREAK_RULE_HDL (ct_table demo_ct_n) demo_ct_hdl).

Lemma demo_ct_ready1 : ct_ready demo_ct_g1 1 demo_ct_n1 demo_desc /\
  is_Some (ct_rules (ct_table demo_ct_n1) demo_ct_slot).
Proof.
  destruct (ct_add_rule_api demo_ct_g sim0 1 demo_ct_n demo_desc demo_ct_rule)
    as (st & h & n' & k1 & Hrun & Hout); [apply demo_ct_ready|apply demo_ct_acceptable|done|].
  cbv zeta in Hrun. destruct Hout as (Hok & Hmd & _).
  assert (Hg : ct_set_table demo_ct_g 1 n' = demo_ct_g1).
  { unfold demo_ct_g1, demo_ct_add. rewrite Hrun. by repeat case_match. }
  pose proof (ct_ready_with _ _ _ _ _ demo_ct_ready Hmd Hok) as R. rewrite Hg in R.
  assert (n' = demo_ct_n1) as -> by (unfold demo_ct_n1; by rewrite (cr_at _ _ _ _ R)).
  split; [done|]. vm_compute. by eexists.
Qed.

(** Both additions succeed. *)
Lemma demo_add_run : ipa_NATI_add_ipv4_rule demo_hdl demo_rule (demo_g, sim0) =
  Ok ((0, Some demo_rule_hdl), (demo_g1, sim0)).
Proof. vm_compute. reflexivity. Qed.

Lemma demo_token : 0 <= Hash_token demo_g < 2 ^ 31 - 2 ^ 17 - 1.
Proof. vm_compute. split; congruence. Qed.

Lemma demo_ct_add_run : ipa_ipv6ct_add_rule 1 (Some demo_ct_rule) false (demo_ct_g, sim0) =
  Ok ((0, Some demo_ct_hdl), (demo_ct_g1, sim0)).
Proof. vm_compute. reflexivity. Qed.

(** A second rule with the first one's index entry as its chain's head: the index
    hash does not depend on the public port. *)
Definition demo_rule2 : ipa_nat_ipv4_rule :=
  mk_ipv4_rule 134744072 3232235777 443 5000 6001 6 0 0 0 0 0 false false false false.
Definition demo_add2 : res (Z * option Z * (nat_globals * sim)) :=
  ipa_NATI_add_ipv4_rule demo_hdl demo_rule2 (demo_g1, sim0).
Definition demo_g2 : nat_globals := fst (run_state demo_add2 (demo_g1, sim0)).
Definition demo_rule2_hdl : Z := default 0 (snd (run_result demo_add2 (0, None))).

Lemma demo_add2_run : ipa_NATI_add_ipv4_rule demo_hdl demo_rule2 (demo_g1, sim0) =
  Ok ((0, Some demo_rule2_hdl), (demo_g2, sim0)).
Proof. vm_compute. reflexivity. Qed.

Lemma demo_acceptable2 : acceptable demo_g1 demo_rule2 demo_pdn.
Proof.
  split_and!; [|done|vm_compute; reflexivity|done|vm_compute; reflexivity].
  unfold wf_ipv4_rule. apply fitsb_fits. vm_compute. reflexivity.
Qed.

Definition demo_cache2 : ipa_nat_cache := default cache_zero (zget (ipv4_nat_cache demo_g2) 0).
Definition demo_n2 : ipa_nat_ip4_table_cache := default nat_table_zero (zget (ip4_tbl demo_cache2) 0).

Lemma demo_ready2 : ready demo_g2 demo_hdl 0 1 demo_cache2 demo_n2 demo_desc /\
  is_Some (rules_of (table demo_n2) demo_slot).
Proof.
  destruct (add_rule_done _ _ _ _ _ _ _ _ _ _ _ _ _ sim_lock sim_unlock (proj1 demo_ready1) eq_refl
    demo_acceptable2 ltac:(discriminate) ltac:(vm_compute; split; congruence) demo_add2_run)
    as (new & c & n & _ & _ & _ & R & _).
  pose proof (rd_at _ _ _ _ _ _ _ R) as [Hc Hn].
  assert (c = demo_cache2) as -> by (unfold demo_cache2; by rewrite Hc).
  assert (n = demo_n2) as -> by (unfold demo_n2; change 0 with (1 - 1); by rewrite Hn).
  split; [done|]. vm_compute. by eexists.
Qed.

(** The system with the DMA command failing. *)
Definition sim_no_dma : sim := mk_sim [SysDma] 1 1 1.
