(* ===== verification/NatProps.v ===== *)
(** * Properties of the NAT driver

    Claims about [ipa_nat_drvi.c], each with a witness on the tables of [Demo]. *)

From Stdlib Require Import ZArith Lia.
From stdpp Require Import prelude gmap list numbers.
From S2P Require Import Prelude CFloat Chain Bitfield IpaTable IpaTableRep Dma TableDma TableSetup.
From S2P Require Import RuleTable Os NatUtils MemDescriptor NatRule NatRuleLaws NatDrvi SimOs.
From S2P Require Import NatTables NatDrviProps NatDrviDel NatCreate NatApi NatTblApi NatRefine NatPdn.
From S2P Require Import Demo.

Local Open Scope Z_scope.

(** ** Tables of the witnesses *)
Lemma demo_represents : represents demo_hdl demo_g store_empty.
Proof.
  destruct demo_added as (R & Hcnt & _ & Hnone).
  exists 0, 1, demo_cache, demo_n, demo_desc. split; [exact R|]. split; [done|].
  rewrite Hcnt. split; [done|]. intros h. symmetry. by apply store_of_empty.
Qed.

Section nat_props.
Context {K : Type} `{Os : OsOps K} `{NOs : !NatOs K} `{NL : !NatOsLaws} `{U : IpaUapi} `{UL : !IpaUapiLaws}.
Implicit Types (g : nat_globals) (k : K).

(** ** The table as a map *)
(** C1. From a table without rules, every history of additions, deletions, time
    stamp queries and clearings through [ipa_nat_drvi.c], up to a deletion that the
    kernel refuses, is a history of a map from handles to rules in force: an addition
    binds a fresh non-zero handle or is refused without effect, a deletion removes
    exactly its handle, a query returns the rule's time stamp.  In every state of such
    a history each legal operation runs to its end. *)
Theorem nat_table_refines_map tbl_hdl g0 k0 g k tr :
  (forall m k, fst (pthread_mutex_lock (K := K) m k) = 0) ->
  (forall m k, fst (pthread_mutex_unlock (K := K) m k) = 0) ->
  represents tbl_hdl g0 store_empty -> code_history tbl_hdl g0 k0 (g, k) tr ->
  exists S, spec_history (pdns g0) S tr /\ represents tbl_hdl g S /\
    forall op, legal g S op ->
      exists a g' k', run_op tbl_hdl op (g, k) = Ok (a, (g', k')) /\
        (del_refused op a \/ exists S', represents tbl_hdl g' S' /\ nat_spec (pdns g0) S op a S').
Proof.
  intros Hl Hu H0 Hist. destruct (history_refines Hl Hu _ _ _ _ _ H0 Hist) as (S & Hspec & HR & Hp).
  exists S. split_and!; [done..|]. intros op Hlegal.
  destruct (refine_step Hl Hu g k tbl_hdl S op HR Hlegal) as (a & g' & k' & Hrun & Hout).
  exists a, g', k'. split; [done|]. cbn [fst] in *. rewrite <- Hp.
  destruct Hout as [|(S' & _ & ? & ?)]; eauto.
Qed.

(** ** Rules *)
(** C9. [ipa_NATI_add_ipv4_rule] on a table that satisfies the invariant, with a rule
    of known PDN: on success the caller gets the handle of a slot that was free, the
    slot holds the rule with its checksums and every other slot what it held; on
    failure no slot's rule has changed.  Either way the invariant of the pair of
    tables holds again. *)
Theorem nat_add_rule g k tbl_hdl nmi hdl c n desc u pdn :
  ready g tbl_hdl nmi hdl c n desc -> VALID_TBL_HDL tbl_hdl = true ->
  acceptable g u pdn -> public_ip pdn <> 0 -> 0 <= Hash_token g < 2 ^ 31 - 2 ^ 17 - 1 ->
  fst (pthread_mutex_lock nat_mutex k) = 0 ->
  exists st h n' g1 k1, let un := pthread_mutex_unlock nat_mutex k1 in
    ipa_NATI_add_ipv4_rule tbl_hdl u (g, k) =
      Ok (if negb (st =? 0) then (st, Some 0)
          else if negb (fst un =? 0) then (- EPERM, Some 0) else (0, h),
          (with_table g1 nmi hdl c n', snd un)) /\
    (exists tok, g1 = set_Hash_token g tok /\ Hash_token g <= tok <= Hash_token g + 2) /\
    nat_ok n' /\ mem_desc n' = mem_desc n /\
    ((st = 0 /\ exists new, h = Some (MakeEntryHdl (table n) new) /\
        0 < new < tot_tbl_ents (table n) /\ rules_of (table n) new = None /\
        forall i, rules_of (table n') i =
          if decide (i = new) then Some (rule_in_force pdn u 0) else rules_of (table n) i) \/
     (st <> 0 /\ h = None /\ forall i, rules_of (table n') i = rules_of (table n) i)).
Proof.
  intros R Hv Ha Hip Ht Hl.
  destruct (add_rule_api g k _ _ _ _ _ _ _ _ R Hv Ha Hip Ht Hl)
    as (st & h & n' & g1 & k1 & Hrun & Hg & Hok & _ & Hmd & _ & _ & Hout).
  by exists st, h, n', g1, k1.
Qed.

(** C10. [ipa_NATI_del_ipv4_rule] with the handle of a rule in force: the rule is gone,
    every other slot holds what it held and the invariant holds; or the kernel refused
    the commands, the status is -EIO and no slot's rule has changed. *)
Theorem nat_del_rule g k tbl_hdl nmi hdl c n desc i :
  ready g tbl_hdl nmi hdl c n desc -> is_Some (rules_of (table n) i) ->
  fst (pthread_mutex_lock nat_mutex k) = 0 ->
  exists st n' k1, let un := pthread_mutex_unlock nat_mutex k1 in
    ipa_NATI_del_ipv4_rule tbl_hdl (MakeEntryHdl (table n) i) (g, k) =
      Ok (if negb (fst un =? 0) then (if negb (st =? 0) then st else - EPERM) else st,
          (with_table g nmi hdl c n', snd un)) /\
    ((st = 0 /\ nat_ok n' /\
        forall q, rules_of (table n') q = if decide (q = i) then None else rules_of (table n) q) \/
     (st = - EIO /\ forall q, rules_of (table n') q = rules_of (table n) q)).
Proof.
  intros R Hi Hl. destruct (del_rule_api g k _ _ _ _ _ _ _ R Hi Hl) as (st & n' & k1 & Hrun & _ & _ & Hout).
  exists st, n', k1. split; [done|]. destruct Hout as [(? & ? & _ & _ & ?)|(? & _ & ? & _)]; auto.
Qed.

(** C15. Deleting the rule just added restores the map of rules, when the kernel
    accepts the commands. *)
Theorem nat_add_del_roundtrip g k tbl_hdl nmi hdl c n desc u pdn h g1 k1 g2 k2 :
  (forall m k, fst (pthread_mutex_lock (K := K) m k) = 0) ->
  (forall m k, fst (pthread_mutex_unlock (K := K) m k) = 0) ->
  ready g tbl_hdl nmi hdl c n desc -> VALID_TBL_HDL tbl_hdl = true ->
  acceptable g u pdn -> public_ip pdn <> 0 -> 0 <= Hash_token g < 2 ^ 31 - 2 ^ 17 - 1 ->
  ipa_NATI_add_ipv4_rule tbl_hdl u (g, k) = Ok ((0, h), (g1, k1)) ->
  ipa_NATI_del_ipv4_rule tbl_hdl (default 0 h) (g1, k1) = Ok (0, (g2, k2)) ->
  exists c2 n2, ready g2 tbl_hdl nmi hdl c2 n2 desc /\
    forall i, rules_of (table n2) i = rules_of (table n) i.
Proof.
  intros Hlk Hul R Hv Ha Hip Ht Hadd Hdel.
  destruct (add_rule_done _ _ _ _ _ _ _ _ _ _ _ _ _ Hlk Hul R Hv Ha Hip Ht Hadd)
    as (new & c' & n' & -> & Hnew & Hfree & R1 & Hsh & _ & _ & Hupd). unfold default, id in Hdel. cbn [from_option] in Hdel.
  destruct (del_rule_api _ k1 _ _ _ _ _ _ new R1 ltac:(rewrite Hupd, decide_True by done; by eexists) (Hlk _ _))
    as (st & n2 & k2' & Hrun & _ & Hmd2 & Hout).
  cbv zeta in Hrun. rewrite Hul, Hdel in Hrun. cbn [negb Z.eqb] in Hrun.
  injection Hrun as <- -> _. destruct Hout as [(_ & Hok2 & _ & _ & Hupd2)|(? & _)]; [|done].
  eexists _, n2. split; [by eapply ready_with_table|].
  intros i. rewrite Hupd2, Hupd. case_decide; [by subst|done].
Qed.

(** The time stamp of a rule just added is the client's, up to the record's 24 bits. *)
Theorem nat_add_query g k tbl_hdl nmi hdl c n desc u pdn h g1 k1 :
  (forall m k, fst (pthread_mutex_lock (K := K) m k) = 0) ->
  (forall m k, fst (pthread_mutex_unlock (K := K) m k) = 0) ->
  ready g tbl_hdl nmi hdl c n desc -> VALID_TBL_HDL tbl_hdl = true ->
  acceptable g u pdn -> public_ip pdn <> 0 -> 0 <= Hash_token g < 2 ^ 31 - 2 ^ 17 - 1 ->
  ipa_NATI_add_ipv4_rule tbl_hdl u (g, k) = Ok ((0, h), (g1, k1)) ->
  exists k2, ipa_NATI_query_timestamp tbl_hdl (default 0 h) (g1, k1) =
    Ok ((0, Some (u_time_stamp u mod 2 ^ 24)), (g1, k2)).
Proof.
  intros Hlk Hul R Hv Ha Hip Ht Hadd.
  destruct (add_rule_done _ _ _ _ _ _ _ _ _ _ _ _ _ Hlk Hul R Hv Ha Hip Ht Hadd)
    as (new & c' & n' & -> & _ & _ & R1 & _ & _ & _ & Hupd). cbn [default].
  pose proof (query_timestamp_api _ k1 _ _ _ _ _ _ new _ R1 ltac:(by rewrite Hupd, decide_True) (Hlk _ _)) as Hq.
  cbv zeta in Hq. rewrite Hul in Hq. cbn [negb Z.eqb] in Hq. eexists. exact Hq.
Qed.
End nat_props.

Lemma nat_table_refines_map_witness :
  exists S, spec_history (pdns demo_g) S [(NatAdd demo_rule, (0, Some demo_rule_hdl))] /\
    represents demo_hdl demo_g1 S.
Proof.
  destruct (nat_table_refines_map demo_hdl demo_g sim0 demo_g1 sim0
    [(NatAdd demo_rule, (0, Some demo_rule_hdl))] sim_lock sim_unlock
    demo_represents) as (S & H1 & H2 & _); [|exists S; split; [exact H1|exact H2]].
  eapply code_next; [constructor| |exact demo_add_run|intros []].
  intros S _ _. exists demo_pdn. split; [apply demo_acceptable|]. split; [discriminate|apply demo_token].
Defined.

Lemma nat_add_rule_witness :
  exists r, ipa_NATI_add_ipv4_rule demo_hdl demo_rule (demo_g, sim0) = Ok r.
Proof.
  destruct (nat_add_rule demo_g sim0 demo_hdl 0 1 demo_cache demo_n demo_desc demo_rule demo_pdn
    demo_ready eq_refl demo_acceptable ltac:(discriminate) demo_token (sim_lock _ _)) as (st & h & n' & g1 & k1 & H & _).
  eexists. exact H.
Defined.

Lemma nat_del_rule_witness :
  exists r, ipa_NATI_del_ipv4_rule demo_hdl (MakeEntryHdl (table demo_n1) demo_slot) (demo_g1, sim0) = Ok r.
Proof.
  destruct demo_ready1 as [R Hr].
  destruct (nat_del_rule demo_g1 sim0 _ _ _ _ _ _ _ R Hr (sim_lock _ _)) as (st & n' & k1 & H & _).
  eexists. exact H.
Defined.

(** The state after the deletion of [demo_rule]. *)
Definition demo_del : res (Z * (nat_globals * sim)) :=
  ipa_NATI_del_ipv4_rule demo_hdl demo_rule_hdl (demo_g1, sim0).

Lemma nat_add_del_roundtrip_witness :
  exists c2 n2, ready (fst (run_state demo_del (demo_g1, sim0))) demo_hdl 0 1 c2 n2 demo_desc /\
    forall i, rules_of (table n2) i = rules_of (table demo_n) i.
Proof.
  apply (nat_add_del_roundtrip demo_g sim0 demo_hdl 0 1 demo_cache demo_n demo_desc demo_rule demo_pdn
    (Some demo_rule_hdl) demo_g1 sim0 _ sim0 sim_lock sim_unlock demo_ready eq_refl
    demo_acceptable ltac:(discriminate) demo_token demo_add_run).
  vm_compute. reflexivity.
Defined.

Lemma nat_add_query_witness :
  exists k2, ipa_NATI_query_timestamp demo_hdl demo_rule_hdl (demo_g1, sim0) =
    Ok ((0, Some (u_time_stamp demo_rule mod 2 ^ 24)), (demo_g1, k2)).
Proof.
  apply (nat_add_query demo_g sim0 demo_hdl 0 1 demo_cache demo_n demo_desc demo_rule demo_pdn
    (Some demo_rule_hdl) demo_g1 sim0 sim_lock sim_unlock demo_ready eq_refl
    demo_acceptable ltac:(discriminate) demo_token demo_add_run).
Defined.
