(* ===== verification/NatTblProps.v ===== *)
(** * Properties of the NAT driver: tables, errors and records

    Creation, destruction and clearing of a table, what is refused, and what the
    record of a rule holds. *)

From Stdlib Require Import ZArith Lia.
From stdpp Require Import prelude gmap list numbers.
From S2P Require Import Prelude CFloat Chain Bitfield IpaTable IpaTableRep Dma TableDma TableSetup.
From S2P Require Import RuleTable Os NatUtils MemDescriptor NatRule NatRuleLaws NatDrvi SimOs.
From S2P Require Import NatTables NatDrviProps NatDrviDel NatCreate NatApi NatTblApi Demo.

Local Open Scope Z_scope.

Section tbl_props.
Context {K : Type} `{Os : OsOps K} `{NOs : !NatOs K} `{NL : !NatOsLaws} `{U : IpaUapi} `{UL : !IpaUapiLaws}.
Implicit Types (g : nat_globals) (k : K).

(** C32. [ipa_NATI_add_ipv4_tbl] on a memory type without a table: either it succeeds, the
    handle names a table ready for use and without rules, the public address is the
    one given and the first PDN entry has it; or it fails, the handle is 0, the device
    is closed, no table is left and the PDN entries are unchanged. *)
Theorem nat_add_tbl g k nmi ip num p0 :
  IPA_VALID_NAT_MEM_IN nmi = true -> vacant g nmi -> 0 <= num -> zget (pdns g) 0 = Some p0 ->
  fst (pthread_mutex_lock nat_mutex k) = 0 ->
  exists st hdl g' k1, let un := pthread_mutex_unlock nat_mutex k1 in
    ipa_NATI_add_ipv4_tbl nmi ip num (g, k) =
      Ok ((if negb (fst un =? 0) then - EPERM else st, hdl), (g', snd un)) /\
    ((st = 0 /\ hdl = MAKE_TBL_HDL 1 nmi /\ exists c n desc,
        ready g' hdl nmi 1 c n desc /\ public_addr n = ip /\ (forall i, rules_of (table n) i = None) /\
        num_pdns g' = 1 /\ zget (pdns g') 0 = Some (mk_pdn ip (src_metadata p0) (dst_metadata p0))) \/
     (st <> 0 /\ hdl = 0 /\ vacant g' nmi /\ pdns g' = pdns g)).
Proof.
  intros Hv Hvac Hn Hp Hl.
  destruct (add_tbl_api g k nmi ip num p0 Hv (vacant_idle _ _ Hvac) Hn Hp Hl) as (st & hdl & g' & k1 & Hrun & Hout).
  exists st, hdl, g', k1. split; [exact Hrun|].
  destruct Hout as [(-> & -> & c & n & desc & R & _ & _ & Hip & Hnone & _ & Hnum & _ & Hpdn)|(? & -> & ? & ? & _)];
    [left|by right].
  split; [done|]. split; [done|]. exists c, n, desc. split_and!; try done.
  by rewrite (proj1 Hpdn 0 p0 Hp), decide_True.
Qed.

(** [ipa_NATI_del_ipv4_table] of the last table: on success the memory type has no
    table and no open device, so that [nat_add_tbl] applies again; the PDN entries stay. *)
Theorem nat_del_tbl g k tbl_hdl nmi hdl c n desc :
  ready g tbl_hdl nmi hdl c n desc -> table_cnt c = 1 -> ip4_tbl c = [n] ->
  fst (pthread_mutex_lock nat_mutex k) = 0 ->
  exists st g' k1, let un := pthread_mutex_unlock nat_mutex k1 in
    ipa_NATI_del_ipv4_table tbl_hdl (g, k) =
      Ok (if negb (fst un =? 0) then (if negb (st =? 0) then st else - EPERM) else st, (g', snd un)) /\
    pdns g' = pdns g /\ num_pdns g' = num_pdns g /\ (st = 0 -> vacant g' nmi).
Proof.
  intros R Hc Ht Hl. destruct (del_tbl_api g k _ _ _ _ _ _ R Hc Ht Hl) as (st & g' & k1 & ? & ? & ? & ? & _).
  by exists st, g', k1.
Qed.

(** [ipa_NATI_clear_ipv4_tbl] leaves a table that satisfies the invariant, of the
    same shape, without rules. *)
Theorem nat_clear_tbl g k tbl_hdl nmi hdl c n desc :
  ready g tbl_hdl nmi hdl c n desc -> table_cnt c <> 0 ->
  fst (pthread_mutex_lock nat_mutex k) = 0 ->
  exists ret c' n' g' k', ipa_NATI_clear_ipv4_tbl tbl_hdl (g, k) = Ok (ret, (g', k')) /\
    ready g' tbl_hdl nmi hdl c' n' desc /\ same_shape (table n) (table n') /\
    forall i, rules_of (table n') i = None.
Proof.
  intros R Hc Hl. destruct (clear_tbl_api g k _ _ _ _ _ _ R Hc Hl) as (n' & Hrun & Hok & Hsh & Hmd & Hn).
  eexists _, _, n', _, _. split; [exact Hrun|]. split; [by eapply ready_with_table|done].
Qed.

(** An addition with a bad table handle, the invalid protocol, or a PDN without
    address is refused with -EINVAL before anything changes; no mutex is taken. *)
Theorem nat_add_rule_refused g k tbl_hdl u pdn :
  zget (pdns g) (u_pdn_index u) = Some pdn -> IPA_MAX_PDN_NUM <= Z.of_nat (length (pdns g)) ->
  VALID_TBL_HDL tbl_hdl = false \/ IPA_VALID_NAT_MEM_IN (fst (BREAK_TBL_HDL tbl_hdl)) = false \/
  u_protocol u = IPAHAL_NAT_INVALID_PROTOCOL \/ public_ip pdn = 0 ->
  exists h, ipa_NATI_add_ipv4_rule tbl_hdl u (g, k) = Ok ((- EINVAL, h), (g, k)).
Proof.
  intros Hp Hlen Hbad. destruct (add_rule_refused g k tbl_hdl u pdn Hp Hlen Hbad) as (h & H & _).
  by exists h.
Qed.

(** The record of a rule just added: addresses, ports, protocol and PDN are the
    client's, the checksums are computed from the PDN's address, the time stamp is cut
    to 24 bits.  The client's [redirect] and [enable] are lost: the flags the DMA command
    writes have redirect clear and enable set. *)
Theorem nat_rule_record g k tbl_hdl nmi hdl c n desc u pdn h g1 k1 :
  (forall m k, fst (pthread_mutex_lock (K := K) m k) = 0) ->
  (forall m k, fst (pthread_mutex_unlock (K := K) m k) = 0) ->
  ready g tbl_hdl nmi hdl c n desc -> VALID_TBL_HDL tbl_hdl = true ->
  acceptable g u pdn -> public_ip pdn <> 0 -> 0 <= Hash_token g < 2 ^ 31 - 2 ^ 17 - 1 ->
  ipa_NATI_add_ipv4_rule tbl_hdl u (g, k) = Ok ((0, h), (g1, k1)) ->
  exists c' n' i r, ready g1 tbl_hdl nmi hdl c' n' desc /\ h = Some (MakeEntryHdl (table n') i) /\
    rules_of (table n') i = Some r /\
    r_private_ip r = u_private_ip u /\ r_target_ip r = u_target_ip u /\
    r_private_port r = u_private_port u /\ r_target_port r = u_target_port u /\
    r_public_port r = u_public_port u /\ r_protocol r = u_protocol u /\ r_pdn_index r = u_pdn_index u /\
    r_ip_chksum r = ipa_nati_calc_ip_cksum (public_ip pdn) (u_private_ip u) /\
    r_time_stamp r = u_time_stamp u mod 2 ^ 24 /\ r_redirect r = 0 /\ r_enable r = 1.
Proof.
  intros Hlk Hul R Hv Ha Hip Ht Hadd.
  destruct (add_rule_done _ _ _ _ _ _ _ _ _ _ _ _ _ Hlk Hul R Hv Ha Hip Ht Hadd)
    as (new & c' & n' & -> & _ & _ & R1 & _ & _ & _ & Hupd).
  eexists c', n', new, _. split; [done|]. split; [done|]. rewrite Hupd, decide_True by done. by split_and!.
Qed.
End tbl_props.

(** ** Checksums and flags *)
(** The checksum differences stored in a rule are 16-bit values, congruent modulo
    65535 to the difference of the one's complement sums of the public and the private
    address (and port): adding them to a packet's checksum translates it. *)
Theorem nat_checksums pub pport priv vport :
  0 <= pub < 2 ^ 32 -> 0 <= pport < 2 ^ 16 -> 0 <= priv < 2 ^ 32 -> 0 <= vport < 2 ^ 16 ->
  (0 <= ipa_nati_calc_ip_cksum pub priv <= 65535 /\
   ipa_nati_calc_ip_cksum pub priv mod 65535 =
     (lo16 pub + hi16 pub - (lo16 priv + hi16 priv)) mod 65535) /\
  (0 <= ipa_nati_calc_tcp_udp_cksum pub pport priv vport <= 65535 /\
   ipa_nati_calc_tcp_udp_cksum pub pport priv vport mod 65535 =
     (lo16 pub + hi16 pub + pport - (lo16 priv + hi16 priv + vport)) mod 65535).
Proof. intros. split; [by apply ip_cksum_diff|by apply tcp_udp_cksum_diff]. Qed.

Lemma nat_checksums_witness :
  0 <= ipa_nati_calc_ip_cksum 3232235777 167772161 <= 65535.
Proof. apply (nat_checksums 3232235777 5000 167772161 6000); lia. Defined.

(** The 16-bit words of a rule that the DMA commands write: the one at the flags
    offset holds exactly uc activation index, s, redirect and enable; the invalid-protocol
    word written to delete a rule in place clears the protocol to the invalid one and the
    time stamp's upper byte, nothing else. *)
Theorem nat_flag_words r uc s rd en : wf_rule r -> fits flags_ws [uc; s; rd; en] ->
  rec_dma16 r IPA_NAT_RULE_FLAG_FIELD_OFFSET (ipa_nat_flags uc s rd en) = set_flags r uc s rd en /\
  rec_dma16 r IPA_NAT_RULE_PROTO_FIELD_OFFSET IPA_NAT_INVALID_PROTO_FIELD_VALUE =
    set_protocol (set_time_stamp r (r_time_stamp r mod 2 ^ 16)) IPA_NAT_INVALID_PROTO_FIELD_VALUE_IN_RULE.
Proof. intros Hr Hf. split; [by apply dma_flags|by apply dma_protocol]. Qed.

Lemma nat_flag_words_witness :
  rec_dma16 rule_zero IPA_NAT_RULE_FLAG_FIELD_OFFSET (ipa_nat_flags 5 1 0 1) = set_flags rule_zero 5 1 0 1.
Proof. apply (nat_flag_words rule_zero 5 1 0 1 wf_rule_zero). apply fitsb_fits. reflexivity. Defined.

(** ** Witnesses *)
Lemma nat_add_tbl_witness :
  exists r, ipa_NATI_add_ipv4_tbl 1 demo_ip 20 (globals0, sim0) = Ok r.
Proof.
  destruct (nat_add_tbl globals0 sim0 1 demo_ip 20 pdn_zero) as (st & hdl & g' & k1 & H & _);
    [reflexivity|apply vacant0; right; reflexivity|lia|reflexivity|reflexivity|]. eexists. exact H.
Defined.

Lemma nat_del_tbl_witness : exists r, ipa_NATI_del_ipv4_table demo_hdl (demo_g, sim0) = Ok r.
Proof.
  destruct demo_added as (R & Hc & Ht & _).
  destruct (nat_del_tbl demo_g sim0 _ _ _ _ _ _ R Hc Ht (sim_lock _ _)) as (st & g' & k1 & H & _).
  eexists. exact H.
Defined.

Lemma nat_clear_tbl_witness : exists ret g' k' c' n',
  ipa_NATI_clear_ipv4_tbl demo_hdl (demo_g, sim0) = Ok (ret, (g', k')) /\
  ready g' demo_hdl 0 1 c' n' demo_desc /\ forall i, rules_of (table n') i = None.
Proof.
  destruct demo_added as (R & Hc & Ht & _).
  destruct (nat_clear_tbl demo_g sim0 _ _ _ _ _ _ R ltac:(rewrite Hc; discriminate) (sim_lock _ _))
    as (ret & c' & n' & g' & k' & H & R' & _ & Hn).
  exists ret, g', k', c', n'. split; [exact H|]. split; [exact R'|exact Hn].
Defined.

Lemma nat_add_rule_refused_witness :
  exists h, ipa_NATI_add_ipv4_rule 7 demo_rule (globals0, sim0) = Ok ((- EINVAL, h), (globals0, sim0)).
Proof. apply (nat_add_rule_refused globals0 sim0 7 demo_rule pdn_zero); [reflexivity|by vm_compute|by left]. Defined.

Lemma nat_rule_record_witness : exists n' i r, rules_of (table n') i = Some r /\
  r_redirect r <> u_redirect demo_rule /\ r_time_stamp r = 77.
Proof.
  destruct (nat_rule_record demo_g sim0 demo_hdl 0 1 demo_cache demo_n demo_desc demo_rule demo_pdn
    (Some demo_rule_hdl) demo_g1 sim0 sim_lock sim_unlock demo_ready eq_refl demo_acceptable
    ltac:(discriminate) demo_token demo_add_run)
    as (c' & n' & i & r & _ & _ & Hr & _ & _ & _ & _ & _ & _ & _ & _ & Hts & Hrd & _).
  exists n', i, r. split; [exact Hr|]. rewrite Hrd, Hts. split; [discriminate|reflexivity].
Defined.

(** ** A refused deletion *)
(** C33. [ipa_NATI_del_ipv4_rule] with the handle of any rule of any table in use: the kernel
    carries the commands out, or it refuses them and the call returns -EIO with every
    slot's rule and the index table as they were.  A refused deletion leaves the tables
    unchanged unless the rule's index entry heads a chain; then the pair of tables no
    longer satisfies its invariant, since the rule of the second index entry already
    points at the head's entry, which the index table still gives to the rule that was to
    be deleted. *)
Theorem nat_del_refused_breaks {K} `{NL : NatOsLaws K} `{UL : IpaUapiLaws} g k tbl_hdl nmi hdl c n desc i r :
  (forall m k, fst (pthread_mutex_lock (K := K) m k) = 0) ->
  (forall m k, fst (pthread_mutex_unlock (K := K) m k) = 0) ->
  ready g tbl_hdl nmi hdl c n desc -> live_at (table n) i = Some r ->
  let head := heads_chain (index_table n) (r_indx_tbl_entry r) in
  exists st n' k',
    ipa_NATI_del_ipv4_rule tbl_hdl (MakeEntryHdl (table n) i) (g, k) = Ok (st, (with_table g nmi hdl c n', k')) /\
    ((st = 0 /\ nat_ok n') \/
     (st = - EIO /\ index_table n' = index_table n /\ (forall q, rules_of (table n') q = rules_of (table n) q) /\
      (nat_ok n' <-> head = false) /\ (head = false -> n' = n))).
Proof.
  intros Hl Hu R Hr head.
  assert (Hi : is_Some (rules_of (table n) i)) by (unfold rules_of; rewrite Hr; by eexists).
  destruct (del_rule_api g k _ _ _ _ _ _ _ R Hi (Hl _ _)) as (st & n' & k1 & Hrun & _ & _ & Hout).
  cbv zeta in Hrun. rewrite Hu in Hrun. cbn [negb Z.eqb] in Hrun. exists st, n'. eexists. split; [exact Hrun|].
  destruct Hout as [(-> & Hok & _)|(-> & Hx & Hsame & Href)]; [by left|right]. specialize (Href r Hr). fold head in Href.
  split_and!; [done|done|done| |by intros E; rewrite E in Href].
  destruct head; [by split|]. subst n'. split; [done|]. intros _. apply R.
Qed.

(** On the tables of two rules with a common hash. *)
Lemma nat_del_refused_breaks_witness : exists r n' k',
  live_at (table demo_n2) demo_slot = Some r /\ heads_chain (index_table demo_n2) (r_indx_tbl_entry r) = true /\
  ipa_NATI_del_ipv4_rule demo_hdl (MakeEntryHdl (table demo_n2) demo_slot) (demo_g2, sim_no_dma) =
    Ok (- EIO, (with_table demo_g2 0 1 demo_cache2 n', k')) /\ ~ nat_ok n'.
Proof.
  destruct demo_ready2 as [R Hi]. destruct (live_at (table demo_n2) demo_slot) as [r|] eqn:Hr; [|vm_compute in Hr; discriminate Hr].
  assert (Hh : heads_chain (index_table demo_n2) (r_indx_tbl_entry r) = true).
  { vm_compute in Hr. injection Hr as <-. vm_compute. reflexivity. }
  destruct (nat_del_refused_breaks demo_g2 sim_no_dma _ _ _ _ _ _ demo_slot r sim_lock sim_unlock R Hr) as (st & n' & k' & Hrun & Hout).
  assert (Hst : run_result (ipa_NATI_del_ipv4_rule demo_hdl (MakeEntryHdl (table demo_n2) demo_slot) (demo_g2, sim_no_dma)) 0 = - EIO)
    by (vm_compute; reflexivity).
  rewrite Hrun in Hst. cbn in Hst. subst st. exists r, n', k'. split; [reflexivity|]. split; [exact Hh|]. split; [exact Hrun|].
  destruct Hout as [[Hst _]|(_ & _ & _ & Hok & _)]; [discriminate Hst|]. intros H. apply Hok in H. rewrite Hh in H. discriminate H.
Defined.
