(* ===== verification/NatPdnProps.v ===== *)
(** * Properties of the PDN table ([ipa_nat_drvi.c], [ipa_nat_drv.c]) *)

From Stdlib Require Import ZArith Lia Ascii String.
From stdpp Require Import prelude gmap list numbers strings.
From S2P Require Import Prelude CFloat IpaTable TableDma Os NatUtils MemDescriptor NatRule NatDrvi.
From S2P Require Import NatStatemach NatDrv SimOs NatDrviProps NatPdn Demo.

Local Open Scope Z_scope.

Section pdn_props.
Context {K : Type} `{Os : OsOps K} `{NOs : !NatOs K} `{U : IpaUapi} `{UL : !IpaUapiLaws}.
Implicit Types (g : nat_globals) (k : K).

Lemma first_pdn_unique P l i j p q : first_pdn P l 0 i p -> first_pdn P l 0 j q -> i = j /\ p = q.
Proof.
  intros (Hi & Hp & HPi & Hmi) (Hj & Hq & HPj & Hmj).
  assert (i = j) as ->.
  { destruct (Z.lt_trichotomy i j) as [H|[H|H]]; [|done|].
    - specialize (Hmj i p ltac:(lia) Hp). congruence.
    - specialize (Hmi j q ltac:(lia) Hq). congruence. }
  split; congruence.
Qed.

Lemma get_pdn_index_first g k ip i p : pdns_sized g -> first_pdn (has_ip ip) (pdns g) 0 i p ->
  ipa_nati_get_pdn_index ip (g, k) = Ok ((0, Some i), (g, k)).
Proof.
  intros Hs Hf. destruct (get_pdn_index_api g k ip Hs) as (ret & o & Hrun & Ho). rewrite Hrun.
  destruct o as [j|].
  - destruct Ho as (-> & q & Hq). by destruct (first_pdn_unique _ _ _ _ _ _ Hf Hq) as [-> _].
  - destruct Ho as (_ & Hn). destruct Hf as (Hi & Hp & HP & _). rewrite (Hn i p) in HP; [done|lia|done].
Qed.

(** [ipa_nati_alloc_pdn] gives the first entry that is free or has the address already:
    in the second case nothing changes, in the first the entry is written and counted.
    When it fails nothing changes; it does not fail while the count allows it, an entry
    is usable and the kernel accepts. *)
Theorem pdn_alloc g k info d : pdns_sized g -> pdn_device g = Some d ->
  exists ret o g' k', ipa_nati_alloc_pdn info (g, k) = Ok ((ret, o), (g', k')) /\
    match o with
    | Some i => ret = 0 /\
        ((exists p, first_pdn (usable (public_ip info)) (pdns g) 0 i p /\
            public_ip p = public_ip info /\ g' = g) \/
         (first_pdn (usable (public_ip info)) (pdns g) 0 i pdn_zero /\ public_ip info <> 0 /\
          g' = set_pdns g (zset (pdns g) i info) (num_pdns g + 1)))
    | None => ret <> 0 /\ g' = g
    end /\
    (num_pdns g < IPA_MAX_PDN_NUM - 1 -> (forall e, fst (ioctl_nat_modify_pdn (fd d) e k) = 0) ->
     (exists j p, first_pdn (usable (public_ip info)) (pdns g) 0 j p) -> ret = 0).
Proof. intros Hs Hd. destruct (alloc_pdn_api g k info d Hs Hd) as (ret & o & g' & k' & H). by exists ret, o, g', k'. Qed.

(** After an allocation, [ipa_nati_get_pdn_index] of the address gives the allocated
    index; and [ipa_nati_dealloc_pdn] of a freshly written entry, when the kernel
    accepts it, restores the PDN table and its count. *)
Theorem pdn_alloc_lookup g k info d i g' k' : pdns_sized g -> pdn_device g = Some d ->
  info <> pdn_zero -> 0 <= num_pdns g ->
  ipa_nati_alloc_pdn info (g, k) = Ok ((0, Some i), (g', k')) ->
  (forall k2, ipa_nati_get_pdn_index (public_ip info) (g', k2) = Ok ((0, Some i), (g', k2))) /\
  (g' <> g -> forall k2, exists ret g2 k3, ipa_nati_dealloc_pdn i (g', k2) = Ok (ret, (g2, k3)) /\
     (ret = 0 -> pdns g2 = pdns g /\ num_pdns g2 = num_pdns g)).
Proof.
  intros Hs Hd Hz Hnum Hrun. destruct (alloc_pdn_api g k info d Hs Hd) as (ret & o & g1 & k1 & Hrun1 & Ho & _).
  rewrite Hrun in Hrun1. injection Hrun1 as <- <- <- <-.
  destruct Ho as (_ & [(p & Hf & Hp & ->)|(Hf & Hip & ->)]).
  - split; [|intros Hne; by destruct (Hne eq_refl)]. intros k2. apply (get_pdn_index_first g k2 _ i p Hs). destruct Hf as (Hi & Hg & _ & Hm).
    split_and!; [lia|lia|done|unfold has_ip; lia|]. intros j q Hj Hq. specialize (Hm j q Hj Hq).
    unfold usable in Hm. by apply orb_false_iff in Hm as [? _].
  - destruct Hf as (Hi & Hg & _ & Hm). pose proof (zget_Some_lt _ _ _ Hg) as Hr.
    assert (Hs' : pdns_sized (set_pdns g (zset (pdns g) i info) (num_pdns g + 1)))
      by (unfold pdns_sized; cbn; by rewrite zset_length).
    split.
    + intros k2. apply (get_pdn_index_first _ k2 _ i info Hs'). cbn [pdns set_pdns].
      split_and!; [lia|lia|by apply zget_zset_eq|unfold has_ip; lia|].
      intros j q Hj. rewrite zget_zset_ne by lia. intros Hq. specialize (Hm j q Hj Hq).
      unfold usable in Hm. by apply orb_false_iff in Hm as [? _].
    + intros _ k2. destruct (dealloc_pdn_api _ k2 i info d Hs' Hd) as (ret & g2 & k3 & Hde & Hout);
        [by cbn; apply zget_zset_eq|]. exists ret, g2, k3. split; [done|]. intros ->.
      destruct Hout as [(_ & _ & _ & ->)|(? & _)]; [|done]. cbn.
      rewrite zset_zset, (zset_id _ _ _ Hg). split; [done|lia].
Qed.

(** The range checks of [ipa_nat_modify_pdn] and [ipa_nat_dealloc_pdn] accept the index
    IPA_MAX_PDN_NUM, one past the PDN table: with a device open and the kernel accepting
    the entry, both access the array outside its bounds. *)
Theorem pdn_index_oob {W} (x : smach W) g k d tbl_hdl p :
  pdns_sized g -> pdn_device g = Some d -> VALID_TBL_HDL tbl_hdl = true ->
  (forall e, fst (ioctl_nat_modify_pdn (fd d) e k) = 0) -> num_pdns g <> 0 ->
  ipa_nat_modify_pdn tbl_hdl IPA_MAX_PDN_NUM (Some p) (x, (g, k)) = UB /\
  ipa_nat_dealloc_pdn IPA_MAX_PDN_NUM (x, (g, k)) = UB.
Proof.
  intros Hs Hd Hv Hio Hnum.
  assert (Hnone : zget (pdns g) IPA_MAX_PDN_NUM = None).
  { destruct (zget (pdns g) IPA_MAX_PDN_NUM) eqn:E; [|done].
    apply zget_Some_lt in E. unfold pdns_sized in Hs. lia. }
  assert (Hgt : (IPA_MAX_PDN_NUM >? IPA_MAX_PDN_NUM) = false) by (rewrite Z.gtb_ltb; apply Z.ltb_irrefl).
  split.
  - unfold ipa_nat_modify_pdn. rewrite Hv, Hgt. cbn [negb]. unfold drv.
    set (e := mk_ioc_pdn _ _ _ _). by rewrite (modify_pdn_oob g k e d Hd Hnone (Hio _)).
  - unfold ipa_nat_dealloc_pdn. rewrite Hgt. unfold drv, ipa_nati_dealloc_pdn.
    erewrite bind_ok by done. cbn [fst]. rewrite (proj2 (Z.eqb_neq _ _)) by done.
    unfold mbind, st_bind, st_lift. by rewrite Hnone.
Qed.
End pdn_props.

(** ** Witnesses *)
Lemma demo_pdns_sized : pdns_sized demo_g.
Proof. vm_compute. reflexivity. Qed.
Lemma demo_pdn_device : pdn_device demo_g = Some demo_desc.
Proof. vm_compute. reflexivity. Qed.

Lemma pdn_alloc_witness : exists ret o g' k',
  ipa_nati_alloc_pdn (mk_pdn 5 6 7) (demo_g, sim0) = Ok ((ret, o), (g', k')).
Proof.
  destruct (pdn_alloc demo_g sim0 (mk_pdn 5 6 7) demo_desc demo_pdns_sized demo_pdn_device)
    as (ret & o & g' & k' & H & _). exists ret, o, g', k'. exact H.
Defined.

Definition demo_pdn_g : nat_globals :=
  fst (run_state (ipa_nati_alloc_pdn (mk_pdn 5 6 7) (demo_g, sim0)) (demo_g, sim0)).

Lemma pdn_alloc_lookup_witness :
  ipa_nati_get_pdn_index 5 (demo_pdn_g, sim0) = Ok ((0, Some 1), (demo_pdn_g, sim0)).
Proof.
  apply (pdn_alloc_lookup demo_g sim0 (mk_pdn 5 6 7) demo_desc 1 demo_pdn_g sim0 demo_pdns_sized demo_pdn_device).
  - discriminate.
  - vm_compute. discriminate.
  - vm_compute. reflexivity.
Defined.

Definition demo_sm : smach unit :=
  mk_sm nati_obj0 NatMap.map_array0 false (mk_client 0 demo_rule 0 0 (stats_zero, stats_zero) tt).

Lemma pdn_index_oob_witness : ipa_nat_dealloc_pdn 16 (demo_sm, (demo_g, sim0)) = UB.
Proof.
  apply (pdn_index_oob demo_sm demo_g sim0 demo_desc demo_hdl demo_pdn demo_pdns_sized demo_pdn_device).
  - reflexivity.
  - intros e. reflexivity.
  - vm_compute. discriminate.
Defined.
