(* ===== verification/SmProps.v ===== *)
(** * Properties of the state machine

    Claims about [ipa_nat_statemach.c] and [ipa_nat_drv.c], on the one-table states and
    on any state. *)

From Stdlib Require Import ZArith Lia Ascii String.
From stdpp Require Import prelude gmap list numbers strings.
From S2P Require Import Prelude CFloat Chain Bitfield IpaTable IpaTableRep Dma TableDma Os NatUtils MemDescriptor NatMap NatRule NatRuleLaws.
From S2P Require Import NatDrvi NatStatemach NatDrv NatSmLaws NatSmStates NatSmStatus SimOs NatTables.
From S2P Require Import NatDrviProps NatDrviDel NatApi NatTblApi NatSmDdr Demo NatPdnProps.

Local Open Scope Z_scope.

Section sm_props.
Context {K : Type} `{Os : OsOps K} `{NOs : !NatOs K} `{U : IpaUapi} {W : Type}.
#[local] Notation D := (nat_globals * K)%type.
Implicit Types (x : smach W) (args : sm_args (K := K) (W := W)).

(** ** Nesting, states and status *)
(** C30. The state machine's calls of itself nest at most three deep: however many more are
    allowed, every trigger with every argument array in every state gives the same. *)
Theorem sm_depth n t args (s : smach W * D) :
  ipa_nati_statemach (STATEMACH_DEPTH + n) t args s = statemach t args s.
Proof. apply depth_enough. Qed.

(** C29. A run of the state machine on a trigger, at any nesting, moves between the states
    only along the transitions of [transition], and keeps the object well formed. *)
Theorem sm_transitions n t args x (d : D) r x' d' :
  wf_obj (sm_obj x) -> ipa_nati_statemach n t args (x, d) = Ok (r, (x', d')) ->
  wf_obj (sm_obj x') /\ transition t (curr_state (sm_obj x)) (curr_state (sm_obj x')).
Proof. intros Hwf H. by apply (statemach_moves _ _ _ _ _ _ _ _ H). Qed.

(** C28. In every state that sequences of triggers and of calls of [ipa_nat_switch_to] lead
    to from the initial object, the current state is not NATI_STATE_LAST, the previous
    state is null when the current one is, and the state to hold is null or a
    one-table state. *)
Theorem sm_reachable x : reachable (K := K) x ->
  curr_state (sm_obj x) <> NATI_STATE_LAST /\
  (curr_state (sm_obj x) = NATI_STATE_NULL -> prev_state (sm_obj x) = NATI_STATE_NULL) /\
  (state_to_hold (sm_obj x) = NATI_STATE_NULL \/ state_to_hold (sm_obj x) = NATI_STATE_DDR_ONLY \/
   state_to_hold (sm_obj x) = NATI_STATE_SRAM_ONLY).
Proof. intros [? ? ?]%reachable_obj. by split_and!. Qed.

(** C31. When the mutex works, the state machine returns 0 whatever its callback
    returned: the status of [give_mutex] replaces it.  The header and the callers expect
    non-zero on failure. *)
Theorem sm_status_masked n t args x (d : D) ret x' d' : mutexes_work (K := K) ->
  ipa_nati_statemach n t args (x, d) = Ok (ret, (x', d')) -> ret = 0.
Proof. apply statemach_status. Qed.
End sm_props.

Section ddr_props.
Context {K : Type} `{Os : OsOps K} `{NOs : !NatOs K} `{NL : !NatOsLaws} `{U : IpaUapi} `{UL : !IpaUapiLaws}.
Context {W : Type}.
Implicit Types (x : smach W) (g : nat_globals) (k : K).

(** ** One table *)
(** The first [ipa_nat_add_ipv4_tbl] with a memory type other than HYBRID and SRAM: the
    state becomes DDR_ONLY and the call returns 0, whether the table could be created
    (the caller has its handle, and the table is ready and empty) or not (the handle is
    0 and there is no table). *)
Theorem sm_first_table x g k ip mem_type num p0 :
  mutexes_work (K := K) ->
  nat_mutex_init x = false -> curr_state (sm_obj x) = NATI_STATE_NULL -> hold_state (sm_obj x) = false ->
  mem_type_str_to_ipa_nati_state (Some mem_type) = NATI_STATE_DDR_ONLY -> 0 < num ->
  vacant g IPA_NAT_MEM_IN_DDR -> zget (pdns g) 0 = Some p0 ->
  exists x' g' k',
    ipa_nat_add_ipv4_tbl ip (Some mem_type) num false (x, (g, k)) = Ok (0, (x', (g', k'))) /\
    curr_state (sm_obj x') = NATI_STATE_DDR_ONLY /\ nat_mutex_init x' = true /\
    ((table_added g g' IPA_NAT_MEM_IN_DDR ip /\
      cl_tbl_hdl (sm_client x') = MAKE_TBL_HDL 1 IPA_NAT_MEM_IN_DDR /\
      ddr_tbl_hdl (sm_obj x') = MAKE_TBL_HDL 1 IPA_NAT_MEM_IN_DDR) \/
     (table_not_added g g' IPA_NAT_MEM_IN_DDR /\ cl_tbl_hdl (sm_client x') = 0)).
Proof.
  intros Hw Hi Hc Hh Hm Hn Hv Hp.
  destruct (ddr_first_table Hw x g k ip mem_type num p0 Hi Hc Hh Hm Hn Hv Hp)
    as (x' & g' & k2 & Hrun & Hi' & st & hdl & -> & Hout).
  exists (first_table x st hdl), g', k2. split_and!; [done..|].
  destruct Hout as [(-> & -> & ?)|(Hst & -> & ?)]; [by left|right].
  split; [done|]. unfold first_table. cbn. by destruct (st =? 0).
Qed.

(** [ipa_nat_add_ipv4_rule] in DDR_ONLY: the rule added is the client's with redirect,
    enable and time stamp cleared in the client's own structure; on success the
    client's handle names the slot that now holds it and the count of rules goes up by one,
    on failure no rule has changed and the handle is 0.  The call returns 0 in
    both cases. *)
Theorem sm_ddr_add_rule x g k tbl_hdl nmi hdl c n desc pdn :
  let u := clear_rule_flags (cl_rule (sm_client x)) in
  mutexes_work (K := K) ->
  nat_mutex_init x = true -> curr_state (sm_obj x) = NATI_STATE_DDR_ONLY ->
  ready g tbl_hdl nmi hdl c n desc -> VALID_TBL_HDL tbl_hdl = true ->
  acceptable g u pdn -> public_ip pdn <> 0 -> 0 <= Hash_token g < 2 ^ 31 - 2 ^ 17 - 1 ->
  exists x' g1 c' n' k2,
    ipa_nat_add_ipv4_rule tbl_hdl false false (x, (g, k)) = Ok (0, (x', (g1, k2))) /\
    ready g1 tbl_hdl nmi hdl c' n' desc /\ cl_rule (sm_client x') = u /\
    ((exists new, cl_rule_hdl (sm_client x') = MakeEntryHdl (table n) new /\
        rules_of (table n) new = None /\
        at_ddr (tot_rules_in_table (sm_obj x')) = u32 (at_ddr (tot_rules_in_table (sm_obj x)) + 1) /\
        forall i, rules_of (table n') i =
          if decide (i = new) then Some (rule_in_force pdn u 0) else rules_of (table n) i) \/
     (cl_rule_hdl (sm_client x') = 0 /\ tot_rules_in_table (sm_obj x') = tot_rules_in_table (sm_obj x) /\
        forall i, rules_of (table n') i = rules_of (table n) i)).
Proof.
  intros u Hw Hi Hc R Hv Ha Hip Ht.
  destruct (ddr_add_rule Hw x g k _ _ _ _ _ _ _ Hi Hc R Hv Ha Hip Ht)
    as (st & h & n' & g1 & k2 & Hrun & (tok & -> & _) & Hok & _ & Hmd & _ & _ & Hout).
  eexists _, _, _, n', k2. split; [exact Hrun|].
  split; [by apply (ready_with_table g (set_Hash_token g tok) _ _ _ _ n)|]. split; [done|].
  destruct Hout as [(-> & new & -> & _ & Hfree & Hupd)|(Hst & -> & Hsame)]; [left; by exists new|right].
  unfold rule_added. by rewrite (proj2 (Z.eqb_neq st 0)) by done.
Qed.

(** [ipa_nat_del_ipv4_rule] in DDR_ONLY with the handle of a rule in force: the rule is
    gone and the count goes down by one, or the kernel refused, no rule and no count has
    changed, and the call returns 0 all the same. *)
Theorem sm_ddr_del_rule x g k tbl_hdl nmi hdl c n desc i :
  mutexes_work (K := K) ->
  nat_mutex_init x = true -> curr_state (sm_obj x) = NATI_STATE_DDR_ONLY ->
  ready g tbl_hdl nmi hdl c n desc -> VALID_TBL_HDL tbl_hdl = true -> is_Some (rules_of (table n) i) ->
  VALID_RULE_HDL (MakeEntryHdl (table n) i) = true ->
  exists x' n' k2,
    ipa_nat_del_ipv4_rule tbl_hdl (MakeEntryHdl (table n) i) (x, (g, k)) =
      Ok (0, (x', (with_table g nmi hdl c n', k2))) /\
    ((nat_ok n' /\ at_ddr (tot_rules_in_table (sm_obj x')) = u32 (at_ddr (tot_rules_in_table (sm_obj x)) - 1) /\
        forall q, rules_of (table n') q = if decide (q = i) then None else rules_of (table n) q) \/
     (tot_rules_in_table (sm_obj x') = tot_rules_in_table (sm_obj x) /\
        forall q, rules_of (table n') q = rules_of (table n) q)).
Proof.
  intros Hw Hi Hc R Hv Hr Hvr.
  destruct (ddr_del_rule Hw x g k _ _ _ _ _ _ _ Hi Hc R Hv Hr Hvr) as (st & n' & k2 & Hrun & _ & _ & Hout).
  eexists _, n', k2. split; [exact Hrun|].
  destruct Hout as [(-> & ? & _ & _ & ?)|(-> & _ & ? & _)]; [by left|by right].
Qed.

(** Right after the first table in DDR, [ipa_nat_switch_to] still takes the machine
    for unstarted (the previous state is null): asked to hold SRAM, which its own rule
    for started machines refuses, it records SRAM_ONLY as the state to hold and returns 0
    while the table stays in DDR. *)
Theorem sm_switch_after_start x g k st hdl :
  mutexes_work (K := K) -> curr_state (sm_obj x) = NATI_STATE_NULL ->
  IPA_VALID_NAT_MEM_IN IPA_NAT_MEM_IN_SRAM = true ->
  let x1 := first_table x st hdl in
  COMPATIBLE_NMI_4SWITCH (sm_obj x1) IPA_NAT_MEM_IN_SRAM = false /\
  exists x2 k2, ipa_nat_switch_to IPA_NAT_MEM_IN_SRAM true (x1, (g, k)) = Ok (0, (x2, (g, k2))) /\
    curr_state (sm_obj x2) = NATI_STATE_DDR_ONLY /\ hold_state (sm_obj x2) = true /\
    state_to_hold (sm_obj x2) = NATI_STATE_SRAM_ONLY.
Proof.
  intros Hw Hc Hv x1. split; [done|].
  set (x2 := mk_sm (set_hold (sm_obj x1) true NATI_STATE_SRAM_ONLY) (sm_maps x1) true (sm_client x1)).
  assert (E : switch_to_locked IPA_NAT_MEM_IN_SRAM true (x1, (g, locked_k k)) = Ok (0, (x2, (g, locked_k k)))).
  { unfold switch_to_locked. erewrite bind_ok by done. cbn [fst].
    unfold IN_UNSTARTED_STATE, x1, first_table. cbn [sm_obj prev_state set_ddr_hdl SET_NATIOBJ_STATE set_states].
    by rewrite Hc. }
  exists x2. eexists. split; [|done]. unfold ipa_nat_switch_to. rewrite Hv. cbn [negb].
  erewrite bind_ok by (by apply take_mutex_run). cbn [negb Z.eqb].
  erewrite bind_ok by exact E. by apply give_mutex_run.
Qed.
End ddr_props.

(** ** Witnesses *)
Lemma sim_mutexes : mutexes_work (K := sim).
Proof. split_and!; reflexivity. Qed.

Definition demo_first : res (Z * (smach unit * (nat_globals * sim))) :=
  ipa_nati_statemach 3 NATI_TRIG_ADD_TABLE (ArgsAddTbl demo_ip 20 ClientHdl None) (demo_sm, (globals0, sim0)).
Definition demo_sm1 : smach unit := fst (run_state demo_first (demo_sm, (globals0, sim0))).
Definition demo_d1 : nat_globals * sim := snd (run_state demo_first (demo_sm, (globals0, sim0))).

Lemma demo_first_run : ipa_nati_statemach 3 NATI_TRIG_ADD_TABLE (ArgsAddTbl demo_ip 20 ClientHdl None)
  (demo_sm, (globals0, sim0)) = Ok (0, (demo_sm1, demo_d1)).
Proof. vm_compute. reflexivity. Qed.

Lemma demo_sm_reachable : reachable (K := sim) demo_sm.
Proof. apply reach_init. Qed.

Lemma sm_transitions_witness :
  transition NATI_TRIG_ADD_TABLE (curr_state (sm_obj demo_sm)) (curr_state (sm_obj demo_sm1)).
Proof. apply (sm_transitions _ _ _ _ _ _ _ _ (reachable_obj _ demo_sm_reachable) demo_first_run). Defined.

Lemma sm_reachable_witness : curr_state (sm_obj demo_sm1) <> NATI_STATE_LAST.
Proof.
  apply (sm_reachable (K := sim) demo_sm1).
  apply (reach_trigger _ _ _ _ _ _ _ demo_sm_reachable demo_first_run).
Defined.

(** A rule is added before there is a table: refused, and reported as done. *)
Definition demo_early : res (Z * (smach unit * (nat_globals * sim))) :=
  ipa_nati_statemach 3 NATI_TRIG_ADD_RULE (ArgsRule 1) (demo_sm, (globals0, sim0)).

Lemma sm_status_masked_witness : run_result demo_early 1 = 0.
Proof.
  apply (sm_status_masked 3 NATI_TRIG_ADD_RULE (ArgsRule 1) demo_sm (globals0, sim0) _
    (fst (run_state demo_early (demo_sm, (globals0, sim0)))) (snd (run_state demo_early (demo_sm, (globals0, sim0))))
    sim_mutexes).
  vm_compute. reflexivity.
Defined.

Lemma sm_first_table_witness : exists r,
  ipa_nat_add_ipv4_tbl demo_ip (Some "DDR"%string) 20 false (demo_sm, (globals0, sim0)) = Ok r.
Proof.
  destruct (sm_first_table demo_sm globals0 sim0 demo_ip "DDR"%string 20 pdn_zero sim_mutexes)
    as (x' & g' & k' & H & _);
    [reflexivity|reflexivity|reflexivity|reflexivity|reflexivity|apply vacant0; left; reflexivity|reflexivity|].
  eexists. exact H.
Defined.

(** DDR_ONLY with the mutex initialised. *)
Definition demo_sm_ddr : smach unit :=
  mk_sm (set_states nati_obj0 NATI_STATE_NULL NATI_STATE_DDR_ONLY) map_array0 true (sm_client demo_sm).

Lemma demo_acceptable_cleared : acceptable demo_g (clear_rule_flags demo_rule) demo_pdn.
Proof.
  split_and!; [|done|vm_compute; reflexivity|done|vm_compute; reflexivity].
  unfold wf_ipv4_rule. apply fitsb_fits. vm_compute. reflexivity.
Qed.

Lemma sm_ddr_add_rule_witness : exists r,
  ipa_nat_add_ipv4_rule demo_hdl false false (demo_sm_ddr, (demo_g, sim0)) = Ok r.
Proof.
  destruct (sm_ddr_add_rule demo_sm_ddr demo_g sim0 demo_hdl 0 1 demo_cache demo_n demo_desc demo_pdn
    sim_mutexes eq_refl eq_refl demo_ready eq_refl demo_acceptable_cleared ltac:(discriminate) demo_token)
    as (x' & g1 & c' & n' & k2 & H & _).
  eexists. exact H.
Defined.

Lemma sm_ddr_del_rule_witness : exists r,
  ipa_nat_del_ipv4_rule demo_hdl (MakeEntryHdl (table demo_n1) demo_slot) (demo_sm_ddr, (demo_g1, sim0)) = Ok r.
Proof.
  destruct demo_ready1 as [R Hr].
  destruct (sm_ddr_del_rule demo_sm_ddr demo_g1 sim0 _ _ _ _ _ _ _ sim_mutexes eq_refl eq_refl R eq_refl Hr)
    as (x' & n' & k2 & H & _); [vm_compute; reflexivity|].
  eexists. exact H.
Defined.
