(* ===== verification/SmHybrid.v ===== *)
(** * The hybrid states on concrete runs

    Runs of the client interface with the memory type HYBRID on the system of [SimOs],
    whose SRAM holds 128 base entries: three sequences of calls after which the client's
    handles no longer lead to its rules. *)

From Stdlib Require Import ZArith Lia Ascii String.
From stdpp Require Import prelude gmap list numbers strings.
From S2P Require Import Prelude IpaTable Os NatUtils NatMap NatRule NatDrvi NatStatemach NatDrv SimOs.
From S2P Require Import Demo NatPdnProps.

Local Open Scope Z_scope.

Definition hy_state : Type := smach unit * (nat_globals * sim).
Definition hy_do (m : St hy_state Z) (s : hy_state) : hy_state := run_state (m s) s.
Definition hy_ret (m : St hy_state Z) (s : hy_state) : Z := run_result (m s) (-99).

(** The rules differ in their public port; the table handle is the SRAM table's. *)
Definition hy_rule (port : Z) : ipa_nat_ipv4_rule :=
  mk_ipv4_rule 134744072 3232235777 443 5000 port 6 0 0 0 0 0 false false false false.
Definition hy_hdl : Z := MAKE_TBL_HDL 1 IPA_NAT_MEM_IN_SRAM.
Definition hy_add_tbl : St hy_state Z := ipa_nat_add_ipv4_tbl demo_ip (Some "hybrid"%string) 1000 false.
Definition hy_add (port : Z) : St hy_state Z :=
  _ ← mod_client (put_rule (hy_rule port)); ipa_nat_add_ipv4_rule hy_hdl false false.
Definition hy_del (h : Z) : St hy_state Z := ipa_nat_del_ipv4_rule hy_hdl h.
Definition hy_to_ddr : St hy_state Z := ipa_nat_switch_to IPA_NAT_MEM_IN_DDR false.
Definition hy_to_sram : St hy_state Z := ipa_nat_switch_to IPA_NAT_MEM_IN_SRAM false.

(** What can be seen of a state: the handle given last, the rules' ports in a table. *)
Definition hy_last (s : hy_state) : Z := cl_rule_hdl (sm_client (fst s)).
Definition hy_curr (s : hy_state) : ipa_nati_state := curr_state (sm_obj (fst s)).
Definition hy_ports (nmi : Z) (s : hy_state) : list Z :=
  match zget (ipv4_nat_cache (fst (snd s))) nmi with
  | Some c =>
      match zget (ip4_tbl c) 0 with
      | Some n =>
          map r_public_port (filter (fun r => entry_is_valid r && negb (r_protocol r =? 255))
            (tbl_mem (table n)))
      | None => []
      end
  | None => []
  end.
Definition hy_map (which : Z) (s : hy_state) (h : Z) : option Z :=
  match zget (sm_maps (fst s)) which with Some m => m !! h | None => None end.

Definition hy0 : hy_state := (demo_sm, (globals0, sim0)).
Definition hy1 : hy_state := hy_do hy_add_tbl hy0.
Definition hyA : hy_state := hy_do (hy_add 6000) hy1.
Definition hyB : hy_state := hy_do (hy_add 6128) hyA.
Definition hyD : hy_state := hy_do hy_to_ddr hyB.
Definition hyS : hy_state := hy_do hy_to_sram hyD.

(** A third rule after the first one's deletion, and a deletion with its handle. *)
Definition hyX : hy_state := hy_do (hy_del (hy_last hyA)) hyS.
Definition hyC : hy_state := hy_do (hy_add 6256) hyX.
Definition hyE : hy_state := hy_do (hy_del (hy_last hyC)) hyC.

(** After the two switches a new rule can get a handle that is still the original
    handle of another rule: the addition returns 0, the new rule is in no map, and the
    deletion with its handle returns 0 but deletes the other rule. *)
Theorem hybrid_handle_collision :
  hy_ret (hy_add 6256) hyX = 0 /\ hy_last hyC = hy_last hyB /\
  hy_ports IPA_NAT_MEM_IN_SRAM hyC = [6128; 6256] /\
  hy_ret (hy_del (hy_last hyC)) hyC = 0 /\ hy_ports IPA_NAT_MEM_IN_SRAM hyE = [6256].
Proof. vm_compute. repeat split. Qed.

(** A second creation of the table while the first one is in use. *)
Definition hyR : hy_state := hy_do hy_add_tbl hyA.

(** A second [ipa_nat_add_ipv4_tbl] in the hybrid state returns 0 with a null
    handle, leaves the tables as they are, but has cleared the handle maps: the rule
    added before stays in force and the deletion with its handle, though it returns 0,
    does not delete it. *)
Theorem hybrid_readd_forgets :
  hy_ret hy_add_tbl hyA = 0 /\ cl_tbl_hdl (sm_client (fst hyR)) = 0 /\
  hy_ports IPA_NAT_MEM_IN_SRAM hyR = [6000] /\ hy_map MAP_NUM_02 hyR (hy_last hyA) = None /\
  hy_ret (hy_del (hy_last hyA)) hyR = 0 /\
  hy_ports IPA_NAT_MEM_IN_SRAM (hy_do (hy_del (hy_last hyA)) hyR) = [6000] /\
  hy_ports IPA_NAT_MEM_IN_SRAM (hy_do (hy_del (hy_last hyA)) hyA) = [].
Proof. vm_compute. repeat split. Qed.

(** An addition while the kernel refuses the commands of the DMA and the init command, and
    a deletion when it accepts them again. *)
Definition with_fail (l : list syscall) (s : hy_state) : hy_state :=
  let '(x, (g, k)) := s in (x, (g, mk_sim l (sim_fds k) (SimOs.sim_maps k) (sim_tables k))).
Definition hyF : hy_state := hy_do (hy_add 6128) (with_fail [SysDma; SysInit] hyA).
Definition hyG : hy_state := hy_do (hy_del (hy_last hyA)) (with_fail [] hyF).

(** When SRAM refuses a rule and the change of focus to DDR fails, the status 0 of the
    state machine hides the failure: the state becomes HYBRID_DDR while the hardware stays
    on the table in SRAM, whose rules were not copied; the client's handle of such a rule
    is then in no map, and its deletion returns 0 without effect. *)
Theorem hybrid_failed_focus :
  hy_curr hyA = NATI_STATE_HYBRID /\ hy_ret (hy_add 6128) (with_fail [SysDma; SysInit] hyA) = 0 /\
  hy_curr hyF = NATI_STATE_HYBRID_DDR /\
  active_nat_cache_ptr (fst (snd hyF)) = Some IPA_NAT_MEM_IN_SRAM /\
  hy_ports IPA_NAT_MEM_IN_SRAM hyF = [6000] /\ hy_ports IPA_NAT_MEM_IN_DDR hyF = [] /\
  hy_map MAP_NUM_00 hyF (hy_last hyA) = None /\
  hy_ret (hy_del (hy_last hyA)) (with_fail [] hyF) = 0 /\
  hy_ports IPA_NAT_MEM_IN_SRAM hyG = [6000] /\
  hy_ports IPA_NAT_MEM_IN_SRAM (hy_do (hy_del (hy_last hyA)) hyA) = [].
Proof. vm_compute. repeat split. Qed.
