(* ===== verification/HybridProps.v ===== *)
(** * Properties of the hybrid states

    Claims about the two-table states of [ipa_nat_statemach.c]: creation, switch,
    addition, deletion, and the refinement of the map of rules.  Each has a witness on
    the tables the code itself creates on a system whose votes and init commands are
    accepted. *)

From Stdlib Require Import ZArith Lia Ascii String.
From stdpp Require Import prelude gmap list numbers strings.
From S2P Require Import Prelude CFloat Chain Bitfield IpaTable IpaTableRep TableDma TableSetup TableWalk RuleTable Os NatUtils.
From S2P Require Import MemDescriptor NatMap NatRule NatRuleLaws NatDrvi NatStatemach NatDrv NatSmLaws NatSmStates NatSmStatus.
From S2P Require Import NatTables NatDrviProps NatDrviDel NatApi NatTblApi NatRefine NatSmDdr NatHandles NatMigrate NatHybrid NatHybridOps.
From S2P Require Import NatHybridRefine NatHybridNew SimOs Demo NatPdnProps SmProps.

Local Open Scope Z_scope.

Section hybrid_props.
Context {K : Type} `{Os : OsOps K} `{NOs : !NatOs K} `{NL : !NatOsLaws} `{U : IpaUapi} `{UL : !IpaUapiLaws}.
Context {W : Type}.
Implicit Types (x : smach W) (g : nat_globals) (k : K).

(** C2. A client of the hybrid states sees the map of rules of [nat_table_refines_map]:
    from two empty tables, every history of additions, deletions, time stamp queries and
    calls of [ipa_nat_switch_to] is a history of that map, in which the switches, those
    asked for and those the machine makes when SRAM is full or nearly empty, do not
    show.  The history ends where something is lost: a copy that stopped half way, a
    deletion the kernel refused, a handle that was given out twice.  In every state of it
    each legal operation runs to its end and returns 0.  Assumed are mutexes that work and
    a kernel that accepts a change of the memory in focus ([focus_works]). *)
Theorem hybrid_refines_map hdl x0 g0 k0 x g k tr :
  mutexes_work (K := K) -> focus_works (K := K) ->
  session hdl (pdns g0) x0 g0 store_empty -> hy_history hdl x0 g0 k0 (x, (g, k)) tr ->
  exists S, spec_history (pdns g0) S tr /\ hybrid x g S /\
    forall op, hy_legal g S op ->
      exists x' g' k', run_hy hdl op (x, (g, k)) = Ok (0, (x', (g', k'))) /\
        (lost op x x' g' \/
         exists S', hybrid x' g' S' /\ exists S1, store_eq S' S1 /\ follows (pdns g0) S op x' S1).
Proof.
  intros Hw Hf H0 Hist. destruct (hy_history_refines Hw Hf _ _ _ _ _ _ H0 Hist) as (S & Hspec & HS).
  cbn [fst snd] in HS. exists S. split; [done|]. split; [apply HS|]. intros op Hlegal.
  pose proof (se_pdns _ _ _ _ _ HS) as Hp.
  destruct (refines_any Hw Hf hdl op x g k S) as (x' & g' & k' & Hrun & Hout); [by rewrite Hp|done|].
  exists x', g', k'. split; [done|]. rewrite Hp in Hout.
  destruct Hout as [(S1 & S2 & Hfol & HE & Hse)|]; [right|by left].
  exists S2. split; [apply Hse|]. by exists S1.
Qed.

(** C19. The first [ipa_nat_add_ipv4_tbl] with the memory type HYBRID returns 0, and what was
    made of it shows in the state and the handle: two empty tables with the focus on SRAM;
    SRAM_ONLY when the table in SRAM is large enough; DDR_ONLY when there is none; and
    when the table in DDR could not be had, HYBRID with one table or none.  Assumed are
    mutexes that work, a kernel that accepts a change of the memory in focus
    ([focus_works]) and an SRAM for which the search of sizes ends ([sram_bounded]). *)
Theorem hybrid_create x g k ip mem_type num p0 :
  mutexes_work (K := K) -> focus_works (K := K) -> sram_bounded (K := K) ->
  nat_mutex_init x = false -> curr_state (sm_obj x) = NATI_STATE_NULL -> hold_state (sm_obj x) = false ->
  mem_type_str_to_ipa_nati_state (Some mem_type) = NATI_STATE_HYBRID -> 0 < num ->
  (forall sub, exists a b, maps_at (sm_maps x) sub a b) ->
  idle g IPA_NAT_MEM_IN_SRAM -> idle g IPA_NAT_MEM_IN_DDR -> zget (pdns g) 0 = Some p0 ->
  Z.of_nat (length (pdns g)) = IPA_MAX_PDN_NUM ->
  exists x' g' k', ipa_nat_add_ipv4_tbl ip (Some mem_type) num false (x, (g, k)) = Ok (0, (x', (g', k'))) /\
    started g ip num x' g'.
Proof.
  intros Hw Hf Hsz Hi Hc Hh Hmt Hnum Hm HiS HiD Hp Hl.
  destruct (hybrid_create_run Hw Hf Hsz x g k ip mem_type num p0 Hi Hc Hh Hmt Hnum Hm HiS HiD Hp Hl)
    as (x' & g' & k' & Hrun & _ & Hst). by exists x', g', k'.
Qed.

(** C16. [ipa_nat_switch_to] to the memory type not in focus: when the vote and the init
    command are accepted the focus moves, the client's handles lead to the rules they
    led to before, all of them unless the counter of failed switches went up, and no
    handle to another rule; when one of them is refused the focus and every rule the
    client can reach stay.  The call returns 0 in each case.  Assumed are mutexes that work. *)
Theorem hybrid_switch x g k sub S hold :
  mutexes_work (K := K) -> hybrid_at x g sub S -> 0 <= Hash_token g < 2 ^ 30 ->
  exists x' g' k' S', ipa_nat_switch_to (sub_nmi (sub_other sub)) hold (x, (g, k)) = Ok (0, (x', (g', k'))) /\
    hold_state (sm_obj x') = hold /\
    ((hybrid_at x' g' (sub_other sub) S' /\ active_nat_cache_ptr g' = Some (sub_nmi (sub_other sub)) /\
        (forall o r, S' o = Some r -> S o = Some r) /\
        (fails_of sub x' = fails_of sub x -> forall o, S' o = S o)) \/
     ((clock_refuses (K := K) \/ init_refuses (K := K)) /\
        hybrid_at x' g' sub S /\ active_nat_cache_ptr g' = active_nat_cache_ptr g)).
Proof.
  intros Hw H Ht. destruct (switch_to_run Hw x g k sub S hold H Ht)
    as (x1 & x' & g' & k' & Hrun & -> & _ & [[S' Hs]|Hn]).
  - eexists _, g', k', S'. split; [exact Hrun|]. split; [done|]. left. destruct Hs. split_and!; try done.
    by apply hybrid_hold.
  - eexists _, g', k', S. split; [exact Hrun|]. split; [done|]. right. destruct Hn. split_and!; try done.
    by apply hybrid_hold.
Qed.

(** C17. [ipa_nat_add_ipv4_rule] in a hybrid state returns 0, and the handle written for the
    client tells the outcome: 0 when the rule was refused; a handle new to the client,
    under which it reaches the rule from now on; or a handle that was given out before
    and still leads to another rule.  When SRAM refuses the rule and the state is not
    held, the rules move to DDR first and the rule is tried there.  Assumed are mutexes that
    work and a kernel that accepts a change of the memory in focus ([focus_works]). *)
Theorem hybrid_add x g k sub S pdn :
  let u := clear_rule_flags (cl_rule (sm_client x)) in
  mutexes_work (K := K) -> focus_works (K := K) -> hybrid_at x g sub S ->
  acceptable g u pdn -> public_ip pdn <> 0 -> 0 <= Hash_token g < 2 ^ 30 - 2 ->
  exists x' g' k', ipa_nat_add_ipv4_rule (sram_tbl_hdl (sm_obj x)) false false (x, (g, k)) = Ok (0, (x', (g', k'))) /\
    let h := cl_rule_hdl (sm_client x') in
    exists sub1 S1,
      ((sub1 = sub /\ S1 = S /\ (h = 0 -> sub = SRAM_SUB -> hold_state (sm_obj x) = true)) \/
       (sub = SRAM_SUB /\ sub1 = DDR_SUB /\ hold_state (sm_obj x) = false /\
        (forall o r, S1 o = Some r -> S o = Some r) /\
        (fails_of SRAM_SUB x' = fails_of SRAM_SUB x -> forall o, S1 o = S o))) /\
      ((h = 0 /\ hybrid_at x' g' sub1 S1) \/
       (h <> 0 /\ S1 h = None /\ hybrid_at x' g' sub1 (store_put S1 h (Some (rule_in_force pdn u 0)))) \/
       (h <> 0 /\ is_Some (S1 h) /\ collided x' g' sub1 h (rule_in_force pdn u 0))).
Proof.
  intros u Hw Hf H Ha Hip Ht. destruct (hybrid_add_run Hw Hf x g k sub S pdn H Ha Hip Ht)
    as (x' & g' & k' & Hrun & _ & _ & Hres). exists x', g', k'. split; [exact Hrun|]. cbv zeta.
  destruct Hres as [[Hatt Hst]|(-> & Hh & S1 & Hsub & Hatt & Hall)].
  - exists sub, S. split; [by left|]. unfold attempt in Hatt. tauto.
  - exists DDR_SUB, S1. split; [by right|]. unfold attempt in Hatt. tauto.
Qed.

(** C18. [ipa_nat_del_ipv4_rule] in a hybrid state, with the client's handle of a rule in
    force, removes that rule and no other, wherever the rule has moved; in DDR, when few
    enough rules are left and the state is not held, the rules then move back to SRAM.
    When the kernel refuses the deletion the rule stays in force and the client's
    handle no longer leads to it, while the call returns 0.  Assumed are mutexes that work
    and a kernel that accepts a change of the memory in focus ([focus_works]). *)
Theorem hybrid_del x g k sub S o r :
  mutexes_work (K := K) -> focus_works (K := K) -> hybrid_at x g sub S ->
  0 <= Hash_token g < 2 ^ 30 -> S o = Some r -> VALID_RULE_HDL o = true ->
  exists x' g' k', ipa_nat_del_ipv4_rule (sram_tbl_hdl (sm_obj x)) o (x, (g, k)) = Ok (0, (x', (g', k'))) /\
    ((goes_back x sub = false /\ hybrid_at x' g' sub (store_put S o None)) \/
     (goes_back x sub = true /\ sub = DDR_SUB /\
      exists S', hybrid_at x' g' SRAM_SUB S' /\
        (forall o' r', S' o' = Some r' -> o' <> o /\ S o' = Some r') /\
        (fails_of DDR_SUB x' = fails_of DDR_SUB x -> forall o', S' o' = store_put S o None o')) \/
     stranded x' g' sub o r).
Proof.
  intros Hw Hf H Ht Ho Hv. destruct (hybrid_del_run Hw Hf x g k sub S o r H Ht Ho Hv)
    as (x' & g' & k' & Hrun & _ & _ & Hres). exists x', g', k'. split; [exact Hrun|].
  destruct Hres as [Hres|]; [|by right; right]. destruct (goes_back x sub) eqn:E; [right; left|by left].
  destruct sub; [|done]. split; [done|]. split; [done|]. destruct Hres as (S' & H' & Hsub & Hall).
  exists S'. split; [done|]. split; [|done]. intros o' r' Hr'. apply Hsub in Hr'. unfold store_put in Hr'.
  by case_decide.
Qed.
End hybrid_props.

(** ** Witnesses *)
(** The runs are on the system whose votes and init commands are accepted. *)
#[local] Existing Instance steady_nat_os.
#[local] Existing Instance steady_nat_os_laws.

Lemma steady_works : focus_works (K := sim).
Proof. split; intros (? & ? & ? & H); by apply H. Qed.

Lemma sim_sram_bounded : sram_bounded (K := sim).
Proof. intros fd k. cbn. lia. Qed.

Definition cs : Type := smach unit * (nat_globals * sim).
Definition cs0 : cs := (demo_sm, (globals0, sim0)).
Definition cs_tbl : res (Z * cs) := ipa_nat_add_ipv4_tbl demo_ip (Some "HYBRID"%string) 1000 false cs0.
Definition cs1 : cs := run_state cs_tbl cs0.

Lemma demo_maps sub : exists a b, maps_at (sm_maps demo_sm) sub a b.
Proof. by destruct sub; eexists _, _. Qed.

Lemma hybrid_create_witness : exists x' g' k', cs_tbl = Ok (0, (x', (g', k'))) /\ started globals0 demo_ip 1000 x' g'.
Proof.
  apply (hybrid_create demo_sm globals0 sim0 demo_ip "HYBRID"%string 1000 pdn_zero sim_mutexes steady_works sim_sram_bounded);
    try reflexivity; [exact demo_maps|..].
  - apply vacant_idle, vacant0. by right.
  - apply vacant_idle, vacant0. by left.
Defined.

(** Both tables were created. *)
Definition cs_cnt (nmi : Z) (s : cs) : Z :=
  match zget (ipv4_nat_cache (fst (snd s))) nmi with Some c => table_cnt c | None => -1 end.
Definition cs_hdl : Z := MAKE_TBL_HDL 1 IPA_NAT_MEM_IN_SRAM.
Definition cs_pdn : ipa_nat_pdn_entry := mk_pdn demo_ip 0 0.

Lemma cs1_seen : curr_state (sm_obj (fst cs1)) = NATI_STATE_HYBRID /\
  cl_tbl_hdl (sm_client (fst cs1)) = cs_hdl /\ cs_cnt IPA_NAT_MEM_IN_DDR cs1 = 1.
Proof. vm_compute. done. Qed.

Lemma cs1_started : exists x' g' k', cs_tbl = Ok (0, (x', (g', k'))) /\ started globals0 demo_ip 1000 x' g'.
Proof.
  pose proof (hybrid_create_run sim_mutexes steady_works sim_sram_bounded demo_sm globals0 sim0 demo_ip "HYBRID"%string
    1000 pdn_zero eq_refl eq_refl eq_refl eq_refl eq_refl demo_maps (vacant_idle _ _ (vacant0 _ (or_intror eq_refl)))
    (vacant_idle _ _ (vacant0 _ (or_introl eq_refl))) eq_refl eq_refl) as (x' & g' & k' & Hrun & _ & Hst).
  exists x', g', k'. split; [exact Hrun|exact Hst].
Qed.

Lemma cs1_hybrid : hybrid_at (fst cs1) (fst (snd cs1)) SRAM_SUB store_empty /\
  sram_tbl_hdl (sm_obj (fst cs1)) = cs_hdl /\ zget (pdns (fst (snd cs1))) 0 = Some cs_pdn /\
  Hash_token (fst (snd cs1)) = 0.
Proof.
  destruct cs1_started as (x' & g' & k' & Hrun & Hst).
  assert (E : cs1 = (x', (g', k'))) by (unfold cs1; rewrite Hrun; reflexivity).
  destruct cs1_seen as (Hc & Hh & Hd). rewrite E in *. cbn [fst snd] in *.
  destruct Hst as [(Hcl & _ & H & _ & Hs & (p0 & p1 & Hp0 & Hp1 & ->) & Ht)|[(_ & _ & Hc' & _)|[(_ & Hc' & _)|[(_ & _ & g1 & _ & Hn)|(H0 & _)]]]].
  - split; [exact H|]. split; [by rewrite Hs|]. split; [|exact Ht]. rewrite Hp1.
    vm_compute in Hp0. injection Hp0 as <-. done.
  - congruence.
  - congruence.
  - destruct Hn as ((c & n & Hcc & _ & H0 & _) & _). unfold cs_cnt in Hd. cbn [fst snd] in Hd.
    rewrite Hcc, H0 in Hd. done.
  - rewrite Hh in H0. discriminate H0.
Qed.

Lemma cs1_room : 0 <= Hash_token (fst (snd cs1)) < 2 ^ 30.
Proof. destruct cs1_hybrid as (_ & _ & _ & Ht). rewrite Ht. lia. Qed.

Lemma hybrid_switch_witness : exists r,
  ipa_nat_switch_to (sub_nmi (sub_other SRAM_SUB)) true (fst cs1, (fst (snd cs1), sim0)) = Ok r.
Proof.
  destruct cs1_hybrid as (H & _).
  pose proof (hybrid_switch (fst cs1) (fst (snd cs1)) sim0 SRAM_SUB store_empty true sim_mutexes H cs1_room)
    as (x' & g' & k' & S' & Hrun & _).
  eexists. exact Hrun.
Defined.

(** A rule of the client. *)
Definition cs_rule : ipa_nat_ipv4_rule :=
  mk_ipv4_rule 134744072 3232235777 443 5000 6000 6 0 1 1 77 0 false false false false.
Definition cs_x1 : smach unit :=
  mk_sm (sm_obj (fst cs1)) (sm_maps (fst cs1)) (nat_mutex_init (fst cs1)) (put_rule cs_rule (sm_client (fst cs1))).
Definition cs_g1 : nat_globals := fst (snd cs1).
Definition cs_add : res (Z * cs) := ipa_nat_add_ipv4_rule cs_hdl false false (cs_x1, (cs_g1, sim0)).
Definition cs2 : cs := run_state cs_add (cs_x1, (cs_g1, sim0)).
#[local] Notation cs_h := (cl_rule_hdl (sm_client (fst cs2))).
Definition cs_r : ipa_nat_rule := rule_in_force cs_pdn (clear_rule_flags cs_rule) 0.

Lemma cs_x1_hybrid : hybrid_at cs_x1 cs_g1 SRAM_SUB store_empty.
Proof. destruct cs1_hybrid as (H & _). exact (hybrid_client _ _ _ _ _ H). Qed.

Lemma cs_x1_hdl : hdl_of SRAM_SUB (sm_obj cs_x1) = cs_hdl.
Proof. destruct cs1_hybrid as (_ & H & _). exact H. Qed.

Lemma cs_room : 0 <= Hash_token cs_g1 < 2 ^ 30 - 2.
Proof. destruct cs1_hybrid as (_ & _ & _ & Ht). unfold cs_g1. rewrite Ht. lia. Qed.

Lemma cs_acceptable : acceptable cs_g1 (clear_rule_flags cs_rule) cs_pdn.
Proof.
  destruct cs1_hybrid as (H & _ & Hp & _). split_and!.
  - unfold wf_ipv4_rule. apply fitsb_fits. vm_compute. reflexivity.
  - discriminate.
  - exact Hp.
  - vm_compute. repeat split; discriminate.
  - exact (hy_pdns H).
Qed.

Lemma hybrid_add_witness : exists r, cs_add = Ok r.
Proof.
  pose proof (hybrid_add cs_x1 cs_g1 sim0 SRAM_SUB store_empty cs_pdn sim_mutexes steady_works cs_x1_hybrid
    cs_acceptable ltac:(discriminate) cs_room) as (x' & g' & k' & Hrun & _).
  eexists. unfold cs_add. rewrite <- cs_x1_hdl. exact Hrun.
Defined.

Lemma cs2_seen : curr_state (sm_obj (fst cs2)) = NATI_STATE_HYBRID /\ VALID_RULE_HDL cs_h = true.
Proof. vm_compute. done. Qed.

(** The rule was added, in SRAM. *)
Lemma added_in_sram (x x' : smach unit) g' r : add_result x SRAM_SUB store_empty r x' g' ->
  curr_state (sm_obj x') = NATI_STATE_HYBRID -> cl_rule_hdl (sm_client x') <> 0 ->
  hybrid_at x' g' SRAM_SUB (store_put store_empty (cl_rule_hdl (sm_client x')) (Some r)).
Proof.
  intros [[[(_ & _ & H)|[(_ & [? H] & _)|(H & _)]] _]|(_ & _ & S1 & Hsub & [(_ & _ & H)|[(_ & [r' H] & _)|(H & _)]] & _)] Hc H0.
  - exact H.
  - discriminate H.
  - by destruct H0.
  - pose proof (fc_curr _ _ (hy_focus H)) as Hc'. cbn in Hc'. congruence.
  - apply Hsub in H. discriminate H.
  - by destruct H0.
Qed.

Lemma cs_add_run : exists x' g' k', cs_add = Ok (0, (x', (g', k'))) /\
  hdl_of SRAM_SUB (sm_obj x') = cs_hdl /\ 0 <= Hash_token g' < 2 ^ 30 /\
  add_result cs_x1 SRAM_SUB store_empty cs_r x' g'.
Proof.
  pose proof (hybrid_add_run sim_mutexes steady_works cs_x1 cs_g1 sim0 SRAM_SUB store_empty cs_pdn cs_x1_hybrid
    cs_acceptable ltac:(discriminate) cs_room) as (x' & g' & k' & Hrun & Hso & Ht & Hres).
  rewrite cs_x1_hdl in Hrun. exists x', g', k'. split; [exact Hrun|].
  split; [rewrite (so_hdls _ _ _ _ _ Hso SRAM_SUB); exact cs_x1_hdl|]. split; [|exact Hres].
  assert (H0 : Hash_token cs_g1 = 0) by apply cs1_hybrid. rewrite H0 in Ht. lia.
Qed.

Lemma cs2_hybrid : hybrid_at (fst cs2) (fst (snd cs2)) SRAM_SUB (store_put store_empty cs_h (Some cs_r)) /\
  sram_tbl_hdl (sm_obj (fst cs2)) = cs_hdl /\ 0 <= Hash_token (fst (snd cs2)) < 2 ^ 30.
Proof.
  destruct cs_add_run as (x' & g' & k' & Hrun & Hh & Ht & Hres). destruct cs2_seen as [Hc Hv].
  assert (E : cs2 = (x', (g', k'))) by (unfold cs2; rewrite Hrun; reflexivity).
  rewrite E in Hc, Hv |- *. cbn [fst snd] in *. split; [|by split].
  apply (added_in_sram _ _ _ _ Hres Hc). intros H0. rewrite H0 in Hv. discriminate Hv.
Qed.

Lemma hybrid_del_witness : exists r, ipa_nat_del_ipv4_rule cs_hdl cs_h (fst cs2, (fst (snd cs2), sim0)) = Ok r.
Proof.
  destruct cs2_hybrid as (H & Hh & Ht).
  pose proof (hybrid_del (fst cs2) (fst (snd cs2)) sim0 SRAM_SUB _ cs_h cs_r sim_mutexes steady_works H Ht
    ltac:(unfold store_put; by rewrite decide_True) (proj2 cs2_seen)) as (x' & g' & k' & Hrun & _).
  eexists. rewrite <- Hh. exact Hrun.
Defined.

Lemma cs_session : session cs_hdl (pdns cs_g1) (fst cs1) cs_g1 store_empty.
Proof.
  destruct cs1_hybrid as (H & Hh & _). split; [by exists SRAM_SUB|exact Hh|reflexivity].
Qed.

(** Nothing was lost: no switch failed and the new handle leads to itself. *)
Definition cs_lookup (sub : mem_sub) : option Z :=
  match zget (sm_maps (fst cs2)) (o2n_of sub) with Some m => m !! cs_h | None => None end.

Lemma cs2_kept : ~ lost (HyAdd cs_rule) (fst cs1) (fst cs2) (fst (snd cs2)).
Proof.
  assert (Hf : forall sub, fails_of sub (fst cs2) = fails_of sub (fst cs1)) by (intros []; vm_compute; reflexivity).
  assert (Hl : forall sub, cs_lookup sub = match sub with SRAM_SUB => Some cs_h | DDR_SUB => None end)
    by (intros []; vm_compute; reflexivity).
  intros [[sub H]|(sub & r & hdl & c & n & i & o2n & n2o & h' & _ & _ & _ & [Hm _] & Ho & Hne)]; [by apply H|].
  specialize (Hl sub). unfold cs_lookup in Hl. rewrite Hm in Hl.
  rewrite Ho in Hl. destruct sub; [discriminate Hl|]. apply (inj Some) in Hl. exact (Hne Hl).
Qed.

Lemma cs2_run : run_hy cs_hdl (HyAdd cs_rule) (fst cs1, (cs_g1, sim0)) = Ok (0, cs2).
Proof. vm_compute. reflexivity. Qed.

Lemma cs2_trace : hy_trace (HyAdd cs_rule) (fst cs2) [] = [(NatAdd (clear_rule_flags cs_rule), (0, Some cs_h))].
Proof. vm_compute. reflexivity. Qed.

Lemma pair_eta (s : cs) : s = (fst s, (fst (snd s), snd (snd s))).
Proof. by destruct s as [x [g k]]. Qed.

(** The history of one addition. *)
Lemma cs2_history : hy_history cs_hdl (fst cs1) cs_g1 sim0 (fst cs2, (fst (snd cs2), snd (snd cs2)))
  [(NatAdd (clear_rule_flags cs_rule), (0, Some cs_h))].
Proof.
  rewrite <- cs2_trace. refine (hy_next _ _ _ _ (fst cs1) cs_g1 sim0 [] (HyAdd cs_rule) 0 _ _ _ (hy_start _ _ _ _) _ _ cs2_kept).
  - intros S _ _. split; [exact cs_room|]. exists cs_pdn. split; [exact cs_acceptable|discriminate].
  - rewrite <- pair_eta. exact cs2_run.
Qed.

Lemma hybrid_refines_map_witness :
  exists S, spec_history (pdns cs_g1) S [(NatAdd (clear_rule_flags cs_rule), (0, Some cs_h))] /\
    hybrid (fst cs2) (fst (snd cs2)) S.
Proof.
  pose proof (hybrid_refines_map cs_hdl (fst cs1) cs_g1 sim0 (fst cs2) (fst (snd cs2)) (snd (snd cs2)) _
    sim_mutexes steady_works cs_session cs2_history) as (S & H1 & H2 & _).
  exists S. split; [exact H1|exact H2].
Defined.
