(* ===== verification/CtProps.v ===== *)
(** * Properties of the IPv6 connection tracking table

    Claims about [ipa_ipv6ct.c], each with a witness on the tables of [Demo]. *)

From Stdlib Require Import ZArith Lia.
From stdpp Require Import prelude gmap list numbers.
From S2P Require Import Prelude CFloat Chain Bitfield IpaTable IpaTableRep Dma TableDma TableSetup.
From S2P Require Import RuleTable Os NatUtils MemDescriptor Ipv6ct Ipv6ctLaws Ipv6ctProps Ipv6ctApi.
From S2P Require Import SimOs Demo.

Local Open Scope Z_scope.

Section ct_props.
Context {K : Type} `{Os : OsOps K} `{COs : !CtOs K} `{CL : !CtOsLaws} `{U : IpaUapi} `{UL : !IpaUapiLaws}.
Implicit Types (g : ipa_ipv6ct) (k : K).

(** C34. [ipa_ipv6ct_add_rule] on a table that satisfies the invariant, with an acceptable
    rule: on success the handle names a slot that was free and now holds the rule, on
    failure no rule has changed and no handle is given; the invariant holds again. *)
Theorem ct_add_rule g k hdl n d u :
  ct_ready g hdl n d -> ct_acceptable u -> fst (pthread_mutex_lock ipv6ct_mutex k) = 0 ->
  exists st h n' k1, let un := pthread_mutex_unlock ipv6ct_mutex k1 in
    ipa_ipv6ct_add_rule hdl (Some u) false (g, k) =
      Ok (if negb (st =? 0) then (st, None)
          else if negb (fst un =? 0) then (- EPERM, None) else (0, h),
          (ct_set_table g hdl n', snd un)) /\
    ct_ready (ct_set_table g hdl n') hdl n' d /\
    ((st = 0 /\ exists new, h = Some (MakeEntryHdl (ct_table n) new) /\
        0 < new < tot_tbl_ents (ct_table n) /\ ct_rules (ct_table n) new = None /\
        forall i, ct_rules (ct_table n') i =
          if decide (i = new) then Some (ct_in_force u) else ct_rules (ct_table n) i) \/
     (st <> 0 /\ h = None /\ forall i, ct_rules (ct_table n') i = ct_rules (ct_table n) i)).
Proof.
  intros R Ha Hl. destruct (ct_add_rule_api g k hdl n d u R Ha Hl) as (st & h & n' & k1 & Hrun & Hok & Hmd & _ & Hout).
  exists st, h, n', k1. split; [done|]. split; [by eapply ct_ready_with|done].
Qed.

(** C35. [ipa_ipv6ct_del_rule] with the handle of a rule in force: the rule is gone and
    every other slot holds what it held, or the kernel refused (-EIO) and the table is
    as it was. *)
Theorem ct_del_rule g k hdl n d i :
  ct_ready g hdl n d -> is_Some (ct_rules (ct_table n) i) ->
  fst (pthread_mutex_lock ipv6ct_mutex k) = 0 ->
  exists st n' k1, let un := pthread_mutex_unlock ipv6ct_mutex k1 in
    ipa_ipv6ct_del_rule hdl (MakeEntryHdl (ct_table n) i) (g, k) =
      Ok (if negb (fst un =? 0) then (if negb (st =? 0) then st else - EPERM) else st,
          (ct_set_table g hdl n', snd un)) /\
    ((st = 0 /\ ct_ok n' /\
        forall q, ct_rules (ct_table n') q = if decide (q = i) then None else ct_rules (ct_table n) q) \/
     (st = - EIO /\ n' = n)).
Proof.
  intros R Hi Hl. destruct (ct_del_rule_api g k hdl n d i R Hi Hl) as (st & n' & k1 & Hrun & Hout).
  exists st, n', k1. split; [done|]. destruct Hout as [(-> & ? & _ & _ & ?)|[-> ->]]; auto.
Qed.

(** A successful addition, when the mutex works. *)
Lemma ct_add_done g k hdl n d u h g1 k1 :
  (forall m k, fst (pthread_mutex_lock (K := K) m k) = 0) ->
  (forall m k, fst (pthread_mutex_unlock (K := K) m k) = 0) ->
  ct_ready g hdl n d -> ct_acceptable u ->
  ipa_ipv6ct_add_rule hdl (Some u) false (g, k) = Ok ((0, h), (g1, k1)) ->
  exists new n', h = Some (MakeEntryHdl (ct_table n') new) /\ ct_rules (ct_table n) new = None /\
    g1 = ct_set_table g hdl n' /\ ct_ready g1 hdl n' d /\ ct_mem_desc n' = ct_mem_desc n /\
    forall i, ct_rules (ct_table n') i =
      if decide (i = new) then Some (ct_in_force u) else ct_rules (ct_table n) i.
Proof.
  intros Hl Hu R Ha Hadd.
  destruct (ct_add_rule_api g k hdl n d u R Ha (Hl _ _)) as (st & h' & n' & k1' & Hrun & Hok & Hmd & Hsh & Hout).
  cbv zeta in Hrun. rewrite Hu, Hadd in Hrun. cbn [negb Z.eqb] in Hrun.
  destruct Hout as [(-> & new & -> & _ & Hfree & Hupd)|(Hst & _)].
  2: { rewrite (proj2 (Z.eqb_neq st 0)) in Hrun by done. cbn [negb] in Hrun. injection Hrun as E. by destruct Hst. }
  cbn [negb Z.eqb] in Hrun. injection Hrun as -> -> ->. exists new, n'.
  split_and!; try done; [by destruct Hsh as (? & ? & ? & ? & ->)|by eapply ct_ready_with].
Qed.

(** C36. Deleting the rule just added restores the map of rules, when the kernel
    accepts; and its time stamp, before that, is the one of the record in force. *)
Theorem ct_add_del_roundtrip g k hdl n d u h g1 k1 :
  (forall m k, fst (pthread_mutex_lock (K := K) m k) = 0) ->
  (forall m k, fst (pthread_mutex_unlock (K := K) m k) = 0) ->
  ct_ready g hdl n d -> ct_acceptable u ->
  ipa_ipv6ct_add_rule hdl (Some u) false (g, k) = Ok ((0, h), (g1, k1)) ->
  (forall k2, exists k3, ipa_ipv6ct_query_timestamp hdl (default 0 h) false (g1, k2) =
     Ok ((0, Some (c_time_stamp (ct_in_force u))), (g1, k3))) /\
  (forall k2, exists st n2 k3, ipa_ipv6ct_del_rule hdl (default 0 h) (g1, k2) =
       Ok (st, (ct_set_table g1 hdl n2, k3)) /\
     (st = 0 -> ct_ok n2 /\ forall i, ct_rules (ct_table n2) i = ct_rules (ct_table n) i)).
Proof.
  intros Hl Hu R Ha Hadd.
  destruct (ct_add_done _ _ _ _ _ _ _ _ _ Hl Hu R Ha Hadd) as (new & n' & -> & Hfree & _ & R1 & _ & Hupd).
  unfold default, id. cbn [from_option]. split; intros k2.
  - pose proof (ct_query_api g1 k2 hdl n' d new _ R1 ltac:(by rewrite Hupd, decide_True) (Hl _ _)) as Hq.
    cbv zeta in Hq. rewrite Hu in Hq. cbn [negb Z.eqb] in Hq. by eexists.
  - destruct (ct_del_rule_api g1 k2 hdl n' d new R1 ltac:(rewrite Hupd, decide_True by done; by eexists) (Hl _ _))
      as (st & n2 & k3 & Hrun & Hout).
    cbv zeta in Hrun. rewrite Hu in Hrun. cbn [negb Z.eqb] in Hrun.
    eexists st, n2, _. split; [exact Hrun|]. intros ->.
    destruct Hout as [(_ & Hok & _ & _ & Hupd2)|(? & _)]; [|done]. split; [done|].
    intros i. rewrite Hupd2, Hupd. case_decide; [by subst|done].
Qed.

(** [ipa_ipv6ct_add_tbl] when there is no table: either handle 1 names an empty table
    ready for use, or the call fails with handle 0 and there is again no table and no
    open device.  [ipa_ipv6ct_del_tbl] of the table, on success, leads back there. *)
Theorem ct_add_tbl g k num : ct_vacant g -> 0 < num ->
  (forall m k, fst (pthread_mutex_lock (K := K) m k) = 0) ->
  exists st h g' k', ipa_ipv6ct_add_tbl num false (g, k) = Ok ((st, h), (g', k')) /\
    ((st = 0 /\ h = Some 1 /\ exists n d, ct_ready g' 1 n d /\
        (forall i, ct_rules (ct_table n) i = None) /\
        exists st2 g2 k2, ipa_ipv6ct_del_tbl 1 (g', k') = Ok (st2, (g2, k2)) /\ (st2 = 0 -> ct_vacant g2)) \/
     (st <> 0 /\ h = Some 0 /\ ct_vacant g')).
Proof.
  intros Hv Hn Hl. destruct (ct_add_tbl_api g k num Hv Hn) as (st & h & g' & k' & Hrun & Hout).
  exists st, h, g', k'. split; [done|].
  destruct Hout as [(-> & -> & n & d & R & Hcnt & Hnone & _)|?]; [left|by right].
  split; [done|]. split; [done|]. exists n, d. split; [done|]. split; [done|].
  destruct (ct_del_tbl_api g' k' 1 n d R Hcnt (Hl _ _)) as (st2 & g2 & k2 & Hdel & Hvac & _).
  cbv zeta in Hdel. eexists _, g2, _. split; [exact Hdel|]. intros H. apply Hvac.
  destruct (negb (_ =? 0)); [|done]. destruct (st2 =? 0) eqn:E; [by apply Z.eqb_eq in E|done].
Qed.

(** Before a table has been added, when no device is open, each rule operation and
    the deletion of a table dereferences a NULL pointer, whatever its arguments. *)
Theorem ct_before_table g k hdl u h b : ct_ipa_desc g = None ->
  ipa_ipv6ct_add_rule hdl u b (g, k) = UB /\ ipa_ipv6ct_del_rule hdl h (g, k) = UB /\
  ipa_ipv6ct_del_tbl hdl (g, k) = UB /\ ipa_ipv6ct_query_timestamp hdl h b (g, k) = UB.
Proof. apply ct_no_desc. Qed.
End ct_props.

(** ** Witnesses *)
Lemma ct_add_rule_witness : exists r, ipa_ipv6ct_add_rule 1 (Some demo_ct_rule) false (demo_ct_g, sim0) = Ok r.
Proof.
  destruct (ct_add_rule demo_ct_g sim0 1 demo_ct_n demo_desc demo_ct_rule demo_ct_ready demo_ct_acceptable
    (sim_lock _ _)) as (st & h & n' & k1 & H & _). eexists. exact H.
Defined.

Lemma ct_del_rule_witness : exists r,
  ipa_ipv6ct_del_rule 1 (MakeEntryHdl (ct_table demo_ct_n1) demo_ct_slot) (demo_ct_g1, sim0) = Ok r.
Proof.
  destruct demo_ct_ready1 as [R Hi].
  destruct (ct_del_rule demo_ct_g1 sim0 1 _ _ _ R Hi (sim_lock _ _)) as (st & n' & k1 & H & _).
  eexists. exact H.
Defined.

Lemma ct_add_del_roundtrip_witness : exists st n2 k3,
  ipa_ipv6ct_del_rule 1 demo_ct_hdl (demo_ct_g1, sim0) = Ok (st, (ct_set_table demo_ct_g1 1 n2, k3)).
Proof.
  destruct (ct_add_del_roundtrip demo_ct_g sim0 1 demo_ct_n demo_desc demo_ct_rule (Some demo_ct_hdl)
    demo_ct_g1 sim0 sim_lock sim_unlock demo_ct_ready demo_ct_acceptable demo_ct_add_run) as [_ H].
  destruct (H sim0) as (st & n2 & k3 & Hd & _). exists st, n2, k3. exact Hd.
Defined.

Lemma ct_add_tbl_witness : exists r, ipa_ipv6ct_add_tbl 20 false (ipv6ct_zero, sim0) = Ok r.
Proof.
  destruct (ct_add_tbl ipv6ct_zero sim0 20) as (st & h & g' & k' & H & _);
    [exists ct_table_zero; split_and!; reflexivity|lia|exact sim_lock|]. eexists. exact H.
Defined.

Lemma ct_before_table_witness : ipa_ipv6ct_del_tbl 1 (ipv6ct_zero, sim0) = UB.
Proof. apply (ct_before_table ipv6ct_zero sim0 1 None 0 false). reflexivity. Defined.
