(* ===== verification/TableProps.v ===== *)
(** * Properties of the generic table *)

From Stdlib Require Import ZArith Lia.
From stdpp Require Import prelude gmap list numbers.
From S2P Require Import Prelude CFloat Chain Bitfield IpaTable IpaTableRep Dma TableDma.
From S2P Require Import TableSetup TableWalk RuleTable Os NatUtils MemDescriptor MemProps.
From S2P Require Import Ipv6ct Ipv6ctLaws Ipv6ctProps Ipv6ctApi NatRule NatRuleLaws NatDrvi.
From S2P Require Import SimOs NatTables NatDrviProps NatDrviDel NatCreate NatApi NatTblApi.
From S2P Require Import Demo.

Local Open Scope Z_scope.

(** [MakeEntryHdl] and [ipa_table_get_entry] are inverse: the handle of a slot gives
    back the slot's record and index, [BREAK_RULE_HDL] gives memory type, base or
    expansion and index, and different slots have different handles. *)
Theorem handle_roundtrip {E} (t : ipa_table E) i j :
  geometry t -> 0 <= i < tot_tbl_ents t -> 0 <= j < tot_tbl_ents t ->
  ipa_table_get_entry t (MakeEntryHdl t i) = (0, Some (GOTO_REC t i, i)) /\
  BREAK_RULE_HDL t (MakeEntryHdl t i) = (nmi t, b2z (i >=? table_entries t), i) /\
  (MakeEntryHdl t i = MakeEntryHdl t j -> i = j).
Proof.
  intros G Hi Hj. split_and!; [by apply get_entry_hdl|by apply break_make_hdl|].
  intros H. pose proof (break_make_hdl t i G Hi) as Hb. rewrite H, break_make_hdl in Hb by done.
  congruence.
Qed.

Lemma demo_geometry : geometry (ct_table demo_ct_n).
Proof. destruct (cr_ok _ _ _ _ demo_ct_ready) as (ch & HI). apply (ok_geo _ _ _ _ (ci_t _ _ HI)). Qed.

Lemma handle_roundtrip_witness :
  ipa_table_get_entry (ct_table demo_ct_n) (MakeEntryHdl (ct_table demo_ct_n) 17) =
    (0, Some (GOTO_REC (ct_table demo_ct_n) 17, 17)).
Proof. apply (handle_roundtrip (ct_table demo_ct_n) 17 3); [apply demo_geometry|done|done]. Defined.

(** ** Sizes *)
(** C38. [ipa_table_calculate_entries_num] of a new table either fails with -EINVAL or
    gives a base table of a power of two of at least 2 records, an even number of at least
    2 expansion records and at most 5120 in all.  It fails exactly for more than 5120
    entries and, in SRAM, from 2384 on.  A table in SRAM has as many records as were asked
    for; one in DDR has one less for nine requests. *)
Theorem table_entry_counts {E} (t : ipa_table E) nmi n :
  table_entries t = 0 -> expn_table_entries t = 0 -> tot_tbl_ents t = 0 ->
  nmi = IPA_NAT_MEM_IN_DDR \/ nmi = IPA_NAT_MEM_IN_SRAM -> 0 <= n ->
  exists ret t', ipa_table_calculate_entries_num t n nmi = Ok (ret, t') /\
    (ret = 0 <-> n <= IPA_TABLE_MAX_ENTRIES /\ (nmi = IPA_NAT_MEM_IN_SRAM -> n < 2384)) /\
    (ret <> 0 -> ret = - EINVAL) /\
    (ret = 0 ->
       (exists e, table_entries t' = 2 ^ e) /\ 2 <= table_entries t' <= 4096 /\
       expn_table_entries t' mod 2 = 0 /\ 2 <= expn_table_entries t' <= 4096 /\
       tot_tbl_ents t' = table_entries t' + expn_table_entries t' /\
       n - 1 <= tot_tbl_ents t' <= IPA_TABLE_MAX_ENTRIES /\
       (tot_tbl_ents t' < n <-> nmi = IPA_NAT_MEM_IN_DDR /\
          n ∈ [11; 21; 41; 81; 161; 321; 641; 1281; 2561])).
Proof.
  intros H1 H2 H3 Hnmi Hn. destruct (entry_counts_spec nmi n Hnmi Hn) as (ret & te & ee & tot & Hec & Hcase).
  destruct (entry_counts_exact nmi n ret te ee tot Hnmi Hn Hec) as [Hret Htot].
  exists ret, (set_entries t te ee tot). rewrite calculate_entries_num_counts, Hec by done.
  split; [done|]. split; [exact Hret|]. split; [by intros ?; destruct Hcase as [(? & _)|]|].
  intros H0. destruct Hcase as [(_ & Hte & ? & ? & ? & ? & ?)|]; [|by subst].
  destruct (Htot H0) as [Hshort ?]. cbn [table_entries expn_table_entries tot_tbl_ents set_entries].
  split; [by exists (Z.log2 te)|]. split_and!; try lia; apply Hshort.
Qed.

Lemma table_entry_counts_witness :
  exists ret t', ipa_table_calculate_entries_num
      (ipa_table_init IPA_NAT_MEM_IN_DDR 32 None 0 : ipa_table ipa_nat_rule) 11 IPA_NAT_MEM_IN_DDR = Ok (ret, t') /\
    (tot_tbl_ents t' < 11 <-> IPA_NAT_MEM_IN_DDR = IPA_NAT_MEM_IN_DDR /\
       11 ∈ [11; 21; 41; 81; 161; 321; 641; 1281; 2561]).
Proof.
  destruct (table_entry_counts (ipa_table_init IPA_NAT_MEM_IN_DDR 32 None 0 : ipa_table ipa_nat_rule)
    IPA_NAT_MEM_IN_DDR 11 eq_refl eq_refl eq_refl (or_introl eq_refl) ltac:(done))
    as (ret & t' & Hrun & Hret & _ & Hok).
  exists ret, t'. split; [exact Hrun|]. apply Hok, Hret. clear.
  unfold IPA_TABLE_MAX_ENTRIES. split; lia.
Defined.

(** C37. [ipa_calc_num_sram_table_entries] for records of 32 and 4 bytes: below 1,686,888
    bytes of SRAM the loop stops and gives the largest number up to which every number of
    entries fits, with status 0 unless not even one fits; from 4,718,520 bytes on it does
    not stop, since its 16-bit counter wraps before the tables can outgrow the SRAM. *)
Theorem sram_entries sram_size : 0 <= sram_size ->
  (sram_size < 1686888 ->
    exists num, ipa_calc_num_sram_table_entries sram_size sizeof_ipa_nat_rule sizeof_ipa_nat_indx_tbl_rule =
        Ok (if num =? 0 then -1 else 0, num) /\ 0 <= num < 32768 /\
      (forall j, 1 <= j <= num -> sram_fits sram_size 32 4 j = true) /\
      sram_fits sram_size 32 4 (num + 1) = false) /\
  (4718520 <= sram_size -> forall fuel,
    calc_num_sram_loop fuel sram_size sizeof_ipa_nat_rule sizeof_ipa_nat_indx_tbl_rule 1 0 = Diverge).
Proof.
  intros Hs. split; [|intros Hbig fuel; by apply calc_loop_diverges].
  intros Hlt. pose proof (sram_fits_stop sram_size ltac:(lia)) as Hstop.
  change sizeof_ipa_nat_rule with 32. change sizeof_ipa_nat_indx_tbl_rule with 4.
  exact (calc_num_finds sram_size 32 4 32768 ltac:(lia) Hstop ltac:(lia)).
Qed.

Lemma sram_entries_witness :
  exists num, ipa_calc_num_sram_table_entries 8192 sizeof_ipa_nat_rule sizeof_ipa_nat_indx_tbl_rule =
    Ok (if num =? 0 then -1 else 0, num) /\ sram_fits 8192 32 4 (num + 1) = false.
Proof.
  destruct (proj1 (sram_entries 8192 ltac:(done)) ltac:(done)) as (num & Hrun & _ & _ & Hno).
  exists num. split; [exact Hrun|exact Hno].
Defined.

(** ** Walking *)
(** [ipa_table_walk] from a slot, with a callback that behaves as [f] on the table's
    records, is the traversal of the slots in order that gives [f] the wanted records
    and stops at its first non-zero status; when the status is always 0 every filled
    slot is visited, once and in order. *)
Theorem table_walk_fold `{Ops : EntryOps E D} {S} (t : ipa_table E) w (cb : walk_cb_type S) f start s :
  geometry t -> calls t cb f -> VALID_WHEN2CALLBACK w = true -> 0 <= start < tot_tbl_ents t ->
  ipa_table_walk t start w cb s =
    Ok (slot_fold (wanted w) f (drop (Z.to_nat start) (tbl_mem t)) start s) /\
  ((forall j e s, fst (f j e s) = 0) ->
    ipa_table_walk t 0 w cb s =
      Ok (0, foldl (fun s '(j, e) => snd (f j e s)) s
               (filter (fun p => wanted w (snd p) = true) (zip (seqZ 0 (tot_tbl_ents t)) (tbl_mem t))))).
Proof.
  intros G Hcb Hw Hs. split; [by apply walk_fold|]. intros Hf.
  rewrite (walk_fold t w cb f 0) by (solve [done|lia]).
  rewrite slot_fold_total by done.
  change (Z.to_nat 0) with O. rewrite drop_0. pose proof (geo_mem _ G).
  by replace (Z.of_nat (length (tbl_mem t))) with (tot_tbl_ents t) by lia.
Qed.

(** The callback that collects the indices it is given. *)
Definition collect_cb : walk_cb_type (E := ipa_ipv6ct_hw_entry) (list Z) :=
  fun _ _ _ i _ _ l => Ok (0, l ++ [i]).

Lemma table_walk_fold_witness :
  ipa_table_walk (ct_table demo_ct_n1) 0 WHEN_SLOT_FILLED collect_cb [] =
    Ok (0, foldl (fun s '(j, _) => s ++ [j]) []
             (filter (fun p => wanted WHEN_SLOT_FILLED (snd p) = true)
                (zip (seqZ 0 (tot_tbl_ents (ct_table demo_ct_n1))) (tbl_mem (ct_table demo_ct_n1))))).
Proof.
  apply (table_walk_fold (ct_table demo_ct_n1) WHEN_SLOT_FILLED collect_cb (fun j _ s => (0, s ++ [j])) 1 []);
    [|done|done|done|done].
  destruct demo_ct_ready1 as [R _]. destruct (cr_ok _ _ _ _ R) as (ch & HI).
  apply (ok_geo _ _ _ _ (ci_t _ _ HI)).
Defined.
