(* ===== verification/StWp.v ===== *)
(** * Total correctness of computations

    [wp m Q s]: the computation [m] of [St], from the state [s], is defined, ends, and
    its result and final state satisfy [Q].  [wp_go] runs the parts of a computation
    that have a rule in the hint database [wp]. *)

From Stdlib Require Import ZArith Lia.
From stdpp Require Import prelude list numbers.
From S2P Require Import Prelude.

Definition wp {S A} (m : St S A) (Q : A -> S -> Prop) (s : S) : Prop :=
  match m s with Ok (a, s') => Q a s' | _ => False end.

Section rules.
Context {S : Type}.

Lemma wp_ok {A} (m : St S A) Q s : wp m Q s <-> exists a s', m s = Ok (a, s') /\ Q a s'.
Proof. unfold wp. destruct (m s) as [[a s']| |]; naive_solver. Qed.

Lemma wp_result {A} (m : St S A) (Q : A -> S -> Prop) s a s' : wp m Q s -> m s = Ok (a, s') -> Q a s'.
Proof. unfold wp. intros H E. by rewrite E in H. Qed.

Lemma wp_ret {A} (a : A) (Q : A -> S -> Prop) s : Q a s -> wp (mret a) Q s.
Proof. done. Qed.

Lemma wp_bind {A B} (m : St S A) (f : A -> St S B) Q s :
  wp m (fun a s' => wp (f a) Q s') s -> wp (m ≫= f) Q s.
Proof. unfold wp, mbind, st_bind. by destruct (m s) as [[a s']| |]. Qed.

Lemma wp_mono {A} (m : St S A) (P Q : A -> S -> Prop) s :
  wp m P s -> (forall a s', P a s' -> Q a s') -> wp m Q s.
Proof. unfold wp. destruct (m s) as [[a s']| |]; auto. Qed.

Lemma wp_and {A} (m : St S A) (P Q : A -> S -> Prop) s :
  wp m P s -> wp m Q s -> wp m (fun a s' => P a s' /\ Q a s') s.
Proof. unfold wp. by destruct (m s) as [[a s']| |]. Qed.

Lemma wp_use {A B} (m : St S A) (f : A -> St S B) (P : A -> S -> Prop) Q s :
  wp m P s -> (forall a s', P a s' -> wp (f a) Q s') -> wp (m ≫= f) Q s.
Proof. intros Hm Hf. apply wp_bind. by eapply wp_mono. Qed.

Lemma wp_lift {A} (r : res A) a (Q : A -> S -> Prop) s : r = Ok a -> Q a s -> wp (st_lift r) Q s.
Proof. unfold wp, st_lift. by intros ->. Qed.

Lemma wp_if {A} (b : bool) (m1 m2 : St S A) Q s :
  (b = true -> wp m1 Q s) -> (b = false -> wp m2 Q s) -> wp (if b then m1 else m2) Q s.
Proof. destruct b; auto. Qed.
End rules.
