(* ===== verification/KernHal.v ===== *)
(** * The hardware layer of the IPA kernel driver, for NAT and IPv6CT

    [dataipa/drivers/platform/msm/ipa/ipa_v3/ipahal/ipahal_nat.c], the table of entry
    types per hardware version, and the immediate commands of [ipahal.c] that the NAT
    driver [ipa_nat.c] sends.  A record in memory is the integer made of its bytes
    ([Bitfield.pack] of the fields of the C structure).  Functions that print an entry
    are left out. *)

From Stdlib Require Import ZArith Lia Ascii String.
From stdpp Require Import prelude list numbers strings.
From S2P Require Import Prelude Bitfield Os.

Local Open Scope Z_scope.

Definition EFAULT : Z := 14.
Definition ENODEV : Z := 19.
Definition ENOBUFS : Z := 105.

(** Hardware versions ([enum ipa_hw_type] of [linux/msm_ipa.h], not in the repository),
    besides [IPA_HW_v4_0]. *)
Class IpaHw := {
  IPA_HW_v3_0 : Z;
  IPA_HW_v4_1 : Z;
  IPA_HW_v4_5 : Z;
  IPA_HW_v5_0 : Z;
  IPA_HW_MAX : Z }.

Class IpaHwLaws `{U : IpaUapi} `{HW : IpaHw} : Prop := {
  hw_v3 : 0 <= IPA_HW_v3_0 < IPA_HW_v4_0;
  hw_v4 : IPA_HW_v4_0 < IPA_HW_v4_1 < IPA_HW_v4_5;
  hw_v5 : IPA_HW_v4_5 < IPA_HW_v5_0 < IPA_HW_MAX }.

(** ** Tables per hardware version

    The tables of [ipahal] have a row per version and an entry per name; the
    initialisation copies what a version lacks from the version before.  One pass of
    its outer loop: version [i + 1] takes over what it lacks. *)
Definition inherit_row {N O} (objs : Z -> N -> option O) (i : Z) : Z -> N -> option O := fun hw name =>
  if hw =? i + 1 then
    match objs (i + 1) name with Some o => Some o | None => objs i name end
  else objs hw name.

Fixpoint inherit_loop {N O} (n : nat) (i : Z) (objs : Z -> N -> option O) : Z -> N -> option O :=
  match n with
  | O => objs
  | Datatypes.S n => inherit_loop n (i + 1) (inherit_row objs i)
  end.

(** ** Entry types *)
Inductive ipahal_nat_type :=
  | IPAHAL_NAT_IPV4
  | IPAHAL_NAT_IPV4_INDEX
  | IPAHAL_NAT_IPV4_PDN
  | IPAHAL_NAT_IPV6CT.

#[global] Instance ipahal_nat_type_eq_dec : EqDecision ipahal_nat_type.
Proof. solve_decision. Defined.

(** The structures of [ipahal_nat_i.h], as the widths of their bit-fields. *)
Definition ipa_nat_hw_ipv4_entry : list Z :=
  [32; 32; 16; 16; 16; 16; 16; 13; 1; 1; 1; 24; 8; 16; 16; 11; 1; 4; 16].
Definition ipa_nat_hw_indx_entry : list Z := [16; 16].
Definition ipa_nat_hw_pdn_entry : list Z := [32; 32; 32; 32].
Definition ipa_nat_hw_ipv6ct_entry : list Z :=
  [64; 64; 64; 64; 13; 1; 16; 1; 1; 24; 8; 16; 16; 16; 1; 5; 1; 1; 8; 48; 16; 64].

Definition sizeof (ws : list Z) : Z := width ws / 8.

(** The [n]-th field of a structure found in the bits [entry]. *)
Definition hw_field (ws : list Z) (n : nat) (entry : Z) : Z := nth n (unpack ws entry) 0.

(** [memcmp] of the structure's bytes with zero. *)
Definition hw_zeroed (ws : list Z) (entry : Z) : bool := entry mod 2 ^ width ws =? 0.

Record ipahal_nat_pdn_entry := mk_hal_pdn {
  p_public_ip : Z;
  p_src_metadata : Z;
  p_dst_metadata : Z }.

Section nat_types.
Context `{U : IpaUapi} `{HW : IpaHw}.

Definition ipa_nat_ipv4_is_entry_valid_v_3_0 (entry : Z) : bool :=
  negb (hw_field ipa_nat_hw_ipv4_entry 10 entry =? 0) &&
  negb (hw_field ipa_nat_hw_ipv4_entry 12 entry =? IPAHAL_NAT_INVALID_PROTOCOL).
Definition ipa_nat_ipv4_is_index_entry_valid_v_3_0 (entry : Z) : bool :=
  negb (hw_field ipa_nat_hw_indx_entry 0 entry =? 0).
Definition ipa_nat_ipv4_is_pdn_entry_valid_v_4_0 (entry : Z) : bool :=
  negb (hw_field ipa_nat_hw_pdn_entry 0 entry =? 0).
Definition ipa_nat_ipv6ct_is_entry_valid_v_4_0 (entry : Z) : bool :=
  negb (hw_field ipa_nat_hw_ipv6ct_entry 8 entry =? 0) &&
  negb (hw_field ipa_nat_hw_ipv6ct_entry 10 entry =? IPAHAL_NAT_INVALID_PROTOCOL).

(** The bits written over the entry. *)
Definition ipa_nat_ipv4_pdn_construct_entry_v_4_0 (f : ipahal_nat_pdn_entry) : Z :=
  pack ipa_nat_hw_pdn_entry [p_public_ip f; p_src_metadata f; p_dst_metadata f; 0].
Definition ipa_nat_ipv4_pdn_parse_entry_v_4_0 (entry : Z) : ipahal_nat_pdn_entry :=
  mk_hal_pdn (hw_field ipa_nat_hw_pdn_entry 0 entry) (hw_field ipa_nat_hw_pdn_entry 1 entry)
    (hw_field ipa_nat_hw_pdn_entry 2 entry).

(** [struct ipahal_nat_obj]; [None] is a NULL function. *)
Record ipahal_nat_obj := mk_nat_obj {
  entry_size_cb : Z;
  is_entry_zeroed_cb : Z -> bool;
  is_entry_valid_cb : Z -> bool;
  construct_entry_cb : option (ipahal_nat_pdn_entry -> Z);
  parse_entry_cb : option (Z -> ipahal_nat_pdn_entry) }.

Definition nat_obj_of (ws : list Z) (valid : Z -> bool) : ipahal_nat_obj :=
  mk_nat_obj (sizeof ws) (hw_zeroed ws) valid None None.

(** [ipahal_nat_objs[hw][type]] as initialised statically; [None] is a row of zeros. *)
Definition nat_objs : Type := Z -> ipahal_nat_type -> option ipahal_nat_obj.

Definition ipahal_nat_objs : nat_objs := fun hw ty =>
  if hw =? IPA_HW_v3_0 then
    match ty with
    | IPAHAL_NAT_IPV4 => Some (nat_obj_of ipa_nat_hw_ipv4_entry ipa_nat_ipv4_is_entry_valid_v_3_0)
    | IPAHAL_NAT_IPV4_INDEX =>
        Some (nat_obj_of ipa_nat_hw_indx_entry ipa_nat_ipv4_is_index_entry_valid_v_3_0)
    | _ => None
    end
  else if hw =? IPA_HW_v4_0 then
    match ty with
    | IPAHAL_NAT_IPV4 => Some (nat_obj_of ipa_nat_hw_ipv4_entry ipa_nat_ipv4_is_entry_valid_v_3_0)
    | IPAHAL_NAT_IPV4_PDN =>
        Some (mk_nat_obj (sizeof ipa_nat_hw_pdn_entry) (hw_zeroed ipa_nat_hw_pdn_entry)
                ipa_nat_ipv4_is_pdn_entry_valid_v_4_0
                (Some ipa_nat_ipv4_pdn_construct_entry_v_4_0)
                (Some ipa_nat_ipv4_pdn_parse_entry_v_4_0))
    | IPAHAL_NAT_IPV6CT =>
        Some (nat_obj_of ipa_nat_hw_ipv6ct_entry ipa_nat_ipv6ct_is_entry_valid_v_4_0)
    | _ => None
    end
  else if hw =? IPA_HW_v4_5 then
    match ty with
    | IPAHAL_NAT_IPV4 => Some (nat_obj_of ipa_nat_hw_ipv4_entry ipa_nat_ipv4_is_entry_valid_v_3_0)
    | IPAHAL_NAT_IPV6CT =>
        Some (nat_obj_of ipa_nat_hw_ipv6ct_entry ipa_nat_ipv6ct_is_entry_valid_v_4_0)
    | _ => None
    end
  else None.

(** The loop runs from [IPA_HW_v3_0] to the hardware's version. *)
Definition ipahal_nat_init (ipa_hw_type : Z) (objs : nat_objs) : Z * nat_objs :=
  if (ipa_hw_type <? 0) || (ipa_hw_type >=? IPA_HW_MAX) then (- EINVAL, objs)
  else (0, inherit_loop (Z.to_nat (ipa_hw_type - IPA_HW_v3_0)) IPA_HW_v3_0 objs).

(** [ipahal_ctx] with the table. *)
Record ipahal_context := mk_hal {
  hal_hw_type : Z;
  hal_nat_objs : nat_objs }.

Definition hal_obj (h : ipahal_context) (ty : ipahal_nat_type) : res ipahal_nat_obj :=
  deref (hal_nat_objs h (hal_hw_type h) ty).

(** Status and output; the call of a NULL function is undefined. *)
Definition ipahal_nat_entry_size (h : ipahal_context) (ty : ipahal_nat_type) : res (Z * Z) :=
  o ← hal_obj h ty; Ok (0, entry_size_cb o).
Definition ipahal_nat_is_entry_zeroed (h : ipahal_context) (ty : ipahal_nat_type) (entry : Z) :
    res (Z * bool) :=
  o ← hal_obj h ty; Ok (0, is_entry_zeroed_cb o entry).
Definition ipahal_nat_is_entry_valid (h : ipahal_context) (ty : ipahal_nat_type) (entry : Z) :
    res (Z * bool) :=
  o ← hal_obj h ty; Ok (0, is_entry_valid_cb o entry).
Definition ipahal_nat_construct_entry (h : ipahal_context) (ty : ipahal_nat_type)
    (f : ipahal_nat_pdn_entry) : res (Z * Z) :=
  o ← hal_obj h ty; cb ← deref (construct_entry_cb o); Ok (0, cb f).
Definition ipahal_nat_parse_entry (h : ipahal_context) (ty : ipahal_nat_type) (entry : Z) :
    res (Z * ipahal_nat_pdn_entry) :=
  o ← hal_obj h ty; cb ← deref (parse_entry_cb o); Ok (0, cb entry).
End nat_types.
