(* ===== verification/KernCmd.v ===== *)
(** * Immediate commands of the IPA kernel driver

    The part of [dataipa/drivers/platform/msm/ipa/ipa_v3/ipahal/ipahal.c] that builds the
    payload of the six commands the NAT driver sends, and the interface of the kernel
    and of the other parts of the driver to it: [KernelOps] has the memory, device and
    copy functions of Linux and [ipa3_send_cmd], which hands commands to the hardware
    and waits for it; [KernConf] has what the rest of the driver has configured. *)

From Stdlib Require Import ZArith Lia Ascii String.
From stdpp Require Import prelude list numbers strings.
From S2P Require Import Prelude Bitfield Os KernHal.

Local Open Scope Z_scope.

(** [struct ipahal_imm_cmd_pyld]: the payload's bytes as an integer. *)
Record ipahal_imm_cmd_pyld := mk_pyld {
  pyld_len : Z;
  pyld_opcode : Z;
  pyld_data : Z }.

(** Pointers are integers, 0 is NULL; an allocation answers [None] when it fails. *)
Class KernelOps (K : Type) := {
  kzalloc : K -> bool * K;
  kfree : K -> K;
  (** size: virtual address and DMA handle *)
  dma_alloc_coherent : Z -> K -> option (Z * Z) * K;
  (** size, virtual address, DMA handle *)
  dma_free_coherent : Z -> Z -> Z -> K -> K;
  (** physical address, size *)
  ioremap : Z -> Z -> K -> Z * K;
  iounmap : Z -> K -> K;
  (** size of the area, virtual address, DMA handle, size *)
  dma_mmap_coherent : Z -> Z -> Z -> Z -> K -> Z * K;
  (** size of the area, physical address, size *)
  vm_iomap_memory : Z -> Z -> Z -> K -> Z * K;
  class_create : K -> bool * K;
  class_destroy : K -> K;
  alloc_chrdev_region : K -> Z * K;
  unregister_chrdev_region : K -> K;
  device_create : K -> bool * K;
  device_destroy : K -> K;
  cdev_add : K -> Z * K;
  (** the number of bytes that could not be copied *)
  copy_from_user : K -> Z * K;
  copy_to_user : K -> Z * K;
  (** 0 or an error *)
  memdup_user : K -> Z * K;
  (** a byte of the stack that was not written *)
  uninit_u8 : K -> Z * K;
  ipa3_send_cmd : list ipahal_imm_cmd_pyld -> K -> Z * K }.

(** [ipa3_ctx] and the register layer as configured at start-up. *)
Class KernConf := {
  ipa_hw_type : Z;
  (** [ipa3_get_ep_mapping(IPA_CLIENT_APPS_WAN_COAL_CONS)], -1 for none *)
  wan_coal_ep : Z;
  ulso_wa : bool;
  (** [IPA_MEM_PART] *)
  nat_tbl_ofst : Z;
  nat_tbl_size : Z;
  pdn_config_ofst : Z;
  pdn_config_size : Z;
  smem_restricted_bytes : Z;
  (** [ipa_wrapper_base + ipa_reg_base_ofst +] the offset of direct access to SRAM *)
  sram_direct_base : Z;
  PAGE_SIZE : Z;
  (** offset, value and mask that close the coalescing frame of an endpoint *)
  aggr_force_close : Z -> Z * Z * Z }.

(** ** Payloads in the hardware's format ([ipahal_i.h]) *)
Definition ipa_imm_cmd_hw_ip_v4_nat_init : list Z :=
  [64; 64; 64; 64; 3; 1; 1; 1; 1; 1; 12; 10; 2; 32].
Definition ipa_imm_cmd_hw_ip_v6_ct_init : list Z := [64; 64; 3; 1; 1; 1; 2; 12; 10; 34].
Definition ipa_imm_cmd_hw_nat_dma : list Z := [3; 1; 2; 2; 32; 16; 8].
Definition ipa_imm_cmd_hw_table_dma_ipav4 : list Z := [3; 1; 3; 1; 32; 16; 8].
Definition ipa_imm_cmd_hw_register_write : list Z := [15; 1; 16; 32; 32; 2; 30].
Definition ipa_imm_cmd_hw_register_write_v_4_0 : list Z := [11; 4; 1; 16; 32; 32; 32].
Definition ipa_imm_cmd_hw_dma_shared_mem : list Z := [16; 16; 16; 1; 1; 2; 12; 64].
Definition ipa_imm_cmd_hw_dma_shared_mem_v_4_0 : list Z := [15; 1; 16; 16; 1; 15; 64].

(** ** Parameters of the commands *)
Record ipahal_imm_cmd_nat_ipv6ct_init_common := mk_table_init {
  base_table_addr : Z;
  expansion_table_addr : Z;
  base_table_addr_shared : bool;
  expansion_table_addr_shared : bool;
  size_base_table : Z;
  size_expansion_table : Z;
  cmd_table_index : Z }.

Record ipahal_imm_cmd_ip_v4_nat_init := mk_nat_init {
  table_init : ipahal_imm_cmd_nat_ipv6ct_init_common;
  index_table_addr : Z;
  index_table_expansion_addr : Z;
  index_table_addr_shared : bool;
  index_table_expansion_addr_shared : bool;
  public_addr_info : Z }.

Record ipahal_imm_cmd_table_dma := mk_table_dma {
  td_offset : Z;
  td_data : Z;
  td_table_index : Z;
  td_base_addr : Z }.

Inductive ipahal_pipeline_clear_option :=
  | IPAHAL_HPS_CLEAR
  | IPAHAL_SRC_GRP_CLEAR
  | IPAHAL_FULL_PIPELINE_CLEAR.

Record ipahal_imm_cmd_register_write := mk_reg_write {
  rw_offset : Z;
  rw_value : Z;
  rw_value_mask : Z;
  rw_skip_pipeline_clear : bool;
  rw_pipeline_clear_options : ipahal_pipeline_clear_option }.

Record ipahal_imm_cmd_dma_shared_mem := mk_dma_shared {
  ds_system_addr : Z;
  ds_size : Z;
  ds_local_addr : Z;
  ds_clear_after_read : bool;
  ds_is_read : bool;
  ds_skip_pipeline_clear : bool;
  ds_pipeline_clear_options : ipahal_pipeline_clear_option }.

(** What [const void* params] points to. *)
Inductive imm_params :=
  | NatInitParams (p : ipahal_imm_cmd_ip_v4_nat_init)
  | CtInitParams (p : ipahal_imm_cmd_nat_ipv6ct_init_common)
  | TableDmaParams (p : ipahal_imm_cmd_table_dma)
  | RegWriteParams (p : ipahal_imm_cmd_register_write)
  | DmaSharedParams (p : ipahal_imm_cmd_dma_shared_mem).

Inductive ipahal_imm_cmd_name :=
  | IPA_IMM_CMD_IP_V4_NAT_INIT
  | IPA_IMM_CMD_REGISTER_WRITE
  | IPA_IMM_CMD_NAT_DMA
  | IPA_IMM_CMD_DMA_SHARED_MEM
  | IPA_IMM_CMD_TABLE_DMA
  | IPA_IMM_CMD_IP_V6_CT_INIT.

#[global] Instance ipahal_imm_cmd_name_eq_dec : EqDecision ipahal_imm_cmd_name.
Proof. solve_decision. Defined.

Definition clear_code (o : ipahal_pipeline_clear_option) : Z :=
  match o with IPAHAL_HPS_CLEAR => 0 | IPAHAL_SRC_GRP_CLEAR => 1 | IPAHAL_FULL_PIPELINE_CLEAR => 2 end.

(** From version 4.0 on the options of the pipeline clear are in the opcode. *)
Definition opcode_v_4_0 (opcode : Z) (skip : bool) (o : ipahal_pipeline_clear_option) : Z :=
  Z.lor (Z.lor opcode (Z.shiftl (b2z skip) 8)) (Z.shiftl (clear_code o) 9).

(** [x & ~0xFFFF] of an unsigned 32-bit value. *)
Definition above_16bit (x : Z) : bool := negb (Z.land x 4294901760 =? 0).

Section construct.
Context {K : Type} `{KO : KernelOps K} `{U : IpaUapi} `{HW : IpaHw}.

(** A constructor gets the command's opcode; [None] is NULL, parameters of another
    command are an undefined access. *)
Definition constructor : Type := Z -> imm_params -> St K (option ipahal_imm_cmd_pyld).

(** [IPAHAL_MEM_ALLOC] of a payload, then its fields. *)
Definition alloc_pyld (ws vs : list Z) (opcode : Z) : St K (option ipahal_imm_cmd_pyld) := fun k =>
  let '(ok, k) := kzalloc k in
  Ok (if ok then Some (mk_pyld (sizeof ws) opcode (pack ws vs)) else None, k).

Definition ipa_imm_cmd_construct_ip_v4_nat_init : constructor := fun opcode params =>
  match params with
  | NatInitParams p =>
      let t := table_init p in
      alloc_pyld ipa_imm_cmd_hw_ip_v4_nat_init
        [base_table_addr t; expansion_table_addr t; index_table_addr p;
         index_table_expansion_addr p; cmd_table_index t; 0;
         b2z (base_table_addr_shared t); b2z (expansion_table_addr_shared t);
         b2z (index_table_addr_shared p); b2z (index_table_expansion_addr_shared p);
         size_base_table t; size_expansion_table t; 0; public_addr_info p] opcode
  | _ => fun _ => UB
  end.

Definition ipa_imm_cmd_construct_ip_v6_ct_init : constructor := fun opcode params =>
  match params with
  | CtInitParams t =>
      alloc_pyld ipa_imm_cmd_hw_ip_v6_ct_init
        [base_table_addr t; expansion_table_addr t; cmd_table_index t; 0;
         b2z (base_table_addr_shared t); b2z (expansion_table_addr_shared t); 0;
         size_base_table t; size_expansion_table t; 0] opcode
  | _ => fun _ => UB
  end.

Definition ipa_imm_cmd_construct_nat_dma : constructor := fun opcode params =>
  match params with
  | TableDmaParams p =>
      alloc_pyld ipa_imm_cmd_hw_nat_dma
        [td_table_index p; 0; td_base_addr p; 0; td_offset p; td_data p; 0] opcode
  | _ => fun _ => UB
  end.

Definition ipa_imm_cmd_construct_table_dma_ipav4 : constructor := fun opcode params =>
  match params with
  | TableDmaParams p =>
      alloc_pyld ipa_imm_cmd_hw_table_dma_ipav4
        [td_table_index p; 0; td_base_addr p; 0; td_offset p; td_data p; 0] opcode
  | _ => fun _ => UB
  end.

Definition ipa_imm_cmd_construct_register_write : constructor := fun opcode params =>
  match params with
  | RegWriteParams p =>
      alloc_pyld ipa_imm_cmd_hw_register_write
        [0; b2z (rw_skip_pipeline_clear p); rw_offset p; rw_value p; rw_value_mask p;
         clear_code (rw_pipeline_clear_options p); 0] opcode
  | _ => fun _ => UB
  end.

Definition ipa_imm_cmd_construct_register_write_v_4_0 : constructor := fun opcode params =>
  match params with
  | RegWriteParams p =>
      if above_16bit (rw_offset p) then mret None
      else
        alloc_pyld ipa_imm_cmd_hw_register_write_v_4_0
          [0; Z.shiftr (rw_offset p) 16; 0; rw_offset p; rw_value p; rw_value_mask p; 0]
          (opcode_v_4_0 opcode (rw_skip_pipeline_clear p) (rw_pipeline_clear_options p))
  | _ => fun _ => UB
  end.

Definition ipa_imm_cmd_construct_dma_shared_mem : constructor := fun opcode params =>
  match params with
  | DmaSharedParams p =>
      alloc_pyld ipa_imm_cmd_hw_dma_shared_mem
        [0; ds_size p; ds_local_addr p; b2z (ds_is_read p); b2z (ds_skip_pipeline_clear p);
         clear_code (ds_pipeline_clear_options p); 0; ds_system_addr p] opcode
  | _ => fun _ => UB
  end.

Definition ipa_imm_cmd_construct_dma_shared_mem_v_4_0 : constructor := fun opcode params =>
  match params with
  | DmaSharedParams p =>
      if above_16bit (ds_size p) then mret None
      else if above_16bit (ds_local_addr p) then mret None
      else
        alloc_pyld ipa_imm_cmd_hw_dma_shared_mem_v_4_0
          [0; b2z (ds_clear_after_read p); ds_size p; ds_local_addr p; b2z (ds_is_read p); 0;
           ds_system_addr p]
          (opcode_v_4_0 opcode (ds_skip_pipeline_clear p) (ds_pipeline_clear_options p))
  | _ => fun _ => UB
  end.

Definition ipa_imm_cmd_construct_dummy : constructor := fun _ _ => mret None.

(** ** The table of commands *)
Record ipahal_imm_cmd_obj := mk_imm_obj { construct : constructor; opcode : Z }.

Definition imm_cmd_objs : Type := Z -> ipahal_imm_cmd_name -> option ipahal_imm_cmd_obj.

(** The static rows of these commands; an opcode of -1 is stored in a [u16]. *)
Definition ipahal_imm_cmd_objs : imm_cmd_objs := fun hw name =>
  if hw =? IPA_HW_v3_0 then
    match name with
    | IPA_IMM_CMD_IP_V4_NAT_INIT => Some (mk_imm_obj ipa_imm_cmd_construct_ip_v4_nat_init 5)
    | IPA_IMM_CMD_REGISTER_WRITE => Some (mk_imm_obj ipa_imm_cmd_construct_register_write 12)
    | IPA_IMM_CMD_NAT_DMA => Some (mk_imm_obj ipa_imm_cmd_construct_nat_dma 14)
    | IPA_IMM_CMD_DMA_SHARED_MEM => Some (mk_imm_obj ipa_imm_cmd_construct_dma_shared_mem 19)
    | _ => None
    end
  else if hw =? IPA_HW_v4_0 then
    match name with
    | IPA_IMM_CMD_REGISTER_WRITE => Some (mk_imm_obj ipa_imm_cmd_construct_register_write_v_4_0 12)
    | IPA_IMM_CMD_NAT_DMA => Some (mk_imm_obj ipa_imm_cmd_construct_dummy (u16 (-1)))
    | IPA_IMM_CMD_TABLE_DMA => Some (mk_imm_obj ipa_imm_cmd_construct_table_dma_ipav4 14)
    | IPA_IMM_CMD_DMA_SHARED_MEM =>
        Some (mk_imm_obj ipa_imm_cmd_construct_dma_shared_mem_v_4_0 19)
    | IPA_IMM_CMD_IP_V6_CT_INIT => Some (mk_imm_obj ipa_imm_cmd_construct_ip_v6_ct_init 23)
    | _ => None
    end
  else None.

Definition ipahal_imm_cmd_init (ipa_hw_type : Z) (objs : imm_cmd_objs) : Z * imm_cmd_objs :=
  if (ipa_hw_type <? 0) || (ipa_hw_type >=? IPA_HW_MAX) then (- EINVAL, objs)
  else (0, inherit_loop (Z.to_nat (ipa_hw_type - IPA_HW_v3_0)) IPA_HW_v3_0 objs).

Definition ipahal_construct_imm_cmd (objs : imm_cmd_objs) (hw_type : Z)
    (cmd : ipahal_imm_cmd_name) (params : imm_params) : St K (option ipahal_imm_cmd_pyld) :=
  o ← st_lift (deref (objs hw_type cmd)); construct o (opcode o) params.

Definition ipahal_construct_nop_imm_cmd (objs : imm_cmd_objs) (hw_type : Z)
    (skip_pipline_clear : bool) (pipline_clr_opt : ipahal_pipeline_clear_option) :
    St K (option ipahal_imm_cmd_pyld) :=
  ipahal_construct_imm_cmd objs hw_type IPA_IMM_CMD_REGISTER_WRITE
    (RegWriteParams (mk_reg_write 0 0 0 skip_pipline_clear pipline_clr_opt)).
End construct.
