(* ===== verification/KernNat.v ===== *)
(** * The NAT and IPv6CT driver of the kernel
      ([dataipa/drivers/platform/msm/ipa/ipa_v3/ipa_nat.c])

    The other end of the ioctls of the user-space library: the two character devices,
    the memory of the tables, the init commands that tell the hardware where the tables
    are, the table DMA commands, and the table of public addresses.  The static data is
    [kctx]: the device structures of [ipa3_ctx] and [sram_compatible].  [ipahal_ctx] is
    the one that [ipahal_init] leaves.  Locks, the page protection of a mapping and log
    messages are left out. *)

From Stdlib Require Import ZArith Lia Ascii String.
From stdpp Require Import prelude list numbers strings.
From S2P Require Import Prelude Bitfield IpaTable Os NatRule NatDrvi Ipv6ct KernHal KernCmd.

Local Open Scope Z_scope.

Definition IPA_NAT_IPV6CT_TEMP_MEM_SIZE : Z := 128.
Definition IPA_NAT_MAX_NUM_OF_INIT_CMD_DESC : nat := 4.
Definition IPA_IPV6CT_MAX_NUM_OF_INIT_CMD_DESC : nat := 3.
Definition IPA_MAX_NUM_OF_TABLE_DMA_CMD_DESC : nat := 5.
Definition MAX_ALLOC_NAT_SIZE (size : Z) : Z := 8192 * size.
Definition IPA_VALID_TBL_INDEX (ti : Z) : bool := ti =? 0.
Definition IPA_DEV_NAME_MAX_LEN : Z := 15.
Definition IPA_QMAP_TETH_BIT : Z := 2 ^ 30.
Definition U16_MAX : Z := 65535.
Definition UINT_MAX : Z := 2 ^ 32 - 1.
Definition IPA_IPV6CT_PHYS_MEM_OFFSET : Z := 0.
Definition IPA_IPV6CT_PHYS_MEM_SIZE : Z := 0.

(** ** State ([ipa_i.h]) *)
Record ipa3_nat_ipv6ct_tmp_mem := mk_tmp { tmp_vaddr : Z; tmp_dma_handle : Z }.

Record ipa3_nat_ipv6ct_common_mem := mk_dev {
  d_name : string;
  d_is_nat_mem : bool;
  d_is_ipv6ct_mem : bool;
  d_is_dev_init : bool;
  d_is_hw_init : bool;
  d_is_mapped : bool;
  d_phys_mem_size : Z;
  d_phys_mem_ofst : Z;
  d_table_alloc_size : Z;
  d_vaddr : Z;
  d_dma_handle : Z;
  d_base_address : Z;
  d_base_table_addr : Z;
  d_expansion_table_addr : Z;
  d_table_entries : Z;
  d_expn_table_entries : Z;
  d_tmp_mem : option ipa3_nat_ipv6ct_tmp_mem }.

Record ipa3_nat_mem_loc_data := mk_loc {
  l_is_mapped : bool;
  l_io_vaddr : Z;
  l_vaddr : Z;
  l_dma_handle : Z;
  l_phys_addr : Z;
  l_table_alloc_size : Z;
  l_table_entries : Z;
  l_expn_table_entries : Z;
  l_base_address : Z;
  l_base_table_addr : Z;
  l_expansion_table_addr : Z;
  l_index_table_addr : Z;
  l_index_table_expansion_addr : Z }.

(** [struct ipa_mem_buffer] with the records found in it. *)
Record pdn_buffer := mk_pdn_buffer {
  pdn_base : Z;
  pdn_phys_base : Z;
  pdn_size : Z;
  pdn_tbl : list Z }.

Record ipa3_nat_mem := mk_nat_mem {
  n_dev : ipa3_nat_ipv6ct_common_mem;
  n_public_ip_addr : Z;
  n_pdn_mem : pdn_buffer;
  n_is_tmp_mem_allocated : bool;
  n_last_alloc_loc : Z;
  n_active_table : Z;
  n_switch2ddr_cnt : Z;
  n_switch2sram_cnt : Z;
  n_ddr_in_use : bool;
  n_sram_in_use : bool;
  n_mem_loc : list ipa3_nat_mem_loc_data }.

Record kctx := mk_kctx {
  nat_mem : ipa3_nat_mem;
  ipv6ct_mem : ipa3_nat_ipv6ct_common_mem;
  sram_compatible : bool }.

Definition dev_zero : ipa3_nat_ipv6ct_common_mem :=
  mk_dev EmptyString false false false false false 0 0 0 0 0 0 0 0 0 0 None.
Definition loc_zero : ipa3_nat_mem_loc_data := mk_loc false 0 0 0 0 0 0 0 0 0 0 0 0.
Definition nat_mem_zero : ipa3_nat_mem :=
  mk_nat_mem dev_zero 0 (mk_pdn_buffer 0 0 0 []) false 0 0 0 0 false false [loc_zero; loc_zero].
Definition kctx0 : kctx := mk_kctx nat_mem_zero dev_zero false.

(** The two devices. *)
Inductive kdev := NatDev | CtDev.

Section setters.
Implicit Types (d : ipa3_nat_ipv6ct_common_mem) (l : ipa3_nat_mem_loc_data) (n : ipa3_nat_mem).

Definition dev_of (c : kctx) (w : kdev) : ipa3_nat_ipv6ct_common_mem :=
  match w with NatDev => n_dev (nat_mem c) | CtDev => ipv6ct_mem c end.

Definition nat_set_dev n d := mk_nat_mem d (n_public_ip_addr n) (n_pdn_mem n) (n_is_tmp_mem_allocated n)
  (n_last_alloc_loc n) (n_active_table n) (n_switch2ddr_cnt n) (n_switch2sram_cnt n) (n_ddr_in_use n)
  (n_sram_in_use n) (n_mem_loc n).
Definition nat_set_ip n ip := mk_nat_mem (n_dev n) ip (n_pdn_mem n) (n_is_tmp_mem_allocated n)
  (n_last_alloc_loc n) (n_active_table n) (n_switch2ddr_cnt n) (n_switch2sram_cnt n) (n_ddr_in_use n)
  (n_sram_in_use n) (n_mem_loc n).
Definition nat_set_pdn n p := mk_nat_mem (n_dev n) (n_public_ip_addr n) p (n_is_tmp_mem_allocated n)
  (n_last_alloc_loc n) (n_active_table n) (n_switch2ddr_cnt n) (n_switch2sram_cnt n) (n_ddr_in_use n)
  (n_sram_in_use n) (n_mem_loc n).
Definition nat_set_tmp n b := mk_nat_mem (n_dev n) (n_public_ip_addr n) (n_pdn_mem n) b
  (n_last_alloc_loc n) (n_active_table n) (n_switch2ddr_cnt n) (n_switch2sram_cnt n) (n_ddr_in_use n)
  (n_sram_in_use n) (n_mem_loc n).
Definition nat_set_use n (ddr sram : bool) last := mk_nat_mem (n_dev n) (n_public_ip_addr n) (n_pdn_mem n)
  (n_is_tmp_mem_allocated n) last (n_active_table n) (n_switch2ddr_cnt n) (n_switch2sram_cnt n) ddr sram
  (n_mem_loc n).
Definition nat_set_active n a := mk_nat_mem (n_dev n) (n_public_ip_addr n) (n_pdn_mem n)
  (n_is_tmp_mem_allocated n) (n_last_alloc_loc n) a (n_switch2ddr_cnt n) (n_switch2sram_cnt n)
  (n_ddr_in_use n) (n_sram_in_use n) (n_mem_loc n).
Definition nat_set_cnts n ddr sram := mk_nat_mem (n_dev n) (n_public_ip_addr n) (n_pdn_mem n)
  (n_is_tmp_mem_allocated n) (n_last_alloc_loc n) (n_active_table n) ddr sram (n_ddr_in_use n)
  (n_sram_in_use n) (n_mem_loc n).
Definition nat_set_locs n ls := mk_nat_mem (n_dev n) (n_public_ip_addr n) (n_pdn_mem n)
  (n_is_tmp_mem_allocated n) (n_last_alloc_loc n) (n_active_table n) (n_switch2ddr_cnt n)
  (n_switch2sram_cnt n) (n_ddr_in_use n) (n_sram_in_use n) ls.

Definition set_nat (c : kctx) n := mk_kctx n (ipv6ct_mem c) (sram_compatible c).
Definition set_ct (c : kctx) d := mk_kctx (nat_mem c) d (sram_compatible c).
Definition set_dev (c : kctx) (w : kdev) d : kctx :=
  match w with NatDev => set_nat c (nat_set_dev (nat_mem c) d) | CtDev => set_ct c d end.
Definition set_loc (c : kctx) (nmi : Z) l : kctx :=
  set_nat c (nat_set_locs (nat_mem c) (zset (n_mem_loc (nat_mem c)) nmi l)).

Definition dev_set_name d (w : kdev) name := mk_dev name (match w with NatDev => true | _ => false end)
  (match w with CtDev => true | _ => false end) (d_is_dev_init d) (d_is_hw_init d) (d_is_mapped d)
  (d_phys_mem_size d) (d_phys_mem_ofst d) (d_table_alloc_size d) (d_vaddr d) (d_dma_handle d)
  (d_base_address d) (d_base_table_addr d) (d_expansion_table_addr d) (d_table_entries d)
  (d_expn_table_entries d) (d_tmp_mem d).
Definition dev_set_init d (b : bool) tmp size ofst := mk_dev (d_name d) (d_is_nat_mem d) (d_is_ipv6ct_mem d)
  b (d_is_hw_init d) (d_is_mapped d) size ofst (d_table_alloc_size d) (d_vaddr d) (d_dma_handle d)
  (d_base_address d) (d_base_table_addr d) (d_expansion_table_addr d) (d_table_entries d)
  (d_expn_table_entries d) tmp.
Definition dev_set_hw d (hw mapped : bool) := mk_dev (d_name d) (d_is_nat_mem d) (d_is_ipv6ct_mem d)
  (d_is_dev_init d) hw mapped (d_phys_mem_size d) (d_phys_mem_ofst d) (d_table_alloc_size d) (d_vaddr d)
  (d_dma_handle d) (d_base_address d) (d_base_table_addr d) (d_expansion_table_addr d)
  (d_table_entries d) (d_expn_table_entries d) (d_tmp_mem d).
Definition dev_set_alloc d size va handle := mk_dev (d_name d) (d_is_nat_mem d) (d_is_ipv6ct_mem d)
  (d_is_dev_init d) (d_is_hw_init d) (d_is_mapped d) (d_phys_mem_size d) (d_phys_mem_ofst d) size va
  handle (d_base_address d) (d_base_table_addr d) (d_expansion_table_addr d) (d_table_entries d)
  (d_expn_table_entries d) (d_tmp_mem d).
Definition dev_set_map d (mapped : bool) base := mk_dev (d_name d) (d_is_nat_mem d) (d_is_ipv6ct_mem d)
  (d_is_dev_init d) (d_is_hw_init d) mapped (d_phys_mem_size d) (d_phys_mem_ofst d)
  (d_table_alloc_size d) (d_vaddr d) (d_dma_handle d) base (d_base_table_addr d)
  (d_expansion_table_addr d) (d_table_entries d) (d_expn_table_entries d) (d_tmp_mem d).
Definition dev_set_tables d bt et te ee := mk_dev (d_name d) (d_is_nat_mem d) (d_is_ipv6ct_mem d)
  (d_is_dev_init d) (d_is_hw_init d) (d_is_mapped d) (d_phys_mem_size d) (d_phys_mem_ofst d)
  (d_table_alloc_size d) (d_vaddr d) (d_dma_handle d) (d_base_address d) bt et te ee (d_tmp_mem d).

Definition loc_set_alloc l io va handle phys size := mk_loc (l_is_mapped l) io va handle phys size
  (l_table_entries l) (l_expn_table_entries l) (l_base_address l) (l_base_table_addr l)
  (l_expansion_table_addr l) (l_index_table_addr l) (l_index_table_expansion_addr l).
Definition loc_set_map l (mapped : bool) base := mk_loc mapped (l_io_vaddr l) (l_vaddr l) (l_dma_handle l)
  (l_phys_addr l) (l_table_alloc_size l) (l_table_entries l) (l_expn_table_entries l) base
  (l_base_table_addr l) (l_expansion_table_addr l) (l_index_table_addr l)
  (l_index_table_expansion_addr l).
Definition loc_set_tables l te ee bt et it iet := mk_loc (l_is_mapped l) (l_io_vaddr l) (l_vaddr l)
  (l_dma_handle l) (l_phys_addr l) (l_table_alloc_size l) te ee (l_base_address l) bt et it iet.
Definition loc_set_index l it iet := loc_set_tables l (l_table_entries l) (l_expn_table_entries l)
  (l_base_table_addr l) (l_expansion_table_addr l) it iet.
End setters.

(** The command [IPA_IOC_TABLE_DMA_CMD] as a client gives it: [base_addr] is a byte, the
    number of entries the length of the list. *)
Record k_dma_one := mk_k_dma {
  k_table_index : Z;
  k_base_addr : Z;
  k_offset : Z;
  k_data : Z }.

Section driver.
Context {K : Type} `{KO : KernelOps K} `{KC : KernConf} `{U : IpaUapi} `{HW : IpaHw}.

#[local] Notation KM := (St (kctx * K)).

Definition kget : KM kctx := fun s => Ok (fst s, s).
Definition kmod (f : kctx -> kctx) : KM unit := fun '(c, k) => Ok (tt, (f c, k)).
Definition ksys {A} (f : K -> A * K) : KM A := sys f.
Definition klift {A} (m : St K A) : KM A := fun '(c, k) =>
  match m k with Ok (a, k) => Ok (a, (c, k)) | UB => UB | Diverge => Diverge end.
Definition kmod_nat (f : ipa3_nat_mem -> ipa3_nat_mem) : KM unit := kmod (fun c => set_nat c (f (nat_mem c))).
Definition kmod_dev (w : kdev) (f : ipa3_nat_ipv6ct_common_mem -> ipa3_nat_ipv6ct_common_mem) : KM unit :=
  kmod (fun c => set_dev c w (f (dev_of c w))).
Definition get_loc (nmi : Z) : KM ipa3_nat_mem_loc_data :=
  c ← kget; st_lift (deref (zget (n_mem_loc (nat_mem c)) nmi)).
Definition put_loc (nmi : Z) (l : ipa3_nat_mem_loc_data) : KM unit := kmod (fun c => set_loc c nmi l).

(** The register layer once [ipahal_init] has filled its tables. *)
Definition hal : ipahal_context :=
  mk_hal ipa_hw_type (snd (ipahal_nat_init ipa_hw_type ipahal_nat_objs)).
Definition hal_cmds : imm_cmd_objs (K := K) := snd (ipahal_imm_cmd_init ipa_hw_type ipahal_imm_cmd_objs).
Definition entry_size_of (ty : ipahal_nat_type) : KM Z :=
  '(_, size) ← st_lift (ipahal_nat_entry_size hal ty); mret size.

(** [ipa3_get_max_pdn] ([ipa_utils.c]). *)
Definition ipa3_get_max_pdn : KM Z := size ← entry_size_of IPAHAL_NAT_IPV4_PDN; mret (pdn_config_size / size).

(** ** Mapping *)
(** [vsize] is the size of the client's area. *)
Definition mmap_nat (vsize : Z) : KM Z :=
  c ← kget;
  let n := nat_mem c in
  let nmi := n_last_alloc_loc n in
  if negb (IPA_VALID_NAT_MEM_IN nmi) then mret (- EPERM)
  else
    l ← get_loc nmi;
    if l_vaddr l =? 0 then mret (- EPERM)
    else if l_is_mapped l then mret (- EINVAL)
    else if (nmi =? IPA_NAT_MEM_IN_SRAM) &&
            ((d_phys_mem_size (n_dev n) =? 0) || (d_phys_mem_size (n_dev n) >? vsize))
    then mret (- EINVAL)
    else
      _ ← put_loc nmi (loc_set_map l (l_is_mapped l) 0);
      result ←
        (if nmi =? IPA_NAT_MEM_IN_DDR
         then ksys (dma_mmap_coherent vsize (l_vaddr l) (l_dma_handle l) (l_table_alloc_size l))
         else ksys (vm_iomap_memory vsize (l_phys_addr l) (d_phys_mem_size (n_dev n))));
      if negb (result =? 0) then mret result
      else _ ← put_loc nmi (loc_set_map l true (l_vaddr l)); mret 0.

Definition mmap_ct (w : kdev) (vsize : Z) : KM Z :=
  c ← kget;
  let d := dev_of c w in
  if d_vaddr d =? 0 then mret (- EPERM)
  else if d_is_mapped d then mret (- EINVAL)
  else
    _ ← kmod_dev w (fun d => dev_set_map d (d_is_mapped d) 0);
    result ← ksys (dma_mmap_coherent vsize (d_vaddr d) (d_dma_handle d) (d_table_alloc_size d));
    if negb (result =? 0) then mret result
    else _ ← kmod_dev w (fun d => dev_set_map d true (d_vaddr d)); mret 0.

Definition ipa3_nat_ipv6ct_mmap (w : kdev) (vsize : Z) : KM Z :=
  c ← kget;
  if negb (d_is_dev_init (dev_of c w)) then mret (- EPERM)
  else if d_is_nat_mem (dev_of c w) then mmap_nat vsize
  else mmap_ct w vsize.

(** ** Devices *)
Definition ipa3_nat_ipv6ct_allocate_tmp_memory : KM (option ipa3_nat_ipv6ct_tmp_mem) :=
  ok ← ksys kzalloc;
  if negb ok then mret None
  else
    m ← ksys (dma_alloc_coherent IPA_NAT_IPV6CT_TEMP_MEM_SIZE);
    match m with
    | Some (va, handle) => mret (Some (mk_tmp va handle))
    | None => _ ← ksys (fun k => (tt, kfree k)); mret None
    end.

Definition ipa3_nat_ipv6ct_init_device (w : kdev) (name : string) (phys_mem_size phys_mem_ofst : Z)
    (tmp : option ipa3_nat_ipv6ct_tmp_mem) : KM Z :=
  if Z.of_nat (String.length name) >=? IPA_DEV_NAME_MAX_LEN then
    _ ← kmod_dev w (fun d => dev_set_name d w (d_name d)); mret (- ENODEV)
  else
    _ ← kmod_dev w (fun d => dev_set_name d w name);
    ok ← ksys class_create;
    if negb ok then mret (- ENODEV)
    else
      result ← ksys alloc_chrdev_region;
      if negb (result =? 0) then _ ← ksys (fun k => (tt, class_destroy k)); mret (- ENODEV)
      else
        ok ← ksys device_create;
        if negb ok then
          _ ← ksys (fun k => (tt, class_destroy (unregister_chrdev_region k))); mret (- ENODEV)
        else
          result ← ksys cdev_add;
          if negb (result =? 0) then
            _ ← ksys (fun k => (tt, class_destroy (unregister_chrdev_region (device_destroy k))));
            mret result
          else
            _ ← kmod_dev w (fun d => dev_set_init d true tmp phys_mem_size phys_mem_ofst);
            mret 0.

(** [dma_free_coherent] and [kfree] of the temporary memory. *)
Definition free_tmp (t : ipa3_nat_ipv6ct_tmp_mem) : KM unit :=
  ksys (fun k => (tt, kfree (dma_free_coherent IPA_NAT_IPV6CT_TEMP_MEM_SIZE (tmp_vaddr t) (tmp_dma_handle t) k))).

Definition ipa3_nat_ipv6ct_destroy_device (w : kdev) : KM unit :=
  c ← kget;
  _ ← match d_tmp_mem (dev_of c w) with
      | Some t =>
          if n_is_tmp_mem_allocated (nat_mem c)
          then _ ← free_tmp t; kmod_nat (fun n => nat_set_tmp n false)
          else mret tt
      | None => mret tt
      end;
  _ ← ksys (fun k => (tt, class_destroy (unregister_chrdev_region (device_destroy k))));
  kmod_dev w (fun d => dev_set_init d false None (d_phys_mem_size d) (d_phys_mem_ofst d)).

(** [fail_init_nat_dev]. *)
Definition init_devices_failed (t : ipa3_nat_ipv6ct_tmp_mem) : KM Z :=
  c ← kget;
  _ ← (if n_is_tmp_mem_allocated (nat_mem c)
       then _ ← free_tmp t; kmod_nat (fun n => nat_set_tmp n false)
       else mret tt);
  mret (- ENODEV).

Definition ipa3_nat_ipv6ct_init_devices : KM Z :=
  tmp ← ipa3_nat_ipv6ct_allocate_tmp_memory;
  match tmp with
  | None => mret (- ENOMEM)
  | Some t =>
      _ ← kmod_nat (fun n => nat_set_tmp n true);
      r ← ipa3_nat_ipv6ct_init_device NatDev IPA_NAT_DEV_NAME nat_tbl_size nat_tbl_ofst (Some t);
      if negb (r =? 0) then init_devices_failed t
      else if ipa_hw_type >=? IPA_HW_v4_0 then
        r ← ipa3_nat_ipv6ct_init_device CtDev IPA_IPV6CT_DEV_NAME IPA_IPV6CT_PHYS_MEM_SIZE
              IPA_IPV6CT_PHYS_MEM_OFFSET (Some t);
        if negb (r =? 0)
        then _ ← ipa3_nat_ipv6ct_destroy_device NatDev; init_devices_failed t
        else mret 0
      else mret 0
  end.

Definition ipa3_nat_ipv6ct_destroy_devices : KM unit :=
  _ ← ipa3_nat_ipv6ct_destroy_device NatDev;
  if ipa_hw_type >=? IPA_HW_v4_0 then ipa3_nat_ipv6ct_destroy_device CtDev else mret tt.

(** ** Memory of the tables *)
Definition allocate_sram (size : Z) : KM Z :=
  c ← kget;
  if n_sram_in_use (nat_mem c) then mret (- EPERM)
  else
    l ← get_loc IPA_NAT_MEM_IN_SRAM;
    let phys := sram_direct_base + nat_tbl_ofst in
    io ← ksys (ioremap phys nat_tbl_size);
    if io =? 0 then
      _ ← put_loc IPA_NAT_MEM_IN_SRAM
            (loc_set_alloc l 0 (l_vaddr l) (l_dma_handle l) phys size);
      mret (- ENOMEM)
    else
      _ ← put_loc IPA_NAT_MEM_IN_SRAM (loc_set_alloc l io io (l_dma_handle l) phys size);
      _ ← kmod_nat (fun n => nat_set_use n (n_ddr_in_use n) true IPA_NAT_MEM_IN_SRAM);
      mret 0.

Definition allocate_ddr (size : Z) : KM Z :=
  c ← kget;
  if n_ddr_in_use (nat_mem c) then mret (- EPERM)
  else
    l ← get_loc IPA_NAT_MEM_IN_DDR;
    m ← ksys (dma_alloc_coherent size);
    match m with
    | None =>
        _ ← put_loc IPA_NAT_MEM_IN_DDR
              (loc_set_alloc l (l_io_vaddr l) 0 (l_dma_handle l) (l_phys_addr l) size);
        mret (- ENOMEM)
    | Some (va, handle) =>
        _ ← put_loc IPA_NAT_MEM_IN_DDR (loc_set_alloc l (l_io_vaddr l) va handle (l_phys_addr l) size);
        _ ← kmod_nat (fun n => nat_set_use n true (n_sram_in_use n) IPA_NAT_MEM_IN_DDR);
        mret 0
    end.

Definition allocate_ct (w : kdev) (size : Z) : KM Z :=
  m ← ksys (dma_alloc_coherent size);
  match m with
  | None => _ ← kmod_dev w (fun d => dev_set_alloc d size 0 (d_dma_handle d)); mret (- ENOMEM)
  | Some (va, handle) => _ ← kmod_dev w (fun d => dev_set_alloc d size va handle); mret 0
  end.

Definition ipa3_nat_ipv6ct_allocate_mem (w : kdev) (size : Z) (nat_type : ipahal_nat_type) : KM Z :=
  c ← kget;
  let d := dev_of c w in
  if size =? 0 then mret (- EPERM)
  else if negb (d_is_dev_init d) then mret (- EPERM)
  else if (d_is_nat_mem d && negb (bool_decide (nat_type = IPAHAL_NAT_IPV4))) ||
          (d_is_ipv6ct_mem d && negb (bool_decide (nat_type = IPAHAL_NAT_IPV6CT)))
  then mret (- EPERM)
  else
    nat_entry_size ← entry_size_of nat_type;
    if size >? MAX_ALLOC_NAT_SIZE nat_entry_size then mret (- EPERM)
    else
      match nat_type with
      | IPAHAL_NAT_IPV4 =>
          if sram_compatible c && (size <=? nat_tbl_size) then allocate_sram size else allocate_ddr size
      | IPAHAL_NAT_IPV6CT => allocate_ct w size
      | _ => mret 0
      end.

(** [fail_alloc_pdn]. *)
Definition alloc_pdn_failed (result : Z) : KM Z :=
  c ← kget;
  let nmi := n_last_alloc_loc (nat_mem c) in
  l ← get_loc nmi;
  _ ← (if (nmi =? IPA_NAT_MEM_IN_DDR) && negb (l_vaddr l =? 0) then
         _ ← ksys (fun k => (tt, dma_free_coherent (l_table_alloc_size l) (l_vaddr l) (l_dma_handle l) k));
         put_loc nmi (loc_set_alloc l (l_io_vaddr l) 0 (l_dma_handle l) (l_phys_addr l) (l_table_alloc_size l))
       else if (nmi =? IPA_NAT_MEM_IN_SRAM) && negb (l_io_vaddr l =? 0) then
         _ ← ksys (fun k => (tt, iounmap (l_io_vaddr l) k));
         put_loc nmi (loc_set_alloc l 0 0 (l_dma_handle l) (l_phys_addr l) (l_table_alloc_size l))
       else mret tt);
  mret result.

Definition ipa3_allocate_nat_table (size : Z) : KM Z :=
  result ← ipa3_nat_ipv6ct_allocate_mem NatDev size IPAHAL_NAT_IPV4;
  if negb (result =? 0) then mret result
  else
    c ← kget;
    let p := n_pdn_mem (nat_mem c) in
    if (ipa_hw_type >=? IPA_HW_v4_0) && (pdn_base p =? 0) then
      pdn_entry_size ← entry_size_of IPAHAL_NAT_IPV4_PDN;
      max_pdn ← ipa3_get_max_pdn;
      let psize := u32 (pdn_entry_size * max_pdn) in
      _ ← kmod_nat (fun n => nat_set_pdn n (mk_pdn_buffer (pdn_base p) (pdn_phys_base p) psize (pdn_tbl p)));
      if pdn_config_size <? psize then alloc_pdn_failed (- ENOMEM)
      else
        m ← ksys (dma_alloc_coherent psize);
        match m with
        | None => alloc_pdn_failed (- ENOMEM)
        | Some (va, phys) =>
            _ ← kmod_nat (fun n => nat_set_pdn n
                  (mk_pdn_buffer va phys psize (replicate (Z.to_nat max_pdn) 0)));
            mret 0
        end
    else mret 0.

(** The offset assigned is 0. *)
Definition ipa3_allocate_nat_device (size : Z) : KM Z := ipa3_allocate_nat_table size.

Definition ipa3_allocate_ipv6ct_table (size : Z) : KM Z :=
  if ipa_hw_type <? IPA_HW_v4_0 then mret (- EPERM)
  else ipa3_nat_ipv6ct_allocate_mem CtDev size IPAHAL_NAT_IPV6CT.

(** ** Checks of the tables' place *)
Definition check_range (orig_alloc_size offset table_size : Z) : Z :=
  if offset >? u64 (UINT_MAX - table_size) then - EPERM
  else if u64 (offset + table_size) >? orig_alloc_size then - EPERM
  else 0.

Definition ipa3_nat_ipv6ct_check_table_params (w : kdev) (nmi offset entries_num : Z)
    (nat_type : ipahal_nat_type) : KM Z :=
  c ← kget;
  let d := dev_of c w in
  if d_is_ipv6ct_mem d then
    if offset >? u64 (UINT_MAX - d_dma_handle d) then mret (- EPERM)
    else
      entry_size ← entry_size_of nat_type;
      mret (check_range (d_table_alloc_size d) offset (entry_size * entries_num))
  else
    l ← get_loc nmi;
    if (nmi =? IPA_NAT_MEM_IN_DDR) && (offset >? u64 (UINT_MAX - l_dma_handle l)) then mret (- EPERM)
    else
      entry_size ← entry_size_of nat_type;
      mret (check_range (l_table_alloc_size l) offset (entry_size * entries_num)).

Definition ipa3_nat_ipv6ct_create_init_cmd (is_shared : bool) (base_addr tbl_index base_table_offset
    expn_table_offset table_entries expn_table_entries : Z) : ipahal_imm_cmd_nat_ipv6ct_init_common :=
  mk_table_init (u64 (base_addr + base_table_offset)) (u64 (base_addr + expn_table_offset))
    is_shared is_shared table_entries expn_table_entries tbl_index.

(** [(uintptr_t) addr & mask] is zero. *)
Definition chk_sram_offset_alignment (addr mask : Z) : bool := Z.land addr mask =? 0.

Definition ipa3_nat_ipv6ct_init_device_structure (w : kdev) (nmi base_table_offset expn_table_offset
    table_entries expn_table_entries index_offset index_expn_offset : Z) (focus_change : bool) : KM Z :=
  c ← kget;
  let d := dev_of c w in
  if d_is_ipv6ct_mem d then
    _ ← kmod_dev w (fun d => dev_set_tables d (d_base_address d + base_table_offset)
          (d_base_address d + expn_table_offset) table_entries expn_table_entries);
    mret 0
  else if d_is_nat_mem d then
    _ ← kmod_nat (fun n => nat_set_active n nmi);
    l ← get_loc nmi;
    let l := loc_set_tables l table_entries expn_table_entries (l_base_address l + base_table_offset)
      (l_base_address l + expn_table_offset) (l_base_address l + index_offset)
      (l_base_address l + index_expn_offset) in
    _ ← put_loc nmi l;
    if nmi =? IPA_NAT_MEM_IN_DDR then
      _ ← (if focus_change
           then kmod_nat (fun n => nat_set_cnts n (u32 (n_switch2ddr_cnt n + 1)) (n_switch2sram_cnt n))
           else mret tt);
      mret 0
    else if negb (chk_sram_offset_alignment (l_base_table_addr l) 31) ||
            negb (chk_sram_offset_alignment (l_expansion_table_addr l) 31) ||
            negb (chk_sram_offset_alignment (l_index_table_addr l) 3) ||
            negb (chk_sram_offset_alignment (l_index_table_expansion_addr l) 3)
    then mret (- ENODEV)
    else
      _ ← (if focus_change
           then kmod_nat (fun n => nat_set_cnts n (n_switch2ddr_cnt n) (u32 (n_switch2sram_cnt n + 1)))
           else mret tt);
      mret 0
  else mret 0.

(** ** Building lists of commands

    The status and the commands built so far, [cmd_pyld[0..num_cmd)]; the arrays have
    room for [room] commands, a write behind them is undefined. *)
Definition add_cmd (room : nat) (errno : Z) (cmd : ipahal_imm_cmd_name) (params : imm_params)
    (l : list ipahal_imm_cmd_pyld) : KM (Z * list ipahal_imm_cmd_pyld) :=
  if (room <=? length l)%nat then fun _ => UB
  else
    p ← klift (ipahal_construct_imm_cmd hal_cmds ipa_hw_type cmd params);
    match p with
    | None => mret (- errno, l)
    | Some p => mret (0, l ++ [p])
    end.

(** Closes the frame of the coalescing endpoint first, when there is one. *)
Definition coal_close_cmd (room : nat) : KM (Z * list ipahal_imm_cmd_pyld) :=
  if negb (wan_coal_ep =? -1) && negb ulso_wa then
    let '(offset, val, mask) := aggr_force_close wan_coal_ep in
    add_cmd room ENOMEM IPA_IMM_CMD_REGISTER_WRITE
      (RegWriteParams (mk_reg_write offset val mask false IPAHAL_HPS_CLEAR)) []
  else mret (0, []).

Definition nop_cmd (room : nat) (l : list ipahal_imm_cmd_pyld) : KM (Z * list ipahal_imm_cmd_pyld) :=
  add_cmd room ENOMEM IPA_IMM_CMD_REGISTER_WRITE
    (RegWriteParams (mk_reg_write 0 0 0 false IPAHAL_HPS_CLEAR)) l.

(** The next step unless an earlier one went to [destroy_imm_cmd]. *)
Definition and_then (r : Z * list ipahal_imm_cmd_pyld)
    (f : list ipahal_imm_cmd_pyld -> KM (Z * list ipahal_imm_cmd_pyld)) : KM (Z * list ipahal_imm_cmd_pyld) :=
  if fst r =? 0 then f (snd r) else mret r.

(** [ipa3_send_cmd] unless a command could not be built; then [destroy_imm_cmd]. *)
Definition send_and_destroy (r : Z * list ipahal_imm_cmd_pyld) : KM Z :=
  result ← (if fst r =? 0 then ksys (ipa3_send_cmd (snd r)) else mret (fst r));
  _ ← ksys (fun k => (tt, Nat.iter (length (snd r)) kfree k));
  mret result.

(** Status and the parameters of the command that copies the PDN table to SRAM. *)
Definition ipa3_nat_create_modify_pdn_cmd (zero_mem : bool) : KM (Z * ipahal_imm_cmd_dma_shared_mem) :=
  pdn_entry_size ← entry_size_of IPAHAL_NAT_IPV4_PDN;
  max_pdn ← ipa3_get_max_pdn;
  c ← kget;
  let p := n_pdn_mem (nat_mem c) in
  let cmd := mk_dma_shared (pdn_phys_base p) (u32 (pdn_entry_size * max_pdn))
               (u32 (smem_restricted_bytes + pdn_config_ofst)) false false false IPAHAL_HPS_CLEAR in
  if pdn_base p =? 0 then mret (- EFAULT, cmd)
  else
    _ ← (if zero_mem
         then kmod_nat (fun n => nat_set_pdn n
                (mk_pdn_buffer (pdn_base p) (pdn_phys_base p) (pdn_size p)
                   (map (fun _ => 0) (pdn_tbl p))))
         else mret tt);
    mret (0, cmd).

Definition ipa3_nat_send_init_cmd (cmd : ipahal_imm_cmd_ip_v4_nat_init) (zero_pdn_table : bool) : KM Z :=
  let room := IPA_NAT_MAX_NUM_OF_INIT_CMD_DESC in
  r ← coal_close_cmd room;
  r ← and_then r (nop_cmd room);
  r ← and_then r (add_cmd room EPERM IPA_IMM_CMD_IP_V4_NAT_INIT (NatInitParams cmd));
  r ← and_then r (fun l =>
        if ipa_hw_type >=? IPA_HW_v4_0 then
          if (room <=? length l)%nat then mret (- ENOBUFS, l)
          else
            '(result, mem_cmd) ← ipa3_nat_create_modify_pdn_cmd zero_pdn_table;
            if negb (result =? 0) then mret (result, l)
            else add_cmd room ENOMEM IPA_IMM_CMD_DMA_SHARED_MEM (DmaSharedParams mem_cmd) l
        else mret (0, l));
  send_and_destroy r.

Definition ipa3_ipv6ct_send_init_cmd (cmd : ipahal_imm_cmd_nat_ipv6ct_init_common) : KM Z :=
  let room := IPA_IPV6CT_MAX_NUM_OF_INIT_CMD_DESC in
  r ← coal_close_cmd room;
  r ← and_then r (nop_cmd room);
  r ← and_then r (fun l =>
        if (room <=? length l)%nat then mret (- ENOBUFS, l)
        else add_cmd room EPERM IPA_IMM_CMD_IP_V6_CT_INIT (CtInitParams cmd) l);
  send_and_destroy r.

(** ** Init commands *)
Definition ipa3_nat_create_init_cmd (init : ipa_ioc_v4_nat_init) (is_shared : bool) (base_addr : Z) :
    ipahal_imm_cmd_ip_v4_nat_init :=
  mk_nat_init
    (ipa3_nat_ipv6ct_create_init_cmd is_shared base_addr (init_tbl_index init) (ipv4_rules_offset init)
       (expn_rules_offset init) (init_table_entries init) (init_expn_table_entries init))
    (u64 (base_addr + index_offset init)) (u64 (base_addr + index_expn_offset init)) is_shared is_shared
    (if ipa_hw_type >=? IPA_HW_v4_0 then pdn_config_ofst else ip_addr init).

(** The four calls of [ipa3_nat_ipv6ct_check_table_params]: the first error. *)
Definition check_nat_tables (nmi : Z) (init : ipa_ioc_v4_nat_init) : KM Z :=
  let base := u16 (init_table_entries init + 1) in
  let expn := init_expn_table_entries init in
  r ← ipa3_nat_ipv6ct_check_table_params NatDev nmi (ipv4_rules_offset init) base IPAHAL_NAT_IPV4;
  if negb (r =? 0) then mret r else
  r ← ipa3_nat_ipv6ct_check_table_params NatDev nmi (expn_rules_offset init) expn IPAHAL_NAT_IPV4;
  if negb (r =? 0) then mret r else
  r ← ipa3_nat_ipv6ct_check_table_params NatDev nmi (index_offset init) base IPAHAL_NAT_IPV4_INDEX;
  if negb (r =? 0) then mret r else
  ipa3_nat_ipv6ct_check_table_params NatDev nmi (index_expn_offset init) expn IPAHAL_NAT_IPV4_INDEX.

(** The table of public addresses gets [ip] as its first record; [true] when the
    memory of the table is there. *)
Definition construct_pdn (index : Z) (f : ipahal_nat_pdn_entry) : KM Z :=
  '(r, e) ← st_lift (ipahal_nat_construct_entry hal IPAHAL_NAT_IPV4_PDN f);
  if negb (r =? 0) then mret r
  else
    c ← kget;
    let p := n_pdn_mem (nat_mem c) in
    _ ← st_lift (deref (zget (pdn_tbl p) index));
    _ ← kmod_nat (fun n => nat_set_pdn n
          (mk_pdn_buffer (pdn_base p) (pdn_phys_base p) (pdn_size p) (zset (pdn_tbl p) index e)));
    mret 0.

(** [ipa3_nat_init_cmd] from the posting of the command on. *)
Definition post_nat_init (nmi : Z) (init : ipa_ioc_v4_nat_init) (focus : bool)
    (cmd : ipahal_imm_cmd_ip_v4_nat_init) : KM Z :=
  result ← ipa3_nat_send_init_cmd cmd false;
  if negb (result =? 0) then mret result
  else
    result ← ipa3_nat_ipv6ct_init_device_structure NatDev nmi (ipv4_rules_offset init)
               (expn_rules_offset init) (init_table_entries init) (init_expn_table_entries init)
               (index_offset init) (index_expn_offset init) focus;
    if negb (result =? 0) then mret result
    else
      _ ← kmod_nat (fun n => nat_set_ip n (ip_addr init));
      _ ← kmod_dev NatDev (fun d => dev_set_hw d true (d_is_mapped d));
      mret 0.

Definition ipa3_nat_init_cmd (init : ipa_ioc_v4_nat_init) : KM Z :=
  c ← kget;
  let nmi := if sram_compatible c then init_mem_type init else 0 in
  let focus := if sram_compatible c then focus_change init else false in
  if negb (IPA_VALID_TBL_INDEX (init_tbl_index init)) then mret (- EPERM)
  else if (init_table_entries init =? 0) || (init_table_entries init =? U16_MAX) then mret (- EPERM)
  else if negb (IPA_VALID_NAT_MEM_IN nmi) then mret (- EPERM)
  else
    l ← get_loc nmi;
    if negb (l_is_mapped l) then mret (- EPERM)
    else
      result ← check_nat_tables nmi init;
      if negb (result =? 0) then mret result
      else
        let cmd :=
          if nmi =? IPA_NAT_MEM_IN_DDR then ipa3_nat_create_init_cmd init false (l_dma_handle l)
          else ipa3_nat_create_init_cmd init true nat_tbl_ofst in
        result ←
          (if (ipa_hw_type >=? IPA_HW_v4_0) && negb (pdn_base (n_pdn_mem (nat_mem c)) =? 0) && negb focus
           then construct_pdn 0 (mk_hal_pdn (ip_addr init) 0 0)
           else mret 0);
        if negb (result =? 0) then mret result else post_nat_init nmi init focus cmd.

Definition ipa3_ipv6ct_init_cmd (init : ipa_ioc_ipv6ct_init) : KM Z :=
  c ← kget;
  let d := ipv6ct_mem c in
  if ipa_hw_type <? IPA_HW_v4_0 then mret (- EPERM)
  else if negb (IPA_VALID_TBL_INDEX (ct_tbl_index init)) then mret (- EPERM)
  else if ct_table_entries init =? 0 then mret (- EPERM)
  else if negb (d_is_mapped d) then mret (- EPERM)
  else
    result ← ipa3_nat_ipv6ct_check_table_params CtDev IPA_NAT_MEM_IN_DDR (base_table_offset init)
               (u16 (ct_table_entries init + 1)) IPAHAL_NAT_IPV6CT;
    if negb (result =? 0) then mret result
    else
      result ← ipa3_nat_ipv6ct_check_table_params CtDev IPA_NAT_MEM_IN_DDR (expn_table_offset init)
                 (ct_expn_table_entries init) IPAHAL_NAT_IPV6CT;
      if negb (result =? 0) then mret result
      else
        result ← ipa3_ipv6ct_send_init_cmd
                   (ipa3_nat_ipv6ct_create_init_cmd false (d_dma_handle d) (ct_tbl_index init)
                      (base_table_offset init) (expn_table_offset init) (ct_table_entries init)
                      (ct_expn_table_entries init));
        if negb (result =? 0) then mret result
        else
          _ ← ipa3_nat_ipv6ct_init_device_structure CtDev IPA_NAT_MEM_IN_DDR (base_table_offset init)
                (expn_table_offset init) (ct_table_entries init) (ct_expn_table_entries init) 0 0 false;
          _ ← kmod_dev CtDev (fun d => dev_set_hw d true (d_is_mapped d));
          mret 0.

(** ** The table of public addresses *)
Definition ipa3_nat_mdfy_pdn (e : ipa_ioc_nat_pdn_entry) : KM Z :=
  c ← kget;
  if ipa_hw_type <? IPA_HW_v4_0 then mret (- EPERM)
  else if pdn_base (n_pdn_mem (nat_mem c)) =? 0 then mret (- EPERM)
  else
    max_pdn ← ipa3_get_max_pdn;
    if ioc_pdn_index e >? max_pdn - 1 then mret (- EPERM)
    else
      let src := if ipa_hw_type =? IPA_HW_v4_1 then Z.lor (ioc_src_metadata e) IPA_QMAP_TETH_BIT
                 else ioc_src_metadata e in
      result ← construct_pdn (ioc_pdn_index e) (mk_hal_pdn (ioc_public_ip e) src (ioc_dst_metadata e));
      if negb (result =? 0) then mret result
      else
        '(result, mem_cmd) ← ipa3_nat_create_modify_pdn_cmd false;
        if negb (result =? 0) then mret result
        else
          r ← add_cmd 1 ENOMEM IPA_IMM_CMD_DMA_SHARED_MEM (DmaSharedParams mem_cmd) [];
          send_and_destroy r.

(** ** Table DMA commands *)
(** [None] for a value outside the enumeration. *)
Definition table_of_base_addr (base_addr : Z) : option ipa_table_dma_type :=
  zget [IPA_NAT_BASE_TBL; IPA_NAT_EXPN_TBL; IPA_NAT_INDX_TBL; IPA_NAT_INDEX_EXPN_TBL;
        IPA_IPV6CT_BASE_TBL; IPA_IPV6CT_EXPN_TBL] base_addr.

(** Number of entries and their type. *)
Definition table_extent (c : kctx) (l : ipa3_nat_mem_loc_data) (t : ipa_table_dma_type) : Z * ipahal_nat_type :=
  match t with
  | IPA_NAT_BASE_TBL => (u32 (l_table_entries l + 1), IPAHAL_NAT_IPV4)
  | IPA_NAT_EXPN_TBL => (l_expn_table_entries l, IPAHAL_NAT_IPV4)
  | IPA_NAT_INDX_TBL => (u32 (l_table_entries l + 1), IPAHAL_NAT_IPV4_INDEX)
  | IPA_NAT_INDEX_EXPN_TBL => (l_expn_table_entries l, IPAHAL_NAT_IPV4_INDEX)
  | IPA_IPV6CT_BASE_TBL => (u32 (d_table_entries (ipv6ct_mem c) + 1), IPAHAL_NAT_IPV6CT)
  | IPA_IPV6CT_EXPN_TBL => (d_expn_table_entries (ipv6ct_mem c), IPAHAL_NAT_IPV6CT)
  end.

Definition ipa3_nat_ipv6ct_calculate_table_size (nmi base_addr : Z) : KM Z :=
  match table_of_base_addr base_addr with
  | None => mret 0
  | Some t =>
      c ← kget;
      l ← get_loc nmi;
      let '(num_entries, nat_type) := table_extent c l t in
      entry_size ← entry_size_of nat_type;
      mret (u32 (entry_size * num_entries))
  end.

Definition ipa3_table_validate_table_dma_one (nmi : Z) (param : k_dma_one) : KM Z :=
  if k_table_index param >=? 1 then mret (- EPERM)
  else
    c ← kget;
    let refused :=
      match table_of_base_addr (k_base_addr param) with
      | None => true
      | Some (IPA_IPV6CT_BASE_TBL | IPA_IPV6CT_EXPN_TBL) =>
          (ipa_hw_type <? IPA_HW_v4_0) || negb (d_is_hw_init (ipv6ct_mem c))
      | Some _ => negb (d_is_hw_init (n_dev (nat_mem c)))
      end in
    if refused then mret (- EPERM)
    else
      table_size ← ipa3_nat_ipv6ct_calculate_table_size nmi (k_base_addr param);
      if table_size =? 0 then mret (- EPERM)
      else if k_offset param >=? table_size then mret (- EPERM)
      else mret 0.

Fixpoint validate_all (nmi : Z) (ds : list k_dma_one) : KM Z :=
  match ds with
  | [] => mret 0
  | d :: ds =>
      result ← ipa3_table_validate_table_dma_one nmi d;
      if negb (result =? 0) then mret result else validate_all nmi ds
  end.

Fixpoint add_dma_cmds (room : nat) (ds : list k_dma_one) (l : list ipahal_imm_cmd_pyld) :
    KM (Z * list ipahal_imm_cmd_pyld) :=
  match ds with
  | [] => mret (0, l)
  | d :: ds =>
      r ← add_cmd room ENOMEM
            (if ipa_hw_type >=? IPA_HW_v4_0 then IPA_IMM_CMD_TABLE_DMA else IPA_IMM_CMD_NAT_DMA)
            (TableDmaParams (mk_table_dma (k_offset d) (k_data d) (k_table_index d) (k_base_addr d))) l;
      and_then r (add_dma_cmds room ds)
  end.

Definition max_dma_table_cmds : Z :=
  Z.of_nat IPA_MAX_NUM_OF_TABLE_DMA_CMD_DESC - (if negb (wan_coal_ep =? -1) then 1 else 0).

Definition ipa3_table_dma_cmd (mem_type : Z) (dma : list k_dma_one) : KM Z :=
  c ← kget;
  let mem_type := if sram_compatible c then mem_type else 0 in
  let entries := Z.of_nat (length dma) in
  let room := IPA_MAX_NUM_OF_TABLE_DMA_CMD_DESC in
  if negb (d_is_dev_init (n_dev (nat_mem c))) then mret (- EPERM)
  else if negb (IPA_VALID_NAT_MEM_IN mem_type) then mret (- EPERM)
  else if (entries =? 0) || (entries >? max_dma_table_cmds - 1) then mret (- EPERM)
  else
    result ← validate_all mem_type dma;
    if negb (result =? 0) then mret result
    else
      r ← coal_close_cmd room;
      r ← and_then r (nop_cmd room);
      r ← and_then r (add_dma_cmds room dma);
      send_and_destroy r.

Definition ipa3_nat_dma_cmd (mem_type : Z) (dma : list k_dma_one) : KM Z := ipa3_table_dma_cmd mem_type dma.

(** ** Deletion *)
Definition loc_unset (l : ipa3_nat_mem_loc_data) : ipa3_nat_mem_loc_data :=
  mk_loc (l_is_mapped l) 0 0 0 (l_phys_addr l) 0 0 0 (l_base_address l) 0 0 0 0.

Definition free_ct (w : kdev) : KM unit :=
  c ← kget;
  let d := dev_of c w in
  _ ← (if negb (d_vaddr d =? 0)
       then ksys (fun k => (tt, dma_free_coherent (d_table_alloc_size d) (d_vaddr d) (d_dma_handle d) k))
       else mret tt);
  _ ← kmod_dev w (fun d => dev_set_tables (dev_set_alloc d 0 0 0) 0 0 0 0);
  kmod_dev w (fun d => dev_set_hw d false false).

(** The memory of one type, with the flag that says it is in use. *)
Definition free_ddr : KM unit :=
  c ← kget;
  if n_ddr_in_use (nat_mem c) then
    _ ← kmod_nat (fun n => nat_set_use n false (n_sram_in_use n) (n_last_alloc_loc n));
    l ← get_loc IPA_NAT_MEM_IN_DDR;
    _ ← (if negb (l_vaddr l =? 0)
         then ksys (fun k => (tt, dma_free_coherent (l_table_alloc_size l) (l_vaddr l) (l_dma_handle l) k))
         else mret tt);
    put_loc IPA_NAT_MEM_IN_DDR
      (mk_loc (l_is_mapped l) (l_io_vaddr l) 0 0 (l_phys_addr l) 0 0 0 (l_base_address l) 0 0 0 0)
  else mret tt.

Definition free_sram : KM unit :=
  c ← kget;
  if n_sram_in_use (nat_mem c) then
    _ ← kmod_nat (fun n => nat_set_use n (n_ddr_in_use n) false (n_last_alloc_loc n));
    l ← get_loc IPA_NAT_MEM_IN_SRAM;
    _ ← (if negb (l_io_vaddr l =? 0) then ksys (fun k => (tt, iounmap (l_io_vaddr l) k)) else mret tt);
    put_loc IPA_NAT_MEM_IN_SRAM (loc_unset l)
  else mret tt.

Definition ipa3_nat_ipv6ct_free_mem (w : kdev) : KM unit :=
  c ← kget;
  let d := dev_of c w in
  if d_is_ipv6ct_mem d then free_ct w
  else if d_is_nat_mem d then
    _ ← free_ddr;
    _ ← free_sram;
    _ ← kmod_dev w (fun d => dev_set_hw d false false);
    kmod_nat (fun n => nat_set_locs n (map (fun _ => loc_zero) (n_mem_loc n)))
  else mret tt.

(** Status and command. *)
Definition ipa3_nat_ipv6ct_create_del_table_cmd (tbl_index base_addr : Z) (d : ipa3_nat_ipv6ct_common_mem) :
    Z * ipahal_imm_cmd_nat_ipv6ct_init_common :=
  let '(shared, base) :=
    match d_tmp_mem d with Some t => (false, u32 (tmp_dma_handle t)) | None => (true, base_addr) end in
  (if negb (IPA_VALID_TBL_INDEX tbl_index) then - EPERM else 0,
   mk_table_init base base shared shared 0 0 tbl_index).

Definition ipa3_nat_send_del_table_cmd (tbl_index : Z) : KM Z :=
  c ← kget;
  let '(result, t) := ipa3_nat_ipv6ct_create_del_table_cmd tbl_index nat_tbl_ofst (n_dev (nat_mem c)) in
  if negb (result =? 0) then mret result
  else
    ipa3_nat_send_init_cmd
      (mk_nat_init t (base_table_addr t) (base_table_addr t) (base_table_addr_shared t)
         (base_table_addr_shared t) 0) true.

Definition ipa3_ipv6ct_send_del_table_cmd (tbl_index : Z) : KM Z :=
  c ← kget;
  let '(result, t) :=
    ipa3_nat_ipv6ct_create_del_table_cmd tbl_index IPA_IPV6CT_PHYS_MEM_OFFSET (ipv6ct_mem c) in
  if negb (result =? 0) then mret result else ipa3_ipv6ct_send_init_cmd t.

(** [ipa3_del_nat_table] once the command is sent. *)
Definition del_nat_done (nmi : Z) : KM Z :=
  _ ← kmod_nat (fun n => nat_set_ip n 0);
  l ← get_loc nmi;
  _ ← put_loc nmi (loc_set_index l 0 0);
  c ← kget;
  let p := n_pdn_mem (nat_mem c) in
  _ ← (if (ipa_hw_type >=? IPA_HW_v4_0) && negb (pdn_base p =? 0) then
         _ ← ksys (fun k => (tt, dma_free_coherent (pdn_size p) (pdn_base p) (pdn_phys_base p) k));
         kmod_nat (fun n => nat_set_pdn n (mk_pdn_buffer 0 (pdn_phys_base p) (pdn_size p) []))
       else mret tt);
  _ ← ipa3_nat_ipv6ct_free_mem NatDev;
  mret 0.

Definition ipa3_del_nat_table (table_index mem_type : Z) : KM Z :=
  c ← kget;
  let nmi := if sram_compatible c then mem_type else 0 in
  if negb (d_is_dev_init (n_dev (nat_mem c))) then mret (- EPERM)
  else if negb (IPA_VALID_TBL_INDEX table_index) then mret (- EPERM)
  else if negb (IPA_VALID_NAT_MEM_IN nmi) then mret (- EPERM)
  else
    result ← (if d_is_hw_init (n_dev (nat_mem c)) then ipa3_nat_send_del_table_cmd table_index else mret 0);
    if negb (result =? 0) then mret result else del_nat_done nmi.

(** The memory type of the local structure is not written. *)
Definition ipa3_nat_del_cmd (table_index : Z) : KM Z :=
  mem_type ← ksys uninit_u8; ipa3_del_nat_table table_index mem_type.

Definition ipa3_del_ipv6ct_table (table_index : Z) : KM Z :=
  c ← kget;
  let d := ipv6ct_mem c in
  if negb (d_is_dev_init d) then mret (- EPERM)
  else if ipa_hw_type <? IPA_HW_v4_0 then mret (- EPERM)
  else
    result ← (if d_is_hw_init d then ipa3_ipv6ct_send_del_table_cmd table_index else mret 0);
    if negb (result =? 0) then mret result
    else _ ← ipa3_nat_ipv6ct_free_mem CtDev; mret 0.

(** ** Memory available in SRAM *)
Definition roundup (x y : Z) : Z := (x + y - 1) / y * y.

Definition ipa3_nat_get_sram_info : KM (Z * ipa_nat_in_sram_info) :=
  c ← kget;
  if negb (d_is_dev_init (n_dev (nat_mem c))) then mret (- EPERM, sram_info_zero)
  else
    _ ← kmod (fun c => mk_kctx (nat_mem c) (ipv6ct_mem c) true);
    let ofst := u32 (Z.land (sram_direct_base + nat_tbl_ofst) (PAGE_SIZE - 1)) in
    mret (0, mk_sram_info nat_tbl_size ofst (u32 (roundup (u32 (ofst + nat_tbl_size)) PAGE_SIZE))).
End driver.
