(* ===== verification/KernIoctl.v ===== *)
(** * The ioctls of the IPA device that reach the NAT and IPv6CT driver

    The cases of [ipa3_ioctl] and [compat_ipa3_ioctl]
    ([dataipa/drivers/platform/msm/ipa/ipa_v3/ipa.c]) that call [ipa_nat.c], with the
    copies between the client and the kernel, and the steps a client can make the driver
    take: a mapping of one of the two devices or an ioctl.  Waiting for the driver to be
    ready and the clock vote around a call are left out. *)

From Stdlib Require Import ZArith Lia Ascii String.
From stdpp Require Import prelude list numbers strings.
From S2P Require Import Prelude Bitfield IpaTable Os NatRule NatDrvi Ipv6ct KernHal KernCmd KernNat.

Local Open Scope Z_scope.

(** A command with the structure the client's argument points to.  The argument of
    [IPA_IOC_TABLE_DMA_CMD] is read twice: [pre_entry] is the number of entries of the
    first copy, [dma] the entries of the second, which is as long as the first says, and
    [entries] the second's number. *)
Inductive nat_ioctl :=
  | IocAllocNatMem (size : Z)
  | IocAllocNatTable (size offset : Z)
  | IocAllocIpv6ctTable (size offset : Z)
  | IocV4InitNat (init : ipa_ioc_v4_nat_init)
  | IocInitIpv6ctTable (init : ipa_ioc_ipv6ct_init)
  | IocTableDmaCmd (pre_entry entries mem_type : Z) (dma : list k_dma_one)
  | IocV4DelNat (table_index : Z)
  | IocDelNatTable (table_index mem_type : Z)
  | IocDelIpv6ctTable (table_index : Z)
  | IocNatModifyPdn (entry : ipa_ioc_nat_pdn_entry)
  | IocGetNatInSramInfo.

(** The values of the structures' types. *)
Definition byte_range (z : Z) : Prop := 0 <= z < 2 ^ 8.
Definition u16_range (z : Z) : Prop := 0 <= z < 2 ^ 16.
Definition u32_range (z : Z) : Prop := 0 <= z < 2 ^ 32.
Definition u64_range (z : Z) : Prop := 0 <= z < 2 ^ 64.

Definition init_typed (i : ipa_ioc_v4_nat_init) : Prop :=
  byte_range (init_mem_type i) /\ byte_range (init_tbl_index i) /\
  u32_range (ipv4_rules_offset i) /\ u32_range (expn_rules_offset i) /\
  u32_range (index_offset i) /\ u32_range (index_expn_offset i) /\
  u16_range (init_table_entries i) /\ u16_range (init_expn_table_entries i) /\
  u32_range (ip_addr i).

Definition ct_init_typed (i : ipa_ioc_ipv6ct_init) : Prop :=
  byte_range (ct_tbl_index i) /\ u32_range (base_table_offset i) /\
  u32_range (expn_table_offset i) /\ u16_range (ct_table_entries i) /\
  u16_range (ct_expn_table_entries i).

Definition dma_typed (d : k_dma_one) : Prop :=
  byte_range (k_table_index d) /\ byte_range (k_base_addr d) /\
  u32_range (k_offset d) /\ u16_range (k_data d).

Definition ioctl_typed (c : nat_ioctl) : Prop :=
  match c with
  | IocAllocNatMem size => u64_range size
  | IocAllocNatTable size _ | IocAllocIpv6ctTable size _ => u64_range size
  | IocV4InitNat i => init_typed i
  | IocInitIpv6ctTable i => ct_init_typed i
  | IocTableDmaCmd pre entries mem_type dma =>
      byte_range pre /\ byte_range entries /\ byte_range mem_type /\ Z.of_nat (length dma) = pre /\
      Forall dma_typed dma
  | IocV4DelNat i => byte_range i
  | IocDelNatTable i mem_type => byte_range i /\ byte_range mem_type
  | IocDelIpv6ctTable i => byte_range i
  | IocNatModifyPdn e =>
      byte_range (ioc_pdn_index e) /\ u32_range (ioc_public_ip e) /\
      u32_range (ioc_src_metadata e) /\ u32_range (ioc_dst_metadata e)
  | IocGetNatInSramInfo => True
  end.

Section ioctls.
Context {K : Type} `{KO : KernelOps K} `{KC : KernConf} `{U : IpaUapi} `{HW : IpaHw}.

#[local] Notation KM := (St (kctx * K)).

(** The case of a command whose structure is copied in first. *)
Definition from_user (body : KM Z) : KM Z :=
  left ← ksys copy_from_user; if negb (left =? 0) then mret (- EFAULT) else body.

(** Every error of the driver reaches the client as [EFAULT]. *)
Definition or_efault (call : KM Z) : KM Z :=
  result ← call; mret (if negb (result =? 0) then - EFAULT else 0).

Definition to_user : KM Z :=
  left ← ksys copy_to_user; mret (if negb (left =? 0) then - EFAULT else 0).

(** The allocations of [table_alloc]; the offset is the client's own. *)
Definition ioctl_alloc_table (alloc : KM Z) (offset : Z) : KM Z :=
  result ← alloc;
  if negb (result =? 0) then mret (- EFAULT)
  else if negb (offset =? 0) then to_user else mret 0.

Definition ioctl_table_dma (pre_entry entries mem_type : Z) (dma : list k_dma_one) : KM Z :=
  err ← ksys memdup_user;
  if negb (err =? 0) then mret err
  else
    retval ←
      (if negb (entries =? pre_entry) then mret (- EFAULT)
       else or_efault (ipa3_table_dma_cmd mem_type dma));
    _ ← ksys (fun k => (tt, kfree k));
    mret retval.

Definition proc_sram_info_rqst : KM (Z * ipa_nat_in_sram_info) :=
  '(result, info) ← ipa3_nat_get_sram_info;
  if negb (result =? 0) then mret (- EFAULT, info)
  else retval ← to_user; mret (retval, info).

Definition ipa3_ioctl (c : nat_ioctl) : KM Z :=
  match c with
  | IocAllocNatMem size =>
      from_user
        (result ← ipa3_allocate_nat_device size;
         if negb (result =? 0) then mret (- EFAULT) else to_user)
  | IocAllocNatTable size offset => from_user (ioctl_alloc_table (ipa3_allocate_nat_table size) offset)
  | IocAllocIpv6ctTable size offset =>
      from_user (ioctl_alloc_table (ipa3_allocate_ipv6ct_table size) offset)
  | IocV4InitNat i => from_user (or_efault (ipa3_nat_init_cmd i))
  | IocInitIpv6ctTable i => from_user (or_efault (ipa3_ipv6ct_init_cmd i))
  | IocTableDmaCmd pre entries mem_type dma => from_user (ioctl_table_dma pre entries mem_type dma)
  | IocV4DelNat i => from_user (or_efault (ipa3_nat_del_cmd i))
  | IocDelNatTable i mem_type => from_user (or_efault (ipa3_del_nat_table i mem_type))
  | IocDelIpv6ctTable i => from_user (or_efault (ipa3_del_ipv6ct_table i))
  | IocNatModifyPdn e => from_user (or_efault (ipa3_nat_mdfy_pdn e))
  | IocGetNatInSramInfo => '(retval, _) ← proc_sram_info_rqst; mret retval
  end.

(** ** Clients of 32 bits

    An allocation returns what its calls return; the other commands are those above. *)
Definition compat_ipa3_nat_ipv6ct_alloc_table (alloc : KM Z) (offset : Z) : KM Z :=
  retval ← ksys copy_from_user;
  if negb (retval =? 0) then mret retval
  else
    retval ← alloc;
    if negb (retval =? 0) then mret retval
    else if negb (offset =? 0) then ksys copy_to_user else mret retval.

Definition compat_ipa3_ioctl (c : nat_ioctl) : KM Z :=
  match c with
  | IocAllocNatMem size =>
      retval ← ksys copy_from_user;
      if negb (retval =? 0) then mret retval
      else
        retval ← ipa3_allocate_nat_device size;
        if negb (retval =? 0) then mret retval else ksys copy_to_user
  | IocAllocNatTable size offset => compat_ipa3_nat_ipv6ct_alloc_table (ipa3_allocate_nat_table size) offset
  | IocAllocIpv6ctTable size offset =>
      compat_ipa3_nat_ipv6ct_alloc_table (ipa3_allocate_ipv6ct_table size) offset
  | _ => ipa3_ioctl c
  end.

(** ** The driver as a transition system *)
Inductive kcall :=
  | CallMmap (w : kdev) (vsize : Z)
  | CallIoctl (c : nat_ioctl)
  | CallCompatIoctl (c : nat_ioctl).

Definition kcall_typed (x : kcall) : Prop :=
  match x with CallMmap _ _ => True | CallIoctl c | CallCompatIoctl c => ioctl_typed c end.

Definition kcall_run (x : kcall) : KM Z :=
  match x with
  | CallMmap w vsize => ipa3_nat_ipv6ct_mmap w vsize
  | CallIoctl c => ipa3_ioctl c
  | CallCompatIoctl c => compat_ipa3_ioctl c
  end.

(** From the driver's start on; calls of the clients come one after the other. *)
Inductive kreachable : kctx * K -> Prop :=
  | kreach_start k s : ipa3_nat_ipv6ct_init_devices (kctx0, k) = Ok (0, s) -> kreachable s
  | kreach_call s x r s' : kreachable s -> kcall_typed x -> kcall_run x s = Ok (r, s') -> kreachable s'.
End ioctls.
