(* ===== verification/KernHalLaws.v ===== *)
(** * Laws of the hardware layer: what the tables hold once they are initialised

    A version has the entry of the latest version up to it that defines one
    ([latest]), so that the entry types of NAT and IPv6CT and the six commands are those
    of the rows below.  [KernLaws] is what the driver relies on. *)

From Stdlib Require Import ZArith Lia Ascii String.
From stdpp Require Import prelude list numbers strings.
From S2P Require Import Prelude StWp Bitfield Os KernHal KernCmd KernNat.

Local Open Scope Z_scope.

Section latest.
Context {N O : Type}.
Implicit Types (objs : Z -> N -> option O) (name : N).

(** The entry of the latest version in [i .. i + n]. *)
Fixpoint latest objs (i : Z) (n : nat) name : option O :=
  match n with
  | Datatypes.O => objs i name
  | Datatypes.S m =>
      match objs (i + Z.of_nat n) name with Some o => Some o | None => latest objs i m name end
  end.

Lemma latest_inherit_row objs i n name :
  latest (inherit_row objs i) (i + 1) n name = latest objs i (Datatypes.S n) name.
Proof.
  induction n as [|n IH].
  - cbn [latest]. unfold inherit_row. by rewrite Z.eqb_refl.
  - cbn [latest] in *. unfold inherit_row at 1.
    rewrite (proj2 (Z.eqb_neq _ _)) by lia. rewrite IH.
    replace (i + 1 + Z.of_nat (Datatypes.S n)) with (i + Z.of_nat (Datatypes.S (Datatypes.S n))) by lia. done.
Qed.

Lemma inherit_loop_latest n : forall objs i name,
  inherit_loop n i objs (i + Z.of_nat n) name = latest objs i n name.
Proof.
  induction n as [|n IH]; intros objs i name.
  - cbn. by rewrite Z.add_0_r.
  - cbn [inherit_loop]. rewrite <- latest_inherit_row, <- IH. f_equal. lia.
Qed.

Lemma latest_some objs i n name j o : objs j name = Some o -> i <= j <= i + Z.of_nat n ->
  exists h o', latest objs i n name = Some o' /\ objs h name = Some o' /\ j <= h <= i + Z.of_nat n.
Proof.
  intros Hj. induction n as [|n IH]; intros Hr.
  - assert (j = i) as -> by lia. cbn. exists i, o. split_and!; auto; lia.
  - cbn [latest]. destruct (objs (i + Z.of_nat (Datatypes.S n)) name) as [o'|] eqn:E.
    + exists (i + Z.of_nat (Datatypes.S n)), o'. split_and!; auto; lia.
    + assert (j <> i + Z.of_nat (Datatypes.S n)) by (intros ->; congruence).
      destruct IH as (h & o' & ? & ? & ?); [lia|]. exists h, o'. split_and!; auto; lia.
Qed.

(** The entry found after the initialisation, when some version up to [hw] has one. *)
Lemma inherit_loop_some objs lo hw name j o : objs j name = Some o -> lo <= j <= hw ->
  exists h o', inherit_loop (Z.to_nat (hw - lo)) lo objs hw name = Some o' /\
    objs h name = Some o' /\ j <= h <= hw.
Proof.
  intros Hj Hr. pose proof (inherit_loop_latest (Z.to_nat (hw - lo)) objs lo name) as H.
  rewrite Z2Nat.id in H by lia. replace (lo + (hw - lo)) with hw in H by lia. rewrite H.
  destruct (latest_some objs lo (Z.to_nat (hw - lo)) name j o Hj) as (h & o' & ? & ? & ?); [lia|].
  exists h, o'. split_and!; auto; lia.
Qed.
End latest.

(** What the driver relies on: a supported hardware version, room for a public
    address, memory at non-null addresses. *)
Class KernLaws (K : Type) `{KO : KernelOps K} `{KC : KernConf} `{U : IpaUapi} `{HW : IpaHw} : Prop := {
  kern_hw :: IpaHwLaws;
  kern_uapi :: IpaUapiLaws;
  kern_hw_type : IPA_HW_v3_0 <= ipa_hw_type < IPA_HW_MAX;
  kern_pdn_config : 16 <= pdn_config_size < 2 ^ 32;
  law_dma_alloc : forall size k va h k', dma_alloc_coherent size k = (Some (va, h), k') -> 0 < va;
  law_uninit : forall k b k', uninit_u8 k = (b, k') -> 0 <= b < 256 }.

Section hal_laws.
Context {K : Type} `{KL : KernLaws K}.

Lemma hw_versions : 0 <= IPA_HW_v3_0 < IPA_HW_v4_0 /\ IPA_HW_v4_0 < IPA_HW_v4_1 /\
  IPA_HW_v4_1 < IPA_HW_v4_5 /\ IPA_HW_v4_5 < IPA_HW_MAX.
Proof. destruct kern_hw. lia. Qed.

(** A row of the static table, found from the hardware's version. *)
Lemma hal_row ty j o : ipahal_nat_objs j ty = Some o -> IPA_HW_v3_0 <= j <= ipa_hw_type ->
  exists h o', hal_obj hal ty = Ok o' /\ ipahal_nat_objs h ty = Some o' /\ j <= h <= ipa_hw_type.
Proof.
  intros Hj Hr. pose proof hw_versions. pose proof kern_hw_type.
  destruct (inherit_loop_some ipahal_nat_objs IPA_HW_v3_0 ipa_hw_type ty j o Hj Hr) as (h & o' & E & ? & ?).
  exists h, o'. split; [|done]. unfold hal_obj, hal, ipahal_nat_init. cbn [hal_nat_objs hal_hw_type].
  rewrite (proj2 (Z.ltb_ge _ _)), Z.geb_leb, (proj2 (Z.leb_gt _ _)) by lia. cbn [orb snd].
  by rewrite E.
Qed.

Ltac hw_row_cases H :=
  unfold ipahal_nat_objs, ipahal_imm_cmd_objs in H;
  repeat match type of H with context [if ?b then _ else _] => destruct b end;
  first [discriminate H | injection H as <-; reflexivity].

Lemma hal_ipv4 : hal_obj hal IPAHAL_NAT_IPV4 =
  Ok (nat_obj_of ipa_nat_hw_ipv4_entry ipa_nat_ipv4_is_entry_valid_v_3_0).
Proof.
  destruct (hal_row IPAHAL_NAT_IPV4 IPA_HW_v3_0
    (nat_obj_of ipa_nat_hw_ipv4_entry ipa_nat_ipv4_is_entry_valid_v_3_0)) as (h & o & -> & Ho & _).
  - unfold ipahal_nat_objs. by rewrite Z.eqb_refl.
  - pose proof kern_hw_type. lia.
  - f_equal. hw_row_cases Ho.
Qed.

Lemma hal_index : hal_obj hal IPAHAL_NAT_IPV4_INDEX =
  Ok (nat_obj_of ipa_nat_hw_indx_entry ipa_nat_ipv4_is_index_entry_valid_v_3_0).
Proof.
  destruct (hal_row IPAHAL_NAT_IPV4_INDEX IPA_HW_v3_0
    (nat_obj_of ipa_nat_hw_indx_entry ipa_nat_ipv4_is_index_entry_valid_v_3_0)) as (h & o & -> & Ho & _).
  - unfold ipahal_nat_objs. by rewrite Z.eqb_refl.
  - pose proof kern_hw_type. lia.
  - f_equal. hw_row_cases Ho.
Qed.

(** The entry of a public address. *)
Definition pdn_obj : ipahal_nat_obj :=
  mk_nat_obj (sizeof ipa_nat_hw_pdn_entry) (hw_zeroed ipa_nat_hw_pdn_entry)
    ipa_nat_ipv4_is_pdn_entry_valid_v_4_0
    (Some ipa_nat_ipv4_pdn_construct_entry_v_4_0) (Some ipa_nat_ipv4_pdn_parse_entry_v_4_0).

Lemma hal_pdn : IPA_HW_v4_0 <= ipa_hw_type -> hal_obj hal IPAHAL_NAT_IPV4_PDN = Ok pdn_obj.
Proof.
  intros Hv. pose proof hw_versions.
  destruct (hal_row IPAHAL_NAT_IPV4_PDN IPA_HW_v4_0 pdn_obj) as (h & o & -> & Ho & _); [|lia|].
  - unfold ipahal_nat_objs. rewrite (proj2 (Z.eqb_neq _ _)), Z.eqb_refl by lia. done.
  - f_equal. hw_row_cases Ho.
Qed.

Lemma hal_ct : IPA_HW_v4_0 <= ipa_hw_type -> hal_obj hal IPAHAL_NAT_IPV6CT =
  Ok (nat_obj_of ipa_nat_hw_ipv6ct_entry ipa_nat_ipv6ct_is_entry_valid_v_4_0).
Proof.
  intros Hv. pose proof hw_versions.
  destruct (hal_row IPAHAL_NAT_IPV6CT IPA_HW_v4_0
    (nat_obj_of ipa_nat_hw_ipv6ct_entry ipa_nat_ipv6ct_is_entry_valid_v_4_0)) as (h & o & -> & Ho & _); [|lia|].
  - unfold ipahal_nat_objs. rewrite (proj2 (Z.eqb_neq _ _)), Z.eqb_refl by lia. done.
  - f_equal. hw_row_cases Ho.
Qed.

(** Sizes of the entries. *)
Definition hal_size (ty : ipahal_nat_type) : Z :=
  match ty with
  | IPAHAL_NAT_IPV4 => 32 | IPAHAL_NAT_IPV4_INDEX => 4
  | IPAHAL_NAT_IPV4_PDN => 16 | IPAHAL_NAT_IPV6CT => 64
  end.

(** The version has the type. *)
Definition hal_has (ty : ipahal_nat_type) : Prop :=
  match ty with
  | IPAHAL_NAT_IPV4 | IPAHAL_NAT_IPV4_INDEX => True
  | _ => IPA_HW_v4_0 <= ipa_hw_type
  end.

Lemma hal_entry_size ty : hal_has ty -> ipahal_nat_entry_size hal ty = Ok (0, hal_size ty).
Proof.
  unfold ipahal_nat_entry_size.
  destruct ty; intros H; [rewrite hal_ipv4|rewrite hal_index|rewrite hal_pdn by done|rewrite hal_ct by done];
    reflexivity.
Qed.

Lemma wp_entry_size ty (Q : Z -> kctx * K -> Prop) s : hal_has ty -> Q (hal_size ty) s -> wp (entry_size_of ty) Q s.
Proof.
  intros Hh HQ. unfold entry_size_of. apply wp_bind. eapply wp_lift; [by apply hal_entry_size|]. done.
Qed.

Definition max_pdn : Z := pdn_config_size / 16.

Lemma max_pdn_range : 1 <= max_pdn < 2 ^ 28.
Proof.
  pose proof kern_pdn_config. unfold max_pdn. split; [apply Z.div_le_lower_bound; lia|].
  apply Z.div_lt_upper_bound; lia.
Qed.

Lemma wp_max_pdn (Q : Z -> kctx * K -> Prop) s : IPA_HW_v4_0 <= ipa_hw_type -> Q max_pdn s -> wp ipa3_get_max_pdn Q s.
Proof. intros Hv HQ. unfold ipa3_get_max_pdn. apply wp_bind, wp_entry_size; done. Qed.

(** ** The commands *)
Lemma cmd_row name j o : ipahal_imm_cmd_objs (K := K) j name = Some o -> IPA_HW_v3_0 <= j <= ipa_hw_type ->
  exists h o', hal_cmds ipa_hw_type name = Some o' /\
    ipahal_imm_cmd_objs (K := K) h name = Some o' /\ j <= h <= ipa_hw_type.
Proof.
  intros Hj Hr. pose proof hw_versions. pose proof kern_hw_type.
  destruct (inherit_loop_some (ipahal_imm_cmd_objs (K := K)) IPA_HW_v3_0 ipa_hw_type name j o Hj Hr)
    as (h & o' & E & ? & ?).
  exists h, o'. split; [|done]. unfold hal_cmds, ipahal_imm_cmd_init.
  rewrite (proj2 (Z.ltb_ge _ _)), Z.geb_leb, (proj2 (Z.leb_gt _ _)) by lia. cbn [orb snd]. done.
Qed.

(** The constructor of a command on this hardware. *)
Definition cmd_obj (name : ipahal_imm_cmd_name) : option (ipahal_imm_cmd_obj (K := K)) :=
  let v4 := ipa_hw_type >=? IPA_HW_v4_0 in
  match name with
  | IPA_IMM_CMD_IP_V4_NAT_INIT => Some (mk_imm_obj ipa_imm_cmd_construct_ip_v4_nat_init 5)
  | IPA_IMM_CMD_REGISTER_WRITE =>
      Some (if v4 then mk_imm_obj ipa_imm_cmd_construct_register_write_v_4_0 12
            else mk_imm_obj ipa_imm_cmd_construct_register_write 12)
  | IPA_IMM_CMD_NAT_DMA =>
      Some (if v4 then mk_imm_obj ipa_imm_cmd_construct_dummy 65535
            else mk_imm_obj ipa_imm_cmd_construct_nat_dma 14)
  | IPA_IMM_CMD_DMA_SHARED_MEM =>
      Some (if v4 then mk_imm_obj ipa_imm_cmd_construct_dma_shared_mem_v_4_0 19
            else mk_imm_obj ipa_imm_cmd_construct_dma_shared_mem 19)
  | IPA_IMM_CMD_TABLE_DMA =>
      if v4 then Some (mk_imm_obj ipa_imm_cmd_construct_table_dma_ipav4 14) else None
  | IPA_IMM_CMD_IP_V6_CT_INIT =>
      if v4 then Some (mk_imm_obj ipa_imm_cmd_construct_ip_v6_ct_init 23) else None
  end.

Lemma hal_cmds_obj name o : cmd_obj name = Some o -> hal_cmds ipa_hw_type name = Some o.
Proof.
  intros Hc. pose proof hw_versions. pose proof kern_hw_type.
  set (v := if ipa_hw_type >=? IPA_HW_v4_0 then IPA_HW_v4_0 else IPA_HW_v3_0).
  assert (Hv : IPA_HW_v3_0 <= v <= ipa_hw_type).
  { unfold v. rewrite Z.geb_leb. case_match; zify_bool; lia. }
  destruct (decide (name = IPA_IMM_CMD_IP_V4_NAT_INIT)) as [->|Hn].
  - destruct (cmd_row IPA_IMM_CMD_IP_V4_NAT_INIT IPA_HW_v3_0
      (mk_imm_obj ipa_imm_cmd_construct_ip_v4_nat_init 5)) as (h & o' & -> & Ho & _); [|lia|].
    { unfold ipahal_imm_cmd_objs. by rewrite Z.eqb_refl. }
    cbn in Hc. injection Hc as <-. f_equal. hw_row_cases Ho.
  - destruct (cmd_row name v o) as (h & o' & -> & Ho & Hh); [|lia|].
    + unfold v, ipahal_imm_cmd_objs, cmd_obj in *. cbn zeta in *.
      destruct (ipa_hw_type >=? IPA_HW_v4_0).
      * rewrite (proj2 (Z.eqb_neq _ _)), Z.eqb_refl by lia. by destruct name.
      * rewrite Z.eqb_refl. by destruct name.
    + f_equal. unfold v, cmd_obj in *. clear v. cbn zeta in *. rewrite Z.geb_leb in *.
      unfold ipahal_imm_cmd_objs in Ho.
      destruct (IPA_HW_v4_0 <=? ipa_hw_type) eqn:E; zify_bool;
        destruct (h =? IPA_HW_v3_0) eqn:E3; zify_bool; try lia;
        try (destruct (h =? IPA_HW_v4_0) eqn:E4; zify_bool; try lia);
        destruct name; try discriminate Ho; try done;
        injection Hc as <-; injection Ho as <-; reflexivity.
Qed.
End hal_laws.
