(* ===== verification/KernInv.v ===== *)
(** * The invariant of the kernel's NAT driver

    [kern_ok] is what holds between any two calls; every call of a client, with any
    arguments of the types and whatever the kernel answers, is defined and keeps it
    ([kcall_ok]).  In particular the arrays of descriptors, of locations and of public
    addresses are never accessed outside their bounds and no callback is NULL. *)

From Stdlib Require Import ZArith Lia Ascii String.
From stdpp Require Import prelude list numbers strings.
From S2P Require Import Prelude StWp Bitfield IpaTable Os NatRule NatDrvi Ipv6ct KernHal KernCmd KernNat KernIoctl KernHalLaws.

Local Open Scope Z_scope.

(** ** The invariant *)
(** [n] records of [esz] bytes at [addr] are in the memory of the location. *)
Definition table_in (l : ipa3_nat_mem_loc_data) (addr n esz : Z) : Prop :=
  l_base_address l <= addr /\ addr + esz * n <= l_base_address l + l_table_alloc_size l.

Record tables_in (l : ipa3_nat_mem_loc_data) : Prop := {
  ti_base : table_in l (l_base_table_addr l) (l_table_entries l + 1) 32;
  ti_expn : table_in l (l_expansion_table_addr l) (l_expn_table_entries l) 32;
  ti_indx : table_in l (l_index_table_addr l) (l_table_entries l + 1) 4;
  ti_indx_expn : table_in l (l_index_table_expansion_addr l) (l_expn_table_entries l) 4 }.

Record loc_ok (used : bool) (l : ipa3_nat_mem_loc_data) : Prop := {
  lo_free : used = false -> l_is_mapped l = false /\ l_vaddr l = 0;
  lo_mapped : l_is_mapped l = true -> l_vaddr l <> 0 /\ l_base_address l = l_vaddr l;
  lo_entries : 0 <= l_table_entries l < U16_MAX /\ 0 <= l_expn_table_entries l <= U16_MAX;
  lo_none : l_table_entries l = 0 -> l_expn_table_entries l = 0;
  lo_tables : l_table_entries l <> 0 -> l_is_mapped l = true /\ tables_in l }.

Definition used_of (n : ipa3_nat_mem) (nmi : Z) : bool :=
  if nmi =? IPA_NAT_MEM_IN_DDR then n_ddr_in_use n else n_sram_in_use n.

Definition is_nmi (nmi : Z) : Prop := nmi = IPA_NAT_MEM_IN_DDR \/ nmi = IPA_NAT_MEM_IN_SRAM.

Section inv.
Context {K : Type} `{KL : KernLaws K}.

Definition v4 : Prop := IPA_HW_v4_0 <= ipa_hw_type.

Record nat_ok (n : ipa3_nat_mem) : Prop := {
  no_dev : d_is_nat_mem (n_dev n) = true /\ d_is_ipv6ct_mem (n_dev n) = false /\
    d_is_dev_init (n_dev n) = true;
  no_last : is_nmi (n_last_alloc_loc n);
  no_active : is_nmi (n_active_table n);
  no_len : length (n_mem_loc n) = 2%nat;
  no_locs : forall nmi l, zget (n_mem_loc n) nmi = Some l -> loc_ok (used_of n nmi) l;
  no_pdn : pdn_base (n_pdn_mem n) <> 0 -> v4 /\ Z.of_nat (length (pdn_tbl (n_pdn_mem n))) = max_pdn;
  no_hw : d_is_hw_init (n_dev n) = true ->
    (exists l, zget (n_mem_loc n) (n_active_table n) = Some l /\ l_table_entries l <> 0) /\
    (v4 -> pdn_base (n_pdn_mem n) <> 0) }.

Definition ct_ok (d : ipa3_nat_ipv6ct_common_mem) : Prop :=
  d_is_nat_mem d = false /\ d_is_dev_init d = d_is_ipv6ct_mem d /\ (d_is_dev_init d = true <-> v4).

Definition kern_ok (c : kctx) : Prop := nat_ok (nat_mem c) /\ ct_ok (ipv6ct_mem c).

(** ** Rules for the driver's primitives *)
Implicit Types (c : kctx) (k : K).

Lemma wp_kget Q c k : Q c (c, k) -> wp kget Q (c, k).
Proof. done. Qed.
Lemma wp_kmod f Q c k : Q tt (f c, k) -> wp (kmod f) Q (c, k).
Proof. done. Qed.
Lemma wp_kmod_nat f Q c k : Q tt (set_nat c (f (nat_mem c)), k) -> wp (kmod_nat f) Q (c, k).
Proof. done. Qed.
Lemma wp_kmod_dev w f Q c k : Q tt (set_dev c w (f (dev_of c w)), k) -> wp (kmod_dev w f) Q (c, k).
Proof. done. Qed.
Lemma wp_put_loc nmi l Q c k : Q tt (set_loc c nmi l, k) -> wp (put_loc nmi l) Q (c, k).
Proof. done. Qed.
Lemma wp_ksys {A} (f : K -> A * K) (Q : A -> kctx * K -> Prop) c k :
  (forall a k', f k = (a, k') -> Q a (c, k')) -> wp (ksys f) Q (c, k).
Proof. intros H. unfold wp, ksys, sys. destruct (f k) as [a k'] eqn:E. by apply H. Qed.
Lemma wp_get_loc nmi l Q c k : zget (n_mem_loc (nat_mem c)) nmi = Some l -> Q l (c, k) -> wp (get_loc nmi) Q (c, k).
Proof.
  intros Hl HQ. unfold get_loc. apply wp_bind, wp_kget. eapply wp_lift; [|done]. cbn. by rewrite Hl.
Qed.

(** The two locations exist. *)
Lemma loc_exists n nmi : length (n_mem_loc n) = 2%nat -> is_nmi nmi -> exists l, zget (n_mem_loc n) nmi = Some l.
Proof.
  intros Hlen Hn. apply zget_lt_Some. rewrite Hlen.
  destruct Hn as [-> | ->]; unfold IPA_NAT_MEM_IN_DDR, IPA_NAT_MEM_IN_SRAM; lia.
Qed.

Lemma nmi_valid nmi : IPA_VALID_NAT_MEM_IN nmi = true <-> is_nmi nmi.
Proof. apply uapi_nmi. Qed.
End inv.

(** One step of a computation whose head has a rule. *)
Ltac wp1 :=
  lazymatch goal with
  | |- wp (_ ≫= _) _ _ => apply wp_bind
  | |- wp (mret _) _ _ => apply wp_ret
  | |- wp kget _ _ => apply wp_kget
  | |- wp (kmod _) _ _ => apply wp_kmod
  | |- wp (kmod_nat _) _ _ => apply wp_kmod_nat
  | |- wp (kmod_dev _ _) _ _ => apply wp_kmod_dev
  | |- wp (put_loc _ _) _ _ => apply wp_put_loc
  | |- wp (ksys _) _ _ => apply wp_ksys; intros ? ? ?
  | |- wp (if _ then _ else _) _ _ => apply wp_if; intros ?
  end; cbn beta zeta.
Ltac wp_go := repeat wp1.

(** ** Lists of commands *)
Section commands.
Context {K : Type} `{KL : KernLaws K}.
Implicit Types (c : kctx) (k : K).

Definition cmd_args (name : ipahal_imm_cmd_name) (p : imm_params) : Prop :=
  match name, p with
  | IPA_IMM_CMD_IP_V4_NAT_INIT, NatInitParams _ | IPA_IMM_CMD_IP_V6_CT_INIT, CtInitParams _
  | (IPA_IMM_CMD_NAT_DMA | IPA_IMM_CMD_TABLE_DMA), TableDmaParams _
  | IPA_IMM_CMD_REGISTER_WRITE, RegWriteParams _ | IPA_IMM_CMD_DMA_SHARED_MEM, DmaSharedParams _ => True
  | _, _ => False
  end.

Definition cmd_has (name : ipahal_imm_cmd_name) : Prop :=
  match name with IPA_IMM_CMD_TABLE_DMA | IPA_IMM_CMD_IP_V6_CT_INIT => v4 | _ => True end.

Lemma cmd_obj_has name : cmd_has name -> exists o, cmd_obj name = Some o.
Proof.
  unfold cmd_has, cmd_obj, v4. rewrite Z.geb_leb.
  destruct name; intros H; eauto; rewrite (proj2 (Z.leb_le _ _)) by done; eauto.
Qed.

Lemma alloc_pyld_runs ws vs op k : exists o k', alloc_pyld ws vs op k = Ok (o, k').
Proof. unfold alloc_pyld. destruct (kzalloc k) as [[] k']; eauto. Qed.

Lemma construct_runs name p k : cmd_has name -> cmd_args name p ->
  exists o k', ipahal_construct_imm_cmd hal_cmds ipa_hw_type name p k = Ok (o, k').
Proof.
  intros Hh Ha. destruct (cmd_obj_has name Hh) as [ob Ho].
  unfold ipahal_construct_imm_cmd. erewrite bind_ok by (by rewrite (hal_cmds_obj _ _ Ho)).
  unfold cmd_obj in Ho.
  destruct name, p; try done; cbn in Ho; repeat case_match; simplify_eq; cbn;
    unfold ipa_imm_cmd_construct_register_write_v_4_0, ipa_imm_cmd_construct_dma_shared_mem_v_4_0,
      ipa_imm_cmd_construct_dummy; repeat case_match; try apply alloc_pyld_runs; eauto.
Qed.

Lemma wp_klift {A} (m : St K A) Q c k a k' : m k = Ok (a, k') -> Q a (c, k') -> wp (klift m) Q (c, k).
Proof. unfold wp, klift. by intros ->. Qed.

(** A command is appended, or the status is not 0. *)
Lemma wp_add_cmd room errno name p l Q c k :
  (length l < room)%nat -> errno <> 0 -> cmd_has name -> cmd_args name p ->
  (forall r l' k', (if decide (r = 0) then length l' = S (length l) else l' = l) -> Q (r, l') (c, k')) ->
  wp (add_cmd room errno name p l) Q (c, k).
Proof.
  intros Hr He Hh Ha HQ. unfold add_cmd. rewrite (proj2 (Nat.leb_gt _ _)) by lia.
  destruct (construct_runs name p k Hh Ha) as (o & k' & E).
  apply wp_bind. eapply wp_klift; [done|]. destruct o as [py|]; apply wp_ret, HQ.
  - rewrite decide_True by done. rewrite length_app. cbn. lia.
  - by rewrite decide_False by lia.
Qed.

Lemma wp_and_then r f Q (s : kctx * K) :
  (fst r = 0 -> wp (f (snd r)) Q s) -> (fst r <> 0 -> Q r s) -> wp (and_then r f) Q s.
Proof. intros H1 H2. unfold and_then. destruct (fst r =? 0) eqn:E; zify_bool; [auto|]. by apply wp_ret, H2. Qed.

Definition coal_cmds : nat := if negb (wan_coal_ep =? -1) && negb ulso_wa then 1 else 0.

Lemma wp_coal room Q c k : (1 <= room)%nat ->
  (forall r l k', (length l <= coal_cmds)%nat -> (r <> 0 -> l = []) -> Q (r, l) (c, k')) ->
  wp (coal_close_cmd room) Q (c, k).
Proof.
  intros Hr HQ. unfold coal_close_cmd. unfold coal_cmds in HQ.
  destruct (negb (wan_coal_ep =? -1) && negb ulso_wa).
  - destruct (aggr_force_close wan_coal_ep) as [[off v] m].
    apply wp_add_cmd; cbn; [lia|done..|]. intros r l' k' H. apply HQ; case_decide; subst; cbn in *; try lia; done.
  - by apply wp_ret, HQ; cbn.
Qed.

Lemma wp_nop room l Q c k : (length l < room)%nat ->
  (forall r l' k', (if decide (r = 0) then length l' = S (length l) else l' = l) -> Q (r, l') (c, k')) ->
  wp (nop_cmd room l) Q (c, k).
Proof. intros Hr HQ. by apply wp_add_cmd. Qed.

Lemma coal_cmds_le : (coal_cmds <= 1)%nat.
Proof. unfold coal_cmds. destruct (_ && _); lia. Qed.

(** The closing command and the no-operation. *)
Lemma wp_prefix room (g : Z * list ipahal_imm_cmd_pyld -> St (kctx * K) Z) Q c k : (2 <= room)%nat ->
  (forall l k', (length l <= S coal_cmds)%nat -> wp (g (0, l)) Q (c, k')) ->
  (forall r k', fst r <> 0 -> wp (g r) Q (c, k')) ->
  wp (r ← coal_close_cmd room; r ← and_then r (nop_cmd room); g r) Q (c, k).
Proof.
  intros Hr Hf HQ. pose proof coal_cmds_le.
  apply wp_bind, wp_coal; [lia|]. intros r l k' Hl Hn. apply wp_bind, wp_and_then; cbn [fst snd]; [|by auto].
  intros ->. apply wp_nop; [lia|]. intros r l' k'' Hl'.
  destruct (decide (r = 0)) as [->|]; [|by apply HQ]. apply Hf. lia.
Qed.

(** A command that could not be built is the result. *)
Lemma wp_send_and_destroy r Q c k : (forall x k', (fst r <> 0 -> x = fst r) -> Q x (c, k')) ->
  wp (send_and_destroy r) Q (c, k).
Proof. intros HQ. unfold send_and_destroy. destruct (fst r =? 0) eqn:E; zify_bool; wp_go; by apply HQ. Qed.

(** The state with another table of public addresses, of the same length. *)
Definition same_but_pdn c c' : Prop := exists p,
  c' = set_nat c (nat_set_pdn (nat_mem c) p) /\ pdn_base p = pdn_base (n_pdn_mem (nat_mem c)) /\
  length (pdn_tbl p) = length (pdn_tbl (n_pdn_mem (nat_mem c))).

Lemma same_but_pdn_refl c : same_but_pdn c c.
Proof. exists (n_pdn_mem (nat_mem c)). split_and!; [|done..]. by destruct c as [[]]. Qed.

Lemma wp_create_modify_pdn zero (Q : _ -> kctx * K -> Prop) c k : v4 ->
  (forall r m c', same_but_pdn c c' -> (r = 0 -> pdn_base (n_pdn_mem (nat_mem c)) <> 0) -> Q (r, m) (c', k)) ->
  wp (ipa3_nat_create_modify_pdn_cmd zero) Q (c, k).
Proof.
  intros Hv HQ. unfold ipa3_nat_create_modify_pdn_cmd.
  apply wp_bind, wp_entry_size; [done|]. apply wp_bind, wp_max_pdn; [done|].
  wp_go; zify_bool; apply HQ; try done; try apply same_but_pdn_refl.
  eexists. split; [done|]. cbn. by rewrite length_map.
Qed.

Lemma wp_nat_send_init cmd zero (Q : _ -> kctx * K -> Prop) c k :
  (forall r c' k', same_but_pdn c c' -> (r = 0 -> v4 -> pdn_base (n_pdn_mem (nat_mem c)) <> 0) -> Q r (c', k')) ->
  wp (ipa3_nat_send_init_cmd cmd zero) Q (c, k).
Proof.
  intros HQ. unfold ipa3_nat_send_init_cmd. pose proof coal_cmds_le.
  assert (Hdone : forall r c' k', same_but_pdn c c' ->
    (fst r = 0 -> v4 -> pdn_base (n_pdn_mem (nat_mem c)) <> 0) -> wp (send_and_destroy r) Q (c', k')).
  { intros r c' k' Hs Hp. apply wp_send_and_destroy. intros x k'' Hx. apply HQ; [done|].
    intros ->. destruct (decide (fst r = 0)) as [|Hr]; [auto|]. by specialize (Hx Hr). }
  pose proof (same_but_pdn_refl c) as Hrefl.
  apply wp_prefix; [unfold IPA_NAT_MAX_NUM_OF_INIT_CMD_DESC; lia|..].
  2: { intros r k' Hne. apply wp_bind, wp_and_then; [done|]. intros _.
       apply wp_bind, wp_and_then; [done|]. intros _. by apply Hdone. }
  intros l k' Hl. apply wp_bind, wp_and_then; [intros _|done].
  apply wp_add_cmd; [unfold IPA_NAT_MAX_NUM_OF_INIT_CMD_DESC; cbn; lia|done..|].
  intros r l2 k3 _. apply wp_bind, wp_and_then; [intros _|by intros Hr; apply Hdone].
  apply wp_if; intros Hv.
  2: { wp_go. apply Hdone; [done|]. intros _ Hv'. unfold v4 in Hv'. rewrite Z.geb_leb in Hv. zify_bool. lia. }
  apply wp_if; intros Hroom; [by wp_go; apply Hdone|]. apply Nat.leb_gt in Hroom.
  rewrite Z.geb_leb in Hv. zify_bool.
  apply wp_bind, wp_create_modify_pdn; [done|]. intros r' m c' Hs Hb. cbn beta iota.
  apply wp_if; intros Hr; zify_bool; [by wp_go; apply Hdone|].
  apply wp_add_cmd; [done..|]. intros. apply Hdone; auto.
Qed.

Lemma wp_ct_send_init cmd (Q : _ -> kctx * K -> Prop) c k : v4 ->
  (forall r k', Q r (c, k')) -> wp (ipa3_ipv6ct_send_init_cmd cmd) Q (c, k).
Proof.
  intros Hv HQ. unfold ipa3_ipv6ct_send_init_cmd.
  assert (Hdone : forall r k', wp (send_and_destroy r) Q (c, k')) by (intros; apply wp_send_and_destroy; auto).
  apply wp_prefix; [unfold IPA_IPV6CT_MAX_NUM_OF_INIT_CMD_DESC; lia|..].
  - intros l k' Hl. apply wp_bind, wp_and_then; [intros _|done].
    apply wp_if; intros Hroom; [by wp_go; apply Hdone|]. apply Nat.leb_gt in Hroom.
    apply wp_add_cmd; [done..|]. intros. by apply Hdone.
  - intros r k' Hne. apply wp_bind, wp_and_then; [done|]. intros _. by apply Hdone.
Qed.
End commands.
