(* ===== verification/KernSafe.v ===== *)
(** * Every call of the kernel's NAT driver is defined and keeps its invariant

    One lemma per operation of [ipa_nat.c]; [kcall_ok] joins them. *)

From Stdlib Require Import ZArith Lia Ascii String.
From stdpp Require Import prelude list numbers strings.
From S2P Require Import Prelude StWp Bitfield IpaTable Os NatRule NatDrvi Ipv6ct KernHal KernCmd KernNat KernIoctl KernHalLaws KernInv.

Local Open Scope Z_scope.

Section safe.
Context {K : Type} `{KL : KernLaws K}.
Implicit Types (c : kctx) (k : K) (n : ipa3_nat_mem) (l : ipa3_nat_mem_loc_data).

Definition okQ {A} : A -> kctx * K -> Prop := fun _ s => kern_ok (fst s).

(** ** The invariant under the changes of the state *)
Lemma used_of_ddr n : used_of n IPA_NAT_MEM_IN_DDR = n_ddr_in_use n.
Proof. done. Qed.
Lemma used_of_sram n : used_of n IPA_NAT_MEM_IN_SRAM = n_sram_in_use n.
Proof. done. Qed.

Lemma zget_zset {A} (ls : list A) i j x y : zget (zset ls i x) j = Some y ->
  (j = i /\ y = x) \/ (j <> i /\ zget ls j = Some y).
Proof.
  intros H. destruct (decide (j = i)) as [->|Hne]; [left|right; by rewrite zget_zset_ne in H].
  pose proof (zget_Some_lt _ _ _ H) as Hlt. rewrite zset_length in Hlt.
  rewrite zget_zset_eq in H by done. naive_solver.
Qed.

(** A location is replaced, and the flags of the memories in use and the last location
    allocated may change. *)
Lemma nat_ok_loc n nmi l l' ddr sram last :
  nat_ok n -> zget (n_mem_loc n) nmi = Some l -> is_nmi last ->
  let n' := nat_set_use (nat_set_locs n (zset (n_mem_loc n) nmi l')) ddr sram last in
  (forall j, j <> nmi -> is_nmi j -> used_of n' j = used_of n j) -> loc_ok (used_of n' nmi) l' ->
  (l_table_entries l <> 0 -> l_table_entries l' <> 0) -> nat_ok n'.
Proof.
  intros [] Hl Hlast n' Hu Hok Hte. split; cbn; try done.
  - by rewrite zset_length.
  - intros j lj Hj. apply zget_zset in Hj as [[-> ->]|[Hne Hj]]; [done|].
    rewrite Hu; [eauto|done|]. apply zget_Some_lt in Hj. rewrite no_len in Hj.
    unfold is_nmi, IPA_NAT_MEM_IN_DDR, IPA_NAT_MEM_IN_SRAM. lia.
  - intros Hhw. destruct (no_hw Hhw) as ((la & Ha & Hne) & Hpdn). pose proof (zget_Some_lt _ _ _ Hl). split; [|done].
    destruct (decide (n_active_table n = nmi)) as [E|].
    + rewrite E in *. rewrite zget_zset_eq by done. assert (la = l) as -> by congruence. eauto.
    + rewrite zget_zset_ne by done. eauto.
Qed.

(** A location is replaced. *)
Lemma nat_ok_put n nmi l l' :
  nat_ok n -> zget (n_mem_loc n) nmi = Some l -> loc_ok (used_of n nmi) l' ->
  (l_table_entries l <> 0 -> l_table_entries l' <> 0) -> nat_ok (nat_set_locs n (zset (n_mem_loc n) nmi l')).
Proof.
  intros Hn Hl Hok Hte.
  pose proof (nat_ok_loc n nmi l l' (n_ddr_in_use n) (n_sram_in_use n) (n_last_alloc_loc n)) as H.
  apply H; try done. apply Hn.
Qed.

Lemma nat_ok_pdn n p : nat_ok n ->
  (pdn_base p <> 0 -> v4 /\ Z.of_nat (length (pdn_tbl p)) = max_pdn) ->
  (pdn_base (n_pdn_mem n) <> 0 -> pdn_base p <> 0) -> nat_ok (nat_set_pdn n p).
Proof.
  intros [] Hp Hb. split; try done. intros Hhw. destruct (no_hw Hhw) as [Ha Hv]. split; [done|]. intros. by apply Hb, Hv.
Qed.

Lemma nat_ok_ip n ip : nat_ok n -> nat_ok (nat_set_ip n ip).
Proof. intros []. by split. Qed.

Lemma kern_ok_pdn c c' : kern_ok c -> same_but_pdn c c' -> kern_ok c'.
Proof.
  intros [Hn Hc] (p & -> & Hb & Hl). split; [|done]. apply nat_ok_pdn; rewrite ?Hb, ?Hl; try done. apply Hn.
Qed.

Lemma kern_ok_put c nmi l l' :
  kern_ok c -> zget (n_mem_loc (nat_mem c)) nmi = Some l -> loc_ok (used_of (nat_mem c) nmi) l' ->
  (l_table_entries l <> 0 -> l_table_entries l' <> 0) -> kern_ok (set_loc c nmi l').
Proof. intros [Hn Hc] Hl Hok Hte. split; [|done]. by eapply nat_ok_put. Qed.

Lemma get_set_loc c nmi l l' : zget (n_mem_loc (nat_mem c)) nmi = Some l ->
  zget (n_mem_loc (nat_mem (set_loc c nmi l'))) nmi = Some l'.
Proof. intros Hl. cbn. apply zget_zset_eq. by eapply zget_Some_lt. Qed.

(** A location without tables. *)
Lemma loc_ok_idle used l : l_table_entries l = 0 -> l_expn_table_entries l = 0 ->
  (used = false -> l_is_mapped l = false /\ l_vaddr l = 0) ->
  (l_is_mapped l = true -> l_vaddr l <> 0 /\ l_base_address l = l_vaddr l) -> loc_ok used l.
Proof. intros H1 H2 Hf Hm. split; try done; unfold U16_MAX; lia. Qed.

Lemma loc_unmapped used l : loc_ok used l -> l_is_mapped l = false ->
  l_table_entries l = 0 /\ l_expn_table_entries l = 0.
Proof.
  intros [] Hm. destruct (decide (l_table_entries l = 0)) as [E|Hd]; [auto|].
  destruct (lo_tables Hd). congruence.
Qed.

Lemma last_loc n : nat_ok n -> exists l, zget (n_mem_loc n) (n_last_alloc_loc n) = Some l /\
  loc_ok (used_of n (n_last_alloc_loc n)) l.
Proof.
  intros Hn. destruct (loc_exists n (n_last_alloc_loc n)) as [l Hl]; [apply Hn..|].
  exists l. split; [done|]. by apply Hn.
Qed.

(** ** Mapping *)
Lemma mmap_nat_ok vsize c k : kern_ok c -> wp (mmap_nat vsize) okQ (c, k).
Proof.
  intros Hok. unfold mmap_nat. wp_go; try done.
  destruct (last_loc _ (proj1 Hok)) as (l & Hl & Hlo).
  eapply wp_get_loc; [done|]. wp_go; try done; zify_bool.
  all: destruct (loc_unmapped _ _ Hlo) as [Hte Hee]; [done|].
  all: assert (kern_ok (set_loc c (n_last_alloc_loc (nat_mem c)) (loc_set_map l (l_is_mapped l) 0))) as Hok1
    by (eapply kern_ok_put; [done..| |done]; apply loc_ok_idle; cbn; [done..|apply Hlo|congruence]).
  all: try done.
  all: eapply (kern_ok_put _ _ _ _ Hok1); [by eapply get_set_loc| |done].
  all: apply loc_ok_idle; cbn; [done..| |done].
  all: intros Hu; destruct (lo_free _ _ Hlo Hu); lia.
Qed.

Lemma ct_ok_dev d d' : ct_ok d -> d_is_nat_mem d' = d_is_nat_mem d -> d_is_dev_init d' = d_is_dev_init d ->
  d_is_ipv6ct_mem d' = d_is_ipv6ct_mem d -> ct_ok d'.
Proof. unfold ct_ok. by intros ? -> -> ->. Qed.

Lemma mmap_ok w vsize c k : kern_ok c -> wp (ipa3_nat_ipv6ct_mmap w vsize) okQ (c, k).
Proof.
  intros Hok. unfold ipa3_nat_ipv6ct_mmap. wp_go; [done|by apply mmap_nat_ok|].
  destruct w; cbn in *; [by rewrite (proj1 (no_dev _ (proj1 Hok))) in *|].
  unfold mmap_ct. wp_go; try done; (split; [apply Hok|by eapply ct_ok_dev; [apply Hok|..]]).
Qed.

(** ** Allocation

    After an allocation the location is not mapped. *)
Definition fresh_last c : Prop := exists l,
  zget (n_mem_loc (nat_mem c)) (n_last_alloc_loc (nat_mem c)) = Some l /\ l_is_mapped l = false.

Definition allocQ : Z -> kctx * K -> Prop := fun r s => kern_ok (fst s) /\ (r = 0 -> fresh_last (fst s)).

Lemma loc_free c nmi : kern_ok c -> is_nmi nmi -> used_of (nat_mem c) nmi = false ->
  exists l, zget (n_mem_loc (nat_mem c)) nmi = Some l /\ l_is_mapped l = false /\ l_vaddr l = 0 /\
    l_table_entries l = 0 /\ l_expn_table_entries l = 0.
Proof.
  intros [Hn _] Hnmi Hu. destruct (loc_exists _ _ (no_len _ Hn) Hnmi) as [l Hl].
  pose proof (no_locs _ Hn _ _ Hl) as Hlo. destruct (lo_free _ _ Hlo Hu) as [Hm Hv].
  exists l. split_and!; try done; by eapply loc_unmapped.
Qed.

Lemma allocate_ddr_ok size c k : kern_ok c -> wp (allocate_ddr size) allocQ (c, k).
Proof.
  intros Hok. unfold allocate_ddr. wp_go; [done|].
  destruct (loc_free c IPA_NAT_MEM_IN_DDR Hok) as (l & Hl & Hm & Hv & Hte & Hee); [by left|done|].
  eapply wp_get_loc; [done|]. apply wp_bind, wp_ksys. intros [[va h]|] k' E; wp_go.
  - split.
    + destruct Hok as [Hn Hc]. split; [|done].
      refine (nat_ok_loc (nat_mem c) _ l _ true (n_sram_in_use (nat_mem c)) _ Hn Hl _ _ _ _);
        [by left| | |by rewrite Hte].
      * intros j Hj [-> | ->]; done.
      * apply loc_ok_idle; cbn; [done..|congruence].
    + intros _. eexists. split; [by eapply get_set_loc|done].
  - split; [|done]. eapply kern_ok_put; [done..| |by rewrite Hte].
    apply loc_ok_idle; cbn; [done..|congruence].
Qed.

Lemma allocate_sram_ok size c k : kern_ok c -> wp (allocate_sram size) allocQ (c, k).
Proof.
  intros Hok. unfold allocate_sram. wp_go; [done|].
  destruct (loc_free c IPA_NAT_MEM_IN_SRAM Hok) as (l & Hl & Hm & Hv & Hte & Hee); [by right|done|].
  eapply wp_get_loc; [done|]. wp_go.
  - split; [|done]. eapply kern_ok_put; [done..| |by rewrite Hte].
    apply loc_ok_idle; cbn; [done..|congruence].
  - split.
    + destruct Hok as [Hn Hc]. split; [|done].
      refine (nat_ok_loc (nat_mem c) _ l _ (n_ddr_in_use (nat_mem c)) true _ Hn Hl _ _ _ _);
        [by right| | |by rewrite Hte].
      * intros j Hj [-> | ->]; done.
      * apply loc_ok_idle; cbn; [done..|congruence].
    + intros _. eexists. split; [by eapply get_set_loc|done].
Qed.

Lemma alloc_nat_mem_ok size c k : kern_ok c ->
  wp (ipa3_nat_ipv6ct_allocate_mem NatDev size IPAHAL_NAT_IPV4) allocQ (c, k).
Proof.
  intros Hok. unfold ipa3_nat_ipv6ct_allocate_mem. wp_go; try done.
  apply wp_entry_size; [done|]. wp_go; [done|by apply allocate_sram_ok|by apply allocate_ddr_ok].
Qed.

Lemma alloc_ct_mem_ok size c k : v4 -> kern_ok c ->
  wp (ipa3_nat_ipv6ct_allocate_mem CtDev size IPAHAL_NAT_IPV6CT) okQ (c, k).
Proof.
  intros Hv Hok. unfold ipa3_nat_ipv6ct_allocate_mem. wp_go; try done.
  apply wp_entry_size; [done|]. wp_go; [done|]. unfold allocate_ct.
  apply wp_bind, wp_ksys. intros [[va h]|] k' E; wp_go; (split; [apply Hok|by eapply ct_ok_dev; [apply Hok|..]]).
Qed.

Lemma alloc_pdn_failed_ok r c k : kern_ok c -> fresh_last c -> wp (alloc_pdn_failed r) okQ (c, k).
Proof.
  intros Hok (l & Hl & Hm). unfold alloc_pdn_failed. wp_go. eapply wp_get_loc; [done|].
  pose proof (no_locs _ (proj1 Hok) _ _ Hl) as Hlo. destruct (loc_unmapped _ _ Hlo Hm) as [Hte Hee].
  wp_go; try done; (eapply kern_ok_put; try done; apply loc_ok_idle; cbn; [done..|congruence]).
Qed.

Lemma allocate_nat_table_ok size c k : kern_ok c -> wp (ipa3_allocate_nat_table size) okQ (c, k).
Proof.
  intros Hok. unfold ipa3_allocate_nat_table.
  eapply wp_use; [by apply alloc_nat_mem_ok|]. intros r [c1 k1] [Hok1 Hf]. cbn [fst] in *.
  wp_go; try done; zify_bool.
  assert (Hv : v4) by (unfold v4; rewrite Z.geb_leb in *; zify_bool; lia).
  apply wp_entry_size; [done|]. apply wp_bind, wp_max_pdn; [done|].
  pose proof max_pdn_range as Hmax.
  set (p1 := mk_pdn_buffer _ _ _ _).
  assert (Hok2 : kern_ok (set_nat c1 (nat_set_pdn (nat_mem c1) p1))).
  { split; [|apply Hok1]. apply nat_ok_pdn; [apply Hok1|unfold p1; cbn; lia|done]. }
  assert (Hf2 : fresh_last (set_nat c1 (nat_set_pdn (nat_mem c1) p1))) by (apply Hf; lia).
  apply wp_bind, wp_kmod_nat. cbn beta. apply wp_if; intros Hsz; [by apply alloc_pdn_failed_ok|].
  apply wp_bind, wp_ksys. intros [[va ph]|] k' E; [|by apply alloc_pdn_failed_ok].
  apply law_dma_alloc in E. wp_go. split; [|apply Hok1]. apply nat_ok_pdn; [apply Hok2| |by cbn; lia].
  intros _. split; [done|]. cbn. rewrite length_replicate. lia.
Qed.

Lemma allocate_ct_table_ok size c k : kern_ok c -> wp (ipa3_allocate_ipv6ct_table size) okQ (c, k).
Proof.
  intros Hok. unfold ipa3_allocate_ipv6ct_table. wp_go; [done|]. apply alloc_ct_mem_ok; [|done].
  unfold v4. zify_bool. lia.
Qed.
(** ** Init commands *)
Definition fits l (off m esz : Z) : Prop := off + esz * m <= l_table_alloc_size l.

Lemma check_range_fits alloc off size : 0 <= size < 2 ^ 32 -> 0 <= off < 2 ^ 32 ->
  check_range alloc off size = 0 -> off + size <= alloc.
Proof.
  intros Hs Ho. unfold check_range, UINT_MAX, EPERM. rewrite (wrap_small 64 (2 ^ 32 - 1 - size)) by lia.
  rewrite (wrap_small 64 (off + size)) by lia. rewrite !Z.gtb_ltb. repeat case_match; zify_bool; lia.
Qed.

Lemma hal_size_range ty : 0 < hal_size ty <= 64.
Proof. destruct ty; cbn; lia. Qed.

Lemma wp_check_nat nmi l off m ty (Q : Z -> kctx * K -> Prop) c k : kern_ok c ->
  zget (n_mem_loc (nat_mem c)) nmi = Some l -> hal_has ty -> u32_range off -> u16_range m ->
  (forall r, (r = 0 -> fits l off m (hal_size ty)) -> Q r (c, k)) ->
  wp (ipa3_nat_ipv6ct_check_table_params NatDev nmi off m ty) Q (c, k).
Proof.
  intros Hok Hl Hty Ho Hm HQ. unfold ipa3_nat_ipv6ct_check_table_params, u32_range, u16_range in *.
  destruct (no_dev _ (proj1 Hok)) as (_ & Hd & _).
  apply wp_bind, wp_kget. cbn [dev_of]. cbn zeta. rewrite Hd. apply wp_bind.
  eapply wp_get_loc; [done|]. apply wp_if; intros _; [by apply wp_ret, HQ|]. apply wp_bind.
  apply wp_entry_size; [done|]. apply wp_ret, HQ. intros Hr. unfold fits.
  pose proof (hal_size_range ty). apply check_range_fits; [nia|lia|done].
Qed.

Definition nat_fit (init : ipa_ioc_v4_nat_init) l : Prop :=
  fits l (ipv4_rules_offset init) (init_table_entries init + 1) 32 /\
  fits l (expn_rules_offset init) (init_expn_table_entries init) 32 /\
  fits l (index_offset init) (init_table_entries init + 1) 4 /\
  fits l (index_expn_offset init) (init_expn_table_entries init) 4.

Lemma wp_check_nat_tables nmi l init (Q : Z -> kctx * K -> Prop) c k : kern_ok c ->
  zget (n_mem_loc (nat_mem c)) nmi = Some l -> init_typed init -> init_table_entries init < U16_MAX ->
  (forall r, (r = 0 -> nat_fit init l) -> Q r (c, k)) ->
  wp (check_nat_tables nmi init) Q (c, k).
Proof.
  intros Hok Hl Ht Hmax HQ. unfold check_nat_tables. cbn zeta.
  destruct Ht as (_ & _ & H1 & H2 & H3 & H4 & H5 & H6 & _).
  assert (Hb : u16 (init_table_entries init + 1) = init_table_entries init + 1).
  { unfold u16_range, U16_MAX in *. apply wrap_small. lia. }
  assert (u16_range (u16 (init_table_entries init + 1))) by (apply wrap_range; lia).
  apply wp_bind. eapply wp_check_nat; [done..|]. intros r1 Hr1.
  apply wp_if; intros E1; zify_bool; [apply wp_ret, HQ; intros; lia|].
  apply wp_bind. eapply wp_check_nat; [done..|]. intros r2 Hr2.
  apply wp_if; intros E2; zify_bool; [apply wp_ret, HQ; intros; lia|].
  apply wp_bind. eapply wp_check_nat; [done..|]. intros r3 Hr3.
  apply wp_if; intros E3; zify_bool; [apply wp_ret, HQ; intros; lia|].
  eapply wp_check_nat; [done..|]. intros r4 Hr4. apply HQ. intros E4.
  rewrite Hb in *. unfold nat_fit. cbn [hal_size] in *. auto.
Qed.

Definition active_set c : Prop := exists l,
  zget (n_mem_loc (nat_mem c)) (n_active_table (nat_mem c)) = Some l /\ l_table_entries l <> 0.

(** The location with the tables of an init command. *)
Definition loc_inited l (init : ipa_ioc_v4_nat_init) : ipa3_nat_mem_loc_data :=
  loc_set_tables l (init_table_entries init) (init_expn_table_entries init)
    (l_base_address l + ipv4_rules_offset init) (l_base_address l + expn_rules_offset init)
    (l_base_address l + index_offset init) (l_base_address l + index_expn_offset init).

Lemma loc_ok_inited used l init : loc_ok used l -> l_is_mapped l = true -> init_typed init ->
  0 < init_table_entries init < U16_MAX -> nat_fit init l -> loc_ok used (loc_inited l init).
Proof.
  intros [] Hm (_ & _ & H1 & H2 & H3 & H4 & H5 & H6 & _) Hte (F1 & F2 & F3 & F4).
  unfold fits, u32_range, u16_range in *. split; cbn; unfold U16_MAX in *; try done; try lia.
  intros _. split; [done|]. split; split; cbn; lia.
Qed.

Lemma kern_ok_cnts c a b : kern_ok c -> kern_ok (set_nat c (nat_set_cnts (nat_mem c) a b)).
Proof. intros [[] Hc]. by do 2 (split; try done). Qed.

Lemma init_struct_ok nmi l init focus c k : kern_ok c -> is_nmi nmi ->
  zget (n_mem_loc (nat_mem c)) nmi = Some l -> l_is_mapped l = true -> init_typed init ->
  0 < init_table_entries init < U16_MAX -> nat_fit init l ->
  wp (ipa3_nat_ipv6ct_init_device_structure NatDev nmi (ipv4_rules_offset init) (expn_rules_offset init)
        (init_table_entries init) (init_expn_table_entries init) (index_offset init)
        (index_expn_offset init) focus)
     (fun _ s => kern_ok (fst s) /\ active_set (fst s) /\
        n_pdn_mem (nat_mem (fst s)) = n_pdn_mem (nat_mem c)) (c, k).
Proof.
  intros Hok Hnmi Hl Hm Ht Hte Hf. unfold ipa3_nat_ipv6ct_init_device_structure.
  destruct (no_dev _ (proj1 Hok)) as (Hd1 & Hd2 & Hd3).
  apply wp_bind, wp_kget. cbn [dev_of]. cbn zeta. rewrite Hd1, Hd2.
  set (c1 := set_loc (set_nat c (nat_set_active (nat_mem c) nmi)) nmi (loc_inited l init)).
  assert (Hok1 : kern_ok c1 /\ active_set c1 /\ n_pdn_mem (nat_mem c1) = n_pdn_mem (nat_mem c)).
  { assert (Hget : zget (n_mem_loc (nat_mem c1)) nmi = Some (loc_inited l init)) by by eapply get_set_loc.
    assert (Hact : active_set c1) by (exists (loc_inited l init); cbn in *; split; [done|lia]).
    split; [|done]. destruct Hok as [[] Hc]. split; [|done]. split; try done.
    - cbn. by rewrite zset_length.
    - intros j lj Hj. apply zget_zset in Hj as [[-> ->]|[Hne Hj]]; [|by eauto].
      apply loc_ok_inited; try done. by eapply no_locs.
    - intros Hhw. split; [done|]. by apply no_hw. }
  apply wp_bind, wp_kmod_nat.
  eapply wp_use with (P := fun x s => x = l /\ s = (set_nat c (nat_set_active (nat_mem c) nmi), k)).
  { by eapply wp_get_loc. }
  intros x s [-> ->]. apply wp_bind, wp_put_loc. cbn beta zeta.
  change (set_loc (set_nat c (nat_set_active (nat_mem c) nmi)) nmi _) with c1.
  clearbody c1. destruct Hok1 as (Hok1 & Hact & Hpd). pose proof (kern_ok_cnts c1) as Hcnt.
  wp_go; split_and!; try done; by apply Hcnt.
Qed.

Lemma same_locs c c' : same_but_pdn c c' -> n_mem_loc (nat_mem c') = n_mem_loc (nat_mem c).
Proof. by intros (p & -> & _). Qed.

(** Writing a public address. *)
Lemma wp_construct_pdn i f (Q : Z -> kctx * K -> Prop) c k : v4 -> kern_ok c ->
  pdn_base (n_pdn_mem (nat_mem c)) <> 0 -> 0 <= i < max_pdn ->
  (forall c', same_but_pdn c c' -> Q 0 (c', k)) -> wp (construct_pdn i f) Q (c, k).
Proof.
  intros Hv Hok Hb Hi HQ. unfold construct_pdn.
  apply wp_bind. eapply wp_lift.
  { unfold ipahal_nat_construct_entry. rewrite hal_pdn by done. reflexivity. }
  cbn. apply wp_bind, wp_kget. destruct (no_pdn _ (proj1 Hok) Hb) as [_ Hlen].
  destruct (zget_lt_Some (pdn_tbl (n_pdn_mem (nat_mem c))) i) as [x Hx]; [lia|].
  cbn zeta. apply wp_bind. eapply wp_lift; [by rewrite Hx|]. wp_go. apply HQ.
  eexists. split; [done|]. cbn. by rewrite zset_length.
Qed.

Lemma kern_ok_hw c : kern_ok c -> active_set c -> (v4 -> pdn_base (n_pdn_mem (nat_mem c)) <> 0) ->
  kern_ok (set_dev c NatDev (dev_set_hw (dev_of c NatDev) true (d_is_mapped (dev_of c NatDev)))).
Proof. intros [[] Hc] Ha Hp. by split. Qed.

Lemma nat_init_ok init c k : kern_ok c -> init_typed init -> wp (ipa3_nat_init_cmd init) okQ (c, k).
Proof.
  intros Hok Ht. unfold ipa3_nat_init_cmd. apply wp_bind, wp_kget. cbn zeta.
  set (nmi := if sram_compatible c then init_mem_type init else 0). set (focus := if sram_compatible c then _ else _).
  wp_go; try done. clearbody nmi focus.
  rewrite negb_false_iff in *. apply orb_false_iff in H0 as [H0 H0']. zify_bool.
  apply nmi_valid in H1. destruct (loc_exists _ _ (no_len _ (proj1 Hok)) H1) as [l Hl].
  assert (Hte : 0 < init_table_entries init < U16_MAX)
    by (destruct Ht as (_ & _ & _ & _ & _ & _ & Ht & _); unfold u16_range, U16_MAX in *; lia).
  eapply wp_get_loc; [done|]. apply wp_if; intros Hm; [by apply wp_ret|]. zify_bool.
  apply wp_bind. eapply wp_check_nat_tables; [done..|lia|]. intros r Hr.
  apply wp_if; intros E; [by apply wp_ret|]. zify_bool. specialize (Hr E). clear E r.
  set (cmd := if nmi =? IPA_NAT_MEM_IN_DDR then _ else _). clearbody cmd. cbn zeta.
  assert (Hpost : forall c1 k1, same_but_pdn c c1 -> wp (post_nat_init nmi init focus cmd) okQ (c1, k1)).
  { intros c1 k1 Hs1. pose proof (kern_ok_pdn _ _ Hok Hs1) as Hok1. unfold post_nat_init.
    apply wp_bind, wp_nat_send_init. intros r c2 k2 Hs2 Hpd. pose proof (kern_ok_pdn _ _ Hok1 Hs2) as Hok2.
    apply wp_if; intros E; [by apply wp_ret|]. zify_bool. eapply wp_use.
    { apply init_struct_ok with (l := l); try done. by rewrite (same_locs _ _ Hs2), (same_locs _ _ Hs1). }
    intros r' [c3 k3] (Hok3 & Ha & Hpd3). cbn [fst] in *. wp_go; [done|].
    apply (kern_ok_hw (set_nat c3 (nat_set_ip (nat_mem c3) (ip_addr init)))); [|done|].
    2: { cbn. rewrite Hpd3. destruct Hs2 as (p & -> & Hb & _). cbn. rewrite Hb. auto. }
    split; [|apply Hok3]. by apply nat_ok_ip, Hok3. }
  apply wp_bind, wp_if; intros Hp; zify_bool.
  - apply wp_construct_pdn; [unfold v4; rewrite Z.geb_leb in *; zify_bool; lia|done|lia|pose proof max_pdn_range; lia|].
    intros c1 Hs1. cbn. by apply Hpost.
  - apply wp_ret. cbn. apply Hpost, same_but_pdn_refl.
Qed.

Lemma kern_ok_ct c d : kern_ok c -> d_is_nat_mem d = d_is_nat_mem (ipv6ct_mem c) ->
  d_is_dev_init d = d_is_dev_init (ipv6ct_mem c) -> d_is_ipv6ct_mem d = d_is_ipv6ct_mem (ipv6ct_mem c) ->
  kern_ok (set_dev c CtDev d).
Proof. intros [Hn Hc] ? ? ?. split; [done|]. by eapply ct_ok_dev. Qed.

Lemma wp_check_ct nmi off m (Q : Z -> kctx * K -> Prop) c k : v4 -> kern_ok c ->
  (forall r, Q r (c, k)) -> wp (ipa3_nat_ipv6ct_check_table_params CtDev nmi off m IPAHAL_NAT_IPV6CT) Q (c, k).
Proof.
  intros Hv Hok HQ. unfold ipa3_nat_ipv6ct_check_table_params.
  apply wp_bind, wp_kget. cbn [dev_of]. cbn zeta.
  destruct (proj2 Hok) as (_ & Hi & Hvi). rewrite <- Hi, (proj2 Hvi Hv).
  wp_go; [apply HQ|]. apply wp_entry_size; [done|]. wp_go. apply HQ.
Qed.

Lemma ct_init_ok init c k : kern_ok c -> wp (ipa3_ipv6ct_init_cmd init) okQ (c, k).
Proof.
  intros Hok. unfold ipa3_ipv6ct_init_cmd. wp_go; try done. zify_bool.
  assert (Hv : v4) by (unfold v4; lia). apply wp_check_ct; [done..|]. intros r. wp_go; [done|].
  apply wp_check_ct; [done..|]. intros r'. wp_go; [done|]. apply wp_ct_send_init; [done|].
  intros r'' k'. wp_go; [done|]. unfold ipa3_nat_ipv6ct_init_device_structure.
  destruct (proj2 Hok) as (Hd & Hi & Hvi). apply wp_bind, wp_kget. cbn [dev_of]. cbn zeta.
  rewrite <- Hi, (proj2 Hvi Hv). wp_go. apply (kern_ok_ct (set_dev c CtDev _)); [|done..].
  by apply (kern_ok_ct c).
Qed.

(** ** Public addresses *)
Lemma mdfy_pdn_ok e c k : kern_ok c -> byte_range (ioc_pdn_index e) -> wp (ipa3_nat_mdfy_pdn e) okQ (c, k).
Proof.
  intros Hok He. unfold ipa3_nat_mdfy_pdn. wp_go; try done. zify_bool.
  assert (Hv : v4) by (unfold v4; lia). apply wp_max_pdn; [done|]. wp_go; [done|].
  rewrite Z.gtb_ltb in *. zify_bool. unfold byte_range in He.
  apply wp_construct_pdn; [done..|lia|]. intros c1 Hs1. pose proof (kern_ok_pdn _ _ Hok Hs1) as Hok1. cbn beta iota.
  change (negb (0 =? 0)) with false. cbn iota. apply wp_bind, wp_create_modify_pdn; [done|]. intros r m c2 Hs2 _. pose proof (kern_ok_pdn _ _ Hok1 Hs2).
  cbn beta iota. wp_go; [done|]. apply wp_add_cmd; [cbn; lia|done..|]. intros. by apply wp_send_and_destroy.
Qed.

(** ** Table DMA commands *)
(** The size of a table a command names, by the driver's own numbers. *)
Definition extent c l (t : ipa_table_dma_type) : Z :=
  let '(m, ty) := table_extent c l t in u32 (hal_size ty * m).

Definition is_ct (t : ipa_table_dma_type) : bool :=
  match t with IPA_IPV6CT_BASE_TBL | IPA_IPV6CT_EXPN_TBL => true | _ => false end.

Lemma wp_calculate_size nmi l b (Q : Z -> kctx * K -> Prop) c k :
  zget (n_mem_loc (nat_mem c)) nmi = Some l ->
  (forall t, table_of_base_addr b = Some t -> is_ct t = true -> v4) ->
  Q (match table_of_base_addr b with Some t => extent c l t | None => 0 end) (c, k) ->
  wp (ipa3_nat_ipv6ct_calculate_table_size nmi b) Q (c, k).
Proof.
  intros Hl Hv HQ. unfold ipa3_nat_ipv6ct_calculate_table_size.
  destruct (table_of_base_addr b) as [t|]; [|by apply wp_ret].
  apply wp_bind, wp_kget. apply wp_bind. eapply wp_get_loc; [done|].
  unfold extent in HQ. destruct t; cbn [table_extent] in *; apply wp_bind, wp_entry_size; try done; by eapply Hv.
Qed.

(** An accepted command is inside the table. *)
Definition dma_accepted c l (d : k_dma_one) : Prop := exists t,
  table_of_base_addr (k_base_addr d) = Some t /\ k_table_index d < 1 /\ k_offset d < extent c l t /\
  (if is_ct t then d_is_hw_init (ipv6ct_mem c) = true else d_is_hw_init (n_dev (nat_mem c)) = true).

Lemma wp_validate_one nmi l d (Q : Z -> kctx * K -> Prop) c k :
  zget (n_mem_loc (nat_mem c)) nmi = Some l ->
  (forall r, (r = 0 -> dma_accepted c l d) -> Q r (c, k)) ->
  wp (ipa3_table_validate_table_dma_one nmi d) Q (c, k).
Proof.
  intros Hl HQ. unfold ipa3_table_validate_table_dma_one.
  apply wp_if; intros Hi; [by apply wp_ret, HQ|]. apply wp_bind, wp_kget. cbn zeta.
  apply wp_if; intros Hr; [by apply wp_ret, HQ|].
  apply wp_bind, wp_calculate_size with (l := l); [done|..].
  { intros t Ht Hc. rewrite Ht in Hr. unfold v4. destruct t; try done; zify_bool; lia. }
  destruct (table_of_base_addr (k_base_addr d)) as [t|] eqn:Et; [|done].
  apply wp_if; intros Hz; [by apply wp_ret, HQ|]. apply wp_if; intros Ho; [by apply wp_ret, HQ|].
  apply wp_ret, HQ. intros _. exists t. rewrite Z.geb_leb in *. zify_bool.
  split_and!; [done|lia|lia|]. destruct t; cbn; zify_bool; done.
Qed.

Lemma wp_validate_all nmi l ds (Q : Z -> kctx * K -> Prop) c k :
  zget (n_mem_loc (nat_mem c)) nmi = Some l ->
  (forall r, (r = 0 -> Forall (dma_accepted c l) ds) -> Q r (c, k)) -> wp (validate_all nmi ds) Q (c, k).
Proof.
  intros Hl. induction ds as [|d ds IH]; intros HQ; cbn [validate_all]; [by apply wp_ret, HQ|].
  apply wp_bind. eapply wp_validate_one; [done|]. intros r Hr. apply wp_if; intros E; zify_bool.
  - apply wp_ret, HQ. intros; lia.
  - apply IH. intros r' Hr'. apply HQ. intros E'. constructor; auto.
Qed.

Lemma wp_add_dma_cmds room ds : forall (py : list ipahal_imm_cmd_pyld) (Q : _ -> kctx * K -> Prop) c k,
  (length py + length ds <= room)%nat -> (forall r k', Q r (c, k')) -> wp (add_dma_cmds room ds py) Q (c, k).
Proof.
  induction ds as [|d ds IH]; intros py Q c k Hr HQ; cbn [add_dma_cmds]; [by apply wp_ret|].
  cbn [length] in Hr. apply wp_bind, wp_add_cmd; [lia|done| | |].
  - case_match; [|done]. unfold v4. rewrite Z.geb_leb in *. by zify_bool.
  - by case_match.
  - intros r l' k' H. apply wp_and_then; cbn; [|auto]. intros ->. apply IH; [|done].
    rewrite decide_True in H by done. lia.
Qed.

(** The memory a command of the client is checked against. *)
Definition dma_nmi c (mem_type : Z) : Z := if sram_compatible c then mem_type else 0.

Lemma wp_table_dma mem_type dma (Q : Z -> kctx * K -> Prop) c k : kern_ok c ->
  (forall r k', (r = 0 -> exists l, zget (n_mem_loc (nat_mem c)) (dma_nmi c mem_type) = Some l /\
     (1 <= length dma <= 4)%nat /\ Forall (dma_accepted c l) dma) -> Q r (c, k')) ->
  wp (ipa3_table_dma_cmd mem_type dma) Q (c, k).
Proof.
  intros Hok HQ. unfold ipa3_table_dma_cmd. apply wp_bind, wp_kget. cbn zeta. fold (dma_nmi c mem_type).
  apply wp_if; intros Hi; [by apply wp_ret, HQ|]. apply wp_if; intros Hn; [by apply wp_ret, HQ|].
  apply wp_if; intros He; [by apply wp_ret, HQ|]. zify_bool. apply nmi_valid in Hn.
  destruct (loc_exists _ _ (no_len _ (proj1 Hok)) Hn) as [l Hl].
  apply wp_bind, wp_validate_all with (l := l); [done|]. intros r Hr.
  apply wp_if; intros E; zify_bool; [apply wp_ret, HQ; intros; lia|]. specialize (Hr E).
  assert (Hroom : (coal_cmds + 1 + length dma <= IPA_MAX_NUM_OF_TABLE_DMA_CMD_DESC)%nat /\ (1 <= length dma <= 4)%nat).
  { unfold coal_cmds, max_dma_table_cmds, IPA_MAX_NUM_OF_TABLE_DMA_CMD_DESC in *. rewrite Z.gtb_ltb in *.
    zify_bool. destruct (wan_coal_ep =? -1), ulso_wa; cbn [negb andb] in *; lia. }
  destruct Hroom as [Hroom Hlen].
  assert (HQ' : forall r k', Q r (c, k')) by (intros; apply HQ; eauto). clear HQ Hr.
  pose proof coal_cmds_le.
  apply wp_prefix; [unfold IPA_MAX_NUM_OF_TABLE_DMA_CMD_DESC; lia|..].
  - intros l' k' Hl'. apply wp_bind, wp_and_then; [|done]. intros _. cbn [snd].
    apply wp_add_dma_cmds; [lia|]. intros. apply wp_send_and_destroy; auto.
  - intros r' k' Hne. apply wp_bind, wp_and_then; [done|]. intros _. apply wp_send_and_destroy; auto.
Qed.

(** ** Deletion *)
(** Only the locations and the flags of the memories in use differ. *)
Definition same_but_locs c c' : Prop :=
  ipv6ct_mem c' = ipv6ct_mem c /\ n_dev (nat_mem c') = n_dev (nat_mem c) /\
  n_last_alloc_loc (nat_mem c') = n_last_alloc_loc (nat_mem c) /\
  n_active_table (nat_mem c') = n_active_table (nat_mem c) /\
  n_pdn_mem (nat_mem c') = n_pdn_mem (nat_mem c) /\ length (n_mem_loc (nat_mem c')) = 2%nat.

Lemma wp_free_ddr (Q : unit -> kctx * K -> Prop) c k : length (n_mem_loc (nat_mem c)) = 2%nat ->
  (forall c' k', same_but_locs c c' -> n_ddr_in_use (nat_mem c') = false ->
     n_sram_in_use (nat_mem c') = n_sram_in_use (nat_mem c) -> Q tt (c', k')) -> wp free_ddr Q (c, k).
Proof.
  intros Hlen HQ. unfold free_ddr. wp_go; [|by apply HQ].
  destruct (loc_exists (nat_mem c) IPA_NAT_MEM_IN_DDR) as [l Hl]; [done|by left|].
  eapply wp_get_loc; [exact Hl|].
  wp_go; (apply HQ; [unfold same_but_locs; split_and!; try done; exact (eq_trans (zset_length _ _ _) Hlen)|done..]).
Qed.

Lemma wp_free_sram (Q : unit -> kctx * K -> Prop) c k : length (n_mem_loc (nat_mem c)) = 2%nat ->
  (forall c' k', same_but_locs c c' -> n_sram_in_use (nat_mem c') = false ->
     n_ddr_in_use (nat_mem c') = n_ddr_in_use (nat_mem c) -> Q tt (c', k')) -> wp free_sram Q (c, k).
Proof.
  intros Hlen HQ. unfold free_sram. wp_go; [|by apply HQ].
  destruct (loc_exists (nat_mem c) IPA_NAT_MEM_IN_SRAM) as [l Hl]; [done|by right|].
  eapply wp_get_loc; [exact Hl|].
  wp_go; (apply HQ; [unfold same_but_locs; split_and!; try done; exact (eq_trans (zset_length _ _ _) Hlen)|done..]).
Qed.

(** No memory, no table, nothing mapped. *)
Definition nat_idle n : Prop :=
  n_ddr_in_use n = false /\ n_sram_in_use n = false /\ n_mem_loc n = [loc_zero; loc_zero] /\
  d_is_hw_init (n_dev n) = false /\ d_is_mapped (n_dev n) = false.

(** The part of the invariant that does not speak of the tables. *)
Record nat_frame n : Prop := {
  nf_dev : d_is_nat_mem (n_dev n) = true /\ d_is_ipv6ct_mem (n_dev n) = false /\ d_is_dev_init (n_dev n) = true;
  nf_last : is_nmi (n_last_alloc_loc n);
  nf_active : is_nmi (n_active_table n);
  nf_len : length (n_mem_loc n) = 2%nat;
  nf_pdn : pdn_base (n_pdn_mem n) <> 0 -> v4 /\ Z.of_nat (length (pdn_tbl (n_pdn_mem n))) = max_pdn }.

Lemma nat_ok_frame n : nat_ok n -> nat_frame n.
Proof. intros []. by split. Qed.

Lemma nat_ok_idle n : nat_frame n -> n_mem_loc n = [loc_zero; loc_zero] ->
  d_is_hw_init (n_dev n) = false -> nat_ok n.
Proof.
  intros [] Hl Hhw. split; try done; [|by rewrite Hhw].
  rewrite Hl. intros nmi l Hz. assert (l = loc_zero) as ->; [|by apply loc_ok_idle].
  unfold zget in Hz. case_match; [|done]. by destruct (Z.to_nat nmi) as [|[|]]; simplify_eq/=.
Qed.

Lemma wp_free_nat (Q : unit -> kctx * K -> Prop) c k : nat_frame (nat_mem c) -> ct_ok (ipv6ct_mem c) ->
  (forall c' k', kern_ok c' -> nat_idle (nat_mem c') -> n_pdn_mem (nat_mem c') = n_pdn_mem (nat_mem c) ->
     ipv6ct_mem c' = ipv6ct_mem c -> Q tt (c', k')) ->
  wp (ipa3_nat_ipv6ct_free_mem NatDev) Q (c, k).
Proof.
  intros Hn Hc HQ. unfold ipa3_nat_ipv6ct_free_mem.
  destruct (nf_dev _ Hn) as (Hd1 & Hd2 & Hd3).
  apply wp_bind, wp_kget. cbn [dev_of]. cbn zeta. rewrite Hd1, Hd2.
  apply wp_bind, wp_free_ddr; [apply Hn|]. intros c1 k1 (Hk1 & Hk2 & Hk3 & Hk4 & Hk5 & Hk6) Hf _.
  apply wp_bind, wp_free_sram; [done|]. intros c2 k2 (Hj1 & Hj2 & Hj3 & Hj4 & Hj5 & Hj6) Hs Hf'.
  rewrite Hf in Hf'. rewrite Hk1 in Hj1. rewrite Hk2 in Hj2. rewrite Hk3 in Hj3. rewrite Hk4 in Hj4. rewrite Hk5 in Hj5.
  assert (Hz : map (fun _ => loc_zero) (n_mem_loc (nat_mem c2)) = [loc_zero; loc_zero]).
  { destruct (n_mem_loc (nat_mem c2)) as [|? [|? [|? ?]]]; done. }
  wp_go. apply HQ; [|unfold nat_idle; cbn; by rewrite Hz|done..].
  split; [|by rewrite <- Hj1 in Hc]. apply nat_ok_idle; [|done..].
  split; cbn; rewrite ?Hj2, ?Hj3, ?Hj4, ?Hj5, ?Hz; try done; apply Hn.
Qed.

Lemma wp_del_nat_done nmi (Q : Z -> kctx * K -> Prop) c k : kern_ok c -> is_nmi nmi ->
  (forall c' k', kern_ok c' -> nat_idle (nat_mem c') -> (v4 -> pdn_base (n_pdn_mem (nat_mem c')) = 0) ->
     ipv6ct_mem c' = ipv6ct_mem c -> Q 0 (c', k')) ->
  wp (del_nat_done nmi) Q (c, k).
Proof.
  intros [Hn Hc] Hnmi HQ. unfold del_nat_done. apply wp_bind, wp_kmod_nat.
  destruct (loc_exists _ nmi (no_len _ Hn) Hnmi) as [l Hl]. apply wp_bind. eapply wp_get_loc; [exact Hl|].
  apply wp_bind, wp_put_loc. set (c1 := set_loc _ _ _).
  assert (Hf1 : nat_frame (nat_mem c1)).
  { destruct (nat_ok_frame _ Hn). split; try done. cbn. by rewrite zset_length. }
  assert (Hfree : forall c' k', nat_frame (nat_mem c') -> (v4 -> pdn_base (n_pdn_mem (nat_mem c')) = 0) ->
    ipv6ct_mem c' = ipv6ct_mem c -> wp (_ ← ipa3_nat_ipv6ct_free_mem NatDev; mret 0) Q (c', k')).
  { intros c' k' Hf Hp Hc'. apply wp_bind, wp_free_nat; [done|by rewrite Hc'|].
    intros c'' k'' ? ? Hp' Hc''. apply wp_ret, HQ; try done; [intros; rewrite Hp'; auto|by rewrite Hc'']. }
  apply wp_bind, wp_kget. cbn zeta. apply wp_bind, wp_if; intros Hp.
  - apply wp_bind, wp_ksys. intros. apply wp_kmod_nat. apply Hfree; try done. destruct Hf1. by split.
  - apply wp_ret, Hfree; try done. intros Hv. unfold v4 in Hv. rewrite Z.geb_leb in Hp.
    rewrite (proj2 (Z.leb_le _ _)) in Hp by done. cbn [andb] in Hp. by zify_bool.
Qed.

Lemma wp_send_del_nat i (Q : Z -> kctx * K -> Prop) c k :
  (forall r c' k', same_but_pdn c c' -> Q r (c', k')) -> wp (ipa3_nat_send_del_table_cmd i) Q (c, k).
Proof.
  intros HQ. unfold ipa3_nat_send_del_table_cmd. apply wp_bind, wp_kget.
  destruct (ipa3_nat_ipv6ct_create_del_table_cmd _ _ _) as [r t].
  apply wp_if; intros _; [by apply wp_ret, HQ, same_but_pdn_refl|apply wp_nat_send_init; auto].
Qed.

(** The deletion: an error leaves the tables, otherwise no memory of either type is left. *)
Lemma wp_del_nat i mem_type (Q : Z -> kctx * K -> Prop) c k : kern_ok c ->
  (forall r c' k', kern_ok c' -> (r <> 0 -> same_but_pdn c c') -> (r = 0 -> nat_idle (nat_mem c')) ->
     (r = 0 -> v4 -> pdn_base (n_pdn_mem (nat_mem c')) = 0) -> Q r (c', k')) ->
  wp (ipa3_del_nat_table i mem_type) Q (c, k).
Proof.
  intros Hok HQ. assert (HQ' : forall r c' k', r <> 0 -> same_but_pdn c c' -> Q r (c', k')).
  { intros r c' k' ? Hs. apply HQ; [by eapply kern_ok_pdn|done..]. }
  pose proof (same_but_pdn_refl c) as Hrefl.
  unfold ipa3_del_nat_table. apply wp_bind, wp_kget. cbn zeta.
  apply wp_if; intros _; [by apply wp_ret, HQ'|]. apply wp_if; intros _; [by apply wp_ret, HQ'|].
  apply wp_if; intros Hn; [by apply wp_ret, HQ'|]. zify_bool. apply nmi_valid in Hn.
  assert (Hdone : forall r c' k', same_but_pdn c c' ->
    wp (if negb (r =? 0) then mret r else del_nat_done (if sram_compatible c then mem_type else 0)) Q (c', k')).
  { intros r c' k' Hs. pose proof (kern_ok_pdn _ _ Hok Hs) as Hok'.
    apply wp_if; intros E; zify_bool; [by apply wp_ret, HQ'|]. apply wp_del_nat_done; auto.
    intros c'' k'' ? ? ? _. by apply HQ. }
  apply wp_bind, wp_if; intros _; [apply wp_send_del_nat; auto|].
  apply wp_ret, Hdone, same_but_pdn_refl.
Qed.

Lemma del_ct_ok i c k : kern_ok c -> wp (ipa3_del_ipv6ct_table i) okQ (c, k).
Proof.
  intros Hok. unfold ipa3_del_ipv6ct_table. apply wp_bind, wp_kget. cbn zeta.
  apply wp_if; intros Hi; [by apply wp_ret|]. apply wp_if; intros Hv; [by apply wp_ret|]. zify_bool.
  assert (Hdone : forall r k', wp (if negb (r =? 0) then mret r
    else _ ← ipa3_nat_ipv6ct_free_mem CtDev; mret 0) okQ (c, k')).
  { intros r k'. apply wp_if; intros _; [by apply wp_ret|]. apply wp_bind.
    unfold ipa3_nat_ipv6ct_free_mem. apply wp_bind, wp_kget. cbn [dev_of]. cbn zeta.
    destruct (proj2 Hok) as (_ & <- & Hvi). rewrite (proj2 Hvi) by (unfold v4; lia).
    unfold free_ct. wp_go; (apply (kern_ok_ct (set_dev c CtDev _)); [by apply (kern_ok_ct c)|done..]). }
  apply wp_bind, wp_if; intros _; [|by apply wp_ret].
  unfold ipa3_ipv6ct_send_del_table_cmd. apply wp_bind, wp_kget.
  destruct (ipa3_nat_ipv6ct_create_del_table_cmd _ _ _) as [r t].
  apply wp_if; intros _; [by apply wp_ret|]. apply wp_ct_send_init; [unfold v4; lia|]. auto.
Qed.

Lemma sram_info_ok (Q : _ -> kctx * K -> Prop) c k : kern_ok c ->
  (forall r c', kern_ok c' -> Q r (c', k)) -> wp ipa3_nat_get_sram_info Q (c, k).
Proof. intros Hok HQ. unfold ipa3_nat_get_sram_info. wp_go; by apply HQ. Qed.

(** ** The start of the driver *)
Lemma wp_init_device w name size ofst tmp (Q : Z -> kctx * K -> Prop) c k :
  (forall r c' k', r <> 0 -> Q r (c', k')) ->
  (forall k', let c1 := set_dev c w (dev_set_name (dev_of c w) w name) in
     Q 0 (set_dev c1 w (dev_set_init (dev_of c1 w) true tmp size ofst), k')) ->
  wp (ipa3_nat_ipv6ct_init_device w name size ofst tmp) Q (c, k).
Proof.
  intros HQ H0. unfold ipa3_nat_ipv6ct_init_device. wp_go; zify_bool; try (by apply HQ). apply H0.
Qed.

Lemma wp_init_failed t (Q : Z -> kctx * K -> Prop) c k : (forall r c' k', r <> 0 -> Q r (c', k')) ->
  wp (init_devices_failed t) Q (c, k).
Proof. intros HQ. unfold init_devices_failed, free_tmp. wp_go; by apply HQ. Qed.

Lemma init_devices_ok k :
  wp ipa3_nat_ipv6ct_init_devices (fun r s => r = 0 -> kern_ok (fst s) /\ nat_idle (nat_mem (fst s))) (kctx0, k).
Proof.
  unfold ipa3_nat_ipv6ct_init_devices.
  assert (Hne : forall r (c' : kctx) (k' : K), r <> 0 -> r = 0 -> kern_ok (fst (c', k')) /\ nat_idle (nat_mem (fst (c', k'))))
    by done.
  eapply wp_use with (P := fun _ s => fst s = kctx0).
  { unfold ipa3_nat_ipv6ct_allocate_tmp_memory. wp_go; [done|]. destruct a0 as [[]|]; wp_go; done. }
  intros [t|] [c1 k1]; cbn [fst]; intros ->; [|by apply wp_ret]. apply wp_bind, wp_kmod_nat.
  apply wp_bind, wp_init_device.
  { intros r c' k' Hr. apply wp_if; intros E; zify_bool; [|done]. by apply wp_init_failed. }
  intros k2. cbn zeta. apply wp_if; [done|]. intros _.
  apply wp_if; intros Hv; rewrite Z.geb_leb in Hv; zify_bool.
  - apply wp_bind, wp_init_device.
    { intros r c' k' Hr. apply wp_if; intros E; zify_bool; [|done].
      apply wp_bind. unfold ipa3_nat_ipv6ct_destroy_device, free_tmp.
      apply wp_bind, wp_kget. apply wp_bind.
      repeat case_match; wp_go; by apply wp_init_failed. }
    intros k3. cbn zeta. apply wp_if; [done|]. intros _. apply wp_ret. intros _. split; [|done].
    split; [|done]. apply nat_ok_idle; [|done..]. split; try done; by left.
  - apply wp_ret. intros _. split; [|done]. split.
    + apply nat_ok_idle; [|done..]. split; try done; by left.
    + split_and!; try done. unfold v4. cbn. split; [done|lia].
Qed.

(** ** All calls *)
Lemma or_efault_ok (m : St (kctx * K) Z) (Q : Z -> kctx * K -> Prop) s :
  wp m (fun r s' => Q (if negb (r =? 0) then - EFAULT else 0) s') s -> wp (or_efault m) Q s.
Proof. intros H. unfold or_efault. by apply wp_bind. Qed.

Lemma wp_from_user (m : St (kctx * K) Z) (Q : Z -> kctx * K -> Prop) c k :
  (forall r k', r <> 0 -> Q r (c, k')) -> (forall k', wp m Q (c, k')) -> wp (from_user m) Q (c, k).
Proof. intros H1 H2. unfold from_user. wp_go; [by apply H1|by apply H2]. Qed.

Lemma wp_to_user (Q : Z -> kctx * K -> Prop) c k : (forall r k', Q r (c, k')) -> wp to_user Q (c, k).
Proof. intros HQ. unfold to_user. wp_go; apply HQ. Qed.

Lemma alloc_table_ok m off c k : (forall k', wp m okQ (c, k')) -> wp (ioctl_alloc_table m off) okQ (c, k).
Proof.
  intros Hm. unfold ioctl_alloc_table. eapply wp_use; [apply Hm|]. intros r [c' k'] Hok.
  wp_go; [done| |done]. by apply wp_to_user.
Qed.

Lemma compat_alloc_ok m off c k : kern_ok c -> (forall k', wp m okQ (c, k')) ->
  wp (compat_ipa3_nat_ipv6ct_alloc_table m off) okQ (c, k).
Proof.
  intros Hok Hm. unfold compat_ipa3_nat_ipv6ct_alloc_table. apply wp_bind, wp_ksys. intros r k1 _.
  apply wp_if; intros _; [by apply wp_ret|]. eapply wp_use; [apply Hm|]. intros r' [c' k'] Hok'. by wp_go.
Qed.

Lemma ioctl_ok x c k : kern_ok c -> ioctl_typed x -> wp (ipa3_ioctl x) okQ (c, k).
Proof.
  intros Hok Ht.
  assert (Hfu : forall m, (forall k', wp m okQ (c, k')) -> wp (from_user m) okQ (c, k))
    by (intros; by apply wp_from_user).
  destruct x; cbn in Ht; cbn [ipa3_ioctl].
  - apply Hfu. intros k'. eapply wp_use; [by apply allocate_nat_table_ok|]. intros r [c1 k1] Hok1.
    wp_go; [done|]. by apply wp_to_user.
  - apply Hfu. intros k'. apply alloc_table_ok. intros. by apply allocate_nat_table_ok.
  - apply Hfu. intros k'. apply alloc_table_ok. intros. by apply allocate_ct_table_ok.
  - apply Hfu. intros k'. apply or_efault_ok. by apply nat_init_ok.
  - apply Hfu. intros k'. apply or_efault_ok. by apply ct_init_ok.
  - apply Hfu. intros k'. unfold ioctl_table_dma. wp_go; try done.
    apply or_efault_ok, wp_table_dma; [done|]. intros. wp_go. done.
  - apply Hfu. intros k'. apply or_efault_ok. unfold ipa3_nat_del_cmd. wp_go. by apply wp_del_nat.
  - apply Hfu. intros k'. apply or_efault_ok. by apply wp_del_nat.
  - apply Hfu. intros k'. apply or_efault_ok. by apply del_ct_ok.
  - apply Hfu. intros k'. apply or_efault_ok. apply mdfy_pdn_ok; [done|]. apply Ht.
  - unfold proc_sram_info_rqst. apply wp_bind, wp_bind, sram_info_ok; [done|]. intros [r i] c' Hok'. cbn beta iota.
    wp_go; [done|]. apply wp_to_user. intros. by wp_go.
Qed.

(** Every call is defined, ends and keeps the invariant. *)
Lemma kcall_ok x c k : kern_ok c -> kcall_typed x -> wp (kcall_run x) okQ (c, k).
Proof.
  intros Hok Ht. destruct x as [w vsize|x|x]; cbn [kcall_run]; [by apply mmap_ok|by apply ioctl_ok|].
  destruct x; cbn [compat_ipa3_ioctl]; try by apply ioctl_ok.
  - apply wp_bind, wp_ksys. intros r k1 _. apply wp_if; intros _; [by apply wp_ret|].
    eapply wp_use; [by apply allocate_nat_table_ok|]. intros r' [c' k'] Hok'. by wp_go.
  - apply compat_alloc_ok; [done|]. intros. by apply allocate_nat_table_ok.
  - apply compat_alloc_ok; [done|]. intros. by apply allocate_ct_table_ok.
Qed.

Lemma kreachable_ok s : kreachable s -> kern_ok (fst s).
Proof.
  induction 1 as [k s E|s x r s' Hr IH Ht E].
  - by apply (wp_result _ _ _ _ _ (init_devices_ok k) E).
  - destruct s as [c k]. by apply (wp_result _ _ _ _ _ (kcall_ok x c k IH Ht) E).
Qed.
End safe.
