(* ===== verification/KernOs.v ===== *)
(** * The kernel driver under the library

    The classes [OsOps], [NatOs] and [CtOs] are what the user-space library asks of the
    system.  Here the kernel's NAT driver implements them: each ioctl is the case of
    [ipa3_ioctl], a mapping calls [ipa3_nat_ipv6ct_mmap], and the rest of the system
    (files, threads, time, addresses of mappings) is another instance below it.  The
    hardware has carried out a table DMA command exactly when the driver accepted it and
    [ipa3_send_cmd] returned 0.  The library's laws hold of the result, so that its
    theorems hold on top of the kernel driver. *)

From Stdlib Require Import ZArith Lia Ascii String.
From stdpp Require Import prelude list numbers strings.
From S2P Require Import Prelude StWp Bitfield IpaTable IpaTableRep Dma TableDma Os MemDescriptor NatRule NatDrvi Ipv6ct.
From S2P Require Import KernHal KernCmd KernNat KernIoctl KernHalLaws KernInv KernSafe.

Local Open Scope Z_scope.

(** The device that a file descriptor is open on, and the offset an allocation leaves. *)
Class DevFiles (K : Type) := { fd_dev : Z -> K -> kdev }.

Definition table_code (t : ipa_table_dma_type) : Z :=
  match t with
  | IPA_NAT_BASE_TBL => 0 | IPA_NAT_EXPN_TBL => 1 | IPA_NAT_INDX_TBL => 2
  | IPA_NAT_INDEX_EXPN_TBL => 3 | IPA_IPV6CT_BASE_TBL => 4 | IPA_IPV6CT_EXPN_TBL => 5
  end.

(** The library's command as the kernel reads it. *)
Definition k_dma_of (d : ipa_ioc_nat_dma_one) : k_dma_one :=
  mk_k_dma (dma_table_index d) (table_code (dma_base_addr d)) (dma_offset d) (dma_data d).
Definition posted (cmd : ipa_ioc_nat_dma_cmd) : list ipa_ioc_nat_dma_one :=
  take (Z.to_nat (cmd_entries cmd)) (cmd_dma cmd).

Section over_kernel.
Context {K : Type} `{KO : KernelOps K} `{KC : KernConf} `{U : IpaUapi} `{HW : IpaHw}.
Context `{Base : OsOps K} `{BaseNat : NatOs K} `{BaseCt : CtOs K} `{DF : DevFiles K}.

#[local] Notation S := (kctx * K)%type.

(** A call of the driver; [ioctl] returns -1 for every error. *)
Definition kcall_int (m : St S Z) (s : S) : Z * S :=
  match m s with Ok (r, s') => (if r <? 0 then -1 else r, s') | _ => (-1, s) end.

Definition below {A} (f : K -> A * K) (s : S) : A * S :=
  let '(a, k) := f (snd s) in (a, (fst s, k)).

Definition kern_mmap (size fd : Z) (s : S) : option Z * S :=
  let '(addr, s) := below (os_mmap size fd) s in
  match addr with
  | None => (None, s)
  | Some a =>
      let '(r, s) := kcall_int (ipa3_nat_ipv6ct_mmap (fd_dev fd (snd s)) size) s in
      (if r =? 0 then Some a else None, s)
  end.

Definition kern_sram_info (s : S) : Z * ipa_nat_in_sram_info * S :=
  match proc_sram_info_rqst s with
  | Ok ((r, info), s') => (if r <? 0 then -1 else r, if r =? 0 then info else sram_info_zero, s')
  | _ => (-1, sram_info_zero, s)
  end.

Definition kern_alloc (n : table_ioctl) (size : Z) (s : S) : Z * Z * S :=
  match n with
  | IPA_IOC_ALLOC_NAT_TABLE => let '(r, s) := kcall_int (ipa3_ioctl (IocAllocNatTable size 0)) s in (r, 0, s)
  | IPA_IOC_ALLOC_IPV6CT_TABLE =>
      let '(r, s) := kcall_int (ipa3_ioctl (IocAllocIpv6ctTable size 0)) s in (r, 0, s)
  | _ => (-1, 0, s)
  end.

Definition kern_del (n : table_ioctl) (idx mem_type : Z) (s : S) : Z * S :=
  match n with
  | IPA_IOC_DEL_NAT_TABLE => kcall_int (ipa3_ioctl (IocDelNatTable idx mem_type)) s
  | IPA_IOC_DEL_IPV6CT_TABLE => kcall_int (ipa3_ioctl (IocDelIpv6ctTable idx)) s
  | _ => (-1, s)
  end.

Definition kern_dma (cmd : ipa_ioc_nat_dma_cmd) : S -> Z * S :=
  let ds := map k_dma_of (posted cmd) in
  let n := Z.of_nat (length ds) in
  kcall_int (ipa3_ioctl (IocTableDmaCmd n n (cmd_mem_type cmd) ds)).

Definition kern_os : OsOps S := {|
  pthread_mutex_lock m := below (pthread_mutex_lock m);
  pthread_mutex_unlock m := below (pthread_mutex_unlock m);
  pthread_mutexattr_init := below pthread_mutexattr_init;
  pthread_mutexattr_settype := below pthread_mutexattr_settype;
  pthread_mutex_init m := below (pthread_mutex_init m);
  os_calloc := below os_calloc;
  os_open p := below (os_open p);
  os_close fd := below (os_close fd);
  os_mmap := kern_mmap;
  os_munmap a n s := (fst s, os_munmap a n (snd s));
  clock_gettime := below clock_gettime;
  ioctl_get_hw_version _ s := (0, ipa_hw_type, s);
  ioctl_get_nat_in_sram_info _ := kern_sram_info;
  ioctl_table_alloc _ := kern_alloc;
  ioctl_table_del _ := kern_del |}.

Definition kern_nat_os : NatOs S := {|
  ioctl_v4_init_nat _ init := kcall_int (ipa3_ioctl (IocV4InitNat init));
  ioctl_nat_modify_pdn _ e := kcall_int (ipa3_ioctl (IocNatModifyPdn e));
  ioctl_app_clock_vote fd v := below (ioctl_app_clock_vote fd v);
  ioctl_table_dma_cmd _ cmd t x s :=
    let '(r, s) := kern_dma cmd s in
    (r, if r =? 0
        then (tbl_mem (dma_run IPA_NAT_BASE_TBL IPA_NAT_EXPN_TBL t (posted cmd)),
              tbl_mem (dma_run IPA_NAT_INDX_TBL IPA_NAT_INDEX_EXPN_TBL x (posted cmd)))
        else (tbl_mem t, tbl_mem x), s);
  mapped_rules a n s := mapped_rules a n (snd s);
  mapped_indx a n s := mapped_indx a n (snd s) |}.

Definition kern_ct_os : CtOs S := {|
  uc_activation_entry := uc_activation_entry;
  ioctl_init_ipv6ct _ init := kcall_int (ipa3_ioctl (IocInitIpv6ctTable init));
  ioctl_ct_dma_cmd _ cmd t s :=
    let '(r, s) := kern_dma cmd s in
    (r, if r =? 0 then tbl_mem (dma_run IPA_IPV6CT_BASE_TBL IPA_IPV6CT_EXPN_TBL t (posted cmd))
        else tbl_mem t, s);
  ioctl_add_uc_act_entry fd u := below (ioctl_add_uc_act_entry fd u);
  ioctl_del_uc_act_entry fd i := below (ioctl_del_uc_act_entry fd i);
  mapped_ct a n s := mapped_ct a n (snd s) |}.
End over_kernel.

(** ** The library's laws *)
Section laws.
Context {K : Type} `{KO : KernelOps K} `{KC : KernConf} `{U : IpaUapi} `{HW : IpaHw}.
Context `{Base : OsOps K} `{BaseNat : NatOs K} `{BaseCt : CtOs K} `{DF : DevFiles K}.

Lemma sram_offset_nonneg (s : kctx * K) :
  wp proc_sram_info_rqst (fun ri _ => 0 <= nat_table_offset_into_mmap (snd ri)) s.
Proof.
  destruct s as [c k]. unfold proc_sram_info_rqst, ipa3_nat_get_sram_info, to_user.
  wp_go; cbn; try done; apply wrap_range; lia.
Qed.

Lemma kern_os_laws `{!OsLaws} : OsLaws (Os := kern_os).
Proof.
  split; cbn.
  - intros size fd [c k] a k'. unfold kern_mmap, below. cbn.
    destruct (os_mmap size fd k) as [[a'|] k1] eqn:E; [|by intros [=]].
    destruct (kcall_int _ _) as [r s]. intros [= Ha _]. case_match; [|done]. injection Ha as <-.
    by eapply law_mmap_addr.
  - intros fd s r info s'. unfold kern_sram_info. destruct (proc_sram_info_rqst s) as [[[r1 i1] s1]| |] eqn:E.
    2,3: by intros [= <- <- <-]; cbn.
    intros [= <- <- <-]. case_match; [|done].
    exact (wp_result _ _ _ _ _ (sram_offset_nonneg s) E).
  - intros fd n size s off s'. unfold kern_alloc. destruct n; try (by intros [=]);
      destruct (kcall_int _ _); by intros [= <- <- <-].
Qed.

Lemma kern_nat_os_laws `{!NatOsLaws} : NatOsLaws (Os := kern_os) (NOs := kern_nat_os).
Proof.
  split; cbn.
  - by apply kern_os_laws.
  - intros. apply law_mapped_rules.
  - intros. apply law_mapped_indx.
  - intros fd cmd t x s r mems s'. destruct (kern_dma cmd s) as [r1 s1]. by intros [= <- <- <-].
Qed.

Lemma kern_ct_os_laws `{!CtOsLaws} : CtOsLaws (Os := kern_os) (COs := kern_ct_os).
Proof.
  split; cbn.
  - by apply kern_os_laws.
  - intros. apply law_mapped_ct.
  - intros fd cmd t s r m s'. destruct (kern_dma cmd s) as [r1 s1]. by intros [= <- <- <-].
Qed.
End laws.
