(* ===== verification/KernWork.v ===== *)
(** * The kernel's NAT driver when its surroundings work

    What each operation then does and refuses, and the way from any state to a working
    table. *)

From Stdlib Require Import ZArith Lia Ascii String.
From stdpp Require Import prelude list numbers strings.
From S2P Require Import Prelude Bitfield IpaTable IpaTableRep Dma Os MemDescriptor Ipv6ct NatRule NatDrvi StWp KernHal KernCmd KernNat.
From S2P Require Import KernIoctl KernHalLaws KernInv KernSafe KernOs.

Local Open Scope Z_scope.

(** * The kernel's NAT driver when its surroundings work

    [KernWorks]: hardware of version 4.0 or later, memory can be had, copies and commands
    succeed.  Then the driver's refusals are its own: what it refuses, and what it does
    otherwise, is stated operation by operation. *)

Class KernWorks (K : Type) `{KO : KernelOps K} `{KC : KernConf} `{U : IpaUapi} `{HW : IpaHw} : Prop := {
  kw_version : IPA_HW_v4_0 <= ipa_hw_type;
  kw_kzalloc : forall k, fst (kzalloc k) = true;
  kw_copy_from : forall k, fst (copy_from_user k) = 0;
  kw_copy_to : forall k, fst (copy_to_user k) = 0;
  kw_memdup : forall k, fst (memdup_user k) = 0;
  kw_dma_alloc : forall size k, 0 < size <= 2 ^ 20 -> exists va h k',
    dma_alloc_coherent size k = (Some (va, h), k') /\ 0 <= h /\ h + size < 2 ^ 32;
  kw_dma_mmap : forall n va h size k, fst (dma_mmap_coherent n va h size k) = 0;
  (** registers and the table of public addresses are in the first 64 KB *)
  kw_coal : above_16bit (fst (fst (aggr_force_close wan_coal_ep))) = false;
  kw_pdn : above_16bit (u32 (16 * (pdn_config_size / 16))) = false;
  kw_pdn_ofst : above_16bit (u32 (smem_restricted_bytes + pdn_config_ofst)) = false }.

(** The commands are carried out. *)
Class KernSends (K : Type) `{KO : KernelOps K} : Prop := {
  kw_send : forall l k, fst (ipa3_send_cmd l k) = 0 }.

(** ** What the hardware reads *)
Definition hw_table_dma (p : ipahal_imm_cmd_pyld) : option ipa_ioc_nat_dma_one :=
  if pyld_opcode p =? 14 then
    let f := unpack ipa_imm_cmd_hw_table_dma_ipav4 (pyld_data p) in
    t ← table_of_base_addr (nth 2 f 0); Some (mk_dma_one (nth 0 f 0) t (nth 4 f 0) (nth 5 f 0))
  else None.

(** The fields of the command that initialises NAT, in the order of the structure. *)
Definition hw_nat_init (p : ipahal_imm_cmd_pyld) : option (list Z) :=
  if pyld_opcode p =? 5 then Some (unpack ipa_imm_cmd_hw_ip_v4_nat_init (pyld_data p)) else None.

Definition nat_init_fields (p : ipahal_imm_cmd_ip_v4_nat_init) : list Z :=
  let t := table_init p in
  [base_table_addr t; expansion_table_addr t; index_table_addr p; index_table_expansion_addr p;
   cmd_table_index t; 0; b2z (base_table_addr_shared t); b2z (expansion_table_addr_shared t);
   b2z (index_table_addr_shared p); b2z (index_table_expansion_addr_shared p);
   size_base_table t; size_expansion_table t; 0; public_addr_info p].

(** The payload of one table DMA command. *)
Definition dma_pyld (d : k_dma_one) : ipahal_imm_cmd_pyld :=
  mk_pyld 8 14 (pack ipa_imm_cmd_hw_table_dma_ipav4
    [k_table_index d; 0; k_base_addr d; 0; k_offset d; k_data d; 0]).

(** The values a library command has in its C structure. *)
Definition lib_dma_typed (d : ipa_ioc_nat_dma_one) : Prop :=
  dma_table_index d = 0 /\ u32_range (dma_offset d) /\ u16_range (dma_data d).

Lemma table_code_of t : table_of_base_addr (table_code t) = Some t.
Proof. by destruct t. Qed.

Lemma hw_table_dma_of d : lib_dma_typed d -> hw_table_dma (dma_pyld (k_dma_of d)) = Some d.
Proof.
  intros (Hi & Ho & Hd). unfold hw_table_dma, dma_pyld. cbn [pyld_opcode pyld_data Z.eqb Pos.eqb].
  unfold u32_range, u16_range in *.
  rewrite unpack_pack; [|repeat (apply Forall2_cons; split); try apply Forall2_nil; cbn; rewrite ?Hi; try lia|unfold ipa_imm_cmd_hw_table_dma_ipav4; widths].
  - cbn [nth k_dma_of k_table_index k_base_addr k_offset k_data]. rewrite table_code_of. cbn.
    rewrite Hi. destruct d. cbn in *. by subst.
  - destruct (dma_base_addr d); cbn; lia.
Qed.

Section works.
Context {K : Type} `{KL : KernLaws K} `{KW : !KernWorks K}.
Implicit Types (c : kctx) (k : K).

(** Parameters that the hardware's fields hold. *)
Definition params_small (p : imm_params) : Prop :=
  match p with
  | RegWriteParams w => above_16bit (rw_offset w) = false
  | DmaSharedParams d => above_16bit (ds_size d) = false /\ above_16bit (ds_local_addr d) = false
  | _ => True
  end.

(** A payload is built; that of a table DMA command is [dma_pyld], that of an init
    command holds its fields. *)
Definition built (name : ipahal_imm_cmd_name) (p : imm_params) (py : ipahal_imm_cmd_pyld) : Prop :=
  match name, p with
  | IPA_IMM_CMD_TABLE_DMA, TableDmaParams d =>
      py = dma_pyld (mk_k_dma (td_table_index d) (td_base_addr d) (td_offset d) (td_data d))
  | IPA_IMM_CMD_IP_V4_NAT_INIT, NatInitParams q =>
      hw_nat_init py = Some (zip_with (fun w v => v mod 2 ^ w) ipa_imm_cmd_hw_ip_v4_nat_init (nat_init_fields q))
  | (IPA_IMM_CMD_TABLE_DMA | IPA_IMM_CMD_IP_V4_NAT_INIT), _ => False
  | _, _ => True
  end.

(** The hardware takes no other command for one of the two. *)
Definition quiet (name : ipahal_imm_cmd_name) (py : ipahal_imm_cmd_pyld) : Prop :=
  (name <> IPA_IMM_CMD_TABLE_DMA -> hw_table_dma py = None) /\
  (name <> IPA_IMM_CMD_IP_V4_NAT_INIT -> hw_nat_init py = None).

Lemma v4_geb : (ipa_hw_type >=? IPA_HW_v4_0) = true.
Proof. rewrite Z.geb_leb. apply Z.leb_le, kw_version. Qed.

Lemma construct_works name p k : cmd_args name p -> params_small p -> name <> IPA_IMM_CMD_NAT_DMA ->
  exists py k', ipahal_construct_imm_cmd hal_cmds ipa_hw_type name p k = Ok (Some py, k') /\
    built name p py /\ quiet name py.
Proof.
  intros Ha Hs Hn.
  assert (Hal : forall ws vs op, exists k', alloc_pyld ws vs op k = Ok (Some (mk_pyld (sizeof ws) op (pack ws vs)), k')).
  { intros ws vs op. unfold alloc_pyld. pose proof (kw_kzalloc k) as Hk.
    destruct (kzalloc k) as [[] k']; cbn in Hk; [by eexists|done]. }
  destruct (cmd_obj_has name) as [ob Ho]; [destruct name; try done; apply kw_version|].
  unfold ipahal_construct_imm_cmd. erewrite bind_ok by (by rewrite (hal_cmds_obj _ _ Ho)).
  unfold cmd_obj in Ho. rewrite v4_geb in Ho.
  destruct name, p; try done; cbn in Ho; injection Ho as <-; cbn [construct opcode];
    unfold ipa_imm_cmd_construct_ip_v4_nat_init, ipa_imm_cmd_construct_register_write_v_4_0,
      ipa_imm_cmd_construct_dma_shared_mem_v_4_0, ipa_imm_cmd_construct_table_dma_ipav4,
      ipa_imm_cmd_construct_ip_v6_ct_init; cbn in Hs.
  - match goal with |- context [alloc_pyld ?ws ?vs ?op] => destruct (Hal ws vs op) as [k' ->] end.
    eexists _, _. split; [done|]. split; [|by split]. cbn [built]. unfold hw_nat_init. cbn [pyld_opcode pyld_data Z.eqb Pos.eqb].
    f_equal. apply unpack_pack_mod; [done|unfold ipa_imm_cmd_hw_ip_v4_nat_init; widths].
  - rewrite Hs. match goal with |- context [alloc_pyld ?ws ?vs ?op] => destruct (Hal ws vs op) as [k' ->] end.
    eexists _, _. split_and!; try done. unfold quiet, hw_table_dma, hw_nat_init. cbn [pyld_opcode].
    by destruct (rw_skip_pipeline_clear p), (rw_pipeline_clear_options p).
  - destruct Hs as [-> ->]. match goal with |- context [alloc_pyld ?ws ?vs ?op] => destruct (Hal ws vs op) as [k' ->] end.
    eexists _, _. split_and!; try done. unfold quiet, hw_table_dma, hw_nat_init. cbn [pyld_opcode].
    by destruct (ds_skip_pipeline_clear p), (ds_pipeline_clear_options p).
  - match goal with |- context [alloc_pyld ?ws ?vs ?op] => destruct (Hal ws vs op) as [k' ->] end.
    eexists _, _. by split_and!.
  - match goal with |- context [alloc_pyld ?ws ?vs ?op] => destruct (Hal ws vs op) as [k' ->] end.
    by eexists _, _.
Qed.

Lemma wp_add_works room errno name p l Q c k : (length l < room)%nat ->
  cmd_args name p -> params_small p -> name <> IPA_IMM_CMD_NAT_DMA ->
  (forall py k', built name p py -> quiet name py -> Q (0, l ++ [py]) (c, k')) ->
  wp (add_cmd room errno name p l) Q (c, k).
Proof.
  intros Hr Ha Hs Hn HQ. unfold add_cmd. rewrite (proj2 (Nat.leb_gt _ _)) by lia.
  destruct (construct_works name p k Ha Hs Hn) as (py & k' & E & Hb & Hd).
  apply wp_bind. eapply wp_klift; [done|]. apply wp_ret. auto.
Qed.

(** The closing command and the no-operation are built; the hardware does not take them
    for table DMA commands. *)
Lemma wp_prefix_works room (g : Z * list ipahal_imm_cmd_pyld -> St (kctx * K) Z) Q c k : (2 <= room)%nat ->
  (forall l k', length l = S coal_cmds -> omap hw_table_dma l = [] -> omap hw_nat_init l = [] ->
     wp (g (0, l)) Q (c, k')) ->
  wp (r ← coal_close_cmd room; r ← and_then r (nop_cmd room); g r) Q (c, k).
Proof.
  intros Hr Hg. pose proof coal_cmds_le as Hc. pose proof kw_coal as Hcoal.
  apply wp_bind. unfold coal_close_cmd. unfold coal_cmds in *.
  destruct (negb (wan_coal_ep =? -1) && negb ulso_wa).
  - destruct (aggr_force_close wan_coal_ep) as [[off v] m]. cbn in Hcoal.
    apply wp_add_works; [cbn; lia|done..|]. intros py k1 _ [Hp1 Hp2].
    apply wp_bind, wp_and_then; [intros _|done]. apply wp_add_works; [cbn; lia|done..|].
    intros py2 k2 _ [Hq1 Hq2]. apply Hg; [done|..]; cbn; [by rewrite Hp1, Hq1 by done|by rewrite Hp2, Hq2 by done].
  - apply wp_ret. apply wp_bind, wp_and_then; [intros _|done]. apply wp_add_works; [cbn; lia|done..|].
    intros py2 k2 _ [Hq1 Hq2]. apply Hg; [done|..]; cbn; [by rewrite Hq1 by done|by rewrite Hq2 by done].
Qed.

Lemma wp_add_dma_works room ds : forall (py : list ipahal_imm_cmd_pyld) (Q : _ -> kctx * K -> Prop) c k,
  (length py + length ds <= room)%nat ->
  (forall k', Q (0, py ++ map dma_pyld ds) (c, k')) -> wp (add_dma_cmds room ds py) Q (c, k).
Proof.
  induction ds as [|d ds IH]; intros py Q c k Hr HQ; cbn [add_dma_cmds].
  - apply wp_ret. cbn in HQ. specialize (HQ k). by rewrite app_nil_r in HQ.
  - cbn [length] in Hr. rewrite v4_geb. apply wp_bind, wp_add_works; [lia|done..|].
    intros py' k' Hb _. cbn in Hb. apply wp_and_then; [intros _|done]. cbn [snd].
    apply IH; [rewrite length_app; cbn; lia|]. intros k''. rewrite <- app_assoc. cbn.
    assert (py' = dma_pyld d) as -> by (rewrite Hb; by destruct d). apply HQ.
Qed.

(** ** Commands of the library *)
(** The kernel's location holds the tables of a library table. *)
Definition tables_match l (t : ipa_table ipa_nat_rule) (x : ipa_table ipa_nat_indx_tbl_rule) : Prop :=
  entry_size t = 32 /\ entry_size x = 4 /\
  table_entries t = l_table_entries l + 1 /\ expn_table_entries t = l_expn_table_entries l /\
  table_entries x = table_entries t /\ expn_table_entries x = expn_table_entries t /\
  0 <= l_table_entries l <= U16_MAX /\ 0 <= l_expn_table_entries l <= U16_MAX.

(** A command that addresses a record of one of the two tables. *)
Definition addresses (t : ipa_table ipa_nat_rule) (x : ipa_table ipa_nat_indx_tbl_rule)
    (d : ipa_ioc_nat_dma_one) : Prop :=
  is_Some (dma_target t IPA_NAT_BASE_TBL IPA_NAT_EXPN_TBL d) \/
  is_Some (dma_target x IPA_NAT_INDX_TBL IPA_NAT_INDEX_EXPN_TBL d).

Lemma target_extent {E} (t : ipa_table E) base expn d : 0 < entry_size t -> base <> expn ->
  is_Some (dma_target t base expn d) -> 0 <= dma_offset d ->
  (dma_base_addr d = base /\ dma_offset d < entry_size t * table_entries t) \/
  (dma_base_addr d = expn /\ dma_offset d < entry_size t * expn_table_entries t).
Proof.
  intros Hsz Hne [p Hp] Hoff. unfold dma_target in Hp.
  pose proof (Z.mul_div_le (dma_offset d) (entry_size t) Hsz).
  pose proof (Z.mod_pos_bound (dma_offset d) (entry_size t) Hsz).
  pose proof (Z.div_mod (dma_offset d) (entry_size t) ltac:(lia)).
  repeat case_decide; repeat case_match; zify_bool; try done; [left|right]; (split; [done|nia]).
Qed.

Lemma accepts_one nmi l t x d (Q : Z -> kctx * K -> Prop) c k :
  zget (n_mem_loc (nat_mem c)) nmi = Some l -> tables_match l t x -> d_is_hw_init (n_dev (nat_mem c)) = true ->
  lib_dma_typed d -> addresses t x d -> Q 0 (c, k) ->
  wp (ipa3_table_validate_table_dma_one nmi (k_dma_of d)) Q (c, k).
Proof.
  intros Hl (Hs & Hsx & Hte & Hee & Htx & Hex & Hr1 & Hr2) Hhw (Hi & Ho & _) Ha HQ.
  unfold ipa3_table_validate_table_dma_one. cbn [k_dma_of k_table_index k_base_addr k_offset]. rewrite Hi.
  apply wp_bind, wp_kget. cbn zeta. rewrite table_code_of, Hhw.
  assert (Hext : exists t', dma_base_addr d = t' /\ is_ct t' = false /\ 0 <= dma_offset d < extent c l t').
  { unfold u32_range, U16_MAX in *. destruct Ha as [Ha|Ha].
    - destruct (target_extent t IPA_NAT_BASE_TBL IPA_NAT_EXPN_TBL d) as [[-> Hd]|[-> Hd]]; try done; try lia;
        (eexists; split_and!; [done..|lia|]); unfold extent; cbn [table_extent hal_size];
        rewrite ?(wrap_small 32 (l_table_entries l + 1)), wrap_small by lia; lia.
    - destruct (target_extent x IPA_NAT_INDX_TBL IPA_NAT_INDEX_EXPN_TBL d) as [[-> Hd]|[-> Hd]]; try done; try lia;
        (eexists; split_and!; [done..|lia|]); unfold extent; cbn [table_extent hal_size];
        rewrite ?(wrap_small 32 (l_table_entries l + 1)), wrap_small by lia; lia. }
  destruct Hext as (t' & -> & Hct & Hoff). replace (match t' with _ => _ end) with false by (by destruct t').
  apply wp_bind, wp_calculate_size with (l := l); [done|by rewrite table_code_of; intros ? [= <-]; rewrite Hct|].
  rewrite table_code_of, Z.geb_leb. rewrite (proj2 (Z.eqb_neq _ 0)), (proj2 (Z.leb_gt _ _)) by lia. done.
Qed.

Lemma accepts_all nmi l t x ds (Q : Z -> kctx * K -> Prop) c k :
  zget (n_mem_loc (nat_mem c)) nmi = Some l -> tables_match l t x -> d_is_hw_init (n_dev (nat_mem c)) = true ->
  Forall lib_dma_typed ds -> Forall (addresses t x) ds -> Q 0 (c, k) ->
  wp (validate_all nmi (map k_dma_of ds)) Q (c, k).
Proof.
  intros Hl Hm Hhw Ht Ha HQ. induction ds as [|d ds IH]; [done|]. cbn [map validate_all].
  apply Forall_cons in Ht as [? ?], Ha as [? ?].
  apply wp_bind. eapply accepts_one; [done..|]. cbn. auto.
Qed.

Lemma wp_send_works l (Q : Z -> kctx * K -> Prop) c k :
  (forall k', Q (fst (ipa3_send_cmd l k)) (c, k')) -> wp (send_and_destroy (0, l)) Q (c, k).
Proof.
  intros HQ. unfold send_and_destroy. cbn [fst snd Z.eqb].
  apply wp_bind, wp_ksys. intros r k1 E. rewrite E in HQ. apply wp_bind, wp_ksys. intros. by apply wp_ret.
Qed.

Lemma wp_from_user_works (m : St (kctx * K) Z) (Q : Z -> kctx * K -> Prop) c k :
  (forall k', wp m Q (c, k')) -> wp (from_user m) Q (c, k).
Proof.
  intros H. unfold from_user. apply wp_bind, wp_ksys. intros r k1 E. pose proof (kw_copy_from k) as Hc.
  rewrite E in Hc. cbn in Hc. by subst.
Qed.

(** The driver posts what the library asked for and returns what the hardware says. *)
Lemma dma_ioctl_works mem_type l t x ds c k : kern_ok c -> is_nmi (dma_nmi c mem_type) ->
  zget (n_mem_loc (nat_mem c)) (dma_nmi c mem_type) = Some l -> tables_match l t x ->
  d_is_hw_init (n_dev (nat_mem c)) = true ->
  Forall lib_dma_typed ds -> Forall (addresses t x) ds -> (1 <= length ds <= 3)%nat ->
  exists cmds k1 k2,
    let n := Z.of_nat (length ds) in
    ipa3_ioctl (IocTableDmaCmd n n mem_type (map k_dma_of ds)) (c, k) =
      Ok (if fst (ipa3_send_cmd cmds k1) =? 0 then 0 else - EFAULT, (c, k2)) /\
    omap hw_table_dma cmds = ds.
Proof.
  intros Hok Hnmi Hl Hm Hhw Ht Ha Hn.
  assert (H : wp (ipa3_ioctl (IocTableDmaCmd (Z.of_nat (length ds)) (Z.of_nat (length ds)) mem_type (map k_dma_of ds)))
    (fun r s => exists cmds k1, r = (if fst (ipa3_send_cmd cmds k1) =? 0 then 0 else - EFAULT) /\
       fst s = c /\ omap hw_table_dma cmds = ds) (c, k)).
  { cbn [ipa3_ioctl]. apply wp_from_user_works. intros k1. unfold ioctl_table_dma.
    apply wp_bind, wp_ksys. intros r k2 E. pose proof (kw_memdup k1) as Hmd. rewrite E in Hmd. cbn in Hmd. subst r.
    cbn [negb Z.eqb]. rewrite Z.eqb_refl. cbn [negb]. apply wp_bind, or_efault_ok.
    unfold ipa3_table_dma_cmd. apply wp_bind, wp_kget. cbn zeta. fold (dma_nmi c mem_type).
    rewrite (proj2 (proj2 (no_dev _ (proj1 Hok)))), (proj2 (nmi_valid _) Hnmi). cbn [negb]. rewrite length_map.
    assert (Hlim : (Z.of_nat (length ds) =? 0) || (Z.of_nat (length ds) >? max_dma_table_cmds - 1) = false).
    { unfold max_dma_table_cmds, IPA_MAX_NUM_OF_TABLE_DMA_CMD_DESC. rewrite Z.gtb_ltb.
      apply orb_false_iff. split; [apply Z.eqb_neq; lia|apply Z.ltb_ge]. destruct (wan_coal_ep =? -1); cbn [negb]; lia. }
    rewrite Hlim. apply wp_bind. eapply accepts_all; [done..|]. cbn [negb Z.eqb].
    pose proof coal_cmds_le.
    apply wp_prefix_works; [unfold IPA_MAX_NUM_OF_TABLE_DMA_CMD_DESC; lia|].
    intros py k3 Hlen Hpy _. apply wp_bind, wp_and_then; [intros _|done]. cbn [snd].
    apply wp_add_dma_works; [rewrite length_map; unfold IPA_MAX_NUM_OF_TABLE_DMA_CMD_DESC; lia|].
    intros k4. apply wp_send_works. intros k5. wp_go. exists (py ++ map dma_pyld (map k_dma_of ds)), k4.
    split_and!; [by destruct (fst _ =? 0)|done|].
    rewrite omap_app, Hpy. cbn. clear -Ht. induction ds as [|d ds IH]; [done|].
    apply Forall_cons in Ht as [Hd Ht]. cbn [map omap list_omap]. rewrite hw_table_dma_of by done. by rewrite IH. }
  apply wp_ok in H as (r & [c' k2] & E & cmds & k1 & -> & Hc & Ho). cbn in Hc. subst c'.
  by exists cmds, k1, k2.
Qed.

(** ** The library's tables *)
Lemma wp_check_works nmi l off m ty (Q : Z -> kctx * K -> Prop) c k : kern_ok c ->
  zget (n_mem_loc (nat_mem c)) nmi = Some l -> hal_has ty -> 0 <= off -> 0 <= m < 2 ^ 16 ->
  fits l off m (hal_size ty) -> l_table_alloc_size l < 2 ^ 20 ->
  (nmi = IPA_NAT_MEM_IN_DDR -> 0 <= l_dma_handle l /\ l_dma_handle l + l_table_alloc_size l < 2 ^ 32) ->
  Q 0 (c, k) -> wp (ipa3_nat_ipv6ct_check_table_params NatDev nmi off m ty) Q (c, k).
Proof.
  intros Hok Hl Hty Ho Hm Hf Hsz Hh HQ. unfold ipa3_nat_ipv6ct_check_table_params, fits in *.
  destruct (no_dev _ (proj1 Hok)) as (_ & Hd & _). pose proof (hal_size_range ty).
  apply wp_bind, wp_kget. cbn [dev_of]. cbn zeta. rewrite Hd. apply wp_bind.
  eapply wp_get_loc; [done|]. apply wp_if; intros E.
  { apply andb_true_iff in E as [E1 E2]. zify_bool. destruct (Hh E1). unfold UINT_MAX in E2.
    rewrite wrap_small, Z.gtb_ltb in E2 by nia. zify_bool. nia. }
  apply wp_bind, wp_entry_size; [done|]. apply wp_ret.
  assert (check_range (l_table_alloc_size l) off (hal_size ty * m) = 0) as ->; [|done].
  unfold check_range, UINT_MAX. rewrite !Z.gtb_ltb.
  rewrite (wrap_small 64 (2 ^ 32 - 1 - hal_size ty * m)) by nia. rewrite (wrap_small 64 (off + _)) by nia.
  rewrite !(proj2 (Z.ltb_ge _ _)) by nia. done.
Qed.

(** The memory the library asks for and its init command. *)
Definition lib_size (n : ipa_nat_ip4_table_cache) : Z :=
  ipa_table_calculate_size (table n) + ipa_table_calculate_size (index_table n).

(** A table of the library, with the kernel's memory for it. *)
Record backed (n : ipa_nat_ip4_table_cache) (nmi : Z) l : Prop := {
  bk_t : geometry (table n);
  bk_sizes : entry_size (table n) = 32 /\ entry_size (index_table n) = 4;
  bk_x : table_entries (index_table n) = table_entries (table n) /\
         expn_table_entries (index_table n) = expn_table_entries (table n);
  bk_offset : addr_offset (mem_desc n) = 0;
  bk_ip : 0 <= public_addr n < 2 ^ 32;
  bk_mapped : l_is_mapped l = true;
  bk_alloc : l_table_alloc_size l = lib_size n;
  bk_ddr : nmi = IPA_NAT_MEM_IN_DDR -> 0 <= l_dma_handle l /\ l_dma_handle l + l_table_alloc_size l < 2 ^ 32;
  bk_sram : nmi = IPA_NAT_MEM_IN_SRAM -> l_base_address l mod 32 = 0 }.

Lemma lib_init_cmd n nmi l idx focus : backed n nmi l ->
  let te := table_entries (table n) in let ee := expn_table_entries (table n) in
  v4_init_cmd nmi n idx focus =
    mk_v4_init idx 0 (32 * te) (32 * te + 32 * ee) (32 * te + 32 * ee + 4 * te) (te - 1) ee
      (public_addr n) nmi focus /\
  2 <= te <= 4096 /\ 2 <= ee <= 4096 /\ lib_size n = 36 * (te + ee) /\ te + ee <= 5120.
Proof.
  intros [] te ee. destruct bk_t0, bk_sizes0 as [Hs Hsx], bk_x0 as (Hx1 & Hx2).
  unfold IPA_TABLE_MAX_ENTRIES in *. fold te ee in Hx1, Hx2.
  assert (2 <= te <= 4096 /\ 2 <= ee <= 4096 /\ te + ee <= 5120) as (H1 & H2 & H3) by (unfold te, ee; lia).
  split_and!; try done; try lia.
  - unfold v4_init_cmd. rewrite bk_offset0, Hx1. fold te ee.
    unfold sizeof_ipa_nat_rule, sizeof_ipa_nat_indx_tbl_rule.
    rewrite !(wrap_small 32), wrap_small by lia. f_equal; lia.
  - unfold lib_size, ipa_table_calculate_size. rewrite Hs, Hsx, Hx1, Hx2. fold te ee. lia.
Qed.

(** The command for the table of public addresses. *)
Lemma wp_modify_pdn_works zero (Q : _ -> kctx * K -> Prop) c k : pdn_base (n_pdn_mem (nat_mem c)) <> 0 ->
  (forall m c', params_small (DmaSharedParams m) -> same_but_pdn c c' -> (zero = false -> c' = c) ->
     Q (0, m) (c', k)) ->
  wp (ipa3_nat_create_modify_pdn_cmd zero) Q (c, k).
Proof.
  intros Hp HQ. unfold ipa3_nat_create_modify_pdn_cmd.
  apply wp_bind, wp_entry_size; [apply kw_version|]. apply wp_bind, wp_max_pdn; [apply kw_version|].
  apply wp_bind, wp_kget. cbn zeta. rewrite (proj2 (Z.eqb_neq _ 0)) by done.
  assert (Hs : forall sys, params_small (DmaSharedParams (mk_dma_shared sys (u32 (hal_size IPAHAL_NAT_IPV4_PDN * max_pdn))
    (u32 (smem_restricted_bytes + pdn_config_ofst)) false false false IPAHAL_HPS_CLEAR)))
    by (split; [apply kw_pdn|apply kw_pdn_ofst]).
  destruct zero; wp_go; apply HQ; try done; [|apply same_but_pdn_refl].
  eexists. split; [done|]. cbn. by rewrite length_map.
Qed.

Lemma wp_nat_send_works cmd zero (Q : Z -> kctx * K -> Prop) c k : pdn_base (n_pdn_mem (nat_mem c)) <> 0 ->
  (forall cmds k1 k2 c', same_but_pdn c c' -> (zero = false -> c' = c) ->
     omap hw_nat_init cmds = [zip_with (fun w v => v mod 2 ^ w) ipa_imm_cmd_hw_ip_v4_nat_init (nat_init_fields cmd)] ->
     Q (fst (ipa3_send_cmd cmds k1)) (c', k2)) ->
  wp (ipa3_nat_send_init_cmd cmd zero) Q (c, k).
Proof.
  intros Hp HQ. unfold ipa3_nat_send_init_cmd. pose proof coal_cmds_le.
  apply wp_prefix_works; [unfold IPA_NAT_MAX_NUM_OF_INIT_CMD_DESC; lia|].
  intros l k1 Hlen _ Hl. apply wp_bind, wp_and_then; [intros _|done]. cbn [snd].
  apply wp_add_works; [unfold IPA_NAT_MAX_NUM_OF_INIT_CMD_DESC; lia|done..|].
  intros py k2 Hb _. cbn [built] in Hb. apply wp_bind, wp_and_then; [intros _|done]. cbn [snd]. rewrite v4_geb.
  rewrite (proj2 (Nat.leb_gt _ _)) by (rewrite length_app; cbn; unfold IPA_NAT_MAX_NUM_OF_INIT_CMD_DESC; lia).
  apply wp_bind, wp_modify_pdn_works; [done|]. intros m c' Hm Hs Hz. cbn beta iota. cbn [negb Z.eqb].
  apply wp_add_works; [rewrite length_app; cbn; unfold IPA_NAT_MAX_NUM_OF_INIT_CMD_DESC; lia|done|done|done|].
  intros py' k3 _ [_ Hq]. apply wp_send_works. intros k4. apply HQ; [done..|].
  rewrite !omap_app, Hl. cbn [app omap list_omap]. by rewrite Hb, Hq.
Qed.

(** The state an init command leaves when the hardware takes it. *)
Definition inited n nmi c : Prop := exists l,
  zget (n_mem_loc (nat_mem c)) nmi = Some l /\ tables_match l (table n) (index_table n) /\
  n_active_table (nat_mem c) = nmi /\ d_is_hw_init (n_dev (nat_mem c)) = true.

(** What the hardware reads in the init command of a table: where its four parts start
    in the memory, the mask of the base table and the size of the expansion table in the
    10 bits of its field. *)
Definition lib_init_fields n nmi l : list Z :=
  let te := table_entries (table n) in
  let ee := expn_table_entries (table n) in
  let base := if nmi =? IPA_NAT_MEM_IN_DDR then l_dma_handle l else nat_tbl_ofst in
  let sh := b2z (negb (nmi =? IPA_NAT_MEM_IN_DDR)) in
  [u64 base; u64 (base + 32 * te); u64 (base + 32 * (te + ee)); u64 (base + 32 * (te + ee) + 4 * te);
   0; 0; sh; sh; sh; sh; te - 1; ee mod 2 ^ 10; 0; u32 pdn_config_ofst].

Lemma aligned_ok a b w : 0 < w -> a mod 2 ^ w = 0 -> b mod 2 ^ w = 0 ->
  chk_sram_offset_alignment (a + b) (Z.ones w) = true.
Proof.
  intros Hw Ha Hb. unfold chk_sram_offset_alignment. rewrite Z.land_ones by lia. apply Z.eqb_eq.
  rewrite Z.add_mod, Ha, Hb by lia. apply Z.mod_0_l. lia.
Qed.

(** The location gets the tables and becomes the active one. *)
Lemma wp_struct_works nmi l init focus (Q : Z -> kctx * K -> Prop) c k : kern_ok c -> is_nmi nmi ->
  zget (n_mem_loc (nat_mem c)) nmi = Some l ->
  (nmi = IPA_NAT_MEM_IN_SRAM -> l_base_address l mod 2 ^ 5 = 0 /\ ipv4_rules_offset init mod 2 ^ 5 = 0 /\
     expn_rules_offset init mod 2 ^ 5 = 0 /\ index_offset init mod 2 ^ 2 = 0 /\ index_expn_offset init mod 2 ^ 2 = 0) ->
  (forall c', zget (n_mem_loc (nat_mem c')) nmi = Some (loc_inited l init) -> n_active_table (nat_mem c') = nmi -> Q 0 (c', k)) ->
  wp (ipa3_nat_ipv6ct_init_device_structure NatDev nmi (ipv4_rules_offset init) (expn_rules_offset init)
        (init_table_entries init) (init_expn_table_entries init) (index_offset init)
        (index_expn_offset init) focus) Q (c, k).
Proof.
  intros Hok Hnmi Hl Hal HQ. unfold ipa3_nat_ipv6ct_init_device_structure.
  destruct (no_dev _ (proj1 Hok)) as (Hd1 & Hd2 & Hd3).
  apply wp_bind, wp_kget. cbn [dev_of]. cbn zeta. rewrite Hd1, Hd2.
  apply wp_bind, wp_kmod_nat. apply wp_bind. eapply wp_get_loc; [exact Hl|]. apply wp_bind, wp_put_loc.
  fold (loc_inited l init). cbn beta zeta. set (c1 := set_loc _ _ _).
  assert (Hg : zget (n_mem_loc (nat_mem c1)) nmi = Some (loc_inited l init)) by by eapply get_set_loc.
  apply wp_if; intros E.
  - apply wp_bind, wp_if; intros _; [apply wp_kmod_nat|]; apply wp_ret, HQ; done.
  - assert (nmi = IPA_NAT_MEM_IN_SRAM) as En by (destruct Hnmi as [-> | ->]; done).
    destruct (Hal En) as (A1 & A2 & A3 & A4 & A5).
    assert (A2' : l_base_address l mod 2 ^ 2 = 0).
    { apply Z.mod_divide; [lia|]. apply Z.mod_divide in A1; [|lia]. etransitivity; [|exact A1].
      by exists (2 ^ 3). }
    cbn [loc_inited loc_set_tables l_base_table_addr l_expansion_table_addr l_index_table_addr l_index_table_expansion_addr].
    change 31 with (Z.ones 5). change 3 with (Z.ones 2). rewrite !aligned_ok by (done || lia). cbn [negb orb].
    apply wp_bind, wp_if; intros _; [apply wp_kmod_nat|]; apply wp_ret, HQ; done.
Qed.

(** The driver's init command for an init request of the library. *)
Lemma lib_init_fields_ok n nmi l focus :
  let te := table_entries (table n) in let ee := expn_table_entries (table n) in
  let init := mk_v4_init 0 0 (32 * te) (32 * te + 32 * ee) (32 * te + 32 * ee + 4 * te) (te - 1) ee
    (public_addr n) nmi focus in
  let cmd := if nmi =? IPA_NAT_MEM_IN_DDR then ipa3_nat_create_init_cmd init false (l_dma_handle l)
             else ipa3_nat_create_init_cmd init true nat_tbl_ofst in
  is_nmi nmi -> 2 <= te <= 4096 ->
  zip_with (fun w v => v mod 2 ^ w) ipa_imm_cmd_hw_ip_v4_nat_init (nat_init_fields cmd) = lib_init_fields n nmi l.
Proof.
  intros te ee init cmd Hn Ht. unfold cmd, lib_init_fields, nat_init_fields, ipa3_nat_create_init_cmd,
    ipa3_nat_ipv6ct_create_init_cmd. rewrite v4_geb. fold te ee.
  assert (Hw : forall x, u64 x mod 2 ^ 64 = u64 x) by (intros x; apply Z.mod_mod; lia).
  assert (Htm : (te - 1) mod 2 ^ 12 = te - 1) by (apply Z.mod_small; lia).
  destruct Hn as [-> | ->]; cbn -[Z.modulo Z.pow wrap Z.add Z.mul Z.sub]; rewrite !Hw, Htm;
    repeat (f_equal; try reflexivity; try lia).
Qed.

Lemma init_ioctl_works n nmi l focus c k : kern_ok c -> is_nmi nmi ->
  sram_compatible c = true \/ (nmi = IPA_NAT_MEM_IN_DDR /\ sram_compatible c = false) ->
  zget (n_mem_loc (nat_mem c)) nmi = Some l -> backed n nmi l -> pdn_base (n_pdn_mem (nat_mem c)) <> 0 ->
  wp (ipa3_ioctl (IocV4InitNat (v4_init_cmd nmi n 0 focus)))
    (fun r s => kern_ok (fst s) /\ exists cmds k1,
       r = (if fst (ipa3_send_cmd cmds k1) =? 0 then 0 else - EFAULT) /\
       omap hw_nat_init cmds = [lib_init_fields n nmi l] /\ (r = 0 -> inited n nmi (fst s))) (c, k).
Proof.
  intros Hok Hnmi Hsr Hl Hb Hp.
  destruct (lib_init_cmd n nmi l 0 focus Hb) as (Hcmd & Hte & Hee & Hsz & Htot).
  set (te := table_entries (table n)) in *. set (ee := expn_table_entries (table n)) in *.
  assert (Hty : init_typed (v4_init_cmd nmi n 0 focus)).
  { rewrite Hcmd. pose proof (bk_ip _ _ _ Hb).
    unfold init_typed, byte_range, u32_range, u16_range. cbn.
    destruct Hnmi as [-> | ->]; unfold IPA_NAT_MEM_IN_DDR, IPA_NAT_MEM_IN_SRAM; lia. }
  apply wp_and; [by apply ioctl_ok|]. rewrite Hcmd in *. set (init := mk_v4_init _ _ _ _ _ _ _ _ _ _) in *.
  cbn [ipa3_ioctl]. apply wp_from_user_works. intros k1. apply or_efault_ok.
  unfold ipa3_nat_init_cmd. apply wp_bind, wp_kget. cbn zeta.
  replace (if sram_compatible c then init_mem_type init else 0) with nmi
    by (destruct Hsr as [->|[-> ->]]; done).
  change (IPA_VALID_TBL_INDEX (init_tbl_index init)) with true. cbn [negb].
  rewrite (proj2 (orb_false_iff _ _)) by (split; apply Z.eqb_neq; unfold U16_MAX; cbn; lia).
  rewrite (proj2 (nmi_valid _) Hnmi). cbn [negb].
  apply wp_bind. eapply wp_get_loc; [exact Hl|]. rewrite (bk_mapped _ _ _ Hb). cbn [negb].
  assert (Hal := bk_alloc _ _ _ Hb). rewrite Hsz in Hal.
  assert (Hchk : forall off m ty (R : Z -> kctx * K -> Prop), hal_has ty -> 0 <= off -> 0 <= m < 2 ^ 16 ->
    off + hal_size ty * m <= 36 * (te + ee) -> R 0 (c, k1) ->
    wp (ipa3_nat_ipv6ct_check_table_params NatDev nmi off m ty) R (c, k1)).
  { intros off m ty R Hh H1 H2 H3 HR. eapply wp_check_works; try done; [by unfold fits; rewrite Hal|lia|].
    intros ->. by apply (bk_ddr _ _ _ Hb). }
  apply wp_bind. unfold check_nat_tables. cbn zeta. cbn [init init_table_entries init_expn_table_entries
    ipv4_rules_offset expn_rules_offset index_offset index_expn_offset].
  replace (u16 (te - 1 + 1)) with te by (rewrite wrap_small; lia).
  apply wp_bind, Hchk; [done|lia|lia|cbn; lia|]. cbn [negb Z.eqb].
  apply wp_bind, Hchk; [done|lia|lia|cbn; lia|]. cbn [negb Z.eqb].
  apply wp_bind, Hchk; [done|lia|lia|cbn; lia|]. cbn [negb Z.eqb].
  apply Hchk; [done|lia|lia|cbn; lia|]. cbn [negb Z.eqb]. cbv zeta.
  set (cmd := if nmi =? IPA_NAT_MEM_IN_DDR then _ else _).
  assert (Hf : zip_with (fun w v => v mod 2 ^ w) ipa_imm_cmd_hw_ip_v4_nat_init (nat_init_fields cmd) = lib_init_fields n nmi l).
  { apply lib_init_fields_ok; [done|..]; lia. }
  clearbody cmd.
  set (fo := if sram_compatible c then _ else _). clearbody fo.
  assert (Hpost : forall c1 k1, same_but_pdn c c1 -> wp (post_nat_init nmi init fo cmd)
    (fun r s => exists cmds k0, (if negb (r =? 0) then - EFAULT else 0) =
       (if fst (ipa3_send_cmd cmds k0) =? 0 then 0 else - EFAULT) /\
       omap hw_nat_init cmds = [lib_init_fields n nmi l] /\
       ((if negb (r =? 0) then - EFAULT else 0) = 0 -> inited n nmi (fst s))) (c1, k1)).
  { intros c1 k2 Hs1. pose proof (kern_ok_pdn _ _ Hok Hs1) as Hok1. unfold post_nat_init.
    assert (Hp1 : pdn_base (n_pdn_mem (nat_mem c1)) <> 0).
    { destruct Hs1 as (p & -> & Hpb & _). cbn. by rewrite Hpb. }
    apply wp_bind, wp_nat_send_works; [done|]. intros cmds k3 k4 c2 _ Hc2 Ho. rewrite Hf in Ho. rewrite Hc2 in * by done. clear Hc2.
    destruct (fst (ipa3_send_cmd cmds k3) =? 0) eqn:E; cbn [negb].
    2: { apply wp_ret. exists cmds, k3. by rewrite E. }
    apply wp_bind. eapply wp_struct_works; [done..|by rewrite (same_locs _ _ Hs1)| |].
    { intros ->. cbn [init ipv4_rules_offset expn_rules_offset index_offset index_expn_offset].
      split; [by apply (bk_sram _ _ _ Hb)|].
      split_and!; [done|..]; apply Z.mod_divide; try done;
        [exists te|exists (8 * te + 8 * ee)|exists (8 * te + 8 * ee + te)]; lia. }
    intros c3 Hg Ha. cbn [negb Z.eqb]. wp_go. exists cmds, k3. rewrite E. split; [done|]. split; [done|]. intros _.
    exists (loc_inited l init). split_and!; try done. destruct (bk_sizes _ _ _ Hb), (bk_x _ _ _ Hb).
    unfold tables_match, U16_MAX. cbn. split_and!; try done; lia. }
  apply wp_bind. apply wp_if; intros Hc; [|by apply wp_ret; cbn; apply Hpost, same_but_pdn_refl].
  apply wp_construct_pdn; [apply kw_version|done..|pose proof max_pdn_range; lia|].
  intros c1 Hs1. by apply Hpost.
Qed.
End works.

(** * From any state to a working table

    With surroundings that work ([KernWorks], [KernSends]) a deletion succeeds in every
    state that satisfies the invariant and leaves no memory of tables behind; an
    allocation, a mapping and the library's init command then succeed. *)

Section recover.
Context {K : Type} `{KL : KernLaws K} `{KW : !KernWorks K} `{KS : !KernSends K}.
Implicit Types (c : kctx) (k : K) (l : ipa3_nat_mem_loc_data).

Lemma above_16bit_false x : 0 <= x < 2 ^ 32 -> above_16bit x = false -> x < 2 ^ 16.
Proof.
  intros Hx H. unfold above_16bit in H. apply negb_false_iff, Z.eqb_eq in H.
  assert (Hs : Z.land (Z.shiftr x 16) (Z.ones 16) = 0).
  { change (Z.ones 16) with (Z.shiftr 4294901760 16). by rewrite <- Z.shiftr_land, H. }
  rewrite Z.land_ones, Z.shiftr_div_pow2 in Hs by lia.
  rewrite Z.mod_small in Hs by (split; [apply Z.div_pos; lia|apply Z.div_lt_upper_bound; lia]).
  apply Z.div_small_iff in Hs; lia.
Qed.

(** No memory of tables, no table of public addresses. *)
Definition kidle c : Prop := nat_idle (nat_mem c) /\ pdn_base (n_pdn_mem (nat_mem c)) = 0.

Lemma del_works mem_type c k : kern_ok c -> is_nmi mem_type ->
  wp (ipa3_ioctl (IocDelNatTable 0 mem_type)) (fun r s => r = 0 /\ kern_ok (fst s) /\ kidle (fst s)) (c, k).
Proof.
  intros Hok Hm. cbn [ipa3_ioctl]. apply wp_from_user_works. intros k1. apply or_efault_ok.
  unfold ipa3_del_nat_table. apply wp_bind, wp_kget. cbn zeta.
  assert (Hnmi : is_nmi (if sram_compatible c then mem_type else 0)) by (case_match; [done|by left]).
  rewrite (proj2 (proj2 (no_dev _ (proj1 Hok)))), (proj2 (nmi_valid _) Hnmi).
  change (IPA_VALID_TBL_INDEX 0) with true. cbn [negb].
  assert (Hdone : forall c' k', same_but_pdn c c' -> wp (del_nat_done (if sram_compatible c then mem_type else 0))
    (fun r s => (if negb (r =? 0) then - EFAULT else 0) = 0 /\ kern_ok (fst s) /\ kidle (fst s)) (c', k')).
  { intros c' k' Hs. apply wp_del_nat_done; [by eapply kern_ok_pdn|done|]. intros c'' k'' ? ? Hp _.
    split_and!; try done. split; [done|]. apply Hp, kw_version. }
  apply wp_bind. destruct (d_is_hw_init _) eqn:Ehw; [|apply wp_ret, Hdone, same_but_pdn_refl].
  unfold ipa3_nat_send_del_table_cmd. apply wp_bind, wp_kget.
  destruct (ipa3_nat_ipv6ct_create_del_table_cmd _ _ _) as [r t] eqn:Et.
  assert (r = 0) as ->.
  { unfold ipa3_nat_ipv6ct_create_del_table_cmd in Et. destruct (match d_tmp_mem _ with Some _ => _ | None => _ end).
    by injection Et as <- _. }
  cbn [negb Z.eqb]. apply wp_nat_send_works.
  { apply (no_hw _ (proj1 Hok)); [done|apply kw_version]. }
  intros cmds k2 k3 c' Hs _ _. rewrite kw_send. cbn [negb Z.eqb]. by apply Hdone.
Qed.

(** What an allocation in DDR leaves. *)
Definition allocated (size : Z) c : Prop := n_last_alloc_loc (nat_mem c) = IPA_NAT_MEM_IN_DDR /\
  pdn_base (n_pdn_mem (nat_mem c)) <> 0 /\ exists l,
  zget (n_mem_loc (nat_mem c)) IPA_NAT_MEM_IN_DDR = Some l /\ l_vaddr l <> 0 /\ l_is_mapped l = false /\
  l_table_alloc_size l = size /\ 0 <= l_dma_handle l /\ l_dma_handle l + size < 2 ^ 32.

Lemma alloc_works size c k : kern_ok c -> kidle c -> 0 < size <= MAX_ALLOC_NAT_SIZE 32 ->
  nat_tbl_size < size ->
  wp (ipa3_ioctl (IocAllocNatTable size 0)) (fun r s => kern_ok (fst s) /\
    (r = 0 /\ allocated size (fst s))) (c, k).
Proof.
  intros Hok [(Hddr & _) Hp] Hsz Hsr. apply wp_and; [by apply ioctl_ok; [|cbn; unfold MAX_ALLOC_NAT_SIZE, u64_range in *; lia]|].
  cbn [ipa3_ioctl]. apply wp_from_user_works. intros k1. unfold ioctl_alloc_table. apply wp_bind.
  unfold ipa3_allocate_nat_table, ipa3_nat_ipv6ct_allocate_mem. apply wp_bind, wp_bind, wp_kget. cbn [dev_of]. cbn zeta.
  destruct (no_dev _ (proj1 Hok)) as (Hd1 & Hd2 & Hd3). rewrite Hd1, Hd2, Hd3.
  rewrite (proj2 (Z.eqb_neq size 0)) by lia. rewrite bool_decide_true by done. cbn [negb andb orb].
  apply wp_bind, wp_entry_size; [done|]. rewrite Z.gtb_ltb, (proj2 (Z.ltb_ge _ _)) by (cbn; lia).
  replace (sram_compatible c && (size <=? nat_tbl_size)) with false.
  2: { rewrite (proj2 (Z.leb_gt _ _)) by lia. by rewrite andb_false_r. }
  unfold allocate_ddr. apply wp_bind, wp_kget. rewrite Hddr.
  destruct (loc_free c IPA_NAT_MEM_IN_DDR Hok) as (l & Hl & Hm & Hv & Hte & Hee); [by left|done|].
  apply wp_bind. eapply wp_get_loc; [exact Hl|]. apply wp_bind, wp_ksys. intros m k2 Em.
  assert (Hlim : size <= 2 ^ 20) by (unfold MAX_ALLOC_NAT_SIZE in Hsz; lia).
  destruct (kw_dma_alloc size k1) as (va & h & k3 & Ea & Hh & Hh2); [lia|]. rewrite Em in Ea. injection Ea as -> _.
  apply law_dma_alloc in Em. apply wp_bind, wp_put_loc. apply wp_bind, wp_kmod_nat. apply wp_ret. cbn [negb Z.eqb].
  apply wp_bind, wp_kget. cbn zeta. rewrite v4_geb. cbn [nat_mem set_nat nat_set_use n_pdn_mem set_loc nat_set_locs].
  rewrite Hp. cbn [andb Z.eqb].
  apply wp_bind, wp_entry_size; [apply kw_version|]. apply wp_bind, wp_max_pdn; [apply kw_version|].
  pose proof max_pdn_range as Hmax. pose proof kern_pdn_config as Hcfg. pose proof kw_pdn as Hs16.
  assert (Hle : 16 * max_pdn <= pdn_config_size) by (unfold max_pdn; apply Z.mul_div_le; lia).
  cbn [hal_size]. rewrite (wrap_small 32 (16 * max_pdn)) by lia.
  apply wp_bind, wp_kmod_nat. rewrite (proj2 (Z.ltb_ge _ _)) by lia.
  fold max_pdn in Hs16. rewrite (wrap_small 32 (16 * max_pdn)) in Hs16 by lia.
  apply above_16bit_false in Hs16; [|lia].
  apply wp_bind, wp_ksys. intros m k4 Em2.
  destruct (kw_dma_alloc (16 * max_pdn) k2) as (va2 & h2 & k5 & Ea2 & _ & _); [lia|].
  rewrite Em2 in Ea2. injection Ea2 as -> _. apply law_dma_alloc in Em2.
  apply wp_bind, wp_kmod_nat. apply wp_ret. cbn [negb Z.eqb]. apply wp_ret. split; [done|].
  split; [done|]. split; [cbn; lia|].
  eexists. split; [by eapply get_set_loc|]. cbn. split_and!; try done; lia.
Qed.

(** A mapped location of that size. *)
Definition mapped_ddr (size : Z) c : Prop := pdn_base (n_pdn_mem (nat_mem c)) <> 0 /\ exists l,
  zget (n_mem_loc (nat_mem c)) IPA_NAT_MEM_IN_DDR = Some l /\ l_is_mapped l = true /\
  l_table_alloc_size l = size /\ 0 <= l_dma_handle l /\ l_dma_handle l + size < 2 ^ 32.

Lemma mmap_works size vsize c k : kern_ok c -> allocated size c ->
  wp (ipa3_nat_ipv6ct_mmap NatDev vsize) (fun r s => kern_ok (fst s) /\
    (r = 0 /\ mapped_ddr size (fst s))) (c, k).
Proof.
  intros Hok (Hlast & Hp & l & Hl & Hv & Hm & Hsz & Hh). apply wp_and; [by apply mmap_ok|].
  unfold ipa3_nat_ipv6ct_mmap, mmap_nat. destruct (no_dev _ (proj1 Hok)) as (Hd1 & Hd2 & Hd3).
  apply wp_bind, wp_kget. cbn [dev_of]. rewrite Hd1, Hd3. cbn [negb].
  apply wp_bind, wp_kget. cbn zeta. rewrite Hlast.
  rewrite (proj2 (nmi_valid _)) by by left. cbn [negb].
  apply wp_bind. eapply wp_get_loc; [exact Hl|]. rewrite (proj2 (Z.eqb_neq _ 0)), Hm by done.
  change (IPA_NAT_MEM_IN_DDR =? IPA_NAT_MEM_IN_SRAM) with false. change (IPA_NAT_MEM_IN_DDR =? IPA_NAT_MEM_IN_DDR) with true.
  cbn [andb]. apply wp_bind, wp_put_loc, wp_bind, wp_ksys. intros r k1 E.
  pose proof (kw_dma_mmap vsize (l_vaddr l) (l_dma_handle l) (l_table_alloc_size l) k) as Hr. rewrite E in Hr. cbn in Hr. subst r.
  cbn [negb Z.eqb]. apply wp_bind, wp_put_loc, wp_ret. split; [done|]. split; [done|].
  eexists. split; [by do 2 eapply get_set_loc|]. cbn. by rewrite Hsz.
Qed.

(** The four calls one after the other; [n] is a table of the library for DDR. *)
Lemma recovers n mem_type vsize c k : kern_ok c -> is_nmi mem_type ->
  geometry (table n) -> entry_size (table n) = 32 -> entry_size (index_table n) = 4 ->
  table_entries (index_table n) = table_entries (table n) ->
  expn_table_entries (index_table n) = expn_table_entries (table n) ->
  addr_offset (mem_desc n) = 0 -> 0 <= public_addr n < 2 ^ 32 -> nat_tbl_size < lib_size n ->
  exists s1 s2 s3 s4,
    ipa3_ioctl (IocDelNatTable 0 mem_type) (c, k) = Ok (0, s1) /\
    ipa3_ioctl (IocAllocNatTable (lib_size n) 0) s1 = Ok (0, s2) /\
    ipa3_nat_ipv6ct_mmap NatDev vsize s2 = Ok (0, s3) /\
    ipa3_ioctl (IocV4InitNat (v4_init_cmd IPA_NAT_MEM_IN_DDR n 0 false)) s3 = Ok (0, s4) /\
    kern_ok (fst s4) /\ inited n IPA_NAT_MEM_IN_DDR (fst s4).
Proof.
  intros Hok Hm Hg Hs Hsx Hx1 Hx2 Ho Hip Hsr.
  assert (Hsz : 0 < lib_size n <= MAX_ALLOC_NAT_SIZE 32).
  { destruct Hg. unfold lib_size, ipa_table_calculate_size, MAX_ALLOC_NAT_SIZE, IPA_TABLE_MAX_ENTRIES in *.
    rewrite Hs, Hsx, Hx1, Hx2. lia. }
  destruct (proj1 (wp_ok _ _ _) (del_works mem_type c k Hok Hm)) as (r1 & [c1 k1] & E1 & -> & Hok1 & Hid).
  destruct (proj1 (wp_ok _ _ _) (alloc_works (lib_size n) c1 k1 Hok1 Hid Hsz Hsr)) as (r2 & [c2 k2] & E2 & Hok2 & -> & Hal).
  destruct (proj1 (wp_ok _ _ _) (mmap_works (lib_size n) vsize c2 k2 Hok2 Hal))
    as (r3 & [c3 k3] & E3 & Hok3 & -> & Hp3 & l & Hl & Hml & Hsl & Hh1 & Hh2).
  cbn [fst] in *.
  assert (Hb : backed n IPA_NAT_MEM_IN_DDR l).
  { split; try done. intros _. by rewrite Hsl. }
  assert (Hsr3 : sram_compatible c3 = true \/ (IPA_NAT_MEM_IN_DDR = IPA_NAT_MEM_IN_DDR /\ sram_compatible c3 = false))
    by (destruct (sram_compatible c3); auto).
  destruct (proj1 (wp_ok _ _ _) (init_ioctl_works n IPA_NAT_MEM_IN_DDR l false c3 k3 Hok3 ltac:(by left) Hsr3 Hl Hb Hp3))
    as (r4 & s4 & E4 & Hok4 & cmds & k0 & -> & _ & Hin).
  rewrite kw_send in *. cbn [Z.eqb] in *.
  exists (c1, k1), (c2, k2), (c3, k3), s4. split_and!; auto.
Qed.

(** ** The table of public addresses *)
(** The metadata a public address gets: version 4.1 marks it. *)
Definition pdn_src (e : ipa_ioc_nat_pdn_entry) : Z :=
  if ipa_hw_type =? IPA_HW_v4_1 then Z.lor (ioc_src_metadata e) (2 ^ 30) else ioc_src_metadata e.

Lemma pdn_src_range e : u32_range (ioc_src_metadata e) -> 0 <= pdn_src e < 2 ^ 32.
Proof.
  unfold pdn_src, u32_range. intros H. case_match; [|done].
  assert (Hn : 0 <= Z.lor (ioc_src_metadata e) (2 ^ 30)) by (apply Z.lor_nonneg; lia).
  split; [done|]. destruct (Z.eq_dec (Z.lor (ioc_src_metadata e) (2 ^ 30)) 0) as [->|Hz]; [lia|].
  apply Z.log2_lt_pow2; [lia|]. rewrite Z.log2_lor by lia. change (Z.log2 (2 ^ 30)) with 30.
  destruct (Z.eq_dec (ioc_src_metadata e) 0) as [->|]; [done|].
  assert (Z.log2 (ioc_src_metadata e) < 32) by (apply Z.log2_lt_pow2; lia). lia.
Qed.

Definition pdn_record (e : ipa_ioc_nat_pdn_entry) : Z :=
  pack ipa_nat_hw_pdn_entry [ioc_public_ip e; pdn_src e; ioc_dst_metadata e; 0].

(** What the driver reads back from the record. *)
Lemma pdn_record_reads e : ioctl_typed (IocNatModifyPdn e) ->
  ipahal_nat_parse_entry hal IPAHAL_NAT_IPV4_PDN (pdn_record e) =
    Ok (0, mk_hal_pdn (ioc_public_ip e) (pdn_src e) (ioc_dst_metadata e)) /\
  ipahal_nat_is_entry_valid hal IPAHAL_NAT_IPV4_PDN (pdn_record e) = Ok (0, negb (ioc_public_ip e =? 0)).
Proof.
  intros (_ & Hip & Hsrc & Hdst). pose proof (pdn_src_range e Hsrc). unfold u32_range in *.
  assert (Hun : forall n, hw_field ipa_nat_hw_pdn_entry n (pdn_record e) =
    nth n [ioc_public_ip e; pdn_src e; ioc_dst_metadata e; 0] 0).
  { intros n. unfold hw_field, pdn_record. rewrite unpack_pack; [done| |unfold ipa_nat_hw_pdn_entry; widths].
    repeat (apply List.Forall2_cons; [lia|]); apply List.Forall2_nil. }
  unfold ipahal_nat_parse_entry, ipahal_nat_is_entry_valid. rewrite hal_pdn by apply kw_version.
  cbn -[hw_field pdn_record]. unfold ipa_nat_ipv4_pdn_parse_entry_v_4_0, ipa_nat_ipv4_is_pdn_entry_valid_v_4_0.
  by rewrite !Hun.
Qed.

Lemma modify_pdn_works e c k : kern_ok c -> ioctl_typed (IocNatModifyPdn e) ->
  pdn_base (n_pdn_mem (nat_mem c)) <> 0 ->
  wp (ipa3_ioctl (IocNatModifyPdn e)) (fun r s => exists p, fst s = set_nat c (nat_set_pdn (nat_mem c) p) /\
    if ioc_pdn_index e <? pdn_config_size / 16 then
      r = 0 /\ pdn_tbl p = zset (pdn_tbl (n_pdn_mem (nat_mem c))) (ioc_pdn_index e) (pdn_record e)
    else r = - EFAULT /\ p = n_pdn_mem (nat_mem c)) (c, k).
Proof.
  intros Hok (Hi & _) Hp. unfold byte_range in Hi.
  cbn [ipa3_ioctl]. apply wp_from_user_works. intros k1. apply or_efault_ok.
  unfold ipa3_nat_mdfy_pdn. apply wp_bind, wp_kget. cbn beta.
  pose proof kw_version as Hv. rewrite (proj2 (Z.ltb_ge ipa_hw_type _)), (proj2 (Z.eqb_neq (pdn_base _) _)) by done.
  apply wp_bind, wp_max_pdn; [done|]. rewrite Z.gtb_ltb.
  apply wp_if; intros Hidx; zify_bool; unfold max_pdn in Hidx.
  - apply wp_ret. exists (n_pdn_mem (nat_mem c)). rewrite (proj2 (Z.ltb_ge _ _)) by lia. by destruct c as [[]].
  - unfold construct_pdn. cbv zeta.
    apply wp_bind, wp_bind. eapply wp_lift.
    { unfold ipahal_nat_construct_entry. rewrite hal_pdn by done. reflexivity. }
    cbn [negb Z.eqb]. cbn beta iota. apply wp_bind, wp_kget. cbn zeta.
    destruct (no_pdn _ (proj1 Hok) Hp) as [_ Hlen].
    destruct (zget_lt_Some (pdn_tbl (n_pdn_mem (nat_mem c))) (ioc_pdn_index e)) as [x Hx];
      [rewrite Hlen; unfold max_pdn; lia|].
    apply wp_bind. eapply wp_lift; [by rewrite Hx|]. apply wp_bind, wp_kmod_nat, wp_ret. cbn [negb Z.eqb].
    apply wp_bind, wp_modify_pdn_works; [done|]. intros m c' Hm _ Hc'. rewrite Hc' by done. cbn beta iota. cbn [negb Z.eqb].
    apply wp_bind, wp_add_works; [cbn; lia|done..|]. intros py k2 _ _.
    apply wp_send_works. intros k3. rewrite kw_send. cbn [negb Z.eqb].
    eexists. split; [reflexivity|]. rewrite (proj2 (Z.ltb_lt _ _)) by lia. done.
Qed.
End recover.
