(* ===== verification/KernSim.v ===== *)
(** * A concrete kernel

    An instance of every interface below the kernel driver: memory is given out at
    increasing addresses and counted, commands to the hardware are recorded and succeed,
    and everything else works.  The driver, and the library over it, can be
    evaluated on it. *)

From Stdlib Require Import ZArith Lia Ascii String.
From stdpp Require Import prelude list numbers strings.
From S2P Require Import Prelude StWp Bitfield IpaTable Dma Os NatRule NatDrvi Ipv6ct SimOs.
From S2P Require Import KernHal KernCmd KernNat KernIoctl KernHalLaws KernOs KernWork.

Local Open Scope Z_scope.

Record ksim := mk_ksim {
  ks_next : Z;
  (** DMA handles of the memory given out and not yet returned *)
  ks_live : list Z;
  ks_sent : list (list ipahal_imm_cmd_pyld) }.

(** [limit] bounds the number of allocations that are live. *)
Definition ksim_alloc (limit : option nat) (size : Z) (k : ksim) : option (Z * Z) * ksim :=
  let h := 4096 + ks_next k mod 2 ^ 20 in
  let got := (Some (2 ^ 40 + h, h), mk_ksim (ks_next k + size) (h :: ks_live k) (ks_sent k)) in
  match limit with
  | Some n => if (n <=? length (ks_live k))%nat then (None, k) else got
  | None => got
  end.
Definition ksim_send (cmds : list ipahal_imm_cmd_pyld) (k : ksim) : Z * ksim :=
  (0, mk_ksim (ks_next k) (ks_live k) (ks_sent k ++ [cmds])).
Definition ksim_free (h : Z) (k : ksim) : ksim :=
  mk_ksim (ks_next k) (list_difference (ks_live k) [h]) (ks_sent k).

Definition ksim_ops_of (limit : option nat) : KernelOps ksim := {|
  kzalloc k := (true, k); kfree k := k;
  dma_alloc_coherent := ksim_alloc limit;
  dma_free_coherent _ _ h := ksim_free h;
  ioremap phys _ k := (2 ^ 41, k);
  iounmap _ k := k;
  dma_mmap_coherent _ _ _ _ k := (0, k);
  vm_iomap_memory _ _ _ k := (0, k);
  class_create k := (true, k); class_destroy k := k;
  alloc_chrdev_region k := (0, k); unregister_chrdev_region k := k;
  device_create k := (true, k); device_destroy k := k; cdev_add k := (0, k);
  copy_from_user k := (0, k); copy_to_user k := (0, k); memdup_user k := (0, k);
  uninit_u8 k := (77, k);
  ipa3_send_cmd := ksim_send |}.
#[global] Instance ksim_ops : KernelOps ksim := ksim_ops_of None.

#[global] Instance ksim_hw : IpaHw := {|
  IPA_HW_v3_0 := 10; IPA_HW_v4_1 := 14; IPA_HW_v4_5 := 16; IPA_HW_v5_0 := 20; IPA_HW_MAX := 24 |}.

(** Hardware of version 4.5; [ep] is the coalescing endpoint, [sram] the SRAM for NAT. *)
Definition ksim_conf_of (ep sram : Z) : KernConf := {|
  ipa_hw_type := 16; wan_coal_ep := ep; ulso_wa := false;
  nat_tbl_ofst := 8192; nat_tbl_size := sram; pdn_config_ofst := 1024; pdn_config_size := 80;
  smem_restricted_bytes := 0; sram_direct_base := 2 ^ 20; PAGE_SIZE := 4096;
  aggr_force_close e := (2048, 1, 1) |}.
#[global] Instance ksim_conf : KernConf := ksim_conf_of (-1) 4096.

Lemma ksim_hw_laws : IpaHwLaws.
Proof. split; cbn; lia. Qed.

#[global] Instance ksim_laws_of limit ep sram : KernLaws ksim (KO := ksim_ops_of limit) (KC := ksim_conf_of ep sram).
Proof.
  split; cbn; try lia.
  - apply ksim_hw_laws.
  - apply sim_uapi_laws.
  - intros size k va h k'. unfold ksim_alloc. pose proof (Z.mod_pos_bound (ks_next k) (2 ^ 20) ltac:(lia)).
    destruct limit as [n|]; [case_match|]; intros [=]; lia.
  - by intros k b k' [= <- _].
Qed.

#[global] Instance ksim_works ep sram : KernWorks ksim (KC := ksim_conf_of ep sram).
Proof.
  split; try done. intros size k Hs. unfold dma_alloc_coherent, ksim_ops, ksim_ops_of, ksim_alloc.
  pose proof (Z.mod_pos_bound (ks_next k) (2 ^ 20) ltac:(lia)). eexists _, _, _. split; [done|]. lia.
Qed.

#[global] Instance ksim_sends : KernSends ksim.
Proof. by split. Qed.

(** The rest of the system: that of [SimOs] without failures. *)
Definition over_sim {A} (f : sim -> A * sim) (k : ksim) : A * ksim := (fst (f sim0), k).

#[global] Instance ksim_os : OsOps ksim := {|
  pthread_mutex_lock m := over_sim (pthread_mutex_lock m);
  pthread_mutex_unlock m := over_sim (pthread_mutex_unlock m);
  pthread_mutexattr_init := over_sim pthread_mutexattr_init;
  pthread_mutexattr_settype := over_sim pthread_mutexattr_settype;
  pthread_mutex_init m := over_sim (pthread_mutex_init m);
  os_calloc := over_sim os_calloc;
  os_open p k := (if bool_decide (p = "/dev/ipaIpv6CTTable"%string) then 4 else 3, k);
  os_close fd := over_sim (os_close fd);
  os_mmap n fd := over_sim (os_mmap n fd);
  os_munmap a n k := k;
  clock_gettime := over_sim clock_gettime;
  ioctl_get_hw_version fd := over_sim (ioctl_get_hw_version fd);
  ioctl_get_nat_in_sram_info fd := over_sim (ioctl_get_nat_in_sram_info fd);
  ioctl_table_alloc fd n size := over_sim (ioctl_table_alloc fd n size);
  ioctl_table_del fd n i m := over_sim (ioctl_table_del fd n i m) |}.

#[global] Instance ksim_nat_os : NatOs ksim := {|
  ioctl_v4_init_nat fd i := over_sim (ioctl_v4_init_nat fd i);
  ioctl_nat_modify_pdn fd e := over_sim (ioctl_nat_modify_pdn fd e);
  ioctl_app_clock_vote fd v := over_sim (ioctl_app_clock_vote fd v);
  ioctl_table_dma_cmd fd cmd t x := over_sim (ioctl_table_dma_cmd fd cmd t x);
  mapped_rules a n _ := mapped_rules a n sim0;
  mapped_indx a n _ := mapped_indx a n sim0 |}.

#[global] Instance ksim_os_laws : OsLaws (K := ksim).
Proof.
  split; cbn.
  - intros size fd k a k'. cbn. intros [=]. lia.
  - intros fd k r info k' [= <- <- _]. done.
  - by intros fd n size k off k' [=].
Qed.

#[global] Instance ksim_nat_os_laws : NatOsLaws (K := ksim).
Proof.
  split; cbn.
  - apply _.
  - intros. apply length_replicate.
  - intros. apply length_replicate.
  - by intros fd cmd t x k r mems k' [= <- <- _].
Qed.

#[global] Instance ksim_files : DevFiles ksim := {| fd_dev fd _ := if fd =? 4 then CtDev else NatDev |}.

Section runs.
Context (KO : KernelOps ksim) (KC : KernConf).

(** The driver's state and the kernel's after [ipa3_nat_ipv6ct_init_devices]. *)
Definition kboot : kctx * ksim :=
  match ipa3_nat_ipv6ct_init_devices (kctx0, mk_ksim 0 [] []) with
  | Ok (_, s) => s
  | _ => (kctx0, mk_ksim 0 [] [])
  end.

(** The results of a sequence of calls, and the state after it. *)
Fixpoint kruns (xs : list kcall) (s : kctx * ksim) : option (list Z * (kctx * ksim)) :=
  match xs with
  | [] => Some ([], s)
  | x :: xs =>
      match kcall_run x s with
      | Ok (r, s) => match kruns xs s with Some (rs, s) => Some (r :: rs, s) | None => None end
      | _ => None
      end
  end.

Lemma kruns_reachable xs : forall s rs s', kreachable s -> Forall kcall_typed xs ->
  kruns xs s = Some (rs, s') -> kreachable s'.
Proof.
  induction xs as [|x xs IH]; intros s rs s' Hr Ht; cbn [kruns]; [by intros [= _ <-]|].
  apply Forall_cons in Ht as [Hx Ht]. destruct (kcall_run x s) as [[r s1]| |] eqn:E; [|done..].
  destruct (kruns xs s1) as [[rs1 s2]|] eqn:E'; [|done]. intros [= _ <-].
  eapply (IH s1); [|done..]. by eapply kreach_call.
Qed.
End runs.

Lemma kboot_reachable ep sram : kreachable (KC := ksim_conf_of ep sram) (kboot ksim_ops (ksim_conf_of ep sram)).
Proof. by eapply kreach_start with (k := mk_ksim 0 [] []). Qed.
