(* ===== verification/KernEntries.v ===== *)
(** * The library's records as the kernel driver reads them

    [ipahal_nat.c] has its own structures for the records that the library writes into
    the shared memory.  Their sizes and the fields that decide whether a record is in
    use agree with those of the library, so that on a table the library keeps, the
    driver's tests tell exactly the rules in force. *)

From Stdlib Require Import ZArith Lia.
From stdpp Require Import prelude gmap list numbers.
From S2P Require Import Prelude Chain Bitfield IpaTable IpaTableRep Dma TableDma RuleTable Os MemDescriptor.
From S2P Require Import NatRule NatRuleLaws NatDrvi NatTables KernHal KernCmd KernNat KernHalLaws.
From S2P Require Ipv6ct Ipv6ctLaws Ipv6ctProps.

Local Open Scope Z_scope.

(** ** Structures with a common prefix *)
Lemma hw_field_prefix ws1 ws2 ws3 vs n : fits (ws1 ++ ws2) vs -> Forall (fun w => 0 <= w) (ws1 ++ ws2) ->
  Forall (fun w => 0 <= w) (ws1 ++ ws3) -> (n < length ws1)%nat ->
  hw_field (ws1 ++ ws3) n (pack (ws1 ++ ws2) vs) = nth n vs 0.
Proof.
  intros Hf Hw Hw3 Hn. unfold hw_field. rewrite unpack_app, app_nth1 by (done || by rewrite unpack_length).
  rewrite <- (unpack_pack _ _ Hf Hw) at 2. by rewrite unpack_app, app_nth1 by (done || by rewrite unpack_length).
Qed.

Lemma unpack_zero ws : unpack ws 0 = map (fun _ => 0) ws.
Proof. induction ws as [|w ws IH]; [done|]. cbn [unpack map]. by rewrite Zmod_0_l, Zdiv_0_l, IH. Qed.

Lemma pack_zeros ws vs : Forall (fun v => v = 0) vs -> pack ws vs = 0.
Proof.
  intros H. revert ws. induction H as [|v vs -> _ IH]; intros [|w ws]; try done.
  cbn [pack]. rewrite IH, Zmod_0_l. lia.
Qed.

Lemma hw_zeroed_zeros ws ws' vs : Forall (fun v => v = 0) vs -> hw_zeroed ws (pack ws' vs) = true.
Proof. intros H. unfold hw_zeroed. rewrite pack_zeros by done. by rewrite Zmod_0_l. Qed.

(** A record with a field that is not zero is not zeroed, when the sizes agree. *)
Lemma hw_zeroed_field ws ws' vs n : fits ws' vs -> Forall (fun w => 0 <= w) ws' -> width ws = width ws' ->
  nth n vs 0 <> 0 -> hw_zeroed ws (pack ws' vs) = false.
Proof.
  intros Hf Hw He Hn. unfold hw_zeroed. apply Z.eqb_neq. rewrite He. intros Hz. apply Hn.
  assert (Hp : unpack ws' (pack ws' vs) = unpack ws' 0).
  { rewrite (Z.div_mod (pack ws' vs) (2 ^ width ws')), Hz by (pose proof (pow2_pos _ (width_nonneg _ Hw)); lia).
    rewrite Z.add_0_r. pose proof (unpack_low ws' 0 (pack ws' vs / 2 ^ width ws') Hw) as H.
    by rewrite Zmod_0_l, Z.add_0_l in H. }
  rewrite unpack_pack, unpack_zero in Hp by done. rewrite Hp.
  clear. revert n. induction ws' as [|w ws IH]; intros [|n]; cbn; auto.
Qed.

Section entries.
Context {K : Type} `{KL : KernLaws K}.

(** What the driver finds in a record of the kind [ty]. *)
Definition kern_sees (ty : ipahal_nat_type) (entry : Z) (size : Z) (valid zeroed : bool) : Prop :=
  ipahal_nat_entry_size hal ty = Ok (0, size) /\
  ipahal_nat_is_entry_valid hal ty entry = Ok (0, valid) /\
  ipahal_nat_is_entry_zeroed hal ty entry = Ok (0, zeroed).

(** ** Rules *)
Lemma kern_sees_rule r : wf_rule r -> (r_enable r = 0 -> r = rule_zero) ->
  kern_sees IPAHAL_NAT_IPV4 (pack rule_ws (rule_fields r)) sizeof_ipa_nat_rule
    (entry_is_valid r && negb (r_protocol r =? 255)) (negb (entry_is_valid r)).
Proof.
  intros Hwf Hz. pose proof uapi_invalid_protocol as Hip.
  unfold kern_sees, ipahal_nat_is_entry_valid, ipahal_nat_is_entry_zeroed. rewrite hal_ipv4.
  split; [by apply hal_entry_size|]. cbn [mbind res_bind]. split.
  - do 2 f_equal.
    assert (Hf : forall n, (n < 13)%nat -> hw_field ipa_nat_hw_ipv4_entry n (pack rule_ws (rule_fields r)) =
      nth n (rule_fields r) 0).
    { intros n Hn. apply (hw_field_prefix (take 13 rule_ws) (drop 13 rule_ws) (drop 13 ipa_nat_hw_ipv4_entry));
        [done|unfold rule_ws; cbn [take drop app]; widths|cbn [take drop app rule_ws ipa_nat_hw_ipv4_entry]; widths|done]. }
    cbn [is_entry_valid_cb nat_obj_of]. unfold ipa_nat_ipv4_is_entry_valid_v_3_0. by rewrite !Hf, Hip by lia.
  - do 2 f_equal. cbn [is_entry_zeroed_cb nat_obj_of]. cbn [entry_is_valid entry_interface].
    unfold table_entry_is_valid. destruct (r_enable r =? 0) eqn:E; zify_bool; cbn [negb].
    + rewrite Hz by done. apply hw_zeroed_zeros. cbn. repeat (apply List.Forall_cons; [done|]). apply List.Forall_nil.
    + eapply (hw_zeroed_field _ _ _ 10); [done|unfold rule_ws; widths|done|done].
Qed.

(** ** Index entries *)
Lemma kern_sees_indx x : wf_indx x -> (x_tbl_entry x = 0 -> x = mk_indx 0 0) ->
  kern_sees IPAHAL_NAT_IPV4_INDEX (pack indx_ws (indx_fields x)) sizeof_ipa_nat_indx_tbl_rule
    (entry_is_valid x) (negb (entry_is_valid x)).
Proof.
  intros Hwf Hz. unfold kern_sees, ipahal_nat_is_entry_valid, ipahal_nat_is_entry_zeroed. rewrite hal_index.
  split; [by apply hal_entry_size|]. cbn [mbind res_bind]. split.
  - do 2 f_equal. cbn [is_entry_valid_cb nat_obj_of]. unfold ipa_nat_ipv4_is_index_entry_valid_v_3_0.
    unfold hw_field. change ipa_nat_hw_indx_entry with indx_ws.
    by rewrite unpack_pack by (done || (unfold indx_ws; widths)).
  - do 2 f_equal. cbn [is_entry_zeroed_cb nat_obj_of]. cbn [entry_is_valid index_entry_interface].
    unfold index_table_entry_is_valid. destruct (x_tbl_entry x =? 0) eqn:E; zify_bool; cbn [negb].
    + rewrite Hz by done. apply hw_zeroed_zeros. cbn. repeat (apply List.Forall_cons; [done|]). apply List.Forall_nil.
    + eapply (hw_zeroed_field _ _ _ 0); [done|unfold indx_ws; widths|done|done].
Qed.

(** ** IPv6CT *)
Lemma kern_sees_ct e : IPA_HW_v4_0 <= ipa_hw_type -> Ipv6ct.wf_ct e ->
  (Ipv6ct.c_enable e = 0 -> e = Ipv6ct.ct_zero) ->
  kern_sees IPAHAL_NAT_IPV6CT (pack Ipv6ct.ct_ws (Ipv6ct.ct_fields e)) Ipv6ct.sizeof_ipa_ipv6ct_hw_entry
    (Ipv6ct.table_entry_is_valid e && negb (Ipv6ct.c_protocol e =? 255)) (negb (Ipv6ct.table_entry_is_valid e)).
Proof.
  intros Hv Hwf Hz. pose proof uapi_invalid_protocol as Hip.
  unfold kern_sees, ipahal_nat_is_entry_valid, ipahal_nat_is_entry_zeroed. rewrite hal_ct by done.
  split; [by apply hal_entry_size|]. cbn [mbind res_bind]. split.
  - do 2 f_equal. cbn [is_entry_valid_cb nat_obj_of]. unfold ipa_nat_ipv6ct_is_entry_valid_v_4_0, hw_field.
    change ipa_nat_hw_ipv6ct_entry with Ipv6ct.ct_ws.
    by rewrite unpack_pack, Hip by (done || apply Ipv6ctLaws.ct_ws_nonneg).
  - do 2 f_equal. cbn [is_entry_zeroed_cb nat_obj_of]. unfold Ipv6ct.table_entry_is_valid.
    destruct (Ipv6ct.c_enable e =? 0) eqn:E; zify_bool; cbn [negb].
    + rewrite Hz by done. apply hw_zeroed_zeros. cbn. repeat (apply List.Forall_cons; [done|]). apply List.Forall_nil.
    + eapply (hw_zeroed_field _ _ _ 8); [done|apply Ipv6ctLaws.ct_ws_nonneg|done|done].
Qed.

(** ** Tables of the library *)
Section slots.
Context {E D : Type} `{Ops : EntryOps E D} `{LR : LinkedRecord E} `{RR : RuleRecord E}.
Implicit Types (t : ipa_table E).

Lemma slot_record wf mo t ch i e : table_ok wf mo t ch -> zget (tbl_mem t) i = Some e ->
  wf e /\ (entry_is_valid e = false -> e = entry_zero).
Proof.
  intros T He. split; [|by apply (ok_free _ _ _ _ T i)].
  pose proof (ok_wf _ _ _ _ T) as Hw. rewrite list.Forall_forall in Hw. apply Hw.
  unfold zget in He. destruct (0 <=? i); [|done]. by eapply list_elem_of_lookup_2.
Qed.

Lemma contents_bool t i e : zget (tbl_mem t) i = Some e ->
  bool_decide (is_Some (contents t i)) = entry_is_valid e.
Proof.
  intros He. unfold contents. rewrite He. destruct (entry_is_valid e); [by apply bool_decide_true|].
  apply bool_decide_false. by intros [].
Qed.

Lemma live_bool t i e : zget (tbl_mem t) i = Some e -> rec_protocol (strip e) = rec_protocol e ->
  bool_decide (is_Some (live_at t i)) = entry_is_valid e && negb (rec_protocol e =? DEAD_PROTOCOL).
Proof.
  intros He Hp. unfold live_at, contents. rewrite He.
  destruct (entry_is_valid e); cbn [andb]; [|apply bool_decide_false; by intros []].
  rewrite Hp. destruct (rec_protocol e =? DEAD_PROTOCOL); [apply bool_decide_false; by intros []|].
  by apply bool_decide_true.
Qed.
End slots.

Lemma kern_sees_nat t ch i r : nat_table_ok t ch -> zget (tbl_mem t) i = Some r ->
  kern_sees IPAHAL_NAT_IPV4 (pack rule_ws (rule_fields r)) sizeof_ipa_nat_rule
    (bool_decide (is_Some (live_at t i))) (negb (bool_decide (is_Some (contents t i)))).
Proof.
  intros T Hr. destruct (slot_record _ _ _ _ _ _ T Hr) as [Hwf Hz].
  rewrite (contents_bool t i r Hr), (live_bool t i r Hr) by apply rl_strip.
  apply kern_sees_rule; [done|]. intros He. apply Hz. cbn. unfold table_entry_is_valid. by rewrite He.
Qed.

Lemma kern_sees_index x xch j e : indx_table_ok x xch -> zget (tbl_mem x) j = Some e ->
  kern_sees IPAHAL_NAT_IPV4_INDEX (pack indx_ws (indx_fields e)) sizeof_ipa_nat_indx_tbl_rule
    (bool_decide (is_Some (contents x j))) (negb (bool_decide (is_Some (contents x j)))).
Proof.
  intros T Hr. destruct (slot_record _ _ _ _ _ _ T Hr) as [Hwf Hz]. rewrite (contents_bool x j e Hr).
  apply kern_sees_indx; [done|]. intros He. apply Hz. cbn. unfold index_table_entry_is_valid. by rewrite He.
Qed.

Lemma kern_sees_ct_table t ch i e : IPA_HW_v4_0 <= ipa_hw_type -> Ipv6ctProps.ct_inv t ch ->
  zget (tbl_mem t) i = Some e ->
  kern_sees IPAHAL_NAT_IPV6CT (pack Ipv6ct.ct_ws (Ipv6ct.ct_fields e)) Ipv6ct.sizeof_ipa_ipv6ct_hw_entry
    (bool_decide (is_Some (Ipv6ctProps.ct_rules t i))) (negb (bool_decide (is_Some (contents t i)))).
Proof.
  intros Hv T Hr. destruct (slot_record _ _ _ _ _ _ (Ipv6ctProps.ci_t _ _ T) Hr) as [Hwf Hz].
  unfold Ipv6ctProps.ct_rules. rewrite (contents_bool t i e Hr), (live_bool t i e Hr) by apply rl_strip.
  apply kern_sees_ct; [done..|]. intros He. apply Hz. cbn. unfold Ipv6ct.table_entry_is_valid. by rewrite He.
Qed.
End entries.
