(* ===== verification/KernStack.v ===== *)
(** * The library on top of the kernel driver

    Both ends of the ioctls together: the library's NAT driver runs on the instance of
    [KernOs], whose ioctls are the kernel driver's.  [stacked] relates the two states:
    the library has a ready table, and the kernel driver was told of exactly its memory.
    Additions and deletions of rules keep it, and no check of the kernel driver ever
    refuses a command of the library. *)

From Stdlib Require Import ZArith Lia Ascii String.
From stdpp Require Import prelude gmap list numbers strings.
From S2P Require Import Prelude StWp Chain Bitfield IpaTable IpaTableRep Dma TableDma RuleTable Os NatUtils MemDescriptor.
From S2P Require Import NatRule NatRuleLaws NatDrvi NatTables NatDrviProps NatDrviDel NatApi.
From S2P Require Import KernHal KernCmd KernNat KernIoctl KernHalLaws KernInv KernSafe KernOs KernWork.

Local Open Scope Z_scope.

Section stack.
Context {K : Type} `{KL : KernLaws K} `{KW : !KernWorks K} `{KS : !KernSends K}.
Context `{Base : OsOps K} `{BaseNat : !NatOs K} `{BL : !NatOsLaws} `{DF : DevFiles K}.
Implicit Types (g : nat_globals) (c : kctx) (k : K).

#[local] Existing Instance kern_os.
#[local] Existing Instance kern_nat_os.

(** The driver reads commands for [nmi] as such. *)
Definition names_memory c (nmi : Z) : Prop := is_nmi nmi /\ dma_nmi c nmi = nmi.

Record stacked g c (tbl_hdl nmi hdl : Z) (cc : ipa_nat_cache) (n : ipa_nat_ip4_table_cache)
    (desc : ipa_descriptor) : Prop := {
  sk_ready : ready g tbl_hdl nmi hdl cc n desc;
  sk_inited : inited n nmi c;
  sk_nmi : cache_nmi cc = nmi;
  sk_names : names_memory c nmi }.

Lemma posts_typed {E} base expn (t : ipa_table E) d : posts base expn t d -> lib_dma_typed d.
Proof. intros (_ & Hi & Ho & Hd & _). by split_and!. Qed.

Lemma good_posts_typed n ds : good_posts n ds ->
  Forall lib_dma_typed ds /\ Forall (addresses (table n) (index_table n)) ds.
Proof.
  intros [_ H]. split; (eapply list.Forall_impl; [exact H|]); intros d [Hd|Hd];
    [by eapply posts_typed|by eapply posts_typed|left|right]; apply Hd.
Qed.

(** The driver carries out what the library posts. *)
Lemma kern_carries_out c nmi n : kern_ok c -> inited n nmi c -> names_memory c nmi ->
  carries_out (fun s : kctx * K => fst s = c) nmi n.
Proof.
  intros Hok (l & Hl & Hm & Ha & Hhw) [Hn Hd] fd cmd t x [c0 k] Hc Ht Hx [Hlen Hp] Hmt.
  cbn [fst] in Hc. subst c0. cbn [ioctl_table_dma_cmd kern_nat_os]. unfold kern_dma. rewrite Hmt, length_map.
  change (posted cmd) with (cmd_posted cmd).
  destruct (good_posts_typed n (cmd_posted cmd)) as [Hty Had]; [by split|].
  rewrite <- Hd in Hn, Hl.
  destruct (dma_ioctl_works nmi l (table n) (index_table n) (cmd_posted cmd) c k Hok Hn Hl Hm Hhw Hty Had Hlen)
    as (cmds & k1 & k2 & E & _). cbv zeta in E.
  unfold kcall_int. rewrite E, kw_send. cbn [Z.eqb Z.ltb Z.compare]. by eexists _, _.
Qed.

Lemma inited_shape n n' nmi c : same_shape (table n) (table n') -> same_shape (index_table n) (index_table n') ->
  inited n nmi c -> inited n' nmi c.
Proof.
  intros (? & ? & ? & ? & E) (? & ? & ? & ? & Ex) (l & Hl & Hm & Ha). exists l. unfold tables_match.
  rewrite E, Ex. by split.
Qed.

Lemma stacked_after g g1 c tbl_hdl nmi hdl cc n desc n' :
  stacked g c tbl_hdl nmi hdl cc n desc -> ipv4_nat_cache g1 = ipv4_nat_cache g ->
  mem_desc n' = mem_desc n -> NatTables.nat_ok n' ->
  same_shape (table n) (table n') -> same_shape (index_table n) (index_table n') ->
  stacked (with_table g1 nmi hdl cc n') c tbl_hdl nmi hdl (set_tbls cc (zset (ip4_tbl cc) (hdl - 1) n')) n' desc.
Proof.
  intros [R Hi Hn Hd] Hg Hmd Hok Ht Hx. split; [by eapply ready_with_table|by eapply inited_shape|done|done].
Qed.

(** The mutex of the system below works. *)
Definition locks_work : Prop :=
  (forall m k, fst (pthread_mutex_lock m k) = 0) /\ (forall m k, fst (pthread_mutex_unlock m k) = 0).

Lemma below_lock m c k : locks_work ->
  fst (pthread_mutex_lock m (c, k)) = 0 /\ fst (snd (pthread_mutex_lock m (c, k))) = c /\
  fst (pthread_mutex_unlock m (c, k)) = 0 /\ fst (snd (pthread_mutex_unlock m (c, k))) = c.
Proof.
  intros [Hl Hu]. cbn [pthread_mutex_lock pthread_mutex_unlock kern_os]. unfold below. cbn [snd fst].
  specialize (Hl m k). specialize (Hu m k).
  destruct (pthread_mutex_lock m k) as [a k1], (pthread_mutex_unlock m k) as [b k2]. done.
Qed.

(** What an addition does on top of the driver. *)
Lemma stack_add g c k tbl_hdl nmi hdl cc n desc u pdn : kern_ok c -> locks_work ->
  stacked g c tbl_hdl nmi hdl cc n desc -> VALID_TBL_HDL tbl_hdl = true ->
  acceptable g u pdn -> public_ip pdn <> 0 -> 0 <= Hash_token g < 2 ^ 31 - 2 ^ 17 - 1 ->
  exists st h g' k' cc' n', ipa_NATI_add_ipv4_rule tbl_hdl u (g, (c, k)) = Ok ((st, h), (g', (c, k'))) /\
    stacked g' c tbl_hdl nmi hdl cc' n' desc /\
    pdns g' = pdns g /\ Hash_token g <= Hash_token g' <= Hash_token g + 2 /\
    ((st = 0 /\ exists new, h = Some (MakeEntryHdl (table n') new) /\ rules_of (table n) new = None /\
        forall i, rules_of (table n') i =
          if decide (i = new) then Some (rule_in_force pdn u 0) else rules_of (table n) i) \/
     (st <> 0 /\ h = Some 0 /\ no_room n /\ forall i, rules_of (table n') i = rules_of (table n) i)).
Proof.
  intros Hok Hlk S Hv Ha Hip Ht. pose proof (kern_nat_os_laws (K := K)) as NL.
  destruct (below_lock nat_mutex c k Hlk) as (Hl1 & Hl2 & _).
  destruct (add_rule_api_io g (c, k) tbl_hdl nmi hdl cc n desc u pdn (sk_ready _ _ _ _ _ _ _ _ S) Hv Ha Hip Ht Hl1)
    as (st & h & n' & g1 & [c1 k1] & Hrun & (tok & -> & Htok) & (Hnok & _ & Hmd & Hsh & Hshx & Hout) & Hio).
  destruct (Hio (fun s => fst s = c)) as [Hc Hst].
  { rewrite (sk_nmi _ _ _ _ _ _ _ _ S). apply kern_carries_out; [done|apply S..]. }
  { exact Hl2. }
  cbn [fst] in Hc. subst c1. cbv zeta in Hrun. destruct (below_lock nat_mutex c k1 Hlk) as (_ & _ & Hu1 & Hu2).
  rewrite Hu1 in Hrun. destruct (pthread_mutex_unlock nat_mutex (c, k1)) as [r [c2 k2]]. cbn [fst snd] in *. subst c2.
  assert (S' := stacked_after g (set_Hash_token g tok) c _ _ _ _ _ _ n' S eq_refl Hmd Hnok Hsh Hshx).
  destruct Hout as [(-> & new & -> & _ & Hfree & Hupd)|(Hne & -> & Hsame)]; cbn [negb Z.eqb] in Hrun.
  - eexists _, _, _, _, _, n'. split; [exact Hrun|]. split; [exact S'|]. split; [done|]. split; [done|]. left.
    split; [done|]. exists new. split_and!; try done. by destruct Hsh as (? & ? & ? & ? & ->).
  - rewrite (proj2 (Z.eqb_neq st 0)) in Hrun by done. cbn [negb] in Hrun.
    eexists _, _, _, _, _, n'. split; [exact Hrun|]. split; [exact S'|]. split; [done|]. split; [done|]. right.
    split_and!; try done. by destruct Hst.
Qed.

(** What the deletion of a rule in force does. *)
Lemma stack_del g c k tbl_hdl nmi hdl cc n desc i : kern_ok c -> locks_work ->
  stacked g c tbl_hdl nmi hdl cc n desc -> is_Some (rules_of (table n) i) ->
  exists g' k' cc' n', ipa_NATI_del_ipv4_rule tbl_hdl (MakeEntryHdl (table n) i) (g, (c, k)) = Ok (0, (g', (c, k'))) /\
    stacked g' c tbl_hdl nmi hdl cc' n' desc /\
    forall q, rules_of (table n') q = if decide (q = i) then None else rules_of (table n) q.
Proof.
  intros Hok Hlk S Hi. pose proof (kern_nat_os_laws (K := K)) as NL.
  destruct (below_lock nat_mutex c k Hlk) as (Hl1 & Hl2 & _).
  destruct (del_rule_api_io g (c, k) tbl_hdl nmi hdl cc n desc i (sk_ready _ _ _ _ _ _ _ _ S) Hi Hl1)
    as (st & n' & [c1 k1] & Hrun & (_ & Hmd & Hout) & Hio).
  destruct (Hio (fun s => fst s = c)) as [Hc ->].
  { rewrite (sk_nmi _ _ _ _ _ _ _ _ S). apply kern_carries_out; [done|apply S..]. }
  { exact Hl2. }
  destruct Hout as [(_ & Hnok & Hsh & Hshx & Hupd)|[[=] _]].
  cbn [fst] in Hc. subst c1. cbv zeta in Hrun. destruct (below_lock nat_mutex c k1 Hlk) as (_ & _ & Hu1 & Hu2).
  rewrite Hu1 in Hrun. destruct (pthread_mutex_unlock nat_mutex (c, k1)) as [r [c2 k2]]. cbn [fst snd negb Z.eqb] in *. subst c2.
  eexists _, _, _, n'. split; [exact Hrun|]. split; [|done].
  by apply (stacked_after g g c _ _ _ _ _ _ n' S).
Qed.
End stack.
