(* ===== verification/KernProps.v ===== *)
(** * Properties of the kernel's NAT driver, alone and under the library *)

From Stdlib Require Import ZArith Lia Ascii String.
From stdpp Require Import prelude gmap list numbers strings.
From S2P Require Import Prelude StWp Chain Bitfield IpaTable IpaTableRep Dma TableDma RuleTable Os MemDescriptor.
From S2P Require Import NatRule NatRuleLaws NatDrvi NatTables NatApi Ipv6ct Ipv6ctLaws Ipv6ctProps SimOs Demo.
From S2P Require Import KernHal KernCmd KernNat KernIoctl KernHalLaws KernInv KernSafe KernOs KernWork KernSim KernEntries.
From S2P Require Import Ipv6ctApi.

Local Open Scope Z_scope.

(** ** Safety *)
Section safety.
Context {K : Type} `{KL : KernLaws K}.
Implicit Types (s : kctx * K).

(** C3. In every state that sequences of mappings and ioctls of clients lead to from the
    driver's start, every further call, with any arguments of their C types and whatever
    the kernel and the hardware answer, is defined and ends: no callback is NULL and no
    array of descriptors, locations or public addresses is accessed outside its bounds.
    A mapped location has memory, an initialised one is mapped and its four tables are
    inside the memory allocated, and the hardware is only initialised when the active
    location has tables and there is a table of public addresses. *)
Theorem kern_safe s x : kreachable s -> kcall_typed x ->
  (exists r s', kcall_run x s = Ok (r, s') /\ kreachable s') /\
  let n := nat_mem (fst s) in
  (forall nmi l, zget (n_mem_loc n) nmi = Some l ->
     (l_is_mapped l = true -> used_of n nmi = true /\ l_vaddr l <> 0) /\
     (l_table_entries l <> 0 -> l_is_mapped l = true /\ tables_in l)) /\
  (d_is_hw_init (n_dev n) = true -> exists l, zget (n_mem_loc n) (n_active_table n) = Some l /\
     l_table_entries l <> 0 /\ (v4 -> pdn_base (n_pdn_mem n) <> 0)).
Proof.
  intros Hr Ht. pose proof (kreachable_ok s Hr) as Hok. split; [|split].
  - destruct s as [c k]. destruct (proj1 (wp_ok _ _ _) (kcall_ok x c k Hok Ht)) as (r & s' & E & _).
    exists r, s'. split; [done|]. by eapply kreach_call.
  - intros nmi l Hl. destruct (no_locs _ (proj1 Hok) _ _ Hl). split; [|done]. intros Hm. split; [|by apply lo_mapped].
    destruct (used_of _ nmi); [done|]. destruct lo_free; [done|congruence].
  - intros Hhw. destruct (no_hw _ (proj1 Hok) Hhw) as [(l & Hl & Hne) Hp]. eauto.
Qed.

(** The address in the location's memory that a table DMA command writes to. *)
Definition dma_address (l : ipa3_nat_mem_loc_data) (d : k_dma_one) : option Z :=
  match table_of_base_addr (k_base_addr d) with
  | Some IPA_NAT_BASE_TBL => Some (l_base_table_addr l + k_offset d)
  | Some IPA_NAT_EXPN_TBL => Some (l_expansion_table_addr l + k_offset d)
  | Some IPA_NAT_INDX_TBL => Some (l_index_table_addr l + k_offset d)
  | Some IPA_NAT_INDEX_EXPN_TBL => Some (l_index_table_expansion_addr l + k_offset d)
  | _ => None
  end.

Lemma extent_inside c l d t a : loc_ok (used_of (nat_mem c) (n_active_table (nat_mem c))) l ->
  l_table_entries l <> 0 -> table_of_base_addr (k_base_addr d) = Some t -> dma_address l d = Some a ->
  0 <= k_offset d < extent c l t -> k_offset d mod 2 = 0 ->
  l_vaddr l <= a /\ a + 2 <= l_vaddr l + l_table_alloc_size l.
Proof.
  intros Hlo Hte Ht Ha Ho He. destruct Hlo. destruct (lo_tables Hte) as [Hm [T1 T2 T3 T4]].
  destruct (lo_mapped Hm) as [_ Hb]. unfold dma_address in Ha. rewrite Ht in Ha. unfold table_in, U16_MAX in *.
  assert (Heven : exists q, k_offset d = 2 * q) by (exists (k_offset d / 2); apply Z.div_exact; lia).
  destruct Heven as [q Hq]. destruct t; try discriminate Ha; injection Ha as <-;
    unfold extent in Ho; cbn [table_extent hal_size] in Ho;
    rewrite ?(wrap_small 32 (l_table_entries l + 1)), wrap_small in Ho by lia; lia.
Qed.

(** C11. A table DMA command that the driver accepts for the active memory, at even
    offsets, writes its 16 bits inside the memory allocated there; the driver's state is
    as it was. *)
Theorem kern_dma_bounds c k pre entries mem_type dma s' l : kreachable (c, k) ->
  ioctl_typed (IocTableDmaCmd pre entries mem_type dma) ->
  ipa3_ioctl (IocTableDmaCmd pre entries mem_type dma) (c, k) = Ok (0, s') ->
  dma_nmi c mem_type = n_active_table (nat_mem c) ->
  zget (n_mem_loc (nat_mem c)) (n_active_table (nat_mem c)) = Some l ->
  (1 <= length dma <= 4)%nat /\ fst s' = c /\
  forall d a, d ∈ dma -> k_offset d mod 2 = 0 -> dma_address l d = Some a ->
    l_vaddr l <= a /\ a + 2 <= l_vaddr l + l_table_alloc_size l.
Proof.
  intros Hr Ht E Hnmi Hl. pose proof (kreachable_ok _ Hr) as Hok. cbn [fst] in Hok.
  assert (H : wp (ipa3_ioctl (IocTableDmaCmd pre entries mem_type dma)) (fun r s => r = 0 -> fst s = c /\
    exists l', zget (n_mem_loc (nat_mem c)) (dma_nmi c mem_type) = Some l' /\ (1 <= length dma <= 4)%nat /\
      Forall (dma_accepted c l') dma) (c, k)).
  { cbn [ipa3_ioctl]. apply wp_from_user; [done|]. intros k1. unfold ioctl_table_dma. apply wp_bind, wp_ksys.
    intros err k2 _. apply wp_if; intros Ee; zify_bool; [by apply wp_ret|].
    apply wp_bind, wp_if; intros _; [by wp_go|]. apply or_efault_ok, wp_table_dma; [done|].
    intros r k3 Hacc. wp_go. destruct (negb (r =? 0)) eqn:Er; [done|]. zify_bool. intros _. split; [done|]. by apply Hacc. }
  destruct (wp_result _ _ _ _ _ H E eq_refl) as (Hc & l' & Hl' & Hlen & Hacc).
  rewrite Hnmi, Hl in Hl'. injection Hl' as <-. split_and!; [apply Hlen..|done|]. intros d a Hd He Ha.
  rewrite Forall_forall in Hacc. destruct (Hacc d Hd) as (t & Ht' & Hi & Ho & Hhw).
  destruct Ht as (_ & _ & _ & _ & Hdt). rewrite Forall_forall in Hdt. destruct (Hdt d Hd) as (_ & _ & Hod & _).
  unfold u32_range in Hod.
  assert (Hct : is_ct t = false) by (unfold dma_address in Ha; rewrite Ht' in Ha; by destruct t). rewrite Hct in Hhw.
  destruct (no_hw _ (proj1 Hok) Hhw) as [(l0 & Hl0 & Hte) _]. rewrite Hl in Hl0. injection Hl0 as <-.
  eapply extent_inside; [by eapply no_locs; [apply Hok|]|done..|lia|done].
Qed.

(** C21. A deletion, of either type of memory, that succeeds leaves no memory of tables at
    all: both locations are as after the driver's start, the hardware counts as not
    initialised and the table of public addresses is gone.  One that fails leaves
    everything but the contents of the table of public addresses. *)
Theorem kern_del_nat i mem_type c k r s' : kreachable (c, k) -> byte_range i -> byte_range mem_type ->
  ipa3_ioctl (IocDelNatTable i mem_type) (c, k) = Ok (r, s') ->
  if r =? 0 then
    n_mem_loc (nat_mem (fst s')) = [loc_zero; loc_zero] /\
    n_ddr_in_use (nat_mem (fst s')) = false /\ n_sram_in_use (nat_mem (fst s')) = false /\
    d_is_hw_init (n_dev (nat_mem (fst s'))) = false /\
    (v4 -> pdn_base (n_pdn_mem (nat_mem (fst s'))) = 0)
  else r = - EFAULT /\ same_but_pdn c (fst s').
Proof.
  intros Hr Hi Hm E. pose proof (kreachable_ok _ Hr) as Hok. cbn [fst] in Hok.
  refine (wp_result _ (fun r s' => if r =? 0 then _ else _) _ _ _ _ E).
  cbn [ipa3_ioctl]. unfold from_user. apply wp_bind, wp_ksys. intros left k1 _.
  apply wp_if; intros Hl; [apply wp_ret; split; [done|apply same_but_pdn_refl]|].
  apply or_efault_ok, wp_del_nat; [done|]. intros r' c' k' _ Hbad Hidle Hpdn.
  destruct (r' =? 0) eqn:Er; zify_bool; cbn [negb Z.eqb].
  - destruct (Hidle Er) as (H1 & H2 & H3 & H4 & _). split_and!; auto.
  - split; [done|]. by apply Hbad.
Qed.

(** C24. The driver reads the library's memory as the library does: in every slot of the
    tables of a ready NAT table, and of an IPv6CT table, its own structures have the
    library's size, its test for a valid record holds exactly in the slots that have a
    rule in force (an index entry), also when the head of a chain is only marked as
    deleted, and its test for an empty record exactly in the free slots. *)
Theorem kern_entries :
  (forall g tbl_hdl nmi hdl c n desc, ready g tbl_hdl nmi hdl c n desc ->
    (forall i r, zget (tbl_mem (table n)) i = Some r ->
      kern_sees IPAHAL_NAT_IPV4 (pack rule_ws (rule_fields r)) sizeof_ipa_nat_rule
        (bool_decide (is_Some (rules_of (table n) i))) (negb (bool_decide (is_Some (contents (table n) i))))) /\
    (forall j x, zget (tbl_mem (index_table n)) j = Some x ->
      kern_sees IPAHAL_NAT_IPV4_INDEX (pack indx_ws (indx_fields x)) sizeof_ipa_nat_indx_tbl_rule
        (bool_decide (is_Some (contents (index_table n) j)))
        (negb (bool_decide (is_Some (contents (index_table n) j)))))) /\
  (forall g hdl n d i e, ct_ready g hdl n d -> v4 -> zget (tbl_mem (ct_table n)) i = Some e ->
    kern_sees IPAHAL_NAT_IPV6CT (pack ct_ws (ct_fields e)) sizeof_ipa_ipv6ct_hw_entry
      (bool_decide (is_Some (ct_rules (ct_table n) i))) (negb (bool_decide (is_Some (contents (ct_table n) i))))).
Proof.
  split.
  - intros g tbl_hdl nmi hdl c n desc R. destruct (rd_ok _ _ _ _ _ _ _ R) as (ch & xch & P). split.
    + intros i r Hr. replace (bool_decide (is_Some (rules_of (table n) i))) with
        (bool_decide (is_Some (live_at (table n) i))); [by apply (kern_sees_nat _ _ _ _ (po_t _ _ _ _ P))|].
      apply bool_decide_ext. unfold rules_of. destruct (live_at (table n) i); [|done]. by split; eexists.
    + intros j x Hx. by apply (kern_sees_index _ _ _ _ (po_x _ _ _ _ P)).
  - intros g hdl n d i e [_ _ _ _ _ [ch Ht]] Hv He. by apply (kern_sees_ct_table _ ch).
Qed.
End safety.

(** ** Calls when the system works *)
Section works.
Context {K : Type} `{KL : KernLaws K} `{KW : !KernWorks K}.
Implicit Types (c : kctx) (k : K).

(** C22. From every state that calls of clients lead to, in whatever way they left it, a
    client gets a table of DDR to work: the deletion, an allocation of the size the
    library computes for a table that does not fit into the SRAM, the mapping and the
    library's init request succeed one after the other when the system carries the
    commands out, and the driver then has the library's tables at the places the library
    means. *)
Theorem kern_recovers `{KS : !KernSends K} n mem_type vsize c k : kreachable (c, k) -> is_nmi mem_type ->
  geometry (table n) -> entry_size (table n) = 32 -> entry_size (index_table n) = 4 ->
  table_entries (index_table n) = table_entries (table n) ->
  expn_table_entries (index_table n) = expn_table_entries (table n) ->
  addr_offset (mem_desc n) = 0 -> 0 <= public_addr n < 2 ^ 32 -> nat_tbl_size < lib_size n ->
  exists s1 s2 s3 s4,
    ipa3_ioctl (IocDelNatTable 0 mem_type) (c, k) = Ok (0, s1) /\
    ipa3_ioctl (IocAllocNatTable (lib_size n) 0) s1 = Ok (0, s2) /\
    ipa3_nat_ipv6ct_mmap NatDev vsize s2 = Ok (0, s3) /\
    ipa3_ioctl (IocV4InitNat (v4_init_cmd IPA_NAT_MEM_IN_DDR n 0 false)) s3 = Ok (0, s4) /\
    inited n IPA_NAT_MEM_IN_DDR (fst s4).
Proof.
  intros Hr ? ? ? ? ? ? ? ? ?. pose proof (kreachable_ok _ Hr) as Hok.
  destruct (recovers n mem_type vsize c k Hok) as (s1 & s2 & s3 & s4 & E1 & E2 & E3 & E4 & _ & Hin); try done.
  by exists s1, s2, s3, s4.
Qed.

(** C12. The commands of the library pass: up to three writes to records of the tables
    that the driver was told of are accepted, the driver hands to the hardware exactly
    these writes in this order, between commands of other kinds, it returns what the
    hardware answers, and its own state does not change. *)
Theorem kern_dma_commands mem_type l t x ds c k : kreachable (c, k) -> is_nmi (dma_nmi c mem_type) ->
  zget (n_mem_loc (nat_mem c)) (dma_nmi c mem_type) = Some l -> tables_match l t x ->
  d_is_hw_init (n_dev (nat_mem c)) = true ->
  Forall lib_dma_typed ds -> Forall (addresses t x) ds -> (1 <= length ds <= 3)%nat ->
  exists cmds k1 k2,
    let n := Z.of_nat (length ds) in
    ipa3_ioctl (IocTableDmaCmd n n mem_type (map k_dma_of ds)) (c, k) =
      Ok (if fst (ipa3_send_cmd cmds k1) =? 0 then 0 else - EFAULT, (c, k2)) /\
    omap hw_table_dma cmds = ds.
Proof. intros Hr. by apply dma_ioctl_works, (kreachable_ok _ Hr). Qed.

(** C20. The init request of the library, for tables that have memory: the driver posts
    one init command, whose fields are the four places in that memory, the mask of the
    base table and the size of the expansion table cut to 10 bits; when the hardware takes it, the
    location has the library's tables and is the active one. *)
Theorem kern_init_table n nmi l focus c k : kreachable (c, k) -> is_nmi nmi ->
  sram_compatible c = true \/ (nmi = IPA_NAT_MEM_IN_DDR /\ sram_compatible c = false) ->
  zget (n_mem_loc (nat_mem c)) nmi = Some l -> backed n nmi l -> pdn_base (n_pdn_mem (nat_mem c)) <> 0 ->
  exists cmds k1 r s', ipa3_ioctl (IocV4InitNat (v4_init_cmd nmi n 0 focus)) (c, k) = Ok (r, s') /\
    r = (if fst (ipa3_send_cmd cmds k1) =? 0 then 0 else - EFAULT) /\
    omap hw_nat_init cmds = [lib_init_fields n nmi l] /\ (r = 0 -> inited n nmi (fst s')).
Proof.
  intros Hr Hn Hs Hl Hb Hp.
  destruct (proj1 (wp_ok _ _ _) (init_ioctl_works n nmi l focus c k (kreachable_ok _ Hr) Hn Hs Hl Hb Hp))
    as (r & s' & E & _ & cmds & k1 & Hrr & Ho & Hi). by exists cmds, k1, r, s'.
Qed.

(** C23. A public address: an index beyond the table is refused and nothing changes;
    otherwise the record of the index becomes one from which the driver reads back the
    client's values (the source metadata with bit 30 on version 4.1), which counts as
    in use unless the address is 0, and nothing else of the driver's state changes.
    Assumed is that memory can be had and commands succeed ([KernWorks], [KernSends]). *)
Theorem kern_modify_pdn `{KS : !KernSends K} e c k : kreachable (c, k) -> ioctl_typed (IocNatModifyPdn e) ->
  pdn_base (n_pdn_mem (nat_mem c)) <> 0 ->
  exists r p k', let c' := set_nat c (nat_set_pdn (nat_mem c) p) in
    ipa3_ioctl (IocNatModifyPdn e) (c, k) = Ok (r, (c', k')) /\
    if ioc_pdn_index e <? pdn_config_size / 16 then
      r = 0 /\ exists x, zget (pdn_tbl p) (ioc_pdn_index e) = Some x /\
        ipahal_nat_parse_entry hal IPAHAL_NAT_IPV4_PDN x =
          Ok (0, mk_hal_pdn (ioc_public_ip e) (pdn_src e) (ioc_dst_metadata e)) /\
        ipahal_nat_is_entry_valid hal IPAHAL_NAT_IPV4_PDN x = Ok (0, negb (ioc_public_ip e =? 0)) /\
        forall j, j <> ioc_pdn_index e -> zget (pdn_tbl p) j = zget (pdn_tbl (n_pdn_mem (nat_mem c))) j
    else r = - EFAULT /\ c' = c.
Proof.
  intros Hr Ht Hp. pose proof (kreachable_ok _ Hr) as Hok. cbn [fst] in Hok.
  destruct (proj1 (wp_ok _ _ _) (modify_pdn_works e c k Hok Ht Hp)) as (r & [c' k'] & E & p & Hc & Hout).
  cbn [fst] in Hc. subst c'. exists r, p, k'. cbv zeta. split; [done|].
  destruct (ioc_pdn_index e <? pdn_config_size / 16) eqn:Hidx.
  2: { destruct Hout as [-> ->]. by destruct c as [[]]. }
  destruct Hout as [-> Htbl]. split; [done|]. zify_bool. destruct (no_pdn _ (proj1 Hok) Hp) as [_ Hlen].
  unfold max_pdn in Hlen. destruct (pdn_record_reads e Ht). destruct Ht as ([Hi _] & _).
  exists (pdn_record e). rewrite Htbl. split_and!; [by apply zget_zset_eq; lia|done|done|].
  intros j Hj. by rewrite zget_zset_ne.
Qed.
End works.

(** ** Concrete runs *)
Definition demo_init (te ee mem_type : Z) (focus : bool) : ipa_ioc_v4_nat_init :=
  mk_v4_init 0 0 (32 * te) (32 * te + 32 * ee) (36 * te + 32 * ee) (te - 1) ee demo_ip mem_type focus.

(** A table of 258 records in DDR, then one of 20 in SRAM, which is active. *)
Definition two_tables : list kcall :=
  [CallIoctl IocGetNatInSramInfo;
   CallIoctl (IocAllocNatTable 9288 0); CallMmap NatDev 9288; CallIoctl (IocV4InitNat (demo_init 256 2 0 false));
   CallIoctl (IocAllocNatTable 720 0); CallMmap NatDev 4096; CallIoctl (IocV4InitNat (demo_init 16 4 1 false))].

(** An IPv6CT table of 65535 records in the memory of two. *)
Definition huge_ct : list kcall :=
  [CallIoctl (IocAllocIpv6ctTable 128 0); CallMmap CtDev 128;
   CallIoctl (IocInitIpv6ctTable (mk_ct_init 0 0 0 65535 2))].

Definition dma_call (mem_type base offset : Z) : kcall :=
  CallIoctl (IocTableDmaCmd 1 1 mem_type [mk_k_dma 0 base offset 7]).

(** The state after a sequence of calls from the start. *)
Definition kstate (KC : KernConf) (xs : list kcall) : kctx * ksim :=
  match kruns ksim_ops KC xs (kboot ksim_ops KC) with Some (_, s) => s | None => kboot ksim_ops KC end.

Lemma kstate_reachable ep sram xs : Forall kcall_typed xs ->
  kreachable (KC := ksim_conf_of ep sram) (kstate (ksim_conf_of ep sram) xs).
Proof.
  intros Ht. unfold kstate. destruct (kruns _ _ _ _) as [[rs s]|] eqn:E; [|apply kboot_reachable].
  by eapply kruns_reachable; [apply kboot_reachable|..].
Qed.

(** Types of concrete calls. *)
Ltac typed_value :=
  unfold dma_call; cbn [kcall_typed ioctl_typed];
  unfold init_typed, ct_init_typed, byte_range, u16_range, u32_range, u64_range;
  repeat lazymatch goal with
  | |- Forall _ [] => apply List.Forall_nil
  | |- Forall _ _ => apply List.Forall_cons; [unfold dma_typed, byte_range, u16_range, u32_range|]
  | |- _ /\ _ => split
  | |- True => exact I
  end; vm_compute; congruence.
Ltac typed_calls := repeat (apply List.Forall_cons; [typed_value|]); apply List.Forall_nil.

Lemma two_tables_typed : Forall kcall_typed two_tables.
Proof. typed_calls. Qed.
Lemma two_tables_reachable : kreachable (kstate ksim_conf two_tables).
Proof. exact (kstate_reachable (-1) 4096 _ two_tables_typed). Qed.

(** Memory for the table of [Demo], in DDR, and the library's init request for it. *)
Definition demo_memory : list kcall :=
  [CallIoctl (IocAllocNatTable (lib_size demo_n) 0); CallMmap NatDev (lib_size demo_n)].
Definition demo_calls : list kcall :=
  demo_memory ++ [CallIoctl (IocV4InitNat (v4_init_cmd IPA_NAT_MEM_IN_DDR demo_n 0 false))].

Lemma demo_calls_typed : Forall kcall_typed demo_calls.
Proof. typed_calls. Qed.
Lemma demo_memory_typed : Forall kcall_typed demo_memory.
Proof. typed_calls. Qed.
Lemma demo_calls_reachable : kreachable (kstate ksim_conf demo_calls).
Proof. exact (kstate_reachable (-1) 4096 _ demo_calls_typed). Qed.
Lemma demo_memory_reachable : kreachable (kstate ksim_conf demo_memory).
Proof. exact (kstate_reachable (-1) 4096 _ demo_memory_typed). Qed.

(** Two gaps in the checks: with tables in both memories a command that names the
    memory that is not active is measured against the larger table there, but the
    hardware writes to the active one, outside its memory; and the init command of
    IPv6CT accepts 65535 entries, which it counts as none, so that commands up to 4 MB
    behind the table are accepted. *)
Theorem kern_dma_unchecked :
  (exists s l, kruns ksim_ops ksim_conf (two_tables ++ [dma_call 0 0 8000]) (kboot ksim_ops ksim_conf) =
       Some ([0; 0; 0; 0; 0; 0; 0; 0], s) /\
     n_active_table (nat_mem (fst s)) = IPA_NAT_MEM_IN_SRAM /\
     zget (n_mem_loc (nat_mem (fst s))) IPA_NAT_MEM_IN_SRAM = Some l /\
     l_vaddr l + l_table_alloc_size l < l_base_table_addr l + 8000) /\
  (exists s, kruns ksim_ops ksim_conf (huge_ct ++ [dma_call 0 4 4000000]) (kboot ksim_ops ksim_conf) =
       Some ([0; 0; 0; 0], s) /\
     let d := ipv6ct_mem (fst s) in d_vaddr d + d_table_alloc_size d < d_base_table_addr d + 4000000).
Proof.
  split.
  - eexists _, _. split; [vm_compute; reflexivity|]. split; [vm_compute; reflexivity|].
    split; [vm_compute; reflexivity|]. vm_compute. reflexivity.
  - eexists. split; [vm_compute; reflexivity|]. vm_compute. reflexivity.
Qed.

(** When there is no memory for the table of public addresses, the allocation fails
    and gives the memory of the table back, but the memory stays marked as in use: with
    memory available again the next allocation is refused all the same, until a client
    deletes the table it never had.  A second allocation of IPv6CT memory is not refused
    and the first is lost for good: the deletion frees only the second. *)
Theorem kern_alloc_gaps :
  let alloc := CallIoctl (IocAllocNatTable 9288 0) in
  let del := CallIoctl (IocDelNatTable 0 0) in
  let alloc_ct := CallIoctl (IocAllocIpv6ctTable 128 0) in
  (exists s1 s2 s3, kruns (ksim_ops_of (Some 2%nat)) ksim_conf [alloc] (kboot ksim_ops ksim_conf) =
       Some ([- EFAULT], s1) /\ ks_live (snd s1) = ks_live (snd (kboot ksim_ops ksim_conf)) /\
     kruns ksim_ops ksim_conf [alloc; alloc] s1 = Some ([- EFAULT; - EFAULT], s2) /\
     kruns ksim_ops ksim_conf [del; alloc] s2 = Some ([0; 0], s3)) /\
  (exists s, kruns ksim_ops ksim_conf [alloc_ct; alloc_ct; CallIoctl (IocDelIpv6ctTable 0)]
       (kboot ksim_ops ksim_conf) = Some ([0; 0; 0], s) /\
     length (ks_live (snd s)) = S (length (ks_live (snd (kboot ksim_ops ksim_conf))))).
Proof.
  cbv zeta. split.
  - eexists _, _, _. split; [vm_compute; reflexivity|]. split; [vm_compute; reflexivity|].
    split; [vm_compute; reflexivity|]. vm_compute. reflexivity.
  - eexists. split; [vm_compute; reflexivity|]. vm_compute. reflexivity.
Qed.

(** ** The theorems at concrete states *)
Definition addr_table (s : kctx * ksim) : option ipa3_nat_mem_loc_data :=
  zget (n_mem_loc (nat_mem (fst s))) (n_active_table (nat_mem (fst s))).
Definition loc_of (s : kctx * ksim) (nmi : Z) : ipa3_nat_mem_loc_data :=
  default loc_zero (zget (n_mem_loc (nat_mem (fst s))) nmi).

Lemma kern_safe_witness : exists r s', kcall_run (dma_call 0 0 8000) (kstate ksim_conf two_tables) = Ok (r, s') /\
  kreachable s'.
Proof.
  destruct (kern_safe (kstate ksim_conf two_tables) (dma_call 0 0 8000)) as [H _];
    [apply two_tables_reachable|typed_value|exact H].
Defined.

Lemma kern_dma_bounds_witness : exists l, addr_table (kstate ksim_conf two_tables) = Some l /\
  l_vaddr l <= l_base_table_addr l + 126 /\ l_base_table_addr l + 126 + 2 <= l_vaddr l + l_table_alloc_size l.
Proof.
  eexists. split; [vm_compute; reflexivity|].
  set (s := kstate ksim_conf two_tables). set (d := mk_k_dma 0 0 126 7).
  destruct (ipa3_ioctl (IocTableDmaCmd 1 1 1 [d]) s) as [[r s']| |] eqn:E; [|vm_compute in E; discriminate E..].
  assert (Hr : r = 0) by (vm_compute in E; congruence). subst r.
  destruct s as [c k] eqn:Es.
  destruct (kern_dma_bounds c k 1 1 1 [d] s' (loc_of (kstate ksim_conf two_tables) 1)) as (_ & _ & H).
  - rewrite <- Es. apply two_tables_reachable.
  - typed_value.
  - exact E.
  - change c with (fst (c, k)). rewrite <- Es. vm_compute. reflexivity.
  - change c with (fst (c, k)). rewrite <- Es. vm_compute. reflexivity.
  - apply (H d); [by left|reflexivity|vm_compute; reflexivity].
Defined.

Lemma demo_kern_geometry : geometry (table demo_n).
Proof. destruct (rd_ok _ _ _ _ _ _ _ demo_ready) as (ch & xch & H). apply (po_t _ _ _ _ H). Qed.

(** SRAM too small for the table of [Demo]. *)
Definition small_conf : KernConf := ksim_conf_of (-1) 256.

Lemma kern_recovers_witness : exists s1 s2 s3 s4,
  ipa3_ioctl (KC := small_conf) (IocDelNatTable 0 1) (kstate small_conf two_tables) = Ok (0, s1) /\
  ipa3_ioctl (KC := small_conf) (IocAllocNatTable (lib_size demo_n) 0) s1 = Ok (0, s2) /\
  ipa3_nat_ipv6ct_mmap NatDev 4096 s2 = Ok (0, s3) /\
  ipa3_ioctl (KC := small_conf) (IocV4InitNat (v4_init_cmd IPA_NAT_MEM_IN_DDR demo_n 0 false)) s3 = Ok (0, s4) /\
  inited demo_n IPA_NAT_MEM_IN_DDR (fst s4).
Proof.
  pose proof (kstate_reachable (-1) 256 two_tables two_tables_typed) as Hr. fold small_conf in Hr.
  destruct (kstate small_conf two_tables) as [c k].
  apply (kern_recovers (KC := small_conf) (KL := ksim_laws_of None (-1) 256) (KW := ksim_works (-1) 256) demo_n 1 4096 c k Hr);
    [by right|apply demo_kern_geometry|vm_compute; try reflexivity; split; congruence..].
Defined.

Definition demo_ds : list ipa_ioc_nat_dma_one :=
  [mk_dma_one 0 IPA_NAT_BASE_TBL 82 1; mk_dma_one 0 IPA_NAT_INDX_TBL 8 2; mk_dma_one 0 IPA_NAT_EXPN_TBL 8 3].

Lemma demo_addressed : Forall (addresses (table demo_n) (index_table demo_n)) demo_ds.
Proof.
  apply List.Forall_cons; [left; eexists; vm_compute; reflexivity|].
  apply List.Forall_cons; [right; eexists; vm_compute; reflexivity|].
  apply List.Forall_cons; [left; eexists; vm_compute; reflexivity|apply List.Forall_nil].
Qed.

Lemma demo_match nmi : nmi = IPA_NAT_MEM_IN_DDR ->
  tables_match (loc_of (kstate ksim_conf demo_calls) nmi) (table demo_n) (index_table demo_n).
Proof. intros ->. unfold tables_match. vm_compute. split_and!; reflexivity || congruence. Qed.

Lemma kern_dma_commands_witness : exists cmds k2,
  let s := kstate ksim_conf demo_calls in
  ipa3_ioctl (IocTableDmaCmd 3 3 0 (map k_dma_of demo_ds)) s = Ok (0, (fst s, k2)) /\ omap hw_table_dma cmds = demo_ds.
Proof.
  pose proof demo_calls_reachable as Hr.
  destruct (kstate ksim_conf demo_calls) as [c k] eqn:E.
  assert (Hc : c = fst (kstate ksim_conf demo_calls)) by by rewrite E.
  destruct (kern_dma_commands 0 (loc_of (kstate ksim_conf demo_calls) 0) (table demo_n) (index_table demo_n)
    demo_ds c k Hr) as (cmds & k1 & k2 & H1 & H2).
  - left. unfold dma_nmi. by case_match.
  - rewrite Hc. vm_compute. reflexivity.
  - by apply demo_match.
  - rewrite Hc. vm_compute. reflexivity.
  - repeat (apply List.Forall_cons; [vm_compute; split_and!; congruence|]); apply List.Forall_nil.
  - apply demo_addressed.
  - cbn. lia.
  - exists cmds, k2. by split.
Defined.

Lemma demo_backed : backed demo_n IPA_NAT_MEM_IN_DDR (loc_of (kstate ksim_conf demo_memory) IPA_NAT_MEM_IN_DDR).
Proof.
  split; [apply demo_kern_geometry|vm_compute; try reflexivity; try split; try congruence..].
Qed.

Lemma kern_init_table_witness : exists cmds s',
  let s := kstate ksim_conf demo_memory in
  ipa3_ioctl (IocV4InitNat (v4_init_cmd IPA_NAT_MEM_IN_DDR demo_n 0 false)) s = Ok (0, s') /\
  omap hw_nat_init cmds = [lib_init_fields demo_n IPA_NAT_MEM_IN_DDR (loc_of s IPA_NAT_MEM_IN_DDR)] /\
  inited demo_n IPA_NAT_MEM_IN_DDR (fst s').
Proof.
  pose proof demo_memory_reachable as Hr.
  destruct (kstate ksim_conf demo_memory) as [c k] eqn:E.
  assert (Hc : c = fst (kstate ksim_conf demo_memory)) by by rewrite E.
  destruct (kern_init_table demo_n IPA_NAT_MEM_IN_DDR (loc_of (kstate ksim_conf demo_memory) IPA_NAT_MEM_IN_DDR)
    false c k Hr) as (cmds & k1 & r & s' & H1 & H2 & H3 & H4).
  - by left.
  - right. rewrite Hc. split; vm_compute; reflexivity.
  - rewrite Hc. vm_compute. reflexivity.
  - apply demo_backed.
  - rewrite Hc. vm_compute. congruence.
  - cbn in H2. subst r. exists cmds, s'. rewrite E in H3. by split_and!; [|exact H3|apply H4].
Defined.

Lemma kern_del_nat_witness : exists s', ipa3_ioctl (IocDelNatTable 0 0) (kstate ksim_conf two_tables) = Ok (0, s') /\
  n_mem_loc (nat_mem (fst s')) = [loc_zero; loc_zero].
Proof.
  pose proof two_tables_reachable as Hr.
  destruct (ipa3_ioctl (IocDelNatTable 0 0) (kstate ksim_conf two_tables)) as [[r s']| |] eqn:E;
    [|vm_compute in E; discriminate E..].
  assert (Hr0 : r = 0) by (vm_compute in E; congruence). subst r. exists s'. split; [done|].
  destruct (kstate ksim_conf two_tables) as [c k] eqn:Es.
  destruct (kern_del_nat 0 0 c k 0 s' Hr) as [H _]; [typed_value|typed_value|exact E|exact H].
Defined.

Lemma kern_modify_pdn_witness : exists r s', let s := kstate ksim_conf demo_memory in
  ipa3_ioctl (IocNatModifyPdn (mk_ioc_pdn 2 demo_ip 5 6)) s = Ok (r, s') /\ r = 0.
Proof.
  pose proof demo_memory_reachable as Hr.
  destruct (kstate ksim_conf demo_memory) as [c k] eqn:E.
  assert (Hc : c = fst (kstate ksim_conf demo_memory)) by by rewrite E.
  destruct (kern_modify_pdn (mk_ioc_pdn 2 demo_ip 5 6) c k Hr) as (r & p & k' & H1 & H2).
  - typed_value.
  - rewrite Hc. vm_compute. congruence.
  - exists r, (set_nat c (nat_set_pdn (nat_mem c) p), k'). split; [exact H1|]. apply H2.
Defined.

Lemma kern_entries_witness : exists r, zget (tbl_mem (table demo_n1)) demo_slot = Some r /\
  kern_sees IPAHAL_NAT_IPV4 (pack rule_ws (rule_fields r)) sizeof_ipa_nat_rule true
    (negb (bool_decide (is_Some (contents (table demo_n1) demo_slot)))).
Proof.
  destruct demo_ready1 as [R Hr].
  destruct (zget (tbl_mem (table demo_n1)) demo_slot) as [r|] eqn:E; [|vm_compute in E; discriminate].
  exists r. split; [reflexivity|].
  pose proof (proj1 (proj1 (kern_entries (KL := ksim_laws_of None (-1) 4096)) demo_g1 demo_hdl 0 1 demo_cache1
    demo_n1 demo_desc R) demo_slot r E) as H.
  rewrite (bool_decide_true _ Hr) in H. exact H.
Defined.
