(* ===== verification/StackProps.v ===== *)
(** * Properties of the library and the kernel driver together *)

From Stdlib Require Import ZArith Lia Ascii String.
From stdpp Require Import prelude gmap list numbers strings.
From S2P Require Import Prelude StWp Chain Bitfield IpaTable IpaTableRep Dma TableDma RuleTable Os NatUtils MemDescriptor.
From S2P Require Import KernHal KernCmd KernNat KernIoctl KernHalLaws KernInv KernSafe KernOs KernWork KernSim KernStack.
From S2P Require Import NatRule NatRuleLaws NatDrvi NatTables NatDrviProps NatDrviDel NatApi NatTblApi SimOs Demo.

Local Open Scope Z_scope.

Section stack.
Context {K : Type} `{KL : KernLaws K} `{KW : !KernWorks K} `{KS : !KernSends K}.
Context `{Base : OsOps K} `{BaseNat : !NatOs K} `{BL : !NatOsLaws} `{DF : DevFiles K}.
Implicit Types (g : nat_globals) (c : kctx) (k : K).

#[local] Existing Instance kern_os.
#[local] Existing Instance kern_nat_os.

(** C5. The library's addition of a rule on top of the kernel driver, when the driver
    was told of the library's table: the driver accepts and posts every command, so that
    the only reason for a failure is that a table has no free record behind its base
    part, and then no rule changes; otherwise exactly the new rule is there, at a slot
    that was free, with the handle of that slot.  Either way the library's table stays
    ready, the driver's state is as it was, and the two still agree.  Assumed is that locks
    work, memory can be had and commands to the hardware succeed ([locks_work],
    [KernWorks], [KernSends]). *)
Theorem stack_add_rule g c k0 k tbl_hdl nmi hdl cc n desc u pdn : kreachable (c, k0) -> locks_work ->
  stacked g c tbl_hdl nmi hdl cc n desc -> VALID_TBL_HDL tbl_hdl = true ->
  acceptable g u pdn -> public_ip pdn <> 0 -> 0 <= Hash_token g < 2 ^ 31 - 2 ^ 17 - 1 ->
  exists st h g' k' cc' n', ipa_NATI_add_ipv4_rule tbl_hdl u (g, (c, k)) = Ok ((st, h), (g', (c, k'))) /\
    stacked g' c tbl_hdl nmi hdl cc' n' desc /\
    pdns g' = pdns g /\ Hash_token g <= Hash_token g' <= Hash_token g + 2 /\
    ((st = 0 /\ exists new, h = Some (MakeEntryHdl (table n') new) /\ rules_of (table n) new = None /\
        forall i, rules_of (table n') i =
          if decide (i = new) then Some (rule_in_force pdn u 0) else rules_of (table n) i) \/
     (st <> 0 /\ h = Some 0 /\ no_room n /\ forall i, rules_of (table n') i = rules_of (table n) i)).
Proof. intros Hr. by apply stack_add, (kreachable_ok _ Hr). Qed.

(** C6. The library's deletion of a rule in force on top of the kernel driver always
    succeeds and removes exactly that rule; the table stays ready, the driver's state is
    as it was, and the two still agree.  Assumed is that locks work, memory can be had and
    commands to the hardware succeed ([locks_work], [KernWorks], [KernSends]). *)
Theorem stack_del_rule g c k0 k tbl_hdl nmi hdl cc n desc i : kreachable (c, k0) -> locks_work ->
  stacked g c tbl_hdl nmi hdl cc n desc -> is_Some (rules_of (table n) i) ->
  exists g' k' cc' n', ipa_NATI_del_ipv4_rule tbl_hdl (MakeEntryHdl (table n) i) (g, (c, k)) = Ok (0, (g', (c, k'))) /\
    stacked g' c tbl_hdl nmi hdl cc' n' desc /\
    forall q, rules_of (table n') q = if decide (q = i) then None else rules_of (table n) q.
Proof. intros Hr. by apply stack_del, (kreachable_ok _ Hr). Qed.
End stack.

(** ** Concrete runs *)
(** [ipa_NATI_add_ipv4_tbl] in DDR. *)
Definition stack_create (num : Z) (s : kctx * ksim) : res (Z * Z * (nat_globals * (kctx * ksim))) :=
  ipa_NATI_add_ipv4_tbl (Os := kern_os) (NOs := kern_nat_os) 0 demo_ip num (globals0, s).
(** On the driver just started. *)
Notation stack_table num := (stack_create num (kboot ksim_ops ksim_conf)).
Definition stack_state : nat_globals * (kctx * ksim) :=
  run_state (stack_table 200) (globals0, kboot ksim_ops ksim_conf).
Notation stack_rule := (ipa_NATI_add_ipv4_rule (Os := kern_os) (NOs := kern_nat_os) 1 demo_rule stack_state).

(** What the hardware was sent, list by list. *)
Definition sent_dma (s : nat_globals * (kctx * ksim)) : list (list ipa_ioc_nat_dma_one) :=
  map (omap hw_table_dma) (ks_sent (snd (snd s))).

(** A table of DDR that would fit into the SRAM for NAT can never be created: the
    driver chooses the memory by the size and puts it into SRAM, but the library's init
    request names DDR, where nothing is mapped, and is refused; the library gives up.  A
    larger table is created, and the addition of a rule reaches the hardware as two
    writes: the rule's flags and the index entry. *)
Theorem ddr_needs_size :
  (exists s, stack_table 20 = Ok ((-1, 0), s)) /\
  (exists s, stack_table 200 = Ok ((0, 1), s)) /\
  exists h s, stack_rule = Ok ((0, Some h), s) /\
    exists d x, sent_dma s = [[]; [d; x]] /\
      dma_base_addr d = IPA_NAT_BASE_TBL /\ dma_base_addr x = IPA_NAT_INDX_TBL /\
      dma_data x = dma_offset d / sizeof_ipa_nat_rule.
Proof.
  split; [|split].
  - eexists. vm_compute. reflexivity.
  - eexists. vm_compute. reflexivity.
  - eexists _, _. split; [vm_compute; reflexivity|]. eexists _, _. split; [vm_compute; reflexivity|].
    split; [vm_compute; reflexivity|]. split; vm_compute; reflexivity.
Qed.

(** The table created there. *)
Definition stack_cache : ipa_nat_cache := default cache_zero (zget (ipv4_nat_cache (fst stack_state)) 0).
Definition stack_n : ipa_nat_ip4_table_cache := default nat_table_zero (zget (ip4_tbl stack_cache) 0).
Definition stack_desc : ipa_descriptor := mk_descriptor 3 16.
(** The calls of the driver that the library made. *)
Definition stack_calls : list kcall :=
  [CallIoctl IocGetNatInSramInfo; CallIoctl (IocAllocNatTable (lib_size stack_n) 0);
   CallMmap NatDev (lib_size stack_n); CallIoctl (IocV4InitNat (v4_init_cmd 0 stack_n 0 false))].


Ltac typed := repeat (apply List.Forall_cons; [cbn [kcall_typed ioctl_typed];
  unfold init_typed, byte_range, u16_range, u32_range, u64_range; repeat split; vm_compute; congruence|]);
  apply List.Forall_nil.

Lemma stack_reachable : kreachable (snd stack_state).
Proof.
  eapply (kruns_reachable ksim_ops ksim_conf stack_calls (kboot ksim_ops ksim_conf) [0; 0; 0; 0]);
    [exact (kboot_reachable (-1) 4096)|unfold stack_calls; typed|vm_compute; reflexivity].
Qed.

(** A table created on top of the driver is ready. *)
Lemma created_ready (s : kctx * ksim) g1 s1 :
  stack_create 200 s = Ok ((0, 1), (g1, s1)) ->
  exists c n desc, ready g1 1 0 1 c n desc.
Proof.
  intros H. unfold stack_create in H. destruct (add_tbl_api (Os := kern_os) (NOs := kern_nat_os) (NL := kern_nat_os_laws) globals0
    s 0 demo_ip 200 pdn_zero) as (st & hdl & g2 & k1 & Hrun & Hout);
    [done|by apply vacant_idle, vacant0; left|done|done|by destruct s|].
  cbv zeta in Hrun. rewrite H in Hrun. injection Hrun as Hst <- <- _.
  destruct Hout as [(_ & _ & Hadd)|(_ & H1 & _)]; [|discriminate H1].
  destruct Hadd as (c & n & desc & R & _). exists c, n, desc. exact R.
Qed.

Lemma ok_run {S} (r : res (Z * Z * S)) (s0 : S) x : run_result r (1, 0) = x -> x <> (1, 0) -> r = Ok (x, run_state r s0).
Proof. destruct r as [[a s]| |]; cbn; congruence. Qed.

Lemma stack_table_run : stack_table 200 = Ok ((0, 1), stack_state).
Proof. unfold stack_state. apply ok_run; [vm_compute; reflexivity|discriminate]. Qed.

Lemma split3 {A B C} (s : A * (B * C)) : s = (fst s, (fst (snd s), snd (snd s))).
Proof. by destruct s as [a [b c]]. Qed.

Lemma stack_ready : ready (fst stack_state) 1 0 1 stack_cache stack_n stack_desc.
Proof.
  pose proof stack_table_run as Hrun. rewrite (split3 stack_state) in Hrun. 
  destruct (created_ready (kboot ksim_ops ksim_conf) _ _ Hrun) as (c & n & desc & R).
  pose proof (rd_at _ _ _ _ _ _ _ R) as [Hc Hn].
  assert (c = stack_cache) as -> by (unfold stack_cache; by rewrite Hc).
  assert (n = stack_n) as -> by (unfold stack_n; change 0 with (1 - 1); by rewrite Hn).
  assert (desc = stack_desc) as ->; [|done].
  pose proof (rd_desc _ _ _ _ _ _ _ R) as Hd.
  assert (He : ipa_desc stack_cache = Some stack_desc) by (vm_compute; reflexivity). congruence.
Qed.

Lemma stack_stacked : stacked (fst stack_state) (fst (snd stack_state)) 1 0 1 stack_cache stack_n stack_desc.
Proof.
  split; [apply stack_ready| |vm_compute; reflexivity|split; [by left|vm_compute; reflexivity]].
  eexists. split; [vm_compute; reflexivity|]. split; [|split; vm_compute; reflexivity].
  unfold tables_match. vm_compute. split_and!; reflexivity || congruence.
Qed.

Lemma ksim_locks : locks_work (K := ksim).
Proof. by split. Qed.

Lemma stack_acceptable : acceptable (fst stack_state) demo_rule demo_pdn.
Proof.
  split_and!; [apply demo_acceptable|done|vm_compute; reflexivity|done|vm_compute; reflexivity].
Qed.

Lemma stack_add_rule_witness : exists h g1 c1 n1 new, stack_rule = Ok ((0, h), (g1, c1)) /\
  rules_of n1 new = Some (rule_in_force demo_pdn demo_rule 0).
Proof.
  destruct (stack_add_rule (fst stack_state) (fst (snd stack_state)) (snd (snd stack_state)) (snd (snd stack_state)) 1 0 1 stack_cache
    stack_n stack_desc demo_rule demo_pdn) as (st & h & g1 & k1 & cc1 & n1 & Hrun & _ & _ & _ & Hout).
  - pose proof stack_reachable as H. rewrite (surjective_pairing (snd stack_state)) in H. exact H.
  - apply ksim_locks.
  - apply stack_stacked.
  - reflexivity.
  - apply stack_acceptable.
  - discriminate.
  - split; vm_compute; congruence.
  - rewrite <- split3 in Hrun.
    assert (Hst : run_result stack_rule (1, None) = (0, Some 408)) by (vm_compute; reflexivity).
    rewrite Hrun in Hst. injection Hst as -> ->.
    destruct Hout as [(_ & new & _ & _ & Hupd)|[H _]]; [|by destruct H].
    eexists _, _, _, (table n1), new. split; [exact Hrun|]. rewrite Hupd. by rewrite decide_True.
Defined.

Lemma stack_ok : kern_ok (fst (snd stack_state)).
Proof. exact (kreachable_ok (snd stack_state) stack_reachable). Qed.

Lemma stack_rule_status : fst (run_result stack_rule (1, None)) = 0.
Proof. vm_compute. reflexivity. Qed.

(** A state on which the wrapper added a rule still carries the table, with the rule in force. *)
Lemma add_leaves g c k tbl_hdl nmi hdl cc n desc u pdn : kern_ok c -> locks_work (K := ksim) ->
  stacked g c tbl_hdl nmi hdl cc n desc -> VALID_TBL_HDL tbl_hdl = true ->
  acceptable g u pdn -> public_ip pdn <> 0 -> 0 <= Hash_token g < 2 ^ 31 - 2 ^ 17 - 1 ->
  fst (run_result (ipa_NATI_add_ipv4_rule (Os := kern_os) (NOs := kern_nat_os) tbl_hdl u (g, (c, k))) (1, None)) = 0 ->
  exists h g' k' cc' n' new, ipa_NATI_add_ipv4_rule (Os := kern_os) (NOs := kern_nat_os) tbl_hdl u (g, (c, k)) =
      Ok ((0, h), (g', (c, k'))) /\
    stacked g' c tbl_hdl nmi hdl cc' n' desc /\ rules_of (table n') new = Some (rule_in_force pdn u 0).
Proof.
  intros Hok Hl Hs Hv Ha Hp Hh Hst.
  destruct (stack_add g c k tbl_hdl nmi hdl cc n desc u pdn Hok Hl Hs Hv Ha Hp Hh)
    as (st & h & g1 & k1 & cc1 & n1 & Hrun & S1 & _ & _ & Hout).
  rewrite Hrun in Hst. cbn in Hst. subst st.
  destruct Hout as [(_ & new & _ & _ & Hupd)|[H _]]; [|by destruct H].
  exists h, g1, k1, cc1, n1, new. split_and!; [done|done|]. by rewrite Hupd, decide_True.
Qed.

Lemma stack_del_rule_witness : exists h g1 s1 s2 n1 n2 new, stack_rule = Ok ((0, h), (g1, s1)) /\
  ipa_NATI_del_ipv4_rule (Os := kern_os) (NOs := kern_nat_os) 1 (MakeEntryHdl (table n1) new) (g1, s1) = Ok (0, s2) /\
  is_Some (rules_of (table n1) new) /\ rules_of (table n2) new = None.
Proof.
  pose proof stack_reachable as Hr. rewrite (surjective_pairing (snd stack_state)) in Hr.
  destruct (add_leaves (fst stack_state) (fst (snd stack_state)) (snd (snd stack_state)) 1 0 1 stack_cache
    stack_n stack_desc demo_rule demo_pdn) as (h & g1 & k1 & cc1 & n1 & new & Hrun & S1 & Hin).
  - exact stack_ok.
  - apply ksim_locks.
  - apply stack_stacked.
  - reflexivity.
  - apply stack_acceptable.
  - discriminate.
  - split; vm_compute; congruence.
  - rewrite <- split3. exact stack_rule_status.
  - rewrite <- split3 in Hrun.
    destruct (stack_del_rule g1 (fst (snd stack_state)) (snd (snd stack_state)) k1 1 0 1 cc1 n1 stack_desc new Hr ksim_locks S1)
      as (g2 & k2 & cc2 & n2 & Hdel & _ & Hgone); [rewrite Hin; eexists; reflexivity|].
    exists h, g1, (fst (snd stack_state), k1), (g2, (fst (snd stack_state), k2)), n1, n2, new.
    split; [exact Hrun|]. split; [exact Hdel|].
    split; [rewrite Hin; eexists; reflexivity|]. rewrite Hgone, decide_True by reflexivity. reflexivity.
Defined.
