(* ===== verification/Act.v ===== *)
(** * Threads of atomic sections

    Code that runs concurrently is a sequence of sections, each of which is atomic: it
    holds a lock, or it is one operation on shared data.  [act S A] is such a sequence
    over the shared state [S] with a result in [A]; the same definition is run to its end
    ([run], where a wait lets a worker make progress) or interleaved with other threads
    ([pool_step]). *)

From Stdlib Require Import ZArith Lia.
From stdpp Require Import prelude list numbers relations.
From S2P Require Import Prelude StWp.

Inductive act (S A : Type) : Type :=
  | Ret (a : A)
  (** A section; its last part chooses how to go on. *)
  | Sec (m : S -> res (act S A * S))
  (** A section that blocks until its condition holds. *)
  | When (c : S -> bool) (m : S -> res (act S A * S)).
Arguments Ret {S A} _.
Arguments Sec {S A} _.
Arguments When {S A} _ _.

(** Blocks until the condition holds. *)
Definition Await {S A} (c : S -> bool) (t : act S A) : act S A := When c (fun s => Ok (t, s)).

(** Induction through the threads a section can go on with. *)
Definition act_induction {S A} (P : act S A -> Prop) (HR : forall a, P (Ret a))
    (HS : forall m, (forall s, match m s with Ok (t, _) => P t | _ => True end) -> P (Sec m))
    (HW : forall c m, (forall s, match m s with Ok (t, _) => P t | _ => True end) -> P (When c m)) : forall t, P t :=
  fix go t :=
    let next (m : S -> res (act S A * S)) s :=
      match m s as r return match r with Ok (t, _) => P t | _ => True end with
      | Ok (t, _) => go t
      | UB => I
      | Diverge => I
      end in
    match t with
    | Ret a => HR a
    | Sec m => HS m (next m)
    | When c m => HW c m (next m)
    end.

Section acts.
Context {S : Type}.

Fixpoint act_seq {A B} (f : A -> act S B) (t : act S A) : act S B :=
  match t with
  | Ret a => f a
  | Sec m => Sec (fun s => match m s with
                           | Ok (t, s) => Ok (act_seq f t, s)
                           | UB => UB
                           | Diverge => Diverge
                           end)
  | When c m => When c (fun s => match m s with
                                 | Ok (t, s) => Ok (act_seq f t, s)
                                 | UB => UB
                                 | Diverge => Diverge
                                 end)
  end.
#[global] Instance act_ret : MRet (act S) := fun A a => Ret a.
#[global] Instance act_bind : MBind (act S) := @act_seq.

(** A computation as one section. *)
Definition sec {A} (m : St S A) : act S A := Sec (a ← m; mret (Ret a)).

(** ** To the end *)
Section run.
Context (wait : (S -> bool) -> St S unit).

Fixpoint run {A} (t : act S A) (s : S) : res (A * S) :=
  match t with
  | Ret a => Ok (a, s)
  | Sec m => match m s with
             | Ok (t, s) => run t s
             | UB => UB
             | Diverge => Diverge
             end
  | When c m => match wait c s with
                | Ok (_, s) => match m s with
                               | Ok (t, s) => run t s
                               | UB => UB
                               | Diverge => Diverge
                               end
                | UB => UB
                | Diverge => Diverge
                end
  end.

Lemma run_bind {A B} (t : act S A) (f : A -> act S B) s :
  run (t ≫= f) s = ((run t : St S A) ≫= (fun a => run (f a))) s.
Proof.
  revert s. induction t as [a|m IH|c m IH] using act_induction; intros s; [done|..];
    unfold mbind, act_bind, st_bind in *; cbn [act_seq run].
  - specialize (IH s). destruct (m s) as [[t s']| |]; [by apply IH|done..].
  - destruct (wait c s) as [[[] s']| |]; [|done..]. specialize (IH s').
    destruct (m s') as [[t s'']| |]; [by apply IH|done..].
Qed.

Lemma run_sec {A} (m : St S A) s : run (sec m) s = m s.
Proof. unfold sec, mbind, st_bind. cbn [run]. by destruct (m s) as [[a s']| |]. Qed.

Lemma wp_run_bind {A B} (t : act S A) (f : A -> act S B) Q s :
  wp (run t) (fun a s' => wp (run (f a)) Q s') s -> wp (run (t ≫= f)) Q s.
Proof. unfold wp. rewrite run_bind. intros H. by apply (wp_bind (run t) (fun a => run (f a))). Qed.

Lemma wp_run_sec {A} (m : St S A) Q s : wp m Q s -> wp (run (sec m)) Q s.
Proof. unfold wp. by rewrite run_sec. Qed.

Lemma wp_run_section {A} (m : St S (act S A)) Q s :
  wp m (fun t s' => wp (run t) Q s') s -> wp (run (Sec m)) Q s.
Proof. unfold wp. cbn [run]. by destruct (m s) as [[t s']| |]. Qed.

Lemma wp_run_when {A} c (m : St S (act S A)) Q s :
  wp (wait c) (fun _ s' => wp m (fun t s' => wp (run t) Q s') s') s -> wp (run (When c m)) Q s.
Proof.
  unfold wp. cbn [run]. destruct (wait c s) as [[[] s']| |]; [|done..]. by destruct (m s') as [[t s'']| |].
Qed.

Lemma wp_run_await {A} c (t : act S A) Q s :
  wp (wait c) (fun _ s' => wp (run t) Q s') s -> wp (run (Await c t)) Q s.
Proof. intros H. exact (wp_run_when c (fun s => Ok (t, s)) Q s H). Qed.
End run.

(** A wait for what holds already. *)
Class Ready (wait : (S -> bool) -> St S unit) : Prop := {
  ready : forall c s, c s = true -> wait c s = Ok (tt, s) }.

(** No worker: a wait does not end. *)
Definition wait_never (c : S -> bool) : St S unit := fun s => if c s then Ok (tt, s) else Diverge.
#[global] Instance wait_never_ready : Ready wait_never.
Proof. split. intros c s H. unfold wait_never. by rewrite H. Qed.

(** ** Interleaved

    One section of a thread; [None]: it has ended or is blocked. *)
Definition advance {A} (t : act S A) (s : S) : option (res (act S A * S)) :=
  match t with
  | Ret _ => None
  | Sec m => Some (m s)
  | When c m => if c s then Some (m s) else None
  end.

(** A schedule picks the thread of the next section; [None] when the thread it picks is
    not there or cannot go on, or when the section is undefined. *)
Definition pool_step {A} (i : nat) (p : list (act S A) * S) : option (list (act S A) * S) :=
  t ← fst p !! i;
  r ← advance t (snd p);
  match r with Ok (t, s) => Some (<[i := t]> (fst p), s) | _ => None end.

Definition pool_run {A} (sched : list nat) (p : list (act S A) * S) : option (list (act S A) * S) :=
  foldl (fun p i => p ≫= pool_step i) (Some p) sched.

Definition result_of {A} (t : act S A) : option A := match t with Ret a => Some a | _ => None end.

Definition stuck {A} (t : act S A) (s : S) : bool :=
  match t with When c _ => negb (c s) | _ => false end.

(** ** Steps of a thread

    A thread that goes on by itself does so in every pool, by a schedule. *)
Definition act_step {A} (c d : act S A * S) : Prop := advance (fst c) (snd c) = Some (Ok d).

Lemma advance_bind {A B} (t : act S A) (f : A -> act S B) s r : advance t s = Some r ->
  advance (t ≫= f) s = Some (match r with Ok (t', s') => Ok (t' ≫= f, s') | UB => UB | Diverge => Diverge end).
Proof.
  destruct t as [a|m|c m]; cbn; [done| |].
  - intros [= <-]. unfold mbind, act_bind. cbn. by destruct (m s) as [[t s']| |].
  - destruct (c s); [|done]. intros [= <-]. by destruct (m s) as [[t s']| |].
Qed.

Lemma steps_bind {A B} (t t' : act S A) (f : A -> act S B) s s' : rtc act_step (t, s) (t', s') ->
  rtc act_step (t ≫= f, s) (t' ≫= f, s').
Proof.
  apply (rtc_congruence (fun c : act S A * S => (fst c ≫= f, snd c))). intros [t1 s1] [t2 s2] H. unfold act_step in *. cbn in *.
  by rewrite (advance_bind _ _ _ _ H).
Qed.

(** What runs without a wait is a sequence of steps. *)
Lemma steps_run {A} (t : act S A) a s s' : run wait_never t s = Ok (a, s') -> rtc act_step (t, s) (Ret a, s').
Proof.
  revert s. induction t as [b|m IH|c m IH] using act_induction; intros s; cbn [run]; [intros [= <- <-]; reflexivity|..].
  - specialize (IH s). destruct (m s) as [[t s1]| |] eqn:E; [|done..]. intros H. apply rtc_l with (t, s1); [|by apply IH].
    unfold act_step. cbn. by rewrite E.
  - unfold wait_never at 1. specialize (IH s). destruct (c s) eqn:Ec; [|done]. destruct (m s) as [[t s1]| |] eqn:E; [|done..].
    intros H. apply rtc_l with (t, s1); [|by apply IH]. unfold act_step. cbn. by rewrite Ec, E.
Qed.

Lemma pool_run_app {A} l1 l2 (p : list (act S A) * S) : pool_run (l1 ++ l2) p = pool_run l1 p ≫= pool_run l2.
Proof.
  unfold pool_run. rewrite foldl_app. destruct (foldl _ (Some p) l1) as [q|]; [done|]. cbn. by induction l2.
Qed.

Lemma pool_steps {A} (ts : list (act S A)) i t t' s s' : rtc act_step (t, s) (t', s') -> ts !! i = Some t ->
  exists sched, pool_run sched (ts, s) = Some (<[i := t']> ts, s').
Proof.
  intros H. remember (t, s) as c eqn:Ec. remember (t', s') as d eqn:Ed. revert ts t s Ec.
  induction H as [c|c [t1 s1] d Hs _ IH]; intros ts t s -> Hi.
  - injection Ed as <- <-. exists []. by rewrite list_insert_id.
  - destruct (IH Ed (<[i := t1]> ts) t1 s1 eq_refl) as [l Hl].
    { apply list_lookup_insert_eq. by eapply lookup_lt_Some. }
    exists (i :: l). change (i :: l) with ([i] ++ l). rewrite pool_run_app. unfold act_step in Hs. cbn in Hs.
    cbn. unfold pool_step. cbn. rewrite Hi. cbn. rewrite Hs. cbn. by rewrite Hl, list_insert_insert_eq.
Qed.
End acts.
