(* ===== verification/PmState.v ===== *)
(** * State of the power manager of the IPA driver

    The data of [dataipa/drivers/platform/msm/ipa/ipa_v3/ipa_pm.c], of the counter of
    active clients in [ipa.c], and of the work queues, with the accesses to it.  Clients
    are objects of a heap, since the arrays, the work queue and running threads share
    them: a pointer is the number of an object, an access to a freed one is undefined. *)

From Stdlib Require Import ZArith Lia Ascii String.
From stdpp Require Import prelude list numbers strings.
From S2P Require Import Prelude Act.

Local Open Scope Z_scope.

Definition IPA_PM_MAX_CLIENTS : Z := 36.
Definition IPA_PM_MAX_EX_CL : Z := 64.
Definition IPA_PM_THRESHOLD_MAX : Z := 5.
Definition IPA_PM_EXCEPTION_MAX : Z := 5.
Definition IPA5_PIPES_NUM : Z := 36.
Definition IPA_EP_PER_REG : nat := 32.
Definition EEXIST : Z := 17.
Definition EINPROGRESS : Z := 115.

Inductive ipa_pm_state :=
  | IPA_PM_DEACTIVATED
  | IPA_PM_DEACTIVATE_IN_PROGRESS
  | IPA_PM_ACTIVATE_IN_PROGRESS
  | IPA_PM_ACTIVATED
  | IPA_PM_ACTIVATED_PENDING_DEACTIVATION
  | IPA_PM_ACTIVATED_TIMER_SET
  | IPA_PM_ACTIVATED_PENDING_RESCHEDULE.

#[global] Instance ipa_pm_state_eq_dec : EqDecision ipa_pm_state.
Proof. solve_decision. Defined.

Definition IPA_PM_STATE_ACTIVE (st : ipa_pm_state) : bool :=
  match st with
  | IPA_PM_ACTIVATED | IPA_PM_ACTIVATED_PENDING_DEACTIVATION | IPA_PM_ACTIVATED_TIMER_SET
  | IPA_PM_ACTIVATED_PENDING_RESCHEDULE => true
  | _ => false
  end.

Definition IPA_PM_STATE_IN_PROGRESS (st : ipa_pm_state) : bool :=
  match st with IPA_PM_ACTIVATE_IN_PROGRESS | IPA_PM_DEACTIVATE_IN_PROGRESS => true | _ => false end.

Inductive ipa_pm_group := IPA_PM_GROUP_DEFAULT | IPA_PM_GROUP_APPS | IPA_PM_GROUP_MODEM.

#[global] Instance ipa_pm_group_eq_dec : EqDecision ipa_pm_group.
Proof. solve_decision. Defined.

Definition group_index (g : ipa_pm_group) : Z :=
  match g with IPA_PM_GROUP_DEFAULT => 0 | IPA_PM_GROUP_APPS => 1 | IPA_PM_GROUP_MODEM => 2 end.

Inductive ipa_pm_cb_event := IPA_PM_CLIENT_ACTIVATED | IPA_PM_REQUEST_WAKEUP.

(** ** Clients

    The callback is a function's number with its argument; [c_complete] says that the
    completion is done, [c_awake] that the wake source is active. *)
Record ipa_pm_client := mk_client {
  c_name : string;
  c_callback : option Z;
  c_params : Z;
  c_state : ipa_pm_state;
  c_skip_clk_vote : bool;
  c_group : ipa_pm_group;
  c_hdl : Z;
  c_throughput : Z;
  c_complete : bool;
  c_awake : bool }.

Definition client_zero : ipa_pm_client :=
  mk_client EmptyString None 0 IPA_PM_DEACTIVATED false IPA_PM_GROUP_DEFAULT 0 0 false false.

Record ipa_pm_register_params := mk_register {
  r_name : string;
  r_callback : option Z;
  r_user_data : Z;
  r_group : ipa_pm_group;
  r_skip_clk_vote : bool }.

(** ** Clock scaling *)
Record ipa_pm_exception_list := mk_exception {
  ex_clients : string;
  ex_pending : Z;
  ex_bitmask : list Z;
  ex_threshold : list Z }.

(** What [current_threshold] points to. *)
Inductive th_ref := ThDefault | ThException (i : Z).

#[global] Instance th_ref_eq_dec : EqDecision th_ref.
Proof. solve_decision. Defined.

(** Of the array of exceptions only the first [exception_size] are there. *)
Record clk_scaling_db := mk_scaling {
  exception_list : list ipa_pm_exception_list;
  active_client_bitmask : list Z;
  threshold_size : Z;
  cur_vote : Z;
  default_threshold : list Z;
  current_threshold : option th_ref }.

(** ** Work

    [WorkActivate] and [WorkDeactivate] are the work items inside a client. *)
Inductive pm_work := WorkActivate (p : Z) | WorkDeactivate (p : Z) | WorkScale.

#[global] Instance pm_work_eq_dec : EqDecision pm_work.
Proof. solve_decision. Defined.

(** [pm_timers] are the clients whose [deactivate_work] waits for its time. *)
Record ipa_pm_ctx := mk_pm_ctx {
  clients : list (option Z);
  clients_by_pipe : list (option Z);
  pm_queue : list pm_work;
  pm_timers : list Z;
  pm_running : option pm_work;
  clk_scaling : clk_scaling_db;
  aggregated_tput : Z;
  group_tput : list Z }.

(** ** The counter of active clients ([ipa.c])

    [tag_work] and [dec_work] say whether the two works of [power_mgmt_wq] that give a
    vote back are queued, [ac_mutex] whether somebody holds [ipa3_active_clients.mutex]. *)
Record clk_ctx := mk_clk {
  ac_cnt : Z;
  bus_vote_idx : Z;
  ipa_clk_vote : bool;
  tag_process_before_gating : bool;
  curr_ipa_clk_rate : Z;
  tag_work : bool;
  dec_work : bool;
  ac_mutex : bool }.

Record pmst := mk_pmst {
  heap : list (option ipa_pm_client);
  pm_ctx : option ipa_pm_ctx;
  clk : clk_ctx;
  dummy_hdl_1 : Z;
  dummy_hdl_2 : Z;
  tput_modem : Z;
  tput_apps : Z }.

Definition pmst0 : pmst := mk_pmst [] None (mk_clk 0 0 false false 0 false false false) 0 0 0 0.

Section setters.
Implicit Types (c : ipa_pm_client) (x : ipa_pm_ctx) (d : clk_scaling_db) (e : ipa_pm_exception_list).

Definition c_set_state c st := mk_client (c_name c) (c_callback c) (c_params c) st (c_skip_clk_vote c)
  (c_group c) (c_hdl c) (c_throughput c) (c_complete c) (c_awake c).
Definition c_set_complete c b := mk_client (c_name c) (c_callback c) (c_params c) (c_state c)
  (c_skip_clk_vote c) (c_group c) (c_hdl c) (c_throughput c) b (c_awake c).
Definition c_set_awake c b := mk_client (c_name c) (c_callback c) (c_params c) (c_state c)
  (c_skip_clk_vote c) (c_group c) (c_hdl c) (c_throughput c) (c_complete c) b.
Definition c_set_tput c t := mk_client (c_name c) (c_callback c) (c_params c) (c_state c)
  (c_skip_clk_vote c) (c_group c) (c_hdl c) t (c_complete c) (c_awake c).

Definition x_set_clients x l := mk_pm_ctx l (clients_by_pipe x) (pm_queue x) (pm_timers x) (pm_running x)
  (clk_scaling x) (aggregated_tput x) (group_tput x).
Definition x_set_pipes x l := mk_pm_ctx (clients x) l (pm_queue x) (pm_timers x) (pm_running x)
  (clk_scaling x) (aggregated_tput x) (group_tput x).
Definition x_set_work x q ts r := mk_pm_ctx (clients x) (clients_by_pipe x) q ts r (clk_scaling x)
  (aggregated_tput x) (group_tput x).
Definition x_set_scaling x d := mk_pm_ctx (clients x) (clients_by_pipe x) (pm_queue x) (pm_timers x)
  (pm_running x) d (aggregated_tput x) (group_tput x).
Definition x_set_tputs x a g := mk_pm_ctx (clients x) (clients_by_pipe x) (pm_queue x) (pm_timers x)
  (pm_running x) (clk_scaling x) a g.

Definition d_set_exceptions d l := mk_scaling l (active_client_bitmask d) (threshold_size d) (cur_vote d)
  (default_threshold d) (current_threshold d).
Definition d_set_bitmask d l := mk_scaling (exception_list d) l (threshold_size d) (cur_vote d)
  (default_threshold d) (current_threshold d).
Definition d_set_vote d v := mk_scaling (exception_list d) (active_client_bitmask d) (threshold_size d) v
  (default_threshold d) (current_threshold d).
Definition d_set_current d r := mk_scaling (exception_list d) (active_client_bitmask d) (threshold_size d)
  (cur_vote d) (default_threshold d) r.
Definition e_set e n l := mk_exception (ex_clients e) n l (ex_threshold e).

Definition set_heap (s : pmst) h := mk_pmst h (pm_ctx s) (clk s) (dummy_hdl_1 s) (dummy_hdl_2 s)
  (tput_modem s) (tput_apps s).
Definition set_ctx (s : pmst) (o : option ipa_pm_ctx) := mk_pmst (heap s) o (clk s) (dummy_hdl_1 s) (dummy_hdl_2 s)
  (tput_modem s) (tput_apps s).
Definition set_clk (s : pmst) k := mk_pmst (heap s) (pm_ctx s) k (dummy_hdl_1 s) (dummy_hdl_2 s)
  (tput_modem s) (tput_apps s).
Definition set_dummies (s : pmst) h1 h2 tm ta := mk_pmst (heap s) (pm_ctx s) (clk s) h1 h2 tm ta.

Definition k_set_cnt (k : clk_ctx) n := mk_clk n (bus_vote_idx k) (ipa_clk_vote k)
  (tag_process_before_gating k) (curr_ipa_clk_rate k) (tag_work k) (dec_work k) (ac_mutex k).
Definition k_set_vote (k : clk_ctx) b := mk_clk (ac_cnt k) (bus_vote_idx k) b
  (tag_process_before_gating k) (curr_ipa_clk_rate k) (tag_work k) (dec_work k) (ac_mutex k).
Definition k_set_tag (k : clk_ctx) b := mk_clk (ac_cnt k) (bus_vote_idx k) (ipa_clk_vote k) b
  (curr_ipa_clk_rate k) (tag_work k) (dec_work k) (ac_mutex k).
Definition k_set_works (k : clk_ctx) (t d : bool) := mk_clk (ac_cnt k) (bus_vote_idx k) (ipa_clk_vote k)
  (tag_process_before_gating k) (curr_ipa_clk_rate k) t d (ac_mutex k).
Definition k_set_rate (k : clk_ctx) idx rate := mk_clk (ac_cnt k) idx (ipa_clk_vote k)
  (tag_process_before_gating k) rate (tag_work k) (dec_work k) (ac_mutex k).
Definition k_set_mutex (k : clk_ctx) b := mk_clk (ac_cnt k) (bus_vote_idx k) (ipa_clk_vote k)
  (tag_process_before_gating k) (curr_ipa_clk_rate k) (tag_work k) (dec_work k) b.
End setters.

(** ** The rest of the system *)
Class PmOps (K : Type) := {
  pm_kzalloc : K -> bool * K;
  create_singlethread_workqueue : K -> bool * K;
  wakeup_source_register : string -> K -> bool * K;
  (** a client's function, with its argument *)
  pm_callback : Z -> Z -> ipa_pm_cb_event -> K -> K;
  (** bus and clock hardware; the bus vote *)
  hw_enable_clks : Z -> K -> K;
  hw_disable_clks : K -> K;
  hw_set_rate : Z -> Z -> K -> K;
  ipa3_suspend_apps_pipes : bool -> K -> Z * K;
  ipa3_force_close_coal : K -> K;
  ipa3_tag_aggr_force_close : K -> Z * K;
  gsi_pending_irq_type : K -> Z * K }.

Class PmConf := {
  regular_clk_mode : bool;
  ipa_config_is_mhi : bool;
  enable_clock_scaling : bool;
  ipa_clk_rate_svs2 : Z;
  ipa_clk_rate_svs : Z;
  ipa_clk_rate_nominal : Z;
  ipa_clk_rate_turbo : Z;
  IPA_CLIENT_MAX : Z;
  (** [ipa3_get_ep_mapping], -1 for none *)
  pm_ep_mapping : Z -> Z;
  ipa3_get_max_num_pipes : Z }.

Section access.
Context {K : Type}.
#[local] Notation PM := (St (pmst * K)).

Definition pget : PM pmst := fun s => Ok (fst s, s).
Definition pmod (f : pmst -> pmst) : PM unit := fun '(s, k) => Ok (tt, (f s, k)).
Definition psys {A} (f : K -> A * K) : PM A := fun '(s, k) => let '(a, k) := f k in Ok (a, (s, k)).
Definition pdo (f : K -> K) : PM unit := psys (fun k => (tt, f k)).

(** [*ipa_pm_ctx]. *)
Definition xget : PM ipa_pm_ctx := s ← pget; st_lift (deref (pm_ctx s)).
Definition xmod (f : ipa_pm_ctx -> ipa_pm_ctx) : PM unit := x ← xget; pmod (fun s => set_ctx s (Some (f x))).
Definition dmod (f : clk_scaling_db -> clk_scaling_db) : PM unit :=
  xmod (fun x => x_set_scaling x (f (clk_scaling x))).
Definition kmod_clk (f : clk_ctx -> clk_ctx) : PM unit := pmod (fun s => set_clk s (f (clk s))).

(** [*client]. *)
Definition cget (p : Z) : PM ipa_pm_client :=
  s ← pget; o ← st_lift (deref (zget (heap s) p)); st_lift (deref o).
Definition cmod (p : Z) (f : ipa_pm_client -> ipa_pm_client) : PM unit :=
  c ← cget p; pmod (fun s => set_heap s (zset (heap s) p (Some (f c)))).

(** [ipa_pm_ctx->clients[hdl]]. *)
Definition client_at (hdl : Z) : PM (option Z) := x ← xget; st_lift (deref (zget (clients x) hdl)).
End access.
