(* ===== verification/PmClk.v ===== *)
(** * The counter of active clients ([dataipa/drivers/platform/msm/ipa/ipa_v3/ipa.c])

    Everybody who needs the clocks of the hardware holds a vote; with the last vote they
    are turned off.  The operations are threads: each atomic change of the counter, each
    look at it, turning the clocks on and turning them off is a section of its own, with the
    mutex as part of the state.  The hardware itself is [PmOps]; logs are left out.  A call of
    [ipa_assert], which stops the kernel, does not end ([Diverge]). *)

From Stdlib Require Import ZArith Lia Ascii String.
From stdpp Require Import prelude list numbers strings.
From S2P Require Import Prelude Act PmState.

Local Open Scope Z_scope.

Section clk.
Context {K : Type} `{PO : PmOps K} `{PC : PmConf}.
#[local] Notation PM := (St (pmst * K)).
#[local] Notation T := (act (pmst * K)).

Definition ipa_assert {A} : PM A := fun _ => Diverge.

Definition clk_get : PM clk_ctx := s ← pget; mret (clk s).

Definition ipa_pm_set_clock_index (index : Z) : PM unit :=
  s ← pget;
  match pm_ctx s with
  | Some _ => if index >=? 0 then dmod (fun d => d_set_vote d index) else mret tt
  | None => mret tt
  end.

Definition ipa3_get_bus_vote (curr : Z) : Z :=
  if curr =? ipa_clk_rate_svs2 then 1
  else if curr =? ipa_clk_rate_svs then 2
  else if curr =? ipa_clk_rate_nominal then 3
  else if curr =? ipa_clk_rate_turbo then 4
  else 1.

Definition ipa3_enable_clks : PM unit :=
  if negb regular_clk_mode then mret tt
  else
    c ← clk_get;
    _ ← pdo (hw_enable_clks (ipa3_get_bus_vote (curr_ipa_clk_rate c)));
    kmod_clk (fun c => k_set_vote c true).

Definition ipa3_disable_clks : PM unit :=
  if negb regular_clk_mode then mret tt
  else
    _ ← kmod_clk (fun c => k_set_vote c false);
    _ ← (if negb ipa_config_is_mhi then
           type ← psys gsi_pending_irq_type;
           if negb (type =? 0)
           then _ ← kmod_clk (fun c => k_set_cnt c (ac_cnt c + 1)); ipa_assert
           else mret tt
         else mret tt);
    _ ← pdo hw_disable_clks;
    _ ← ipa_pm_set_clock_index 0;
    kmod_clk (fun c => k_set_vote c false).

(** [atomic_inc_not_zero] and [atomic_add_unless(-1, 1)]: whether the counter changed. *)
Definition inc_not_zero : PM bool :=
  c ← clk_get;
  if ac_cnt c =? 0 then mret false
  else _ ← kmod_clk (fun c => k_set_cnt c (ac_cnt c + 1)); mret true.

Definition dec_unless_one : PM bool :=
  c ← clk_get;
  if ac_cnt c =? 1 then mret false
  else _ ← kmod_clk (fun c => k_set_cnt c (ac_cnt c - 1)); mret true.

(** The mutex.  The other operations on the counter are atomic and do not take it. *)
Definition clks_unlocked (s : pmst * K) : bool := negb (ac_mutex (clk (fst s))).
Definition lock_clks : T unit := When clks_unlocked (_ ← kmod_clk (fun c => k_set_mutex c true); mret (Ret tt)).
Definition unlock_clks : T unit := sec (kmod_clk (fun c => k_set_mutex c false)).

Definition add_cnt (n : Z) : PM unit := kmod_clk (fun c => k_set_cnt c (ac_cnt c + n)).

Definition ipa3_inc_client_enable_clks_no_log : T unit :=
  ret ← sec inc_not_zero;
  if ret : bool then Ret tt
  else
    _ ← lock_clks;
    ret ← sec inc_not_zero;
    if ret : bool then unlock_clks
    else
      _ ← sec ipa3_enable_clks;
      _ ← sec (psys (ipa3_suspend_apps_pipes false));
      _ ← sec (add_cnt 1);
      unlock_clks.
Definition ipa3_inc_client_enable_clks : T unit := ipa3_inc_client_enable_clks_no_log.

Definition ipa3_inc_client_enable_clks_no_block : PM Z :=
  ret ← inc_not_zero; mret (if ret : bool then 0 else - EPERM).

(** [queue_work] of a work that is queued does nothing. *)
Definition queue_tag_work : PM unit := kmod_clk (fun c => k_set_works c true (dec_work c)).
Definition queue_dec_work : PM unit := kmod_clk (fun c => k_set_works c (tag_work c) true).

(** Before the mutex is taken. *)
Definition close_coal : T unit :=
  c ← sec clk_get;
  if (ac_cnt c =? 1) && negb (tag_process_before_gating c) then
    _ ← sec (pdo ipa3_force_close_coal);
    sec (kmod_clk (fun c => k_set_tag c false))
  else Ret tt.

(** With the mutex held. *)
Definition dec_locked : T unit :=
  c ← sec clk_get;
  if (ac_cnt c =? 1) && tag_process_before_gating c then
    _ ← sec (kmod_clk (fun c => k_set_tag c false));
    sec queue_tag_work
  else
    ret ← sec (_ ← add_cnt (-1); c ← clk_get; mret (ac_cnt c));
    if ret >? 0 then Ret tt
    else
      ret ← sec (psys (ipa3_suspend_apps_pipes true));
      if negb (ret =? 0) then
        _ ← sec (add_cnt 1);
        sec queue_dec_work
      else sec ipa3_disable_clks.

Definition dec_client_disable_clks : T unit :=
  c ← sec clk_get;
  if ac_cnt c =? 0 then sec ipa_assert
  else
    ret ← sec dec_unless_one;
    if ret : bool then Ret tt
    else
      _ ← close_coal;
      _ ← lock_clks;
      _ ← dec_locked;
      unlock_clks.

Definition ipa3_dec_client_disable_clks : T unit := dec_client_disable_clks.

(** The two works of [power_mgmt_wq], taken from the queue. *)
Definition ipa3_start_tag_process : T unit :=
  _ ← sec (psys ipa3_tag_aggr_force_close); ipa3_dec_client_disable_clks.
Definition ipa_dec_clients_disable_clks_on_wq : T unit := dec_client_disable_clks.

(** The worker takes a work from the queue and runs it. *)
Definition clk_work : PM (T unit) :=
  c ← clk_get;
  if tag_work c then _ ← kmod_clk (fun c => k_set_works c false (dec_work c)); mret ipa3_start_tag_process
  else if dec_work c then
    _ ← kmod_clk (fun c => k_set_works c (tag_work c) false); mret ipa_dec_clients_disable_clks_on_wq
  else mret (Ret tt).

Definition ipa3_dec_client_disable_clks_no_block : T unit :=
  ret ← sec dec_unless_one;
  if ret : bool then Ret tt else sec queue_dec_work.

(** [None] is an index outside the table of rates. *)
Definition clk_rate_of (idx : Z) : option Z :=
  if idx =? 1 then Some ipa_clk_rate_svs2
  else if idx =? 2 then Some ipa_clk_rate_svs
  else if idx =? 3 then Some ipa_clk_rate_nominal
  else if idx =? 4 then Some ipa_clk_rate_turbo
  else None.

Definition ipa3_set_clock_plan_from_pm (idx : Z) : PM Z :=
  if negb enable_clock_scaling then
    _ ← kmod_clk (fun c => k_set_rate c idx (curr_ipa_clk_rate c)); mret 0
  else if negb regular_clk_mode then mret 0
  else
    match clk_rate_of idx with
    | None => mret (- EINVAL)
    | Some clk_rate =>
        c ← clk_get;
        if clk_rate =? curr_ipa_clk_rate c then mret 0
        else
          _ ← kmod_clk (fun c => k_set_rate c idx clk_rate);
          _ ← (if ac_cnt c >? 0 then pdo (hw_set_rate clk_rate (ipa3_get_bus_vote clk_rate)) else mret tt);
          mret 0
    end.
End clk.
