(* ===== verification/IpaPm.v ===== *)
(** * The power manager ([dataipa/drivers/platform/msm/ipa/ipa_v3/ipa_pm.c])

    Clients of the hardware register here and say when they need it and how much they
    move; the manager votes for the clocks on their behalf and sets the clock rate.  Each
    function is a thread of the sections its locks make; what runs between two locks and
    touches shared data is a section of its own.  Functions that only
    report the state are left out ([ipa_pm_stat], [ipa_pm_exceptions_stat],
    [ipa_get_pm_client_stats_filled], [ipa_pm_get_current_clk_vote]). *)

From Stdlib Require Import ZArith Lia Ascii String.
From stdpp Require Import prelude list numbers strings.
From S2P Require Import Prelude Act Os NatUtils PmState PmClk KernHal.

Local Open Scope Z_scope.

(** ** Bits of a client's handle ([ipahal_reg.c]) *)
Definition ipahal_get_ep_reg_idx (ep_num : Z) : Z := Z.shiftr ep_num 5.
Definition ipahal_get_ep_bit (ep_num : Z) : Z := Z.shiftl 1 (ep_num - Z.shiftl (Z.shiftr ep_num 5) 5).

(** ** Throughput *)
(** The scan for the maximum: it and its index. *)
Definition max_scan (arr : list Z) (start : Z * Z) : Z * Z :=
  snd (foldl (fun '(i, (m, at_)) a => (i + 1, if a >? m then (a, i) else (m, at_))) (0, start) arr).

(** The first [n] elements are the array's length that counts. *)
Definition pop_max_from_array (arr : list Z) : Z * list Z :=
  match arr with
  | [] => (0, [])
  | _ =>
      let n := Z.of_nat (length arr) - 1 in
      let '(m, max_idx) := max_scan arr (0, n) in
      (m, take (Z.to_nat n) (zset arr max_idx (default 0 (zget arr n))))
  end.

(** The loop of [calculate_throughput]; its fuel is the number of throughputs. *)
Fixpoint tput_loop (fuel : nat) (arr : list Z) (aggregated : Z) : res Z :=
  if (length arr <=? 1)%nat then Ok aggregated
  else
    match fuel with
    | O => Diverge
    | Datatypes.S fuel =>
        let '(max, arr) := pop_max_from_array arr in
        let '(second_max, arr) := pop_max_from_array arr in
        aggregated ← int_add aggregated second_max;
        tput_loop fuel (arr ++ [max - second_max]) aggregated
    end.

Definition aggregate (arr : list Z) : res Z := tput_loop (length arr) arr 0.

Section pm.
Context {K : Type} `{PO : PmOps K} `{PC : PmConf}.
#[local] Notation PM := (St (pmst * K)).
#[local] Notation T := (act (pmst * K)).

(** The loop over the clients: throughputs found and groups that voted. *)
Fixpoint collect_tputs (gs : list Z) (cs : list (option ipa_pm_client)) (voted : list Z) : res (list Z) :=
  match cs with
  | [] => Ok []
  | None :: cs => collect_tputs gs cs voted
  | Some c :: cs =>
      if negb (IPA_PM_STATE_ACTIVE (c_state c)) then collect_tputs gs cs voted
      else if decide (c_group c = IPA_PM_GROUP_DEFAULT) then
        l ← collect_tputs gs cs voted; Ok (c_throughput c :: l)
      else
        let g := group_index (c_group c) in
        if bool_decide (g ∈ voted) then collect_tputs gs cs voted
        else
          t ← deref (zget gs g);
          l ← collect_tputs gs cs (g :: voted); Ok (t :: l)
  end.

Fixpoint load_clients (ps : list (option Z)) : PM (list (option ipa_pm_client)) :=
  match ps with
  | [] => mret []
  | None :: ps => l ← load_clients ps; mret (None :: l)
  | Some p :: ps => c ← cget p; l ← load_clients ps; mret (Some c :: l)
  end.

Definition calculate_throughput : PM Z :=
  x ← xget;
  cs ← load_clients (drop 1 (clients x));
  ts ← st_lift (collect_tputs (group_tput x) cs []);
  st_lift (aggregate ts).

Definition set_bit (l : list Z) (hdl : Z) (on : bool) : res (list Z) :=
  let idx := ipahal_get_ep_reg_idx hdl in
  w ← deref (zget l idx);
  Ok (zset l idx (if on then Z.lor w (ipahal_get_ep_bit hdl) else Z.ldiff w (ipahal_get_ep_bit hdl))).

Definition deactivate_client (hdl : Z) : PM unit :=
  x ← xget;
  l ← st_lift (set_bit (active_client_bitmask (clk_scaling x)) hdl false);
  dmod (fun d => d_set_bitmask d l).

Definition activate_client (hdl : Z) : PM unit :=
  x ← xget;
  l ← st_lift (set_bit (active_client_bitmask (clk_scaling x)) hdl true);
  dmod (fun d => d_set_bitmask d l).

(** Every bit of the exception is active. *)
Definition masks_covered (mask active : list Z) : bool :=
  forallb (fun '(m, a) => Z.ldiff m a =? 0) (zip mask active).

Fixpoint passing_exception (active : list Z) (es : list ipa_pm_exception_list) (i : Z) : th_ref :=
  match es with
  | [] => ThDefault
  | e :: es =>
      if (ex_pending e =? 0) && masks_covered (ex_bitmask e) active then ThException i
      else passing_exception active es (i + 1)
  end.

Definition set_current_threshold : PM unit :=
  dmod (fun d => d_set_current d
    (Some (passing_exception (active_client_bitmask d) (exception_list d) 0))).

(** The array [current_threshold] points to. *)
Definition thresholds (d : clk_scaling_db) : res (list Z) :=
  r ← deref (current_threshold d);
  match r with
  | ThDefault => Ok (default_threshold d)
  | ThException i => e ← deref (zget (exception_list d) i); Ok (ex_threshold e)
  end.

(** One step above the number of the thresholds that are reached. *)
Definition threshold_index (ths : list Z) (tput : Z) : Z :=
  1 + Z.of_nat (length (List.filter (fun t => tput >=? t) ths)).

Definition do_clk_scaling : T Z :=
  c ← sec clk_get;
  if negb (ipa_clk_vote c) then Ret 0
  else
    tput ← sec (tput ← calculate_throughput;
                _ ← xmod (fun x => x_set_tputs x tput (group_tput x));
                _ ← set_current_threshold;
                mret tput);
    sec (x ← xget;
         let d := clk_scaling x in
         ths ← st_lift (thresholds d);
         let new_th_idx := threshold_index (take (Z.to_nat (threshold_size d)) ths) tput in
         if negb (cur_vote d =? new_th_idx) then
           _ ← dmod (fun d => d_set_vote d new_th_idx);
           _ ← ipa3_set_clock_plan_from_pm new_th_idx;
           mret 0
         else mret 0).

Definition clock_scaling_func : T unit := _ ← do_clk_scaling; Ret tt.

(** ** Work queue *)
Definition queue_work (w : pm_work) : PM unit :=
  xmod (fun x => if bool_decide (w ∈ pm_queue x) then x
                 else x_set_work x (pm_queue x ++ [w]) (pm_timers x) (pm_running x)).

Definition queue_delayed_work (p : Z) : PM unit :=
  xmod (fun x => if bool_decide (p ∈ pm_timers x) || bool_decide (WorkDeactivate p ∈ pm_queue x) then x
                 else x_set_work x (pm_queue x) (pm_timers x ++ [p]) (pm_running x)).

(** [cancel_delayed_work_sync]: removes it, then waits while it runs. *)
Definition not_running (w : pm_work) (s : pmst * K) : bool :=
  match pm_ctx (fst s) with
  | Some x => negb (bool_decide (pm_running x = Some w))
  | None => true
  end.

Definition cancel_delayed_work_sync (p : Z) : T unit :=
  _ ← sec (xmod (fun x => x_set_work x (List.filter (fun w => negb (bool_decide (w = WorkDeactivate p))) (pm_queue x))
                            (List.filter (fun q => negb (q =? p)) (pm_timers x)) (pm_running x)));
  Await (not_running (WorkDeactivate p)) (Ret tt).

(** [wait_for_completion]. *)
Definition completed (p : Z) (s : pmst * K) : bool :=
  match zget (heap (fst s)) p with
  | Some (Some c) => c_complete c
  | _ => true
  end.

(** ** Votes of a client *)
Definition stay_awake (p : Z) : PM unit := cmod p (fun c => c_set_awake c true).
Definition relax (p : Z) : PM unit := cmod p (fun c => c_set_awake c false).
Definition set_state (p : Z) (st : ipa_pm_state) : PM unit := cmod p (fun c => c_set_state c st).

Definition vote (p : Z) : T unit :=
  c ← sec (cget p);
  if negb (c_skip_clk_vote c) then
    _ ← ipa3_inc_client_enable_clks;
    if decide (c_group c = IPA_PM_GROUP_APPS) then sec (stay_awake p) else Ret tt
  else Ret tt.

Definition devote (p : Z) : T unit :=
  c ← sec (cget p);
  if negb (c_skip_clk_vote c) then
    _ ← ipa3_dec_client_disable_clks;
    if decide (c_group c = IPA_PM_GROUP_APPS) then sec (relax p) else Ret tt
  else Ret tt.

(** A state outside the expected ones only warns. *)
Definition activate_work_func (p : Z) : T unit :=
  _ ← vote p;
  dec_clk ← sec (c ← cget p;
                 match c_state c with
                 | IPA_PM_ACTIVATE_IN_PROGRESS => _ ← set_state p IPA_PM_ACTIVATED; mret false
                 | IPA_PM_DEACTIVATE_IN_PROGRESS => _ ← set_state p IPA_PM_DEACTIVATED; mret true
                 | _ => mret false
                 end);
  _ ← sec (cmod p (fun c => c_set_complete c true));
  if dec_clk : bool then devote p
  else
    _ ← sec (c ← cget p; activate_client (c_hdl c));
    _ ← sec (c ← cget p;
             match c_callback c with
             | Some f => pdo (pm_callback f (c_params c) IPA_PM_CLIENT_ACTIVATED)
             | None => mret tt
             end);
    _ ← do_clk_scaling; Ret tt.

Definition delayed_deferred_deactivate_work_func (p : Z) : T unit :=
  stop ← sec (c ← cget p;
              match c_state c with
              | IPA_PM_ACTIVATED_TIMER_SET => _ ← set_state p IPA_PM_ACTIVATED; mret true
              | IPA_PM_ACTIVATED_PENDING_RESCHEDULE =>
                  _ ← queue_delayed_work p;
                  _ ← set_state p IPA_PM_ACTIVATED_PENDING_DEACTIVATION; mret true
              | IPA_PM_ACTIVATED_PENDING_DEACTIVATION => _ ← set_state p IPA_PM_DEACTIVATED; mret false
              | _ => mret true
              end);
  if stop : bool then Ret tt
  else
    _ ← devote p;
    _ ← sec (c ← cget p; deactivate_client (c_hdl c));
    _ ← do_clk_scaling; Ret tt.

Definition work_func (w : pm_work) : T unit :=
  match w with
  | WorkActivate p => activate_work_func p
  | WorkDeactivate p => delayed_deferred_deactivate_work_func p
  | WorkScale => clock_scaling_func
  end.

(** The worker takes the next item from the queue, runs it, and is free again. *)
Definition take_work : PM (option pm_work) :=
  x ← xget;
  match pm_queue x with
  | [] => mret None
  | w :: q => _ ← xmod (fun x => x_set_work x q (pm_timers x) (Some w)); mret (Some w)
  end.
Definition work_done : PM unit := xmod (fun x => x_set_work x (pm_queue x) (pm_timers x) None).

Definition work_once : T unit :=
  w ← sec take_work;
  match w with
  | Some w => _ ← work_func w; sec work_done
  | None => Ret tt
  end.

(** The time of a client's [deactivate_work] has come. *)
Definition timer_expires (p : Z) : PM unit :=
  xmod (fun x => if bool_decide (p ∈ pm_timers x)
                 then x_set_work x (pm_queue x ++ [WorkDeactivate p])
                        (List.filter (fun q => negb (q =? p)) (pm_timers x)) (pm_running x)
                 else x).

(** ** Initialisation *)
Record ipa_pm_init_params := mk_init_params {
  i_default_threshold : list Z;
  i_threshold_size : Z;
  i_exceptions : list (string * list Z);
  i_exception_size : Z }.

Fixpoint count_commas (s : string) : Z :=
  match s with
  | EmptyString => 0
  | String a s => (if (a =? ",")%char then 1 else 0) + count_commas s
  end.

(** The two threshold arrays are copied up to [threshold_size]; the rest is zero. *)
Definition copy_thresholds (n : Z) (l : list Z) : list Z :=
  take (Z.to_nat n) l ++ replicate (Z.to_nat (IPA_PM_THRESHOLD_MAX - n)) 0.

Definition init_exception (n : Z) (e : string * list Z) : ipa_pm_exception_list :=
  let '(usecase, ths) := e in
  let '(name, _) := strlcpy usecase IPA_PM_MAX_EX_CL in
  mk_exception name (count_commas name + 1) [0; 0] (copy_thresholds n ths).

Definition ipa_pm_init (params : option ipa_pm_init_params) : T Z :=
  match params with
  | None => Ret (- EINVAL)
  | Some params =>
      if (i_threshold_size params <=? 0) || (i_threshold_size params >? IPA_PM_THRESHOLD_MAX) then Ret (- EINVAL)
      else if (i_exception_size params <? 0) || (i_exception_size params >? IPA_PM_EXCEPTION_MAX) then Ret (- EINVAL)
      else
        sec (s ← pget;
             match pm_ctx s with
             | Some _ => mret (- EPERM)
             | None =>
                 ok ← psys pm_kzalloc;
                 if negb ok then mret (- ENOMEM)
                 else
                   ok ← psys create_singlethread_workqueue;
                   if negb ok then mret (- ENOMEM)
                   else
                     let n := i_threshold_size params in
                     _ ← pmod (fun s => set_ctx s (Some (mk_pm_ctx
                           (replicate (Z.to_nat IPA_PM_MAX_CLIENTS) None)
                           (replicate (Z.to_nat IPA5_PIPES_NUM) None) [] [] None
                           (mk_scaling
                              (map (init_exception n) (take (Z.to_nat (i_exception_size params)) (i_exceptions params)))
                              [0; 0] n 0 (copy_thresholds n (i_default_threshold params)) None)
                           0 [0; 0; 0])));
                     mret 0
             end)
  end.

(** [destroy_workqueue] waits for what is queued. *)
Definition queue_drained (s : pmst * K) : bool :=
  match pm_ctx (fst s) with
  | Some x => bool_decide (pm_queue x = []) && bool_decide (pm_running x = None)
  | None => true
  end.

Definition ipa_pm_destroy : T Z :=
  s ← sec pget;
  match pm_ctx s with
  | None => Ret (- EPERM)
  | Some _ => Await queue_drained (_ ← sec (pmod (fun s => set_ctx s None)); Ret 0)
  end.

(** [if (ipa_pm_ctx == NULL) return -EINVAL]. *)
Definition with_ctx (t : T Z) : T Z :=
  s ← sec pget; match pm_ctx s with None => Ret (- EINVAL) | Some _ => t end.

(** ** Registration *)
(** From the last client to the first. *)
Fixpoint next_open (name : string) (cs : list (option ipa_pm_client)) (i n : Z) : Z :=
  match cs with
  | [] => n
  | None :: cs => next_open name cs (i - 1) i
  | Some c :: cs => if String.eqb name (c_name c) then - EEXIST else next_open name cs (i - 1) n
  end.

Definition find_next_open_array_element (name : string) : PM Z :=
  x ← xget;
  cs ← load_clients (drop 1 (clients x));
  mret (next_open name (rev cs) (IPA_PM_MAX_CLIENTS - 1) (- ENOBUFS)).

(** [strnstr(s1, s2, len)]. *)
Definition strnstr (s1 s2 : string) (len : Z) : bool :=
  match String.index 0 s2 (String.substring 0 (Z.to_nat len) s1) with Some _ => true | None => false end.

(** The loop over the exceptions from the [i]-th on: status and list. *)
Fixpoint add_to_exceptions (name : string) (hdl : Z) (es : list ipa_pm_exception_list) :
    res (Z * list ipa_pm_exception_list) :=
  match es with
  | [] => Ok (0, [])
  | e :: es =>
      let len := Z.of_nat (String.length name) in
      if strnstr (ex_clients e) name len && (Z.of_nat (String.length (ex_clients e)) =? len) then
        let pending := ex_pending e - 1 in
        if pending <? 0 then Ok (- EPERM, e_set e 0 (ex_bitmask e) :: es)
        else
          mask ← set_bit (ex_bitmask e) hdl true;
          '(r, es) ← add_to_exceptions name hdl es;
          Ok (r, e_set e pending mask :: es)
      else '(r, es) ← add_to_exceptions name hdl es; Ok (r, e :: es)
  end.

Definition add_client_to_exception_list (hdl : Z) : PM Z :=
  o ← client_at hdl;
  p ← st_lift (deref o);
  c ← cget p;
  x ← xget;
  '(r, es) ← st_lift (add_to_exceptions (c_name c) hdl (exception_list (clk_scaling x)));
  _ ← dmod (fun d => d_set_exceptions d es);
  mret r.

Definition bit_set (mask : list Z) (hdl : Z) : res bool :=
  w ← deref (zget mask (ipahal_get_ep_reg_idx hdl)); Ok (negb (Z.land w (ipahal_get_ep_bit hdl) =? 0)).

Fixpoint remove_from_exceptions (hdl : Z) (es : list ipa_pm_exception_list) : res (list ipa_pm_exception_list) :=
  match es with
  | [] => Ok []
  | e :: es =>
      b ← bit_set (ex_bitmask e) hdl;
      e ← (if b : bool then mask ← set_bit (ex_bitmask e) hdl false; Ok (e_set e (ex_pending e + 1) mask)
           else Ok e);
      es ← remove_from_exceptions hdl es; Ok (e :: es)
  end.

Definition remove_client_from_exception_list (hdl : Z) : PM unit :=
  x ← xget;
  es ← st_lift (remove_from_exceptions hdl (exception_list (clk_scaling x)));
  dmod (fun d => d_set_exceptions d es).

(** The part under the mutex.  [by_pipe] is cleared up to the number of pipes. *)
Definition unregister (hdl p : Z) : PM Z :=
  o ← client_at hdl;
  _ ← xmod (fun x => x_set_pipes x
        (map (fun q => if bool_decide (q = o) then None else q)
             (take (Z.to_nat ipa3_get_max_num_pipes) (clients_by_pipe x)) ++
         drop (Z.to_nat ipa3_get_max_num_pipes) (clients_by_pipe x)));
  _ ← cget p;
  _ ← pmod (fun s => set_heap s (zset (heap s) p None));
  _ ← xmod (fun x => x_set_clients x (zset (clients x) hdl None));
  _ ← remove_client_from_exception_list hdl;
  mret 0.

Definition ipa_pm_deregister (hdl : Z) : T Z :=
  with_ctx
    (if hdl >=? IPA_PM_MAX_CLIENTS then Ret (- EINVAL)
     else
       o ← sec (client_at hdl);
       match o with
       | None => Ret (- EINVAL)
       | Some p =>
           let checked : PM (T Z) :=
             c ← cget p;
             if IPA_PM_STATE_ACTIVE (c_state c) then mret (Ret (- EPERM))
             else mret (sec (unregister hdl p)) in
           Sec (c ← cget p;
                if IPA_PM_STATE_IN_PROGRESS (c_state c)
                then mret (Await (completed p) (Sec checked))
                else checked)
       end).

(** The part under the mutex: the element or an error, and [*hdl]. *)
Definition reserve (params : ipa_pm_register_params) : PM (Z * Z) :=
  elem ← find_next_open_array_element (r_name params);
  if (elem <? 0) || (elem >? IPA_PM_MAX_CLIENTS) then mret (elem, elem)
  else
    ok ← psys pm_kzalloc;
    if negb ok then mret (- ENOMEM, elem)
    else
      s ← pget;
      _ ← pmod (fun s => set_heap s (heap s ++ [Some client_zero]));
      _ ← xmod (fun x => x_set_clients x (zset (clients x) elem (Some (Z.of_nat (length (heap s))))));
      mret (0, elem).

Definition populate (params : ipa_pm_register_params) (hdl : Z) (c : ipa_pm_client) : ipa_pm_client :=
  mk_client (fst (strlcpy (r_name params) IPA_PM_MAX_EX_CL)) (r_callback params) (r_user_data params)
    (c_state c) (r_skip_clk_vote params) (r_group params) hdl (c_throughput c) (c_complete c) (c_awake c).

(** Status and [*hdl], [None] when it was not written.  The message about a failed wake
    source reads the client after it was freed. *)
Definition ipa_pm_register (params : option ipa_pm_register_params) : T (Z * option Z) :=
  s ← sec pget;
  match pm_ctx s, params with
  | None, _ | _, None => Ret (- EINVAL, None)
  | Some _, Some params =>
      '(r, hdl) ← sec (reserve params);
      if negb (r =? 0) then Ret (r, Some hdl)
      else
        p ← sec (o ← client_at hdl;
                 p ← st_lift (deref o);
                 _ ← cmod p (populate params hdl);
                 mret p);
        ok ← sec (psys (wakeup_source_register (fst (strlcpy (r_name params) IPA_PM_MAX_EX_CL))));
        if negb ok then
          _ ← ipa_pm_deregister hdl;
          _ ← sec (cget p);
          Ret (- ENOMEM, Some hdl)
        else
          _ ← sec (cmod p (fun c => c_set_complete c false));
          r ← sec (add_client_to_exception_list hdl);
          if negb (r =? 0) then _ ← ipa_pm_deregister hdl; Ret (- EPERM, Some hdl)
          else Ret (0, Some hdl)
  end.

Definition ipa_pm_associate_ipa_cons_to_client (hdl consumer : Z) : T Z :=
  with_ctx
    (if (hdl >=? IPA_PM_MAX_CLIENTS) || (consumer <? 0) || (consumer >=? IPA_CLIENT_MAX) then Ret (- EINVAL)
     else
       sec (o ← client_at hdl;
            match o with
            | None => mret (- EPERM)
            | Some _ =>
                let idx := pm_ep_mapping consumer in
                if idx <? 0 then mret 0
                else
                  x ← xget;
                  q ← st_lift (deref (zget (clients_by_pipe x) idx));
                  match q with
                  | Some _ => mret (- EPERM)
                  | None =>
                      _ ← xmod (fun x => x_set_pipes x (zset (clients_by_pipe x) idx o)); mret 0
                  end
            end)).

(** ** Activation *)
(** The client has its clocks; ends the section with the lock. *)
Definition got_clocks (p : Z) (sync : bool) : PM (T Z) :=
  _ ← set_state p IPA_PM_ACTIVATED;
  c ← cget p;
  _ ← (if decide (c_group c = IPA_PM_GROUP_APPS) then stay_awake p else mret tt);
  mret (_ ← sec (c ← cget p; activate_client (c_hdl c));
        if sync then _ ← do_clk_scaling; Ret 0
        else _ ← sec (queue_work WorkScale); Ret 0).

Definition helper_vote (p : Z) (sync : bool) : PM (T Z) :=
  c ← cget p;
  if c_skip_clk_vote c then got_clocks p sync
  else if sync then
    _ ← set_state p IPA_PM_ACTIVATE_IN_PROGRESS;
    mret (_ ← ipa3_inc_client_enable_clks; Sec (got_clocks p sync))
  else
    result ← ipa3_inc_client_enable_clks_no_block;
    if result =? 0 then got_clocks p sync
    else
      _ ← set_state p IPA_PM_ACTIVATE_IN_PROGRESS;
      _ ← cmod p (fun c => c_set_complete c false);
      _ ← queue_work (WorkActivate p);
      mret (Ret (- EINPROGRESS)).

Definition helper_switch (p : Z) (sync : bool) : PM (T Z) :=
  c ← cget p;
  match c_state c with
  | IPA_PM_ACTIVATED_PENDING_RESCHEDULE | IPA_PM_ACTIVATED_PENDING_DEACTIVATION =>
      _ ← set_state p IPA_PM_ACTIVATED_TIMER_SET; mret (Ret 0)
  | IPA_PM_ACTIVATED | IPA_PM_ACTIVATED_TIMER_SET => mret (Ret 0)
  | IPA_PM_DEACTIVATED => helper_vote p sync
  | _ => mret (Ret (- EPERM))
  end.

Definition ipa_pm_activate_helper (p : Z) (sync : bool) : T Z :=
  Sec (c ← cget p;
       if IPA_PM_STATE_IN_PROGRESS (c_state c) then
         if sync then mret (Await (completed p) (Sec (helper_switch p sync)))
         else _ ← set_state p IPA_PM_ACTIVATE_IN_PROGRESS; mret (Ret (- EINPROGRESS))
       else helper_switch p sync).

(** The checks of [hdl] that the functions on a client share. *)
Definition with_client (hdl : Z) (f : Z -> T Z) : T Z :=
  with_ctx
    (if hdl >=? IPA_PM_MAX_CLIENTS then Ret (- EINVAL)
     else o ← sec (client_at hdl); match o with None => Ret (- EINVAL) | Some p => f p end).

Definition ipa_pm_activate (hdl : Z) : T Z := with_client hdl (fun p => ipa_pm_activate_helper p false).
Definition ipa_pm_activate_sync (hdl : Z) : T Z := with_client hdl (fun p => ipa_pm_activate_helper p true).

Definition ipa_pm_deferred_deactivate (hdl : Z) : T Z :=
  with_client hdl (fun p =>
    sec (c ← cget p;
         match c_state c with
         | IPA_PM_ACTIVATE_IN_PROGRESS => _ ← set_state p IPA_PM_DEACTIVATE_IN_PROGRESS; mret 0
         | IPA_PM_DEACTIVATED => mret 0
         | IPA_PM_ACTIVATED =>
             _ ← set_state p IPA_PM_ACTIVATED_PENDING_DEACTIVATION;
             _ ← queue_delayed_work p; mret 0
         | IPA_PM_ACTIVATED_TIMER_SET | IPA_PM_ACTIVATED_PENDING_DEACTIVATION =>
             _ ← set_state p IPA_PM_ACTIVATED_PENDING_RESCHEDULE; mret 0
         | IPA_PM_DEACTIVATE_IN_PROGRESS | IPA_PM_ACTIVATED_PENDING_RESCHEDULE => mret 0
         end)).

(** One client: whether it was deactivated. *)
Definition deactivate_deferred_one (p : Z) : T bool :=
  _ ← cancel_delayed_work_sync p;
  c ← sec (cget p);
  if IPA_PM_STATE_IN_PROGRESS (c_state c) then Await (completed p) (Ret false)
  else
    off ← sec (c ← cget p;
               match c_state c with
               | IPA_PM_ACTIVATED_TIMER_SET => _ ← set_state p IPA_PM_ACTIVATED; mret false
               | IPA_PM_ACTIVATED_PENDING_DEACTIVATION | IPA_PM_ACTIVATED_PENDING_RESCHEDULE =>
                   _ ← set_state p IPA_PM_DEACTIVATED; mret true
               | _ => mret false
               end);
    if off : bool then
      _ ← devote p;
      _ ← sec (c ← cget p; deactivate_client (c_hdl c));
      Ret true
    else Ret false.

Fixpoint deactivate_deferred_from (hdls : list Z) (run_algorithm : bool) : T bool :=
  match hdls with
  | [] => Ret run_algorithm
  | hdl :: hdls =>
      o ← sec (client_at hdl);
      match o with
      | None => deactivate_deferred_from hdls run_algorithm
      | Some p => off ← deactivate_deferred_one p; deactivate_deferred_from hdls (run_algorithm || off)
      end
  end.

Definition ipa_pm_deactivate_all_deferred : T Z :=
  with_ctx
    (run_algorithm ← deactivate_deferred_from (seqZ 1 (IPA_PM_MAX_CLIENTS - 1)) false;
     if run_algorithm : bool then _ ← do_clk_scaling; Ret 0 else Ret 0).

Definition ipa_pm_deactivate_sync (hdl : Z) : T Z :=
  with_client hdl (fun p =>
    _ ← cancel_delayed_work_sync p;
    c ← sec (cget p);
    let deactivate : T Z :=
      c ← sec (cget p);
      if decide (c_state c = IPA_PM_DEACTIVATED) then Ret 0
      else
        _ ← devote p;
        _ ← sec (set_state p IPA_PM_DEACTIVATED);
        _ ← cancel_delayed_work_sync p;
        _ ← sec (deactivate_client hdl);
        _ ← do_clk_scaling; Ret 0 in
    if IPA_PM_STATE_IN_PROGRESS (c_state c) then Await (completed p) deactivate else deactivate).

(** ** Wake-up *)
Definition u32_bit (m : Z) (i : nat) : bool := Z.testbit m (Z.of_nat i).

(** The pipes from the [i]-th bit on; handles of the clients called so far. *)
Fixpoint wake_pipes (n i : nat) (pipe_bitmask pipe_add : Z) (notified : list Z) : PM unit :=
  match n with
  | O => mret tt
  | Datatypes.S n =>
      let pipe := u32 (Z.of_nat i + pipe_add) in
      if negb (pipe <? ipa3_get_max_num_pipes) then mret tt
      else if u32_bit pipe_bitmask i then
        x ← xget;
        q ← st_lift (deref (zget (clients_by_pipe x) pipe));
        match q with
        | None => wake_pipes n (S i) pipe_bitmask pipe_add notified
        | Some p =>
            c ← cget p;
            match c_callback c with
            | Some f =>
                if bool_decide (c_hdl c ∈ notified) then wake_pipes n (S i) pipe_bitmask pipe_add notified
                else
                  _ ← pdo (pm_callback f (c_params c) IPA_PM_REQUEST_WAKEUP);
                  wake_pipes n (S i) pipe_bitmask pipe_add (c_hdl c :: notified)
            | None => wake_pipes n (S i) pipe_bitmask pipe_add notified
            end
        end
      else wake_pipes n (S i) pipe_bitmask pipe_add notified
  end.

Definition ipa_pm_handle_suspend (pipe_bitmask pipe_arr_idx : Z) : T Z :=
  with_ctx
    (if pipe_bitmask =? 0 then Ret 0
     else _ ← sec (wake_pipes IPA_EP_PER_REG 0 pipe_bitmask (u32 (pipe_arr_idx * 32)) []); Ret 0).

(** ** Throughput requirements *)
Definition ipa_pm_set_throughput (hdl throughput : Z) : T Z :=
  with_ctx
    (o ← sec (if hdl >=? IPA_PM_MAX_CLIENTS then mret None
              else
                o ← client_at hdl;
                match o with
                | None => mret None
                | Some p =>
                    if throughput <? 0 then mret None
                    else
                      c ← cget p;
                      _ ← (if decide (c_group c = IPA_PM_GROUP_DEFAULT)
                           then cmod p (fun c => c_set_tput c throughput)
                           else xmod (fun x => x_set_tputs x (aggregated_tput x)
                                        (zset (group_tput x) (group_index (c_group c)) throughput)));
                      mret (Some p)
                end);
     match o with
     | None => Ret (- EINVAL)
     | Some p =>
         o ← sec (client_at hdl);
         match o with
         | None => Ret 0
         | Some _ =>
             b ← sec (c ← cget p;
                      mret (IPA_PM_STATE_ACTIVE (c_state c) ||
                            negb (bool_decide (c_group c = IPA_PM_GROUP_DEFAULT))));
             if b : bool then _ ← do_clk_scaling; Ret 0 else Ret 0
         end
     end).

(** ** What others ask *)
Definition ipa_pm_get_scaling_bw_levels : PM (Z * list Z) :=
  s ← pget;
  match pm_ctx s with
  | None => mret (- EINVAL, [])
  | Some x =>
      if threshold_size (clk_scaling x) >=? 3
      then ths ← st_lift (thresholds (clk_scaling x)); mret (0, take 3 ths)
      else mret (- EINVAL, [])
  end.

Definition ipa_pm_get_aggregated_throughput : PM Z :=
  s ← pget; mret (match pm_ctx s with Some x => aggregated_tput x | None => 0 end).

Definition ipa_pm_get_pm_clnt_throughput (client_type : Z) : PM Z :=
  x ← xget;
  let idx := pm_ep_mapping client_type in
  if idx <? 0 then mret 0
  else
    o ← st_lift (deref (zget (clients_by_pipe x) idx));
    match o with Some p => c ← cget p; mret (c_throughput c) | None => mret 0 end.

(** ** The two dummy clients *)
Definition dummy_params (name : string) (g : ipa_pm_group) : ipa_pm_register_params :=
  mk_register name None 0 g false.

(** The next call unless this one failed. *)
Definition or_fail (t : T Z) (next : T Z) : T Z :=
  rc ← t; if negb (rc =? 0) then Ret (- EFAULT) else next.

Definition ipa_pm_add_dummy_clients (power_plan : Z) : T Z :=
  if power_plan <? 0 then Ret (- EFAULT)
  else
    x ← sec xget;
    if power_plan - 1 >=? threshold_size (clk_scaling x) then Ret (- EFAULT)
    else
      tput ← sec (if power_plan =? 0 then mret 0
                  else
                    x ← xget;
                    ths ← st_lift (thresholds (clk_scaling x));
                    st_lift (deref (zget ths (power_plan - 1))));
      '(rc, hdl_1) ← ipa_pm_register (Some (dummy_params "DummyModem" IPA_PM_GROUP_MODEM));
      if negb (rc =? 0) then Ret (- EFAULT)
      else
        '(rc, hdl_2) ← ipa_pm_register (Some (dummy_params "DummyApps" IPA_PM_GROUP_APPS));
        if negb (rc =? 0) then Ret (- EFAULT)
        else
          s ← sec (x ← xget;
                   m ← st_lift (deref (zget (group_tput x) (group_index IPA_PM_GROUP_MODEM)));
                   a ← st_lift (deref (zget (group_tput x) (group_index IPA_PM_GROUP_APPS)));
                   _ ← pmod (fun s => set_dummies s (default 0 hdl_1) (default 0 hdl_2) m a);
                   pget);
          or_fail (ipa_pm_set_throughput (dummy_hdl_1 s) tput)
            (or_fail (ipa_pm_set_throughput (dummy_hdl_2 s) tput)
              (or_fail (ipa_pm_activate_sync (dummy_hdl_1 s))
                (or_fail (ipa_pm_activate_sync (dummy_hdl_2 s)) (Ret 0)))).

Definition ipa_pm_remove_dummy_clients : T Z :=
  s ← sec pget;
  or_fail (ipa_pm_deactivate_sync (dummy_hdl_1 s))
    (or_fail (ipa_pm_deactivate_sync (dummy_hdl_2 s))
      (or_fail (ipa_pm_set_throughput (dummy_hdl_1 s) (tput_modem s))
        (or_fail (ipa_pm_set_throughput (dummy_hdl_2 s) (tput_apps s))
          (or_fail (ipa_pm_deregister (dummy_hdl_1 s))
            (or_fail (ipa_pm_deregister (dummy_hdl_2 s)) (Ret 0)))))).
End pm.
