(* ===== verification/PmRules.v ===== *)
(** * Rules to run the power manager's code

    [core] is the part of the state that the functions on clients work on, without what
    scaling sets; the counter of active clients has its own invariant, [clk_ok].  [moves],
    [runs] and [truns] are total correctness of code on the core, of code that also votes,
    and of threads, with a rule for each access. *)

From Stdlib Require Import ZArith Lia Ascii String.
From stdpp Require Import prelude list numbers strings.
From S2P Require Import Prelude StWp Act PmState PmClk IpaPm.

Local Open Scope Z_scope.

(** * The power manager's state, without what scaling sets

    [core] is the part of the state that the functions on clients work on; the clock
    scaling leaves it alone.  Each access has a rule for [wp] in terms of the core; the
    counter of active clients has its own invariant, [clk_ok]. *)

Record pmcore := mk_core {
  v_heap : list (option ipa_pm_client);
  v_clients : list (option Z);
  v_pipes : list (option Z);
  v_queue : list pm_work;
  v_timers : list Z;
  v_running : option pm_work;
  v_exceptions : list ipa_pm_exception_list;
  v_bits : list Z;
  v_tputs : list Z;
  v_dummies : Z * Z * Z * Z }.

Definition core (s : pmst) : option pmcore :=
  x ← pm_ctx s;
  Some (mk_core (heap s) (clients x) (clients_by_pipe x) (pm_queue x) (pm_timers x) (pm_running x)
    (exception_list (clk_scaling x)) (active_client_bitmask (clk_scaling x)) (group_tput x)
    (dummy_hdl_1 s, dummy_hdl_2 s, tput_modem s, tput_apps s)).

Definition v_set_heap v h := mk_core h (v_clients v) (v_pipes v) (v_queue v) (v_timers v) (v_running v)
  (v_exceptions v) (v_bits v) (v_tputs v) (v_dummies v).
Definition v_set_clients v l := mk_core (v_heap v) l (v_pipes v) (v_queue v) (v_timers v) (v_running v)
  (v_exceptions v) (v_bits v) (v_tputs v) (v_dummies v).
Definition v_set_pipes v l := mk_core (v_heap v) (v_clients v) l (v_queue v) (v_timers v) (v_running v)
  (v_exceptions v) (v_bits v) (v_tputs v) (v_dummies v).
Definition v_set_work v q ts r := mk_core (v_heap v) (v_clients v) (v_pipes v) q ts r
  (v_exceptions v) (v_bits v) (v_tputs v) (v_dummies v).
Definition v_set_exceptions v l := mk_core (v_heap v) (v_clients v) (v_pipes v) (v_queue v) (v_timers v)
  (v_running v) l (v_bits v) (v_tputs v) (v_dummies v).
Definition v_set_bits v l := mk_core (v_heap v) (v_clients v) (v_pipes v) (v_queue v) (v_timers v)
  (v_running v) (v_exceptions v) l (v_tputs v) (v_dummies v).
Definition v_set_tputs v l := mk_core (v_heap v) (v_clients v) (v_pipes v) (v_queue v) (v_timers v)
  (v_running v) (v_exceptions v) (v_bits v) l (v_dummies v).
Definition v_set_dummies v l := mk_core (v_heap v) (v_clients v) (v_pipes v) (v_queue v) (v_timers v)
  (v_running v) (v_exceptions v) (v_bits v) (v_tputs v) l.

(** A live client. *)
Definition live (v : pmcore) (p : Z) (c : ipa_pm_client) : Prop := zget (v_heap v) p = Some (Some c).

Definition v_put v p c := v_set_heap v (zset (v_heap v) p (Some c)).

Lemma live_put_eq v p c c0 : live v p c0 -> live (v_put v p c) p c.
Proof. intros H. apply zget_zset_eq. by eapply zget_Some_lt. Qed.

Lemma live_put_ne v p c q d : p <> q -> live (v_put v p c) q d <-> live v q d.
Proof. intros H. unfold live, v_put. cbn. by rewrite zget_zset_ne. Qed.

(** ** Bits of two words *)
Definition word_of (h : Z) : Z := Z.shiftr h 5.
Definition mask_bit (l : list Z) (h : Z) : bool :=
  match zget l (word_of h) with Some w => Z.testbit w (h mod 32) | None => false end.

Lemma ep_bit h : 0 <= h -> ipahal_get_ep_bit h = 2 ^ (h mod 32).
Proof.
  intros H. unfold ipahal_get_ep_bit.
  assert (E : h - Z.shiftl (Z.shiftr h 5) 5 = h mod 32).
  { rewrite Z.shiftr_div_pow2, Z.shiftl_mul_pow2 by lia. change (2 ^ 5) with 32. Z.div_mod_to_equations. lia. }
  rewrite E, Z.shiftl_mul_pow2 by (apply Z.mod_pos_bound; lia). lia.
Qed.

Lemma word_range h : 0 <= h < 64 -> 0 <= word_of h < 2.
Proof. intros H. unfold word_of. rewrite Z.shiftr_div_pow2 by lia. change (2 ^ 5) with 32. Z.div_mod_to_equations. lia. Qed.

Lemma word_inj h j : word_of h = word_of j -> h mod 32 = j mod 32 -> h = j.
Proof. unfold word_of. rewrite !Z.shiftr_div_pow2 by lia. change (2 ^ 5) with 32. Z.div_mod_to_equations. lia. Qed.

Lemma set_bit_spec l h on : length l = 2%nat -> 0 <= h < 64 -> exists l', set_bit l h on = Ok l' /\
  length l' = 2%nat /\ forall j, mask_bit l' j = if decide (j = h) then on else mask_bit l j.
Proof.
  intros Hl Hh. pose proof (word_range h Hh) as Hw. unfold set_bit.
  change (ipahal_get_ep_reg_idx h) with (word_of h). rewrite ep_bit by lia.
  destruct (zget_lt_Some l (word_of h)) as [w Hg]; [lia|]. rewrite Hg. cbn [deref mbind res_bind].
  eexists. split; [done|]. split; [unfold zset; case_match; [by rewrite length_insert|done]|].
  intros j. unfold mask_bit. pose proof (Z.mod_pos_bound h 32). pose proof (Z.mod_pos_bound j 32).
  destruct (decide (j = h)) as [->|Hne].
  - rewrite zget_zset_eq by lia. destruct on.
    + rewrite Z.lor_spec, Z.pow2_bits_true by lia. apply orb_true_r.
    + rewrite Z.ldiff_spec, Z.pow2_bits_true by lia. apply andb_false_r.
  - destruct (decide (word_of j = word_of h)) as [E|E].
    + rewrite E, zget_zset_eq, Hg by lia. destruct on.
      * rewrite Z.lor_spec, Z.pow2_bits_false by (intros Hm; apply Hne, word_inj; lia). apply orb_false_r.
      * rewrite Z.ldiff_spec, Z.pow2_bits_false by (intros Hm; apply Hne, word_inj; lia). apply andb_true_r.
    + by rewrite zget_zset_ne.
Qed.

Lemma bit_set_spec l h : length l = 2%nat -> 0 <= h < 64 -> bit_set l h = Ok (mask_bit l h).
Proof.
  intros Hl Hh. pose proof (word_range h Hh). unfold bit_set, mask_bit.
  change (ipahal_get_ep_reg_idx h) with (word_of h). rewrite ep_bit by lia.
  destruct (zget_lt_Some l (word_of h)) as [w ->]; [lia|]. cbn [deref mbind res_bind]. f_equal.
  pose proof (Z.mod_pos_bound h 32). destruct (Z.testbit w (h mod 32)) eqn:E.
  - apply negb_true_iff, Z.eqb_neq. intros Hz. assert (Hb : Z.testbit (Z.land w (2 ^ (h mod 32))) (h mod 32) = true).
    { by rewrite Z.land_spec, E, Z.pow2_bits_true by lia. } by rewrite Hz, Z.bits_0 in Hb.
  - apply negb_false_iff, Z.eqb_eq. apply Z.bits_inj'. intros n Hn. rewrite Z.land_spec, Z.bits_0.
    destruct (decide (n = h mod 32)) as [->|]; [by rewrite E|].
    by rewrite Z.pow2_bits_false, andb_false_r.
Qed.

(** ** The accesses *)
Section rules.
Context {K : Type}.
Implicit Types (v : pmcore) (s : pmst * K).

(** [current_threshold] points nowhere or to an exception that is there. *)
Definition current_ok (d : clk_scaling_db) : Prop := forall i, current_threshold d = Some (ThException i) ->
  0 <= i < Z.of_nat (length (exception_list d)).
Definition db_ok (s : pmst) : Prop := forall x, pm_ctx s = Some x -> current_ok (clk_scaling x).

Definition at_core v (s : pmst * K) : Prop := core (fst s) = Some v /\ db_ok (fst s).

Lemma at_ctx v s : at_core v s -> exists x, pm_ctx (fst s) = Some x /\ core (fst s) = Some v.
Proof. intros [H _]. unfold core in *. destruct (pm_ctx (fst s)) as [x|]; [by exists x|done]. Qed.

Lemma wp_pget (Q : pmst -> pmst * K -> Prop) s : Q (fst s) s -> wp pget Q s.
Proof. done. Qed.

(** What a section does to the core only. *)
Definition moves {A} (m : St (pmst * K) A) v (P : A -> pmcore -> Prop) : Prop :=
  forall s (Q : A -> pmst * K -> Prop), at_core v s ->
    (forall a v' s', P a v' -> at_core v' s' -> clk (fst s') = clk (fst s) -> Q a s') -> wp m Q s.

Lemma moves_bind {A B} (m : St (pmst * K) A) (f : A -> St (pmst * K) B) v P R :
  moves m v P -> (forall a v', P a v' -> moves (f a) v' R) -> moves (m ≫= f) v R.
Proof.
  intros Hm Hf s Q Hs HQ. apply wp_bind, (Hm s _ Hs). intros a v' s' HP Hs' Hk.
  apply (Hf a v' HP s' _ Hs'). intros b v'' s'' HR Hs'' Hk'. eapply HQ; [done..|]. by rewrite Hk'.
Qed.

Lemma moves_ret {A} (a : A) v (P : A -> pmcore -> Prop) : P a v -> moves (mret a) v P.
Proof. intros H s Q Hs HQ. by eapply HQ. Qed.

Lemma moves_lift {A} (r : res A) a v (P : A -> pmcore -> Prop) : r = Ok a -> P a v -> moves (st_lift r) v P.
Proof. intros -> H s Q Hs HQ. eapply wp_lift; [done|]. by eapply HQ. Qed.

Lemma moves_cget p c v (P : ipa_pm_client -> pmcore -> Prop) : live v p c -> P c v -> moves (cget p) v P.
Proof.
  intros Hl HP s Q Hs HQ. destruct (at_ctx v s Hs) as (x & Hx & Hc). unfold cget. apply wp_bind, wp_pget, wp_bind.
  unfold core in Hc. rewrite Hx in Hc. injection Hc as <-. unfold live in Hl. cbn in Hl.
  eapply wp_lift; [by rewrite Hl|]. eapply wp_lift; [done|]. by eapply HQ.
Qed.

Lemma moves_cmod p c f v (P : unit -> pmcore -> Prop) : live v p c -> P tt (v_put v p (f c)) -> moves (cmod p f) v P.
Proof.
  intros Hl HP. eapply (moves_bind _ _ _ (fun a w => a = c /\ w = v)); [by apply moves_cget with c|].
  intros ? ? [-> ->] s Q [Hs Hd] HQ. unfold pmod, wp. destruct s as [s k]. eapply HQ; [done|split; [|exact Hd]|done].
  unfold core in *. cbn in *. destruct (pm_ctx s); [|done]. cbn in *. by injection Hs as <-.
Qed.

Lemma moves_xget v (P : ipa_pm_ctx -> pmcore -> Prop) :
  (forall x, clients x = v_clients v -> clients_by_pipe x = v_pipes v -> pm_queue x = v_queue v ->
     pm_timers x = v_timers v -> pm_running x = v_running v -> exception_list (clk_scaling x) = v_exceptions v ->
     active_client_bitmask (clk_scaling x) = v_bits v -> group_tput x = v_tputs v -> P x v) -> moves xget v P.
Proof.
  intros HP s Q Hs HQ. destruct (at_ctx v s Hs) as (x & Hx & Hc). unfold xget. apply wp_bind, wp_pget.
  eapply wp_lift; [by rewrite Hx|]. unfold core in Hc. rewrite Hx in Hc. injection Hc as <-.
  eapply HQ; [by apply HP|done|done].
Qed.

Lemma moves_client_at h o v (P : option Z -> pmcore -> Prop) :
  zget (v_clients v) h = Some o -> P o v -> moves (client_at h) v P.
Proof.
  intros Hg HP. eapply (moves_bind _ _ _ (fun x w => clients x = v_clients v /\ w = v)).
  - apply moves_xget. by intros x ->.
  - intros x ? [Hx ->]. apply (moves_lift _ o); [by rewrite Hx, Hg|done].
Qed.

(** A change of the structure that is a change of the core. *)
Lemma moves_xmod f g v (P : unit -> pmcore -> Prop) :
  (forall (s : pmst) x, pm_ctx s = Some x -> core s = Some v -> core (set_ctx s (Some (f x))) = Some (g v)) ->
  (forall (s : pmst) x, pm_ctx s = Some x -> core s = Some v -> current_ok (clk_scaling x) -> current_ok (clk_scaling (f x))) ->
  P tt (g v) -> moves (xmod f) v P.
Proof.
  intros Hf Hd HP s Q Hs HQ. destruct (at_ctx v s Hs) as (x & Hx & Hc). unfold xmod, xget.
  apply wp_bind, wp_bind, wp_pget. eapply wp_lift; [by rewrite Hx|]. unfold pmod, wp. destruct s as [s k].
  eapply HQ; [done| |done]. split; [by apply Hf|]. intros y [= <-]. apply (Hd s x Hx Hc), Hs, Hx.
Qed.


Lemma wp_moves {A} (m : St (pmst * K) A) v P s (Q : A -> pmst * K -> Prop) : moves m v P -> at_core v s ->
  (forall a v' s', P a v' -> at_core v' s' -> clk (fst s') = clk (fst s) -> Q a s') -> wp m Q s.
Proof. intros H. by apply H. Qed.
End rules.

(** * The counter of active clients counts votes

    [clk_ok k n]: [n] votes are held; a vote that a work item has still to give back is
    counted on top of them, and the clocks are on exactly when the counter is positive.
    [runs] is total correctness of code that works on the core and on the votes. *)

(** What the manager relies on: clocks are only turned off when no interrupt is pending
    (the driver stops the kernel otherwise), wake sources can be registered, and the
    configuration's pipes are those of the arrays. *)
Class PmWorks (K : Type) `{PO : PmOps K} `{PC : PmConf} : Prop := {
  law_gsi : forall k, fst (gsi_pending_irq_type k) = 0;
  law_wakeup : forall name k, fst (wakeup_source_register name k) = true;
  law_pipes : 0 <= ipa3_get_max_num_pipes <= IPA5_PIPES_NUM;
  law_ep : forall c, pm_ep_mapping c < ipa3_get_max_num_pipes }.

Record clk_ok `{PC : PmConf} (k : clk_ctx) (n : Z) : Prop := {
  ck_cnt : ac_cnt k = n + b2z (tag_work k) + b2z (dec_work k);
  ck_votes : 0 <= n;
  ck_once : tag_work k && dec_work k = false;
  ck_mutex : ac_mutex k = false;
  ck_on : regular_clk_mode = true -> ipa_clk_vote k = (0 <? ac_cnt k) }.

Section runs.
Context {K : Type} `{PC : PmConf}.

Definition runs {A} (m : St (pmst * K) A) (v : pmcore) (n : Z) (P : A -> pmcore -> Z -> Prop) : Prop :=
  forall s (Q : A -> pmst * K -> Prop), at_core v s -> clk_ok (clk (fst s)) n ->
    (forall a v' n' s', P a v' n' -> at_core v' s' -> clk_ok (clk (fst s')) n' -> Q a s') -> wp m Q s.

Lemma runs_bind {A B} (m : St (pmst * K) A) (f : A -> St (pmst * K) B) v n P R :
  runs m v n P -> (forall a v' n', P a v' n' -> runs (f a) v' n' R) -> runs (m ≫= f) v n R.
Proof.
  intros Hm Hf s Q Hs Hk HQ. apply wp_bind, (Hm s _ Hs Hk). intros a v' n' s' HP Hs' Hk'.
  by apply (Hf a v' n' HP s' _ Hs' Hk').
Qed.

Lemma runs_ret {A} (a : A) v n (P : A -> pmcore -> Z -> Prop) : P a v n -> runs (mret a) v n P.
Proof. intros H s Q Hs Hk HQ. by eapply HQ. Qed.

Lemma runs_moves {A} (m : St (pmst * K) A) v n (P : A -> pmcore -> Z -> Prop) :
  moves m v (fun a v' => P a v' n) -> runs m v n P.
Proof.
  intros Hm s Q Hs Hk HQ. apply (Hm s _ Hs). intros a v' s' HP Hs' E. eapply HQ; [done|done|]. by rewrite E.
Qed.

Lemma runs_weaken {A} (m : St (pmst * K) A) v n (P R : A -> pmcore -> Z -> Prop) :
  runs m v n P -> (forall a v' n', P a v' n' -> R a v' n') -> runs m v n R.
Proof. intros Hm H s Q Hs Hk HQ. apply (Hm s _ Hs Hk). intros a v' n' s' HP. by apply HQ, H. Qed.

Lemma runs_psys {A} (f : K -> A * K) v n (P : A -> pmcore -> Z -> Prop) :
  (forall k, P (fst (f k)) v n) -> runs (psys f) v n P.
Proof.
  intros H [s k] Q Hs Hk HQ. unfold psys, wp. specialize (H k). destruct (f k) as [a k']. by eapply HQ.
Qed.

Lemma runs_pdo f v n (P : unit -> pmcore -> Z -> Prop) : P tt v n -> runs (pdo f) v n P.
Proof. intros H. by apply runs_psys. Qed.

(** Threads. *)
Context (wait : (pmst * K -> bool) -> St (pmst * K) unit).

Definition truns {A} (t : act (pmst * K) A) v n P : Prop :=
  Ready wait -> runs (run wait t) v n P.

Lemma truns_ret {A} (a : A) v n (P : A -> pmcore -> Z -> Prop) : P a v n -> truns (Ret a) v n P.
Proof. intros H _ s Q Hs Hk HQ. by eapply HQ. Qed.

Lemma truns_bind {A B} (t : act (pmst * K) A) (f : A -> act (pmst * K) B) v n P R :
  truns t v n P -> (forall a v' n', P a v' n' -> truns (f a) v' n' R) -> truns (t ≫= f) v n R.
Proof.
  intros Ht Hf HR s Q Hs Hk HQ. apply wp_run_bind, (Ht HR s _ Hs Hk). intros a v' n' s' HP Hs' Hk'.
  by apply (Hf a v' n' HP HR s' _ Hs' Hk').
Qed.

Lemma truns_sec {A} (m : St (pmst * K) A) v n P : runs m v n P -> truns (sec m) v n P.
Proof. intros Hm _ s Q Hs Hk HQ. by apply wp_run_sec, (Hm s _ Hs Hk). Qed.

Lemma truns_section {A} (m : St (pmst * K) (act (pmst * K) A)) v n P :
  runs m v n (fun t v' n' => truns t v' n' P) -> truns (Sec m) v n P.
Proof.
  intros Hm HR s Q Hs Hk HQ. apply wp_run_section, (Hm s _ Hs Hk). intros t v' n' s' Ht Hs' Hk'. by apply (Ht HR s' _ Hs' Hk').
Qed.

Lemma truns_weaken {A} (t : act (pmst * K) A) v n P R :
  truns t v n P -> (forall a v' n', P a v' n' -> R a v' n') -> truns t v n R.
Proof. intros H HPR HR. by apply (runs_weaken _ _ _ _ _ (H HR)). Qed.
End runs.

(** ** Votes *)
Section votes.
Context {K : Type} `{PW : PmWorks K}.
Context (wait : (pmst * K -> bool) -> St (pmst * K) unit).

(** A change of the counter only. *)
Lemma runs_clk f v n n' (P : unit -> pmcore -> Z -> Prop) :
  (forall k, clk_ok k n -> clk_ok (f k) n') -> P tt v n' -> runs (K := K) (kmod_clk f) v n P.
Proof.
  intros Hf HP [s k] Q Hs Hk HQ. unfold kmod_clk, pmod, wp. eapply HQ; [done|exact Hs|]. by apply Hf.
Qed.

(** The counter is looked at: what follows may use its value. *)
Lemma runs_clk_get v n (P : clk_ctx -> pmcore -> Z -> Prop) :
  (forall k, clk_ok k n -> P k v n) -> runs (K := K) clk_get v n P.
Proof. intros H s Q Hs Hk HQ. unfold clk_get. apply wp_bind, wp_pget. eapply HQ; [by apply H|done|done]. Qed.

(** Code on the counter itself, from any state that holds [n] votes. *)
Lemma runs_unfold {A} (m : St (pmst * K) A) v n P :
  (forall k, clk_ok k n -> forall s (Q : A -> pmst * K -> Prop), at_core v s -> clk (fst s) = k ->
     (forall a v' n' s', P a v' n' -> at_core v' s' -> clk_ok (clk (fst s')) n' -> Q a s') -> wp m Q s) ->
  runs m v n P.
Proof. intros H s Q Hs Hk HQ. by apply (H _ Hk s Q). Qed.

Lemma wp_clk f (Q : unit -> pmst * K -> Prop) (s : pmst * K) :
  Q tt (set_clk (fst s) (f (clk (fst s))), snd s) -> wp (kmod_clk f) Q s.
Proof. by destruct s. Qed.

Lemma wp_psys {A} (f : K -> A * K) (Q : A -> pmst * K -> Prop) (s : pmst * K) :
  Q (fst (f (snd s))) (fst s, snd (f (snd s))) -> wp (psys f) Q s.
Proof. destruct s as [s k]. unfold wp, psys. cbn. by destruct (f k). Qed.

Lemma wp_clk_get (Q : clk_ctx -> pmst * K -> Prop) (s : pmst * K) : Q (clk (fst s)) s -> wp clk_get Q s.
Proof. done. Qed.

Lemma at_core_clk v (s : pmst * K) k (k' : K) : at_core v s -> at_core v (set_clk (fst s) k, k').
Proof. done. Qed.

Lemma wp_enable v (s : pmst * K) (Q : unit -> pmst * K -> Prop) : at_core v s ->
  (forall s', at_core v s' -> ac_cnt (clk (fst s')) = ac_cnt (clk (fst s)) ->
     tag_work (clk (fst s')) = tag_work (clk (fst s)) -> dec_work (clk (fst s')) = dec_work (clk (fst s)) -> ac_mutex (clk (fst s')) = ac_mutex (clk (fst s)) ->
     (regular_clk_mode = true -> ipa_clk_vote (clk (fst s')) = true) -> Q tt s') -> wp ipa3_enable_clks Q s.
Proof.
  intros Hs H. unfold ipa3_enable_clks. destruct regular_clk_mode eqn:E; cbn [negb].
  - apply wp_bind, wp_clk_get, wp_bind, wp_psys, wp_clk. by apply H.
  - by apply wp_ret, H.
Qed.

Lemma wp_disable v (s : pmst * K) (Q : unit -> pmst * K -> Prop) : at_core v s ->
  (forall s', at_core v s' -> ac_cnt (clk (fst s')) = ac_cnt (clk (fst s)) ->
     tag_work (clk (fst s')) = tag_work (clk (fst s)) -> dec_work (clk (fst s')) = dec_work (clk (fst s)) -> ac_mutex (clk (fst s')) = ac_mutex (clk (fst s)) ->
     (regular_clk_mode = true -> ipa_clk_vote (clk (fst s')) = false) -> Q tt s') -> wp ipa3_disable_clks Q s.
Proof.
  intros Hs H. unfold ipa3_disable_clks. destruct regular_clk_mode eqn:E; cbn [negb]; [|by apply wp_ret, H].
  apply wp_bind, wp_clk, wp_bind.
  apply (wp_mono _ (fun _ s' => fst s' = set_clk (fst s) (k_set_vote (clk (fst s)) false))).
  { destruct (negb ipa_config_is_mhi); [|by apply wp_ret]. apply wp_bind, wp_psys. cbn [fst snd].
    rewrite law_gsi. cbn [Z.eqb negb]. by apply wp_ret. }
  intros _ s1 H1. apply wp_bind, wp_psys. cbn [fst snd]. apply wp_bind. unfold ipa_pm_set_clock_index.
  apply wp_bind, wp_pget. cbn [fst]. rewrite H1. cbn [pm_ctx set_clk].
  destruct (at_ctx v s Hs) as (x & Hx & Hcore). rewrite Hx. cbn [Z.geb Z.compare].
  unfold dmod, xmod, xget. apply wp_bind, wp_bind, wp_pget. cbn [fst pm_ctx set_clk]. rewrite Hx.
  eapply wp_lift; [done|]. unfold pmod at 1, wp at 1. cbn [fst snd]. apply wp_clk. cbn [fst snd].
  apply H; try done. split.
  - unfold core in *. cbn. by rewrite Hx in Hcore.
  - intros y [= <-]. exact (proj2 Hs x Hx).
Qed.

End votes.

(** * Votes of threads that interleave

    What a thread has of the counter is its [share]: the votes it holds, what the mutex
    protects when it holds it, and the right to queue a work that gives a vote back, which
    it has once it found its vote to be the last.  [twp t c x Q]: in every state that is
    made of the shares of all, each section of [t] is defined, changes nothing but its own
    share, and ends within [c] sections in one for which [Q] holds.  Code that runs alone
    is the case where the others do nothing ([twp_run]). *)

(** The counter is 0 and the clocks are off or on; otherwise they are on exactly when
    it is positive. *)
Inductive lock_mode := Held | Off | On.
Record share := mk_share { sh_votes : Z; sh_lock : option lock_mode; sh_quiet : bool }.

Definition share0 : share := mk_share 0 None false.
Definition join (e x : share) : share :=
  mk_share (sh_votes e + sh_votes x) (match sh_lock x with Some l => Some l | None => sh_lock e end) (sh_quiet e || sh_quiet x).

(** The shares of two parties. *)
Record fits (e x : share) : Prop := {
  f_votes : 0 <= sh_votes e /\ 0 <= sh_votes x;
  f_last : (sh_quiet e = true -> 1 <= sh_votes e) /\ (sh_quiet x = true -> 1 <= sh_votes x);
  f_lock : sh_lock e = None \/ sh_lock x = None;
  f_quiet : sh_quiet e = false \/ sh_quiet x = false }.

Record clk_shared `{PC : PmConf} (k : clk_ctx) (y : share) : Prop := {
  cs_cnt : ac_cnt k = sh_votes y + b2z (tag_work k) + b2z (dec_work k);
  cs_once : tag_work k = false \/ dec_work k = false;
  cs_quiet : sh_quiet y = true -> tag_work k = false /\ dec_work k = false;
  cs_lock : match sh_lock y with
            | None => ac_mutex k = false /\ (regular_clk_mode = true -> ipa_clk_vote k = (0 <? ac_cnt k))
            | Some Held => ac_mutex k = true /\ (regular_clk_mode = true -> ipa_clk_vote k = (0 <? ac_cnt k))
            | Some Off => ac_mutex k = true /\ ac_cnt k = 0 /\ (regular_clk_mode = true -> ipa_clk_vote k = false)
            | Some On => ac_mutex k = true /\ ac_cnt k = 0 /\ (regular_clk_mode = true -> ipa_clk_vote k = true)
            end }.

Lemma clk_alone `{PC : PmConf} k n : clk_ok k n <-> 0 <= n /\ clk_shared k (mk_share n None false).
Proof.
  split.
  - intros [Hc Hn Ho Hm Hr]. split; [done|]. by apply andb_false_iff in Ho.
  - intros [Hn [Hc Ho _ [Hm Hr]]]. split; [done|done|by apply andb_false_iff|done|done].
Qed.

Section shares.
Context {K : Type} `{PW : PmWorks K}.
#[local] Notation T := (act (pmst * K)).
#[local] Notation PM := (St (pmst * K)).

Definition shared (v : pmcore) (e x : share) (s : pmst * K) : Prop :=
  at_core v s /\ fits e x /\ clk_shared (clk (fst s)) (join e x).

(** A section. *)
Definition keeps {A} (m : PM A) (x : share) (Q : A -> share -> Prop) : Prop :=
  forall v e s, shared v e x s -> wp m (fun a s' => exists x', shared v e x' s' /\ Q a x') s.

(** [W x s]: a thread with the share [x] may wait for something else than the mutex. *)
Section threads.
Context (W : share -> pmst * K -> Prop).

Fixpoint twp {A} (t : T A) (c : nat) (x : share) (Q : A -> nat -> share -> Prop) : Prop :=
  match t with
  | Ret a => exists c', (c' <= c)%nat /\ Q a c' x
  | Sec m =>
      match c with
      | O => False
      | S c => forall v e s, shared v e x s ->
          match m s with Ok (t, s') => exists x', shared v e x' s' /\ twp t c x' Q | _ => False end
      end
  | When cond m =>
      sh_lock x = None /\
      match c with
      | O => False
      | S c => forall v e s, shared v e x s ->
          if cond s
          then match m s with Ok (t, s') => exists x', shared v e x' s' /\ twp t c x' Q | _ => False end
          else sh_lock e <> None \/ W x s
      end
  end.

Lemma twp_credit {A} (t : T A) (Q : A -> nat -> share -> Prop) : forall c c' x, (c <= c')%nat -> twp t c x Q -> twp t c' x Q.
Proof.
  induction t as [a|m IH|cond m IH] using act_induction; intros c c' x Hc; cbn [twp].
  - intros (d & Hd & H). exists d. split; [lia|done].
  - destruct c as [|c], c' as [|c']; [done|done|lia|]. intros H v e s Hs. specialize (H v e s Hs). specialize (IH s).
    destruct (m s) as [[t s']| |]; [|done..]. destruct H as (x' & Hs' & H). exists x'. split; [done|]. apply (IH c); [lia|done].
  - intros [Hl H]. split; [done|]. destruct c as [|c], c' as [|c']; [done|done|lia|]. intros v e s Hs. specialize (H v e s Hs).
    destruct (cond s); [|done]. specialize (IH s).
    destruct (m s) as [[t s']| |]; [|done..]. destruct H as (x' & Hs' & H). exists x'. split; [done|]. apply (IH c); [lia|done].
Qed.

Lemma twp_bind {A B} (t : T A) (f : A -> T B) (Q : B -> nat -> share -> Prop) : forall c x,
  twp t c x (fun a c' x' => twp (f a) c' x' Q) -> twp (t ≫= f) c x Q.
Proof.
  unfold mbind, act_bind. induction t as [a|m IH|cond m IH] using act_induction; intros c x; cbn [twp act_seq].
  - intros (c' & Hc & H). by apply (twp_credit _ _ c').
  - destruct c as [|c]; [done|]. intros H v e s Hs. specialize (H v e s Hs). specialize (IH s).
    destruct (m s) as [[t s']| |]; [|done..]. destruct H as (x' & Hs' & H). exists x'. split; [done|]. by apply IH.
  - intros [Hl H]. split; [done|]. destruct c as [|c]; [done|]. intros v e s Hs. specialize (H v e s Hs).
    destruct (cond s); [|done]. specialize (IH s).
    destruct (m s) as [[t s']| |]; [|done..]. destruct H as (x' & Hs' & H). exists x'. split; [done|]. by apply IH.
Qed.

Lemma twp_ret {A} (a : A) c x (Q : A -> nat -> share -> Prop) : Q a c x -> twp (Ret a) c x Q.
Proof. intros H. by exists c. Qed.

Lemma twp_sec {A} (m : PM A) c x (Q : A -> nat -> share -> Prop) :
  keeps m x (fun a x' => Q a c x') -> twp (sec m) (S c) x Q.
Proof.
  intros H v e s Hs. specialize (H v e s Hs). unfold wp in H. unfold mbind, st_bind. destruct (m s) as [[a s']| |]; [|done..].
  destruct H as (x' & Hs' & H). exists x'. split; [done|]. by exists c.
Qed.

Lemma twp_section {A} (m : PM (T A)) c x (Q : A -> nat -> share -> Prop) :
  keeps m x (fun t x' => twp t c x' Q) -> twp (Sec m) (S c) x Q.
Proof. done. Qed.

Lemma twp_mono {A} (t : T A) (Q R : A -> nat -> share -> Prop) : (forall a c x, Q a c x -> R a c x) ->
  forall c x, twp t c x Q -> twp t c x R.
Proof.
  intros HQ. induction t as [a|m IH|cond m IH] using act_induction; intros c x; cbn [twp].
  - intros (c' & ? & ?). exists c'. auto.
  - destruct c as [|c]; [done|]. intros H v e s Hs. specialize (H v e s Hs). specialize (IH s).
    destruct (m s) as [[t s']| |]; [|done..]. destruct H as (x' & Hs' & H). exists x'. auto.
  - intros [Hl H]. split; [done|]. destruct c as [|c]; [done|]. intros v e s Hs. specialize (H v e s Hs). specialize (IH s).
    destruct (cond s); [|done]. destruct (m s) as [[t s']| |]; [|done..]. destruct H as (x' & Hs' & H). exists x'. auto.
Qed.
End threads.

(** ** Sections *)
Lemma section_bind {A B} (m : PM A) (f : A -> PM B) x (Q : B -> share -> Prop) :
  keeps m x (fun a x' => keeps (f a) x' Q) -> keeps (m ≫= f) x Q.
Proof.
  intros H v e s Hs. apply wp_bind. eapply wp_mono; [by apply H|]. intros a s' (x' & Hs' & H'). by apply H'.
Qed.

Lemma section_ret {A} (a : A) x (Q : A -> share -> Prop) : Q a x -> keeps (mret a) x Q.
Proof. intros H v e s Hs. by exists x. Qed.

Lemma keeps_psys {A} (f : K -> A * K) x (Q : A -> share -> Prop) : (forall a, Q a x) -> keeps (psys f) x Q.
Proof. intros H v e s Hs. apply wp_psys. exists x. by split. Qed.

Lemma keeps_pdo f x (Q : unit -> share -> Prop) : Q tt x -> keeps (pdo f) x Q.
Proof. intros H. by apply keeps_psys; intros []. Qed.

Lemma keeps_clk_get x (Q : clk_ctx -> share -> Prop) :
  (forall k e, fits e x -> clk_shared k (join e x) -> Q k x) -> keeps clk_get x Q.
Proof. intros H v e s Hs. apply wp_clk_get. exists x. split; [done|]. by eapply H; apply Hs. Qed.

(** A change of the counter, with its share. *)
Lemma keeps_clk f x y (Q : unit -> share -> Prop) :
  (forall k e, fits e x -> clk_shared k (join e x) -> fits e y /\ clk_shared (f k) (join e y)) -> Q tt y ->
  keeps (kmod_clk f) x Q.
Proof. intros H HQ v e s (Hv & Hf & Hk). apply wp_clk. exists y. split; [|done]. by destruct (H _ _ Hf Hk). Qed.

(** What a section does to a state that is made of shares, case by case. *)
Lemma keeps_state {A} (m : PM A) n l q (Q : A -> share -> Prop) :
  (forall v ne le qe s, at_core v s -> fits (mk_share ne le qe) (mk_share n l q) ->
     clk_shared (clk (fst s)) (join (mk_share ne le qe) (mk_share n l q)) ->
     wp m (fun a s' => exists n' l' q', at_core v s' /\ fits (mk_share ne le qe) (mk_share n' l' q') /\
       clk_shared (clk (fst s')) (join (mk_share ne le qe) (mk_share n' l' q')) /\ Q a (mk_share n' l' q')) s) ->
  keeps m (mk_share n l q) Q.
Proof.
  intros H v [ne le qe] s (Hv & Hf & Hk). eapply wp_mono; [by apply (H v ne le qe s)|].
  intros a s' (n' & l' & q' & ? & ? & ? & ?). exists (mk_share n' l' q'). by split_and!.
Qed.

Ltac share_on :=
  let Hr := fresh in intros Hr;
  repeat match goal with H : regular_clk_mode = true -> _ |- _ => specialize (H Hr) end;
  repeat match goal with H : ipa_clk_vote _ = _ |- _ => rewrite H end;
  repeat match goal with |- context [0 <? ?z] => destruct (Z.ltb_spec 0 z) end; first [done|lia].

Ltac share_votes :=
  repeat match goal with H : context [b2z ?b] |- _ => destruct b; cbn [b2z] in * end; first [done|congruence|lia|exfalso; lia].

Ltac share_solve :=
  repeat match goal with
  | H : fits _ _ |- _ => destruct H as [[? ?] [? ?] ? ?]
  | H : clk_shared _ _ |- _ => destruct H as [? ? ? ?]
  | l : option lock_mode |- _ => destruct l as [[| |]|]
  | H : _ /\ _ |- _ => destruct H
  end; cbn in *;
  repeat match goal with
  | H : _ \/ _ |- _ => destruct H; try done
  | H : _ /\ _ |- _ => destruct H
  | b : bool |- _ => destruct b; cbn in *
  | H : ?x = ?x -> _ |- _ => specialize (H eq_refl)
  | H : ?b = true |- context [?b] => rewrite H
  | H : ?b = false |- context [?b] => rewrite H
  end;
  repeat first [split | done | lia | share_on | by left | by right]; cbn in *; first [done|lia|share_on|by left|by right|share_votes].

Lemma keeps_inc_not_zero n l q (Q : bool -> share -> Prop) : l = None \/ l = Some Held ->
  Q true (mk_share (n + 1) l q) -> Q false (mk_share n (match l with Some _ => Some Off | None => None end) q) ->
  keeps inc_not_zero (mk_share n l q) Q.
Proof.
  intros Hl H1 H0. apply keeps_state. intros v ne le qe s Hv Hf Hk. unfold inc_not_zero. apply wp_bind, wp_clk_get.
  destruct (ac_cnt _ =? 0) eqn:E; zify_bool.
  - apply wp_ret. eexists _, _, _. split_and!; [done| | |exact H0]; destruct Hl as [-> | ->]; share_solve. 
  - apply wp_bind, wp_clk, wp_ret. eexists _, _, _. split_and!; [done| | |exact H1]; destruct Hl as [-> | ->]; share_solve.
Qed.

Lemma keeps_enable n q (Q : unit -> share -> Prop) : Q tt (mk_share n (Some On) q) -> keeps ipa3_enable_clks (mk_share n (Some Off) q) Q.
Proof.
  intros HQ. apply keeps_state. intros v ne le qe s Hv Hf Hk. apply (wp_enable v); [done|]. intros s' Hs' Hc Ht Hd Hm Hr.
  eexists _, _, _. split_and!; [done| | |exact HQ]; [share_solve|].
  destruct Hk as [H1 H2 H3 (H4 & H5 & H6)]. split; cbn in *; rewrite ?Hc, ?Ht, ?Hd, ?Hm; try done.
Qed.

Lemma keeps_disable n q (Q : unit -> share -> Prop) : Q tt (mk_share n (Some Held) q) -> keeps ipa3_disable_clks (mk_share n (Some On) q) Q.
Proof.
  intros HQ. apply keeps_state. intros v ne le qe s Hv Hf Hk. apply (wp_disable v); [done|]. intros s' Hs' Hc Ht Hd Hm Hr.
  eexists _, _, _. split_and!; [done| | |exact HQ]; [share_solve|].
  destruct Hk as [H1 H2 H3 (H4 & H5 & H6)]. split; cbn in *; rewrite ?Hc, ?Ht, ?Hd, ?Hm; try done.
  split; [done|]. intros E. by rewrite Hr, H5.
Qed.

Ltac by_clk HQ :=
  apply keeps_state; intros v ne le qe s Hv Hf Hk; apply wp_clk; eexists _, _, _; (split_and!; [done| | |exact HQ]); share_solve.

(** Back from zero: by the taker of the first vote, or by the giver of the last. *)
Lemma keeps_add_first n q (Q : unit -> share -> Prop) : Q tt (mk_share (n + 1) (Some Held) q) ->
  keeps (add_cnt 1) (mk_share n (Some On) q) Q.
Proof. intros HQ. by_clk HQ. Qed.

Lemma keeps_add_back n (Q : unit -> share -> Prop) : Q tt (mk_share (n + 1) (Some Held) true) ->
  keeps (add_cnt 1) (mk_share n (Some On) false) Q.
Proof. intros HQ. by_clk HQ. Qed.

Lemma keeps_dec_unless n l (Q : bool -> share -> Prop) : l = None \/ l = Some Held -> 1 <= n ->
  Q true (mk_share (n - 1) l false) -> Q false (mk_share n l true) -> keeps dec_unless_one (mk_share n l false) Q.
Proof.
  intros Hl Hn H1 H0. apply keeps_state. intros v ne le qe s Hv Hf Hk. unfold dec_unless_one. apply wp_bind, wp_clk_get.
  destruct (ac_cnt _ =? 1) eqn:E; zify_bool.
  - apply wp_ret. eexists _, _, _. split_and!; [done| | |exact H0]; destruct Hl as [-> | ->]; share_solve.
  - apply wp_bind, wp_clk, wp_ret. eexists _, _, _. split_and!; [done| | |exact H1]; destruct Hl as [-> | ->]; share_solve.
Qed.

Lemma keeps_queue_tag n l (Q : unit -> share -> Prop) : 1 <= n -> Q tt (mk_share (n - 1) l false) ->
  keeps queue_tag_work (mk_share n l true) Q.
Proof. intros Hn HQ. by_clk HQ. Qed.

Lemma keeps_queue_dec n l (Q : unit -> share -> Prop) : 1 <= n -> Q tt (mk_share (n - 1) l false) ->
  keeps queue_dec_work (mk_share n l true) Q.
Proof. intros Hn HQ. by_clk HQ. Qed.

Lemma keeps_set_tag b x (Q : unit -> share -> Prop) : Q tt x -> keeps (kmod_clk (fun c => k_set_tag c b)) x Q.
Proof. intros HQ. apply keeps_clk with x; [|done]. by intros k e Hf [? ? ? ?]. Qed.

(** The counter goes down with the mutex held. *)
Lemma keeps_sub n (Q : Z -> share -> Prop) : 1 <= n ->
  (forall r, 0 < r -> Q r (mk_share (n - 1) (Some Held) false)) -> Q 0 (mk_share (n - 1) (Some On) false) ->
  keeps (_ ← add_cnt (-1); c ← clk_get; mret (ac_cnt c)) (mk_share n (Some Held) true) Q.
Proof.
  intros Hn H1 H0. apply keeps_state. intros v ne le qe s Hv Hf Hk. apply wp_bind, wp_clk, wp_bind, wp_clk_get, wp_ret. cbn.
  assert (Hc : 0 <= ac_cnt (clk (fst s)) + -1).
  { destruct Hk as [Hc _ _ _], Hf as [[? ?] _ _ _]. destruct (tag_work _), (dec_work _); cbn in *; lia. }
  destruct (Z.eq_dec (ac_cnt (clk (fst s)) + -1) 0) as [E|E].
  - rewrite E. eexists _, _, _. split_and!; [done| | |exact H0]; share_solve.
  - eexists _, _, _. split_and!; [done| | |apply H1; lia]; share_solve.
Qed.

(** ** Threads *)
Section threads.
Context (W : share -> pmst * K -> Prop).

Lemma twp_lock c n q (Q : unit -> nat -> share -> Prop) : Q tt c (mk_share n (Some Held) q) ->
  twp W lock_clks (S c) (mk_share n None q) Q.
Proof.
  intros HQ. split; [done|]. intros v e s (Hv & Hf & Hk). unfold clks_unlocked. destruct (ac_mutex (clk (fst s))) eqn:E; cbn [negb].
  - left. destruct Hk as [_ _ _ Hl]. cbn in Hl. destruct (sh_lock e) as [[]|]; [done..|]. destruct Hl as [Hl _]. congruence.
  - destruct s as [s k]. cbn. exists (mk_share n (Some Held) q). split; [|by exists c]. cbn in *.
    split_and!; [done| |]; destruct e as [ne le qe]; share_solve.
Qed.

Lemma twp_unlock c n q (Q : unit -> nat -> share -> Prop) : Q tt c (mk_share n None q) ->
  twp W unlock_clks (S c) (mk_share n (Some Held) q) Q.
Proof. intros HQ. apply twp_sec. by_clk HQ. Qed.

Lemma twp_inc c n q (Q : unit -> nat -> share -> Prop) : (forall c', (c <= c')%nat -> Q tt c' (mk_share (n + 1) None q)) ->
  twp W ipa3_inc_client_enable_clks (7 + c) (mk_share n None q) Q.
Proof.
  intros HQ. apply twp_bind, twp_sec, keeps_inc_not_zero; [by left|apply twp_ret, HQ; lia|].
  apply twp_bind, twp_lock, twp_bind, twp_sec, keeps_inc_not_zero; [by right|apply twp_unlock, HQ; lia|].
  apply twp_bind, twp_sec, keeps_enable, twp_bind, twp_sec, keeps_psys. intros _.
  apply twp_bind, twp_sec, keeps_add_first, twp_unlock, HQ. lia.
Qed.

Lemma twp_close_coal c x (Q : unit -> nat -> share -> Prop) : (forall c', (c <= c')%nat -> Q tt c' x) ->
  twp W close_coal (3 + c) x Q.
Proof.
  intros HQ. apply twp_bind, twp_sec, keeps_clk_get. intros k _ _ _. destruct (_ && _); [|apply twp_ret, HQ; lia].
  apply twp_bind, twp_sec, keeps_pdo, twp_sec, keeps_set_tag, HQ. lia.
Qed.

Lemma twp_dec_locked c n (Q : unit -> nat -> share -> Prop) : 1 <= n ->
  (forall c', (c <= c')%nat -> Q tt c' (mk_share (n - 1) (Some Held) false)) ->
  twp W dec_locked (5 + c) (mk_share n (Some Held) true) Q.
Proof.
  intros Hn HQ. apply twp_bind, twp_sec, keeps_clk_get. intros k _ _ _. destruct (_ && _).
  - apply twp_bind, twp_sec, keeps_set_tag, twp_sec, keeps_queue_tag; [done|]. apply HQ. lia.
  - apply twp_bind, twp_sec, keeps_sub; [done| |].
    + intros r Hr. rewrite Z.gtb_ltb, (proj2 (Z.ltb_lt _ _)) by done. apply twp_ret, HQ. lia.
    + apply twp_bind, twp_sec, keeps_psys. intros r. destruct (negb _).
      * apply twp_bind, twp_sec, keeps_add_back, twp_sec, keeps_queue_dec; [lia|].
        replace (n - 1 + 1 - 1) with (n - 1) by lia. apply HQ. lia.
      * apply twp_sec, keeps_disable, HQ. lia.
Qed.

Lemma twp_dec c n (Q : unit -> nat -> share -> Prop) : 1 <= n -> (forall c', (c <= c')%nat -> Q tt c' (mk_share (n - 1) None false)) ->
  twp W dec_client_disable_clks (12 + c) (mk_share n None false) Q.
Proof.
  intros Hn HQ. apply twp_bind, twp_sec, keeps_clk_get. intros k e [Hv _ _ _] [Hc _ _ _].
  assert (ac_cnt k <> 0) by (destruct (tag_work k), (dec_work k); cbn in *; lia). rewrite (proj2 (Z.eqb_neq _ _)) by done.
  apply twp_bind, twp_sec, keeps_dec_unless; [by left|done|apply twp_ret, HQ; lia|].
  apply twp_bind, twp_credit with (3 + (7 + c))%nat; [lia|]. apply twp_close_coal. intros c1 H1.
  apply twp_bind, twp_credit with (S (6 + c))%nat; [lia|]. apply twp_lock.
  apply twp_bind, twp_credit with (5 + (1 + c))%nat; [lia|]. apply twp_dec_locked; [done|]. intros c2 H2.
  apply twp_credit with (S c); [lia|]. apply twp_unlock, HQ. lia.
Qed.

Lemma twp_dec_no_block c n (Q : unit -> nat -> share -> Prop) : 1 <= n ->
  (forall c', (c <= c')%nat -> Q tt c' (mk_share (n - 1) None false)) ->
  twp W ipa3_dec_client_disable_clks_no_block (2 + c) (mk_share n None false) Q.
Proof.
  intros Hn HQ. apply twp_bind, twp_sec, keeps_dec_unless; [by left|done|apply twp_ret, HQ; lia|].
  apply twp_sec, keeps_queue_dec; [done|]. apply HQ. lia.
Qed.

(** A work taken from the queue brings its vote. *)
Lemma keeps_clk_work n q (Q : T unit -> share -> Prop) :
  (forall t, t = ipa3_start_tag_process \/ t = ipa_dec_clients_disable_clks_on_wq -> Q t (mk_share (n + 1) None q)) ->
  Q (Ret tt) (mk_share n None q) -> keeps clk_work (mk_share n None q) Q.
Proof.
  intros H1 H0. apply keeps_state. intros v ne le qe s Hv Hf Hk. unfold clk_work. apply wp_bind, wp_clk_get.
  destruct (tag_work (clk (fst s))) eqn:Et; [|destruct (dec_work (clk (fst s))) eqn:Ed].
  - apply wp_bind, wp_clk, wp_ret. eexists _, _, _. split_and!; [done| | |apply H1; by left]; share_solve.
  - apply wp_bind, wp_clk, wp_ret. eexists _, _, _. split_and!; [done| | |apply H1; by right]; share_solve.
  - apply wp_ret. eexists _, _, _. by split_and!.
Qed.

Lemma twp_work t c n (Q : unit -> nat -> share -> Prop) : 1 <= n ->
  t = ipa3_start_tag_process \/ t = ipa_dec_clients_disable_clks_on_wq ->
  (forall c', (c <= c')%nat -> Q tt c' (mk_share (n - 1) None false)) -> twp W t (13 + c) (mk_share n None false) Q.
Proof.
  intros Hn [-> | ->] HQ.
  - apply twp_bind, twp_sec, keeps_psys. intros _. by apply twp_dec.
  - apply twp_credit with (12 + c)%nat; [lia|]. by apply twp_dec.
Qed.
End threads.

(** ** Alone *)
Section alone.
Context (wait : (pmst * K -> bool) -> PM unit).

Lemma twp_run {A} `{HR : !Ready wait} (t : T A) (Q : A -> nat -> share -> Prop) v e : sh_lock e = None -> forall c x s,
  twp (fun _ _ => False) t c x Q -> shared v e x s ->
  wp (run wait t) (fun a s' => exists c' x', shared v e x' s' /\ Q a c' x') s.
Proof.
  intros He. induction t as [a|m IH|cond m IH] using act_induction; intros c x s; cbn [twp].
  - intros (c' & _ & H) Hs. by exists c', x.
  - destruct c as [|c]; [done|]. intros H Hs. apply wp_run_section. specialize (H v e s Hs). specialize (IH s). unfold wp at 1.
    destruct (m s) as [[t s']| |]; [|done..]. destruct H as (x' & Hs' & H). by apply (IH c x').
  - intros [_ H]. destruct c as [|c]; [done|]. intros Hs. apply wp_run_when. specialize (H v e s Hs). specialize (IH s).
    destruct (cond s) eqn:E; [|by destruct H]. unfold wp at 1. rewrite (ready cond s E). unfold wp at 1.
    destruct (m s) as [[t s']| |]; [|done..]. destruct H as (x' & Hs' & H). by apply (IH c x').
Qed.

(** Who has [h] votes of [n]. *)
Lemma twp_truns {A} (t : T A) v n h c (P : A -> pmcore -> Z -> Prop) : (0 <= n -> 0 <= h <= n) ->
  twp (fun _ _ => False) t c (mk_share h None false) (fun a _ x => sh_lock x = None /\ P a v (n - h + sh_votes x)) ->
  truns wait t v n P.
Proof.
  intros Hn H HR s Q Hs Hk HQ. apply clk_alone in Hk as [Hnn Hk]. specialize (Hn Hnn).
  assert (Hsh : shared v (mk_share (n - h) None false) (mk_share h None false) s).
  { split_and!; [done| |]; [split; cbn; try lia; by left|]. unfold join. cbn. by replace (n - h + h) with n by lia. }
  eapply wp_mono; [by apply (twp_run t _ v (mk_share (n - h) None false) eq_refl c _ s H Hsh)|].
  intros a s' (c' & [h' l q] & (Hs' & Hf & Hk') & Hl & HP). cbn in *. subst l. apply (HQ a v (n - h + h')); [done|done|].
  apply clk_alone. destruct Hf as [[? ?] _ _ _]. cbn in *. split; [lia|]. destruct Hk' as [? ? ? ?]. by split.
Qed.

Lemma inc_runs v n : truns wait (K := K) ipa3_inc_client_enable_clks v n (fun _ v' n' => v' = v /\ n' = n + 1).
Proof. apply twp_truns with 0 7%nat; [lia|]. apply (twp_inc _ 0). intros c _. cbn. split_and!; [done|done|lia]. Qed.

Lemma dec_runs v n : 1 <= n -> truns wait (K := K) ipa3_dec_client_disable_clks v n (fun _ v' n' => v' = v /\ n' = n - 1).
Proof. intros Hn. apply twp_truns with 1 12%nat; [lia|]. apply (twp_dec _ 0); [lia|]. intros c _. cbn. split_and!; [done|done|lia]. Qed.

Lemma dec_no_block_runs v n : 1 <= n ->
  truns wait (K := K) ipa3_dec_client_disable_clks_no_block v n (fun _ v' n' => v' = v /\ n' = n - 1).
Proof.
  intros Hn. apply twp_truns with 1 2%nat; [lia|]. apply (twp_dec_no_block _ 0); [lia|]. intros c _. cbn.
  split_and!; [done|done|lia].
Qed.
(** The worker of [power_mgmt_wq]. *)
Lemma clk_work_runs v n : truns wait (K := K) (Sec clk_work) v n (fun _ v' n' => v' = v /\ n' = n).
Proof.
  apply twp_truns with 0 14%nat; [lia|]. apply twp_section, keeps_clk_work.
  - intros t Ht. apply (twp_work _ t 0); [lia|done|]. intros c _. cbn. split_and!; [done|done|lia].
  - apply twp_ret. cbn. split_and!; [done|done|lia].
Qed.
End alone.

Lemma keeps_runs {A} (m : PM A) v n h (P : A -> pmcore -> Z -> Prop) : (0 <= n -> 0 <= h <= n) ->
  keeps m (mk_share h None false) (fun a x => sh_lock x = None /\ P a v (n - h + sh_votes x)) -> runs m v n P.
Proof.
  intros Hn H s Q Hs Hk HQ.
  assert (Ht : truns wait_never (sec m) v n P).
  { apply (twp_truns wait_never (sec m) v n h 1 P Hn), twp_sec. exact H. }
  assert (Hw : wp (run wait_never (sec m)) Q s) by (by apply Ht; [apply wait_never_ready|..]). unfold wp in *. by rewrite run_sec in Hw.
Qed.

Lemma no_block_runs v n : runs (K := K) ipa3_inc_client_enable_clks_no_block v n
  (fun r v' n' => v' = v /\ ((r = 0 /\ n' = n + 1) \/ (r = - EPERM /\ n' = n))).
Proof.
  apply keeps_runs with 0; [lia|]. apply section_bind, keeps_inc_not_zero; [by left|..]; apply section_ret;
    cbn; (split_and!; [done|done|]); [left|right]; (split; [done|lia]).
Qed.
End shares.

(** * Rules for the power manager's code, for use one after the other

    Each access has a rule that leaves what follows as the goal; [pm_go] applies them as
    long as the next access has one.  A function with a rule of its own is added to the
    database [pm]. *)

Create HintDb pm discriminated.

Section rules.
Context {K : Type} `{PW : PmWorks K}.
Implicit Types (v : pmcore) (n : Z).
#[local] Notation PM := (St (pmst * K)).

Lemma r_bind {A B} (m : PM A) (f : A -> PM B) v n R :
  runs m v n (fun a v' n' => runs (f a) v' n' R) -> runs (m ≫= f) v n R.
Proof. intros H. by eapply runs_bind. Qed.

Lemma r_ret {A} (a : A) v n (P : A -> pmcore -> Z -> Prop) : P a v n -> runs (K := K) (mret a) v n P.
Proof. apply runs_ret. Qed.

Lemma r_lift {A} (r : res A) a v n (P : A -> pmcore -> Z -> Prop) :
  r = Ok a -> P a v n -> runs (K := K) (st_lift r) v n P.
Proof. intros. by apply runs_moves, moves_lift with a. Qed.

Lemma r_cget p c v n (P : ipa_pm_client -> pmcore -> Z -> Prop) :
  live v p c -> P c v n -> runs (K := K) (cget p) v n P.
Proof. intros. by apply runs_moves, moves_cget with c. Qed.

Lemma r_cmod p c f v n (P : unit -> pmcore -> Z -> Prop) :
  live v p c -> P tt (v_put v p (f c)) n -> runs (K := K) (cmod p f) v n P.
Proof. intros. by apply runs_moves, moves_cmod with c. Qed.

Lemma r_psys {A} (f : K -> A * K) v n (P : A -> pmcore -> Z -> Prop) :
  (forall a, P a v n) -> runs (psys f) v n P.
Proof. intros H. by apply runs_psys. Qed.

Lemma r_xget v n (P : ipa_pm_ctx -> pmcore -> Z -> Prop) :
  (forall x, clients x = v_clients v -> clients_by_pipe x = v_pipes v -> pm_queue x = v_queue v ->
     pm_timers x = v_timers v -> pm_running x = v_running v -> exception_list (clk_scaling x) = v_exceptions v ->
     active_client_bitmask (clk_scaling x) = v_bits v -> group_tput x = v_tputs v -> P x v n) ->
  runs (K := K) xget v n P.
Proof. intros H. apply runs_moves, moves_xget. auto. Qed.

Lemma r_pget v n (P : pmst -> pmcore -> Z -> Prop) :
  (forall s x, pm_ctx s = Some x -> core s = Some v -> P s v n) -> runs (K := K) pget v n P.
Proof.
  intros H s Q Hs Hk HQ. apply wp_pget. destruct (at_ctx v s Hs) as (x & Hx & Hc). by eapply HQ; [eapply H|..].
Qed.

Lemma r_client_at h o v n (P : option Z -> pmcore -> Z -> Prop) :
  zget (v_clients v) h = Some o -> P o v n -> runs (K := K) (client_at h) v n P.
Proof. intros. by apply runs_moves, moves_client_at with o. Qed.

Lemma r_xmod f g v n (P : unit -> pmcore -> Z -> Prop) :
  (forall (s : pmst) x, pm_ctx s = Some x -> core s = Some v -> core (set_ctx s (Some (f x))) = Some (g v)) ->
  (forall (s : pmst) x, pm_ctx s = Some x -> core s = Some v -> current_ok (clk_scaling x) -> current_ok (clk_scaling (f x))) ->
  P tt (g v) n -> runs (K := K) (xmod f) v n P.
Proof. intros. by apply runs_moves, moves_xmod with g. Qed.

(** Changes of one part of the structure. *)
Lemma r_bits l v n (P : unit -> pmcore -> Z -> Prop) :
  P tt (v_set_bits v l) n -> runs (K := K) (dmod (fun d => d_set_bitmask d l)) v n P.
Proof.
  intros HP. apply r_xmod with (g := fun v => v_set_bits v l); [|done..]. intros s x Hx Hc. unfold core in *.
  rewrite Hx in Hc. by injection Hc as <-.
Qed.

Lemma r_exceptions l v n (P : unit -> pmcore -> Z -> Prop) : length l = length (v_exceptions v) ->
  P tt (v_set_exceptions v l) n -> runs (K := K) (dmod (fun d => d_set_exceptions d l)) v n P.
Proof.
  intros Hl HP. apply r_xmod with (g := fun v => v_set_exceptions v l); [..|done]; intros s x Hx Hc; unfold core in *;
    rewrite Hx in Hc; injection Hc as <-; [done|]. intros Hd i Hi. specialize (Hd i Hi). cbn in *. by rewrite Hl.
Qed.

Lemma r_scaling f v n (P : unit -> pmcore -> Z -> Prop) :
  (forall d, exception_list (f d) = exception_list d /\ active_client_bitmask (f d) = active_client_bitmask d /\
     (current_ok d -> current_ok (f d))) ->
  P tt v n -> runs (K := K) (dmod f) v n P.
Proof.
  intros Hf HP. apply r_xmod with (g := id); [| |done]; intros s x Hx Hc; unfold core in *; rewrite Hx in Hc;
    injection Hc as <-; cbn; destruct (Hf (clk_scaling x)) as (E1 & E2 & Hd); [by rewrite E1, E2|done].
Qed.

Lemma r_clients f v n (P : unit -> pmcore -> Z -> Prop) :
  P tt (v_set_clients v (f (v_clients v))) n -> runs (K := K) (xmod (fun x => x_set_clients x (f (clients x)))) v n P.
Proof.
  intros HP. apply r_xmod with (g := fun v => v_set_clients v (f (v_clients v))); [|done..]. intros s x Hx Hc.
  unfold core in *. rewrite Hx in Hc. by injection Hc as <-.
Qed.

Lemma r_pipes f v n (P : unit -> pmcore -> Z -> Prop) :
  P tt (v_set_pipes v (f (v_pipes v))) n -> runs (K := K) (xmod (fun x => x_set_pipes x (f (clients_by_pipe x)))) v n P.
Proof.
  intros HP. apply r_xmod with (g := fun v => v_set_pipes v (f (v_pipes v))); [|done..]. intros s x Hx Hc.
  unfold core in *. rewrite Hx in Hc. by injection Hc as <-.
Qed.

Lemma r_heap f v n (P : unit -> pmcore -> Z -> Prop) :
  P tt (v_set_heap v (f (v_heap v))) n -> runs (K := K) (pmod (fun s => set_heap s (f (heap s)))) v n P.
Proof.
  intros HP [s k] Q [Hs Hd] Hk HQ. unfold wp, pmod. eapply HQ; [done|split; [|exact Hd]|done]. unfold core in *. cbn in *.
  destruct (pm_ctx s) as [x|]; [|done]. by injection Hs as <-.
Qed.

(** The queue, the timers and what runs. *)
Lemma r_work (b : list pm_work -> list Z -> bool) (q : list pm_work -> list pm_work) ts r v n
    (P : unit -> pmcore -> Z -> Prop) :
  P tt (if b (v_queue v) (v_timers v) then v
        else v_set_work v (q (v_queue v)) (ts (v_timers v)) (r (v_running v))) n ->
  runs (K := K) (xmod (fun x => if b (pm_queue x) (pm_timers x) then x
    else x_set_work x (q (pm_queue x)) (ts (pm_timers x)) (r (pm_running x)))) v n P.
Proof.
  intros HP. apply r_xmod with (g := fun v => if b (v_queue v) (v_timers v) then v
    else v_set_work v (q (v_queue v)) (ts (v_timers v)) (r (v_running v))); [| |done].
  2: { intros s x _ _ Hd. cbv beta. destruct (b (pm_queue x) (pm_timers x)); exact Hd. }
  intros s x Hx Hc. unfold core in *. rewrite Hx in Hc. injection Hc as <-. cbn. by destruct (b _ _).
Qed.

(** ** Threads *)
Context (wait : (pmst * K -> bool) -> PM unit).
#[local] Notation T := (act (pmst * K)).

Lemma t_bind {A B} (t : T A) (f : A -> T B) v n R :
  truns wait t v n (fun a v' n' => truns wait (f a) v' n' R) -> truns wait (t ≫= f) v n R.
Proof. intros H. by eapply truns_bind. Qed.

Lemma t_ret {A} (a : A) v n (P : A -> pmcore -> Z -> Prop) : P a v n -> truns wait (Ret a) v n P.
Proof. apply truns_ret. Qed.

Lemma t_sec {A} (m : PM A) v n P : runs m v n P -> truns wait (sec m) v n P.
Proof. apply truns_sec. Qed.

Lemma t_section {A} (m : PM (T A)) v n P :
  runs m v n (fun t v' n' => truns wait t v' n' P) -> truns wait (Sec m) v n P.
Proof. apply truns_section. Qed.

Lemma t_alone {A} `{HR : !Ready wait} (t : T A) v n P : truns wait t v n P -> runs (run wait t) v n P.
Proof. intros H. by apply H. Qed.

Lemma t_await {A} c (t : T A) v n P :
  runs (wait c) v n (fun _ v' n' => truns wait t v' n' P) -> truns wait (Await c t) v n P.
Proof.
  intros Hc HR s Q Hs Hk HQ. apply wp_run_await, (Hc s _ Hs Hk). intros [] v' n' s' Ht Hs' Hk'. by apply (Ht HR s' _ Hs' Hk').
Qed.

(** A wait for what holds already. *)
Lemma t_pass {A} c (t : T A) v n P : (forall s : pmst * K, at_core v s -> c s = true) -> truns wait t v n P ->
  truns wait (Await c t) v n P.
Proof.
  intros Hc Ht HR s Q Hs Hk HQ. apply wp_run_await. unfold wp at 1. rewrite (ready c s (Hc s Hs)). by apply (Ht HR s Q).
Qed.

Lemma t_inc v n (P : unit -> pmcore -> Z -> Prop) : P tt v (n + 1) -> truns wait ipa3_inc_client_enable_clks v n P.
Proof. intros H. eapply truns_weaken; [apply (inc_runs wait)|]. by intros [] ? ? [-> ->]. Qed.

Lemma t_dec v n (P : unit -> pmcore -> Z -> Prop) :
  1 <= n -> P tt v (n - 1) -> truns wait ipa3_dec_client_disable_clks v n P.
Proof. intros Hn H. eapply truns_weaken; [by apply dec_runs|]. by intros [] ? ? [-> ->]. Qed.

Lemma r_no_block v n (P : Z -> pmcore -> Z -> Prop) :
  P 0 v (n + 1) -> P (- EPERM) v n -> runs (K := K) ipa3_inc_client_enable_clks_no_block v n P.
Proof. intros H0 H1. eapply runs_weaken; [apply no_block_runs|]. intros r v' n' (-> & [[-> ->]|[-> ->]]); done. Qed.

(** ** Clients *)
Definition awaken (c : ipa_pm_client) : ipa_pm_client :=
  if negb (c_skip_clk_vote c) && bool_decide (c_group c = IPA_PM_GROUP_APPS) then c_set_awake c true else c.
Definition rest (c : ipa_pm_client) : ipa_pm_client :=
  if negb (c_skip_clk_vote c) && bool_decide (c_group c = IPA_PM_GROUP_APPS) then c_set_awake c false else c.

Lemma put_same v p c : live v p c -> v_put v p c = v.
Proof. intros H. unfold v_put. rewrite zset_same by done. by destruct v. Qed.

Lemma t_vote p c v n (P : unit -> pmcore -> Z -> Prop) : live v p c ->
  P tt (v_put v p (awaken c)) (n + b2z (negb (c_skip_clk_vote c))) -> truns wait (vote p) v n P.
Proof.
  intros Hl HP. unfold vote. apply t_bind, t_sec, r_cget with c; [done|]. unfold awaken in HP.
  destruct (negb (c_skip_clk_vote c)); cbn [andb b2z] in HP.
  - apply t_bind, t_inc. destruct (decide (c_group c = IPA_PM_GROUP_APPS)) as [E|E];
      [rewrite bool_decide_true in HP by done|rewrite bool_decide_false in HP by done].
    + by apply t_sec, r_cmod with c.
    + apply t_ret. by rewrite put_same in HP.
  - apply t_ret. by rewrite put_same, Z.add_0_r in HP.
Qed.

Lemma t_devote p c v n (P : unit -> pmcore -> Z -> Prop) : live v p c -> (c_skip_clk_vote c = false -> 1 <= n) ->
  P tt (v_put v p (rest c)) (n - b2z (negb (c_skip_clk_vote c))) -> truns wait (devote p) v n P.
Proof.
  intros Hl Hn HP. unfold devote. apply t_bind, t_sec, r_cget with c; [done|]. unfold rest in HP.
  destruct (c_skip_clk_vote c); cbn [andb negb b2z] in *.
  - apply t_ret. by rewrite put_same, Z.sub_0_r in HP.
  - apply t_bind, t_dec; [auto|]. destruct (decide (c_group c = IPA_PM_GROUP_APPS)) as [E|E];
      [rewrite bool_decide_true in HP by done|rewrite bool_decide_false in HP by done].
    + by apply t_sec, r_cmod with c.
    + apply t_ret. by rewrite put_same in HP.
Qed.

Lemma r_mark h on v n (P : unit -> pmcore -> Z -> Prop) : length (v_bits v) = 2%nat -> 0 <= h < 64 ->
  (forall l, length l = 2%nat -> (forall j, mask_bit l j = if decide (j = h) then on else mask_bit (v_bits v) j) ->
     P tt (v_set_bits v l) n) ->
  runs (K := K) (if on then activate_client h else deactivate_client h) v n P.
Proof.
  intros Hl Hh HP. destruct (set_bit_spec _ _ on Hl Hh) as (l & E & Hl' & Hm).
  destruct on; unfold activate_client, deactivate_client; apply r_bind, r_xget; intros x _ _ _ _ _ _ Hx _;
    (apply r_bind, r_lift with l; [by rewrite Hx|by apply r_bits, HP]).
Qed.
End rules.
