(* ===== verification/PmInv.v ===== *)
(** * The invariant of the power manager

    The sum of the throughputs, what holds between two calls ([pm_ok]) with the change of
    one client ([update]), and clock scaling, which leaves the clients alone. *)

From Stdlib Require Import ZArith Lia Permutation Ascii String.
From stdpp Require Import prelude list numbers strings.
From S2P Require Import Prelude StWp Act PmState PmClk IpaPm PmRules.

Local Open Scope Z_scope.

(** * The throughput the power manager adds up

    [aggregate] takes the two largest throughputs, counts the smaller and goes on with
    their difference.  What remains at the end is not counted, so the result is half of
    what the sum exceeds the remainder by, and the order of the clients does not matter. *)

Definition zsum (l : list Z) : Z := foldr Z.add 0 l.
Definition nonneg (l : list Z) : Prop := Forall (fun a => 0 <= a) l.

Lemma zsum_app l1 l2 : zsum (l1 ++ l2) = zsum l1 + zsum l2.
Proof. induction l1 as [|a l IH]; cbn; [done|]. unfold zsum in *. lia. Qed.

#[global] Instance zsum_perm : Proper ((≡ₚ) ==> eq) zsum.
Proof. intros l1 l2 H. induction H; cbn in *; unfold zsum in *; lia. Qed.

Lemma zsum_nonneg l : nonneg l -> 0 <= zsum l.
Proof. induction 1; cbn; unfold zsum in *; lia. Qed.

(** ** Popping the maximum *)
Definition scan_step : Z * (Z * Z) -> Z -> Z * (Z * Z) :=
  fun '(i, (m, at_)) a => (i + 1, if a >? m then (a, i) else (m, at_)).

Lemma scan_spec l i m at_ :
  let '(i', (m', at')) := foldl scan_step (i, (m, at_)) l in
  i' = i + Z.of_nat (length l) /\ m <= m' /\ Forall (fun a => a <= m') l /\
  ((m' = m /\ at' = at_) \/ (i <= at' < i' /\ zget l (at' - i) = Some m')).
Proof.
  revert i m at_. induction l as [|a l IH]; intros i m at_; cbn [foldl scan_step].
  - split_and!; [cbn; lia|lia|done|by left].
  - destruct (a >? m) eqn:E; rewrite Z.gtb_ltb in E; zify_bool.
    + specialize (IH (i + 1) a i). destruct (foldl _ _ _) as [i' [m' at']].
      destruct IH as (Hi & Hm & Hall & Hat). split_and!; [cbn; lia|lia|by constructor|right].
      destruct Hat as [[-> ->]|[? Hg]]; [split; [cbn in *; lia|by rewrite Z.sub_diag]|].
      split; [lia|]. rewrite zget_cons by lia. by replace (at' - i - 1) with (at' - (i + 1)) by lia.
    + specialize (IH (i + 1) m at_). destruct (foldl _ _ _) as [i' [m' at']].
      destruct IH as (Hi & Hm & Hall & Hat). split_and!; [cbn; lia|lia|constructor; [lia|done]|].
      destruct Hat as [?|[? Hg]]; [by left|right].
      split; [lia|]. rewrite zget_cons by lia. by replace (at' - i - 1) with (at' - (i + 1)) by lia.
Qed.

(** Moving the last element to a place and dropping the last slot removes the element there. *)
Lemma move_last_perm (l : list Z) j m : zget l j = Some m ->
  let n := Z.of_nat (length l) - 1 in
  l ≡ₚ m :: take (Z.to_nat n) (zset l j (default 0 (zget l n))).
Proof.
  intros Hj n. pose proof (zget_Some_lt _ _ _ Hj) as Hr.
  destruct (exists_last (l := l)) as (l' & y & ->); [intros ->; cbn in Hr; lia|].
  subst n. rewrite length_app in *. cbn [length] in *.
  replace (Z.of_nat (length l' + 1) - 1) with (Z.of_nat (length l')) by lia. rewrite Nat2Z.id.
  assert (Hl : zget (l' ++ [y]) (Z.of_nat (length l')) = Some y).
  { unfold zget. rewrite (proj2 (Z.leb_le _ _)), Nat2Z.id by lia. by apply list_lookup_middle. }
  rewrite Hl. cbn [default].
  unfold zset, zget in *. rewrite (proj2 (Z.leb_le _ _)) in * by lia.
  destruct (decide (j = Z.of_nat (length l'))) as [->|Hne].
  - rewrite Nat2Z.id in *. rewrite list_lookup_middle in Hj by done. injection Hj as ->.
    rewrite take_insert_ge by lia. rewrite take_app_length. symmetry. apply Permutation_cons_append.
  - rewrite lookup_app_l in Hj by lia. rewrite insert_app_l by lia.
    rewrite take_app_le by (rewrite length_insert; lia). rewrite take_ge by (rewrite length_insert; lia).
    rewrite (Permutation_app_comm l' [y]). cbn [app].
    rewrite <- (take_drop_middle l' (Z.to_nat j) m) at 1 by done.
    rewrite insert_take_drop by lia. rewrite <- !Permutation_middle. apply perm_swap.
Qed.

Lemma pop_max_spec l : nonneg l -> l <> [] ->
  exists m l', pop_max_from_array l = (m, l') /\ l ≡ₚ m :: l' /\ Forall (fun a => a <= m) l.
Proof.
  intros Hn Hne. destruct l as [|b l0]; [done|]. set (l := b :: l0) in *.
  unfold pop_max_from_array. fold l. cbv zeta. set (n := Z.of_nat (length l) - 1).
  pose proof (scan_spec l 0 0 n) as Hs. unfold max_scan. fold scan_step.
  change (foldl (λ '(i, (m, at_)) a, (i + 1, if a >? m then (a, i) else (m, at_))) (0, (0, n)) l)
    with (foldl scan_step (0, (0, n)) l) in *.
  destruct (foldl scan_step (0, (0, n)) l) as [i' [m at']]. cbn [snd].
  destruct Hs as (_ & Hm & Hall & Hat).
  assert (Hg : zget l at' = Some m).
  { destruct Hat as [[-> ->]|[_ Hg]]; [|by rewrite Z.sub_0_r in Hg].
    destruct (zget_lt_Some l n) as [y Hy]; [subst n l; cbn [length]; lia|]. rewrite Hy. f_equal.
    unfold zget in Hy. destruct (0 <=? n); [|done].
    pose proof (proj1 (list.Forall_forall _ _) Hall y (list_elem_of_lookup_2 _ _ _ Hy)).
    pose proof (proj1 (list.Forall_forall _ _) Hn y (list_elem_of_lookup_2 _ _ _ Hy)). cbn in *. lia. }
  eexists m, _. split; [done|]. split; [by apply move_last_perm|done].
Qed.


(** ** What the loop computes

    The sum by its rule: the two largest are paired off, the smaller counts. *)
Inductive paired_off : list Z -> Z -> Prop :=
  | pair_end l : (length l <= 1)%nat -> paired_off l 0
  | pair_step l x y rest a : l ≡ₚ x :: y :: rest -> y <= x -> Forall (fun z => z <= y) rest ->
      paired_off ((x - y) :: rest) a -> paired_off l (y + a).

#[global] Instance paired_off_perm : Proper ((≡ₚ) ==> (=) ==> iff) paired_off.
Proof.
  assert (H : forall l l' a, l ≡ₚ l' -> paired_off l a -> paired_off l' a).
  { intros l l' a Hp Ha. destruct Ha as [l Hl|l x y rest a H ?? Ha].
    - apply pair_end. by rewrite <- Hp.
    - apply (pair_step _ x y rest); [by rewrite <- Hp|done..]. }
  intros l l' Hp a ? <-. split; apply H; [done|by symmetry].
Qed.

Lemma nonneg_perm l l' : l ≡ₚ l' -> nonneg l -> nonneg l'.
Proof. intros Hp. unfold nonneg. by rewrite Hp. Qed.

(** One iteration. *)
Lemma tput_step l : nonneg l -> (2 <= length l)%nat -> exists x y l2,
  l ≡ₚ x :: y :: l2 /\ y <= x /\ Forall (fun z => z <= y) l2 /\
  forall fuel g, tput_loop (S fuel) l g = (g ← int_add g y; tput_loop fuel (l2 ++ [x - y]) g).
Proof.
  intros Hn Hl. destruct (pop_max_spec l Hn) as (x & l1 & E1 & P1 & M1); [intros ->; cbn in Hl; lia|].
  pose proof (nonneg_perm _ _ P1 Hn) as Hn1. apply list.Forall_cons in Hn1 as [_ Hn1].
  destruct (pop_max_spec l1 Hn1) as (y & l2 & E2 & P2 & M2).
  { intros ->. rewrite P1 in Hl. cbn in Hl. lia. }
  exists x, y, l2. assert (P : l ≡ₚ x :: y :: l2) by (rewrite P1, P2; done).
  split_and!; [done| | |].
  - rewrite P in M1. apply list.Forall_cons in M1 as [_ M1]. by apply list.Forall_cons in M1 as [? _].
  - rewrite P2 in M2. by apply list.Forall_cons in M2 as [_ ?].
  - intros fuel g. cbn [tput_loop]. rewrite (proj2 (Nat.leb_gt _ _)) by lia. by rewrite E1, E2.
Qed.

Lemma tput_loop_spec fuel : forall l g, nonneg l -> 0 <= g -> 2 * g + zsum l < 2 ^ 32 ->
  (length l <= fuel)%nat -> exists a, tput_loop fuel l g = Ok (g + a) /\ paired_off l a /\
    2 * a <= zsum l /\ forall M, 0 <= M -> Forall (fun z => z <= M) l -> zsum l <= 2 * a + M.
Proof.
  induction fuel as [|fuel IH]; intros l g Hn Hg Hs Hf.
  - destruct l; [|cbn in Hf; lia]. exists 0. cbn. split_and!; [by rewrite Z.add_0_r|by apply pair_end; cbn; lia|cbn; lia|cbn; lia].
  - destruct (decide (length l <= 1)%nat) as [H1|H1].
    + exists 0. cbn [tput_loop]. rewrite (proj2 (Nat.leb_le _ _)) by done.
      pose proof (zsum_nonneg _ Hn). split_and!; [by rewrite Z.add_0_r|by apply pair_end|lia|].
      intros M HM HF. destruct l as [|z [|]]; cbn in *; [lia| |lia]. apply list.Forall_cons in HF as [? _]. lia.
    + destruct (tput_step l Hn) as (x & y & l2 & P & Hxy & Hy & E); [lia|].
      pose proof (nonneg_perm _ _ P Hn) as Hn'. apply list.Forall_cons in Hn' as [Hx Hn'].
      apply list.Forall_cons in Hn' as [Hy0 Hn2]. cbn beta in Hx, Hy0.
      pose proof (zsum_nonneg _ Hn2). rewrite P in Hs, Hf.
      change (zsum (x :: y :: l2)) with (x + (y + zsum l2)) in Hs. cbn [length] in Hf.
      assert (Hz : zsum (l2 ++ [x - y]) = zsum l2 + (x - y)) by (rewrite zsum_app; cbn; lia).
      destruct (IH (l2 ++ [x - y]) (g + y)) as (a & Ha & Hp & H2 & HM).
      * apply list.Forall_app. split; [done|constructor; [lia|done]].
      * lia.
      * rewrite Hz. lia.
      * rewrite length_app. cbn. lia.
      * exists (y + a). rewrite E. unfold int_add. rewrite !(proj2 (Z.leb_le _ _)), (proj2 (Z.ltb_lt _ _)) by lia.
        cbn [andb mbind res_bind]. rewrite Ha. rewrite Hz in *. split_and!; [f_equal; lia| | |].
        -- eapply pair_step; [done..|]. by rewrite Permutation_cons_append.
        -- rewrite P. cbn. unfold zsum in *. lia.
        -- intros M HM0 HF. rewrite P in HF. apply list.Forall_cons in HF as [? HF].
           apply list.Forall_cons in HF as [? HF]. rewrite P. change (zsum (x :: y :: l2)) with (x + (y + zsum l2)).
           specialize (HM M HM0). enough (zsum l2 + (x - y) <= 2 * a + M) by lia. apply HM.
           apply list.Forall_app. split; [done|constructor; [lia|done]].
Qed.

Lemma paired_off_unique l a : paired_off l a -> forall a', paired_off l a' -> a = a'.
Proof.
  induction 1 as [l Hl|l x y rest a P Hxy Hr _ IH]; intros a' H'.
  - destruct H' as [|l x y rest a P]; [done|]. rewrite P in Hl. cbn in Hl. lia.
  - destruct H' as [l Hl|l x' y' rest' a' P' Hxy' Hr' H']; [rewrite P in Hl; cbn in Hl; lia|].
    assert (Hx : x = x' /\ y :: rest ≡ₚ y' :: rest').
    { pose proof P as Q. rewrite P' in Q.
      assert (x = x') as ->; [|split; [done|by apply Permutation_cons_inv in Q]].
      assert (Hall : Forall (fun z => z <= x) (x :: y :: rest)).
      { repeat constructor; [lia|lia|]. eapply list.Forall_impl; [done|]. cbn. lia. }
      assert (Hall' : Forall (fun z => z <= x') (x' :: y' :: rest')).
      { repeat constructor; [lia|lia|]. eapply list.Forall_impl; [done|]. cbn. lia. }
      rewrite <- Q in Hall. rewrite Q in Hall'. apply list.Forall_cons in Hall as [? _].
      apply list.Forall_cons in Hall' as [? _]. lia. }
    destruct Hx as [<- Q].
    assert (y = y') as <-.
    { assert (Hall : Forall (fun z => z <= y) (y :: rest)) by (constructor; [lia|done]).
      assert (Hall' : Forall (fun z => z <= y') (y' :: rest')) by (constructor; [lia|done]).
      rewrite Q in Hall. rewrite <- Q in Hall'. apply list.Forall_cons in Hall as [? _].
      apply list.Forall_cons in Hall' as [? _]. lia. }
    apply Permutation_cons_inv in Q. f_equal. apply IH. by rewrite Q.
Qed.

(** The interval of throughputs for which the sums of the clients stay in an [int]. *)
Definition TPUT_MAX : Z := 2 ^ 26.

Lemma zsum_bound l M : Forall (fun z => z <= M) l -> zsum l <= Z.of_nat (length l) * M.
Proof. induction 1; cbn [zsum foldr length]; [lia|]. unfold zsum in *. nia. Qed.

Lemma aggregate_spec l : nonneg l -> zsum l < 2 ^ 32 -> exists a, aggregate l = Ok a /\ paired_off l a /\
  0 <= 2 * a <= zsum l /\ forall M, 0 <= M -> Forall (fun z => z <= M) l -> zsum l <= 2 * a + M.
Proof.
  intros Hn Hs. destruct (tput_loop_spec (length l) l 0) as (a & Ha & Hp & H2 & HM); [done|lia|lia|lia|].
  exists a. split_and!; [done|done| |done..].
  assert (forall l a, paired_off l a -> nonneg l -> 0 <= a) as Hpos.
  { clear. induction 1 as [|l x y rest a P ??? IH]; intros Hn; [lia|]. apply (nonneg_perm _ _ P) in Hn.
    apply list.Forall_cons in Hn as [? Hn]. apply list.Forall_cons in Hn as [? Hn].
    assert (0 <= a); [apply IH; constructor; [lia|done]|cbn in *; lia]. }
  pose proof (Hpos _ _ Hp Hn). lia.
Qed.

(** * What holds of the power manager between two calls

    [pm_ok]: the arrays have their sizes, a client is where its handle says, its state
    agrees with the work that is queued for it, with its timer, with its bit and with its
    wake lock, and every exception counts the clients it still waits for.  [votes] is how
    many votes the clients hold.  [update] is a change of one client. *)

(** A client in one of these states has a timer or its expired work. *)
Definition timed (st : ipa_pm_state) : bool :=
  match st with
  | IPA_PM_ACTIVATED_PENDING_DEACTIVATION | IPA_PM_ACTIVATED_TIMER_SET | IPA_PM_ACTIVATED_PENDING_RESCHEDULE => true
  | _ => false
  end.

Definition holds (c : ipa_pm_client) : bool := IPA_PM_STATE_ACTIVE (c_state c) && negb (c_skip_clk_vote c).
Definition vote_of (o : option ipa_pm_client) : Z := match o with Some c => b2z (holds c) | None => 0 end.
Definition votes (v : pmcore) : Z := zsum (map vote_of (v_heap v)).

Record client_ok (v : pmcore) (p : Z) (c : ipa_pm_client) : Prop := {
  co_hdl : 1 <= c_hdl c < IPA_PM_MAX_CLIENTS;
  co_at : zget (v_clients v) (c_hdl c) = Some (Some p);
  co_tput : 0 <= c_throughput c <= TPUT_MAX;
  co_act : WorkActivate p ∈ v_queue v <-> IPA_PM_STATE_IN_PROGRESS (c_state c) = true;
  co_timer : p ∈ v_timers v \/ WorkDeactivate p ∈ v_queue v <-> timed (c_state c) = true;
  co_bit : mask_bit (v_bits v) (c_hdl c) = IPA_PM_STATE_ACTIVE (c_state c);
  co_wait : IPA_PM_STATE_IN_PROGRESS (c_state c) = true -> c_complete c = false;
  co_awake : c_group c = IPA_PM_GROUP_APPS -> c_skip_clk_vote c = false ->
    c_awake c = IPA_PM_STATE_ACTIVE (c_state c) }.

(** An exception: its bits are those of the client of its name, which it no longer waits
    for. *)
Record ex_ok (v : pmcore) (e : ipa_pm_exception_list) : Prop := {
  ex_len : length (ex_bitmask e) = 2%nat;
  ex_bits : forall h, 0 <= h -> mask_bit (ex_bitmask e) h = true <->
    exists p c, live v p c /\ c_hdl c = h /\ c_name c = ex_clients e;
  ex_count : (exists p c, live v p c /\ c_name c = ex_clients e /\ ex_pending e = count_commas (ex_clients e)) \/
    ((forall p c, live v p c -> c_name c <> ex_clients e) /\ ex_pending e = count_commas (ex_clients e) + 1) }.

(** The dummy clients: handles that [remove] can use, and throughputs it sets back. *)
Definition dummies_ok (d : Z * Z * Z * Z) : Prop :=
  let '(h1, h2, tm, ta) := d in 0 <= h1 /\ 0 <= h2 /\ tm <= TPUT_MAX /\ ta <= TPUT_MAX.

Section inv.
Context `{PC : PmConf}.

Record pm_ok (v : pmcore) : Prop := {
  ok_clients_len : Z.of_nat (length (v_clients v)) = IPA_PM_MAX_CLIENTS;
  ok_pipes_len : Z.of_nat (length (v_pipes v)) = IPA5_PIPES_NUM;
  ok_bits_len : length (v_bits v) = 2%nat;
  ok_tputs_len : length (v_tputs v) = 3%nat;
  ok_tputs : Forall (fun t => 0 <= t <= TPUT_MAX) (v_tputs v);
  ok_first : zget (v_clients v) 0 = Some None;
  ok_clients : forall h p, zget (v_clients v) h = Some (Some p) -> exists c, live v p c /\ c_hdl c = h;
  ok_client : forall p c, live v p c -> client_ok v p c;
  ok_pipes : forall i p, zget (v_pipes v) i = Some (Some p) -> i < ipa3_get_max_num_pipes /\ exists c, live v p c;
  ok_queue : NoDup (v_queue v);
  ok_timers : NoDup (v_timers v);
  ok_one_timer : forall p, p ∈ v_timers v -> WorkDeactivate p ∈ v_queue v -> False;
  ok_works : forall p, WorkActivate p ∈ v_queue v \/ WorkDeactivate p ∈ v_queue v \/ p ∈ v_timers v ->
    exists c, live v p c;
  ok_bits : forall h, 0 <= h -> mask_bit (v_bits v) h = true -> exists p c, live v p c /\ c_hdl c = h;
  ok_names : forall p q c d, live v p c -> live v q d -> c_name c = c_name d -> p = q;
  ok_ex : Forall (ex_ok v) (v_exceptions v);
  ok_dummies : dummies_ok (v_dummies v) }.

(** ** Votes *)
Lemma zsum_insert l i a b : l !! i = Some b -> zsum (<[i := a]> l) = zsum l - b + a.
Proof.
  revert i. induction l as [|x l IH]; intros [|i] H; cbn in H; [done..| |].
  - injection H as ->. change (<[0%nat := a]> (b :: l)) with (a :: l). unfold zsum. cbn [foldr]. lia.
  - specialize (IH i H). change (<[S i := a]> (x :: l)) with (x :: <[i := a]> l). unfold zsum in *. cbn [foldr]. lia.
Qed.

Lemma votes_put v p c h c' : live v p c -> h = zset (v_heap v) p (Some c') ->
  zsum (map vote_of h) = votes v - b2z (holds c) + b2z (holds c').
Proof.
  intros Hl ->. unfold votes, live, zget, zset in *. destruct (0 <=? p); [|done].
  change (map vote_of) with (fmap (M := list) vote_of). rewrite list_fmap_insert.
  by rewrite (zsum_insert _ _ _ (vote_of (Some c))) by (by rewrite list_lookup_fmap, Hl).
Qed.

Lemma votes_nonneg v : 0 <= votes v.
Proof.
  apply zsum_nonneg. unfold nonneg. apply list.Forall_forall. intros z Hz. apply list_elem_of_fmap in Hz as (o & -> & _).
  destruct o as [c|]; cbn; [destruct (holds c); cbn|]; lia.
Qed.

Lemma votes_live v p c : live v p c -> holds c = true -> 1 <= votes v.
Proof.
  intros Hl Hh. pose proof (votes_put v p c _ client_zero Hl eq_refl) as E. rewrite Hh in E. cbn in E.
  assert (0 <= zsum (map vote_of (zset (v_heap v) p (Some client_zero)))); [|lia].
  apply (votes_nonneg (v_put v p client_zero)).
Qed.

(** ** One client changes *)
Record update (v : pmcore) (p : Z) (c c' : ipa_pm_client) (v' : pmcore) : Prop := {
  u_live : live v p c;
  u_heap : v_heap v' = zset (v_heap v) p (Some c');
  u_arrays : v_clients v' = v_clients v /\ v_pipes v' = v_pipes v /\ v_exceptions v' = v_exceptions v /\
    v_tputs v' = v_tputs v /\ v_dummies v' = v_dummies v;
  u_same : c_hdl c' = c_hdl c /\ c_name c' = c_name c /\ c_group c' = c_group c /\
    c_skip_clk_vote c' = c_skip_clk_vote c /\ c_callback c' = c_callback c /\ c_params c' = c_params c;
  u_work : forall q, q <> p ->
    (WorkActivate q ∈ v_queue v' <-> WorkActivate q ∈ v_queue v) /\
    (WorkDeactivate q ∈ v_queue v' <-> WorkDeactivate q ∈ v_queue v) /\
    (q ∈ v_timers v' <-> q ∈ v_timers v);
  u_nodup : NoDup (v_queue v') /\ NoDup (v_timers v') /\ (p ∈ v_timers v' -> WorkDeactivate p ∈ v_queue v' -> False);
  u_bits : length (v_bits v') = 2%nat /\
    forall j, j <> c_hdl c -> mask_bit (v_bits v') j = mask_bit (v_bits v) j }.

Lemma update_live v p c c' v' q d : update v p c c' v' -> live v' q d <-> (if decide (q = p) then d = c' else live v q d).
Proof.
  intros [Hl Hh _ _ _ _ _]. unfold live in *. rewrite Hh. destruct (decide (q = p)) as [->|].
  - rewrite zget_zset_eq by (by eapply zget_Some_lt). naive_solver.
  - by rewrite zget_zset_ne.
Qed.

(** A live client before is one after, with the same handle and name. *)
Lemma update_fwd v p c c' v' q d : update v p c c' v' -> live v q d ->
  exists d', live v' q d' /\ c_hdl d' = c_hdl d /\ c_name d' = c_name d.
Proof.
  intros U Hq. destruct (decide (q = p)) as [->|Hne].
  - exists c'. rewrite (update_live _ _ _ _ _ _ _ U), decide_True by done.
    destruct U as [Hl _ _ (? & ? & _) _ _ _]. unfold live in *. by simplify_eq.
  - exists d. by rewrite (update_live _ _ _ _ _ _ _ U), decide_False.
Qed.

Lemma update_bwd v p c c' v' q d' : update v p c c' v' -> live v' q d' ->
  exists d, live v q d /\ c_hdl d = c_hdl d' /\ c_name d = c_name d'.
Proof.
  intros U. rewrite (update_live _ _ _ _ _ _ _ U). destruct (decide (q = p)) as [->|Hne].
  - intros ->. exists c. destruct U as [Hl _ _ (? & ? & _) _ _ _]. done.
  - by exists d'.
Qed.

Lemma update_ex v p c c' v' e : update v p c c' v' -> ex_ok v e -> ex_ok v' e.
Proof.
  intros U [Hl Hb Hc]. split; [done| |].
  - intros h Hh. rewrite (Hb h Hh). split.
    + intros (q & d & Hq & E1 & E2). destruct (update_fwd _ _ _ _ _ _ _ U Hq) as (d' & ? & ? & ?).
      exists q, d'. split_and!; congruence.
    + intros (q & d & Hq & E1 & E2). destruct (update_bwd _ _ _ _ _ _ _ U Hq) as (d' & ? & ? & ?).
      exists q, d'. split_and!; congruence.
  - destruct Hc as [(q & d & Hq & E1 & E2)|[Hn E]].
    + left. destruct (update_fwd _ _ _ _ _ _ _ U Hq) as (d' & ? & ? & ?). exists q, d'. split_and!; congruence.
    + right. split; [|done]. intros q d' Hq. destruct (update_bwd _ _ _ _ _ _ _ U Hq) as (d & Hd & _ & <-).
      by apply (Hn q).
Qed.

Lemma update_other v p c c' v' q d : pm_ok v -> update v p c c' v' -> q <> p -> live v q d -> client_ok v' q d.
Proof.
  intros Hok U Hne Hq. destruct (ok_client v Hok q d Hq) as [H1 H2 H3 H4 H5 H6 H7 H8].
  assert (Hh : c_hdl d <> c_hdl c).
  { intros E. destruct (ok_client v Hok p c (u_live _ _ _ _ _ U)) as [_ H _ _ _ _ _ _]. congruence. }
  destruct U as [Hl Hheap (Ec & _) _ Hw _ [_ Hb]]. destruct (Hw q Hne) as (E1 & E2 & E3).
  split; rewrite ?E1, ?E2, ?E3, ?Ec, ?Hb by done; done.
Qed.

Lemma update_ok v p c c' v' : pm_ok v -> update v p c c' v' -> client_ok v' p c' -> pm_ok v'.
Proof.
  intros Hok U Hc. pose proof U as [Hl Hheap (E1 & E2 & E3 & E4 & E5) (Es & En & _) Hw (N1 & N2 & N3) [B1 B2]].
  split; rewrite ?E1, ?E2, ?E3, ?E4, ?E5; try apply Hok; try done.
  - intros h q Hq. destruct (ok_clients v Hok h q Hq) as (d & Hd & <-).
    destruct (update_fwd _ _ _ _ _ _ _ U Hd) as (d' & ? & ? & ?). by exists d'.
  - intros q d Hq. destruct (decide (q = p)) as [->|Hne].
    + rewrite (update_live _ _ _ _ _ _ _ U), decide_True in Hq by done. by subst.
    + rewrite (update_live _ _ _ _ _ _ _ U), decide_False in Hq by done. by eapply update_other.
  - intros i q Hq. destruct (ok_pipes v Hok i q Hq) as (Hi & d & Hd).
    destruct (update_fwd _ _ _ _ _ _ _ U Hd) as (d' & ? & ? & ?). split; [done|]. by exists d'.
  - intros q. destruct (decide (q = p)) as [->|Hne]; [done|]. destruct (Hw q Hne) as (_ & -> & ->). apply Hok.
  - intros q Hq. destruct (decide (q = p)) as [->|Hne].
    + exists c'. by rewrite (update_live _ _ _ _ _ _ _ U), decide_True.
    + destruct (Hw q Hne) as (E6 & E7 & E8). rewrite E6, E7, E8 in Hq.
      destruct (ok_works v Hok q Hq) as (d & Hd). exists d. by rewrite (update_live _ _ _ _ _ _ _ U), decide_False.
  - intros h Hh Hb. destruct (decide (h = c_hdl c)) as [->|Hne].
    + exists p, c'. by rewrite (update_live _ _ _ _ _ _ _ U), decide_True.
    + rewrite B2 in Hb by done. destruct (ok_bits v Hok h Hh Hb) as (q & d & Hd & <-).
      destruct (update_fwd _ _ _ _ _ _ _ U Hd) as (d' & ? & ? & ?). by exists q, d'.
  - intros q1 q2 d1 d2 H1 H2 E. destruct (update_bwd _ _ _ _ _ _ _ U H1) as (e1 & ? & _ & ?).
    destruct (update_bwd _ _ _ _ _ _ _ U H2) as (e2 & ? & _ & ?). eapply (ok_names v Hok); [done|done|congruence].
  - eapply list.Forall_impl; [apply Hok|]. intros e. by eapply update_ex.
Qed.

(** Work that is not a client's comes or goes. *)
Lemma ok_scale_work v q ts r : pm_ok v -> NoDup q -> ts = v_timers v ->
  (forall p, (WorkActivate p ∈ q <-> WorkActivate p ∈ v_queue v) /\ (WorkDeactivate p ∈ q <-> WorkDeactivate p ∈ v_queue v)) ->
  pm_ok (v_set_work v q ts r).
Proof.
  intros Hok Hq -> Hw. split; try apply Hok; try done.
  - intros p c Hl. destruct (ok_client v Hok p c Hl) as [? ? ? Ha Hd ? ? ?]. destruct (Hw p) as [E1 E2].
    split; cbn; rewrite ?E1, ?E2; done.
  - intros p. cbn. destruct (Hw p) as [_ ->]. apply Hok.
  - intros p. cbn. destruct (Hw p) as [-> ->]. apply Hok.
  - eapply list.Forall_impl; [apply Hok|]. by intros e [? ? ?].
Qed.

Lemma ok_running v r : pm_ok v -> pm_ok (v_set_work v (v_queue v) (v_timers v) r).
Proof. intros Hok. by apply ok_scale_work; [|apply Hok|..]. Qed.

Lemma update_votes v p c c' v' : update v p c c' v' -> votes v' = votes v - b2z (holds c) + b2z (holds c').
Proof. intros [Hl Hh _ _ _ _ _]. unfold votes at 1. by rewrite (votes_put v p c _ c' Hl Hh). Qed.
End inv.

(** * Clock scaling leaves the clients alone

    From a state that satisfies [pm_ok], a scaling of the clocks is defined, ends, and
    changes neither a client nor the number of votes.  The queue and the timers as sets. *)

(** Pointers of the array and the clients they lead to. *)
Definition loaded (v : pmcore) (o : option Z) (oc : option ipa_pm_client) : Prop :=
  match o, oc with
  | None, None => True
  | Some p, Some c => live v p c
  | _, _ => False
  end.

Section scale.
Context {K : Type} `{PW : PmWorks K}.

Lemma r_load ps v n (P : list (option ipa_pm_client) -> pmcore -> Z -> Prop) :
  (forall p, Some p ∈ ps -> exists c, live v p c) ->
  (forall cs, Forall2 (loaded v) ps cs -> P cs v n) -> runs (K := K) (load_clients ps) v n P.
Proof.
  revert P. induction ps as [|[p|] ps IH]; intros P Hp HP; cbn [load_clients].
  - apply r_ret, HP. constructor.
  - destruct (Hp p) as (c & Hc); [by constructor|]. apply r_bind, r_cget with c; [done|]. apply r_bind, IH.
    + intros q Hq. apply Hp. by constructor.
    + intros cs Hcs. by apply r_ret, HP; constructor.
  - apply r_bind, IH.
    + intros q Hq. apply Hp. by constructor.
    + intros cs Hcs. by apply r_ret, HP; constructor.
Qed.

Lemma collect_ok gs cs voted : length gs = 3%nat -> Forall (fun t => 0 <= t <= TPUT_MAX) gs ->
  Forall (fun oc => forall c, oc = Some c -> 0 <= c_throughput c <= TPUT_MAX) cs ->
  exists l, collect_tputs gs cs voted = Ok l /\ Forall (fun t => 0 <= t <= TPUT_MAX) l /\ (length l <= length cs)%nat.
Proof.
  intros Hg Hgs. revert voted. induction cs as [|[c|] cs IH]; intros voted Hcs; cbn [collect_tputs length].
  - by exists [].
  - apply list.Forall_cons in Hcs as [Hc Hcs]. destruct (IH voted Hcs) as (l & E & Hl & Hn).
    destruct (negb _); [exists l; split_and!; [done|done|lia]|].
    destruct (decide _).
    + rewrite E. exists (c_throughput c :: l). split_and!; [done|by constructor; [apply Hc|]|cbn [length]; lia].
    + cbv zeta. destruct (bool_decide _); [exists l; split_and!; [done|done|lia]|].
      destruct (zget_lt_Some gs (group_index (c_group c))) as [t Ht]; [rewrite Hg; destruct (c_group c); cbn; lia|].
      rewrite Ht. cbn [deref mbind res_bind].
      destruct (IH (group_index (c_group c) :: voted) Hcs) as (l' & -> & Hl' & Hn').
      exists (t :: l'). split_and!; [done| |cbn [length]; lia]. constructor; [|done].
      rewrite list.Forall_forall in Hgs. apply Hgs. unfold zget in Ht. destruct (0 <=? _); [|done].
      by eapply list_elem_of_lookup_2.
  - apply list.Forall_cons in Hcs as [_ Hcs]. destruct (IH voted Hcs) as (l & E & Hl & Hn). exists l. split_and!; [done..|lia].
Qed.

Lemma clients_live v p : pm_ok v -> Some p ∈ v_clients v -> exists c, live v p c.
Proof.
  intros Hok Hin. apply list_elem_of_lookup_1 in Hin as [i Hi].
  destruct (ok_clients v Hok (Z.of_nat i) p) as (c & Hc & _); [|by exists c].
  unfold zget. rewrite (proj2 (Z.leb_le _ _)) by lia. by rewrite Nat2Z.id.
Qed.

Lemma r_throughput v n (P : Z -> pmcore -> Z -> Prop) :
  pm_ok v -> (forall a, P a v n) -> runs (K := K) calculate_throughput v n P.
Proof.
  intros Hok HP. unfold calculate_throughput. apply r_bind, r_xget. intros x Hx _ _ _ _ _ _ Hg. rewrite Hx, Hg.
  apply r_bind, r_load.
  { intros p Hp. apply (clients_live v p Hok). apply list_elem_of_lookup_1 in Hp as [i Hi].
    rewrite lookup_drop in Hi. by apply list_elem_of_lookup_2 in Hi. }
  intros cs Hcs. destruct (collect_ok (v_tputs v) cs []) as (l & E & Hl & Hn).
  - apply Hok.
  - apply Hok.
  - apply list.Forall_forall. intros oc Hoc c ->. apply list_elem_of_lookup_1 in Hoc as [i Hi].
    destruct (Forall2_lookup_r _ _ _ _ _ Hcs Hi) as (o & _ & Ho). destruct o as [p|]; [|done].
    apply (ok_client v Hok p c Ho).
  - apply r_bind, r_lift with l; [done|].
    assert (Hlen : (length cs <= 35)%nat).
    { rewrite <- (Forall2_length _ _ _ Hcs), length_drop. pose proof (ok_clients_len v Hok). unfold IPA_PM_MAX_CLIENTS in *. lia. }
    destruct (aggregate_spec l) as (a & Ha & _).
    + eapply list.Forall_impl; [done|]. cbn. lia.
    + pose proof (zsum_bound l TPUT_MAX). assert (zsum l <= Z.of_nat (length l) * TPUT_MAX).
      { apply H. eapply list.Forall_impl; [done|]. cbn. lia. }
      unfold TPUT_MAX in *. nia.
    + by apply r_lift with a.
Qed.

Lemma r_plan i v n (P : Z -> pmcore -> Z -> Prop) :
  (forall a, P a v n) -> runs (K := K) (ipa3_set_clock_plan_from_pm i) v n P.
Proof.
  intros HP. unfold ipa3_set_clock_plan_from_pm. assert (Hrate : forall k a b, clk_ok k n -> clk_ok (k_set_rate k a b) n).
  { by intros k a b [? ? ? ?]. }
  destruct enable_clock_scaling; cbn [negb]; [|by apply r_bind, runs_clk with n; [auto|apply r_ret]].
  destruct regular_clk_mode; cbn [negb]; [|by apply r_ret].
  destruct (clk_rate_of i) as [r|]; [|by apply r_ret].
  apply r_bind, runs_clk_get. intros k Hk. destruct (r =? _); [by apply r_ret|].
  apply r_bind, runs_clk with n; [auto|]. apply r_bind. destruct (ac_cnt k >? 0).
  - by apply r_psys; intros []; apply r_ret.
  - by apply r_ret, r_ret.
Qed.

Lemma passing_in active es i : match passing_exception active es i with
  | ThDefault => True
  | ThException j => i <= j < i + Z.of_nat (length es)
  end.
Proof.
  revert i. induction es as [|e es IH]; intros i; cbn [passing_exception length]; [done|].
  destruct (_ && _); [lia|]. specialize (IH (i + 1)). destruct (passing_exception _ _ _); [done|lia].
Qed.

(** What the two sections of a scaling leave in the data base, for the second to read. *)
Definition current_set (d : clk_scaling_db) : Prop := exists ths, thresholds d = Ok ths.

Lemma current_is_set d : current_set
  (d_set_current d (Some (passing_exception (active_client_bitmask d) (exception_list d) 0))).
Proof.
  unfold current_set, thresholds. cbn. pose proof (passing_in (active_client_bitmask d) (exception_list d) 0) as H.
  destruct (passing_exception _ _ _) as [|j]; [by eexists|].
  destruct (zget_lt_Some (exception_list d) j) as [e ->]; [lia|]. by eexists.
Qed.

Lemma current_set_ok d : current_ok d -> current_threshold d <> None -> current_set d.
Proof.
  intros Hd Hc. unfold current_set, thresholds. destruct (current_threshold d) as [[|i]|] eqn:E; [by eexists| |done]. cbn.
  destruct (zget_lt_Some (exception_list d) i) as [e ->]; [by apply Hd|]. by eexists.
Qed.

Lemma wp_set_current v (s : pmst * K) (Q : unit -> pmst * K -> Prop) : at_core v s ->
  (forall s' x, at_core v s' -> clk (fst s') = clk (fst s) -> pm_ctx (fst s') = Some x -> current_set (clk_scaling x) -> Q tt s') ->
  wp set_current_threshold Q s.
Proof.
  intros Hs HQ. destruct (at_ctx v s Hs) as (x & Hx & Hc). unfold set_current_threshold, dmod, xmod, xget.
  apply wp_bind, wp_bind, wp_pget. eapply wp_lift; [by rewrite Hx|]. destruct s as [s k]. unfold wp, pmod.
  pose proof (current_is_set (clk_scaling x)) as Hcur. eapply HQ; [split| |done|exact Hcur]; [| |done].
  - unfold core in *. cbn in *. by rewrite Hx in Hc.
  - intros y [= <-] i [= Hi]. pose proof (passing_in (active_client_bitmask (clk_scaling x)) (exception_list (clk_scaling x)) 0) as H.
    rewrite Hi in H. cbn. lia.
Qed.

Context (wait : (pmst * K -> bool) -> St (pmst * K) unit).

Lemma runs_at {A} (m : St (pmst * K) A) v n P s (Q : A -> pmst * K -> Prop) :
  at_core v s -> clk_ok (clk (fst s)) n -> runs m v n P ->
  (forall a v' n' s', P a v' n' -> at_core v' s' -> clk_ok (clk (fst s')) n' -> Q a s') -> wp m Q s.
Proof. intros Hs Hk Hm. by apply (Hm s Q Hs Hk). Qed.

Lemma r_second v n tput (P : Z -> pmcore -> Z -> Prop) (s : pmst * K) (Q : Z -> pmst * K -> Prop) x :
  P 0 v n -> at_core v s -> clk_ok (clk (fst s)) n -> pm_ctx (fst s) = Some x -> current_set (clk_scaling x) ->
  (forall a v' n' s', P a v' n' -> at_core v' s' -> clk_ok (clk (fst s')) n' -> Q a s') ->
  wp (x ← xget;
      let d := clk_scaling x in
      ths ← st_lift (thresholds d);
      let new_th_idx := threshold_index (take (Z.to_nat (threshold_size d)) ths) tput in
      if negb (cur_vote d =? new_th_idx) then
        _ ← dmod (fun d => d_set_vote d new_th_idx);
        _ ← ipa3_set_clock_plan_from_pm new_th_idx;
        mret 0
      else mret 0) Q s.
Proof.
  intros HP Hs Hk Hx [ths Hths] HQ. apply wp_bind. unfold xget. apply wp_bind, wp_pget. eapply wp_lift; [by rewrite Hx|].
  cbv zeta. apply wp_bind. eapply wp_lift; [done|]. destruct (negb _).
  - eapply runs_at; [done..| |exact HQ]. apply r_bind, r_scaling; [done|]. apply r_bind, r_plan. intros _. by apply r_ret.
  - apply wp_ret. by apply (HQ 0 v n s).
Qed.

Lemma t_scaling v n (P : Z -> pmcore -> Z -> Prop) : pm_ok v -> P 0 v n -> truns wait do_clk_scaling v n P.
Proof.
  intros Hok HP. unfold do_clk_scaling. apply t_bind, t_sec, runs_clk_get. intros k _.
  destruct (negb _); [by apply t_ret|]. intros _ s Q Hs Hk HQ.
  apply wp_run_bind, wp_run_sec, wp_bind.
  eapply (runs_at _ _ _ (fun a v' n' => v' = v /\ n' = n)); [done..|by apply r_throughput|].
  intros tput ? ? s1 [-> ->] Hs1 Hk1. apply wp_bind. eapply (runs_at _ _ _ (fun a v' n' => v' = v /\ n' = n)); [done..| |].
  { apply (r_xmod (fun x => x_set_tputs x tput (group_tput x)) id); [|done..].
    intros s0 x Hx Hc. unfold core in *. rewrite Hx in Hc. by injection Hc as <-. }
  intros [] ? ? s3 [-> ->] Hs3 Hk3. apply wp_bind, (wp_set_current v); [done|].
  intros s4 x Hs4 Ek Hx Hcur. apply wp_ret, wp_run_sec. eapply r_second; try done. by rewrite Ek.
Qed.

(** ** The queue and the timers *)
Lemma elem_of_filtered {A} (f : A -> bool) l x : x ∈ List.filter f l <-> f x = true /\ x ∈ l.
Proof. rewrite !list_elem_of_In, filter_In. tauto. Qed.

Lemma nodup_filtered {A} (f : A -> bool) l : NoDup l -> NoDup (List.filter f l).
Proof. rewrite !NoDup_ListNoDup. apply List.NoDup_filter. Qed.

Lemma r_queue w v n (P : unit -> pmcore -> Z -> Prop) :
  P tt (if bool_decide (w ∈ v_queue v) then v else v_set_work v (v_queue v ++ [w]) (v_timers v) (v_running v)) n ->
  runs (K := K) (queue_work w) v n P.
Proof.
  pose (b := fun (q : list pm_work) (_ : list Z) => bool_decide (w ∈ q)). apply (r_work b (fun q => q ++ [w]) id id).
Qed.

Lemma r_queue_delayed p v n (P : unit -> pmcore -> Z -> Prop) : p ∉ v_timers v -> WorkDeactivate p ∉ v_queue v ->
  P tt (v_set_work v (v_queue v) (v_timers v ++ [p]) (v_running v)) n -> runs (K := K) (queue_delayed_work p) v n P.
Proof.
  intros H1 H2 HP.
  pose (b := fun (q : list pm_work) (ts : list Z) => bool_decide (p ∈ ts) || bool_decide (WorkDeactivate p ∈ q)).
  apply (r_work b id (fun ts => ts ++ [p]) id). unfold b.
  by rewrite !bool_decide_false.
Qed.

Definition v_cancel (v : pmcore) (p : Z) : pmcore :=
  v_set_work v (List.filter (fun w => negb (bool_decide (w = WorkDeactivate p))) (v_queue v))
    (List.filter (fun q => negb (q =? p)) (v_timers v)) (v_running v).

Lemma r_cancel p v n (P : unit -> pmcore -> Z -> Prop) : P tt (v_cancel v p) n ->
  runs (K := K) (xmod (fun x => x_set_work x (List.filter (fun w => negb (bool_decide (w = WorkDeactivate p))) (pm_queue x))
                            (List.filter (fun q => negb (q =? p)) (pm_timers x)) (pm_running x))) v n P.
Proof.
  apply (r_work (fun _ _ => false) (List.filter (fun w => negb (bool_decide (w = WorkDeactivate p))))
    (List.filter (fun q => negb (q =? p))) id).
Qed.

Lemma cancel_work v p w : w ∈ v_queue (v_cancel v p) <-> w <> WorkDeactivate p /\ w ∈ v_queue v.
Proof. unfold v_cancel. cbn. rewrite elem_of_filtered, negb_true_iff, bool_decide_eq_false. tauto. Qed.

Lemma cancel_timer v p q : q ∈ v_timers (v_cancel v p) <-> q <> p /\ q ∈ v_timers v.
Proof. unfold v_cancel. cbn. rewrite elem_of_filtered, negb_true_iff, Z.eqb_neq. tauto. Qed.
End scale.
