(* ===== verification/PmSeq.v ===== *)
(** * Calls of the power manager one after the other

    A call that waits lets the worker take items from the queue until it can go on
    ([settle]); with nothing left in the queue it would wait forever, which is not to end.
    [pm_event] is what happens to the manager and to the counter of active clients: a
    call, an item of the queue, the time of a client, and the votes of others.  The calls are
    all but [ipa_pm_init] and [ipa_pm_destroy], which begin and end the manager. *)

From Stdlib Require Import ZArith Lia Ascii String.
From stdpp Require Import prelude list numbers strings.
From S2P Require Import Prelude Act PmState PmClk IpaPm PmInv.

Local Open Scope Z_scope.

Inductive pm_call :=
  | CRegister (params : option ipa_pm_register_params)
  | CDeregister (hdl : Z)
  | CAssociate (hdl consumer : Z)
  | CActivate (hdl : Z)
  | CActivateSync (hdl : Z)
  | CDeferredDeactivate (hdl : Z)
  | CDeactivateAllDeferred
  | CDeactivateSync (hdl : Z)
  | CHandleSuspend (pipe_bitmask pipe_arr_idx : Z)
  | CSetThroughput (hdl throughput : Z)
  | CGetAggregatedThroughput
  | CGetClientThroughput (client_type : Z)
  | CGetScalingBwLevels
  | CAddDummyClients (power_plan : Z)
  | CRemoveDummyClients.

(** [ETag] and [EGate] are the two works of [power_mgmt_wq]; [EInc] to [EDecNoBlock] are
    votes of others, [ETagFirst] sets [tag_process_before_gating]. *)
Inductive pm_event :=
  | ECall (c : pm_call)
  | EWork
  | ETimer (p : Z)
  | EClkWork
  | EInc
  | EIncNoBlock
  | EDec
  | EDecNoBlock
  | ETagFirst.

(** The range of the arguments. *)
Definition args_ok (c : pm_call) : bool :=
  match c with
  | CRegister (Some p) => Z.of_nat (String.length (r_name p)) <? IPA_PM_MAX_EX_CL
  | CDeregister hdl | CAssociate hdl _ | CActivate hdl | CActivateSync hdl | CDeferredDeactivate hdl
  | CDeactivateSync hdl => 0 <=? hdl
  | CSetThroughput hdl t => (0 <=? hdl) && (t <=? TPUT_MAX)
  | _ => true
  end.

Section seq.
Context {K : Type} `{PO : PmOps K} `{PC : PmConf}.
#[local] Notation PM := (St (pmst * K)).
#[local] Notation T := (act (pmst * K)).

(** An item of the queue; none of them waits. *)
Definition work : PM unit := run wait_never work_once.

Fixpoint settle_n (fuel : nat) (c : pmst * K -> bool) (s : pmst * K) : res (unit * (pmst * K)) :=
  if c s then Ok (tt, s)
  else
    match fuel with
    | O => Diverge
    | Datatypes.S fuel =>
        match work s with
        | Ok (_, s) => settle_n fuel c s
        | UB => UB
        | Diverge => Diverge
        end
    end.

Definition queued (s : pmst * K) : nat := match pm_ctx (fst s) with Some x => length (pm_queue x) | None => 0 end.
Definition settle (c : pmst * K -> bool) : PM unit := fun s => settle_n (queued s) c s.
#[global] Instance settle_ready : Ready settle.
Proof. split. intros c s H. unfold settle. by destruct (queued s); cbn; rewrite H. Qed.
Definition call {A} (t : T A) : PM A := run settle t.

(** The whole queue. *)
Definition drain : PM unit := settle (fun s => (queued s =? 0)%nat).

Definition do_call (c : pm_call) : T Z :=
  match c with
  | CRegister params => '(r, _) ← ipa_pm_register params; Ret r
  | CDeregister hdl => ipa_pm_deregister hdl
  | CAssociate hdl consumer => ipa_pm_associate_ipa_cons_to_client hdl consumer
  | CActivate hdl => ipa_pm_activate hdl
  | CActivateSync hdl => ipa_pm_activate_sync hdl
  | CDeferredDeactivate hdl => ipa_pm_deferred_deactivate hdl
  | CDeactivateAllDeferred => ipa_pm_deactivate_all_deferred
  | CDeactivateSync hdl => ipa_pm_deactivate_sync hdl
  | CHandleSuspend m i => ipa_pm_handle_suspend m i
  | CSetThroughput hdl t => ipa_pm_set_throughput hdl t
  | CGetAggregatedThroughput => sec ipa_pm_get_aggregated_throughput
  | CGetClientThroughput ct => sec (ipa_pm_get_pm_clnt_throughput ct)
  | CGetScalingBwLevels => sec ('(r, _) ← ipa_pm_get_scaling_bw_levels; mret r)
  | CAddDummyClients power_plan => ipa_pm_add_dummy_clients power_plan
  | CRemoveDummyClients => ipa_pm_remove_dummy_clients
  end.

(** What an event does, and the result of a call. *)
Definition event (e : pm_event) : PM Z :=
  match e with
  | ECall c => call (do_call c)
  | EWork => _ ← work; mret 0
  | ETimer p => _ ← timer_expires p; mret 0
  | EClkWork => _ ← call (Sec clk_work); mret 0
  | EInc => _ ← call ipa3_inc_client_enable_clks; mret 0
  | EIncNoBlock => ipa3_inc_client_enable_clks_no_block
  | EDec => _ ← call ipa3_dec_client_disable_clks; mret 0
  | EDecNoBlock => _ ← call ipa3_dec_client_disable_clks_no_block; mret 0
  | ETagFirst => _ ← kmod_clk (fun k => k_set_tag k true); mret 0
  end.

(** The votes others hold afterwards. *)
Definition others_after (e : pm_event) (r o : Z) : Z :=
  match e with
  | EInc => o + 1
  | EIncNoBlock => if r =? 0 then o + 1 else o
  | EDec | EDecNoBlock => o - 1
  | _ => o
  end.

(** [current_threshold] points somewhere: the clocks have been scaled. *)
Definition scaled (s : pmst * K) : bool :=
  match pm_ctx (fst s) with Some x => bool_decide (current_threshold (clk_scaling x) <> None) | None => false end.

(** A power plan above 0 that is not refused is one of the thresholds in use, and in range. *)
Definition plan_ok (power_plan : Z) (s : pmst * K) : bool :=
  match pm_ctx (fst s) with
  | Some x =>
      (power_plan <=? 0) || (power_plan - 1 >=? threshold_size (clk_scaling x)) ||
      match thresholds (clk_scaling x) with
      | Ok ths => match zget ths (power_plan - 1) with Some t => t <=? TPUT_MAX | None => false end
      | _ => false
      end
  | None => false
  end.

(** What a call needs: its arguments in range and, where it reads the thresholds in use,
    that there are some. *)
Definition call_ok (c : pm_call) (s : pmst * K) : bool :=
  args_ok c &&
  match c with
  | CGetScalingBwLevels => scaled s
  | CAddDummyClients power_plan => plan_ok power_plan s
  | _ => true
  end.

(** Events and the states they lead to; others only give back votes they hold. *)
Definition event_ok (e : pm_event) (o : Z) (s : pmst * K) : bool :=
  match e with
  | ECall c => call_ok c s
  | EDec | EDecNoBlock => 1 <=? o
  | _ => true
  end.

Inductive pm_reach (params : ipa_pm_init_params) (k0 : K) : Z -> pmst * K -> Prop :=
  | pm_started s : call (ipa_pm_init (Some params)) (pmst0, k0) = Ok (0, s) -> pm_reach params k0 0 s
  | pm_next o s e r s' : pm_reach params k0 o s -> event_ok e o s = true -> event e s = Ok (r, s') ->
      pm_reach params k0 (others_after e r o) s'.
End seq.
