(* ===== verification/PmWork.v ===== *)
(** * The worker of the power manager

    The items of the queue keep the invariant, and a call that waits for one is woken. *)

From Stdlib Require Import ZArith Lia Ascii String.
From stdpp Require Import prelude list numbers strings.
From S2P Require Import Prelude StWp Act PmState PmClk IpaPm PmInv PmRules PmSeq.

Local Open Scope Z_scope.

(** * The work of the power manager keeps its invariant

    One item of the queue, and waiting: a client that is in progress has its item in the
    queue, so a call that waits for it goes on after at most as many items as there are. *)

Lemma v_put_put v p a b : v_put (v_put v p a) p b = v_put v p b.
Proof. unfold v_put, v_set_heap. cbn. by rewrite zset_zset. Qed.

(** The live client that a goal asks for is the one of the last change. *)
Ltac lv := first [eassumption | eapply live_put_eq; lv].

(** What stays of a client. *)
Definition same_client (c d : ipa_pm_client) : Prop :=
  c_hdl d = c_hdl c /\ c_name d = c_name c /\ c_group d = c_group c /\ c_skip_clk_vote d = c_skip_clk_vote c /\
  c_callback d = c_callback c /\ c_params d = c_params c.

Record kept (v v' : pmcore) : Prop := {
  k_arrays : v_clients v' = v_clients v /\ v_pipes v' = v_pipes v /\ v_exceptions v' = v_exceptions v /\
    v_tputs v' = v_tputs v /\ v_dummies v' = v_dummies v;
  k_fwd : forall p c, live v p c -> exists d, live v' p d /\ same_client c d }.

#[global] Instance kept_preorder : PreOrder kept.
Proof.
  split.
  - intros v. split; [done|]. intros p c H. by exists c.
  - intros v1 v2 v3 [(A1 & A2 & A3 & A4 & A5) F] [(B1 & B2 & B3 & B4 & B5) G].
    split; [by rewrite B1, B2, B3, B4, B5|]. intros p c H. destruct (F p c H) as (d & Hd & S1).
    destruct (G p d Hd) as (e & He & S2). exists e. split; [done|]. unfold same_client in *.
    destruct S1 as (? & ? & ? & ? & ? & ?), S2 as (? & ? & ? & ? & ? & ?). split_and!; congruence.
Qed.

Lemma update_kept v p c c' v' : update v p c c' v' -> kept v v'.
Proof.
  intros U. pose proof U as [Hl Hh (? & ? & ? & ? & ?) Hs _ _ _]. split; [done|]. intros q d Hq.
  destruct (decide (q = p)) as [->|Hne].
  - exists c'. rewrite (update_live _ _ _ _ _ _ _ U), decide_True by done. split; [done|].
    unfold live in *. rewrite Hq in Hl. by injection Hl as ->.
  - exists d. by rewrite (update_live _ _ _ _ _ _ _ U), decide_False.
Qed.

(** Where an item leads its client. *)
Definition after_activate (st : ipa_pm_state) : ipa_pm_state :=
  match st with
  | IPA_PM_ACTIVATE_IN_PROGRESS => IPA_PM_ACTIVATED
  | IPA_PM_DEACTIVATE_IN_PROGRESS => IPA_PM_DEACTIVATED
  | st => st
  end.
Definition after_timer (st : ipa_pm_state) : ipa_pm_state :=
  match st with
  | IPA_PM_ACTIVATED_TIMER_SET => IPA_PM_ACTIVATED
  | IPA_PM_ACTIVATED_PENDING_RESCHEDULE => IPA_PM_ACTIVATED_PENDING_DEACTIVATION
  | IPA_PM_ACTIVATED_PENDING_DEACTIVATION => IPA_PM_DEACTIVATED
  | st => st
  end.

Definition client_of (w : pm_work) : option Z :=
  match w with WorkActivate p | WorkDeactivate p => Some p | WorkScale => None end.

(** What the item at the head of the queue does. *)
Record worked (v v' : pmcore) : Prop := {
  w_kept : kept v v';
  w_queue : v_queue v' = tail (v_queue v);
  w_idle : v_running v' = None;
  w_other : forall p c, live v p c -> head (v_queue v) ≫= client_of <> Some p -> live v' p c;
  w_activate : forall p c, live v p c -> head (v_queue v) = Some (WorkActivate p) -> exists c', live v' p c' /\
    c_state c' = after_activate (c_state c) /\ c_complete c' = true;
  w_deactivate : forall p c, live v p c -> head (v_queue v) = Some (WorkDeactivate p) -> exists c', live v' p c' /\
    c_state c' = after_timer (c_state c) }.

Section work.
Context {K : Type} `{PW : PmWorks K}.

(** ** A client's item leaves the queue *)
Section item.
Context (v : pmcore) (p : Z) (c : ipa_pm_client) (w : pm_work) (q : list pm_work).
Hypothesis (Hok : pm_ok v) (Hl : live v p c) (Hq : v_queue v = w :: q).

Lemma item_notin : w ∉ q.
Proof. pose proof (ok_queue v Hok) as H. rewrite Hq in H. by apply NoDup_cons in H as [? _]. Qed.

Lemma item_in w' : w' <> w -> w' ∈ q <-> w' ∈ v_queue v.
Proof. intros Hne. rewrite Hq, elem_of_cons. naive_solver. Qed.

Lemma item_update c' ts bits r : client_of w = Some p -> same_client c c' -> length bits = 2%nat ->
  (forall j, j <> c_hdl c -> mask_bit bits j = mask_bit (v_bits v) j) ->
  NoDup ts -> (forall x, x <> p -> x ∈ ts <-> x ∈ v_timers v) -> (p ∈ ts -> WorkDeactivate p ∈ q -> False) ->
  update v p c c' (mk_core (zset (v_heap v) p (Some c')) (v_clients v) (v_pipes v) q ts r
    (v_exceptions v) bits (v_tputs v) (v_dummies v)).
Proof.
  intros Hw Hs Hb Hbits Hts Htime Hone. split; cbn; try done.
  - intros x Hx. split_and!; [apply item_in..|by apply Htime]; destruct w; cbn in Hw; congruence.
  - split_and!; [|done|done]. pose proof (ok_queue v Hok) as H. rewrite Hq in H. by apply NoDup_cons in H as [_ ?].
Qed.
End item.

(** ** [activate_work_func] *)
Context (wait : (pmst * K -> bool) -> St (pmst * K) unit).

Definition activated (c : ipa_pm_client) : ipa_pm_client :=
  let c' := c_set_complete (c_set_state (awaken c) (after_activate (c_state c))) true in
  match c_state c with IPA_PM_DEACTIVATE_IN_PROGRESS => rest c' | _ => c' end.

Lemma awaken_same c : same_client c (awaken c) /\ c_state (awaken c) = c_state c /\ c_throughput (awaken c) = c_throughput c /\
  c_complete (awaken c) = c_complete c.
Proof. unfold awaken. by destruct (_ && _). Qed.

Lemma rest_same c : same_client c (rest c) /\ c_state (rest c) = c_state c /\ c_throughput (rest c) = c_throughput c /\
  c_complete (rest c) = c_complete c.
Proof. unfold rest. by destruct (_ && _). Qed.

Lemma activated_same c : same_client c (activated c) /\ c_state (activated c) = after_activate (c_state c) /\
  c_throughput (activated c) = c_throughput c /\ c_complete (activated c) = true.
Proof.
  unfold activated. destruct (awaken_same c) as ((H1 & H2 & H3 & H4 & H5 & H6) & _ & H7 & _).
  destruct (c_state c); try (by split_and!).
  destruct (rest_same (c_set_complete (c_set_state (awaken c) (after_activate IPA_PM_DEACTIVATE_IN_PROGRESS)) true)) as (R & ? & ? & ?).
  destruct R as (? & ? & ? & ? & ? & ?). cbn in *. unfold same_client. split_and!; congruence.
Qed.

Lemma activated_awake c : c_group c = IPA_PM_GROUP_APPS -> c_skip_clk_vote c = false ->
  IPA_PM_STATE_IN_PROGRESS (c_state c) = true -> c_awake (activated c) = IPA_PM_STATE_ACTIVE (c_state (activated c)).
Proof.
  intros Hg Hs Hp. unfold activated, rest, awaken. rewrite Hs, Hg, bool_decide_true by done. cbn [negb andb].
  destruct (c_state c); try done. cbn. by rewrite Hs, Hg.
Qed.

(** The state and the bit of the client after [activate_work_func]. *)
Lemma activated_ok v p c q r bits : pm_ok v -> live v p c -> v_queue v = WorkActivate p :: q -> length bits = 2%nat ->
  (forall j, mask_bit bits j = if decide (j = c_hdl c) then IPA_PM_STATE_ACTIVE (c_state (activated c)) else mask_bit (v_bits v) j) ->
  let v' := mk_core (zset (v_heap v) p (Some (activated c))) (v_clients v) (v_pipes v) q (v_timers v) r
    (v_exceptions v) bits (v_tputs v) (v_dummies v) in
  update v p c (activated c) v' /\ pm_ok v'.
Proof.
  intros Hok Hl Hq Hb Hbits v'. destruct (activated_same c) as (Hs & Est & Et & _).
  destruct (ok_client v Hok p c Hl) as [C1 C2 C3 C4 C5 _ C7 C8].
  assert (Hp : IPA_PM_STATE_IN_PROGRESS (c_state c) = true) by (apply C4; rewrite Hq; constructor).
  assert (Hnt : ~ (p ∈ v_timers v \/ WorkDeactivate p ∈ v_queue v)) by (rewrite C5; destruct (c_state c); done).
  assert (U : update v p c (activated c) v').
  { apply (item_update v p c (WorkActivate p) q); try done; [by intros j Hj; rewrite Hbits, decide_False|apply Hok|].
    intros Hin. naive_solver. }
  split; [done|]. apply (update_ok v p c (activated c)); [done..|]. destruct Hs as (Eh & _ & Eg & Ek & _).
  split; cbn; rewrite ?Eh, ?Eg, ?Ek, ?Et; try done.
  - split; [intros Hin; by destruct (item_notin v _ q Hok Hq)|]. rewrite Est. by destruct (c_state c).
  - split; [|rewrite Est; by destruct (c_state c)]. rewrite <- (item_in v _ q Hq) in Hnt by done. naive_solver.
  - by rewrite Hbits, decide_True.
  - rewrite Est. by destruct (c_state c).
  - intros. by apply activated_awake.
Qed.

Lemma t_activate_work v p c q o (P : unit -> pmcore -> Z -> Prop) :
  pm_ok v -> live v p c -> v_queue v = WorkActivate p :: q -> 0 <= o ->
  (forall v', pm_ok v' -> update v p c (activated c) v' -> v_queue v' = q -> v_running v' = Some (WorkActivate p) ->
     P tt v' (o + votes v')) ->
  truns wait (activate_work_func p) (v_set_work v q (v_timers v) (Some (WorkActivate p))) (o + votes v) P.
Proof.
  intros Hok Hl Hq Ho HP. pose proof (ok_client v Hok p c Hl) as [C1 C2 C3 C4 C5 C6 C7 C8].
  assert (Hp : IPA_PM_STATE_IN_PROGRESS (c_state c) = true) by (apply C4; rewrite Hq; constructor).
  pose proof (votes_nonneg v) as Hv. destruct (awaken_same c) as ((Eh & _ & Eg & Ek & _) & Est & _).
  set (v1 := v_set_work v q (v_timers v) (Some (WorkActivate p))).
  assert (Hl1 : live v1 p c) by done. unfold activate_work_func.
  apply t_bind, t_vote with c; [done|]. apply t_bind, t_sec, r_bind, r_cget with (awaken c); [lv|]. rewrite Est.
  pose proof (activated_ok v p c q (Some (WorkActivate p))) as Hact. unfold activated in Hact, HP.
  destruct (c_state c) eqn:Es; try done; cbn [after_activate] in *.
  - apply r_bind. unfold set_state at 1. eapply r_cmod; [lv|]. apply r_ret.
    apply t_bind, t_sec. eapply r_cmod; [lv|]. eapply t_devote; [lv| |].
    { cbn. rewrite Ek. intros ->. cbn. lia. }
    cbn [c_skip_clk_vote c_set_complete c_set_state]. rewrite Ek.
    rewrite !v_put_put.
    edestruct (Hact (v_bits v)) as [U Hok']; [done..|apply Hok| |].
    { intros j. destruct (decide (j = c_hdl c)) as [->|]; [|done]. rewrite C6.
      destruct (rest_same (c_set_complete (c_set_state (awaken c) IPA_PM_DEACTIVATED) true)) as (_ & -> & _). done. }
    pose proof (update_votes _ _ _ _ _ U) as Ev. unfold holds in Ev. rewrite Es in Ev.
    destruct (rest_same (c_set_complete (c_set_state (awaken c) IPA_PM_DEACTIVATED) true)) as (_ & E' & _). rewrite E' in Ev.
    cbn in Ev. match goal with |- P _ _ ?n => replace n with (o + (votes v - 0 + 0)) by lia end.
    rewrite <- Ev. by apply HP.
  - apply r_bind. unfold set_state at 1. eapply r_cmod; [lv|]. apply r_ret.
    apply t_bind, t_sec. eapply r_cmod; [lv|]. apply t_bind, t_sec, r_bind. eapply r_cget; [lv|].
    cbn [c_hdl c_set_complete c_set_state]. rewrite Eh. apply (r_mark (c_hdl c) true); [apply Hok|unfold IPA_PM_MAX_CLIENTS in *; lia|].
    intros bits Hb Hbits. rewrite !v_put_put.
    edestruct (Hact bits) as [U Hok']; [done..|].
    pose proof (update_votes _ _ _ _ _ U) as Ev. unfold holds in Ev. rewrite Es in Ev. cbn in Ev. rewrite Ek in Ev.
    match goal with |- truns _ _ _ ?n _ => replace n with (o + (votes v - 0 + b2z (negb (c_skip_clk_vote c)))) by lia end.
    rewrite <- Ev. apply t_bind, t_sec, r_bind. eapply r_cget; [by eapply (live_put_eq v1)|].
    match goal with |- runs (match ?f with _ => _ end) _ _ _ => destruct f end.
    all: first [apply r_psys; intros []|apply r_ret]; apply t_bind, t_scaling; [done|]; by apply t_ret, HP.
Qed.

(** ** [delayed_deferred_deactivate_work_func] *)
Definition timer_done (c : ipa_pm_client) : ipa_pm_client :=
  let c' := c_set_state c (after_timer (c_state c)) in
  match c_state c with IPA_PM_ACTIVATED_PENDING_DEACTIVATION => rest c' | _ => c' end.

Lemma timer_done_same c : same_client c (timer_done c) /\ c_state (timer_done c) = after_timer (c_state c) /\
  c_throughput (timer_done c) = c_throughput c.
Proof.
  unfold timer_done. destruct (c_state c); try done.
  destruct (rest_same (c_set_state c (after_timer IPA_PM_ACTIVATED_PENDING_DEACTIVATION))) as (R & ? & ? & _). done.
Qed.

Lemma timer_done_awake c : c_group c = IPA_PM_GROUP_APPS -> c_skip_clk_vote c = false -> timed (c_state c) = true ->
  c_awake c = IPA_PM_STATE_ACTIVE (c_state c) -> c_awake (timer_done c) = IPA_PM_STATE_ACTIVE (c_state (timer_done c)).
Proof.
  intros Hg Hs Ht Ha. unfold timer_done, rest. destruct (c_state c); try done; cbn; try done.
  by rewrite Hs, Hg.
Qed.

Lemma timer_done_ok v p c q r ts bits : pm_ok v -> live v p c -> v_queue v = WorkDeactivate p :: q -> length bits = 2%nat ->
  ts = (if decide (c_state c = IPA_PM_ACTIVATED_PENDING_RESCHEDULE) then v_timers v ++ [p] else v_timers v) ->
  (forall j, mask_bit bits j = if decide (j = c_hdl c) then IPA_PM_STATE_ACTIVE (c_state (timer_done c)) else mask_bit (v_bits v) j) ->
  let v' := mk_core (zset (v_heap v) p (Some (timer_done c))) (v_clients v) (v_pipes v) q ts r
    (v_exceptions v) bits (v_tputs v) (v_dummies v) in
  update v p c (timer_done c) v' /\ pm_ok v'.
Proof.
  intros Hok Hl Hq Hb Ets Hbits v'. destruct (timer_done_same c) as (Hs & Est & Et).
  destruct (ok_client v Hok p c Hl) as [C1 C2 C3 C4 C5 C6 C7 C8].
  assert (Hin : WorkDeactivate p ∈ v_queue v) by (rewrite Hq; constructor).
  assert (Hp : timed (c_state c) = true) by (apply C5; by right).
  assert (Hnt : p ∉ v_timers v) by (intros H; by apply (ok_one_timer v Hok p)).
  assert (Hnq : WorkDeactivate p ∉ q) by (by apply (item_notin v _ q Hok)).
  assert (Hts : NoDup ts /\ forall x, x <> p -> x ∈ ts <-> x ∈ v_timers v).
  { rewrite Ets. destruct (decide _); [|by split; [apply Hok|]]. split.
    - apply NoDup_app. split_and!; [apply Hok| |apply NoDup_singleton]. intros x Hx ->%list_elem_of_singleton. done.
    - intros x Hx. rewrite elem_of_app, list_elem_of_singleton. tauto. }
  assert (Hpt : p ∈ ts <-> c_state c = IPA_PM_ACTIVATED_PENDING_RESCHEDULE).
  { rewrite Ets. destruct (decide _) as [E|E]; [|tauto]. rewrite elem_of_app, list_elem_of_singleton. tauto. }
  assert (U : update v p c (timer_done c) v').
  { apply (item_update v p c (WorkDeactivate p) q); try done; [|by apply Hts..]. intros j Hj. by rewrite Hbits, decide_False. }
  split; [done|]. apply (update_ok v p c (timer_done c)); [done..|]. destruct Hs as (Eh & _ & Eg & Ek & _).
  split; cbn; rewrite ?Eh, ?Eg, ?Ek, ?Et, ?Est; try done.
  - rewrite (item_in v _ q Hq), C4 by done. by destruct (c_state c).
  - rewrite Hpt. destruct (c_state c); try done; naive_solver.
  - by rewrite Hbits, decide_True, Est.
  - intros H. exfalso. by destruct (c_state c).
  - intros. rewrite <- Est. by apply timer_done_awake; auto.
Qed.

Lemma t_deactivate_work v p c q o (P : unit -> pmcore -> Z -> Prop) :
  pm_ok v -> live v p c -> v_queue v = WorkDeactivate p :: q -> 0 <= o ->
  (forall v', pm_ok v' -> update v p c (timer_done c) v' -> v_queue v' = q -> v_running v' = Some (WorkDeactivate p) ->
     P tt v' (o + votes v')) ->
  truns wait (delayed_deferred_deactivate_work_func p) (v_set_work v q (v_timers v) (Some (WorkDeactivate p)))
    (o + votes v) P.
Proof.
  intros Hok Hl Hq Ho HP. pose proof (ok_client v Hok p c Hl) as [C1 C2 C3 C4 C5 C6 C7 C8].
  assert (Hin : WorkDeactivate p ∈ v_queue v) by (rewrite Hq; constructor).
  assert (Hp : timed (c_state c) = true) by (apply C5; by right).
  assert (Hnt : p ∉ v_timers v) by (intros H; by apply (ok_one_timer v Hok p)).
  assert (Hnq : WorkDeactivate p ∉ q) by (by apply (item_notin v _ q Hok)).
  set (v1 := v_set_work v q (v_timers v) (Some (WorkDeactivate p))).
  assert (Hl1 : live v1 p c) by done. unfold delayed_deferred_deactivate_work_func.
  pose proof (timer_done_ok v p c q (Some (WorkDeactivate p))) as Hd.
  assert (Hsame : forall ts, ts = (if decide (c_state c = IPA_PM_ACTIVATED_PENDING_RESCHEDULE) then v_timers v ++ [p] else v_timers v) ->
    IPA_PM_STATE_ACTIVE (c_state (timer_done c)) = true ->
    P tt (v_set_work (v_put v1 p (timer_done c)) q ts (Some (WorkDeactivate p))) (o + votes v)).
  { intros ts Hts Ha. destruct (Hd ts (v_bits v)) as [U Hok']; [done..|apply Hok|done| |].
    { intros j. destruct (decide (j = c_hdl c)) as [->|]; [|done]. rewrite C6, Ha. by destruct (c_state c). }
    pose proof (update_votes _ _ _ _ _ U) as Ev. destruct (timer_done_same c) as ((_ & _ & _ & Ek & _) & _).
    unfold holds in Ev. rewrite Ha, Ek in Ev. replace (IPA_PM_STATE_ACTIVE (c_state c)) with true in Ev by (by destruct (c_state c)).
    replace (votes v) with (votes v - b2z (true && negb (c_skip_clk_vote c)) + b2z (true && negb (c_skip_clk_vote c))) by lia.
    rewrite <- Ev. by apply HP. }
  unfold timer_done in Hd, Hsame, HP. apply t_bind, t_sec, r_bind, r_cget with c; [done|].
  destruct (c_state c) eqn:Es; try done; cbn [after_timer] in *.
  - apply r_bind. unfold set_state. eapply r_cmod; [lv|]. apply r_ret. eapply t_bind, t_devote; [lv| |].
    { cbn. intros Hk. pose proof (votes_live v p c Hl). unfold holds in H. rewrite Es, Hk in H. specialize (H eq_refl). lia. }
    cbn [c_skip_clk_vote c_set_state]. rewrite v_put_put. eapply t_bind, t_sec, r_bind, r_cget; [lv|].
    destruct (rest_same (c_set_state c IPA_PM_DEACTIVATED)) as ((Eh & _ & _ & Ek & _) & E' & _).
    rewrite Eh. apply (r_mark (c_hdl c) false); [apply Hok|cbn; unfold IPA_PM_MAX_CLIENTS in *; lia|]. intros bits Hb Hbits.
    destruct (Hd (v_timers v) bits) as [U Hok']; [done..| |].
    { intros j. cbn in Hbits. by rewrite Hbits, E'. }
    pose proof (update_votes _ _ _ _ _ U) as Ev. unfold holds in Ev. rewrite E', Es, Ek in Ev. cbn in Ev.
    replace (o + votes v - b2z (negb (c_skip_clk_vote c))) with (o + (votes v - b2z (negb (c_skip_clk_vote c)) + 0)) by lia.
    rewrite <- Ev. apply t_bind, t_scaling; [done|]. by apply t_ret, HP.
  - apply r_bind. unfold set_state. eapply r_cmod; [lv|]. by apply r_ret, t_ret, Hsame.
  - apply r_bind, r_queue_delayed; [done..|]. apply r_bind. unfold set_state. eapply r_cmod; [done|]. by apply r_ret, t_ret, Hsame.
Qed.
End work.

(** * An item of the queue, and waiting for one

    [work_runs]: an item runs to its end and keeps the invariant.  [r_settle] is the rule
    for a call that waits: what it waits for must come with some item of the queue. *)

Section settle.
Context {K : Type} `{PW : PmWorks K}.

Lemma r_take w q v n (P : option pm_work -> pmcore -> Z -> Prop) : v_queue v = w :: q ->
  P (Some w) (v_set_work v q (v_timers v) (Some w)) n -> runs (K := K) take_work v n P.
Proof.
  intros Hq HP. unfold take_work. apply r_bind, r_xget. intros x _ _ Hx _ _ _ _ _. rewrite Hx, Hq.
  apply r_bind, (r_work (fun _ _ => false) (fun _ => q) id (fun _ => Some w)). by apply r_ret.
Qed.

Lemma r_done v n (P : unit -> pmcore -> Z -> Prop) :
  P tt (v_set_work v (v_queue v) (v_timers v) None) n -> runs (K := K) work_done v n P.
Proof. apply (r_work (fun _ _ => false) id id (fun _ => None)). Qed.

Lemma worked_update v p c c' v' w q : update v p c c' v' -> v_queue v = w :: q -> client_of w = Some p -> v_queue v' = q ->
  (w = WorkActivate p -> c_state c' = after_activate (c_state c) /\ c_complete c' = true) ->
  (w = WorkDeactivate p -> c_state c' = after_timer (c_state c)) ->
  worked v (v_set_work v' (v_queue v') (v_timers v') None).
Proof.
  intros U Hq Hw Hq' Ha Hd. pose proof (u_live _ _ _ _ _ U) as Hl.
  assert (Hl' : live v' p c') by (by rewrite (update_live _ _ _ _ _ _ _ U), decide_True).
  assert (Hc : forall d, live v p d -> d = c) by (unfold live in *; naive_solver). split; cbn; rewrite ?Hq; cbn.
  - destruct (update_kept _ _ _ _ _ U) as [Hk1 Hk2]. by split.
  - done.
  - done.
  - intros r d Hr Hne. change (live v' r d). rewrite (update_live _ _ _ _ _ _ _ U), decide_False; [done|]. congruence.
  - intros r d Hr [= ->]. cbn in Hw. injection Hw as ->. rewrite (Hc d Hr). exists c'. split; [exact Hl'|auto].
  - intros r d Hr [= ->]. cbn in Hw. injection Hw as ->. rewrite (Hc d Hr). exists c'. split; [exact Hl'|auto].
Qed.

Lemma work_runs v o : pm_ok v -> v_running v = None -> 0 <= o ->
  runs (K := K) work v (o + votes v) (fun _ v' n' => pm_ok v' /\ n' = o + votes v' /\
    match v_queue v with [] => v' = v | _ => worked v v' end).
Proof.
  intros Hok Hi Ho. apply (t_alone wait_never), (t_bind (K := K) wait_never (sec take_work)), t_sec. destruct (v_queue v) as [|w q] eqn:Hq.
  { unfold take_work. apply r_bind, r_xget. intros x _ _ Hx _ _ _ _ _. rewrite Hx, Hq. by apply r_ret, t_ret. }
  apply r_take with w q; [done|]. apply t_bind.
  assert (Hin : w ∈ v_queue v) by (rewrite Hq; constructor). destruct w as [p|p|]; cbn [work_func].
  - destruct (ok_works v Hok p) as [c Hc]; [by left|]. apply t_activate_work with c; [done..|].
    intros v' Hok' U Hq' _. apply t_sec, r_done. split_and!; [by apply ok_running|done|].
    destruct (activated_same c) as (_ & ? & _ & ?). by eapply worked_update.
  - destruct (ok_works v Hok p) as [c Hc]; [by right; left|]. apply t_deactivate_work with c; [done..|].
    intros v' Hok' U Hq' _. apply t_sec, r_done. split_and!; [by apply ok_running|done|].
    destruct (timer_done_same c) as (_ & ? & _). by eapply worked_update.
  - assert (Hok' : pm_ok (v_set_work v q (v_timers v) (Some WorkScale))).
    { apply ok_scale_work; [done| |done|]. { pose proof (ok_queue v Hok) as H. rewrite Hq in H. by apply NoDup_cons in H as [_ ?]. }
      intros p. by split; apply (item_in v _ q Hq). }
    unfold clock_scaling_func. apply t_bind, t_scaling; [done|]. apply t_ret, t_sec, r_done.
    split_and!; [by apply (ok_running _ None) in Hok'|done|]. split; cbn; rewrite ?Hq; try done.
    split; [done|]. intros p c Hc. by exists c.
Qed.

Lemma queued_at v (s : pmst * K) : at_core v s -> queued s = length (v_queue v).
Proof. intros [Hs _]. revert Hs. unfold core, queued. destruct (pm_ctx (fst s)); [|done]. by intros [= <-]. Qed.

Lemma r_settle (c : pmst * K -> bool) (cb : pmcore -> bool) (I : pmcore -> Prop) v o :
  (forall v s, at_core v s -> c s = cb v) -> 0 <= o -> pm_ok v -> v_running v = None -> I v ->
  (forall v, pm_ok v -> I v -> cb v = false ->
     v_queue v <> [] /\ forall v', pm_ok v' -> worked v v' -> I v') ->
  runs (settle c) v (o + votes v) (fun _ v' n' => pm_ok v' /\ v_running v' = None /\ I v' /\ cb v' = true /\ n' = o + votes v').
Proof.
  intros Hc Ho Hok Hi HI Hstep s Q Hs Hk HQ. unfold settle, wp. rewrite (queued_at v s Hs).
  remember (length (v_queue v)) as fuel eqn:Hf. revert v s Hok Hi HI Hs Hk Hf.
  induction fuel as [|fuel IH]; intros v s Hok Hi HI Hs Hk Hf; cbn [settle_n]; rewrite (Hc v s Hs); destruct (cb v) eqn:E;
    try (by eapply HQ); destruct (Hstep v Hok HI E) as [Hne Hnext].
  - by apply eq_sym, nil_length_inv in Hf.
  - apply (wp_bind work (fun _ => settle_n fuel c) Q s), (work_runs v o Hok Hi Ho s); [done..|].
    intros [] v' n' s' (Hok' & -> & Hw) Hs' Hk'. destruct (v_queue v) as [|w q] eqn:Hq; [done|].
    apply (IH v'); [done|apply Hw|by apply Hnext|done..|]. rewrite (w_queue _ _ Hw), Hq. cbn in *. lia.
Qed.

(** ** Waiting for a client *)
Definition v_completed (p : Z) (v : pmcore) : bool :=
  match zget (v_heap v) p with Some (Some c) => c_complete c | _ => true end.

Lemma completed_at p v (s : pmst * K) : at_core v s -> completed p s = v_completed p v.
Proof. intros [Hs _]. revert Hs. unfold core, completed, v_completed. destruct (pm_ctx (fst s)); [|done]. by intros [= <-]. Qed.

Lemma r_completed p c v o (P : unit -> pmcore -> Z -> Prop) :
  pm_ok v -> v_running v = None -> 0 <= o -> live v p c -> IPA_PM_STATE_IN_PROGRESS (c_state c) = true ->
  (forall v' c', pm_ok v' -> v_running v' = None -> kept v v' -> live v' p c' -> same_client c c' ->
     c_state c' = after_activate (c_state c) -> P tt v' (o + votes v')) ->
  runs (settle (completed p)) v (o + votes v) P.
Proof.
  intros Hok Hi Ho Hl Hp HP.
  eapply runs_weaken; [apply (r_settle _ (v_completed p) (fun v' => kept v v' /\ exists c', live v' p c' /\ same_client c c' /\
    (c_state c' = c_state c \/ (c_state c' = after_activate (c_state c) /\ c_complete c' = true))))|].
  - apply completed_at.
  - done.
  - done.
  - done.
  - split; [reflexivity|]. exists c. split_and!; [done..|by left].
  - intros w Hw (Hk & d & Hd & Hs & Hst) Hc. unfold v_completed in Hc. rewrite Hd in Hc.
    destruct Hst as [Hst|[_ Hst]]; [|congruence]. rewrite <- Hst in Hp.
    assert (Hin : WorkActivate p ∈ v_queue w) by (by apply (ok_client w Hw p d Hd)).
    split; [by intros E; rewrite E in Hin; apply elem_of_nil in Hin|].
    intros w' Hw' W. split; [by etrans; [|apply W]|].
    destruct (k_fwd _ _ (w_kept _ _ W) p d Hd) as (e & He & Hse).
    assert (Hsce : same_client c e).
    { unfold same_client in *. destruct Hs as (? & ? & ? & ? & ? & ?), Hse as (? & ? & ? & ? & ? & ?). split_and!; congruence. }
    exists e. split_and!; [done..|]. destruct (decide (head (v_queue w) = Some (WorkActivate p))) as [Eh|Eh].
    + right. destruct (w_activate _ _ W p d Hd Eh) as (e' & He' & Hst' & Hco).
      assert (e' = e) as -> by (unfold live in *; congruence). by rewrite Hst', Hst.
    + left. assert (live w' p d); [|unfold live in *; congruence]. apply (w_other _ _ W); [done|].
      destruct (v_queue w) as [|[q|q|] l] eqn:Eq; cbn in *; try congruence. intros [= ->].
      assert (Ht : timed (c_state d) = true); [|by destruct (c_state d)].
      apply (ok_client w Hw p d Hd). right. rewrite Eq. constructor.
  - intros [] v' n' (Hok' & Hi' & (Hk & d & Hd & Hs & Hst) & Hc & ->). unfold v_completed in Hc. rewrite Hd in Hc.
    apply (HP v' d); try done. destruct Hst as [Hst|[Hst _]]; [|done]. rewrite <- Hst in Hp.
    rewrite (co_wait _ _ _ (ok_client v' Hok' p d Hd)) in Hc by done. done.
Qed.

Lemma not_running_at w v (s : pmst * K) : v_running v = None -> at_core v s -> not_running w s = true.
Proof.
  unfold core, not_running. intros Hi [Hs _]. unfold core in Hs. destruct (pm_ctx (fst s)) as [x|]; [|done]. injection Hs as <-. cbn in Hi.
  by rewrite Hi.
Qed.

(** ** The whole queue *)
Definition drained_state (v : pmcore) (p : Z) (st : ipa_pm_state) : ipa_pm_state :=
  if bool_decide (WorkActivate p ∈ v_queue v) then after_activate st
  else if bool_decide (WorkDeactivate p ∈ v_queue v) then after_timer st
  else st.
End settle.
