(* ===== verification/PmCalls.v ===== *)
(** * The calls of the power manager on a client

    Activation, deactivation, throughput, pipes and wake-up keep the invariant; each call
    has a rule that says what it leaves. *)

From Stdlib Require Import ZArith Lia Ascii String.
From stdpp Require Import prelude list numbers strings.
From S2P Require Import Prelude StWp Act PmState PmClk IpaPm PmInv PmRules PmSeq PmWork.

Local Open Scope Z_scope.

(** * The calls of the power manager on a client keep its invariant

    [change_ok] is a change of one client with its work, its timer and its bit; the calls
    that activate and deactivate are made of it.  Each has a rule that says what it leaves. *)

(** The state after a client has changed. *)
Definition v_upd (v : pmcore) (p : Z) (c' : ipa_pm_client) (q : list pm_work) (ts : list Z) (bits : list Z) : pmcore :=
  mk_core (zset (v_heap v) p (Some c')) (v_clients v) (v_pipes v) q ts (v_running v) (v_exceptions v) bits
    (v_tputs v) (v_dummies v).

(** The work of the other clients stays. *)
Definition others_same (v : pmcore) (p : Z) (q : list pm_work) (ts : list Z) : Prop := forall x, x <> p ->
  (WorkActivate x ∈ q <-> WorkActivate x ∈ v_queue v) /\ (WorkDeactivate x ∈ q <-> WorkDeactivate x ∈ v_queue v) /\
  (x ∈ ts <-> x ∈ v_timers v).

(** The client's own fields agree with each other and with its work. *)
Record settled (c' : ipa_pm_client) (p : Z) (q : list pm_work) (ts bits : list Z) : Prop := {
  se_act : WorkActivate p ∈ q <-> IPA_PM_STATE_IN_PROGRESS (c_state c') = true;
  se_timer : p ∈ ts \/ WorkDeactivate p ∈ q <-> timed (c_state c') = true;
  se_one : p ∈ ts -> WorkDeactivate p ∈ q -> False;
  se_bit : mask_bit bits (c_hdl c') = IPA_PM_STATE_ACTIVE (c_state c');
  se_wait : IPA_PM_STATE_IN_PROGRESS (c_state c') = true -> c_complete c' = false;
  se_awake : c_group c' = IPA_PM_GROUP_APPS -> c_skip_clk_vote c' = false ->
    c_awake c' = IPA_PM_STATE_ACTIVE (c_state c') }.

Section calls.
Context {K : Type} `{PW : PmWorks K}.

Lemma change_ok v p c c' q ts bits : pm_ok v -> live v p c -> same_client c c' -> 0 <= c_throughput c' <= TPUT_MAX ->
  NoDup q -> NoDup ts -> others_same v p q ts -> length bits = 2%nat ->
  (forall j, j <> c_hdl c -> mask_bit bits j = mask_bit (v_bits v) j) -> settled c' p q ts bits ->
  update v p c c' (v_upd v p c' q ts bits) /\ pm_ok (v_upd v p c' q ts bits).
Proof.
  intros Hok Hl Hs Ht Hq Hts Ho Hb Hbits [S1 S2 S3 S4 S5 S6].
  assert (U : update v p c c' (v_upd v p c' q ts bits)) by (by split).
  split; [done|]. apply (update_ok v p c c'); [done..|]. destruct (ok_client v Hok p c Hl) as [C1 C2 _ _ _ _ _ _].
  destruct Hs as (Eh & _). split; cbn; try done; by rewrite Eh.
Qed.

(** A live client's own facts. *)
Lemma live_settled v p c : pm_ok v -> live v p c -> settled c p (v_queue v) (v_timers v) (v_bits v).
Proof. intros Hok Hl. destruct (ok_client v Hok p c Hl). split; try done. apply (ok_one_timer v Hok). Qed.

Lemma others_refl v p : others_same v p (v_queue v) (v_timers v).
Proof. done. Qed.

(** Another state of the same kind. *)
Lemma restate_ok v p c st : pm_ok v -> live v p c ->
  IPA_PM_STATE_IN_PROGRESS st = IPA_PM_STATE_IN_PROGRESS (c_state c) -> timed st = timed (c_state c) ->
  IPA_PM_STATE_ACTIVE st = IPA_PM_STATE_ACTIVE (c_state c) ->
  update v p c (c_set_state c st) (v_put v p (c_set_state c st)) /\ pm_ok (v_put v p (c_set_state c st)).
Proof.
  intros Hok Hl H1 H2 H3. destruct (live_settled v p c Hok Hl) as [S1 S2 S3 S4 S5 S6].
  apply (change_ok v p c (c_set_state c st) (v_queue v) (v_timers v) (v_bits v)); try done; try apply Hok.
  - by apply (ok_client v Hok p c).
  - by split; cbn; rewrite ?H1, ?H2, ?H3.
Qed.

Lemma restate_votes v p c st v' : update v p c (c_set_state c st) v' ->
  IPA_PM_STATE_ACTIVE st = IPA_PM_STATE_ACTIVE (c_state c) -> votes v' = votes v.
Proof. intros U E. rewrite (update_votes _ _ _ _ _ U). unfold holds. cbn. rewrite E. lia. Qed.

(** The queue without the client's timer. *)
Lemma cancel_other v p : others_same v p (v_queue (v_cancel v p)) (v_timers (v_cancel v p)).
Proof.
  intros x Hx. rewrite !cancel_work, cancel_timer. split_and!; [|split; [tauto|]|tauto].
  - split; [tauto|]. by intros.
  - intros H. split; [|done]. congruence.
Qed.

Lemma cancel_nodup v p : pm_ok v -> NoDup (v_queue (v_cancel v p)) /\ NoDup (v_timers (v_cancel v p)).
Proof. intros Hok. split; apply nodup_filtered; apply Hok. Qed.

Lemma cancel_act v p x : WorkActivate x ∈ v_queue (v_cancel v p) <-> WorkActivate x ∈ v_queue v.
Proof. rewrite cancel_work. split; [tauto|]. by intros. Qed.

Lemma cancel_none v p : ~ (p ∈ v_timers (v_cancel v p) \/ WorkDeactivate p ∈ v_queue (v_cancel v p)).
Proof. rewrite cancel_work, cancel_timer. tauto. Qed.

Lemma live_cancel v p q c : live (v_cancel v p) q c <-> live v q c.
Proof. done. Qed.

(** A client without a timer: nothing is cancelled. *)
Lemma cancel_ok v p c : pm_ok v -> live v p c -> timed (c_state c) = false -> pm_ok (v_cancel v p).
Proof.
  intros Hok Hl Ht. destruct (cancel_nodup v p Hok) as [N1 N2]. destruct (live_settled v p c Hok Hl) as [S1 S2 S3 S4 S5 S6].
  destruct (change_ok v p c c (v_queue (v_cancel v p)) (v_timers (v_cancel v p)) (v_bits v)) as [_ H]; try done; try apply Hok.
  - by apply (ok_client v Hok p c).
  - apply cancel_other.
  - split; try done; [by rewrite cancel_act| |by intros H _; apply (cancel_none v p); left].
    split; [intros H; by apply cancel_none in H|congruence].
  - unfold v_upd in H. rewrite zset_same in H by done. exact H.
Qed.

(** ** The end of a call *)
Definition over (o : Z) (v : pmcore) (n : Z) : Prop := pm_ok v /\ v_running v = None /\ n = o + votes v.

#[local] Notation T := (act (pmst * K)).

Lemma t_ctx (t : T Z) v n P : truns settle t v n P -> truns settle (with_ctx t) v n P.
Proof. intros H. unfold with_ctx. apply t_bind, t_sec, r_pget. by intros s x -> _. Qed.

Lemma at_hdl v hdl : pm_ok v -> 0 <= hdl -> (hdl >=? IPA_PM_MAX_CLIENTS) = false ->
  exists o, zget (v_clients v) hdl = Some o /\ match o with Some p => exists c, live v p c /\ c_hdl c = hdl | None => True end.
Proof.
  intros Hok Hh Hlt. rewrite Z.geb_leb in Hlt. zify_bool.
  destruct (zget_lt_Some (v_clients v) hdl) as [o Ho]; [pose proof (ok_clients_len v Hok); lia|].
  exists o. split; [done|]. destruct o as [p|]; [|done]. by apply (ok_clients v Hok).
Qed.

Lemma t_client hdl (f : Z -> T Z) v n (P : Z -> pmcore -> Z -> Prop) : pm_ok v -> 0 <= hdl -> P (- EINVAL) v n ->
  (forall p c, live v p c -> c_hdl c = hdl -> zget (v_clients v) hdl = Some (Some p) -> truns settle (f p) v n P) ->
  truns settle (with_client hdl f) v n P.
Proof.
  intros Hok Hh He HP. unfold with_client. apply t_ctx. destruct (hdl >=? IPA_PM_MAX_CLIENTS) eqn:E; [by apply t_ret|].
  destruct (at_hdl v hdl Hok Hh E) as (o & Ho & Hl). apply t_bind, t_sec, r_client_at with o; [done|].
  destruct o as [p|]; [|by apply t_ret]. destruct Hl as (c & Hl & Hc). by eapply HP.
Qed.

Lemma r_set_state p c st v n (P : unit -> pmcore -> Z -> Prop) : live v p c -> P tt (v_put v p (c_set_state c st)) n ->
  runs (K := K) (set_state p st) v n P.
Proof. intros. by apply r_cmod with c. Qed.
End calls.

(** * Activation and deactivation

    What each call leaves of its client, and that it ends.  [over o v n]: the invariant
    holds, nothing runs, and the votes are those of the clients and of others. *)

(** Where a call leaves its client. *)
Definition leaves (p : Z) (c : ipa_pm_client) (v' : pmcore) (st : ipa_pm_state) : Prop :=
  exists c', live v' p c' /\ same_client c c' /\ c_state c' = st.

Section active.
Context {K : Type} `{PW : PmWorks K}.
#[local] Notation T := (act (pmst * K)).

Lemma over_update o v p c c' v' n : pm_ok v' -> update v p c c' v' -> v_running v' = None ->
  n = o + votes v - b2z (holds c) + b2z (holds c') -> over o v' n.
Proof. intros Hok U Hi ->. split_and!; [done..|]. rewrite (update_votes _ _ _ _ _ U). lia. Qed.

Lemma queue_scale_ok v r : pm_ok v ->
  pm_ok (if bool_decide (WorkScale ∈ v_queue v) then v else v_set_work v (v_queue v ++ [WorkScale]) (v_timers v) r).
Proof.
  intros Hok. case_bool_decide; [done|]. apply ok_scale_work; [done| |done|].
  - apply NoDup_app. split_and!; [apply Hok| |apply NoDup_singleton]. intros x Hx ->%list_elem_of_singleton. done.
  - intros p. rewrite !elem_of_app, !list_elem_of_singleton. naive_solver.
Qed.

Definition wake (c : ipa_pm_client) : ipa_pm_client :=
  if decide (c_group c = IPA_PM_GROUP_APPS) then c_set_awake c true else c.

Lemma wake_same c : same_client c (wake c) /\ c_state (wake c) = c_state c /\ c_throughput (wake c) = c_throughput c /\
  (c_group c = IPA_PM_GROUP_APPS -> c_awake (wake c) = true).
Proof. unfold wake. by destruct (decide _). Qed.

(** From a client without votes to an active one. *)
Lemma activate_ok v p c bits : pm_ok v -> live v p c -> c_state c = IPA_PM_DEACTIVATED -> length bits = 2%nat ->
  (forall j, mask_bit bits j = if decide (j = c_hdl c) then true else mask_bit (v_bits v) j) ->
  let c' := wake (c_set_state c IPA_PM_ACTIVATED) in
  update v p c c' (v_upd v p c' (v_queue v) (v_timers v) bits) /\ pm_ok (v_upd v p c' (v_queue v) (v_timers v) bits).
Proof.
  intros Hok Hl Hst Hb Hbits c'. destruct (wake_same (c_set_state c IPA_PM_ACTIVATED)) as (Hs & Est & Et & Ea).
  destruct (live_settled v p c Hok Hl) as [S1 S2 S3 S4 S5 S6]. rewrite Hst in *.
  apply change_ok; try done; try apply Hok.
  - subst c'. rewrite Et. by apply (ok_client v Hok p c).
  - intros j Hj. by rewrite Hbits, decide_False.
  - subst c'. pose proof Hs as (Eh & _ & Eg & _). split; rewrite ?Est, ?Eh; try done.
    + by rewrite Hbits, decide_True.
    + intros Hg _. apply Ea. by rewrite <- Eg.
Qed.

Lemma r_got_clocks wait v p c x sync o (P : Z -> pmcore -> Z -> Prop) :
  pm_ok v -> v_running v = None -> live v p c -> c_state c = IPA_PM_DEACTIVATED ->
  c_set_state x IPA_PM_ACTIVATED = c_set_state c IPA_PM_ACTIVATED ->
  (forall v' c', over o v' (o + votes v') -> kept v v' -> live v' p c' -> same_client c c' -> c_state c' = IPA_PM_ACTIVATED ->
     c_complete c' = c_complete c -> P 0 v' (o + votes v')) ->
  runs (got_clocks p sync) (v_put v p x) (o + votes v + b2z (negb (c_skip_clk_vote c)))
    (fun t v' n' => truns wait t v' n' P).
Proof.
  intros Hok Hi Hl Hst Hx HP. pose proof (ok_client v Hok p c Hl) as C. unfold got_clocks.
  assert (Hlx : live (v_put v p x) p x) by lv.
  apply r_bind. eapply r_set_state; [lv|]. rewrite Hx, v_put_put. apply r_bind. eapply r_cget; [lv|].
  apply r_bind. set (c1 := c_set_state c IPA_PM_ACTIVATED).
  assert (Hgo : runs (K := K) (mret (_ ← sec (c ← cget p; activate_client (c_hdl c));
      if sync then _ ← do_clk_scaling; Ret 0 else _ ← sec (queue_work WorkScale); Ret 0) : St (pmst * K) (T Z))
      (v_put v p (wake c1)) (o + votes v + b2z (negb (c_skip_clk_vote c))) (fun t v' n' => truns wait t v' n' P)).
  { destruct (wake_same c1) as (Hs1 & Est & _ & _). pose proof Hs1 as (Eh & _ & _ & Ek & _).
    apply r_ret, t_bind, t_sec, r_bind. eapply r_cget; [lv|]. rewrite Eh.
    apply (r_mark (c_hdl c) true); [apply Hok|pose proof (co_hdl _ _ _ C); unfold IPA_PM_MAX_CLIENTS in *; lia|].
    intros bits Hb Hbits. destruct (activate_ok v p c bits) as [U Hok']; [done..|].
    change (v_set_bits (v_put v p (wake c1)) bits) with (v_upd v p (wake c1) (v_queue v) (v_timers v) bits).
    fold c1 in U, Hok'. set (w := v_upd v p (wake c1) (v_queue v) (v_timers v) bits) in *.
    assert (Ew : o + votes v + b2z (negb (c_skip_clk_vote c)) = o + votes w).
    { rewrite (update_votes _ _ _ _ _ U). unfold holds. rewrite Est, Ek, Hst. cbn. lia. }
    rewrite Ew. assert (Hlw : live w p (wake c1)) by (by rewrite (update_live _ _ _ _ _ _ _ U), decide_True).
    pose proof (update_kept _ _ _ _ _ U) as Hkw.
    assert (Hsc : same_client c (wake c1)) by exact Hs1.
    assert (Hcc : c_complete (wake c1) = c_complete c) by (unfold wake; by destruct (decide _)).
    destruct sync.
    - apply t_bind, t_scaling; [done|]. apply t_ret, (HP w (wake c1)); [by split_and!|done..].
    - apply t_bind, t_sec, r_queue, t_ret. pose proof (queue_scale_ok w (v_running w) Hok') as Hok2.
      case_bool_decide; [apply (HP w (wake c1)); [by split_and!|done..]|].
      apply (HP (v_set_work w (v_queue w ++ [WorkScale]) (v_timers w) (v_running w)) (wake c1)); try done.
      destruct Hkw as [? ?]. by split. }
  unfold wake in Hgo. change (c_group c1) with (c_group c) in *. destruct (decide (c_group c = IPA_PM_GROUP_APPS)) as [E|E].
  - eapply r_cmod; [lv|]. by rewrite v_put_put.
  - by apply r_ret.
Qed.

(** ** Activation *)
(** The results of an activation: done, or left to the worker. *)
Definition activation (sync : bool) (r : Z) (st : ipa_pm_state) : Prop :=
  (r = 0 /\ (st = IPA_PM_ACTIVATED \/ st = IPA_PM_ACTIVATED_TIMER_SET)) \/ (sync = false /\ r = - EINPROGRESS /\ st = IPA_PM_ACTIVATE_IN_PROGRESS).

Lemma queue_activate_ok v p c : pm_ok v -> live v p c -> c_state c = IPA_PM_DEACTIVATED ->
  let c' := c_set_complete (c_set_state c IPA_PM_ACTIVATE_IN_PROGRESS) false in
  update v p c c' (v_upd v p c' (v_queue v ++ [WorkActivate p]) (v_timers v) (v_bits v)) /\
  pm_ok (v_upd v p c' (v_queue v ++ [WorkActivate p]) (v_timers v) (v_bits v)).
Proof.
  intros Hok Hl Hst c'. destruct (live_settled v p c Hok Hl) as [S1 S2 S3 S4 S5 S6]. rewrite Hst in *.
  assert (Hin : WorkActivate p ∉ v_queue v) by (rewrite S1; done).
  apply change_ok; try done; try apply Hok.
  - by apply (ok_client v Hok p c).
  - apply NoDup_app. split_and!; [apply Hok| |apply NoDup_singleton]. by intros x Hx ->%list_elem_of_singleton.
  - intros x Hx. rewrite !elem_of_app, !list_elem_of_singleton. split_and!; [split; [|tauto]..|done]; intros [|]; congruence.
  - split; cbn; try done.
    + rewrite elem_of_app, list_elem_of_singleton. tauto.
    + rewrite elem_of_app, list_elem_of_singleton. rewrite <- S2. split; [|tauto]. intros [|[|]]; [tauto..|congruence].
    + rewrite elem_of_app, list_elem_of_singleton. intros H [|]; [tauto|congruence].
Qed.

Lemma r_helper_vote v p c sync o (P : Z -> pmcore -> Z -> Prop) :
  pm_ok v -> v_running v = None -> live v p c -> c_state c = IPA_PM_DEACTIVATED ->
  (forall r v' st, over o v' (o + votes v') -> kept v v' -> leaves p c v' st -> activation sync r st -> P r v' (o + votes v')) ->
  runs (helper_vote p sync) v (o + votes v) (fun t v' n' => truns settle t v' n' P).
Proof.
  intros Hok Hi Hl Hst HP. unfold helper_vote.
  assert (Hact : forall v' c', over o v' (o + votes v') -> kept v v' -> live v' p c' -> same_client c c' ->
    c_state c' = IPA_PM_ACTIVATED -> c_complete c' = c_complete c -> P 0 v' (o + votes v')).
  { intros v' c' Ho Hk Hl' Hs Hst' _. apply (HP 0 v' IPA_PM_ACTIVATED); [done..|by exists c'|by left; auto]. }
  pose proof (r_got_clocks settle v p c c sync o P Hok Hi Hl Hst eq_refl Hact) as Hgot. rewrite (put_same v p c Hl) in Hgot.
  apply r_bind, r_cget with c; [done|]. destruct (c_skip_clk_vote c) eqn:Ek; [by rewrite Z.add_0_r in Hgot|].
  destruct sync.
  - apply r_bind. eapply r_set_state; [done|]. apply r_ret, t_bind, t_inc, t_section.
    pose proof (r_got_clocks settle v p c (c_set_state c IPA_PM_ACTIVATE_IN_PROGRESS) true o P Hok Hi Hl Hst eq_refl Hact) as H.
    by rewrite Ek in H.
  - apply r_bind, r_no_block; [exact Hgot|]. cbn [Z.eqb Z.opp EPERM].
    apply r_bind. eapply r_set_state; [done|]. apply r_bind. eapply r_cmod; [lv|]. rewrite v_put_put.
    apply r_bind, r_queue. destruct (queue_activate_ok v p c Hok Hl Hst) as [U Hok'].
    rewrite bool_decide_false; [|cbn; rewrite (co_act _ _ _ (ok_client v Hok p c Hl)), Hst; done].
    set (w := v_upd _ _ _ _ _ _) in *.
    replace (o + votes v) with (o + votes w) by (rewrite (update_votes _ _ _ _ _ U); unfold holds; cbn; rewrite Hst; cbn; lia).
    apply r_ret, t_ret, (HP _ w IPA_PM_ACTIVATE_IN_PROGRESS).
    + by split_and!.
    + by eapply update_kept.
    + eexists. rewrite (update_live _ _ _ _ _ _ _ U), decide_True by done. split_and!; [done|done|done].
    + by right.
Qed.

Lemma leaves_same p c v : live v p c -> leaves p c v (c_state c).
Proof. by exists c. Qed.

Lemma leaves_update v p c c' v' : update v p c c' v' -> leaves p c v' (c_state c').
Proof.
  intros U. exists c'. rewrite (update_live _ _ _ _ _ _ _ U), decide_True by done. split_and!; [done| |done].
  apply (u_same _ _ _ _ _ U).
Qed.

Lemma r_helper_switch v p c sync o (P : Z -> pmcore -> Z -> Prop) :
  pm_ok v -> v_running v = None -> live v p c -> IPA_PM_STATE_IN_PROGRESS (c_state c) = false ->
  (forall r v' st, over o v' (o + votes v') -> kept v v' -> leaves p c v' st -> activation sync r st -> P r v' (o + votes v')) ->
  runs (helper_switch p sync) v (o + votes v) (fun t v' n' => truns settle t v' n' P).
Proof.
  intros Hok Hi Hl Hp HP. unfold helper_switch. apply r_bind, r_cget with c; [done|].
  assert (Hsame : c_state c = IPA_PM_ACTIVATED \/ c_state c = IPA_PM_ACTIVATED_TIMER_SET -> truns settle (Ret 0) v (o + votes v) P).
  { intros Ha. apply t_ret, (HP 0 v (c_state c)); [done|done|by apply leaves_same|by left]. }
  assert (Hset : timed (c_state c) = true -> runs (K := K) (_ ← set_state p IPA_PM_ACTIVATED_TIMER_SET; mret (Ret 0 : T Z)) v (o + votes v)
    (fun t v' n' => truns settle t v' n' P)).
  { intros Ht. destruct (restate_ok v p c IPA_PM_ACTIVATED_TIMER_SET Hok Hl) as [U Hok']; [by destruct (c_state c)..|].
    apply r_bind. eapply r_set_state; [done|]. rewrite <- (restate_votes _ _ _ _ _ U) by (by destruct (c_state c)).
    apply r_ret, t_ret, (HP 0 _ IPA_PM_ACTIVATED_TIMER_SET); [done|by eapply update_kept| |by left; auto].
    by apply (leaves_update _ _ _ _ _ U). }
  destruct (c_state c) eqn:Hst; try done; [|by apply r_ret, Hsame; auto|by apply Hset|by apply r_ret, Hsame; auto|by apply Hset].
  by apply r_helper_vote with c.
Qed.

Lemma kept_same_trans p c c' v' st : same_client c c' -> leaves p c' v' st -> leaves p c v' st.
Proof.
  intros S1 (d & Hd & S2 & Hst). exists d. split_and!; [done| |done]. unfold same_client in *.
  destruct S1 as (? & ? & ? & ? & ? & ?), S2 as (? & ? & ? & ? & ? & ?). split_and!; congruence.
Qed.

Lemma t_activate_helper v p c sync o (P : Z -> pmcore -> Z -> Prop) :
  pm_ok v -> v_running v = None -> 0 <= o -> live v p c ->
  (forall r v' st, over o v' (o + votes v') -> kept v v' -> leaves p c v' st -> activation sync r st -> P r v' (o + votes v')) ->
  truns settle (ipa_pm_activate_helper p sync) v (o + votes v) P.
Proof.
  intros Hok Hi Ho Hl HP. unfold ipa_pm_activate_helper. apply t_section, r_bind, r_cget with c; [done|].
  destruct (IPA_PM_STATE_IN_PROGRESS (c_state c)) eqn:Hp; [|by apply r_helper_switch with c]. destruct sync.
  - apply r_ret, t_await, (r_completed p c); [done..|]. intros v1 c1 Hok1 Hi1 Hk1 Hl1 Hs1 Hst1.
    apply t_section, (r_helper_switch v1 p c1); [done..|by rewrite Hst1; destruct (c_state c)|].
    intros r v' st Hov Hk Hle Hac. apply (HP r v' st); [done|by etrans| |done]. by eapply kept_same_trans.
  - destruct (restate_ok v p c IPA_PM_ACTIVATE_IN_PROGRESS Hok Hl) as [U Hok']; [by destruct (c_state c)..|].
    apply r_bind. eapply r_set_state; [done|]. rewrite <- (restate_votes _ _ _ _ _ U) by (by destruct (c_state c)).
    apply r_ret, t_ret, (HP _ _ IPA_PM_ACTIVATE_IN_PROGRESS); [done|by eapply update_kept| |by right].
    by apply (leaves_update _ _ _ _ _ U).
Qed.
End active.

(** * Deactivation, deferred and at once *)

Definition defer_state (st : ipa_pm_state) : ipa_pm_state :=
  match st with
  | IPA_PM_ACTIVATE_IN_PROGRESS => IPA_PM_DEACTIVATE_IN_PROGRESS
  | IPA_PM_ACTIVATED => IPA_PM_ACTIVATED_PENDING_DEACTIVATION
  | IPA_PM_ACTIVATED_TIMER_SET | IPA_PM_ACTIVATED_PENDING_DEACTIVATION => IPA_PM_ACTIVATED_PENDING_RESCHEDULE
  | st => st
  end.

Section deact.
Context {K : Type} `{PW : PmWorks K}.
#[local] Notation T := (act (pmst * K)).

Lemma timer_ok v p c : pm_ok v -> live v p c -> c_state c = IPA_PM_ACTIVATED ->
  let c' := c_set_state c IPA_PM_ACTIVATED_PENDING_DEACTIVATION in
  update v p c c' (v_upd v p c' (v_queue v) (v_timers v ++ [p]) (v_bits v)) /\
  pm_ok (v_upd v p c' (v_queue v) (v_timers v ++ [p]) (v_bits v)).
Proof.
  intros Hok Hl Hst c'. destruct (live_settled v p c Hok Hl) as [S1 S2 S3 S4 S5 S6]. rewrite Hst in *.
  assert (Hn : ~ (p ∈ v_timers v \/ WorkDeactivate p ∈ v_queue v)) by (rewrite S2; done).
  apply change_ok; try done; try apply Hok.
  - by apply (ok_client v Hok p c).
  - apply NoDup_app. split_and!; [apply Hok| |apply NoDup_singleton]. intros x Hx ->%list_elem_of_singleton. tauto.
  - intros x Hx. rewrite elem_of_app, list_elem_of_singleton. split_and!; [done..|tauto].
  - split; cbn; try done; rewrite elem_of_app, list_elem_of_singleton; tauto.
Qed.

Lemma t_deferred v p c o (P : Z -> pmcore -> Z -> Prop) :
  pm_ok v -> v_running v = None -> live v p c ->
  (forall v', over o v' (o + votes v') -> kept v v' -> leaves p c v' (defer_state (c_state c)) -> P 0 v' (o + votes v')) ->
  truns settle (sec (c ← cget p;
         match c_state c with
         | IPA_PM_ACTIVATE_IN_PROGRESS => _ ← set_state p IPA_PM_DEACTIVATE_IN_PROGRESS; mret 0
         | IPA_PM_DEACTIVATED => mret 0
         | IPA_PM_ACTIVATED =>
             _ ← set_state p IPA_PM_ACTIVATED_PENDING_DEACTIVATION;
             _ ← queue_delayed_work p; mret 0
         | IPA_PM_ACTIVATED_TIMER_SET | IPA_PM_ACTIVATED_PENDING_DEACTIVATION =>
             _ ← set_state p IPA_PM_ACTIVATED_PENDING_RESCHEDULE; mret 0
         | IPA_PM_DEACTIVATE_IN_PROGRESS | IPA_PM_ACTIVATED_PENDING_RESCHEDULE => mret 0
         end) : T Z) v (o + votes v) P.
Proof.
  intros Hok Hi Hl HP. apply t_sec, r_bind, r_cget with c; [done|].
  assert (Hsame : defer_state (c_state c) = c_state c -> P 0 v (o + votes v)).
  { intros E. apply HP; [done|done|]. rewrite E. by apply leaves_same. }
  assert (Hset : forall st, st = defer_state (c_state c) -> IPA_PM_STATE_IN_PROGRESS st = IPA_PM_STATE_IN_PROGRESS (c_state c) ->
    timed st = timed (c_state c) -> IPA_PM_STATE_ACTIVE st = IPA_PM_STATE_ACTIVE (c_state c) ->
    runs (K := K) (_ ← set_state p st; mret 0) v (o + votes v) P).
  { intros st Est H1 H2 H3. destruct (restate_ok v p c st Hok Hl) as [U Hok']; [done..|].
    apply r_bind. eapply r_set_state; [done|]. rewrite <- (restate_votes _ _ _ _ _ U) by done.
    apply r_ret, HP; [done|by eapply update_kept|]. rewrite <- Est. by apply (leaves_update _ _ _ _ _ U). }
  destruct (c_state c) eqn:Hst; try (by apply r_ret, Hsame); try (by apply Hset).
  destruct (timer_ok v p c Hok Hl Hst) as [U Hok']. destruct (live_settled v p c Hok Hl) as [S1 S2 S3 S4 S5 S6].
  assert (Hn : ~ (p ∈ v_timers v \/ WorkDeactivate p ∈ v_queue v)) by (rewrite S2, Hst; done).
  apply r_bind. eapply r_set_state; [done|]. apply r_bind, r_queue_delayed; [tauto..|]. apply r_ret.
  rewrite <- (restate_votes _ _ _ _ _ U) by (by rewrite Hst).
  set (w := v_upd _ _ _ _ _ _) in *. apply (HP w); [done|by eapply update_kept|by apply (leaves_update _ _ _ _ _ U)].
Qed.

(** ** At once *)
Lemma t_cancel wait p v n (P : unit -> pmcore -> Z -> Prop) : v_running v = None ->
  P tt (v_cancel v p) n -> truns wait (cancel_delayed_work_sync p : T unit) v n P.
Proof.
  intros Hi HP. unfold cancel_delayed_work_sync. apply t_bind, t_sec, r_cancel, t_pass; [|by apply t_ret].
  intros s. by apply not_running_at.
Qed.

(** The client gives its vote back. *)
Lemma off_ok v p c q ts bits : pm_ok v -> live v p c -> IPA_PM_STATE_IN_PROGRESS (c_state c) = false ->
  NoDup q -> NoDup ts -> others_same v p q ts -> ~ (p ∈ ts \/ WorkDeactivate p ∈ q) ->
  (WorkActivate p ∈ q <-> WorkActivate p ∈ v_queue v) -> length bits = 2%nat ->
  (forall j, mask_bit bits j = if decide (j = c_hdl c) then false else mask_bit (v_bits v) j) ->
  let c' := c_set_state (rest c) IPA_PM_DEACTIVATED in
  update v p c c' (v_upd v p c' q ts bits) /\ pm_ok (v_upd v p c' q ts bits).
Proof.
  intros Hok Hl Hp Hq Hts Ho Hn Ha Hb Hbits c'. destruct (live_settled v p c Hok Hl) as [S1 S2 S3 S4 S5 S6].
  destruct (rest_same c) as (Hs & Est & Et & _). pose proof Hs as (Eh & _ & Eg & Ek & _).
  apply change_ok; try done; try apply Hok.
  - cbn. rewrite Et. by apply (ok_client v Hok p c).
  - intros j Hj. by rewrite Hbits, decide_False.
  - split; cbn; try done; try tauto.
    + rewrite Ha, S1, Hp. done.
    + rewrite Eh, Hbits, decide_True; done.
    + rewrite Eg, Ek. unfold rest. intros -> ->. done.
Qed.

Lemma off_votes v p c v' : update v p c (c_set_state (rest c) IPA_PM_DEACTIVATED) v' ->
  IPA_PM_STATE_ACTIVE (c_state c) = true -> votes v' = votes v - b2z (negb (c_skip_clk_vote c)).
Proof. intros U Ha. rewrite (update_votes _ _ _ _ _ U). unfold holds. cbn. rewrite Ha. cbn. lia. Qed.

Lemma holds_one v p c o : 0 <= o -> live v p c -> IPA_PM_STATE_ACTIVE (c_state c) = true ->
  c_skip_clk_vote c = false -> 1 <= o + votes v.
Proof.
  intros Ho Hl Ha Hk. pose proof (votes_live v p c Hl) as H. unfold holds in H. rewrite Ha, Hk in H. specialize (H eq_refl). lia.
Qed.

(** The order of the two changes does not matter. *)
Lemma rest_state c st : rest (c_set_state c st) = c_set_state (rest c) st.
Proof. unfold rest. cbn. by destruct (_ && _). Qed.

Lemma nodup_cancel v p : NoDup (v_queue v) -> NoDup (v_timers v) ->
  NoDup (v_queue (v_cancel v p)) /\ NoDup (v_timers (v_cancel v p)).
Proof. intros H1 H2. split; by apply nodup_filtered. Qed.

(** The part of [ipa_pm_deactivate_sync] after the look at the state. *)
Definition deactivate_rest (hdl p : Z) : T Z :=
  _ ← devote p;
  _ ← sec (set_state p IPA_PM_DEACTIVATED);
  _ ← cancel_delayed_work_sync p;
  _ ← sec (deactivate_client hdl);
  _ ← do_clk_scaling; Ret 0.

(** From a state in which the client's timer is cancelled, with [n] votes. *)
Lemma t_deactivate_rest wait v p c hdl n (P : Z -> pmcore -> Z -> Prop) :
  pm_ok v -> v_running v = None -> live v p c -> c_hdl c = hdl -> IPA_PM_STATE_IN_PROGRESS (c_state c) = false ->
  (c_skip_clk_vote c = false -> 1 <= n) ->
  (forall v', pm_ok v' -> v_running v' = None -> update v p c (c_set_state (rest c) IPA_PM_DEACTIVATED) v' ->
     P 0 v' (n - b2z (negb (c_skip_clk_vote c)))) ->
  truns wait (deactivate_rest hdl p) (v_cancel v p) n P.
Proof.
  intros Hok Hi Hl Hh Hp Hn HP. unfold deactivate_rest. apply t_bind, t_devote with c; [done|done|].
  eapply t_bind, t_sec, r_set_state; [lv|]. rewrite v_put_put. apply t_bind, t_cancel; [done|].
  apply t_bind, t_sec, (r_mark hdl false); [apply Hok| |].
  { pose proof (co_hdl _ _ _ (ok_client v Hok p c Hl)). unfold IPA_PM_MAX_CLIENTS in *. lia. }
  intros bits Hb Hbits. set (w := v_cancel v p) in *.
  destruct (cancel_nodup v p Hok) as [N1 N2].
  destruct (off_ok v p c (v_queue (v_cancel w p)) (v_timers (v_cancel w p)) bits) as [U Hok']; try done.
  - by apply nodup_cancel.
  - by apply nodup_cancel.
  - intros x Hx. destruct (cancel_other w p x Hx) as (-> & -> & ->). by apply cancel_other.
  - apply cancel_none.
  - rewrite cancel_act. apply cancel_act.
  - intros j. rewrite Hbits, Hh. done.
  - set (x := v_upd v p _ _ _ bits) in *. change (v_set_bits _ _) with x. apply t_bind, t_scaling; [done|]. by apply t_ret, HP.
Qed.

Lemma t_deactivate v p c hdl o (P : Z -> pmcore -> Z -> Prop) :
  pm_ok v -> v_running v = None -> 0 <= o -> live v p c -> c_hdl c = hdl -> IPA_PM_STATE_IN_PROGRESS (c_state c) = false ->
  (forall v', over o v' (o + votes v') -> kept v v' -> leaves p c v' IPA_PM_DEACTIVATED -> P 0 v' (o + votes v')) ->
  truns settle
    (c ← sec (cget p);
      if decide (c_state c = IPA_PM_DEACTIVATED) then Ret 0 else deactivate_rest hdl p : T Z) (v_cancel v p) (o + votes v) P.
Proof.
  intros Hok Hi Ho Hl Hh Hp HP. apply t_bind, t_sec, r_cget with c; [done|]. destruct (decide _) as [Hst|Hst].
  { assert (Hok' : pm_ok (v_cancel v p)) by (apply (cancel_ok v p c); [done..|by rewrite Hst]).
    apply t_ret, (HP (v_cancel v p)); [done| |rewrite <- Hst; by apply (leaves_same p c (v_cancel v p))].
    split; [done|]. intros x d Hd. by exists d. }
  assert (Ha : IPA_PM_STATE_ACTIVE (c_state c) = true) by (by destruct (c_state c)).
  apply (t_deactivate_rest settle v p c); [done..|by apply (holds_one v p c)|]. intros v' Hok' Hi' U.
  replace (o + votes v - _) with (o + votes v') by (rewrite (off_votes _ _ _ _ U) by done; lia). apply HP.
  - by split_and!.
  - by eapply update_kept.
  - by apply (leaves_update _ _ _ _ _ U).
Qed.

Lemma filter_all {A} (f : A -> bool) l : (forall x, x ∈ l -> f x = true) -> List.filter f l = l.
Proof.
  induction l as [|a l IH]; intros H; cbn; [done|]. rewrite (H a) by constructor. f_equal. apply IH. intros. apply H. by constructor.
Qed.

Lemma cancel_id v p : ~ (p ∈ v_timers v \/ WorkDeactivate p ∈ v_queue v) -> v_cancel v p = v.
Proof.
  intros Hn. unfold v_cancel. rewrite !filter_all; [by destruct v|..].
  - intros x Hx. apply negb_true_iff, Z.eqb_neq. intros ->. tauto.
  - intros w Hw. apply negb_true_iff, bool_decide_eq_false. intros ->. tauto.
Qed.

Lemma kept_cancel v p : kept v (v_cancel v p).
Proof. split; [done|]. intros x d Hd. by exists d. Qed.

Lemma t_deactivate_sync v p c hdl o (P : Z -> pmcore -> Z -> Prop) :
  pm_ok v -> v_running v = None -> 0 <= o -> live v p c -> c_hdl c = hdl ->
  (forall v', over o v' (o + votes v') -> kept v v' -> leaves p c v' IPA_PM_DEACTIVATED -> P 0 v' (o + votes v')) ->
  zget (v_clients v) hdl = Some (Some p) -> hdl < IPA_PM_MAX_CLIENTS -> truns settle (ipa_pm_deactivate_sync hdl : T Z) v (o + votes v) P.
Proof.
  intros Hok Hi Ho Hl Hh HP Hat Hlt. unfold ipa_pm_deactivate_sync, with_client. apply t_ctx.
  rewrite Z.geb_leb, (proj2 (Z.leb_gt _ _)) by done. apply t_bind, t_sec, r_client_at with (Some p); [done|].
  apply t_bind, t_cancel; [done|]. apply t_bind, t_sec, r_cget with c; [done|]. cbv zeta.
  destruct (IPA_PM_STATE_IN_PROGRESS (c_state c)) eqn:Hp; [|by apply (t_deactivate v p c hdl o)].
  assert (Hok1 : pm_ok (v_cancel v p)) by (apply (cancel_ok v p c); [done..|by destruct (c_state c)]).
  apply t_await. change (votes v) with (votes (v_cancel v p)). apply (r_completed p c); [done..|].
  intros v2 c2 Hok2 Hi2 Hk2 Hl2 Hs2 Hst2.
  assert (Hnt : timed (c_state c2) = false /\ IPA_PM_STATE_IN_PROGRESS (c_state c2) = false) by (rewrite Hst2; by destruct (c_state c)).
  pose proof (t_deactivate v2 p c2 hdl o P Hok2 Hi2 Ho Hl2) as H.
  replace (v_cancel v2 p) with v2 in H.
  - apply H; [destruct Hs2 as (-> & _); done|apply Hnt|]. intros v' Hov Hk Hle. apply HP; [done| |by eapply kept_same_trans].
    etrans; [apply (kept_cancel v p)|]. by etrans.
  - destruct (live_settled v2 p c2 Hok2 Hl2) as [_ S _ _ _ _]. destruct Hnt as [Hnt _]. rewrite Hnt in S.
    apply eq_sym, cancel_id. by rewrite S.
Qed.
End deact.

(** * The other calls: all deferred ones, throughput, pipes, wake-up *)

(** The votes and the pipes do not matter to the clients. *)
Lemma ok_tputs_change `{PC : PmConf} v l : pm_ok v -> length l = 3%nat -> Forall (fun t => 0 <= t <= TPUT_MAX) l ->
  pm_ok (v_set_tputs v l).
Proof.
  intros Hok Hl Hf. split; try apply Hok; try done.
  - intros p c Hc. by destruct (ok_client v Hok p c Hc).
  - eapply list.Forall_impl; [apply Hok|]. by intros e [? ? ?].
Qed.

Lemma ok_pipes_change `{PC : PmConf} v l : pm_ok v -> Z.of_nat (length l) = IPA5_PIPES_NUM ->
  (forall i p, zget l i = Some (Some p) -> i < ipa3_get_max_num_pipes /\ exists c, live v p c) -> pm_ok (v_set_pipes v l).
Proof.
  intros Hok Hl Hf. split; try apply Hok; try done.
  - intros p c Hc. by destruct (ok_client v Hok p c Hc).
  - eapply list.Forall_impl; [apply Hok|]. by intros e [? ? ?].
Qed.

Section more.
Context {K : Type} `{PW : PmWorks K}.
#[local] Notation T := (act (pmst * K)).

(** ** [ipa_pm_deactivate_all_deferred] *)
Lemma t_deferred_one v p c o (P : bool -> pmcore -> Z -> Prop) :
  pm_ok v -> v_running v = None -> 0 <= o -> live v p c ->
  (forall b v', over o v' (o + votes v') -> kept v v' -> P b v' (o + votes v')) ->
  truns settle (deactivate_deferred_one p : T bool) v (o + votes v) P.
Proof.
  intros Hok Hi Ho Hl HP. unfold deactivate_deferred_one. apply t_bind, t_cancel; [done|].
  apply t_bind, t_sec, r_cget with c; [done|]. destruct (IPA_PM_STATE_IN_PROGRESS (c_state c)) eqn:Hp.
  { assert (Hok1 : pm_ok (v_cancel v p)) by (apply (cancel_ok v p c); [done..|by destruct (c_state c)]).
    apply t_await. change (votes v) with (votes (v_cancel v p)). apply (r_completed p c); [done..|].
    intros v2 c2 Hok2 Hi2 Hk2 _ _ _. apply t_ret, HP; [done|]. etrans; [apply (kept_cancel v p)|done]. }
  assert (Hnone : timed (c_state c) = false -> truns settle (Ret false : T bool) (v_cancel v p) (o + votes v) P).
  { intros Ht. apply t_ret, (HP false (v_cancel v p)); [|apply kept_cancel]. split; [by apply (cancel_ok v p c)|done]. }
  destruct (cancel_nodup v p Hok) as [N1 N2]. destruct (live_settled v p c Hok Hl) as [S1 S2 S3 S4 S5 S6].
  assert (Hoff : IPA_PM_STATE_ACTIVE (c_state c) = true -> runs (K := K) (_ ← set_state p IPA_PM_DEACTIVATED; mret true)
    (v_cancel v p) (o + votes v) (fun off v' n' => truns settle (if off : bool then
      _ ← devote p;
      _ ← sec (c ← cget p; deactivate_client (c_hdl c));
      Ret true
    else Ret false : T bool) v' n' P)).
  { intros Ha. apply r_bind. eapply r_set_state; [done|]. apply r_ret. eapply t_bind, t_devote; [lv|by apply (holds_one v p c)|].
    rewrite v_put_put, rest_state. cbn [c_skip_clk_vote c_set_state]. eapply t_bind, t_sec, r_bind, r_cget; [lv|].
    destruct (rest_same c) as ((Eh & _) & _). cbn [c_hdl c_set_state]. rewrite Eh.
    apply (r_mark (c_hdl c) false); [apply Hok|pose proof (co_hdl _ _ _ (ok_client v Hok p c Hl)); unfold IPA_PM_MAX_CLIENTS in *; lia|].
    intros bits Hb Hbits.
    destruct (off_ok v p c (v_queue (v_cancel v p)) (v_timers (v_cancel v p)) bits) as [U Hok']; try done.
    + apply cancel_other.
    + apply cancel_none.
    + apply cancel_act.
    + set (x := v_upd v p _ _ _ bits) in *. change (v_set_bits _ _) with x.
      replace (o + votes v - b2z (negb (c_skip_clk_vote c))) with (o + votes x) by (rewrite (off_votes _ _ _ _ U) by done; lia).
      apply t_ret, HP; [by split_and!|by eapply update_kept]. }
  apply t_bind, t_sec, r_bind, r_cget with c; [done|].
  destruct (c_state c) eqn:Hst; try done; try (by apply r_ret, Hnone); try by apply Hoff.
  apply r_bind. eapply r_set_state; [done|]. apply r_ret, t_ret. set (c' := c_set_state c IPA_PM_ACTIVATED).
  destruct (change_ok v p c c' (v_queue (v_cancel v p)) (v_timers (v_cancel v p)) (v_bits v)) as [U Hok']; try done; try apply Hok.
  - by apply (ok_client v Hok p c).
  - apply cancel_other.
  - split; cbn; try done.
    + split; [|done]. intros H. apply (cancel_act v p p) in H. by apply S1 in H.
    + split; [intros H; by apply cancel_none in H|done].
    + intros H _. by apply (cancel_none v p); left.
  - change (v_put _ _ _) with (v_upd v p c' (v_queue (v_cancel v p)) (v_timers (v_cancel v p)) (v_bits v)).
    rewrite <- (restate_votes _ _ _ _ _ U) by (by rewrite Hst). apply HP; [by split_and!|by eapply update_kept].
Qed.

Lemma t_deferred_from hdls : forall b v o (P : bool -> pmcore -> Z -> Prop),
  pm_ok v -> v_running v = None -> 0 <= o -> Forall (fun h => 0 <= h < IPA_PM_MAX_CLIENTS) hdls ->
  (forall b v', over o v' (o + votes v') -> kept v v' -> P b v' (o + votes v')) ->
  truns settle (deactivate_deferred_from hdls b : T bool) v (o + votes v) P.
Proof.
  induction hdls as [|h hdls IH]; intros b v o P Hok Hi Ho Hh HP; cbn [deactivate_deferred_from].
  - by apply t_ret, HP.
  - apply list.Forall_cons in Hh as [Hh Hhs].
    destruct (at_hdl v h Hok) as (x & Hx & Hl); [lia|rewrite Z.geb_leb; apply Z.leb_gt; lia|].
    apply t_bind, t_sec, r_client_at with x; [done|]. destruct x as [p|]; [|by apply IH].
    destruct Hl as (c & Hl & _). apply t_bind, t_deferred_one with c; [done..|].
    intros off v' (Hok' & Hi' & _) Hk'. apply IH; [done..|]. intros b' v2 Hov Hk2. apply HP; [done|by etrans].
Qed.

Lemma t_all_deferred v o (P : Z -> pmcore -> Z -> Prop) : pm_ok v -> v_running v = None -> 0 <= o ->
  (forall v', over o v' (o + votes v') -> kept v v' -> P 0 v' (o + votes v')) ->
  truns settle (ipa_pm_deactivate_all_deferred : T Z) v (o + votes v) P.
Proof.
  intros Hok Hi Ho HP. unfold ipa_pm_deactivate_all_deferred. apply t_ctx, t_bind, t_deferred_from; [done..| |].
  - apply list.Forall_forall. intros h Hh. apply elem_of_seqZ in Hh. unfold IPA_PM_MAX_CLIENTS in *. lia.
  - intros b v' Hov Hk. destruct b; [|by apply t_ret, HP]. apply t_bind, t_scaling; [apply Hov|]. by apply t_ret, HP.
Qed.

(** ** Throughput *)
Lemma tput_ok v p c t : pm_ok v -> live v p c -> 0 <= t <= TPUT_MAX ->
  update v p c (c_set_tput c t) (v_put v p (c_set_tput c t)) /\ pm_ok (v_put v p (c_set_tput c t)).
Proof.
  intros Hok Hl Ht. destruct (live_settled v p c Hok Hl) as [S1 S2 S3 S4 S5 S6].
  by apply (change_ok v p c (c_set_tput c t) (v_queue v) (v_timers v) (v_bits v)); try done; apply Hok.
Qed.

Lemma t_set_throughput v hdl t o (P : Z -> pmcore -> Z -> Prop) :
  pm_ok v -> v_running v = None -> 0 <= hdl -> t <= TPUT_MAX ->
  (forall r v', over o v' (o + votes v') -> P r v' (o + votes v')) ->
  truns settle (ipa_pm_set_throughput hdl t : T Z) v (o + votes v) P.
Proof.
  intros Hok Hi Hh Ht HP. unfold ipa_pm_set_throughput. apply t_ctx, t_bind, t_sec.
  assert (Hv : over o v (o + votes v)) by done. destruct (hdl >=? IPA_PM_MAX_CLIENTS) eqn:E; [by apply r_ret, t_ret, HP|].
  destruct (at_hdl v hdl Hok Hh E) as (x & Hx & Hl). apply r_bind, r_client_at with x; [done|].
  destruct x as [p|]; [|by apply r_ret, t_ret, HP]. destruct Hl as (c & Hl & Hc).
  destruct (t <? 0) eqn:E0; [by apply r_ret, t_ret, HP|]. zify_bool. apply r_bind, r_cget with c; [done|]. apply r_bind.
  assert (Hend : forall v' c', pm_ok v' -> v_running v' = None -> votes v' = votes v -> v_clients v' = v_clients v -> live v' p c' ->
    runs (K := K) (mret (Some p)) v' (o + votes v) (fun o' v' n' => truns settle (match o' with
     | None => Ret (- EINVAL)
     | Some p =>
         o ← sec (client_at hdl);
         match o with
         | None => Ret 0
         | Some _ =>
             b ← sec (c ← cget p;
                      mret (IPA_PM_STATE_ACTIVE (c_state c) ||
                            negb (bool_decide (c_group c = IPA_PM_GROUP_DEFAULT))));
             if b : bool then _ ← do_clk_scaling; Ret 0 else Ret 0
         end
     end : T Z) v' n' P)).
  { intros v' c' Hok' Hi' <- Hcl Hl'. apply r_ret, t_bind, t_sec, r_client_at with (Some p); [by rewrite Hcl|].
    apply t_bind, t_sec, r_bind, r_cget with c'; [done|]. apply r_ret. destruct (_ || _).
    - by apply t_bind, t_scaling; [|apply t_ret, HP].
    - by apply t_ret, HP. }
  destruct (decide (c_group c = IPA_PM_GROUP_DEFAULT)) as [Eg|Eg].
  - eapply r_cmod; [done|]. destruct (tput_ok v p c t Hok Hl) as [U Hok']; [lia|].
    eapply Hend; [done|done| |done|lv]. rewrite (update_votes _ _ _ _ _ U). unfold holds. cbn. lia.
  - eapply (r_xmod _ (fun v => v_set_tputs v (zset (v_tputs v) (group_index (c_group c)) t))); [|done|].
    { intros s y Hy Hcore. unfold core in *. rewrite Hy in Hcore. by injection Hcore as <-. }
    eapply Hend; [|done..]. apply ok_tputs_change; [done|rewrite zset_length; apply Hok|].
    unfold zset. destruct (0 <=? _); [|apply Hok]. apply Forall_insert; [apply Hok|lia].
Qed.

(** ** Pipes *)
Lemma pipe_at v i : pm_ok v -> 0 <= i < ipa3_get_max_num_pipes -> exists o, zget (v_pipes v) i = Some o /\
  match o with Some p => exists c, live v p c | None => True end.
Proof.
  intros Hok Hi. destruct (zget_lt_Some (v_pipes v) i) as [o Ho].
  { pose proof (ok_pipes_len v Hok). pose proof law_pipes. lia. }
  exists o. split; [done|]. destruct o as [p|]; [|done]. by apply (ok_pipes v Hok i p).
Qed.

Lemma t_associate v hdl consumer o (P : Z -> pmcore -> Z -> Prop) :
  pm_ok v -> v_running v = None -> 0 <= hdl -> (forall r v', over o v' (o + votes v') -> P r v' (o + votes v')) ->
  truns settle (ipa_pm_associate_ipa_cons_to_client hdl consumer : T Z) v (o + votes v) P.
Proof.
  intros Hok Hi Hh HP. unfold ipa_pm_associate_ipa_cons_to_client. apply t_ctx.
  assert (Hv : over o v (o + votes v)) by done. destruct (_ || _) eqn:E; [by apply t_ret, HP|].
  apply orb_false_iff in E as [E _]. apply orb_false_iff in E as [E _].
  destruct (at_hdl v hdl Hok Hh E) as (x & Hx & Hl). apply t_sec, r_bind, r_client_at with x; [done|].
  destruct x as [p|]; [|by apply r_ret, HP]. cbv zeta. destruct (pm_ep_mapping consumer <? 0) eqn:E0; [by apply r_ret, HP|].
  zify_bool. pose proof (law_ep consumer) as Hep. apply r_bind, r_xget. intros y _ Hy _ _ _ _ _ _. rewrite Hy.
  destruct (pipe_at v (pm_ep_mapping consumer) Hok) as (z & Hz & _); [lia|].
  apply r_bind, r_lift with z; [by rewrite Hz|]. destruct z as [p'|]; [by apply r_ret, HP|].
  apply r_bind, (r_pipes (fun l => zset l (pm_ep_mapping consumer) (Some p))). apply r_ret.
  apply (HP 0 (v_set_pipes v (zset (v_pipes v) (pm_ep_mapping consumer) (Some p)))). split; [|done].
  apply ok_pipes_change; [done|rewrite zset_length; apply Hok|]. intros i q Hq.
  destruct (decide (i = pm_ep_mapping consumer)) as [->|Hne].
  - rewrite zget_zset_eq in Hq by (by eapply zget_Some_lt). injection Hq as <-. split; [done|].
    destruct Hl as (c & Hl & _). by exists c.
  - rewrite zget_zset_ne in Hq by done. by apply (ok_pipes v Hok).
Qed.

Lemma r_wake_pipes n : forall i m a l v k (P : unit -> pmcore -> Z -> Prop), pm_ok v -> P tt v k ->
  runs (K := K) (wake_pipes n i m a l) v k P.
Proof.
  induction n as [|n IH]; intros i m a l v k P Hok HP; cbn [wake_pipes]; [by apply r_ret|]. cbv zeta.
  destruct (negb _) eqn:E; [by apply r_ret|]. zify_bool. destruct (u32_bit m i); [|by apply IH].
  apply r_bind, r_xget. intros x _ Hx _ _ _ _ _ _. rewrite Hx.
  destruct (pipe_at v (u32 (Z.of_nat i + a)) Hok) as (o & Ho & Hl).
  { unfold u32. pose proof (Z.mod_pos_bound (Z.of_nat i + a) (2 ^ 32)). unfold u32 in E. lia. }
  apply r_bind, r_lift with o; [by rewrite Ho|]. destruct o as [p|]; [|by apply IH]. destruct Hl as (c & Hl).
  apply r_bind, r_cget with c; [done|]. destruct (c_callback c); [|by apply IH].
  destruct (bool_decide _); [by apply IH|]. by apply r_bind, r_psys; intros []; apply IH.
Qed.

Lemma t_handle_suspend v m i o (P : Z -> pmcore -> Z -> Prop) :
  pm_ok v -> P 0 v o -> truns settle (ipa_pm_handle_suspend m i : T Z) v o P.
Proof.
  intros Hok HP. unfold ipa_pm_handle_suspend. apply t_ctx. destruct (m =? 0); [by apply t_ret|].
  apply t_bind, t_sec, r_wake_pipes; [done|]. by apply t_ret.
Qed.

Lemma r_get_client v ct n (P : Z -> pmcore -> Z -> Prop) : pm_ok v -> (forall r, P r v n) ->
  runs (K := K) (ipa_pm_get_pm_clnt_throughput ct) v n P.
Proof.
  intros Hok HP. unfold ipa_pm_get_pm_clnt_throughput. apply r_bind, r_xget. intros x _ Hx _ _ _ _ _ _. rewrite Hx. cbv zeta.
  destruct (pm_ep_mapping ct <? 0) eqn:E; [by apply r_ret|]. zify_bool. pose proof (law_ep ct).
  destruct (pipe_at v (pm_ep_mapping ct) Hok) as (o & Ho & Hl); [lia|].
  apply r_bind, r_lift with o; [by rewrite Ho|]. destruct o as [p|]; [|by apply r_ret]. destruct Hl as (c & Hl).
  by apply r_bind, r_cget with c; [|apply r_ret].
Qed.
End more.
