(* ===== verification/PmReg.v ===== *)
(** * Registration and deregistration

    The free element of the array, the exceptions that wait for a name, and the two calls. *)

From Stdlib Require Import ZArith Lia Ascii String.
From stdpp Require Import prelude list numbers strings.
From S2P Require Import Prelude NatUtils StWp KernHal Act PmState PmClk IpaPm PmInv PmRules PmSeq PmWork PmCalls.

Local Open Scope Z_scope.

(** * Registration

    A client takes the first free element of the array and clears its name from the
    exceptions that wait for it; [ipa_pm_deregister] undoes both. *)

(** ** Strings *)
Lemma substring_full s n : (String.length s <= n)%nat -> String.substring 0 n s = s.
Proof. revert n. induction s as [|a s IH]; intros [|n] H; cbn in *; try done; [lia|]. f_equal. apply IH. lia. Qed.

Lemma substring_len s : forall m n, (String.length (String.substring m n s) <= String.length s - m)%nat.
Proof.
  induction s as [|a s IH]; intros [|m] [|n]; cbn; try lia.
  - specialize (IH 0%nat n). lia.
  - specialize (IH m 0%nat). lia.
  - specialize (IH m (S n)). lia.
Qed.

Lemma prefix_refl s : String.prefix s s = true.
Proof. induction s as [|a s IH]; cbn; [done|]. by destruct (ascii_dec a a). Qed.

(** The test of [add_client_to_exception_list] compares the whole strings. *)
Lemma same_name ex name :
  strnstr ex name (Z.of_nat (String.length name)) && (Z.of_nat (String.length ex) =? Z.of_nat (String.length name)) =
  bool_decide (ex = name).
Proof.
  case_bool_decide as E.
  - subst. rewrite Z.eqb_refl, andb_true_r. unfold strnstr. rewrite Nat2Z.id, substring_full by lia.
    destruct name as [|a s]; cbn; [done|]. destruct (ascii_dec a a); [|done]. by rewrite prefix_refl.
  - apply andb_false_iff. destruct (Z.of_nat (String.length ex) =? _) eqn:El; [left|by right]. zify_bool.
    unfold strnstr. rewrite Nat2Z.id, substring_full by lia. destruct (String.index 0 name ex) as [m|] eqn:Ei; [|done].
    exfalso. apply E. apply index_correct1 in Ei. pose proof (substring_len ex m (String.length name)) as Hm. rewrite Ei in Hm.
    destruct m as [|m].
    + rewrite substring_full in Ei by lia. done.
    + assert (El0 : String.length name = 0%nat) by lia. destruct name; [|done]. destruct ex; [done|cbn in *; lia].
Qed.

Lemma short_name s : Z.of_nat (String.length s) < IPA_PM_MAX_EX_CL -> fst (strlcpy s IPA_PM_MAX_EX_CL) = s.
Proof. intros H. cbn [strlcpy fst]. apply substring_full. unfold IPA_PM_MAX_EX_CL in *. lia. Qed.

(** ** The free element *)
Definition named (name : string) (oc : option ipa_pm_client) : Prop := exists c, oc = Some c /\ c_name c = name.

Lemma next_open_spec name cs : forall i n, let r := next_open name cs i n in
  (r = - EEXIST /\ Exists (named name) cs) \/
  (Forall (fun oc => ~ named name oc) cs /\ ((r = n /\ None ∉ cs) \/ exists k, cs !! k = Some None /\ r = i - Z.of_nat k)).
Proof.
  induction cs as [|[c|] cs IH]; intros i n; cbn [next_open]; cbv zeta.
  - right. split; [constructor|]. left. split; [done|apply not_elem_of_nil].
  - destruct (String.eqb name (c_name c)) eqn:E.
    { apply String.eqb_eq in E. left. split; [done|]. constructor. by exists c. }
    apply String.eqb_neq in E. destruct (IH (i - 1) n) as [[Hr He]|[Hf Hr]]; [left; split; [done|by apply Exists_cons_tl]|].
    right. split; [constructor; [intros (d & [= <-] & ?); congruence|done]|]. destruct Hr as [[Hr Hn]|(k & Hk & Hr)].
    + left. split; [done|]. intros H. apply elem_of_cons in H as [|]; done.
    + right. exists (S k). split; [done|lia].
  - destruct (IH (i - 1) i) as [[Hr He]|[Hf Hr]]; [left; split; [done|by apply Exists_cons_tl]|].
    right. split; [constructor; [intros (d & ? & _); done|done]|]. right. destruct Hr as [[Hr Hn]|(k & Hk & Hr)].
    + exists 0%nat. split; [done|lia].
    + exists (S k). split; [done|lia].
Qed.

Section reg.
Context {K : Type} `{PW : PmWorks K}.
#[local] Notation T := (act (pmst * K)).

Lemma r_find name v n (P : Z -> pmcore -> Z -> Prop) : pm_ok v ->
  ((exists p c, live v p c /\ c_name c = name) -> P (- EEXIST) v n) ->
  ((forall h, 1 <= h < IPA_PM_MAX_CLIENTS -> zget (v_clients v) h <> Some None) -> P (- ENOBUFS) v n) ->
  (forall h, 1 <= h < IPA_PM_MAX_CLIENTS -> zget (v_clients v) h = Some None ->
     (forall p c, live v p c -> c_name c <> name) -> P h v n) ->
  runs (K := K) (find_next_open_array_element name) v n P.
Proof.
  intros Hok H1 H2 H3. unfold find_next_open_array_element. apply r_bind, r_xget. intros x Hx _ _ _ _ _ _ _. rewrite Hx.
  pose proof (ok_clients_len v Hok) as Hlen. unfold IPA_PM_MAX_CLIENTS in *.
  apply r_bind, r_load.
  { intros p Hp. apply (clients_live v p Hok). apply list_elem_of_lookup_1 in Hp as [i Hi].
    rewrite lookup_drop in Hi. by apply list_elem_of_lookup_2 in Hi. }
  intros cs Hcs. apply r_ret. assert (Hl : length cs = 35%nat).
  { rewrite <- (Forall2_length _ _ _ Hcs), length_drop. lia. }
  assert (Hslot : forall k o, cs !! k = Some o -> exists q, zget (v_clients v) (Z.of_nat k + 1) = Some q /\ loaded v q o).
  { intros k o Hk. destruct (Forall2_lookup_r _ _ _ _ _ Hcs Hk) as (q & Hq & Ho). exists q. split; [|done].
    rewrite lookup_drop in Hq. unfold zget. rewrite (proj2 (Z.leb_le _ _)) by lia. replace (Z.to_nat (Z.of_nat k + 1)) with (1 + k)%nat by lia. done. }
  assert (Hall : forall p c, live v p c -> exists k, cs !! k = Some (Some c)).
  { intros p c Hc. destruct (ok_client v Hok p c Hc) as [Hh Hat _ _ _ _ _ _]. unfold IPA_PM_MAX_CLIENTS in *.
    exists (Z.to_nat (c_hdl c - 1)). unfold zget in Hat. rewrite (proj2 (Z.leb_le _ _)) in Hat by lia.
    destruct (lookup_lt_is_Some_2 cs (Z.to_nat (c_hdl c - 1))) as [o Ho]; [lia|].
    destruct (Hslot _ _ Ho) as (q & Hq & Hlo). replace (Z.of_nat (Z.to_nat (c_hdl c - 1)) + 1) with (c_hdl c) in Hq by lia.
    unfold zget in Hq. rewrite (proj2 (Z.leb_le _ _)) in Hq by lia. rewrite Hat in Hq. injection Hq as <-.
    destruct o as [d|]; [|done]. cbn in Hlo. rewrite Ho. unfold live in *. congruence. }
  assert (Hrev : rev cs = reverse cs) by (by rewrite rev_alt). rewrite Hrev.
  destruct (next_open_spec name (reverse cs) 35 (- ENOBUFS)) as [[Hr He]|[Hf Hr]].
  - change (36 - 1) with 35. rewrite Hr. apply H1. apply Exists_exists in He as (oc & Hin & c & -> & Hname).
    rewrite elem_of_reverse in Hin. apply list_elem_of_lookup_1 in Hin as [k Hk]. destruct (Hslot _ _ Hk) as ([q|] & _ & Hlo); [|done].
    by exists q, c.
  - change (36 - 1) with 35. destruct Hr as [[Hr Hn]|(k & Hk & Hr)]; rewrite Hr.
    + apply H2. intros h Hh Hfree. destruct (lookup_lt_is_Some_2 cs (Z.to_nat (h - 1))) as [o Ho]; [lia|].
      destruct (Hslot _ _ Ho) as (q & Hq & Hlo). replace (Z.of_nat (Z.to_nat (h - 1)) + 1) with h in Hq by lia.
      rewrite Hfree in Hq. injection Hq as <-. destruct o; [done|]. apply Hn, elem_of_reverse. by eapply list_elem_of_lookup_2.
    + apply reverse_lookup_Some in Hk as [Hk Hlt]. destruct (Hslot _ _ Hk) as (q & Hq & Hlo). destruct q; [done|].
      apply H3; [lia| |].
      * rewrite <- Hq. f_equal. lia.
      * intros p c Hc Hname. destruct (Hall p c Hc) as [j Hj]. rewrite list.Forall_forall in Hf. apply (Hf (Some c)).
        -- apply elem_of_reverse. by eapply list_elem_of_lookup_2.
        -- by exists c.
Qed.
End reg.

(** * A client joins and leaves *)

Lemma commas_nonneg s : 0 <= count_commas s.
Proof. induction s as [|a s IH]; cbn; [lia|]. destruct (_ =? _)%char; lia. Qed.

Definition new_client (params : ipa_pm_register_params) (hdl : Z) : ipa_pm_client := populate params hdl client_zero.

(** The state with one more client. *)
Definition next_ptr (v : pmcore) : Z := Z.of_nat (length (v_heap v)).
Definition v_join (v : pmcore) (c : ipa_pm_client) (es : list ipa_pm_exception_list) : pmcore :=
  mk_core (v_heap v ++ [Some c]) (zset (v_clients v) (c_hdl c) (Some (next_ptr v))) (v_pipes v) (v_queue v) (v_timers v)
    (v_running v) es (v_bits v) (v_tputs v) (v_dummies v).

(** The state with a client less. *)
Definition pipes_without (n : nat) (o : option Z) (l : list (option Z)) : list (option Z) :=
  map (fun q => if bool_decide (q = o) then None else q) (take n l) ++ drop n l.
Definition v_leave `{PC : PmConf} (v : pmcore) (p hdl : Z) (es : list ipa_pm_exception_list) : pmcore :=
  mk_core (zset (v_heap v) p None) (zset (v_clients v) hdl None)
    (pipes_without (Z.to_nat ipa3_get_max_num_pipes) (Some p) (v_pipes v)) (v_queue v) (v_timers v) (v_running v)
    es (v_bits v) (v_tputs v) (v_dummies v).

Lemma live_fresh v c : ~ live v (next_ptr v) c.
Proof. unfold live, next_ptr. intros H. apply zget_Some_lt in H. lia. Qed.

Lemma join_live v c es q d : live (v_join v c es) q d <-> (q = next_ptr v /\ d = c) \/ live v q d.
Proof. unfold live, v_join. cbn. rewrite zget_snoc. unfold next_ptr. naive_solver. Qed.

Lemma leave_live `{PC : PmConf} v p c hdl es q d : live v p c -> live (v_leave v p hdl es) q d <-> q <> p /\ live v q d.
Proof.
  intros Hl. unfold live, v_leave. cbn. destruct (decide (q = p)) as [->|Hne].
  - rewrite zget_zset_eq by (by eapply zget_Some_lt). naive_solver.
  - rewrite zget_zset_ne by done. naive_solver.
Qed.

(** ** The exceptions *)
Lemma add_ok v v' p c es : (forall q d, live v' q d <-> (q = p /\ d = c) \/ live v q d) ->
  (forall q d, live v q d -> c_name d <> c_name c /\ c_hdl d <> c_hdl c) -> 1 <= c_hdl c < IPA_PM_MAX_CLIENTS ->
  Forall (ex_ok v) es -> exists es', add_to_exceptions (c_name c) (c_hdl c) es = Ok (0, es') /\ Forall (ex_ok v') es' /\
    map ex_clients es' = map ex_clients es /\ map ex_threshold es' = map ex_threshold es.
Proof.
  intros Hlive Hother Hh. induction es as [|e es IH]; intros He; cbn [add_to_exceptions]; [by exists []|].
  apply list.Forall_cons in He as [He Hes]. destruct (IH Hes) as (es' & -> & Hes' & Hn & Hth). rewrite same_name.
  destruct He as [Elen Ebits Ecount]. case_bool_decide as En.
  - destruct Ecount as [(q & d & Hq & Hd & _)|[Hnone Hp]]; [destruct (Hother q d Hq); congruence|].
    pose proof (commas_nonneg (ex_clients e)). rewrite Hp, (proj2 (Z.ltb_ge _ _)) by lia.
    destruct (set_bit_spec (ex_bitmask e) (c_hdl c) true) as (l & -> & Hl & Hm); [done|unfold IPA_PM_MAX_CLIENTS in *; lia|].
    cbn [mbind res_bind]. eexists. split; [done|]. cbn [map]. rewrite Hn, Hth. split_and!; [|done|done].
    constructor; [|done]. split; cbn; [done| |].
    + intros h Hh0. rewrite Hm. destruct (decide (h = c_hdl c)) as [->|Hne].
      * split; [|done]. intros _. exists p, c. by rewrite Hlive; split_and!; [left|..].
      * rewrite (Ebits h Hh0). split; intros (q & d & Hq & Hd & Hdn); exists q, d; (split_and!; [|done..]).
        -- rewrite Hlive. by right.
        -- apply Hlive in Hq as [[-> ->]|]; done.
    + left. exists p, c. rewrite Hlive. split_and!; [by left|done|lia].
  - cbn [mbind res_bind]. eexists. split; [done|]. cbn [map]. rewrite Hn, Hth. split_and!; [|done|done].
    constructor; [|done]. split; [done| |].
    + intros h Hh0. rewrite (Ebits h Hh0). split; intros (q & d & Hq & Hd & Hdn); exists q, d; (split_and!; [|done..]).
      * rewrite Hlive. by right.
      * apply Hlive in Hq as [[-> ->]|]; [congruence|done].
    + destruct Ecount as [(q & d & Hq & Hd & Hp)|[Hnone Hp]].
      * left. exists q, d. rewrite Hlive. split_and!; [by right|done..].
      * right. split; [|done]. intros q d Hq. apply Hlive in Hq as [[-> ->]|Hq]; [congruence|by apply (Hnone q)].
Qed.

Lemma remove_ok v v' p c es : (forall q d, live v' q d <-> q <> p /\ live v q d) -> live v p c ->
  (forall q d, live v q d -> q <> p -> c_name d <> c_name c /\ c_hdl d <> c_hdl c) -> 1 <= c_hdl c < IPA_PM_MAX_CLIENTS ->
  Forall (ex_ok v) es -> exists es', remove_from_exceptions (c_hdl c) es = Ok es' /\ Forall (ex_ok v') es' /\
    map ex_clients es' = map ex_clients es /\ map ex_threshold es' = map ex_threshold es.
Proof.
  intros Hlive Hl Hother Hh. induction es as [|e es IH]; intros He; cbn [remove_from_exceptions]; [by exists []|].
  apply list.Forall_cons in He as [He Hes]. destruct (IH Hes) as (es' & -> & Hes' & Hn & Hth).
  destruct He as [Elen Ebits Ecount]. assert (Hpc : forall d, live v p d -> d = c) by (unfold live in *; naive_solver).
  rewrite bit_set_spec by (first [done|unfold IPA_PM_MAX_CLIENTS in *; lia]). cbn [mbind res_bind].
  assert (Hb : mask_bit (ex_bitmask e) (c_hdl c) = true <-> c_name c = ex_clients e).
  { rewrite Ebits by lia. split; [|intros; by exists p, c]. intros (q & d & Hq & Hd & Hdn).
    destruct (decide (q = p)) as [->|Hne]; [by rewrite <- (Hpc d Hq)|]. destruct (Hother q d Hq Hne). congruence. }
  assert (Hkeep : forall q d, live v q d -> c_name d <> c_name c -> live v' q d).
  { intros q d Hq Hd. rewrite Hlive. split; [|done]. intros ->. by rewrite (Hpc d Hq) in Hd. }
  destruct (mask_bit (ex_bitmask e) (c_hdl c)) eqn:Em.
  - destruct Hb as [Hb _]. specialize (Hb eq_refl).
    destruct (set_bit_spec (ex_bitmask e) (c_hdl c) false) as (l & -> & Hlen & Hm); [done|unfold IPA_PM_MAX_CLIENTS in *; lia|].
    cbn [mbind res_bind]. eexists. split; [done|]. cbn [map]. rewrite Hn, Hth. split_and!; [|done|done].
    assert (Hnone : forall q d, live v' q d -> c_name d <> ex_clients e).
    { intros q d [Hne Hq]%Hlive. rewrite <- Hb. by destruct (Hother q d Hq Hne). }
    constructor; [|done]. split; cbn; [done| |].
    + intros h Hh0. rewrite Hm. destruct (decide (h = c_hdl c)) as [->|Hne].
      * split; [done|]. intros (q & d & Hq & _ & Hd). by apply Hnone in Hq.
      * rewrite (Ebits h Hh0). split; intros (q & d & Hq & Hd & Hdn).
        -- exfalso. destruct (decide (q = p)) as [->|Hqp]; [rewrite (Hpc d Hq) in Hd; congruence|].
           destruct (Hother q d Hq Hqp). congruence.
        -- by apply Hnone in Hq.
    + right. split; [done|]. destruct Ecount as [(q & d & Hq & Hd & Hp)|[Hno Hp]]; [lia|by destruct (Hno p c)].
  - assert (Hne : c_name c <> ex_clients e) by (intros E; by apply Hb in E). cbn [mbind res_bind].
    eexists. split; [done|]. cbn [map]. rewrite Hn, Hth. split_and!; [|done|done]. constructor; [|done]. split; [done| |].
    + intros h Hh0. rewrite (Ebits h Hh0). split; intros (q & d & Hq & Hd & Hdn); exists q, d; (split_and!; [|done..]).
      * apply Hkeep; [done|congruence].
      * by apply Hlive in Hq as [_ ?].
    + destruct Ecount as [(q & d & Hq & Hd & Hp)|[Hno Hp]].
      * left. exists q, d. split_and!; [apply Hkeep; [done|congruence]|done..].
      * right. split; [|done]. intros q d [_ Hq]%Hlive. by apply (Hno q).
Qed.

(** ** The invariant *)
Section inv.
Context `{PC : PmConf}.

Lemma join_ok v c es : pm_ok v -> 1 <= c_hdl c < IPA_PM_MAX_CLIENTS -> zget (v_clients v) (c_hdl c) = Some None ->
  (forall p d, live v p d -> c_name d <> c_name c) -> c_state c = IPA_PM_DEACTIVATED -> c_throughput c = 0 -> c_awake c = false ->
  Forall (ex_ok (v_join v c es)) es -> pm_ok (v_join v c es).
Proof.
  intros Hok Hh Hfree Hname Hst Ht Hw He. assert (Hlt : 0 <= c_hdl c < Z.of_nat (length (v_clients v))) by (by eapply zget_Some_lt).
  assert (Hwork : WorkActivate (next_ptr v) ∉ v_queue v /\ WorkDeactivate (next_ptr v) ∉ v_queue v /\ next_ptr v ∉ v_timers v).
  { split_and!; intros H; destruct (ok_works v Hok (next_ptr v)) as [d Hd]; try tauto; by apply live_fresh in Hd. }
  split; try apply Hok; try done.
  - cbn. rewrite zset_length. apply Hok.
  - unfold v_join, v_leave. cbn [v_clients]. rewrite zget_zset_ne by lia. apply Hok.
  - intros h p. cbn. destruct (decide (h = c_hdl c)) as [->|Hne].
    + rewrite zget_zset_eq by done. intros [= <-]. exists c. rewrite join_live. split; [by left|done].
    + rewrite zget_zset_ne by done. intros H. destruct (ok_clients v Hok h p H) as (d & Hd & Hdh). exists d. rewrite join_live. split; [by right|done].
  - intros p d [[-> ->]|Hd]%join_live.
    + split; cbn; rewrite ?Hst, ?Ht, ?Hw; try done; try (unfold TPUT_MAX; lia).
      * by rewrite zget_zset_eq.
      * split; [tauto|done].
      * split; [tauto|done].
      * apply not_true_is_false. intros H. destruct (ok_bits v Hok (c_hdl c)) as (q & d & Hq & Hdh); [lia|done|].
        pose proof (co_at _ _ _ (ok_client v Hok q d Hq)) as H2. congruence.
    + destruct (ok_client v Hok p d Hd) as [? Hat ? ? ? ? ? ?]. split; cbn; try done. rewrite zget_zset_ne; [done|congruence].
  - intros i p Hp. destruct (ok_pipes v Hok i p Hp) as (Hi & d & Hd). split; [done|]. exists d. rewrite join_live. by right.
  - intros p Hp. destruct (ok_works v Hok p Hp) as [d Hd]. exists d. rewrite join_live. by right.
  - intros h Hh0 Hb. destruct (ok_bits v Hok h Hh0 Hb) as (p & d & Hd & Hdh). exists p, d. rewrite join_live. split; [by right|done].
  - intros p q d e [[-> ->]|Hd]%join_live [[-> ->]|He']%join_live E; [done|by destruct (Hname q e)|by destruct (Hname p d)|].
    by eapply (ok_names v Hok).
Qed.

Lemma pipes_without_get n o l i q : zget (pipes_without n o l) i = Some (Some q) -> zget l i = Some (Some q) /\ (i < Z.of_nat n -> Some q <> o).
Proof.
  unfold pipes_without, zget. destruct (0 <=? i) eqn:E; [|done]. zify_bool. intros H. apply lookup_app_Some in H as [H|[Hlen H]].
  - apply list_lookup_fmap_Some in H as (x & Hx & H). apply lookup_take_Some in H as [H Hlt]. case_bool_decide; [done|]. subst x. done.
  - rewrite length_map, length_take in Hlen, H. rewrite lookup_drop in H. destruct (decide (length l <= n)%nat).
    + rewrite Nat.min_r in * by lia. apply lookup_lt_Some in H. lia.
    + rewrite Nat.min_l in * by lia. replace (n + (Z.to_nat i - n))%nat with (Z.to_nat i) in H by lia. split; [done|lia].
Qed.

Lemma leave_ok v p c es : pm_ok v -> live v p c -> c_state c = IPA_PM_DEACTIVATED ->
  0 <= ipa3_get_max_num_pipes -> Forall (ex_ok (v_leave v p (c_hdl c) es)) es -> pm_ok (v_leave v p (c_hdl c) es).
Proof.
  intros Hok Hl Hst Hmax He. pose proof (ok_client v Hok p c Hl) as [C1 C2 C3 C4 C5 C6 C7 C8]. rewrite Hst in *.
  assert (Hlive := fun q d => leave_live v p c (c_hdl c) es q d Hl).
  assert (Hpc : forall d, live v p d -> d = c) by (unfold live in *; naive_solver). unfold IPA_PM_MAX_CLIENTS in *.
  assert (Hne : forall q d, live v q d -> q <> p -> c_hdl d <> c_hdl c).
  { intros q d Hq Hqp E. pose proof (co_at _ _ _ (ok_client v Hok q d Hq)) as H. congruence. }
  split; try apply Hok; try done.
  - cbn. rewrite zset_length. apply Hok.
  - cbn. unfold pipes_without. rewrite length_app, length_map, <- length_app, take_drop. apply Hok.
  - unfold v_join, v_leave. cbn [v_clients]. rewrite zget_zset_ne by lia. apply Hok.
  - intros h q. cbn. destruct (decide (h = c_hdl c)) as [->|Hh].
    + by rewrite zget_zset_eq by (by eapply zget_Some_lt).
    + rewrite zget_zset_ne by done. intros H. destruct (ok_clients v Hok h q H) as (d & Hd & Hdh). exists d. rewrite Hlive.
      split_and!; [|done..]. intros ->. rewrite (Hpc d Hd) in Hdh. done.
  - intros q d [Hq Hd]%Hlive. destruct (ok_client v Hok q d Hd) as [? Hat ? ? ? ? ? ?]. split; cbn; try done.
    rewrite zget_zset_ne; [done|]. by apply not_eq_sym, (Hne q).
  - intros i q. cbn. intros [Hp Hlt]%pipes_without_get. destruct (ok_pipes v Hok i q Hp) as (Hi & d & Hd). split; [done|].
    exists d. rewrite Hlive. split; [|done]. intros ->. apply Hlt; [lia|done].
  - intros q Hq. destruct (ok_works v Hok q Hq) as [d Hd]. exists d. rewrite Hlive. split; [|done]. intros ->. cbn in Hq. naive_solver.
  - intros h Hh0 Hb. destruct (ok_bits v Hok h Hh0 Hb) as (q & d & Hd & Hdh). exists q, d. rewrite Hlive. split_and!; [|done..].
    intros ->. rewrite (Hpc d Hd) in Hdh. cbn in Hb. subst h. by rewrite C6 in Hb.
  - intros q1 q2 d1 d2 [_ H1]%Hlive [_ H2]%Hlive. by apply (ok_names v Hok).
Qed.

Lemma join_votes v c es : c_state c = IPA_PM_DEACTIVATED -> votes (v_join v c es) = votes v.
Proof.
  intros Hst. unfold votes, v_join. cbn. rewrite map_app, zsum_app. cbn. unfold holds. rewrite Hst. cbn. lia.
Qed.

Lemma leave_votes v p c hdl es : live v p c -> c_state c = IPA_PM_DEACTIVATED -> votes (v_leave v p hdl es) = votes v.
Proof.
  intros Hl Hst. unfold live, zget, zset in *. unfold votes, v_leave. cbn. unfold zset. destruct (0 <=? p); [|done].
  change (map vote_of) with (fmap (M := list) vote_of). rewrite list_fmap_insert.
  rewrite (zsum_insert _ _ _ (vote_of (Some c))) by (by rewrite list_lookup_fmap, Hl). cbn. unfold holds. rewrite Hst. cbn. lia.
Qed.
End inv.

(** * [ipa_pm_register] and [ipa_pm_deregister] *)

Section enter.
Context {K : Type} `{PW : PmWorks K}.
#[local] Notation T := (act (pmst * K)).

Lemma handles_differ v p q c d : pm_ok v -> live v p c -> live v q d -> q <> p -> c_hdl d <> c_hdl c.
Proof.
  intros Hok Hc Hd Hne E. pose proof (co_at _ _ _ (ok_client v Hok q d Hd)) as H1.
  pose proof (co_at _ _ _ (ok_client v Hok p c Hc)) as H2. congruence.
Qed.

(** ** Registration *)
Lemma join_exceptions v c : pm_ok v -> 1 <= c_hdl c < IPA_PM_MAX_CLIENTS -> zget (v_clients v) (c_hdl c) = Some None ->
  (forall p d, live v p d -> c_name d <> c_name c) -> exists es, add_to_exceptions (c_name c) (c_hdl c) (v_exceptions v) = Ok (0, es) /\
    Forall (ex_ok (v_join v c es)) es /\ map ex_clients es = map ex_clients (v_exceptions v) /\
    map ex_threshold es = map ex_threshold (v_exceptions v).
Proof.
  intros Hok Hh Hfree Hname.
  destruct (add_ok v (v_join v c []) (next_ptr v) c (v_exceptions v)) as (es & Hes & He & Hn); [..|by apply Hok|].
  - apply join_live.
  - intros q d Hq. split; [by eapply Hname|]. intros E. pose proof (co_at _ _ _ (ok_client v Hok q d Hq)). congruence.
  - done.
  - exists es. split_and!; [done| |apply Hn..]. eapply list.Forall_impl; [done|]. by intros e [? ? ?].
Qed.

(** A registration ends with an error and nothing changed, or with a new client at a free
    handle. *)
Lemma t_register v params n (P : Z * option Z -> pmcore -> Z -> Prop) : pm_ok v ->
  Z.of_nat (String.length (r_name params)) < IPA_PM_MAX_EX_CL ->
  ((exists p c, live v p c /\ c_name c = r_name params) -> P (- EEXIST, Some (- EEXIST)) v n) ->
  ((forall h, 1 <= h < IPA_PM_MAX_CLIENTS -> zget (v_clients v) h <> Some None) -> P (- ENOBUFS, Some (- ENOBUFS)) v n) ->
  (forall h, P (- ENOMEM, Some h) v n) ->
  (forall h es, let c := new_client params h in let v' := v_join v c es in
     1 <= h < IPA_PM_MAX_CLIENTS -> zget (v_clients v) h = Some None ->
     (forall p d, live v p d -> c_name d <> r_name params) ->
     add_to_exceptions (r_name params) h (v_exceptions v) = Ok (0, es) -> pm_ok v' -> votes v' = votes v -> P (0, Some h) v' n) ->
  truns settle (ipa_pm_register (Some params) : T (Z * option Z)) v n P.
Proof.
  intros Hok Hlen H1 H2 H3 H4. unfold ipa_pm_register. apply t_bind, t_sec, r_pget. intros s x -> _.
  apply t_bind, t_sec. unfold reserve. apply r_bind, r_find; [done|..].
  - intros He. cbn [Z.ltb Z.compare Z.opp EEXIST orb]. apply r_ret. cbn [Z.eqb negb]. by apply t_ret, H1.
  - intros He. cbn [Z.ltb Z.compare Z.opp ENOBUFS orb]. apply r_ret. cbn [Z.eqb negb]. by apply t_ret, H2.
  - intros h Hh Hfree Hname. rewrite (proj2 (Z.ltb_ge _ _)), Z.gtb_ltb, (proj2 (Z.ltb_ge _ _)) by lia. cbn [orb].
    apply r_bind, r_psys. intros ok. destruct ok; cbn [negb]; [|by apply r_ret, t_ret].
    apply r_bind, r_pget. intros s' x' Hx' Hcore. apply r_bind, (r_heap (fun l => l ++ [Some client_zero])).
    assert (Hheap : heap s' = v_heap v) by (unfold core in Hcore; rewrite Hx' in Hcore; by injection Hcore as <-).
    apply r_bind, (r_clients (fun l => zset l h (Some (Z.of_nat (length (heap s')))))). rewrite Hheap.
    change (Z.of_nat (length (v_heap v))) with (next_ptr v). apply r_ret. cbn [Z.eqb negb].
    set (v1 := v_set_clients _ _). assert (Hl1 : live v1 (next_ptr v) client_zero).
    { unfold live, v1. cbn. apply zget_snoc. by left. }
    apply t_bind, t_sec, r_bind, r_client_at with (Some (next_ptr v)).
    { unfold v1. cbn. by rewrite zget_zset_eq by (by eapply zget_Some_lt). }
    apply r_bind, r_lift with (next_ptr v); [done|]. apply r_bind. eapply r_cmod; [done|]. apply r_ret.
    fold (new_client params h). set (c := new_client params h).
    assert (Ename : c_name c = r_name params) by (by apply short_name).
    apply t_bind, t_sec, runs_psys. intros k. rewrite law_wakeup. cbn [negb].
    eapply t_bind, t_sec, r_cmod; [lv|]. rewrite v_put_put. change (c_set_complete c false) with c.
    destruct (join_exceptions v c) as (es & Hes & He & Hn & Hth); [done..|by rewrite Ename|].
    assert (Hput : v_set_exceptions (v_put v1 (next_ptr v) c) es = v_join v c es).
    { unfold v_put, v_set_heap, v_join, v_set_exceptions, v1. cbn. f_equal. unfold zset, next_ptr.
      rewrite (proj2 (Z.leb_le _ _)), Nat2Z.id by lia. by rewrite insert_app_r_alt, Nat.sub_diag by lia. }
    apply t_bind, t_sec. unfold add_client_to_exception_list. apply r_bind, r_client_at with (Some (next_ptr v)).
    { unfold v1. cbn. by rewrite zget_zset_eq by (by eapply zget_Some_lt). }
    apply r_bind, r_lift with (next_ptr v); [done|]. eapply r_bind, r_cget; [lv|].
    apply r_bind, r_xget. intros y _ _ _ _ _ Hy _ _. rewrite Hy. change (v_exceptions (v_put v1 (next_ptr v) c)) with (v_exceptions v).
    apply r_bind. apply r_lift with (0, es); [exact Hes|]. apply r_bind, r_exceptions; [by rewrite <- (length_map ex_clients), Hn, length_map|]. apply r_ret. cbn [Z.eqb negb].
    rewrite Hput. rewrite Ename in Hes. apply t_ret, H4; try done; [|by apply join_votes]. apply join_ok; [done|done|done|fold c; by rewrite Ename|done..].
Qed.

(** ** Deregistration *)
Lemma leave_exceptions v p c : pm_ok v -> live v p c -> exists es, remove_from_exceptions (c_hdl c) (v_exceptions v) = Ok es /\
    Forall (ex_ok (v_leave v p (c_hdl c) es)) es.
Proof.
  intros Hok Hl. destruct (remove_ok v (v_leave v p (c_hdl c) []) p c (v_exceptions v)) as (es & Hes & He & _); [..|by apply Hok|].
  - intros q d. by apply leave_live with c.
  - done.
  - intros q d Hq Hne. split; [|by eapply handles_differ]. intros E. by apply Hne, (ok_names v Hok q p d c).
  - apply (ok_client v Hok p c Hl).
  - exists es. split; [done|]. eapply list.Forall_impl; [done|]. by intros e [? ? ?].
Qed.

Lemma remove_length h : forall es es', remove_from_exceptions h es = Ok es' -> length es' = length es.
Proof.
  induction es as [|e es IH]; intros es'; cbn [remove_from_exceptions]; [by intros [= <-]|].
  destruct (bit_set _ h) as [b| |]; cbn [mbind res_bind]; [|done..].
  destruct (if b then _ else _) as [e'| |]; cbn [mbind res_bind]; [|done..].
  destruct (remove_from_exceptions h es) as [l| |]; cbn [mbind res_bind]; [|done..]. intros [= <-]. cbn. f_equal. by apply IH.
Qed.

Lemma r_leave v p c es n (P : Z -> pmcore -> Z -> Prop) : live v p c -> zget (v_clients v) (c_hdl c) = Some (Some p) ->
  remove_from_exceptions (c_hdl c) (v_exceptions v) = Ok es -> P 0 (v_leave v p (c_hdl c) es) n ->
  runs (K := K) (unregister (c_hdl c) p) v n P.
Proof.
  intros Hl Hat Hes HP. unfold unregister.
  apply r_bind, r_client_at with (Some p); [done|]. pose proof law_pipes as Hmax.
  apply r_bind, (r_pipes (pipes_without (Z.to_nat ipa3_get_max_num_pipes) (Some p))).
  apply r_bind, r_cget with c; [done|]. apply r_bind, (r_heap (fun l => zset l p None)).
  apply r_bind, (r_clients (fun l => zset l (c_hdl c) None)).
  apply r_bind. unfold remove_client_from_exception_list. apply r_bind, r_xget. intros y _ _ _ _ _ Hy _ _. rewrite Hy.
  apply r_bind, r_lift with es; [done|]. apply r_exceptions; [by eapply remove_length|]. by apply r_ret.
Qed.

Lemma r_unregister v p c n (P : Z -> pmcore -> Z -> Prop) : pm_ok v -> live v p c -> c_state c = IPA_PM_DEACTIVATED ->
  (forall es, let v' := v_leave v p (c_hdl c) es in
     remove_from_exceptions (c_hdl c) (v_exceptions v) = Ok es -> pm_ok v' -> votes v' = votes v -> P 0 v' n) ->
  runs (K := K) (unregister (c_hdl c) p) v n P.
Proof.
  intros Hok Hl Hst HP. destruct (ok_client v Hok p c Hl) as [_ Hat _ _ _ _ _ _]. pose proof law_pipes as Hmax.
  destruct (leave_exceptions v p c Hok Hl) as (es & Hes & He). apply r_leave with es; [done..|].
  apply (HP es); [done|apply leave_ok; [done..|lia|done]|by eapply leave_votes].
Qed.

(** The client is not there, is active, or leaves. *)
Lemma t_deregister v hdl o (P : Z -> pmcore -> Z -> Prop) : pm_ok v -> v_running v = None -> 0 <= o -> 0 <= hdl ->
  P (- EINVAL) v (o + votes v) ->
  (forall v', over o v' (o + votes v') -> kept v v' -> P (- EPERM) v' (o + votes v')) ->
  (forall p c v' es, live v p c -> c_hdl c = hdl -> over o v' (o + votes v') -> kept v v' ->
     (IPA_PM_STATE_IN_PROGRESS (c_state c) = false -> v' = v) ->
     remove_from_exceptions hdl (v_exceptions v') = Ok es -> over o (v_leave v' p hdl es) (o + votes v') ->
     P 0 (v_leave v' p hdl es) (o + votes v')) ->
  truns settle (ipa_pm_deregister hdl : T Z) v (o + votes v) P.
Proof.
  intros Hok Hi Ho Hh H1 H2 H3. unfold ipa_pm_deregister. apply t_ctx. destruct (hdl >=? IPA_PM_MAX_CLIENTS) eqn:E; [by apply t_ret|].
  destruct (at_hdl v hdl Hok Hh E) as (x & Hx & Hl). apply t_bind, t_sec, r_client_at with x; [done|].
  destruct x as [p|]; [|by apply t_ret]. destruct Hl as (c & Hl & Hc). cbv zeta.
  assert (Hchecked : forall v' c', pm_ok v' -> v_running v' = None -> kept v v' -> live v' p c' -> same_client c c' ->
    IPA_PM_STATE_IN_PROGRESS (c_state c') = false -> (IPA_PM_STATE_IN_PROGRESS (c_state c) = false -> v' = v) ->
    runs (K := K) (c ← cget p;
             if IPA_PM_STATE_ACTIVE (c_state c) then mret (Ret (- EPERM))
             else mret (sec (unregister hdl p) : T Z)) v' (o + votes v') (fun t w m => truns settle t w m P)).
  { intros v' c' Hok' Hi' Hk Hl' Hs Hp' Hsame. apply r_bind, r_cget with c'; [done|].
    destruct (IPA_PM_STATE_ACTIVE (c_state c')) eqn:Ha; [by apply r_ret, t_ret, H2|].
    assert (Hst : c_state c' = IPA_PM_DEACTIVATED) by (by destruct (c_state c')).
    assert (Ehdl : hdl = c_hdl c') by (destruct Hs as (? & _); congruence).
    assert (Hc' : c_hdl c = c_hdl c') by congruence. clear Hc E Hx. subst hdl. apply r_ret, t_sec, r_unregister; [done..|]. intros es w Hes Hokw Hv.
    apply (H3 p c v' es); [done..|]. split_and!; [done|done|]. by rewrite <- Hv. }
  apply t_section, r_bind, r_cget with c; [done|]. destruct (IPA_PM_STATE_IN_PROGRESS (c_state c)) eqn:Hp.
  - apply r_ret, t_await, (r_completed p c); [done..|]. intros v' c' Hok' Hi' Hk Hl' Hs Hst. apply t_section.
    apply (Hchecked v' c'); try done. rewrite Hst. by destruct (c_state c).
  - apply (Hchecked v c); done.
Qed.
End enter.
