(* ===== verification/PmHist.v ===== *)
(** * Sequences of events

    Whatever happens, the power manager keeps its invariant, and what a call starts the
    queue brings to its end.  Threads that are left on their way, for schedules of several
    calls ([tgoes], [pgoes]).  Threads that take votes and give them back keep the counter
    balanced in any order of their sections. *)

From Stdlib Require Import ZArith Lia Ascii String.
From stdpp Require Import prelude list numbers strings.
From S2P Require Import Prelude NatUtils StWp KernHal Act PmState PmClk IpaPm PmInv PmRules PmSeq PmWork PmCalls PmReg.

Local Open Scope Z_scope.

(** * Whatever happens, the power manager keeps its invariant

    [event_inv]: every event is defined and ends, and the counter of active clients has a
    vote for each of those that others hold and for each client that is active. *)

Section hist.
Context {K : Type} `{PW : PmWorks K}.
#[local] Notation T := (act (pmst * K)).
#[local] Notation PM := (St (pmst * K)).

Definition pm_inv_at (v : pmcore) (o : Z) (s : pmst * K) : Prop :=
  at_core v s /\ pm_ok v /\ v_running v = None /\ 0 <= o /\ clk_ok (clk (fst s)) (o + votes v).
Definition pm_inv (o : Z) (s : pmst * K) : Prop := exists v, pm_inv_at v o s.

(** ** Calls *)
Definition asks_thresholds (c : pm_call) : bool :=
  match c with CGetScalingBwLevels | CAddDummyClients _ | CRemoveDummyClients => true | _ => false end.

Lemma call_runs v o c : pm_ok v -> v_running v = None -> 0 <= o -> args_ok c = true -> asks_thresholds c = false ->
  truns settle (do_call c : T Z) v (o + votes v) (fun _ v' n' => over o v' n').
Proof.
  intros Hok Hi Ho Hc Hq. assert (Hv : over o v (o + votes v)) by done. destruct c; try done; clear Hq; cbn [args_ok do_call] in *; zify_bool.
  - destruct params as [params|]; zify_bool.
    + apply t_bind, t_register; [done|done|..].
      * intros _. by apply t_ret.
      * intros _. by apply t_ret.
      * intros h. by apply t_ret.
      * intros h es c v' _ _ _ _ Hok' Hvotes. apply t_ret. split_and!; [done|done|]. by rewrite Hvotes.
    + unfold ipa_pm_register. apply t_bind, t_bind, t_sec, r_pget. intros s x -> _. by apply t_ret, t_ret.
  - by apply t_deregister.
  - by apply t_associate.
  - apply t_client; [done..|]. intros p c Hl _ _. by apply t_activate_helper with c.
  - apply t_client; [done..|]. intros p c Hl _ _. by apply t_activate_helper with c.
  - apply t_client; [done..|]. intros p c Hl _ _. by apply t_deferred with c.
  - by apply t_all_deferred.
  - destruct (hdl >=? IPA_PM_MAX_CLIENTS) eqn:E; [unfold ipa_pm_deactivate_sync, with_client; rewrite E; by apply t_ctx, t_ret|].
    destruct (at_hdl v hdl Hok Hc E) as (x & Hx & Hl). destruct x as [p|].
    + destruct Hl as (c & Hl & Hh). rewrite Z.geb_leb in E. zify_bool. by apply t_deactivate_sync with p c.
    + unfold ipa_pm_deactivate_sync, with_client. rewrite E. apply t_ctx, t_bind, t_sec, r_client_at with None; [done|]. by apply t_ret.
  - by apply t_handle_suspend.
  - by apply t_set_throughput.
  - apply t_sec, r_bind, r_pget. intros s x _ _. by apply r_ret.
  - by apply t_sec, r_get_client.
Qed.

(** ** The dummy clients *)
Definition leaves_over (o : Z) (t : T Z) v : Prop := truns settle t v (o + votes v) (fun _ v' n' => over o v' n').

Lemma t_or_fail o t next v : leaves_over o t v -> (forall v', pm_ok v' -> v_running v' = None -> leaves_over o next v') ->
  leaves_over o (or_fail t next) v.
Proof.
  intros Ht Hn. unfold leaves_over, or_fail. apply t_bind. eapply truns_weaken; [exact Ht|].
  intros rc v' n' (Hok & Hi & ->). destruct (negb _); [by apply t_ret|by apply Hn].
Qed.

Lemma t_call o c v : pm_ok v -> v_running v = None -> 0 <= o -> args_ok c = true -> asks_thresholds c = false -> leaves_over o (do_call c) v.
Proof. apply call_runs. Qed.

Lemma ok_dummies_change v d : pm_ok v -> dummies_ok d -> pm_ok (v_set_dummies v d).
Proof.
  intros Hok Hd. split; try apply Hok; try done.
  - intros p c Hc. by destruct (ok_client v Hok p c Hc).
  - eapply list.Forall_impl; [apply Hok|]. by intros e [? ? ?].
Qed.

Lemma remove_dummies_runs o v : pm_ok v -> v_running v = None -> 0 <= o -> leaves_over o ipa_pm_remove_dummy_clients v.
Proof.
  intros Hok Hi Ho. unfold ipa_pm_remove_dummy_clients. apply t_bind, t_sec, r_pget. intros s x Hx Hc.
  assert (Hd : dummies_ok (dummy_hdl_1 s, dummy_hdl_2 s, tput_modem s, tput_apps s)).
  { pose proof (ok_dummies v Hok) as H. unfold core in Hc. rewrite Hx in Hc. injection Hc as <-. exact H. }
  destruct Hd as (H1 & H2 & H3 & H4). clear Hx Hc.
  repeat (apply t_or_fail; [|clear v Hok Hi; intros v Hok Hi]); [..|by apply t_ret].
  - apply (t_call o (CDeactivateSync (dummy_hdl_1 s))); try done. cbn. lia.
  - apply (t_call o (CDeactivateSync (dummy_hdl_2 s))); try done. cbn. lia.
  - apply (t_call o (CSetThroughput (dummy_hdl_1 s) (tput_modem s))); try done. cbn. lia.
  - apply (t_call o (CSetThroughput (dummy_hdl_2 s) (tput_apps s))); try done. cbn. lia.
  - apply (t_call o (CDeregister (dummy_hdl_1 s))); try done. cbn. lia.
  - apply (t_call o (CDeregister (dummy_hdl_2 s))); try done. cbn. lia.
Qed.

(** The throughput of the plan is known. *)
Definition add_dummies_at (tput : Z) : T Z :=
  '(rc, hdl_1) ← ipa_pm_register (Some (dummy_params "DummyModem" IPA_PM_GROUP_MODEM));
  if negb (rc =? 0) then Ret (- EFAULT)
  else
    '(rc, hdl_2) ← ipa_pm_register (Some (dummy_params "DummyApps" IPA_PM_GROUP_APPS));
    if negb (rc =? 0) then Ret (- EFAULT)
    else
      s ← sec (x ← xget;
               m ← st_lift (deref (zget (group_tput x) (group_index IPA_PM_GROUP_MODEM)));
               a ← st_lift (deref (zget (group_tput x) (group_index IPA_PM_GROUP_APPS)));
               _ ← pmod (fun s => set_dummies s (default 0 hdl_1) (default 0 hdl_2) m a);
               pget);
      or_fail (ipa_pm_set_throughput (dummy_hdl_1 s) tput)
        (or_fail (ipa_pm_set_throughput (dummy_hdl_2 s) tput)
          (or_fail (ipa_pm_activate_sync (dummy_hdl_1 s))
            (or_fail (ipa_pm_activate_sync (dummy_hdl_2 s)) (Ret 0)))).

Lemma r_dummies h1 h2 m a v n (P : unit -> pmcore -> Z -> Prop) :
  P tt (v_set_dummies v (h1, h2, m, a)) n -> runs (K := K) (pmod (fun s => set_dummies s h1 h2 m a)) v n P.
Proof.
  intros HP [s k] Q [Hs Hd] Hk HQ. unfold wp, pmod. eapply HQ; [done|split; [|exact Hd]|done]. unfold core in *. cbn in *.
  destruct (pm_ctx s) as [x|]; [|done]. by injection Hs as <-.
Qed.

(** A registration that leads to an error or to a handle. *)
Lemma t_register_then r o v (f : Z * option Z -> T Z) : pm_ok v -> v_running v = None ->
  Z.of_nat (String.length (r_name r)) < IPA_PM_MAX_EX_CL ->
  (forall rc h v', rc <> 0 -> pm_ok v' -> v_running v' = None -> leaves_over o (f (rc, h)) v') ->
  (forall h v', 1 <= h -> pm_ok v' -> v_running v' = None -> leaves_over o (f (0, Some h)) v') ->
  leaves_over o (ipa_pm_register (Some r) ≫= f) v.
Proof.
  intros Hok Hi Hlen He Hf. apply t_bind, t_register; [done|done|..].
  - intros _. by apply He.
  - intros _. by apply He.
  - intros h. by apply He.
  - intros h es c v' Hh _ _ _ Hok' Hv. rewrite <- Hv. apply Hf; [lia|done..].
Qed.

Lemma add_dummies_runs tput o v : pm_ok v -> v_running v = None -> 0 <= o -> tput <= TPUT_MAX ->
  leaves_over o (add_dummies_at tput) v.
Proof.
  intros Hok Hi Ho Ht. unfold add_dummies_at. apply t_register_then; [done..| |].
  { intros rc h v' Hrc Hok' Hi'. apply Z.eqb_neq in Hrc as ->. by apply t_ret. }
  clear v Hok Hi. intros h1 v Hh1 Hok Hi. change (negb (0 =? 0)) with false. cbn iota. apply t_register_then; [done..| |].
  { intros rc h v' Hrc Hok' Hi'. apply Z.eqb_neq in Hrc as ->. by apply t_ret. }
  clear v Hok Hi. intros h2 v Hh2 Hok Hi. change (negb (0 =? 0)) with false. cbn iota.
  assert (Hg : forall g, exists t, zget (v_tputs v) (group_index g) = Some t /\ 0 <= t <= TPUT_MAX).
  { intros g. destruct (zget_lt_Some (v_tputs v) (group_index g)) as [t Hz]; [rewrite (ok_tputs_len v Hok); destruct g; cbn; lia|].
    exists t. split; [done|]. pose proof (ok_tputs v Hok) as H. rewrite list.Forall_forall in H. apply H.
    unfold zget in Hz. destruct (0 <=? _); [|done]. by eapply list_elem_of_lookup_2. }
  destruct (Hg IPA_PM_GROUP_MODEM) as (m & Hm & Hmr). destruct (Hg IPA_PM_GROUP_APPS) as (a & Ha & Har).
  apply t_bind, t_sec, r_bind, r_xget. intros x _ _ _ _ _ _ _ Hx. rewrite Hx.
  apply r_bind, r_lift with m; [by rewrite Hm|]. apply r_bind, r_lift with a; [by rewrite Ha|]. apply r_bind, r_dummies, r_pget.
  set (w := v_set_dummies _ _). intros s y Hy Hc.
  assert (Hok' : pm_ok w) by (apply ok_dummies_change; [done|cbn; lia]).
  assert (E : dummy_hdl_1 s = h1 /\ dummy_hdl_2 s = h2).
  { unfold core in Hc. rewrite Hy in Hc. apply (f_equal (option_map v_dummies)) in Hc. by injection Hc. }
  destruct E as [-> ->]. change (votes v) with (votes w). change (v_running w = None) in Hi.
  clearbody w. clear Hg Hm Ha Hx Hy Hc Hok v. revert w Hok' Hi. intros v Hok Hi.
  change (leaves_over o (or_fail (ipa_pm_set_throughput h1 tput) (or_fail (ipa_pm_set_throughput h2 tput)
    (or_fail (ipa_pm_activate_sync h1) (or_fail (ipa_pm_activate_sync h2) (Ret 0))))) v).
  repeat (apply t_or_fail; [|clear v Hok Hi; intros v Hok Hi]); [..|by apply t_ret].
  - apply (t_call o (CSetThroughput h1 tput)); try done. cbn. lia.
  - apply (t_call o (CSetThroughput h2 tput)); try done. cbn. lia.
  - apply (t_call o (CActivateSync h1)); try done. cbn. lia.
  - apply (t_call o (CActivateSync h2)); try done. cbn. lia.
Qed.

(** ** Timers *)
Lemma expire_ok v p : pm_ok v -> p ∈ v_timers v ->
  pm_ok (v_set_work v (v_queue v ++ [WorkDeactivate p]) (List.filter (fun q => negb (q =? p)) (v_timers v)) (v_running v)).
Proof.
  intros Hok Hp. destruct (ok_works v Hok p) as [c Hl]; [tauto|]. destruct (live_settled v p c Hok Hl) as [S1 S2 S3 S4 S5 S6].
  set (ts := List.filter _ _). assert (Hts : forall x, x ∈ ts <-> x <> p /\ x ∈ v_timers v).
  { intros x. unfold ts. rewrite elem_of_filtered, negb_true_iff, Z.eqb_neq. tauto. }
  destruct (change_ok v p c c (v_queue v ++ [WorkDeactivate p]) ts (v_bits v)) as [_ H]; try done; try apply Hok.
  - by apply (ok_client v Hok p c).
  - apply NoDup_app. split_and!; [apply Hok| |apply NoDup_singleton]. intros x Hx ->%list_elem_of_singleton. by apply S3.
  - apply nodup_filtered, Hok.
  - intros x Hx. rewrite !elem_of_app, !list_elem_of_singleton, Hts. split_and!; [split; [|tauto]; intros [|]; [done|congruence]..|tauto].
  - split; try done; rewrite !elem_of_app, !list_elem_of_singleton, ?Hts.
    + rewrite <- S1. split; [intros [|]; [done|congruence]|tauto].
    + rewrite <- S2. tauto.
    + tauto.
  - unfold v_upd in H. rewrite zset_same in H by done. exact H.
Qed.

Lemma r_timer p v n (P : unit -> pmcore -> Z -> Prop) :
  P tt (if bool_decide (p ∈ v_timers v) then v_set_work v (v_queue v ++ [WorkDeactivate p])
          (List.filter (fun q => negb (q =? p)) (v_timers v)) (v_running v) else v) n ->
  runs (K := K) (timer_expires p) v n P.
Proof.
  intros HP. unfold timer_expires. eapply r_xmod with (g := fun v => if bool_decide (p ∈ v_timers v) then
    v_set_work v (v_queue v ++ [WorkDeactivate p]) (List.filter (fun q => negb (q =? p)) (v_timers v)) (v_running v) else v); [| |done].
  2: { intros s x _ _ Hd. by destruct (bool_decide (p ∈ pm_timers x)). }
  intros s x Hx Hc. unfold core in *. rewrite Hx in Hc. injection Hc as <-. cbn. by destruct (bool_decide _).
Qed.

(** ** Events *)
(** What leads to a state in which the invariant holds. *)
Lemma wp_inv {A} (m : PM A) v o o' s : pm_inv_at v o s -> runs m v (o + votes v) (fun _ v' n' => over o' v' n' /\ 0 <= o') ->
  wp m (fun _ s' => pm_inv o' s') s.
Proof.
  intros (Hs & Hok & Hi & Ho & Hk) H. apply (H s _ Hs Hk). intros r v' n' s' [(Hok' & Hi' & ->) Ho'] Hs' Hk'. by exists v'.
Qed.

Lemma wp_call_inv {A} (t : T A) v o s : pm_inv_at v o s -> truns settle t v (o + votes v) (fun _ v' n' => over o v' n') ->
  wp (run settle t) (fun _ s' => pm_inv o s') s.
Proof.
  intros Hinv H. apply (wp_inv _ v o); [done|]. apply (t_alone settle). eapply truns_weaken; [exact H|].
  intros a v' n' Hov. split; [done|apply Hinv].
Qed.

(** The calls that read the thresholds in use. *)
Lemma levels_inv v o s : pm_inv_at v o s -> scaled s = true -> wp ipa_pm_get_scaling_bw_levels (fun _ s' => pm_inv o s') s.
Proof.
  intros Hinv Hsc. pose proof Hinv as ([_ Hd] & _). unfold ipa_pm_get_scaling_bw_levels. apply wp_bind, wp_pget. unfold scaled in Hsc.
  destruct (pm_ctx (fst s)) as [x|] eqn:Hx; [|done]. apply bool_decide_eq_true in Hsc. destruct (_ >=? 3); [|by apply wp_ret; exists v].
  destruct (current_set_ok (clk_scaling x)) as [ths Hths]; [by apply Hd|done|]. apply wp_bind. eapply wp_lift; [done|]. apply wp_ret. by exists v.
Qed.

Lemma add_dummies_inv v o plan s : pm_inv_at v o s -> plan_ok plan s = true ->
  wp (run settle (ipa_pm_add_dummy_clients plan)) (fun _ s' => pm_inv o s') s.
Proof.
  intros Hinv Hp. unfold ipa_pm_add_dummy_clients. destruct (plan <? 0) eqn:E0; [by apply wp_ret; exists v|].
  unfold plan_ok in Hp. destruct (pm_ctx (fst s)) as [x|] eqn:Hx; [|done]. apply wp_run_bind, wp_run_sec. unfold xget at 1.
  apply wp_bind, wp_pget. eapply wp_lift; [by rewrite Hx|]. destruct (plan - 1 >=? _) eqn:E1; [by apply wp_ret; exists v|].
  rewrite orb_false_r in Hp. apply wp_run_bind, wp_run_sec.
  assert (Hgo : forall tput, tput <= TPUT_MAX -> wp (run settle (add_dummies_at tput)) (fun _ s' => pm_inv o s') s).
  { intros tput Ht. apply (wp_call_inv _ v); [done|]. apply add_dummies_runs; by try apply Hinv. }
  destruct (plan =? 0) eqn:E2; [apply wp_ret, Hgo; done|]. zify_bool. apply orb_true_iff in Hp as [Hp|Hp]; [zify_bool; lia|].
  unfold xget at 1. apply wp_bind, wp_bind, wp_pget. eapply wp_lift; [by rewrite Hx|].
  destruct (thresholds (clk_scaling x)) as [ths| |] eqn:Hths; [|done..]. apply wp_bind. eapply wp_lift; [done|].
  destruct (zget ths (plan - 1)) as [t|] eqn:Ht; [|done]. zify_bool. eapply wp_lift; [done|]. by apply Hgo.
Qed.

Lemma call_inv v o c s : pm_inv_at v o s -> call_ok c s = true -> wp (call (do_call c)) (fun _ s' => pm_inv o s') s.
Proof.
  intros Hinv [Ha Hc]%andb_true_iff. pose proof Hinv as (_ & Hok & Hi & Ho & _). destruct (asks_thresholds c) eqn:E.
  - destruct c; try done; cbn [do_call] in *.
    + apply wp_run_sec, wp_bind. eapply wp_mono; [by apply (levels_inv v o)|]. intros [r l] s' Hs'. by apply wp_ret.
    + by apply (add_dummies_inv v).
    + apply (wp_call_inv _ v); [done|]. by apply remove_dummies_runs.
  - apply (wp_call_inv _ v); [done|]. by apply call_runs.
Qed.

Lemma event_runs v o e : pm_ok v -> v_running v = None -> 0 <= o -> (forall c, e <> ECall c) -> (e = EDec \/ e = EDecNoBlock -> 1 <= o) ->
  runs (K := K) (event e) v (o + votes v) (fun r v' n' => over (others_after e r o) v' n' /\ 0 <= others_after e r o).
Proof.
  intros Hok Hi Ho Hne He. pose proof (votes_nonneg v) as Hv. unfold over. destruct e; cbn [event others_after] in *.
  - by destruct (Hne c).
  - apply r_bind. eapply runs_weaken; [by apply work_runs|]. intros [] v' n' (Hok' & -> & Hw). apply r_ret.
    split_and!; [done| |done|done]. destruct (v_queue v); [by subst|apply Hw].
  - apply r_bind, r_timer, r_ret. case_bool_decide; (split_and!; [|done..]); [by apply expire_ok|done].
  - apply r_bind, (t_alone settle). eapply truns_weaken; [apply clk_work_runs|]. intros [] ? ? [-> ->]. apply r_ret. by split_and!.
  - apply r_bind. apply (t_alone settle). eapply truns_weaken; [apply inc_runs|]. intros [] ? ? [-> ->]. apply r_ret. split_and!; [done|done|lia|lia].
  - apply r_no_block; [change (0 =? 0) with true|change (- EPERM =? 0) with false]; cbv iota; (split_and!; [done|done|lia|lia]).
  - assert (1 <= o) by auto. apply r_bind. apply (t_alone settle). eapply truns_weaken; [apply dec_runs; lia|]. intros [] ? ? [-> ->]. apply r_ret. split_and!; [done|done|lia|lia].
  - assert (1 <= o) by auto. apply r_bind. apply (t_alone settle). eapply truns_weaken; [apply dec_no_block_runs; lia|]. intros [] ? ? [-> ->]. apply r_ret. split_and!; [done|done|lia|lia].
  - apply r_bind, runs_clk with (o + votes v); [by intros k [? ? ? ? ?]|]. by apply r_ret.
Qed.

Lemma event_inv o s e : pm_inv o s -> event_ok e o s = true ->
  exists r s', event e s = Ok (r, s') /\ pm_inv (others_after e r o) s'.
Proof.
  intros [v Hinv] He. apply wp_ok. assert (Hd : (exists c, e = ECall c) \/ forall c, e <> ECall c) by (destruct e; naive_solver).
  destruct Hd as [[c ->]|Hne]; [exact (call_inv v o c s Hinv He)|]. destruct Hinv as (Hs & Hok & Hi & Ho & Hk). apply (event_runs v o e); try done.
  - intros [-> | ->]; cbn in He; zify_bool; lia.
  - intros r v' n' s' [(Hok' & Hi' & ->) Ho'] Hs' Hk'. by exists v'.
Qed.

(** ** The beginning *)
Lemma mask_zero h : mask_bit [0; 0] h = false.
Proof.
  unfold mask_bit. destruct (zget [0; 0] (word_of h)) as [w|] eqn:E; [|done].
  assert (w = 0) as ->; [|apply Z.bits_0]. unfold zget in E. destruct (0 <=? _); [|done].
  apply list_elem_of_lookup_2 in E. by repeat (apply elem_of_cons in E as [->|E]; [done|]); apply elem_of_nil in E.
Qed.

Lemma start_ok es d : dummies_ok d -> Forall (fun e => ex_bitmask e = [0; 0] /\ ex_pending e = count_commas (ex_clients e) + 1) es ->
  pm_ok (mk_core [] (replicate (Z.to_nat IPA_PM_MAX_CLIENTS) None) (replicate (Z.to_nat IPA5_PIPES_NUM) None) [] [] None es
    [0; 0] [0; 0; 0] d).
Proof.
  intros Hd He. assert (Hnil : forall p, @zget (option ipa_pm_client) [] p = None) by (intros p; unfold zget; by case_match).
  split; try done; cbn [v_heap v_clients v_pipes v_queue v_timers v_exceptions v_bits v_tputs].
  - repeat (constructor; [unfold TPUT_MAX; lia|]). constructor.
  - intros h p H. by apply zget_replicate in H.
  - intros p c H. unfold live in H. cbn in H. by rewrite Hnil in H.
  - intros i p H. by apply zget_replicate in H.
  - constructor.
  - constructor.
  - intros p H. by apply elem_of_nil in H.
  - intros p [H|[H|H]]; by apply elem_of_nil in H.
  - intros h Hh H. by rewrite mask_zero in H.
  - intros p q c e H. unfold live in H. cbn in H. by rewrite Hnil in H.
  - eapply list.Forall_impl; [done|]. intros e [Eb Ep]. split; [by rewrite Eb| |].
    + intros h _. rewrite Eb, mask_zero. split; [done|]. intros (p & c & H & _). unfold live in H. cbn in H. by rewrite Hnil in H.
    + right. split; [|done]. intros p c H. unfold live in H. cbn in H. by rewrite Hnil in H.
Qed.

Lemma init_inv params (k0 : K) s : call (ipa_pm_init (Some params)) (pmst0, k0) = Ok (0, s) -> pm_inv 0 s.
Proof.
  unfold call, ipa_pm_init. destruct (_ || _); [by intros [=]|]. destruct (_ || _); [by intros [=]|].
  rewrite run_sec. unfold mbind, st_bind, pget. cbn [fst pm_ctx pmst0]. unfold psys at 1.
  destruct (pm_kzalloc k0) as [ok1 k1]. destruct ok1; cbn [negb]; [|by intros [=]]. unfold psys at 1.
  destruct (create_singlethread_workqueue k1) as [ok2 k2]. destruct ok2; cbn [negb]; [|by intros [=]]. intros [= <-].
  eexists. split; [split; [done|]|].
  { intros x [= <-] i Hi. done. }
  split_and!; [apply start_ok; [cbn; unfold TPUT_MAX; lia|]|done|done|by split].
  apply list.Forall_forall. intros e He. apply list_elem_of_fmap in He as ([u ths] & -> & _). done.
Qed.

Lemma reach_inv params (k0 : K) o s : pm_reach params k0 o s -> pm_inv o s.
Proof.
  induction 1 as [s Hs|o s e r s' _ IH He Hs]; [by eapply init_inv|].
  destruct (event_inv o s e IH He) as (r' & s1 & E & Hinv). rewrite Hs in E. by injection E as <- <-.
Qed.
End hist.

(** * What a call starts comes to its end

    [drain_runs]: after the whole queue has run every client is where its item led it.
    [round] is the time of a client's timer and the queue after it. *)

Section live.
Context {K : Type} `{PW : PmWorks K}.
#[local] Notation PM := (St (pmst * K)).

(** Every client goes to the state that [f] gives. *)
Definition leads (f : Z -> ipa_pm_state -> ipa_pm_state) (v v' : pmcore) : Prop := forall p c, live v p c ->
  exists c', live v' p c' /\ same_client c c' /\ c_state c' = f p (c_state c).

Lemma kept_live v v' p c d : kept v v' -> live v p c -> live v' p d -> same_client c d.
Proof.
  intros Hk Hc Hd. destruct (k_fwd _ _ Hk p c Hc) as (e & He & Hs). unfold live in *. rewrite Hd in He. by injection He as <-.
Qed.

Lemma drained_same v v' p st :
  (WorkActivate p ∈ v_queue v' <-> WorkActivate p ∈ v_queue v) ->
  (WorkDeactivate p ∈ v_queue v' <-> WorkDeactivate p ∈ v_queue v) -> drained_state v' p st = drained_state v p st.
Proof. intros H1 H2. unfold drained_state. repeat case_bool_decide; tauto. Qed.

Lemma drained_none v p st : WorkActivate p ∉ v_queue v -> WorkDeactivate p ∉ v_queue v -> drained_state v p st = st.
Proof. intros H1 H2. unfold drained_state. by rewrite !bool_decide_false. Qed.

(** The rest of the queue does what is left to do. *)
Lemma drained_worked v v' p c d : pm_ok v -> worked v v' -> v_queue v <> [] -> live v p c -> live v' p d ->
  drained_state v' p (c_state d) = drained_state v p (c_state c).
Proof.
  intros Hok W Hne Hc Hd. destruct (v_queue v) as [|w q] eqn:Hq; [done|].
  pose proof (w_queue _ _ W) as Hq'. rewrite Hq in Hq'. cbn in Hq'. destruct (live_settled v p c Hok Hc) as [S1 S2 _ _ _ _].
  pose proof (item_notin v w q Hok Hq) as Hnin. pose proof (item_in v w q Hq) as Hin.
  destruct (decide (w = WorkActivate p)) as [->|H1]; [|destruct (decide (w = WorkDeactivate p)) as [->|H2]].
  - destruct (w_activate _ _ W p c Hc) as (e & He & Hst & _); [by rewrite Hq|].
    assert (d = e) as -> by (unfold live in *; congruence). rewrite Hst.
    assert (HA : WorkActivate p ∈ v_queue v) by (rewrite Hq; constructor).
    assert (Hn : WorkDeactivate p ∉ q).
    { rewrite Hin by done. intros H. apply S1 in HA. assert (timed (c_state c) = true) by (apply S2; by right). by destruct (c_state c). }
    rewrite drained_none by (by rewrite Hq'). unfold drained_state. by rewrite bool_decide_true.
  - destruct (w_deactivate _ _ W p c Hc) as (e & He & Hst); [by rewrite Hq|].
    assert (d = e) as -> by (unfold live in *; congruence). rewrite Hst.
    assert (HD : WorkDeactivate p ∈ v_queue v) by (rewrite Hq; constructor).
    assert (Ht : timed (c_state c) = true) by (apply S2; by right).
    assert (HA : WorkActivate p ∉ v_queue v) by (rewrite S1; by destruct (c_state c)).
    rewrite drained_none by (rewrite Hq'; first [done|by rewrite Hin]).
    unfold drained_state. by rewrite bool_decide_false, bool_decide_true.
  - assert (live v' p c) as Hc'.
    { apply (w_other _ _ W); rewrite ?Hq; [done|]. cbn. destruct w; cbn; congruence. }
    assert (d = c) as -> by (unfold live in *; congruence).
    apply drained_same; rewrite Hq'; apply Hin; congruence.
Qed.

Lemma same_trans c d e : same_client c d -> same_client d e -> same_client c e.
Proof. intros (? & ? & ? & ? & ? & ?) (? & ? & ? & ? & ? & ?). unfold same_client. split_and!; congruence. Qed.

Lemma drain_runs v o : pm_ok v -> v_running v = None -> 0 <= o ->
  runs (K := K) drain v (o + votes v) (fun _ v' n' => over o v' n' /\ v_queue v' = [] /\ kept v v' /\
    leads (drained_state v) v v').
Proof.
  intros Hok Hi Ho. eapply runs_weaken; [apply (r_settle _ (fun v => bool_decide (v_queue v = [])) (fun w => kept v w /\
    forall p c d, live v p c -> live w p d -> drained_state w p (c_state d) = drained_state v p (c_state c)))|].
  - intros w s Hs. rewrite (queued_at w s Hs). case_bool_decide as E; [by rewrite E|]. by destruct (v_queue w).
  - done.
  - done.
  - done.
  - split; [reflexivity|]. intros p c d Hc Hd. assert (c = d) as -> by (unfold live in *; congruence). done.
  - intros w Hw [Hk Hdr] Hne. apply bool_decide_eq_false in Hne. split; [done|]. intros w' Hw' W.
    split; [etrans; [done|apply W]|]. intros p c d Hc Hd. destruct (k_fwd _ _ Hk p c Hc) as (e & He & _).
    rewrite <- (Hdr p c e Hc He). by apply drained_worked.
  - intros [] v' n' (Hok' & Hi' & [Hk Hdr] & Hq & ->). apply bool_decide_eq_true in Hq. split_and!; [by split_and!|done|done|].
    intros p c Hc. destruct (k_fwd _ _ Hk p c Hc) as (d & Hd & Hs). exists d. split_and!; [done..|].
    rewrite <- (Hdr p c d Hc Hd). rewrite drained_none; [done|rewrite Hq; apply not_elem_of_nil..].
Qed.

(** ** The time of a client *)
Definition round (p : Z) : PM unit := _ ← timer_expires p; drain.

Lemma round_runs v o p c : pm_ok v -> v_running v = None -> 0 <= o -> v_queue v = [] -> live v p c ->
  runs (K := K) (round p) v (o + votes v) (fun _ v' n' => over o v' n' /\ v_queue v' = [] /\ kept v v' /\
    leaves p c v' (after_timer (c_state c))).
Proof.
  intros Hok Hi Ho Hq Hl. destruct (live_settled v p c Hok Hl) as [S1 S2 _ _ _ _]. rewrite Hq in S1, S2.
  apply r_bind, r_timer. case_bool_decide as Hp.
  - set (w := v_set_work _ _ _ _). change (votes v) with (votes w).
    eapply runs_weaken; [apply drain_runs; [by apply expire_ok|done|done]|].
    intros [] v' n' (Hov & Hq' & [Hk1 Hk2] & Hlead). split_and!; [done|done|by split|].
    destruct (Hlead p c Hl) as (d & Hd & Hs & Hst). exists d. split_and!; [done..|]. rewrite Hst. unfold drained_state, w. cbn.
    rewrite Hq. cbn. rewrite bool_decide_false, bool_decide_true; [done|constructor|].
    intros H. apply elem_of_cons in H as [H|H]; [done|by apply elem_of_nil in H].
  - eapply runs_weaken; [by apply drain_runs|]. intros [] v' n' (Hov & Hq' & Hk & Hlead). split_and!; [done..|].
    destruct (Hlead p c Hl) as (d & Hd & Hs & Hst). exists d. split_and!; [done..|].
    rewrite drained_none in Hst by (rewrite Hq; apply not_elem_of_nil). rewrite Hst.
    assert (timed (c_state c) = false) as Ht; [|by destruct (c_state c)].
    apply not_true_is_false. intros Ht. apply S2 in Ht as [Ht|Ht]; [done|by apply elem_of_nil in Ht].
Qed.

(** ** From a call to its end *)
Lemma leaves_drained v p c st v' : live v p c -> leads (drained_state v) v v' -> st = c_state c ->
  leaves p c v' (drained_state v p st).
Proof. intros Hl Hd ->. destruct (Hd p c Hl) as (d & ? & ? & ?). by exists d. Qed.

Definition client_state (s : pmst * K) (p : Z) : option ipa_pm_state :=
  match zget (heap (fst s)) p with Some (Some c) => Some (c_state c) | _ => None end.

Lemma client_state_at v s p c : at_core v s -> live v p c -> client_state s p = Some (c_state c).
Proof.
  intros [Hs _]. revert Hs. unfold core, client_state, live. destruct (pm_ctx (fst s)); [|done]. intros [= <-]. cbn. by intros ->.
Qed.

Lemma t_activate v p c hdl o (P : Z -> pmcore -> Z -> Prop) : pm_ok v -> v_running v = None -> 0 <= o -> live v p c ->
  c_hdl c = hdl ->
  (forall r v' st, over o v' (o + votes v') -> kept v v' -> leaves p c v' st -> activation false r st -> P r v' (o + votes v')) ->
  truns (K := K) settle (ipa_pm_activate hdl) v (o + votes v) P.
Proof.
  intros Hok Hi Ho Hl <- HP. pose proof (ok_client v Hok p c Hl) as [C1 C2 _ _ _ _ _ _]. unfold ipa_pm_activate, with_client.
  apply t_ctx. rewrite Z.geb_leb, (proj2 (Z.leb_gt _ _)) by lia. apply t_bind, t_sec, r_client_at with (Some p); [done|].
  by apply t_activate_helper with c.
Qed.

Lemma t_defer v p c hdl o (P : Z -> pmcore -> Z -> Prop) : pm_ok v -> v_running v = None -> 0 <= o -> live v p c ->
  c_hdl c = hdl ->
  (forall v', over o v' (o + votes v') -> kept v v' -> leaves p c v' (defer_state (c_state c)) -> P 0 v' (o + votes v')) ->
  truns (K := K) settle (ipa_pm_deferred_deactivate hdl) v (o + votes v) P.
Proof.
  intros Hok Hi Ho Hl <- HP. pose proof (ok_client v Hok p c Hl) as [C1 C2 _ _ _ _ _ _].
  unfold ipa_pm_deferred_deactivate, with_client.
  apply t_ctx. rewrite Z.geb_leb, (proj2 (Z.leb_gt _ _)) by lia. apply t_bind, t_sec, r_client_at with (Some p); [done|].
  by apply t_deferred with c.
Qed.
End live.

(** * Threads that are left on their way

    [tgoes t v n Q]: from a state with the core [v] and [n] votes, [t] goes on by itself
    until what is left of it, the core and the votes satisfy [Q]. *)

Section steps.
Context {K : Type} `{PW : PmWorks K}.
#[local] Notation T := (act (pmst * K)).
#[local] Notation PM := (St (pmst * K)).

Lemma runs_ok {A} (m : St (pmst * K) A) v n P s : runs m v n P -> at_core v s -> clk_ok (clk (fst s)) n ->
  exists a s' v' n', m s = Ok (a, s') /\ P a v' n' /\ at_core v' s' /\ clk_ok (clk (fst s')) n'.
Proof.
  intros H Hs Hk.
  assert (Hw : wp m (fun a s' => exists v' n', P a v' n' /\ at_core v' s' /\ clk_ok (clk (fst s')) n') s).
  { apply (H s _ Hs Hk). intros a v' n' s' ? ? ?. by exists v', n'. }
  apply wp_ok in Hw as (a & s' & E & v' & n' & ? & ? & ?). by exists a, s', v', n'.
Qed.

Definition tgoes {A} (t : T A) v n (Q : T A -> pmcore -> Z -> Prop) : Prop :=
  forall s, at_core v s -> clk_ok (clk (fst s)) n ->
  exists t' s' v' n', rtc act_step (t, s) (t', s') /\ Q t' v' n' /\ at_core v' s' /\ clk_ok (clk (fst s')) n'.

Lemma g_stop {A} (t : T A) v n (Q : T A -> pmcore -> Z -> Prop) : Q t v n -> tgoes t v n Q.
Proof. intros H s Hs Hk. exists t, s, v, n. by split_and!. Qed.

Lemma g_trans {A} (t : T A) v n (P Q : T A -> pmcore -> Z -> Prop) :
  tgoes t v n P -> (forall t' v' n', P t' v' n' -> tgoes t' v' n' Q) -> tgoes t v n Q.
Proof.
  intros Ht HP s Hs Hk. destruct (Ht s Hs Hk) as (t1 & s1 & v1 & n1 & R1 & H1 & Hs1 & Hk1).
  destruct (HP _ _ _ H1 s1 Hs1 Hk1) as (t2 & s2 & v2 & n2 & R2 & H2). exists t2, s2, v2, n2. split; [by etrans|done].
Qed.

Lemma g_section {A} (m : PM (T A)) v n Q : runs m v n (fun t v' n' => tgoes t v' n' Q) -> tgoes (Sec m) v n Q.
Proof.
  intros Hm s Hs Hk. destruct (runs_ok _ _ _ _ s Hm Hs Hk) as (t1 & s1 & v1 & n1 & E & Ht & Hs1 & Hk1).
  destruct (Ht s1 Hs1 Hk1) as (t2 & s2 & v2 & n2 & R & H). exists t2, s2, v2, n2. split; [|done].
  apply rtc_l with (t1, s1); [|done]. unfold act_step. cbn. by rewrite E.
Qed.

(** The first part of a thread: left on its way, or to its end. *)
Lemma g_inside {A B} (t : T A) (f : A -> T B) v n (Q : T B -> pmcore -> Z -> Prop) :
  tgoes t v n (fun t' v' n' => Q (t' ≫= f) v' n') -> tgoes (t ≫= f) v n Q.
Proof.
  intros Ht s Hs Hk. destruct (Ht s Hs Hk) as (t1 & s1 & v1 & n1 & R1 & H1). exists (t1 ≫= f), s1, v1, n1.
  split; [by apply steps_bind|done].
Qed.

Lemma g_run {A} (t : T A) v n P : truns wait_never t v n P -> tgoes t v n (fun t' v' n' => exists a, t' = Ret a /\ P a v' n').
Proof.
  intros Ht s Hs Hk. destruct (runs_ok _ _ _ _ s (Ht wait_never_ready) Hs Hk) as (a & s1 & v1 & n1 & E & H).
  exists (Ret a), s1, v1, n1. split; [by apply steps_run|]. destruct H as (? & ? & ?). split_and!; [by exists a|done..].
Qed.

Lemma g_bind {A B} (t : T A) (f : A -> T B) v n Q :
  truns wait_never t v n (fun a v' n' => tgoes (f a) v' n' Q) -> tgoes (t ≫= f) v n Q.
Proof.
  intros Ht. apply (g_trans _ _ _ (fun t' v' n' => exists a, t' = f a /\ tgoes (f a) v' n' Q)).
  - apply g_inside. eapply g_trans; [apply (g_run _ _ _ _ Ht)|]. intros t' v' n' (a & -> & H). apply g_stop. by exists a.
  - by intros t' v' n' (a & -> & H).
Qed.

(** Several threads: some schedule leads to [Q]. *)
Definition pgoes {A} (ts : list (T A)) v n (Q : list (T A) -> pmcore -> Z -> Prop) : Prop :=
  forall s, at_core v s -> clk_ok (clk (fst s)) n ->
  exists sched ts' s' v' n', pool_run sched (ts, s) = Some (ts', s') /\ Q ts' v' n' /\ at_core v' s' /\ clk_ok (clk (fst s')) n'.

Lemma p_stop {A} (ts : list (T A)) v n (Q : list (T A) -> pmcore -> Z -> Prop) : Q ts v n -> pgoes ts v n Q.
Proof. intros H s Hs Hk. exists [], ts, s, v, n. by split_and!. Qed.

Lemma p_thread {A} i (t : T A) ts v n Q : ts !! i = Some t ->
  tgoes t v n (fun t' v' n' => pgoes (<[i := t']> ts) v' n' Q) -> pgoes ts v n Q.
Proof.
  intros Hi Ht s Hs Hk. destruct (Ht s Hs Hk) as (t1 & s1 & v1 & n1 & R & H & Hs1 & Hk1).
  destruct (pool_steps ts i t t1 s s1 R Hi) as (l & El). destruct (H s1 Hs1 Hk1) as (l' & ts' & s' & v' & n' & El' & HQ).
  exists (l ++ l'), ts', s', v', n'. split; [|done]. by rewrite pool_run_app, El.
Qed.

Lemma p_run {A} i (t : T A) ts v n Q : ts !! i = Some t ->
  truns wait_never t v n (fun a v' n' => pgoes (<[i := Ret a]> ts) v' n' Q) -> pgoes ts v n Q.
Proof.
  intros Hi Ht. apply (p_thread i t); [done|]. eapply g_trans; [apply (g_run _ _ _ _ Ht)|].
  intros t' v' n' (a & -> & H). by apply g_stop.
Qed.

(** ** Where calls on the same client can be left

    From states in the middle of other calls, for which the invariant need not hold. *)
Record reaches (v : pmcore) (hdl p : Z) (c : ipa_pm_client) : Prop := {
  re_hdl : hdl < IPA_PM_MAX_CLIENTS;
  re_at : zget (v_clients v) hdl = Some (Some p);
  re_live : live v p c;
  re_idle : v_running v = None }.

Lemma g_client hdl p c (f : Z -> T Z) v n Q : reaches v hdl p c -> tgoes (f p) v n Q -> tgoes (with_client hdl f) v n Q.
Proof.
  intros [Hh Hat _ _] H. unfold with_client, with_ctx. apply g_bind, t_sec, r_pget. intros s x -> _.
  rewrite Z.geb_leb, (proj2 (Z.leb_gt _ _)) by done. apply g_bind, t_sec, r_client_at with (Some p); [done|exact H].
Qed.

(** Between the look at the state and the vote that is given back. *)
Lemma g_deactivate_sync v hdl p c n : reaches v hdl p c -> IPA_PM_STATE_ACTIVE (c_state c) = true ->
  tgoes (ipa_pm_deactivate_sync hdl) v n (fun t' v' n' => t' = deactivate_rest hdl p /\ v' = v_cancel v p /\ n' = n).
Proof.
  intros Hr Ha. unfold ipa_pm_deactivate_sync. apply (g_client hdl p c); [done|]. destruct Hr as [_ _ Hl Hi].
  apply g_bind, t_cancel; [done|]. apply g_bind, t_sec, r_cget with c; [done|]. cbv zeta.
  replace (IPA_PM_STATE_IN_PROGRESS (c_state c)) with false by (by destruct (c_state c)).
  apply g_bind, t_sec, r_cget with c; [done|]. rewrite decide_False by (by destruct (c_state c)). by apply g_stop.
Qed.

(** Between the two holdings of the lock, while it waits for the clocks. *)
Definition activate_rest (p : Z) : T Z := _ ← ipa3_inc_client_enable_clks; Sec (got_clocks p true).

Lemma g_activate_sync v hdl p c n : reaches v hdl p c -> c_state c = IPA_PM_DEACTIVATED -> c_skip_clk_vote c = false ->
  tgoes (ipa_pm_activate_sync hdl) v n (fun t' v' n' =>
    t' = activate_rest p /\ v' = v_put v p (c_set_state c IPA_PM_ACTIVATE_IN_PROGRESS) /\ n' = n).
Proof.
  intros Hr Hst Hk. unfold ipa_pm_activate_sync. apply (g_client hdl p c); [done|]. destruct Hr as [_ _ Hl _].
  unfold ipa_pm_activate_helper, helper_switch, helper_vote.
  apply g_section, r_bind, r_cget with c; [done|]. rewrite Hst. apply r_bind, r_cget with c; [done|]. rewrite Hst.
  apply r_bind, r_cget with c; [done|]. rewrite Hk. apply r_bind. eapply r_set_state; [done|]. by apply r_ret, g_stop.
Qed.

(** A second activation waits. *)
Lemma g_activate_waits v hdl p c n : reaches v hdl p c -> IPA_PM_STATE_IN_PROGRESS (c_state c) = true ->
  tgoes (ipa_pm_activate_sync hdl) v n (fun t' v' n' =>
    t' = Await (completed p) (Sec (helper_switch p true)) /\ v' = v /\ n' = n).
Proof.
  intros Hr Hp. unfold ipa_pm_activate_sync. apply (g_client hdl p c); [done|]. destruct Hr as [_ _ Hl _].
  unfold ipa_pm_activate_helper. apply g_section, r_bind, r_cget with c; [done|]. rewrite Hp. by apply r_ret, g_stop.
Qed.

(** The worker, before it gives the vote back that it took. *)
Definition doomed {A} (p : Z) (t : T A) : Prop := forall s, zget (heap (fst s)) p = Some None -> advance t s = Some UB.

Lemma doomed_bind {A B} p (t : T A) (f : A -> T B) : doomed p t -> doomed p (t ≫= f).
Proof. intros H s Hs. by rewrite (advance_bind _ _ _ _ (H s Hs)). Qed.

Lemma doomed_devote p : doomed p (devote p : T unit).
Proof. apply doomed_bind. intros s Hs. unfold sec, cget, mbind, st_bind, pget, st_lift. cbn. by rewrite Hs. Qed.

Definition cancelled (c : ipa_pm_client) : ipa_pm_client := c_set_complete (c_set_state (awaken c) IPA_PM_DEACTIVATED) true.

Lemma g_activate_work v p c q n : live v p c -> c_state c = IPA_PM_DEACTIVATE_IN_PROGRESS -> v_queue v = WorkActivate p :: q ->
  tgoes work_once v n (fun t' v' n' => doomed p t' /\
    v' = v_put (v_set_work v q (v_timers v) (Some (WorkActivate p))) p (cancelled c)).
Proof.
  intros Hl Hst Hq. unfold work_once. apply g_bind, t_sec, r_take with (WorkActivate p) q; [done|].
  apply g_inside. cbn [work_func]. unfold activate_work_func. set (v1 := v_set_work _ _ _ _).
  apply g_bind. apply t_vote with c; [done|]. apply g_bind, t_sec, r_bind. eapply r_cget; [lv|].
  replace (c_state (awaken c)) with IPA_PM_DEACTIVATE_IN_PROGRESS by (unfold awaken; by destruct (_ && _)).
  apply r_bind. eapply r_set_state; [lv|]. rewrite v_put_put. apply r_ret.
  eapply g_bind, t_sec, r_cmod; [lv|]. rewrite v_put_put. apply g_stop. split; [|done].
  by apply doomed_bind, doomed_devote.
Qed.
End steps.

(** * Votes taken and given back by threads that interleave

    Threads that use votes, and workers of [power_mgmt_wq], in any order of their
    sections. *)

(** A vote is taken and given back, each in a way that may block or not; or the TAG
    process is asked for before the clocks go off. *)
Inductive vote_use := UseVote (block_take block_give : bool) | UseTag.

Section votes.
Context {K : Type} `{PW : PmWorks K}.
#[local] Notation T := (act (pmst * K)).
#[local] Notation PM := (St (pmst * K)).

Definition take_vote (block : bool) : T Z :=
  if block then _ ← ipa3_inc_client_enable_clks; Ret 0 else sec ipa3_inc_client_enable_clks_no_block.
Definition give_vote (block : bool) : T unit :=
  if block then ipa3_dec_client_disable_clks else ipa3_dec_client_disable_clks_no_block.

Fixpoint user (us : list vote_use) : T unit :=
  match us with
  | [] => Ret tt
  | UseVote take give :: us => r ← take_vote take; _ ← (if r =? 0 then give_vote give else Ret tt); user us
  | UseTag :: us => _ ← sec (kmod_clk (fun c => k_set_tag c true)); user us
  end.

Definition work_queued (s : pmst * K) : bool := tag_work (clk (fst s)) || dec_work (clk (fst s)).

(** The next works. *)
Fixpoint keeper (n : nat) : T unit :=
  match n with
  | O => Ret tt
  | S n => _ ← When work_queued clk_work; keeper n
  end.

(** Workers wait for work and hold nothing then. *)
Definition idle (x : share) (s : pmst * K) : Prop := x = share0 /\ work_queued s = false.
Definition ends (t : T unit) (c : nat) (x : share) : Prop := twp idle t c x (fun _ _ x => x = share0).

Lemma share_back n : n = 0 -> mk_share n None false = share0.
Proof. by intros ->. Qed.

Lemma user_ends us : ends (user us) (19 * length us) share0.
Proof.
  unfold ends. induction us as [|[take give|] us IH]; cbn [user length]; [by apply twp_ret|..].
  - apply twp_bind. replace (19 * S (length us))%nat with (7 + (12 + 19 * length us))%nat by lia.
    assert (Hgive : forall c, (12 + 19 * length us <= c)%nat ->
      twp idle (_ ← give_vote give; user us) c (mk_share (0 + 1) None false) (fun _ _ x => x = share0)).
    { intros c Hc. apply twp_bind, twp_credit with (12 + 19 * length us)%nat; [done|]. unfold give_vote. destruct give.
      - apply twp_dec; [lia|]. intros c' Hc'. rewrite share_back by lia. by eapply twp_credit.
      - apply twp_credit with (2 + 19 * length us)%nat; [lia|]. apply twp_dec_no_block; [lia|]. intros c' Hc'.
        rewrite share_back by lia. by eapply twp_credit. }
    unfold take_vote. destruct take.
    + apply twp_bind, twp_inc. intros c Hc. by apply twp_ret, Hgive.
    + apply twp_sec, section_bind, keeps_inc_not_zero; [by left|apply section_ret; cbn [Z.eqb]; apply Hgive; lia|].
      apply section_ret. change (- EPERM =? 0) with false. cbn iota. apply twp_bind, twp_ret. eapply twp_credit; [|exact IH]. lia.
  - apply twp_bind, twp_credit with (S (19 * length us)); [lia|]. by apply twp_sec, keeps_set_tag.
Qed.

Lemma keeper_ends n : ends (keeper n) (19 * n) share0.
Proof.
  unfold ends. induction n as [|n IH]; cbn [keeper]; [by apply twp_ret|].
  apply twp_bind, twp_credit with (S (13 + 19 * n)); [lia|]. split; [done|]. intros v e s Hs.
  destruct (work_queued s) eqn:Ew; [|by right].
  assert (H : keeps clk_work share0 (fun t x => twp idle t (13 + 19 * n) x (fun _ c x => twp idle (keeper n) c x (fun _ _ x => x = share0)))).
  { apply keeps_clk_work.
    - intros t Ht. apply twp_work; [lia|done|]. intros c Hc. rewrite share_back by lia. by eapply twp_credit.
    - apply twp_ret. eapply twp_credit; [|exact IH]. lia. }
  exact (H v e s Hs).
Qed.

(** ** The shares of all *)
Record fit_all (n : Z) (l : list share) : Prop := {
  fa_votes : 0 <= n /\ Forall (fun x => 0 <= sh_votes x /\ (sh_quiet x = true -> 1 <= sh_votes x)) l;
  fa_lock : (length (omap sh_lock l) <= 1)%nat;
  fa_quiet : (length (List.filter sh_quiet l) <= 1)%nat }.

Definition total (n : Z) (l : list share) : share :=
  mk_share (n + zsum (map sh_votes l)) (head (omap sh_lock l)) (existsb sh_quiet l).

Lemma quiet_some l : existsb sh_quiet l = false <-> List.filter sh_quiet l = [].
Proof. induction l as [|x l IH]; cbn; [done|]. destruct (sh_quiet x); cbn; [done|]. exact IH. Qed.

Lemma total_bounds n l : fit_all n l -> 0 <= sh_votes (total n l) /\ (sh_quiet (total n l) = true -> 1 <= sh_votes (total n l)).
Proof.
  intros [[Hn Hl] _ _]. unfold total. cbn. induction Hl as [|x l [H1 H2] _ [IH1 IH2]]; cbn; [by split; [lia|]|].
  change (foldr Z.add 0 (map sh_votes l)) with (zsum (map sh_votes l)). split; [lia|].
  intros [Hq|Hq]%orb_true_iff; [specialize (H2 Hq)|specialize (IH2 Hq)]; lia.
Qed.

Lemma fit_cons n x l : fit_all n (x :: l) <-> fit_all n l /\ fits (total n l) x.
Proof.
  split.
  - intros [[Hn Hl] Hlock Hq]. apply list.Forall_cons in Hl as [[H1 H2] Hl].
    assert (Hf : fit_all n l).
    { split; [done|cbn in Hlock; destruct (sh_lock x); cbn in Hlock; lia|cbn in Hq; destruct (sh_quiet x); cbn in Hq; lia]. }
    split; [done|]. destruct (total_bounds n l Hf) as [T1 T2]. split; cbn in *; [done|done| |].
    + destruct (sh_lock x); [|by right]. cbn in Hlock. left. by destruct (omap sh_lock l); cbn in *; [|lia].
    + destruct (sh_quiet x); [|by right]. cbn in Hq. left. apply quiet_some. by destruct (List.filter sh_quiet l); cbn in *; [|lia].
  - intros [[[Hn Hl] Hlock Hq] [[_ H1] [_ H2] H3 H4]]. cbn in *. split; [split; [done|by constructor]|..]; cbn.
    + destruct (sh_lock x); cbn; [|done]. destruct H3 as [H3|]; [|done]. destruct (omap sh_lock l); [cbn; lia|done].
    + destruct (sh_quiet x); cbn; [|done]. destruct H4 as [H4|]; [|done]. apply quiet_some in H4. rewrite H4. cbn. lia.
Qed.

Lemma total_cons n x l : total n (x :: l) = join (total n l) x.
Proof.
  unfold total, join. cbn. change (foldr Z.add 0 (map sh_votes l)) with (zsum (map sh_votes l)). f_equal; [lia| |apply orb_comm].
  by destruct (sh_lock x).
Qed.

Lemma fit_perm n l l' : l ≡ₚ l' -> fit_all n l -> fit_all n l' /\ total n l = total n l'.
Proof.
  intros Hp [[Hn Hl] Hlock Hq].
  assert (Hlp : omap sh_lock l ≡ₚ omap sh_lock l') by (by rewrite Hp).
  assert (Hqp : List.filter sh_quiet l ≡ₚ List.filter sh_quiet l').
  { clear -Hp. induction Hp as [|x l l' _ IH|x y l|]; cbn; [done| | |by etrans]; repeat destruct (sh_quiet _); first [by constructor|done]. }
  split; [split; [by rewrite <- Hp|by rewrite <- Hlp|by rewrite <- Hqp]|]. unfold total. f_equal.
  - by rewrite Hp.
  - destruct (omap sh_lock l) as [|a [|b r]]; cbn in Hlock; [|symmetry in Hlp|lia].
    + by apply Permutation_nil in Hlp as ->.
    + by apply Permutation_singleton_r in Hlp as ->.
  - apply eq_true_iff_eq. rewrite !existsb_exists. split; intros (x & Hx & E); exists x; (split; [|done]).
    + by rewrite <- Hp.
    + by rewrite Hp.
Qed.

Lemma update_perm {A} (l : list A) i x y : l !! i = Some x -> exists r, l ≡ₚ x :: r /\ <[i := y]> l ≡ₚ y :: r.
Proof.
  intros H. exists (take i l ++ drop (S i) l). split.
  - rewrite <- (take_drop_middle l i x H) at 1. by rewrite Permutation_middle.
  - rewrite insert_take_drop by (by eapply lookup_lt_Some). by rewrite Permutation_middle.
Qed.

(** ** Several threads

    Each has a share of the counter and a bound of the sections it has left. *)
Definition shares_of (ys : list (share * nat)) : list share := map fst ys.
Definition pool := Forall2 (fun (t : T unit) (y : share * nat) => ends t (snd y) (fst y)).
Definition bound (ys : list (share * nat)) : Z := zsum (map (fun y => Z.of_nat (snd y)) ys).

Definition pool_ok (v : pmcore) (n : Z) (ts : list (T unit)) (ys : list (share * nat)) (s : pmst * K) : Prop :=
  pool ts ys /\ at_core v s /\ fit_all n (shares_of ys) /\ clk_shared (clk (fst s)) (total n (shares_of ys)).

(** One of them and the others. *)
Lemma pool_one v n ts ys s i t : pool_ok v n ts ys s -> ts !! i = Some t ->
  exists x c e, ys !! i = Some (x, c) /\ ends t c x /\ shared v e x s /\ (sh_lock e <> None -> Exists (fun y : share * nat => sh_lock (fst y) <> None) ys) /\
    forall (y : share * nat) (s' : pmst * K), shared v e (fst y) s' -> fit_all n (shares_of (<[i := y]> ys)) /\ clk_shared (clk (fst s')) (total n (shares_of (<[i := y]> ys))).
Proof.
  intros (Hp & Hv & Hfit & Hk) Ht. destruct (Forall2_lookup_l _ _ _ _ _ Hp Ht) as ([x c] & Hy & Hend).
  assert (Hx : shares_of ys !! i = Some x) by (unfold shares_of; by rewrite list_lookup_fmap, Hy).
  destruct (update_perm _ i x x Hx) as (r & Hr & _).
  destruct (fit_perm n _ _ Hr Hfit) as [Hfr Hto]. apply fit_cons in Hfr as [Hfr Hfx]. rewrite total_cons in Hto.
  exists x, c, (total n r). split_and!; [done|done|by rewrite Hto in Hk| |].
  - intros Hl. assert (Hin : exists z, z ∈ r /\ sh_lock z <> None).
    { clear -Hl. unfold total in Hl. cbn in Hl. induction r as [|z r IH]; [done|]. cbn in Hl.
      destruct (sh_lock z) eqn:E; [exists z; split; [constructor|by rewrite E]|].
      destruct (IH Hl) as (z' & ? & ?). exists z'. split; [by constructor|done]. }
    destruct Hin as (z & Hz & Hlz). assert (Hz' : z ∈ shares_of ys) by (rewrite Hr; by constructor).
    apply list_elem_of_fmap in Hz' as (y & -> & Hy'). apply Exists_exists. by exists y.
  - intros y s' (_ & Hf' & Hk'). assert (Ey : shares_of (<[i := y]> ys) = <[i := fst y]> (shares_of ys)) by (unfold shares_of; by rewrite list_fmap_insert). rewrite Ey.
    destruct (update_perm _ i x (fst y) Hx) as (r' & Hr1 & Hr').
    assert (Hrr : r' ≡ₚ r) by (apply (Permutation_cons_inv (a := x)); by rewrite <- Hr1).
    rewrite Hrr in Hr'. symmetry in Hr'.
    assert (Hfy : fit_all n (fst y :: r)) by (by apply fit_cons).
    destruct (fit_perm n _ _ Hr' Hfy) as [H1 H2]. rewrite total_cons in H2. split; [exact H1|]. by rewrite <- H2.
Qed.

(** A section of one of them. *)
Lemma pool_advance v n ts ys s i t r : pool_ok v n ts ys s -> ts !! i = Some t -> advance t s = Some r ->
  exists t' s' ys', r = Ok (t', s') /\ pool_ok v n (<[i := t']> ts) ys' s' /\ bound ys' < bound ys.
Proof.
  intros Hok Ht Hr. destruct (pool_one v n ts ys s i t Hok Ht) as (x & c & e & Hy & Hend & Hs & _ & Hupd).
  assert (H : exists t' s' x' c', r = Ok (t', s') /\ (c' < c)%nat /\ shared v e x' s' /\ ends t' c' x').
  { unfold ends in *. destruct t as [a|m|cond m]; cbn [advance twp] in *; [done| |].
    - destruct c as [|c]; [done|]. specialize (Hend v e s Hs). injection Hr as <-.
      destruct (m s) as [[t' s']| |]; [|done..]. destruct Hend as (x' & Hs' & H). exists t', s', x', c. split_and!; [done|lia|done|done].
    - destruct Hend as [_ Hend]. destruct c as [|c]; [done|]. specialize (Hend v e s Hs). destruct (cond s); [|done].
      injection Hr as <-. destruct (m s) as [[t' s']| |]; [|done..]. destruct Hend as (x' & Hs' & H).
      exists t', s', x', c. split_and!; [done|lia|done|done]. }
  destruct H as (t' & s' & x' & c' & -> & Hc & Hs' & Hend'). exists t', s', (<[i := (x', c')]> ys). split; [done|].
  destruct (Hupd (x', c') s' Hs') as [H1 H2]. split; [split_and!; [|apply Hs'|exact H1|exact H2]; apply Forall2_insert; [apply Hok|done]|].
  unfold bound. rewrite list_fmap_insert, (zsum_insert _ _ _ (Z.of_nat c)) by (by rewrite list_lookup_fmap, Hy).
  cbn [fst snd]. change (fmap ?f ys) with (map f ys). lia.
Qed.

Lemma pool_goes v n sched : forall ts ys s ts' s', pool_ok v n ts ys s -> pool_run sched (ts, s) = Some (ts', s') ->
  exists ys', pool_ok v n ts' ys' s' /\ Z.of_nat (length sched) + bound ys' <= bound ys.
Proof.
  induction sched as [|i sched IH]; intros ts ys s ts' s' Hok; cbn; [intros [= <- <-]; by exists ys; split; [|lia]|].
  destruct (pool_step i (ts, s)) as [[ts1 s1]|] eqn:E.
  - unfold pool_step in E. cbn [fst snd] in E. destruct (ts !! i) as [t|] eqn:Ht; cbn in E; [|done].
    destruct (advance t s) as [r|] eqn:Er; cbn in E; [|done].
    destruct (pool_advance v n ts ys s i t r Hok Ht Er) as (t' & s2 & ys1 & -> & Hok1 & Hb).
    injection E as <- <-. intros H. destruct (IH _ _ _ _ _ Hok1 H) as (ys' & ? & ?). exists ys'. split; [done|lia].
  - assert (Hnone : foldl (fun p i => p ≫= pool_step i) None sched = @None (list (T unit) * (pmst * K))).
    { clear. by induction sched. } by rewrite Hnone.
Qed.

(** Who holds the mutex, or votes, can go on: when nobody can, nothing is held, and no work
    is queued that a worker waits for. *)
Lemma pool_rest v n ts ys s : pool_ok v n ts ys s -> Forall (fun t => advance t s = None) ts ->
  total n (shares_of ys) = mk_share n None false /\ (Exists (fun t => stuck t s = true) ts -> work_queued s = false).
Proof.
  intros Hok Hb. pose proof Hok as (Hp & _). rewrite list.Forall_forall in Hb.
  assert (Hlock : Forall (fun y : share * nat => sh_lock (fst y) = None) ys).
  { apply list.Forall_forall. intros y Hy. apply list_elem_of_lookup in Hy as [i Hy].
    destruct (Forall2_lookup_r _ _ _ _ _ Hp Hy) as (t & Ht & Hend). specialize (Hb t (list_elem_of_lookup_2 _ _ _ Ht)).
    unfold ends in Hend. destruct t as [a|m|cond m]; cbn in *; [by destruct Hend as (? & _ & ->)|done|by destruct Hend]. }
  assert (Hone : forall i t, ts !! i = Some t -> exists c, ys !! i = Some (share0, c) /\ (stuck t s = true -> work_queued s = false)).
  { intros i t Ht. destruct (pool_one v n ts ys s i t Hok Ht) as (x & c & e & Hy & Hend & Hs & He & _). exists c.
    specialize (Hb t (list_elem_of_lookup_2 _ _ _ Ht)). unfold ends in Hend. destruct t as [a|m|cond m]; cbn [advance twp stuck] in *; [by destruct Hend as (? & _ & ->)|done|].
    destruct Hend as [_ Hend]. destruct c as [|c]; [done|]. specialize (Hend v e s Hs). destruct (cond s); [done|].
    destruct Hend as [Hl|[-> Hw]]; [|by split].
    destruct (sh_lock e); [|done]. exfalso. specialize (He ltac:(done)). apply Exists_exists in He as (y & Hin & Hne).
    rewrite list.Forall_forall in Hlock. by apply Hne, Hlock. }
  split.
  - assert (Hall : Forall (fun x => x = share0) (shares_of ys)).
    { apply list.Forall_forall. intros x Hx. apply list_elem_of_fmap in Hx as (y & -> & Hy). apply list_elem_of_lookup in Hy as [i Hy].
      destruct (Forall2_lookup_r _ _ _ _ _ Hp Hy) as (t & Ht & _). destruct (Hone i t Ht) as (c & Hc & _).
      rewrite Hy in Hc. by injection Hc as ->. }
    clear -Hall. induction Hall as [|x l -> _ IH]; [unfold total; cbn; f_equal; lia|].
    rewrite total_cons, IH. unfold join. cbn. f_equal. lia.
  - intros H. apply Exists_exists in H as (t & Ht & E). apply list_elem_of_lookup in Ht as [i Ht].
    destruct (Hone i t Ht) as (c & _ & Hw). by apply Hw.
Qed.

Lemma pool_defined v n ts ys s : pool_ok v n ts ys s -> Forall (fun t => forall r, advance t s = Some r -> exists x, r = Ok x) ts.
Proof.
  intros Hok. apply list.Forall_forall. intros t Ht r Hr. apply list_elem_of_lookup in Ht as [i Ht].
  destruct (pool_advance v n ts ys s i t r Hok Ht Hr) as (t' & s' & _ & -> & _). by exists (t', s').
Qed.

Lemma bound_nonneg ys : 0 <= bound ys.
Proof. apply zsum_nonneg, list.Forall_forall. intros z Hz. apply list_elem_of_fmap in Hz as (y & -> & _). lia. Qed.

Lemma held_nonneg n l : fit_all n l -> 0 <= zsum (map sh_votes l).
Proof.
  intros [[_ H] _ _]. apply zsum_nonneg. unfold nonneg. apply Forall_fmap. eapply list.Forall_impl; [exact H|]. by intros x [? _].
Qed.

Lemma shared_on k y : clk_shared k y -> regular_clk_mode = true -> 0 < ac_cnt k -> ipa_clk_vote k = true.
Proof.
  intros [_ _ _ Hl] Hr Hc. apply Z.ltb_lt in Hc as Hb. destruct (sh_lock y) as [[]|];
    repeat match goal with H : _ /\ _ |- _ => destruct H end; try lia; by rewrite <- Hb; auto.
Qed.

(** At the beginning. *)
Definition vote_threads (us : list (list vote_use)) (ws : list nat) : list (T unit) := map user us ++ map keeper ws.
Definition vote_bound (us : list (list vote_use)) (ws : list nat) : Z :=
  19 * (zsum (map (fun u => Z.of_nat (length u)) us) + zsum (map Z.of_nat ws)).

Lemma pool_begin v n us ws s : at_core v s -> clk_ok (clk (fst s)) n ->
  exists ys, pool_ok v n (vote_threads us ws) ys s /\ bound ys = vote_bound us ws.
Proof.
  intros Hv Hk. apply clk_alone in Hk as [Hn Hk]. unfold vote_threads, vote_bound, pool_ok, pool, bound.
  exists (map (fun u => (share0, (19 * length u)%nat)) us ++ map (fun w => (share0, (19 * w)%nat)) ws).
  assert (H0 : forall l : list (share * nat), Forall (fun y : share * nat => fst y = share0) l -> fit_all n (shares_of l) /\ total n (shares_of l) = mk_share n None false).
  { intros l. induction 1 as [|y l Hy _ [IH1 IH2]]; [cbn; split; [by split; [split; [done|constructor]|cbn; lia..]|unfold total; cbn; f_equal; lia]|].
    change (shares_of (y :: l)) with (fst y :: shares_of l). rewrite Hy. split; [apply fit_cons; split; [done|]; rewrite IH2; split; cbn; [lia|done|by left|by left]|].
    rewrite total_cons, IH2. unfold join. cbn. f_equal. lia. }
  assert (Hall : Forall (fun y : share * nat => fst y = share0)
    (map (fun u => (share0, (19 * length u)%nat)) us ++ map (fun w => (share0, (19 * w)%nat)) ws)).
  { apply Forall_app. split; apply Forall_fmap, list.Forall_forall; done. }
  destruct (H0 _ Hall) as [H1 H2]. rewrite H2. split; [split_and!; [|done..]|].
  - apply Forall2_app; apply Forall2_fmap, Forall_Forall2_diag, list.Forall_forall; intros u _; cbn; [apply user_ends|apply keeper_ends].
  - rewrite map_app, zsum_app, !map_map. cbn [snd]. rewrite Z.mul_add_distr_l. f_equal.
    + clear. induction us as [|u us IH]; [done|]. cbn [map zsum foldr] in *. unfold zsum in *. lia.
    + clear. induction ws as [|w ws IH]; [done|]. cbn [map zsum foldr] in *. unfold zsum in *. lia.
Qed.
End votes.
