(* ===== verification/PmProps.v ===== *)
(** * Properties of the power manager

    What its users rely on with calls one after the other, and how two concurrent calls on
    the same client lose its state, with witnesses at a concrete configuration. *)

From Stdlib Require Import ZArith Lia Ascii String.
From stdpp Require Import prelude list numbers strings.
From S2P Require Import Prelude NatUtils StWp KernHal Act PmState PmClk IpaPm PmInv PmRules PmSeq PmWork PmCalls PmReg.
From S2P Require Import PmHist.

Local Open Scope Z_scope.

(** * The power manager: what its users rely on *)

(** ** An exception that passes *)
Lemma covered_bit mask active h : length mask = length active -> masks_covered mask active = true -> 0 <= h ->
  mask_bit mask h = true -> mask_bit active h = true.
Proof.
  intros Hlen Hc Hh. unfold mask_bit. destruct (zget mask (word_of h)) as [m|] eqn:Em; [|done]. intros Hm.
  assert (Hi : exists a, zget active (word_of h) = Some a).
  { apply zget_lt_Some. apply zget_Some_lt in Em. lia. }
  destruct Hi as [a Ha]. rewrite Ha. unfold masks_covered in Hc. rewrite List.forallb_forall in Hc.
  assert (Hin : List.In (m, a) (zip mask active)).
  { unfold zget in Em, Ha. destruct (0 <=? word_of h); [|done]. apply list_elem_of_In, list_elem_of_lookup.
    exists (Z.to_nat (word_of h)). rewrite lookup_zip_with, Em. cbn. by rewrite Ha. }
  specialize (Hc _ Hin). cbn in Hc. apply Z.eqb_eq in Hc. destruct (Z.testbit a (h mod 32)) eqn:E; [done|].
  assert (Hb : Z.testbit (Z.ldiff m a) (h mod 32) = true) by (by rewrite Z.ldiff_spec, Hm, E). by rewrite Hc, Z.bits_0 in Hb.
Qed.

Lemma passing_spec active es i j : passing_exception active es i = ThException j ->
  exists e, zget es (j - i) = Some e /\ ex_pending e = 0 /\ masks_covered (ex_bitmask e) active = true.
Proof.
  revert i. induction es as [|e es IH]; intros i; cbn [passing_exception]; [done|]. destruct (_ && _) eqn:E.
  - intros [= ->]. zify_bool. exists e. rewrite Z.sub_diag. done.
  - intros H. destruct (IH _ H) as (e' & He & ? & ?). exists e'. split_and!; [|done..].
    assert (Hj := zget_Some_lt _ _ _ He). rewrite zget_cons by lia. rewrite <- He. f_equal. lia.
Qed.

(** ** Out and in again *)
Lemma clear_set w k : 0 <= k -> Z.testbit w k = false -> Z.ldiff (Z.lor w (2 ^ k)) (2 ^ k) = w.
Proof.
  intros Hk Hw. apply Z.bits_inj'. intros n Hn. rewrite Z.ldiff_spec, Z.lor_spec. destruct (decide (n = k)) as [->|].
  - by rewrite Z.pow2_bits_true, Hw, andb_false_r.
  - rewrite Z.pow2_bits_false by lia. by rewrite orb_false_r, andb_true_r.
Qed.

Lemma set_clear l h l' : length l = 2%nat -> 0 <= h < 64 -> mask_bit l h = false -> set_bit l h true = Ok l' ->
  set_bit l' h false = Ok l.
Proof.
  intros Hl Hh Hb. pose proof (word_range h Hh) as Hw. unfold set_bit, mask_bit in *.
  change (ipahal_get_ep_reg_idx h) with (word_of h). rewrite ep_bit by lia.
  destruct (zget_lt_Some l (word_of h)) as [w Hg]; [lia|]. rewrite Hg in *. cbn [deref mbind res_bind]. intros [= <-].
  rewrite zget_zset_eq by lia. cbn [deref mbind res_bind]. pose proof (Z.mod_pos_bound h 32).
  rewrite clear_set by (first [lia|done]). by rewrite zset_zset, zset_same.
Qed.

Lemma add_remove name h es : 0 <= h < 64 -> Forall (fun e => length (ex_bitmask e) = 2%nat /\ mask_bit (ex_bitmask e) h = false) es ->
  forall es', add_to_exceptions name h es = Ok (0, es') -> remove_from_exceptions h es' = Ok es.
Proof.
  intros Hh. induction 1 as [|e es [Hl Hb] _ IH]; intros es'; cbn [add_to_exceptions]; [by intros [= <-]|].
  destruct (_ && _).
  - destruct (_ <? 0); [by intros [=]|]. destruct (set_bit_spec (ex_bitmask e) h true Hl Hh) as (l & E & Hl' & Hm). rewrite E.
    cbn [mbind res_bind]. destruct (add_to_exceptions name h es) as [[r es1]| |] eqn:Ea; cbn [mbind res_bind]; [|done..].
    intros [= -> <-]. cbn [remove_from_exceptions]. cbn [e_set ex_bitmask ex_pending]. rewrite bit_set_spec by done.
    rewrite Hm, decide_True by done. cbn [mbind res_bind]. rewrite (set_clear _ _ _ Hl Hh Hb E). cbn [mbind res_bind].
    rewrite (IH es1 eq_refl). cbn [mbind res_bind]. do 2 f_equal. destruct e. unfold e_set. cbn. f_equal. lia.
  - destruct (add_to_exceptions name h es) as [[r es1]| |] eqn:Ea; cbn [mbind res_bind]; [|done..]. intros [= -> <-].
    cbn [remove_from_exceptions]. rewrite bit_set_spec, Hb by done. cbn [mbind res_bind]. by rewrite (IH es1 eq_refl).
Qed.

Lemma pipes_without_id n p l : (forall i, zget l i <> Some (Some p)) -> pipes_without n (Some p) l = l.
Proof.
  intros H. unfold pipes_without. rewrite <- (take_drop n l) at 3. f_equal. rewrite <- (map_id (take n l)) at 2.
  apply map_ext_in. intros q Hq. case_bool_decide as E; [|done]. subst q. exfalso.
  apply list_elem_of_In, list_elem_of_lookup in Hq as [i Hi]. apply lookup_take_Some in Hi as [Hi _].
  apply (H (Z.of_nat i)). unfold zget. rewrite (proj2 (Z.leb_le _ _)), Nat2Z.id by lia. done.
Qed.

Lemma join_leave `{PC : PmConf} v c es es2 : pm_ok v -> zget (v_clients v) (c_hdl c) = Some None -> es2 = v_exceptions v ->
  v_leave (v_join v c es) (next_ptr v) (c_hdl c) es2 = v_set_heap v (v_heap v ++ [None]).
Proof.
  intros Hok Hfree ->. unfold v_leave, v_join, v_set_heap. cbn. f_equal.
  - unfold zset, next_ptr. rewrite (proj2 (Z.leb_le _ _)), Nat2Z.id by lia. by rewrite insert_app_r_alt, Nat.sub_diag by lia.
  - by rewrite zset_zset, zset_same.
  - apply pipes_without_id. intros i Hi. destruct (ok_pipes v Hok i _ Hi) as (_ & d & Hd). by apply live_fresh in Hd.
Qed.

Section props.
Context {K : Type} `{PW : PmWorks K}.
Implicit Types (s : pmst * K).

(** The client of a handle. *)
Definition registered s (hdl p : Z) : Prop :=
  0 <= hdl /\ exists x, pm_ctx (fst s) = Some x /\ zget (clients x) hdl = Some (Some p).

Lemma registered_at v s hdl p : at_core v s -> pm_ok v -> registered s hdl p -> exists c, live v p c /\ c_hdl c = hdl.
Proof.
  intros Hs Hok (Hh & x & Hx & Hp). apply (ok_clients v Hok). destruct Hs as [Hs _]. unfold core in Hs. rewrite Hx in Hs. by injection Hs as <-.
Qed.





(** C7. In every such state the counter of active clients is the number of votes that others
    hold, of clients that are active and vote, and of votes that a queued work gives back;
    the clocks are on exactly when it is positive.  [pm_ok]: each client's state agrees
    with its queued work, its timer, its bit, its completion and its wake lock, and each
    exception counts the clients it waits for. *)
Theorem pm_clock_votes params (k0 : K) o s : pm_reach params k0 o s -> exists v, core (fst s) = Some v /\ pm_ok v /\
  ac_cnt (clk (fst s)) = o + votes v + b2z (tag_work (clk (fst s))) + b2z (dec_work (clk (fst s))) /\
  (regular_clk_mode = true -> ipa_clk_vote (clk (fst s)) = (0 <? ac_cnt (clk (fst s)))) /\
  (forall p c, live v p c -> holds c = true -> 1 <= ac_cnt (clk (fst s))).
Proof.
  intros Hr. destruct (reach_inv _ _ _ _ Hr) as (v & Hs & Hok & _ & Ho & [Hc Hn _ Hv]). exists v.
  split_and!; [apply Hs|done|lia|done|]. intros p c Hl Hh. pose proof (votes_live v p c Hl Hh).
  rewrite Hc. destruct (tag_work _), (dec_work _); cbn; lia.
Qed.

(** ** Votes at once *)
(** C8. Threads that take votes and give them back, in a blocking way or not, and workers of the
    queued works, run their sections in any order from any state of the manager.  Each
    section is defined, so no vote is given back at zero; every schedule ends within a
    bound; the counter is the votes of others and of active clients, the votes that the
    threads hold, and those of queued works; the clocks are on whenever it is positive.
    There is no deadlock: when no thread can go on, none holds a vote or the mutex, and if
    a worker still waits, no work is queued and the counter is what it was. *)
Theorem pm_votes_interleave params (k0 : K) o s us ws sched ts s' :
  pm_reach params k0 o s -> pool_run sched (vote_threads us ws, s) = Some (ts, s') ->
  Forall (fun t => forall r, advance t s' = Some r -> exists x, r = Ok x) ts /\
  Z.of_nat (length sched) <= vote_bound us ws /\
  exists v ys, core (fst s) = Some v /\ core (fst s') = Some v /\ pool ts ys /\
    (let k := clk (fst s') in
     let held := zsum (map sh_votes (shares_of ys)) in
     0 <= held /\
     ac_cnt k = o + votes v + held + b2z (tag_work k) + b2z (dec_work k) /\
     (regular_clk_mode = true -> 0 < ac_cnt k -> ipa_clk_vote k = true) /\
     (Forall (fun t => advance t s' = None) ts -> held = 0 /\ ac_mutex k = false /\
        (regular_clk_mode = true -> ipa_clk_vote k = (0 <? ac_cnt k)) /\
        (Exists (fun t => stuck t s' = true) ts -> tag_work k = false /\ dec_work k = false /\ ac_cnt k = o + votes v))).
Proof.
  intros Hr Hrun. destruct (reach_inv _ _ _ _ Hr) as (v & Hs & _ & _ & _ & Hk).
  destruct (pool_begin v _ us ws s Hs Hk) as (ys0 & Hok0 & <-). destruct (pool_goes v _ sched _ _ _ _ _ Hok0 Hrun) as (ys & Hok & Hb).
  pose proof Hok as (Hp & Hs' & Hfit & Hc). split_and!; [by apply (pool_defined v (o + votes v) ts ys)|pose proof (bound_nonneg ys); lia|].
  exists v, ys. cbv zeta. split_and!; [apply Hs|apply Hs'|done|exact (held_nonneg _ _ Hfit)|pose proof (cs_cnt _ _ Hc) as E; cbn in E; lia|by eapply shared_on|].
  intros Hrest. destruct (pool_rest _ _ _ _ _ Hok Hrest) as [Ht Hw]. rewrite Ht in Hc. destruct Hc as [Hc _ _ [Hm Hon]].
  injection Ht as Hh _ _. split_and!; [lia|exact Hm|exact Hon|]. intros He. apply Hw, orb_false_iff in He as [H1 H2].
  split_and!; [exact H1|exact H2|]. rewrite H1, H2 in Hc. cbn in Hc. lia.
Qed.

(** ** Activation and deactivation *)
(** C13. [ipa_pm_activate] of a registered client returns 0 with the client active or
    -EINPROGRESS, and once the queue has run the client is active; after and with calls one
    after the other. *)
Theorem pm_activation_comes params (k0 : K) o s hdl p : pm_reach params k0 o s -> registered s hdl p ->
  exists r s1 s2 st, call (ipa_pm_activate hdl) s = Ok (r, s1) /\ drain s1 = Ok (tt, s2) /\
    (r = 0 \/ r = - EINPROGRESS) /\ (r = 0 -> exists st1, client_state s1 p = Some st1 /\ IPA_PM_STATE_ACTIVE st1 = true) /\
    client_state s2 p = Some st /\ IPA_PM_STATE_ACTIVE st = true.
Proof.
  intros Hr Hreg. destruct (reach_inv _ _ _ _ Hr) as (v & Hs & Hok & Hi & Ho & Hk).
  destruct (registered_at v s hdl p Hs Hok Hreg) as (c & Hl & Hh).
  assert (H : truns settle (ipa_pm_activate hdl) v (o + votes v) (fun r v' n' => over o v' n' /\ exists st,
    leaves p c v' st /\ activation false r st)) by (apply t_activate with p c; eauto).
  destruct (runs_ok _ _ _ _ s (H settle_ready) Hs Hk) as (r & s1 & v1 & n1 & E1 & [(Hok1 & Hi1 & ->) (st1 & (c1 & Hl1 & _ & Hst1) & Hact)] & Hs1 & Hk1).
  destruct (runs_ok _ _ _ _ s1 (drain_runs v1 o Hok1 Hi1 Ho) Hs1 Hk1) as ([] & s2 & v2 & n2 & E2 & (_ & _ & _ & Hlead) & Hs2 & _).
  destruct (Hlead p c1 Hl1) as (c2 & Hl2 & _ & Hst2). exists r, s1, s2, (c_state c2). split_and!; [done|done|..].
  - destruct Hact as [[-> _]|(_ & -> & _)]; auto.
  - intros Hr0. exists (c_state c1). rewrite (client_state_at v1 s1 p c1) by done. split; [done|]. rewrite Hst1.
    destruct Hact as [[_ [-> | ->]]|(_ & -> & _)]; done.
  - by apply (client_state_at v2).
  - rewrite Hst2, Hst1. destruct (live_settled v1 p c1 Hok1 Hl1) as [S1 _ _ _ _ _]. rewrite Hst1 in S1. unfold drained_state.
    destruct Hact as [[_ [-> | ->]]|(_ & _ & ->)]; repeat case_bool_decide; try done; naive_solver.
Qed.

(** C14. After [ipa_pm_deferred_deactivate] of a registered client, whatever it was doing, the
    queue and at most two times of its timer deactivate it; after and with calls one after
    the other. *)
Theorem pm_deactivation_comes params (k0 : K) o s hdl p : pm_reach params k0 o s -> registered s hdl p ->
  exists s1 s2 s3 s4, call (ipa_pm_deferred_deactivate hdl) s = Ok (0, s1) /\ drain s1 = Ok (tt, s2) /\
    round p s2 = Ok (tt, s3) /\ round p s3 = Ok (tt, s4) /\ client_state s4 p = Some IPA_PM_DEACTIVATED.
Proof.
  intros Hr Hreg. destruct (reach_inv _ _ _ _ Hr) as (v & Hs & Hok & Hi & Ho & Hk).
  destruct (registered_at v s hdl p Hs Hok Hreg) as (c & Hl & Hh).
  assert (H : truns settle (ipa_pm_deferred_deactivate hdl) v (o + votes v) (fun r v' n' => over o v' n' /\ r = 0 /\
    leaves p c v' (defer_state (c_state c)))) by (apply t_defer with p c; eauto).
  destruct (runs_ok _ _ _ _ s (H settle_ready) Hs Hk) as (r & s1 & v1 & n1 & E1 & [(Hok1 & Hi1 & ->) [-> (c1 & Hl1 & _ & Hst1)]] & Hs1 & Hk1).
  destruct (runs_ok _ _ _ _ s1 (drain_runs v1 o Hok1 Hi1 Ho) Hs1 Hk1)
    as ([] & s2 & v2 & n2 & E2 & ((Hok2 & Hi2 & ->) & Hq2 & _ & Hlead) & Hs2 & Hk2).
  destruct (Hlead p c1 Hl1) as (c2 & Hl2 & _ & Hst2).
  destruct (runs_ok _ _ _ _ s2 (round_runs v2 o p c2 Hok2 Hi2 Ho Hq2 Hl2) Hs2 Hk2)
    as ([] & s3 & v3 & n3 & E3 & ((Hok3 & Hi3 & ->) & Hq3 & _ & c3 & Hl3 & _ & Hst3) & Hs3 & Hk3).
  destruct (runs_ok _ _ _ _ s3 (round_runs v3 o p c3 Hok3 Hi3 Ho Hq3 Hl3) Hs3 Hk3)
    as ([] & s4 & v4 & n4 & E4 & (_ & _ & _ & c4 & Hl4 & _ & Hst4) & Hs4 & Hk4).
  exists s1, s2, s3, s4. split_and!; [done..|]. rewrite (client_state_at v4 s4 p c4) by done. f_equal.
  destruct (live_settled v1 p c1 Hok1 Hl1) as [S1 S2 _ _ _ _]. rewrite Hst4, Hst3, Hst2. unfold drained_state. rewrite Hst1 in *.
  destruct (c_state c); cbn [defer_state] in *; repeat case_bool_decide; try done; naive_solver.
Qed.

(** ** Calls on the same client at once *)
(** Nothing is queued for a client, and its timer is not set. *)
Definition unattended s (p : Z) : Prop := exists x, pm_ctx (fst s) = Some x /\
  WorkActivate p ∉ pm_queue x /\ WorkDeactivate p ∉ pm_queue x /\ p ∉ pm_timers x.

Lemma unattended_at v s p c : at_core v s -> pm_ok v -> live v p c -> timed (c_state c) = false ->
  IPA_PM_STATE_IN_PROGRESS (c_state c) = false -> unattended s p.
Proof.
  intros Hs Hok Hl Ht Hp. destruct (live_settled v p c Hok Hl) as [S1 S2 _ _ _ _]. rewrite Ht in S2. rewrite Hp in S1.
  destruct Hs as [Hs _]. unfold core, unattended in *. destruct (pm_ctx (fst s)) as [x|]; [|done]. injection Hs as <-. cbn in *.
  exists x. split; [done|]. naive_solver.
Qed.

Lemma registered_reaches v s hdl p c : at_core v s -> pm_ok v -> v_running v = None -> registered s hdl p ->
  zget (heap (fst s)) p = Some (Some c) -> reaches v hdl p c /\ c_hdl c = hdl.
Proof.
  intros Hs Hok Hi Hreg Hc. destruct (registered_at v s hdl p Hs Hok Hreg) as (d & Hl & Hd).
  assert (live v p c) as Hl'.
  { destruct Hs as [Hs _]. unfold core, live in *. destruct (pm_ctx (fst s)) as [x|]; [|done]. by injection Hs as <-. }
  assert (d = c) as -> by (unfold live in *; congruence). pose proof (ok_client v Hok p c Hl) as C.
  split; [|done]. split; [rewrite <- Hd; apply C|rewrite <- Hd; apply C|done|done].
Qed.

(** Both have seen the client active. *)
Lemma race_deactivate v hdl p c n (Q : list (act (pmst * K) Z) -> pmcore -> Z -> Prop) : pm_ok v -> reaches v hdl p c -> c_hdl c = hdl ->
  IPA_PM_STATE_ACTIVE (c_state c) = true -> c_skip_clk_vote c = false -> 2 <= n ->
  (forall v' c', pm_ok v' -> live v' p c' -> c_state c' = IPA_PM_DEACTIVATED -> votes v' = votes v - 1 -> Q [Ret 0; Ret 0] v' (n - 2)) ->
  pgoes [ipa_pm_deactivate_sync hdl; ipa_pm_deactivate_sync hdl] v n Q.
Proof.
  intros Hok Hr Hh Ha Hk Hn HQ. pose proof Hr as [Hh' Hat Hl Hi].
  assert (Hp : IPA_PM_STATE_IN_PROGRESS (c_state c) = false) by (by destruct (c_state c)).
  eapply (p_thread 0), g_trans; [done|by apply (g_deactivate_sync v hdl p c)|]. intros t1 v1 n1 (-> & -> & ->). apply g_stop.
  eapply (p_thread 1), g_trans; [done|apply (g_deactivate_sync (v_cancel v p) hdl p c); [by split|done]|].
  intros t1 v1 n1 (-> & -> & ->). rewrite (cancel_id (v_cancel v p) p) by apply cancel_none. apply g_stop.
  eapply (p_run 0); [done|]. apply (t_deactivate_rest wait_never v p c); [done..|lia|]. intros v2 Hok2 Hi2 U. rewrite Hk.
  set (c2 := c_set_state (rest c) IPA_PM_DEACTIVATED) in *.
  assert (Hl2 : live v2 p c2) by (by rewrite (update_live _ _ _ _ _ _ _ U), decide_True).
  destruct (rest_same c) as ((Eh & _ & _ & Ek & _) & _).
  eapply (p_run 1); [done|]. rewrite <- (cancel_id v2 p).
  2: { destruct (live_settled v2 p c2 Hok2 Hl2) as [_ S _ _ _ _]. rewrite S. done. }
  apply (t_deactivate_rest wait_never v2 p c2); [done..|cbn; congruence|done|cbn; lia|]. intros v3 Hok3 Hi3 U3. apply p_stop.
  change (c_skip_clk_vote c2) with (c_skip_clk_vote (rest c)). rewrite Ek, Hk. cbn.
  replace (n - 1 - 1) with (n - 2) by lia. eapply HQ; [done|by rewrite (update_live _ _ _ _ _ _ _ U3), decide_True|done|].
  rewrite (update_votes _ _ _ _ _ U3), (update_votes _ _ _ _ _ U). unfold holds. cbn. rewrite Ha, Hk. cbn. lia.
Qed.

(** Another call comes while an activation waits for the clocks. *)
Lemma race_activate v hdl p c o t1 (Q : list (act (pmst * K) Z) -> pmcore -> Z -> Prop) (R : act (pmst * K) Z -> Prop) x :
  pm_ok v -> 0 <= o -> reaches v hdl p c -> c_hdl c = hdl -> c_state c = IPA_PM_DEACTIVATED -> c_skip_clk_vote c = false ->
  c_set_state x IPA_PM_ACTIVATED = c_set_state c IPA_PM_ACTIVATED ->
  tgoes t1 (v_put v p (c_set_state c IPA_PM_ACTIVATE_IN_PROGRESS)) (o + votes v) (fun t' v' n' => R t' /\ v' = v_put v p x /\ n' = o + votes v) ->
  (forall t' v' c', R t' -> pm_ok v' -> live v' p c' -> c_state c' = IPA_PM_ACTIVATED -> c_complete c' = c_complete c ->
     Q [Ret 0; t'] v' (o + votes v')) ->
  pgoes [ipa_pm_activate_sync hdl; t1] v (o + votes v) Q.
Proof.
  intros Hok Ho Hr Hh Hst Hk Hx Ht1 HQ. pose proof Hr as [Hh' Hat Hl Hi].
  eapply (p_thread 0), g_trans; [done|by apply (g_activate_sync v hdl p c)|]. intros t' v1 n1 (-> & -> & ->). apply g_stop.
  eapply (p_thread 1), g_trans; [done|exact Ht1|]. intros t' v1 n1 (HR & -> & ->). apply g_stop.
  eapply (p_run 0); [done|]. apply t_bind, t_inc, t_section.
  pose proof (r_got_clocks wait_never v p c x true o) as Hg. rewrite Hk in Hg. apply Hg; [done..|].
  intros v' c' (Hok' & _) _ Hl' _ Hst' Hc'. apply p_stop. by eapply HQ.
Qed.

(** C39. The state of a client is looked at and changed under different holdings of its lock.
    From every state that calls one after the other lead to, and for every client that
    votes: if it is active and another vote is held, two concurrent
    [ipa_pm_deactivate_sync] can both return 0 and both give its vote back, so that the
    counter, without votes that queued works give back, is one below the votes still held:
    when one is held, it is 0.  The clocks are on exactly while the counter is positive.  If it is deactivated, a deferred deactivation during [ipa_pm_activate_sync] can
    return 0 and be lost: the client is active and nothing is queued for it. *)
Theorem pm_state_race params (k0 : K) o s hdl p c : pm_reach params k0 o s -> registered s hdl p ->
  zget (heap (fst s)) p = Some (Some c) -> c_skip_clk_vote c = false ->
  (forall v, core (fst s) = Some v -> IPA_PM_STATE_ACTIVE (c_state c) = true -> 2 <= o + votes v ->
   exists sched s' v', pool_run sched ([ipa_pm_deactivate_sync hdl; ipa_pm_deactivate_sync hdl], s) = Some ([Ret 0; Ret 0], s') /\
     client_state s' p = Some IPA_PM_DEACTIVATED /\ core (fst s') = Some v' /\ votes v' = votes v - 1 /\
     (let k := clk (fst s') in
      ac_cnt k = o + votes v' - 1 + b2z (tag_work k) + b2z (dec_work k) /\
      (regular_clk_mode = true -> ipa_clk_vote k = (0 <? ac_cnt k)))) /\
  (c_state c = IPA_PM_DEACTIVATED ->
   exists sched s', pool_run sched ([ipa_pm_activate_sync hdl; ipa_pm_deferred_deactivate hdl], s) = Some ([Ret 0; Ret 0], s') /\
     client_state s' p = Some IPA_PM_ACTIVATED /\ unattended s' p).
Proof.
  intros Hr Hreg Hc Hskip. destruct (reach_inv _ _ _ _ Hr) as (v & Hs & Hok & Hi & Ho & Hk).
  destruct (registered_reaches v s hdl p c Hs Hok Hi Hreg Hc) as [Hre Hh]. split.
  - intros v' Hv' Ha Hn. assert (v' = v) as -> by (destruct Hs; congruence).
    destruct (race_deactivate v hdl p c (o + votes v) (fun ts v' n' => ts = [Ret 0; Ret 0] /\ n' = o + votes v - 2 /\ votes v' = votes v - 1 /\
      exists c', live v' p c' /\ c_state c' = IPA_PM_DEACTIVATED) Hok Hre Hh Ha Hskip Hn) with s
      as (sched & ts & s' & v' & n' & E & (-> & -> & Hv & c' & Hl' & Hst') & Hs' & [Hcnt _ _ _ Hon]); [|done..|].
    { intros v' c' _ ? ? ?. split_and!; try done. by exists c'. }
    exists sched, s', v'. split_and!; [done|by rewrite (client_state_at v' s' p c'), Hst'|apply Hs'|done|]. cbv zeta. split; [lia|done].
  - intros Hst. pose proof Hre as [Hlt Hat Hl _].
    destruct (race_activate v hdl p c o (ipa_pm_deferred_deactivate hdl) (fun ts v' _ => ts = [Ret 0; Ret 0] /\ pm_ok v' /\
      exists c', live v' p c' /\ c_state c' = IPA_PM_ACTIVATED) (fun t => t = Ret 0) (c_set_state c IPA_PM_DEACTIVATE_IN_PROGRESS)) with s
      as (sched & ts & s' & v' & n' & E & (-> & Hok' & c' & Hl' & Hst') & Hs' & _); try done.
    { unfold ipa_pm_deferred_deactivate. eapply g_client with (p := p).
      - split; [done..| |done]. by apply live_put_eq with c.
      - eapply g_trans.
        + apply g_run with (P := fun a v' n' => a = 0 /\ v' = v_put v p (c_set_state c IPA_PM_DEACTIVATE_IN_PROGRESS) /\ n' = o + votes v).
          apply t_sec, r_bind. eapply r_cget; [lv|]. cbn [c_state c_set_state]. apply r_bind.
          eapply r_set_state; [lv|]. rewrite v_put_put. by apply r_ret.
        + intros t' v' n' (a & -> & -> & -> & ->). by apply g_stop. }
    { intros t' v' c' -> ? ? ? _. split_and!; try done. by exists c'. }
    exists sched, s'. split_and!; [done|by rewrite (client_state_at v' s' p c'), Hst'|]. by apply (unattended_at v' s' p c'); rewrite ?Hst'.
Qed.

(** The worker has signalled and the client leaves. *)
Lemma race_leave v hdl p c q n (Q : list (act (pmst * K) Z) -> pmcore -> Z -> Prop) : pm_ok v -> reaches v hdl p c -> c_hdl c = hdl ->
  c_state c = IPA_PM_DEACTIVATE_IN_PROGRESS -> v_queue v = WorkActivate p :: q ->
  (forall t' v' n', doomed p t' -> zget (v_heap v') p = Some None -> Q [t'; Ret 0] v' n') ->
  pgoes [(_ ← work_once; Ret 0); ipa_pm_deregister hdl] v n Q.
Proof.
  intros Hok Hr Hh Hst Hq HQ. pose proof Hr as [Hlt Hat Hl Hi].
  eapply (p_thread 0), g_inside, g_trans; [done|by apply (g_activate_work v p c q)|]. intros t' v1 n1 [Ht ->]. apply g_stop.
  set (v1 := v_put _ _ _). assert (Hl1 : live v1 p (cancelled c)) by (by apply live_put_eq with c).
  assert (Eh : c_hdl (cancelled c) = hdl) by (unfold cancelled, awaken; by destruct (_ && _)).
  destruct (leave_exceptions v p c Hok Hl) as (es & Hes & _). rewrite Hh in Hes.
  eapply (p_run 1); [done|]. unfold ipa_pm_deregister, with_ctx. apply t_bind, t_sec, r_pget. intros s x -> _.
  rewrite Z.geb_leb, (proj2 (Z.leb_gt _ _)) by done. apply t_bind, t_sec, r_client_at with (Some p); [done|].
  apply t_section, r_bind, r_cget with (cancelled c); [done|]. cbn [c_state cancelled c_set_complete c_set_state IPA_PM_STATE_IN_PROGRESS].
  apply r_bind, r_cget with (cancelled c); [done|]. cbn [c_state cancelled c_set_complete c_set_state IPA_PM_STATE_ACTIVE].
  apply r_ret, t_sec. rewrite <- Eh. apply r_leave with es; [done|by rewrite Eh|by rewrite Eh|]. apply p_stop, HQ; [by apply doomed_bind|].
  unfold v_leave. cbn [v_heap]. apply zget_zset_eq. by eapply zget_Some_lt.
Qed.

(** C40. The completion of a client is not signalled by [ipa_pm_activate_sync]: for every
    deactivated client that votes and whose completion is not done, of two that run
    concurrently one can return 0 while the other waits, although the client is active and
    nothing is queued that could wake it.  And it is signalled before the worker is done
    with the client: for every client whose activation is the next item of the queue and was
    given up, a deregistration can succeed after that and free the client, which the next
    section of the worker then uses. *)
Theorem pm_completion_race params (k0 : K) o s hdl p c : pm_reach params k0 o s -> registered s hdl p ->
  zget (heap (fst s)) p = Some (Some c) ->
  (c_state c = IPA_PM_DEACTIVATED -> c_skip_clk_vote c = false -> c_complete c = false ->
   exists sched t s', pool_run sched ([ipa_pm_activate_sync hdl; ipa_pm_activate_sync hdl], s) = Some ([Ret 0; t], s') /\
     stuck t s' = true /\ client_state s' p = Some IPA_PM_ACTIVATED /\ unattended s' p) /\
  (forall x, pm_ctx (fst s) = Some x -> c_state c = IPA_PM_DEACTIVATE_IN_PROGRESS -> head (pm_queue x) = Some (WorkActivate p) ->
   exists sched t s', pool_run sched ([(_ ← work_once; Ret 0); ipa_pm_deregister hdl], s) = Some ([t; Ret 0], s') /\
     zget (heap (fst s')) p = Some None /\ advance t s' = Some UB).
Proof.
  intros Hr Hreg Hc. destruct (reach_inv _ _ _ _ Hr) as (v & Hs & Hok & Hi & Ho & Hk).
  destruct (registered_reaches v s hdl p c Hs Hok Hi Hreg Hc) as [Hre Hh]. pose proof Hre as [Hlt Hat Hl _]. split.
  - intros Hst Hskip Hcomp.
    destruct (race_activate v hdl p c o (ipa_pm_activate_sync hdl) (fun ts v' _ =>
      ts = [Ret 0; Await (completed p) (Sec (helper_switch p true))] /\ pm_ok v' /\
      exists c', live v' p c' /\ c_state c' = IPA_PM_ACTIVATED /\ c_complete c' = false)
      (fun t => t = Await (completed p) (Sec (helper_switch p true))) (c_set_state c IPA_PM_ACTIVATE_IN_PROGRESS)) with s
      as (sched & ts & s' & v' & n' & E & (-> & Hok' & c' & Hl' & Hst' & Hcomp') & Hs' & _); try done.
    { apply (g_activate_waits _ hdl p (c_set_state c IPA_PM_ACTIVATE_IN_PROGRESS)); [|done]. split; [done..| |done].
      by apply live_put_eq with c. }
    { intros t' v' c' -> ? ? ? Ec. split_and!; try done. exists c'. split_and!; [done..|congruence]. }
    exists sched, (Await (completed p) (Sec (helper_switch p true))), s'. split_and!; [done| |by rewrite (client_state_at v' s' p c'), Hst'|].
    + cbn. rewrite (completed_at p v' s') by done. unfold v_completed. by rewrite Hl', Hcomp'.
    + by apply (unattended_at v' s' p c'); rewrite ?Hst'.
  - intros x Hx Hst Hq. assert (exists q, v_queue v = WorkActivate p :: q) as [q Eq].
    { destruct Hs as [Hs _]. unfold core in Hs. rewrite Hx in Hs. injection Hs as <-. cbn. destruct (pm_queue x) as [|w q]; [done|]. injection Hq as ->. by exists q. }
    destruct (race_leave v hdl p c q (o + votes v) (fun ts v' _ => exists t, ts = [t; Ret 0] /\ doomed p t /\ zget (v_heap v') p = Some None)
      Hok Hre Hh Hst Eq) with s as (sched & ts & s' & v' & n' & E & (t & -> & Ht & Hfree) & Hs' & _); [|done..|].
    { intros t' v' n' ? ?. by exists t'. }
    assert (Hheap : zget (heap (fst s')) p = Some None).
    { destruct Hs' as [Hs' _]. unfold core in Hs'. destruct (pm_ctx (fst s')); [|done]. by injection Hs' as <-. }
    exists sched, t, s'. split_and!; [done|done|by apply Ht].
Qed.

(** ** Registration *)
(** C25. A registration that returns 0 gives a handle that was free, with a client that is not
    active; deregistering it succeeds and leaves clients, pipes, work, exceptions and
    throughputs as they were before; after and with calls one after the other. *)
Theorem pm_register_roundtrip params (k0 : K) o s r hdl s1 : pm_reach params k0 o s ->
  Z.of_nat (String.length (r_name r)) < IPA_PM_MAX_EX_CL -> call (ipa_pm_register (Some r)) s = Ok ((0, Some hdl), s1) ->
  exists v s2, core (fst s) = Some v /\ zget (v_clients v) hdl = Some None /\
    registered s1 hdl (next_ptr v) /\ client_state s1 (next_ptr v) = Some IPA_PM_DEACTIVATED /\
    call (ipa_pm_deregister hdl) s1 = Ok (0, s2) /\ core (fst s2) = Some (v_set_heap v (v_heap v ++ [None])).
Proof.
  intros Hr Hlen E. destruct (reach_inv _ _ _ _ Hr) as (v & Hs & Hok & Hi & Ho & Hk).
  assert (H : truns settle (ipa_pm_register (Some r)) v (o + votes v) (fun res v' n' => forall h, res = (0, Some h) ->
    exists es, let c := new_client r h in v' = v_join v c es /\ 1 <= h < IPA_PM_MAX_CLIENTS /\ zget (v_clients v) h = Some None /\
      add_to_exceptions (r_name r) h (v_exceptions v) = Ok (0, es) /\ pm_ok v' /\ n' = o + votes v')).
  { apply t_register; [done|done|by intros ? ?|by intros ? ?|by intros ? ?|].
    intros h es c v' Hh Hfree _ Hes Hok' Hv h' [= <-]. exists es. split_and!; first [done|lia|by rewrite Hv]. }
  destruct (runs_ok _ _ _ _ s (H settle_ready) Hs Hk) as (res & s1' & v1 & n1 & E1 & Hres & Hs1 & Hk1).
  unfold call in E. rewrite E1 in E. injection E as -> ->.
  destruct (Hres hdl eq_refl) as (es & -> & Hh & Hfree & Hes & Hok1 & ->). set (c := new_client r hdl) in *.
  assert (Hl1 : live (v_join v c es) (next_ptr v) c) by (apply join_live; by left).
  assert (Hback : remove_from_exceptions hdl es = Ok (v_exceptions v)).
  { eapply add_remove; [unfold IPA_PM_MAX_CLIENTS in *; lia| |done]. eapply list.Forall_impl; [apply (ok_ex v Hok)|].
    intros e [He1 He2 _]. split; [done|]. apply not_true_is_false. intros Hb. apply He2 in Hb as (q & d & Hq & Hd & _); [|lia].
    pose proof (co_at _ _ _ (ok_client v Hok q d Hq)). congruence. }
  assert (H1 : truns settle (ipa_pm_deregister hdl) (v_join v c es) (o + votes (v_join v c es)) (fun res v' n' =>
    res = 0 /\ v' = v_set_heap v (v_heap v ++ [None]))).
  { unfold ipa_pm_deregister. apply t_ctx. rewrite Z.geb_leb, (proj2 (Z.leb_gt _ _)) by lia.
    apply t_bind, t_sec, r_client_at with (Some (next_ptr v)).
    { unfold v_join. cbn. change (c_hdl c) with hdl. rewrite zget_zset_eq; [done|]. by eapply zget_Some_lt. }
    apply t_section, r_bind, r_cget with c; [done|]. cbn [c_state c new_client populate client_zero IPA_PM_STATE_IN_PROGRESS].
    apply r_bind, r_cget with c; [done|]. cbn [c_state c new_client populate client_zero IPA_PM_STATE_ACTIVE].
    apply r_ret, t_sec. apply (r_unregister _ _ c); [done..|]. intros es' v' Hes' _ _. split; [done|].
    change (c_hdl c) with hdl in Hes'. cbn [v_exceptions v_join] in Hes'. rewrite Hback in Hes'. injection Hes' as <-.
    by apply join_leave. }
  destruct (runs_ok _ _ _ _ s1 (H1 settle_ready) Hs1 Hk1) as (res2 & s2 & v2 & n2 & E2 & [-> ->] & Hs2 & _).
  exists v, s2. split_and!; [apply Hs|done| |by apply (client_state_at (v_join v c es) s1 _ c)|exact E2|apply Hs2].
  split; [lia|]. destruct Hs1 as [Hs1 _]. unfold core in Hs1. destruct (pm_ctx (fst s1)) as [x|]; [|done]. exists x. split; [done|].
  injection Hs1 as _ -> _ _ _ _ _ _ _ _. change (c_hdl c) with hdl. rewrite zget_zset_eq; [done|]. by eapply zget_Some_lt.
Qed.

(** ** Exceptions *)
(** C26. The threshold of an exception is only ever used when a registered client has the whole
    list of the exception as its name and is active; an exception that lists several names
    is never used, since names are compared with the whole list. *)
Theorem pm_exception_passes params (k0 : K) o s x i : pm_reach params k0 o s -> pm_ctx (fst s) = Some x ->
  passing_exception (active_client_bitmask (clk_scaling x)) (exception_list (clk_scaling x)) 0 = ThException i ->
  exists e p c, zget (exception_list (clk_scaling x)) i = Some e /\ zget (heap (fst s)) p = Some (Some c) /\
    c_name c = ex_clients e /\ IPA_PM_STATE_ACTIVE (c_state c) = true /\ count_commas (ex_clients e) = 0.
Proof.
  intros Hr Hx Hp. destruct (reach_inv _ _ _ _ Hr) as (v & Hs & Hok & Hi & Ho & _).
  destruct Hs as [Hs _]. unfold core in Hs. rewrite Hx in Hs. injection Hs as <-.
  destruct (passing_spec _ _ _ _ Hp) as (e & He & Hpend & Hcov). rewrite Z.sub_0_r in He.
  assert (Hin : e ∈ exception_list (clk_scaling x)).
  { unfold zget in He. destruct (0 <=? i); [|done]. by eapply list_elem_of_lookup_2. }
  pose proof (ok_ex _ Hok) as Hex. cbn [v_exceptions] in Hex. rewrite list.Forall_forall in Hex.
  destruct (Hex e Hin) as [Hlen Hbits Hcount]. pose proof (commas_nonneg (ex_clients e)).
  destruct Hcount as [(p & c & Hl & Hn & Hc)|[_ Hc]]; [|lia]. exists e, p, c.
  pose proof (ok_client _ Hok p c Hl) as C. split_and!; [done|exact Hl|done| |lia].
  rewrite <- (co_bit _ _ _ C). cbn [v_bits]. pose proof (co_hdl _ _ _ C).
  apply (covered_bit (ex_bitmask e)); [rewrite Hlen; symmetry; apply (ok_bits_len _ Hok)|done|lia|].
  apply Hbits; [lia|]. by exists p, c.
Qed.
End props.

(** ** Throughput *)
(** C27. The aggregated throughput of the active clients is what pairing off the two largest
    repeatedly counts, and does not depend on the order of the clients; twice the result is
    at most their sum and falls short of it by at most the largest of them; the additions do not overflow while the sum is below 2^32. *)
Theorem pm_aggregate l l' : nonneg l -> zsum l < 2 ^ 32 -> l ≡ₚ l' ->
  exists a, aggregate l = Ok a /\ aggregate l' = Ok a /\ paired_off l a /\ (forall a', paired_off l a' -> a' = a) /\
    0 <= 2 * a <= zsum l /\ (forall m, 0 <= m -> Forall (fun t => t <= m) l -> zsum l <= 2 * a + m).
Proof.
  intros Hn Hs Hp. destruct (aggregate_spec l Hn Hs) as (a & Ha & Hpair & Hb & Hm).
  assert (Hn' : nonneg l') by (by eapply nonneg_perm). assert (Hs' : zsum l' < 2 ^ 32) by (by rewrite <- Hp).
  destruct (aggregate_spec l' Hn' Hs') as (a' & Ha' & Hpair' & _).
  exists a. split_and!; try done; try lia.
  - rewrite Ha'. f_equal. apply (paired_off_unique l'); [done|]. by rewrite <- Hp.
  - intros a2 H2. by eapply paired_off_unique.
Qed.

(** * The power manager at a concrete configuration

    A small system shows that the hypotheses of the theorems can hold. *)

(** Everything succeeds; the callbacks are counted. *)
#[global] Instance demo_pm_ops : PmOps Z := {|
  pm_kzalloc := fun k => (true, k);
  create_singlethread_workqueue := fun k => (true, k);
  wakeup_source_register := fun _ k => (true, k);
  pm_callback := fun _ _ _ k => k + 1;
  hw_enable_clks := fun _ k => k;
  hw_disable_clks := fun k => k;
  hw_set_rate := fun _ _ k => k;
  ipa3_suspend_apps_pipes := fun _ k => (0, k);
  ipa3_force_close_coal := fun k => k;
  ipa3_tag_aggr_force_close := fun k => (0, k);
  gsi_pending_irq_type := fun k => (0, k) |}.

#[global] Instance demo_pm_conf : PmConf := {|
  regular_clk_mode := true;
  ipa_config_is_mhi := false;
  enable_clock_scaling := true;
  ipa_clk_rate_svs2 := 60;
  ipa_clk_rate_svs := 125;
  ipa_clk_rate_nominal := 220;
  ipa_clk_rate_turbo := 250;
  IPA_CLIENT_MAX := 100;
  pm_ep_mapping := fun c => if (0 <=? c) && (c <? 36) then c else -1;
  ipa3_get_max_num_pipes := 36 |}.

#[global] Instance demo_pm_works : PmWorks Z.
Proof.
  split; cbn; try done. intros c. destruct (_ && _) eqn:E; [|lia]. zify_bool. lia.
Qed.

Definition demo_pm_init : ipa_pm_init_params :=
  mk_init_params [600; 1000] 2 [("USB"%string, [1200; 1400]); ("USB,WLAN"%string, [2000; 3000])] 2.

Definition demo_pm_client (name : string) (g : ipa_pm_group) : ipa_pm_register_params := mk_register name (Some 1) 2 g false.

(** A state, or the first one where the step is not defined. *)
Definition after {A} (r : res (A * (pmst * Z))) : pmst * Z :=
  match r with Ok (_, s) => s | _ => (pmst0, 0) end.

Definition pm_begun : pmst * Z := after (call (ipa_pm_init (Some demo_pm_init)) (pmst0, 0)).
Definition pm_events (es : list pm_event) (s : pmst * Z) : pmst * Z := fold_left (fun s e => after (event e s)) es s.

(** Its votes and its state. *)
Fixpoint votes_after (es : list pm_event) (o : Z) (s : pmst * Z) : Z :=
  match es with
  | [] => o
  | e :: es => match event e s with Ok (r, s') => votes_after es (others_after e r o) s' | _ => o end
  end.
Fixpoint events_ok (es : list pm_event) (o : Z) (s : pmst * Z) : bool :=
  match es with
  | [] => true
  | e :: es => event_ok e o s && match event e s with Ok (r, s') => events_ok es (others_after e r o) s' | _ => false end
  end.

Lemma pm_begun_ok : call (ipa_pm_init (Some demo_pm_init)) (pmst0, 0) = Ok (0, pm_begun).
Proof. reflexivity. Qed.

Lemma events_reach es : forall o s, pm_reach demo_pm_init 0 o s -> events_ok es o s = true ->
  pm_reach demo_pm_init 0 (votes_after es o s) (pm_events es s).
Proof.
  induction es as [|e es IH]; intros o s Hr He; cbn in *; [done|]. apply andb_true_iff in He as [He1 He2].
  destruct (event e s) as [[r s']| |] eqn:E; [|done..]. cbn. by apply IH; [eapply pm_next|].
Qed.

(** Two clients, of the applications processor and of none. *)
Definition usb : list pm_event :=
  [ECall (CRegister (Some (demo_pm_client "USB"%string IPA_PM_GROUP_APPS)));
   ECall (CRegister (Some (demo_pm_client "WLAN"%string IPA_PM_GROUP_DEFAULT)));
   ECall (CAssociate 1 7); ECall (CSetThroughput 2 700)].
Definition pm_two : pmst * Z := pm_events usb pm_begun.

Lemma pm_two_reach : pm_reach demo_pm_init 0 0 pm_two.
Proof.
  refine (events_reach usb 0 pm_begun (pm_started _ _ _ pm_begun_ok) _). vm_compute. reflexivity.
Qed.

(** The first is active, and somebody else holds a vote. *)
Definition pm_active : pmst * Z := pm_events [EInc; ECall (CActivate 1)] pm_two.

Lemma pm_active_reach : pm_reach demo_pm_init 0 1 pm_active.
Proof.
  refine (events_reach [EInc; ECall (CActivate 1)] 0 pm_two pm_two_reach _). vm_compute. reflexivity.
Qed.



Lemma pm_two_registered : registered pm_two 1 0.
Proof. split; [lia|]. eexists. split; [vm_compute; reflexivity|]. vm_compute. reflexivity. Qed.

Lemma pm_active_registered : registered pm_active 1 0.
Proof. split; [lia|]. eexists. split; [vm_compute; reflexivity|]. vm_compute. reflexivity. Qed.

(** ** At once *)
Definition threads (ts : list (act (pmst * Z) Z)) (s : pmst * Z) (sched : list nat) := pool_run sched (ts, s).

(** What holds where a schedule ends; a thread that cannot go on ends it nowhere. *)
Definition ends_with (r : option (list (act (pmst * Z) Z) * (pmst * Z))) (P : list (act (pmst * Z) Z) -> pmst * Z -> Prop) : Prop :=
  match r with Some (ts, s) => P ts s | None => False end.

(** An activation is under way, and given up. *)
Definition pm_going : pmst * Z := pm_events [ECall (CActivate 1); ECall (CDeferredDeactivate 1)] pm_two.

Lemma pm_going_reach : pm_reach demo_pm_init 0 0 pm_going.
Proof.
  refine (events_reach [ECall (CActivate 1); ECall (CDeferredDeactivate 1)] 0 pm_two pm_two_reach _). vm_compute. reflexivity.
Qed.

Lemma pm_going_registered : registered pm_going 1 0.
Proof. split; [lia|]. eexists. split; [vm_compute; reflexivity|]. vm_compute. reflexivity. Qed.

(** A vote is given back while the last one is: the clocks go off without the TAG process
    that was asked for. *)
Definition pm_tagged : pmst * Z := pm_events [EInc; ETagFirst] pm_two.
Definition give_and_use : option (list (act (pmst * Z) Z) * (pmst * Z)) :=
  threads [(_ ← ipa3_dec_client_disable_clks; Ret 0); (_ ← ipa3_inc_client_enable_clks; _ ← ipa3_dec_client_disable_clks; Ret 0)]
    pm_tagged ([0; 0; 0; 1; 0; 0; 1; 1; 0; 0; 0; 0])%nat.

(** The flag is looked at under the mutex, but the counter changes without it: two threads
    that give back the last votes turn the clocks off with the flag still set and no TAG
    process queued. *)
Theorem pm_tag_race : pm_reach demo_pm_init 0 1 pm_tagged /\
  ends_with give_and_use (fun ts s => map result_of ts = [Some 0; Some 0] /\ ac_cnt (clk (fst s)) = 0 /\
    ipa_clk_vote (clk (fst s)) = false /\ tag_process_before_gating (clk (fst s)) = true /\ tag_work (clk (fst s)) = false).
Proof.
  split; [|vm_compute; by repeat split]. refine (events_reach [EInc; ETagFirst] 0 pm_two pm_two_reach _). vm_compute. reflexivity.
Qed.


Lemma pm_clock_votes_witness : pm_reach demo_pm_init 0 1 pm_active /\
  exists v, core (fst pm_active) = Some v /\ pm_ok v /\ ac_cnt (clk (fst pm_active)) = 1 + votes v + 0 + 0.
Proof.
  split; [apply pm_active_reach|]. destruct (pm_clock_votes demo_pm_init 0 1 pm_active pm_active_reach) as (v & Hv & Hok & Hc & _).
  exists v. split; [exact Hv|]. split; [exact Hok|]. exact Hc.
Defined.

Lemma pm_activation_comes_witness : registered pm_two 1 0 /\
  exists r s1 s2 st, call (ipa_pm_activate 1) pm_two = Ok (r, s1) /\ drain s1 = Ok (tt, s2) /\
    client_state s2 0 = Some st /\ IPA_PM_STATE_ACTIVE st = true.
Proof.
  split; [apply pm_two_registered|].
  destruct (pm_activation_comes demo_pm_init 0 0 pm_two 1 0 pm_two_reach pm_two_registered)
    as (r & s1 & s2 & st & H1 & H2 & _ & _ & H3 & H4).
  exists r, s1, s2, st. exact (conj H1 (conj H2 (conj H3 H4))).
Defined.

Lemma pm_deactivation_comes_witness : registered pm_active 1 0 /\
  exists s1 s2 s3 s4, call (ipa_pm_deferred_deactivate 1) pm_active = Ok (0, s1) /\ drain s1 = Ok (tt, s2) /\
    round 0 s2 = Ok (tt, s3) /\ round 0 s3 = Ok (tt, s4) /\ client_state s4 0 = Some IPA_PM_DEACTIVATED.
Proof.
  split; [apply pm_active_registered|].
  exact (pm_deactivation_comes demo_pm_init 0 1 pm_active 1 0 pm_active_reach pm_active_registered).
Defined.

Definition demo_third : ipa_pm_register_params := demo_pm_client "MODEM"%string IPA_PM_GROUP_DEFAULT.
Definition pm_three : pmst * Z := after (call (ipa_pm_register (Some demo_third)) pm_two).
Lemma pm_three_run : call (ipa_pm_register (Some demo_third)) pm_two = Ok ((0, Some 3), pm_three).
Proof. vm_compute. reflexivity. Qed.

Lemma pm_register_roundtrip_witness : call (ipa_pm_register (Some demo_third)) pm_two = Ok ((0, Some 3), pm_three) /\
  exists v s2, core (fst pm_two) = Some v /\ call (ipa_pm_deregister 3) pm_three = Ok (0, s2) /\
    core (fst s2) = Some (v_set_heap v (v_heap v ++ [None])).
Proof.
  split; [apply pm_three_run|].
  destruct (pm_register_roundtrip demo_pm_init 0 0 pm_two demo_third 3 pm_three pm_two_reach eq_refl pm_three_run)
    as (v & s2 & H1 & _ & _ & _ & H2 & H3).
  exists v, s2. exact (conj H1 (conj H2 H3)).
Defined.

Lemma pm_exception_passes_witness : exists x, pm_ctx (fst pm_active) = Some x /\
  passing_exception (active_client_bitmask (clk_scaling x)) (exception_list (clk_scaling x)) 0 = ThException 0 /\
  exists e p c, zget (exception_list (clk_scaling x)) 0 = Some e /\ zget (heap (fst pm_active)) p = Some (Some c) /\
    c_name c = ex_clients e /\ IPA_PM_STATE_ACTIVE (c_state c) = true.
Proof.
  destruct (pm_ctx (fst pm_active)) as [x|] eqn:Hx; [|vm_compute in Hx; discriminate Hx]. exists x. split; [reflexivity|].
  assert (Hp : passing_exception (active_client_bitmask (clk_scaling x)) (exception_list (clk_scaling x)) 0 = ThException 0).
  { vm_compute in Hx. injection Hx as <-. vm_compute. reflexivity. }
  split; [exact Hp|].
  destruct (pm_exception_passes demo_pm_init 0 1 pm_active x 0 pm_active_reach Hx Hp) as (e & p & c & H1 & H2 & H3 & H4 & _).
  exists e, p, c. exact (conj H1 (conj H2 (conj H3 H4))).
Defined.

Lemma pm_aggregate_witness : aggregate [500; 300; 900] = Ok 800 /\ exists a, aggregate [500; 300; 900] = Ok a /\
  aggregate [900; 500; 300] = Ok a /\ paired_off [500; 300; 900] a.
Proof.
  split; [vm_compute; reflexivity|].
  destruct (pm_aggregate [500; 300; 900] [900; 500; 300]) as (a & H1 & H2 & H3 & _).
  - repeat (constructor; [lia|]). constructor.
  - vm_compute. reflexivity.
  - change [900; 500; 300] with ([900] ++ [500; 300]). apply (Permutation_app_comm [500; 300] [900]).
  - exists a. exact (conj H1 (conj H2 H3)).
Defined.

(** Two users and a worker; the second user asks for the TAG process and gives its vote back
    last, so that the worker does. *)
Definition demo_uses : list (list vote_use) := [[UseVote true true]; [UseVote false true; UseVote true true; UseTag; UseVote true false]].
Definition demo_order : list nat := ([0; 1; 0; 1; 0; 0; 0; 0; 0; 1; 0; 1; 0] ++ replicate 22 1 ++ replicate 22 2)%nat.

(** The users have ended, the worker waits for more, and the clocks are off. *)
Definition demo_ended (r : option (list (act (pmst * Z) unit) * (pmst * Z))) : bool :=
  match r with
  | Some (ts, s) => bool_decide (map (fun t => stuck t s) ts = [false; false; true]) && (ac_cnt (clk (fst s)) =? 0)
  | None => false
  end.

Lemma demo_order_ends : demo_ended (pool_run demo_order (vote_threads demo_uses [3%nat], pm_two)) = true.
Proof. vm_compute. reflexivity. Qed.

Lemma pm_votes_interleave_witness : exists ts s', pool_run demo_order (vote_threads demo_uses [3%nat], pm_two) = Some (ts, s') /\
  demo_ended (Some (ts, s')) = true /\ Z.of_nat (length demo_order) <= vote_bound demo_uses [3%nat] /\
  exists v ys, core (fst s') = Some v /\ pool ts ys.
Proof.
  pose proof demo_order_ends as He.
  destruct (pool_run demo_order (vote_threads demo_uses [3%nat], pm_two)) as [[ts s']|] eqn:E; [|discriminate He].
  exists ts, s'. split; [reflexivity|]. split; [exact He|].
  destruct (pm_votes_interleave demo_pm_init 0 0 pm_two demo_uses [3%nat] demo_order ts s' pm_two_reach E)
    as (_ & Hb & v & ys & _ & Hv & Hp & _).
  split; [exact Hb|]. exists v, ys. exact (conj Hv Hp).
Defined.

Lemma pm_state_race_witness :
  (exists sched s', pool_run sched ([ipa_pm_deactivate_sync 1; ipa_pm_deactivate_sync 1], pm_active) = Some ([Ret 0; Ret 0], s') /\
     client_state s' 0 = Some IPA_PM_DEACTIVATED /\
     ac_cnt (clk (fst s')) = 0 + b2z (tag_work (clk (fst s'))) + b2z (dec_work (clk (fst s')))) /\
  (exists sched s', pool_run sched ([ipa_pm_activate_sync 1; ipa_pm_deferred_deactivate 1], pm_two) = Some ([Ret 0; Ret 0], s') /\
     client_state s' 0 = Some IPA_PM_ACTIVATED /\ unattended s' 0).
Proof.
  split.
  - destruct (core (fst pm_active)) as [v|] eqn:Hv; [|vm_compute in Hv; discriminate Hv].
    assert (E : votes v = 1) by (vm_compute in Hv; injection Hv as <-; reflexivity).
    edestruct (pm_state_race demo_pm_init 0 1 pm_active 1 0) as [H _];
      [exact pm_active_reach|exact pm_active_registered|vm_compute; reflexivity|reflexivity|].
    destruct (H v Hv) as (sched & s' & v' & H1 & H2 & _ & H3 & H4 & _); [reflexivity|lia|].
    exists sched, s'. split; [exact H1|]. split; [exact H2|]. rewrite H4, H3, E. reflexivity.
  - edestruct (pm_state_race demo_pm_init 0 0 pm_two 1 0) as [_ H];
      [exact pm_two_reach|exact pm_two_registered|vm_compute; reflexivity|reflexivity|]. apply H. reflexivity.
Defined.

Lemma pm_completion_race_witness :
  (exists sched t s', pool_run sched ([ipa_pm_activate_sync 1; ipa_pm_activate_sync 1], pm_two) = Some ([Ret 0; t], s') /\
     stuck t s' = true /\ client_state s' 0 = Some IPA_PM_ACTIVATED /\ unattended s' 0) /\
  (exists sched t s', pool_run sched ([(_ ← work_once; Ret 0); ipa_pm_deregister 1], pm_going) = Some ([t; Ret 0], s') /\
     zget (heap (fst s')) 0 = Some None /\ advance t s' = Some UB).
Proof.
  split.
  - edestruct (pm_completion_race demo_pm_init 0 0 pm_two 1 0) as [H _];
      [exact pm_two_reach|exact pm_two_registered|vm_compute; reflexivity|]. apply H; reflexivity.
  - edestruct (pm_completion_race demo_pm_init 0 0 pm_going 1 0) as [_ H];
      [exact pm_going_reach|exact pm_going_registered|vm_compute; reflexivity|].
    destruct (pm_ctx (fst pm_going)) as [x|] eqn:Hx; [|vm_compute in Hx; discriminate Hx].
    apply (H x eq_refl); [reflexivity|]. vm_compute in Hx. injection Hx as <-. reflexivity.
Defined.
